(* ===== verification/_CoqProject ===== *)
-Q . S2P
Prelude.v
Platform.v
Buffer.v
Cstring.v
Slist.v
SlistSpec.v
Dname.v
DnameSpec.v
DnameText.v
DnameTheorems.v
Message.v
MessageSpec.v
MessageParse.v
MessageSafe.v
MessageFault.v
MessageTheorems.v
Responder.v
ResponderSpec.v
ResponseSpec.v
ResponderNames.v
ResponderConflict.v
ResponderRun.v
ResponderTheorems.v
ResponderLaunch.v
Querier.v
QuerierSpec.v
QuerierWf.v
QuerierInv.v
QuerierRun.v
QuerierPacket.v
QuerierLoop.v
QuerierThread.v
QuerierQuery.v
DnameKeep.v
QuerierKeep.v
QuerierTotal.v
QuerierHeld.v
QuerierLive.v
QuerierTheorems.v
Network.v
System.v
Tests.v
Debug.v
LinuxMain.v
LinuxPort.v
LinuxTheorems.v
LinuxLaunch.v
Sys.v
SysSpec.v
LinkLocal.v
LinkLocalSpec.v
LinkLocalRun.v
LinkLocalTheorems.v
Log.v
SdkMdns.v
SdkMdnsSpec.v
SdkResponder.v
SdkTheorems.v
Console.v
ConsoleTheorems.v
Httpd.v
SdkQueue.v
TxQueue.v
TxQueueSpec.v
TxQueueRun.v
TxQueueTheorems.v
Eping.v
EpingTheorems.v
UserIf.v
UserIfTheorems.v
PeerSta.v
PeerStaTheorems.v
CustomApp.v
CustomAppTheorems.v
