(* ===== verification/Prelude.v ===== *)
(** * libmdns: a verification development

    libmdns is a small multicast DNS library: a _responder_ thread that claims a
    host name and service names on the local network and answers questions about
    them, and a _querier_ thread that watches service types for the application.
    Both build and parse DNS messages with shared code.  The repository also has a
    Linux program on top of the library, and a port to an embedded wireless chip:
    an earlier responder, link-local addressing, a log, a console and a web server,
    on top of the chip vendor's packet queues and link management.

    ** The program and the files

    - src/mdns/dname.c, names in label form: Dname.v has one definition per
      function, on a byte buffer and an offset.  DnameSpec.v relates them to
      [name_at] (the bytes at an offset decode to these labels), DnameText.v
      treats the conversions to and from text, DnameKeep.v what the copying
      functions leave behind whatever they read, DnameTheorems.v the claims.
    - src/mdns/mdns.c, mdns_message.h, mdns_private.h, messages: Message.v has
      the structure [mdns_message], the parser, the functions that append to a
      message and the arithmetic on timeouts.  MessageSpec.v describes a message
      under construction ([repr], [emits]), MessageParse.v parsing what was
      encoded, MessageSafe.v what holds of every accepted packet
      ([well_parsed]), MessageFault.v which packets are parsed without leaving
      the buffer, MessageTheorems.v the claims.
    - src/mdns/mdns_respond.c, the responder: Responder.v has the record
      construction, the conflict detection, the state machine ([responder_event]),
      one iteration of the thread ([responder_step]), the loop ([do_responder])
      and the launch.  ResponderSpec.v and ResponseSpec.v state which records a
      host owes ([spec_response]), ResponderNames.v and ResponderConflict.v the
      names and their renaming, ResponderRun.v the runs of the state machine,
      ResponderTheorems.v the claims, ResponderLaunch.v the launch: it sets up
      the host that the other theorems start from.
    - src/mdns/queue.h, the intrusive lists: Slist.v and SlistSpec.v (a list is a
      chain of links through the cells of an array).
    - src/mdns/mdns_query.c, the querier: Querier.v has the static arrays and
      lists as [qstate], every function in the state monad [Q], one iteration
      ([querier_step]), the thread and the interface.  QuerierSpec.v runs the
      list operations, QuerierWf.v and QuerierInv.v state the invariant ([wf],
      [Inv]) and the callback protocol, QuerierRun.v, QuerierPacket.v,
      QuerierLoop.v and QuerierThread.v show that every operation keeps it and
      define [reachable]; QuerierQuery.v describes the known answers;
      QuerierKeep.v, QuerierTotal.v, QuerierHeld.v and QuerierLive.v show that the
      contents of the cells stay in order and that an iteration without a packet
      returns; QuerierTheorems.v has the claims.
    - Network.v composes the components: a query goes to the responder, and its
      reply is parsed by the one who asked; an announcement reaches a querier.
    - System.v: [mdns_launch], [mdns_halt] and the functions they call, with the
      calls of the platform they make (Platform.v: sockets and threads of
      src/include/mdns_port.h as events).
    - Tests.v evaluates the test suites that dname.c and mdns_respond.c contain.
    - src/mdns/debug.c, the text of a message: Debug.v.
    - src/examples/linux/main.c, the Linux program: LinuxMain.v has the parser of
      the -s option and [main], LinuxPort.v the functions of the porting layer
      with their system calls and the callback; LinuxTheorems.v has the claims,
      LinuxLaunch.v composes the command line with the launch of the responder.
    - src/8388V-SDK/Applications/customApp, the embedded port: Sys.v has the
      system layer (sys_threadx_treck.c) and the packet handlers of mli.c,
      SysSpec.v their properties.  LinkLocal.v is linklocal.c, the thread that
      claims an address as in RFC 3927, one iteration per wait ([ll_iteration]);
      LinkLocalSpec.v describes its frames, LinkLocalRun.v the runs of the thread
      together with the packets that arrive ([ll_reach]) and their invariant
      ([ll_inv]), LinkLocalTheorems.v has the claims.  Log.v is log.c with its
      claims.  SdkMdns.v is the earlier mdns.c, SdkMdnsSpec.v relates it to the
      encodings of MessageParse.v; SdkResponder.v is mdns_responder.c, and
      SdkTheorems.v has the claims on both.  Console.v is cmd_parser.c, the serial
      console: the ring buffer, the line editor and the commands;
      ConsoleTheorems.v has its claims.  Httpd.v is httpd.c with its claims.
    - The vendor's part of the embedded port: SdkQueue.v has the software queue of
      include/queue.h, whose functions are in the firmware library, as an interface
      ([queue_ops], [queue_laws]).  TxQueue.v is the rest of mli.c, the transmit path
      and the tables of installed functions, on that interface; TxQueueSpec.v relates
      it to two lists of packets ([implements]), TxQueueRun.v interleaves the callers,
      the dispatcher and the driver step by step ([machine]), and TxQueueTheorems.v
      has the claims on whole functions.  Eping.v is eping.c, the echo requests, with
      EpingTheorems.v.  UserIf.v is userif.c and hostsme_sm.c: scan results, the
      commands to the firmware as bytes, and the state machine of the link, one wait
      at a time ([UserIF_Main]); UserIfTheorems.v has the claims.  PeerSta.v and
      PeerStaTheorems.v are peersta_api.c, CustomApp.v and CustomAppTheorems.v
      customApp.c and the start of everything.
    - Prelude.v (this file), Buffer.v and Cstring.v: outcomes, machine words,
      tactics, byte buffers with checked access, and C strings.

    ** How C is read

    A buffer is a [list Z] and a pointer into it an offset; an access outside the
    buffer, and a NULL dereference, is [Fault].  Integers are [Z] with the
    wrap-around of their width written out ([u8], [u16], [u32]).  The build is the
    default of the Makefile: little endian, with the query API and without
    assertions; [size_t] has 32 bits.  The static variables of a file are a
    record that is passed along.  Sockets, clock, random numbers and the thread
    API of the platform are inputs of an iteration ([iteration], [qiteration],
    [ctrl_io], [ports]); what is sent, the user's callbacks and the calls that
    create and close sockets and threads are outputs.  The embedded port is little
    endian with an unsigned [char]; on Linux [char] is signed and [long] has
    [bits] bits.  Log and terminal output is left out, except where it is what
    the code is for (debug.c, log.c, the callback).

    ** Fuel

    Loops over compression pointers and over links take fuel and are [Diverge]
    when it runs out, because the code does not bound them.  [returns f a] says
    that from some fuel on [f] returns [a], so it includes termination; a hang is
    stated as [Diverge] for every fuel.  Invariants of the querier hold for every
    fuel of at least 16, the size of its arrays, and its liveness theorem for at
    least 128, one more than the labels of a name.  Loops that the code bounds
    have their bound as fuel; the name loops of the embedded library move forward
    in the buffer and have its length as fuel, the dump of the log ends within 512
    steps.  A round of the dispatcher has one step more than the packets in its
    queue, the elements of a beacon their number of bytes, the words of a checksum
    their number of bytes (at most 65534, beyond that the 16-bit counter wraps), and
    the carries of the sum, which has 32 bits, four.

    ** What the theorems show

    - Messages: encoding and parsing round-trip; in accepted packets the names that
      the parser checks decode inside the packet, all but the second byte of a
      pointer at its end ([name_within]; SRV targets and the contents of TXT records
      are not checked by the code); parsing stays inside a buffer with room behind the packet, and can leave a
      full one, or hang on a pointer that points to itself.
    - Names: size, comparison, copy, bounds check, renaming and conversions
      against the labels they denote.
    - Responder: the launch sets up exactly the host that was asked for and accepts
      it exactly when it fits; probes, announcements, responses and goodbyes are exactly the
      records of the specification (in which an A or PTR record that several
      questions ask for is repeated, as the code does); three probes and an
      announcement precede the answering of queries, while the goodbye of a HALT
      is sent in any state; conflicts rename exactly what is claimed.
    - Querier: in every reachable state the callbacks follow the protocol and the
      cache is consistent; the thread keeps running while no packet arrives;
      removing all monitors frees everything; known answers are exact.  The
      theorems on reachable states exclude packets that carry more SRV records
      than there are free A records ([roomy]); the concrete run of
      [moving_service_crashes] shows why: without a free A record the code
      leaves an instance on a list it does not belong to.
    - Network: a query to which records are owed that fit in a packet is answered
      with these records, and the answer is understood.
    - System: launching with a host name and halting gives back every socket and thread but one
      socket, and halting a responder that was never launched closes what the
      library does not own.
    - Debug: printing a parsed message returns and shows its contents.
    - Linux: the -s option is parsed exactly as documented but for the range of the
      port; whatever the command line, well-typed services reach the library and
      the memory is balanced; the services typed by the user are the ones claimed.
    - Link-local: while frames can be sent, the stack only runs with a link-local address that was probed and
      announced without conflict; conflicts are detected and the address given up;
      without conflicts an address is claimed within a bounded time; launching and
      shutting down restores the packet handlers.
    - Log: the circular buffer keeps exactly the last 511 bytes.
    - Embedded responder: its name code is equivalent to the current one, its
      announcement is understood by the current parser, and its loop, while select
      does not fail and the names in packets are not compressed, refines a machine
      of six states.
    - Console: under every interleaving of the tick and the console thread the
      lines are those that were typed.  Web server: with one client at a time
      every connection is answered and closed.
    - Transmit path: in every interleaving in which [getq] and [putq] run as one step
      (queue.h does not promise it), with handlers that may replace packets, the queue
      elements are never lost, shared or NULL and no wake-up of the dispatcher is
      lost; as whole functions they refine two packet lists with at most fifteen
      packets under way, in order.  Packets are reported as sent while fewer are under
      way than places are taken.
    - Echo requests: the checksum is that of RFC 1071 and the frames carry checksums
      that verify.
    - Link management: scan results (up to nineteen networks, SSIDs of up to 31 bytes,
      beacons of up to 255; twenty networks overflow the table) are parsed to the networks they describe; a wanted
      network that is found is authenticated with and associated to; after the loss of
      the link the task associates again, however often it is refused; the state machine
      is connected only with the link present, as long as the loss of the link is
      reported on its own.
    - Start of the embedded port: which functions are installed, and the answer to the
      version command.
    - Places where the code does not do what it means to are theorems of their
      own (hangs, overreads, corrupted names, NULL names, leaked records, skipped
      probes, starvation, a packet returned twice, a table of networks that
      overflows, a lost link that is overlooked).

    ** Not modelled

    The headers of the chip vendor and of the Treck stack, which declare functions of
    prebuilt libraries, beyond the constants and layouts the modelled files use;
    functions of the system layer that only forward to ThreadX or Treck are inputs of
    their clients.  The tables for responses and events in mli.c and customApp.c,
    which the build leaves out (SDK_FEATURE_XX).  The signal handler and the logging
    of the Linux program.  The Python tests need a network.  Of src/mdns/queue.h the
    macros that the library does not use are left out.

    ** Plan

    Next: discovery in general (an announcement that fits makes every querier that
    monitors its type report it), packets the querier handles without fault, the
    schedule of refreshes, the error branches of the launch, the order on
    authority sets, the ad-hoc mode of the link state machine, and the transmit
    path of peer stations composed with the interleaved queues. *)
From stdpp Require Export base tactics list numbers option.
From Stdlib Require Export ZArith Lia.

#[global] Open Scope Z_scope.

(** ** Outcomes of C code

    [Ok a]: the code returned [a].  [Fault]: it dereferenced memory outside the
    object it was given (or NULL), which C leaves undefined.  [Diverge]: the
    fuel of a loop ran out; a statement that a loop hangs quantifies over every
    fuel. *)
Inductive res (A : Type) : Type :=
| Ok (a : A)
| Fault
| Diverge.

Arguments Ok {A} a.
Arguments Fault {A}.
Arguments Diverge {A}.

#[global] Instance res_ret : MRet res := @Ok.

#[global] Instance res_bind : MBind res := fun A B f m =>
  match m with
  | Ok a => f a
  | Fault => Fault
  | Diverge => Diverge
  end.

#[global] Instance res_eq_dec {A} `{EqDecision A} : EqDecision (res A).
Proof. solve_decision. Defined.

(** [res_le a b]: more fuel turns [a] into [b]; a result never changes. *)
Definition res_le {A} (a b : res A) : Prop := a = Diverge \/ a = b.

Lemma res_le_refl {A} (a : res A) : res_le a a.
Proof. by right. Qed.

Lemma res_le_ok {A} (a b : res A) x : res_le a b -> a = Ok x -> b = Ok x.
Proof. intros [->| ->]; congruence. Qed.

Lemma res_le_bind {A B} (m m' : res A) (f f' : A -> res B) :
  res_le m m' -> (forall a, res_le (f a) (f' a)) -> res_le (mbind f m) (mbind f' m').
Proof.
  intros [->| ->] Hf; [by left|]. destruct m'; [apply Hf|by right|by right].
Qed.

Lemma bind_ok {A B} (m : res A) (f : A -> res B) y :
  mbind f m = Ok y -> exists a, m = Ok a /\ f a = Ok y.
Proof. destruct m; [eauto|done|done]. Qed.

(** ** Running with enough fuel

    [returns f a]: from some amount of fuel on, the code [f] returns [a]. *)
Definition returns {A} (f : nat -> res A) (a : A) : Prop :=
  exists f0, forall fuel, (f0 <= fuel)%nat -> f fuel = Ok a.

Lemma returns_const {A} (m : res A) a : m = Ok a -> returns (fun _ => m) a.
Proof. exists 0%nat. auto. Qed.

Lemma returns_all {A} (f : nat -> res A) a : (forall fuel, f fuel = Ok a) -> returns f a.
Proof. exists 0%nat. auto. Qed.

Lemma returns_bind {A B} (m : nat -> res A) (k : nat -> A -> res B) a b :
  returns m a -> returns (fun fuel => k fuel a) b ->
  returns (fun fuel => mbind (k fuel) (m fuel)) b.
Proof.
  intros [f1 H1] [f2 H2]. exists (f1 `max` f2)%nat. intros fuel Hf.
  rewrite H1 by lia. apply H2. lia.
Qed.

Lemma returns_ext {A} (f g : nat -> res A) a :
  (forall fuel, f fuel = g fuel) -> returns f a -> returns g a.
Proof. intros E [f0 H]. exists f0. intros. rewrite <- E. auto. Qed.

(** A loop body that recurses with one unit of fuel less. *)
Lemma returns_S {A} (f g : nat -> res A) a :
  (forall fuel, f (S fuel) = g fuel) -> returns g a -> returns f a.
Proof.
  intros E [f0 H]. exists (S f0). intros [|fuel] Hf; [lia|]. rewrite E. apply H. lia.
Qed.

Lemma returns_succ {A} (f : nat -> res A) a : returns f a -> returns (fun fuel => f (S fuel)) a.
Proof. intros [f0 H]. exists f0. intros. apply H. lia. Qed.

Lemma returns_inj {A} (f : nat -> res A) a b : returns f a -> returns f b -> a = b.
Proof.
  intros [f1 H1] [f2 H2]. pose proof (H1 (f1 `max` f2)%nat ltac:(lia)) as E.
  rewrite H2 in E by lia. congruence.
Qed.

(** Monotone code that returns once returns from then on. *)
Lemma returns_mono {A} (f : nat -> res A) k a :
  (forall n, res_le (f n) (f (S n))) -> f k = Ok a -> returns f a.
Proof.
  intros Hm Hk. exists k. intros fuel Hf.
  induction Hf as [|fuel Hf IH]; [done|]. eapply res_le_ok; eauto.
Qed.

(** ** Tactics *)

(** Turn a boolean test of the model into the proposition it decides. *)
Ltac b2p :=
  repeat match goal with
  | H : (_ <? _) = true |- _ => apply Z.ltb_lt in H
  | H : (_ <? _) = false |- _ => apply Z.ltb_ge in H
  | H : (_ <=? _) = true |- _ => apply Z.leb_le in H
  | H : (_ <=? _) = false |- _ => apply Z.leb_gt in H
  | H : (_ =? _) = true |- _ => apply Z.eqb_eq in H
  | H : (_ =? _) = false |- _ => apply Z.eqb_neq in H
  | H : (_ && _) = true |- _ => apply andb_prop in H; destruct H
  | H : (_ || _) = false |- _ => apply orb_false_elim in H; destruct H
  | H : negb _ = true |- _ => apply negb_true_iff in H
  | H : negb _ = false |- _ => apply negb_false_iff in H
  end.

(** Decide the [Z] comparison at the head of a conditional by arithmetic. *)
Ltac dec_true :=
  match goal with
  | |- context [?a <? ?b] =>
      replace (a <? b) with true by (symmetry; apply Z.ltb_lt; lia)
  | |- context [?a <=? ?b] =>
      replace (a <=? b) with true by (symmetry; apply Z.leb_le; lia)
  | |- context [?a =? ?b] =>
      replace (a =? b) with true by (symmetry; apply Z.eqb_eq; lia)
  end.

Ltac dec_false :=
  match goal with
  | |- context [?a <? ?b] =>
      replace (a <? b) with false by (symmetry; apply Z.ltb_ge; lia)
  | |- context [?a <=? ?b] =>
      replace (a <=? b) with false by (symmetry; apply Z.leb_gt; lia)
  | |- context [?a =? ?b] =>
      replace (a =? b) with false by (symmetry; apply Z.eqb_neq; lia)
  end.

(** Resolve every comparison of the goal that arithmetic decides. *)
Ltac dec := repeat (first [dec_true | dec_false]).

(** Peel one bind off an equation [_ = Ok _]. *)
Ltac inv_bind :=
  match goal with
  | H : mbind _ _ = Ok _ |- _ =>
      let x := fresh "x" in let Hx := fresh "Hx" in
      apply bind_ok in H as (x & Hx & H)
  | H : Ok _ = Ok _ |- _ => injection H as H
  | H : mret _ = Ok _ |- _ => unfold mret, res_ret in H; injection H as H
  end.

(** Evaluate a decidable proposition about concrete data. *)
Ltac by_eval := apply (bool_decide_unpack _); vm_compute; exact I.

(** ** Lengths as integers *)

Definition Zlen {A} (l : list A) : Z := Z.of_nat (length l).

Lemma Zlen_nonneg {A} (l : list A) : 0 <= Zlen l.
Proof. unfold Zlen; lia. Qed.

Lemma Zlen_app {A} (l k : list A) : Zlen (l ++ k) = Zlen l + Zlen k.
Proof. unfold Zlen. rewrite length_app. lia. Qed.

Lemma Zlen_cons {A} (x : A) l : Zlen (x :: l) = 1 + Zlen l.
Proof. unfold Zlen. simpl length. lia. Qed.

Lemma Zlen_nil {A} : Zlen (@nil A) = 0.
Proof. done. Qed.

Lemma Zlen_replicate {A} n (x : A) : Zlen (replicate n x) = Z.of_nat n.
Proof. unfold Zlen. by rewrite length_replicate. Qed.

(** Normalise lengths of concrete shapes, in the goal and everywhere. *)
Ltac zlen :=
  repeat first
    [ progress rewrite ?Zlen_app, ?Zlen_cons, ?Zlen_replicate in *
    | progress change (@Zlen Z []) with 0 in * ].

(** ** Bytes and machine words *)

Definition is_byte (v : Z) : Prop := 0 <= v < 256.
Definition bytes (l : list Z) : Prop := Forall is_byte l.

#[global] Instance is_byte_dec v : Decision (is_byte v).
Proof. unfold is_byte. apply _. Defined.

#[global] Instance bytes_dec l : Decision (bytes l).
Proof. unfold bytes. apply _. Defined.

Definition UINT32_MAX : Z := 4294967295.
Definition UINT16_MAX : Z := 65535.
(** wrap-around of the unsigned types the code uses *)
Definition u8 (v : Z) : Z := v mod 256.
Definition u16 (v : Z) : Z := v mod 65536.
Definition u32 (v : Z) : Z := v mod 4294967296.

Lemma u8_byte v : is_byte (u8 v).
Proof. unfold is_byte, u8. apply Z.mod_pos_bound. lia. Qed.

Lemma u8_id v : is_byte v -> u8 v = v.
Proof. intros. unfold u8. apply Z.mod_small. exact H. Qed.

Lemma u16_id v : 0 <= v < 65536 -> u16 v = v.
Proof. apply Z.mod_small. Qed.

Lemma u32_id v : 0 <= v < 4294967296 -> u32 v = v.
Proof. apply Z.mod_small. Qed.

Lemma u16_range v : 0 <= u16 v < 65536.
Proof. apply Z.mod_pos_bound. lia. Qed.

Lemma u32_range v : 0 <= u32 v < 4294967296.
Proof. apply Z.mod_pos_bound. lia. Qed.

(** An [or] of a shifted high part and a small low part is a sum. *)
Lemma lor_shiftl a b n : 0 <= n -> 0 <= b < 2 ^ n -> Z.lor (Z.shiftl a n) b = a * 2 ^ n + b.
Proof.
  intros Hn Hb. rewrite <- Z.shiftl_mul_pow2 by lia.
  rewrite <- Z.lxor_lor, <- Z.add_nocarry_lxor; [done| |].
  all: apply Z.bits_inj'; intros i Hi; rewrite Z.land_spec, Z.bits_0.
  all: destruct (Z.lt_ge_cases i n) as [Hlt|Hge].
  1,3: rewrite Z.shiftl_spec_low by lia; done.
  all: rewrite andb_comm.
  all: replace (Z.testbit b i) with false; [done|].
  all: destruct (decide (b = 0)) as [->|]; [by rewrite Z.bits_0|].
  all: symmetry; apply Z.bits_above_log2; [lia|].
  all: apply Z.lt_le_trans with n; [|lia]; apply Z.log2_lt_pow2; lia.
Qed.

Lemma land_255 v : Z.land v 255 = v mod 256.
Proof. change 255 with (Z.ones 8). by rewrite Z.land_ones by lia. Qed.
