(* ===== verification/Platform.v ===== *)
(** * The platform (src/include/mdns_port.h)

    The library reaches sockets and threads through the porting layer, which
    every platform supplies.  Here a call of it is an event with its result, so
    that the functions that launch and halt the threads are modelled with the
    calls they make, in order.  [statics] are the four static variables by which
    mdns_respond.c and mdns_query.c each remember what they were given. *)
From S2P Require Import Prelude.

(** The calls, with what they returned.  A thread is a pointer, 0 for NULL. *)
Inductive pcall :=
  | mdns_socket_mcast (s : Z)
  | mdns_socket_loopback (port listen s : Z)
  | socket_ (s : Z)
  | sendto_ (s port msg ret : Z)
  | mdns_socket_close (s : Z)
  | mdns_thread_create (id thread : Z)
  | mdns_thread_yield (thread : Z)
  | mdns_thread_delete (thread : Z).

#[global] Instance pcall_eq_dec : EqDecision pcall.
Proof. solve_decision. Defined.

(** [static void *responder_thread; static int mc_sock; static int ctrl_sock;
    static int responder_enabled;] and their counterparts in mdns_query.c. *)
Record statics := mkStatics { st_thread : Z; st_mc : Z; st_ctrl : Z; st_enabled : Z }.
Definition zero_statics : statics := mkStatics 0 0 0 0.

Definition with_thread (c : statics) (t : Z) : statics := mkStatics t (st_mc c) (st_ctrl c) (st_enabled c).
Definition with_mc (c : statics) (s : Z) : statics := mkStatics (st_thread c) s (st_ctrl c) (st_enabled c).
Definition with_ctrl (c : statics) (s : Z) : statics := mkStatics (st_thread c) (st_mc c) s (st_enabled c).
Definition with_st_enabled (c : statics) (e : Z) : statics := mkStatics (st_thread c) (st_mc c) (st_ctrl c) e.

(** What the platform answers during a launch: the multicast and the control
    socket, the socket of a bare [socket] call, and the thread. *)
Record ports := mkPorts { mc_sock : Z; ctrl_sock : Z; raw_sock : Z; thread_ptr : Z }.

(** Constants of mdns.h and mdns_port.h. *)
Definition MDNS_CTRL_RESPONDER : Z := 12345.
Definition MDNS_CTRL_QUERIER : Z := MDNS_CTRL_RESPONDER + 1.
Definition MDNS_THREAD_RESPONDER : Z := 1.
Definition MDNS_THREAD_QUERIER : Z := 2.
