(* ===== verification/Buffer.v ===== *)
(** * Byte buffers

    A C array of bytes is a [list Z]; a pointer into it is an offset.  Every
    access is bounds-checked and an access outside the array is [Fault].
    [holds b i l] says that [b] contains the bytes [l] at offset [i]; the laws
    below let the components reason about reads after writes without opening
    the list operations. *)
From S2P Require Import Prelude.

(** ** Access *)

Definition rd (b : list Z) (i : Z) : res Z :=
  if i <? 0 then Fault
  else match b !! Z.to_nat i with Some v => Ok v | None => Fault end.

Definition wr_range (b : list Z) (i : Z) (l : list Z) : res (list Z) :=
  if (i <? 0) || (Zlen b <? i + Zlen l) then Fault
  else Ok (take (Z.to_nat i) b ++ l ++ drop (Z.to_nat i + length l) b).

Definition wr (b : list Z) (i v : Z) : res (list Z) := wr_range b i [u8 v].

Definition rd_range (b : list Z) (i n : Z) : res (list Z) :=
  if (i <? 0) || (n <? 0) || (Zlen b <? i + n) then Fault
  else Ok (take (Z.to_nat n) (drop (Z.to_nat i) b)).

(** A [uint16_t] as the little-endian host loads and stores it. *)
Definition get_host16 (b : list Z) (p : Z) : res Z :=
  c0 ← rd b p; c1 ← rd b (p + 1);
  mret (c0 + 256 * c1).

Definition set_host16 (b : list Z) (p v : Z) : res (list Z) :=
  b ← wr b p (v mod 256);
  wr b (p + 1) (v / 256).

(** [htons] and [ntohs] on a little-endian host. *)
Definition htons (v : Z) : Z := u16 v mod 256 * 256 + u16 v / 256.

(** [strlen]: the number of bytes before the first 0 at or after [i]. *)
Fixpoint strlen_loop (l : list Z) : option Z :=
  match l with
  | [] => None
  | c :: l' => if c =? 0 then Some 0 else option_map Z.succ (strlen_loop l')
  end.

Definition strlen_at (b : list Z) (i : Z) : res Z :=
  if i <? 0 then Fault
  else match strlen_loop (drop (Z.to_nat i) b) with Some n => Ok n | None => Fault end.

(** The sign of [memcmp]. *)
Fixpoint lex_sign (l1 l2 : list Z) : Z :=
  match l1, l2 with
  | x :: l1', y :: l2' => if y <? x then 1 else if x <? y then -1 else lex_sign l1' l2'
  | _, _ => 0
  end.

Definition memcmp (b1 : list Z) (o1 : Z) (b2 : list Z) (o2 n : Z) : res Z :=
  l1 ← rd_range b1 o1 n;
  l2 ← rd_range b2 o2 n;
  mret (lex_sign l1 l2).

(** ** The bytes a buffer holds *)

Definition holds (b : list Z) (i : Z) (l : list Z) : Prop :=
  0 <= i /\ i + Zlen l <= Zlen b /\ take (length l) (drop (Z.to_nat i) b) = l.

#[global] Instance holds_dec b i l : Decision (holds b i l).
Proof. unfold holds. apply _. Defined.

Lemma holds_lookup b i l :
  holds b i l <->
  0 <= i /\ i + Zlen l <= Zlen b /\
  forall k, (k < length l)%nat -> b !! (Z.to_nat i + k)%nat = l !! k.
Proof.
  unfold holds. split; intros (H0 & H1 & H2); (split; [done|]; split; [done|]).
  - intros k Hk. rewrite <- H2 at 1. by rewrite lookup_take_lt, lookup_drop by lia.
  - apply list_eq. intros k. destruct (decide (k < length l)%nat).
    + by rewrite lookup_take_lt, lookup_drop, H2 by lia.
    + rewrite lookup_take_ge by lia. symmetry. apply lookup_ge_None. lia.
Qed.

Lemma holds_bounds b i l : holds b i l -> 0 <= i /\ i + Zlen l <= Zlen b.
Proof. by intros (?&?&_). Qed.

Lemma holds_at b i j l : holds b i l -> i = j -> holds b j l.
Proof. by intros ? <-. Qed.

Lemma holds_nil b i : 0 <= i <= Zlen b -> holds b i [].
Proof. intros. unfold holds, Zlen in *. simpl. split_and!; [lia|lia|done]. Qed.

Lemma holds_app b i l1 l2 :
  holds b i (l1 ++ l2) <-> holds b i l1 /\ holds b (i + Zlen l1) l2.
Proof.
  rewrite !holds_lookup, Zlen_app. pose proof (Zlen_nonneg l1) as Hl1. pose proof (Zlen_nonneg l2) as Hl2.
  assert (Hn : 0 <= i -> Z.to_nat (i + Zlen l1) = (Z.to_nat i + length l1)%nat) by (unfold Zlen in *; lia).
  split.
  - intros (H0 & H1 & H2). split; (split; [lia|split; [lia|]]); intros k Hk.
    + rewrite H2 by (rewrite length_app; lia). by rewrite lookup_app_l by lia.
    + rewrite Hn, <- Nat.add_assoc, H2 by (try rewrite length_app; lia).
      rewrite lookup_app_r by lia. f_equal. lia.
  - intros ((H0 & H1 & H2) & (H3 & H4 & H5)). split; [lia|split; [lia|]]. intros k Hk.
    rewrite length_app in Hk. destruct (decide (k < length l1)%nat).
    + rewrite H2 by lia. by rewrite lookup_app_l by lia.
    + rewrite lookup_app_r by lia. rewrite <- H5 by lia. rewrite Hn by lia. f_equal. lia.
Qed.

Lemma holds_rd b i v : holds b i [v] <-> rd b i = Ok v.
Proof.
  rewrite holds_lookup. unfold rd. zlen. split.
  - intros (H0 & H1 & H2). dec. specialize (H2 0%nat ltac:(simpl; lia)).
    rewrite Nat.add_0_r in H2. by rewrite H2.
  - case_match; [done|]. destruct (b !! Z.to_nat i) eqn:Hb; [|done]. intros [= ->]. b2p.
    apply lookup_lt_Some in Hb as Hlt. unfold Zlen. split_and!; [lia|lia|].
    intros k Hk. simpl in Hk. replace k with 0%nat by lia. by rewrite Nat.add_0_r, Hb.
Qed.

Lemma holds_cons b i v l : holds b i (v :: l) <-> rd b i = Ok v /\ holds b (i + 1) l.
Proof. change (v :: l) with ([v] ++ l). by rewrite holds_app, holds_rd. Qed.

Lemma rd_range_holds b i n l :
  rd_range b i n = Ok l <-> n = Zlen l /\ holds b i l.
Proof.
  unfold rd_range, holds. split.
  - case_match eqn:E; [done|]. b2p. intros [= <-].
    assert (length (take (Z.to_nat n) (drop (Z.to_nat i) b)) = Z.to_nat n).
    { rewrite length_take, length_drop. unfold Zlen in *. lia. }
    unfold Zlen in *. rewrite H2. split_and!; [lia|lia|lia|done].
  - intros (-> & H0 & H1 & H2). pose proof (Zlen_nonneg l). dec. simpl.
    f_equal. rewrite <- H2 at 2. f_equal. unfold Zlen. lia.
Qed.

Lemma rd_bounds b i v : rd b i = Ok v -> 0 <= i < Zlen b.
Proof. rewrite <- holds_rd. intros [? [? _]]. zlen. lia. Qed.

Lemma rd_in_bounds b i : 0 <= i < Zlen b -> exists v, rd b i = Ok v.
Proof.
  intros H. unfold rd. dec. destruct (lookup_lt_is_Some_2 b (Z.to_nat i)) as [v ->].
  - unfold Zlen in H. lia.
  - eauto.
Qed.

Lemma rd_byte b i v : bytes b -> rd b i = Ok v -> is_byte v.
Proof.
  unfold rd. intros Hb. case_match; [done|]. destruct (b !! Z.to_nat i) eqn:E; [|done].
  intros [= <-]. by eapply Forall_lookup_1 in Hb.
Qed.

Lemma holds_byte b i l : bytes b -> holds b i l -> bytes l.
Proof.
  intros Hb (_ & _ & <-). apply Forall_take, Forall_drop, Hb.
Qed.

(** ** Writes *)

Lemma wr_range_ok b i l :
  0 <= i -> i + Zlen l <= Zlen b ->
  wr_range b i l = Ok (take (Z.to_nat i) b ++ l ++ drop (Z.to_nat i + length l) b).
Proof. intros. unfold wr_range. dec. done. Qed.

Lemma wr_range_inv b i l b' :
  wr_range b i l = Ok b' ->
  0 <= i /\ i + Zlen l <= Zlen b /\
  b' = take (Z.to_nat i) b ++ l ++ drop (Z.to_nat i + length l) b.
Proof. unfold wr_range. case_match; [done|]. intros [= <-]. b2p. auto. Qed.

Lemma wr_range_exists b i l :
  0 <= i -> i + Zlen l <= Zlen b -> exists b', wr_range b i l = Ok b'.
Proof. intros. eexists. by apply wr_range_ok. Qed.

Lemma wr_range_Zlen b i l b' : wr_range b i l = Ok b' -> Zlen b' = Zlen b.
Proof.
  intros (H0 & H1 & ->)%wr_range_inv. zlen. unfold Zlen in *.
  rewrite length_take, length_drop. lia.
Qed.

Lemma wr_range_holds b i l b' : wr_range b i l = Ok b' -> holds b' i l.
Proof.
  intros H. pose proof (wr_range_Zlen _ _ _ _ H) as HL.
  apply wr_range_inv in H as (H0 & H1 & ->). unfold holds. split_and!; [lia|lia|].
  rewrite drop_app_length' by (rewrite length_take; unfold Zlen in *; lia).
  by rewrite take_app_length.
Qed.

(** A write leaves the bytes before and after it alone. *)
Lemma wr_range_frame b i l b' j k :
  wr_range b i l = Ok b' -> j + Zlen k <= i \/ i + Zlen l <= j ->
  holds b' j k <-> holds b j k.
Proof.
  intros H Hd. pose proof (wr_range_Zlen _ _ _ _ H) as HL.
  apply wr_range_inv in H as (H0 & H1 & E).
  assert (Hl : forall n, (n < Z.to_nat i)%nat \/ (Z.to_nat i + length l <= n)%nat -> b' !! n = b !! n).
  { intros n [Hn|Hn]; rewrite E.
    - rewrite lookup_app_l by (rewrite length_take; unfold Zlen in *; lia).
      by rewrite lookup_take_lt by lia.
    - rewrite lookup_app_r by (rewrite length_take; lia).
      rewrite length_take, lookup_app_r by (unfold Zlen in *; lia).
      rewrite lookup_drop. f_equal. unfold Zlen in *. lia. }
  rewrite !holds_lookup, HL.
  assert (Hk : 0 <= j -> forall m, (m < length k)%nat ->
             b' !! (Z.to_nat j + m)%nat = b !! (Z.to_nat j + m)%nat).
  { intros Hj m Hm. apply Hl. unfold Zlen in *. lia. }
  split; intros (Ha & Hb & Hc); (split; [done|split; [done|]]); intros m Hm;
    rewrite <- Hc by done; [symmetry|]; by apply Hk.
Qed.

Lemma wr_range_rd_frame b i l b' j :
  wr_range b i l = Ok b' -> j < i \/ i + Zlen l <= j -> rd b' j = rd b j.
Proof.
  intros H Hd.
  assert (HF : forall v, rd b' j = Ok v <-> rd b j = Ok v).
  { intros v. rewrite <- !holds_rd. eapply wr_range_frame; [done|].
    zlen. lia. }
  destruct (rd b' j) as [v| |] eqn:E.
  - symmetry. by apply HF.
  - destruct (rd b j) as [v| |] eqn:E'; [|done|].
    + destruct (proj2 (HF v)); done.
    + unfold rd in E'. by repeat case_match.
  - unfold rd in E. by repeat case_match.
Qed.

Lemma wr_range_bytes b i l b' : wr_range b i l = Ok b' -> bytes b -> bytes l -> bytes b'.
Proof.
  intros (_ & _ & ->)%wr_range_inv Hb Hl. unfold bytes.
  rewrite !Forall_app. auto using Forall_take, Forall_drop.
Qed.

Lemma wr_range_app b i l1 l2 b' :
  wr_range b i (l1 ++ l2) = Ok b' <->
  exists b1, wr_range b i l1 = Ok b1 /\ wr_range b1 (i + Zlen l1) l2 = Ok b'.
Proof.
  assert (HD : forall b1, 0 <= i -> i + Zlen l1 + Zlen l2 <= Zlen b -> wr_range b i l1 = Ok b1 ->
    wr_range b1 (i + Zlen l1) l2 = wr_range b i (l1 ++ l2)).
  { intros b1 H0 H1 Hw. pose proof (wr_range_Zlen _ _ _ _ Hw) as HL.
    pose proof (Zlen_nonneg l1) as Hl1. pose proof (Zlen_nonneg l2) as Hl2.
    rewrite !wr_range_ok by (rewrite ?Zlen_app; lia). f_equal.
    apply wr_range_inv in Hw as (_ & _ & ->).
    replace (Z.to_nat (i + Zlen l1)) with (Z.to_nat i + length l1)%nat by (unfold Zlen; lia).
    rewrite <- app_assoc. rewrite (app_assoc (take _ b) l1).
    assert (HL1 : length (take (Z.to_nat i) b ++ l1) = (Z.to_nat i + length l1)%nat).
    { rewrite length_app, length_take. unfold Zlen in *. lia. }
    rewrite take_app_length' by done. rewrite <- app_assoc. do 3 f_equal.
    rewrite <- (drop_drop ((_ ++ _) ++ _)), drop_app_length' by done.
    rewrite drop_drop, length_app. f_equal. lia. }
  pose proof (Zlen_nonneg l1) as Hl1. pose proof (Zlen_nonneg l2) as Hl2.
  split.
  - intros H'. pose proof H' as (H0 & H1 & _)%wr_range_inv. rewrite Zlen_app in H1.
    destruct (wr_range_exists b i l1) as [b1 Hb1]; [lia|lia|].
    exists b1. split; [done|]. by rewrite (HD b1) by (done || lia).
  - intros (b1 & Hb1 & H'). pose proof H' as (H0 & H1 & _)%wr_range_inv.
    pose proof (wr_range_Zlen _ _ _ _ Hb1). pose proof Hb1 as (? & ? & _)%wr_range_inv.
    by rewrite <- (HD b1) by (done || lia).
Qed.

(** ** C strings *)

Definition no_nul (l : list Z) : Prop := Forall (fun c => c <> 0) l.

Lemma strlen_loop_app l k : no_nul l -> strlen_loop (l ++ 0 :: k) = Some (Zlen l).
Proof.
  induction 1 as [|c l Hc _ IH]; [done|]. simpl. rewrite IH. dec. simpl.
  f_equal. rewrite Zlen_cons. lia.
Qed.

Lemma strlen_at_holds b i l : no_nul l -> holds b i (l ++ [0]) -> strlen_at b i = Ok (Zlen l).
Proof.
  intros Hl (H0 & H1 & H2). unfold strlen_at. dec.
  rewrite <- (take_drop (length (l ++ [0])) (drop _ b)), H2, <- app_assoc. simpl.
  by rewrite strlen_loop_app.
Qed.
