(* ===== verification/Cstring.v ===== *)
(** * C strings

    String literals as bytes, and the functions of the C library on strings that
    the programs use: [strsep], [strtol], [strcmp], and the conversions of
    [printf].  A string is the list of its characters, without the 0. *)
From S2P Require Import Prelude.
From S2P Require Import Buffer.
From Stdlib Require Import Ascii String.

(** A C string literal. *)
Fixpoint str (s : string) : list Z :=
  match s with
  | EmptyString => []
  | String c s' => Z.of_N (N_of_ascii c) :: str s'
  end.
Arguments str s%_string.

(** ** Tokens *)

Definition CH_COL : Z := 58.

(** [strsep(&p, ":")]: the token before the first delimiter, and the new value of
    [p], NULL if there is none.  A NULL [p] gives NULL. *)
Fixpoint split_at (d : Z) (s : list Z) : list Z * option (list Z) :=
  match s with
  | [] => ([], None)
  | c :: s' =>
      if c =? d then ([], Some s')
      else let '(t, r) := split_at d s' in (c :: t, r)
  end.

Definition strsep (p : option (list Z)) (d : Z) : option (list Z) * option (list Z) :=
  match p with
  | None => (None, None)
  | Some s => let '(t, r) := split_at d s in (Some t, r)
  end.

(** What [split_at] undoes. *)
Definition unsplit (d : Z) (t : list Z) (r : option (list Z)) : list Z :=
  match r with None => t | Some s => t ++ d :: s end.

Lemma split_at_spec d s t r : split_at d s = (t, r) <-> s = unsplit d t r /\ d ∉ t.
Proof.
  revert t r. induction s as [|c s IH]; intros t r; cbn [split_at].
  - split; [intros [= <- <-]; split; [done|by apply not_elem_of_nil]|].
    intros [E _]. destruct r as [r|], t; cbn in E; done.
  - destruct (Z.eqb_spec c d) as [->|Hc].
    + split; [intros [= <- <-]; split; [done|by apply not_elem_of_nil]|].
      intros [E Hd]. destruct t as [|x t].
      * destruct r; cbn in E; [by injection E as <-|done].
      * destruct r; cbn in E; injection E as <- _; exfalso; apply Hd; left.
    + destruct (split_at d s) as [t' r']. destruct (proj1 (IH t' r') eq_refl) as [-> Hd].
      split.
      * intros [= <- <-]. split; [by destruct r'|]. by apply not_elem_of_cons.
      * intros [E Hd']. destruct t as [|x t].
        { destruct r; cbn in E; [by injection E as <- _|done]. }
        assert (E' : c = x /\ unsplit d t' r' = unsplit d t r) by (destruct r; cbn in *; by injection E).
        destruct E' as [<- E']. apply not_elem_of_cons in Hd' as [_ Hd'].
        by injection (proj2 (IH t r) (conj E' Hd')) as -> ->.
Qed.

(** ** Numbers *)

Definition is_digit (c : Z) : bool := (48 <=? c) && (c <=? 57).
Definition is_space (c : Z) : bool := (c =? 32) || ((9 <=? c) && (c <=? 13)).

Fixpoint digits_val (acc : Z) (s : list Z) : Z :=
  match s with
  | c :: s' => if is_digit c then digits_val (acc * 10 + (c - 48)) s' else acc
  | [] => acc
  end.

Fixpoint skip_space (s : list Z) : list Z :=
  match s with
  | c :: s' => if is_space c then skip_space s' else s
  | [] => []
  end.

(** [strtol(s, &e, 10)] for a [long] of [bits] bits: the value, and whether errno
    was set to ERANGE. *)
Definition strtol (bits : Z) (s : list Z) : Z * bool :=
  let LONG_MAX := 2 ^ (bits - 1) - 1 in
  let LONG_MIN := - 2 ^ (bits - 1) in
  let v := match skip_space s with
           | 45 :: s' => - digits_val 0 s'
           | 43 :: s' => digits_val 0 s'
           | s' => digits_val 0 s'
           end in
  if LONG_MAX <? v then (LONG_MAX, true) else if v <? LONG_MIN then (LONG_MIN, true) else (v, false).

(** Conversion to a 32-bit [int]. *)
Definition s32 (v : Z) : Z := (v + 2147483648) mod 4294967296 - 2147483648.

(** [%u] and [%d] *)
Fixpoint dec_loop (fuel : nat) (n : Z) (acc : list Z) : list Z :=
  match fuel with
  | O => acc
  | S fuel =>
      let acc := 48 + n mod 10 :: acc in
      if n <? 10 then acc else dec_loop fuel (n / 10) acc
  end.
Definition dec (n : Z) : list Z := dec_loop (S (Z.to_nat (Z.log2 n))) n [].
Definition fmt_d (n : Z) : list Z := if n <? 0 then 45 :: dec (- n) else dec n.

Lemma s32_id v : - 2147483648 <= v < 2147483648 -> s32 v = v.
Proof. intros H. unfold s32. rewrite Z.mod_small by lia. lia. Qed.

Lemma digits_val_app acc s t :
  Forall (fun c => is_digit c = true) s -> digits_val acc (s ++ t) = digits_val (digits_val acc s) t.
Proof.
  intros H. revert acc. induction H as [|c s Hc _ IH]; intros acc; [done|]. cbn [app digits_val]. rewrite Hc. apply IH.
Qed.

(** The digits of a number, before those already there. *)
Lemma dec_loop_spec fuel n acc :
  0 <= n < 2 ^ Z.of_nat fuel -> (0 < fuel)%nat ->
  exists ds, dec_loop fuel n acc = ds ++ acc /\ Forall (fun c => is_digit c = true) ds /\ ds <> [] /\ digits_val 0 ds = n.
Proof.
  revert n acc. induction fuel as [|fuel IH]; intros n acc H Hf; [lia|]. cbn [dec_loop].
  assert (Hd : is_digit (48 + n mod 10) = true).
  { unfold is_digit. pose proof (Z.mod_pos_bound n 10). apply andb_true_iff. split; apply Z.leb_le; lia. }
  destruct (Z.ltb_spec n 10).
  - exists [48 + n mod 10]. split_and!; [done|by repeat constructor|done|]. cbn [digits_val]. rewrite Hd.
    rewrite Z.mod_small by lia. lia.
  - destruct (IH (n / 10) (48 + n mod 10 :: acc)) as (ds & E & Hds & Hn & Hv).
    { split; [by apply Z.div_pos; lia|]. apply Z.div_lt_upper_bound; [lia|].
      rewrite Nat2Z.inj_succ, Z.pow_succ_r in H by lia. lia. }
    { destruct fuel; [|lia]. cbn in H. lia. }
    exists (ds ++ [48 + n mod 10]). rewrite E, <- app_assoc. split_and!; [done| |by destruct ds|].
    + apply Forall_app. split; [done|]. by repeat constructor.
    + rewrite digits_val_app, Hv by done. cbn [digits_val]. rewrite Hd. pose proof (Z.div_mod n 10). lia.
Qed.

Lemma dec_spec n : 0 <= n ->
  Forall (fun c => is_digit c = true) (dec n) /\ dec n <> [] /\ digits_val 0 (dec n) = n.
Proof.
  intros H. unfold dec. destruct (dec_loop_spec (S (Z.to_nat (Z.log2 n))) n []) as (ds & E & Hd); [|lia|].
  { split; [done|]. rewrite Nat2Z.inj_succ, Z2Nat.id by apply Z.log2_nonneg.
    destruct (Z.eq_dec n 0) as [->|]; [done|]. apply Z.log2_spec. lia. }
  rewrite E, app_nil_r. done.
Qed.

(** [strtol] of the digits that [%d] prints for a small number. *)
Lemma strtol_dec bits n : 32 <= bits -> 0 <= n < 2147483648 -> strtol bits (dec n) = (n, false).
Proof.
  intros Hb Hn. destruct (dec_spec n) as (Hd & Hne & Hv); [lia|]. unfold strtol.
  assert (Hs : match skip_space (dec n) with
    | 45 :: s' => - digits_val 0 s' | 43 :: s' => digits_val 0 s' | s' => digits_val 0 s' end = n).
  { destruct (dec n) as [|c s]; [done|]. apply Forall_cons_iff in Hd as [Hc _].
    assert (Hr : 48 <= c <= 57) by (unfold is_digit in Hc; apply andb_true_iff in Hc as [? ?]; lia).
    cbn [skip_space]. assert (Hsp : is_space c = false).
    { unfold is_space. destruct (Z.eqb_spec c 32), (Z.leb_spec 9 c), (Z.leb_spec c 13); lia || done. }
    rewrite Hsp. rewrite <- Hv. destruct c as [|c|c]; [lia| |lia].
    do 6 (destruct c as [c|c|]; [..|lia]; try done); lia. }
  rewrite Hs. pose proof (Z.pow_le_mono_r 2 31 (bits - 1)). change (2 ^ 31) with 2147483648 in *.
  destruct (Z.ltb_spec (2 ^ (bits - 1) - 1) n); [lia|]. destruct (Z.ltb_spec n (- 2 ^ (bits - 1))); [lia|done].
Qed.
