(* ===== verification/Slist.v ===== *)
(** * Intrusive singly linked lists (the SLIST macros of src/mdns/queue.h)

    The elements are the cells of an array and a pointer to one is its index;
    [None] is NULL.  The link lives in the element, so an element that is put on
    a second list through the same field leaves the first one behind it: the
    model keeps that aliasing.  A [link] names the field; a traversal of a list
    that was made cyclic does not return, and one that runs off the end
    dereferences NULL. *)
From S2P Require Import Prelude.

(** SLIST_ENTRY: one link field of a structure. *)
Record link (A : Type) := mkLink {
  next_of : A -> option nat;
  with_next : A -> option nat -> A }.
Arguments mkLink {A}.
Arguments next_of {A}.
Arguments with_next {A}.

(** What the list operations rely on of a field. *)
Class LinkLaws {A} (f : link A) : Prop := {
  next_with : forall a n, next_of f (with_next f a n) = n }.

(** Writing the field [g] leaves the field [f] alone. *)
Class Apart {A} (f g : link A) : Prop := {
  next_apart : forall a n, next_of f (with_next g a n) = next_of f a }.

(** [*p] for a pointer into the array. *)
Definition cell {A} (s : list A) (i : nat) : res A :=
  match s !! i with Some a => Ok a | None => Fault end.

Definition SLIST_NEXT {A} (f : link A) (s : list A) (i : nat) : res (option nat) :=
  a ← cell s i;
  mret (next_of f a).

(** [SLIST_NEXT(i) = n] *)
Definition set_next {A} (f : link A) (s : list A) (i : nat) (n : option nat) : res (list A) :=
  a ← cell s i;
  mret (<[i := with_next f a n]> s).

(** The array and the new head. *)
Definition SLIST_INSERT_HEAD {A} (f : link A) (s : list A) (head : option nat) (i : nat)
    : res (list A * option nat) :=
  s ← set_next f s i head;
  mret (s, Some i).

Definition SLIST_REMOVE_HEAD {A} (f : link A) (s : list A) (head : option nat) : res (option nat) :=
  match head with
  | None => Fault
  | Some h => SLIST_NEXT f s h
  end.

Definition SLIST_REMOVE_AFTER {A} (f : link A) (s : list A) (i : nat) : res (list A) :=
  n ← SLIST_NEXT f s i;
  match n with
  | None => Fault
  | Some n =>
      nn ← SLIST_NEXT f s n;
      set_next f s i nn
  end.

(** [while (SLIST_NEXT(curelm) != elm) curelm = SLIST_NEXT(curelm);] *)
Fixpoint find_prev {A} (fuel : nat) (f : link A) (s : list A) (curelm : option nat) (elm : nat) : res nat :=
  match fuel, curelm with
  | O, _ => Diverge
  | S _, None => Fault
  | S fuel', Some c =>
      n ← SLIST_NEXT f s c;
      if bool_decide (n = Some elm) then mret c else find_prev fuel' f s n elm
  end.

Definition SLIST_REMOVE {A} (fuel : nat) (f : link A) (s : list A) (head : option nat) (elm : nat)
    : res (list A * option nat) :=
  if bool_decide (head = Some elm) then
    h ← SLIST_REMOVE_HEAD f s head;
    mret (s, h)
  else
    p ← find_prev fuel f s head elm;
    s ← SLIST_REMOVE_AFTER f s p;
    mret (s, head).

(** [SLIST_FOREACH] around a body that returns the element when it is found. *)
Fixpoint slist_find {A} (fuel : nat) (f : link A) (s : list A) (found : A -> res bool) (cur : option nat)
    : res (option nat) :=
  match cur with
  | None => mret None
  | Some i =>
      match fuel with
      | O => Diverge
      | S fuel' =>
          a ← cell s i;
          b ← found a;
          if (b : bool) then mret (Some i) else slist_find fuel' f s found (next_of f a)
      end
  end.
