(* ===== verification/SlistSpec.v ===== *)
(** * Intrusive lists as lists (specification of Slist.v)

    [chain nx h l]: from the head [h], following the links [nx], one meets the
    elements [l] and then NULL.  [family nx hd L]: the lists with the heads
    [hd k] are the disjoint lists [L k] without duplicates.  The operations of
    Slist.v on one list of a family change that list as the list operation of
    the same name does and leave the others as they are. *)
From stdpp Require Import sets.
From S2P Require Import Prelude Slist.

(** The field [f] of the cell [i]. *)
Definition lk {A B} (f : A -> B) (s : list A) (i : nat) : option B := f <$> s !! i.

Fixpoint chain (nx : nat -> option (option nat)) (h : option nat) (l : list nat) : Prop :=
  match l with
  | [] => h = None
  | i :: l' => h = Some i /\ exists n, nx i = Some n /\ chain nx n l'
  end.

Lemma chain_ext nx nx' h l : (forall i, i ∈ l -> nx' i = nx i) -> chain nx h l -> chain nx' h l.
Proof.
  revert h. induction l as [|i l IH]; intros h E; [done|]. cbn. intros (-> & n & Hn & Hc).
  split; [done|]. exists n. split; [rewrite E by set_solver; done|].
  apply IH; [|done]. intros j Hj. apply E. set_solver.
Qed.

Lemma chain_head nx h l : chain nx h l -> h = head l.
Proof. destruct l as [|i l]; cbn; [done|]. by intros (-> & _). Qed.

(** The link of every element of a list is its successor. *)
Lemma chain_next nx h l1 i l2 : chain nx h (l1 ++ i :: l2) -> nx i = Some (head l2) /\ chain nx (head l2) l2.
Proof.
  revert h. induction l1 as [|j l1 IH]; intros h; cbn.
  - intros (-> & n & Hn & Hc). by rewrite <- (chain_head _ _ _ Hc).
  - intros (-> & n & _ & Hc). by eapply IH.
Qed.

(** Writing one link in the middle. *)
Lemma chain_cut nx nx' h l1 p i l2 :
  NoDup (l1 ++ p :: i :: l2) -> chain nx h (l1 ++ p :: i :: l2) ->
  (forall j, j <> p -> nx' j = nx j) -> nx' p = Some (head l2) -> chain nx' h (l1 ++ p :: l2).
Proof.
  intros Hd Hc E Hp. revert h Hd Hc. induction l1 as [|j l1 IH]; intros h Hd; cbn.
  - intros (-> & n & _ & Hc). split; [done|]. exists (head l2). split; [done|].
    destruct Hc as (_ & n' & _ & Hc). apply list.NoDup_cons in Hd as [Hpd Hd].
    rewrite <- (chain_head _ _ _ Hc). apply chain_ext with nx; [|done].
    intros x Hx. apply E. intros ->. apply Hpd. set_solver.
  - intros (-> & n & Hn & Hc). apply list.NoDup_cons in Hd as [Hj Hd]. split; [done|]. exists n.
    split; [|by apply IH]. rewrite E; [done|]. intros ->. apply Hj. set_solver.
Qed.

(** ** Removal of one element *)

Definition rem (i : nat) (l : list nat) : list nat := filter (.≠ i) l.
Arguments rem : simpl never.

Lemma rem_notin i l : i ∉ l -> rem i l = l.
Proof.
  unfold rem. induction l as [|j l IH]; intros H; [done|].
  rewrite filter_cons_True by set_solver. by rewrite IH by set_solver.
Qed.

Lemma rem_split i l1 l2 : i ∉ l1 -> i ∉ l2 -> rem i (l1 ++ i :: l2) = l1 ++ l2.
Proof.
  intros H1 H2. unfold rem. rewrite list.filter_app, filter_cons_False by auto.
  fold (rem i l1) (rem i l2). by rewrite !rem_notin.
Qed.

Lemma elem_rem i j l : j ∈ rem i l <-> j <> i /\ j ∈ l.
Proof. unfold rem. rewrite list_elem_of_filter. done. Qed.

Lemma NoDup_rem i l : NoDup l -> NoDup (rem i l).
Proof. apply list.NoDup_filter. Qed.

(** ** The operations *)

Section Operations.
Context {A : Type} (f : link A) {Hf : LinkLaws f}.

Definition nexts (s : list A) : nat -> option (option nat) := lk (next_of f) s.

Lemma nexts_insert s i a n j : s !! i = Some a ->
  nexts (<[i := with_next f a n]> s) j = if decide (j = i) then Some n else nexts s j.
Proof.
  intros Ha. unfold nexts, lk. destruct (decide (j = i)) as [->|Hj].
  - rewrite list_lookup_insert_eq by (by eapply lookup_lt_Some). cbn. by rewrite next_with.
  - by rewrite list_lookup_insert_ne by auto.
Qed.

Lemma SLIST_NEXT_spec s i n : nexts s i = Some n -> SLIST_NEXT f s i = Ok n.
Proof.
  unfold nexts, lk, SLIST_NEXT, cell. destruct (s !! i); cbn; [|done]. by intros [= ->].
Qed.

Lemma insert_head_spec s h i a l : s !! i = Some a -> i ∉ l -> chain (nexts s) h l ->
  SLIST_INSERT_HEAD f s h i = Ok (<[i := with_next f a h]> s, Some i) /\
  chain (nexts (<[i := with_next f a h]> s)) (Some i) (i :: l).
Proof.
  intros Ha Hi Hc. unfold SLIST_INSERT_HEAD, set_next, cell. rewrite Ha. split; [done|].
  cbn. split; [done|]. exists h. rewrite nexts_insert by done. rewrite decide_True by done. split; [done|].
  apply chain_ext with (nexts s); [|done]. intros j Hj. rewrite nexts_insert by done.
  by rewrite decide_False by set_solver.
Qed.

Lemma remove_head_spec s i l : chain (nexts s) (Some i) (i :: l) ->
  SLIST_REMOVE_HEAD f s (Some i) = Ok (head l) /\ chain (nexts s) (head l) l.
Proof.
  intros Hc. destruct (chain_next _ _ [] i l Hc) as [Hn Hc']. split; [|done].
  unfold SLIST_REMOVE_HEAD. by apply SLIST_NEXT_spec.
Qed.

(** The predecessor is found when the fuel covers the list. *)
Lemma find_prev_spec s fuel h l1 p i l2 :
  NoDup (l1 ++ p :: i :: l2) -> chain (nexts s) h (l1 ++ p :: i :: l2) -> (length l1 < fuel)%nat ->
  find_prev fuel f s h i = Ok p.
Proof.
  revert h fuel. induction l1 as [|j l1 IH]; intros h [|fuel] Hd Hc Hl; cbn in Hl; try lia; cbn.
  - destruct Hc as (-> & n & Hn & -> & _). rewrite (SLIST_NEXT_spec _ _ _ Hn). cbn.
    by rewrite bool_decide_eq_true_2.
  - destruct Hc as (-> & n & Hn & Hc). rewrite (SLIST_NEXT_spec _ _ _ Hn). cbn.
    apply list.NoDup_cons in Hd as [Hj Hd]. rewrite bool_decide_eq_false_2.
    + apply IH; [done|done|lia].
    + intros ->. destruct l1 as [|k l1]; cbn in Hc; destruct Hc as ([= ->] & _).
      * apply list.NoDup_cons in Hd as [Hd _]. set_solver.
      * cbn in Hd. apply list.NoDup_cons in Hd as [Hd _]. set_solver.
Qed.

(** What [SLIST_REMOVE] leaves: only links of elements of the list change, and
    the link of the removed element does not. *)
Lemma remove_spec s fuel h l i :
  NoDup l -> i ∈ l -> chain (nexts s) h l -> (length l <= fuel)%nat ->
  exists s' h', SLIST_REMOVE fuel f s h i = Ok (s', h') /\ chain (nexts s') h' (rem i l) /\
    (s' = s \/ (exists p a n, p ∈ l /\ p <> i /\ s !! p = Some a /\ s' = <[p := with_next f a n]> s)).
Proof.
  intros Hd Hi Hc Hl. apply list_elem_of_split in Hi as (l1 & l2 & ->).
  assert (i ∉ l1 /\ i ∉ l2) as [H1 H2].
  { apply list.NoDup_app in Hd as (_ & Hx & Hy). apply list.NoDup_cons in Hy as [Hy _]. set_solver. }
  rewrite rem_split by done. unfold SLIST_REMOVE.
  destruct (decide (l1 = [])) as [->|Hne].
  - pose proof (chain_head _ _ _ Hc) as ->. cbn [head app]. rewrite bool_decide_eq_true_2 by done.
    destruct (remove_head_spec s i l2 Hc) as [-> Hc']. cbn. exists s, (head l2). auto.
  - destruct (exists_last Hne) as (l0 & p & ->). rewrite <- !app_assoc in *. cbn [app] in *.
    rewrite bool_decide_eq_false_2; cycle 1.
    { rewrite (chain_head _ _ _ Hc). destruct l0; cbn; intros [= ->]; set_solver. }
    rewrite (find_prev_spec s fuel h l0 p i l2) by (try done; rewrite length_app in Hl; cbn in Hl; lia).
    cbn [mbind res_bind]. pose proof Hc as Hc'. apply chain_next in Hc' as [Hp Hc'].
    destruct (chain_next _ _ [] _ _ Hc') as [Hn _]. cbn [head] in Hp.
    unfold SLIST_REMOVE_AFTER. rewrite (SLIST_NEXT_spec _ _ _ Hp). cbn [mbind res_bind].
    rewrite (SLIST_NEXT_spec _ _ _ Hn). cbn [mbind res_bind]. unfold set_next, cell.
    destruct (s !! p) as [a|] eqn:Ha; [|by unfold nexts, lk in Hp; rewrite Ha in Hp].
    cbn. exists (<[p := with_next f a (head l2)]> s), h. split; [done|]. split.
    + eapply chain_cut; [exact Hd|exact Hc| |].
      * intros j Hj. rewrite nexts_insert by done. by rewrite decide_False.
      * rewrite nexts_insert by done. by rewrite decide_True.
    + right. exists p, a, (head l2). split; [set_solver|]. split; [|done]. intros ->. set_solver.
Qed.

(** [slist_find] is the first element that passes a test which returns. *)
Lemma slist_find_ok s fuel test h l r : chain (nexts s) h l -> slist_find fuel f s test h = Ok r ->
  match r with
  | None => forall i a, i ∈ l -> s !! i = Some a -> test a = Ok false
  | Some i => exists a, i ∈ l /\ s !! i = Some a /\ test a = Ok true
  end.
Proof.
  revert h fuel. induction l as [|j l IH]; intros h fuel Hc; cbn in Hc.
  - subst. destruct fuel; intros [= <-]; intros ? ? Hx; by apply elem_of_nil in Hx.
  - destruct Hc as (-> & n & Hn & Hc). destruct fuel as [|fuel]; cbn; [done|]. intros H.
    unfold nexts, lk in Hn. unfold cell in H. destruct (s !! j) as [a|] eqn:Ha; cbn in H; [|done].
    injection Hn as Hn. destruct (test a) as [[]| |] eqn:Ht; cbn in H; try done.
    + injection H as <-. exists a. split; [set_solver|auto].
    + rewrite Hn in H. specialize (IH n fuel Hc H). destruct r as [i|].
      * destruct IH as (b & ? & ?). exists b. split; [set_solver|done].
      * intros i b Hi Hb. apply elem_of_cons in Hi as [->|Hi]; [congruence|eauto].
Qed.

(** Total version for tests that return on every element. *)
Lemma slist_find_total s fuel test (p : A -> bool) h l :
  chain (nexts s) h l -> (length l <= fuel)%nat ->
  (forall i a, i ∈ l -> s !! i = Some a -> test a = Ok (p a)) ->
  exists r, slist_find fuel f s test h = Ok r.
Proof.
  revert h fuel. induction l as [|j l IH]; intros h fuel Hc Hl Ht; cbn in Hc.
  - subst. destruct fuel; by eexists.
  - destruct Hc as (-> & n & Hn & Hc). destruct fuel as [|fuel]; cbn in Hl; [lia|]. cbn.
    unfold nexts, lk in Hn. unfold cell. destruct (s !! j) as [a|] eqn:Ha; [|done]. cbn in Hn |- *.
    injection Hn as Hn. rewrite (Ht j a) by (try done; set_solver). cbn. rewrite Hn.
    destruct (p a); [by eexists|]. apply IH; [done|lia|]. intros i b Hi. apply Ht. set_solver.
Qed.
End Operations.

(** ** Families of lists through one field *)

Section Families.
Context {K : Type} `{EqDecision K}.

Record family (nx : nat -> option (option nat)) (hd : K -> option nat) (L : K -> list nat) : Prop := {
  fam_chain : forall k, chain nx (hd k) (L k);
  fam_nodup : forall k, NoDup (L k);
  fam_disjoint : forall k k' i, i ∈ L k -> i ∈ L k' -> k = k' }.

(** The family with the list [k] replaced. *)
Definition fupd (L : K -> list nat) (k : K) (l : list nat) : K -> list nat :=
  fun k' => if decide (k' = k) then l else L k'.

Arguments fupd : simpl never.

Lemma fupd_eq L k l : fupd L k l k = l.
Proof. unfold fupd. by rewrite decide_True. Qed.

Lemma fupd_ne L k l k' : k' <> k -> fupd L k l k' = L k'.
Proof. intros. unfold fupd. by rewrite decide_False. Qed.

(** Only the links of elements matter. *)
Lemma family_mem nx nx' hd hd' L : (forall k i, i ∈ L k -> nx' i = nx i) -> (forall k, hd' k = hd k) ->
  family nx hd L -> family nx' hd' L.
Proof.
  intros E1 E2 [H1 H2 H3]. constructor; [|done|done].
  intros k. rewrite E2. apply chain_ext with nx; [|done]. apply E1.
Qed.

Lemma family_ext nx nx' hd hd' L L' : (forall i, nx' i = nx i) -> (forall k, hd' k = hd k) -> (forall k, L' k = L k) ->
  family nx hd L -> family nx' hd' L'.
Proof.
  intros E1 E2 E3 [H1 H2 H3]. constructor.
  - intros k. rewrite E2, E3. apply chain_ext with nx; auto.
  - intros k. by rewrite E3.
  - intros k k' i. rewrite !E3. apply H3.
Qed.

(** Writing links that no other list of the family uses. *)
Lemma family_upd nx nx' hd hd' L k l :
  family nx hd L -> chain nx' (hd' k) l -> NoDup l ->
  (forall k', k' <> k -> hd' k' = hd k') ->
  (forall j k', k' <> k -> j ∈ L k' -> nx' j = nx j /\ j ∉ l) ->
  family nx' hd' (fupd L k l).
Proof.
  intros [H1 H2 H3] Hc Hd Hh Hx. constructor.
  - intros k'. destruct (decide (k' = k)) as [->|Hk]; [by rewrite fupd_eq|].
    rewrite fupd_ne, Hh by done. apply chain_ext with nx; [|done]. intros j Hj. by apply (Hx j k').
  - intros k'. destruct (decide (k' = k)) as [->|Hk]; [by rewrite fupd_eq|]. by rewrite fupd_ne.
  - intros k1 k2 i. destruct (decide (k1 = k)) as [->|Hk1], (decide (k2 = k)) as [->|Hk2];
      rewrite ?fupd_eq, ?fupd_ne by done; intros Hi1 Hi2; [done| | |by eapply H3].
    + by destruct (proj2 (Hx i k2 Hk2 Hi2)).
    + by destruct (proj2 (Hx i k1 Hk1 Hi1)).
Qed.

Context {A : Type} (f : link A) {Hf : LinkLaws f}.
Notation fam s hd L := (family (nexts f s) hd L).

Lemma family_insert s hd L k i a : fam s hd L -> s !! i = Some a -> (forall k', i ∉ L k') ->
  SLIST_INSERT_HEAD f s (hd k) i = Ok (<[i := with_next f a (hd k)]> s, Some i) /\
  (forall hd', hd' k = Some i -> (forall k', k' <> k -> hd' k' = hd k') ->
    fam (<[i := with_next f a (hd k)]> s) hd' (fupd L k (i :: L k))).
Proof.
  intros HL Ha Hi. destruct (insert_head_spec f s (hd k) i a (L k) Ha (Hi k) (fam_chain _ _ _ HL k)) as [E Hc].
  split; [done|]. intros hd' H1 H2. eapply family_upd; [exact HL|by rewrite H1| |done|].
  - apply NoDup_cons_2; [apply Hi|apply (fam_nodup _ _ _ HL)].
  - intros j k' Hk Hj. split.
    + rewrite nexts_insert by done. rewrite decide_False; [done|]. intros ->. by apply (Hi k').
    + intros Hj'. apply elem_of_cons in Hj' as [->|Hj']; [by apply (Hi k')|].
      apply Hk. by apply (fam_disjoint _ _ _ HL k' k j).
Qed.

Lemma family_remove_head s hd L k i l : fam s hd L -> L k = i :: l ->
  hd k = Some i /\ SLIST_REMOVE_HEAD f s (hd k) = Ok (head l) /\
  (forall hd', hd' k = head l -> (forall k', k' <> k -> hd' k' = hd k') -> fam s hd' (fupd L k l)).
Proof.
  intros HL E. pose proof (fam_chain _ _ _ HL k) as Hc. rewrite E in Hc.
  assert (hd k = Some i) as Eh by (by destruct Hc). rewrite Eh in *.
  destruct (remove_head_spec f s i l Hc) as [E1 Hc']. split; [done|]. split; [done|].
  intros hd' H1 H2. eapply family_upd; [exact HL|by rewrite H1| |done|].
  - pose proof (fam_nodup _ _ _ HL k) as Hd. rewrite E in Hd. by apply NoDup_cons_1_2 in Hd.
  - intros j k' Hk Hj. split; [done|]. intros Hj'. apply Hk.
    apply (fam_disjoint _ _ _ HL k' k j); [done|]. rewrite E. set_solver.
Qed.

Lemma family_remove s fuel hd L k i : fam s hd L -> i ∈ L k -> (length (L k) <= fuel)%nat ->
  exists s' h', SLIST_REMOVE fuel f s (hd k) i = Ok (s', h') /\
    (s' = s \/ (exists p a n, p <> i /\ s !! p = Some a /\ s' = <[p := with_next f a n]> s)) /\
    (forall hd', hd' k = h' -> (forall k', k' <> k -> hd' k' = hd k') -> fam s' hd' (fupd L k (rem i (L k)))).
Proof.
  intros HL Hi Hl.
  destruct (remove_spec f s fuel (hd k) (L k) i (fam_nodup _ _ _ HL k) Hi (fam_chain _ _ _ HL k) Hl)
    as (s' & h' & E & Hc & Hs).
  exists s', h'. split; [done|]. split.
  { destruct Hs as [->|(p & a & n & _ & ? & ? & ->)]; [by left|]. right. eauto 10. }
  intros hd' H1 H2. eapply family_upd; [exact HL|by rewrite H1| |done|].
  - apply NoDup_rem, (fam_nodup _ _ _ HL).
  - intros j k' Hk Hj. assert (j ∉ L k) as Hn by (intros Hj'; apply Hk; by apply (fam_disjoint _ _ _ HL k' k j)).
    split; [|intros Hj'; apply elem_rem in Hj' as [_ Hj']; done].
    destruct Hs as [->|(p & a & n & Hp & _ & Ha & ->)]; [done|].
    rewrite nexts_insert by done. rewrite decide_False; [done|]. by intros ->.
Qed.
End Families.
Arguments fupd {K _} L k l k' : simpl never.
