(* ===== verification/Dname.v ===== *)
(** * DNS name helpers (src/mdns/dname.c)

    A name is a sequence of labels, each a length byte followed by that many
    bytes, closed by a 0 byte; a byte with one of its two top bits set starts a
    two-byte pointer to another offset of the packet.  The functions take the
    buffer a name lives in and the offset of the name; [dref] pairs the buffer
    with the fact whether the C caller passed the start of that buffer as the
    raw packet [p], or passed NULL.  Loops that follow pointers take fuel,
    because the code does not bound them. *)
From S2P Require Import Prelude Buffer.

Definition MDNS_MAX_LABEL_LEN : Z := 63.
Definition MDNS_MAX_NAME_LEN : Z := 255.
Definition MDNS_MAX_KEYVAL_LEN : Z := 255.

(** ** Pointers *)

Definition IS_POINTER (c : Z) : bool := negb (Z.land c 0xC0 =? 0).

Definition POINTER (b : list Z) (d : Z) : res Z :=
  c0 ← rd b d;
  c1 ← rd b (d + 1);
  mret (Z.land (Z.lor (Z.shiftl (Z.land c0 (Z.lnot 0xC0)) 8) c1) 0xFFFF).

(** The memory a name lives in.  [d_base = true]: the packet pointer [p] is the
    start of [d_buf].  [d_base = false]: [p] is NULL. *)
Record dref := mkDref { d_buf : list Z; d_base : bool }.

(** [p + POINTER(n)]: with a NULL packet the result is not an address of any
    object and every caller dereferences it at once. *)
Definition follow (r : dref) (n : Z) : res Z :=
  o ← POINTER (d_buf r) n;
  if d_base r then mret o else Fault.

(** [while (IS_POINTER( *n)) n = p + POINTER(n);] *)
Fixpoint skip_pointers (fuel : nat) (r : dref) (n : Z) : res Z :=
  match fuel with
  | O => Diverge
  | S fuel' =>
      c ← rd (d_buf r) n;
      if IS_POINTER c then
        t ← follow r n;
        skip_pointers fuel' r t
      else mret n
  end.

(** ** Writing a label *)

(** [dname_put_label dst o label]: write the C string [label] at offset [o] of
    [dst], with its length before it and its terminating 0 after it; the result
    is the new buffer and the offset of that 0. *)
Definition dname_put_label (dst : list Z) (o : Z) (label : list Z) : res (list Z * Z) :=
  let len := u8 (Zlen label) in
  dst ← wr dst o len;
  dst ← wr_range dst (o + 1) (label ++ [0]);
  mret (dst, o + 1 + len).

(** ** Size *)

Fixpoint dname_size_loop (fuel : nat) (b : list Z) (start dname : Z) : res Z :=
  match fuel with
  | O => Diverge
  | S fuel' =>
      c ← rd b dname;
      if c =? 0 then mret (dname - start + 1)
      else if IS_POINTER c then mret (dname + 1 - start + 1)
      else if MDNS_MAX_LABEL_LEN <? c then mret (-1)
      else dname_size_loop fuel' b start (dname + (c + 1))
  end.

(** Every iteration advances by at least one byte, so the length of the buffer
    bounds the loop ([dname_size_terminates]). *)
Definition dname_size (b : list Z) (n : Z) : res Z :=
  dname_size_loop (S (length b)) b n n.

(** ** Comparison *)

(** [for (i = 0; i < min; i++) ...]: 0 when the [k] bytes agree. *)
Fixpoint cmp_bytes (k : nat) (b1 : list Z) (c1 : Z) (b2 : list Z) (c2 : Z) : res Z :=
  match k with
  | O => mret 0
  | S k' =>
      v1 ← rd b1 c1;
      v2 ← rd b2 c2;
      if v2 <? v1 then mret 1
      else if v1 <? v2 then mret (-1)
      else cmp_bytes k' b1 (c1 + 1) b2 (c2 + 1)
  end.

Definition dname_label_cmp (fuel : nat) (p1 : dref) (l1 : Z) (p2 : dref) (l2 : Z) : res Z :=
  l1 ← skip_pointers fuel p1 l1;
  l2 ← skip_pointers fuel p2 l2;
  v1 ← rd (d_buf p1) l1;
  v2 ← rd (d_buf p2) l2;
  let min := if v2 <? v1 then v2 else v1 in
  ret ← cmp_bytes (Z.to_nat min) (d_buf p1) (l1 + 1) (d_buf p2) (l2 + 1);
  if negb (ret =? 0) then mret ret
  else if v2 <? v1 then mret 1
  else if v1 <? v2 then mret (-1)
  else mret 0.

(** [None] is NULL. *)
Definition dname_label_next (fuel : nat) (p : dref) (n : Z) : res (option Z) :=
  n ← skip_pointers fuel p n;
  c ← rd (d_buf p) n;
  let n := n + (c + 1) in
  c ← rd (d_buf p) n;
  mret (if c =? 0 then None else Some n).

Fixpoint dname_cmp (fuel : nat) (p1 : dref) (n1 : Z) (p2 : dref) (n2 : Z) : res Z :=
  match fuel with
  | O => Diverge
  | S fuel' =>
      n1 ← skip_pointers fuel p1 n1;
      n2 ← skip_pointers fuel p2 n2;
      v1 ← rd (d_buf p1) n1;
      v2 ← rd (d_buf p2) n2;
      if (v1 =? 0) && (v2 =? 0) then mret 0
      else
        ret ← (if negb (v1 =? 0) && negb (v2 =? 0)
               then dname_label_cmp fuel p1 n1 p2 n2 else mret 0);
        if negb (ret =? 0) then mret ret
        else if negb (v1 =? 0) && (v2 =? 0) then mret 1
        else if (v1 =? 0) && negb (v2 =? 0) then mret (-1)
        else dname_cmp fuel' p1 (n1 + (v1 + 1)) p2 (n2 + (v2 + 1))
  end.

(** ** Renaming after a conflict *)

(** The characters of "-2" ... "-9". *)
Definition CH_DASH : Z := 45.
Definition CH_2 : Z := 50.
Definition CH_9 : Z := 57.
Definition CH_UNDERSCORE : Z := 95.
Definition CH_COLON : Z := 58.
Definition CH_DOT : Z := 46.

Definition dname_increment (name : list Z) : res (Z * list Z) :=
  len ← rd name 0;
  c1 ← rd name (len - 1);
  c2 ← (if c1 =? CH_DASH then rd name len else mret 0);
  if (c1 =? CH_DASH) && (CH_2 <=? c2) && (c2 <? CH_9) then
    name ← wr name len (c2 + 1);
    mret (0, name)
  else if (c1 =? CH_DASH) && (c2 =? CH_9) then mret (-1, name)
  else
    let newlen := len + 2 in
    if MDNS_MAX_LABEL_LEN <? newlen then
      name ← wr name (MDNS_MAX_LABEL_LEN - 1) CH_DASH;
      name ← wr name MDNS_MAX_LABEL_LEN CH_2;
      mret (0, name)
    else
      name ← wr name 0 newlen;
      slen ← strlen_at name 0;
      tail ← rd_range name (len + 1) (slen - len);
      name ← wr_range name (len + 3) tail;
      name ← wr name (len + 1) CH_DASH;
      name ← wr name (len + 2) CH_2;
      mret (0, name).

(** ** Separated text to labels *)

(** The string starts at offset [name] of [nb].  [rd_src] reads it; [dbuf] is
    the buffer written to, from offset [start].  [d] is [dest - start], so the
    source character of the iteration is at [name + d - 1]. *)
Fixpoint dnameify_loop (rd_src : list Z -> Z -> res Z) (name : Z) (sep : Z)
    (start : Z) (d : nat) (dbuf : list Z) (len labellen : Z) : res (Z * list Z) :=
  c ← rd_src dbuf (name + Z.of_nat d - 1);
  if (c =? sep) && (labellen =? 0) then mret (-1, dbuf)
  else
    match d with
    | O =>
        dbuf ← wr dbuf start labellen;
        if UINT16_MAX - len <? labellen then mret (-1, dbuf)
        else mret (len + (labellen + 1), dbuf)
    | S d' =>
        if c =? sep then
          dbuf ← wr dbuf (start + Z.of_nat d) labellen;
          if UINT16_MAX - len <? labellen then mret (-1, dbuf)
          else dnameify_loop rd_src name sep start d' dbuf (len + (labellen + 1)) 0
        else
          dbuf ← wr dbuf (start + Z.of_nat d) c;
          dnameify_loop rd_src name sep start d' dbuf len (labellen + 1)
    end.

(** [dest = None]: in place, the result buffer is [nb] rewritten.
    [dest = Some db]: the result is written from the start of [db]. *)
Definition dnameify (nb : list Z) (name : Z) (sep : Z) (dest : option (list Z)) : res (Z * list Z) :=
  len ← strlen_at nb name;
  match dest with
  | None => dnameify_loop (fun db i => rd db i) name sep name (Z.to_nat len) nb 0 0
  | Some db => dnameify_loop (fun _ i => rd nb i) name sep 0 (Z.to_nat len) db 0 0
  end.

(** ** Copies *)

Fixpoint dname_copy_loop (fuel : nat) (dst : list Z) (d : Z) (p : dref) (src len : Z) : res (Z * list Z) :=
  match fuel with
  | O => Diverge
  | S fuel' =>
      c ← rd (d_buf p) src;
      if c =? 0 then
        dst ← wr dst d 0;
        mret (0, dst)
      else
        src ← skip_pointers fuel p src;
        c ← rd (d_buf p) src;
        let len := len + (c + 1) in
        if MDNS_MAX_NAME_LEN <=? len then
          dst ← wr dst d 0;
          mret (-1, dst)
        else
          chunk ← rd_range (d_buf p) src (c + 1);
          dst ← wr_range dst d chunk;
          dname_copy_loop fuel' dst (d + (c + 1)) p (src + (c + 1)) len
  end.

Definition dname_copy (fuel : nat) (dst : list Z) (p : dref) (src : Z) : res (Z * list Z) :=
  dname_copy_loop fuel dst 0 p src 0.

(** [for (i = 0; i < len; i++)] of [dname_label_to_c]: the new buffer, the
    destination offset and the source offset. *)
Fixpoint label_to_c_loop (k : nat) (dst : list Z) (d : Z) (b : list Z) (src : Z)
    (keepuscores : Z) : res (list Z * Z * Z) :=
  match k with
  | O => mret (dst, d, src)
  | S k' =>
      c ← rd b src;
      if (keepuscores =? 0) && (c =? CH_UNDERSCORE) then
        label_to_c_loop k' dst d b (src + 1) keepuscores
      else
        dst ← wr dst d c;
        label_to_c_loop k' dst (d + 1) b (src + 1) keepuscores
  end.

(** The result pointer ([None] is NULL) and the destination buffer. *)
Definition dname_label_to_c (fuel : nat) (dst : list Z) (p : dref) (src : Z)
    (keepuscores : Z) : res (option Z * list Z) :=
  src ← skip_pointers fuel p src;
  len ← rd (d_buf p) src;
  let src := src + 1 in
  if MDNS_MAX_LABEL_LEN <=? len then mret (None, dst)
  else
    '(dst, d, src) ← label_to_c_loop (Z.to_nat len) dst 0 (d_buf p) src keepuscores;
    dst ← wr dst d 0;
    mret (Some src, dst).

(** ** TXT data *)

Fixpoint txt_to_c_loop (fuel : nat) (dst : list Z) (d : Z) (b : list Z) (txt : Z)
    (tlen remaining : Z) : res (list Z) :=
  match fuel with
  | O => Diverge
  | S fuel' =>
      c ← rd b txt;
      if (c =? 0) || (tlen =? 0) then wr dst d 0
      else if remaining <? c then
        txt_to_c_loop fuel' dst d b (txt + (c + 1)) tlen remaining
      else
        chunk ← rd_range b (txt + 1) c;
        dst ← wr_range dst d chunk;
        let remaining := remaining - c in
        let tlen := tlen - (c + 1) in
        let d := d + c in
        let txt := txt + (c + 1) in
        if (remaining =? 0) || (remaining =? 1) || (tlen =? 0) then wr dst d 0
        else
          dst ← wr dst d CH_COLON;
          txt_to_c_loop fuel' dst (d + 1) b txt tlen remaining
  end.

(** Each iteration advances [txt] by at least two bytes (a 0 byte stops it), so
    the length of the source buffer bounds the loop. *)
Definition txt_to_c_ncpy (dst : list Z) (dlen : Z) (b : list Z) (txt tlen : Z) : res (list Z) :=
  txt_to_c_loop (S (length b)) dst 0 b txt tlen (dlen - 1).

(** ** Bounds check of a received name *)

(** the inner [while (IS_POINTER( *n))]: [inr n] goes on at [n], [inl] returns. *)
Fixpoint overrun_pointers (fuel : nat) (r : dref) (e n : Z) : res (Z + Z) :=
  match fuel with
  | O => Diverge
  | S fuel' =>
      c ← rd (d_buf r) n;
      if IS_POINTER c then
        t ← follow r n;
        if e <? t then mret (inl 1)
        else overrun_pointers fuel' r e t
      else mret (inr n)
  end.

Fixpoint dname_overrun (fuel : nat) (r : dref) (e n : Z) : res Z :=
  match fuel with
  | O => Diverge
  | S fuel' =>
      if e <? n then mret 1
      else
        c ← rd (d_buf r) n;
        if c =? 0 then mret 0
        else
          st ← overrun_pointers fuel r e n;
          match st with
          | inl v => mret v
          | inr n =>
              c ← rd (d_buf r) n;
              dname_overrun fuel' r e (n + (c + 1))
          end
  end.

(** ** The test helper that turns "a.b" into a name *)

(** [label] and [dst] are offsets into the destination. *)
Fixpoint c_to_dname_loop (src : list Z) (buf : list Z) (label dst len : Z) : res (Z * list Z) :=
  match src with
  | [] =>
      buf ← wr buf dst 0;
      buf ← wr buf label len;
      mret (0, buf)
  | c :: src' =>
      if 63 <? len then mret (-1, buf)
      else if c =? CH_DOT then
        buf ← wr buf label len;
        c_to_dname_loop src' buf dst (dst + 1) 0
      else
        buf ← wr buf dst c;
        c_to_dname_loop src' buf label (dst + 1) (len + 1)
  end.

Definition c_to_dname (buf : list Z) (src : list Z) : res (Z * list Z) :=
  c_to_dname_loop src buf 0 1 0.
