(* ===== verification/DnameSpec.v ===== *)
(** * What the name helpers compute

    [name_at r n ls]: the bytes at [n] decode to the labels [ls].  The
    functions of Dname.v are related to this relation: size, comparison, copy,
    bounds check, renaming, and the conversions between separated text and
    labels. *)
From S2P Require Import Prelude Buffer Dname.

(** ** Labels and their encoding *)

Definition valid_label (l : list Z) : Prop := 1 <= Zlen l <= 63 /\ bytes l.

Definition encode_label (l : list Z) : list Z := Zlen l :: l.
Definition encode_labels (ls : list (list Z)) : list Z := concat (encode_label <$> ls).
(** an uncompressed name *)
Definition encode (ls : list (list Z)) : list Z := encode_labels ls ++ [0].

(** ** Pointers on bytes *)

Lemma byte_cases (P : Z -> bool) :
  forallb (fun n => P (Z.of_nat n)) (seq 0 256) = true -> forall c, is_byte c -> P c = true.
Proof.
  intros H c [H0 H1]. rewrite forallb_forall in H.
  rewrite <- (Z2Nat.id c) by lia. apply H. apply in_seq. lia.
Qed.

Lemma is_pointer_byte c : is_byte c -> IS_POINTER c = (64 <=? c).
Proof.
  intros Hc. apply eqb_prop.
  apply (byte_cases (fun c => eqb (IS_POINTER c) (64 <=? c))); [by vm_compute|done].
Qed.

Lemma pointer_high_bits c : is_byte c -> Z.land c (Z.lnot 0xC0) = c mod 64.
Proof.
  intros Hc. apply Z.eqb_eq.
  apply (byte_cases (fun c => Z.land c (Z.lnot 0xC0) =? c mod 64)); [by vm_compute|done].
Qed.

Lemma POINTER_spec b n c0 c1 :
  rd b n = Ok c0 -> rd b (n + 1) = Ok c1 -> is_byte c0 -> is_byte c1 ->
  POINTER b n = Ok (c0 mod 64 * 256 + c1).
Proof.
  intros H0 H1 B0 B1. unfold POINTER. rewrite H0; simpl. rewrite H1; simpl.
  rewrite pointer_high_bits by done. unfold is_byte in *. rewrite lor_shiftl by lia.
  pose proof (Z.mod_pos_bound c0 64 ltac:(lia)).
  unfold mret, res_ret. f_equal. change 0xFFFF with (Z.ones 16).
  rewrite Z.land_ones by lia. apply Z.mod_small. lia.
Qed.

Lemma follow_range r n t : bytes (d_buf r) -> follow r n = Ok t -> 0 <= t < 16384.
Proof.
  intros Hb. unfold follow, POINTER. intros H. repeat inv_bind.
  case_match; [|done]. repeat inv_bind.
  assert (Hp : POINTER (d_buf r) n = Ok (x0 mod 64 * 256 + x1)).
  { apply POINTER_spec; eauto using rd_byte. }
  unfold POINTER in Hp. rewrite Hx0 in Hp; simpl in Hp. rewrite Hx1 in Hp; simpl in Hp.
  injection Hp as Hp. pose proof (rd_byte _ _ _ Hb Hx1) as [? ?].
  pose proof (Z.mod_pos_bound x0 64 ltac:(lia)). lia.
Qed.

(** ** Decoding *)

Inductive name_at (r : dref) : Z -> list (list Z) -> Prop :=
| name_at_end n :
    rd (d_buf r) n = Ok 0 -> name_at r n []
| name_at_label n l ls :
    rd (d_buf r) n = Ok (Zlen l) -> 1 <= Zlen l <= 63 ->
    holds (d_buf r) (n + 1) l -> name_at r (n + 1 + Zlen l) ls ->
    name_at r n (l :: ls)
| name_at_pointer n c t ls :
    rd (d_buf r) n = Ok c -> 64 <= c < 256 -> follow r n = Ok t -> name_at r t ls ->
    name_at r n ls.

Lemma encode_cons l ls : encode (l :: ls) = Zlen l :: l ++ encode ls.
Proof. unfold encode, encode_labels. simpl. by rewrite <- app_assoc. Qed.

Lemma encode_labels_cons l ls : encode_labels (l :: ls) = Zlen l :: l ++ encode_labels ls.
Proof. done. Qed.

Lemma encode_labels_app ls ks : encode_labels (ls ++ ks) = encode_labels ls ++ encode_labels ks.
Proof. unfold encode_labels. by rewrite fmap_app, concat_app. Qed.

Lemma Zlen_encode ls : Zlen (encode ls) = Zlen (encode_labels ls) + 1.
Proof. unfold encode. by zlen. Qed.

Lemma bytes_encode_labels ls : Forall valid_label ls -> bytes (encode_labels ls).
Proof.
  induction 1 as [|l ls [Hl Hb] _ IH]; [constructor|]. rewrite encode_labels_cons.
  constructor; [unfold is_byte; lia|]. apply Forall_app. auto.
Qed.

Lemma bytes_encode ls : Forall valid_label ls -> bytes (encode ls).
Proof.
  intros. apply Forall_app. split; [by apply bytes_encode_labels|].
  constructor; [unfold is_byte; lia|constructor].
Qed.

Lemma name_at_encode r n ls :
  Forall valid_label ls -> holds (d_buf r) n (encode ls) -> name_at r n ls.
Proof.
  intros Hv. revert n. induction Hv as [|l ls [Hl _] _ IH]; intros n H.
  - apply name_at_end. by apply holds_rd.
  - rewrite encode_cons in H. apply holds_cons in H as [H1 H2].
    apply holds_app in H2 as [H2 H3]. apply name_at_label; auto.
Qed.

(** The labels at an offset are determined. *)
Lemma name_at_inj r n ls ks : name_at r n ls -> name_at r n ks -> ls = ks.
Proof.
  intros H. revert ks.
  induction H as [n Hn|n l ls Hn Hl Hh _ IH|n c t ls Hn Hc Ht _ IH]; intros ks K;
    inversion K as [? K1|? l' ls' K1 K2 K3 K4|? c' t' ? K1 K2 K3 K4]; subst;
    rewrite Hn in K1; try (injection K1 as K1); try lia; [done| |].
  - rewrite <- K1 in K4. apply IH in K4 as ->. f_equal.
    assert (rd_range (d_buf r) (n + 1) (Zlen l) = Ok l) as E1 by (by apply rd_range_holds).
    assert (rd_range (d_buf r) (n + 1) (Zlen l) = Ok l') as E2 by (by apply rd_range_holds).
    congruence.
  - rewrite Ht in K3. injection K3 as <-. by apply IH.
Qed.

Lemma name_at_valid r n ls : bytes (d_buf r) -> name_at r n ls -> Forall valid_label ls.
Proof.
  intros Hb. induction 1; [constructor| |done].
  constructor; [|done]. split; [done|]. by eapply holds_byte.
Qed.

(** Skipping pointers ends on a byte that is not a pointer. *)
Lemma skip_pointers_here fuel r n c :
  rd (d_buf r) n = Ok c -> 0 <= c < 64 -> skip_pointers (S fuel) r n = Ok n.
Proof.
  intros H Hc. simpl. rewrite H. simpl.
  rewrite is_pointer_byte by (unfold is_byte; lia). by dec.
Qed.

Lemma skip_pointers_step fuel r n c t :
  rd (d_buf r) n = Ok c -> 64 <= c < 256 -> follow r n = Ok t ->
  skip_pointers (S fuel) r n = skip_pointers fuel r t.
Proof.
  intros H Hc Ht. simpl. rewrite H. simpl.
  rewrite is_pointer_byte by (unfold is_byte; lia). dec. by rewrite Ht.
Qed.

(** ** Where a name really starts: [resolved r n t] when skipping the pointers
    at [n] ends at [t]. *)
Definition resolved (r : dref) (n t : Z) : Prop := returns (fun fuel => skip_pointers fuel r n) t.

Lemma resolved_here r n c : rd (d_buf r) n = Ok c -> 0 <= c < 64 -> resolved r n n.
Proof.
  intros. exists 1%nat. intros [|fuel] Hf; [lia|]. by eapply skip_pointers_here.
Qed.

Lemma resolved_step r n c t t' :
  rd (d_buf r) n = Ok c -> 64 <= c < 256 -> follow r n = Ok t -> resolved r t t' -> resolved r n t'.
Proof.
  intros. eapply (returns_S _ (fun fuel => skip_pointers fuel r t)); [|done].
  intros. by eapply skip_pointers_step.
Qed.

(** A decodable name resolves to a byte that is 0 (no labels) or to its first
    label. *)
Lemma name_at_resolved r n ls :
  name_at r n ls ->
  exists t, resolved r n t /\
    match ls with
    | [] => rd (d_buf r) t = Ok 0
    | l :: ls' => rd (d_buf r) t = Ok (Zlen l) /\ 1 <= Zlen l <= 63 /\
        holds (d_buf r) (t + 1) l /\ name_at r (t + 1 + Zlen l) ls'
    end.
Proof.
  induction 1 as [n H|n l ls H Hl Hh Hn _|n c t ls H Hc Ht _ (t' & Hr & Hm)].
  - exists n. split; [|done]. eapply resolved_here; [done|lia].
  - exists n. split; [|done]. eapply resolved_here; [done|lia].
  - exists t'. split; [|done]. eauto using resolved_step.
Qed.

(** ** Size *)

Lemma dname_size_loop_labels fuel b start n ls k :
  Forall valid_label ls -> holds b n (encode_labels ls) -> (length ls <= fuel)%nat ->
  dname_size_loop (fuel + k) b start n =
  dname_size_loop (fuel - length ls + k) b start (n + Zlen (encode_labels ls)).
Proof.
  intros Hv. revert fuel n. induction Hv as [|l ls [Hl _] _ IH]; intros fuel n H Hf.
  - simpl. rewrite Nat.sub_0_r. f_equal. unfold Zlen. simpl. lia.
  - rewrite encode_labels_cons in *. apply holds_cons in H as [H1 H2].
    apply holds_app in H2 as [_ H2]. destruct fuel as [|fuel]; [simpl in Hf; lia|].
    simpl. rewrite H1. simpl. dec.
    rewrite is_pointer_byte by (unfold is_byte; lia). unfold MDNS_MAX_LABEL_LEN. dec.
    rewrite IH by (simpl in Hf; first [lia | by replace (n + (Zlen l + 1)) with (n + 1 + Zlen l) by lia]).
    f_equal. zlen. lia.
Qed.

Lemma length_labels_le b n ls k :
  Forall valid_label ls -> holds b n (encode_labels ls ++ k) -> (length ls <= length b)%nat.
Proof.
  intros Hv (H0 & H1 & _). zlen.
  assert (Z.of_nat (length ls) <= Zlen (encode_labels ls)).
  { clear -Hv. induction Hv as [|l ls [? _] _ IH]; [unfold Zlen; simpl; lia|].
    rewrite encode_labels_cons. zlen. simpl. lia. }
  pose proof (Zlen_nonneg k). unfold Zlen in *. lia.
Qed.

(** The size of a name written out in full counts every byte of it. *)
Lemma dname_size_encode b n ls :
  Forall valid_label ls -> holds b n (encode ls) -> dname_size b n = Ok (Zlen (encode ls)).
Proof.
  intros Hv H. unfold dname_size. pose proof (length_labels_le _ _ _ _ Hv H) as HL.
  rewrite <- Nat.add_1_r. unfold encode in H. apply holds_app in H as [H1 H2].
  apply holds_rd in H2. rewrite (dname_size_loop_labels _ _ _ _ ls) by done.
  rewrite Nat.add_1_r. simpl. rewrite H2. simpl. rewrite Zlen_encode.
  unfold mret, res_ret. f_equal. lia.
Qed.

(** A name whose last labels are given by a pointer takes two bytes for the
    pointer, whatever it points to. *)
Lemma dname_size_compressed b n ls c0 c1 :
  Forall valid_label ls -> 64 <= c0 < 256 -> holds b n (encode_labels ls ++ [c0; c1]) ->
  dname_size b n = Ok (Zlen (encode_labels ls) + 2).
Proof.
  intros Hv Hc H. unfold dname_size. pose proof (length_labels_le _ _ _ _ Hv H) as HL.
  rewrite <- Nat.add_1_r. apply holds_app in H as [H1 H2].
  apply holds_cons in H2 as [H2 _]. rewrite (dname_size_loop_labels _ _ _ _ ls) by done.
  rewrite Nat.add_1_r. simpl. rewrite H2. simpl. dec.
  rewrite is_pointer_byte by (unfold is_byte; lia). dec. unfold mret, res_ret. f_equal. lia.
Qed.

(** Each iteration moves forward, so the loop ends within the buffer. *)
Lemma dname_size_loop_total fuel b start n :
  bytes b -> (1 <= fuel)%nat -> Zlen b - n < Z.of_nat fuel ->
  dname_size_loop fuel b start n <> Diverge /\ dname_size_loop fuel b start n <> Ok (-1) \/ n < 0 \/ n < start.
Proof.
  intros Hb. revert n. induction fuel as [|fuel IH]; intros n H1 Hf; [lia|]. simpl.
  destruct (rd b n) as [c| |] eqn:E; [|by left|unfold rd in E; by repeat case_match]. simpl.
  pose proof (rd_bounds _ _ _ E). pose proof (rd_byte _ _ _ Hb E) as [? ?].
  destruct (decide (n < start)); [by right; right|]. left.
  case_match; [split; [done|]; intros [= ?]; lia|].
  rewrite is_pointer_byte by done. case_match; [split; [done|]; intros [= ?]; lia|]. b2p.
  unfold MDNS_MAX_LABEL_LEN. dec.
  destruct (IH (n + (c + 1))) as [?|?]; [lia|lia|done|lia].
Qed.

Lemma dname_size_total b n : bytes b -> dname_size b n <> Diverge /\ dname_size b n <> Ok (-1).
Proof.
  intros Hb. unfold dname_size. destruct (Z.lt_ge_cases n 0).
  - simpl. unfold rd. by dec.
  - destruct (dname_size_loop_total (S (length b)) b n n) as [?|?]; [done|lia|unfold Zlen; lia|done|lia].
Qed.

(** The size of a name that is not at the end of the buffer is positive. *)
Lemma dname_size_loop_pos fuel b start n v :
  bytes b -> start <= n -> dname_size_loop fuel b start n = Ok v -> 1 <= v.
Proof.
  intros Hb. revert n. induction fuel as [|fuel IH]; intros n Hn H; [done|]. simpl in H.
  inv_bind. pose proof (rd_byte _ _ _ Hb Hx) as [? ?].
  case_match; [inv_bind; lia|]. rewrite is_pointer_byte in H by done.
  case_match; [inv_bind; lia|]. b2p. unfold MDNS_MAX_LABEL_LEN in H.
  replace (63 <? x) with false in H by (symmetry; apply Z.ltb_ge; lia).
  eapply (IH (n + (x + 1))); [lia|done].
Qed.

Lemma dname_size_pos b n v : bytes b -> dname_size b n = Ok v -> 1 <= v.
Proof. intros Hb. apply dname_size_loop_pos; [done|lia]. Qed.

(** ** Comparison *)

(** Lexicographic order on bytes; a proper prefix is smaller. *)
Fixpoint label_cmp (l1 l2 : list Z) : Z :=
  match l1, l2 with
  | [], [] => 0
  | [], _ :: _ => -1
  | _ :: _, [] => 1
  | x :: l1', y :: l2' => if y <? x then 1 else if x <? y then -1 else label_cmp l1' l2'
  end.

(** Names compare label by label, from the first label on. *)
Fixpoint names_cmp (n1 n2 : list (list Z)) : Z :=
  match n1, n2 with
  | [], [] => 0
  | [], _ :: _ => -1
  | _ :: _, [] => 1
  | l1 :: n1', l2 :: n2' =>
      if label_cmp l1 l2 =? 0 then names_cmp n1' n2' else label_cmp l1 l2
  end.

Lemma label_cmp_range l1 l2 : -1 <= label_cmp l1 l2 <= 1.
Proof.
  revert l2. induction l1 as [|x l1 IH]; intros [|y l2]; simpl; try lia.
  repeat case_match; try lia. apply IH.
Qed.

Lemma label_cmp_eq l1 l2 : label_cmp l1 l2 = 0 <-> l1 = l2.
Proof.
  revert l2. induction l1 as [|x l1 IH]; intros [|y l2]; simpl; try done.
  repeat case_match; b2p; split; try (intros; simplify_eq; lia).
  - intros ->%IH. f_equal. lia.
  - intros [= -> ->]. by apply IH.
Qed.

Lemma label_cmp_opp l1 l2 : label_cmp l1 l2 = - label_cmp l2 l1.
Proof.
  revert l2. induction l1 as [|x l1 IH]; intros [|y l2]; simpl; try done.
  repeat case_match; b2p; try lia. apply IH.
Qed.

Lemma names_cmp_eq n1 n2 : names_cmp n1 n2 = 0 <-> n1 = n2.
Proof.
  revert n2. induction n1 as [|x n1 IH]; intros [|y n2]; simpl; try done.
  case_match; b2p.
  - apply label_cmp_eq in H as ->. rewrite IH. split; [by intros ->|by intros [= ->]].
  - split; [done|]. intros [= -> _]. by rewrite (proj2 (label_cmp_eq y y)) in H.
Qed.

Lemma names_cmp_opp n1 n2 : names_cmp n1 n2 = - names_cmp n2 n1.
Proof.
  revert n2. induction n1 as [|x n1 IH]; intros [|y n2]; simpl; try done.
  rewrite (label_cmp_opp x y). repeat case_match; b2p; try lia. apply IH.
Qed.

Lemma names_cmp_range n1 n2 : -1 <= names_cmp n1 n2 <= 1.
Proof.
  revert n2. induction n1 as [|x n1 IH]; intros [|y n2]; simpl; try lia.
  pose proof (label_cmp_range x y). case_match; [apply IH|done].
Qed.

(** The order is transitive on names that are not below each other. *)
Lemma label_cmp_trans l1 l2 l3 :
  label_cmp l1 l2 <= 0 -> label_cmp l2 l3 <= 0 -> label_cmp l1 l3 <= 0.
Proof.
  revert l2 l3. induction l1 as [|x l1 IH]; intros [|y l2] [|z l3]; simpl; try lia.
  intros H1 H2. repeat case_match; b2p; try lia.
  assert (x = y) as -> by lia. assert (y = z) as -> by lia. by apply (IH l2).
Qed.

(** Comparing the first [min] bytes and then the lengths is [label_cmp]. *)
Lemma cmp_bytes_spec b1 o1 b2 o2 l1 l2 :
  holds b1 o1 l1 -> holds b2 o2 l2 ->
  exists v, cmp_bytes (length l1 `min` length l2)%nat b1 o1 b2 o2 = Ok v /\
    label_cmp l1 l2 = if negb (v =? 0) then v
                      else if Zlen l2 <? Zlen l1 then 1 else if Zlen l1 <? Zlen l2 then -1 else 0.
Proof.
  revert o1 o2 l2. induction l1 as [|x l1 IH]; intros o1 o2 [|y l2] H1 H2; simpl.
  1-3: exists 0; split; [done|]; simpl; zlen.
  1: done. 1: pose proof (Zlen_nonneg l2); by dec. 1: pose proof (Zlen_nonneg l1); by dec.
  apply holds_cons in H1 as [R1 H1]. apply holds_cons in H2 as [R2 H2].
  rewrite R1; simpl. rewrite R2; simpl. zlen.
  case_match; [by exists 1|]. case_match; [by exists (-1)|].
  destruct (IH _ _ _ H1 H2) as (v & Hv & ->). exists v. split; [done|].
  replace (1 + Zlen l2 <? 1 + Zlen l1) with (Zlen l2 <? Zlen l1) by lia.
  replace (1 + Zlen l1 <? 1 + Zlen l2) with (Zlen l1 <? Zlen l2) by lia. done.
Qed.

Lemma dname_label_cmp_spec p1 n1 t1 l1 p2 n2 t2 l2 :
  resolved p1 n1 t1 -> resolved p2 n2 t2 ->
  rd (d_buf p1) t1 = Ok (Zlen l1) -> holds (d_buf p1) (t1 + 1) l1 ->
  rd (d_buf p2) t2 = Ok (Zlen l2) -> holds (d_buf p2) (t2 + 1) l2 ->
  returns (fun fuel => dname_label_cmp fuel p1 n1 p2 n2) (label_cmp l1 l2).
Proof.
  intros R1 R2 L1 H1 L2 H2. unfold dname_label_cmp.
  apply (returns_bind _ _ _ _ R1). apply (returns_bind _ _ _ _ R2).
  apply returns_const. rewrite L1; simpl. rewrite L2; simpl.
  destruct (cmp_bytes_spec _ _ _ _ _ _ H1 H2) as (v & Hv & ->).
  replace (Z.to_nat _) with (length l1 `min` length l2)%nat.
  { rewrite Hv. simpl. by repeat case_match. }
  unfold Zlen. case_match; b2p; lia.
Qed.

Lemma dname_cmp_spec p1 n1 ls1 p2 n2 ls2 :
  name_at p1 n1 ls1 -> name_at p2 n2 ls2 ->
  returns (fun fuel => dname_cmp fuel p1 n1 p2 n2) (names_cmp ls1 ls2).
Proof.
  revert n1 ls2 n2. induction ls1 as [|l1 ls1 IH]; intros n1 ls2 n2 N1 N2.
  all: apply name_at_resolved in N1 as (t1 & R1 & N1), N2 as (t2 & R2 & N2).
  all: destruct ls2 as [|l2 ls2].
  all: eapply returns_S; [intros fuel; reflexivity|].
  all: apply (returns_bind _ _ _ _ (returns_succ _ _ R1)).
  all: apply (returns_bind _ _ _ _ (returns_succ _ _ R2)).
  - apply returns_all. intros. rewrite N1; simpl. by rewrite N2.
  - apply returns_all. intros. destruct N2 as (B1 & B2 & _). rewrite N1; simpl. rewrite B1; simpl. by dec.
  - apply returns_all. intros. destruct N1 as (A1 & A2 & _). rewrite A1; simpl. rewrite N2; simpl. by dec.
  - destruct N1 as (A1 & A2 & A3 & A4), N2 as (B1 & B2 & B3 & B4).
    eapply returns_ext; [intros fuel; rewrite A1; simpl; rewrite B1; simpl; dec; simpl; reflexivity|].
    eapply returns_bind.
    { eapply (returns_succ (fun fuel => dname_label_cmp fuel p1 t1 p2 t2)), dname_label_cmp_spec.
      - eapply resolved_here; [done|lia].
      - eapply resolved_here; [done|lia].
      - done.
      - done.
      - done.
      - done. }
    simpl. destruct (label_cmp l1 l2 =? 0); simpl; [|by apply returns_const].
    replace (t1 + (Zlen l1 + 1)) with (t1 + 1 + Zlen l1) by lia.
    replace (t2 + (Zlen l2 + 1)) with (t2 + 1 + Zlen l2) by lia. by apply IH.
Qed.

(** ** The next label *)

Lemma dname_label_next_spec r n l ls :
  name_at r n (l :: ls) -> bytes (d_buf r) ->
  exists t, returns (fun fuel => dname_label_next fuel r n) t /\
    match t with
    | None => exists m, rd (d_buf r) m = Ok 0 /\ ls = []
    | Some m => name_at r m ls /\ rd (d_buf r) m <> Ok 0
    end.
Proof.
  intros (t & R & L & _ & H & N)%name_at_resolved Hb.
  assert (exists c, rd (d_buf r) (t + 1 + Zlen l) = Ok c) as [c Hc].
  { inversion N; eauto. }
  exists (if c =? 0 then None else Some (t + 1 + Zlen l)). split.
  - unfold dname_label_next. apply (returns_bind _ _ _ _ R).
    apply returns_const. rewrite L; simpl.
    replace (t + (Zlen l + 1)) with (t + 1 + Zlen l) by lia. by rewrite Hc.
  - destruct (c =? 0) eqn:E; b2p; [|split; [done|congruence]].
    exists (t + 1 + Zlen l). subst. split; [done|].
    inversion N as [| ? ? ? K |? ? ? ? K]; subst; [done| |]; rewrite Hc in K; injection K; lia.
Qed.

(** ** The bounds check of received names *)

(** The name at [n] decodes to [ls] and lies inside a packet whose last byte is at
    [e]: every length byte, every label and the end.  Of a pointer the first byte
    is inside. *)
Inductive name_within (r : dref) (e : Z) : Z -> list (list Z) -> Prop :=
| within_end n :
    n <= e -> rd (d_buf r) n = Ok 0 -> name_within r e n []
| within_label n l ls :
    rd (d_buf r) n = Ok (Zlen l) -> 1 <= Zlen l <= 63 ->
    holds (d_buf r) (n + 1) l -> n + 1 + Zlen l <= e -> name_within r e (n + 1 + Zlen l) ls ->
    name_within r e n (l :: ls)
| within_pointer n c t ls :
    n <= e -> rd (d_buf r) n = Ok c -> 64 <= c < 256 -> follow r n = Ok t -> name_within r e t ls ->
    name_within r e n ls.

Lemma name_within_at r e n ls : name_within r e n ls -> name_at r n ls.
Proof. induction 1; [by apply name_at_end|by apply name_at_label|by eapply name_at_pointer]. Qed.

Lemma name_within_le r e n ls : name_within r e n ls -> n <= e.
Proof. destruct 1; lia. Qed.

Lemma overrun_pointers_spec fuel r e n st :
  bytes (d_buf r) -> n <= e -> overrun_pointers fuel r e n = Ok st ->
  match st with
  | inl v => v = 1
  | inr t => (exists c, rd (d_buf r) t = Ok c /\ 0 <= c < 64) /\ t <= e /\
      (forall ls, name_within r e t ls -> name_within r e n ls)
  end.
Proof.
  intros Hb. revert n. induction fuel as [|fuel IH]; intros n Hn H; [done|]. simpl in H.
  inv_bind. pose proof (rd_byte _ _ _ Hb Hx) as Bx. rewrite is_pointer_byte in H by done.
  case_match; b2p; unfold is_byte in *.
  - inv_bind. case_match; [by inv_bind; subst|]. b2p. apply IH in H; [|lia]. destruct st; [done|].
    destruct H as (? & ? & K). split; [done|]. split; [lia|].
    intros ls Hls. eapply within_pointer; eauto. lia.
  - inv_bind. subst. split; [exists x; split; [done|lia]|]. split; [lia|done].
Qed.

(** A name that passes the check can be decoded inside the packet, and no later
    walk over it loops. *)
Lemma dname_overrun_sound fuel r e n :
  bytes (d_buf r) -> e < Zlen (d_buf r) -> dname_overrun fuel r e n = Ok 0 ->
  exists ls, name_within r e n ls.
Proof.
  intros Hb He. revert n. induction fuel as [|fuel IH]; intros n H; [done|]. cbn [dname_overrun] in H.
  case_match; [done|]. inv_bind. case_match; b2p.
  { subst. exists []. apply within_end; [lia|done]. }
  inv_bind. apply overrun_pointers_spec in Hx0; [|done|lia]. destruct x0 as [v|t]; [by subst; inv_bind|].
  destruct Hx0 as ((c & Hc & Bc) & Ht & Hlift). rewrite Hc in H. simpl in H.
  destruct (decide (c = 0)) as [->|].
  { exists []. apply Hlift. by apply within_end. }
  apply IH in H as [ls Hls]. pose proof (name_within_le _ _ _ _ Hls).
  pose proof (rd_bounds _ _ _ Hc).
  destruct (rd_range (d_buf r) (t + 1) c) as [l| |] eqn:Hl.
  - apply rd_range_holds in Hl as [-> Hl]. exists (l :: ls). apply Hlift.
    apply within_label; [done|lia|done|lia|]. by replace (t + 1 + Zlen l) with (t + (Zlen l + 1)) by lia.
  - unfold rd_range in Hl. replace ((t + 1 <? 0) || (c <? 0) || (Zlen (d_buf r) <? t + 1 + c)) with false in Hl; [done|].
    symmetry. repeat (apply orb_false_intro); apply Z.ltb_ge; lia.
  - unfold rd_range in Hl. by case_match.
Qed.

(** A name written out in full inside the packet passes the check. *)
Lemma dname_overrun_encode r e n ls :
  Forall valid_label ls -> holds (d_buf r) n (encode ls) -> n + Zlen (encode ls) - 1 <= e ->
  returns (fun fuel => dname_overrun fuel r e n) 0.
Proof.
  intros Hv. revert n. induction Hv as [|l ls [Hl _] _ IH]; intros n H He.
  - apply holds_rd in H. eapply returns_S; [intros; reflexivity|]. apply returns_all. intros.
    unfold Zlen in He. simpl in He. cbn [dname_overrun]. dec. by rewrite H.
  - rewrite encode_cons in *. zlen. apply holds_cons in H as [H1 H2].
    apply holds_app in H2 as [H2 H3]. pose proof (Zlen_nonneg (encode ls)).
    eapply returns_S; [intros; reflexivity|].
    eapply (returns_ext (fun fuel => dname_overrun fuel r e (n + 1 + Zlen l))); [|apply IH; [done|lia]].
    intros fuel. cbn [dname_overrun]. dec. rewrite H1; simpl. dec. rewrite H1; simpl.
    rewrite is_pointer_byte by (unfold is_byte; lia).
    dec. simpl. rewrite H1. simpl. f_equal. lia.
Qed.

(** A pointer to itself inside the packet: the check never returns. *)
Lemma overrun_pointers_self fuel r e n c :
  rd (d_buf r) n = Ok c -> 64 <= c < 256 -> follow r n = Ok n -> n <= e ->
  overrun_pointers fuel r e n = Diverge.
Proof.
  intros Hr Hc Hf He. induction fuel as [|fuel IH]; [done|]. simpl. rewrite Hr. simpl.
  rewrite is_pointer_byte by (unfold is_byte; lia). dec. rewrite Hf. simpl. by dec.
Qed.

Lemma dname_overrun_self fuel r e n c :
  rd (d_buf r) n = Ok c -> 64 <= c < 256 -> follow r n = Ok n -> n <= e ->
  dname_overrun fuel r e n = Diverge.
Proof.
  intros Hr Hc Hf He. destruct fuel as [|fuel]; [done|]. cbn [dname_overrun]. dec.
  rewrite Hr. cbn [mbind res_bind]. dec. by erewrite overrun_pointers_self.
Qed.

(** ** Copying a name *)

(** Like [name_at], but no pointer leads straight to the end of a name: the
    names [dname_copy] handles (see [copy_pointer_to_root]). *)
Inductive copyable (r : dref) : Z -> list (list Z) -> Prop :=
| copyable_end n :
    rd (d_buf r) n = Ok 0 -> copyable r n []
| copyable_label n t l ls :
    (exists c, rd (d_buf r) n = Ok c /\ c <> 0) -> resolved r n t ->
    rd (d_buf r) t = Ok (Zlen l) -> 1 <= Zlen l <= 63 ->
    holds (d_buf r) (t + 1) l -> copyable r (t + 1 + Zlen l) ls ->
    copyable r n (l :: ls).

Lemma copyable_encode r n ls :
  Forall valid_label ls -> holds (d_buf r) n (encode ls) -> copyable r n ls.
Proof.
  intros Hv. revert n. induction Hv as [|l ls [Hl _] _ IH]; intros n H.
  - apply copyable_end. by apply holds_rd.
  - rewrite encode_cons in H. apply holds_cons in H as [H1 H2].
    apply holds_app in H2 as [H2 H3]. apply (copyable_label _ _ n); auto.
    + exists (Zlen l). split; [done|lia].
    + eapply resolved_here; [done|lia].
Qed.

Lemma dname_copy_loop_spec r n ls dst d len pre :
  copyable r n ls -> 0 <= len -> len = d -> holds dst 0 pre -> Zlen pre = d ->
  d + Zlen (encode ls) <= 255 -> 255 <= Zlen dst ->
  exists dst', returns (fun fuel => dname_copy_loop fuel dst d r n len) (0, dst') /\
    holds dst' 0 (pre ++ encode ls) /\ Zlen dst' = Zlen dst.
Proof.
  intros H. revert dst d len pre. induction H as [n H|n t l ls (c & Hc & Nc) R L Hl Hh _ IH];
    intros dst d len pre H0 -> Hp <- Hs Hd.
  - unfold Zlen at 2 in Hs. simpl in Hs.
    destruct (wr_range_exists dst (Zlen pre) [0]) as [dst' Hw]; [lia|by unfold Zlen at 2; simpl; lia|].
    exists dst'. split_and!.
    + eapply returns_S; [intros; reflexivity|]. apply returns_all. intros. cbn [dname_copy_loop].
      rewrite H. simpl. unfold wr, u8. change (0 mod 256) with 0. by rewrite Hw.
    + apply holds_app. rewrite Z.add_0_l. split; [|by eapply wr_range_holds].
      eapply wr_range_frame; [done| |done]. lia.
    + by eapply wr_range_Zlen.
  - rewrite encode_cons in *. zlen. pose proof (Zlen_nonneg (encode ls)) as Hn.
    assert (1 <= Zlen (encode ls)) by (rewrite Zlen_encode; pose proof (Zlen_nonneg (encode_labels ls)); lia).
    assert (Hch : rd_range (d_buf r) t (Zlen l + 1) = Ok (Zlen l :: l)).
    { apply rd_range_holds. zlen. split; [lia|]. by apply holds_cons. }
    destruct (wr_range_exists dst (Zlen pre) (Zlen l :: l)) as [dst1 Hw]; [lia|zlen; lia|].
    pose proof (wr_range_Zlen _ _ _ _ Hw) as HL.
    destruct (IH dst1 (Zlen pre + (Zlen l + 1)) (Zlen pre + (Zlen l + 1)) (pre ++ Zlen l :: l))
      as (dst' & Hr & Hh' & HL').
    + lia.
    + lia.
    + apply holds_app. rewrite Z.add_0_l. split; [|by eapply wr_range_holds].
      eapply wr_range_frame; [done| |done]. lia.
    + zlen. lia.
    + lia.
    + lia.
    + exists dst'. split_and!; [|by rewrite <- app_assoc in Hh'|lia].
      eapply returns_S; [intros; reflexivity|]. cbn [dname_copy_loop].
      eapply returns_ext; [intros fuel; rewrite Hc; simpl; dec; reflexivity|].
      apply (returns_bind _ _ _ _ (returns_succ _ _ R)).
      eapply returns_ext; [|exact Hr]. intros fuel. rewrite L. simpl.
      unfold MDNS_MAX_NAME_LEN. dec. rewrite Hch. simpl. rewrite Hw. simpl. f_equal. lia.
Qed.

(** The copy of a name that fits is the name written out in full. *)
Lemma dname_copy_spec r n ls dst :
  copyable r n ls -> Zlen (encode ls) <= 255 -> 255 <= Zlen dst ->
  exists dst', returns (fun fuel => dname_copy fuel dst r n) (0, dst') /\
    holds dst' 0 (encode ls) /\ Zlen dst' = Zlen dst.
Proof.
  intros Hc Hs Hd. eapply (dname_copy_loop_spec _ _ _ _ 0 0 []); [done|lia|done| |done|lia|done].
  apply holds_nil. lia.
Qed.

(** A name that does not fit is refused, after writing at most 255 bytes. *)
Lemma dname_copy_loop_toobig r n ls dst d :
  copyable r n ls -> 0 <= d <= 254 -> 255 < d + Zlen (encode ls) -> 255 <= Zlen dst ->
  exists dst', returns (fun fuel => dname_copy_loop fuel dst d r n d) (-1, dst') /\ Zlen dst' = Zlen dst.
Proof.
  intros H. revert dst d. induction H as [n H|n t l ls (c & Hc & Nc) R L Hl Hh _ IH]; intros dst d Hd Hs HD.
  - unfold Zlen at 1 in Hs. simpl in Hs. lia.
  - rewrite encode_cons in *. zlen. pose proof (Zlen_nonneg (encode ls)) as Hn.
    destruct (Z.le_gt_cases 255 (d + (Zlen l + 1))) as [Hbig|Hsmall].
    + destruct (wr_range_exists dst d [0]) as [dst' Hw]; [lia|by unfold Zlen at 1; simpl; lia|].
      exists dst'. split; [|by eapply wr_range_Zlen].
      eapply returns_S; [intros; reflexivity|]. cbn [dname_copy_loop].
      eapply returns_ext; [intros fuel; rewrite Hc; simpl; dec; reflexivity|].
      apply (returns_bind _ _ _ _ (returns_succ _ _ R)). apply returns_all. intros.
      rewrite L. simpl. unfold MDNS_MAX_NAME_LEN. dec. unfold wr, u8.
      change (0 mod 256) with 0. by rewrite Hw.
    + assert (Hch : rd_range (d_buf r) t (Zlen l + 1) = Ok (Zlen l :: l)).
      { apply rd_range_holds. zlen. split; [lia|]. by apply holds_cons. }
      destruct (wr_range_exists dst d (Zlen l :: l)) as [dst1 Hw]; [lia|zlen; lia|].
      pose proof (wr_range_Zlen _ _ _ _ Hw) as HL.
      destruct (IH dst1 (d + (Zlen l + 1))) as (dst' & Hr & HL'); [lia|lia|lia|].
      exists dst'. split; [|lia].
      eapply returns_S; [intros; reflexivity|]. cbn [dname_copy_loop].
      eapply returns_ext; [intros fuel; rewrite Hc; simpl; dec; reflexivity|].
      apply (returns_bind _ _ _ _ (returns_succ _ _ R)).
      eapply returns_ext; [|exact Hr]. intros fuel. rewrite L. simpl.
      unfold MDNS_MAX_NAME_LEN. dec. rewrite Hch. simpl. rewrite Hw. simpl. f_equal; lia.
Qed.

Lemma dname_copy_toobig r n ls dst :
  copyable r n ls -> 255 < Zlen (encode ls) -> 255 <= Zlen dst ->
  exists dst', returns (fun fuel => dname_copy fuel dst r n) (-1, dst') /\ Zlen dst' = Zlen dst.
Proof. intros. by apply (dname_copy_loop_toobig _ _ ls); [|lia|lia|]. Qed.
