(* ===== verification/DnameText.v ===== *)
(** * Renaming, separated text and TXT data

    The functions of Dname.v that produce or consume text: [dname_increment]
    (foo -> foo-2), [dnameify] (separated text to labels), [txt_to_c_ncpy]
    (labels to separated text) and [dname_label_to_c]. *)
From S2P Require Import Prelude Buffer Dname DnameSpec.

(** ** One byte writes *)

Lemma wr_exists b i v : 0 <= i < Zlen b -> exists b', wr b i v = Ok b'.
Proof. intros. apply wr_range_exists; [lia|]. change (Zlen [u8 v]) with 1. lia. Qed.

Lemma wr_holds b i v b' : wr b i v = Ok b' -> is_byte v -> holds b' i [v].
Proof. intros H Hv. rewrite <- (u8_id v) by done. by eapply wr_range_holds. Qed.

Lemma wr_frame b i v b' j k :
  wr b i v = Ok b' -> holds b j k -> j + Zlen k <= i \/ i + 1 <= j -> holds b' j k.
Proof. intros H Hh Hd. eapply wr_range_frame; eauto. Qed.

Lemma wr_Zlen b i v b' : wr b i v = Ok b' -> Zlen b' = Zlen b.
Proof. apply wr_range_Zlen. Qed.

(** Two adjacent facts about a buffer make one. *)
Lemma holds_join b i l1 j l2 : holds b i l1 -> holds b j l2 -> j = i + Zlen l1 -> holds b i (l1 ++ l2).
Proof. intros. subst. by apply holds_app. Qed.

(** ** Renaming *)

(** "foo" becomes "foo-2", "foo-3" becomes "foo-4"; after "foo-9" there is no
    other name.  A label with no room for two more bytes loses its tail. *)
Definition grow_label (l : list Z) : list Z :=
  if Zlen l <=? 61 then l ++ [CH_DASH; CH_2] else take 61 l ++ [CH_DASH; CH_2].

Definition next_label (l : list Z) : option (list Z) :=
  match reverse l with
  | d :: s :: pre =>
      if s =? CH_DASH then
        if (CH_2 <=? d) && (d <? CH_9) then Some (reverse pre ++ [CH_DASH; d + 1])
        else if d =? CH_9 then None
        else Some (grow_label l)
      else Some (grow_label l)
  | _ => Some (grow_label l)
  end.

Lemma list_last2 (l : list Z) : 2 <= Zlen l -> exists pre s d, l = pre ++ [s; d].
Proof.
  intros H. induction l as [|d l1 _] using rev_ind; [done|].
  induction l1 as [|s l2 _] using rev_ind; [done|].
  exists l2, s, d. by rewrite <- app_assoc.
Qed.

Lemma next_label_last2 pre s d :
  next_label (pre ++ [s; d]) =
    if s =? CH_DASH then
      if (CH_2 <=? d) && (d <? CH_9) then Some (pre ++ [CH_DASH; d + 1])
      else if d =? CH_9 then None
      else Some (grow_label (pre ++ [s; d]))
    else Some (grow_label (pre ++ [s; d])).
Proof. unfold next_label. rewrite reverse_app. simpl. by rewrite reverse_involutive. Qed.

(** The two growing branches of [dname_increment], as one expression. *)
Definition increment_grow (name : list Z) (len : Z) : res (Z * list Z) :=
  let newlen := len + 2 in
  if MDNS_MAX_LABEL_LEN <? newlen then
    name ← wr name (MDNS_MAX_LABEL_LEN - 1) CH_DASH;
    name ← wr name MDNS_MAX_LABEL_LEN CH_2;
    mret (0, name)
  else
    name ← wr name 0 newlen;
    slen ← strlen_at name 0;
    tail ← rd_range name (len + 1) (slen - len);
    name ← wr_range name (len + 3) tail;
    name ← wr name (len + 1) CH_DASH;
    name ← wr name (len + 2) CH_2;
    mret (0, name).

Lemma no_nul_encode ls :
  Forall valid_label ls -> Forall no_nul ls -> no_nul (encode_labels ls).
Proof.
  intros Hv Hn. induction Hv as [|l ls [Hl _] _ IH]; [constructor|].
  inversion Hn; subst. rewrite encode_labels_cons. constructor; [lia|].
  apply Forall_app. split; [done|by apply IH].
Qed.

Lemma increment_grow_small name l rest :
  valid_label l -> Zlen l <= 61 -> Forall valid_label rest -> no_nul l -> Forall no_nul rest ->
  holds name 0 (encode (l :: rest)) -> Zlen (encode (l :: rest)) + 2 <= Zlen name ->
  exists name', increment_grow name (Zlen l) = Ok (0, name') /\
    holds name' 0 (encode ((l ++ [CH_DASH; CH_2]) :: rest)) /\ Zlen name' = Zlen name.
Proof.
  intros [Hl Bl] Hs Hv Nl Nr H HL. unfold increment_grow, MDNS_MAX_LABEL_LEN. dec.
  rewrite encode_cons in *. zlen. pose proof (Zlen_nonneg (encode rest)) as He.
  apply holds_cons in H as [H0 H1]. apply holds_app in H1 as [H1 H2].
  destruct (wr_exists name 0 (Zlen l + 2)) as [n1 W1]; [lia|]. rewrite W1. simpl.
  pose proof (wr_Zlen _ _ _ _ W1) as L1.
  assert (B1 : holds n1 0 [Zlen l + 2]) by (eapply wr_holds; [done|unfold is_byte; lia]).
  eapply wr_frame in H1; [|exact W1|lia]. eapply wr_frame in H2; [|exact W1|lia].
  assert (HS : strlen_at n1 0 = Ok (Zlen ((Zlen l + 2) :: l ++ encode_labels rest))).
  { apply strlen_at_holds.
    - constructor; [lia|]. apply Forall_app. split; [done|]. by apply no_nul_encode.
    - replace (_ ++ [0]) with ([Zlen l + 2] ++ l ++ encode rest) by (unfold encode; simpl; by rewrite app_assoc).
      eapply holds_join; [exact B1| |reflexivity].
      eapply holds_join; [exact H1|exact H2|done]. }
  rewrite HS. simpl.
  assert (HT : rd_range n1 (Zlen l + 1) (Zlen ((Zlen l + 2) :: l ++ encode_labels rest) - Zlen l) = Ok (encode rest)).
  { apply rd_range_holds. zlen. rewrite Zlen_encode. split; [lia|].
    by replace (Zlen l + 1) with (0 + 1 + Zlen l) by lia. }
  rewrite HT. simpl.
  destruct (wr_range_exists n1 (Zlen l + 3) (encode rest)) as [n2 W2]; [lia|lia|].
  rewrite W2. simpl. pose proof (wr_range_Zlen _ _ _ _ W2) as L2.
  pose proof (wr_range_holds _ _ _ _ W2) as B2.
  assert (C1 : holds n2 0 [Zlen l + 2]) by (eapply wr_range_frame; [exact W2|zlen; lia|done]).
  assert (C2 : holds n2 1 l) by (eapply wr_range_frame; [exact W2|lia|done]).
  destruct (wr_exists n2 (Zlen l + 1) CH_DASH) as [n3 W3]; [lia|]. rewrite W3. simpl.
  pose proof (wr_Zlen _ _ _ _ W3) as L3.
  destruct (wr_exists n3 (Zlen l + 2) CH_2) as [n4 W4]; [lia|]. rewrite W4. simpl.
  pose proof (wr_Zlen _ _ _ _ W4) as L4.
  exists n4. split; [done|]. split; [|lia]. zlen.
  assert (D : holds n3 (Zlen l + 1) [CH_DASH]) by (eapply wr_holds; [done|by vm_compute]).
  assert (E : holds n4 (Zlen l + 2) [CH_2]) by (eapply wr_holds; [done|by vm_compute]).
  assert (F : forall j k, holds n2 j k -> j + Zlen k <= Zlen l + 1 \/ Zlen l + 3 <= j -> holds n4 j k).
  { intros j k Hk Hj. eapply wr_frame; [exact W4| |lia]. eapply wr_frame; [exact W3|done|lia]. }
  apply holds_cons. split; [apply holds_rd; replace (Zlen l + (1 + (1 + 0))) with (Zlen l + 2) by lia;
    apply F; [done|zlen; lia]|].
  rewrite <- app_assoc. eapply holds_join; [apply F; [exact C2|lia]| |reflexivity].
  apply holds_cons. split.
  { apply holds_rd. eapply wr_frame; [exact W4| |zlen; lia].
    by replace (0 + 1 + Zlen l) with (Zlen l + 1) by lia. }
  apply holds_cons. split.
  { apply holds_rd. by replace (0 + 1 + Zlen l + 1) with (Zlen l + 2) by lia. }
  replace (0 + 1 + Zlen l + 1 + 1) with (Zlen l + 3) by lia. apply F; [done|lia].
Qed.

(** The overwriting branch: bytes 62 and 63 of the buffer become "-2". *)
Lemma increment_grow_big name l rest :
  62 <= Zlen l <= 63 -> holds name 0 (encode (l :: rest)) ->
  exists name', increment_grow name (Zlen l) = Ok (0, name') /\ Zlen name' = Zlen name /\
    holds name' 62 [CH_DASH; CH_2] /\
    (forall j k, holds name j k -> j + Zlen k <= 62 \/ 64 <= j -> holds name' j k).
Proof.
  intros Hl H. unfold increment_grow, MDNS_MAX_LABEL_LEN. dec. change (63 - 1) with 62.
  apply holds_bounds in H as [_ HL]. rewrite encode_cons in HL. zlen. rewrite Zlen_encode in HL.
  pose proof (Zlen_nonneg (encode_labels rest)).
  destruct (wr_exists name 62 CH_DASH) as [n1 W1]; [lia|]. rewrite W1. simpl.
  pose proof (wr_Zlen _ _ _ _ W1) as L1.
  destruct (wr_exists n1 63 CH_2) as [n2 W2]; [lia|]. rewrite W2. simpl.
  pose proof (wr_Zlen _ _ _ _ W2) as L2.
  exists n2. split_and!; [done|lia| |].
  - apply holds_cons. split; [apply holds_rd; eapply wr_frame; [exact W2| |zlen; lia]|];
      (eapply wr_holds; [done|by vm_compute]).
  - intros j k Hk Hj. eapply wr_frame; [exact W2| |lia]. eapply wr_frame; [exact W1|done|lia].
Qed.

Lemma increment_grow_full name l rest :
  Zlen l = 63 -> holds name 0 (encode (l :: rest)) ->
  exists name', increment_grow name (Zlen l) = Ok (0, name') /\
    holds name' 0 (encode ((take 61 l ++ [CH_DASH; CH_2]) :: rest)) /\ Zlen name' = Zlen name.
Proof.
  intros Hl H. destruct (increment_grow_big name l rest) as (name' & E & L & B & F); [lia|done|].
  exists name'. split_and!; [done| |done]. rewrite encode_cons in *.
  apply holds_cons in H as [H0 H1]. apply holds_app in H1 as [H1 H2]. rewrite Hl in H2.
  assert (HT : Zlen (take 61 l) = 61) by (unfold Zlen in *; rewrite length_take; lia).
  rewrite <- (take_drop 61 l) in H1. apply holds_app in H1 as [H1 _].
  apply holds_cons. split; [apply holds_rd, F; [apply holds_rd; rewrite H0; f_equal; zlen; lia|zlen; lia]|].
  rewrite <- app_assoc. eapply holds_join; [apply F; [exact H1|lia]| |reflexivity].
  rewrite HT. eapply holds_join; [exact B|apply F; [exact H2|lia]|done].
Qed.

(** Reading the last two bytes of the first label. *)
Lemma dname_increment_last2 name pre s d rest :
  holds name 0 (encode ((pre ++ [s; d]) :: rest)) ->
  let len := Zlen (pre ++ [s; d]) in
  dname_increment name =
    if (s =? CH_DASH) && (CH_2 <=? d) && (d <? CH_9) then
      name ← wr name len (d + 1); mret (0, name)
    else if (s =? CH_DASH) && (d =? CH_9) then mret (-1, name)
    else increment_grow name len.
Proof.
  intros H len. rewrite encode_cons in H. apply holds_cons in H as [H0 H1].
  apply holds_app in H1 as [H1 _]. apply holds_app in H1 as [_ H1].
  apply holds_cons in H1 as [H1 H2]. apply holds_rd in H2.
  unfold dname_increment. rewrite H0. simpl. fold len.
  assert (len = Zlen pre + 2) as E by (unfold len; zlen; lia).
  replace (len - 1) with (0 + 1 + Zlen pre) by lia. rewrite H1. simpl.
  replace len with (0 + 1 + Zlen pre + 1) at 1 by lia.
  destruct (s =? CH_DASH); simpl; [rewrite H2; simpl|]; done.
Qed.

Lemma dname_increment_short name c rest :
  holds name 0 (encode ([c] :: rest)) -> dname_increment name = increment_grow name 1.
Proof.
  intros H. rewrite encode_cons in H. apply holds_cons in H as [H0 _].
  unfold dname_increment. rewrite H0. simpl. change (Zlen [c] - 1) with 0.
  rewrite H0. simpl. done.
Qed.

Lemma increment_grow_spec name l rest :
  valid_label l -> Zlen l <> 62 -> Forall valid_label rest -> no_nul l -> Forall no_nul rest ->
  holds name 0 (encode (l :: rest)) -> Zlen (encode (l :: rest)) + 2 <= Zlen name ->
  exists name', increment_grow name (Zlen l) = Ok (0, name') /\
    holds name' 0 (encode (grow_label l :: rest)) /\ Zlen name' = Zlen name.
Proof.
  intros [Hl Hb] H62 Hv Nl Nr H HL. unfold grow_label. destruct (Z.leb_spec (Zlen l) 61).
  - by apply increment_grow_small.
  - apply increment_grow_full; [lia|done].
Qed.

(** A label that has to grow needs two more bytes in the buffer, and must not be
    62 bytes long. *)
Definition room_to_grow (name : list Z) (l : list Z) (rest : list (list Z)) : Prop :=
  next_label l = Some (grow_label l) -> Zlen l <> 62 /\ Zlen (encode (l :: rest)) + 2 <= Zlen name.

(** The whole function, every branch. *)
Lemma dname_increment_spec name l rest :
  valid_label l -> Forall valid_label rest -> no_nul l -> Forall no_nul rest ->
  holds name 0 (encode (l :: rest)) -> room_to_grow name l rest ->
  match next_label l with
  | Some l' => exists name', dname_increment name = Ok (0, name') /\
      holds name' 0 (encode (l' :: rest)) /\ Zlen name' = Zlen name
  | None => dname_increment name = Ok (-1, name)
  end.
Proof.
  intros Hl Hv Nl Nr H HG. destruct (Z.lt_ge_cases (Zlen l) 2) as [H1|H2].
  - destruct l as [|c [|c' l]]; [destruct Hl as [Hl _]; unfold Zlen in Hl; simpl in Hl; lia| |].
    + rewrite (dname_increment_short _ _ _ H). change (next_label [c]) with (Some (grow_label [c])).
      destruct (HG eq_refl). by apply (increment_grow_spec name [c] rest).
    + zlen. pose proof (Zlen_nonneg l). lia.
  - destruct (list_last2 l H2) as (pre & s & d & ->).
    rewrite (dname_increment_last2 _ _ _ _ _ H). unfold room_to_grow in HG. rewrite next_label_last2 in HG |- *.
    destruct (s =? CH_DASH) eqn:Es; simpl; [|destruct (HG eq_refl); by apply increment_grow_spec]. b2p. subst.
    destruct ((CH_2 <=? d) && (d <? CH_9)) eqn:Ed;
      [|destruct (d =? CH_9); [done|destruct (HG eq_refl); by apply increment_grow_spec]].
    destruct (andb_prop _ _ Ed) as [E1 E2]. clear Ed. b2p. unfold CH_2, CH_9 in *. rewrite encode_cons in H. pose proof H as HB.
    apply holds_bounds in HB as [_ HB]. zlen. pose proof (Zlen_nonneg (encode rest)) as Ge. pose proof (Zlen_nonneg pre) as Gp.
    destruct (wr_exists name (Zlen pre + (1 + (1 + 0))) (d + 1)) as [n1 W]; [lia|].
    rewrite W. simpl. exists n1. split; [done|]. split; [|by eapply wr_Zlen].
    rewrite encode_cons. apply holds_cons in H as [H0' H1]. rewrite <- app_assoc in *.
    apply holds_app in H1 as [H1 H3]. apply holds_cons in H3 as [H3 H4].
    simpl in H4. apply holds_cons in H4 as [H4 H5].
    apply holds_cons. split; [apply holds_rd; eapply wr_frame; [exact W|apply holds_rd; rewrite H0'; f_equal; by zlen|zlen; lia]|].
    eapply holds_join; [eapply wr_frame; [exact W|exact H1|lia]| |reflexivity].
    apply holds_cons. split; [apply holds_rd; eapply wr_frame; [exact W|by apply holds_rd|zlen; lia]|].
    apply holds_cons. split; [apply holds_rd; replace (0 + 1 + Zlen pre + 1) with (Zlen pre + (1 + (1 + 0))) by lia;
      eapply wr_holds; [done|unfold is_byte; lia]|].
    eapply wr_frame; [exact W|exact H5|lia].
Qed.

(** ** Separated text *)

Fixpoint join (sep : Z) (ps : list (list Z)) : list Z :=
  match ps with
  | [] => []
  | [p] => p
  | p :: ps' => p ++ sep :: join sep ps'
  end.

Lemma join_cons sep p ps : ps <> [] -> join sep (p :: ps) = p ++ sep :: join sep ps.
Proof. by destruct ps. Qed.

Lemma join_snoc sep ps p : ps <> [] -> join sep (ps ++ [p]) = join sep ps ++ sep :: p.
Proof.
  induction ps as [|q ps IH]; [done|]. intros _. destruct ps as [|q' ps]; [done|].
  rewrite <- app_comm_cons, !join_cons by done. rewrite IH by done. by rewrite <- app_assoc.
Qed.

Lemma Zlen_join sep ps : ps <> [] -> Zlen (join sep ps) + 1 = Zlen (encode_labels ps).
Proof.
  induction ps as [|p ps IH]; [done|]. intros _. rewrite encode_labels_cons.
  destruct (decide (ps = [])) as [->|Hne].
  - simpl. zlen. change (Zlen (encode_labels [])) with 0. lia.
  - rewrite join_cons by done. zlen. specialize (IH Hne). lia.
Qed.

(** A piece of text: not empty, short enough for a length byte, without the
    separator. *)
Definition piece (sep : Z) (p : list Z) : Prop := 1 <= Zlen p <= 255 /\ Forall (fun c => c <> sep /\ is_byte c) p.

Section dnameify_loop.
Context (rd_src : list Z -> Z -> res Z) (name sep start : Z).
(** a write to the destination leaves the source characters still to be read *)
Hypothesis src_frame : forall db i v db' j,
  wr db i v = Ok db' -> j < name + (i - start) -> rd_src db' j = rd_src db j.

(** [src db k l]: the source characters from index [k] on are [l]; index 0 is
    the byte before the string. *)
Definition src (db : list Z) (k : Z) (l : list Z) : Prop :=
  forall i c, l !! i = Some c -> rd_src db (name - 1 + k + Z.of_nat i) = Ok c.

Lemma src_app db k l1 l2 : src db k (l1 ++ l2) -> src db k l1 /\ src db (k + Zlen l1) l2.
Proof using.
  intros H. split; intros i c Hi.
  - apply H. by apply lookup_app_l_Some.
  - replace (name - 1 + (k + Zlen l1) + Z.of_nat i)
      with (name - 1 + k + Z.of_nat (length l1 + i)) by (unfold Zlen; lia).
    apply H. rewrite lookup_app_r by lia. rewrite <- Hi. f_equal. lia.
Qed.

Lemma src_cons db k c l : src db k (c :: l) -> rd_src db (name - 1 + k) = Ok c /\ src db (k + 1) l.
Proof using.
  intros H. change (c :: l) with ([c] ++ l) in H. apply src_app in H as [H1 H2].
  split; [|done]. specialize (H1 0%nat c eq_refl). by rewrite Z.add_0_r in H1.
Qed.

Lemma src_wr db i v db' k l :
  wr db i v = Ok db' -> k + Zlen l <= i - start + 1 -> src db k l -> src db' k l.
Proof using src_frame.
  intros W Hk H j c Hj. erewrite src_frame; [by apply H|done|].
  apply lookup_lt_Some in Hj. unfold Zlen in Hk. lia.
Qed.

(** Moving the characters of a piece, from the last to the first. *)
Lemma dnameify_move cs d0 db len L pre :
  Forall (fun c => c <> sep /\ is_byte c) cs -> 0 <= L -> 0 <= start ->
  start + Z.of_nat d0 + Zlen cs < Zlen db ->
  src db 0 (pre ++ cs) -> Zlen pre = Z.of_nat d0 + 1 ->
  exists db', dnameify_loop rd_src name sep start (d0 + length cs) db len L =
              dnameify_loop rd_src name sep start d0 db' len (L + Zlen cs) /\
    holds db' (start + Z.of_nat d0 + 1) cs /\ Zlen db' = Zlen db /\ src db' 0 pre /\
    (forall j k, start + Z.of_nat d0 + Zlen cs + 1 <= j -> holds db j k -> holds db' j k).
Proof using src_frame.
  revert L db. induction cs as [|c cs IH] using rev_ind; intros L db Hcs HL Hs Hdb Hsrc Hp.
  - exists db. simpl. rewrite Nat.add_0_r. change (Zlen (@nil Z)) with 0 in *. rewrite Z.add_0_r.
    rewrite app_nil_r in Hsrc. split_and!; [done| |done|done|done].
    apply holds_nil. lia.
  - apply Forall_app in Hcs as [Hcs [[Hc Bc] _]%Forall_cons_iff].
    rewrite app_assoc in Hsrc. zlen. pose proof (Zlen_nonneg cs) as Gc.
    apply src_app in Hsrc as [Hs1 Hs2]. apply src_cons in Hs2 as [Hs2 _]. zlen.
    assert (ED : (d0 + length (cs ++ [c]))%nat = S (d0 + length cs)) by (rewrite length_app; simpl; lia).
    rewrite ED. assert (EZ : Z.of_nat (S (d0 + length cs)) = Z.of_nat d0 + Zlen cs + 1) by (unfold Zlen; lia).
    destruct (wr_exists db (start + Z.of_nat (S (d0 + length cs))) c) as [db1 W]; [lia|].
    pose proof (wr_Zlen _ _ _ _ W) as L1.
    eapply src_wr in Hs1; [|exact W|zlen; lia].
    destruct (IH (L + 1) db1) as (db' & E & H1 & H2 & H3 & H4); [done|lia|lia|lia|done|done|].
    exists db'. split_and!; [| |lia|done|].
    + cbn [dnameify_loop].
      replace (name + Z.of_nat (S (d0 + length cs)) - 1) with (name - 1 + (0 + (Zlen pre + Zlen cs))) by lia.
      rewrite Hs2. simpl mbind. cbn [mbind res_bind]. replace (c =? sep) with false by lia.
      cbn [andb]. rewrite W. cbn [mbind res_bind]. rewrite E. f_equal. lia.
    + eapply holds_join; [exact H1| |reflexivity]. apply H4; [lia|].
      replace (start + Z.of_nat d0 + 1 + Zlen cs) with (start + Z.of_nat (S (d0 + length cs))) by lia.
      by eapply wr_holds.
    + intros j k Hj Hk. apply H4; [lia|]. eapply wr_frame; [exact W|done|lia].
Qed.

(** From a piece boundary on: the pieces end up as labels. *)
Lemma dnameify_pieces ps db len before :
  ps <> [] -> Forall (piece sep) ps -> 0 <= start -> 0 <= len ->
  len + Zlen (encode_labels ps) <= UINT16_MAX ->
  start + Zlen (encode_labels ps) <= Zlen db ->
  src db 0 (before :: join sep ps) ->
  exists db', dnameify_loop rd_src name sep start (length (join sep ps)) db len 0 =
              Ok (len + Zlen (encode_labels ps), db') /\
    holds db' start (encode_labels ps) /\ Zlen db' = Zlen db /\
    (forall j k, start + Zlen (encode_labels ps) <= j -> holds db j k -> holds db' j k).
Proof using src_frame.
  unfold UINT16_MAX. revert db len. induction ps as [|p ps IH] using rev_ind; [done|].
  intros db len _ Hps Hst Hlen Hmax Hdb Hsrc. apply Forall_app in Hps as [Hps [[Hp Cp] _]%Forall_cons_iff].
  rewrite encode_labels_app in *. change (encode_labels [p]) with (Zlen p :: p ++ []) in *.
  rewrite app_nil_r in *. zlen. pose proof (Zlen_nonneg (encode_labels ps)) as Ge.
  destruct (decide (ps = [])) as [->|Hne].
  - simpl app in *. simpl join in *. change (Zlen (encode_labels [])) with 0 in *.
    destruct (dnameify_move p 0 db len 0 [before]) as (db1 & E & H1 & H2 & H3 & H4); [done|lia|lia|lia|done|done|].
    simpl in E. rewrite E. cbn [dnameify_loop]. apply src_cons in H3 as [H3 _].
    replace (name + Z.of_nat 0 - 1) with (name - 1 + 0) by lia. rewrite H3. cbn [mbind res_bind].
    replace (0 + Zlen p =? 0) with false by lia. rewrite andb_false_r.
    destruct (wr_exists db1 start (0 + Zlen p)) as [db2 W]; [lia|]. rewrite W. cbn [mbind res_bind].
    unfold UINT16_MAX. dec. exists db2. pose proof (wr_Zlen _ _ _ _ W).
    assert (holds db2 start [Zlen p]) by (eapply wr_holds; [exact W|unfold is_byte; lia]).
    split_and!; [unfold mret, res_ret; do 2 f_equal; lia| |lia|].
    + apply holds_cons. split; [by apply holds_rd|]. eapply wr_frame; [exact W| |lia].
      by replace (start + 1) with (start + Z.of_nat 0 + 1) by lia.
    + intros j k Hj Hk. eapply wr_frame; [exact W|apply H4; [lia|done]|lia].
  - rewrite join_snoc in * by done. pose proof (Zlen_nonneg (join sep ps)) as Gj.
    pose proof (Zlen_join sep ps Hne) as Hq. set (q := join sep ps) in *.
    replace (before :: q ++ sep :: p) with ((before :: q ++ [sep]) ++ p) in Hsrc
      by (simpl; by rewrite <- app_assoc).
    replace (length (q ++ sep :: p)) with (S (length q) + length p)%nat
      by (rewrite length_app; simpl; lia).
    assert (EZ : Z.of_nat (S (length q)) = Zlen q + 1) by (unfold Zlen; lia).
    destruct (dnameify_move p (S (length q)) db len 0 (before :: q ++ [sep]))
      as (db1 & E & H1 & H2 & H3 & H4); [done|lia|lia|lia|done|zlen; lia|].
    rewrite E. cbn [dnameify_loop]. rewrite app_comm_cons in H3.
    apply src_app in H3 as [H3 H5]. apply src_cons in H5 as [H5 _].
    replace (name + Z.of_nat (S (length q)) - 1) with (name - 1 + (0 + Zlen (before :: q))) by (zlen; lia).
    rewrite H5. cbn [mbind res_bind]. replace (0 + Zlen p =? 0) with false by lia.
    rewrite andb_false_r, Z.eqb_refl.
    destruct (wr_exists db1 (start + Z.of_nat (S (length q))) (0 + Zlen p)) as [db2 W]; [lia|].
    rewrite W. cbn [mbind res_bind]. unfold UINT16_MAX. dec. pose proof (wr_Zlen _ _ _ _ W).
    assert (Hw : holds db2 (start + Z.of_nat (S (length q))) [Zlen p])
      by (eapply wr_holds; [exact W|unfold is_byte; lia]).
    destruct (IH db2 (len + (0 + Zlen p + 1))) as (db' & E' & K1 & K2 & K3);
      [done|done|lia|lia|lia|lia|eapply src_wr; [exact W|zlen; lia|done]|].
    exists db'. split_and!; [rewrite E'; do 2 f_equal; lia| |lia|].
    + eapply holds_join; [exact K1| |reflexivity]. rewrite <- Hq.
      apply K3; [lia|]. apply holds_cons. split.
      { apply holds_rd. by replace (start + (Zlen q + 1)) with (start + Z.of_nat (S (length q))) by lia. }
      eapply wr_frame; [exact W| |lia].
      by replace (start + (Zlen q + 1) + 1) with (start + Z.of_nat (S (length q)) + 1) by lia.
    + intros j k Hj Hk. apply K3; [lia|]. eapply wr_frame; [exact W|apply H4; [lia|done]|lia].
Qed.
End dnameify_loop.

Lemma holds_rd_at b i l k c : holds b i l -> l !! k = Some c -> rd b (i + Z.of_nat k) = Ok c.
Proof.
  intros H Hk. rewrite <- (take_drop_middle _ _ _ Hk) in H.
  apply holds_app in H as [_ H]. apply holds_cons in H as [H _].
  apply lookup_lt_Some in Hk. unfold Zlen in H.
  rewrite length_take in H. rewrite <- H. f_equal. lia.
Qed.

Lemma no_nul_join sep ps : sep <> 0 -> Forall no_nul ps -> no_nul (join sep ps).
Proof.
  intros Hs. induction 1 as [|p ps Hp Hps IH]; [constructor|].
  destruct (decide (ps = [])) as [->|Hne]; [done|]. rewrite join_cons by done.
  apply Forall_app. split; [done|]. by constructor.
Qed.

(** [dnameify] into another buffer. *)
Lemma dnameify_dest_spec nb name sep before ps db :
  ps <> [] -> Forall (piece sep) ps -> Forall no_nul ps -> sep <> 0 ->
  holds nb (name - 1) (before :: join sep ps ++ [0]) ->
  Zlen (encode_labels ps) <= UINT16_MAX -> Zlen (encode_labels ps) <= Zlen db ->
  exists db', dnameify nb name sep (Some db) = Ok (Zlen (encode_labels ps), db') /\
    holds db' 0 (encode_labels ps) /\ Zlen db' = Zlen db.
Proof.
  intros Hne Hps Hn Hsep Hh Hmax Hdb. unfold dnameify. pose proof Hh as Hh'.
  apply holds_cons in Hh as [_ Hh]. replace (name - 1 + 1) with name in Hh by lia.
  rewrite (strlen_at_holds _ _ _ (no_nul_join _ _ Hsep Hn) Hh). cbn [mbind res_bind].
  replace (Z.to_nat (Zlen (join sep ps))) with (length (join sep ps)) by (unfold Zlen; lia).
  destruct (dnameify_pieces (fun _ i => rd nb i) name sep 0 ltac:(done) ps db 0 before)
    as (db' & E & H1 & H2 & _); try done.
  { intros i c Hi. replace (name - 1 + 0 + Z.of_nat i) with (name - 1 + Z.of_nat i) by lia.
    eapply holds_rd_at; [exact Hh'|]. rewrite app_comm_cons. by apply lookup_app_l_Some. }
  exists db'. rewrite E. done.
Qed.

(** [dnameify] in place: the string and the byte of its terminating 0 become
    the labels. *)
Lemma dnameify_inplace_spec nb name sep before ps :
  ps <> [] -> Forall (piece sep) ps -> Forall no_nul ps -> sep <> 0 -> 1 <= name ->
  holds nb (name - 1) (before :: join sep ps ++ [0]) ->
  Zlen (encode_labels ps) <= UINT16_MAX ->
  exists nb', dnameify nb name sep None = Ok (Zlen (encode_labels ps), nb') /\
    holds nb' name (encode_labels ps) /\ Zlen nb' = Zlen nb.
Proof.
  intros Hne Hps Hn Hsep Hname Hh Hmax. unfold dnameify. pose proof Hh as Hh'.
  apply holds_cons in Hh as [_ Hh]. replace (name - 1 + 1) with name in Hh by lia.
  rewrite (strlen_at_holds _ _ _ (no_nul_join _ _ Hsep Hn) Hh). cbn [mbind res_bind].
  replace (Z.to_nat (Zlen (join sep ps))) with (length (join sep ps)) by (unfold Zlen; lia).
  pose proof (Zlen_join sep ps Hne). pose proof (holds_bounds _ _ _ Hh) as [_ HB]. zlen.
  destruct (dnameify_pieces (fun db i => rd db i) name sep name) with (ps := ps) (db := nb) (len := 0) (before := before)
    as (db' & E & H1 & H2 & _); try done; try lia.
  { intros db i v db' j W Hj. eapply wr_range_rd_frame; [exact W|]. lia. }
  { intros i c Hi. replace (name - 1 + 0 + Z.of_nat i) with (name - 1 + Z.of_nat i) by lia.
    eapply holds_rd_at; [exact Hh'|]. rewrite app_comm_cons. by apply lookup_app_l_Some. }
  exists db'. rewrite E. done.
Qed.

(** A trailing separator is refused, whatever comes before it. *)
Lemma dnameify_trailing_sep nb name sep s dest :
  no_nul (s ++ [sep]) -> holds nb name (s ++ [sep; 0]) ->
  exists b, dnameify nb name sep dest = Ok (-1, b).
Proof.
  intros Hn Hh. unfold dnameify.
  rewrite (strlen_at_holds _ _ (s ++ [sep])) by (try rewrite <- app_assoc; done). cbn [mbind res_bind].
  apply holds_app in Hh as [_ Hh]. apply holds_cons in Hh as [Hh _].
  replace (Z.to_nat (Zlen (s ++ [sep]))) with (S (length s)) by (zlen; unfold Zlen; lia).
  assert (Hr : rd nb (name + Z.of_nat (S (length s)) - 1) = Ok sep).
  { rewrite <- Hh. f_equal. unfold Zlen. lia. }
  destruct dest; cbn [dnameify_loop]; rewrite Hr; cbn [mbind res_bind]; rewrite Z.eqb_refl; simpl; eauto.
Qed.

(** ** TXT data to a C string *)

Lemma txt_to_c_loop_spec ps b txt tlen dst d remaining pre fuel :
  ps <> [] -> Forall (piece CH_COLON) ps -> holds b txt (encode_labels ps) ->
  tlen = Zlen (encode_labels ps) -> holds dst 0 pre -> Zlen pre = d ->
  d + Zlen (join CH_COLON ps) + 1 <= Zlen dst -> Zlen (join CH_COLON ps) <= remaining ->
  (length ps <= fuel)%nat ->
  exists dst', txt_to_c_loop fuel dst d b txt tlen remaining = Ok dst' /\
    holds dst' 0 (pre ++ join CH_COLON ps ++ [0]) /\ Zlen dst' = Zlen dst.
Proof.
  revert txt tlen dst d remaining pre fuel.
  induction ps as [|p ps IH]; [done|]; intros txt tlen dst d rem pre fuel _ Hps Hh -> Hpre <- Hd Hrem Hf.
  apply Forall_cons_iff in Hps as [[Hp Cp] Hps]. rewrite encode_labels_cons in *.
  apply holds_cons in Hh as [H1 H2]. apply holds_app in H2 as [H2 H3].
  destruct fuel as [|fuel]; [simpl in Hf; lia|]. cbn [txt_to_c_loop]. rewrite H1. cbn [mbind res_bind].
  zlen. pose proof (Zlen_nonneg (encode_labels ps)) as Ge. pose proof (Zlen_nonneg pre) as Gp.
  replace (Zlen p =? 0) with false by lia. replace (1 + (Zlen p + Zlen (encode_labels ps)) =? 0) with false by lia.
  cbn [orb].
  assert (HJ : Zlen (join CH_COLON (p :: ps)) = Zlen p + (if decide (ps = []) then 0 else 1 + Zlen (join CH_COLON ps))).
  { case_decide; [subst; simpl; lia|]. rewrite join_cons by done. zlen. lia. }
  rewrite HJ in *. pose proof (Zlen_nonneg (join CH_COLON ps)) as Gj.
  replace (rem <? Zlen p) with false by (symmetry; apply Z.ltb_ge; case_decide; lia).
  assert (HR : rd_range b (txt + 1) (Zlen p) = Ok p) by (by apply rd_range_holds).
  rewrite HR. cbn [mbind res_bind].
  destruct (wr_range_exists dst (Zlen pre) p) as [dst1 W]; [lia|case_decide; lia|].
  rewrite W. cbn [mbind res_bind]. pose proof (wr_range_Zlen _ _ _ _ W) as L1.
  assert (Hp1 : holds dst1 0 (pre ++ p)).
  { eapply holds_join; [eapply wr_range_frame; [exact W|lia|done]|by eapply wr_range_holds|lia]. }
  case_decide as Hps0.
  - subst ps. change (Zlen (encode_labels [])) with 0.
    replace (1 + (Zlen p + 0) - (Zlen p + 1) =? 0) with true by (symmetry; apply Z.eqb_eq; lia).
    rewrite orb_true_r. destruct (wr_exists dst1 (Zlen pre + Zlen p) 0) as [dst2 W2]; [lia|].
    exists dst2. pose proof (wr_Zlen _ _ _ _ W2). split_and!; [done| |lia]. simpl.
    rewrite app_assoc. eapply holds_join; [eapply wr_frame; [exact W2|exact Hp1|zlen; lia]| |reflexivity].
    rewrite Z.add_0_l. zlen. eapply wr_holds; [done|by vm_compute].
  - assert (1 <= Zlen (join CH_COLON ps)).
    { pose proof (Zlen_join CH_COLON ps Hps0). destruct ps as [|q ps']; [done|].
      inversion Hps as [|? ? [? _] _]; subst. rewrite encode_labels_cons in *. zlen.
      pose proof (Zlen_nonneg (encode_labels ps')). lia. }
    pose proof (Zlen_join CH_COLON ps Hps0) as HJ2.
    replace (rem - Zlen p =? 0) with false by lia. replace (rem - Zlen p =? 1) with false by lia.
    replace (1 + (Zlen p + Zlen (encode_labels ps)) - (Zlen p + 1) =? 0) with false by lia. cbn [orb].
    destruct (wr_exists dst1 (Zlen pre + Zlen p) CH_COLON) as [dst2 W2]; [lia|].
    rewrite W2. cbn [mbind res_bind]. pose proof (wr_Zlen _ _ _ _ W2) as L2.
    destruct (IH (txt + (Zlen p + 1)) (1 + (Zlen p + Zlen (encode_labels ps)) - (Zlen p + 1)) dst2
                (Zlen pre + Zlen p + 1) (rem - Zlen p) (pre ++ p ++ [CH_COLON]) fuel) as (dst' & E & K1 & K2).
    + done.
    + done.
    + by replace (txt + (Zlen p + 1)) with (txt + 1 + Zlen p) by lia.
    + lia.
    + rewrite app_assoc. eapply holds_join; [eapply wr_frame; [exact W2|exact Hp1|zlen; lia]| |reflexivity].
      rewrite Z.add_0_l. zlen. eapply wr_holds; [done|by vm_compute].
    + zlen. lia.
    + lia.
    + lia.
    + simpl in Hf. lia.
    + exists dst'. split_and!; [done| |lia]. rewrite join_cons by done.
      rewrite <- !app_assoc in *. simpl in *. done.
Qed.

(** ** A label as a C string *)

Definition drop_underscores (keepuscores : Z) (l : list Z) : list Z :=
  if keepuscores =? 0 then filter (fun c => c <> CH_UNDERSCORE) l else l.

Lemma label_to_c_loop_spec l dst d b src keep pre :
  holds b src l -> bytes l -> holds dst 0 pre -> Zlen pre = d -> d + Zlen l <= Zlen dst ->
  exists dst', label_to_c_loop (length l) dst d b src keep =
                 Ok (dst', d + Zlen (drop_underscores keep l), src + Zlen l) /\
    holds dst' 0 (pre ++ drop_underscores keep l) /\ Zlen dst' = Zlen dst /\
    Zlen (drop_underscores keep l) <= Zlen l.
Proof.
  revert dst d src pre. induction l as [|c l IH]; intros dst d src pre H Hb Hp <- Hd.
  - exists dst. unfold drop_underscores. simpl. destruct (keep =? 0); simpl; zlen;
      rewrite ?Z.add_0_r, ?app_nil_r; done.
  - apply holds_cons in H as [H0 H1]. apply Forall_cons_iff in Hb as [Bc Hb].
    cbn [length label_to_c_loop]. rewrite H0. cbn [mbind res_bind]. zlen. pose proof (Zlen_nonneg l).
    pose proof (Zlen_nonneg pre).
    destruct ((keep =? 0) && (c =? CH_UNDERSCORE)) eqn:E.
    + destruct (IH dst (Zlen pre) (src + 1) pre) as (dst' & E1 & E2 & E3 & E4); [done|done|done|done|lia|].
      unfold drop_underscores in *. apply andb_prop in E as [K1 K2]. rewrite K1 in *. b2p. rewrite filter_cons, decide_False by (intros []; done).
      exists dst'. rewrite E1. split_and!; [do 2 f_equal; lia|done|done|lia].
    + assert (HD : drop_underscores keep (c :: l) = c :: drop_underscores keep l).
      { unfold drop_underscores. destruct (keep =? 0); [|done]. simpl in E. b2p.
        by rewrite filter_cons, decide_True. }
      rewrite HD. destruct (wr_exists dst (Zlen pre) c) as [dst1 W]; [lia|]. rewrite W. cbn [mbind res_bind].
      pose proof (wr_Zlen _ _ _ _ W).
      destruct (IH dst1 (Zlen pre + 1) (src + 1) (pre ++ [c])) as (dst' & E1 & E2 & E3 & E4);
        [done|done| |zlen; lia|lia|].
      { eapply holds_join; [eapply wr_frame; [exact W|done|lia]|by eapply wr_holds|lia]. }
      exists dst'. rewrite E1. zlen. split_and!; [do 2 f_equal; [f_equal|]; lia| |lia|lia].
      by rewrite <- app_assoc in E2.
Qed.

(** A label shorter than 63 bytes is copied, without its underscores unless
    they are kept, and the result points behind it; a label of 63 bytes gives
    NULL. *)
Lemma dname_label_to_c_spec r n l ls dst keep :
  name_at r n (l :: ls) -> bytes (d_buf r) -> 64 <= Zlen dst ->
  if Zlen l <? 63 then
    exists m dst', returns (fun fuel => dname_label_to_c fuel dst r n keep) (Some m, dst') /\
      holds dst' 0 (drop_underscores keep l ++ [0]) /\ Zlen dst' = Zlen dst /\ name_at r m ls
  else returns (fun fuel => dname_label_to_c fuel dst r n keep) (None, dst).
Proof.
  intros (t & R & L & Hl & H & N)%name_at_resolved Hb Hd. unfold dname_label_to_c.
  destruct (Z.ltb_spec (Zlen l) 63).
  - destruct (label_to_c_loop_spec l dst 0 (d_buf r) (t + 1) keep []) as (dst1 & E & H1 & H2 & H3);
      [done|by eapply holds_byte|apply holds_nil; lia|done|lia|].
    destruct (wr_exists dst1 (0 + Zlen (drop_underscores keep l)) 0) as [dst2 W].
    { pose proof (Zlen_nonneg (drop_underscores keep l)). lia. }
    exists (t + 1 + Zlen l), dst2. pose proof (wr_Zlen _ _ _ _ W). split_and!; [| |lia|done].
    + apply (returns_bind _ _ _ _ R). apply returns_const. rewrite L; cbn [mbind res_bind].
      unfold MDNS_MAX_LABEL_LEN. dec.
      replace (Z.to_nat (Zlen l)) with (length l) by (unfold Zlen; lia). rewrite E. cbn [mbind res_bind].
      by rewrite W.
    + simpl in H1. eapply holds_join; [eapply wr_frame; [exact W|exact H1|lia]| |reflexivity].
      eapply wr_holds; [done|by vm_compute].
  - apply (returns_bind _ _ _ _ R). apply returns_const. rewrite L; cbn [mbind res_bind].
    unfold MDNS_MAX_LABEL_LEN. by dec.
Qed.
