(* ===== verification/DnameTheorems.v ===== *)
(** * Properties of the name helpers

    What callers of src/mdns/dname.c may rely on, and where the code departs
    from its comments.  [returns f a] says that the loop, given enough fuel,
    returns [a]; a hang is stated as [Diverge] for every fuel. *)
From S2P Require Import Prelude Buffer Dname DnameSpec DnameText.

(** ** Concrete names used by the witnesses *)

(** foo.local, written out *)
Definition foo_local : list (list Z) := [[102; 111; 111]; [108; 111; 99; 97; 108]].
(** a buffer with foo.local at 0 and a pointer to it at 11 *)
Definition foo_packet : list Z := encode foo_local ++ [0xC0; 0].

Lemma foo_local_valid : Forall valid_label foo_local.
Proof. repeat constructor; unfold is_byte, Zlen; simpl; lia. Qed.

Lemma foo_direct base : name_at (mkDref foo_packet base) 0 foo_local.
Proof. apply name_at_encode; [exact foo_local_valid|]. by_eval. Qed.

Lemma foo_indirect : name_at (mkDref foo_packet true) 11 foo_local.
Proof.
  apply (name_at_pointer _ 11 0xC0 0); [done|lia|done|]. apply foo_direct.
Qed.

(** ** Comparison *)

(** C33: on two names that can be decoded, however compressed, [dname_cmp]
    returns; the result is the lexicographic order of the label lists, swapping
    the arguments negates it, and it is 0 exactly for equal label lists. *)
Theorem dname_cmp_correct p1 n1 ls1 p2 n2 ls2 :
  name_at p1 n1 ls1 -> name_at p2 n2 ls2 ->
  exists v, returns (fun fuel => dname_cmp fuel p1 n1 p2 n2) v /\
    returns (fun fuel => dname_cmp fuel p2 n2 p1 n1) (- v) /\
    v = names_cmp ls1 ls2 /\ (v = 0 <-> ls1 = ls2).
Proof.
  intros N1 N2. exists (names_cmp ls1 ls2). rewrite names_cmp_eq, <- names_cmp_opp.
  split_and!; [by apply dname_cmp_spec|by apply dname_cmp_spec|done|done].
Qed.

Lemma dname_cmp_correct_witness :
  exists v, returns (fun fuel => dname_cmp fuel (mkDref foo_packet true) 11 (mkDref foo_packet false) 0) v /\ v = 0.
Proof.
  destruct (dname_cmp_correct _ _ _ _ _ _ foo_indirect (foo_direct false)) as (v & H & _ & _ & E).
  exists v. split; [exact H|]. apply E. reflexivity.
Defined.

(** ** The bounds check *)

(** A received name that [dname_overrun] accepts decodes to labels of 1 to
    63 bytes, and every later comparison with it returns:
    after the check no walk over the name leaves the buffer or loops. *)
Theorem dname_overrun_safe fuel r e n own :
  bytes (d_buf r) -> e < Zlen (d_buf r) -> Forall valid_label own ->
  dname_overrun fuel r e n = Ok 0 ->
  exists ls, name_at r n ls /\ Forall valid_label ls /\
    returns (fun fuel => dname_cmp fuel r n (mkDref (encode own) false) 0) (names_cmp ls own).
Proof.
  intros Hb He Ho H. apply dname_overrun_sound in H as [ls Hls]; [|done|done]. apply name_within_at in Hls.
  exists ls. split_and!; [done|by eapply name_at_valid|]. apply dname_cmp_spec; [done|].
  apply name_at_encode; [done|]. simpl. unfold holds. split_and!; [lia|lia|].
  by rewrite drop_0, firstn_all.
Qed.

Lemma dname_overrun_safe_witness :
  exists ls, name_at (mkDref foo_packet true) 11 ls /\ Forall valid_label ls /\
    returns (fun fuel => dname_cmp fuel (mkDref foo_packet true) 11 (mkDref (encode foo_local) false) 0)
            (names_cmp ls foo_local).
Proof.
  apply (dname_overrun_safe 20 _ 12).
  - by_eval.
  - reflexivity.
  - exact foo_local_valid.
  - reflexivity.
Defined.

(** A name written out in full inside the packet is accepted. *)
Theorem dname_overrun_complete r e n ls :
  Forall valid_label ls -> holds (d_buf r) n (encode ls) -> n + Zlen (encode ls) - 1 <= e ->
  returns (fun fuel => dname_overrun fuel r e n) 0.
Proof. apply dname_overrun_encode. Qed.

Lemma dname_overrun_complete_witness :
  returns (fun fuel => dname_overrun fuel (mkDref foo_packet true) 10 0) 0.
Proof.
  apply (dname_overrun_complete _ _ _ foo_local).
  - exact foo_local_valid.
  - by_eval.
  - vm_compute. discriminate.
Defined.

(** The end is compared with the first byte of a pointer only: when that is the last
    byte of the packet, the second one is taken from behind the packet.  Here the
    packet ends at offset 5, and the byte behind it decides what the name is. *)
Theorem dname_overrun_pointer_at_end :
  let name c := mkDref [1; 98; 0; 1; 97; 192; c; 1; 99; 0] true in
  dname_overrun 10 (name 0) 5 3 = Ok 0 /\ name_at (name 0) 3 [[97]; [98]] /\
  dname_overrun 10 (name 7) 5 3 = Ok 1.
Proof.
  split; [reflexivity|]. split; [|reflexivity]. apply (name_at_label _ 3 [97] [[98]]); [reflexivity|by vm_compute|by_eval|].
  apply (name_at_pointer _ 5 192 0); [reflexivity|lia|reflexivity|].
  apply (name_at_label _ 0 [98] []); [reflexivity|by vm_compute|by_eval|]. by apply name_at_end.
Qed.

(** The check does not return on a compression pointer that points to
    itself inside the packet: no amount of fuel is enough. *)
Theorem dname_overrun_self_pointer_hangs fuel r e n c0 c1 :
  d_base r = true -> rd (d_buf r) n = Ok c0 -> rd (d_buf r) (n + 1) = Ok c1 ->
  64 <= c0 < 256 -> is_byte c1 -> c0 mod 64 * 256 + c1 = n -> n <= e ->
  dname_overrun fuel r e n = Diverge.
Proof.
  intros Hr H0 H1 Hc B1 E He. eapply dname_overrun_self; [exact H0|done| |done].
  unfold follow. rewrite (POINTER_spec _ _ _ _ H0 H1) by (done || unfold is_byte; lia).
  cbn [mbind res_bind]. rewrite Hr. unfold mret, res_ret. by f_equal.
Qed.

Lemma dname_overrun_self_pointer_hangs_witness :
  dname_overrun 1000 (mkDref (replicate 12 0 ++ [0xC0; 12; 0; 1; 0; 1]) true) 17 12 = Diverge.
Proof.
  apply (dname_overrun_self_pointer_hangs 1000 _ _ _ 0xC0 12); try reflexivity; by_eval.
Defined.

(** [dname_cmp] takes a compression pointer to a 0 byte for the end of the
    name, but [dname_overrun] skips that 0 byte and goes on behind it: a name
    that decodes is refused. *)
Theorem dname_overrun_pointer_to_root :
  let r := mkDref [1; 97; 0xC0; 4; 0] true in
  name_at r 0 [[97]] /\ dname_cmp 10 r 0 (mkDref (encode [[97]]) false) 0 = Ok 0 /\
  dname_overrun 10 r 4 0 = Ok 1 /\ dname_copy 10 (replicate 255 0) r 0 = Fault.
Proof.
  split_and!; [|reflexivity|reflexivity|reflexivity].
  apply name_at_label; [reflexivity|vm_compute; split; congruence|by_eval|].
  apply (name_at_pointer _ _ 0xC0 4); [reflexivity|lia|reflexivity|].
  apply name_at_end. reflexivity.
Qed.

(** ** Size *)

(** [dname_size] terminates on every buffer; it never reports an invalid
    name, because every length byte above 63 already counts as a pointer; on a
    name written out in full it is the number of its bytes, and a pointer counts
    two bytes. *)
Theorem dname_size_correct b n ls tl c0 c1 :
  bytes b -> Forall valid_label ls -> 64 <= c0 < 256 -> tl = [0] \/ tl = [c0; c1] ->
  dname_size b n <> Diverge /\ dname_size b n <> Ok (-1) /\
  (holds b n (encode_labels ls ++ tl) -> dname_size b n = Ok (Zlen (encode_labels ls) + Zlen tl)).
Proof.
  intros Hb Hv Hc Htl. destruct (dname_size_total b n Hb). split_and!; [done|done|].
  intros H'. destruct Htl as [-> | ->].
  - rewrite (dname_size_encode _ _ _ Hv H'). by rewrite Zlen_encode.
  - by rewrite (dname_size_compressed _ _ _ _ _ Hv Hc H').
Qed.

Lemma dname_size_correct_witness : dname_size foo_packet 0 = Ok 11.
Proof.
  apply (dname_size_correct foo_packet 0 foo_local [0] 0xC0 0).
  - by_eval.
  - exact foo_local_valid.
  - lia.
  - auto.
  - by_eval.
Defined.

(** ** Copy *)

(** Copying a name into a buffer of at least 255 bytes writes the name in
    full when it takes at most 255 bytes and is refused with -1 otherwise; the
    size of the buffer is never exceeded. *)
Theorem dname_copy_correct r n ls dst :
  copyable r n ls -> 255 <= Zlen dst ->
  exists ret dst', returns (fun fuel => dname_copy fuel dst r n) (ret, dst') /\ Zlen dst' = Zlen dst /\
    (Zlen (encode ls) <= 255 -> ret = 0 /\ holds dst' 0 (encode ls)) /\
    (255 < Zlen (encode ls) -> ret = -1).
Proof.
  intros Hc Hd. destruct (Z.le_gt_cases (Zlen (encode ls)) 255).
  - destruct (dname_copy_spec r n ls dst) as (dst' & ? & ? & ?); [done..|].
    exists 0, dst'. split_and!; [done|done|done|lia].
  - destruct (dname_copy_toobig r n ls dst) as (dst' & ? & ?); [done|lia|done|].
    exists (-1), dst'. split_and!; [done|done|lia|done].
Qed.

Lemma dname_copy_correct_witness :
  exists ret dst', returns (fun fuel => dname_copy fuel (replicate 255 0) (mkDref foo_packet true) 0) (ret, dst') /\
    ret = 0 /\ holds dst' 0 (encode foo_local).
Proof.
  destruct (dname_copy_correct (mkDref foo_packet true) 0 foo_local (replicate 255 0)) as (ret & dst' & H & _ & K & _).
  - apply copyable_encode; [exact foo_local_valid|]. by_eval.
  - reflexivity || (vm_compute; congruence).
  - exists ret, dst'. split; [exact H|]. apply K. vm_compute. congruence.
Defined.

(** ** Renaming *)

(** When there is room to grow (a label that gets its first suffix is not 62
    bytes long and the buffer has two bytes to spare), [dname_increment] gives the next name (foo, foo-2, ..., foo-9) and
    keeps the other labels, or returns -1 with the name unchanged at foo-9. *)
Theorem dname_increment_correct name l rest :
  valid_label l -> Forall valid_label rest -> no_nul l -> Forall no_nul rest ->
  holds name 0 (encode (l :: rest)) -> room_to_grow name l rest ->
  match next_label l with
  | Some l' => exists name', dname_increment name = Ok (0, name') /\
      holds name' 0 (encode (l' :: rest)) /\ Zlen name' = Zlen name
  | None => dname_increment name = Ok (-1, name)
  end.
Proof. apply dname_increment_spec. Qed.

Lemma dname_increment_correct_witness :
  exists name', dname_increment (encode foo_local ++ [0; 0]) = Ok (0, name') /\
    holds name' 0 (encode [[102; 111; 111; 45; 50]; [108; 111; 99; 97; 108]]) /\ Zlen name' = 13.
Proof.
  apply (dname_increment_correct (encode foo_local ++ [0; 0]) [102; 111; 111] [[108; 111; 99; 97; 108]]).
  - split; [vm_compute; split; congruence|]. by_eval.
  - repeat constructor; unfold is_byte, Zlen; simpl; lia.
  - repeat constructor; congruence.
  - repeat constructor; congruence.
  - by_eval.
  - intros _. vm_compute. split; congruence.
Defined.

(** With a first label of exactly 62 bytes that does not end in "-2".."-9",
    [dname_increment] reports success but writes '2' over the length byte of the
    second label, and leaves the first label's length at 62. *)
Theorem dname_increment_62_corrupts name l rest :
  Zlen l = 62 -> nth 60 l 0 <> CH_DASH -> holds name 0 (encode (l :: rest)) ->
  exists name', dname_increment name = Ok (0, name') /\ rd name' 0 = Ok 62 /\ rd name' 63 = Ok CH_2.
Proof.
  intros Hl Hd H. destruct (list_last2 l ltac:(lia)) as (pre & s & d & ->).
  rewrite (dname_increment_last2 _ _ _ _ _ H).
  assert (HP : length pre = 60%nat) by (zlen; unfold Zlen in *; lia).
  rewrite app_nth2, HP in Hd by lia. simpl in Hd. replace (s =? CH_DASH) with false by lia. cbn [andb].
  destruct (increment_grow_big name (pre ++ [s; d]) rest) as (name' & E & _ & B & F); [lia|done|].
  exists name'. rewrite E. split_and!; [done| |].
  - rewrite encode_cons in H. apply holds_cons in H as [H0 _].
    apply holds_rd, F; [apply holds_rd; by rewrite <- Hl|zlen; lia].
  - apply holds_cons in B as [_ B]. by apply holds_rd.
Qed.

Lemma dname_increment_62_corrupts_witness :
  exists name', dname_increment (encode [replicate 62 97; [108; 111; 99; 97; 108]] ++ [0; 0]) = Ok (0, name') /\
    rd name' 0 = Ok 62 /\ rd name' 63 = Ok CH_2.
Proof.
  apply (dname_increment_62_corrupts _ (replicate 62 97) [[108; 111; 99; 97; 108]]).
  - reflexivity.
  - vm_compute. congruence.
  - by_eval.
Defined.

(** ** Key/value text *)

(** C34: key/value text survives the trip through a TXT record: [dnameify]
    turns "k1=v1:k2=v2" in place into length-prefixed strings of the announced
    total length, and [txt_to_c_ncpy] turns these back into the same text, as
    long as it fits the destination. *)
Theorem keyvals_roundtrip nb name before ps dst :
  ps <> [] -> Forall (piece CH_COLON) ps -> Forall no_nul ps -> 1 <= name ->
  holds nb (name - 1) (before :: join CH_COLON ps ++ [0]) ->
  Zlen (join CH_COLON ps) + 1 <= Zlen dst -> Zlen dst <= UINT16_MAX ->
  exists len nb' dst', dnameify nb name CH_COLON None = Ok (len, nb') /\
    len = Zlen (join CH_COLON ps) + 1 /\ holds nb' name (encode_labels ps) /\
    txt_to_c_ncpy dst (Zlen dst) nb' name len = Ok dst' /\ holds dst' 0 (join CH_COLON ps ++ [0]).
Proof.
  intros Hne Hps Hn Hname Hh Hd Hm. pose proof (Zlen_join CH_COLON ps Hne) as HJ.
  destruct (dnameify_inplace_spec nb name CH_COLON before ps) as (nb' & E1 & E2 & E3); [done..|lia|].
  destruct (txt_to_c_loop_spec ps nb' name (Zlen (encode_labels ps)) dst 0 (Zlen dst - 1) [] (S (length nb')))
    as (dst' & F1 & F2 & _); [done|done|done|done|apply holds_nil; pose proof (Zlen_nonneg (join CH_COLON ps)); lia|done|lia|lia| |].
  { apply holds_bounds in E2 as [_ E2]. clear -Hps E2 Hname.
    assert (Z.of_nat (length ps) <= Zlen (encode_labels ps)); [|unfold Zlen in *; lia].
    clear E2. induction Hps as [|p ps [? _] _ IH]; [done|]. rewrite encode_labels_cons. zlen. simpl. lia. }
  exists (Zlen (encode_labels ps)), nb', dst'. split_and!; [done|lia|done|done|done].
Qed.

Lemma keyvals_roundtrip_witness :
  exists len nb' dst', dnameify (7 :: [107; 61; 118; 58; 106] ++ [0]) 1 CH_COLON None = Ok (len, nb') /\
    txt_to_c_ncpy (replicate 256 0) 256 nb' 1 len = Ok dst' /\ holds dst' 0 [107; 61; 118; 58; 106; 0].
Proof.
  destruct (keyvals_roundtrip (7 :: [107; 61; 118; 58; 106] ++ [0]) 1 7 [[107; 61; 118]; [106]] (replicate 256 0))
    as (len & nb' & dst' & H1 & _ & _ & H2 & H3).
  - discriminate.
  - repeat constructor; unfold is_byte, Zlen, CH_COLON; simpl; lia.
  - repeat constructor; lia.
  - lia.
  - by_eval.
  - vm_compute. congruence.
  - vm_compute. congruence.
  - exists len, nb', dst'. split; [exact H1|]. split; [exact H2|exact H3].
Defined.

(** [dnameify] refuses every text that ends in the separator, so the
    keyvals string ":", documented as a TXT record without pairs, is refused. *)
Theorem dnameify_refuses_trailing_separator nb name sep s dest :
  no_nul (s ++ [sep]) -> holds nb name (s ++ [sep; 0]) ->
  exists b, dnameify nb name sep dest = Ok (-1, b).
Proof. apply dnameify_trailing_sep. Qed.

Lemma dnameify_refuses_trailing_separator_witness :
  exists b, dnameify [CH_COLON; 0] 0 CH_COLON None = Ok (-1, b).
Proof.
  apply (dnameify_refuses_trailing_separator _ _ _ []).
  - repeat constructor. discriminate.
  - by_eval.
Defined.

(** a TXT record of 200 one-byte strings *)
Definition txt_200 : list Z := encode_labels (replicate 200 [120]).

(** [txt_to_c_ncpy] does not count the ':' it inserts against the room
    left: 200 one-byte strings, 400 bytes of record data, overrun a 256-byte
    destination although the result is documented to take at most [dlen] bytes. *)
Theorem txt_to_c_ncpy_overflows :
  Zlen txt_200 = 400 /\ txt_to_c_ncpy (replicate 256 0) 256 (txt_200 ++ [0]) 0 400 = Fault.
Proof. split; vm_compute; reflexivity. Qed.

(** A decoded label of fewer than 63 bytes becomes a C string and the
    result points to the labels behind it; without [keepuscores] every
    underscore is dropped, not only a leading one; a label of 63 bytes, the
    longest the protocol allows, gives NULL. *)
Theorem dname_label_to_c_correct r n l ls dst keep :
  name_at r n (l :: ls) -> bytes (d_buf r) -> 64 <= Zlen dst ->
  if Zlen l <? 63 then
    exists m dst', returns (fun fuel => dname_label_to_c fuel dst r n keep) (Some m, dst') /\
      holds dst' 0 (drop_underscores keep l ++ [0]) /\ Zlen dst' = Zlen dst /\ name_at r m ls
  else returns (fun fuel => dname_label_to_c fuel dst r n keep) (None, dst).
Proof. apply dname_label_to_c_spec. Qed.

Lemma dname_label_to_c_correct_witness :
  exists m dst', returns (fun fuel => dname_label_to_c fuel (replicate 64 0) (mkDref foo_packet true) 11 0) (Some m, dst') /\
    holds dst' 0 [102; 111; 111; 0].
Proof.
  destruct (dname_label_to_c_correct (mkDref foo_packet true) 11 [102; 111; 111] [[108; 111; 99; 97; 108]] (replicate 64 0) 0)
    as (m & dst' & H & K & _).
  - exact foo_indirect.
  - by_eval.
  - vm_compute. congruence.
  - exists m, dst'. split; [exact H|exact K].
Defined.
