(* ===== verification/Message.v ===== *)
(** * DNS messages (src/mdns/mdns_message.h, src/mdns/mdns.c)

    [mdns_message] is the message structure: the raw packet buffer, the read and
    write position [cur], the last usable offset [end_] and the parsed sections.
    Pointers into the packet (names, record data) are offsets into [data]; the
    header is the first twelve bytes of [data].  The build modelled is the
    default one of the Makefile: little endian, with the query API.  [size_t]
    is 32 bits wide, as the pointer casts of [mdns_send_msg] require. *)
From S2P Require Import Prelude Buffer Dname.

(** ** Constants of mdns_message.h and mdns.h *)

Definition MDNS_MAX_QUESTIONS : Z := 32.
Definition MDNS_MAX_ANSWERS : Z := 32.
Definition MDNS_MAX_AUTHORITIES : Z := 32.
Definition MDNS_INADDRARPA_LEN : Z := 30.
Definition MDNS_DATA_MAX : Z := 1472.

Definition C_IN : Z := 0x0001.
Definition C_FLUSH : Z := 0x8001.

Definition T_A : Z := 1.
Definition T_NS : Z := 2.
Definition T_CNAME : Z := 5.
Definition T_PTR : Z := 12.
Definition T_TXT : Z := 16.
Definition T_SRV : Z := 33.
Definition T_ANY : Z := 255.

Definition QUERY : Z := 0.
Definition RESPONSE : Z := 1.
Definition DNS_OPCODE_QUERY : Z := 0.

Definition MDNS_SECTION_QUESTIONS : Z := 0.
Definition MDNS_SECTION_ANSWERS : Z := 1.
Definition MDNS_SECTION_AUTHORITIES : Z := 2.

Definition MDNS_PROTO_TCP : Z := 0.
Definition MDNS_PROTO_UDP : Z := 1.

Definition MDNS_SUCCESS : Z := 0.
Definition MDNS_INVAL : Z := 1.
Definition MDNS_TOOBIG : Z := 3.

(** enum mdns_commands_t *)
Definition MDNS_CTRL_HALT : Z := 0.
Definition MDNS_CTRL_MONITOR : Z := 1.
Definition MDNS_CTRL_UNMONITOR : Z := 2.

(** sizeof(struct mdns_header), which is packed *)
Definition HEADER_SIZE : Z := 12.
(** (uint32_t)-1 *)
Definition NO_TTL : Z := UINT32_MAX.

(** ** Data *)

Record mdns_question := mkQuestion { qname : Z; qtype : Z; qclass : Z }.

Record mdns_resource := mkResource {
  r_name : Z; r_type : Z; r_class : Z; r_ttl : Z; r_rdlength : Z; r_rdata : Z }.

(** A [struct mdns_resource *]: an element of one of the two arrays. *)
Inductive rref := RAnswer (i : nat) | RAuthority (i : nat).

#[global] Instance rref_eq_dec : EqDecision rref.
Proof. solve_decision. Defined.

Record mdns_message := mkMessage {
  data : list Z;
  cur : Z;
  end_ : Z;
  len : Z;
  questions : list mdns_question;
  num_questions : Z;
  answers : list mdns_resource;
  num_answers : Z;
  authorities : list mdns_resource;
  num_authorities : Z;
  as_ : list rref; srvs : list rref; txts : list rref; ptrs : list rref }.

(** A service as the responder holds it.  Strings are the characters before the
    terminating 0; [keyvals] is the user's buffer and the offset of the text in
    it, or NULL; [ptrname] is an offset into [fqsn]. *)
Record mdns_service := mkService {
  servname : list Z;
  servtype : list Z;
  port : Z;
  proto : Z;
  keyvals : option (list Z * Z);
  fqsn : list Z;
  ptrname : Z;
  kvlen : Z;
  flags : Z }.

Definition default_question : mdns_question := mkQuestion 0 0 0.
Definition default_resource : mdns_resource := mkResource 0 0 0 0 0 0.

(** ** Field updates *)

Definition set_data (m : mdns_message) (d : list Z) : mdns_message :=
  mkMessage d (cur m) (end_ m) (len m) (questions m) (num_questions m) (answers m) (num_answers m)
    (authorities m) (num_authorities m) (as_ m) (srvs m) (txts m) (ptrs m).

Definition set_pos (m : mdns_message) (c e l : Z) : mdns_message :=
  mkMessage (data m) c e l (questions m) (num_questions m) (answers m) (num_answers m)
    (authorities m) (num_authorities m) (as_ m) (srvs m) (txts m) (ptrs m).

Definition set_cur (m : mdns_message) (c : Z) : mdns_message := set_pos m c (end_ m) (len m).
Definition set_end (m : mdns_message) (e : Z) : mdns_message := set_pos m (cur m) e (len m).

Definition set_counts (m : mdns_message) (q a n : Z) : mdns_message :=
  mkMessage (data m) (cur m) (end_ m) (len m) (questions m) q (answers m) a
    (authorities m) n (as_ m) (srvs m) (txts m) (ptrs m).

Definition set_questions (m : mdns_message) (qs : list mdns_question) : mdns_message :=
  mkMessage (data m) (cur m) (end_ m) (len m) qs (num_questions m) (answers m) (num_answers m)
    (authorities m) (num_authorities m) (as_ m) (srvs m) (txts m) (ptrs m).

Definition set_answers (m : mdns_message) (rs : list mdns_resource) : mdns_message :=
  mkMessage (data m) (cur m) (end_ m) (len m) (questions m) (num_questions m) rs (num_answers m)
    (authorities m) (num_authorities m) (as_ m) (srvs m) (txts m) (ptrs m).

Definition set_authorities (m : mdns_message) (rs : list mdns_resource) : mdns_message :=
  mkMessage (data m) (cur m) (end_ m) (len m) (questions m) (num_questions m) (answers m) (num_answers m)
    rs (num_authorities m) (as_ m) (srvs m) (txts m) (ptrs m).

Definition set_lists (m : mdns_message) (a s t p : list rref) : mdns_message :=
  mkMessage (data m) (cur m) (end_ m) (len m) (questions m) (num_questions m) (answers m) (num_answers m)
    (authorities m) (num_authorities m) a s t p.

(** The message as the memory names are decoded in. *)
Definition packet (m : mdns_message) : dref := mkDref (data m) true.

(** A name of our own as an argument that is compared without a packet. *)
Definition own (name : list Z) : dref := mkDref name false.

(** ** Accessors of mdns_private.h *)

Definition get_uint16 (b : list Z) (p : Z) : res Z :=
  c0 ← rd b p; c1 ← rd b (p + 1);
  mret (Z.lor (Z.shiftl c0 8) c1).

Definition get_uint32 (b : list Z) (p : Z) : res Z :=
  c0 ← rd b p; c1 ← rd b (p + 1); c2 ← rd b (p + 2); c3 ← rd b (p + 3);
  mret (Z.lor (Z.lor (Z.lor (Z.shiftl c0 24) (Z.shiftl c1 16)) (Z.shiftl c2 8)) c3).

Definition set_uint16 (b : list Z) (p v : Z) : res (list Z) :=
  b ← wr b p (Z.land (Z.shiftr v 8) 0xff);
  wr b (p + 1) (Z.land v 0xff).

Definition set_uint32 (b : list Z) (p v : Z) : res (list Z) :=
  b ← wr b p (Z.land (Z.shiftr v 24) 0xff);
  b ← wr b (p + 1) (Z.land (Z.shiftr v 16) 0xff);
  b ← wr b (p + 2) (Z.land (Z.shiftr v 8) 0xff);
  wr b (p + 3) (Z.land v 0xff).

(** htons(5353) *)
Definition MDNS_PORT : Z := htons 5353.

(** Offsets of the header fields. *)
Definition H_ID : Z := 0.
Definition H_FLAGS : Z := 2.
Definition H_QDCOUNT : Z := 4.
Definition H_ANCOUNT : Z := 6.
Definition H_NSCOUNT : Z := 8.
Definition H_ARCOUNT : Z := 10.

(** The bit fields of [flags.num]. *)
Definition flag_qr (num : Z) : Z := Z.land (Z.shiftr num 15) 1.
Definition flag_opcode (num : Z) : Z := Z.land (Z.shiftr num 11) 15.

(** [m->header->flags.fields.qr] *)
Definition header_qr (m : mdns_message) : res Z :=
  num ← get_host16 (data m) H_FLAGS; mret (flag_qr num).

Definition TAILROOM (m : mdns_message) : Z := end_ m - cur m + 1.
Definition VALID_LENGTH (m : mdns_message) : Z := cur m.

(** CHECK_TAILROOM with an [int] argument, and with a [size_t] argument, where C
    converts the signed TAILROOM to [size_t] first. *)
Definition no_tailroom (m : mdns_message) (l : Z) : bool := TAILROOM m <? l.
Definition no_tailroom_u (m : mdns_message) (l : Z) : bool := u32 (TAILROOM m) <? u32 l.

(** ** Parsing *)

(** [SLIST_INSERT_HEAD] of the record into the list of its type. *)
Definition sort_record (m : mdns_message) (ref : rref) (type : Z) : mdns_message :=
  if type =? T_A then set_lists m (ref :: as_ m) (srvs m) (txts m) (ptrs m)
  else if type =? T_SRV then set_lists m (as_ m) (ref :: srvs m) (txts m) (ptrs m)
  else if type =? T_TXT then set_lists m (as_ m) (srvs m) (ref :: txts m) (ptrs m)
  else if type =? T_PTR then set_lists m (as_ m) (srvs m) (txts m) (ref :: ptrs m)
  else m.

(** The name part that [parse_resource] and the question loop share: -1, or the
    length of the name at [cur]. *)
Definition check_name (fuel : nat) (m : mdns_message) : res Z :=
  l ← dname_size (data m) (cur m);
  if (l =? 0) || (l =? -1) || (MDNS_MAX_NAME_LEN <? l) then mret (-1)
  else if no_tailroom m l then mret (-1)
  else
    o ← dname_overrun fuel (packet m) (end_ m) (cur m);
    mret (if negb (o =? 0) then -1 else l).

(** The result code, the message, and the record as far as it was filled in;
    [ref] is the array element [r] points to. *)
Definition parse_resource (fuel : nat) (m : mdns_message) (ref : rref) (r : mdns_resource)
    : res (Z * mdns_message * mdns_resource) :=
  let r := mkResource (cur m) (r_type r) (r_class r) (r_ttl r) (r_rdlength r) (r_rdata r) in
  l ← check_name fuel m;
  if l =? -1 then mret (-1, m, r)
  else
    let m := set_cur m (cur m + l) in
    if no_tailroom_u m (3 * 2 + 4) then mret (-1, m, r)
    else
      type ← get_uint16 (data m) (cur m);
      class ← get_uint16 (data m) (cur m + 2);
      ttl ← get_uint32 (data m) (cur m + 4);
      rdlength ← get_uint16 (data m) (cur m + 8);
      let m := set_cur m (cur m + 10) in
      let r := mkResource (r_name r) type class ttl rdlength (r_rdata r) in
      if no_tailroom m rdlength then mret (-1, m, r)
      else
        let r := mkResource (r_name r) type class ttl rdlength (cur m) in
        let m := set_cur m (cur m + rdlength) in
        bad ← (if type =? T_A then mret (negb (rdlength =? 4))
               else if (type =? T_SRV) || (type =? T_PTR) then
                 o ← dname_overrun fuel (packet m) (end_ m) (r_rdata r);
                 mret (negb (o =? 0))
               else mret false);
        if bad : bool then mret (-1, m, r)
        else mret (0, sort_record m ref type, r).

(** The question loop from index [i], [k] questions to go. *)
Fixpoint parse_questions (fuel : nat) (k i : nat) (m : mdns_message) : res (Z * mdns_message) :=
  match k with
  | O => mret (0, m)
  | S k' =>
      let q0 := nth i (questions m) default_question in
      let m := set_questions m (<[i := mkQuestion (cur m) (qtype q0) (qclass q0)]> (questions m)) in
      l ← check_name fuel m;
      if l =? -1 then mret (-1, m)
      else
        let m := set_cur m (cur m + l) in
        if no_tailroom_u m (2 * 2) then mret (-1, m)
        else
          t ← get_uint16 (data m) (cur m);
          c ← get_uint16 (data m) (cur m + 2);
          let m := set_questions m (<[i := mkQuestion (cur m - l) t c]> (questions m)) in
          parse_questions fuel k' (S i) (set_cur m (cur m + 4))
  end.

(** The two record arrays; the answer loop and the authority loop differ only in
    the array they fill. *)
Inductive rsection := Answers | Authorities.

Definition records (s : rsection) (m : mdns_message) : list mdns_resource :=
  match s with Answers => answers m | Authorities => authorities m end.

Definition set_records (s : rsection) (m : mdns_message) (rs : list mdns_resource) : mdns_message :=
  match s with Answers => set_answers m rs | Authorities => set_authorities m rs end.

Definition section_ref (s : rsection) (i : nat) : rref :=
  match s with Answers => RAnswer i | Authorities => RAuthority i end.

Fixpoint parse_resources (s : rsection) (fuel : nat) (k i : nat) (m : mdns_message) : res (Z * mdns_message) :=
  match k with
  | O => mret (0, m)
  | S k' =>
      '(ret, m, r) ← parse_resource fuel m (section_ref s i) (nth i (records s m) default_resource);
      let m := set_records s m (<[i := r]> (records s m)) in
      if ret =? -1 then mret (-1, m) else parse_resources s fuel k' (S i) m
  end.

(** The state after the header has been read: counts from the header, flags
    swapped to host order in place. *)
Definition parse_header (m : mdns_message) (mlen : Z) : res (mdns_message * Z) :=
  let m := set_lists m [] [] [] [] in
  let m := set_pos m HEADER_SIZE (mlen - 1) mlen in
  qd ← get_host16 (data m) H_QDCOUNT;
  an ← get_host16 (data m) H_ANCOUNT;
  ns ← get_host16 (data m) H_NSCOUNT;
  let m := set_counts m (htons qd) (htons an) (htons ns) in
  num ← get_host16 (data m) H_FLAGS;
  let num := htons num in
  d ← set_host16 (data m) H_FLAGS num;
  mret (set_data m d, num).

Definition mdns_parse_message (fuel : nat) (m : mdns_message) (mlen : Z) : res (Z * mdns_message) :=
  if u32 mlen <? HEADER_SIZE then mret (-1, m)
  else
    '(m, num) ← parse_header m mlen;
    if negb (flag_opcode num =? DNS_OPCODE_QUERY) then mret (-1, m)
    else
      let m := if MDNS_MAX_QUESTIONS <? num_questions m
               then set_counts m MDNS_MAX_QUESTIONS (num_answers m) (num_authorities m) else m in
      '(ret, m) ← parse_questions fuel (Z.to_nat (num_questions m)) 0 m;
      if ret =? -1 then mret (-1, m)
      else
        let m := if MDNS_MAX_ANSWERS <? num_answers m
                 then set_counts m (num_questions m) MDNS_MAX_ANSWERS (num_authorities m) else m in
        '(ret, m) ← parse_resources Answers fuel (Z.to_nat (num_answers m)) 0 m;
        if ret =? -1 then mret (-1, m)
        else
          let m := if MDNS_MAX_AUTHORITIES <? num_authorities m
                   then set_counts m (num_questions m) (num_answers m) MDNS_MAX_AUTHORITIES else m in
          '(ret, m) ← parse_resources Authorities fuel (Z.to_nat (num_authorities m)) 0 m;
          if ret =? -1 then mret (-1, m) else mret (0, m).

(** ** Building *)

Definition mdns_query_init (m : mdns_message) : res (Z * mdns_message) :=
  let size := Zlen (data m) in
  let m := set_pos m HEADER_SIZE (size - 1) size in
  d ← wr_range (data m) 0 (replicate 12 0);
  mret (0, set_counts (set_data m d) 0 0 0).

Definition mdns_response_init (m : mdns_message) : res (Z * mdns_message) :=
  '(ret, m) ← mdns_query_init m;
  if negb (ret =? 0) then mret (-1, m)
  else
    num ← get_host16 (data m) H_FLAGS;
    let num := Z.lor num (Z.shiftl 1 15) in
    let num := Z.lor num (Z.shiftl 1 10) in
    let num := Z.land num (Z.lnot 15) in
    d ← set_host16 (data m) H_FLAGS (htons num);
    mret (0, set_data m d).

(** [memcpy(m->cur, ...); m->cur += ...] and the set macros at [cur]. *)
Definition put_bytes (m : mdns_message) (l : list Z) : res mdns_message :=
  d ← wr_range (data m) (cur m) l;
  mret (set_cur (set_data m d) (cur m + Zlen l)).

Definition put_uint16 (m : mdns_message) (v : Z) : res mdns_message :=
  d ← set_uint16 (data m) (cur m) v;
  mret (set_cur (set_data m d) (cur m + 2)).

Definition put_uint32 (m : mdns_message) (v : Z) : res mdns_message :=
  d ← set_uint32 (data m) (cur m) v;
  mret (set_cur (set_data m d) (cur m + 4)).

(** [m->header->xxcount = htons(htons(m->header->xxcount) + 1)] *)
Definition bump_count (m : mdns_message) (off : Z) : res mdns_message :=
  v ← get_host16 (data m) off;
  d ← set_host16 (data m) off (htons (htons v + 1));
  mret (set_data m d).

(** A name argument is a buffer and an offset into it. *)
Definition mdns_add_tuple (m : mdns_message) (name : list Z * Z) (type class ttl : Z)
    : res (Z * mdns_message) :=
  sz ← dname_size (fst name) (snd name);
  let l := u16 sz in
  let size := if ttl =? NO_TTL then l + 2 * 2 else l + 2 * 2 + 4 in
  if no_tailroom m size then mret (-1, m)
  else
    bs ← rd_range (fst name) (snd name) l;
    m ← put_bytes m bs;
    m ← put_uint16 m type;
    m ← put_uint16 m class;
    if negb (ttl =? NO_TTL) then
      m ← put_uint32 m ttl;
      mret (0, m)
    else mret (0, m).

Definition mdns_add_question (m : mdns_message) (name : list Z * Z) (qt qc : Z)
    : res (Z * mdns_message) :=
  '(ret, m) ← mdns_add_tuple m name qt qc NO_TTL;
  if ret =? -1 then mret (-1, m)
  else
    m ← bump_count m H_QDCOUNT;
    mret (0, set_counts m (u16 (num_questions m + 1)) (num_answers m) (num_authorities m)).

Definition mdns_add_answer (m : mdns_message) (name : list Z * Z) (type class ttl : Z)
    : res (Z * mdns_message) :=
  '(ret, m) ← mdns_add_tuple m name type class ttl;
  if negb (ret =? 0) then mret (-1, m)
  else
    m ← bump_count m H_ANCOUNT;
    mret (0, set_counts m (num_questions m) (u16 (num_answers m + 1)) (num_authorities m)).

Definition mdns_add_answer_lo (m : mdns_message) (label : list Z) (offset type class ttl : Z)
    : res (Z * mdns_message) :=
  let l := u16 (Zlen label) in
  let size := l + 2 * 2 + 4 + 3 in
  if no_tailroom m size then mret (-1, m)
  else
    m ← put_bytes m [u8 l];
    m ← put_bytes m (take (Z.to_nat l) label);
    m ← put_uint16 m (Z.lor 0xC000 offset);
    m ← put_uint16 m type;
    m ← put_uint16 m class;
    m ← put_uint32 m ttl;
    m ← bump_count m H_ANCOUNT;
    mret (0, set_counts m (num_questions m) (u16 (num_answers m + 1)) (num_authorities m)).

Definition mdns_add_answer_o (m : mdns_message) (offset type class ttl : Z)
    : res (Z * mdns_message) :=
  let size := 3 * 2 + 4 in
  if no_tailroom m size then mret (-1, m)
  else
    m ← put_uint16 m (Z.lor 0xC000 offset);
    m ← put_uint16 m type;
    m ← put_uint16 m class;
    m ← put_uint32 m ttl;
    m ← bump_count m H_ANCOUNT;
    mret (0, set_counts m (num_questions m) (u16 (num_answers m + 1)) (num_authorities m)).

Definition mdns_add_authority (m : mdns_message) (name : list Z * Z) (type class ttl : Z)
    : res (Z * mdns_message) :=
  '(ret, m) ← mdns_add_tuple m name type class ttl;
  if negb (ret =? 0) then mret (-1, m)
  else
    m ← bump_count m H_NSCOUNT;
    mret (0, set_counts m (num_questions m) (num_answers m) (u16 (num_authorities m + 1))).

Definition mdns_add_uint32 (m : mdns_message) (i : Z) : res (Z * mdns_message) :=
  if no_tailroom_u m (2 + 4) then mret (-1, m)
  else
    m ← put_uint16 m 4;
    m ← put_uint32 m i;
    mret (0, m).

Definition mdns_add_name (m : mdns_message) (name : list Z * Z) : res (Z * mdns_message) :=
  l ← dname_size (fst name) (snd name);
  if no_tailroom_u m (l + 2) then mret (-1, m)
  else
    m ← put_uint16 m l;
    bs ← rd_range (fst name) (snd name) l;
    m ← put_bytes m bs;
    mret (0, m).

Definition mdns_add_name_lo (m : mdns_message) (label : list Z) (offset : Z) : res (Z * mdns_message) :=
  let l := Zlen label in
  if no_tailroom_u m (l + 1 + 2 * 2) then mret (-1, m)
  else
    m ← put_uint16 m (l + 1 + 2);
    m ← put_bytes m [u8 l];
    m ← put_bytes m label;
    m ← put_uint16 m (Z.lor 0xC000 offset);
    mret (0, m).

Definition mdns_add_txt (m : mdns_message) (txt : list Z * Z) (l : Z) : res (Z * mdns_message) :=
  if no_tailroom_u m (l + 2) then mret (-1, m)
  else
    m ← put_uint16 m l;
    bs ← rd_range (fst txt) (snd txt) l;
    m ← put_bytes m bs;
    mret (0, m).

Definition mdns_add_srv (m : mdns_message) (priority weight prt : Z) (target : list Z * Z)
    : res (Z * mdns_message) :=
  l ← dname_size (fst target) (snd target);
  if no_tailroom_u m (l + 4 * 2) then mret (-1, m)
  else
    m ← put_uint16 m (l + 3 * 2);
    m ← put_uint16 m priority;
    m ← put_uint16 m weight;
    m ← put_uint16 m prt;
    bs ← rd_range (fst target) (snd target) l;
    m ← put_bytes m bs;
    mret (0, m).

(** [a != 0 || b != 0]: run [b] only when [a] succeeded. *)
Definition and_then (a : res (Z * mdns_message)) (b : mdns_message -> res (Z * mdns_message))
    : res (Z * mdns_message) :=
  '(ret, m) ← a;
  if negb (ret =? 0) then mret (-1, m)
  else
    '(ret, m) ← b m;
    if negb (ret =? 0) then mret (-1, m) else mret (0, m).

Definition mdns_add_srv_ptr_txt (m : mdns_message) (s : mdns_service) (fqdn : list Z)
    (section ttl : Z) : res (Z * mdns_message) :=
  let fqsn_name := (fqsn s, 0) in
  let ptr_name := (fqsn s, ptrname s) in
  if section =? MDNS_SECTION_ANSWERS then
    and_then (and_then (mdns_add_answer m fqsn_name T_SRV C_FLUSH ttl)
                       (fun m => mdns_add_srv m 0 0 (port s) (fqdn, 0)))
    (fun m =>
      and_then (and_then (mdns_add_answer m ptr_name T_PTR C_FLUSH ttl)
                         (fun m => mdns_add_name m fqsn_name))
      (fun m =>
        match keyvals s with
        | Some kv => and_then (mdns_add_answer m fqsn_name T_TXT C_FLUSH ttl)
                              (fun m => mdns_add_txt m kv (kvlen s))
        | None => mret (0, m)
        end))
  else if section =? MDNS_SECTION_AUTHORITIES then
    and_then (and_then (mdns_add_authority m fqsn_name T_SRV C_FLUSH ttl)
                       (fun m => mdns_add_srv m 0 0 (port s) (fqdn, 0)))
    (fun m =>
      match keyvals s with
      | Some kv => and_then (mdns_add_authority m fqsn_name T_TXT C_FLUSH ttl)
                            (fun m => mdns_add_txt m kv (kvlen s))
      | None => mret (0, m)
      end)
  else if section =? MDNS_SECTION_QUESTIONS then
    mdns_add_question m fqsn_name T_ANY C_IN
  else mret (-1, m).

(** The bytes [mdns_send_msg] hands to the socket. *)
Definition mdns_send_msg (m : mdns_message) : list Z := take (Z.to_nat (cur m)) (data m).

(** ** Time *)

Definition interval (start stop : Z) : Z :=
  if start <=? stop then stop - start else u32 (UINT32_MAX - start + stop).

(** A [struct timeval] *)
Record timeval := mkTimeval { tv_sec : Z; tv_usec : Z }.

Definition SET_TIMEOUT (ms : Z) : timeval := mkTimeval (ms / 1000) (ms mod 1000 * 1000).

Definition recalc_timeout (start stop target : Z) : timeval :=
  let waited := interval start stop in
  if target <=? waited then SET_TIMEOUT 0 else SET_TIMEOUT (target - waited).
