(* ===== verification/MessageSpec.v ===== *)
(** * What the message functions write and read

    Wire encodings of questions and records, the state of a message under
    construction ([repr]), a composable specification of the functions that
    append to it ([emits]), and the lemmas on the accessors. *)
From S2P Require Import Prelude Buffer Dname DnameSpec DnameText Message.

(** ** Big-endian words *)

Definition be16 (v : Z) : list Z := [v / 256; v mod 256].
Definition be32 (v : Z) : list Z := [v / 16777216; v / 65536 mod 256; v / 256 mod 256; v mod 256].

Lemma Zlen_be16 v : Zlen (be16 v) = 2.
Proof. done. Qed.

Lemma Zlen_be32 v : Zlen (be32 v) = 4.
Proof. done. Qed.

Lemma bytes_be16 v : 0 <= v < 65536 -> bytes (be16 v).
Proof.
  intros. repeat constructor; try apply Z.mod_pos_bound; try lia.
  - apply Z.div_pos; lia.
  - apply Z.div_lt_upper_bound; lia.
Qed.

Lemma bytes_be32 v : 0 <= v < 4294967296 -> bytes (be32 v).
Proof.
  intros. repeat constructor; try apply Z.mod_pos_bound; try lia.
  - apply Z.div_pos; lia.
  - apply Z.div_lt_upper_bound; lia.
Qed.

Lemma get_uint16_be16 b p v : 0 <= v < 65536 -> holds b p (be16 v) -> get_uint16 b p = Ok v.
Proof.
  intros Hv H. pose proof (bytes_be16 v Hv) as Hb. unfold be16 in *.
  inversion Hb as [|? ? B0 Hb1]; inversion Hb1 as [|? ? B1 _]; subst.
  apply holds_cons in H as [H0 H1]. apply holds_rd in H1.
  unfold get_uint16. rewrite H0. cbn [mbind res_bind]. rewrite H1. cbn [mbind res_bind].
  unfold is_byte in *. rewrite lor_shiftl by lia. change (2 ^ 8) with 256.
  unfold mret, res_ret. f_equal. pose proof (Z.div_mod v 256). lia.
Qed.

Lemma get_uint32_be32 b p v : 0 <= v < 4294967296 -> holds b p (be32 v) -> get_uint32 b p = Ok v.
Proof.
  intros Hv H. pose proof (bytes_be32 v Hv) as Hb. unfold be32 in *.
  unfold bytes in Hb.
  repeat match goal with K : Forall _ (_ :: _) |- _ => apply Forall_cons_iff in K as [? K] end.
  apply holds_cons in H as [G0 H]. apply holds_cons in H as [G1 H]. apply holds_cons in H as [G2 H].
  apply holds_rd in H.
  replace (p + 1 + 1) with (p + 2) in * by lia. replace (p + 2 + 1) with (p + 3) in * by lia.
  unfold get_uint32. rewrite G0; cbn [mbind res_bind]; rewrite G1; cbn [mbind res_bind];
    rewrite G2; cbn [mbind res_bind]; rewrite H; cbn [mbind res_bind].
  unfold is_byte in *. unfold mret, res_ret. f_equal.
  assert (E1 : forall a c, Z.lor (Z.shiftl a 24) (Z.shiftl c 16) = Z.shiftl (Z.lor (Z.shiftl a 8) c) 16).
  { intros. rewrite Z.shiftl_lor, Z.shiftl_shiftl by lia. done. }
  assert (E2 : forall a c, Z.lor (Z.shiftl a 16) (Z.shiftl c 8) = Z.shiftl (Z.lor (Z.shiftl a 8) c) 8).
  { intros. rewrite Z.shiftl_lor, Z.shiftl_shiftl by lia. done. }
  rewrite E1, E2. rewrite !lor_shiftl by lia. change (2 ^ 8) with 256.
  pose proof (Z.div_mod v 256). pose proof (Z.div_mod (v / 256) 256). pose proof (Z.div_mod (v / 65536) 256).
  replace (v / 65536) with (v / 256 / 256) in * by (rewrite Z.div_div by lia; done).
  replace (v / 16777216) with (v / 256 / 256 / 256) in * by (rewrite !Z.div_div by lia; done). lia.
Qed.

(** ** Writes *)

Lemma wr_is_range b p v : is_byte v -> wr b p v = wr_range b p [v].
Proof. intros. unfold wr. by rewrite u8_id. Qed.

Lemma wr_range_cons b p v l :
  wr_range b p (v :: l) = (b ← wr_range b p [v]; wr_range b (p + 1) l).
Proof.
  destruct (wr_range b p (v :: l)) as [b'| |] eqn:E.
  - change (v :: l) with ([v] ++ l) in E. apply wr_range_app in E as (b1 & E1 & E2).
    rewrite E1. symmetry. exact E2.
  - destruct (wr_range b p [v]) as [b1| |] eqn:E1; cbn [mbind res_bind]; [|done|].
    + destruct (wr_range b1 (p + 1) l) as [b2| |] eqn:E2; [|done|].
      * assert (wr_range b p ([v] ++ l) = Ok b2) by (apply wr_range_app; eauto). simpl in *. congruence.
      * unfold wr_range in E2. by case_match.
    + unfold wr_range in E1. by case_match.
  - unfold wr_range in E. by case_match.
Qed.

Lemma set_uint16_eq b p v : set_uint16 b p v = wr_range b p (be16 (u16 v)).
Proof.
  unfold set_uint16, be16. rewrite !land_255, Z.shiftr_div_pow2 by lia.
  change (2 ^ 8) with 256.
  assert (E0 : v / 256 mod 256 = u16 v / 256) by (unfold u16; Z.div_mod_to_equations; lia).
  assert (E1 : v mod 256 = u16 v mod 256) by (unfold u16; Z.div_mod_to_equations; lia).
  rewrite E0, <- E1. rewrite wr_range_cons.
  rewrite wr_is_range by (rewrite <- E0; apply Z.mod_pos_bound; lia).
  destruct (wr_range b p _); [|done|done]. cbn [mbind res_bind].
  by rewrite wr_is_range by (apply Z.mod_pos_bound; lia).
Qed.

Lemma set_uint32_eq b p v : set_uint32 b p v = wr_range b p (be32 (u32 v)).
Proof.
  unfold set_uint32, be32. rewrite !land_255, !Z.shiftr_div_pow2 by lia.
  change (2 ^ 8) with 256. change (2 ^ 16) with 65536. change (2 ^ 24) with 16777216.
  assert (E0 : v / 16777216 mod 256 = u32 v / 16777216) by (unfold u32; Z.div_mod_to_equations; lia).
  assert (E1 : v / 65536 mod 256 = u32 v / 65536 mod 256) by (unfold u32; Z.div_mod_to_equations; lia).
  assert (E2 : v / 256 mod 256 = u32 v / 256 mod 256) by (unfold u32; Z.div_mod_to_equations; lia).
  assert (E3 : v mod 256 = u32 v mod 256) by (unfold u32; Z.div_mod_to_equations; lia).
  rewrite E0, <- E1, <- E2, <- E3.
  assert (B0 : is_byte (u32 v / 16777216)) by (rewrite <- E0; apply Z.mod_pos_bound; lia).
  assert (B : forall x, is_byte (x mod 256)) by (intros; apply Z.mod_pos_bound; lia).
  rewrite !wr_is_range by auto.
  rewrite (wr_range_cons b p _ [_; _; _]). destruct (wr_range b p _) as [b1| |]; [|done|done]. cbn [mbind res_bind].
  rewrite wr_is_range by auto.
  rewrite (wr_range_cons b1 _ _ [_; _]). destruct (wr_range b1 (p + 1) _) as [b2| |]; [|done|done]. cbn [mbind res_bind].
  rewrite wr_is_range by auto. replace (p + 1 + 1) with (p + 2) by lia.
  rewrite (wr_range_cons b2 _ _ [_]). destruct (wr_range b2 (p + 2) _) as [b3| |]; [|done|done]. cbn [mbind res_bind].
  rewrite wr_is_range by auto. f_equal. lia.
Qed.

(** The header counters are big-endian words on the wire. *)
Lemma get_host16_be16 b p v :
  0 <= v < 65536 -> holds b p (be16 v) -> get_host16 b p = Ok (htons v).
Proof.
  intros Hv H. unfold be16 in H. apply holds_cons in H as [H0 H1]. apply holds_rd in H1.
  unfold get_host16. rewrite H0; cbn [mbind res_bind]; rewrite H1; cbn [mbind res_bind].
  unfold mret, res_ret, htons. rewrite u16_id by done. f_equal. lia.
Qed.

Lemma htons_range v : 0 <= htons v < 65536.
Proof. unfold htons, u16. Z.div_mod_to_equations. lia. Qed.

Lemma htons_htons v : 0 <= v < 65536 -> htons (htons v) = v.
Proof.
  intros H. unfold htons at 1. rewrite u16_id by apply htons_range.
  unfold htons. rewrite u16_id by done. Z.div_mod_to_equations. lia.
Qed.

Lemma set_host16_htons b p v : set_host16 b p (htons v) = wr_range b p (be16 (u16 v)).
Proof.
  unfold set_host16, htons, be16. pose proof (u16_range v) as Hu.
  assert (E0 : (u16 v mod 256 * 256 + u16 v / 256) mod 256 = u16 v / 256) by (Z.div_mod_to_equations; lia).
  assert (E1 : (u16 v mod 256 * 256 + u16 v / 256) / 256 = u16 v mod 256) by (Z.div_mod_to_equations; lia).
  rewrite E0, E1, wr_range_cons. rewrite wr_is_range by (rewrite <- E0; apply Z.mod_pos_bound; lia).
  destruct (wr_range b p _); [|done|done]. cbn [mbind res_bind].
  by rewrite wr_is_range by (apply Z.mod_pos_bound; lia).
Qed.

(** ** A message under construction

    [body] is what has been appended after the header, [nq], [na] and [nn] the
    section counts, and [fl] the identification and flag bytes on the wire. *)
Record repr (m : mdns_message) (body : list Z) (nq na nn : Z) (fl : list Z) : Prop := mkRepr {
  repr_size : Zlen (data m) = 1472;
  repr_bytes : bytes (data m);
  repr_end : end_ m = 1471;
  repr_cur : cur m = 12 + Zlen body;
  repr_fit : 12 + Zlen body <= 1472;
  repr_body : holds (data m) 12 body;
  repr_flags : holds (data m) 0 fl;
  repr_fl4 : Zlen fl = 4;
  repr_qd : holds (data m) 4 (be16 nq);
  repr_an : holds (data m) 6 (be16 na);
  repr_ns : holds (data m) 8 (be16 nn);
  repr_ar : holds (data m) 10 [0; 0];
  repr_cnt : 0 <= nq /\ 0 <= na /\ 0 <= nn /\ nq + na + nn <= Zlen body;
  repr_nq : num_questions m = nq;
  repr_na : num_answers m = na;
  repr_nn : num_authorities m = nn }.

(** Arrays and record lists are left alone by the functions that append. *)
Definition same_arrays (m m' : mdns_message) : Prop :=
  questions m' = questions m /\ answers m' = answers m /\ authorities m' = authorities m /\
  as_ m' = as_ m /\ srvs m' = srvs m /\ txts m' = txts m /\ ptrs m' = ptrs m.

Lemma same_arrays_refl m : same_arrays m m.
Proof. done. Qed.

Lemma same_arrays_trans m1 m2 m3 : same_arrays m1 m2 -> same_arrays m2 m3 -> same_arrays m1 m3.
Proof. unfold same_arrays. intros. destruct_and!. split_and!; congruence. Qed.

(** [emits f bs dq da dn]: [f] appends exactly [bs] and raises the counts when
    the bytes fit in the packet, and reports failure when they do not. *)
Definition emits (f : mdns_message -> res (Z * mdns_message)) (bs : list Z) (dq da dn : Z) : Prop :=
  forall m body nq na nn fl, repr m body nq na nn fl ->
  exists m', same_arrays m m' /\
    if 12 + Zlen body + Zlen bs <=? 1472 then
      f m = Ok (0, m') /\ repr m' (body ++ bs) (nq + dq) (na + da) (nn + dn) fl
    else f m = Ok (-1, m').

(** Appending bytes without touching the counts. *)
Lemma repr_put m body nq na nn fl bs :
  repr m body nq na nn fl -> bytes bs -> 12 + Zlen body + Zlen bs <= 1472 ->
  exists m', put_bytes m bs = Ok m' /\ same_arrays m m' /\ repr m' (body ++ bs) nq na nn fl.
Proof.
  intros R Hb Hf. destruct R. unfold put_bytes. rewrite repr_cur0.
  pose proof (Zlen_nonneg body). pose proof (Zlen_nonneg bs).
  destruct (wr_range_exists (data m) (12 + Zlen body) bs) as [d W]; [lia|lia|].
  rewrite W. cbn [mbind res_bind]. eexists. split; [reflexivity|]. split; [done|].
  pose proof (wr_range_Zlen _ _ _ _ W).
  assert (F : forall j k, holds (data m) j k -> j + Zlen k <= 12 + Zlen body -> holds d j k).
  { intros j k Hk Hj. eapply wr_range_frame; [exact W|lia|done]. }
  constructor; simpl; try done; try lia; try (apply F; [done|]; zlen; unfold be16; zlen; lia).
  - by eapply wr_range_bytes.
  - zlen. lia.
  - zlen. lia.
  - eapply holds_join; [apply F; [done|lia]|by eapply wr_range_holds|lia].
  - zlen. lia.
Qed.

Lemma put_uint16_eq m v : put_uint16 m v = put_bytes m (be16 (u16 v)).
Proof. unfold put_uint16, put_bytes. by rewrite set_uint16_eq. Qed.

Lemma put_uint32_eq m v : put_uint32 m v = put_bytes m (be32 (u32 v)).
Proof. unfold put_uint32, put_bytes. by rewrite set_uint32_eq. Qed.

Lemma put_bytes_app m l1 l2 :
  (m ← put_bytes m l1; put_bytes m l2) = put_bytes m (l1 ++ l2).
Proof.
  unfold put_bytes. destruct (wr_range (data m) (cur m) (l1 ++ l2)) as [d| |] eqn:E.
  - apply wr_range_app in E as (d1 & E1 & E2). rewrite E1. cbn [mbind res_bind].
    simpl. rewrite E2. cbn [mbind res_bind]. unfold set_cur, set_pos, set_data. simpl.
    unfold mret, res_ret. do 2 f_equal. zlen. lia.
  - destruct (wr_range (data m) (cur m) l1) as [d1| |] eqn:E1; cbn [mbind res_bind]; [|done|].
    + simpl. destruct (wr_range d1 (cur m + Zlen l1) l2) as [d2| |] eqn:E2; cbn [mbind res_bind]; [|done|].
      * assert (wr_range (data m) (cur m) (l1 ++ l2) = Ok d2) by (apply wr_range_app; eauto). congruence.
      * unfold wr_range in E2. by case_match.
    + unfold wr_range in E1. by case_match.
  - unfold wr_range in E. by case_match.
Qed.

Lemma put_bytes_bind {A} m l1 l2 (k : mdns_message -> res A) :
  (m ← put_bytes m l1; m ← put_bytes m l2; k m) = (m ← put_bytes m (l1 ++ l2); k m).
Proof.
  rewrite <- put_bytes_app. by destruct (put_bytes m l1).
Qed.

(** The three section counts live at different offsets of the header and are
    raised in the same way: [n] is the count, at [off]. *)
Ltac raise_count n off :=
  intros R Hs; destruct R; unfold bump_count, H_QDCOUNT, H_ANCOUNT, H_NSCOUNT;
  rewrite (get_host16_be16 _ _ n) by (done || lia); cbn [mbind res_bind];
  rewrite htons_htons, set_host16_htons, u16_id by lia;
  match goal with m : mdns_message |- _ =>
    let d := fresh "d" in let W := fresh "W" in
    destruct (wr_range_exists (data m) off (be16 (n + 1))) as [d W]; [lia|unfold be16; zlen; lia|];
    rewrite W; cbn [mbind res_bind]; eexists; split; [reflexivity|]; split; [done|];
    pose proof (wr_range_Zlen _ _ _ _ W);
    assert (F : forall j k, holds (data m) j k -> j + Zlen k <= off \/ off + 2 <= j -> holds d j k)
      by (intros j k Hk Hj; eapply wr_range_frame; [exact W|unfold be16; zlen; lia|done]);
    constructor; simpl; try done; try lia; try (apply F; [done|]; unfold be16; zlen; lia);
    try (match goal with K : ?f m = n |- context [?f m] => rewrite K end; rewrite u16_id; lia);
    [eapply wr_range_bytes; [exact W|done|apply bytes_be16; lia] | by eapply wr_range_holds]
  end.

Lemma repr_bump_qd m body nq na nn fl :
  repr m body nq na nn fl -> nq + na + nn < Zlen body ->
  exists m', bump_count m H_QDCOUNT = Ok m' /\ same_arrays m m' /\
    repr (set_counts m' (u16 (num_questions m' + 1)) (num_answers m') (num_authorities m')) body (nq + 1) na nn fl.
Proof. raise_count nq 4. Qed.

Lemma repr_bump_an m body nq na nn fl :
  repr m body nq na nn fl -> nq + na + nn < Zlen body ->
  exists m', bump_count m H_ANCOUNT = Ok m' /\ same_arrays m m' /\
    repr (set_counts m' (num_questions m') (u16 (num_answers m' + 1)) (num_authorities m')) body nq (na + 1) nn fl.
Proof. raise_count na 6. Qed.

Lemma repr_bump_ns m body nq na nn fl :
  repr m body nq na nn fl -> nq + na + nn < Zlen body ->
  exists m', bump_count m H_NSCOUNT = Ok m' /\ same_arrays m m' /\
    repr (set_counts m' (num_questions m') (num_answers m') (u16 (num_authorities m' + 1))) body nq na (nn + 1) fl.
Proof. raise_count nn 8. Qed.

(** ** Names as arguments *)

(** A name argument: a buffer that holds the labels [ls] in full at the given
    offset. *)
Definition name_arg (nm : list Z * Z) (ls : list (list Z)) : Prop :=
  Forall valid_label ls /\ holds (fst nm) (snd nm) (encode ls) /\ Zlen (encode ls) <= 255.

Lemma name_arg_size nm ls : name_arg nm ls -> dname_size (fst nm) (snd nm) = Ok (Zlen (encode ls)).
Proof. intros (Hv & Hh & _). by apply dname_size_encode. Qed.

Lemma name_arg_read nm ls : name_arg nm ls -> rd_range (fst nm) (snd nm) (Zlen (encode ls)) = Ok (encode ls).
Proof. intros (_ & Hh & _). by apply rd_range_holds. Qed.

(** ** The common part of questions and records *)

Definition tuple_bytes (ls : list (list Z)) (type class ttl : Z) : list Z :=
  encode ls ++ be16 type ++ be16 class ++ (if ttl =? NO_TTL then [] else be32 ttl).

Definition word16 (v : Z) : Prop := 0 <= v < 65536.
Definition word32 (v : Z) : Prop := 0 <= v < 4294967296.

Lemma bytes_tuple ls type class ttl :
  Forall valid_label ls -> word16 type -> word16 class -> word32 ttl -> bytes (tuple_bytes ls type class ttl).
Proof.
  intros. unfold tuple_bytes, bytes. rewrite !Forall_app. split_and!.
  - by apply bytes_encode.
  - by apply bytes_be16.
  - by apply bytes_be16.
  - case_match; [constructor|by apply bytes_be32].
Qed.

Lemma Zlen_tuple ls type class ttl :
  Zlen (tuple_bytes ls type class ttl) = Zlen (encode ls) + (if ttl =? NO_TTL then 4 else 8).
Proof. unfold tuple_bytes, be16, be32. case_match; zlen; lia. Qed.

Lemma no_tailroom_fit m body nq na nn fl l :
  repr m body nq na nn fl -> no_tailroom m l = negb (12 + Zlen body + l <=? 1472).
Proof.
  intros []. unfold no_tailroom, TAILROOM. rewrite repr_end0, repr_cur0.
  destruct (Z.leb_spec (12 + Zlen body + l) 1472); simpl; [apply Z.ltb_ge|apply Z.ltb_lt]; lia.
Qed.

Lemma no_tailroom_u_fit m body nq na nn fl l :
  repr m body nq na nn fl -> 0 <= l < 4294967296 -> no_tailroom_u m l = negb (12 + Zlen body + l <=? 1472).
Proof.
  intros R Hl. rewrite <- (no_tailroom_fit _ _ _ _ _ _ _ R). destruct R.
  pose proof (Zlen_nonneg body). unfold no_tailroom, no_tailroom_u, TAILROOM. rewrite !u32_id by lia. done.
Qed.

Lemma bytes_one v : is_byte v -> bytes [v].
Proof. intros. by constructor. Qed.

(** Facts that close the side conditions of a write into the packet. *)
Create HintDb packet.
#[export] Hint Resolve bytes_encode bytes_be16 bytes_be32 bytes_one u8_byte u16_range u32_range : packet.

(** Run one write at the end of the packet. *)
Ltac put_step :=
  rewrite ?put_uint16_eq, ?put_uint32_eq;
  match goal with
  | R : repr ?m _ _ _ _ _ |- context [put_bytes ?m ?bs] =>
      let m' := fresh "m" in let E := fresh "E" in let S := fresh "S" in let R' := fresh "R" in
      destruct (repr_put _ _ _ _ _ _ bs R) as (m' & E & S & R');
        [eauto with packet | unfold be16, be32 in *; zlen; lia | ];
      rewrite E; clear E; cbn [mbind res_bind]; clear R
  end.

(** The state after a chain of writes. *)
Ltac put_done :=
  match goal with
  | R : repr ?m _ _ _ _ _ |- repr ?m _ _ _ _ _ =>
      rewrite ?u16_id, ?u32_id in R by (done || lia); rewrite <- ?app_assoc in R; exact R
  end.

(** Close [same_arrays] along a chain of writes. *)
Ltac same_chain := repeat (eassumption || (eapply same_arrays_trans; [eassumption|])); try apply same_arrays_refl.

Lemma add_tuple_spec nm ls type class ttl m body nq na nn fl :
  name_arg nm ls -> word16 type -> word16 class -> word32 ttl -> repr m body nq na nn fl ->
  if 12 + Zlen body + Zlen (tuple_bytes ls type class ttl) <=? 1472 then
    exists m', mdns_add_tuple m nm type class ttl = Ok (0, m') /\ same_arrays m m' /\
      repr m' (body ++ tuple_bytes ls type class ttl) nq na nn fl
  else mdns_add_tuple m nm type class ttl = Ok (-1, m).
Proof.
  intros Hn Ht Hc Httl R. unfold mdns_add_tuple, word16, word32 in *.
  rewrite (name_arg_size _ _ Hn). cbn [mbind res_bind].
  pose proof (Zlen_nonneg (encode ls)). pose proof Hn as (Hv & _ & Hle).
  rewrite u16_id by lia.
  replace (if ttl =? NO_TTL then _ else _) with (Zlen (tuple_bytes ls type class ttl))
    by (rewrite Zlen_tuple; case_match; lia).
  rewrite (no_tailroom_fit _ _ _ _ _ _ _ R).
  destruct (Z.leb_spec (12 + Zlen body + Zlen (tuple_bytes ls type class ttl)) 1472) as [Hf|]; [|done].
  rewrite Zlen_tuple in Hf. cbn [negb]. rewrite (name_arg_read _ _ Hn). cbn [mbind res_bind].
  unfold tuple_bytes. destruct (ttl =? NO_TTL); cbn [negb].
  - do 3 put_step. eexists. split_and!; [reflexivity|same_chain|]. rewrite app_nil_r. put_done.
  - do 4 put_step. eexists. split_and!; [reflexivity|same_chain|]. put_done.
Qed.

(** ** What each function appends *)

(** A function that appends the common part and raises one count, given the
    lemma for that count. *)
Ltac emit_tuple nm ls t c ttl bump :=
  let m := fresh "m" in let body := fresh "body" in
  intros m body nq na nn fl R;
  pose proof (add_tuple_spec nm ls t c ttl m body nq na nn fl ltac:(assumption) ltac:(assumption)
                ltac:(assumption) ltac:(assumption || by vm_compute) R) as Hadd;
  destruct (12 + Zlen body + _ <=? 1472);
  [ let m1 := fresh "m" in let E := fresh "E" in let S1 := fresh "S" in let R1 := fresh "R" in
    destruct Hadd as (m1 & E & S1 & R1); rewrite E; cbn [mbind res_bind]; simpl;
    let m2 := fresh "m" in let E2 := fresh "E" in let S2 := fresh "S" in let R2 := fresh "R" in
    destruct (bump _ _ _ _ _ _ R1) as (m2 & E2 & S2 & R2);
    [ pose proof (repr_cnt _ _ _ _ _ _ R); zlen; rewrite Zlen_tuple;
      pose proof (Zlen_nonneg (encode ls)); destruct (ttl =? NO_TTL); lia |];
    rewrite E2; cbn [mbind res_bind]; eexists; split; [|split; [reflexivity|]];
    [ eapply same_arrays_trans; [exact S1|exact S2] | by rewrite !Z.add_0_r ]
  | rewrite Hadd; exists m; split; [apply same_arrays_refl|done] ].

Lemma emits_question nm ls t c :
  name_arg nm ls -> word16 t -> word16 c ->
  emits (fun m => mdns_add_question m nm t c) (tuple_bytes ls t c NO_TTL) 1 0 0.
Proof. intros. unfold mdns_add_question. emit_tuple nm ls t c NO_TTL repr_bump_qd. Qed.

Lemma emits_answer nm ls t c ttl :
  name_arg nm ls -> word16 t -> word16 c -> word32 ttl ->
  emits (fun m => mdns_add_answer m nm t c ttl) (tuple_bytes ls t c ttl) 0 1 0.
Proof. intros. unfold mdns_add_answer. emit_tuple nm ls t c ttl repr_bump_an. Qed.

Lemma emits_authority nm ls t c ttl :
  name_arg nm ls -> word16 t -> word16 c -> word32 ttl ->
  emits (fun m => mdns_add_authority m nm t c ttl) (tuple_bytes ls t c ttl) 0 0 1.
Proof. intros. unfold mdns_add_authority. emit_tuple nm ls t c ttl repr_bump_ns. Qed.

(** Appending record data. *)
Ltac emit_data :=
  let m := fresh "m" in let body := fresh "body" in
  intros m body nq na nn fl R;
  rewrite ?(no_tailroom_u_fit _ _ _ _ _ _ _ R), ?(no_tailroom_fit _ _ _ _ _ _ _ R) by lia.

Lemma emits_uint32 i : word32 i -> emits (fun m => mdns_add_uint32 m i) (be16 4 ++ be32 i) 0 0 0.
Proof.
  intros Hi. unfold mdns_add_uint32, word32 in *. emit_data.
  change (2 + 4) with (Zlen (be16 4 ++ be32 i)).
  destruct (Z.leb_spec (12 + Zlen body + Zlen (be16 4 ++ be32 i)) 1472); cbn [negb].
  - do 2 put_step. eexists. split; [|split; [reflexivity|rewrite !Z.add_0_r; put_done]]. same_chain.
  - exists m. split; [apply same_arrays_refl|done].
Qed.

Lemma emits_name nm ls :
  name_arg nm ls -> emits (fun m => mdns_add_name m nm) (be16 (Zlen (encode ls)) ++ encode ls) 0 0 0.
Proof.
  intros Hn. pose proof Hn as (Hv & _ & Hle). pose proof (Zlen_nonneg (encode ls)) as Ge.
  unfold mdns_add_name. rewrite (name_arg_size _ _ Hn). cbn [mbind res_bind]. emit_data.
  replace (Zlen (encode ls) + 2) with (Zlen (be16 (Zlen (encode ls)) ++ encode ls)) by (unfold be16; zlen; lia).
  destruct (Z.leb_spec (12 + Zlen body + Zlen (be16 (Zlen (encode ls)) ++ encode ls)) 1472); cbn [negb].
  - put_step. rewrite (name_arg_read _ _ Hn). cbn [mbind res_bind]. put_step.
    eexists. split; [|split; [reflexivity|rewrite !Z.add_0_r; put_done]]. same_chain.
  - exists m. split; [apply same_arrays_refl|done].
Qed.

Lemma emits_srv nm ls prio weight prt :
  name_arg nm ls -> word16 prio -> word16 weight -> word16 prt ->
  emits (fun m => mdns_add_srv m prio weight prt nm)
    (be16 (Zlen (encode ls) + 6) ++ be16 prio ++ be16 weight ++ be16 prt ++ encode ls) 0 0 0.
Proof.
  intros Hn H1 H2 H3. pose proof Hn as (Hv & _ & Hle). pose proof (Zlen_nonneg (encode ls)) as Ge.
  unfold word16 in *. unfold mdns_add_srv. rewrite (name_arg_size _ _ Hn). cbn [mbind res_bind]. emit_data.
  change (4 * 2) with 8. change (3 * 2) with 6.
  replace (12 + Zlen body + (Zlen (encode ls) + 8))
    with (12 + Zlen body + Zlen (be16 (Zlen (encode ls) + 6) ++ be16 prio ++ be16 weight ++ be16 prt ++ encode ls))
    by (unfold be16; zlen; lia).
  case_match eqn:Hfit; cbn [negb]; b2p.
  - do 4 put_step. rewrite (name_arg_read _ _ Hn). cbn [mbind res_bind]. put_step.
    eexists. split; [|split; [reflexivity|rewrite !Z.add_0_r; put_done]]. same_chain.
  - exists m. split; [apply same_arrays_refl|done].
Qed.

Lemma emits_txt kv txt l :
  rd_range (fst kv) (snd kv) l = Ok txt -> bytes txt -> 0 <= l < 65536 ->
  emits (fun m => mdns_add_txt m kv l) (be16 l ++ txt) 0 0 0.
Proof.
  intros Hr Hb Hl. pose proof Hr as [-> _]%rd_range_holds.
  unfold mdns_add_txt. emit_data.
  replace (12 + Zlen body + (Zlen txt + 2)) with (12 + Zlen body + Zlen (be16 (Zlen txt) ++ txt))
    by (unfold be16; zlen; lia).
  case_match eqn:Hfit; cbn [negb]; b2p.
  - put_step. rewrite Hr. cbn [mbind res_bind]. put_step.
    eexists. split; [|split; [reflexivity|rewrite !Z.add_0_r; put_done]]. same_chain.
  - exists m. split; [apply same_arrays_refl|done].
Qed.

(** A fresh query. *)
Lemma query_init_repr m :
  Zlen (data m) = 1472 -> bytes (data m) ->
  exists m', mdns_query_init m = Ok (0, m') /\ same_arrays m m' /\ repr m' [] 0 0 0 [0; 0; 0; 0].
Proof.
  intros HL HB. unfold mdns_query_init. simpl.
  destruct (wr_range_exists (data m) 0 (replicate 12 0)) as [d W]; [lia|zlen; lia|].
  change [0; 0; 0; 0; 0; 0; 0; 0; 0; 0; 0; 0] with (replicate 12 0). rewrite W. cbn [mbind res_bind].
  eexists. split; [reflexivity|]. split; [done|].
  pose proof (wr_range_Zlen _ _ _ _ W). pose proof (wr_range_holds _ _ _ _ W) as HW.
  change (replicate 12 0) with ([0; 0; 0; 0] ++ be16 0 ++ be16 0 ++ be16 0 ++ [0; 0]) in HW.
  rewrite !holds_app in HW. destruct HW as (W0 & W4 & W6 & W8 & W10).
  constructor; simpl; try done; try lia.
  - eapply wr_range_bytes; [exact W|done|]. apply Forall_replicate. unfold is_byte. lia.
  - apply holds_nil. lia.
Qed.

(** ** Sequencing *)

Lemma emits_nothing : emits (fun m => mret (0, m)) [] 0 0 0.
Proof.
  intros m body nq na nn fl R. exists m. split; [apply same_arrays_refl|].
  pose proof (repr_fit _ _ _ _ _ _ R). change (Zlen (@nil Z)) with 0.
  dec. rewrite app_nil_r, !Z.add_0_r. done.
Qed.

Lemma emits_and_then f g bs1 bs2 q1 a1 n1 q2 a2 n2 :
  emits f bs1 q1 a1 n1 -> emits g bs2 q2 a2 n2 ->
  emits (fun m => and_then (f m) g) (bs1 ++ bs2) (q1 + q2) (a1 + a2) (n1 + n2).
Proof.
  intros Hf Hg m body nq na nn fl R. destruct (Hf _ _ _ _ _ _ R) as (m1 & S1 & H1).
  unfold and_then. zlen. pose proof (Zlen_nonneg bs2).
  destruct (Z.leb_spec (12 + Zlen body + Zlen bs1) 1472) as [L1|L1].
  - destruct H1 as [E1 R1]. rewrite E1. cbn [mbind res_bind Z.eqb negb].
    destruct (Hg _ _ _ _ _ _ R1) as (m2 & S2 & H2). zlen.
    rewrite (Z.add_assoc 12), <- (Z.add_assoc _ _ (Zlen bs2)) in H2.
    replace (12 + Zlen body + (Zlen bs1 + Zlen bs2)) with (12 + Zlen body + (Zlen bs1 + Zlen bs2)) in * by lia.
    exists m2. split; [by eapply same_arrays_trans|].
    case_match.
    + destruct H2 as [E2 R2]. rewrite E2. split; [done|]. rewrite <- app_assoc in R2. by rewrite !Z.add_assoc.
    + by rewrite H2.
  - rewrite H1. exists m1. split; [done|]. dec. done.
Qed.

(** ** The packet as it is sent *)

Definition wire (fl : list Z) (nq na nn : Z) (body : list Z) : list Z :=
  fl ++ be16 nq ++ be16 na ++ be16 nn ++ [0; 0] ++ body.

Lemma holds_0_take b l : holds b 0 l -> take (length l) b = l.
Proof. intros (_ & _ & H). by rewrite drop_0 in H. Qed.

Lemma repr_sent m body nq na nn fl : repr m body nq na nn fl -> mdns_send_msg m = wire fl nq na nn body.
Proof.
  intros []. assert (HW : holds (data m) 0 (wire fl nq na nn body)).
  { unfold wire. rewrite !holds_app. rewrite !Zlen_be16, repr_fl5. change (Zlen [0; 0]) with 2. done. }
  unfold mdns_send_msg. rewrite repr_cur0. replace (Z.to_nat (12 + Zlen body)) with (length (wire fl nq na nn body)).
  - by apply holds_0_take.
  - pose proof (eq_refl (Zlen (wire fl nq na nn body))) as E. unfold wire in E at 2.
    rewrite !Zlen_app, !Zlen_be16, repr_fl5 in E. change (Zlen [0; 0]) with 2 in E. unfold Zlen in *. lia.
Qed.
