(* ===== verification/MessageParse.v ===== *)
(** * Parsing messages

    Two results about [mdns_parse_message]: on the encoding of a list of
    questions and records it returns 0 and recovers them; and whatever the
    packet, when it returns 0 every name it recorded can be decoded and every
    record's data lies inside the packet. *)
From S2P Require Import Prelude Buffer Dname DnameSpec DnameText Message MessageSpec.

(** ** Questions and records on the wire *)

Record question := mkQ { q_labels : list (list Z); q_type : Z; q_class : Z }.

Record rr := mkRR {
  rr_labels : list (list Z); rr_type : Z; rr_class : Z; rr_ttl : Z; rr_data : list Z }.

Definition enc_question (q : question) : list Z :=
  encode (q_labels q) ++ be16 (q_type q) ++ be16 (q_class q).

Definition enc_rr (r : rr) : list Z :=
  encode (rr_labels r) ++ be16 (rr_type r) ++ be16 (rr_class r) ++ be32 (rr_ttl r) ++
  be16 (Zlen (rr_data r)) ++ rr_data r.

Definition valid_name (ls : list (list Z)) : Prop := Forall valid_label ls /\ Zlen (encode ls) <= 255.

Definition valid_question (q : question) : Prop :=
  valid_name (q_labels q) /\ word16 (q_type q) /\ word16 (q_class q).

(** Record data the parser accepts: four bytes for A, a name for PTR, and for
    SRV data that starts with a 0 byte (a priority below 256). *)
Definition valid_rdata (r : rr) : Prop :=
  (rr_type r = T_A -> Zlen (rr_data r) = 4) /\
  (rr_type r = T_PTR -> exists ls, Forall valid_label ls /\ rr_data r = encode ls) /\
  (rr_type r = T_SRV -> exists tl, rr_data r = 0 :: tl).

Definition valid_rr (r : rr) : Prop :=
  valid_name (rr_labels r) /\ word16 (rr_type r) /\ word16 (rr_class r) /\ word32 (rr_ttl r) /\
  Zlen (rr_data r) < 65536 /\ valid_rdata r.

(** What the parser records for a question and for a record. *)
Definition parsed_question (r : dref) (pq : mdns_question) (q : question) : Prop :=
  name_at r (qname pq) (q_labels q) /\ qtype pq = q_type q /\ qclass pq = q_class q.

Definition parsed_rr (r : dref) (p : mdns_resource) (x : rr) : Prop :=
  name_at r (r_name p) (rr_labels x) /\ r_type p = rr_type x /\ r_class p = rr_class x /\
  r_ttl p = rr_ttl x /\ r_rdlength p = Zlen (rr_data x) /\ holds (d_buf r) (r_rdata p) (rr_data x).

(** ** The name at the read position *)

(** Sane positions: inside the buffer, small enough for the unsigned checks. *)
Definition positioned (m : mdns_message) : Prop :=
  0 <= cur m /\ cur m <= end_ m + 1 /\ end_ m < Zlen (data m) /\ Zlen (data m) < 65536.

Lemma tailroom_u m l : positioned m -> 0 <= l < 65536 -> no_tailroom_u m l = (end_ m + 1 <? cur m + l).
Proof.
  intros (H1 & H2 & H3 & H4) Hl. unfold no_tailroom_u, TAILROOM. rewrite !u32_id by lia.
  apply Bool.eq_iff_eq_true. rewrite !Z.ltb_lt. lia.
Qed.

Lemma tailroom_s m l : no_tailroom m l = (end_ m + 1 <? cur m + l).
Proof.
  unfold no_tailroom, TAILROOM. apply Bool.eq_iff_eq_true. rewrite !Z.ltb_lt. lia.
Qed.

Lemma check_name_returns m ls :
  valid_name ls -> holds (data m) (cur m) (encode ls) -> cur m + Zlen (encode ls) <= end_ m + 1 ->
  returns (fun fuel => check_name fuel m) (Zlen (encode ls)).
Proof.
  intros [Hv Hl] Hh He. unfold check_name. rewrite (dname_size_encode _ _ _ Hv Hh). cbn [mbind res_bind].
  assert (1 <= Zlen (encode ls)) by (rewrite Zlen_encode; pose proof (Zlen_nonneg (encode_labels ls)); lia).
  unfold MDNS_MAX_NAME_LEN. rewrite tailroom_s. dec. cbn [orb].
  eapply returns_bind.
  - apply (dname_overrun_encode (packet m) (end_ m) (cur m) ls Hv); [done|lia].
  - by apply returns_const.
Qed.

Lemma check_name_sound fuel m l :
  bytes (data m) -> end_ m < Zlen (data m) -> check_name fuel m = Ok l -> l <> -1 ->
  1 <= l <= 255 /\ cur m + l <= end_ m + 1 /\ exists ls, name_within (packet m) (end_ m) (cur m) ls.
Proof.
  intros Hb He. unfold check_name. intros H Hl. inv_bind. pose proof (dname_size_pos _ _ _ Hb Hx).
  case_match eqn:E; [inv_bind; lia|]. rewrite tailroom_s in H. case_match; [inv_bind; lia|].
  inv_bind. inv_bind. case_match eqn:Eo; [lia|]. subst. b2p. subst.
  unfold MDNS_MAX_NAME_LEN in *. split; [lia|]. split; [lia|].
  by eapply (dname_overrun_sound _ (packet m)).
Qed.

(** ** Questions *)

Lemma Zlen_enc_question q : Zlen (enc_question q) = Zlen (encode (q_labels q)) + 4.
Proof. unfold enc_question, be16. zlen. lia. Qed.

Lemma parse_questions_returns qs : forall i m,
  Forall valid_question qs -> positioned m -> (i + length qs <= length (questions m))%nat ->
  holds (data m) (cur m) (flat_map enc_question qs) ->
  cur m + Zlen (flat_map enc_question qs) <= end_ m + 1 ->
  exists Q, returns (fun fuel => parse_questions fuel (length qs) i m)
      (0, set_cur (set_questions m Q) (cur m + Zlen (flat_map enc_question qs))) /\
    length Q = length (questions m) /\ (forall j, (j < i)%nat -> Q !! j = questions m !! j) /\
    forall k q, qs !! k = Some q -> exists pq, Q !! (i + k)%nat = Some pq /\ parsed_question (packet m) pq q.
Proof.
  induction qs as [|q qs IH]; intros i m Hv Hp Hi Hh He.
  - exists (questions m). split_and!; [|done|done|done]. apply returns_all. intros.
    simpl. change (Zlen (@nil Z)) with 0. rewrite Z.add_0_r. by destruct m.
  - apply Forall_cons_iff in Hv as [(Hn & Ht & Hc) Hv]. simpl in *. zlen. rewrite Zlen_enc_question in *.
    apply holds_app in Hh as [Hq Hh]. rewrite Zlen_enc_question in Hh. unfold enc_question in Hq.
    apply holds_app in Hq as [Hq1 Hq2]. apply holds_app in Hq2 as [Hq2 Hq3].
    set (L := Zlen (encode (q_labels q))) in *. pose proof (Zlen_nonneg (encode (q_labels q))) as GL. fold L in GL.
    pose proof (Zlen_nonneg (flat_map enc_question qs)) as GC. destruct Hp as (P1 & P2 & P3 & P4).
    rewrite Zlen_be16 in Hq3.
    set (m1 := set_cur (set_questions m (<[i:=mkQuestion (cur m) (q_type q) (q_class q)]> (questions m))) (cur m + L + 4)).
    destruct (IH (S i) m1) as (Q & HQ & HQ1 & HQ2 & HQ3).
    + done.
    + unfold positioned, m1. simpl. lia.
    + unfold m1. simpl. rewrite length_insert. lia.
    + unfold m1. simpl. by replace (cur m + L + 4) with (cur m + (L + 4)) by lia.
    + unfold m1. simpl. lia.
    + replace (set_cur (set_questions m1 Q) _) with
        (set_cur (set_questions m Q) (cur m + (L + 4 + Zlen (flat_map enc_question qs)))) in HQ
        by (unfold m1, set_cur, set_pos, set_questions; simpl; f_equal; lia).
      unfold m1 in HQ, HQ1, HQ2, HQ3. simpl in HQ1, HQ2, HQ3. rewrite length_insert in HQ1.
      exists Q. split_and!.
      * eapply returns_bind.
        { apply (check_name_returns (set_questions m _) (q_labels q)); [done|done|simpl; fold L; lia]. }
        fold L. simpl. assert (1 <= L) by (unfold L; rewrite Zlen_encode; pose proof (Zlen_nonneg (encode_labels (q_labels q))); lia).
        replace (L =? -1) with false by lia. cbn [andb]. 
        eapply returns_ext; [|exact HQ]. intros fuel. rewrite tailroom_u by (unfold positioned; simpl; lia). simpl.
        dec. rewrite (get_uint16_be16 _ (cur m + L) (q_type q)) by (exact Ht || exact Hq2). cbn [mbind res_bind].
        rewrite (get_uint16_be16 _ (cur m + L + 2) (q_class q)) by (exact Hc || exact Hq3). cbn [mbind res_bind].
        rewrite list_insert_insert_eq. replace (cur m + L - L) with (cur m) by lia. f_equal.
      * done.
      * intros j Hj. rewrite HQ2 by lia. by rewrite list_lookup_insert_ne by lia.
      * intros [|k] q' Hk; simpl in Hk.
        -- injection Hk as <-. exists (mkQuestion (cur m) (q_type q) (q_class q)). rewrite Nat.add_0_r. split.
           { rewrite HQ2 by lia. by rewrite list_lookup_insert_eq by lia. }
           split; [|done]. simpl. apply name_at_encode; [by apply Hn|done].
        -- replace (i + S k)%nat with (S i + k)%nat by lia. by apply HQ3.
Qed.

(** ** Records *)

Lemma Zlen_enc_rr x : Zlen (enc_rr x) = Zlen (encode (rr_labels x)) + 10 + Zlen (rr_data x).
Proof. unfold enc_rr. zlen. rewrite !Zlen_be16, Zlen_be32. lia. Qed.

(** [set_lists] with the record pushed on the list of its type. *)
Lemma sort_record_lists m ref type :
  exists a s t p, sort_record m ref type = set_lists m a s t p.
Proof.
  unfold sort_record. repeat case_match; eauto. exists (as_ m), (srvs m), (txts m), (ptrs m). by destruct m.
Qed.

Lemma parse_resource_returns m ref r0 x :
  valid_rr x -> positioned m -> holds (data m) (cur m) (enc_rr x) ->
  cur m + Zlen (enc_rr x) <= end_ m + 1 ->
  exists r, returns (fun fuel => parse_resource fuel m ref r0)
      (0, sort_record (set_cur m (cur m + Zlen (enc_rr x))) ref (rr_type x), r) /\
    parsed_rr (packet m) r x.
Proof.
  intros (Hn & Ht & Hc & Httl & Hd & HA & HP & HS) (P1 & P2 & P3 & P4) Hh He.
  rewrite Zlen_enc_rr in *. unfold enc_rr in Hh.
  apply holds_app in Hh as [Hh0 Hh]. apply holds_app in Hh as [Hh1 Hh].
  apply holds_app in Hh as [Hh2 Hh]. apply holds_app in Hh as [Hh3 Hh].
  apply holds_app in Hh as [Hh4 Hh5]. rewrite ?Zlen_be16, ?Zlen_be32 in *.
  set (L := Zlen (encode (rr_labels x))) in *. set (D := Zlen (rr_data x)) in *.
  assert (1 <= L) by (unfold L; rewrite Zlen_encode; pose proof (Zlen_nonneg (encode_labels (rr_labels x))); lia).
  pose proof (Zlen_nonneg (rr_data x)) as GD. fold D in GD.
  replace (cur m + L + 2 + 2) with (cur m + L + 4) in * by lia.
  replace (cur m + L + 4 + 4) with (cur m + L + 8) in * by lia.
  replace (cur m + L + 8 + 2) with (cur m + L + 10) in * by lia.
  exists (mkResource (cur m) (rr_type x) (rr_class x) (rr_ttl x) D (cur m + L + 10)). split.
  - unfold parse_resource. eapply returns_bind; [apply (check_name_returns m _ Hn Hh0); lia|]. fold L.
    replace (L =? -1) with false by lia. cbn [set_cur set_pos data cur end_ r_name].
    rewrite tailroom_u by (unfold positioned; simpl; lia). cbn [set_cur set_pos data cur end_]. dec.
    rewrite (get_uint16_be16 _ (cur m + L) (rr_type x)) by (exact Ht || exact Hh1). cbn [mbind res_bind].
    rewrite (get_uint16_be16 _ (cur m + L + 2) (rr_class x)) by (exact Hc || exact Hh2). cbn [mbind res_bind].
    rewrite (get_uint32_be32 _ (cur m + L + 4) (rr_ttl x)) by (exact Httl || exact Hh3). cbn [mbind res_bind].
    rewrite (get_uint16_be16 _ (cur m + L + 8) D) by (lia || exact Hh4). cbn [mbind res_bind].
    rewrite tailroom_s. cbn [set_cur set_pos data cur end_ r_rdata packet]. dec.
    eapply (returns_bind _ (fun _ bad => if bad : bool then _ else _) false).
    + destruct (Z.eqb_spec (rr_type x) T_A) as [E|NA].
      { apply returns_const. rewrite <- HA by done. fold D. by rewrite Z.eqb_refl. }
      destruct (Z.eqb_spec (rr_type x) T_SRV) as [E|NS].
      { destruct (HS E) as [tl Etl]. rewrite Etl in Hh5. apply holds_cons in Hh5 as [Hh5 _]. cbn [orb].
        eapply (returns_bind _ _ 0); [|apply returns_const; reflexivity].
        eapply returns_S; [intros; reflexivity|]. apply returns_all. intros. cbn [dname_overrun].
        pose proof (Zlen_nonneg tl). assert (D = 1 + Zlen tl) by (unfold D; rewrite Etl; by zlen).
        dec. simpl. by rewrite Hh5. }
      destruct (Z.eqb_spec (rr_type x) T_PTR) as [E|NP]; cbn [orb]; [|by apply returns_const].
      destruct (HP E) as (ls & Hls & Els). rewrite Els in Hh5.
      eapply (returns_bind _ _ 0); [|apply returns_const; reflexivity].
      apply (dname_overrun_encode _ _ _ ls); [done|done|]. rewrite <- Els. fold D. lia.
    + apply returns_const. unfold mret, res_ret. do 4 f_equal. unfold set_cur, set_pos. simpl. f_equal. lia.
  - unfold parsed_rr. simpl. split_and!; try done. by apply name_at_encode; [apply Hn|].
Qed.

Lemma parse_resources_returns sec xs : forall i m,
  Forall valid_rr xs -> positioned m -> (i + length xs <= length (records sec m))%nat ->
  holds (data m) (cur m) (flat_map enc_rr xs) ->
  cur m + Zlen (flat_map enc_rr xs) <= end_ m + 1 ->
  exists R a s t p, returns (fun fuel => parse_resources sec fuel (length xs) i m)
      (0, set_lists (set_cur (set_records sec m R) (cur m + Zlen (flat_map enc_rr xs))) a s t p) /\
    length R = length (records sec m) /\ (forall j, (j < i)%nat -> R !! j = records sec m !! j) /\
    forall k x, xs !! k = Some x -> exists r, R !! (i + k)%nat = Some r /\ parsed_rr (packet m) r x.
Proof.
  induction xs as [|x xs IH]; intros i m Hv Hp Hi Hh He.
  - exists (records sec m), (as_ m), (srvs m), (txts m), (ptrs m).
    split_and!; [|done|done|done]. apply returns_all. intros.
    simpl. change (Zlen (@nil Z)) with 0. rewrite Z.add_0_r. destruct m, sec; done.
  - apply Forall_cons_iff in Hv as [Hx Hv]. simpl in *. zlen.
    apply holds_app in Hh as [Hh0 Hh]. pose proof (Zlen_nonneg (flat_map enc_rr xs)) as GC.
    pose proof (Zlen_nonneg (enc_rr x)) as GX.
    destruct (parse_resource_returns m (section_ref sec i) (nth i (records sec m) default_resource) x)
      as (r & Hr & Pr); [done|done|done|lia|].
    destruct (sort_record_lists (set_cur m (cur m + Zlen (enc_rr x))) (section_ref sec i) (rr_type x))
      as (a & s & t & p & ES). rewrite ES in Hr.
    set (m1 := set_records sec (set_lists (set_cur m (cur m + Zlen (enc_rr x))) a s t p) (<[i:=r]> (records sec m))).
    assert (Rm1 : records sec m1 = <[i:=r]> (records sec m)) by (by destruct sec).
    assert (Dm1 : data m1 = data m /\ cur m1 = cur m + Zlen (enc_rr x) /\ end_ m1 = end_ m) by (by destruct sec).
    destruct Dm1 as (Dm1 & Cm1 & Em1). destruct Hp as (P1 & P2 & P3 & P4).
    destruct (IH (S i) m1) as (R & a' & s' & t' & p' & HR & HR1 & HR2 & HR3).
    + done.
    + unfold positioned. rewrite Dm1, Cm1, Em1. lia.
    + rewrite Rm1, length_insert. lia.
    + by rewrite Dm1, Cm1.
    + rewrite Cm1, Em1. lia.
    + rewrite Rm1, length_insert in HR1. exists R, a', s', t', p'. split_and!.
      * eapply returns_bind; [exact Hr|]. cbn [Z.eqb].
        eapply (returns_ext (fun fuel => parse_resources sec fuel (length xs) (S i) m1)).
        { intros fuel. f_equal. }
        replace (set_lists (set_cur (set_records sec m R) _) a' s' t' p') with
          (set_lists (set_cur (set_records sec m1 R) (cur m1 + Zlen (flat_map enc_rr xs))) a' s' t' p'); [done|].
        rewrite Cm1. unfold m1. destruct sec; unfold set_lists, set_cur, set_pos; simpl; f_equal; lia.
      * done.
      * intros j Hj. rewrite HR2, Rm1 by lia. by rewrite list_lookup_insert_ne by lia.
      * intros [|k] x' Hk; simpl in Hk.
        -- injection Hk as <-. exists r. rewrite Nat.add_0_r. split; [|done].
           rewrite HR2, Rm1 by lia. by rewrite list_lookup_insert_eq by lia.
        -- replace (i + S k)%nat with (S i + k)%nat by lia.
           destruct (HR3 k x' Hk) as (r' & ? & ?). exists r'. split; [done|].
           unfold packet in *. by rewrite Dm1 in *.
Qed.

(** ** Whole messages *)

Definition enc_body (qs : list question) (an ns : list rr) : list Z :=
  flat_map enc_question qs ++ flat_map enc_rr an ++ flat_map enc_rr ns.

(** What a parsed message says. *)
Record parsed (m : mdns_message) (qs : list question) (an ns : list rr) : Prop := mkParsed {
  parsed_nq : num_questions m = Zlen qs;
  parsed_na : num_answers m = Zlen an;
  parsed_ns : num_authorities m = Zlen ns;
  parsed_qs : forall k q, qs !! k = Some q ->
    exists pq, questions m !! k = Some pq /\ parsed_question (packet m) pq q;
  parsed_an : forall k x, an !! k = Some x ->
    exists r, answers m !! k = Some r /\ parsed_rr (packet m) r x;
  parsed_au : forall k x, ns !! k = Some x ->
    exists r, authorities m !! k = Some r /\ parsed_rr (packet m) r x }.

(** The arrays have their C sizes. *)
Definition arrays_ok (m : mdns_message) : Prop :=
  length (questions m) = 32%nat /\ length (answers m) = 32%nat /\ length (authorities m) = 32%nat.

Lemma parse_header_spec m mlen f0 f1 nq na nn :
  bytes (data m) -> word16 nq -> word16 na -> word16 nn ->
  holds (data m) 2 [f0; f1] -> holds (data m) 4 (be16 nq) -> holds (data m) 6 (be16 na) -> holds (data m) 8 (be16 nn) ->
  exists d, parse_header m mlen =
      Ok (set_data (set_counts (set_pos (set_lists m [] [] [] []) 12 (mlen - 1) mlen) nq na nn) d, f0 * 256 + f1) /\
    wr_range (data m) 2 [f1; f0] = Ok d.
Proof.
  intros Hb Hq Ha Hn H2 H4 H6 H8. unfold parse_header, H_QDCOUNT, H_ANCOUNT, H_NSCOUNT, H_FLAGS, HEADER_SIZE.
  cbn [set_lists set_pos set_counts data].
  rewrite (get_host16_be16 _ 4 nq), (get_host16_be16 _ 6 na), (get_host16_be16 _ 8 nn) by done. cbn [mbind res_bind].
  rewrite !htons_htons by done.
  pose proof (holds_byte _ _ _ Hb H2) as [B0 [B1 _]%Forall_cons_iff]%Forall_cons_iff. unfold is_byte in *.
  assert (HF : holds (data m) 2 (be16 (f0 * 256 + f1))).
  { unfold be16. replace ((f0 * 256 + f1) / 256) with f0 by (Z.div_mod_to_equations; lia).
    by replace ((f0 * 256 + f1) mod 256) with f1 by (Z.div_mod_to_equations; lia). }
  rewrite (get_host16_be16 _ 2 (f0 * 256 + f1)) by (done || lia). cbn [mbind res_bind].
  assert (EH : htons (f0 * 256 + f1) = f1 * 256 + f0).
  { unfold htons. rewrite u16_id by lia. Z.div_mod_to_equations. lia. }
  rewrite htons_htons by lia.
  assert (ES : set_host16 (data m) 2 (f0 * 256 + f1) = wr_range (data m) 2 [f1; f0]).
  { rewrite <- (htons_htons (f0 * 256 + f1)) by lia. rewrite set_host16_htons, EH, u16_id by lia. unfold be16.
    replace ((f1 * 256 + f0) / 256) with f1 by (Z.div_mod_to_equations; lia).
    by replace ((f1 * 256 + f0) mod 256) with f0 by (Z.div_mod_to_equations; lia). }
  apply holds_bounds in H2 as [_ HB]. destruct (wr_range_exists (data m) 2 [f1; f0]) as [d W]; [lia|zlen; lia|].
  exists d. split; [|done]. rewrite ES, W. done.
Qed.

Lemma name_at_frame r r' n ls :
  d_base r' = d_base r ->
  (forall i l, holds (d_buf r) i l -> holds (d_buf r') i l) -> name_at r n ls -> name_at r' n ls.
Proof.
  intros Hb HF. assert (HR : forall i c, rd (d_buf r) i = Ok c -> rd (d_buf r') i = Ok c).
  { intros i c H. apply holds_rd, HF. by apply holds_rd. }
  induction 1 as [n H|n l ls H Hl Hh _ IH|n c t ls H Hc Ht _ IH].
  - apply name_at_end. auto.
  - apply name_at_label; auto.
  - eapply name_at_pointer; eauto. unfold follow, POINTER in *.
    repeat inv_bind. rewrite (HR _ _ Hx0). cbn [mbind res_bind]. rewrite (HR _ _ Hx1). cbn [mbind res_bind].
    rewrite Hb. unfold mret, res_ret in *. by rewrite <- Ht, <- Hx.
Qed.

Lemma parse_message_returns m mlen f0 f1 qs an ns :
  bytes (data m) -> Zlen (data m) < 65536 -> arrays_ok m ->
  holds (data m) 2 [f0; f1] -> flag_opcode (f0 * 256 + f1) = 0 ->
  holds (data m) 4 (be16 (Zlen qs)) -> holds (data m) 6 (be16 (Zlen an)) -> holds (data m) 8 (be16 (Zlen ns)) ->
  (length qs <= 32)%nat -> (length an <= 32)%nat -> (length ns <= 32)%nat ->
  Forall valid_question qs -> Forall valid_rr an -> Forall valid_rr ns ->
  holds (data m) 12 (enc_body qs an ns) -> mlen = 12 + Zlen (enc_body qs an ns) ->
  exists m', returns (fun fuel => mdns_parse_message fuel m mlen) (0, m') /\ parsed m' qs an ns /\
    cur m' = mlen /\ arrays_ok m' /\ wr_range (data m) 2 [f1; f0] = Ok (data m') /\
    end_ m' = mlen - 1.
Proof.
  intros Hb HD (Aq & Aa & An) Hf Hop H4 H6 H8 Lq La Ln Vq Va Vn Hh ->.
  assert (W16 : forall A (l : list A), (length l <= 32)%nat -> word16 (Zlen l)) by (intros; unfold word16, Zlen; lia).
  destruct (parse_header_spec m (12 + Zlen (enc_body qs an ns)) f0 f1 (Zlen qs) (Zlen an) (Zlen ns)) as (d & EH & W);
    [auto..|]. pose proof (wr_range_Zlen _ _ _ _ W) as HL.
  assert (F : forall j k, 12 <= j -> holds (data m) j k -> holds d j k).
  { intros j k Hj Hk. eapply wr_range_frame; [exact W|zlen; lia|done]. }
  pose proof (holds_bounds _ _ _ Hh) as [_ HB]. pose proof Hh as Hh'. unfold enc_body in Hh', HB.
  apply F in Hh'; [|lia]. apply holds_app in Hh' as [Hq Hh']. apply holds_app in Hh' as [Ha Hn].
  unfold enc_body in *. zlen.
  set (lq := Zlen (flat_map enc_question qs)) in *. set (la := Zlen (flat_map enc_rr an)) in *.
  set (ln := Zlen (flat_map enc_rr ns)) in *.
  assert (0 <= lq /\ 0 <= la /\ 0 <= ln) as (G1 & G2 & G3) by (split_and!; apply Zlen_nonneg).
  set (m1 := set_data _ d) in EH.
  destruct (parse_questions_returns qs 0 m1) as (Q & RQ & LQ & _ & PQ);
    [done|unfold positioned, m1; simpl; lia|unfold m1; simpl; lia|done|unfold m1; simpl; fold lq; lia|].
  fold lq in RQ. set (m2 := set_cur (set_questions m1 Q) _) in RQ.
  destruct (parse_resources_returns Answers an 0 m2) as (A & a1 & s1 & t1 & p1 & RA & LA & _ & PA);
    [done|unfold positioned, m2, m1; simpl; lia|unfold m2, m1; simpl; lia|done|unfold m2, m1; simpl; fold la; lia|].
  fold la in RA. set (m3 := set_lists _ a1 s1 t1 p1) in RA.
  destruct (parse_resources_returns Authorities ns 0 m3) as (N & a2 & s2 & t2 & p2 & RN & LN & _ & PN);
    [done|unfold positioned, m3, m2, m1; simpl; lia|unfold m3, m2, m1; simpl; lia|done|unfold m3, m2, m1; simpl; fold ln; lia|].
  fold ln in RN. set (m4 := set_lists _ a2 s2 t2 p2) in RN.
  exists m4. split; [|split_and!].
  - unfold mdns_parse_message, HEADER_SIZE. rewrite u32_id by lia. dec. rewrite EH. cbn [mbind res_bind].
    unfold DNS_OPCODE_QUERY, MDNS_MAX_QUESTIONS, MDNS_MAX_ANSWERS, MDNS_MAX_AUTHORITIES. rewrite Hop. cbn [Z.eqb negb].
    replace (32 <? num_questions m1) with false by (unfold m1; simpl; unfold Zlen; lia).
    replace (Z.to_nat (num_questions m1)) with (length qs) by (unfold m1; simpl; unfold Zlen; lia).
    eapply returns_bind; [exact RQ|]. cbn [Z.eqb].
    replace (32 <? num_answers m2) with false by (unfold m2, m1; simpl; unfold Zlen; lia).
    replace (Z.to_nat (num_answers m2)) with (length an) by (unfold m2, m1; simpl; unfold Zlen; lia).
    eapply returns_bind; [exact RA|]. cbn [Z.eqb].
    replace (32 <? num_authorities m3) with false by (unfold m3, m2, m1; simpl; unfold Zlen; lia).
    replace (Z.to_nat (num_authorities m3)) with (length ns) by (unfold m3, m2, m1; simpl; unfold Zlen; lia).
    eapply returns_bind; [exact RN|]. by apply returns_const.
  - constructor; [done|done|done|exact PQ|exact PA|exact PN].
  - unfold m4, m3, m2, m1. simpl. fold ln la lq. lia.
  - unfold arrays_ok, m4, m3, m2, m1 in *. simpl in *. lia.
  - exact W.
  - unfold m4, m3, m2, m1. simpl. lia.
Qed.
