(* ===== verification/MessageSafe.v ===== *)
(** * Messages accepted by the parser

    Whatever packet arrives, when [mdns_parse_message] returns 0 the message is
    [well_parsed]: the counts respect the array sizes, every recorded name
    decodes inside the packet, all record data lies inside the packet, and the per-type lists
    contain exactly references to records of their type.  This is the interface
    the responder and the querier rely on. *)
From S2P Require Import Prelude Buffer Dname DnameSpec DnameText Message MessageSpec MessageParse.

(** ** References to records *)

Definition deref (m : mdns_message) (ref : rref) : option mdns_resource :=
  match ref with RAnswer i => answers m !! i | RAuthority i => authorities m !! i end.

(** ** What the parser has checked of a record

    Of an SRV record it checks a name at the start of the data, where the priority
    is, and not the target; of a TXT record only that the data lies inside the
    packet. *)

(** The name at [n] decodes inside the packet. *)
Definition decodes (m : mdns_message) (n : Z) : Prop := exists ls, name_within (packet m) (end_ m) n ls.

Lemma decodes_at m n : decodes m n -> exists ls, name_at (packet m) n ls.
Proof. intros [ls H]. exists ls. by eapply name_within_at. Qed.

Record good_rr (m : mdns_message) (r : mdns_resource) : Prop := mkGoodRR {
  good_name : decodes m (r_name r);
  good_start : 0 <= r_rdata r;
  good_len : 0 <= r_rdlength r;
  good_end : r_rdata r + r_rdlength r <= end_ m + 1;
  good_a : r_type r = T_A -> r_rdlength r = 4;
  good_ptr : r_type r = T_PTR -> decodes m (r_rdata r);
  good_srv : r_type r = T_SRV -> decodes m (r_rdata r) }.

(** The first [k] elements of an array all satisfy [P]. *)
Definition filled {A} (P : A -> Prop) (l : list A) (k : nat) : Prop :=
  forall i, (i < k)%nat -> exists x, l !! i = Some x /\ P x.

Lemma filled_insert {A} (P : A -> Prop) l k x :
  filled P l k -> (k < length l)%nat -> P x -> filled P (<[k := x]> l) (S k).
Proof.
  intros H Hk Hx i Hi. destruct (decide (i = k)) as [->|Hne].
  - exists x. by rewrite list_lookup_insert_eq.
  - rewrite list_lookup_insert_ne by done. apply H. lia.
Qed.

Lemma filled_impl {A} (P Q : A -> Prop) l k : (forall x, P x -> Q x) -> filled P l k -> filled Q l k.
Proof. intros HI H i Hi. destruct (H i Hi) as (x & E & Hx). eauto. Qed.

Lemma filled_0 {A} (P : A -> Prop) l : filled P l 0.
Proof. intros i Hi. lia. Qed.

(** The list that collects the records of type [t]. *)
Definition type_list (m : mdns_message) (t : Z) : list rref :=
  if t =? T_A then as_ m
  else if t =? T_SRV then srvs m
  else if t =? T_TXT then txts m
  else if t =? T_PTR then ptrs m
  else [].

Definition listed_type (t : Z) : Prop := t = T_A \/ t = T_SRV \/ t = T_TXT \/ t = T_PTR.

(** The record is one of the first [ka] answers or [kn] authorities. *)
Definition below (ka kn : nat) (ref : rref) : Prop :=
  match ref with RAnswer i => (i < ka)%nat | RAuthority i => (i < kn)%nat end.

(** Each list holds the records of its type and nothing else. *)
Definition lists_inv (m : mdns_message) (ka kn : nat) : Prop :=
  forall t ref, listed_type t ->
    (ref ∈ type_list m t <-> below ka kn ref /\ exists r, deref m ref = Some r /\ r_type r = t).

Record well_parsed (m : mdns_message) : Prop := mkWellParsed {
  wp_bytes : bytes (data m);
  wp_arrays : arrays_ok m;
  wp_size : end_ m < Zlen (data m);
  wp_cur : 12 <= cur m <= end_ m + 1;
  wp_nq : 0 <= num_questions m <= 32;
  wp_na : 0 <= num_answers m <= 32;
  wp_ns : 0 <= num_authorities m <= 32;
  wp_questions : filled (fun q => decodes m (qname q)) (questions m) (Z.to_nat (num_questions m));
  wp_answers : filled (good_rr m) (answers m) (Z.to_nat (num_answers m));
  wp_authorities : filled (good_rr m) (authorities m) (Z.to_nat (num_authorities m));
  wp_lists : lists_inv m (Z.to_nat (num_answers m)) (Z.to_nat (num_authorities m)) }.

(** ** What each step of the parser keeps *)

(** Only the position, the arrays and the lists change while parsing. *)
Definition same_packet (m m' : mdns_message) : Prop :=
  data m' = data m /\ end_ m' = end_ m /\ num_questions m' = num_questions m /\
  num_answers m' = num_answers m /\ num_authorities m' = num_authorities m.

Lemma decodes_same m m' n : data m' = data m -> end_ m' = end_ m -> decodes m n -> decodes m' n.
Proof. intros E E'. unfold decodes, packet. by rewrite E, E'. Qed.

Lemma good_rr_same m m' r : data m' = data m -> end_ m' = end_ m -> good_rr m r -> good_rr m' r.
Proof.
  intros Ed Ee []. constructor; rewrite ?Ee; eauto using decodes_same.
Qed.

Lemma get_uint16_range b p v : bytes b -> get_uint16 b p = Ok v -> 0 <= v < 65536.
Proof.
  intros Hb H. unfold get_uint16 in H. repeat inv_bind.
  pose proof (rd_byte _ _ _ Hb Hx). pose proof (rd_byte _ _ _ Hb Hx0). unfold is_byte in *. subst.
  rewrite lor_shiftl by lia. change (2 ^ 8) with 256. lia.
Qed.

(** A question step that succeeds. *)
Lemma parse_questions_sound fuel k : forall i m m',
  bytes (data m) -> 0 <= cur m <= end_ m + 1 -> end_ m < Zlen (data m) -> end_ m < 4294967295 ->
  parse_questions fuel k i m = Ok (0, m') -> (i + k <= length (questions m))%nat ->
  filled (fun q => decodes m (qname q)) (questions m) i ->
  same_packet m m' /\ cur m <= cur m' <= end_ m + 1 /\ length (questions m') = length (questions m) /\
  filled (fun q => decodes m (qname q)) (questions m') (i + k) /\
  answers m' = answers m /\ authorities m' = authorities m /\
  as_ m' = as_ m /\ srvs m' = srvs m /\ txts m' = txts m /\ ptrs m' = ptrs m.
Proof.
  induction k as [|k IH]; intros i m m' Hb Hc He He2 H Hi HF.
  - cbn [parse_questions] in H. inv_bind. subst. rewrite Nat.add_0_r. split_and!; done || lia.
  - cbn [parse_questions] in H. inv_bind. case_match; [inv_bind; done|]. b2p.
    apply check_name_sound in Hx as (Hl & Hcl & Hd); [|done|done|done]. cbn [cur set_questions end_] in Hcl.
    case_match eqn:Et; [inv_bind; done|]. inv_bind. inv_bind.
    unfold no_tailroom_u, TAILROOM in Et. cbn [set_cur set_pos set_questions cur end_] in Et.
    rewrite (u32_id (end_ m - _ + 1)), u32_id in Et by lia. b2p.
    match type of H with context [set_questions _ ?q] => set (Q := q) in H end.
    assert (EQ : length Q = length (questions m)) by (unfold Q; simpl; by rewrite !length_insert).
    assert (HFQ : filled (fun q => decodes m (qname q)) Q (S i)).
    { unfold Q. simpl. rewrite list_insert_insert_eq. apply filled_insert; [done|lia|].
      replace (cur m + x - x) with (cur m) by lia. exact Hd. }
    apply IH in H; [|done|simpl; lia|done|done|simpl; lia|exact HFQ].
    simpl in H. destruct H as (HS & HC & HL & HFF & HR). split_and!; try apply HR; try apply HS; try lia.
    by replace (i + S k)%nat with (S i + k)%nat by lia.
Qed.

(** The record step that succeeds. *)
Lemma parse_resource_sound fuel m ref r0 m' r :
  bytes (data m) -> 0 <= cur m <= end_ m + 1 -> end_ m < Zlen (data m) -> end_ m < 4294967295 ->
  parse_resource fuel m ref r0 = Ok (0, m', r) ->
  good_rr m r /\ exists c, cur m <= c <= end_ m + 1 /\ m' = sort_record (set_cur m c) ref (r_type r).
Proof.
  intros Hb Hc He He2 H. unfold parse_resource in H. inv_bind. case_match; [inv_bind; done|]. b2p.
  apply check_name_sound in Hx as (Hl & Hcl & Hd); [|done|done|done].
  case_match eqn:Et; [inv_bind; done|]. unfold no_tailroom_u, TAILROOM in Et. simpl in Et.
  rewrite (u32_id (end_ m - _ + 1)), u32_id in Et by lia. b2p.
  inv_bind. inv_bind. inv_bind. inv_bind. rename x3 into rdl. simpl in *.
  pose proof (get_uint16_range _ _ _ Hb Hx2) as Hr.
  rewrite tailroom_s in H. simpl in H. case_match eqn:Et2; [inv_bind; done|]. b2p.
  inv_bind. destruct x3; [inv_bind; done|]. unfold mret, res_ret in H. simplify_eq.
  split.
  - constructor; simpl; try done; try lia.
    + intros ->. cbn in Hx3. inv_bind. lia.
    + intros ->. cbn in Hx3. inv_bind. inv_bind. b2p. subst. by eapply (dname_overrun_sound _ (packet m)).
    + intros ->. cbn in Hx3. inv_bind. inv_bind. b2p. subst. by eapply (dname_overrun_sound _ (packet m)).
  - eexists. split; [|reflexivity]. lia.
Qed.

Lemma type_list_sort m ref ty t :
  listed_type t -> type_list (sort_record m ref ty) t = if t =? ty then ref :: type_list m t else type_list m t.
Proof.
  intros Ht. unfold sort_record. repeat case_match; b2p; subst; unfold type_list; simpl; try done.
  all: destruct Ht as [->|[->|[->| ->]]]; simpl; try done; by unfold T_A, T_SRV, T_TXT, T_PTR in *.
Qed.

Lemma set_records_type_list s m R t : type_list (set_records s m R) t = type_list m t.
Proof. by destruct s. Qed.

(** Counts of settled records, seen from one section. *)
Definition settled (s : rsection) (i : nat) (other : nat) : nat * nat :=
  match s with Answers => (i, other) | Authorities => (other, i) end.

Lemma lists_inv_step s m c i other r :
  (i < length (records s m))%nat ->
  lists_inv m (settled s i other).1 (settled s i other).2 ->
  let m' := set_records s (sort_record (set_cur m c) (section_ref s i) (r_type r)) (<[i := r]> (records s m)) in
  lists_inv m' (settled s (S i) other).1 (settled s (S i) other).2.
Proof.
  intros Hi HI m' t ref Ht. unfold m'. rewrite set_records_type_list, type_list_sort by done.
  change (type_list (set_cur m c) t) with (type_list m t). pose proof (HI t ref Ht) as HI'.
  destruct (decide (ref = section_ref s i)) as [->|Hne].
  - assert (Hn : section_ref s i ∉ type_list m t).
    { rewrite HI'. intros [Hbl _]. destruct s; simpl in Hbl; lia. }
    assert (E : deref (set_records s (sort_record (set_cur m c) (section_ref s i) (r_type r)) (<[i:=r]> (records s m)))
      (section_ref s i) = Some r) by (destruct s; simpl; by rewrite list_lookup_insert_eq).
    rewrite E. destruct (Z.eqb_spec t (r_type r)) as [->|Hnt].
    + split; [intros _|intros _; apply elem_of_cons; by left]. split; [destruct s; simpl; lia|eauto].
    + split; [done|]. intros (_ & r' & [= <-] & ?). done.
  - assert (E : deref (set_records s (sort_record (set_cur m c) (section_ref s i) (r_type r)) (<[i:=r]> (records s m)))
      ref = deref m ref).
    { destruct (sort_record_lists (set_cur m c) (section_ref s i) (r_type r)) as (a & sv & tx & p & ->).
      destruct s, ref; simpl in *; try done; rewrite list_lookup_insert_ne; congruence. }
    rewrite E.
    assert (EB : below (settled s (S i) other).1 (settled s (S i) other).2 ref <->
                 below (settled s i other).1 (settled s i other).2 ref).
    { destruct s, ref; simpl in *; try done; split; try lia; intros;
      match goal with |- (?n < _)%nat => assert (n <> i) by congruence; lia end. }
    rewrite EB, <- HI'. case_match; [|done]. rewrite elem_of_cons.
    split; [intros [?|?]; done|intros; by right].
Qed.

(** What the loops over records establish; [other] counts the records of the
    section that is not being parsed. *)
Lemma parse_resources_sound s other fuel k : forall i m m',
  bytes (data m) -> 0 <= cur m <= end_ m + 1 -> end_ m < Zlen (data m) -> end_ m < 4294967295 ->
  parse_resources s fuel k i m = Ok (0, m') -> (i + k <= length (records s m))%nat ->
  filled (good_rr m) (records s m) i -> lists_inv m (settled s i other).1 (settled s i other).2 ->
  same_packet m m' /\ cur m <= cur m' <= end_ m + 1 /\
  length (records s m') = length (records s m) /\ filled (good_rr m) (records s m') (i + k) /\
  lists_inv m' (settled s (i + k) other).1 (settled s (i + k) other).2 /\ questions m' = questions m /\
  match s with Answers => authorities m' = authorities m | Authorities => answers m' = answers m end.
Proof.
  induction k as [|k IH]; intros i m m' Hb Hc He He2 H Hi HF HI; cbn [parse_resources] in H.
  - inv_bind. subst. rewrite Nat.add_0_r. split_and!; try done || lia. by destruct s.
  - inv_bind. destruct x as [[ret m1] r]. case_match; [inv_bind; done|].
    assert (ret = 0) as -> by (unfold parse_resource in Hx; repeat (inv_bind || case_match); simplify_eq; done).
    apply parse_resource_sound in Hx as (Hg & c & Hcc & ->); [|done..].
    set (m1 := sort_record _ _ _) in H. pose proof (lists_inv_step s m c i other r ltac:(lia) HI) as HI1.
    fold m1 in HI1. cbv zeta in HI1.
    assert (EP : records s m1 = records s m /\ same_packet m (set_records s m1 (<[i:=r]> (records s m))) /\
      cur (set_records s m1 (<[i:=r]> (records s m))) = c /\ questions m1 = questions m /\
      answers m1 = answers m /\ authorities m1 = authorities m).
    { unfold m1. destruct (sort_record_lists (set_cur m c) (section_ref s i) (r_type r)) as (a & sv & tx & p & ->).
      destruct s; done. }
    destruct EP as (ER & ES & EC & EQ & EA & EN). rewrite ER in H.
    set (m2 := set_records s m1 _) in *. pose proof ES as (Ed & Ee & E1 & E2 & E3).
    assert (ER2 : records s m2 = <[i:=r]> (records s m)) by (by destruct s).
    assert (EO : questions m2 = questions m /\
      match s with Answers => authorities m2 = authorities m | Authorities => answers m2 = answers m end)
      by (by destruct s).
    apply IH in H; rewrite ?Ed, ?EC, ?Ee, ?ER2, ?length_insert; try done; try lia.
    2: { apply filled_insert; [|lia|by eapply good_rr_same].
         eapply filled_impl; [|exact HF]. intros. by eapply good_rr_same. }
    rewrite ER2, length_insert, EC in H. destruct H as (HS & HC & HL & HFF & HLI & HQ & HO).
    replace (i + S k)%nat with (S i + k)%nat by lia. rewrite Ee in HC.
    destruct HS as (S1 & S2 & S3 & S4 & S5). destruct EO as [EO1 EO2].
    split_and!; try done; try lia; try congruence.
    + split_and!; congruence.
    + eapply filled_impl; [|exact HFF]. intros. by eapply (good_rr_same m2).
    + destruct s; congruence.
Qed.

(** The header step: counts in range, lists emptied, two bytes swapped. *)
Lemma parse_header_sound m mlen m' num :
  bytes (data m) -> parse_header m mlen = Ok (m', num) ->
  exists d q a n, m' = set_data (set_counts (set_pos (set_lists m [] [] [] []) 12 (mlen - 1) mlen) q a n) d /\
    bytes d /\ Zlen d = Zlen (data m) /\ 0 <= q < 65536 /\ 0 <= a < 65536 /\ 0 <= n < 65536.
Proof.
  intros Hb H. unfold parse_header in H. inv_bind. inv_bind. inv_bind. inv_bind. inv_bind.
  unfold mret, res_ret in H. simplify_eq. cbn [set_counts set_pos set_lists data] in *.
  exists x3, (htons x), (htons x0), (htons x1).
  assert (E : set_host16 (data m) H_FLAGS (htons x2) = Ok x3) by done.
  rewrite set_host16_htons in E. split_and!; try done; try apply htons_range.
  - eapply wr_range_bytes; [exact E|done|]. apply bytes_be16, u16_range.
  - by eapply wr_range_Zlen.
Qed.

(** Capping a count at the size of its array. *)
Lemma cap_questions m :
  (if MDNS_MAX_QUESTIONS <? num_questions m then set_counts m MDNS_MAX_QUESTIONS (num_answers m) (num_authorities m) else m)
  = set_counts m (num_questions m `min` 32) (num_answers m) (num_authorities m).
Proof.
  unfold MDNS_MAX_QUESTIONS. case_match; b2p; [by rewrite Z.min_r by lia|].
  rewrite Z.min_l by lia. by destruct m.
Qed.

Lemma cap_answers m :
  (if MDNS_MAX_ANSWERS <? num_answers m then set_counts m (num_questions m) MDNS_MAX_ANSWERS (num_authorities m) else m)
  = set_counts m (num_questions m) (num_answers m `min` 32) (num_authorities m).
Proof.
  unfold MDNS_MAX_ANSWERS. case_match; b2p; [by rewrite Z.min_r by lia|].
  rewrite Z.min_l by lia. by destruct m.
Qed.

Lemma cap_authorities m :
  (if MDNS_MAX_AUTHORITIES <? num_authorities m then set_counts m (num_questions m) (num_answers m) MDNS_MAX_AUTHORITIES else m)
  = set_counts m (num_questions m) (num_answers m) (num_authorities m `min` 32).
Proof.
  unfold MDNS_MAX_AUTHORITIES. case_match; b2p; [by rewrite Z.min_r by lia|].
  rewrite Z.min_l by lia. by destruct m.
Qed.

(** The result codes of the loops. *)
Lemma parse_questions_code fuel k : forall i m ret m',
  parse_questions fuel k i m = Ok (ret, m') -> ret = 0 \/ ret = -1.
Proof.
  induction k as [|k IH]; intros i m ret m' H; cbn [parse_questions] in H.
  - unfold mret, res_ret in H. simplify_eq. auto.
  - inv_bind. case_match; [unfold mret, res_ret in H; simplify_eq; auto|].
    case_match; [unfold mret, res_ret in H; simplify_eq; auto|]. inv_bind. inv_bind. eauto.
Qed.

Lemma parse_resources_code s fuel k : forall i m ret m',
  parse_resources s fuel k i m = Ok (ret, m') -> ret = 0 \/ ret = -1.
Proof.
  induction k as [|k IH]; intros i m ret m' H; cbn [parse_resources] in H.
  - unfold mret, res_ret in H. simplify_eq. auto.
  - inv_bind. destruct x as [[ret1 m1] r]. case_match; [unfold mret, res_ret in H; simplify_eq; auto|eauto].
Qed.

Lemma lists_inv_empty m : type_list m T_A = [] -> type_list m T_SRV = [] -> type_list m T_TXT = [] ->
  type_list m T_PTR = [] -> lists_inv m 0 0.
Proof.
  intros HA HS HT HP t ref Ht. assert (E : type_list m t = []) by (destruct Ht as [->|[->|[->| ->]]]; done).
  rewrite E, elem_of_nil. split; [done|]. intros [Hb _]. destruct ref; simpl in Hb; lia.
Qed.

Lemma parse_message_sound fuel m mlen m' :
  bytes (data m) -> arrays_ok m -> mlen <= Zlen (data m) -> 0 <= mlen < 65536 ->
  mdns_parse_message fuel m mlen = Ok (0, m') ->
  well_parsed m' /\ end_ m' = mlen - 1.
Proof.
  intros Hb (Aq & Aa & An) Hm Hm2 H. unfold mdns_parse_message in H. rewrite u32_id in H by lia.
  case_match eqn:EL; [inv_bind; done|]. unfold HEADER_SIZE in EL. b2p. inv_bind. destruct x as [m0 num].
  apply parse_header_sound in Hx as (d & q & a & n & -> & Bd & Ld & Hq & Ha & Hn); [|done].
  case_match; [inv_bind; done|]. rewrite cap_questions in H. inv_bind. destruct x as [ret m1].
  case_match; [inv_bind; done|]. b2p.
  assert (ret = 0) as -> by (destruct (parse_questions_code _ _ _ _ _ _ Hx); lia).
  apply parse_questions_sound in Hx as (S1 & C1 & L1 & F1 & A1 & N1 & T1); simpl; [|done|lia|lia|lia|lia|apply filled_0].
  destruct S1 as (Sd1 & Se1 & Sq1 & Sa1 & Sn1). simpl in *. destruct T1 as (Ta & Ts & Tt & Tp).
  rewrite cap_answers in H. inv_bind. destruct x as [ret m2]. case_match; [inv_bind; done|]. b2p.
  assert (ret = 0) as -> by (destruct (parse_resources_code _ _ _ _ _ _ _ Hx); lia).
  apply (parse_resources_sound Answers 0) in Hx; simpl; rewrite ?Sd1, ?Se1, ?Sa1, ?A1 in *; try done; try lia; [|apply filled_0|by apply lists_inv_empty].
  destruct Hx as (S2 & C2 & L2 & F2 & I2 & Q2 & N2). destruct S2 as (Sd2 & Se2 & Sq2 & Sa2 & Sn2). simpl in *.
  rewrite Sd1, Se1, Sq1, Sn1, N1, A1 in *.
  rewrite cap_authorities in H. inv_bind. destruct x as [ret m3]. case_match; [inv_bind; done|]. b2p.
  assert (ret = 0) as -> by (destruct (parse_resources_code _ _ _ _ _ _ _ Hx); lia).
  apply (parse_resources_sound Authorities (Z.to_nat (a `min` 32))) in Hx; simpl;
    rewrite ?Sd2, ?Se2, ?Sn2, ?N2 in *; try done; try lia; [|apply filled_0].
  destruct Hx as (S3 & C3 & L3 & F3 & I3 & Q3 & N3). destruct S3 as (Sd3 & Se3 & Sq3 & Sa3 & Sn3). simpl in *.
  unfold mret, res_ret in H. injection H as <-.
  rewrite Sd2 in Sd3. rewrite Se2 in Se3, C3. rewrite Sq2 in Sq3. rewrite Sa2 in Sa3. rewrite N2 in L3.
  split; [|done]. constructor; rewrite ?Sd3, ?Se3, ?Sq3, ?Sa3, ?Sn3; try done; try lia.
  - unfold arrays_ok. rewrite Q3, Q2, L1, N3, L2, L3. done.
  - rewrite Q3, Q2. eapply filled_impl; [|exact F1]. intros x. apply decodes_same; [by rewrite Sd3|simpl; congruence].
  - rewrite N3. eapply filled_impl; [|exact F2]. intros x. apply good_rr_same; [simpl; congruence|simpl; congruence].
  - eapply filled_impl; [|exact F3]. intros x. apply good_rr_same; [simpl; congruence|simpl; congruence].
Qed.
