(* ===== verification/MessageFault.v ===== *)
(** * Memory safety of the parser

    [mdns_parse_message] measures a name with [dname_size] before it compares
    the result with the end of the packet.  As long as the receive buffer is 0
    behind the packet, with at least one maximal label of room, no read leaves
    the buffer, whatever the packet contains. *)
From S2P Require Import Prelude Buffer Dname DnameSpec DnameText Message MessageSpec MessageParse MessageSafe.

Definition faultless {A} (x : res A) : Prop := x <> Fault.

Lemma faultless_ret {A} (a : A) : faultless (mret a).
Proof. done. Qed.

Lemma faultless_bind {A B} (x : res A) (k : A -> res B) :
  faultless x -> (forall a, x = Ok a -> faultless (k a)) -> faultless (mbind k x).
Proof. intros Hx Hk. destruct x; [by apply Hk|done|done]. Qed.

Lemma faultless_rd b i : 0 <= i < Zlen b -> faultless (rd b i).
Proof. intros H. destruct (rd_in_bounds _ _ H) as [v ->]. done. Qed.

Lemma faultless_if {A} (c : bool) (x y : res A) :
  (c = true -> faultless x) -> (c = false -> faultless y) -> faultless (if c then x else y).
Proof. destruct c; auto. Qed.

Create HintDb faultless.
#[export] Hint Resolve faultless_ret faultless_rd faultless_if : faultless.

(** Split a computation into its steps. *)
Ltac fl := apply faultless_bind; [|intros ? ?].

(** ** The packet and what is behind it *)

Section Padded.
Context (mlen : Z) (b : list Z).
Hypothesis Hbytes : bytes b.
Hypothesis Hlen : 0 <= mlen.
Hypothesis Hroom : mlen + 64 <= Zlen b.
Hypothesis Hzero : forall i, mlen <= i < Zlen b -> rd b i = Ok 0.

Lemma size_faultless fuel start n : 0 <= n < mlen + 64 -> faultless (dname_size_loop fuel b start n).
Proof.
  revert n. induction fuel as [|fuel IH]; intros n Hn; [done|]. cbn [dname_size_loop].
  fl; [apply faultless_rd; lia|]. apply faultless_if; intros E0; [done|].
  apply faultless_if; intros E1; [done|]. apply faultless_if; intros E2; [done|].
  pose proof (rd_byte _ _ _ Hbytes H) as Hc. rewrite is_pointer_byte in E1 by done. unfold is_byte in Hc. b2p.
  apply IH. split; [lia|]. destruct (Z.lt_ge_cases n mlen); [lia|].
  rewrite Hzero in H by lia. simplify_eq.
Qed.

Lemma pointers_faultless fuel n : 0 <= n < mlen -> faultless (overrun_pointers fuel (mkDref b true) (mlen - 1) n).
Proof.
  revert n. induction fuel as [|fuel IH]; intros n Hn; [done|]. cbn [overrun_pointers d_buf].
  fl; [apply faultless_rd; lia|]. apply faultless_if; intros E; [|done].
  fl. { unfold follow, POINTER. simpl. fl; [|done]. fl; [apply faultless_rd; lia|]. fl; [apply faultless_rd; lia|done]. }
  pose proof (follow_range (mkDref b true) _ _ Hbytes H0). apply faultless_if; intros E2; [done|]. b2p. apply IH. lia.
Qed.

Lemma overrun_faultless fuel n : 0 <= n -> faultless (dname_overrun fuel (mkDref b true) (mlen - 1) n).
Proof.
  revert n. induction fuel as [|fuel IH]; intros n Hn; [done|]. cbn [dname_overrun d_buf].
  apply faultless_if; intros E; [done|]. b2p. fl; [apply faultless_rd; lia|]. apply faultless_if; intros E2; [done|].
  fl; [apply pointers_faultless; lia|]. destruct a0 as [v|t]; [done|].
  pose proof (overrun_pointers_spec _ (mkDref b true) _ _ _ Hbytes E H0) as ((c & Hc & Hcr) & Ht & _). simpl in Hc.
  pose proof (rd_bounds _ _ _ Hc). rewrite Hc. cbn [mbind res_bind]. apply IH. lia.
Qed.

(** A message whose buffer this is, at a position inside the packet. *)
Definition inside (m : mdns_message) : Prop :=
  data m = b /\ end_ m = mlen - 1 /\ 0 <= cur m <= mlen.

Lemma check_name_faultless fuel m : inside m -> faultless (check_name fuel m).
Proof.
  intros (Hd & He & Hc). unfold check_name, packet. rewrite Hd, He.
  fl; [apply size_faultless; lia|]. apply faultless_if; intros _; [done|]. apply faultless_if; intros _; [done|].
  fl; [apply overrun_faultless; lia|done].
Qed.

Lemma get16_faultless p : 0 <= p -> p + 2 <= Zlen b -> faultless (get_uint16 b p).
Proof. intros. unfold get_uint16. fl; [apply faultless_rd; lia|]. fl; [apply faultless_rd; lia|done]. Qed.

Lemma get32_faultless p : 0 <= p -> p + 4 <= Zlen b -> faultless (get_uint32 b p).
Proof. intros. unfold get_uint32. do 4 (fl; [apply faultless_rd; lia|]). done. Qed.

Lemma parse_questions_faultless fuel k : forall i m, mlen < 4294967296 -> inside m -> faultless (parse_questions fuel k i m).
Proof.
  induction k as [|k IH]; intros i m Hm Hi; [done|]. cbn [parse_questions]. pose proof Hi as (Hd & He & Hc).
  fl; [by apply check_name_faultless|]. apply faultless_if; intros E; [done|]. b2p.
  apply check_name_sound in H as (Hl & Hcl & _); simpl; rewrite ?Hd, ?He in *; try done; try lia.
  simpl in Hcl. rewrite ?He in Hcl. apply faultless_if; intros E2; [done|].
  unfold no_tailroom_u, TAILROOM in E2. simpl in E2. rewrite ?He, (u32_id (_ - _ + 1)), u32_id in E2 by lia. b2p. simpl.
  fl; [rewrite ?Hd; apply get16_faultless; lia|]. fl; [rewrite ?Hd; apply get16_faultless; lia|].
  apply IH; [done|]. split_and!; simpl; [done|done|lia|lia].
Qed.

Lemma parse_resource_faultless fuel m ref r : mlen < 4294967296 -> inside m -> faultless (parse_resource fuel m ref r).
Proof.
  intros Hm Hi. pose proof Hi as (Hd & He & Hc). unfold parse_resource.
  fl; [by apply check_name_faultless|]. apply faultless_if; intros E; [done|]. b2p.
  apply check_name_sound in H as (Hl & Hcl & _); rewrite ?Hd, ?He in *; try done; try lia.
  apply faultless_if; intros E2; [done|].
  unfold no_tailroom_u, TAILROOM in E2. simpl in E2. rewrite ?He, (u32_id (_ - _ + 1)), u32_id in E2 by lia. b2p. simpl.
  rewrite ?Hd. fl; [apply get16_faultless; lia|]. fl; [apply get16_faultless; lia|].
  fl; [apply get32_faultless; lia|]. fl; [apply get16_faultless; lia|].
  apply faultless_if; intros E3; [done|]. fl; [|destruct a4; done].
  apply faultless_if; intros E4; [done|]. apply faultless_if; intros E5; [|done].
  fl; [|done]. unfold packet. simpl. rewrite ?Hd, ?He. apply overrun_faultless. lia.
Qed.

Lemma parse_resources_faultless s fuel k : forall i m,
  mlen < 4294967295 -> inside m -> faultless (parse_resources s fuel k i m).
Proof.
  induction k as [|k IH]; intros i m Hm Hi; [done|]. cbn [parse_resources]. pose proof Hi as (Hd & He & Hc).
  fl; [apply parse_resource_faultless; [lia|done]|]. destruct a as [[ret m1] r'].
  apply faultless_if; intros E; [done|]. b2p.
  assert (ret = 0) as -> by (unfold parse_resource in H; repeat (inv_bind || case_match); simplify_eq; done).
  apply parse_resource_sound in H as (_ & c & Hcc & ->); rewrite ?Hd, ?He; try done; try lia.
  apply IH; [done|]. destruct (sort_record_lists (set_cur m c) (section_ref s i) (r_type r')) as (x1 & x2 & x3 & x4 & ->).
  rewrite ?He in Hcc. split_and!; destruct s; simpl; done || lia.
Qed.
End Padded.

Lemma host16_faultless b p : 0 <= p -> p + 2 <= Zlen b -> faultless (get_host16 b p).
Proof. intros. unfold get_host16. fl; [apply faultless_rd; lia|]. fl; [apply faultless_rd; lia|done]. Qed.

Lemma parse_header_faultless m mlen : 12 <= Zlen (data m) -> faultless (parse_header m mlen).
Proof.
  intros H. unfold parse_header, H_QDCOUNT, H_ANCOUNT, H_NSCOUNT, H_FLAGS. simpl.
  do 4 (fl; [apply host16_faultless; lia|]). rewrite set_host16_htons.
  destruct (wr_range_exists (data m) 2 (be16 (u16 a2))) as [d ->]; [lia|unfold be16; zlen; lia|]. done.
Qed.

Lemma parse_header_frame m mlen m' num i :
  parse_header m mlen = Ok (m', num) -> 12 <= i -> rd (data m') i = rd (data m) i.
Proof.
  intros H Hi. unfold parse_header in H. do 5 inv_bind. unfold mret, res_ret in H. simplify_eq. simpl in *.
  rewrite set_host16_htons in Hx3. eapply wr_range_rd_frame; [exact Hx3|]. right. unfold be16, H_FLAGS. zlen. lia.
Qed.

Lemma parse_message_faultless fuel m mlen :
  bytes (data m) -> arrays_ok m -> 0 <= mlen < 65536 -> mlen + 64 <= Zlen (data m) ->
  (forall i, mlen <= i < Zlen (data m) -> rd (data m) i = Ok 0) ->
  faultless (mdns_parse_message fuel m mlen).
Proof.
  intros Hb (Aq & Aa & An) Hm Hr Hz. unfold mdns_parse_message. rewrite u32_id by lia.
  apply faultless_if; intros E; [done|]. unfold HEADER_SIZE in E. b2p.
  fl; [apply parse_header_faultless; lia|]. destruct a as [m0 num].
  pose proof (fun i => parse_header_frame m mlen m0 num i) as HF. pose proof H as H'.
  apply parse_header_sound in H' as (d & q & a & n & -> & Bd & Ld & Hq & Ha & Hn); [|done].
  assert (Hz' : forall i, mlen <= i < Zlen d -> rd d i = Ok 0).
  { intros i Hi. rewrite Ld in Hi. rewrite <- (Hz i Hi). apply (HF i H). lia. }
  apply faultless_if; intros E2; [done|]. rewrite cap_questions. rewrite <- Ld in Hr.
  fl; [apply (parse_questions_faultless mlen d Bd Hr Hz'); [lia|split_and!; simpl; lia || done]|].
  destruct a0 as [ret m1]. apply faultless_if; intros E3; [done|]. b2p.
  assert (ret = 0) as -> by (destruct (parse_questions_code _ _ _ _ _ _ H0); lia).
  apply parse_questions_sound in H0 as (S1 & C1 & L1 & _ & A1 & N1 & T1); simpl; [|done|lia|lia|lia|lia|apply filled_0].
  destruct S1 as (Sd1 & Se1 & Sq1 & Sa1 & Sn1). simpl in *. rewrite cap_answers.
  fl; [apply (parse_resources_faultless mlen d Bd Hr Hz'); [lia|split_and!; simpl; lia || done]|].
  destruct a0 as [ret m2]. apply faultless_if; intros E4; [done|]. b2p.
  assert (ret = 0) as -> by (destruct (parse_resources_code _ _ _ _ _ _ _ H0); lia).
  destruct T1 as (Ta & Ts & Tt & Tp).
  apply (parse_resources_sound Answers 0) in H0; simpl; rewrite ?Sd1, ?Se1, ?Sa1, ?A1 in *; try done; try lia;
    [|apply filled_0|by apply lists_inv_empty].
  destruct H0 as (S2 & C2 & L2 & _). destruct S2 as (Sd2 & Se2 & Sq2 & Sa2 & Sn2). simpl in *.
  rewrite ?Sd1, ?Se1 in *. rewrite cap_authorities.
  fl; [apply (parse_resources_faultless mlen d Bd Hr Hz'); [lia|split_and!; simpl; lia || done]|].
  destruct a0 as [ret m3]. by apply faultless_if.
Qed.
