(* ===== verification/MessageTheorems.v ===== *)
(** * Properties of the message layer

    What src/mdns/mdns.c guarantees to the responder and the querier: parsing
    recovers what was encoded, a packet that is accepted is safe to use, and
    the places where parsing goes wrong. *)
From S2P Require Import Prelude Buffer Dname DnameSpec DnameText Message MessageSpec MessageParse MessageSafe.
From S2P Require Import MessageFault.

(** ** A concrete packet for the witnesses *)

(** a.local *)
Definition a_local : list (list Z) := [[97]; [108; 111; 99; 97; 108]].

(** One question for a.local, one A answer and one PTR authority. *)
Definition demo_questions : list question := [mkQ a_local T_ANY C_IN].
Definition demo_answers : list rr := [mkRR a_local T_A C_FLUSH 255 [10; 0; 0; 1]].
Definition demo_authorities : list rr := [mkRR a_local T_PTR C_FLUSH 255 (encode a_local)].

Definition packet_buffer (counts body : list Z) : list Z :=
  let bs := [0; 0; 0; 0] ++ counts ++ [0; 0] ++ body in
  bs ++ replicate (1472 - length bs) 0.

Definition message_of (d : list Z) : mdns_message :=
  mkMessage d 0 0 0 (replicate 32 default_question) 0 (replicate 32 default_resource) 0
    (replicate 32 default_resource) 0 [] [] [] [].

Definition demo_body : list Z := enc_body demo_questions demo_answers demo_authorities.
Definition demo_message : mdns_message := message_of (packet_buffer [0; 1; 0; 1; 0; 1] demo_body).
Definition demo_length : Z := 12 + Zlen demo_body.

Lemma a_local_valid : Forall valid_label a_local.
Proof. repeat constructor; unfold is_byte, Zlen; simpl; lia. Qed.

Lemma a_local_name : valid_name a_local.
Proof. split; [exact a_local_valid|vm_compute; discriminate]. Qed.

(** Discharge the range conditions on concrete fields. *)
Ltac concrete := unfold word16, word32; vm_compute; split; congruence.

Lemma demo_questions_valid : Forall valid_question demo_questions.
Proof. constructor; [|constructor]. split; [exact a_local_name|]. split; concrete. Qed.

Lemma demo_answers_valid : Forall valid_rr demo_answers.
Proof.
  constructor; [|constructor]. split; [exact a_local_name|]. split; [concrete|]. split; [concrete|].
  split; [concrete|]. split; [reflexivity|]. split; [done|]. split; by vm_compute.
Qed.

Lemma demo_authorities_valid : Forall valid_rr demo_authorities.
Proof.
  constructor; [|constructor]. split; [exact a_local_name|]. split; [concrete|]. split; [concrete|].
  split; [concrete|]. split; [reflexivity|]. split; [by vm_compute|]. split; [|by vm_compute].
  intros _. exists a_local. split; [exact a_local_valid|done].
Qed.

(** ** Parsing *)

(** C1: encoding and parsing round-trip.  A buffer that holds a header with
    opcode 0 and the encodings of up to 32 questions, answers and authorities
    is accepted, the parse terminates, and the three arrays describe exactly
    the questions and records that were encoded. *)
Theorem parse_message_roundtrip m mlen f0 f1 qs an ns :
  bytes (data m) -> Zlen (data m) < 65536 -> arrays_ok m ->
  holds (data m) 2 [f0; f1] -> flag_opcode (f0 * 256 + f1) = 0 ->
  holds (data m) 4 (be16 (Zlen qs)) -> holds (data m) 6 (be16 (Zlen an)) -> holds (data m) 8 (be16 (Zlen ns)) ->
  (length qs <= 32)%nat -> (length an <= 32)%nat -> (length ns <= 32)%nat ->
  Forall valid_question qs -> Forall valid_rr an -> Forall valid_rr ns ->
  holds (data m) 12 (enc_body qs an ns) -> mlen = 12 + Zlen (enc_body qs an ns) ->
  exists m', returns (fun fuel => mdns_parse_message fuel m mlen) (0, m') /\ parsed m' qs an ns /\ cur m' = mlen.
Proof.
  intros. destruct (parse_message_returns m mlen f0 f1 qs an ns) as (m' & HR & HP & HC & _); eauto.
Qed.

Lemma parse_message_roundtrip_witness :
  exists m', returns (fun fuel => mdns_parse_message fuel demo_message demo_length) (0, m') /\
    parsed m' demo_questions demo_answers demo_authorities /\ cur m' = demo_length.
Proof.
  apply (parse_message_roundtrip demo_message demo_length 0 0).
  - by_eval.
  - reflexivity.
  - split_and!; reflexivity.
  - by_eval.
  - reflexivity.
  - by_eval.
  - by_eval.
  - by_eval.
  - by_eval.
  - by_eval.
  - by_eval.
  - exact demo_questions_valid.
  - exact demo_answers_valid.
  - exact demo_authorities_valid.
  - by_eval.
  - reflexivity.
Defined.

(** C2: what holds of a packet that the parser accepts, whoever sent it: no count
    exceeds its array; every question name, record name and PTR name decodes, and its
    length bytes, labels and end lie inside the packet (of a pointer the first byte
    does); record data ends before the packet does; an A record has four bytes; and
    the lists of A, SRV, TXT and PTR records hold exactly the answers and authorities
    of that type.  Of an SRV record the parser checks a name at the start of the data
    instead of the target, and of a TXT record nothing but its length. *)
Theorem parse_message_safe fuel m mlen m' :
  bytes (data m) -> arrays_ok m -> mlen <= Zlen (data m) -> 0 <= mlen < 65536 ->
  mdns_parse_message fuel m mlen = Ok (0, m') -> well_parsed m' /\ end_ m' = mlen - 1.
Proof. apply parse_message_sound. Qed.

Lemma parse_message_safe_witness :
  exists m', mdns_parse_message 100 demo_message demo_length = Ok (0, m') /\ well_parsed m'.
Proof.
  eexists. split; [vm_compute; reflexivity|].
  eapply (parse_message_safe 100 demo_message demo_length); [by_eval|split_and!; reflexivity|by_eval|by_eval|].
  vm_compute. reflexivity.
Defined.

(** C3: the parser reads only inside the receive buffer, on every packet, when
    the buffer is 0 behind the packet and has room for one more label there. *)
Theorem parse_message_memory_safe fuel m mlen :
  bytes (data m) -> arrays_ok m -> 0 <= mlen < 65536 -> mlen + 64 <= Zlen (data m) ->
  (forall i, mlen <= i < Zlen (data m) -> rd (data m) i = Ok 0) ->
  mdns_parse_message fuel m mlen <> Fault.
Proof. apply parse_message_faultless. Qed.

Lemma rd_replicate_tail l k i : Zlen l <= i < Zlen l + Z.of_nat k -> rd (l ++ replicate k 0) i = Ok 0.
Proof.
  intros H. unfold rd. pose proof (Zlen_nonneg l). dec. unfold Zlen in *.
  rewrite lookup_app_r by lia. rewrite lookup_replicate_2 by lia. done.
Qed.

Lemma parse_message_memory_safe_witness :
  mdns_parse_message 100 demo_message demo_length <> Fault.
Proof.
  apply parse_message_memory_safe; [by_eval|split_and!; reflexivity|by_eval|by_eval|].
  intros i Hi. apply rd_replicate_tail. vm_compute in Hi |- *. exact Hi.
Defined.

(** Without that room the parser leaves the buffer: on a full packet whose
    question name is a chain of 63-byte labels up to the end of the buffer,
    [dname_size] follows the length bytes past it before any bound is checked. *)
Theorem parse_message_overreads :
  let d := [0; 0; 0; 0; 0; 1; 0; 0; 0; 0; 0; 0] ++ concat (replicate 22 (63 :: replicate 63 97)) ++ replicate 52 63 in
  Zlen d = 1472 /\ mdns_parse_message 100 (message_of d) 1472 = Fault.
Proof. split; [reflexivity|]. vm_compute. reflexivity. Qed.

(** A 16-byte packet hangs the parser: its question name is a compression
    pointer to itself, and no amount of fuel is enough. *)
Theorem parse_message_hangs fuel :
  mdns_parse_message fuel (message_of (packet_buffer [0; 1; 0; 0; 0; 0] [0xC0; 12; 0; 1])) 16 = Diverge.
Proof.
  unfold mdns_parse_message. replace (u32 16 <? HEADER_SIZE) with false by done.
  match goal with |- context [parse_header ?m ?l] =>
    let x := eval vm_compute in (parse_header m l) in replace (parse_header m l) with x by (vm_compute; reflexivity) end.
  cbn [mbind res_bind]. simpl (flag_opcode _). cbn [negb Z.eqb].
  match goal with |- context [if ?c then _ else _] => change c with false end. cbn iota.
  match goal with |- context [if ?c then _ else _] => change c with false end. cbn iota.
  match goal with |- context [Z.to_nat ?c] => change (Z.to_nat c) with 1%nat end. cbn [parse_questions].
  unfold check_name.
  match goal with |- context [dname_size ?b ?n] => change (dname_size b n) with (@Ok Z 2) end. cbn [mbind res_bind].
  match goal with |- context [if ?c then _ else _] => change c with false end. cbn iota.
  match goal with |- context [no_tailroom ?m ?n] => change (no_tailroom m n) with false end. cbn iota.
  rewrite (dname_overrun_self _ _ _ _ 0xC0); done.
Qed.

(** Only the first 32 questions are parsed and the rest is not skipped: a
    well-formed packet with 33 questions and one answer is refused, because the
    33rd question is read as the answer; with 32 questions it is accepted. *)
Theorem parse_message_33_questions :
  let q := mkQ [] T_A C_IN in
  let body n := enc_body (replicate n q) demo_answers [] in
  let parse n := mdns_parse_message 100 (message_of (packet_buffer (be16 (Z.of_nat n) ++ [0; 1; 0; 0]) (body n)))
                   (12 + Zlen (body n)) in
  (fst <$> match parse 33%nat with Ok x => Some x | _ => None end) = Some (-1) /\
  (fst <$> match parse 32%nat with Ok x => Some x | _ => None end) = Some 0.
Proof. split; vm_compute; reflexivity. Qed.

(** ** Time *)

(** The time left after waiting.  [interval] is the elapsed time of a 32-bit
    millisecond clock, one too small once the clock has wrapped; and the new
    timeout is exactly the rest of [target], 0 when it has passed, with a valid
    microsecond part. *)
Theorem recalc_timeout_correct start stop target :
  word32 start -> word32 stop -> 0 <= target ->
  let elapsed := (stop - start) mod 4294967296 in
  let tv := recalc_timeout start stop target in
  interval start stop = (if start <=? stop then elapsed else elapsed - 1) /\
  tv_sec tv * 1000000 + tv_usec tv = 1000 * Z.max 0 (target - interval start stop) /\
  0 <= tv_sec tv /\ 0 <= tv_usec tv < 1000000.
Proof.
  intros H1 H2 Ht elapsed tv. unfold word32 in *.
  assert (EI : interval start stop = if start <=? stop then elapsed else elapsed - 1).
  { unfold interval, elapsed, UINT32_MAX. case_match; b2p; [by rewrite Z.mod_small by lia|].
    rewrite u32_id by lia. replace (stop - start) with (4294967296 - start + stop + (-1) * 4294967296) by lia.
    rewrite Z.mod_add, Z.mod_small by lia. lia. }
  split; [done|]. unfold tv, recalc_timeout. clear EI.
  assert (HS : forall ms, 0 <= ms -> tv_sec (SET_TIMEOUT ms) * 1000000 + tv_usec (SET_TIMEOUT ms) = 1000 * ms /\
     0 <= tv_sec (SET_TIMEOUT ms) /\ 0 <= tv_usec (SET_TIMEOUT ms) < 1000000).
  { intros ms Hms. unfold SET_TIMEOUT. simpl. Z.div_mod_to_equations. lia. }
  case_match; b2p.
  - rewrite Z.max_l by lia. apply HS. lia.
  - rewrite Z.max_r by lia. apply HS. lia.
Qed.

Lemma recalc_timeout_correct_witness :
  recalc_timeout 4294967290 4 250 = mkTimeval 0 241000 /\
  0 <= tv_usec (recalc_timeout 4294967290 4 250) < 1000000.
Proof.
  split; [reflexivity|].
  refine (proj2 (proj2 (proj2 (recalc_timeout_correct 4294967290 4 250 _ _ _)))); unfold word32; lia.
Defined.
