(* ===== verification/Responder.v ===== *)
(** * The responder (src/mdns/mdns_respond.c)

    [host] gathers the static variables that describe what the responder
    announces: the C strings it was launched with, the names built from them and
    the services.  Handlers that change them return the new [host].  The two
    static messages are arguments, as in the code.  The build modelled has
    MDNS_CHECK_ARGS, the default of the Makefile.  *)
From S2P Require Import Prelude Platform Buffer Dname Message.

(** ** Constants of mdns_private.h *)

Definition RS_ERROR : Z := -1.
Definition RS_NO_SEND : Z := 0.
Definition RS_SEND : Z := 1.
Definition RS_SEND_DELAY : Z := 2.

Definition SERVICE_CHECKED_FLAG : Z := 1.
Definition SRV_ADDED : Z := 8.
Definition TXT_ADDED : Z := 16.

(** ** State *)

Record host := mkHost {
  hname : list Z;
  domname : list Z;
  fqdn : list Z;
  in_addr_arpa : list Z;
  my_ipaddr : Z;
  user_services : list mdns_service }.

Definition set_fqdn (h : host) (n : list Z) : host :=
  mkHost (hname h) (domname h) n (in_addr_arpa h) (my_ipaddr h) (user_services h).

Definition set_services (h : host) (ss : list mdns_service) : host :=
  mkHost (hname h) (domname h) (fqdn h) (in_addr_arpa h) (my_ipaddr h) ss.

Definition set_flags (s : mdns_service) (f : Z) : mdns_service :=
  mkService (servname s) (servtype s) (port s) (proto s) (keyvals s) (fqsn s) (ptrname s) (kvlen s) f.

Definition set_fqsn (s : mdns_service) (n : list Z) (p : Z) : mdns_service :=
  mkService (servname s) (servtype s) (port s) (proto s) (keyvals s) n p (kvlen s) (flags s).

Definition set_keyvals (s : mdns_service) (kv : option (list Z * Z)) (l : Z) : mdns_service :=
  mkService (servname s) (servtype s) (port s) (proto s) kv (fqsn s) (ptrname s) l (flags s).

(** [htonl] and [ntohl] on a little-endian host. *)
Definition htonl (v : Z) : Z :=
  u32 v mod 256 * 16777216 + u32 v / 256 mod 256 * 65536 + u32 v / 65536 mod 256 * 256 + u32 v / 16777216.

(** ** Names *)

Definition reset_fqdn (h : host) : res host :=
  '(b, p) ← dname_put_label (fqdn h) 0 (hname h);
  '(b, _) ← dname_put_label b p (domname h);
  mret (set_fqdn h b).

(** "_tcp" and "_udp" *)
Definition STR_TCP : list Z := [95; 116; 99; 112].
Definition STR_UDP : list Z := [95; 117; 100; 112].

Definition reset_fqsn (dom : list Z) (s : mdns_service) : res mdns_service :=
  '(b, ptr) ← dname_put_label (fqsn s) 0 (servname s);
  '(b, p) ← dname_put_label b (ptr + 1) (servtype s);
  c ← rd b (ptr + 1);
  b ← wr b ptr (c + 1);
  b ← wr b (ptr + 1) CH_UNDERSCORE;
  '(b, p) ← dname_put_label b p (if proto s =? MDNS_PROTO_TCP then STR_TCP else STR_UDP);
  '(b, _) ← dname_put_label b p dom;
  mret (set_fqsn s b ptr).

(** ** Building packets *)

Fixpoint add_services (fq : list Z) (section ttl : Z) (ss : list mdns_service) (m : mdns_message)
    : res (Z * mdns_message) :=
  match ss with
  | [] => mret (0, m)
  | s :: ss' =>
      '(ret, m) ← mdns_add_srv_ptr_txt m s fq section ttl;
      if negb (ret =? 0) then mret (-1, m) else add_services fq section ttl ss' m
  end.

Definition responder_add_all_services (h : host) (m : mdns_message) (section ttl : Z)
    : res (Z * mdns_message) :=
  add_services (fqdn h) section ttl (user_services h) m.

(** The eight calls of [prepare_probe] joined by [||]. *)
Definition probe_records (h : host) (m : mdns_message) : res (Z * mdns_message) :=
  and_then (mdns_add_question m (fqdn h, 0) T_ANY C_IN) (fun m =>
  and_then (mdns_add_question m (in_addr_arpa h, 0) T_ANY C_IN) (fun m =>
  and_then (responder_add_all_services h m MDNS_SECTION_QUESTIONS 0) (fun m =>
  and_then (mdns_add_authority m (fqdn h, 0) T_A C_FLUSH 255) (fun m =>
  and_then (mdns_add_uint32 m (htonl (my_ipaddr h))) (fun m =>
  and_then (mdns_add_authority m (in_addr_arpa h, 0) T_PTR C_FLUSH 255) (fun m =>
  and_then (mdns_add_name m (fqdn h, 0)) (fun m =>
  responder_add_all_services h m MDNS_SECTION_AUTHORITIES 255))))))).

(** The [while(1)] after a failed parse is [Diverge]. *)
Definition prepare_probe (fuel : nat) (h : host) (m : mdns_message) : res (Z * mdns_message) :=
  '(_, m) ← mdns_query_init m;
  '(ret, m) ← probe_records h m;
  if negb (ret =? 0) then mret (-1, m)
  else
    '(ret, m) ← mdns_parse_message fuel m (VALID_LENGTH m);
    if ret =? -1 then Diverge
    else mret (0, set_end m (Zlen (data m) - 1)).

Definition prepare_announcement (h : host) (m : mdns_message) (ttl : Z) : res (Z * mdns_message) :=
  '(_, m) ← mdns_response_init m;
  '(ret, m) ←
    and_then (mdns_add_answer m (fqdn h, 0) T_A C_FLUSH ttl) (fun m =>
    and_then (mdns_add_uint32 m (htonl (my_ipaddr h))) (fun m =>
    and_then (mdns_add_answer m (in_addr_arpa h, 0) T_PTR C_FLUSH ttl) (fun m =>
    and_then (mdns_add_name m (fqdn h, 0)) (fun m =>
    responder_add_all_services h m MDNS_SECTION_ANSWERS ttl))));
  if negb (ret =? 0) then mret (-1, m) else mret (0, m).

Definition max_probe_growth (num_services : Z) : Z := 2 * 3 + 2 * 2 * num_services.
Definition max_response_growth (num_services : Z) : Z := 2 * 3 + 4 * 2 * num_services.

(** ** Responses *)

(** A statement of [prepare_response]: the value of [ret], with RS_ERROR for an
    early return, the response and the service. *)
Definition add_srv_answer (h : host) (ret : Z) (tx : mdns_message) (s : mdns_service) (bits : Z)
    : res (Z * mdns_message * mdns_service) :=
  '(e, tx) ← and_then (mdns_add_answer tx (fqsn s, 0) T_SRV C_FLUSH 255)
                      (fun tx => mdns_add_srv tx 0 0 (port s) (fqdn h, 0));
  if negb (e =? 0) then mret (RS_ERROR, tx, s)
  else mret (Z.lor ret bits, tx, set_flags s (Z.lor (flags s) SRV_ADDED)).

Definition add_txt_answer (ret : Z) (tx : mdns_message) (s : mdns_service) (kv : list Z * Z) (bits : Z)
    : res (Z * mdns_message * mdns_service) :=
  '(e, tx) ← and_then (mdns_add_answer tx (fqsn s, 0) T_TXT C_FLUSH 255)
                      (fun tx => mdns_add_txt tx kv (kvlen s));
  if negb (e =? 0) then mret (RS_ERROR, tx, s)
  else mret (Z.lor ret bits, tx, set_flags s (Z.lor (flags s) TXT_ADDED)).

Definition has_flag (s : mdns_service) (f : Z) : bool := negb (Z.land (flags s) f =? 0).

(** The body of the service loop for T_ANY and T_PTR questions. *)
Definition respond_ptr (fuel : nat) (h : host) (rx : mdns_message) (qn ret : Z) (tx : mdns_message) (s : mdns_service)
    : res (Z * mdns_message * mdns_service) :=
  c ← dname_cmp fuel (packet rx) qn (own (fqsn s)) (ptrname s);
  c ← (if c =? 0 then mret 0 else dname_cmp fuel (packet rx) qn (own (fqsn s)) 0);
  if negb (c =? 0) then mret (ret, tx, s)
  else
    '(ret, tx, s) ← (if has_flag s SRV_ADDED then mret (ret, tx, s) else add_srv_answer h ret tx s 0);
    if ret =? RS_ERROR then mret (RS_ERROR, tx, s)
    else
      '(e, tx) ← and_then (mdns_add_answer tx (fqsn s, ptrname s) T_PTR C_FLUSH 255)
                          (fun tx => mdns_add_name tx (fqsn s, 0));
      if negb (e =? 0) then mret (RS_ERROR, tx, s)
      else
        '(ret, tx, s) ← match keyvals s with
          | Some kv => if has_flag s TXT_ADDED then mret (ret, tx, s) else add_txt_answer ret tx s kv 0
          | None => mret (ret, tx, s)
          end;
        if ret =? RS_ERROR then mret (RS_ERROR, tx, s)
        else mret (Z.lor ret RS_SEND_DELAY, tx, s).

(** The bodies of the service loops for T_SRV and T_TXT questions. *)
Definition respond_srv (fuel : nat) (h : host) (rx : mdns_message) (qn ret : Z) (tx : mdns_message) (s : mdns_service)
    : res (Z * mdns_message * mdns_service) :=
  c ← dname_cmp fuel (packet rx) qn (own (fqsn s)) 0;
  if (c =? 0) && negb (has_flag s SRV_ADDED) then add_srv_answer h ret tx s RS_SEND_DELAY
  else mret (ret, tx, s).

Definition respond_txt (fuel : nat) (rx : mdns_message) (qn ret : Z) (tx : mdns_message) (s : mdns_service)
    : res (Z * mdns_message * mdns_service) :=
  c ← dname_cmp fuel (packet rx) qn (own (fqsn s)) 0;
  match keyvals s with
  | Some kv =>
      if (c =? 0) && negb (has_flag s TXT_ADDED) then add_txt_answer ret tx s kv RS_SEND_DELAY
      else mret (ret, tx, s)
  | None => mret (ret, tx, s)
  end.

(** [for (s = user_services; ...; s++)] around a body that may return RS_ERROR. *)
Fixpoint for_services (body : Z -> mdns_message -> mdns_service -> res (Z * mdns_message * mdns_service))
    (ret : Z) (tx : mdns_message) (ss : list mdns_service) : res (Z * mdns_message * list mdns_service) :=
  match ss with
  | [] => mret (ret, tx, [])
  | s :: ss' =>
      '(ret, tx, s) ← body ret tx s;
      if ret =? RS_ERROR then mret (RS_ERROR, tx, s :: ss')
      else
        '(ret, tx, ss') ← for_services body ret tx ss';
        mret (ret, tx, s :: ss')
  end.

Definition is_any_or (qt t : Z) : bool := (qt =? T_ANY) || (qt =? t).

(** The host's own A record and reverse PTR record. *)
Definition respond_host (fuel : nat) (h : host) (rx : mdns_message) (q : mdns_question) (ret : Z) (tx : mdns_message)
    : res (Z * mdns_message) :=
  if is_any_or (qtype q) T_A then
    c ← dname_cmp fuel (packet rx) (qname q) (own (fqdn h)) 0;
    if c =? 0 then
      '(e, tx) ← and_then (mdns_add_answer tx (fqdn h, 0) T_A C_FLUSH 255)
                          (fun tx => mdns_add_uint32 tx (htonl (my_ipaddr h)));
      if negb (e =? 0) then mret (RS_ERROR, tx) else mret (Z.lor ret RS_SEND, tx)
    else mret (ret, tx)
  else mret (ret, tx).

Definition respond_arpa (fuel : nat) (h : host) (rx : mdns_message) (q : mdns_question) (ret : Z) (tx : mdns_message)
    : res (Z * mdns_message) :=
  c ← dname_cmp fuel (packet rx) (qname q) (own (in_addr_arpa h)) 0;
  if c =? 0 then
    '(e, tx) ← and_then (mdns_add_answer tx (in_addr_arpa h, 0) T_PTR C_FLUSH 255)
                        (fun tx => mdns_add_name tx (fqdn h, 0));
    if negb (e =? 0) then mret (RS_ERROR, tx) else mret (Z.lor ret RS_SEND, tx)
  else mret (ret, tx).

(** One question. *)
Definition respond_question (fuel : nat) (h : host) (rx : mdns_message) (q : mdns_question)
    (ret : Z) (tx : mdns_message) (ss : list mdns_service) : res (Z * mdns_message * list mdns_service) :=
  '(ret, tx) ← respond_host fuel h rx q ret tx;
  if ret =? RS_ERROR then mret (RS_ERROR, tx, ss)
  else
    '(ret, tx, ss) ←
      (if is_any_or (qtype q) T_PTR then
         '(ret, tx) ← respond_arpa fuel h rx q ret tx;
         if ret =? RS_ERROR then mret (RS_ERROR, tx, ss)
         else for_services (respond_ptr fuel h rx (qname q)) ret tx ss
       else mret (ret, tx, ss));
    if ret =? RS_ERROR then mret (RS_ERROR, tx, ss)
    else
      '(ret, tx, ss) ←
        (if qtype q =? T_SRV then for_services (respond_srv fuel h rx (qname q)) ret tx ss
         else mret (ret, tx, ss));
      if ret =? RS_ERROR then mret (RS_ERROR, tx, ss)
      else if qtype q =? T_TXT then for_services (respond_txt fuel rx (qname q)) ret tx ss
      else mret (ret, tx, ss).

Fixpoint respond_questions (fuel : nat) (h : host) (rx : mdns_message) (k i : nat)
    (ret : Z) (tx : mdns_message) (ss : list mdns_service) : res (Z * mdns_message * list mdns_service) :=
  match k with
  | O => mret (ret, tx, ss)
  | S k' =>
      '(ret, tx, ss) ← respond_question fuel h rx (nth i (questions rx) default_question) ret tx ss;
      if ret =? RS_ERROR then mret (RS_ERROR, tx, ss)
      else respond_questions fuel h rx k' (S i) ret tx ss
  end.

Definition clear_added (s : mdns_service) : mdns_service :=
  set_flags s (Z.land (flags s) (Z.lnot (Z.lor SRV_ADDED TXT_ADDED))).

(** The code, the response, and the services with their flags. *)
Definition prepare_response (fuel : nat) (h : host) (rx tx : mdns_message)
    : res (Z * mdns_message * list mdns_service) :=
  qr ← header_qr rx;
  if negb (qr =? QUERY) then mret (RS_NO_SEND, tx, user_services h)
  else
    '(_, tx) ← mdns_response_init tx;
    id ← rd_range (data rx) H_ID 2;
    d ← wr_range (data tx) H_ID id;
    respond_questions fuel h rx (Z.to_nat (num_questions rx)) 0 RS_NO_SEND (set_data tx d)
      (clear_added <$> user_services h).

(** -1 or 0, and the messages and services as the check leaves them. *)
Definition check_max_response (fuel : nat) (h : host) (rx tx : mdns_message)
    : res (Z * mdns_message * mdns_message * list mdns_service) :=
  '(_, rx) ← mdns_query_init rx;
  '(ret, rx) ←
    and_then (mdns_add_question rx (fqdn h, 0) T_ANY C_IN) (fun rx =>
    and_then (mdns_add_question rx (in_addr_arpa h, 0) T_ANY C_IN) (fun rx =>
    responder_add_all_services h rx MDNS_SECTION_QUESTIONS 0));
  if negb (ret =? 0) then mret (-1, rx, tx, user_services h)
  else
    '(ret, rx) ← mdns_parse_message fuel rx (VALID_LENGTH rx);
    if negb (ret =? 0) then mret (-1, rx, tx, user_services h)
    else
      '(ret, tx, ss) ← prepare_response fuel h rx tx;
      if ret <? RS_SEND then mret (-1, rx, tx, ss) else mret (0, rx, tx, ss).

(** ** Conflicts *)

(** enum type_indicies: the slots of [results] are the types A, CNAME, PTR, TXT
    and SRV in this order. *)
Definition A_INDEX : nat := 0.
Definition CNAME_INDEX : nat := 1.
Definition PTR_INDEX : nat := 2.
Definition TXT_INDEX : nat := 3.
Definition SRV_INDEX : nat := 4.
Definition MAX_INDEX : nat := 5.

Definition type_index (t : Z) : option nat :=
  if t =? T_A then Some A_INDEX
  else if t =? T_CNAME then Some CNAME_INDEX
  else if t =? T_PTR then Some PTR_INDEX
  else if t =? T_TXT then Some TXT_INDEX
  else if t =? T_SRV then Some SRV_INDEX
  else None.

Fixpoint find_authorities_loop (fuel : nat) (m : mdns_message) (name : list Z) (k i : nat)
    (n : Z) (results : list (option mdns_resource)) : res (Z * list (option mdns_resource)) :=
  match k with
  | O => mret (n, results)
  | S k' =>
      let r := nth i (authorities m) default_resource in
      c ← dname_cmp fuel (packet m) (r_name r) (own name) 0;
      if negb (c =? 0) then find_authorities_loop fuel m name k' (S i) n results
      else
        match type_index (r_type r) with
        | Some j => find_authorities_loop fuel m name k' (S i) (n + 1) (<[j := Some r]> results)
        | None => find_authorities_loop fuel m name k' (S i) n results
        end
  end.

Definition find_authorities (fuel : nat) (m : mdns_message) (name : list Z)
    : res (Z * list (option mdns_resource)) :=
  find_authorities_loop fuel m name (Z.to_nat (num_authorities m)) 0 0 (replicate MAX_INDEX None).

(** The byte loop for TXT and other records, as it is written: both tests ask
    whether the byte of [a] is the greater one. *)
Fixpoint txt_cmp_loop (k : nat) (b1 : list Z) (o1 : Z) (b2 : list Z) (o2 : Z) : res Z :=
  match k with
  | O => mret 0
  | S k' =>
      x ← rd b1 o1;
      y ← rd b2 o2;
      if y <? x then mret 1
      else if y <? x then mret (-1)
      else txt_cmp_loop k' b1 (o1 + 1) b2 (o2 + 1)
  end.

Definition class_bits (c : Z) : Z := Z.land c (Z.lnot 0x8000).

Definition rr_cmp (fuel : nat) (ma : mdns_message) (a : mdns_resource) (mb : mdns_message) (b : mdns_resource) : res Z :=
  if class_bits (r_class b) <? class_bits (r_class a) then mret 1
  else if class_bits (r_class a) <? class_bits (r_class b) then mret (-1)
  else if r_type b <? r_type a then mret 1
  else if r_type a <? r_type b then mret (-1)
  else if r_type a =? T_A then memcmp (data ma) (r_rdata a) (data mb) (r_rdata b) 4
  else if (r_type a =? T_CNAME) || (r_type a =? T_PTR) then
    dname_cmp fuel (packet ma) (r_rdata a) (packet mb) (r_rdata b)
  else if r_type a =? T_SRV then
    ret ← memcmp (data ma) (r_rdata a) (data mb) (r_rdata b) 6;
    if negb (ret =? 0) then mret ret
    else dname_cmp fuel (packet ma) (r_rdata a + 6) (packet mb) (r_rdata b + 6)
  else
    let min := if r_rdlength b <? r_rdlength a then r_rdlength b else r_rdlength a in
    ret ← txt_cmp_loop (Z.to_nat min) (data ma) (r_rdata a) (data mb) (r_rdata b);
    if negb (ret =? 0) then mret ret
    else if r_rdlength b <? r_rdlength a then mret 1
    else if r_rdlength a <? r_rdlength b then mret (-1)
    else mret 0.

(** [while (i < MAX_INDEX && r[i] == NULL) i++;] on the slots from [i] on. *)
Fixpoint skip_null {A} (l : list (option A)) : list (option A) :=
  match l with
  | None :: l' => skip_null l'
  | _ => l
  end.

(** The [while (1)] over the slots; each round uses up one slot of both. *)
Fixpoint set_cmp_loop (rounds fuel : nat) (p1 p2 : mdns_message) (r1 r2 : list (option mdns_resource)) : res Z :=
  match rounds with
  | O => Diverge
  | S rounds' =>
      match skip_null r1, skip_null r2 with
      | [], [] => mret 0
      | [], _ => mret (-1)
      | _, [] => mret 1
      | Some a :: r1', Some b :: r2' =>
          ret ← rr_cmp fuel p1 a p2 b;
          if negb (ret =? 0) then mret ret else set_cmp_loop rounds' fuel p1 p2 r1' r2'
      | _, _ => Fault
      end
  end.

Definition authority_set_cmp (fuel : nat) (p1 p2 : mdns_message) (name : list Z) : res Z :=
  '(n1, r1) ← find_authorities fuel p1 name;
  '(n2, r2) ← find_authorities fuel p2 name;
  if (n1 =? 0) && (n2 =? 0) then mret 0
  else set_cmp_loop (S MAX_INDEX) fuel p1 p2 r1 r2.

(** [if (ret == 0) ret = 1;] *)
Definition note_conflict (ret : Z) : Z := if ret =? 0 then 1 else ret.

(** A new name for the host: the code -1 when the names are exhausted. *)
Definition rename_host (ret : Z) (h : host) : res (Z * host) :=
  let ret := note_conflict ret in
  '(e, n) ← dname_increment (fqdn h);
  let h := set_fqdn h n in
  if e =? -1 then
    h ← reset_fqdn h;
    mret (-1, h)
  else mret (ret, h).

Definition rename_service (dom : list Z) (ret : Z) (s : mdns_service) : res (Z * mdns_service) :=
  let ret := note_conflict ret in
  len ← dname_size (fqsn s) 0;
  '(e, n) ← dname_increment (fqsn s);
  let s := set_fqsn s n (ptrname s) in
  '(ret, s) ← (if e =? -1 then
                 s ← reset_fqsn dom s;
                 mret (-1, s)
               else mret (ret, s));
  size ← dname_size (fqsn s) 0;
  if len <? size then mret (ret, set_fqsn s (fqsn s) (ptrname s + 2)) else mret (ret, s).

(** [for (s = user_services; ...)] around a body that changes [ret] and [s]. *)
Fixpoint fold_services (body : Z -> mdns_service -> res (Z * mdns_service)) (ret : Z) (ss : list mdns_service)
    : res (Z * list mdns_service) :=
  match ss with
  | [] => mret (ret, [])
  | s :: ss' =>
      '(ret, s) ← body ret s;
      '(ret, ss') ← fold_services body ret ss';
      mret (ret, s :: ss')
  end.

(** One question of somebody else's probe [m]; [p] is our probe. *)
Definition probe_service (fuel : nat) (m p : mdns_message) (dom : list Z) (qn : Z) (ret : Z) (s : mdns_service)
    : res (Z * mdns_service) :=
  if has_flag s SERVICE_CHECKED_FLAG then mret (ret, s)
  else
    c ← dname_cmp fuel (packet m) qn (own (fqsn s)) 0;
    if negb (c =? 0) then mret (ret, s)
    else
      cmp ← authority_set_cmp fuel m p (fqsn s);
      '(ret, s) ← (if cmp =? 1 then rename_service dom ret s else mret (ret, s));
      mret (ret, set_flags s (Z.lor (flags s) SERVICE_CHECKED_FLAG)).

Definition probe_question (fuel : nat) (m p : mdns_message) (q : mdns_question) (ret : Z) (h : host)
    : res (Z * host) :=
  if qtype q =? T_PTR then mret (ret, h)
  else
    c ← dname_cmp fuel (packet m) (qname q) (own (fqdn h)) 0;
    '(ret, h) ←
      (if c =? 0 then
         cmp ← authority_set_cmp fuel m p (fqdn h);
         if cmp =? 1 then rename_host ret h else mret (ret, h)
       else mret (ret, h));
    '(ret, ss) ← fold_services (probe_service fuel m p (domname h) (qname q)) ret (user_services h);
    mret (ret, set_services h ss).

Fixpoint probe_questions (fuel : nat) (m p : mdns_message) (k i : nat) (ret : Z) (h : host) : res (Z * host) :=
  match k with
  | O => mret (ret, h)
  | S k' =>
      '(ret, h) ← probe_question fuel m p (nth i (questions m) default_question) ret h;
      probe_questions fuel m p k' (S i) ret h
  end.

(** One answer of a response. *)
Definition response_service (fuel : nat) (m : mdns_message) (dom : list Z) (rn : Z) (ret : Z) (s : mdns_service)
    : res (Z * mdns_service) :=
  c ← dname_cmp fuel (packet m) rn (own (fqsn s)) 0;
  if c =? 0 then rename_service dom ret s else mret (ret, s).

Definition response_answer (fuel : nat) (m : mdns_message) (r : mdns_resource) (ret : Z) (h : host)
    : res (Z * host) :=
  '(ret, h) ←
    (if r_type r =? T_A then
       c ← dname_cmp fuel (packet m) (r_name r) (own (fqdn h)) 0;
       if c =? 0 then rename_host ret h else mret (ret, h)
     else mret (ret, h));
  if r_type r =? T_SRV then
    '(ret, ss) ← fold_services (response_service fuel m (domname h) (r_name r)) ret (user_services h);
    mret (ret, set_services h ss)
  else mret (ret, h).

Fixpoint response_answers (fuel : nat) (m : mdns_message) (k i : nat) (ret : Z) (h : host) : res (Z * host) :=
  match k with
  | O => mret (ret, h)
  | S k' =>
      '(ret, h) ← response_answer fuel m (nth i (answers m) default_resource) ret h;
      response_answers fuel m k' (S i) ret h
  end.

Definition clear_checked (s : mdns_service) : mdns_service :=
  set_flags s (Z.land (flags s) (Z.lnot SERVICE_CHECKED_FLAG)).

Definition fix_response_conflicts (fuel : nat) (m p : mdns_message) (h : host) : res (Z * host) :=
  qr ← header_qr m;
  if (qr =? QUERY) && (0 <? num_authorities m) then
    probe_questions fuel m p (Z.to_nat (num_questions m)) 0 0
      (set_services h (clear_checked <$> user_services h))
  else response_answers fuel m (Z.to_nat (num_answers m)) 0 0 h.

(** ** The thread *)

Inductive mdns_status_t :=
  | INIT | FIRST_PROBE_SENT | SECOND_PROBE_SENT | THIRD_PROBE_SENT | READY_TO_RESPOND | READY_TO_SEND.

Inductive mdns_event_t := EVENT_RX | EVENT_CTRL | EVENT_TIMEOUT.

#[global] Instance mdns_status_t_eq_dec : EqDecision mdns_status_t.
Proof. solve_decision. Defined.

(** The locals of [do_responder] that live across iterations and the statics it
    changes.  [timed]: [timeout] points to [probe_wait_time]; otherwise NULL.
    [from_addr] and [from_port] are the fields of [from]. *)
Record rstate := mkRstate {
  rhost : host;
  tx_msg : mdns_message;
  rx_msg : mdns_message;
  state : mdns_status_t;
  probe_wait_time : timeval;
  timed : bool;
  from_addr : Z;
  from_port : Z;
  responder_enabled : bool }.

(** What one iteration gets from the outside: the clock before and after
    [select], the control socket (nothing, a failed [recvfrom], or a message
    with its sender), the multicast socket (the same, with a packet), and the
    value of [mdns_rand_range]. *)
Record iteration := mkIteration {
  start_wait : Z;
  stop_wait : Z;
  ctrl_in : option (option (Z * (Z * Z)));
  mc_in : option (option (list Z * (Z * Z)));
  rand_time : Z }.

(** A packet handed to the multicast socket, and the port. *)
Definition send : Type := list Z * Z.

Definition with_state (st : rstate) (s : mdns_status_t) (w : timeval) (t : bool) : rstate :=
  mkRstate (rhost st) (tx_msg st) (rx_msg st) s w t (from_addr st) (from_port st) (responder_enabled st).

Definition with_host (st : rstate) (h : host) : rstate :=
  mkRstate h (tx_msg st) (rx_msg st) (state st) (probe_wait_time st) (timed st)
    (from_addr st) (from_port st) (responder_enabled st).

Definition with_tx (st : rstate) (m : mdns_message) : rstate :=
  mkRstate (rhost st) m (rx_msg st) (state st) (probe_wait_time st) (timed st)
    (from_addr st) (from_port st) (responder_enabled st).

Definition with_rx (st : rstate) (m : mdns_message) : rstate :=
  mkRstate (rhost st) (tx_msg st) m (state st) (probe_wait_time st) (timed st)
    (from_addr st) (from_port st) (responder_enabled st).

Definition with_from (st : rstate) (a p : Z) : rstate :=
  mkRstate (rhost st) (tx_msg st) (rx_msg st) (state st) (probe_wait_time st) (timed st)
    a p (responder_enabled st).

Definition with_enabled (st : rstate) (e : bool) : rstate :=
  mkRstate (rhost st) (tx_msg st) (rx_msg st) (state st) (probe_wait_time st) (timed st)
    (from_addr st) (from_port st) e.

(** The next state, the new timeout and the host. *)
Definition process_probe_resp (fuel : nat) (tx rx : mdns_message) (st : mdns_status_t) (h : host)
    (start stop : Z) : res (mdns_status_t * timeval * host) :=
  '(ret, h) ← fix_response_conflicts fuel rx tx h;
  if ret =? 1 then mret (INIT, SET_TIMEOUT 0, h)
  else if ret =? -1 then mret (INIT, SET_TIMEOUT 5000, h)
  else mret (st, recalc_timeout start stop 250, h).

(** Somebody else's packet in one of the probe states. *)
Definition probe_rx (fuel : nat) (st : rstate) (it : iteration) : res rstate :=
  '(s, w, h) ← process_probe_resp fuel (tx_msg st) (rx_msg st) (state st) (rhost st) (start_wait it) (stop_wait it);
  mret (with_state (with_host st h) s w true).

(** case FIRST_PROBE_SENT and case SECOND_PROBE_SENT *)
Definition on_probe_sent (fuel : nat) (next : mdns_status_t) (st : rstate) (ev : mdns_event_t) (it : iteration)
    : res (rstate * list send) :=
  match ev with
  | EVENT_TIMEOUT =>
      mret (with_state st next (SET_TIMEOUT 250) true, [(mdns_send_msg (tx_msg st), MDNS_PORT)])
  | EVENT_RX =>
      if negb (from_addr st =? my_ipaddr (rhost st)) then
        st ← probe_rx fuel st it;
        mret (st, [])
      else mret (with_state st (state st) (recalc_timeout (start_wait it) (stop_wait it) 250) true, [])
  | EVENT_CTRL => mret (with_state st (state st) (recalc_timeout (start_wait it) (stop_wait it) 250) true, [])
  end.

(** [prepare_response] into [tx_msg]; the services keep the flags it sets. *)
Definition respond (fuel : nat) (st : rstate) : res (Z * rstate) :=
  '(ret, tx, ss) ← prepare_response fuel (rhost st) (rx_msg st) (tx_msg st);
  mret (ret, with_host (with_tx st tx) (set_services (rhost st) ss)).

Definition queue_response (st : rstate) (it : iteration) : rstate :=
  with_state st READY_TO_SEND (SET_TIMEOUT (rand_time it + 20)) true.

(** [switch (state)] *)
Definition responder_event (fuel : nat) (st : rstate) (ev : mdns_event_t) (it : iteration) : res (rstate * list send) :=
  match state st with
  | INIT =>
      match ev with
      | EVENT_TIMEOUT =>
          '(_, tx) ← prepare_probe fuel (rhost st) (tx_msg st);
          mret (with_state (with_tx st tx) FIRST_PROBE_SENT (SET_TIMEOUT 250) true, [(mdns_send_msg tx, MDNS_PORT)])
      | EVENT_RX => mret (with_state st INIT (recalc_timeout (start_wait it) (stop_wait it) 250) true, [])
      | EVENT_CTRL => mret (with_state st INIT (probe_wait_time st) true, [])
      end
  | FIRST_PROBE_SENT => on_probe_sent fuel SECOND_PROBE_SENT st ev it
  | SECOND_PROBE_SENT => on_probe_sent fuel THIRD_PROBE_SENT st ev it
  | THIRD_PROBE_SENT =>
      match ev with
      | EVENT_TIMEOUT =>
          '(ret, tx) ← prepare_announcement (rhost st) (tx_msg st) 255;
          let st := with_tx st tx in
          if negb (ret =? 0) then mret (st, [])
          else mret (with_state st READY_TO_RESPOND (probe_wait_time st) false, [(mdns_send_msg tx, MDNS_PORT)])
      | EVENT_RX =>
          if negb (from_addr st =? my_ipaddr (rhost st)) then
            st ← probe_rx fuel st it;
            mret (st, [])
          else mret (with_state st (state st) (recalc_timeout (start_wait it) (stop_wait it) 250) (timed st), [])
      | EVENT_CTRL => mret (with_state st (state st) (recalc_timeout (start_wait it) (stop_wait it) 250) (timed st), [])
      end
  | READY_TO_RESPOND =>
      match ev with
      | EVENT_RX =>
          '(ret, st) ← respond fuel st;
          if ret <=? RS_NO_SEND then mret (st, [])
          else if negb (Z.land ret RS_SEND_DELAY =? 0) then mret (queue_response st it, [])
          else if negb (Z.land ret RS_SEND =? 0) then mret (st, [(mdns_send_msg (tx_msg st), from_port st)])
          else mret (st, [])
      | _ => mret (st, [])
      end
  | READY_TO_SEND =>
      let out := (mdns_send_msg (tx_msg st), from_port st) in
      match ev with
      | EVENT_TIMEOUT => mret (with_state st READY_TO_RESPOND (probe_wait_time st) false, [out])
      | EVENT_RX =>
          '(ret, st) ← respond fuel st;
          if ret <=? RS_NO_SEND then mret (with_state st READY_TO_RESPOND (probe_wait_time st) false, [out])
          else if negb (Z.land ret RS_SEND_DELAY =? 0) then mret (queue_response st it, [out])
          else if negb (Z.land ret RS_SEND =? 0) then
            mret (with_state st READY_TO_RESPOND (probe_wait_time st) false,
                  [out; (mdns_send_msg (tx_msg st), from_port st)])
          else mret (st, [out])
      | EVENT_CTRL => mret (st, [out])
      end
  end.

(** [recvfrom] into [rx_msg.data]: at most [sizeof(rx_msg.data)] bytes. *)
Definition receive (m : mdns_message) (p : list Z) : res (mdns_message * Z) :=
  let p := take (length (data m)) p in
  d ← wr_range (data m) 0 p;
  mret (set_data m d, Zlen p).

(** One iteration of [while (responder_enabled)]: the state, the packets sent,
    and whether the loop goes on. *)
Definition responder_step (fuel : nat) (st : rstate) (it : iteration) : res (rstate * list send * bool) :=
  '(st, out, halted) ←
    match ctrl_in it with
    | Some (Some (msg, (a, p))) =>
        let st := with_from st a p in
        if msg =? MDNS_CTRL_HALT then
          '(ret, tx) ← prepare_announcement (rhost st) (tx_msg st) 0;
          let st := with_tx st tx in
          if negb (ret =? 0) then mret (st, [], true)
          else mret (with_enabled st false, [(mdns_send_msg tx, MDNS_PORT)], true)
        else mret (st, [], false)
    | _ => mret (st, [], false)
    end;
  if halted : bool then mret (st, out, false)
  else
    match mc_in it with
    | Some None => mret (st, [], true)
    | Some (Some (p, (a, prt))) =>
        let st := with_from st a prt in
        '(rx, l) ← receive (rx_msg st) p;
        '(ret, rx) ← mdns_parse_message fuel rx l;
        let st := with_rx st rx in
        if negb (ret =? 0) then mret (st, [], true)
        else
          '(st, out) ← responder_event fuel st EVENT_RX it;
          mret (st, out, true)
    | None =>
        '(st, out) ← responder_event fuel st EVENT_TIMEOUT it;
        mret (st, out, true)
    end.

(** The loop on a sequence of iterations, with everything it sent. *)
Fixpoint do_responder (fuel : nat) (st : rstate) (its : list iteration) : res (rstate * list send) :=
  match its with
  | [] => mret (st, [])
  | it :: its' =>
      if negb (responder_enabled st) then mret (st, [])
      else
        '(st, out, go) ← responder_step fuel st it;
        if negb go then mret (st, out)
        else
          '(st, out') ← do_responder fuel st its';
          mret (st, out ++ out')
  end.

(** The state in which the loop starts. *)
Definition responder_start (h : host) (tx rx : mdns_message) (rand : Z) : rstate :=
  mkRstate h tx rx INIT (SET_TIMEOUT rand) true 0 0 true.

(** ** Launch *)

(** [name] is a C string; "." is 46. *)
Definition valid_label (name : list Z) : bool :=
  negb ((MDNS_MAX_LABEL_LEN <? Zlen name) || existsb (fun c => c =? CH_DOT) name).

(** [sprintf("%d")] of a byte *)
Definition digits (v : Z) : list Z :=
  if v <? 10 then [48 + v]
  else if v <? 100 then [48 + v / 10; 48 + v mod 10]
  else [48 + v / 100; 48 + v / 10 mod 10; 48 + v mod 10].

(** [k] address bytes to go; [sprintf] writes its terminating 0 too. *)
Fixpoint inaddrarpa_loop (k : nat) (ipaddr : Z) (out : list Z) (ptr : Z) : res (list Z * Z) :=
  match k with
  | O => mret (out, ptr)
  | S k' =>
      let txt := digits (Z.land ipaddr 0xff) in
      out ← wr_range out (ptr + 1) (txt ++ [0]);
      out ← wr out ptr (Zlen txt);
      inaddrarpa_loop k' (Z.shiftr ipaddr 8) out (ptr + (Zlen txt + 1))
  end.

(** "in-addr" and "arpa" *)
Definition STR_IN_ADDR : list Z := [105; 110; 45; 97; 100; 100; 114].
Definition STR_ARPA : list Z := [97; 114; 112; 97].

Definition ipaddr_to_inaddrarpa (ipaddr : Z) (out : list Z) : res (list Z) :=
  '(out, ptr) ← inaddrarpa_loop 4 ipaddr out 0;
  out ← wr out ptr 7;
  out ← wr_range out (ptr + 1) (STR_IN_ADDR ++ [0]);
  out ← wr out (ptr + 8) 4;
  wr_range out (ptr + 9) (STR_ARPA ++ [0]).

Definition validate_service (dom : list Z) (s : mdns_service) : res (Z * mdns_service) :=
  if negb (valid_label (servname s)) then mret (MDNS_INVAL, s)
  else if negb (valid_label (servtype s)) then mret (MDNS_INVAL, s)
  else if negb (proto s =? MDNS_PROTO_TCP) && negb (proto s =? MDNS_PROTO_UDP) then mret (MDNS_INVAL, s)
  else
    let maxlen := (Zlen (servname s) + 1) + (Zlen (servtype s) + 2) + 4 + (Zlen dom + 1) + 2 + 1 in
    if MDNS_MAX_NAME_LEN <? maxlen then mret (MDNS_TOOBIG, s)
    else
      match keyvals s with
      | None => mret (0, s)
      | Some (b, o) =>
          '(l, b) ← dnameify b o CH_COLON None;
          let s := set_keyvals s (Some (b, o)) (u16 l) in
          if MDNS_MAX_KEYVAL_LEN <? kvlen s then mret (MDNS_TOOBIG, s) else mret (0, s)
      end.

(** The loop over [services]: the code, and the services as far as they are
    ready. *)
Fixpoint launch_services (dom : list Z) (ss : list mdns_service) : res (Z * list mdns_service) :=
  match ss with
  | [] => mret (0, [])
  | s :: ss' =>
      '(ret, s) ← validate_service dom s;
      if negb (ret =? 0) then mret (ret, s :: ss')
      else
        s ← reset_fqsn dom s;
        '(ret, ss') ← launch_services dom ss';
        mret (ret, s :: ss')
  end.

(** "local" *)
Definition STR_LOCAL : list Z := [108; 111; 99; 97; 108].

(** The result code, what the statics hold, and the calls of the platform. *)
Definition responder_launch (fuel : nat) (io : ports) (ipaddr : Z) (domain : option (list Z)) (hostname : list Z)
    (services : list mdns_service) (h : host) (tx rx : mdns_message) (c : statics)
    : res (Z * host * mdns_message * mdns_message * statics * list pcall) :=
  let domain := match domain with Some d => d | None => STR_LOCAL end in
  let h := mkHost (hname h) (domname h) (fqdn h) (in_addr_arpa h) ipaddr (user_services h) in
  if negb (valid_label hostname) || negb (valid_label domain) then mret (MDNS_INVAL, h, tx, rx, c, [])
  else
    h ← reset_fqdn (mkHost hostname domain (fqdn h) (in_addr_arpa h) ipaddr (user_services h));
    arpa ← ipaddr_to_inaddrarpa (htonl ipaddr) (in_addr_arpa h);
    let h := mkHost (hname h) (domname h) (fqdn h) arpa ipaddr (user_services h) in
    let c := with_mc c (mc_sock io) in
    let cs := [mdns_socket_mcast (mc_sock io)] in
    if mc_sock io <? 0 then mret (mc_sock io, h, tx, rx, c, cs)
    else
      '(ret, ss) ← launch_services domain services;
      let h := set_services h ss in
      if negb (ret =? 0) then mret (ret, h, tx, rx, c, cs)
      else
        let num_services := Zlen services in
        '(ret, tx) ← prepare_probe fuel h tx;
        if ret =? -1 then mret (MDNS_TOOBIG, h, tx, rx, c, cs)
        else if TAILROOM tx <? max_probe_growth num_services then mret (MDNS_TOOBIG, h, tx, rx, c, cs)
        else
          '(ret, rx, tx, ss) ← check_max_response fuel h rx tx;
          let h := set_services h ss in
          if ret =? -1 then mret (MDNS_TOOBIG, h, tx, rx, c, cs)
          else if TAILROOM tx <? max_response_growth num_services then mret (MDNS_TOOBIG, h, tx, rx, c, cs)
          else
            let c := with_ctrl c (ctrl_sock io) in
            let cs := cs ++ [mdns_socket_loopback (htons MDNS_CTRL_RESPONDER) 1 (ctrl_sock io); socket_ (raw_sock io)] in
            if ctrl_sock io <? 0 then mret (-1, h, tx, rx, c, cs)
            else
              let c := with_thread c (thread_ptr io) in
              let cs := cs ++ [mdns_thread_create MDNS_THREAD_RESPONDER (thread_ptr io)] in
              if thread_ptr io =? 0 then mret (-1, h, tx, rx, c, cs) else mret (0, h, tx, rx, c, cs).
