(* ===== verification/ResponderSpec.v ===== *)
(** * What the responder announces

    The abstract side of the responder: a host is a name, a reverse name, an
    address and a list of services, given by labels; from it follow the
    questions, authorities and answers that must appear on the wire.  [host_is]
    relates the buffers of the C code to it.  The packet builders are shown to
    emit exactly these records. *)
From S2P Require Import Prelude Buffer Dname DnameSpec DnameText Message MessageSpec MessageParse Responder.

(** ** Abstract hosts *)

Record aservice := mkAService {
  a_name : list Z;
  a_type : list (list Z);
  a_port : Z;
  a_txt : option (list Z) }.

Record ahost := mkAHost {
  ah_name : list (list Z);
  ah_arpa : list (list Z);
  ah_ip : Z;
  ah_services : list aservice }.

Definition a_labels (a : aservice) : list (list Z) := a_name a :: a_type a.

Record service_is (s : mdns_service) (a : aservice) : Prop := mkServiceIs {
  si_fqsn : name_arg (fqsn s, 0) (a_labels a);
  si_ptr : name_arg (fqsn s, ptrname s) (a_type a);
  si_port : port s = a_port a;
  si_word : word16 (a_port a);
  si_txt : match keyvals s, a_txt a with
           | Some kv, Some txt => rd_range (fst kv) (snd kv) (kvlen s) = Ok txt /\ bytes txt /\ Zlen txt < 65536
           | None, None => True
           | _, _ => False
           end }.

Record host_is (h : host) (ah : ahost) : Prop := mkHostIs {
  hi_fqdn : name_arg (fqdn h, 0) (ah_name ah);
  hi_arpa : name_arg (in_addr_arpa h, 0) (ah_arpa ah);
  hi_ip : htonl (my_ipaddr h) = ah_ip ah;
  hi_services : Forall2 service_is (user_services h) (ah_services ah) }.

(** ** Records and questions of a host *)

Section Records.
Context (ah : ahost) (ttl : Z).

Definition a_rr : rr := mkRR (ah_name ah) T_A C_FLUSH ttl (be32 (ah_ip ah)).
Definition arpa_rr : rr := mkRR (ah_arpa ah) T_PTR C_FLUSH ttl (encode (ah_name ah)).
Definition srv_rr (a : aservice) : rr :=
  mkRR (a_labels a) T_SRV C_FLUSH ttl (be16 0 ++ be16 0 ++ be16 (a_port a) ++ encode (ah_name ah)).
Definition ptr_rr (a : aservice) : rr := mkRR (a_type a) T_PTR C_FLUSH ttl (encode (a_labels a)).
Definition txt_rrs (a : aservice) : list rr :=
  match a_txt a with Some txt => [mkRR (a_labels a) T_TXT C_FLUSH ttl txt] | None => [] end.

Definition service_answers (a : aservice) : list rr := [srv_rr a; ptr_rr a] ++ txt_rrs a.
Definition service_authorities (a : aservice) : list rr := [srv_rr a] ++ txt_rrs a.

Definition probe_authorities : list rr := [a_rr; arpa_rr] ++ flat_map service_authorities (ah_services ah).
Definition announced : list rr := [a_rr; arpa_rr] ++ flat_map service_answers (ah_services ah).
End Records.

Definition any_question (ls : list (list Z)) : question := mkQ ls T_ANY C_IN.

Definition probe_questions_of (ah : ahost) : list question :=
  [any_question (ah_name ah); any_question (ah_arpa ah)] ++ map (fun a => any_question (a_labels a)) (ah_services ah).

(** ** Emitting whole questions and records *)

Definition adds_questions (f : mdns_message -> res (Z * mdns_message)) (qs : list question) : Prop :=
  emits f (flat_map enc_question qs) (Zlen qs) 0 0.

Definition adds_records (s : rsection) (f : mdns_message -> res (Z * mdns_message)) (xs : list rr) : Prop :=
  emits f (flat_map enc_rr xs) 0 (match s with Answers => Zlen xs | _ => 0 end)
    (match s with Authorities => Zlen xs | _ => 0 end).

Lemma emits_ext f g bs q a n : (forall m, f m = g m) -> emits f bs q a n -> emits g bs q a n.
Proof.
  intros E H m body nq na nn fl R. destruct (H _ _ _ _ _ _ R) as (m' & S & K). exists m'. split; [done|].
  by rewrite <- E.
Qed.

Lemma emits_eq f bs bs' q q' a a' n n' :
  emits f bs q a n -> bs = bs' -> q = q' -> a = a' -> n = n' -> emits f bs' q' a' n'.
Proof. by intros ? -> -> -> ->. Qed.

Lemma adds_question nm ls t c : name_arg nm ls -> word16 t -> word16 c ->
  adds_questions (fun m => mdns_add_question m nm t c) [mkQ ls t c].
Proof.
  intros. eapply emits_eq; [by eapply emits_question|simpl..]; try done.
  unfold tuple_bytes, enc_question. simpl. by rewrite !app_nil_r.
Qed.

Lemma adds_questions_app f g q1 q2 :
  adds_questions f q1 -> adds_questions g q2 -> adds_questions (fun m => and_then (f m) g) (q1 ++ q2).
Proof.
  intros H1 H2. eapply emits_eq; [eapply emits_and_then; [exact H1|exact H2]|..]; try done.
  - by rewrite flat_map_app.
  - by rewrite Zlen_app.
Qed.

Lemma adds_records_app s f g x1 x2 :
  adds_records s f x1 -> adds_records s g x2 -> adds_records s (fun m => and_then (f m) g) (x1 ++ x2).
Proof.
  intros H1 H2. eapply emits_eq; [eapply emits_and_then; [exact H1|exact H2]|..].
  - by rewrite flat_map_app.
  - done.
  - destruct s; [by rewrite Zlen_app|done].
  - destruct s; [done|by rewrite Zlen_app].
Qed.

(** A record is its common part followed by its data; [sec] says which function
    wrote the common part. *)
Lemma adds_record s nm ls t ttl f g d :
  name_arg nm ls -> word16 t -> word32 ttl -> ttl <> NO_TTL -> Zlen d < 65536 ->
  (forall m, f m = match s with
                   | Answers => mdns_add_answer m nm t C_FLUSH ttl
                   | Authorities => mdns_add_authority m nm t C_FLUSH ttl
                   end) ->
  emits g (be16 (Zlen d) ++ d) 0 0 0 ->
  adds_records s (fun m => and_then (f m) g) [mkRR ls t C_FLUSH ttl d].
Proof.
  intros Hn Ht Httl Hno Hd Hf Hg.
  assert (HC : word16 C_FLUSH) by (unfold word16, C_FLUSH; lia).
  assert (H1 : emits f (tuple_bytes ls t C_FLUSH ttl) 0 (match s with Answers => 1 | _ => 0 end)
                 (match s with Authorities => 1 | _ => 0 end)).
  { destruct s; (eapply emits_ext; [intros m; symmetry; apply Hf|]); [by apply emits_answer|by apply emits_authority]. }
  eapply emits_eq; [eapply emits_and_then; [exact H1|exact Hg]|..].
  - unfold tuple_bytes, enc_rr. simpl. replace (ttl =? NO_TTL) with false by lia.
    rewrite app_nil_r, <- !app_assoc. done.
  - done.
  - destruct s; done.
  - destruct s; done.
Qed.

Lemma and_then_assoc a f g : and_then (and_then a f) g = and_then a (fun m => and_then (f m) g).
Proof.
  unfold and_then. destruct a as [[r m]| |]; [|done|done]. unfold mbind, res_bind, mret, res_ret.
  destruct (r =? 0); [|done]. simpl. destruct (f m) as [[r' m']| |]; [|done|done].
  destruct (r' =? 0); [|done]. simpl. destruct (g m') as [[r2 m2]| |]; [|done|done].
  by destruct (r2 =? 0).
Qed.

Lemma and_then_ext a f g : (forall m, f m = g m) -> and_then a f = and_then a g.
Proof.
  intros E. unfold and_then. destruct a as [[r m]| |]; [|done|done].
  unfold mbind, res_bind. by rewrite E.
Qed.

Lemma adds_records_then s f g k x y :
  adds_records s (fun m => and_then (f m) g) x -> adds_records s k y ->
  adds_records s (fun m => and_then (f m) (fun m => and_then (g m) k)) (x ++ y).
Proof.
  intros H1 H2. eapply emits_ext; [|eapply adds_records_app; [exact H1|exact H2]].
  intros m. apply and_then_assoc.
Qed.

Lemma adds_records_nil s : adds_records s (fun m => mret (0, m)) [].
Proof. destruct s; apply emits_nothing. Qed.

(** ** The records of one service *)

Section Service.
Context (fq : list Z) (ah : ahost) (s : mdns_service) (a : aservice) (ttl : Z).
Hypothesis Hfq : name_arg (fq, 0) (ah_name ah).
Hypothesis Hs : service_is s a.
Hypothesis Httl : word32 ttl.
Hypothesis Hno : ttl <> NO_TTL.

Lemma adds_srv sec f :
  (forall m, f m = match sec with
                   | Answers => mdns_add_answer m (fqsn s, 0) T_SRV C_FLUSH ttl
                   | Authorities => mdns_add_authority m (fqsn s, 0) T_SRV C_FLUSH ttl
                   end) ->
  adds_records sec (fun m => and_then (f m) (fun m => mdns_add_srv m 0 0 (port s) (fq, 0))) [srv_rr ah ttl a].
Proof.
  intros Hf. pose proof Hs as [Hn _ Hp Hw _]. pose proof Hfq as (_ & _ & Hle).
  pose proof (Zlen_nonneg (encode (ah_name ah))).
  assert (E : Zlen (be16 0 ++ be16 0 ++ be16 (a_port a) ++ encode (ah_name ah)) = Zlen (encode (ah_name ah)) + 6)
    by (zlen; rewrite !Zlen_be16; lia).
  eapply (adds_record sec _ _ T_SRV); [exact Hn|unfold word16, T_SRV; lia|done|done|lia|exact Hf|].
  rewrite E, Hp. apply (emits_srv (fq, 0) (ah_name ah)); [done|unfold word16; lia|unfold word16; lia|done].
Qed.

Lemma adds_ptr :
  adds_records Answers (fun m => and_then (mdns_add_answer m (fqsn s, ptrname s) T_PTR C_FLUSH ttl)
                                   (fun m => mdns_add_name m (fqsn s, 0))) [ptr_rr ttl a].
Proof.
  pose proof Hs as [Hn Hp _ _ _]. pose proof Hn as (_ & _ & Hle).
  eapply (adds_record Answers _ _ T_PTR); [exact Hp|unfold word16, T_PTR; lia|done|done|lia|done|].
  by apply emits_name.
Qed.

Lemma adds_txt sec f :
  (forall m, f m = match sec with
                   | Answers => mdns_add_answer m (fqsn s, 0) T_TXT C_FLUSH ttl
                   | Authorities => mdns_add_authority m (fqsn s, 0) T_TXT C_FLUSH ttl
                   end) ->
  adds_records sec (fun m => match keyvals s with
                             | Some kv => and_then (f m) (fun m => mdns_add_txt m kv (kvlen s))
                             | None => mret (0, m)
                             end) (txt_rrs ttl a).
Proof.
  intros Hf. pose proof Hs as [Hn _ _ _ Ht]. unfold txt_rrs.
  destruct (keyvals s) as [kv|], (a_txt a) as [txt|]; try done; [|apply adds_records_nil].
  destruct Ht as (Hr & Hb & Hl). pose proof (proj1 (rd_range_holds _ _ _ _) Hr) as [El _].
  eapply (adds_record sec _ _ T_TXT); [exact Hn|unfold word16, T_TXT; lia|done|done|done|exact Hf|].
  rewrite El in *. apply emits_txt; [done|done|]. pose proof (Zlen_nonneg txt). lia.
Qed.

Lemma adds_service_answers :
  adds_records Answers (fun m => mdns_add_srv_ptr_txt m s fq MDNS_SECTION_ANSWERS ttl) (service_answers ah ttl a).
Proof.
  unfold mdns_add_srv_ptr_txt. simpl. apply (adds_records_app Answers _ _ [srv_rr ah ttl a]); [by apply (adds_srv Answers)|].
  apply (adds_records_app Answers _ _ [ptr_rr ttl a]); [apply adds_ptr|by apply (adds_txt Answers)].
Qed.

Lemma adds_service_authorities :
  adds_records Authorities (fun m => mdns_add_srv_ptr_txt m s fq MDNS_SECTION_AUTHORITIES ttl)
    (service_authorities ah ttl a).
Proof.
  unfold mdns_add_srv_ptr_txt. simpl. apply (adds_records_app Authorities _ _ [srv_rr ah ttl a]).
  - by apply (adds_srv Authorities).
  - by apply (adds_txt Authorities).
Qed.
End Service.

Lemma adds_service_question fq s a ttl : service_is s a ->
  adds_questions (fun m => mdns_add_srv_ptr_txt m s fq MDNS_SECTION_QUESTIONS ttl) [any_question (a_labels a)].
Proof.
  intros [Hn _ _ _ _]. apply adds_question; [exact Hn|..]; unfold word16, T_ANY, C_IN; lia.
Qed.

(** ** All services *)

(** [add_services] stops at the first failure, like a chain of [and_then]. *)
Lemma add_services_cons fq sec ttl s ss m :
  add_services fq sec ttl (s :: ss) m =
  and_then (mdns_add_srv_ptr_txt m s fq sec ttl) (add_services fq sec ttl ss).
Proof.
  cbn [add_services]. unfold and_then. destruct (mdns_add_srv_ptr_txt m s fq sec ttl) as [[r m1]| |]; [|done|done].
  unfold mbind, res_bind. destruct (negb (r =? 0)); [done|].
  assert (HR : forall ss m, match add_services fq sec ttl ss m with Ok (r, _) => r = 0 \/ r = -1 | _ => True end).
  { clear. intros ss. induction ss as [|s ss IH]; intros m; cbn [add_services]; [left; done|].
    destruct (mdns_add_srv_ptr_txt m s fq sec ttl) as [[r m1]| |]; [|done|done].
    unfold mbind, res_bind. destruct (negb (r =? 0)); [right; done|apply IH]. }
  specialize (HR ss m1). destruct (add_services fq sec ttl ss m1) as [[r2 m2]| |]; [|done|done].
  by destruct HR as [-> | ->].
Qed.

Lemma adds_all_questions fq ttl ss al : Forall2 service_is ss al ->
  adds_questions (add_services fq MDNS_SECTION_QUESTIONS ttl ss) (map (fun a => any_question (a_labels a)) al).
Proof.
  induction 1 as [|s a ss al Hs _ IH]; [apply emits_nothing|].
  eapply emits_ext; [intros m; symmetry; apply add_services_cons|].
  apply (adds_questions_app _ _ [any_question (a_labels a)]); [by apply adds_service_question|exact IH].
Qed.

Lemma adds_all_records sec n (f : ahost -> Z -> aservice -> list rr) fq ah ttl ss al :
  Forall2 service_is ss al ->
  (forall s a, service_is s a -> adds_records sec (fun m => mdns_add_srv_ptr_txt m s fq n ttl) (f ah ttl a)) ->
  adds_records sec (add_services fq n ttl ss) (flat_map (f ah ttl) al).
Proof.
  intros HF Hone. induction HF as [|s a ss al Hs _ IH]; [apply adds_records_nil|].
  eapply emits_ext; [intros m; symmetry; apply add_services_cons|].
  simpl. apply (adds_records_app sec _ _ (f ah ttl a)); [by apply Hone|exact IH].
Qed.

(** ** The host's own records *)

Section Host.
Context (h : host) (ah : ahost) (ttl : Z).
Hypothesis Hh : host_is h ah.
Hypothesis Httl : word32 ttl.
Hypothesis Hno : ttl <> NO_TTL.

Lemma htonl_word v : word32 (htonl v).
Proof. unfold word32, htonl, u32. Z.div_mod_to_equations. lia. Qed.

Lemma adds_a sec f :
  (forall m, f m = match sec with
                   | Answers => mdns_add_answer m (fqdn h, 0) T_A C_FLUSH ttl
                   | Authorities => mdns_add_authority m (fqdn h, 0) T_A C_FLUSH ttl
                   end) ->
  adds_records sec (fun m => and_then (f m) (fun m => mdns_add_uint32 m (htonl (my_ipaddr h)))) [a_rr ah ttl].
Proof.
  intros Hf. destruct Hh as [Hn _ Hip _]. unfold a_rr. rewrite <- Hip.
  eapply (adds_record sec _ _ T_A); [exact Hn|unfold word16, T_A; lia|done|done|done|exact Hf|].
  apply emits_uint32, htonl_word.
Qed.

Lemma adds_arpa sec f :
  (forall m, f m = match sec with
                   | Answers => mdns_add_answer m (in_addr_arpa h, 0) T_PTR C_FLUSH ttl
                   | Authorities => mdns_add_authority m (in_addr_arpa h, 0) T_PTR C_FLUSH ttl
                   end) ->
  adds_records sec (fun m => and_then (f m) (fun m => mdns_add_name m (fqdn h, 0))) [arpa_rr ah ttl].
Proof.
  intros Hf. destruct Hh as [Hn Ha _ _]. pose proof Hn as (_ & _ & Hle).
  eapply (adds_record sec _ _ T_PTR); [exact Ha|unfold word16, T_PTR; lia|done|done|lia|exact Hf|].
  by apply emits_name.
Qed.

Lemma adds_announced :
  adds_records Answers (fun m =>
    and_then (mdns_add_answer m (fqdn h, 0) T_A C_FLUSH ttl) (fun m =>
    and_then (mdns_add_uint32 m (htonl (my_ipaddr h))) (fun m =>
    and_then (mdns_add_answer m (in_addr_arpa h, 0) T_PTR C_FLUSH ttl) (fun m =>
    and_then (mdns_add_name m (fqdn h, 0)) (fun m =>
    responder_add_all_services h m MDNS_SECTION_ANSWERS ttl))))) (announced ah ttl).
Proof.
  apply (adds_records_then Answers _ _ _ [a_rr ah ttl]); [by apply (adds_a Answers)|].
  apply (adds_records_then Answers _ _ _ [arpa_rr ah ttl]); [by apply (adds_arpa Answers)|].
  destruct Hh. apply adds_all_records; [done|]. intros. by apply adds_service_answers.
Qed.

Lemma adds_probe_questions :
  adds_questions (fun m =>
    and_then (mdns_add_question m (fqdn h, 0) T_ANY C_IN) (fun m =>
    and_then (mdns_add_question m (in_addr_arpa h, 0) T_ANY C_IN) (fun m =>
    responder_add_all_services h m MDNS_SECTION_QUESTIONS 0))) (probe_questions_of ah).
Proof.
  destruct Hh. unfold probe_questions_of.
  apply (adds_questions_app _ _ [any_question (ah_name ah)]); [apply adds_question; [done|..]; unfold word16, T_ANY, C_IN; lia|].
  apply (adds_questions_app _ _ [any_question (ah_arpa ah)]); [apply adds_question; [done|..]; unfold word16, T_ANY, C_IN; lia|].
  by apply adds_all_questions.
Qed.

Lemma adds_probe_authorities :
  adds_records Authorities (fun m =>
    and_then (mdns_add_authority m (fqdn h, 0) T_A C_FLUSH ttl) (fun m =>
    and_then (mdns_add_uint32 m (htonl (my_ipaddr h))) (fun m =>
    and_then (mdns_add_authority m (in_addr_arpa h, 0) T_PTR C_FLUSH ttl) (fun m =>
    and_then (mdns_add_name m (fqdn h, 0)) (fun m =>
    responder_add_all_services h m MDNS_SECTION_AUTHORITIES ttl))))) (probe_authorities ah ttl).
Proof.
  apply (adds_records_then Authorities _ _ _ [a_rr ah ttl]); [by apply (adds_a Authorities)|].
  apply (adds_records_then Authorities _ _ _ [arpa_rr ah ttl]); [by apply (adds_arpa Authorities)|].
  destruct Hh. apply adds_all_records; [done|]. intros. by apply adds_service_authorities.
Qed.
End Host.

(** ** The probe *)

(** The size of a packet with the given sections. *)
Definition packet_size (qs : list question) (an ns : list rr) : Z := 12 + Zlen (enc_body qs an ns).

Lemma emits_probe h ah : host_is h ah ->
  emits (probe_records h) (enc_body (probe_questions_of ah) [] (probe_authorities ah 255))
    (Zlen (probe_questions_of ah)) 0 (Zlen (probe_authorities ah 255)).
Proof.
  intros Hh. pose proof (adds_probe_questions h ah Hh) as HQ.
  pose proof (adds_probe_authorities h ah 255 Hh ltac:(unfold word32; lia) ltac:(done)) as HA.
  pose proof (emits_and_then _ _ _ _ _ _ _ _ _ _ HQ HA) as HE.
  eapply emits_eq; [eapply emits_ext; [|exact HE]|..]; [|done|lia|done|lia].
  intros m. cbv beta. rewrite and_then_assoc. unfold probe_records.
  apply and_then_ext. intros m1. apply and_then_assoc.
Qed.

(** What parsing one's own packet gives. *)
Lemma wr_range_same b i l : holds b i l -> wr_range b i l = Ok b.
Proof.
  intros (H0 & H1 & H2). rewrite wr_range_ok by lia. f_equal.
  rewrite <- H2 at 1. rewrite <- drop_drop, (take_drop (length l)). apply take_drop.
Qed.

(** Parsing the packet one has just built. *)
Lemma parse_own m fl f0 f1 qs an ns :
  repr m (enc_body qs an ns) (Zlen qs) (Zlen an) (Zlen ns) fl -> fl = [0; 0; f0; f1] -> arrays_ok m ->
  flag_opcode (f0 * 256 + f1) = 0 ->
  (length qs <= 32)%nat -> (length an <= 32)%nat -> (length ns <= 32)%nat ->
  Forall valid_question qs -> Forall valid_rr an -> Forall valid_rr ns ->
  exists m', returns (fun fuel => mdns_parse_message fuel m (VALID_LENGTH m)) (0, m') /\ parsed m' qs an ns /\
    cur m' = cur m /\ arrays_ok m' /\ wr_range (data m) 2 [f1; f0] = Ok (data m') /\ end_ m' = cur m - 1.
Proof.
  intros R -> HA Hop Lq La Ln Vq Va Vn. unfold VALID_LENGTH. rewrite (repr_cur _ _ _ _ _ _ R).
  pose proof (repr_flags _ _ _ _ _ _ R) as HF. destruct R.
  apply (parse_message_returns m _ f0 f1 qs an ns); try done; [lia|].
  change [0; 0; f0; f1] with ([0; 0] ++ [f0; f1]) in HF. by apply holds_app in HF as [_ ?].
Qed.

Lemma name_arg_valid nm ls : name_arg nm ls -> valid_name ls.
Proof. intros (Hv & _ & Hl). done. Qed.

Lemma valid_any_question ls : valid_name ls -> valid_question (any_question ls).
Proof. intros H. split; [done|]. split; unfold word16; simpl; unfold T_ANY, C_IN; lia. Qed.

Lemma valid_probe_questions h ah : host_is h ah -> Forall valid_question (probe_questions_of ah).
Proof.
  intros [Hf Ha _ Hs]. unfold probe_questions_of. rewrite Forall_app. split.
  - repeat constructor; try (by apply name_arg_valid in Hf as []); try (by apply name_arg_valid in Ha as []);
      simpl; unfold T_ANY, C_IN; lia.
  - induction Hs as [|s a ss al H _ IH]; [constructor|]. simpl. constructor; [|done].
    destruct H. by eapply valid_any_question, name_arg_valid.
Qed.

Lemma valid_rr_intro ls t ttl d :
  valid_name ls -> word16 t -> word32 ttl -> Zlen d < 65536 ->
  (t = T_A -> Zlen d = 4) -> (t = T_PTR -> exists ks, Forall DnameSpec.valid_label ks /\ d = encode ks) ->
  (t = T_SRV -> exists tl, d = 0 :: tl) -> valid_rr (mkRR ls t C_FLUSH ttl d).
Proof. intros. split_and!; simpl; try done; try (unfold word16, C_FLUSH; lia); by destruct H. Qed.

Section ValidRecords.
Context (h : host) (ah : ahost) (ttl : Z).
Hypothesis Hh : host_is h ah.
Hypothesis Httl : word32 ttl.

Lemma valid_a_rr : valid_rr (a_rr ah ttl).
Proof. destruct Hh. apply valid_rr_intro; try done; by eapply name_arg_valid. Qed.

Lemma valid_arpa_rr : valid_rr (arpa_rr ah ttl).
Proof.
  destruct Hh as [Hf Ha _ _]. pose proof Hf as (Hv & _ & Hl).
  apply valid_rr_intro; try done; [by eapply name_arg_valid|lia|eauto].
Qed.

Lemma valid_srv_rr s a : service_is s a -> valid_rr (srv_rr ah ttl a).
Proof.
  intros Hs. destruct Hh as [(_ & _ & Hl) _ _ _], Hs.
  apply valid_rr_intro; try done; [by eapply name_arg_valid|zlen; rewrite !Zlen_be16; lia|].
  intros _. by eexists.
Qed.

Lemma valid_ptr_rr s a : service_is s a -> valid_rr (ptr_rr ttl a).
Proof.
  intros [Hn Hp _ _ _]. pose proof Hn as (Hv & _ & Hl).
  apply valid_rr_intro; try done; [by eapply name_arg_valid|lia|eauto].
Qed.

Lemma valid_txt_rrs s a : service_is s a -> Forall valid_rr (txt_rrs ttl a).
Proof.
  intros [Hn _ _ _ Ht]. unfold txt_rrs. destruct (keyvals s), (a_txt a); try done.
  destruct Ht as (_ & _ & Hl). apply Forall_singleton, valid_rr_intro; try done. by eapply name_arg_valid.
Qed.

Lemma valid_service_authorities s a : service_is s a -> Forall valid_rr (service_authorities ah ttl a).
Proof.
  intros Hs. unfold service_authorities. apply Forall_app. split; [|by eapply valid_txt_rrs].
  constructor; [by eapply valid_srv_rr|constructor].
Qed.

Lemma valid_service_answers s a : service_is s a -> Forall valid_rr (service_answers ah ttl a).
Proof.
  intros Hs. unfold service_answers. apply Forall_app. split; [|by eapply valid_txt_rrs].
  constructor; [by eapply valid_srv_rr|]. constructor; [by eapply valid_ptr_rr|constructor].
Qed.

Lemma valid_flat_map f :
  (forall s a, service_is s a -> Forall valid_rr (f a)) -> Forall valid_rr (flat_map f (ah_services ah)).
Proof.
  intros Hf. destruct Hh as [_ _ _ Hs]. induction Hs as [|s a ss al H _ IH]; [constructor|].
  simpl. apply Forall_app. split; [by eapply Hf|done].
Qed.

Lemma valid_probe_authorities : Forall valid_rr (probe_authorities ah ttl).
Proof.
  constructor; [apply valid_a_rr|]. constructor; [apply valid_arpa_rr|].
  apply valid_flat_map, valid_service_authorities.
Qed.

Lemma valid_announced : Forall valid_rr (announced ah ttl).
Proof.
  constructor; [apply valid_a_rr|]. constructor; [apply valid_arpa_rr|].
  apply valid_flat_map, valid_service_answers.
Qed.
End ValidRecords.

(** [prepare_probe]: the exact packet when it fits, -1 when it does not, and
    never the endless loop. *)
Lemma prepare_probe_spec h ah m :
  host_is h ah -> arrays_ok m -> Zlen (data m) = 1472 -> bytes (data m) ->
  (length (probe_questions_of ah) <= 32)%nat -> (length (probe_authorities ah 255) <= 32)%nat ->
  let qs := probe_questions_of ah in
  let ns := probe_authorities ah 255 in
  exists m', arrays_ok m' /\
    if packet_size qs [] ns <=? 1472 then
      returns (fun fuel => prepare_probe fuel h m) (0, m') /\ parsed m' qs [] ns /\
      repr m' (enc_body qs [] ns) (Zlen qs) 0 (Zlen ns) [0; 0; 0; 0]
    else returns (fun fuel => prepare_probe fuel h m) (-1, m').
Proof.
  intros Hh HA HL HB Lq Ln qs ns. destruct (query_init_repr m HL HB) as (m1 & E1 & S1 & R1).
  destruct (emits_probe h ah Hh _ _ _ _ _ _ R1) as (m2 & S2 & H2). fold qs ns in H2.
  change (Zlen (@nil Z)) with 0 in H2. rewrite !Z.add_0_l, Z.add_0_r in H2. unfold packet_size.
  assert (HA2 : arrays_ok m2).
  { destruct S1 as (Q1 & A1 & N1 & _), S2 as (Q2 & A2 & N2 & _), HA as (? & ? & ?). unfold arrays_ok. split_and!; congruence. }
  unfold prepare_probe. rewrite E1. cbn [mbind res_bind].
  destruct (12 + Zlen (enc_body qs [] ns) <=? 1472).
  - destruct H2 as [E2 R2]. rewrite app_nil_l in R2.
    destruct (parse_own m2 _ 0 0 qs [] ns R2) as (m3 & P3 & PP & C3 & A3 & W3 & N3); try done;
      [simpl; lia|by eapply valid_probe_questions|by eapply valid_probe_authorities|].
    assert (ED : data m3 = data m2).
    { pose proof (repr_flags _ _ _ _ _ _ R2) as HF. change [0; 0; 0; 0] with ([0; 0] ++ [0; 0]) in HF.
      apply holds_app in HF as [_ HF]. change (0 + Zlen [0; 0]) with 2 in HF.
      rewrite (wr_range_same _ _ _ HF) in W3. by injection W3. }
    exists (set_end m3 1471). split; [done|]. split_and!.
    + rewrite E2. cbn [mbind res_bind Z.eqb negb]. eapply returns_bind; [exact P3|]. cbn [Z.eqb].
      apply returns_const. rewrite ED, (repr_size _ _ _ _ _ _ R2). done.
    + destruct PP. by constructor.
    + destruct R2, PP. constructor; simpl; rewrite ?ED, ?C3; try done.
  - exists m2. split; [done|]. rewrite H2. cbn [mbind res_bind Z.eqb negb]. by apply returns_const.
Qed.

Lemma response_init_repr m :
  Zlen (data m) = 1472 -> bytes (data m) ->
  exists m', mdns_response_init m = Ok (0, m') /\ same_arrays m m' /\ repr m' [] 0 0 0 [0; 0; 132; 0].
Proof.
  intros HL HB. unfold mdns_response_init. destruct (query_init_repr m HL HB) as (m1 & E1 & S1 & R1).
  rewrite E1. cbn [mbind res_bind Z.eqb negb]. pose proof (repr_flags _ _ _ _ _ _ R1) as HF. destruct R1.
  change [0; 0; 0; 0] with ([0; 0] ++ be16 0) in HF. apply holds_app in HF as [HF0 HF].
  rewrite (get_host16_be16 _ H_FLAGS 0 ltac:(lia) HF). cbn [mbind res_bind].
  match goal with |- context [htons ?x] => change x with 33792 end. rewrite set_host16_htons.
  change (u16 33792) with 33792. change (be16 33792) with [132; 0].
  destruct (wr_range_exists (data m1) H_FLAGS [132; 0]) as [d W]; [by vm_compute|unfold H_FLAGS; zlen; lia|].
  rewrite W. cbn [mbind res_bind]. eexists. split; [reflexivity|]. split; [done|].
  pose proof (wr_range_Zlen _ _ _ _ W).
  assert (F : forall j k, holds (data m1) j k -> j + Zlen k <= 2 \/ 4 <= j -> holds d j k).
  { intros j k Hk Hj. eapply wr_range_frame; [exact W|unfold H_FLAGS; zlen; lia|done]. }
  constructor; simpl; try done; try lia; try (apply F; [done|]; unfold be16; zlen; lia).
  - eapply wr_range_bytes; [exact W|done|]. repeat constructor; lia.
  - change [0; 0; 132; 0] with ([0; 0] ++ [132; 0]). apply holds_app. split.
    + apply F; [done|]. zlen. lia.
    + by eapply wr_range_holds.
Qed.

Lemma prepare_announcement_spec h ah m ttl :
  host_is h ah -> Zlen (data m) = 1472 -> bytes (data m) -> word32 ttl -> ttl <> NO_TTL ->
  let an := announced ah ttl in
  exists m', same_arrays m m' /\
    if packet_size [] an [] <=? 1472 then
      prepare_announcement h m ttl = Ok (0, m') /\
      repr m' (enc_body [] an []) 0 (Zlen an) 0 [0; 0; 132; 0]
    else prepare_announcement h m ttl = Ok (-1, m').
Proof.
  intros Hh HL HB Ht Hno an. destruct (response_init_repr m HL HB) as (m1 & E1 & S1 & R1).
  destruct (adds_announced h ah ttl Hh Ht Hno _ _ _ _ _ _ R1) as (m2 & S2 & H2). fold an in H2.
  change (Zlen (@nil Z)) with 0 in H2. rewrite !Z.add_0_l, Z.add_0_r in H2.
  assert (EB : enc_body [] an [] = flat_map enc_rr an) by (unfold enc_body; simpl; by rewrite app_nil_r).
  unfold packet_size. rewrite EB. exists m2. split; [by eapply same_arrays_trans|].
  unfold prepare_announcement. rewrite E1. cbn [mbind res_bind].
  destruct (12 + Zlen (flat_map enc_rr an) <=? 1472).
  - destruct H2 as [E2 R2]. rewrite app_nil_l in R2. by rewrite E2.
  - by rewrite H2.
Qed.
