(* ===== verification/ResponseSpec.v ===== *)
(** * Responses

    What [prepare_response] must answer, as a function of the labels and types
    of the questions ([spec_questions]), and the proof that the code writes
    exactly these records when they fit and reports RS_ERROR when they do not. *)
From S2P Require Import Prelude Buffer Dname DnameSpec DnameText Message MessageSpec MessageParse MessageSafe.
From S2P Require Import Responder ResponderSpec.

(** ** The answers the host owes

    The two booleans of a service say that its SRV and its TXT record are
    already in the response. *)

Definition marked : Type := aservice * (bool * bool).

Definition spec_step : Type := aservice -> bool * bool -> list rr * Z * (bool * bool).

Section Spec.
Context (ah : ahost).

Definition srv_once (a : aservice) (done : bool) : list rr := if done then [] else [srv_rr ah 255 a].
Definition txt_once (a : aservice) (done : bool) : list rr := if done then [] else txt_rrs 255 a.
(** the flag after [txt_once] *)
Definition txt_mark (a : aservice) (done : bool) : bool := done || bool_decide (is_Some (a_txt a)).

Definition spec_ptr (ls : list (list Z)) : spec_step := fun a '(fs, ft) =>
  if bool_decide (ls = a_type a) || bool_decide (ls = a_labels a)
  then (srv_once a fs ++ ptr_rr 255 a :: txt_once a ft, RS_SEND_DELAY, (true, txt_mark a ft))
  else ([], 0, (fs, ft)).

Definition spec_srv (ls : list (list Z)) : spec_step := fun a '(fs, ft) =>
  if bool_decide (ls = a_labels a) && negb fs
  then (srv_once a fs, RS_SEND_DELAY, (true, ft)) else ([], 0, (fs, ft)).

Definition spec_txt (ls : list (list Z)) : spec_step := fun a '(fs, ft) =>
  if bool_decide (ls = a_labels a) && bool_decide (is_Some (a_txt a)) && negb ft
  then (txt_once a ft, RS_SEND_DELAY, (fs, true)) else ([], 0, (fs, ft)).

Fixpoint spec_services (step : spec_step) (l : list marked) : list rr * Z * list marked :=
  match l with
  | [] => ([], 0, [])
  | (a, f) :: l' =>
      let '(xs, b, f) := step a f in
      let '(ys, c, l') := spec_services step l' in
      (xs ++ ys, Z.lor b c, (a, f) :: l')
  end.

Definition spec_host (q : question) : list rr * Z :=
  if is_any_or (q_type q) T_A && bool_decide (q_labels q = ah_name ah) then ([a_rr ah 255], RS_SEND) else ([], 0).

Definition spec_arpa (q : question) : list rr * Z :=
  if bool_decide (q_labels q = ah_arpa ah) then ([arpa_rr ah 255], RS_SEND) else ([], 0).

(** What each of the four parts of the question loop adds. *)
Definition spec_ptr_part (q : question) (l : list marked) : list rr * Z * list marked :=
  if is_any_or (q_type q) T_PTR then
    let '(xs, b) := spec_arpa q in
    let '(ys, c, l) := spec_services (spec_ptr (q_labels q)) l in
    (xs ++ ys, Z.lor b c, l)
  else ([], 0, l).

Definition spec_srv_part (q : question) (l : list marked) : list rr * Z * list marked :=
  if q_type q =? T_SRV then spec_services (spec_srv (q_labels q)) l else ([], 0, l).

Definition spec_txt_part (q : question) (l : list marked) : list rr * Z * list marked :=
  if q_type q =? T_TXT then spec_services (spec_txt (q_labels q)) l else ([], 0, l).

Definition spec_question (q : question) (l : list marked) : list rr * Z * list marked :=
  let '(x1, b1) := spec_host q in
  let '(x2, b2, l) := spec_ptr_part q l in
  let '(x3, b3, l) := spec_srv_part q l in
  let '(x4, b4, l) := spec_txt_part q l in
  (x1 ++ x2 ++ x3 ++ x4, Z.lor b1 (Z.lor b2 (Z.lor b3 b4)), l).

Fixpoint spec_questions (qs : list question) (l : list marked) : list rr * Z * list marked :=
  match qs with
  | [] => ([], 0, l)
  | q :: qs' =>
      let '(xs, b, l) := spec_question q l in
      let '(ys, c, l) := spec_questions qs' l in
      (xs ++ ys, Z.lor b c, l)
  end.

(** The whole response to the questions [qs]. *)
Definition spec_response (qs : list question) : list rr * Z :=
  let '(xs, b, _) := spec_questions qs (map (fun a => (a, (false, false))) (ah_services ah)) in (xs, b).
End Spec.

(** ** Steps of the response *)

(** [responds f xs bits a]: [f] appends the answers [xs], sets [bits] in [ret]
    and leaves the state [a]; when the answers do not fit it returns RS_ERROR. *)
Definition responds {A} (f : nat -> Z -> mdns_message -> res (Z * mdns_message * A))
    (xs : list rr) (bits : Z) (P : A -> Prop) : Prop :=
  forall ret tx body na fl, 0 <= ret -> repr tx body 0 na 0 fl ->
  exists tx' a, same_arrays tx tx' /\
    if 12 + Zlen body + Zlen (flat_map enc_rr xs) <=? 1472 then
      returns (fun fuel => f fuel ret tx) (Z.lor ret bits, tx', a) /\ P a /\
      repr tx' (body ++ flat_map enc_rr xs) 0 (na + Zlen xs) 0 fl
    else returns (fun fuel => f fuel ret tx) (RS_ERROR, tx', a).

Lemma responds_ret {A} (a : A) (P : A -> Prop) : P a -> responds (fun _ ret tx => mret (ret, tx, a)) [] 0 P.
Proof.
  intros HP ret tx body na fl Hr R. exists tx, a. split; [apply same_arrays_refl|].
  pose proof (repr_fit _ _ _ _ _ _ R). simpl. change (Zlen (@nil Z)) with 0. dec.
  change (Zlen (@nil rr)) with 0. rewrite app_nil_r, Z.add_0_r, Z.lor_0_r.
  split_and!; [by apply returns_const|done|done].
Qed.

(** One step after the other, with the early return of the code between them. *)
Lemma responds_seq {A B} (f : nat -> Z -> mdns_message -> res (Z * mdns_message * A))
    (g : A -> nat -> Z -> mdns_message -> res (Z * mdns_message * B)) (e : A -> B) xs b ys c P Q :
  responds f xs b P -> 0 <= b -> (forall a, P a -> responds (g a) ys c Q) ->
  responds (fun fuel ret tx => '(ret, tx, a) ← f fuel ret tx;
              if ret =? RS_ERROR then mret (RS_ERROR, tx, e a) else g a fuel ret tx) (xs ++ ys) (Z.lor b c) Q.
Proof.
  intros Hf Hb Hg ret tx body na fl Hr R. destruct (Hf ret tx body na fl Hr R) as (tx1 & a & S1 & H1).
  rewrite flat_map_app. zlen. pose proof (Zlen_nonneg (flat_map enc_rr ys)).
  destruct (Z.leb_spec (12 + Zlen body + Zlen (flat_map enc_rr xs)) 1472).
  - destruct H1 as (E1 & Pa & R1).
    assert (Hr1 : 0 <= Z.lor ret b) by (apply Z.lor_nonneg; done).
    destruct (Hg a Pa (Z.lor ret b) tx1 _ _ _ Hr1 R1) as (tx2 & c2 & S2 & H2).
    exists tx2, c2. split; [by eapply same_arrays_trans|]. rewrite Zlen_app in H2.
    replace (12 + Zlen body + (Zlen (flat_map enc_rr xs) + Zlen (flat_map enc_rr ys)))
      with (12 + (Zlen body + Zlen (flat_map enc_rr xs)) + Zlen (flat_map enc_rr ys)) by lia.
    assert (HB : forall y, returns (fun fuel => g a fuel (Z.lor ret b) tx1) y ->
       returns (fun fuel => '(ret, tx, a) ← f fuel ret tx;
              if ret =? RS_ERROR then mret (RS_ERROR, tx, e a) else g a fuel ret tx) y).
    { intros y Hy. eapply returns_bind; [exact E1|]. cbv beta iota.
      replace (Z.lor ret b =? RS_ERROR) with false by (unfold RS_ERROR; lia). exact Hy. }
    destruct (_ <=? 1472); [|by apply HB]. destruct H2 as (E2 & Qc & R2). rewrite Z.lor_assoc.
    split_and!; [by apply HB|done|]. rewrite app_assoc, Z.add_assoc. exact R2.
  - exists tx1, (e a). split; [done|]. dec. eapply returns_bind; [exact H1|]. by apply returns_all.
Qed.

Lemma responds_ext {A} (f g : nat -> Z -> mdns_message -> res (Z * mdns_message * A)) xs b P :
  (forall fuel ret tx, f fuel ret tx = g fuel ret tx) -> responds f xs b P -> responds g xs b P.
Proof.
  intros E H ret tx body na fl Hr R. destruct (H ret tx body na fl Hr R) as (tx' & a & S & K).
  exists tx', a. split; [done|]. destruct (_ <=? 1472).
  - destruct K as (K & ? & ?). split_and!; [|done|done]. eapply returns_ext; [intros fuel; apply E|exact K].
  - eapply returns_ext; [intros fuel; apply E|exact K].
Qed.

(** Weakening the postcondition and naming the pieces. *)
Lemma responds_eq {A} (f : nat -> Z -> mdns_message -> res (Z * mdns_message * A)) xs xs' b b' (P P' : A -> Prop) :
  responds f xs b P -> xs = xs' -> b = b' -> (forall a, P a -> P' a) -> responds f xs' b' P'.
Proof.
  intros H <- <- HP ret tx body na fl Hr R. destruct (H ret tx body na fl Hr R) as (tx' & a & S & K).
  exists tx', a. split; [done|]. destruct (_ <=? 1472); [|done]. destruct K as (? & ? & ?). eauto.
Qed.

(** A test whose outcome is known with enough fuel. *)
Lemma responds_test {A B} (t : nat -> res B) (v : B) (k : B -> nat -> Z -> mdns_message -> res (Z * mdns_message * A)) xs b P :
  returns t v -> responds (k v) xs b P ->
  responds (fun fuel ret tx => x ← t fuel; k x fuel ret tx) xs b P.
Proof.
  intros Ht H ret tx body na fl Hr R. destruct (H ret tx body na fl Hr R) as (tx' & a & S & K).
  exists tx', a. split; [done|]. destruct (_ <=? 1472).
  - destruct K as (K & ? & ?). split_and!; [|done|done]. by eapply returns_bind.
  - by eapply returns_bind.
Qed.

(** Appending records with [and_then] and returning RS_ERROR on failure. *)
Lemma responds_add {A} (f : mdns_message -> res (Z * mdns_message)) xs bits (a0 a1 : A) (P : A -> Prop) :
  adds_records Answers f xs -> P a1 ->
  responds (fun _ ret tx => '(e, tx) ← f tx;
     if negb (e =? 0) then mret (RS_ERROR, tx, a0) else mret (Z.lor ret bits, tx, a1)) xs bits P.
Proof.
  intros Hf HP ret tx body na fl Hr R. destruct (Hf _ _ _ _ _ _ R) as (tx' & S & K). simpl in K.
  destruct (_ <=? 1472).
  - exists tx', a1. destruct K as [E R']. split; [done|]. rewrite Z.add_0_r in R'.
    split_and!; [|done|done]. apply returns_all. intros _. by rewrite E.
  - exists tx', a0. split; [done|]. apply returns_all. intros _. by rewrite K.
Qed.

Lemma responds_bits {A} (a : A) bits (P : A -> Prop) :
  P a -> responds (fun _ ret tx => mret (Z.lor ret bits, tx, a)) [] bits P.
Proof.
  intros HP ret tx body na fl Hr R. exists tx, a. split; [apply same_arrays_refl|].
  pose proof (repr_fit _ _ _ _ _ _ R). simpl. change (Zlen (@nil Z)) with 0. dec.
  change (Zlen (@nil rr)) with 0. rewrite app_nil_r, Z.add_0_r.
  split_and!; [by apply returns_const|done|done].
Qed.

Lemma responds_add_then {A} (f : mdns_message -> res (Z * mdns_message))
    (k : nat -> Z -> mdns_message -> res (Z * mdns_message * A)) xs ys c (a0 : A) Q :
  adds_records Answers f xs -> responds k ys c Q ->
  responds (fun fuel ret tx => '(e, tx) ← f tx;
     if negb (e =? 0) then mret (RS_ERROR, tx, a0) else k fuel ret tx) (xs ++ ys) c Q.
Proof.
  intros Hf Hk. pose proof (responds_add f xs 0 a0 a0 (fun _ => True) Hf I) as H1.
  pose proof (responds_seq _ (fun _ => k) (fun _ => a0) xs 0 ys c _ Q H1 ltac:(lia) (fun _ _ => Hk)) as H2.
  intros ret tx body na fl Hr R. destruct (H2 ret tx body na fl Hr R) as (tx' & a & S & K).
  exists tx', a. split; [done|]. destruct (Hf _ _ _ _ _ _ R) as (m1 & _ & K1).
  assert (E : forall y, returns (fun fuel => '(ret, tx, _) ←
      ('(e, tx) ← f tx; if negb (e =? 0) then mret (RS_ERROR, tx, a0) else mret (Z.lor ret 0, tx, a0));
      if ret =? RS_ERROR then mret (RS_ERROR, tx, a0) else k fuel ret tx) y ->
      returns (fun fuel => '(e, tx) ← f tx; if negb (e =? 0) then mret (RS_ERROR, tx, a0) else k fuel ret tx) y).
  { intros y. apply returns_ext. intros fuel. destruct (f tx) as [[e m]| |]; [|done|done].
    unfold mbind, res_bind. destruct (negb (e =? 0)); [done|]. unfold mret, res_ret. rewrite Z.lor_0_r.
    by replace (ret =? RS_ERROR) with false by (unfold RS_ERROR; lia). }
  destruct (12 + Zlen body + Zlen (flat_map enc_rr (xs ++ ys)) <=? 1472).
  - destruct K as (K & Q' & R'). rewrite Z.lor_0_l in K. split_and!; [by apply E|done|done].
  - by apply E.
Qed.

Lemma bind_assoc_res {A B C} (x : res A) (f : A -> res B) (g : B -> res C) :
  (y ← (a ← x; f a); g y) = (a ← x; y ← f a; g y).
Proof. by destruct x. Qed.

(** ** Names and flags *)

Lemma cmp_own rx n ls b o ks :
  name_at (packet rx) n ls -> name_arg (b, o) ks ->
  returns (fun fuel => dname_cmp fuel (packet rx) n (own b) o) (names_cmp ls ks).
Proof.
  intros Hn (Hv & Hh & _). apply dname_cmp_spec; [done|]. by apply name_at_encode.
Qed.

Lemma cmp_zero ls ks : (names_cmp ls ks =? 0) = bool_decide (ls = ks).
Proof.
  apply Bool.eq_iff_eq_true. rewrite bool_decide_eq_true, Z.eqb_eq. apply names_cmp_eq.
Qed.

Definition service_at (s : mdns_service) (x : marked) : Prop :=
  service_is s x.1 /\ has_flag s SRV_ADDED = x.2.1 /\ has_flag s TXT_ADDED = x.2.2.

Lemma service_is_flags s a f : service_is s a -> service_is (set_flags s f) a.
Proof. intros []. by constructor. Qed.

Lemma flag_set f b : b <> 0 -> negb (Z.land (Z.lor f b) b =? 0) = true.
Proof.
  intros Hb. rewrite Z.land_lor_distr_l, Z.land_diag. apply negb_true_iff, Z.eqb_neq.
  intros E. apply Z.lor_eq_0_iff in E. lia.
Qed.

Lemma flag_other f b c : Z.land b c = 0 -> Z.land (Z.lor f b) c = Z.land f c.
Proof. intros E. by rewrite Z.land_lor_distr_l, E, Z.lor_0_r. Qed.

Lemma service_at_srv s a fs ft :
  service_at s (a, (fs, ft)) -> service_at (set_flags s (Z.lor (flags s) SRV_ADDED)) (a, (true, ft)).
Proof.
  intros (Hs & _ & Hft). split; [by apply service_is_flags|]. unfold has_flag in *. simpl in *.
  split; [by apply flag_set|]. by rewrite flag_other.
Qed.

Lemma service_at_txt s a fs ft :
  service_at s (a, (fs, ft)) -> service_at (set_flags s (Z.lor (flags s) TXT_ADDED)) (a, (fs, true)).
Proof.
  intros (Hs & Hfs & _). split; [by apply service_is_flags|]. unfold has_flag in *. simpl in *.
  split; [by rewrite flag_other|by apply flag_set].
Qed.

(** ** One service *)

Section ServiceStep.
Context (h : host) (ah : ahost) (rx : mdns_message) (qn : Z) (ls : list (list Z)).
Hypothesis Hh : host_is h ah.
Hypothesis Hq : name_at (packet rx) qn ls.

Lemma responds_srv s a ft bits : service_at s (a, (false, ft)) ->
  responds (fun _ ret tx => add_srv_answer h ret tx s bits) [srv_rr ah 255 a] bits
    (fun s' => service_at s' (a, (true, ft))).
Proof.
  intros Hs. apply responds_add; [|by eapply service_at_srv].
  destruct Hh, Hs as (Hs & _). apply (adds_srv (fqdn h) ah s a 255) with (sec := Answers); done.
Qed.

Lemma responds_txt s a fs bits kv : service_at s (a, (fs, false)) -> keyvals s = Some kv ->
  responds (fun _ ret tx => add_txt_answer ret tx s kv bits) (txt_rrs 255 a) bits
    (fun s' => service_at s' (a, (fs, true))).
Proof.
  intros Hs Hk. apply responds_add; [|by eapply service_at_txt].
  destruct Hs as (Hs & _). pose proof (adds_txt s a 255 Hs ltac:(unfold word32; lia) ltac:(done) Answers) as HT.
  rewrite Hk in HT. by apply HT.
Qed.

Lemma responds_srv_step s a f : service_at s (a, f) ->
  let '(xs, b, f') := spec_srv ah ls a f in
  responds (fun fuel ret tx => respond_srv fuel h rx qn ret tx s) xs b (fun s' => service_at s' (a, f')).
Proof.
  destruct f as [fs ft]. intros Hs. pose proof Hs as (Hi & Hfs & Hft). simpl in *. unfold spec_srv, respond_srv.
  rewrite Hfs. destruct (bool_decide (ls = a_labels a) && negb fs) eqn:E.
  - eapply responds_test; [eapply cmp_own; [exact Hq|apply Hi]|]. rewrite cmp_zero, E.
    destruct fs; [by rewrite andb_false_r in E|]. by apply responds_srv.
  - eapply responds_test; [eapply cmp_own; [exact Hq|apply Hi]|]. rewrite cmp_zero, E. by apply responds_ret.
Qed.

Lemma txt_some s a : service_is s a -> is_Some (keyvals s) <-> is_Some (a_txt a).
Proof. intros [_ _ _ _ Ht]. destruct (keyvals s), (a_txt a); try done; split; intros [? ?]; done. Qed.

Lemma responds_txt_step s a f : service_at s (a, f) ->
  let '(xs, b, f') := spec_txt ls a f in
  responds (fun fuel ret tx => respond_txt fuel rx qn ret tx s) xs b (fun s' => service_at s' (a, f')).
Proof.
  destruct f as [fs ft]. intros Hs. pose proof Hs as (Hi & Hfs & Hft). simpl in *. unfold spec_txt, respond_txt.
  pose proof (txt_some s a Hi) as Hsome. rewrite (bool_decide_ext _ _ (iff_sym Hsome)).
  destruct (keyvals s) as [kv|] eqn:Ek; simpl.
  - rewrite andb_true_r. rewrite Hft. destruct (bool_decide (ls = a_labels a) && negb ft) eqn:E.
    + eapply responds_test; [eapply cmp_own; [exact Hq|apply Hi]|]. rewrite cmp_zero, E.
      destruct ft; [by rewrite andb_false_r in E|]. by apply responds_txt.
    + eapply responds_test; [eapply cmp_own; [exact Hq|apply Hi]|]. rewrite cmp_zero, E. by apply responds_ret.
  - rewrite andb_false_r. simpl. eapply responds_test; [eapply cmp_own; [exact Hq|apply Hi]|]. by apply responds_ret.
Qed.

(** SRV unless it is there already, and the same for TXT. *)
Lemma responds_srv_once s a fs ft : service_at s (a, (fs, ft)) ->
  responds (fun _ ret tx => if has_flag s SRV_ADDED then mret (ret, tx, s) else add_srv_answer h ret tx s 0)
    (srv_once ah a fs) 0 (fun s' => service_at s' (a, (true, ft))).
Proof.
  intros Hs. pose proof Hs as (_ & Hfs & _). simpl in Hfs. rewrite Hfs. unfold srv_once.
  destruct fs; [by apply responds_ret|by apply responds_srv].
Qed.

Lemma responds_txt_once s a fs ft : service_at s (a, (fs, ft)) ->
  responds (fun _ ret tx => match keyvals s with
     | Some kv => if has_flag s TXT_ADDED then mret (ret, tx, s) else add_txt_answer ret tx s kv 0
     | None => mret (ret, tx, s) end)
    (txt_once a ft) 0 (fun s' => service_at s' (a, (fs, txt_mark a ft))).
Proof.
  intros Hs. pose proof Hs as (Hi & _ & Hft). simpl in Hft. rewrite Hft. unfold txt_once, txt_mark.
  pose proof (txt_some s a Hi) as Hsome. rewrite (bool_decide_ext _ _ (iff_sym Hsome)).
  destruct (keyvals s) as [kv|] eqn:Ek; simpl.
  - destruct ft; [by apply responds_ret|]. by apply responds_txt.
  - rewrite orb_false_r. unfold txt_rrs. destruct (a_txt a) eqn:Ea.
    + exfalso. by destruct (proj2 Hsome (mk_is_Some _ _ eq_refl)).
    + destruct ft; by apply responds_ret.
Qed.

Lemma responds_ptr_step s a f : service_at s (a, f) ->
  let '(xs, b, f') := spec_ptr ah ls a f in
  responds (fun fuel ret tx => respond_ptr fuel h rx qn ret tx s) xs b (fun s' => service_at s' (a, f')).
Proof.
  destruct f as [fs ft]. intros Hs. pose proof Hs as (Hi & _ & _). simpl in *. unfold spec_ptr, respond_ptr.
  assert (HT : returns (fun fuel => c ← dname_cmp fuel (packet rx) qn (own (fqsn s)) (ptrname s);
      if c =? 0 then mret 0 else dname_cmp fuel (packet rx) qn (own (fqsn s)) 0)
    (if bool_decide (ls = a_type a) then 0 else names_cmp ls (a_labels a))).
  { eapply returns_bind; [eapply cmp_own; [exact Hq|apply Hi]|]. rewrite cmp_zero.
    case_bool_decide; [by apply returns_const|eapply cmp_own; [exact Hq|apply Hi]]. }
  assert (ED : ((if bool_decide (ls = a_type a) then 0 else names_cmp ls (a_labels a)) =? 0)
               = bool_decide (ls = a_type a) || bool_decide (ls = a_labels a)).
  { case_bool_decide; [done|]. by rewrite cmp_zero. }
  destruct (bool_decide (ls = a_type a) || bool_decide (ls = a_labels a)).
  all: eapply responds_ext;
    [intros; apply (bind_assoc_res (dname_cmp fuel (packet rx) qn (own (fqsn s)) (ptrname s)))|].
  all: eapply responds_test; [exact HT|]; cbv beta; rewrite ED; cbn [negb].
  - eapply responds_eq; [|reflexivity|apply (Z.lor_0_l RS_SEND_DELAY)|intros ? H; exact H].
    eapply (responds_seq _ _ (fun s => s)); [by apply responds_srv_once|lia|]. intros s1 Hs1.
    pose proof Hs1 as (Hi1 & _).
    eapply (responds_add_then _ _ [ptr_rr 255 a]); [apply adds_ptr; [done|unfold word32; lia|done]|].
    eapply responds_eq; [|apply app_nil_r|apply (Z.lor_0_l RS_SEND_DELAY)|intros ? H; exact H].
    eapply (responds_seq _ _ (fun s => s)); [apply responds_txt_once; exact Hs1|lia|]. intros s2 Hs2. by apply responds_bits.
  - by apply responds_ret.
Qed.
End ServiceStep.

(** ** All services *)

Lemma responds_map {A B} (f : nat -> Z -> mdns_message -> res (Z * mdns_message * A)) (w : A -> B) xs b (P : A -> Prop) (Q : B -> Prop) :
  responds f xs b P -> (forall a, P a -> Q (w a)) ->
  responds (fun fuel ret tx => '(ret, tx, a) ← f fuel ret tx; mret (ret, tx, w a)) xs b Q.
Proof.
  intros H HQ ret tx body na fl Hr R. destruct (H ret tx body na fl Hr R) as (tx' & a & S & K).
  exists tx', (w a). split; [done|]. destruct (_ <=? 1472).
  - destruct K as (K & Pa & R'). split_and!; [|by apply HQ|done]. eapply returns_bind; [exact K|by apply returns_all].
  - eapply returns_bind; [exact K|by apply returns_all].
Qed.

(** The body of a service loop implements a step of the specification. *)
Definition implements (body : nat -> Z -> mdns_message -> mdns_service -> res (Z * mdns_message * mdns_service))
    (step : spec_step) : Prop :=
  forall s a f, service_at s (a, f) ->
  let '(xs, b, f') := step a f in
  0 <= b /\ responds (fun fuel ret tx => body fuel ret tx s) xs b (fun s' => service_at s' (a, f')).

Lemma responds_services body step : implements body step ->
  forall ss l, Forall2 service_at ss l ->
  let '(xs, b, l') := spec_services step l in
  0 <= b /\ responds (fun fuel ret tx => for_services (body fuel) ret tx ss) xs b (fun ss' => Forall2 service_at ss' l').
Proof.
  intros Hbody ss l HF. induction HF as [|s [a f] ss l Hs HF IH]; simpl.
  - split; [done|]. by apply responds_ret.
  - pose proof (Hbody s a f Hs) as H1. destruct (step a f) as [[xs b] f'].
    destruct (spec_services step l) as [[ys c] l']. destruct H1 as [Hb H1], IH as [Hc H2].
    split; [by apply Z.lor_nonneg|].
    eapply (responds_seq _ _ (fun s => s :: ss)); [exact H1|done|]. intros s1 Hs1.
    eapply responds_map; [exact H2|]. intros ss1 Hss1. by constructor.
Qed.

(** ** The host's own records *)

(** Parts without service state. *)
Definition responds0 (f : nat -> Z -> mdns_message -> res (Z * mdns_message)) (xs : list rr) (b : Z) : Prop :=
  responds (fun fuel ret tx => '(ret, tx) ← f fuel ret tx; mret (ret, tx, tt)) xs b (fun _ => True).

Lemma responds0_seq {B} f (g : nat -> Z -> mdns_message -> res (Z * mdns_message * B)) (e : B) xs b ys c Q :
  responds0 f xs b -> 0 <= b -> responds g ys c Q ->
  responds (fun fuel ret tx => '(ret, tx) ← f fuel ret tx;
     if ret =? RS_ERROR then mret (RS_ERROR, tx, e) else g fuel ret tx) (xs ++ ys) (Z.lor b c) Q.
Proof.
  intros Hf Hb Hg. eapply responds_ext; [|eapply (responds_seq _ (fun _ => g) (fun _ => e)); [exact Hf|done|done]].
  intros fuel ret tx. cbv beta. by destruct (f fuel ret tx) as [[? ?]| |].
Qed.

Section HostStep.
Context (h : host) (ah : ahost) (rx : mdns_message) (pq : mdns_question) (q : question).
Hypothesis Hh : host_is h ah.
Hypothesis Hq : parsed_question (packet rx) pq q.

Lemma responds_host :
  let '(xs, b) := spec_host ah q in 0 <= b /\ responds0 (fun fuel ret tx => respond_host fuel h rx pq ret tx) xs b.
Proof.
  destruct Hq as (Hn & Ht & _). pose proof Hh as [Hf _ _ _]. unfold spec_host, respond_host, responds0. rewrite Ht.
  destruct (is_any_or (q_type q) T_A); [|split; [lia|by apply responds_ret]]. cbn [andb].
  pose proof (cmp_own rx (qname pq) _ _ _ _ Hn Hf) as HC.
  case_bool_decide as E; (split; [unfold RS_SEND; lia|]).
  all: eapply responds_ext; [intros; symmetry; apply bind_assoc_res|]; eapply responds_test; [exact HC|].
  all: cbv beta; rewrite cmp_zero.
  - rewrite bool_decide_eq_true_2 by done.
    eapply responds_ext; [|eapply (responds_add _ [a_rr ah 255] RS_SEND tt tt); [by apply (adds_a h ah 255 Hh) with (sec := Answers)|done]].
    intros fuel ret tx. cbv beta. destruct (and_then _ _) as [[e m]| |]; [|done|done].
    unfold mbind, res_bind. by destruct (negb (e =? 0)).
  - rewrite bool_decide_eq_false_2 by done. by apply responds_ret.
Qed.

Lemma responds_arpa :
  let '(xs, b) := spec_arpa ah q in 0 <= b /\ responds0 (fun fuel ret tx => respond_arpa fuel h rx pq ret tx) xs b.
Proof.
  destruct Hq as (Hn & Ht & _). pose proof Hh as [_ Ha _ _]. unfold spec_arpa, respond_arpa, responds0.
  pose proof (cmp_own rx (qname pq) _ _ _ _ Hn Ha) as HC.
  case_bool_decide as E; (split; [unfold RS_SEND; lia|]).
  all: eapply responds_ext; [intros; symmetry; apply bind_assoc_res|]; eapply responds_test; [exact HC|].
  all: cbv beta; rewrite cmp_zero.
  - rewrite bool_decide_eq_true_2 by done.
    eapply responds_ext; [|eapply (responds_add _ [arpa_rr ah 255] RS_SEND tt tt); [by apply (adds_arpa h ah 255 Hh) with (sec := Answers)|done]].
    intros fuel ret tx. cbv beta. destruct (and_then _ _) as [[e m]| |]; [|done|done].
    unfold mbind, res_bind. by destruct (negb (e =? 0)).
  - rewrite bool_decide_eq_false_2 by done. by apply responds_ret.
Qed.
End HostStep.

(** ** Questions *)

Lemma spec_services_nonneg step l :
  (forall a f, 0 <= (step a f).1.2) -> 0 <= (spec_services step l).1.2.
Proof.
  intros Hs. induction l as [|[a f] l IH]; [done|]. simpl. specialize (Hs a f).
  destruct (step a f) as [[xs b] f']. destruct (spec_services step l) as [[ys c] l']. simpl in *.
  by apply Z.lor_nonneg.
Qed.

Lemma spec_ptr_nonneg ah ls a f : 0 <= (spec_ptr ah ls a f).1.2.
Proof. destruct f as [fs ft]. unfold spec_ptr. by destruct (_ || _). Qed.

Lemma spec_srv_nonneg ah ls a f : 0 <= (spec_srv ah ls a f).1.2.
Proof. destruct f as [fs ft]. unfold spec_srv. by destruct (_ && _). Qed.

Lemma spec_txt_nonneg ls a f : 0 <= (spec_txt ls a f).1.2.
Proof. destruct f as [fs ft]. unfold spec_txt. by destruct (_ && _ && _). Qed.

Lemma spec_srv_part_nonneg ah q l : 0 <= (spec_srv_part ah q l).1.2.
Proof. unfold spec_srv_part. destruct (_ =? _); [|done]. apply spec_services_nonneg, spec_srv_nonneg. Qed.

Lemma spec_txt_part_nonneg q l : 0 <= (spec_txt_part q l).1.2.
Proof. unfold spec_txt_part. destruct (_ =? _); [|done]. apply spec_services_nonneg, spec_txt_nonneg. Qed.

Lemma implements_ptr h ah rx qn ls : host_is h ah -> name_at (packet rx) qn ls ->
  implements (fun fuel => respond_ptr fuel h rx qn) (spec_ptr ah ls).
Proof.
  intros Hh Hq s a f Hs. pose proof (responds_ptr_step h ah rx qn ls Hh Hq s a f Hs) as H.
  pose proof (spec_ptr_nonneg ah ls a f). destruct (spec_ptr ah ls a f) as [[xs b] f']. done.
Qed.

Lemma implements_srv h ah rx qn ls : host_is h ah -> name_at (packet rx) qn ls ->
  implements (fun fuel => respond_srv fuel h rx qn) (spec_srv ah ls).
Proof.
  intros Hh Hq s a f Hs. pose proof (responds_srv_step h ah rx qn ls Hh Hq s a f Hs) as H.
  pose proof (spec_srv_nonneg ah ls a f). destruct (spec_srv ah ls a f) as [[xs b] f']. done.
Qed.

Lemma implements_txt rx qn ls : name_at (packet rx) qn ls ->
  implements (fun fuel => respond_txt fuel rx qn) (spec_txt ls).
Proof.
  intros Hq s a f Hs. pose proof (responds_txt_step rx qn ls Hq s a f Hs) as H.
  pose proof (spec_txt_nonneg ls a f). destruct (spec_txt ls a f) as [[xs b] f']. done.
Qed.

Section Question.
Context (h : host) (ah : ahost) (rx : mdns_message) (pq : mdns_question) (q : question).
Hypothesis Hh : host_is h ah.
Hypothesis Hq : parsed_question (packet rx) pq q.

Lemma responds_ptr_part ss l : Forall2 service_at ss l ->
  let '(xs, b, l') := spec_ptr_part ah q l in
  0 <= b /\ responds (fun fuel ret tx =>
    if is_any_or (qtype pq) T_PTR then
      '(ret, tx) ← respond_arpa fuel h rx pq ret tx;
      if ret =? RS_ERROR then mret (RS_ERROR, tx, ss)
      else for_services (respond_ptr fuel h rx (qname pq)) ret tx ss
    else mret (ret, tx, ss)) xs b (fun ss' => Forall2 service_at ss' l').
Proof.
  intros HF. pose proof Hq as (Hn & Ht & _). unfold spec_ptr_part. rewrite Ht.
  destruct (is_any_or (q_type q) T_PTR); [|split; [done|by apply responds_ret]].
  pose proof (responds_arpa h ah rx pq q Hh Hq) as H1. destruct (spec_arpa ah q) as [xs b]. destruct H1 as [Hb H1].
  pose proof (responds_services _ _ (implements_ptr h ah rx _ _ Hh Hn) ss l HF) as H2.
  destruct (spec_services (spec_ptr ah (q_labels q)) l) as [[ys c] l']. destruct H2 as [Hc H2].
  split; [by apply Z.lor_nonneg|]. by apply responds0_seq.
Qed.

Lemma responds_srv_part ss l : Forall2 service_at ss l ->
  let '(xs, b, l') := spec_srv_part ah q l in
  0 <= b /\ responds (fun fuel ret tx =>
    if qtype pq =? T_SRV then for_services (respond_srv fuel h rx (qname pq)) ret tx ss
    else mret (ret, tx, ss)) xs b (fun ss' => Forall2 service_at ss' l').
Proof.
  intros HF. pose proof Hq as (Hn & Ht & _). unfold spec_srv_part. rewrite Ht.
  destruct (q_type q =? T_SRV); [|split; [done|by apply responds_ret]].
  apply (responds_services _ _ (implements_srv h ah rx _ _ Hh Hn) ss l HF).
Qed.

Lemma responds_txt_part ss l : Forall2 service_at ss l ->
  let '(xs, b, l') := spec_txt_part q l in
  0 <= b /\ responds (fun fuel ret tx =>
    if qtype pq =? T_TXT then for_services (respond_txt fuel rx (qname pq)) ret tx ss
    else mret (ret, tx, ss)) xs b (fun ss' => Forall2 service_at ss' l').
Proof.
  intros HF. pose proof Hq as (Hn & Ht & _). unfold spec_txt_part. rewrite Ht.
  destruct (q_type q =? T_TXT); [|split; [done|by apply responds_ret]].
  apply (responds_services _ _ (implements_txt rx _ _ Hn) ss l HF).
Qed.

Lemma respond_question_spec ss l : Forall2 service_at ss l ->
  let '(xs, b, l') := spec_question ah q l in
  0 <= b /\ responds (fun fuel ret tx => respond_question fuel h rx pq ret tx ss) xs b
    (fun ss' => Forall2 service_at ss' l').
Proof.
  intros HF. unfold spec_question.
  pose proof (responds_host h ah rx pq q Hh Hq) as H1. destruct (spec_host ah q) as [x1 b1]. destruct H1 as [B1 H1].
  pose proof (responds_ptr_part ss l HF) as H2. destruct (spec_ptr_part ah q l) as [[x2 b2] l2]. destruct H2 as [B2 H2].
  pose proof (fun ss2 => responds_srv_part ss2 l2) as H3. destruct (spec_srv_part ah q l2) as [[x3 b3] l3] eqn:E3.
  pose proof (fun ss3 => responds_txt_part ss3 l3) as H4. destruct (spec_txt_part q l3) as [[x4 b4] l4] eqn:E4.
  pose proof (spec_srv_part_nonneg ah q l2) as B3. rewrite E3 in B3. simpl in B3.
  pose proof (spec_txt_part_nonneg q l3) as B4. rewrite E4 in B4. simpl in B4.
  split; [by rewrite !Z.lor_nonneg|].
  apply responds0_seq; [exact H1|done|].
  eapply (responds_seq _ _ (fun ss => ss)); [exact H2|done|]. intros ss2 HF2.
  eapply (responds_seq _ _ (fun ss => ss)); [by apply H3|done|]. intros ss3 HF3. by apply H4.
Qed.
End Question.

Lemma respond_questions_spec h ah rx : host_is h ah -> forall qs i ss l,
  (forall k q, qs !! k = Some q -> exists pq, questions rx !! (i + k)%nat = Some pq /\ parsed_question (packet rx) pq q) ->
  Forall2 service_at ss l ->
  let '(xs, b, l') := spec_questions ah qs l in
  responds (fun fuel ret tx => respond_questions fuel h rx (length qs) i ret tx ss) xs b
    (fun ss' => Forall2 service_at ss' l').
Proof.
  intros Hh qs. induction qs as [|q qs IH]; intros i ss l Hqs HF; simpl; [by apply responds_ret|].
  destruct (Hqs 0%nat q eq_refl) as (pq & Epq & Hpq). rewrite Nat.add_0_r in Epq.
  pose proof (respond_question_spec h ah rx pq q Hh Hpq ss l HF) as H1.
  destruct (spec_question ah q l) as [[xs b] l1]. destruct H1 as [Hb H1].
  assert (Hqs' : forall k q, qs !! k = Some q ->
    exists pq, questions rx !! (S i + k)%nat = Some pq /\ parsed_question (packet rx) pq q).
  { intros k q' Hk. destruct (Hqs (S k) q' Hk) as (pq' & E' & ?). exists pq'. split; [|done].
    by replace (S i + k)%nat with (i + S k)%nat by lia. }
  pose proof (fun ss1 => IH (S i) ss1 l1 Hqs') as H2. destruct (spec_questions ah qs l1) as [[ys c] l2].
  rewrite (nth_lookup_Some _ _ _ _ Epq).
  eapply (responds_seq _ _ (fun ss => ss)); [exact H1|done|]. intros ss1 HF1. by apply H2.
Qed.

(** What a parsed message asks. *)
Definition asks (m : mdns_message) (qs : list question) : Prop :=
  num_questions m = Zlen qs /\
  forall k q, qs !! k = Some q -> exists pq, questions m !! k = Some pq /\ parsed_question (packet m) pq q.

Lemma well_parsed_asks m : well_parsed m -> exists qs, asks m qs.
Proof.
  intros W. pose proof (wp_questions _ W) as HQ. pose proof (wp_nq _ W). unfold asks.
  assert (HC : forall n, (n <= Z.to_nat (num_questions m))%nat ->
    exists qs, length qs = n /\ forall k q, qs !! k = Some q ->
      exists pq, questions m !! k = Some pq /\ parsed_question (packet m) pq q).
  { induction n as [|n IH]; intros Hn; [exists []; done|].
    destruct IH as (qs & Hl & Hq); [lia|]. destruct (HQ n ltac:(lia)) as (pq & Epq & [ls Hls]%decodes_at).
    exists (qs ++ [mkQ ls (qtype pq) (qclass pq)]). split; [rewrite length_app; simpl; lia|].
    intros k q Hk. destruct (decide (k < n)%nat).
    - apply Hq. by rewrite lookup_app_l in Hk by lia.
    - rewrite lookup_app_r in Hk by lia. rewrite Hl in Hk. apply list_lookup_singleton_Some in Hk as [Hk <-].
      assert (k = n) as -> by lia. exists pq. done. }
  destruct (HC (Z.to_nat (num_questions m)) ltac:(lia)) as (qs & Hl & Hq).
  exists qs. split; [unfold Zlen; lia|done].
Qed.

Lemma clear_added_at s a : service_is s a -> service_at (clear_added s) (a, (false, false)).
Proof.
  intros Hs. split; [by apply service_is_flags|]. unfold has_flag, clear_added. simpl.
  rewrite <- !Z.land_assoc.
  change (Z.land (Z.lnot (Z.lor SRV_ADDED TXT_ADDED)) SRV_ADDED) with 0.
  change (Z.land (Z.lnot (Z.lor SRV_ADDED TXT_ADDED)) TXT_ADDED) with 0. by rewrite Z.land_0_r.
Qed.

Lemma repr_set_id m body nq na nn i0 i1 f0 f1 g0 g1 d :
  repr m body nq na nn [g0; g1; f0; f1] -> bytes [i0; i1] ->
  wr_range (data m) 0 [i0; i1] = Ok d -> repr (set_data m d) body nq na nn [i0; i1; f0; f1].
Proof.
  intros R Hb W. pose proof (repr_flags _ _ _ _ _ _ R) as HF. destruct R. pose proof (wr_range_Zlen _ _ _ _ W).
  assert (F : forall j k, holds (data m) j k -> 2 <= j -> holds d j k).
  { intros j k Hk Hj. eapply wr_range_frame; [exact W|zlen; lia|done]. }
  constructor; simpl; try done; try lia; try (apply F; [done|lia]).
  - by eapply wr_range_bytes.
  - change [g0; g1; f0; f1] with ([g0; g1] ++ [f0; f1]) in HF. apply holds_app in HF as [_ HF].
    change [i0; i1; f0; f1] with ([i0; i1] ++ [f0; f1]). apply holds_app.
    split; [by eapply wr_range_holds|]. apply F; [done|]. zlen. lia.
Qed.

(** The services themselves do not change. *)
Lemma spec_services_fst step l : map fst (spec_services step l).2 = map fst l.
Proof.
  induction l as [|[a f] l IH]; [done|]. simpl. destruct (step a f) as [[xs b] f'].
  destruct (spec_services step l) as [[ys c] l']. simpl in *. by rewrite IH.
Qed.

Lemma spec_question_fst ah q l : map fst (spec_question ah q l).2 = map fst l.
Proof.
  unfold spec_question. destruct (spec_host ah q) as [x1 b1].
  assert (H2 : map fst (spec_ptr_part ah q l).2 = map fst l).
  { unfold spec_ptr_part. destruct (is_any_or _ _); [|done]. destruct (spec_arpa ah q).
    pose proof (spec_services_fst (spec_ptr ah (q_labels q)) l) as H. by destruct (spec_services _ _) as [[? ?] ?]. }
  destruct (spec_ptr_part ah q l) as [[x2 b2] l2].
  assert (H3 : map fst (spec_srv_part ah q l2).2 = map fst l2).
  { unfold spec_srv_part. destruct (_ =? _); [apply spec_services_fst|done]. }
  destruct (spec_srv_part ah q l2) as [[x3 b3] l3].
  assert (H4 : map fst (spec_txt_part q l3).2 = map fst l3).
  { unfold spec_txt_part. destruct (_ =? _); [apply spec_services_fst|done]. }
  destruct (spec_txt_part q l3) as [[x4 b4] l4]. simpl in *. congruence.
Qed.

Lemma spec_questions_fst ah qs : forall l xs b l', spec_questions ah qs l = (xs, b, l') -> map fst l' = map fst l.
Proof.
  induction qs as [|q qs IH]; intros l xs b l' H; simpl in H; [by simplify_eq|].
  pose proof (spec_question_fst ah q l) as Hq. destruct (spec_question ah q l) as [[x1 b1] l1].
  destruct (spec_questions ah qs l1) as [[x2 b2] l2] eqn:E. simplify_eq. simpl in Hq. by rewrite (IH _ _ _ _ E).
Qed.

Lemma prepare_response_spec h ah rx tx qs i0 i1 :
  host_is h ah -> asks rx qs -> header_qr rx = Ok QUERY -> holds (data rx) 0 [i0; i1] -> bytes (data rx) ->
  Zlen (data tx) = 1472 -> bytes (data tx) ->
  let '(xs, b) := spec_response ah qs in
  exists tx' ss', same_arrays tx tx' /\
    if packet_size [] xs [] <=? 1472 then
      returns (fun fuel => prepare_response fuel h rx tx) (b, tx', ss') /\ Forall2 service_is ss' (ah_services ah) /\
      repr tx' (enc_body [] xs []) 0 (Zlen xs) 0 [i0; i1; 132; 0]
    else returns (fun fuel => prepare_response fuel h rx tx) (RS_ERROR, tx', ss').
Proof.
  intros Hh [Hn Hqs] Hqr Hid Hb HL HB. unfold spec_response.
  destruct (response_init_repr tx HL HB) as (t1 & E1 & S1 & R1).
  pose proof (holds_byte _ _ _ Hb Hid) as Hb2.
  destruct (wr_range_exists (data t1) 0 [i0; i1]) as [d W]; [lia|rewrite (repr_size _ _ _ _ _ _ R1); zlen; lia|].
  pose proof (repr_set_id _ _ _ _ _ _ _ _ _ _ _ _ R1 Hb2 W) as R2.
  assert (HF : Forall2 service_at (clear_added <$> user_services h) (map (fun a => (a, (false, false))) (ah_services ah))).
  { destruct Hh as [_ _ _ Hs]. clear -Hs. induction Hs; constructor; [by apply clear_added_at|done]. }
  pose proof (respond_questions_spec h ah rx Hh qs 0 _ _ Hqs HF) as H.
  destruct (spec_questions ah qs _) as [[xs b] l'] eqn:ES.
  destruct (H RS_NO_SEND _ _ _ _ ltac:(done) R2) as (tx' & ss' & S2 & K).
  exists tx', ss'. split; [eapply same_arrays_trans; [exact S1|exact S2]|].
  assert (EB : enc_body [] xs [] = flat_map enc_rr xs) by (unfold enc_body; simpl; by rewrite app_nil_r).
  unfold packet_size. rewrite EB. change (Zlen (@nil Z)) with 0 in K.
  assert (EP : forall fuel, prepare_response fuel h rx tx =
    respond_questions fuel h rx (length qs) 0 RS_NO_SEND (set_data t1 d) (clear_added <$> user_services h)).
  { intros fuel. unfold prepare_response, H_ID. rewrite Hqr. cbn [mbind res_bind]. simpl (negb _). cbn iota.
    rewrite E1. cbn [mbind res_bind].
    replace (rd_range (data rx) 0 2) with (Ok [i0; i1]) by (symmetry; by apply rd_range_holds).
    cbn [mbind res_bind]. rewrite W. cbn [mbind res_bind]. rewrite Hn.
    by replace (Z.to_nat (Zlen qs)) with (length qs) by (unfold Zlen; lia). }
  assert (HE : forall y, returns (fun fuel => respond_questions fuel h rx (length qs) 0 RS_NO_SEND (set_data t1 d)
      (clear_added <$> user_services h)) y -> returns (fun fuel => prepare_response fuel h rx tx) y).
  { intros y. apply returns_ext. intros. by rewrite EP. }
  rewrite Z.add_0_r in K. destruct (12 + Zlen (flat_map enc_rr xs) <=? 1472); [|by apply HE].
  destruct K as (K & HF' & R'). split_and!; [by apply HE| |exact R'].
  clear -HF' ES. assert (EL : map fst l' = map fst (map (fun a => (a, (false, false))) (ah_services ah))).
  { by apply (spec_questions_fst ah qs) in ES. }
  rewrite map_map, map_id in EL. rewrite <- EL. clear -HF'. induction HF' as [|s x ss l [Hs _] _ IH]; by constructor.
Qed.

(** ** No record twice *)

Definition of_type (t : Z) (xs : list rr) : list rr := List.filter (fun r => rr_type r =? t) xs.

Lemma of_type_app t xs ys : of_type t (xs ++ ys) = of_type t xs ++ of_type t ys.
Proof. apply List.filter_app. Qed.

(** The SRV records of the services that are marked, and the TXT records. *)
Definition marked_srvs (ah : ahost) (l : list marked) : list rr :=
  flat_map (fun x : marked => if x.2.1 then [srv_rr ah 255 x.1] else []) l.

Definition marked_txts (l : list marked) : list rr := flat_map (fun x : marked => if x.2.2 then txt_rrs 255 x.1 else []) l.

(** A part of the response adds a record exactly when it marks its service. *)
Definition accounts (ah : ahost) (xs : list rr) (l l' : list marked) : Prop :=
  of_type T_SRV xs ++ marked_srvs ah l ≡ₚ marked_srvs ah l' /\
  of_type T_TXT xs ++ marked_txts l ≡ₚ marked_txts l'.

Lemma accounts_nil ah l : accounts ah [] l l.
Proof. done. Qed.

Lemma accounts_app ah xs ys l1 l2 l3 : accounts ah xs l1 l2 -> accounts ah ys l2 l3 -> accounts ah (xs ++ ys) l1 l3.
Proof.
  intros [S1 T1] [S2 T2]. split; rewrite of_type_app.
  - by rewrite <- S2, <- S1, (Permutation_app_comm (of_type T_SRV xs)), <- app_assoc.
  - by rewrite <- T2, <- T1, (Permutation_app_comm (of_type T_TXT xs)), <- app_assoc.
Qed.

(** A step on one service that keeps the books. *)
Definition balanced (ah : ahost) (step : spec_step) : Prop :=
  forall a f, let '(xs, _, f') := step a f in accounts ah xs [(a, f)] [(a, f')].

Lemma accounts_services ah step l : balanced ah step ->
  let '(xs, _, l') := spec_services step l in accounts ah xs l l'.
Proof.
  intros Hb. induction l as [|[a f] l IH]; [apply accounts_nil|]. simpl. specialize (Hb a f).
  destruct (step a f) as [[xs b] f']. destruct (spec_services step l) as [[ys c] l'].
  destruct Hb as [S1 T1], IH as [S2 T2]. unfold marked_srvs, marked_txts in *. simpl in *. rewrite !app_nil_r in *.
  split; rewrite of_type_app; simpl.
  - rewrite <- S1, <- S2. rewrite <- !app_assoc. apply Permutation_app_head.
    rewrite !app_assoc. apply Permutation_app_tail, Permutation_app_comm.
  - rewrite <- T1, <- T2. rewrite <- !app_assoc. apply Permutation_app_head.
    rewrite !app_assoc. apply Permutation_app_tail, Permutation_app_comm.
Qed.

Lemma of_type_txts t a : of_type t (txt_rrs 255 a) = if t =? T_TXT then txt_rrs 255 a else [].
Proof.
  unfold txt_rrs. destruct (a_txt a); [|by destruct (t =? T_TXT)]. unfold of_type. cbn [List.filter rr_type].
  rewrite (Z.eqb_sym T_TXT). by destruct (t =? T_TXT).
Qed.

Lemma balanced_ptr ah ls : balanced ah (spec_ptr ah ls).
Proof.
  intros a [fs ft]. unfold spec_ptr. destruct (_ || _); [|apply accounts_nil].
  unfold accounts, marked_srvs, marked_txts. simpl. rewrite !of_type_app, !app_nil_r.
  unfold srv_once, txt_once, txt_mark. split.
  - destruct fs, ft; simpl; rewrite ?of_type_txts; done.
  - destruct fs, ft; simpl; rewrite ?of_type_txts; try done; simpl; rewrite app_nil_r;
      case_bool_decide as E; try done; unfold txt_rrs; destruct (a_txt a); try done; by destruct E.
Qed.

Lemma balanced_srv ah ls : balanced ah (spec_srv ah ls).
Proof. intros a [fs ft]. unfold spec_srv. destruct fs; [by rewrite andb_false_r|]. by destruct (bool_decide _). Qed.

Lemma balanced_txt ah ls : balanced ah (spec_txt ls).
Proof.
  intros a [fs ft]. unfold spec_txt. destruct (_ && _ && _) eqn:E; [|apply accounts_nil].
  apply andb_prop in E as [_ E]. apply negb_true_iff in E. subst ft. simpl.
  unfold accounts, marked_srvs, marked_txts. simpl. rewrite !app_nil_r, !of_type_txts. done.
Qed.

Lemma accounts_question ah q l : let '(xs, _, l') := spec_question ah q l in accounts ah xs l l'.
Proof.
  unfold spec_question.
  assert (H1 : accounts ah (spec_host ah q).1 l l) by (unfold spec_host; by destruct (_ && _)).
  destruct (spec_host ah q) as [x1 b1]. simpl in H1.
  assert (H2 : let '(xs, _, l') := spec_ptr_part ah q l in accounts ah xs l l').
  { unfold spec_ptr_part. destruct (is_any_or _ _); [|apply accounts_nil].
    assert (HA : accounts ah (spec_arpa ah q).1 l l) by (unfold spec_arpa; by case_bool_decide).
    destruct (spec_arpa ah q) as [xs b]. pose proof (accounts_services ah _ l (balanced_ptr ah (q_labels q))) as HS.
    destruct (spec_services _ _) as [[ys c] l']. by eapply accounts_app. }
  destruct (spec_ptr_part ah q l) as [[x2 b2] l2].
  assert (H3 : let '(xs, _, l') := spec_srv_part ah q l2 in accounts ah xs l2 l').
  { unfold spec_srv_part. destruct (_ =? _); [apply accounts_services, balanced_srv|apply accounts_nil]. }
  destruct (spec_srv_part ah q l2) as [[x3 b3] l3].
  assert (H4 : let '(xs, _, l') := spec_txt_part q l3 in accounts ah xs l3 l').
  { unfold spec_txt_part. destruct (_ =? _); [apply accounts_services, balanced_txt|apply accounts_nil]. }
  destruct (spec_txt_part q l3) as [[x4 b4] l4].
  eapply accounts_app; [exact H1|]. eapply accounts_app; [exact H2|]. by eapply accounts_app.
Qed.

Lemma accounts_questions ah qs : forall l, let '(xs, _, l') := spec_questions ah qs l in accounts ah xs l l'.
Proof.
  induction qs as [|q qs IH]; intros l; simpl; [apply accounts_nil|].
  pose proof (accounts_question ah q l) as H1. destruct (spec_question ah q l) as [[xs b] l1].
  specialize (IH l1). destruct (spec_questions ah qs l1) as [[ys c] l2]. by eapply accounts_app.
Qed.

(** The SRV records of a response are among the host's, each at most once. *)
Lemma spec_response_once ah qs :
  of_type T_SRV (spec_response ah qs).1 ⊆+ map (srv_rr ah 255) (ah_services ah) /\
  of_type T_TXT (spec_response ah qs).1 ⊆+ flat_map (txt_rrs 255) (ah_services ah).
Proof.
  unfold spec_response. set (l0 := map _ (ah_services ah)).
  pose proof (accounts_questions ah qs l0) as H. destruct (spec_questions ah qs l0) as [[xs b] l'] eqn:E.
  apply spec_questions_fst in E. simpl. destruct H as [HS HT].
  assert (EM : marked_srvs ah l0 = [] /\ marked_txts l0 = []).
  { unfold l0. clear. induction (ah_services ah); [done|]. simpl. unfold marked_srvs, marked_txts in *. simpl. done. }
  destruct EM as [E1 E2]. rewrite E1, app_nil_r in HS. rewrite E2, app_nil_r in HT. rewrite HS, HT.
  assert (EL : map fst l' = ah_services ah) by (rewrite E; unfold l0; by rewrite map_map, map_id).
  rewrite <- EL. clear. split; induction l' as [|[a [fs ft]] l IH]; simpl; try done.
  - destruct fs; simpl; [by apply submseteq_skip|by apply submseteq_cons].
  - unfold marked_txts in *. simpl. destruct ft; [by apply submseteq_skips_l|]. simpl. by apply submseteq_inserts_l.
Qed.

(** ** The records of a response *)

(** Answers and the bits of the result: valid records, only the bits RS_SEND and
    RS_SEND_DELAY, and nothing to send only when there is no answer. *)
Definition answers_ok (xs : list rr) (b : Z) : Prop := Forall valid_rr xs /\ b = Z.land b 3 /\ (b = 0 -> xs = []).

Lemma answers_nil : answers_ok [] 0.
Proof. by split_and!; [constructor|..]. Qed.

Lemma answers_app xs b ys c : answers_ok xs b -> answers_ok ys c -> answers_ok (xs ++ ys) (Z.lor b c).
Proof.
  intros (V1 & B1 & N1) (V2 & B2 & N2). split_and!; [by apply Forall_app| |].
  - by rewrite Z.land_lor_distr_l, <- B1, <- B2.
  - intros [-> ->]%Z.lor_eq_0_iff. by rewrite N1, N2.
Qed.

Section Answers.
Context (h : host) (ah : ahost) (Hh : host_is h ah).

Lemma ttl_255 : word32 255.
Proof. unfold word32. lia. Qed.

(** A service of the host. *)
Definition listed (a : aservice) : Prop := exists s, service_is s a.

Lemma services_listed (f : bool * bool) : Forall (fun x => listed x.1) (map (fun a => (a, f)) (ah_services ah)).
Proof using Hh.
  destruct Hh as [_ _ _ Hs]. induction Hs as [|s a ss al H _ IH]; constructor; [by exists s|done].
Qed.

Definition step_valid (step : spec_step) : Prop := forall a f, listed a -> let '(xs, b, _) := step a f in answers_ok xs b.

Lemma services_ok step l : step_valid step -> Forall (fun x => listed x.1) l ->
  let '(xs, b, l') := spec_services step l in answers_ok xs b /\ Forall (fun x => listed x.1) l'.
Proof using.
  intros Hs. induction 1 as [|[a f] l Ha _ IH]; cbn; [split; [apply answers_nil|constructor]|].
  specialize (Hs a f Ha). destruct (step a f) as [[xs b] f']. destruct (spec_services step l) as [[ys c] l'].
  destruct IH as [Hy Hl]. split; [by apply answers_app|by constructor].
Qed.

Lemma srv_ok a f : listed a -> Forall valid_rr (srv_once ah a f).
Proof using Hh. intros [s Hs]. destruct f; [constructor|]. apply Forall_singleton. eapply valid_srv_rr; [done|apply ttl_255|done]. Qed.
Lemma txt_ok a f : listed a -> Forall valid_rr (txt_once a f).
Proof using. clear Hh. intros [s Hs]. destruct f; [constructor|]. eapply valid_txt_rrs; [apply ttl_255|done]. Qed.

Lemma spec_ptr_ok ls : step_valid (spec_ptr ah ls).
Proof using Hh.
  intros a [fs ft] Ha. cbn. destruct (_ || _); [|apply answers_nil]. split_and!; [|done|done].
  apply Forall_app. split; [by apply srv_ok|]. constructor; [|by apply txt_ok].
  destruct Ha as [s Hs]. eapply valid_ptr_rr; [apply ttl_255|done].
Qed.
Lemma spec_srv_ok ls : step_valid (spec_srv ah ls).
Proof using Hh. intros a [fs ft] Ha. cbn. destruct (_ && _); [|apply answers_nil]. split_and!; [by apply srv_ok|done|done]. Qed.
Lemma spec_txt_ok ls : step_valid (spec_txt ls).
Proof using. clear Hh. intros a [fs ft] Ha. cbn. destruct (_ && _); [|apply answers_nil]. split_and!; [by apply txt_ok|done|done]. Qed.

Lemma spec_question_ok q l : Forall (fun x => listed x.1) l ->
  let '(xs, b, l') := spec_question ah q l in answers_ok xs b /\ Forall (fun x => listed x.1) l'.
Proof using Hh.
  intros Hl. unfold spec_question.
  assert (answers_ok (spec_host ah q).1 (spec_host ah q).2) as H1.
  { unfold spec_host. destruct (_ && _); [|apply answers_nil]. split_and!; [|done|done].
    apply Forall_singleton. eapply valid_a_rr; [done|apply ttl_255]. }
  destruct (spec_host ah q) as [x1 b1]. cbn in H1.
  assert (let '(xs, b, l') := spec_ptr_part ah q l in answers_ok xs b /\ Forall (fun x => listed x.1) l') as H2.
  { unfold spec_ptr_part. destruct (is_any_or _ _); [|split; [apply answers_nil|done]].
    assert (answers_ok (spec_arpa ah q).1 (spec_arpa ah q).2) as Ha.
    { unfold spec_arpa. case_bool_decide; [|apply answers_nil]. split_and!; [|done|done].
      apply Forall_singleton. eapply valid_arpa_rr; [done|apply ttl_255]. }
    destruct (spec_arpa ah q) as [xs b]. pose proof (services_ok _ l (spec_ptr_ok (q_labels q)) Hl) as Hs.
    destruct (spec_services _ l) as [[ys c] l']. destruct Hs. split; [by apply answers_app|done]. }
  destruct (spec_ptr_part ah q l) as [[x2 b2] l2]. destruct H2 as [H2 Hl2].
  assert (let '(xs, b, l') := spec_srv_part ah q l2 in answers_ok xs b /\ Forall (fun x => listed x.1) l') as H3.
  { unfold spec_srv_part. destruct (_ =? _); [|split; [apply answers_nil|done]]. by apply services_ok; [apply spec_srv_ok|]. }
  destruct (spec_srv_part ah q l2) as [[x3 b3] l3]. destruct H3 as [H3 Hl3].
  assert (let '(xs, b, l') := spec_txt_part q l3 in answers_ok xs b /\ Forall (fun x => listed x.1) l') as H4.
  { unfold spec_txt_part. destruct (_ =? _); [|split; [apply answers_nil|done]]. by apply services_ok; [apply spec_txt_ok|]. }
  destruct (spec_txt_part q l3) as [[x4 b4] l4]. destruct H4 as [H4 Hl4].
  split; [|done]. by repeat apply answers_app.
Qed.

Lemma spec_response_ok qs : answers_ok (spec_response ah qs).1 (spec_response ah qs).2.
Proof using Hh.
  unfold spec_response. enough (forall l, Forall (fun x => listed x.1) l ->
    answers_ok (spec_questions ah qs l).1.1 (spec_questions ah qs l).1.2) as H.
  { specialize (H (map (fun a => (a, (false, false))) (ah_services ah))).
    destruct (spec_questions ah qs _) as [[xs b] l']. apply H, services_listed. }
  induction qs as [|q qs IH]; intros l Hl; cbn; [apply answers_nil|].
  pose proof (spec_question_ok q l Hl) as Hq. destruct (spec_question ah q l) as [[xs b] l1]. destruct Hq as [Hq Hl1].
  specialize (IH l1 Hl1). destruct (spec_questions ah qs l1) as [[ys c] l2]. by apply answers_app.
Qed.
End Answers.
