(* ===== verification/ResponderNames.v ===== *)
(** * The names of the responder

    [reset_fqdn], [reset_fqsn] and [ipaddr_to_inaddrarpa] build the names that
    the user's strings and address stand for, and the renaming after a conflict
    replaces the first label by the next one of the sequence. *)
From S2P Require Import Prelude Buffer Dname DnameSpec DnameText Message MessageSpec MessageParse Responder.
From S2P Require Import ResponderSpec.

(** ** Writing labels one after the other *)

(** What a sequence of writes leaves alone: everything before [o]. *)
Definition keeps_before (o : Z) (b b' : list Z) : Prop :=
  Zlen b' = Zlen b /\ forall j k, j + Zlen k <= o -> holds b j k -> holds b' j k.

Lemma put_label_spec dst o label :
  0 <= o -> Zlen label <= 63 -> o + Zlen label + 2 <= Zlen dst ->
  exists dst', dname_put_label dst o label = Ok (dst', o + 1 + Zlen label) /\
    holds dst' o (encode_label label ++ [0]) /\ keeps_before o dst dst'.
Proof.
  intros Ho Hl Hr. pose proof (Zlen_nonneg label) as Gl. unfold dname_put_label.
  assert (Hu : u8 (Zlen label) = Zlen label) by (apply u8_id; unfold is_byte; lia). rewrite Hu.
  destruct (wr_exists dst o (Zlen label)) as [d1 W1]; [lia|]. rewrite W1. cbn [mbind res_bind].
  pose proof (wr_Zlen _ _ _ _ W1) as L1.
  destruct (wr_range_exists d1 (o + 1) (label ++ [0])) as [d2 W2]; [lia|zlen; lia|]. rewrite W2. cbn [mbind res_bind].
  pose proof (wr_range_Zlen _ _ _ _ W2) as L2.
  exists d2. split_and!; [done| |split; [lia|]].
  - unfold encode_label. rewrite <- app_comm_cons. apply holds_cons. split; [|by eapply wr_range_holds].
    apply holds_rd. eapply wr_range_frame; [exact W2|zlen; lia|]. eapply wr_holds; [done|unfold is_byte; lia].
  - intros j k Hj Hk. eapply wr_range_frame; [exact W2|lia|]. eapply wr_frame; [exact W1|done|lia].
Qed.

Lemma keeps_before_trans o o' b1 b2 b3 :
  o <= o' -> keeps_before o b1 b2 -> keeps_before o' b2 b3 -> keeps_before o b1 b3.
Proof.
  intros Ho [L1 F1] [L2 F2]. split; [lia|]. intros j k Hj Hk. apply F2; [lia|]. by apply F1.
Qed.

Lemma Zlen_encode_label l : Zlen (encode_label l) = 1 + Zlen l.
Proof. unfold encode_label. by zlen. Qed.

(** Appending a label to the labels already written at the start of a buffer;
    the terminating 0 is overwritten. *)
Lemma put_label_append dst ls label :
  holds dst 0 (encode_labels ls) -> Zlen label <= 63 -> Zlen (encode_labels ls) + Zlen label + 2 <= Zlen dst ->
  exists dst', dname_put_label dst (Zlen (encode_labels ls)) label = Ok (dst', Zlen (encode_labels (ls ++ [label]))) /\
    holds dst' 0 (encode (ls ++ [label])) /\ Zlen dst' = Zlen dst.
Proof.
  intros Hh Hl Hr. destruct (put_label_spec dst (Zlen (encode_labels ls)) label) as (d & E & Hd & L & F);
    [apply Zlen_nonneg|done|done|].
  assert (EL : encode_labels (ls ++ [label]) = encode_labels ls ++ encode_label label).
  { rewrite encode_labels_app. f_equal. unfold encode_labels. simpl. by rewrite app_nil_r. }
  exists d. split_and!; [|unfold encode; rewrite EL, <- app_assoc|done].
  - rewrite E, EL. zlen. rewrite Zlen_encode_label. do 2 f_equal. lia.
  - eapply holds_join; [apply F; [lia|done]|done|lia].
Qed.

Lemma encode_labels_prefix b ls : holds b 0 (encode ls) -> holds b 0 (encode_labels ls).
Proof. intros H. unfold encode in H. by apply holds_app in H as [? _]. Qed.

(** ** The host name *)

Lemma reset_fqdn_spec h :
  1 <= Zlen (hname h) <= 63 -> 1 <= Zlen (domname h) <= 63 -> Zlen (fqdn h) = 256 ->
  exists n, reset_fqdn h = Ok (set_fqdn h n) /\ holds n 0 (encode [hname h; domname h]) /\ Zlen n = 256.
Proof.
  intros Hn Hd HL. unfold reset_fqdn.
  destruct (put_label_append (fqdn h) [] (hname h)) as (b1 & E1 & H1 & L1);
    [apply holds_nil; lia|lia|change (Zlen (encode_labels [])) with 0; lia|].
  change (Zlen (encode_labels [])) with 0 in E1. rewrite E1. cbn [mbind res_bind]. clear E1. simpl app in *.
  assert (EL : Zlen (encode_labels [hname h]) = 1 + Zlen (hname h)).
  { unfold encode_labels. simpl. rewrite app_nil_r. unfold encode_label. by zlen. }
  destruct (put_label_append b1 [hname h] (domname h)) as (b2 & E2 & H2 & L2);
    [by apply encode_labels_prefix|lia|lia|].
  rewrite E2. cbn [mbind res_bind]. exists b2. split_and!; [done|done|lia].
Qed.

Lemma name_arg_intro b o ls :
  Forall DnameSpec.valid_label ls -> holds b o (encode ls) -> Zlen (encode ls) <= 255 -> name_arg (b, o) ls.
Proof. done. Qed.

(** ** The service name *)

(** "_" followed by the type. *)
Definition type_label (s : mdns_service) : list Z := CH_UNDERSCORE :: servtype s.
Definition proto_label (s : mdns_service) : list Z := if proto s =? MDNS_PROTO_TCP then STR_TCP else STR_UDP.
Definition service_labels (dom : list Z) (s : mdns_service) : list (list Z) :=
  [servname s; type_label s; proto_label s; dom].

Lemma Zlen_proto_label s : Zlen (proto_label s) = 4.
Proof. unfold proto_label. by case_match. Qed.

Lemma Zlen_service_labels dom s :
  Zlen (encode (service_labels dom s)) = (Zlen (servname s) + 1) + (Zlen (servtype s) + 2) + 5 + (Zlen dom + 1) + 1.
Proof.
  unfold service_labels. rewrite !encode_cons. unfold type_label. zlen. rewrite Zlen_proto_label.
  change (Zlen (encode [])) with 1. lia.
Qed.

(** The type label is written one byte further on and then shifted into place
    by rewriting its first two bytes. *)
Lemma put_type_label b1 name type :
  holds b1 0 (encode_labels [name]) -> Zlen type <= 62 -> Zlen (encode_labels [name]) + Zlen type + 3 <= Zlen b1 ->
  let ptr := Zlen (encode_labels [name]) in
  exists b2 b3 b4,
    dname_put_label b1 (ptr + 1) type = Ok (b2, ptr + 2 + Zlen type) /\
    rd b2 (ptr + 1) = Ok (Zlen type) /\ wr b2 ptr (Zlen type + 1) = Ok b3 /\
    wr b3 (ptr + 1) CH_UNDERSCORE = Ok b4 /\
    holds b4 0 (encode_labels [name; CH_UNDERSCORE :: type]) /\ Zlen b4 = Zlen b1.
Proof.
  intros Hh Ht Hr ptr. pose proof (Zlen_nonneg (encode_labels [name])) as Gp. fold ptr in Gp, Hr.
  pose proof (Zlen_nonneg type) as Gt.
  destruct (put_label_spec b1 (ptr + 1) type) as (b2 & E2 & H2 & L2 & F2); [lia|lia|lia|].
  unfold encode_label in H2. rewrite <- app_comm_cons in H2. apply holds_cons in H2 as [R2 H2].
  apply holds_app in H2 as [H2 _].
  destruct (wr_exists b2 ptr (Zlen type + 1)) as [b3 W3]; [lia|]. pose proof (wr_Zlen _ _ _ _ W3) as L3.
  destruct (wr_exists b3 (ptr + 1) CH_UNDERSCORE) as [b4 W4]; [lia|]. pose proof (wr_Zlen _ _ _ _ W4) as L4.
  exists b2, b3, b4. replace (ptr + 2 + Zlen type) with (ptr + 1 + 1 + Zlen type) by lia. split_and!; try done; [|lia].
  change [name; CH_UNDERSCORE :: type] with ([name] ++ [CH_UNDERSCORE :: type]). rewrite encode_labels_app.
  eapply holds_join; [|..|reflexivity].
  - eapply wr_frame; [exact W4| |fold ptr; lia]. eapply wr_frame; [exact W3| |fold ptr; lia]. apply F2; [fold ptr; lia|done].
  - fold ptr. replace (encode_labels [CH_UNDERSCORE :: type]) with ((Zlen type + 1) :: CH_UNDERSCORE :: type).
    2: { unfold encode_labels, encode_label. simpl. rewrite app_nil_r. zlen. f_equal. lia. }
    apply holds_cons. split; [|apply holds_cons; split].
    + apply holds_rd. eapply wr_frame; [exact W4| |zlen; lia]. eapply wr_holds; [exact W3|unfold is_byte; lia].
    + apply holds_rd. eapply wr_holds; [exact W4|unfold is_byte, CH_UNDERSCORE; lia].
    + eapply wr_frame; [exact W4| |lia]. eapply wr_frame; [exact W3| |lia]. exact H2.
Qed.

Lemma reset_fqsn_spec dom s :
  1 <= Zlen (servname s) <= 63 -> 1 <= Zlen (servtype s) <= 62 -> 1 <= Zlen dom <= 63 -> Zlen (fqsn s) = 255 ->
  Zlen (encode (service_labels dom s)) <= 255 ->
  exists n, reset_fqsn dom s = Ok (set_fqsn s n (1 + Zlen (servname s))) /\
    holds n 0 (encode (service_labels dom s)) /\ Zlen n = 255.
Proof.
  intros Hn Ht Hd HL HE. rewrite Zlen_service_labels in HE. unfold reset_fqsn.
  assert (E0 : forall l, Zlen (encode_labels [l]) = 1 + Zlen l).
  { intros l. unfold encode_labels, encode_label. simpl. rewrite app_nil_r. by zlen. }
  destruct (put_label_append (fqsn s) [] (servname s)) as (b1 & E1 & H1 & L1);
    [apply holds_nil; lia|lia|change (Zlen (encode_labels [])) with 0; lia|].
  change (Zlen (encode_labels [])) with 0 in E1. rewrite E1. cbn [mbind res_bind]. clear E1. simpl app in *.
  destruct (put_type_label b1 (servname s) (servtype s)) as (b2 & b3 & b4 & E2 & R2 & W3 & W4 & H4 & L4);
    [by apply encode_labels_prefix|lia|rewrite E0; lia|].
  rewrite E2. cbn [mbind res_bind]. rewrite R2. cbn [mbind res_bind]. rewrite W3. cbn [mbind res_bind].
  rewrite W4. cbn [mbind res_bind].
  fold (type_label s) in H4. fold (proto_label s).
  assert (E3 : Zlen (encode_labels [servname s; type_label s]) = Zlen (encode_labels [servname s]) + 2 + Zlen (servtype s)).
  { change [servname s; type_label s] with ([servname s] ++ [type_label s]). rewrite encode_labels_app. zlen.
    rewrite !E0. unfold type_label. zlen. lia. }
  rewrite <- E3.
  destruct (put_label_append b4 [servname s; type_label s] (proto_label s)) as (b5 & E5 & H5 & L5);
    [done|rewrite Zlen_proto_label; lia|rewrite E3, E0, Zlen_proto_label; lia|].
  rewrite E5. cbn [mbind res_bind]. simpl app in *.
  assert (E6 : Zlen (encode_labels [servname s; type_label s; proto_label s]) =
               Zlen (encode_labels [servname s; type_label s]) + 5).
  { change [servname s; type_label s; proto_label s] with ([servname s; type_label s] ++ [proto_label s]).
    rewrite encode_labels_app, Zlen_app, E0, Zlen_proto_label. lia. }
  destruct (put_label_append b5 [servname s; type_label s; proto_label s] dom) as (b6 & E7 & H7 & L7);
    [by apply encode_labels_prefix|lia|rewrite E6, E3, E0; lia|].
  rewrite E7. cbn [mbind res_bind]. rewrite E0. exists b6. split_and!; [done|done|lia].
Qed.

(** The service name and, behind its first label, the name of its type. *)
Lemma reset_fqsn_name dom s :
  DnameSpec.valid_label (servname s) -> DnameSpec.valid_label (servtype s) -> Zlen (servtype s) <= 62 ->
  DnameSpec.valid_label dom -> Zlen (fqsn s) = 255 ->
  exists n, reset_fqsn dom s = Ok (set_fqsn s n (1 + Zlen (servname s))) /\ name_arg (n, 0) (service_labels dom s) /\
    name_arg (n, 1 + Zlen (servname s)) (tail (service_labels dom s)) /\ Zlen (encode (service_labels dom s)) + 2 <= 255.
Proof.
  intros [Hn Bn] [Ht Bt] Ht2 [Hd Bd] HL.
  assert (HE : Zlen (encode (service_labels dom s)) + 2 <= 255) by (rewrite Zlen_service_labels; lia).
  destruct (reset_fqsn_spec dom s) as (n & E & H & L); [lia|lia|lia|done|lia|].
  assert (HP : DnameSpec.valid_label (proto_label s)).
  { split; [rewrite Zlen_proto_label; lia|]. unfold proto_label. case_match; by_eval. }
  assert (HT : DnameSpec.valid_label (type_label s)).
  { unfold type_label. split; [zlen; lia|]. constructor; [unfold is_byte, CH_UNDERSCORE; lia|done]. }
  eexists. split; [exact E|]. simpl. split_and!; [| |lia].
  - apply name_arg_intro; [|done|lia]. repeat (constructor; [done|]). constructor.
  - unfold service_labels in H. rewrite encode_cons in H. apply holds_cons in H as [_ H].
    apply holds_app in H as [_ H]. apply name_arg_intro.
    + repeat (constructor; [done|]). constructor.
    + replace (1 + Zlen (servname s)) with (0 + 1 + Zlen (servname s)) by lia. exact H.
    + unfold service_labels in HE. rewrite encode_cons in HE. zlen. lia.
Qed.

(** ** The reverse name *)

(** The labels of the address bytes, lowest first. *)
Fixpoint byte_labels (k : nat) (ip : Z) : list (list Z) :=
  match k with O => [] | S k' => digits (ip mod 256) :: byte_labels k' (ip / 256) end.

Definition arpa_labels (ip : Z) : list (list Z) := byte_labels 4 ip ++ [STR_IN_ADDR; STR_ARPA].

Lemma digits_spec v : is_byte v ->
  1 <= Zlen (digits v) <= 3 /\ Forall (fun c => 48 <= c <= 57) (digits v).
Proof.
  intros Hv. unfold is_byte in Hv. unfold digits.
  destruct (Z.ltb_spec v 10); [|destruct (Z.ltb_spec v 100)]; (split; [unfold Zlen; simpl; lia|]).
  all: repeat constructor; Z.div_mod_to_equations; lia.
Qed.

Lemma digits_valid v : is_byte v -> DnameSpec.valid_label (digits v).
Proof.
  intros Hv. destruct (digits_spec v Hv) as [Hl Hd]. split; [lia|]. eapply Forall_impl; [|exact Hd].
  intros c Hc. cbv beta in Hc. unfold is_byte. lia.
Qed.

Lemma byte_mod v : is_byte (v mod 256).
Proof. apply Z.mod_pos_bound. lia. Qed.

Lemma byte_labels_valid k ip : Forall DnameSpec.valid_label (byte_labels k ip).
Proof. revert ip. induction k as [|k IH]; intros ip; constructor; [apply digits_valid, byte_mod|apply IH]. Qed.

Lemma Zlen_byte_labels k ip : Zlen (encode_labels (byte_labels k ip)) <= 4 * Z.of_nat k.
Proof.
  revert ip. induction k as [|k IH]; intros ip; [done|]. simpl byte_labels. rewrite encode_labels_cons. zlen.
  destruct (digits_spec (ip mod 256) (byte_mod ip)). specialize (IH (ip / 256)). lia.
Qed.

Lemma arpa_labels_name ip : valid_name (arpa_labels ip) /\ Zlen (encode (arpa_labels ip)) <= 30.
Proof.
  assert (HL : Zlen (encode (arpa_labels ip)) <= 30).
  { unfold arpa_labels. rewrite Zlen_encode, encode_labels_app. zlen. pose proof (Zlen_byte_labels 4 ip).
    change (Zlen (encode_labels [STR_IN_ADDR; STR_ARPA])) with 13. lia. }
  split; [|done]. split; [|lia]. apply Forall_app. split; [apply byte_labels_valid|].
  repeat constructor; unfold is_byte, Zlen; simpl; lia.
Qed.

Lemma inaddrarpa_loop_spec k : forall ip out ls,
  holds out 0 (encode_labels ls) -> Zlen (encode_labels ls) + 4 * Z.of_nat k + 1 <= Zlen out ->
  exists out', inaddrarpa_loop k ip out (Zlen (encode_labels ls)) =
      Ok (out', Zlen (encode_labels (ls ++ byte_labels k ip))) /\
    holds out' 0 (encode_labels (ls ++ byte_labels k ip)) /\ Zlen out' = Zlen out.
Proof.
  induction k as [|k IH]; intros ip out ls Hh Hr.
  - exists out. simpl. by rewrite app_nil_r.
  - cbn [inaddrarpa_loop]. rewrite land_255, Z.shiftr_div_pow2 by lia. change (2 ^ 8) with 256.
    destruct (digits_spec (ip mod 256) (byte_mod ip)) as [Hl _]. set (txt := digits (ip mod 256)) in *.
    set (p := Zlen (encode_labels ls)) in *. pose proof (Zlen_nonneg (encode_labels ls)) as Gp. fold p in Gp.
    destruct (wr_range_exists out (p + 1) (txt ++ [0])) as [o1 W1]; [lia|zlen; lia|].
    pose proof (wr_range_Zlen _ _ _ _ W1) as L1.
    destruct (wr_exists o1 p (Zlen txt)) as [o2 W2]; [lia|]. pose proof (wr_Zlen _ _ _ _ W2) as L2.
    rewrite W1. cbn [mbind res_bind]. rewrite W2. cbn [mbind res_bind].
    assert (HN : holds o2 0 (encode_labels (ls ++ [txt])) /\ Zlen (encode_labels (ls ++ [txt])) = p + (Zlen txt + 1)).
    { rewrite encode_labels_app. assert (EL : encode_labels [txt] = Zlen txt :: txt).
      { unfold encode_labels, encode_label. simpl. by rewrite app_nil_r. }
      rewrite EL. split; [|zlen; fold p; lia]. eapply holds_join; [| |reflexivity].
      - eapply wr_frame; [exact W2| |fold p; lia]. eapply wr_range_frame; [exact W1|left; fold p; lia|done].
      - fold p. apply holds_cons. split.
        + apply holds_rd. eapply wr_holds; [exact W2|unfold is_byte; lia].
        + eapply wr_frame; [exact W2| |lia]. apply wr_range_holds in W1. by apply holds_app in W1 as [? _]. }
    destruct HN as [HN EN]. rewrite <- EN.
    destruct (IH (ip / 256) o2 (ls ++ [txt]) HN) as (o3 & E3 & H3 & L3); [lia|].
    rewrite <- app_assoc in E3, H3. exists o3. split_and!; [exact E3|exact H3|lia].
Qed.

Lemma inaddrarpa_spec ip out :
  Zlen out = MDNS_INADDRARPA_LEN ->
  exists out', ipaddr_to_inaddrarpa ip out = Ok out' /\ holds out' 0 (encode (arpa_labels ip)) /\ Zlen out' = 30.
Proof.
  unfold MDNS_INADDRARPA_LEN. intros HL. unfold ipaddr_to_inaddrarpa.
  destruct (inaddrarpa_loop_spec 4 ip out []) as (o1 & E1 & H1 & L1);
    [apply holds_nil; lia|change (Zlen (encode_labels [])) with 0; lia|].
  change (Zlen (encode_labels [])) with 0 in E1. rewrite app_nil_l in E1, H1. rewrite E1. cbn [mbind res_bind].
  pose proof (Zlen_byte_labels 4 ip) as HB. set (p := Zlen (encode_labels (byte_labels 4 ip))) in *.
  assert (Gp : 0 <= p) by apply Zlen_nonneg.
  destruct (wr_exists o1 p 7) as [o2 W2]; [lia|]. pose proof (wr_Zlen _ _ _ _ W2) as L2.
  rewrite W2. cbn [mbind res_bind].
  destruct (wr_range_exists o2 (p + 1) (STR_IN_ADDR ++ [0])) as [o3 W3]; [lia|unfold STR_IN_ADDR; zlen; lia|].
  pose proof (wr_range_Zlen _ _ _ _ W3) as L3. rewrite W3. cbn [mbind res_bind].
  destruct (wr_exists o3 (p + 8) 4) as [o4 W4]; [lia|]. pose proof (wr_Zlen _ _ _ _ W4) as L4.
  rewrite W4. cbn [mbind res_bind].
  destruct (wr_range_exists o4 (p + 9) (STR_ARPA ++ [0])) as [o5 W5]; [lia|unfold STR_ARPA; zlen; lia|].
  pose proof (wr_range_Zlen _ _ _ _ W5) as L5. rewrite W5.
  exists o5. split_and!; [done| |lia].
  unfold arpa_labels, encode. rewrite encode_labels_app, <- app_assoc.
  change (encode_labels [STR_IN_ADDR; STR_ARPA] ++ [0]) with ([7] ++ STR_IN_ADDR ++ [4] ++ (STR_ARPA ++ [0])).
  assert (Z7 : Zlen STR_IN_ADDR = 7) by done.
  eapply holds_join; [| |reflexivity].
  - eapply wr_range_frame; [exact W5|left; fold p; lia|]. eapply wr_frame; [exact W4| |fold p; lia].
    eapply wr_range_frame; [exact W3|left; fold p; lia|]. eapply wr_frame; [exact W2|done|fold p; lia].
  - fold p. rewrite Z.add_0_l. eapply holds_join; [| |reflexivity].
    { eapply wr_range_frame; [exact W5|left; zlen; lia|]. eapply wr_frame; [exact W4| |zlen; lia].
      eapply wr_range_frame; [exact W3|left; zlen; lia|]. eapply wr_holds; [exact W2|unfold is_byte; lia]. }
    change (Zlen [7]) with 1. eapply holds_join; [| |reflexivity].
    { eapply wr_range_frame; [exact W5|left; lia|]. eapply wr_frame; [exact W4| |lia].
      apply wr_range_holds in W3. by apply holds_app in W3 as [? _]. }
    rewrite Z7. eapply holds_join; [| |reflexivity].
    { replace (p + 1 + 7) with (p + 8) by lia. eapply wr_range_frame; [exact W5|left; zlen; lia|].
      eapply wr_holds; [exact W4|unfold is_byte; lia]. }
    change (Zlen [4]) with 1. replace (p + 1 + 7 + 1) with (p + 9) by lia. by eapply wr_range_holds.
Qed.
