(* ===== verification/ResponderConflict.v ===== *)
(** * Renaming after a conflict

    The names the responder can have are the user's label and that label with
    the suffixes -2 to -9.  A response that claims one of our names moves that
    name to the next one, or back to the user's label after -9; all other names
    stay. *)
From S2P Require Import Prelude Buffer Dname DnameSpec DnameText Message MessageSpec MessageParse MessageSafe.
From S2P Require Import Responder ResponderSpec ResponseSpec ResponderNames.

(** ** Labels with a suffix *)

Definition dashed (l : list Z) : Prop := exists pre d, l = pre ++ [CH_DASH; d] /\ CH_2 <= d <= CH_9.

Lemma next_dashed pre d : CH_2 <= d <= CH_9 ->
  next_label (pre ++ [CH_DASH; d]) = if d <? CH_9 then Some (pre ++ [CH_DASH; d + 1]) else None.
Proof.
  intros Hd. rewrite next_label_last2. cbn [Z.eqb]. rewrite Z.eqb_refl. unfold CH_2, CH_9 in *.
  replace (50 <=? d) with true by lia. cbn [andb]. destruct (Z.ltb_spec d 57); [done|]. by replace (d =? 57) with true by lia.
Qed.

(** [good_label base l]: [l] is [base] or [base] with a suffix, and can be
    renamed. *)
Record good_label (base l : list Z) : Prop := mkGoodLabel {
  gl_valid : DnameSpec.valid_label l;
  gl_nul : no_nul l;
  gl_len : Zlen base <= Zlen l <= Zlen base + 2;
  gl_form : l = base \/ dashed l;
  gl_62 : dashed base \/ Zlen base <> 62 }.

Definition next_or_base (base l : list Z) : list Z :=
  match next_label l with Some l' => l' | None => base end.

Lemma grow_valid l : DnameSpec.valid_label l -> no_nul l -> Zlen l <> 62 ->
  DnameSpec.valid_label (grow_label l) /\ no_nul (grow_label l) /\ dashed (grow_label l) /\ Zlen l <= Zlen (grow_label l) <= Zlen l + 2.
Proof.
  intros [Hl Hb] Hn H62. unfold grow_label.
  assert (HD : forall x, dashed (x ++ [CH_DASH; CH_2])) by (intros x; exists x, CH_2; unfold CH_2, CH_9; split; [done|lia]).
  destruct (Z.leb_spec (Zlen l) 61).
  - split; [|split; [|split; [apply HD|zlen; lia]]].
    + split; [zlen; lia|]. apply Forall_app. split; [done|]. repeat constructor; unfold CH_DASH, CH_2; lia.
    + apply Forall_app. split; [done|by repeat constructor].
  - assert (HT : Zlen (take 61 l) = 61) by (unfold Zlen in *; rewrite length_take; lia).
    split; [|split; [|split; [apply HD|zlen; lia]]].
    + split; [zlen; lia|]. apply Forall_app. split; [by apply Forall_take|]. repeat constructor; unfold CH_DASH, CH_2; lia.
    + apply Forall_app. split; [by apply Forall_take|by repeat constructor].
Qed.

Lemma suffix_step pre d : DnameSpec.valid_label (pre ++ [CH_DASH; d]) -> no_nul (pre ++ [CH_DASH; d]) ->
  CH_2 <= d < CH_9 ->
  DnameSpec.valid_label (pre ++ [CH_DASH; d + 1]) /\ no_nul (pre ++ [CH_DASH; d + 1]) /\
  dashed (pre ++ [CH_DASH; d + 1]) /\ Zlen (pre ++ [CH_DASH; d + 1]) = Zlen (pre ++ [CH_DASH; d]).
Proof.
  intros [Hl Hb] Hn Hd. apply Forall_app in Hb as [Hb _]. apply Forall_app in Hn as [Hn _]. unfold CH_2, CH_9 in *.
  split_and!; [split; [by zlen|]| | |by zlen].
  - apply Forall_app. split; [done|]. repeat constructor; unfold CH_DASH; lia.
  - apply Forall_app. split; [done|]. repeat constructor; unfold CH_DASH; lia.
  - exists pre, (d + 1). split; [done|]. unfold CH_2, CH_9. lia.
Qed.

Lemma next_cases l : dashed l \/ (~ dashed l /\ next_label l = Some (grow_label l)).
Proof.
  destruct (Z.lt_ge_cases (Zlen l) 2) as [H1|H2].
  - right. split.
    + intros (pre & d & -> & _). zlen. pose proof (Zlen_nonneg pre). lia.
    + destruct l as [|c [|c' bs]]; [done|done|zlen; pose proof (Zlen_nonneg bs); lia].
  - destruct (list_last2 l H2) as (pre & s & d & ->). rewrite next_label_last2.
    assert (HD : dashed (pre ++ [s; d]) <-> s = CH_DASH /\ CH_2 <= d <= CH_9).
    { split; [|intros [-> ?]; by exists pre, d]. intros (pre' & d' & E & Hd).
      apply app_inj_2 in E as [_ E]; [|done]. by simplify_eq. }
    destruct (Z.eqb_spec s CH_DASH) as [->|Hs]; [|right; split; [by rewrite HD; intros [? _]|done]].
    unfold CH_2, CH_9 in *. destruct (Z.leb_spec 50 d), (Z.ltb_spec d 57), (Z.eqb_spec d 57); simpl; try lia.
    all: first [left; apply HD; split; [done|lia] | right; split; [rewrite HD; lia|done]].
Qed.

(** The next label of the sequence is good again. *)
Lemma next_good base l l' : good_label base l -> next_label l = Some l' ->
  good_label base l' /\ (Zlen l' = Zlen l \/ (l = base /\ l' = grow_label l)).
Proof.
  intros [Hv Hn Hl Hf H62] H. destruct (next_cases l) as [(pre & d & -> & Hd)|[Hnd E]].
  - rewrite next_dashed in H by done. case_match; [|done]. b2p. injection H as <-.
    destruct (suffix_step pre d Hv Hn ltac:(lia)) as (V & N & D & L).
    split; [constructor; try done; [lia|by right]|by left].
  - rewrite E in H. injection H as <-. destruct Hf as [->|Hf]; [|done].
    destruct H62 as [H62|H62]; [done|]. destruct (grow_valid base Hv Hn H62) as (V & N & D & L).
    split; [constructor; try done; by right|by right].
Qed.

Lemma next_or_base_good base l : good_label base l -> good_label base base -> good_label base (next_or_base base l).
Proof.
  intros G GB. unfold next_or_base. destruct (next_label l) eqn:E; [|done]. by apply (next_good base l).
Qed.

(** The buffer has room for the next label. *)
Lemma good_room name base l rest : good_label base l ->
  Zlen (encode (base :: rest)) + 2 <= Zlen name -> room_to_grow name l rest.
Proof.
  intros [_ _ _ Hf H62] HL E. destruct (next_cases l) as [(pre & d & -> & Hd)|[Hnd _]].
  - exfalso. rewrite next_dashed in E by done. case_match; [|done]. b2p. injection E as E.
    unfold grow_label in E. unfold CH_2, CH_9 in *. case_match.
    + apply (f_equal Zlen) in E. zlen. lia.
    + apply (f_equal reverse) in E. rewrite !reverse_app in E. simpl in E. injection E as E _. unfold CH_2 in E. lia.
  - destruct Hf as [->|Hf]; [|done]. split; [|done]. by destruct H62.
Qed.

(** The code that a renaming leaves in [ret]. *)
Definition rename_code (ret : Z) (l : list Z) : Z :=
  match next_label l with Some _ => note_conflict ret | None => -1 end.

(** ** The host *)

Record host_named (h : host) (l : list Z) : Prop := mkHostNamed {
  hn_size : Zlen (fqdn h) = 256;
  hn_dom : DnameSpec.valid_label (domname h) /\ no_nul (domname h);
  hn_base : good_label (hname h) (hname h);
  hn_label : good_label (hname h) l;
  hn_fqdn : holds (fqdn h) 0 (encode [l; domname h]) }.

Definition only_fqdn (h h' : host) : Prop := exists n, h' = set_fqdn h n.

Lemma rename_host_spec ret h l : host_named h l ->
  exists n, rename_host ret h = Ok (rename_code ret l, set_fqdn h n) /\
    host_named (set_fqdn h n) (next_or_base (hname h) l).
Proof.
  intros [HS [HD HDn] HB HL HF]. unfold rename_host, rename_code, next_or_base.
  pose proof (gl_valid _ _ HB) as [HBl _]. pose proof HD as [HDl _].
  assert (HR : room_to_grow (fqdn h) l [domname h]).
  { eapply good_room; [exact HL|]. rewrite !encode_cons. zlen. change (Zlen (encode [])) with 1. lia. }
  pose proof (dname_increment_spec (fqdn h) l [domname h] (gl_valid _ _ HL) ltac:(by apply Forall_singleton)
    (gl_nul _ _ HL) ltac:(by apply Forall_singleton) HF HR) as HI.
  destruct (next_label l) as [l'|] eqn:E.
  - destruct HI as (n & E1 & H1 & L1). exists n. rewrite E1. split; [done|].
    constructor; simpl; try done; [lia|by apply (next_good _ l)].
  - rewrite HI. cbn [mbind res_bind]. rewrite Z.eqb_refl.
    destruct (reset_fqdn_spec (set_fqdn h (fqdn h))) as (n & E1 & H1 & L1); [simpl; lia|simpl; lia|done|].
    exists n. rewrite E1. split; [done|]. by constructor.
Qed.

(** ** Services *)

Definition type_rest (dom : list Z) (s : mdns_service) : list (list Z) := [type_label s; proto_label s; dom].

Record service_named (dom : list Z) (s : mdns_service) (l : list Z) : Prop := mkServiceNamed {
  vn_size : Zlen (fqsn s) = 255;
  vn_rest : Forall DnameSpec.valid_label (type_rest dom s) /\ Forall no_nul (type_rest dom s);
  vn_type : 1 <= Zlen (servtype s);
  vn_base : good_label (servname s) (servname s);
  vn_fit : Zlen (encode (service_labels dom s)) + 2 <= 255;
  vn_label : good_label (servname s) l;
  vn_fqsn : holds (fqsn s) 0 (encode (l :: type_rest dom s));
  vn_ptr : ptrname s = 1 + Zlen l }.

Lemma vn_dims dom s l : service_named dom s l ->
  1 <= Zlen (servname s) <= 63 /\ 1 <= Zlen (servtype s) <= 62 /\ 1 <= Zlen dom <= 63.
Proof.
  intros [_ [Hr _] Hty Hb _ _ _ _]. pose proof (gl_valid _ _ Hb) as [Hn _].
  apply Forall_cons_iff in Hr as [[Ht _] Hr]. apply Forall_cons_iff in Hr as [_ Hr].
  apply Forall_cons_iff in Hr as [[Hd _] _]. unfold type_label in Ht. zlen. lia.
Qed.

Lemma encode_longer l l' rest : Zlen (encode (l' :: rest)) = Zlen (encode (l :: rest)) + (Zlen l' - Zlen l).
Proof. rewrite !encode_cons. zlen. lia. Qed.

(** The same service with another first label. *)
Definition only_fqsn (s s' : mdns_service) : Prop := exists n p, s' = set_fqsn s n p.

Lemma rename_service_spec dom ret s l : service_named dom s l ->
  exists n, rename_service dom ret s = Ok (rename_code ret l, set_fqsn s n (1 + Zlen (next_or_base (servname s) l))) /\
    service_named dom (set_fqsn s n (1 + Zlen (next_or_base (servname s) l))) (next_or_base (servname s) l).
Proof.
  intros HN. pose proof (vn_dims _ _ _ HN) as HDim. destruct HN as [HS [HR HRn] HT HB HF HL HQ HP].
  unfold rename_service, rename_code, next_or_base.
  pose proof (gl_valid _ _ HL) as HV.
  rewrite (dname_size_encode _ _ (l :: type_rest dom s)) by (done || by constructor). cbn [mbind res_bind].
  pose proof (dname_increment_spec (fqsn s) l (type_rest dom s) HV HR (gl_nul _ _ HL) HRn HQ
    ltac:(eapply good_room; [exact HL|rewrite HS; exact HF])) as HI.
  destruct (next_label l) as [l'|] eqn:E.
  - destruct HI as (n & E1 & H1 & L1). destruct (next_good _ _ _ HL E) as [G' HZ]. exists n. rewrite E1. cbn [mbind res_bind].
    simpl (0 =? -1). cbn iota. cbn [mbind res_bind set_fqsn fqsn ptrname mret res_ret].
    rewrite (dname_size_encode _ _ (l' :: type_rest dom s)); [|constructor; [apply G'|done]|done]. cbn [mbind res_bind].
    rewrite (encode_longer l l').
    assert (EP : forall b, b = (Zlen (encode (l :: type_rest dom s)) <? Zlen (encode (l :: type_rest dom s)) + (Zlen l' - Zlen l)) ->
       (if b then 1 + Zlen l + 2 else 1 + Zlen l) = 1 + Zlen l').
    { intros b ->. destruct HZ as [HZ|[-> ->]].
      - replace (_ <? _) with false by lia. lia.
      - unfold grow_label. destruct (Z.leb_spec (Zlen (servname s)) 61).
        + zlen. replace (_ <? _) with true by lia. lia.
        + assert (Zlen (take 61 (servname s)) = 61) by (unfold Zlen in *; rewrite length_take; lia).
          zlen. destruct HV as [HV _]. destruct (gl_62 _ _ HB) as [(pre & d & E' & Hd)|H62].
          * exfalso. rewrite E' in *. rewrite next_dashed in E by done. case_match; [|done].
            injection E as E. unfold grow_label in E. destruct (Z.leb_spec (Zlen (pre ++ [CH_DASH; d])) 61); [lia|].
            apply (f_equal reverse) in E. rewrite !reverse_app in E. simpl in E. injection E as E _. unfold CH_2 in *. lia.
          * replace (Zlen (servname s)) with 63 by lia. replace (_ <? _) with false by lia. lia. }
    specialize (EP _ eq_refl). rewrite HP.
    assert (HN : service_named dom (set_fqsn s n (1 + Zlen l')) l') by (constructor; simpl; try done; lia).
    split; [|done]. destruct (_ <? _); rewrite EP; done.
  - rewrite HI. cbn [mbind res_bind]. rewrite Z.eqb_refl.
    destruct (reset_fqsn_spec dom (set_fqsn s (fqsn s) (ptrname s))) as (n & E1 & H1 & L1);
      [simpl; lia|simpl; lia|simpl; lia|done|change (service_labels dom (set_fqsn s (fqsn s) (ptrname s))) with (service_labels dom s); lia|].
    rewrite E1. cbn [mbind res_bind mret res_ret]. simpl fqsn. change (set_fqsn (set_fqsn s (fqsn s) (ptrname s)) n _) with (set_fqsn s n (1 + Zlen (servname s))).
    change (service_labels dom (set_fqsn s (fqsn s) (ptrname s))) with (servname s :: type_rest dom s) in H1.
    rewrite (dname_size_encode _ _ (servname s :: type_rest dom s)); [|constructor; [apply HB|done]|done].
    cbn [mbind res_bind]. exists n. split; [|by constructor].
    rewrite (encode_longer l (servname s)).
    replace (_ <? _) with false; [done|]. symmetry. apply Z.ltb_ge.
    pose proof (gl_len _ _ HL). lia.
Qed.

(** ** What a response claims

    The abstract state: the code so far, the host's label and, per service, the
    user's label, the labels behind it and the present label. *)

Record svc := mkSvc { v_base : list Z; v_rest : list (list Z); v_label : list Z }.

Record names := mkNames { n_code : Z; n_host : list Z; n_services : list svc }.

Section Claims.
Context (base dom : list Z).

Definition claim_host (ls : list (list Z)) (n : names) : names :=
  if bool_decide (ls = [n_host n; dom])
  then mkNames (rename_code (n_code n) (n_host n)) (next_or_base base (n_host n)) (n_services n)
  else n.

Fixpoint claim_services (ls : list (list Z)) (ret : Z) (vs : list svc) : Z * list svc :=
  match vs with
  | [] => (ret, [])
  | v :: vs' =>
      let '(ret, v) := if bool_decide (ls = v_label v :: v_rest v)
        then (rename_code ret (v_label v), mkSvc (v_base v) (v_rest v) (next_or_base (v_base v) (v_label v)))
        else (ret, v) in
      let '(ret, vs') := claim_services ls ret vs' in (ret, v :: vs')
  end.

(** One record of the answer section: an A record claims the host name, an SRV
    record a service name. *)
Definition claim (x : list (list Z) * Z) (n : names) : names :=
  let n := if x.2 =? T_A then claim_host x.1 n else n in
  if x.2 =? T_SRV then
    let '(ret, vs) := claim_services x.1 (n_code n) (n_services n) in mkNames ret (n_host n) vs
  else n.

Definition claims (xs : list (list (list Z) * Z)) (n : names) : names := fold_left (fun n x => claim x n) xs n.
End Claims.

Definition service_as (dom : list Z) (s : mdns_service) (v : svc) : Prop :=
  service_named dom s (v_label v) /\ servname s = v_base v /\ type_rest dom s = v_rest v.

(** The concrete host has the abstract names. *)
Record has_names (h : host) (n : names) : Prop := mkHasNames {
  hs_host : host_named h (n_host n);
  hs_services : Forall2 (service_as (domname h)) (user_services h) (n_services n) }.

Lemma service_arg dom s l : service_named dom s l -> name_arg (fqsn s, 0) (l :: type_rest dom s).
Proof.
  intros [HS [HR _] _ HB HF HL HQ _]. split; [|split; [done|]].
  - constructor; [apply HL|done].
  - rewrite (encode_longer (servname s) l). change (encode (servname s :: type_rest dom s)) with (encode (service_labels dom s)).
    pose proof (gl_len _ _ HL). lia.
Qed.

Lemma host_arg h l : host_named h l -> name_arg (fqdn h, 0) [l; domname h].
Proof.
  intros [HS [HD _] HB HL HF]. pose proof (gl_valid _ _ HL) as [HV _]. pose proof HD as [HDl _].
  split; [|split; [done|]].
  - constructor; [apply HL|by apply Forall_singleton].
  - rewrite !encode_cons. zlen. change (Zlen (encode [])) with 1. lia.
Qed.

Lemma response_services_spec m dom rn ls : name_at (packet m) rn ls -> forall ss vs ret,
  Forall2 (service_as dom) ss vs ->
  let '(ret', vs') := claim_services ls ret vs in
  exists ss', returns (fun fuel => fold_services (response_service fuel m dom rn) ret ss) (ret', ss') /\
    Forall2 (service_as dom) ss' vs'.
Proof.
  intros Hn ss vs ret HF. revert ret. induction HF as [|s v ss vs (Hs & Eb & Er) HF IH]; intros ret; simpl.
  - exists []. split; [by apply returns_const|constructor].
  - assert (H1 : exists s1, returns (fun fuel => response_service fuel m dom rn ret s)
        (if bool_decide (ls = v_label v :: v_rest v) then rename_code ret (v_label v) else ret, s1) /\
        service_as dom s1 (if bool_decide (ls = v_label v :: v_rest v)
                           then mkSvc (v_base v) (v_rest v) (next_or_base (v_base v) (v_label v)) else v)).
    { pose proof (cmp_own m rn ls _ _ _ Hn (service_arg _ _ _ Hs)) as HC. rewrite Er in HC. case_bool_decide as E.
      - destruct (rename_service_spec dom ret s (v_label v) Hs) as (n & E1 & H1). rewrite Eb in E1, H1.
        eexists. split; [|split; [exact H1|done]]. eapply returns_bind; [exact HC|].
        rewrite cmp_zero, bool_decide_eq_true_2 by done. by apply returns_const.
      - exists s. split; [|done]. eapply returns_bind; [exact HC|].
        rewrite cmp_zero, bool_decide_eq_false_2 by done. by apply returns_const. }
    destruct H1 as (s1 & R1 & A1). destruct (bool_decide (ls = v_label v :: v_rest v)).
    + specialize (IH (rename_code ret (v_label v))).
      destruct (claim_services ls (rename_code ret (v_label v)) vs) as [ret' vs'].
      destruct IH as (ss' & R2 & A2). exists (s1 :: ss'). split; [|by constructor].
      eapply returns_bind; [exact R1|]. eapply returns_bind; [exact R2|by apply returns_const].
    + specialize (IH ret). destruct (claim_services ls ret vs) as [ret' vs'].
      destruct IH as (ss' & R2 & A2). exists (s1 :: ss'). split; [|by constructor].
      eapply returns_bind; [exact R1|]. eapply returns_bind; [exact R2|by apply returns_const].
Qed.

(** The answer section of a parsed message, names and types. *)
Definition claims_of (m : mdns_message) (xs : list (list (list Z) * Z)) : Prop :=
  num_answers m = Zlen xs /\
  forall k x, xs !! k = Some x -> exists r, answers m !! k = Some r /\ name_at (packet m) (r_name r) x.1 /\ r_type r = x.2.

Lemma response_answer_spec m r x h n : has_names h n -> name_at (packet m) (r_name r) x.1 -> r_type r = x.2 ->
  exists h', returns (fun fuel => response_answer fuel m r (n_code n) h) (n_code (claim (hname h) (domname h) x n), h') /\
    has_names h' (claim (hname h) (domname h) x n) /\ hname h' = hname h /\ domname h' = domname h.
Proof.
  intros [HH HS] Hn Ht. unfold claim. set (n1 := if x.2 =? T_A then claim_host (hname h) (domname h) x.1 n else n).
  assert (H1 : exists h1, returns (fun fuel => if r_type r =? T_A then
        c ← dname_cmp fuel (packet m) (r_name r) (own (fqdn h)) 0;
        if c =? 0 then rename_host (n_code n) h else mret (n_code n, h)
      else mret (n_code n, h)) (n_code n1, h1) /\
    has_names h1 n1 /\ hname h1 = hname h /\ domname h1 = domname h).
  { unfold n1. rewrite Ht. destruct (x.2 =? T_A); [|exists h; split; [by apply returns_const|done]].
    pose proof (cmp_own m _ _ _ _ _ Hn (host_arg _ _ HH)) as HC. unfold claim_host. case_bool_decide as E.
    - destruct (rename_host_spec (n_code n) h (n_host n) HH) as (nm & E1 & H1).
      exists (set_fqdn h nm). split; [|done]. eapply returns_bind; [exact HC|].
      rewrite cmp_zero, bool_decide_eq_true_2 by done. by apply returns_const.
    - exists h. split; [|done]. eapply returns_bind; [exact HC|].
      rewrite cmp_zero, bool_decide_eq_false_2 by done. by apply returns_const. }
  destruct H1 as (h1 & R1 & [HH1 HS1] & Eh & Ed). unfold response_answer. rewrite Ht in R1 |- *.
  destruct (x.2 =? T_SRV).
  - pose proof (response_services_spec m (domname h1) (r_name r) x.1 Hn (user_services h1) (n_services n1) (n_code n1) HS1) as H2.
    destruct (claim_services x.1 (n_code n1) (n_services n1)) as [ret' vs']. destruct H2 as (ss' & R2 & A2).
    exists (set_services h1 ss'). split; [|split; [|done]].
    + eapply returns_bind; [exact R1|]. eapply returns_bind; [exact R2|by apply returns_const].
    + constructor; [|exact A2]. destruct HH1. by constructor.
  - exists h1. split; [|done]. eapply returns_bind; [exact R1|by apply returns_const].
Qed.

Lemma response_answers_spec m xs : forall i h n,
  has_names h n ->
  (forall k x, xs !! k = Some x -> exists r, answers m !! (i + k)%nat = Some r /\
     name_at (packet m) (r_name r) x.1 /\ r_type r = x.2) ->
  let n' := claims (hname h) (domname h) xs n in
  exists h', returns (fun fuel => response_answers fuel m (length xs) i (n_code n) h) (n_code n', h') /\ has_names h' n'.
Proof.
  induction xs as [|x xs IH]; intros i h n HN Hxs; simpl.
  - exists h. split; [by apply returns_const|done].
  - destruct (Hxs 0%nat x eq_refl) as (r & Er & Hr & Ht). rewrite Nat.add_0_r in Er.
    destruct (response_answer_spec m r x h n HN Hr Ht) as (h1 & R1 & HN1 & Eh & Ed).
    destruct (IH (S i) h1 _ HN1) as (h2 & R2 & HN2).
    { intros k y Hk. destruct (Hxs (S k) y Hk) as (r' & E' & ?). exists r'. split; [|done].
      by replace (S i + k)%nat with (i + S k)%nat by lia. }
    rewrite Eh, Ed in R2, HN2. exists h2. split; [|done].
    eapply returns_bind; [rewrite (nth_lookup_Some _ _ _ _ Er); exact R1|exact R2].
Qed.

Lemma fix_response_spec m p h n xs :
  has_names h n -> n_code n = 0 -> claims_of m xs ->
  (exists qr, header_qr m = Ok qr /\ (qr <> QUERY \/ num_authorities m <= 0)) ->
  let n' := claims (hname h) (domname h) xs n in
  exists h', returns (fun fuel => fix_response_conflicts fuel m p h) (n_code n', h') /\ has_names h' n'.
Proof.
  intros HN Hc [Hnum Hxs] (qr & Eqr & Hqr) n'.
  destruct (response_answers_spec m xs 0 h n HN Hxs) as (h' & R & HN'). exists h'. split; [|done].
  eapply returns_ext; [|exact R]. intros fuel. unfold fix_response_conflicts. rewrite Eqr. cbn [mbind res_bind].
  replace ((qr =? QUERY) && (0 <? num_authorities m)) with false.
  - rewrite Hc, Hnum. f_equal. unfold Zlen. lia.
  - symmetry. apply andb_false_iff. destruct Hqr; [left|right]; lia.
Qed.
