(* ===== verification/ResponderRun.v ===== *)
(** * Runs of the responder thread

    [reachable] is the step relation of [do_responder]: the states at the head
    of the loop, with everything sent so far.  The invariant says what the
    thread must have sent to be in its state; in particular it answers queries
    only after three identical probes and an announcement for the names it has
    now. *)
From S2P Require Import Prelude Buffer Dname DnameSpec DnameText Message MessageSpec Responder.

(** ** Names are all that matters

    Two hosts with the same names differ at most in the flags of services. *)
Definition same_service (s s' : mdns_service) : Prop := exists f, s' = set_flags s f.

Record same_names (h h' : host) : Prop := mkSameNames {
  sn_hname : hname h' = hname h;
  sn_domname : domname h' = domname h;
  sn_fqdn : fqdn h' = fqdn h;
  sn_arpa : in_addr_arpa h' = in_addr_arpa h;
  sn_ip : my_ipaddr h' = my_ipaddr h;
  sn_services : Forall2 same_service (user_services h) (user_services h') }.

#[global] Instance same_service_equivalence : Equivalence same_service.
Proof.
  split.
  - intros s. exists (flags s). by destruct s.
  - intros s s' [f ->]. exists (flags s). by destruct s.
  - intros s1 s2 s3 [f ->] [g ->]. by exists g.
Qed.

#[global] Instance same_names_equivalence : Equivalence same_names.
Proof.
  split.
  - intros h. constructor; try done.
  - intros h h' []. constructor; done.
  - intros h1 h2 h3 [] []. constructor; try congruence. by etrans.
Qed.

Lemma same_names_services h ss : Forall2 same_service (user_services h) ss -> same_names h (set_services h ss).
Proof. intros. by constructor. Qed.

(** ** A message without conflicts changes no name

    The code records a conflict in [ret] and never clears it again. *)
Definition conflict_code (r : Z) : Prop := r = 0 \/ r = 1 \/ r = -1.

Lemma note_conflict_code r : conflict_code r -> conflict_code (note_conflict r) /\ note_conflict r <> 0.
Proof. unfold conflict_code, note_conflict. intros [->|[->| ->]]; simpl; lia. Qed.

Lemma rename_host_conflict ret h ret' h' :
  rename_host ret h = Ok (ret', h') -> conflict_code ret -> conflict_code ret' /\ ret' <> 0.
Proof.
  unfold rename_host. intros H Hc. inv_bind. destruct x as [e n]. case_match.
  - inv_bind. unfold mret, res_ret in H. simplify_eq. unfold conflict_code. lia.
  - unfold mret, res_ret in H. simplify_eq. by apply note_conflict_code.
Qed.

Lemma rename_service_conflict dom ret s ret' s' :
  rename_service dom ret s = Ok (ret', s') -> conflict_code ret -> conflict_code ret' /\ ret' <> 0.
Proof.
  unfold rename_service. intros H Hc. inv_bind. inv_bind. destruct x0 as [e n]. inv_bind. destruct x0 as [r s1].
  assert (conflict_code r /\ r <> 0).
  { clear H. case_match.
    - inv_bind. unfold mret, res_ret in Hx1. simplify_eq. unfold conflict_code. lia.
    - unfold mret, res_ret in Hx1. simplify_eq. by apply note_conflict_code. }
  inv_bind. by case_match; unfold mret, res_ret in H; simplify_eq.
Qed.

(** [quiet R f]: [f] returns a code, and when it is 0, [f] started with 0 and
    changed its state only within [R]. *)
Definition quiet {A} (R : A -> A -> Prop) (f : Z -> A -> res (Z * A)) : Prop :=
  forall ret a r a', f ret a = Ok (r, a') -> conflict_code ret ->
  conflict_code r /\ (r = 0 -> ret = 0 /\ R a a').

Lemma quiet_ret {A} (R : A -> A -> Prop) `{!Reflexive R} (ret : Z) (a : A) r a' :
  mret (ret, a) = Ok (r, a') -> conflict_code ret -> conflict_code r /\ (r = 0 -> ret = 0 /\ R a a').
Proof. unfold mret, res_ret. intros ? ?. by simplify_eq. Qed.

Lemma fold_services_quiet body : quiet same_service body -> quiet (Forall2 same_service) (fold_services body).
Proof.
  intros Hb ret ss. revert ret. induction ss as [|s ss IH]; intros ret r ss' H Hc; cbn [fold_services] in H.
  - exact (quiet_ret _ _ _ _ _ H Hc).
  - inv_bind. destruct x as [r1 s1]. inv_bind. destruct x as [r2 ss1]. unfold mret, res_ret in H. simplify_eq.
    destruct (Hb _ _ _ _ Hx Hc) as [C1 Q1]. destruct (IH _ _ _ Hx0 C1) as [C2 Q2].
    split; [done|]. intros E. destruct (Q2 E) as [E1 HF]. destruct (Q1 E1) as [E0 Hs]. split; [done|by constructor].
Qed.

Lemma probe_service_quiet fuel m p dom qn : quiet same_service (probe_service fuel m p dom qn).
Proof.
  intros ret s r s' H Hc. unfold probe_service in H. case_match; [exact (quiet_ret _ _ _ _ _ H Hc)|].
  inv_bind. case_match; [exact (quiet_ret _ _ _ _ _ H Hc)|]. inv_bind. inv_bind. destruct x1 as [r1 s1].
  unfold mret, res_ret in H. simplify_eq. case_match.
  - apply rename_service_conflict in Hx1 as [? ?]; done.
  - unfold mret, res_ret in Hx1. simplify_eq. split; [done|]. split; [done|by eexists].
Qed.

Lemma probe_question_quiet fuel m p q : quiet same_names (probe_question fuel m p q).
Proof.
  intros ret h r h' H Hc. unfold probe_question in H. case_match; [exact (quiet_ret _ _ _ _ _ H Hc)|].
  inv_bind. inv_bind. destruct x0 as [r1 h1]. inv_bind. destruct x0 as [r2 ss]. unfold mret, res_ret in H. simplify_eq.
  assert (conflict_code r1 /\ (r1 = 0 -> ret = 0 /\ h1 = h)) as [C1 Q1].
  { clear Hx1. case_match; [|unfold mret, res_ret in Hx0; by simplify_eq]. inv_bind.
    case_match; [by apply rename_host_conflict in Hx0 as [? ?]|]. unfold mret, res_ret in Hx0. by simplify_eq. }
  destruct (fold_services_quiet _ (probe_service_quiet fuel m p _ _) _ _ _ _ Hx1 C1) as [C2 Q2].
  split; [done|]. intros E. destruct (Q2 E) as [E1 HF]. destruct (Q1 E1) as [E0 ->].
  split; [done|by apply same_names_services].
Qed.

(** A loop over the elements of a section. *)
Lemma quiet_loop {A} (R : A -> A -> Prop) `{!Reflexive R, !Transitive R}
    (loop : nat -> nat -> Z -> A -> res (Z * A)) (body : nat -> Z -> A -> res (Z * A)) :
  (forall i ret a, loop 0%nat i ret a = mret (ret, a)) ->
  (forall k i ret a, loop (S k) i ret a = ('(ret, a) ← body i ret a; loop k (S i) ret a)) ->
  (forall i, quiet R (body i)) -> forall k i, quiet R (loop k i).
Proof.
  intros E0 ES Hb k. induction k as [|k IH]; intros i ret a r a' H Hc.
  - rewrite E0 in H. exact (quiet_ret _ _ _ _ _ H Hc).
  - rewrite ES in H. inv_bind. destruct x as [r1 a1]. destruct (Hb _ _ _ _ _ Hx Hc) as [C1 Q1].
    destruct (IH _ _ _ _ _ H C1) as [C2 Q2]. split; [done|]. intros E. destruct (Q2 E) as [E1 H2].
    destruct (Q1 E1) as [E0' H1]. split; [done|by etrans].
Qed.

Lemma response_service_quiet fuel m dom rn : quiet same_service (response_service fuel m dom rn).
Proof.
  intros ret s r s' H Hc. unfold response_service in H. inv_bind.
  case_match; [by apply rename_service_conflict in H as [? ?]|exact (quiet_ret _ _ _ _ _ H Hc)].
Qed.

Lemma response_answer_quiet fuel m x : quiet same_names (response_answer fuel m x).
Proof.
  intros ret h r h' H Hc. unfold response_answer in H. inv_bind. destruct x0 as [r1 h1].
  assert (conflict_code r1 /\ (r1 = 0 -> ret = 0 /\ h1 = h)) as [C1 Q1].
  { clear H. case_match; [|unfold mret, res_ret in Hx; by simplify_eq]. inv_bind.
    case_match; [by apply rename_host_conflict in Hx as [? ?]|]. unfold mret, res_ret in Hx. by simplify_eq. }
  case_match.
  - inv_bind. destruct x0 as [r2 ss]. unfold mret, res_ret in H. simplify_eq.
    destruct (fold_services_quiet _ (response_service_quiet fuel m _ _) _ _ _ _ Hx0 C1) as [C2 Q2].
    split; [done|]. intros E. destruct (Q2 E) as [E1 HF]. destruct (Q1 E1) as [E0 ->].
    split; [done|by apply same_names_services].
  - unfold mret, res_ret in H. simplify_eq. split; [done|]. intros E. by destruct (Q1 E) as [-> ->].
Qed.

Lemma fix_response_conflicts_quiet fuel m p h r h' :
  fix_response_conflicts fuel m p h = Ok (r, h') -> conflict_code r /\ (r = 0 -> same_names h h').
Proof.
  unfold fix_response_conflicts. intros H. inv_bind. assert (C0 : conflict_code 0) by (by left). case_match.
  - destruct (quiet_loop same_names (probe_questions fuel m p)
      (fun i => probe_question fuel m p (nth i (questions m) default_question)) ltac:(done) ltac:(done)
      (fun i => probe_question_quiet fuel m p _) _ _ _ _ _ _ H C0) as [C Q].
    split; [done|]. intros E. destruct (Q E) as [_ HS]. etrans; [|exact HS]. apply same_names_services.
    clear. induction (user_services h) as [|s ss IH]; simpl; constructor; [by eexists|done].
  - destruct (quiet_loop same_names (response_answers fuel m)
      (fun i => response_answer fuel m (nth i (answers m) default_resource)) ltac:(done) ltac:(done)
      (fun i => response_answer_quiet fuel m _) _ _ _ _ _ _ H C0) as [C Q].
    split; [done|]. intros E. by destruct (Q E) as [_ HS].
Qed.

(** ** Responding changes no name *)

Definition flags_only (f : Z -> mdns_message -> mdns_service -> res (Z * mdns_message * mdns_service)) : Prop :=
  forall ret tx s ret' tx' s', f ret tx s = Ok (ret', tx', s') -> same_service s s'.

(** Close a branch that returns a service changed in its flags only. *)
Ltac ret_same H := unfold mret, res_ret in H; simplify_eq; first [reflexivity | by eexists | done].

Lemma add_srv_flags h bits : flags_only (fun ret tx s => add_srv_answer h ret tx s bits).
Proof.
  intros ret tx s ret' tx' s' H. unfold add_srv_answer in H. inv_bind. destruct x as [e t]. case_match; ret_same H.
Qed.

Lemma add_txt_flags kv bits : flags_only (fun ret tx s => add_txt_answer ret tx s kv bits).
Proof.
  intros ret tx s ret' tx' s' H. unfold add_txt_answer in H. inv_bind. destruct x as [e t]. case_match; ret_same H.
Qed.

Lemma respond_ptr_flags fuel h rx qn : flags_only (respond_ptr fuel h rx qn).
Proof.
  intros ret tx s ret' tx' s' H. unfold respond_ptr in H. inv_bind. inv_bind. case_match; [ret_same H|].
  inv_bind. destruct x1 as [[r1 t1] s1].
  assert (HSA : same_service s s1).
  { clear H. case_match; [ret_same Hx1|by eapply add_srv_flags]. }
  etrans; [exact HSA|]. case_match; [ret_same H|]. inv_bind. destruct x1 as [e t2]. case_match; [ret_same H|].
  inv_bind. destruct x1 as [[r3 t3] s3].
  assert (HSB : same_service s1 s3).
  { clear H. case_match; [|ret_same Hx3]. case_match; [ret_same Hx3|by eapply add_txt_flags]. }
  etrans; [exact HSB|]. case_match; ret_same H.
Qed.

Lemma respond_srv_flags fuel h rx qn : flags_only (respond_srv fuel h rx qn).
Proof.
  intros ret tx s ret' tx' s' H. unfold respond_srv in H. inv_bind. case_match; [by eapply add_srv_flags|ret_same H].
Qed.

Lemma respond_txt_flags fuel rx qn : flags_only (respond_txt fuel rx qn).
Proof.
  intros ret tx s ret' tx' s' H. unfold respond_txt in H. inv_bind. case_match; [|ret_same H].
  case_match; [by eapply add_txt_flags|ret_same H].
Qed.

Lemma for_services_flags body : flags_only body -> forall ss ret tx ret' tx' ss',
  for_services body ret tx ss = Ok (ret', tx', ss') -> Forall2 same_service ss ss'.
Proof.
  intros Hb ss. induction ss as [|s ss IH]; intros ret tx ret' tx' ss' H; cbn [for_services] in H.
  - unfold mret, res_ret in H. by simplify_eq.
  - inv_bind. destruct x as [[r1 t1] s1]. apply Hb in Hx. case_match.
    + unfold mret, res_ret in H. simplify_eq. constructor; [done|]. reflexivity.
    + inv_bind. destruct x as [[r2 t2] ss2]. unfold mret, res_ret in H. simplify_eq. apply IH in Hx0. by constructor.
Qed.

Lemma respond_question_flags fuel h rx q ret tx ss ret' tx' ss' :
  respond_question fuel h rx q ret tx ss = Ok (ret', tx', ss') -> Forall2 same_service ss ss'.
Proof.
  intros H. unfold respond_question in H. inv_bind. destruct x as [r1 t1]. case_match; [ret_same H|].
  inv_bind. destruct x as [[r2 t2] s2].
  assert (HSA : Forall2 same_service ss s2).
  { clear H. case_match; [|ret_same Hx0]. inv_bind. destruct x as [r3 t3]. case_match; [ret_same Hx0|].
    by eapply for_services_flags; [apply respond_ptr_flags|]. }
  etrans; [exact HSA|]. case_match; [ret_same H|]. inv_bind. destruct x as [[r3 t3] s3].
  assert (HSB : Forall2 same_service s2 s3).
  { clear H. case_match; [|ret_same Hx1]. by eapply for_services_flags; [apply respond_srv_flags|]. }
  etrans; [exact HSB|]. case_match; [ret_same H|].
  case_match; [|ret_same H]. by eapply for_services_flags; [apply respond_txt_flags|].
Qed.

Lemma respond_questions_flags fuel h rx k : forall i ret tx ss ret' tx' ss',
  respond_questions fuel h rx k i ret tx ss = Ok (ret', tx', ss') -> Forall2 same_service ss ss'.
Proof.
  induction k as [|k IH]; intros i ret tx ss ret' tx' ss' H; cbn [respond_questions] in H; [ret_same H|].
  inv_bind. destruct x as [[r1 t1] s1]. apply respond_question_flags in Hx. etrans; [exact Hx|].
  case_match; [ret_same H|by eapply IH].
Qed.

Lemma prepare_response_flags fuel h rx tx ret tx' ss :
  prepare_response fuel h rx tx = Ok (ret, tx', ss) -> Forall2 same_service (user_services h) ss.
Proof.
  intros H. unfold prepare_response in H. inv_bind. case_match; [ret_same H|].
  inv_bind. destruct x0 as [e t]. inv_bind. inv_bind. apply respond_questions_flags in H. etrans; [|exact H].
  clear. induction (user_services h) as [|s ss IH]; simpl; constructor; [by eexists|done].
Qed.

(** ** Packets *)

(** [p] is what [prepare_probe] leaves to be sent for the names of [h]. *)
Definition probe_of (h : host) (p : send) : Prop :=
  exists fuel h0 tx0 ret tx, same_names h0 h /\ prepare_probe fuel h0 tx0 = Ok (ret, tx) /\ p = (mdns_send_msg tx, MDNS_PORT).

(** [p] is a complete announcement of the names of [h] with a TTL of 255. *)
Definition announcement_of (h : host) (p : send) : Prop :=
  exists h0 tx0 tx, same_names h0 h /\ prepare_announcement h0 tx0 255 = Ok (0, tx) /\ p = (mdns_send_msg tx, MDNS_PORT).

Lemma probe_of_same h h' p : same_names h h' -> probe_of h p -> probe_of h' p.
Proof. intros S (fuel & h0 & tx0 & ret & tx & S0 & E & Ep). exists fuel, h0, tx0, ret, tx. split; [by etrans|done]. Qed.

Lemma announcement_of_same h h' p : same_names h h' -> announcement_of h p -> announcement_of h' p.
Proof. intros S (h0 & tx0 & tx & S0 & E & Ep). exists h0, tx0, tx. split; [by etrans|done]. Qed.

(** ** Reachable states *)

Inductive reachable (h : host) (tx rx : mdns_message) (rand : Z) : rstate -> list send -> Prop :=
| reachable_start : reachable h tx rx rand (responder_start h tx rx rand) []
| reachable_step st out fuel it st' out' :
    reachable h tx rx rand st out -> responder_enabled st = true ->
    responder_step fuel st it = Ok (st', out', true) ->
    reachable h tx rx rand st' (out ++ out').

(** [k] probes for the present names were the last packets sent. *)
Definition probed (st : rstate) (out : list send) (k : nat) : Prop :=
  exists pre p, probe_of (rhost st) p /\ out = pre ++ replicate k p /\
    ((k < 3)%nat -> p = (mdns_send_msg (tx_msg st), MDNS_PORT)).

Definition claimed (st : rstate) (out : list send) : Prop :=
  exists pre p a post, probe_of (rhost st) p /\ announcement_of (rhost st) a /\ out = pre ++ [p; p; p; a] ++ post.

Definition run_inv (st : rstate) (out : list send) : Prop :=
  match state st with
  | INIT => True
  | FIRST_PROBE_SENT => probed st out 1
  | SECOND_PROBE_SENT => probed st out 2
  | THIRD_PROBE_SENT => probed st out 3
  | READY_TO_RESPOND | READY_TO_SEND => claimed st out
  end.

Lemma probed_next st out k st' :
  probed st out k -> (k < 3)%nat -> same_names (rhost st) (rhost st') -> tx_msg st' = tx_msg st ->
  probed st' (out ++ [(mdns_send_msg (tx_msg st), MDNS_PORT)]) (S k).
Proof.
  intros (pre & p & Hp & -> & Ht) Hk S ET. exists pre, p. split; [by eapply probe_of_same|].
  rewrite <- Ht, <- app_assoc by done. split.
  - f_equal. change [p] with (replicate 1 p). rewrite <- replicate_add. f_equal. lia.
  - intros _. rewrite ET. by apply Ht.
Qed.

Lemma probed_same st out k st' :
  probed st out k -> same_names (rhost st) (rhost st') -> ((k < 3)%nat -> tx_msg st' = tx_msg st) -> probed st' out k.
Proof.
  intros (pre & p & Hp & E & Ht) S ET. exists pre, p. split; [by eapply probe_of_same|]. split; [done|].
  intros Hk. rewrite ET by done. by apply Ht.
Qed.

Lemma claimed_same st out st' out' :
  claimed st out -> same_names (rhost st) (rhost st') -> claimed st' (out ++ out').
Proof.
  intros (pre & p & a & post & Hp & Ha & ->) S. exists pre, p, a, (post ++ out').
  split; [by eapply probe_of_same|]. split; [by eapply announcement_of_same|]. by rewrite <- !app_assoc.
Qed.

(** ** The invariant *)

Lemma probe_rx_cases fuel st it st' : probe_rx fuel st it = Ok st' ->
  tx_msg st' = tx_msg st /\
  (state st' = INIT \/ (state st' = state st /\ same_names (rhost st) (rhost st'))).
Proof.
  unfold probe_rx, process_probe_resp. intros H. inv_bind. destruct x as [[s w] h']. inv_bind. destruct x as [r h1].
  unfold mret, res_ret in H. simplify_eq. split; [done|]. simpl.
  apply fix_response_conflicts_quiet in Hx0 as [C Q].
  case_match; [unfold mret, res_ret in Hx; simplify_eq; by left|].
  case_match; [unfold mret, res_ret in Hx; simplify_eq; by left|].
  unfold mret, res_ret in Hx. simplify_eq. right. split; [done|]. apply Q. unfold conflict_code in C. b2p. lia.
Qed.

Lemma run_inv_probe_rx fuel st it st' out :
  (forall st1, state st1 = state st -> tx_msg st1 = tx_msg st -> same_names (rhost st) (rhost st1) -> run_inv st1 out) ->
  probe_rx fuel st it = Ok st' -> run_inv st' out.
Proof.
  intros HI H. apply probe_rx_cases in H as (ET & [E|[E S]]); [unfold run_inv; by rewrite E|by apply HI].
Qed.

(** The probing states survive anything that keeps names and message. *)
Lemma run_inv_stay st out : run_inv st out ->
  forall st1, state st1 = state st -> tx_msg st1 = tx_msg st -> same_names (rhost st) (rhost st1) -> run_inv st1 out.
Proof.
  unfold run_inv. intros HI st1 E ET S. rewrite E. destruct (state st); try done.
  1-3: by eapply probed_same.
  all: rewrite <- (app_nil_r out); by eapply claimed_same.
Qed.

Lemma on_probe_sent_inv fuel next k st ev it st' out out' :
  (k < 3)%nat -> run_inv st out -> probed st out k ->
  (forall st1, state st1 = next -> run_inv st1 = fun out => probed st1 out (S k)) ->
  on_probe_sent fuel next st ev it = Ok (st', out') -> run_inv st' (out ++ out').
Proof.
  intros Hk HI HP HN H. pose proof (run_inv_stay st out HI) as HS. destruct ev; cbn [on_probe_sent] in H.
  - case_match.
    + inv_bind. unfold mret, res_ret in H. simplify_eq. rewrite app_nil_r. by eapply run_inv_probe_rx.
    + unfold mret, res_ret in H. simplify_eq. rewrite app_nil_r. by apply HS.
  - unfold mret, res_ret in H. simplify_eq. rewrite app_nil_r. by apply HS.
  - unfold mret, res_ret in H. simplify_eq. rewrite HN by done. by eapply probed_next.
Qed.

Lemma respond_same fuel st ret st' : respond fuel st = Ok (ret, st') ->
  same_names (rhost st) (rhost st') /\ state st' = state st.
Proof.
  unfold respond. intros H. inv_bind. destruct x as [[r t] ss]. unfold mret, res_ret in H. simplify_eq.
  apply prepare_response_flags in Hx. split; [by apply same_names_services|done].
Qed.

Lemma claimed_inv st st1 out out1 :
  claimed st out -> same_names (rhost st) (rhost st1) ->
  state st1 = READY_TO_RESPOND \/ state st1 = READY_TO_SEND -> run_inv st1 (out ++ out1).
Proof.
  intros HC S [E|E]; unfold run_inv; rewrite E; by eapply claimed_same.
Qed.

(** Split the conditionals of a handler and read off its result. *)
Ltac handler H := repeat case_match; unfold mret, res_ret in H; simplify_eq.

Lemma ready_inv fuel st ev it st' out out' :
  claimed st out -> state st = READY_TO_RESPOND \/ state st = READY_TO_SEND ->
  responder_event fuel st ev it = Ok (st', out') -> run_inv st' (out ++ out').
Proof.
  intros HC HS H. unfold responder_event in H.
  destruct HS as [E|E]; rewrite E in H; destruct ev; try (inv_bind; destruct x as [ret st1];
    apply respond_same in Hx as [S E1]; rewrite E in E1); handler H;
    (eapply claimed_inv; [exact HC| |]); simpl; try done; auto.
Qed.

Lemma third_inv fuel st ev it st' out out' :
  state st = THIRD_PROBE_SENT -> run_inv st out ->
  responder_event fuel st ev it = Ok (st', out') -> run_inv st' (out ++ out').
Proof.
  intros E HI H. unfold responder_event in H. rewrite E in H. pose proof HI as HI0. unfold run_inv in HI0. rewrite E in HI0.
  destruct ev.
  - case_match.
    + inv_bind. unfold mret, res_ret in H. simplify_eq. rewrite app_nil_r. eapply run_inv_probe_rx; [|exact Hx].
      by apply run_inv_stay.
    + unfold mret, res_ret in H. simplify_eq. rewrite app_nil_r. by eapply run_inv_stay.
  - unfold mret, res_ret in H. simplify_eq. rewrite app_nil_r. by eapply run_inv_stay.
  - inv_bind. destruct x as [ret tx]. case_match; unfold mret, res_ret in H; simplify_eq.
    + rewrite app_nil_r. unfold run_inv. simpl. rewrite E. eapply probed_same; [exact HI0|done|lia].
    + unfold run_inv. simpl. destruct HI0 as (pre & p & Hp & -> & _).
      exists pre, p, (mdns_send_msg tx, MDNS_PORT), []. split; [done|]. split; [|by rewrite <- app_assoc].
      b2p. subst ret. exists (rhost st), (tx_msg st), tx. split; [reflexivity|done].
Qed.

Lemma responder_event_inv fuel st ev it st' out out' :
  run_inv st out -> responder_event fuel st ev it = Ok (st', out') -> run_inv st' (out ++ out').
Proof.
  intros HI H. destruct (state st) eqn:E.
  - unfold responder_event in H. rewrite E in H. destruct ev.
    1, 2: unfold mret, res_ret in H; by simplify_eq.
    inv_bind. destruct x as [ret tx]. unfold mret, res_ret in H. simplify_eq. unfold run_inv. simpl.
    exists out, (mdns_send_msg tx, MDNS_PORT). split; [|done].
    exists fuel, (rhost st), (tx_msg st), ret, tx. split; [reflexivity|done].
  - unfold responder_event in H. rewrite E in H. pose proof HI as HP. unfold run_inv in HP. rewrite E in HP.
    eapply (on_probe_sent_inv _ _ 1); [lia|done|done| |exact H]. intros st1 E1. unfold run_inv. by rewrite E1.
  - unfold responder_event in H. rewrite E in H. pose proof HI as HP. unfold run_inv in HP. rewrite E in HP.
    eapply (on_probe_sent_inv _ _ 2); [lia|done|done| |exact H]. intros st1 E1. unfold run_inv. by rewrite E1.
  - by eapply third_inv.
  - eapply ready_inv; [|by left|exact H]. unfold run_inv in HI. by rewrite E in HI.
  - eapply ready_inv; [|by right|exact H]. unfold run_inv in HI. by rewrite E in HI.
Qed.

Lemma responder_step_inv fuel st it st' out out' :
  run_inv st out -> responder_step fuel st it = Ok (st', out', true) -> run_inv st' (out ++ out').
Proof.
  intros HI H. unfold responder_step in H. inv_bind. destruct x as [[st1 o1] halted].
  destruct halted; [unfold mret, res_ret in H; by simplify_eq|].
  assert (HI1 : run_inv st1 out).
  { clear H. repeat case_match; try (inv_bind; destruct x as [? ?]; case_match);
      unfold mret, res_ret in Hx; simplify_eq; try done; by eapply run_inv_stay. }
  clear Hx HI. destruct (mc_in it) as [[[p [a prt]]|]|].
  - inv_bind. destruct x as [rx l]. inv_bind. destruct x as [ret rx'].
    set (st2 := with_rx (with_from st1 a prt) rx') in H.
    assert (HI2 : run_inv st2 out) by (by eapply run_inv_stay).
    case_match; [unfold mret, res_ret in H; simplify_eq; by rewrite app_nil_r|].
    inv_bind. destruct x as [st3 o3]. unfold mret, res_ret in H. simplify_eq. by eapply responder_event_inv.
  - unfold mret, res_ret in H. simplify_eq. by rewrite app_nil_r.
  - inv_bind. destruct x as [st3 o3]. unfold mret, res_ret in H. simplify_eq. by eapply responder_event_inv.
Qed.

Lemma reachable_inv h tx rx rand st out : reachable h tx rx rand st out -> run_inv st out.
Proof. induction 1 as [|st out fuel it st' out' _ IH _ E]; [done|]. by eapply responder_step_inv. Qed.
