(* ===== verification/ResponderTheorems.v ===== *)
(** * Properties of the responder

    The packets src/mdns/mdns_respond.c builds, the answers it gives, the names
    it claims and gives up, and the order in which it does so. *)
From S2P Require Import Prelude Buffer Dname DnameSpec DnameText Message MessageSpec MessageParse MessageSafe.
From S2P Require Import Responder ResponderSpec ResponseSpec ResponderNames ResponderConflict ResponderRun.

(** ** A concrete host for the witnesses

    node.local at 10.0.0.1 with one service "web" of type _http._tcp with the
    key/value text "a=b". *)

Definition pad (n : nat) (l : list Z) : list Z := l ++ replicate (n - length l) 0.

Definition s_node : list Z := [110; 111; 100; 101].
Definition s_web : list Z := [119; 101; 98].
Definition s_http : list Z := [104; 116; 116; 112].
Definition s_kv : list Z := [3; 97; 61; 98].

Definition demo_labels : list (list Z) := [s_node; STR_LOCAL].
Definition demo_type : list (list Z) := [95 :: s_http; STR_TCP; STR_LOCAL].

Definition demo_service : mdns_service :=
  mkService s_web s_http 80 MDNS_PROTO_TCP (Some (s_kv ++ [0], 0)) (pad 255 (encode (s_web :: demo_type))) 4 4 0.

Definition demo_host : host :=
  mkHost s_node STR_LOCAL (pad 256 (encode demo_labels)) (pad 30 (encode (arpa_labels 0x0A000001))) 0x0100000A
    [demo_service].

Definition demo_aservice : aservice := mkAService s_web demo_type 80 (Some s_kv).
Definition demo_ahost : ahost := mkAHost demo_labels (arpa_labels 0x0A000001) 0x0A000001 [demo_aservice].

(** An empty message buffer. *)
Definition blank_message : mdns_message :=
  mkMessage (replicate 1472 0) 0 0 0 (replicate 32 default_question) 0 (replicate 32 default_resource) 0
    (replicate 32 default_resource) 0 [] [] [] [].

Definition is_valid_label (l : list Z) : bool := bool_decide (1 <= Zlen l <= 63) && bool_decide (bytes l).

Lemma valid_labels_eval ls : forallb is_valid_label ls = true -> Forall DnameSpec.valid_label ls.
Proof.
  intros H. apply Forall_forall. intros l Hl. rewrite forallb_forall in H.
  specialize (H l Hl). unfold is_valid_label in H. apply andb_prop in H as [H1 H2].
  split; by eapply bool_decide_unpack, Is_true_true.
Qed.

Lemma name_arg_eval nm ls :
  forallb is_valid_label ls && bool_decide (holds (fst nm) (snd nm) (encode ls)) && (Zlen (encode ls) <=? 255) = true ->
  name_arg nm ls.
Proof.
  intros H. apply andb_prop in H as [H H3]. apply andb_prop in H as [H1 H2]. b2p.
  split; [by apply valid_labels_eval|]. split; [|done]. by eapply bool_decide_unpack, Is_true_true.
Qed.

Lemma demo_service_is : service_is demo_service demo_aservice.
Proof.
  constructor; [apply name_arg_eval; vm_compute; reflexivity|apply name_arg_eval; vm_compute; reflexivity|reflexivity| |].
  - unfold word16, demo_aservice. simpl. lia.
  - split; [reflexivity|]. split; [by_eval|reflexivity].
Qed.

Lemma demo_host_is : host_is demo_host demo_ahost.
Proof.
  constructor; [apply name_arg_eval; vm_compute; reflexivity|apply name_arg_eval; vm_compute; reflexivity|reflexivity|].
  constructor; [exact demo_service_is|constructor].
Qed.

Lemma blank_bytes : bytes (data blank_message).
Proof. apply Forall_replicate. unfold is_byte. lia. Qed.

(** ** Probes and announcements *)

(** C20: a probe is exactly what it should be.  For a host with at most 32
    questions and authorities, [prepare_probe] terminates and never enters its
    [while(1)]: when the packet fits in 1472 bytes it returns 0, the packet has
    an ANY question per name (host, reverse name, services) and our A, PTR, SRV
    and TXT records as authorities, and the message is parsed accordingly;
    otherwise it returns -1. *)
Theorem prepare_probe_correct h ah m :
  host_is h ah -> arrays_ok m -> Zlen (data m) = 1472 -> bytes (data m) ->
  (length (probe_questions_of ah) <= 32)%nat -> (length (probe_authorities ah 255) <= 32)%nat ->
  let qs := probe_questions_of ah in
  let ns := probe_authorities ah 255 in
  exists m',
    if packet_size qs [] ns <=? 1472 then
      returns (fun fuel => prepare_probe fuel h m) (0, m') /\ parsed m' qs [] ns /\
      mdns_send_msg m' = wire [0; 0; 0; 0] (Zlen qs) 0 (Zlen ns) (enc_body qs [] ns) /\
      TAILROOM m' = 1472 - packet_size qs [] ns
    else returns (fun fuel => prepare_probe fuel h m) (-1, m').
Proof.
  intros Hh HA HL HB Lq Ln qs ns. destruct (prepare_probe_spec h ah m Hh HA HL HB Lq Ln) as (m' & _ & H).
  fold qs ns in H. exists m'. destruct (packet_size qs [] ns <=? 1472); [|done].
  destruct H as (R & P & RP). split_and!; [done|done|by apply repr_sent|].
  unfold TAILROOM, packet_size. rewrite (repr_end _ _ _ _ _ _ RP), (repr_cur _ _ _ _ _ _ RP). lia.
Qed.

Lemma prepare_probe_correct_witness :
  exists m', returns (fun fuel => prepare_probe fuel demo_host blank_message) (0, m') /\
    parsed m' (probe_questions_of demo_ahost) [] (probe_authorities demo_ahost 255).
Proof.
  destruct (prepare_probe_correct demo_host demo_ahost blank_message) as (m' & H).
  - exact demo_host_is.
  - split_and!; reflexivity.
  - reflexivity.
  - exact blank_bytes.
  - by_eval.
  - by_eval.
  - assert (E : (packet_size (probe_questions_of demo_ahost) [] (probe_authorities demo_ahost 255) <=? 1472) = true)
      by (vm_compute; reflexivity).
    rewrite E in H. destruct H as (H1 & H2 & _). exists m'. split; [exact H1|exact H2].
Defined.

(** An announcement carries exactly the host's records with the given TTL in
    a response header, or the function reports that they do not fit. *)
Theorem prepare_announcement_correct h ah m ttl :
  host_is h ah -> Zlen (data m) = 1472 -> bytes (data m) -> word32 ttl -> ttl <> NO_TTL ->
  let an := announced ah ttl in
  exists m',
    if packet_size [] an [] <=? 1472 then
      prepare_announcement h m ttl = Ok (0, m') /\
      mdns_send_msg m' = wire [0; 0; 0x84; 0] 0 (Zlen an) 0 (enc_body [] an [])
    else prepare_announcement h m ttl = Ok (-1, m').
Proof.
  intros Hh HL HB Ht Hno an. destruct (prepare_announcement_spec h ah m ttl Hh HL HB Ht Hno) as (m' & _ & H).
  fold an in H. exists m'. destruct (packet_size [] an [] <=? 1472); [|done].
  destruct H as (E & R). split; [done|by apply repr_sent].
Qed.

Lemma prepare_announcement_correct_witness :
  exists m', prepare_announcement demo_host blank_message 255 = Ok (0, m').
Proof.
  destruct (prepare_announcement_correct demo_host demo_ahost blank_message 255) as (m' & H).
  - exact demo_host_is.
  - reflexivity.
  - exact blank_bytes.
  - unfold word32. lia.
  - discriminate.
  - assert (E : (packet_size [] (announced demo_ahost 255) [] <=? 1472) = true) by (vm_compute; reflexivity).
    rewrite E in H. exists m'. exact (proj1 H).
Defined.

(** ** Responses *)

(** C4: responses refine their specification.  On a parsed query, whatever
    compression its names use, [prepare_response] terminates, and the response
    holds exactly the answers of [spec_response], in order, with the query's
    identification, and the result says whether to send now, later or not at
    all; when the answers do not fit, the result is RS_ERROR.  The SRV and TXT
    records among the answers are the host's own, each at most once; A and PTR
    records are repeated when several questions ask for them. *)
Theorem prepare_response_correct h ah rx tx qs i0 i1 :
  host_is h ah -> asks rx qs -> header_qr rx = Ok QUERY -> holds (data rx) 0 [i0; i1] -> bytes (data rx) ->
  Zlen (data tx) = 1472 -> bytes (data tx) ->
  let xs := (spec_response ah qs).1 in
  of_type T_SRV xs ⊆+ map (srv_rr ah 255) (ah_services ah) /\
  of_type T_TXT xs ⊆+ flat_map (txt_rrs 255) (ah_services ah) /\
  exists tx' ss',
    if packet_size [] xs [] <=? 1472 then
      returns (fun fuel => prepare_response fuel h rx tx) ((spec_response ah qs).2, tx', ss') /\
      mdns_send_msg tx' = wire [i0; i1; 0x84; 0] 0 (Zlen xs) 0 (enc_body [] xs []) /\
      host_is (set_services h ss') ah
    else returns (fun fuel => prepare_response fuel h rx tx) (RS_ERROR, tx', ss').
Proof.
  intros Hh HA Hq Hi Hb HL HB xs. destruct (spec_response_once ah qs) as [O1 O2]. split; [exact O1|]. split; [exact O2|]. clear O1 O2. pose proof (prepare_response_spec h ah rx tx qs i0 i1 Hh HA Hq Hi Hb HL HB) as H.
  unfold xs. destruct (spec_response ah qs) as [ys b]. simpl. destruct H as (tx' & ss' & _ & H). exists tx', ss'.
  destruct (packet_size [] ys [] <=? 1472); [|done]. destruct H as (R & HS & RP).
  split_and!; [done|by apply repr_sent|]. destruct Hh. by constructor.
Qed.

(** A query for the service type. *)
Definition demo_query : mdns_message :=
  let body := enc_question (mkQ demo_type T_PTR C_IN) in
  mkMessage (pad 1472 ([7; 9; 0; 0; 0; 1; 0; 0; 0; 0; 0; 0] ++ body)) (12 + Zlen body) (11 + Zlen body) (12 + Zlen body)
    (mkQuestion 12 T_PTR C_IN :: replicate 31 default_question) 1 (replicate 32 default_resource) 0
    (replicate 32 default_resource) 0 [] [] [] [].

Lemma demo_query_asks : asks demo_query [mkQ demo_type T_PTR C_IN].
Proof.
  split; [reflexivity|]. intros [|k] q Hq; [|done]. simpl in Hq. injection Hq as <-. eexists. split; [reflexivity|].
  split; [|done]. apply name_at_encode; [apply valid_labels_eval; vm_compute; reflexivity|]. by_eval.
Qed.

Lemma prepare_response_correct_witness :
  exists tx' ss', returns (fun fuel => prepare_response fuel demo_host demo_query blank_message) (RS_SEND_DELAY, tx', ss').
Proof.
  destruct (prepare_response_correct demo_host demo_ahost demo_query blank_message [mkQ demo_type T_PTR C_IN] 7 9)
    as (_ & _ & tx' & ss' & H).
  - exact demo_host_is.
  - exact demo_query_asks.
  - reflexivity.
  - by_eval.
  - by_eval.
  - reflexivity.
  - exact blank_bytes.
  - assert (E : (packet_size [] (spec_response demo_ahost [mkQ demo_type T_PTR C_IN]).1 [] <=? 1472) = true)
      by (vm_compute; reflexivity).
    assert (E2 : (spec_response demo_ahost [mkQ demo_type T_PTR C_IN]).2 = RS_SEND_DELAY) by (vm_compute; reflexivity).
    rewrite E, E2 in H. exists tx', ss'. exact (proj1 H).
Defined.

(** A record can be in a response more than once, against the comment in
    [prepare_response]: a service that is asked for by its own name and by its type
    has its PTR record twice among the answers, and a host whose address is asked for
    twice has its A record twice. *)
Theorem response_repeats_records ah a c1 c2 :
  a_type a <> ah_arpa ah -> a_labels a <> ah_arpa ah -> a_labels a <> ah_name ah -> ah_services ah = [a] ->
  of_type T_PTR (spec_response ah [mkQ (a_labels a) T_ANY c1; mkQ (a_type a) T_PTR c2]).1 = [ptr_rr 255 a; ptr_rr 255 a] /\
  of_type T_A (spec_response ah [mkQ (ah_name ah) T_A c1; mkQ (ah_name ah) T_A c2]).1 = [a_rr ah 255; a_rr ah 255].
Proof.
  intros H1 H2 H3 Hs. unfold spec_response. rewrite Hs. split.
  - cbn. unfold spec_question, spec_host, spec_ptr_part, spec_arpa, spec_srv_part, spec_txt_part, is_any_or. cbn.
    rewrite ?(bool_decide_eq_false_2 _ H2), ?(bool_decide_eq_false_2 _ H1), ?(bool_decide_eq_false_2 _ H3). cbn.
    rewrite (bool_decide_eq_true_2 (a_labels a = a_labels a)), orb_true_r by done. cbn.
    rewrite ?(bool_decide_eq_false_2 _ H1), (bool_decide_eq_true_2 (a_type a = a_type a)) by done. cbn.
    unfold txt_once, txt_rrs, txt_mark. destruct (a_txt a); cbn; done.
  - cbn. unfold spec_question, spec_host, spec_ptr_part, spec_srv_part, spec_txt_part, is_any_or. cbn.
    rewrite (bool_decide_eq_true_2 (ah_name ah = ah_name ah)) by done. cbn. done.
Qed.

Lemma response_repeats_records_witness :
  of_type T_PTR (spec_response demo_ahost [mkQ (a_labels demo_aservice) T_ANY C_IN; mkQ (a_type demo_aservice) T_PTR C_IN]).1 =
    [ptr_rr 255 demo_aservice; ptr_rr 255 demo_aservice].
Proof. apply (response_repeats_records demo_ahost demo_aservice C_IN C_IN); (reflexivity || discriminate). Defined.

(** A response never repeats an SRV or TXT record: whatever a parsed query
    asks, the SRV and TXT records of the response [prepare_response] builds are
    among the host's own, each at most once. *)
Theorem prepare_response_no_duplicates h ah rx tx i0 i1 :
  host_is h ah -> well_parsed rx -> header_qr rx = Ok QUERY -> holds (data rx) 0 [i0; i1] ->
  Zlen (data tx) = 1472 -> bytes (data tx) ->
  exists xs ret tx' ss', returns (fun fuel => prepare_response fuel h rx tx) (ret, tx', ss') /\
    (ret <> RS_ERROR -> mdns_send_msg tx' = wire [i0; i1; 0x84; 0] 0 (Zlen xs) 0 (enc_body [] xs [])) /\
    of_type T_SRV xs ⊆+ map (srv_rr ah 255) (ah_services ah) /\
    of_type T_TXT xs ⊆+ flat_map (txt_rrs 255) (ah_services ah).
Proof.
  intros Hh HW Hq Hi HL HB. destruct (well_parsed_asks rx HW) as [qs HA].
  pose proof (prepare_response_spec h ah rx tx qs i0 i1 Hh HA Hq Hi (wp_bytes _ HW) HL HB) as H.
  pose proof (spec_response_once ah qs) as HO. destruct (spec_response ah qs) as [xs b]. simpl in HO.
  destruct H as (tx' & ss' & _ & H). exists xs.
  destruct (packet_size [] xs [] <=? 1472).
  - destruct H as (R & _ & RP). exists b, tx', ss'. split_and!; [done|intros _; by apply repr_sent|apply HO..].
  - exists RS_ERROR, tx', ss'. split_and!; [done|done|apply HO..].
Qed.

(** The message a packet is parsed to. *)
Definition parse_packet (p : list Z) : mdns_message :=
  match mdns_parse_message 100 (set_data blank_message (pad 1472 p)) (Zlen p) with
  | Ok (_, m) => m
  | _ => blank_message
  end.

Definition query_packet : list Z :=
  [7; 9; 0; 0; 0; 1; 0; 0; 0; 0; 0; 0] ++ enc_question (mkQ demo_type T_PTR C_IN).

Lemma pad_bytes n l : bytes l -> bytes (pad n l).
Proof. intros H. apply Forall_app. split; [done|]. apply Forall_replicate. unfold is_byte. lia. Qed.

Lemma parse_packet_well p m :
  bytes p -> 12 <= Zlen p <= 1472 ->
  mdns_parse_message 100 (set_data blank_message (pad 1472 p)) (Zlen p) = Ok (0, m) -> well_parsed m.
Proof.
  intros Hb Hl H. eapply parse_message_sound in H as [W _]; [exact W|by apply pad_bytes|done| |lia].
  simpl. unfold pad. zlen. lia.
Qed.

Lemma query_packet_parsed : well_parsed (parse_packet query_packet).
Proof.
  apply (parse_packet_well query_packet); [by_eval|by_eval|]. vm_compute. reflexivity.
Qed.

Lemma prepare_response_no_duplicates_witness :
  exists xs ret tx' ss',
    returns (fun fuel => prepare_response fuel demo_host (parse_packet query_packet) blank_message) (ret, tx', ss') /\
    of_type T_SRV xs ⊆+ map (srv_rr demo_ahost 255) (ah_services demo_ahost).
Proof.
  destruct (prepare_response_no_duplicates demo_host demo_ahost (parse_packet query_packet) blank_message 7 9)
    as (xs & ret & tx' & ss' & H & _ & H1 & _).
  - exact demo_host_is.
  - exact query_packet_parsed.
  - vm_compute. reflexivity.
  - by_eval.
  - reflexivity.
  - exact blank_bytes.
  - exists xs, ret, tx', ss'. split; [exact H|exact H1].
Defined.

(** ** Names *)

(** The reverse name of every address fits its 30-byte buffer, and is the
    four address bytes in decimal, lowest first, before in-addr.arpa. *)
Theorem ipaddr_to_inaddrarpa_correct ip out :
  Zlen out = MDNS_INADDRARPA_LEN ->
  exists out', ipaddr_to_inaddrarpa ip out = Ok out' /\ name_arg (out', 0) (arpa_labels ip) /\ Zlen out' = 30.
Proof.
  intros HL. destruct (inaddrarpa_spec ip out HL) as (o & E & H & L). exists o. split_and!; [done| |done].
  destruct (arpa_labels_name ip) as [[Hv _] Hl]. apply name_arg_intro; [done|done|lia].
Qed.

Lemma ipaddr_to_inaddrarpa_correct_witness :
  exists out', ipaddr_to_inaddrarpa 0xC0A8FF2D (replicate 30 0) = Ok out' /\ Zlen out' = 30.
Proof.
  destruct (ipaddr_to_inaddrarpa_correct 0xC0A8FF2D (replicate 30 0) eq_refl) as (out' & E & _ & L).
  exists out'. split; [exact E|exact L].
Defined.

(** [reset_fqsn] builds the service name: the instance label, "_" and the
    type, "_tcp" or "_udp", and the domain; [ptrname] is the name of the type;
    and the 255-byte buffer always has room for it and for a later suffix. *)
Theorem reset_fqsn_correct dom s :
  DnameSpec.valid_label (servname s) -> DnameSpec.valid_label (servtype s) -> Zlen (servtype s) <= 62 ->
  DnameSpec.valid_label dom -> Zlen (fqsn s) = 255 ->
  exists s', reset_fqsn dom s = Ok s' /\ name_arg (fqsn s', 0) (service_labels dom s) /\
    name_arg (fqsn s', ptrname s') (tail (service_labels dom s)) /\ Zlen (encode (service_labels dom s)) + 2 <= 255.
Proof.
  intros Hn Ht Ht2 Hd HL. destruct (reset_fqsn_name dom s) as (n & E & H1 & H2 & H3); [done..|]. eexists. by split; [exact E|].
Qed.

Lemma reset_fqsn_correct_witness :
  exists s', reset_fqsn STR_LOCAL demo_service = Ok s' /\ name_arg (fqsn s', 0) (s_web :: demo_type).
Proof.
  destruct (reset_fqsn_correct STR_LOCAL demo_service) as (s' & E & H & _).
  - split; by_eval.
  - split; by_eval.
  - by_eval.
  - split; by_eval.
  - reflexivity.
  - exists s'. split; [exact E|exact H].
Defined.

(** A service type of 63 characters passes [validate_service], but the "_"
    in front of it makes a label of 64 bytes, whose length byte is read as a
    compression pointer: the service name ends after its first label. *)
Theorem servtype_63_becomes_pointer :
  let s := mkService s_web (replicate 63 97) 80 MDNS_PROTO_TCP None (replicate 255 0) 0 0 0 in
  validate_service STR_LOCAL s = Ok (0, s) /\
  match reset_fqsn STR_LOCAL s with
  | Ok s' => rd (fqsn s') (ptrname s') = Ok 64 /\ dname_size (fqsn s') 0 = Ok 6 /\
             dname_cmp 20 (own (fqsn s')) 0 (own (fqsn s')) 0 = Fault
  | _ => False
  end.
Proof. split; [reflexivity|]. vm_compute. split_and!; reflexivity. Qed.

(** ** Conflicts *)


(** A response that claims node.local and web._http._tcp.local. *)
Definition claim_packet : list Z :=
  [0; 0; 0x84; 0; 0; 0; 0; 2; 0; 0; 0; 0] ++
  enc_rr (mkRR demo_labels T_A C_FLUSH 255 [10; 0; 0; 9]) ++
  enc_rr (mkRR (s_web :: demo_type) T_SRV C_FLUSH 255 ([0; 0; 0; 0; 0; 80] ++ encode demo_labels)).

Definition demo_names : names := mkNames 0 s_node [mkSvc s_web demo_type s_web].

Lemma good_self l : is_valid_label l = true -> no_nul l -> Zlen l <> 62 -> good_label l l.
Proof.
  intros Hv Hn H62. assert (HF : Forall DnameSpec.valid_label [l]) by (apply valid_labels_eval; simpl; by rewrite Hv).
  apply Forall_cons_iff in HF as [HF _]. constructor; [exact HF|exact Hn|lia|by left|by right].
Qed.

Lemma demo_has_names : has_names demo_host demo_names.
Proof.
  assert (G : forall l, l = s_node \/ l = s_web -> good_label l l).
  { intros l [-> | ->]; (apply good_self; [reflexivity|unfold no_nul; by_eval|by_eval]). }
  constructor; [constructor|].
  - reflexivity.
  - split; [apply (Forall_singleton DnameSpec.valid_label), valid_labels_eval; reflexivity|unfold no_nul; by_eval].
  - apply G. by left.
  - apply G. by left.
  - by_eval.
  - constructor; [|constructor]. split; [constructor|done].
    + reflexivity.
    + split; [apply valid_labels_eval; reflexivity|unfold no_nul; by_eval].
    + by_eval.
    + apply G. by right.
    + by_eval.
    + apply G. by right.
    + by_eval.
    + reflexivity.
Qed.

Definition claim_message : mdns_message := parse_packet claim_packet.

Lemma claim_message_claims :
  claims_of claim_message [(demo_labels, T_A); (s_web :: demo_type, T_SRV)].
Proof.
  split; [vm_compute; reflexivity|]. intros [|[|k]] x Hx; simpl in Hx; [| |done]; injection Hx as <-.
  all: eexists; split; [vm_compute; reflexivity|]; (split; [|reflexivity]).
  all: apply name_at_encode; [apply valid_labels_eval; reflexivity|by_eval].
Qed.


(** ** Tie-breaking *)

Lemma lex_sign_opp l1 : forall l2, lex_sign l1 l2 = - lex_sign l2 l1.
Proof.
  induction l1 as [|x l1 IH]; intros [|y l2]; simpl; try done.
  destruct (Z.ltb_spec y x), (Z.ltb_spec x y); try lia. apply IH.
Qed.

Lemma memcmp_opp b1 o1 b2 o2 n v : memcmp b1 o1 b2 o2 n = Ok v -> memcmp b2 o2 b1 o1 n = Ok (- v).
Proof.
  unfold memcmp. intros H. inv_bind. inv_bind. rewrite Hx, Hx0. cbn [mbind res_bind].
  unfold mret, res_ret in *. simplify_eq. f_equal. apply lex_sign_opp.
Qed.

(** For A and PTR records of accepted packets the comparison that decides
    who keeps a name terminates and is antisymmetric, so the two hosts agree on
    the winner. *)
Theorem rr_cmp_antisymmetric ma a mb b :
  bytes (data ma) -> bytes (data mb) -> end_ ma < Zlen (data ma) -> end_ mb < Zlen (data mb) ->
  good_rr ma a -> good_rr mb b -> r_type a = T_A \/ r_type a = T_PTR -> r_type b = T_A \/ r_type b = T_PTR ->
  exists v, returns (fun fuel => rr_cmp fuel ma a mb b) v /\ returns (fun fuel => rr_cmp fuel mb b ma a) (- v).
Proof.
  intros Ba Bb Ea Eb Ga Gb Ta Tb. unfold rr_cmp.
  destruct (Z.ltb_spec (class_bits (r_class b)) (class_bits (r_class a))).
  { exists 1. replace (class_bits (r_class a) <? class_bits (r_class b)) with false by lia. split; by apply returns_const. }
  destruct (Z.ltb_spec (class_bits (r_class a)) (class_bits (r_class b))); [exists (-1); split; by apply returns_const|].
  destruct (Z.ltb_spec (r_type b) (r_type a)).
  { exists 1. replace (r_type a <? r_type b) with false by lia. split; by apply returns_const. }
  destruct (Z.ltb_spec (r_type a) (r_type b)); [exists (-1); split; by apply returns_const|].
  assert (ET : r_type b = r_type a) by lia. rewrite ET.
  destruct Ta as [Ta|Ta]; rewrite Ta; simpl.
  - pose proof (good_a _ _ Ga Ta) as La. pose proof (good_a _ _ Gb ltac:(congruence)) as Lb.
    pose proof (good_end _ _ Ga). pose proof (good_end _ _ Gb). pose proof (good_start _ _ Ga). pose proof (good_start _ _ Gb).
    destruct (memcmp (data ma) (r_rdata a) (data mb) (r_rdata b) 4) as [v| |] eqn:E.
    + exists v. split; [by apply returns_const|]. apply returns_const. by apply memcmp_opp.
    + exfalso. unfold memcmp, rd_range in E.
      replace ((r_rdata a <? 0) || (4 <? 0) || (Zlen (data ma) <? r_rdata a + 4)) with false in E by lia.
      replace ((r_rdata b <? 0) || (4 <? 0) || (Zlen (data mb) <? r_rdata b + 4)) with false in E by lia. done.
    + exfalso. unfold memcmp, rd_range in E. by repeat case_match.
  - destruct (decodes_at _ _ (good_ptr _ _ Ga Ta)) as [la Hla]. destruct (decodes_at _ _ (good_ptr _ _ Gb ltac:(congruence))) as [lb Hlb].
    exists (names_cmp la lb). rewrite <- names_cmp_opp. split; by apply dname_cmp_spec.
Qed.

(** A two-byte packet with one record over both bytes. *)
Definition tiny (t : Z) (d : list Z) : mdns_message * mdns_resource :=
  (mkMessage d 0 (Zlen d - 1) (Zlen d) [] 0 [] 0 [] 0 [] [] [] [], mkResource 0 t C_IN 0 (Zlen d) 0).

Lemma tiny_a_good x : good_rr (tiny T_A [0; 0; 0; x]).1 (tiny T_A [0; 0; 0; x]).2.
Proof. constructor; simpl; try done. exists []. by apply within_end. Qed.

Lemma rr_cmp_antisymmetric_witness :
  let a := tiny T_A [0; 0; 0; 1] in let b := tiny T_A [0; 0; 0; 2] in
  exists v, returns (fun fuel => rr_cmp fuel a.1 a.2 b.1 b.2) v /\ returns (fun fuel => rr_cmp fuel b.1 b.2 a.1 a.2) (- v).
Proof.
  intros a b. apply (rr_cmp_antisymmetric a.1 a.2 b.1 b.2); try apply tiny_a_good; try (left; reflexivity); by_eval.
Defined.

(** For TXT records both byte tests of the loop ask for "greater", so of two
    different records each can be "later" than the other: both hosts give the
    name up. *)
Theorem rr_cmp_txt_both_later :
  let a := tiny T_TXT [1; 9] in let b := tiny T_TXT [2; 0] in
  rr_cmp 10 a.1 a.2 b.1 b.2 = Ok 1 /\ rr_cmp 10 b.1 b.2 a.1 a.2 = Ok 1.
Proof. split; reflexivity. Qed.

(** ** Room for longer names *)

Definition longer (l : list Z) : list Z := l ++ [CH_DASH; CH_2].

Definition longer_service (a : aservice) : aservice := mkAService (longer (a_name a)) (a_type a) (a_port a) (a_txt a).

Definition longer_host (ah : ahost) : ahost :=
  mkAHost (match ah_name ah with l :: rest => longer l :: rest | [] => [] end) (ah_arpa ah) (ah_ip ah)
    (map longer_service (ah_services ah)).

Definition txt_services (ah : ahost) : Z := Zlen (flat_map (txt_rrs 255) (ah_services ah)).

Lemma encode_longer2 l rest : Zlen (encode (longer l :: rest)) = Zlen (encode (l :: rest)) + 2.
Proof. rewrite !encode_cons. unfold longer. zlen. lia. Qed.

Lemma flat_map_cons {A B} (f : A -> list B) x l : flat_map f (x :: l) = f x ++ flat_map f l.
Proof. done. Qed.

Lemma longer_labels a : Zlen (encode (a_labels (longer_service a))) = Zlen (encode (a_labels a)) + 2.
Proof. apply encode_longer2. Qed.

Lemma longer_txts a : Zlen (flat_map enc_rr (txt_rrs 255 (longer_service a))) =
  Zlen (flat_map enc_rr (txt_rrs 255 a)) + 2 * Zlen (txt_rrs 255 a).
Proof.
  unfold txt_rrs. cbn [longer_service a_txt]. destruct (a_txt a) as [txt|]; [|done]. cbn [flat_map].
  rewrite !app_nil_r, !Zlen_enc_rr. cbn [rr_labels rr_data]. rewrite longer_labels.
  rewrite Zlen_cons. change (Zlen (@nil rr)) with 0. lia.
Qed.

Lemma longer_authorities ah l rest al : ah_name ah = l :: rest ->
  Zlen (flat_map enc_rr (flat_map (service_authorities (longer_host ah) 255) (map longer_service al))) =
  Zlen (flat_map enc_rr (flat_map (service_authorities ah 255) al)) + 4 * Zlen al + 2 * Zlen (flat_map (txt_rrs 255) al).
Proof.
  intros E. induction al as [|a al IH]; [done|]. cbn [map flat_map service_authorities]. rewrite !flat_map_app.
  rewrite !Zlen_app, IH. unfold service_authorities. cbn [app]. rewrite !flat_map_cons, !Zlen_app, !Zlen_enc_rr.
  cbn [rr_labels rr_data srv_rr]. rewrite longer_txts, longer_labels.
  cbn [longer_host ah_name longer_service a_port]. rewrite E. zlen. rewrite encode_longer2. lia.
Qed.

Lemma longer_questions al :
  Zlen (flat_map enc_question (map (fun a => any_question (a_labels a)) (map longer_service al))) =
  Zlen (flat_map enc_question (map (fun a => any_question (a_labels a)) al)) + 2 * Zlen al.
Proof.
  induction al as [|a al IH]; [done|]. cbn [map flat_map]. rewrite !Zlen_app, IH, !Zlen_enc_question.
  cbn [any_question q_labels]. rewrite longer_labels. zlen. lia.
Qed.

(** How much a probe grows when the host name and every service name get a
    suffix: six bytes for the host name, six per service and two more per TXT
    record.  [max_probe_growth], which launch checks against the space left,
    allows four per service, so with any service it is too small. *)
Theorem max_probe_growth_too_small ah l rest :
  ah_name ah = l :: rest ->
  let size a := packet_size (probe_questions_of a) [] (probe_authorities a 255) in
  let n := Zlen (ah_services ah) in
  size (longer_host ah) = size ah + 6 + 6 * n + 2 * txt_services ah /\
  (0 < n -> size ah + max_probe_growth n < size (longer_host ah)).
Proof.
  intros E size n.
  assert (HS : size (longer_host ah) = size ah + 6 + 6 * n + 2 * txt_services ah).
  { unfold size, packet_size, enc_body, probe_questions_of, probe_authorities, txt_services, n.
    rewrite !flat_map_app, !Zlen_app. cbn [flat_map app]. rewrite !app_nil_r.
    cbn [longer_host ah_services ah_name ah_arpa ah_ip].
    rewrite longer_questions, (longer_authorities ah l rest _ E).
    zlen. rewrite !Zlen_enc_question, !Zlen_enc_rr. cbn [longer_host any_question q_labels rr_labels rr_data a_rr arpa_rr ah_name ah_arpa ah_ip].
    rewrite E, !encode_longer2, !Zlen_be32. lia. }
  split; [done|]. intros Hn. rewrite HS. unfold max_probe_growth, txt_services.
  pose proof (Zlen_nonneg (flat_map (txt_rrs 255) (ah_services ah))). lia.
Qed.

Lemma max_probe_growth_too_small_witness :
  let size a := packet_size (probe_questions_of a) [] (probe_authorities a 255) in
  size demo_ahost + max_probe_growth 1 < size (longer_host demo_ahost).
Proof.
  intros size. apply (proj2 (max_probe_growth_too_small demo_ahost s_node [STR_LOCAL] eq_refl)). reflexivity.
Defined.

(** ** Runs *)

(** C7: the responder claims a name before it uses it.  In every reachable state
    in which it answers queries, it has sent three identical probes for the
    names it has now, followed by an announcement of these names, with no other
    packet in between.  (A HALT ends the thread with a goodbye in any state.) *)
Theorem responder_probes_first h tx rx rand st out :
  reachable h tx rx rand st out -> state st = READY_TO_RESPOND \/ state st = READY_TO_SEND ->
  exists pre p a post, probe_of (rhost st) p /\ announcement_of (rhost st) a /\ out = pre ++ [p; p; p; a] ++ post.
Proof.
  intros HR HS. apply reachable_inv in HR. unfold run_inv in HR. destruct HS as [E|E]; by rewrite E in HR.
Qed.

(** Four timeouts on the concrete host. *)
Definition quiet_iteration : iteration := mkIteration 0 250 None None 0.

Fixpoint quiet_run (k : nat) : rstate * list send :=
  match k with
  | O => (responder_start demo_host blank_message blank_message 100, [])
  | S k' =>
      let '(st, out) := quiet_run k' in
      match responder_step 100 st quiet_iteration with
      | Ok (st', out', _) => (st', out ++ out')
      | _ => (st, out)
      end
  end.

Lemma quiet_run_reachable k : (k <= 4)%nat ->
  reachable demo_host blank_message blank_message 100 (quiet_run k).1 (quiet_run k).2.
Proof.
  induction k as [|k IH]; intros Hk; [apply reachable_start|].
  assert (HB : forall j, (j < 4)%nat -> responder_enabled (quiet_run j).1 = true /\
     match responder_step 100 (quiet_run j).1 quiet_iteration with Ok (_, _, true) => True | _ => False end).
  { intros j Hj. do 4 (destruct j as [|j]; [vm_compute; split; [reflexivity|exact I]|]). lia. }
  destruct (HB k ltac:(lia)) as [He Hr]. specialize (IH ltac:(lia)).
  cbn [quiet_run]. destruct (quiet_run k) as [st out]. simpl in *.
  destruct (responder_step 100 st quiet_iteration) as [[[st' out'] []]| |] eqn:E; try done.
  by eapply reachable_step.
Qed.

Lemma responder_probes_first_witness :
  exists pre p a post, probe_of (rhost (quiet_run 4).1) p /\ announcement_of (rhost (quiet_run 4).1) a /\
    (quiet_run 4).2 = pre ++ [p; p; p; a] ++ post.
Proof.
  apply (responder_probes_first demo_host blank_message blank_message 100).
  - apply quiet_run_reachable. lia.
  - left. vm_compute. reflexivity.
Defined.

(** A HALT message ends the thread after a goodbye packet: the host's
    records with a TTL of 0, when they fit in a packet. *)
Theorem responder_halt_goodbye fuel st it ah a p :
  ctrl_in it = Some (Some (MDNS_CTRL_HALT, (a, p))) -> host_is (rhost st) ah ->
  Zlen (data (tx_msg st)) = 1472 -> bytes (data (tx_msg st)) ->
  let an := announced ah 0 in
  packet_size [] an [] <= 1472 ->
  exists st', responder_step fuel st it =
      Ok (st', [(wire [0; 0; 0x84; 0] 0 (Zlen an) 0 (enc_body [] an []), MDNS_PORT)], false) /\
    responder_enabled st' = false.
Proof.
  intros Hc Hh HL HB an HF.
  destruct (prepare_announcement_spec (rhost st) ah (tx_msg st) 0 Hh HL HB ltac:(unfold word32; lia) ltac:(done)) as (m' & _ & H).
  fold an in H. replace (packet_size [] an [] <=? 1472) with true in H by lia. destruct H as [E R].
  unfold responder_step. rewrite Hc. simpl (_ =? _). cbn iota.
  cbn [with_from rhost tx_msg]. rewrite E. cbn [mbind res_bind]. simpl (negb _). cbn iota. cbn [mbind res_bind mret res_ret].
  rewrite (repr_sent _ _ _ _ _ _ R). eexists. split; [reflexivity|done].
Qed.

Lemma responder_halt_goodbye_witness :
  exists st', responder_step 0 (responder_start demo_host blank_message blank_message 0)
      (mkIteration 0 0 (Some (Some (MDNS_CTRL_HALT, (0, 0)))) None 0) =
    Ok (st', [(wire [0; 0; 0x84; 0] 0 (Zlen (announced demo_ahost 0)) 0 (enc_body [] (announced demo_ahost 0) []), MDNS_PORT)],
        false) /\ responder_enabled st' = false.
Proof.
  apply (responder_halt_goodbye 0 _ _ demo_ahost 0 0).
  - reflexivity.
  - exact demo_host_is.
  - reflexivity.
  - exact blank_bytes.
  - vm_compute. discriminate.
Defined.

(** The timeout in milliseconds. *)
Definition millis (t : timeval) : Z := tv_sec t * 1000 + tv_usec t / 1000.

(** After all names are exhausted [process_probe_resp] asks for a pause of
    five seconds, but in state INIT any packet that parses replaces the pause by
    at most 250 ms. *)
Theorem init_pause_cut_short fuel st it tx rx s h h' start stop :
  state st = INIT -> word32 (start_wait it) -> word32 (stop_wait it) ->
  fix_response_conflicts fuel rx tx h = Ok (-1, h') ->
  process_probe_resp fuel tx rx s h start stop = Ok (INIT, SET_TIMEOUT 5000, h') /\
  exists st', responder_event fuel st EVENT_RX it = Ok (st', []) /\ state st' = INIT /\
    millis (probe_wait_time st') <= 250.
Proof.
  intros E H1 H2 HF. split; [unfold process_probe_resp; by rewrite HF|].
  unfold responder_event. rewrite E. eexists. split; [reflexivity|]. split; [done|]. simpl.
  unfold recalc_timeout, millis, word32 in *.
  assert (HI : 0 <= interval (start_wait it) (stop_wait it)).
  { unfold interval. case_match; b2p; [lia|apply u32_range]. }
  case_match; b2p; unfold SET_TIMEOUT; cbn [tv_sec tv_usec]; [by vm_compute|]. Z.div_mod_to_equations. lia.
Qed.

(** node-9.local is claimed. *)
Definition exhausted_host : host :=
  mkHost s_node STR_LOCAL (pad 256 (encode [s_node ++ [45; 57]; STR_LOCAL])) (in_addr_arpa demo_host) 0x0100000A [].
Definition claim_node9 : mdns_message :=
  parse_packet ([0; 0; 0x84; 0; 0; 0; 0; 1; 0; 0; 0; 0] ++ enc_rr (mkRR [s_node ++ [45; 57]; STR_LOCAL] T_A C_FLUSH 255 [10; 0; 0; 9])).

Lemma init_pause_cut_short_witness :
  exists h', process_probe_resp 100 blank_message claim_node9 SECOND_PROBE_SENT exhausted_host 0 10 =
    Ok (INIT, SET_TIMEOUT 5000, h').
Proof.
  eexists. refine (proj1 (init_pause_cut_short 100 (responder_start demo_host blank_message blank_message 0)
    quiet_iteration blank_message claim_node9 SECOND_PROBE_SENT exhausted_host _ 0 10 eq_refl _ _ _)).
  - unfold word32. simpl. lia.
  - unfold word32. simpl. lia.
  - vm_compute. reflexivity.
Defined.
