(* ===== verification/ResponderLaunch.v ===== *)
(** * Launching the responder

    [responder_launch] turns what the user supplies (a host name, a domain and
    services with a key/value text) into the state that the theorems about the
    responder start from: [host_is] holds of it, and the code that is returned
    says whether the probe and the largest response fit in a packet with room for
    the suffixes that renaming may add. *)
From S2P Require Import Prelude Platform Buffer Dname DnameSpec DnameText Message MessageSpec MessageParse MessageSafe.
From S2P Require Import Responder ResponderSpec ResponseSpec ResponderNames ResponderTheorems.

(** ** What the user supplies *)

(** A label without dots. *)
Definition user_label (l : list Z) : Prop := DnameSpec.valid_label l /\ CH_DOT ∉ l.

(** A service, and its key/value text as pieces ([None]: NULL). *)
Record user_service (s : mdns_service) (kv : option (list (list Z))) : Prop := {
  us_name : user_label (servname s);
  us_type : user_label (servtype s) /\ Zlen (servtype s) <= 62;
  us_proto : proto s = MDNS_PROTO_TCP \/ proto s = MDNS_PROTO_UDP;
  us_port : word16 (port s);
  us_buffer : Zlen (fqsn s) = 255;
  us_keyvals : match keyvals s, kv with
               | Some (b, o), Some ps => ps <> [] /\ Forall (piece CH_COLON) ps /\ Forall no_nul ps /\ 1 <= o /\
                   (exists before, holds b (o - 1) (before :: join CH_COLON ps ++ [0])) /\ Zlen (join CH_COLON ps) <= 254
               | None, None => True
               | _, _ => False
               end }.

(** What is announced of it. *)
Definition claimed_service (dom : list Z) (s : mdns_service) (kv : option (list (list Z))) : aservice :=
  mkAService (servname s) (tail (service_labels dom s)) (port s) (encode_labels <$> kv).

Definition claimed_host (hostname dom : list Z) (ipaddr : Z) (ss : list mdns_service) (kvs : list (option (list (list Z)))) : ahost :=
  mkAHost [hostname; dom] (arpa_labels (htonl ipaddr)) (htonl ipaddr) (zip_with (claimed_service dom) ss kvs).

(** ** Validation *)

Lemma user_label_valid l : user_label l -> Responder.valid_label l = true.
Proof.
  intros [[Hl _] Hd]. unfold Responder.valid_label, MDNS_MAX_LABEL_LEN. apply negb_true_iff, orb_false_iff. split; [lia|].
  apply Bool.not_true_iff_false. rewrite existsb_exists. intros (c & Hc & ->%Z.eqb_eq). apply Hd. by apply list_elem_of_In.
Qed.

Lemma bytes_pieces ps : Forall (piece CH_COLON) ps -> bytes (encode_labels ps).
Proof.
  induction 1 as [|p ps [Hp Hc] _ IH]; [constructor|]. rewrite encode_labels_cons. constructor; [unfold is_byte; lia|].
  apply Forall_app. split; [|done]. eapply Forall_impl; [|exact Hc]. by intros c [_ ?].
Qed.

(** [validate_service] packs the key/value text. *)
Lemma validate_ok dom s kv : user_label dom -> user_service s kv ->
  exists s', validate_service dom s = Ok (0, s') /\ servname s' = servname s /\ servtype s' = servtype s /\
    port s' = port s /\ proto s' = proto s /\ fqsn s' = fqsn s /\
    match keyvals s', kv with
    | Some k, Some ps => rd_range (fst k) (snd k) (kvlen s') = Ok (encode_labels ps) /\ bytes (encode_labels ps) /\
        Zlen (encode_labels ps) < 65536
    | None, None => True
    | _, _ => False
    end.
Proof.
  intros Hd [Hn [Ht Ht2] Hp Hw Hf Hk]. unfold validate_service. rewrite !user_label_valid by done. cbn [negb].
  assert (negb (proto s =? MDNS_PROTO_TCP) && negb (proto s =? MDNS_PROTO_UDP) = false) as ->
    by (destruct Hp as [-> | ->]; by vm_compute).
  destruct Hn as [[Hn _] _], Ht as [[Ht _] _], Hd as [[Hd _] _]. unfold MDNS_MAX_NAME_LEN, MDNS_MAX_KEYVAL_LEN.
  destruct (Z.ltb_spec 255 (Zlen (servname s) + 1 + (Zlen (servtype s) + 2) + 4 + (Zlen dom + 1) + 2 + 1)); [lia|].
  destruct (keyvals s) as [[b o]|] eqn:Ek, kv as [ps|]; try done.
  - destruct Hk as (Hne & Hps & Hnn & Ho & [before Hh] & Hl). pose proof (Zlen_join CH_COLON ps Hne) as HJ.
    destruct (dnameify_inplace_spec b o CH_COLON before ps) as (b' & E & He & _); [done..|unfold UINT16_MAX; lia|].
    rewrite E. cbn [mbind res_bind]. rewrite u16_id by (pose proof (Zlen_nonneg (encode_labels ps)); lia).
    cbn [kvlen set_keyvals]. destruct (Z.ltb_spec 255 (Zlen (encode_labels ps))); [lia|].
    eexists. split; [done|]. split_and!; try done. cbn. split_and!; [by apply rd_range_holds|by apply bytes_pieces|lia].
  - eexists. split; [done|]. split_and!; try done. by rewrite Ek.
Qed.

Lemma launch_services_ok dom ss kvs : user_label dom -> Forall2 user_service ss kvs ->
  exists ss', launch_services dom ss = Ok (0, ss') /\ Forall2 service_is ss' (zip_with (claimed_service dom) ss kvs).
Proof.
  intros Hd. induction 1 as [|s kv ss kvs Hs _ (ss' & IH & IHs)]; [by eexists|].
  destruct (validate_ok dom s kv Hd Hs) as (s1 & E1 & En & Et & Ep & Er & Ef & Hk). destruct Hs as [Hn [Ht Ht2] Hp Hw Hf _].
  destruct Hn as [Hn _], Ht as [Ht _], Hd as [Hd _].
  assert (service_labels dom s1 = service_labels dom s) as El
    by (unfold service_labels, type_label, proto_label; by rewrite En, Et, Er).
  destruct (reset_fqsn_name dom s1) as (n & E2 & A1 & A2 & _);
    [by rewrite En|by rewrite Et|by rewrite Et|done|by rewrite Ef|].
  exists (set_fqsn s1 n (1 + Zlen (servname s1)) :: ss'). split.
  - cbn [launch_services]. rewrite E1. cbn [mbind res_bind Z.eqb negb]. rewrite E2. cbn [mbind res_bind]. by rewrite IH.
  - cbn. constructor; [|done]. rewrite El in A1, A2. constructor; cbn; [done|done|done|done|].
    destruct (keyvals s1), kv as [ps|]; by cbn.
Qed.

(** ** The size checks *)

(** A host that is asked for its own name has something to say. *)
Lemma owes_address ah qs : (spec_response ah (any_question (ah_name ah) :: qs)).1 <> [].
Proof.
  unfold spec_response. cbn [spec_questions]. unfold spec_question.
  assert (spec_host ah (any_question (ah_name ah)) = ([a_rr ah 255], RS_SEND)) as ->
    by (unfold spec_host; cbn; by rewrite bool_decide_true).
  destruct (spec_ptr_part _ _ _) as [[x2 b2] l2]. destruct (spec_srv_part _ _ _) as [[x3 b3] l3].
  destruct (spec_txt_part _ _) as [[x4 b4] l4]. by destruct (spec_questions _ _ _) as [[ys c] l'].
Qed.

(** The packet of questions that [check_max_response] answers to itself. *)
Lemma check_max_response_spec h ah rx tx : host_is h ah -> arrays_ok rx -> Zlen (data rx) = 1472 -> bytes (data rx) ->
  Zlen (data tx) = 1472 -> bytes (data tx) -> (length (probe_questions_of ah) <= 32)%nat ->
  packet_size (probe_questions_of ah) [] [] <= 1472 ->
  let xs := (spec_response ah (probe_questions_of ah)).1 in
  exists rx' tx' ss',
    if packet_size [] xs [] <=? 1472 then
      returns (fun fuel => check_max_response fuel h rx tx) (0, rx', tx', ss') /\
      TAILROOM tx' = 1472 - packet_size [] xs [] /\ host_is (set_services h ss') ah
    else returns (fun fuel => check_max_response fuel h rx tx) (-1, rx', tx', ss').
Proof.
  intros Hh HA HL HB HLt HBt Lq Hs xs. set (qs := probe_questions_of ah) in *.
  destruct (query_init_repr rx HL HB) as (m1 & E1 & S1 & R1).
  destruct (adds_probe_questions h ah Hh _ _ _ _ _ _ R1) as (m2 & S2 & H2). fold qs in H2.
  change (Zlen (@nil Z)) with 0 in H2. unfold packet_size, enc_body in Hs. cbn [flat_map] in Hs. rewrite app_nil_r in Hs.
  destruct (Z.leb_spec (12 + 0 + Zlen (flat_map enc_question qs)) 1472); [|lia]. destruct H2 as [E2 R2].
  assert (HA2 : arrays_ok m2).
  { destruct S1 as (Q1 & A1 & N1 & _), S2 as (Q2 & A2 & N2 & _), HA as (? & ? & ?). unfold arrays_ok. split_and!; congruence. }
  assert (repr m2 (enc_body qs [] []) (Zlen qs) (Zlen (@nil rr)) (Zlen (@nil rr)) [0; 0; 0; 0]) as R3
    by (unfold enc_body; cbn [flat_map]; rewrite app_nil_r; exact R2).
  destruct (parse_own m2 _ 0 0 qs [] [] R3) as (m3 & P3 & PP & _ & A3 & W3 & _); try done; [cbn; lia|cbn; lia|by eapply valid_probe_questions|].
  pose proof (repr_flags _ _ _ _ _ _ R3) as HF. change [0; 0; 0; 0] with ([0; 0] ++ [0; 0]) in HF.
  apply holds_app in HF as [HF0 HF]. change (0 + Zlen [0; 0]) with 2 in HF. rewrite (wr_range_same _ _ _ HF) in W3. injection W3 as W3.
  assert (header_qr m3 = Ok QUERY) as Hqr.
  { apply holds_cons in HF as [F0 HF]. apply holds_rd in HF. unfold header_qr, get_host16, H_FLAGS. rewrite <- W3, F0.
    cbn [mbind res_bind]. by rewrite HF. }
  pose proof (prepare_response_spec h ah m3 tx qs 0 0 Hh) as HR. pose proof (spec_response_ok h ah Hh qs) as Hok.
  assert (xs <> []) as Hne by apply owes_address. unfold xs in *.
  destruct (spec_response ah qs) as [ys b]. cbn [fst snd] in *. destruct Hok as (_ & Hbits & Hb).
  assert ((b <? RS_SEND) = false) as Hsend.
  { change 3 with (Z.ones 2) in Hbits. rewrite Z.land_ones in Hbits by lia. change (2 ^ 2) with 4 in Hbits.
    pose proof (Z.mod_pos_bound b 4 ltac:(lia)). assert (b <> 0) by auto. unfold RS_SEND. lia. }
  destruct HR as (tx' & ss' & _ & HR);
    [split; [by apply parsed_nq in PP|by apply (parsed_qs _ _ _ _ PP)]|done|by rewrite <- W3| |done|done|].
  { rewrite <- W3. apply (repr_bytes _ _ _ _ _ _ R3). }
  exists m3, tx', ss'.
  assert (forall (r : Z) ret, returns (fun fuel => prepare_response fuel h m3 tx) (r, tx', ss') ->
    ret = (if r <? RS_SEND then -1 else 0) -> returns (fun fuel => check_max_response fuel h rx tx) (ret, m3, tx', ss')) as Hrun.
  { intros r ret Hr ->. unfold check_max_response. rewrite E1. cbn [mbind res_bind]. rewrite E2. cbn [mbind res_bind Z.eqb negb].
    eapply returns_bind; [exact P3|]. cbn [Z.eqb negb]. eapply returns_bind; [exact Hr|]. apply returns_const. by destruct (r <? RS_SEND). }
  destruct (packet_size [] ys [] <=? 1472); [|by eapply Hrun]. destruct HR as (HR & Hss & Rt). split; [|split].
  - eapply Hrun; [exact HR|]. by rewrite Hsend.
  - unfold TAILROOM, packet_size. rewrite (repr_end _ _ _ _ _ _ Rt), (repr_cur _ _ _ _ _ _ Rt). lia.
  - destruct Hh. by constructor.
Qed.

(** ** The launch *)

Section Launch.
Context (io : ports) (ipaddr : Z) (domain : option (list Z)) (hostname : list Z) (ss : list mdns_service).
Context (kvs : list (option (list (list Z)))) (h : host) (tx rx : mdns_message) (c : statics).

Let dom := default STR_LOCAL domain.
Let ah := claimed_host hostname dom ipaddr ss kvs.

Context (Hn : user_label hostname) (Hd : user_label dom) (Hs : Forall2 user_service ss kvs).
Context (Hf : Zlen (fqdn h) = 256) (Ha : Zlen (in_addr_arpa h) = 30).

(** The names are set up. *)
Lemma launch_host : exists n arpa ss', reset_fqdn (mkHost hostname dom (fqdn h) (in_addr_arpa h) ipaddr (user_services h)) =
    Ok (mkHost hostname dom n (in_addr_arpa h) ipaddr (user_services h)) /\
  ipaddr_to_inaddrarpa (htonl ipaddr) (in_addr_arpa h) = Ok arpa /\ launch_services dom ss = Ok (0, ss') /\
  host_is (mkHost hostname dom n arpa ipaddr ss') ah.
Proof using Hn Hd Hs Hf Ha.
  destruct (reset_fqdn_spec (mkHost hostname dom (fqdn h) (in_addr_arpa h) ipaddr (user_services h))) as (n & E & H & _);
    [apply Hn|apply Hd|done|]. destruct (inaddrarpa_spec (htonl ipaddr) (in_addr_arpa h) Ha) as (arpa & Ea & Hpa & _).
  destruct (launch_services_ok dom ss kvs Hd Hs) as (ss' & Es & Hss). exists n, arpa, ss'. split_and!; [done..|].
  destruct Hn as [Hn1 _], Hd as [Hd1 _]. constructor; cbn; [| |done|done].
  - apply name_arg_intro; [constructor; [done|constructor; [done|constructor]]|done|].
    rewrite !encode_cons. zlen.
    change (Zlen (encode [])) with 1. destruct Hn1, Hd1. lia.
  - destruct (arpa_labels_name (htonl ipaddr)) as [[Hv _] Hl]. exact (name_arg_intro _ _ _ Hv Hpa ltac:(lia)).
Qed.

Context (Hio : 0 <= mc_sock io /\ 0 <= ctrl_sock io /\ thread_ptr io <> 0).
Context (Htx : arrays_ok tx /\ Zlen (data tx) = 1472 /\ bytes (data tx)) (Hrx : arrays_ok rx /\ Zlen (data rx) = 1472 /\ bytes (data rx)).
Context (Lq : (length (probe_questions_of ah) <= 32)%nat) (Ln : (length (probe_authorities ah 255) <= 32)%nat).

(** The static variables and the calls of the platform after a launch that
    succeeds. *)
Definition launched_statics : statics := with_thread (with_ctrl (with_mc c (mc_sock io)) (ctrl_sock io)) (thread_ptr io).
Definition launch_calls : list pcall :=
  [mdns_socket_mcast (mc_sock io); mdns_socket_loopback (htons MDNS_CTRL_RESPONDER) 1 (ctrl_sock io);
   socket_ (raw_sock io); mdns_thread_create MDNS_THREAD_RESPONDER (thread_ptr io)].

(** The sizes of the probe and of the largest response, with the room that the
    code keeps for suffixes. *)
Definition probe_room : Z :=
  packet_size (probe_questions_of ah) [] (probe_authorities ah 255) + max_probe_growth (Zlen ss).
Definition response_room : Z :=
  packet_size [] (spec_response ah (probe_questions_of ah)).1 [] + max_response_growth (Zlen ss).

Lemma responder_launch_spec : exists h' tx' rx' c' cs,
  returns (fun fuel => responder_launch fuel io ipaddr domain hostname ss h tx rx c)
    (if (probe_room <=? 1472) && (response_room <=? 1472) then 0 else MDNS_TOOBIG, h', tx', rx', c', cs) /\
  if (probe_room <=? 1472) && (response_room <=? 1472) then
    host_is h' ah /\ c' = launched_statics /\ cs = launch_calls
  else c' = with_mc c (mc_sock io) /\ cs = [mdns_socket_mcast (mc_sock io)].
Proof using Hn Hd Hs Hf Ha Hio Htx Hrx Lq Ln.
  destruct launch_host as (n & arpa & ss' & E1 & E2 & E3 & Hh). set (h1 := mkHost hostname dom n arpa ipaddr ss') in *.
  destruct Htx as (At & Lt & Bt), Hrx as (Ar & Lr & Br), Hio as (I1 & I2 & I3).
  destruct (prepare_probe_spec h1 ah tx Hh At Lt Bt Lq Ln) as (tx1 & A1 & Hp).
  set (c1 := with_mc c (mc_sock io)). set (cs1 := [mdns_socket_mcast (mc_sock io)]).
  assert (forall out, returns (fun fuel => '(ret, tx) ← prepare_probe fuel h1 tx;
        if ret =? -1 then mret (MDNS_TOOBIG, h1, tx, rx, c1, cs1)
        else if TAILROOM tx <? max_probe_growth (Zlen ss) then mret (MDNS_TOOBIG, h1, tx, rx, c1, cs1)
        else
          '(ret, rx, tx, ss1) ← check_max_response fuel h1 rx tx;
          let h := set_services h1 ss1 in
          if ret =? -1 then mret (MDNS_TOOBIG, h, tx, rx, c1, cs1)
          else if TAILROOM tx <? max_response_growth (Zlen ss) then mret (MDNS_TOOBIG, h, tx, rx, c1, cs1)
          else mret (0, h, tx, rx, launched_statics, launch_calls)) out ->
    returns (fun fuel => responder_launch fuel io ipaddr domain hostname ss h tx rx c) out) as Hrun.
  { intros out. apply returns_ext. intros fuel. unfold responder_launch.
    replace (match domain with Some d => d | None => STR_LOCAL end) with dom by (by destruct domain). cbv zeta.
    rewrite (user_label_valid hostname Hn), (user_label_valid dom Hd). cbn [negb orb].
    cbn [hname domname fqdn in_addr_arpa user_services]. rewrite E1. cbn [mbind res_bind]. cbn [in_addr_arpa]. rewrite E2. cbn [mbind res_bind].
    destruct (Z.ltb_spec (mc_sock io) 0); [lia|]. rewrite E3. cbn [mbind res_bind Z.eqb negb].
    destruct (Z.ltb_spec (ctrl_sock io) 0); [lia|]. by destruct (Z.eqb_spec (thread_ptr io) 0). }
  unfold probe_room, response_room. set (ps := packet_size (probe_questions_of ah) [] (probe_authorities ah 255)) in *.
  set (xs := (spec_response ah (probe_questions_of ah)).1) in *.
  assert (0 <= Zlen ss) as Hss by apply Zlen_nonneg. unfold max_probe_growth, max_response_growth in *.
  destruct (Z.leb_spec ps 1472) as [Hps|Hps].
  2: { destruct (Z.leb_spec (ps + (2 * 3 + 2 * 2 * Zlen ss)) 1472); [lia|]. eexists _, _, _, _, _. split; [|done].
       apply Hrun. eapply returns_bind; [exact Hp|]. by apply returns_all. }
  destruct Hp as (Hp & _ & R1).
  assert (TAILROOM tx1 = 1472 - ps) as Et
    by (unfold TAILROOM, ps, packet_size; rewrite (repr_end _ _ _ _ _ _ R1), (repr_cur _ _ _ _ _ _ R1); lia).
  destruct (Z.leb_spec (ps + (2 * 3 + 2 * 2 * Zlen ss)) 1472) as [Hpr|Hpr].
  2: { eexists _, _, _, _, _. split; [|done]. apply Hrun. eapply returns_bind; [exact Hp|]. apply returns_all. intros fuel. cbn [Z.eqb].
       destruct (Z.ltb_spec (TAILROOM tx1) (2 * 3 + 2 * 2 * Zlen ss)); [done|lia]. }
  destruct (check_max_response_spec h1 ah rx tx1 Hh Ar Lr Br) as (rx2 & tx2 & ss2 & Hc);
    [apply (repr_size _ _ _ _ _ _ R1)|apply (repr_bytes _ _ _ _ _ _ R1)|done| |].
  { unfold ps, packet_size, enc_body in *. cbn [flat_map] in *. rewrite app_nil_r. zlen.
    pose proof (Zlen_nonneg (flat_map enc_rr (probe_authorities ah 255))). lia. }
  fold xs in Hc.
  assert (forall ret : Z, returns (fun fuel => check_max_response fuel h1 rx tx1) (ret, rx2, tx2, ss2) ->
    (ret = -1 \/ ret = 0) -> returns (fun fuel => responder_launch fuel io ipaddr domain hostname ss h tx rx c)
      (if (ret =? -1) || (TAILROOM tx2 <? 2 * 3 + 4 * 2 * Zlen ss) then (MDNS_TOOBIG, set_services h1 ss2, tx2, rx2, c1, cs1)
       else (0, set_services h1 ss2, tx2, rx2, launched_statics, launch_calls))) as Hrun2.
  { intros ret Hr Hcode. apply Hrun. eapply returns_bind; [exact Hp|]. cbn [Z.eqb].
    destruct (Z.ltb_spec (TAILROOM tx1) (2 * 3 + 2 * 2 * Zlen ss)); [lia|]. eapply returns_bind; [exact Hr|].
    apply returns_const. cbv zeta. destruct (ret =? -1); [done|]. by destruct (_ <? 2 * 3 + 4 * 2 * Zlen ss). }
  destruct (Z.leb_spec (packet_size [] xs []) 1472) as [Hxs|Hxs].
  - destruct Hc as (Hc & Et2 & Hh2). specialize (Hrun2 0 Hc ltac:(by right)). cbn [Z.eqb orb] in Hrun2.
    destruct (Z.leb_spec (packet_size [] xs [] + (2 * 3 + 4 * 2 * Zlen ss)) 1472) as [Hr|Hr]; cbn [andb].
    + destruct (Z.ltb_spec (TAILROOM tx2) (2 * 3 + 4 * 2 * Zlen ss)); [lia|]. eexists _, _, _, _, _. by split; [exact Hrun2|].
    + destruct (Z.ltb_spec (TAILROOM tx2) (2 * 3 + 4 * 2 * Zlen ss)); [|lia]. eexists _, _, _, _, _. by split; [exact Hrun2|].
  - specialize (Hrun2 (-1) Hc ltac:(by left)). change (-1 =? -1) with true in Hrun2. cbn [orb] in Hrun2.
    destruct (Z.leb_spec (packet_size [] xs [] + (2 * 3 + 4 * 2 * Zlen ss)) 1472); [lia|]. eexists _, _, _, _, _. by split; [exact Hrun2|].
Qed.
End Launch.

(** C6: Launching the responder.  For a host name, a domain and services that the
    user may supply (labels without dots, types of at most 62 characters,
    key/value text of at most 254 characters), when the platform gives the
    sockets and the thread, [responder_launch] returns, with success exactly when
    the probe and the largest response fit in a packet with the room reserved for
    suffixes, and MDNS_TOOBIG otherwise; after success the static variables
    describe exactly the host that was asked for, which is what the theorems on
    probes, announcements and responses start from. *)
Theorem responder_launch_correct io ipaddr domain hostname ss kvs h tx rx c :
  let ah := claimed_host hostname (default STR_LOCAL domain) ipaddr ss kvs in
  let fits := (probe_room ipaddr domain hostname ss kvs <=? 1472) && (response_room ipaddr domain hostname ss kvs <=? 1472) in
  user_label hostname -> user_label (default STR_LOCAL domain) -> Forall2 user_service ss kvs ->
  Zlen (fqdn h) = 256 -> Zlen (in_addr_arpa h) = 30 ->
  0 <= mc_sock io /\ 0 <= ctrl_sock io /\ thread_ptr io <> 0 ->
  arrays_ok tx /\ Zlen (data tx) = 1472 /\ bytes (data tx) -> arrays_ok rx /\ Zlen (data rx) = 1472 /\ bytes (data rx) ->
  (length (probe_questions_of ah) <= 32)%nat -> (length (probe_authorities ah 255) <= 32)%nat ->
  exists h' tx' rx' c' cs,
    returns (fun fuel => responder_launch fuel io ipaddr domain hostname ss h tx rx c)
      (if fits then 0 else MDNS_TOOBIG, h', tx', rx', c', cs) /\
    if fits then host_is h' ah /\ c' = launched_statics io c /\ cs = launch_calls io
    else c' = with_mc c (mc_sock io) /\ cs = [mdns_socket_mcast (mc_sock io)].
Proof. intros. by apply responder_launch_spec. Qed.

(** The witness: node.local at 10.0.0.1 with the service "web" and the text "a=b". *)
Definition user_web : mdns_service :=
  mkService s_web s_http 80 MDNS_PROTO_TCP (Some ([0; 97; 61; 98; 0], 1)) (replicate 255 0) 0 0 0.
Definition unset_host : host := mkHost [] [] (replicate 256 0) (replicate 30 0) 0 [].

Lemma user_web_ok : user_service user_web (Some [[97; 61; 98]]).
Proof.
  constructor; [split; by_eval|split; [split; by_eval|by vm_compute]|by left|by vm_compute|done|].
  split_and!; try done; [by_eval..|exists 0; by_eval].
Qed.

Lemma responder_launch_correct_witness :
  exists h' tx' rx' c' cs,
    returns (fun fuel => responder_launch fuel (mkPorts 3 4 5 6) 0x0100000A None s_node [user_web] unset_host
        blank_message blank_message zero_statics) (0, h', tx', rx', c', cs) /\ host_is h' demo_ahost.
Proof.
  destruct (responder_launch_correct (mkPorts 3 4 5 6) 0x0100000A None s_node [user_web] [Some [[97; 61; 98]]]
    unset_host blank_message blank_message zero_statics) as (h' & tx' & rx' & c' & cs & HR & HH).
  - split; by_eval.
  - split; by_eval.
  - constructor; [exact user_web_ok|constructor].
  - reflexivity.
  - reflexivity.
  - by vm_compute.
  - split; [split_and!; reflexivity|]. split; [reflexivity|exact blank_bytes].
  - split; [split_and!; reflexivity|]. split; [reflexivity|exact blank_bytes].
  - by_eval.
  - by_eval.
  - exists h', tx', rx', c', cs. split; [exact HR|]. exact (proj1 HH).
Defined.
