(* ===== verification/Querier.v ===== *)
(** * The querier (src/mdns/mdns_query.c)

    The querier watches the service types it was asked to monitor.  Monitors,
    service instances and A records are cells of three static arrays and every
    list of the file is an intrusive list through the cells (Slist.v), so a cell
    can be on a list it should not be on any more, as in the code.  [qstate]
    gathers the static variables; the functions are in the state monad [Q] over
    it, with the failures of [res].  The last cell of [sinsts] is
    [overflow_sinst] and the last cell of [arecs] is [overflow_arec].  The
    pointers a [struct mdns_message *m] can take are the two static messages:
    [rx_msg] in what a received packet triggers, [tx_msg] in [prepare_query].
    The calls of the user's callback are recorded in order in [calls]. *)
From S2P Require Import Prelude Platform Buffer Slist Dname Message.

(** ** Constants of mdns.h and mdns_private.h *)

Definition MDNS_NOIMPL : Z := 4.
Definition MDNS_NOMEM : Z := 5.
Definition MDNS_INUSE : Z := 6.
Definition MDNS_NORESP : Z := 7.

Definition MDNS_DISCOVERED : Z := 1.
Definition MDNS_UPDATED : Z := 2.
Definition MDNS_DISAPPEARED : Z := 3.
Definition MDNS_CACHE_FULL : Z := 4.

Definition MDNS_SERVICE_CACHE_SIZE : nat := 16.
Definition MDNS_MAX_SERVICE_MONITORS : nat := 4.

Definition SERVICE_HAS_A_FLAG : Z := 2.
Definition SERVICE_HAS_SRV_FLAG : Z := 4.

(** ** Saturating arithmetic on uint32_t *)

Definition SUBTRACT (a b : Z) : Z := if b <? a then a - b else 0.
Definition ADD (a b : Z) : Z := if UINT32_MAX - b <? a then UINT32_MAX else a + b.
Definition CONVERT_TTL (ttl : Z) : Z := if UINT32_MAX / 1000 <? ttl then UINT32_MAX else ttl * 1000.
Definition MIN (a b : Z) : Z := if a <? b then a else b.

(** ** Data *)

Inductive arec_state := AREC_STATE_INIT | AREC_STATE_QUERYING | AREC_STATE_RESOLVED.
Inductive arec_event := AREC_EVENT_RX_REC | AREC_EVENT_ADD_QUESTIONS.

Inductive sinst_state := SINST_STATE_INIT | SINST_STATE_CLEAN | SINST_STATE_UPDATING.
Inductive sinst_event :=
  | SINST_EVENT_GOT_TXT | SINST_EVENT_GOT_SRV | SINST_EVENT_GOT_AREC | SINST_EVENT_LOST_AREC
  | SINST_EVENT_ADD_QUESTIONS.

#[global] Instance arec_state_eq_dec : EqDecision arec_state.
Proof. solve_decision. Defined.
#[global] Instance arec_event_eq_dec : EqDecision arec_event.
Proof. solve_decision. Defined.
#[global] Instance sinst_state_eq_dec : EqDecision sinst_state.
Proof. solve_decision. Defined.
#[global] Instance sinst_event_eq_dec : EqDecision sinst_event.
Proof. solve_decision. Defined.

(** [ar_sinsts] is the head of the list, through [alist_item], of the instances
    that refer to the record. *)
Record arec := mkArec {
  ar_list_item : option nat;
  ar_sinsts : option nat;
  ar_ipaddr : Z;
  ar_ttl : Z;
  ar_fqdn : list Z;
  ar_state : arec_state;
  ar_next_refresh : Z;
  ar_ttl_percent : Z }.

(** The [struct mdns_service] of an instance.  Its [servname], [servtype] and
    [domain] always point to the buffers of the instance; [s_keyvals] says
    whether [keyvals] points to the instance's buffer or is NULL. *)
Record service := mkQService {
  s_port : Z;
  s_proto : Z;
  s_keyvals : bool;
  s_ipaddr : Z;
  s_fqsn : list Z;
  s_flags : Z }.

Record service_instance := mkSinst {
  list_item : option nat;
  si_service : service;
  sname : list Z;
  stype : list Z;
  domain : list Z;
  si_keyvals : list Z;
  rawkeyvals : list Z;
  rawkvlen : Z;
  alist_item : option nat;
  si_arec : option nat;
  ptr_ttl : Z;
  srv_ttl : Z;
  srv_ttl0 : Z;
  next_refresh : Z;
  ttl_percent : Z;
  si_state : sinst_state;
  si_smon : option nat }.

(** [cb] and [cbdata] are the user's function and argument. *)
Record service_monitor := mkSmon {
  sm_list_item : option nat;
  sm_sinsts : option nat;
  sm_fqst : list Z;
  fqst_offset : Z;
  fqsn_offset : Z;
  cb : Z;
  cbdata : Z;
  refresh_period : Z;
  sm_next_refresh : Z }.

(** A call of the user's callback: the function, its data, the instance whose
    service it gets (the cell, and its contents at that moment) and the status. *)
Record callback := mkCallback {
  call_cb : Z; call_data : Z; call_cell : nat; call_sinst : service_instance; call_status : Z }.

Record qstate := mkQstate {
  arecs : list arec;
  sinsts : list service_instance;
  smons : list service_monitor;
  arecs_active : option nat;
  arecs_free : option nat;
  sinsts_free : option nat;
  smons_active : option nat;
  smons_free : option nat;
  tx_msg : mdns_message;
  rx_msg : mdns_message;
  calls : list callback }.

(** ** Field updates *)

Definition arec_with_list_item (a : arec) (n : option nat) : arec :=
  mkArec n (ar_sinsts a) (ar_ipaddr a) (ar_ttl a) (ar_fqdn a) (ar_state a) (ar_next_refresh a) (ar_ttl_percent a).
Definition arec_with_sinsts (a : arec) (h : option nat) : arec :=
  mkArec (ar_list_item a) h (ar_ipaddr a) (ar_ttl a) (ar_fqdn a) (ar_state a) (ar_next_refresh a) (ar_ttl_percent a).
Definition arec_with_ipaddr (a : arec) (ip : Z) : arec :=
  mkArec (ar_list_item a) (ar_sinsts a) ip (ar_ttl a) (ar_fqdn a) (ar_state a) (ar_next_refresh a) (ar_ttl_percent a).
Definition arec_with_fqdn (a : arec) (n : list Z) : arec :=
  mkArec (ar_list_item a) (ar_sinsts a) (ar_ipaddr a) (ar_ttl a) n (ar_state a) (ar_next_refresh a) (ar_ttl_percent a).
Definition arec_with_state (a : arec) (s : arec_state) : arec :=
  mkArec (ar_list_item a) (ar_sinsts a) (ar_ipaddr a) (ar_ttl a) (ar_fqdn a) s (ar_next_refresh a) (ar_ttl_percent a).
(** [ttl], [next_refresh] and [ttl_percent] *)
Definition arec_with_times (a : arec) (ttl next percent : Z) : arec :=
  mkArec (ar_list_item a) (ar_sinsts a) (ar_ipaddr a) ttl (ar_fqdn a) (ar_state a) next percent.

Definition service_with_port (s : service) (p : Z) : service :=
  mkQService p (s_proto s) (s_keyvals s) (s_ipaddr s) (s_fqsn s) (s_flags s).
Definition service_with_proto (s : service) (p : Z) : service :=
  mkQService (s_port s) p (s_keyvals s) (s_ipaddr s) (s_fqsn s) (s_flags s).
Definition service_with_keyvals (s : service) (b : bool) : service :=
  mkQService (s_port s) (s_proto s) b (s_ipaddr s) (s_fqsn s) (s_flags s).
Definition service_with_ipaddr (s : service) (ip : Z) : service :=
  mkQService (s_port s) (s_proto s) (s_keyvals s) ip (s_fqsn s) (s_flags s).
Definition service_with_fqsn (s : service) (n : list Z) : service :=
  mkQService (s_port s) (s_proto s) (s_keyvals s) (s_ipaddr s) n (s_flags s).
Definition service_with_flags (s : service) (f : Z) : service :=
  mkQService (s_port s) (s_proto s) (s_keyvals s) (s_ipaddr s) (s_fqsn s) f.

Definition with_list_item (i : service_instance) (n : option nat) : service_instance :=
  mkSinst n (si_service i) (sname i) (stype i) (domain i) (si_keyvals i) (rawkeyvals i) (rawkvlen i) (alist_item i)
    (si_arec i) (ptr_ttl i) (srv_ttl i) (srv_ttl0 i) (next_refresh i) (ttl_percent i) (si_state i) (si_smon i).
Definition with_alist_item (i : service_instance) (n : option nat) : service_instance :=
  mkSinst (list_item i) (si_service i) (sname i) (stype i) (domain i) (si_keyvals i) (rawkeyvals i) (rawkvlen i) n
    (si_arec i) (ptr_ttl i) (srv_ttl i) (srv_ttl0 i) (next_refresh i) (ttl_percent i) (si_state i) (si_smon i).
Definition with_service (i : service_instance) (s : service) : service_instance :=
  mkSinst (list_item i) s (sname i) (stype i) (domain i) (si_keyvals i) (rawkeyvals i) (rawkvlen i) (alist_item i)
    (si_arec i) (ptr_ttl i) (srv_ttl i) (srv_ttl0 i) (next_refresh i) (ttl_percent i) (si_state i) (si_smon i).
(** [sname], [stype] and [domain] *)
Definition with_labels (i : service_instance) (n t d : list Z) : service_instance :=
  mkSinst (list_item i) (si_service i) n t d (si_keyvals i) (rawkeyvals i) (rawkvlen i) (alist_item i)
    (si_arec i) (ptr_ttl i) (srv_ttl i) (srv_ttl0 i) (next_refresh i) (ttl_percent i) (si_state i) (si_smon i).
(** [keyvals], [rawkeyvals] and [rawkvlen] *)
Definition with_txt (i : service_instance) (kv raw : list Z) (rawlen : Z) : service_instance :=
  mkSinst (list_item i) (si_service i) (sname i) (stype i) (domain i) kv raw rawlen (alist_item i)
    (si_arec i) (ptr_ttl i) (srv_ttl i) (srv_ttl0 i) (next_refresh i) (ttl_percent i) (si_state i) (si_smon i).
Definition with_arec (i : service_instance) (a : option nat) : service_instance :=
  mkSinst (list_item i) (si_service i) (sname i) (stype i) (domain i) (si_keyvals i) (rawkeyvals i) (rawkvlen i)
    (alist_item i) a (ptr_ttl i) (srv_ttl i) (srv_ttl0 i) (next_refresh i) (ttl_percent i) (si_state i) (si_smon i).
Definition with_ptr_ttl (i : service_instance) (t : Z) : service_instance :=
  mkSinst (list_item i) (si_service i) (sname i) (stype i) (domain i) (si_keyvals i) (rawkeyvals i) (rawkvlen i)
    (alist_item i) (si_arec i) t (srv_ttl i) (srv_ttl0 i) (next_refresh i) (ttl_percent i) (si_state i) (si_smon i).
(** [srv_ttl], [srv_ttl0], [next_refresh] and [ttl_percent] *)
Definition with_srv_times (i : service_instance) (t t0 n p : Z) : service_instance :=
  mkSinst (list_item i) (si_service i) (sname i) (stype i) (domain i) (si_keyvals i) (rawkeyvals i) (rawkvlen i)
    (alist_item i) (si_arec i) (ptr_ttl i) t t0 n p (si_state i) (si_smon i).
Definition with_next_refresh (i : service_instance) (n : Z) : service_instance :=
  with_srv_times i (srv_ttl i) (srv_ttl0 i) n (ttl_percent i).
Definition with_si_state (i : service_instance) (s : sinst_state) : service_instance :=
  mkSinst (list_item i) (si_service i) (sname i) (stype i) (domain i) (si_keyvals i) (rawkeyvals i) (rawkvlen i)
    (alist_item i) (si_arec i) (ptr_ttl i) (srv_ttl i) (srv_ttl0 i) (next_refresh i) (ttl_percent i) s (si_smon i).
Definition with_si_smon (i : service_instance) (m : option nat) : service_instance :=
  mkSinst (list_item i) (si_service i) (sname i) (stype i) (domain i) (si_keyvals i) (rawkeyvals i) (rawkvlen i)
    (alist_item i) (si_arec i) (ptr_ttl i) (srv_ttl i) (srv_ttl0 i) (next_refresh i) (ttl_percent i) (si_state i) m.

Definition smon_with_list_item (m : service_monitor) (n : option nat) : service_monitor :=
  mkSmon n (sm_sinsts m) (sm_fqst m) (fqst_offset m) (fqsn_offset m) (cb m) (cbdata m) (refresh_period m) (sm_next_refresh m).
Definition smon_with_sinsts (m : service_monitor) (h : option nat) : service_monitor :=
  mkSmon (sm_list_item m) h (sm_fqst m) (fqst_offset m) (fqsn_offset m) (cb m) (cbdata m) (refresh_period m) (sm_next_refresh m).
Definition smon_with_offsets (m : service_monitor) (t n : Z) : service_monitor :=
  mkSmon (sm_list_item m) (sm_sinsts m) (sm_fqst m) t n (cb m) (cbdata m) (refresh_period m) (sm_next_refresh m).
(** [refresh_period] and [next_refresh] *)
Definition smon_with_refresh (m : service_monitor) (p n : Z) : service_monitor :=
  mkSmon (sm_list_item m) (sm_sinsts m) (sm_fqst m) (fqst_offset m) (fqsn_offset m) (cb m) (cbdata m) p n.

Definition q_arecs (q : qstate) (l : list arec) : qstate :=
  mkQstate l (sinsts q) (smons q) (arecs_active q) (arecs_free q) (sinsts_free q) (smons_active q) (smons_free q)
    (tx_msg q) (rx_msg q) (calls q).
Definition q_sinsts (q : qstate) (l : list service_instance) : qstate :=
  mkQstate (arecs q) l (smons q) (arecs_active q) (arecs_free q) (sinsts_free q) (smons_active q) (smons_free q)
    (tx_msg q) (rx_msg q) (calls q).
Definition q_smons (q : qstate) (l : list service_monitor) : qstate :=
  mkQstate (arecs q) (sinsts q) l (arecs_active q) (arecs_free q) (sinsts_free q) (smons_active q) (smons_free q)
    (tx_msg q) (rx_msg q) (calls q).
Definition q_arec_heads (q : qstate) (act free : option nat) : qstate :=
  mkQstate (arecs q) (sinsts q) (smons q) act free (sinsts_free q) (smons_active q) (smons_free q)
    (tx_msg q) (rx_msg q) (calls q).
Definition q_sinsts_free (q : qstate) (free : option nat) : qstate :=
  mkQstate (arecs q) (sinsts q) (smons q) (arecs_active q) (arecs_free q) free (smons_active q) (smons_free q)
    (tx_msg q) (rx_msg q) (calls q).
Definition q_smon_heads (q : qstate) (act free : option nat) : qstate :=
  mkQstate (arecs q) (sinsts q) (smons q) (arecs_active q) (arecs_free q) (sinsts_free q) act free
    (tx_msg q) (rx_msg q) (calls q).
Definition q_tx (q : qstate) (m : mdns_message) : qstate :=
  mkQstate (arecs q) (sinsts q) (smons q) (arecs_active q) (arecs_free q) (sinsts_free q) (smons_active q)
    (smons_free q) m (rx_msg q) (calls q).
Definition q_rx (q : qstate) (m : mdns_message) : qstate :=
  mkQstate (arecs q) (sinsts q) (smons q) (arecs_active q) (arecs_free q) (sinsts_free q) (smons_active q)
    (smons_free q) (tx_msg q) m (calls q).
Definition q_call (q : qstate) (c : callback) : qstate :=
  mkQstate (arecs q) (sinsts q) (smons q) (arecs_active q) (arecs_free q) (sinsts_free q) (smons_active q)
    (smons_free q) (tx_msg q) (rx_msg q) (calls q ++ [c]).

(** The link fields. *)
Definition arec_link : link arec := mkLink ar_list_item arec_with_list_item.
Definition sinst_link : link service_instance := mkLink list_item with_list_item.
Definition sinst_alink : link service_instance := mkLink alist_item with_alist_item.
Definition smon_link : link service_monitor := mkLink sm_list_item smon_with_list_item.

#[global] Instance arec_link_laws : LinkLaws arec_link.
Proof. by constructor. Qed.
#[global] Instance sinst_link_laws : LinkLaws sinst_link.
Proof. by constructor. Qed.
#[global] Instance sinst_alink_laws : LinkLaws sinst_alink.
Proof. by constructor. Qed.
#[global] Instance smon_link_laws : LinkLaws smon_link.
Proof. by constructor. Qed.
#[global] Instance sinst_links_apart : Apart sinst_link sinst_alink.
Proof. by constructor. Qed.
#[global] Instance sinst_alinks_apart : Apart sinst_alink sinst_link.
Proof. by constructor. Qed.

(** ** The state monad *)

Definition Q (A : Type) : Type := qstate -> res (A * qstate).

#[global] Instance Q_ret : MRet Q := fun A a q => Ok (a, q).
#[global] Instance Q_bind : MBind Q := fun A B f c q =>
  match c q with
  | Ok (a, q) => f a q
  | Fault => Fault
  | Diverge => Diverge
  end.

Definition lift {A} (r : res A) : Q A := fun q =>
  match r with
  | Ok a => Ok (a, q)
  | Fault => Fault
  | Diverge => Diverge
  end.

Definition gets {A} (f : qstate -> A) : Q A := fun q => Ok (f q, q).
Definition modify (f : qstate -> qstate) : Q unit := fun q => Ok (tt, f q).

(** [*p]: NULL faults. *)
Definition deref (p : option nat) : Q nat := lift (match p with Some i => Ok i | None => Fault end).

Definition get_arec (a : nat) : Q arec := l ← gets arecs; lift (cell l a).
Definition get_sinst (i : nat) : Q service_instance := l ← gets sinsts; lift (cell l i).
Definition get_smon (m : nat) : Q service_monitor := l ← gets smons; lift (cell l m).

(** Assignments to fields of a cell. *)
Definition upd_arec (a : nat) (f : arec -> arec) : Q unit :=
  x ← get_arec a;
  modify (fun q => q_arecs q (<[a := f x]> (arecs q))).
Definition upd_sinst (i : nat) (f : service_instance -> service_instance) : Q unit :=
  x ← get_sinst i;
  modify (fun q => q_sinsts q (<[i := f x]> (sinsts q))).
Definition upd_smon (m : nat) (f : service_monitor -> service_monitor) : Q unit :=
  x ← get_smon m;
  modify (fun q => q_smons q (<[m := f x]> (smons q))).

(** [SLIST_FOREACH] and [SLIST_FOREACH_SAFE] around a body that updates a value:
    the next element is read after the body, or before it. *)
Fixpoint foreach {B} (fuel : nat) (nxt : nat -> Q (option nat)) (body : nat -> B -> Q B) (cur : option nat) (b : B)
    : Q B :=
  match cur with
  | None => mret b
  | Some i =>
      match fuel with
      | O => lift Diverge
      | S fuel' =>
          b ← body i b;
          n ← nxt i;
          foreach fuel' nxt body n b
      end
  end.

Fixpoint foreach_safe {B} (fuel : nat) (nxt : nat -> Q (option nat)) (body : nat -> B -> Q B) (cur : option nat)
    (b : B) : Q B :=
  match cur with
  | None => mret b
  | Some i =>
      match fuel with
      | O => lift Diverge
      | S fuel' =>
          n ← nxt i;
          b ← body i b;
          foreach_safe fuel' nxt body n b
      end
  end.

Definition next_arec (a : nat) : Q (option nat) := x ← get_arec a; mret (ar_list_item x).
Definition next_sinst (i : nat) : Q (option nat) := x ← get_sinst i; mret (list_item x).
Definition next_asinst (i : nat) : Q (option nat) := x ← get_sinst i; mret (alist_item x).
Definition next_smon (m : nat) : Q (option nat) := x ← get_smon m; mret (sm_list_item x).

(** The list operations on the lists of the file. *)

(** [SLIST_INSERT_HEAD(&sinsts_free, sinst, list_item)] *)
Definition insert_sinsts_free (i : nat) : Q unit :=
  q ← gets id;
  '(l, h) ← lift (SLIST_INSERT_HEAD sinst_link (sinsts q) (sinsts_free q) i);
  modify (fun q => q_sinsts_free (q_sinsts q l) h).

(** [SLIST_REMOVE_HEAD(&sinsts_free, list_item)] *)
Definition remove_head_sinsts_free : Q unit :=
  q ← gets id;
  h ← lift (SLIST_REMOVE_HEAD sinst_link (sinsts q) (sinsts_free q));
  modify (fun q => q_sinsts_free q h).

(** [SLIST_INSERT_HEAD(&smon->sinsts, sinst, list_item)] *)
Definition insert_smon_sinsts (m i : nat) : Q unit :=
  sm ← get_smon m;
  q ← gets id;
  '(l, h) ← lift (SLIST_INSERT_HEAD sinst_link (sinsts q) (sm_sinsts sm) i);
  modify (fun q => q_sinsts q l);;
  upd_smon m (fun sm => smon_with_sinsts sm h).

(** [SLIST_REMOVE_HEAD(&smon->sinsts, list_item)] *)
Definition remove_head_smon_sinsts (m : nat) : Q unit :=
  sm ← get_smon m;
  q ← gets id;
  h ← lift (SLIST_REMOVE_HEAD sinst_link (sinsts q) (sm_sinsts sm));
  upd_smon m (fun sm => smon_with_sinsts sm h).

(** [SLIST_REMOVE(&smon->sinsts, sinst, service_instance, list_item)] *)
Definition remove_smon_sinsts (fuel : nat) (m i : nat) : Q unit :=
  sm ← get_smon m;
  q ← gets id;
  '(l, h) ← lift (SLIST_REMOVE fuel sinst_link (sinsts q) (sm_sinsts sm) i);
  modify (fun q => q_sinsts q l);;
  upd_smon m (fun sm => smon_with_sinsts sm h).

(** [SLIST_INSERT_HEAD(&arec->sinsts, sinst, alist_item)] *)
Definition insert_arec_sinsts (a i : nat) : Q unit :=
  ar ← get_arec a;
  q ← gets id;
  '(l, h) ← lift (SLIST_INSERT_HEAD sinst_alink (sinsts q) (ar_sinsts ar) i);
  modify (fun q => q_sinsts q l);;
  upd_arec a (fun ar => arec_with_sinsts ar h).

(** [SLIST_REMOVE(&arec->sinsts, sinst, service_instance, alist_item)] *)
Definition remove_arec_sinsts (fuel : nat) (a i : nat) : Q unit :=
  ar ← get_arec a;
  q ← gets id;
  '(l, h) ← lift (SLIST_REMOVE fuel sinst_alink (sinsts q) (ar_sinsts ar) i);
  modify (fun q => q_sinsts q l);;
  upd_arec a (fun ar => arec_with_sinsts ar h).

(** [SLIST_REMOVE(&arecs_active, arec, arec, list_item)] *)
Definition remove_arecs_active (fuel : nat) (a : nat) : Q unit :=
  q ← gets id;
  '(l, h) ← lift (SLIST_REMOVE fuel arec_link (arecs q) (arecs_active q) a);
  modify (fun q => q_arec_heads (q_arecs q l) h (arecs_free q)).

(** [SLIST_INSERT_HEAD(&arecs_active, arec, list_item)] *)
Definition insert_arecs_active (a : nat) : Q unit :=
  q ← gets id;
  '(l, h) ← lift (SLIST_INSERT_HEAD arec_link (arecs q) (arecs_active q) a);
  modify (fun q => q_arec_heads (q_arecs q l) h (arecs_free q)).

(** [SLIST_INSERT_HEAD(&arecs_free, arec, list_item)] *)
Definition insert_arecs_free (a : nat) : Q unit :=
  q ← gets id;
  '(l, h) ← lift (SLIST_INSERT_HEAD arec_link (arecs q) (arecs_free q) a);
  modify (fun q => q_arec_heads (q_arecs q l) (arecs_active q) h).

(** [SLIST_REMOVE_HEAD(&arecs_free, list_item)] *)
Definition remove_head_arecs_free : Q unit :=
  q ← gets id;
  h ← lift (SLIST_REMOVE_HEAD arec_link (arecs q) (arecs_free q));
  modify (fun q => q_arec_heads q (arecs_active q) h).

(** [SLIST_REMOVE(&smons_active, found, service_monitor, list_item)] *)
Definition remove_smons_active (fuel : nat) (m : nat) : Q unit :=
  q ← gets id;
  '(l, h) ← lift (SLIST_REMOVE fuel smon_link (smons q) (smons_active q) m);
  modify (fun q => q_smon_heads (q_smons q l) h (smons_free q)).

(** [SLIST_REMOVE_HEAD(&smons_active, list_item)] *)
Definition remove_head_smons_active : Q unit :=
  q ← gets id;
  h ← lift (SLIST_REMOVE_HEAD smon_link (smons q) (smons_active q));
  modify (fun q => q_smon_heads q h (smons_free q)).

(** [SLIST_INSERT_HEAD(&smons_active, found, list_item)] *)
Definition insert_smons_active (m : nat) : Q unit :=
  q ← gets id;
  '(l, h) ← lift (SLIST_INSERT_HEAD smon_link (smons q) (smons_active q) m);
  modify (fun q => q_smon_heads (q_smons q l) h (smons_free q)).

(** [SLIST_INSERT_HEAD(&smons_free, found, list_item)] *)
Definition insert_smons_free (m : nat) : Q unit :=
  q ← gets id;
  '(l, h) ← lift (SLIST_INSERT_HEAD smon_link (smons q) (smons_free q) m);
  modify (fun q => q_smon_heads (q_smons q l) (smons_active q) h).

(** [SLIST_REMOVE_HEAD(&smons_free, list_item)] *)
Definition remove_head_smons_free : Q unit :=
  q ← gets id;
  h ← lift (SLIST_REMOVE_HEAD smon_link (smons q) (smons_free q));
  modify (fun q => q_smon_heads q (smons_active q) h).

(** [DO_CALLBACK(s, c)] *)
Definition DO_CALLBACK (i : nat) (c : Z) : Q unit :=
  s ← get_sinst i;
  m ← deref (si_smon s);
  sm ← get_smon m;
  modify (fun q => q_call q (mkCallback (cb sm) (cbdata sm) i s c)).

(** ** Monitors *)

(** A name argument of the received message; [None] is NULL. *)
Definition name_is (fuel : nat) (p1 : list Z) (m : mdns_message) (n : option Z) : res bool :=
  match n with
  | None => Fault
  | Some n => c ← dname_cmp fuel (own p1) 0 (packet m) n; mret (c =? 0)
  end.

Definition find_service_monitor (fuel : nat) (m : mdns_message) (fqst : option Z) : Q (option nat) :=
  q ← gets id;
  lift (slist_find fuel smon_link (smons q) (fun sm => name_is fuel (sm_fqst sm) m fqst) (smons_active q)).

(** [find_service_monitor(NULL, fqst)] for a name of our own. *)
Definition find_own_monitor (fuel : nat) (fqst : list Z) : Q (option nat) :=
  q ← gets id;
  lift (slist_find fuel smon_link (smons q)
    (fun sm => c ← dname_cmp fuel (own (sm_fqst sm)) 0 (own fqst) 0; mret (c =? 0)) (smons_active q)).

Definition add_service (fuel : nat) (smon : service_monitor) : Q Z :=
  found ← find_own_monitor fuel (sm_fqst smon);
  match found with
  | Some _ => mret MDNS_INUSE
  | None =>
      free ← gets smons_free;
      match free with
      | None => mret MDNS_NOMEM
      | Some found =>
          remove_head_smons_free;;
          upd_smon found (fun _ => smon);;
          upd_smon found (fun sm => smon_with_refresh (smon_with_sinsts sm None) 1000 0);;
          insert_smons_active found;;
          mret MDNS_SUCCESS
      end
  end.

Definition cleanup_sinst (fuel : nat) (i : nat) : Q unit :=
  s ← get_sinst i;
  m ← deref (si_smon s);
  remove_smon_sinsts fuel m i;;
  match si_arec s with
  | None => mret tt
  | Some a =>
      remove_arec_sinsts fuel a i;;
      ar ← get_arec a;
      match ar_sinsts ar with
      | Some _ => mret tt
      | None => remove_arecs_active fuel a;; insert_arecs_free a
      end
  end;;
  insert_sinsts_free i;;
  upd_sinst i (fun s => with_next_refresh s UINT32_MAX).

Definition cleanup_service (fuel : nat) (m : nat) : Q unit :=
  sm ← get_smon m;
  foreach_safe fuel next_sinst (fun i (_ : unit) => cleanup_sinst fuel i) (sm_sinsts sm) tt.

(** [while (!SLIST_EMPTY(&smons_active))] *)
Fixpoint remove_all_services (rounds fuel : nat) : Q unit :=
  act ← gets smons_active;
  match act with
  | None => mret tt
  | Some found =>
      match rounds with
      | O => lift Diverge
      | S rounds' =>
          remove_head_smons_active;;
          cleanup_service fuel found;;
          insert_smons_free found;;
          remove_all_services rounds' fuel
      end
  end.

Definition remove_service (fuel : nat) (fqst : list Z) : Q unit :=
  c ← lift (rd fqst 0);
  if c =? 0 then remove_all_services fuel fuel
  else
    found ← find_own_monitor fuel fqst;
    match found with
    | None => mret tt
    | Some found =>
        remove_smons_active fuel found;;
        cleanup_service fuel found;;
        insert_smons_free found
    end.

(** ** Service instances *)

Definition find_service_instance (fuel : nat) (m : nat) (msg : mdns_message) (fqsn : Z) : Q (option nat) :=
  sm ← get_smon m;
  q ← gets id;
  lift (slist_find fuel sinst_link (sinsts q) (fun s => name_is fuel (s_fqsn (si_service s)) msg (Some fqsn))
          (sm_sinsts sm)).

(** [memset(sinst, 0, sizeof(struct service_instance))] *)
Definition zero_sinst : service_instance :=
  mkSinst None (mkQService 0 0 false 0 (replicate 255 0) 0) (replicate 64 0) (replicate 64 0) (replicate 64 0)
    (replicate 256 0) (replicate 256 0) 0 None None 0 0 0 0 0 SINST_STATE_INIT None.

Definition reset_service_instance : service_instance := with_srv_times zero_sinst 1000 1000 0 20.

(** "\4_tcp" and "\4_udp" with their terminating 0 *)
Definition label_tcp : list Z := [4; 95; 116; 99; 112; 0].
Definition label_udp : list Z := [4; 95; 117; 100; 112; 0].

(** The code and the instance whose service was populated. *)
Definition copy_servinfo (fuel : nat) (s : service_instance) (m : mdns_message) (fqsn : Z)
    : res (Z * service_instance) :=
  '(ret, n) ← dname_copy fuel (s_fqsn (si_service s)) (packet m) fqsn;
  let s := with_service s (service_with_fqsn (si_service s) n) in
  if ret =? -1 then mret (ret, s)
  else
    '(p, b) ← dname_label_to_c fuel (sname s) (packet m) fqsn 1;
    let s := with_labels s b (stype s) (domain s) in
    match p with
    | None => mret (-1, s)
    | Some fqsn =>
        '(p, b) ← dname_label_to_c fuel (stype s) (packet m) fqsn 0;
        let s := with_labels s (sname s) b (domain s) in
        match p with
        | None => mret (-1, s)
        | Some fqsn =>
            tcp ← dname_label_cmp fuel (own label_tcp) 0 (packet m) fqsn;
            udp ← (if tcp =? 0 then mret 0 else dname_label_cmp fuel (own label_udp) 0 (packet m) fqsn);
            if negb (udp =? 0) then mret (-1, s)
            else
              let s := with_service s (service_with_proto (si_service s)
                         (if tcp =? 0 then MDNS_PROTO_TCP else MDNS_PROTO_UDP)) in
              p ← dname_label_next fuel (packet m) fqsn;
              match p with
              | None => mret (-1, s)
              | Some fqsn =>
                  '(p, b) ← dname_label_to_c fuel (domain s) (packet m) fqsn 0;
                  let s := with_labels s (sname s) (stype s) b in
                  match p with
                  | None => mret (-1, s)
                  | Some _ => mret (0, s)
                  end
              end
        end
    end.

(** 1 and the updated instance, or 0. *)
Definition update_txt (s : service_instance) (m : mdns_message) (r : mdns_resource) : res (Z * service_instance) :=
  let l := if r_rdlength r <? rawkvlen s then r_rdlength r else rawkvlen s in
  let rlen := r_rdlength r in
  changed ←
    (if negb (s_keyvals (si_service s)) then mret true
     else if negb (rlen =? rawkvlen s) && (rlen <? MDNS_MAX_KEYVAL_LEN + 1) then mret true
     else c ← memcmp (data m) (r_rdata r) (rawkeyvals s) 0 l; mret (negb (c =? 0)));
  if (changed : bool) then
    let l := if r_rdlength r <? MDNS_MAX_KEYVAL_LEN + 1 then r_rdlength r else MDNS_MAX_KEYVAL_LEN + 1 in
    bs ← rd_range (data m) (r_rdata r) l;
    raw ← wr_range (rawkeyvals s) 0 bs;
    kv ← txt_to_c_ncpy (si_keyvals s) 256 (data m) (r_rdata r) (r_rdlength r);
    mret (1, with_txt (with_service s (service_with_keyvals (si_service s) true)) kv raw l)
  else mret (0, s).

Definition find_arec (fuel : nat) (m : mdns_message) (fqdn : Z) : Q (option nat) :=
  q ← gets id;
  lift (slist_find fuel arec_link (arecs q) (fun a => name_is fuel (ar_fqdn a) m (Some fqdn)) (arecs_active q)).

Definition set_arec (fuel : nat) (i a : nat) : Q Z :=
  s ← get_sinst i;
  ret ← match si_arec s with
        | None => mret 0
        | Some old =>
            remove_arec_sinsts fuel old i;;
            mret (if bool_decide (old = a) then 0 else 1)
        end;
  ar ← get_arec a;
  ret ← (if bool_decide (ar_state ar = AREC_STATE_RESOLVED) then
           s ← get_sinst i;
           ret ← (if negb (s_ipaddr (si_service s) =? ar_ipaddr ar) then
                    upd_sinst i (fun s => with_service s (service_with_ipaddr (si_service s) (ar_ipaddr ar)));;
                    mret 1
                  else mret ret);
           upd_sinst i (fun s => with_service s
             (service_with_flags (si_service s) (Z.lor (s_flags (si_service s)) SERVICE_HAS_A_FLAG)));;
           mret ret
         else
           upd_sinst i (fun s => with_service s
             (service_with_flags (si_service s) (Z.land (s_flags (si_service s)) (Z.lnot SERVICE_HAS_A_FLAG))));;
           mret ret);
  insert_arec_sinsts a i;;
  upd_sinst i (fun s => with_arec s (Some a));;
  mret ret.

(** [memset(arec, 0, sizeof(struct arec))] *)
Definition zero_arec : arec := mkArec None None 0 0 (replicate 256 0) AREC_STATE_INIT 0 0.

(** [srv->port] and [srv->target] of a [struct rr_srv] in the packet. *)
Definition srv_port (m : mdns_message) (r : mdns_resource) : res Z := get_host16 (data m) (r_rdata r + 4).
Definition srv_target (r : mdns_resource) : Z := r_rdata r + 6.

Definition update_srv (fuel : nat) (i : nat) (r : mdns_resource) (elapsed : Z) : Q Z :=
  if r_ttl r =? 0 then
    cleanup_sinst fuel i;;
    mret (-1)
  else
    m ← gets rx_msg;
    s ← get_sinst i;
    p ← lift (srv_port m r);
    ret ← (if negb (s_port (si_service s) =? p) then
             upd_sinst i (fun s => with_service s (service_with_port (si_service s) p));;
             mret 1
           else mret 0);
    found ← find_arec fuel m (srv_target r);
    ret ← match found with
          | Some a => r ← set_arec fuel i a; mret (ret + r)
          | None =>
              free ← gets arecs_free;
              match free with
              | None => upd_sinst i (fun s => with_arec s None);; mret ret
              | Some a =>
                  remove_head_arecs_free;;
                  upd_arec a (fun _ => zero_arec);;
                  insert_arecs_active a;;
                  '(_, n) ← lift (dname_copy fuel (ar_fqdn zero_arec) (packet m) (srv_target r));
                  upd_arec a (fun ar => arec_with_fqdn ar n);;
                  r ← set_arec fuel i a;
                  mret (ret + r)
              end
          end;
    let t0 := CONVERT_TTL (r_ttl r) in
    upd_sinst i (fun s => with_srv_times s (ADD t0 elapsed) t0 (ADD (u32 (t0 * 80) / 100) elapsed) 20);;
    upd_sinst i (fun s => with_service s
      (service_with_flags (si_service s) (Z.lor (s_flags (si_service s)) SERVICE_HAS_SRV_FLAG)));;
    mret (if 0 <? ret then 1 else 0).

(** The question goes to [tx_msg]. *)
Definition apply_elapsed (fuel : nat) (i : nat) (elapsed : Z) : Q Z :=
  upd_sinst i (fun s => with_srv_times (with_ptr_ttl s (SUBTRACT (ptr_ttl s) elapsed))
    (SUBTRACT (srv_ttl s) elapsed) (srv_ttl0 s) (SUBTRACT (next_refresh s) elapsed) (ttl_percent s));;
  s ← get_sinst i;
  if negb (next_refresh s =? 0) then mret 0
  else if ttl_percent s <? 5 then
    cleanup_sinst fuel i;;
    mret (-1)
  else
    upd_sinst i (fun s => with_next_refresh s
      (if ttl_percent s =? 20 then u32 (srv_ttl0 s * 80) / 100 else u32 (srv_ttl0 s * ttl_percent s) / 100));;
    upd_sinst i (fun s => with_srv_times s (srv_ttl s) (srv_ttl0 s) (next_refresh s) (Z.shiftr (ttl_percent s) 1));;
    m ← gets tx_msg;
    '(e, m) ← lift (mdns_add_question m (s_fqsn (si_service s), 0) T_ANY C_IN);
    modify (fun q => q_tx q m);;
    mret (if negb (e =? 0) then 0 else 1).

Definition SERVICE_IS_READY (s : service) : bool :=
  Z.land (s_flags s) (Z.lor SERVICE_HAS_A_FLAG SERVICE_HAS_SRV_FLAG)
    =? Z.lor SERVICE_HAS_A_FLAG SERVICE_HAS_SRV_FLAG.

Definition service_ready (i : nat) : Q bool := s ← get_sinst i; mret (SERVICE_IS_READY (si_service s)).
Definition set_si_state (i : nat) (st : sinst_state) : Q unit := upd_sinst i (fun s => with_si_state s st).

(** The state-independent part of [update_sinst]. *)
Definition apply_event (fuel : nat) (i : nat) (e : sinst_event) (a : option nat) (rr : mdns_resource) (elapsed : Z)
    : Q Z :=
  match e with
  | SINST_EVENT_GOT_SRV => update_srv fuel i rr elapsed
  | SINST_EVENT_GOT_TXT =>
      s ← get_sinst i;
      m ← gets rx_msg;
      '(changes, s) ← lift (update_txt s m rr);
      upd_sinst i (fun _ => s);;
      mret changes
  | SINST_EVENT_GOT_AREC => a ← deref a; set_arec fuel i a
  | _ => mret 0
  end.

(** The three cases of [switch (sinst->state)]; the result is [changes].  [rr] is
    the SRV or the TXT record of the event. *)
Definition sinst_init (fuel : nat) (i : nat) (e : sinst_event) (changes elapsed : Z) : Q Z :=
  match e with
  | SINST_EVENT_LOST_AREC => cleanup_sinst fuel i;; mret changes
  | SINST_EVENT_ADD_QUESTIONS =>
      ret ← apply_elapsed fuel i elapsed;
      mret (if ret =? -1 then 0 else ret)
  | _ =>
      if changes <=? 0 then mret changes
      else
        ready ← service_ready i;
        if (ready : bool) then DO_CALLBACK i MDNS_DISCOVERED;; set_si_state i SINST_STATE_CLEAN;; mret changes
        else mret changes
  end.

Definition sinst_clean (fuel : nat) (i : nat) (e : sinst_event) (changes elapsed : Z) : Q Z :=
  match e with
  | SINST_EVENT_LOST_AREC => cleanup_sinst fuel i;; DO_CALLBACK i MDNS_DISAPPEARED;; mret changes
  | SINST_EVENT_ADD_QUESTIONS =>
      ret ← apply_elapsed fuel i elapsed;
      if ret =? -1 then DO_CALLBACK i MDNS_DISAPPEARED;; mret 0
      else if ret =? 1 then
        upd_sinst i (fun s => with_service s
          (service_with_flags (si_service s) (Z.land (s_flags (si_service s)) (Z.lnot SERVICE_HAS_SRV_FLAG))));;
        set_si_state i SINST_STATE_UPDATING;;
        mret 1
      else mret 0
  | _ =>
      if changes =? 0 then mret changes
      else if changes =? -1 then DO_CALLBACK i MDNS_DISAPPEARED;; mret changes
      else
        ready ← service_ready i;
        if (ready : bool) then DO_CALLBACK i MDNS_UPDATED;; mret changes
        else set_si_state i SINST_STATE_UPDATING;; mret changes
  end.

Definition sinst_updating (fuel : nat) (i : nat) (e : sinst_event) (changes elapsed : Z) : Q Z :=
  match e with
  | SINST_EVENT_LOST_AREC => cleanup_sinst fuel i;; DO_CALLBACK i MDNS_DISAPPEARED;; mret changes
  | SINST_EVENT_ADD_QUESTIONS =>
      ret ← apply_elapsed fuel i elapsed;
      if ret =? -1 then DO_CALLBACK i MDNS_DISAPPEARED;; mret 0 else mret ret
  | _ =>
      if changes =? 0 then mret changes
      else if changes =? -1 then DO_CALLBACK i MDNS_DISAPPEARED;; mret changes
      else
        ready ← service_ready i;
        if (ready : bool) then DO_CALLBACK i MDNS_UPDATED;; set_si_state i SINST_STATE_CLEAN;; mret changes
        else mret changes
  end.

Definition update_sinst (fuel : nat) (i : nat) (e : sinst_event) (a : option nat) (rr : mdns_resource) (elapsed : Z)
    : Q Z :=
  changes ← apply_event fuel i e a rr elapsed;
  s ← get_sinst i;
  changes ← match si_state s with
            | SINST_STATE_INIT => sinst_init fuel i e changes elapsed
            | SINST_STATE_CLEAN => sinst_clean fuel i e changes elapsed
            | SINST_STATE_UPDATING => sinst_updating fuel i e changes elapsed
            end;
  mret (if 0 <? changes then 1 else 0).

(** ** A records *)

Definition set_ip (fuel : nat) (a : nat) (rr : mdns_resource) : Q unit :=
  m ← gets rx_msg;
  ip ← lift (get_uint32 (data m) (r_rdata rr));
  ar ← get_arec a;
  (if ar_ipaddr ar =? ip then mret tt
   else
     upd_arec a (fun ar => arec_with_ipaddr ar ip);;
     ar ← get_arec a;
     foreach_safe fuel next_asinst
       (fun i (_ : unit) => _ ← update_sinst fuel i SINST_EVENT_GOT_AREC (Some a) default_resource 0; mret tt)
       (ar_sinsts ar) tt);;
  let ttl := CONVERT_TTL (r_ttl rr) in
  upd_arec a (fun ar => arec_with_times ar ttl (u32 (ttl * 80) / 100) 10).

(** [ASSERT] is empty in the build modelled. *)
Definition evict_arec (fuel : nat) (a : nat) : Q unit :=
  ar ← get_arec a;
  foreach fuel next_asinst
    (fun i (_ : unit) => _ ← update_sinst fuel i SINST_EVENT_LOST_AREC None default_resource 0; mret tt)
    (ar_sinsts ar) tt;;
  upd_arec a (fun ar => arec_with_times ar (ar_ttl ar) UINT32_MAX (ar_ttl_percent ar)).

(** [if (mdns_add_question(m, arec->fqdn, T_A, C_IN) != 0) LOG(...);] *)
Definition ask_arec (a : nat) : Q unit :=
  ar ← get_arec a;
  m ← gets tx_msg;
  '(_, m) ← lift (mdns_add_question m (ar_fqdn ar, 0) T_A C_IN);
  modify (fun q => q_tx q m).

Definition update_arec (fuel : nat) (a : nat) (e : arec_event) (rr : mdns_resource) (elapsed : Z) : Q Z :=
  if bool_decide (e = AREC_EVENT_RX_REC) && (r_ttl rr =? 0) then
    evict_arec fuel a;;
    mret 0
  else
    ar ← get_arec a;
    match ar_state ar, e with
    | AREC_STATE_INIT, AREC_EVENT_RX_REC | AREC_STATE_QUERYING, AREC_EVENT_RX_REC =>
        upd_arec a (fun ar => arec_with_state ar AREC_STATE_RESOLVED);;
        set_ip fuel a rr;;
        mret 0
    | AREC_STATE_RESOLVED, AREC_EVENT_RX_REC => set_ip fuel a rr;; mret 0
    | AREC_STATE_INIT, AREC_EVENT_ADD_QUESTIONS =>
        ask_arec a;;
        upd_arec a (fun ar => arec_with_times (arec_with_state ar AREC_STATE_QUERYING) 1000 (1000 * 80 / 100) 10);;
        mret 1
    | AREC_STATE_QUERYING, AREC_EVENT_ADD_QUESTIONS =>
        upd_arec a (fun ar => arec_with_times ar (ar_ttl ar) (SUBTRACT (ar_next_refresh ar) elapsed) (ar_ttl_percent ar));;
        ar ← get_arec a;
        if (ar_next_refresh ar =? 0) && (ar_ttl_percent ar <? 5) then evict_arec fuel a;; mret 0
        else if ar_next_refresh ar =? 0 then
          ask_arec a;;
          upd_arec a (fun ar =>
            let p := Z.shiftr (ar_ttl_percent ar) 1 in arec_with_times ar (ar_ttl ar) (u32 (ar_ttl ar * p) / 100) p);;
          mret 1
        else mret 0
    | AREC_STATE_RESOLVED, AREC_EVENT_ADD_QUESTIONS =>
        upd_arec a (fun ar => arec_with_times ar (ar_ttl ar) (SUBTRACT (ar_next_refresh ar) elapsed) (ar_ttl_percent ar));;
        ar ← get_arec a;
        if ar_next_refresh ar =? 0 then
          ask_arec a;;
          upd_arec a (fun ar => arec_with_state (arec_with_times ar (ar_ttl ar) (u32 (ar_ttl ar * 10) / 100) 10)
            AREC_STATE_QUERYING);;
          mret 1
        else mret 0
    end.

(** ** A received packet *)

(** [*r] for a record of the message. *)
Definition rr_at (m : mdns_message) (r : rref) : mdns_resource :=
  match r with
  | RAnswer i => nth i (answers m) default_resource
  | RAuthority i => nth i (authorities m) default_resource
  end.

(** [SLIST_FOREACH] over the records of a message. *)
Fixpoint for_records (body : rref -> Q unit) (l : list rref) : Q unit :=
  match l with
  | [] => mret tt
  | r :: l' => body r;; for_records body l'
  end.

Definition overflow_sinst : nat := MDNS_SERVICE_CACHE_SIZE.
Definition overflow_arec : nat := MDNS_SERVICE_CACHE_SIZE.

(** [SLIST_REMOVE] of a record from the sorted lists of [rx_msg]. *)
Definition drop_txt (r : rref) : Q unit :=
  m ← gets rx_msg;
  modify (fun q => q_rx q (set_lists m (as_ m) (srvs m) (filter (.≠ r) (txts m)) (ptrs m))).
Definition drop_srv (r : rref) : Q unit :=
  m ← gets rx_msg;
  modify (fun q => q_rx q (set_lists m (as_ m) (filter (.≠ r) (srvs m)) (txts m) (ptrs m))).

(** [dname_cmp(m->data, r->name, NULL, name) == 0 && r->ttl != 0] *)
Definition record_for (fuel : nat) (m : mdns_message) (rr : mdns_resource) (name : list Z) : Q bool :=
  c ← lift (dname_cmp fuel (packet m) (r_name rr) (own name) 0);
  mret ((c =? 0) && negb (r_ttl rr =? 0)).

(** The three loops that collect the records of an instance there is no room
    for, in [overflow_sinst]. *)
Definition overflow_txt (fuel : nat) (r : rref) : Q unit :=
  m ← gets rx_msg;
  s ← get_sinst overflow_sinst;
  b ← record_for fuel m (rr_at m r) (s_fqsn (si_service s));
  if (b : bool) then
    '(_, s) ← lift (update_txt s m (rr_at m r));
    upd_sinst overflow_sinst (fun _ => s);;
    drop_txt r
  else mret tt.

Definition overflow_srv (fuel : nat) (r : rref) : Q unit :=
  m ← gets rx_msg;
  s ← get_sinst overflow_sinst;
  b ← record_for fuel m (rr_at m r) (s_fqsn (si_service s));
  if (b : bool) then
    p ← lift (srv_port m (rr_at m r));
    upd_sinst overflow_sinst (fun s => with_arec (with_service s (service_with_port (si_service s) p))
      (Some overflow_arec));;
    '(_, n) ← lift (dname_copy fuel (ar_fqdn zero_arec) (packet m) (srv_target (rr_at m r)));
    upd_arec overflow_arec (fun _ => arec_with_fqdn zero_arec n);;
    drop_srv r
  else mret tt.

Fixpoint overflow_a (fuel : nat) (l : list rref) : Q unit :=
  match l with
  | [] => mret tt
  | r :: l' =>
      m ← gets rx_msg;
      ar ← get_arec overflow_arec;
      b ← record_for fuel m (rr_at m r) (ar_fqdn ar);
      if (b : bool) then
        ip ← lift (get_uint32 (data m) (r_rdata (rr_at m r)));
        upd_sinst overflow_sinst (fun s => with_service s (service_with_ipaddr (si_service s) ip))
      else overflow_a fuel l'
  end.

Definition overflow_instance (fuel : nat) (smon : nat) (ptr : mdns_resource) : Q unit :=
  if r_ttl ptr =? 0 then mret tt
  else
    m ← gets rx_msg;
    '(ret, s) ← lift (copy_servinfo fuel (with_si_smon reset_service_instance (Some smon)) m (r_rdata ptr));
    upd_sinst overflow_sinst (fun _ => s);;
    if ret =? -1 then mret tt
    else
      for_records (overflow_txt fuel) (txts m);;
      for_records (overflow_srv fuel) (srvs m);;
      s ← get_sinst overflow_sinst;
      match si_arec s with
      | None => mret tt
      | Some _ => overflow_a fuel (as_ m)
      end;;
      DO_CALLBACK overflow_sinst MDNS_CACHE_FULL.

(** A PTR record for an instance we know. *)
Definition known_instance (fuel : nat) (i : nat) (ptr : mdns_resource) (elapsed : Z) : Q unit :=
  if r_ttl ptr =? 0 then
    s ← get_sinst i;
    (if bool_decide (si_state s = SINST_STATE_CLEAN) || bool_decide (si_state s = SINST_STATE_UPDATING)
     then DO_CALLBACK i MDNS_DISAPPEARED else mret tt);;
    cleanup_sinst fuel i
  else upd_sinst i (fun s => with_ptr_ttl s (ADD (CONVERT_TTL (r_ttl ptr)) elapsed)).

(** A PTR record for a new instance, in the free cell [i]. *)
Definition new_instance (fuel : nat) (smon i : nat) (ptr : mdns_resource) (elapsed : Z) : Q unit :=
  m ← gets rx_msg;
  remove_head_sinsts_free;;
  upd_sinst i (fun _ => reset_service_instance);;
  insert_smon_sinsts smon i;;
  upd_sinst i (fun s => with_si_smon s (Some smon));;
  s ← get_sinst i;
  '(ret, s) ← lift (copy_servinfo fuel s m (r_rdata ptr));
  upd_sinst i (fun _ => s);;
  if ret =? -1 then
    remove_head_smon_sinsts smon;;
    insert_sinsts_free i
  else upd_sinst i (fun s => with_ptr_ttl s (ADD (CONVERT_TTL (r_ttl ptr)) elapsed)).

Definition update_ptr (fuel : nat) (elapsed : Z) (r : rref) : Q unit :=
  m ← gets rx_msg;
  let ptr := rr_at m r in
  smon ← find_service_monitor fuel m (Some (r_name ptr));
  match smon with
  | None => mret tt
  | Some smon =>
      found ← find_service_instance fuel smon m (r_rdata ptr);
      match found with
      | Some i => known_instance fuel i ptr elapsed
      | None =>
          free ← gets sinsts_free;
          match free with
          | Some i => new_instance fuel smon i ptr elapsed
          | None => overflow_instance fuel smon ptr
          end
      end
  end.

(** A TXT or SRV record that is left: [e] is the event for its instance. *)
Definition update_record (fuel : nat) (e : sinst_event) (elapsed : Z) (r : rref) : Q unit :=
  m ← gets rx_msg;
  let rr := rr_at m r in
  next ← lift (dname_label_next fuel (packet m) (r_name rr));
  smon ← find_service_monitor fuel m next;
  match smon with
  | None => mret tt
  | Some smon =>
      found ← find_service_instance fuel smon m (r_name rr);
      match found with
      | None => mret tt
      | Some i => _ ← update_sinst fuel i e None rr elapsed; mret tt
      end
  end.

Definition update_a (fuel : nat) (elapsed : Z) (r : rref) : Q unit :=
  m ← gets rx_msg;
  let rr := rr_at m r in
  found ← find_arec fuel m (r_name rr);
  match found with
  | None => mret tt
  | Some a => _ ← update_arec fuel a AREC_EVENT_RX_REC rr elapsed; mret tt
  end.

Definition update_service_cache (fuel : nat) (elapsed : Z) : Q Z :=
  m ← gets rx_msg;
  qr ← lift (header_qr m);
  if negb (qr =? RESPONSE) then mret 0
  else
    for_records (update_ptr fuel elapsed) (ptrs m);;
    m ← gets rx_msg;
    for_records (update_record fuel SINST_EVENT_GOT_TXT elapsed) (txts m);;
    for_records (update_record fuel SINST_EVENT_GOT_SRV elapsed) (srvs m);;
    for_records (update_a fuel elapsed) (as_ m);;
    mret 0.

(** ** The next query *)

Definition ptr_size (s : service_instance) : res Z :=
  l ← strlen_at (sname s) 0;
  mret (u16 (2 * 2 + 4 + 2 * 2 + (l + 1) + 2)).

(** The C string in a buffer. *)
Definition c_string (b : list Z) : res (list Z) :=
  l ← strlen_at b 0;
  rd_range b 0 l.

Fixpoint add_known_answers_loop (fuel : nat) (smon : nat) (cur_ : option nat) : Q Z :=
  match cur_ with
  | None => mret 0
  | Some i =>
      match fuel with
      | O => lift Diverge
      | S fuel' =>
          s ← get_sinst i;
          if ptr_ttl s =? 0 then add_known_answers_loop fuel' smon (list_item s)
          else
            l ← lift (ptr_size s);
            m ← gets tx_msg;
            if TAILROOM m <? l then mret (-1)
            else
              sm ← get_smon smon;
              '(_, m) ← lift (mdns_add_answer_o m (fqst_offset sm) T_PTR C_IN (ptr_ttl s / 1000));
              upd_smon smon (fun sm => smon_with_offsets sm (fqst_offset sm) (u16 (cur m)));;
              n ← lift (c_string (sname s));
              '(_, m) ← lift (mdns_add_name_lo m n (fqst_offset sm));
              modify (fun q => q_tx q m);;
              add_known_answers_loop fuel' smon (list_item s)
      end
  end.

Definition add_known_answers (fuel : nat) (smon : nat) : Q Z :=
  sm ← get_smon smon;
  add_known_answers_loop fuel smon (sm_sinsts sm).

(** The refresh of one monitor: [ret] and [*next_event], on the left for the
    early [return -1]. *)
Definition refresh_smon (fuel : nat) (elapsed : Z) (smon : nat) (acc : Z * Z) : Q (Z * Z + Z * Z) :=
  let '(ret, next_event) := acc in
  sm ← get_smon smon;
  r ← (if sm_next_refresh sm <=? elapsed then
         m ← gets tx_msg;
         let period := if 30000 <? refresh_period sm then 60000 else refresh_period sm * 2 in
         upd_smon smon (fun sm => smon_with_offsets (smon_with_refresh sm period 0) (u16 (cur m)) (fqsn_offset sm));;
         '(e, m) ← lift (mdns_add_question m (sm_fqst sm, 0) T_ANY C_IN);
         modify (fun q => q_tx q m);;
         if negb (e =? 0) then mret (inl (-1, next_event)) else mret (inr (ret + 1, next_event))
       else
         let n := SUBTRACT (sm_next_refresh sm) elapsed in
         upd_smon smon (fun sm => smon_with_refresh sm (refresh_period sm) n);;
         mret (inr (ret, MIN next_event n)));
  match r with
  | inl e => mret (inl e)
  | inr acc =>
      sm ← get_smon smon;
      acc ← foreach_safe fuel next_sinst
        (fun i (acc : Z * Z) =>
           r ← update_sinst fuel i SINST_EVENT_ADD_QUESTIONS None default_resource elapsed;
           s ← get_sinst i;
           mret (fst acc + r, MIN (snd acc) (next_refresh s)))
        (sm_sinsts sm) acc;
      mret (inr acc)
  end.

Fixpoint refresh_smons (rounds fuel : nat) (elapsed : Z) (cur_ : option nat) (acc : Z * Z) : Q (Z * Z + Z * Z) :=
  match cur_ with
  | None => mret (inr acc)
  | Some smon =>
      match rounds with
      | O => lift Diverge
      | S rounds' =>
          r ← refresh_smon fuel elapsed smon acc;
          match r with
          | inl e => mret (inl e)
          | inr acc =>
              n ← next_smon smon;
              refresh_smons rounds' fuel elapsed n acc
          end
      end
  end.

(** The code and [*next_event] (the -1 of [mdns_query_init] never happens). *)
Definition prepare_query (fuel : nat) (elapsed : Z) : Q (Z * Z) :=
  m ← gets tx_msg;
  '(e, m) ← lift (mdns_query_init m);
  modify (fun q => q_tx q m);;
  if negb (e =? 0) then mret (-1, UINT32_MAX)
  else
    act ← gets arecs_active;
    '(ret, next_event) ← foreach_safe fuel next_arec
      (fun a (acc : Z * Z) =>
         r ← update_arec fuel a AREC_EVENT_ADD_QUESTIONS default_resource elapsed;
         ar ← get_arec a;
         mret (fst acc + r, MIN (snd acc) (ar_next_refresh ar)))
      act (0, UINT32_MAX);
    act ← gets smons_active;
    r ← refresh_smons fuel fuel elapsed act (ret, next_event);
    match r with
    | inl e => mret e
    | inr (ret, next_event) =>
        if ret =? 0 then mret (ret, next_event)
        else
          act ← gets smons_active;
          next_event ← foreach fuel next_smon
            (fun m next_event =>
               sm ← get_smon m;
               if sm_next_refresh sm =? 0 then
                 _ ← add_known_answers fuel m;
                 sm ← get_smon m;
                 upd_smon m (fun sm => smon_with_refresh sm (refresh_period sm) (refresh_period sm));;
                 mret (MIN next_event (refresh_period sm))
               else mret next_event)
            act next_event;
          mret (if 0 <? ret then 1 else 0, next_event)
    end.

(** ** The thread *)

(** The data of a control message: what the sender stored in the union. *)
Inductive query_ctrl_data :=
  | ctrl_raw
  | ctrl_smon (smon : service_monitor)
  | ctrl_fqst (fqst : list Z).

Record query_ctrl_msg := mkCtrl { command : Z; length_ : Z; ctrl_data : query_ctrl_data }.

(** The sizes of [struct query_ctrl_msg] and of its first two members. *)
Definition sizeof_ctrl_msg : Z := 8 + 284.
Definition CTRL_MSG_MIN : Z := 8.

(** What one iteration gets from the outside: the clock around [select], the
    control socket (nothing, a failed [recvfrom], or the number of bytes and the
    message) and the multicast socket (nothing, a failure, or a packet). *)
Record qiteration := mkQiteration {
  q_start_wait : Z;
  q_stop_wait : Z;
  q_ctrl_in : option (option (Z * query_ctrl_msg));
  q_mc_in : option (option (list Z)) }.

(** What one iteration does to the outside: the status sent to the control
    socket, the packet sent, and the next timeout ([None]: unchanged). *)
Record qoutput := mkQoutput {
  o_status : option Z;
  o_packet : option (list Z);
  o_timeout : option (option timeval) }.

(** A control message: the status and whether the querier stays enabled. *)
Definition querier_ctrl (fuel : nat) (ret : Z) (msg : query_ctrl_msg) : Q (Z * bool) :=
  if (ret <? CTRL_MSG_MIN) || negb (ret =? length_ msg) then mret (MDNS_INVAL, true)
  else if command msg =? MDNS_CTRL_HALT then mret (MDNS_SUCCESS, false)
  else if command msg =? MDNS_CTRL_MONITOR then
    match ctrl_data msg with
    | ctrl_smon smon => status ← add_service fuel smon; mret (status, true)
    | _ => lift Fault
    end
  else if command msg =? MDNS_CTRL_UNMONITOR then
    match ctrl_data msg with
    | ctrl_fqst fqst => remove_service fuel fqst;; mret (MDNS_SUCCESS, true)
    | _ => lift Fault
    end
  else mret (MDNS_NOIMPL, true).

(** [recvfrom] into [rx_msg.data] and the reaction to the packet. *)
Definition querier_rx (fuel : nat) (p : list Z) (sleep_time : Z) : Q unit :=
  m ← gets rx_msg;
  let p := take (length (data m)) p in
  d ← lift (wr_range (data m) 0 p);
  '(ret, m) ← lift (mdns_parse_message fuel (set_data m d) (Zlen p));
  modify (fun q => q_rx q m);;
  if ret =? 0 then _ ← update_service_cache fuel sleep_time; mret tt else mret tt.

(** The end of an iteration: the query and the timeout. *)
Definition querier_query (fuel : nat) (sleep_time : Z) : Q (option (list Z) * option timeval) :=
  '(ret, next_event) ← prepare_query fuel sleep_time;
  m ← gets tx_msg;
  mret (if ret =? 1 then Some (mdns_send_msg m) else None,
        if next_event =? UINT32_MAX then None else Some (SET_TIMEOUT next_event)).

(** One iteration of [while (query_enabled)]: the output and whether the querier
    stays enabled. *)
Definition querier_step (fuel : nat) (it : qiteration) : Q (qoutput * bool) :=
  let sleep_time := ADD (interval (q_start_wait it) (q_stop_wait it)) 1 in
  '(status, enabled) ←
    match q_ctrl_in it with
    | None => mret (None, true)
    | Some None => mret (Some MDNS_INVAL, true)
    | Some (Some (ret, msg)) => '(st, en) ← querier_ctrl fuel ret msg; mret (Some st, en)
    end;
  match q_mc_in it with
  | Some None => mret (mkQoutput status None None, enabled)
  | _ =>
      match q_mc_in it with
      | Some (Some p) => querier_rx fuel p sleep_time
      | _ => mret tt
      end;;
      '(pkt, t) ← querier_query fuel sleep_time;
      mret (mkQoutput status pkt (Some t), enabled)
  end.

(** The thread on a sequence of iterations: it returns when it is disabled; the
    outputs so far and whether it is still running. *)
Fixpoint do_querier (fuel : nat) (its : list qiteration) : Q (list qoutput * bool) :=
  match its with
  | [] => mret ([], true)
  | it :: its' =>
      '(o, enabled) ← querier_step fuel it;
      if (enabled : bool) then
        '(os, en) ← do_querier fuel its';
        mret (o :: os, en)
      else mret ([o], false)
  end.

(** ** The interface *)

(** [for (i = 0; i < n; i++) SLIST_INSERT_HEAD(...)] on an empty list. *)
Fixpoint insert_all (ins : nat -> Q unit) (k i : nat) : Q unit :=
  match k with
  | O => mret tt
  | S k' => ins i;; insert_all ins k' (S i)
  end.

(** The static variables before anything ran; a message of the given size. *)
Definition zero_message : mdns_message :=
  mkMessage (replicate (Z.to_nat MDNS_DATA_MAX) 0) 0 0 0
    (replicate (Z.to_nat MDNS_MAX_QUESTIONS) default_question) 0
    (replicate (Z.to_nat MDNS_MAX_ANSWERS) default_resource) 0
    (replicate (Z.to_nat MDNS_MAX_AUTHORITIES) default_resource) 0 [] [] [] [].
Definition zero_smon : service_monitor := mkSmon None None (replicate 256 0) 0 0 0 0 0 0.
Definition zero_state : qstate :=
  mkQstate (replicate (S MDNS_SERVICE_CACHE_SIZE) zero_arec) (replicate (S MDNS_SERVICE_CACHE_SIZE) zero_sinst)
    (replicate MDNS_MAX_SERVICE_MONITORS zero_smon) None None None None None zero_message zero_message [].

(** The lists of [query_launch]. *)
Definition init_lists : Q unit :=
  modify (fun q => q_smon_heads q None None);;
  insert_all (fun i => upd_smon i (fun sm => smon_with_sinsts sm None);; insert_smons_free i)
    MDNS_MAX_SERVICE_MONITORS 0;;
  modify (fun q => q_sinsts_free q None);;
  insert_all (fun i => upd_sinst i (fun _ => reset_service_instance);; insert_sinsts_free i)
    MDNS_SERVICE_CACHE_SIZE 0;;
  modify (fun q => q_arec_heads q None None);;
  insert_all (fun i => upd_arec i (fun _ => zero_arec);; insert_arecs_free i)
    MDNS_SERVICE_CACHE_SIZE 0.

(** The code, the static variables and the calls of the platform. *)
Definition query_launch (io : ports) (c : statics) : Q (Z * statics * list pcall) :=
  init_lists;;
  let c := with_ctrl c (ctrl_sock io) in
  let cs := [mdns_socket_loopback (htons MDNS_CTRL_QUERIER) 1 (ctrl_sock io)] in
  if ctrl_sock io <? 0 then mret (-1, c, cs)
  else
    let c := with_mc c (mc_sock io) in
    let cs := cs ++ [mdns_socket_mcast (mc_sock io)] in
    if mc_sock io <? 0 then mret (mc_sock io, c, cs)
    else
      let c := with_thread c (thread_ptr io) in
      let cs := cs ++ [mdns_thread_create MDNS_THREAD_QUERIER (thread_ptr io)] in
      mret (if thread_ptr io =? 0 then -1 else 0, c, cs).

(** What [query_send_ctrl_msg] sees of the sockets: the loopback socket, the
    results of [sendto], [select] and [recvfrom], whether the socket is ready,
    and the status received. *)
Record ctrl_io := mkCtrlIo {
  io_sock : Z; io_sendto : Z; io_select : Z; io_ready : bool; io_recv : Z; io_status : Z }.

Definition query_send_ctrl_msg (io : ctrl_io) : Z :=
  if io_sock io <? 0 then -1
  else if io_sendto io =? -1 then MDNS_NORESP
  else if io_select io =? -1 then MDNS_NORESP
  else if negb (io_ready io) then MDNS_NORESP
  else if io_recv io =? -1 then MDNS_NORESP
  else io_status io.

(** The result of a call that may send a control message: the code, and the
    message when it got that far.  [fqst] is the user's string: a buffer and an
    offset into it, since [dnameify] also reads the byte before the string;
    [cb_] is [None] for NULL; [m] and [buf] are the uninitialised data of the
    message. *)
Definition mdns_query_monitor (io : ctrl_io) (fqst : list Z * Z) (cb_ : option Z) (data_ : Z) (m : service_monitor)
    : res (Z * option query_ctrl_msg) :=
  match cb_ with
  | None => mret (MDNS_INVAL, None)
  | Some f =>
      l ← strlen_at (fst fqst) (snd fqst);
      if MDNS_MAX_NAME_LEN <? l then mret (MDNS_INVAL, None)
      else
        '(ret, n) ← dnameify (fst fqst) (snd fqst) CH_DOT (Some (sm_fqst m));
        if ret =? -1 then mret (MDNS_INVAL, None)
        else
          n ← wr n ret 0;
          let m := mkSmon (sm_list_item m) (sm_sinsts m) n (fqst_offset m) (fqsn_offset m) f data_
                     (refresh_period m) (sm_next_refresh m) in
          mret (query_send_ctrl_msg io, Some (mkCtrl MDNS_CTRL_MONITOR sizeof_ctrl_msg (ctrl_smon m)))
  end.

Definition mdns_query_unmonitor (fqst : option (list Z * Z)) (buf : list Z) : res (option query_ctrl_msg) :=
  r ← match fqst with
      | None => mret (Some (0, buf))
      | Some f =>
          l ← strlen_at (fst f) (snd f);
          if MDNS_MAX_NAME_LEN <? l then mret None
          else
            '(ret, n) ← dnameify (fst f) (snd f) CH_DOT (Some buf);
            mret (if ret =? -1 then None else Some (ret, n))
      end;
  match r with
  | None => mret None
  | Some (ret, n) =>
      n ← wr n ret 0;
      mret (Some (mkCtrl MDNS_CTRL_UNMONITOR sizeof_ctrl_msg (ctrl_fqst n)))
  end.
