(* ===== verification/QuerierSpec.v ===== *)
(** * The lists of the querier

    [shape] gives every list of mdns_query.c as a list of cells, and [linked]
    says that the links in the cells make up these lists.  [core] is what is
    left of a state when the links are erased, so that an operation is specified
    by what it does to the shape and what it does to the core.  [wf] is the
    invariant: every monitor, instance and A record is on exactly one list, the
    instances of a monitor refer to it, and an instance refers to an A record
    exactly when it is on the record's list. *)
From stdpp Require Import sets.
From S2P Require Import Prelude Buffer Slist SlistSpec Dname Message Querier.

(** ** Running the monad *)

Lemma bind_run {A B} (c : Q A) (k : A -> Q B) q a q' : c q = Ok (a, q') -> mbind k c q = k a q'.
Proof. intros E. unfold mbind, Q_bind. by rewrite E. Qed.

Lemma bind_inv {A B} (c : Q A) (k : A -> Q B) q r : mbind k c q = Ok r ->
  exists a q', c q = Ok (a, q') /\ k a q' = Ok r.
Proof. unfold mbind, Q_bind. destruct (c q) as [[a q']| |]; [eauto|done|done]. Qed.

Lemma lift_run {A} (r : res A) q a : r = Ok a -> lift r q = Ok (a, q).
Proof. by intros ->. Qed.

Lemma lift_inv {A} (r : res A) q a q' : lift r q = Ok (a, q') -> r = Ok a /\ q' = q.
Proof. unfold lift. destruct r; [intros [= -> ->]; auto|done|done]. Qed.

Lemma get_sinst_run q i s : sinsts q !! i = Some s -> get_sinst i q = Ok (s, q).
Proof. intros E. unfold get_sinst, cell, gets, lift, mbind, Q_bind. by rewrite E. Qed.
Lemma get_arec_run q a ar : arecs q !! a = Some ar -> get_arec a q = Ok (ar, q).
Proof. intros E. unfold get_arec, cell, gets, lift, mbind, Q_bind. by rewrite E. Qed.
Lemma get_smon_run q m sm : smons q !! m = Some sm -> get_smon m q = Ok (sm, q).
Proof. intros E. unfold get_smon, cell, gets, lift, mbind, Q_bind. by rewrite E. Qed.

Lemma get_sinst_inv q i s q' : get_sinst i q = Ok (s, q') -> sinsts q !! i = Some s /\ q' = q.
Proof.
  unfold get_sinst, cell, gets, lift, mbind, Q_bind. destruct (sinsts q !! i); [|done]. by intros [= -> ->].
Qed.
Lemma get_arec_inv q a ar q' : get_arec a q = Ok (ar, q') -> arecs q !! a = Some ar /\ q' = q.
Proof.
  unfold get_arec, cell, gets, lift, mbind, Q_bind. destruct (arecs q !! a); [|done]. by intros [= -> ->].
Qed.
Lemma get_smon_inv q m sm q' : get_smon m q = Ok (sm, q') -> smons q !! m = Some sm /\ q' = q.
Proof.
  unfold get_smon, cell, gets, lift, mbind, Q_bind. destruct (smons q !! m); [|done]. by intros [= -> ->].
Qed.

Lemma upd_sinst_run q i f s : sinsts q !! i = Some s -> upd_sinst i f q = Ok (tt, q_sinsts q (<[i := f s]> (sinsts q))).
Proof. intros E. unfold upd_sinst. by rewrite (bind_run _ _ _ _ _ (get_sinst_run _ _ _ E)). Qed.
Lemma upd_arec_run q a f ar : arecs q !! a = Some ar -> upd_arec a f q = Ok (tt, q_arecs q (<[a := f ar]> (arecs q))).
Proof. intros E. unfold upd_arec. by rewrite (bind_run _ _ _ _ _ (get_arec_run _ _ _ E)). Qed.
Lemma upd_smon_run q m f sm : smons q !! m = Some sm -> upd_smon m f q = Ok (tt, q_smons q (<[m := f sm]> (smons q))).
Proof. intros E. unfold upd_smon. by rewrite (bind_run _ _ _ _ _ (get_smon_run _ _ _ E)). Qed.

(** Take one step of a computation that is known to return. *)
Ltac qstep H := rewrite (bind_run _ _ _ _ _ H).
Ltac qstep_in H E := rewrite (bind_run _ _ _ _ _ E) in H.

(** ** Erasing the links *)

Definition erase_s (s : service_instance) : service_instance := with_list_item (with_alist_item s None) None.
Definition erase_a (a : arec) : arec := arec_with_list_item (arec_with_sinsts a None) None.
Definition erase_m (m : service_monitor) : service_monitor := smon_with_list_item (smon_with_sinsts m None) None.

Definition core (q : qstate) : qstate :=
  mkQstate (erase_a <$> arecs q) (erase_s <$> sinsts q) (erase_m <$> smons q) None None None None None
    (tx_msg q) (rx_msg q) (calls q).

(** A store after one link field was written at most once. *)
Definition relink {A} (f : link A) (s s' : list A) : Prop :=
  s' = s \/ (exists p a n, s !! p = Some a /\ s' = <[p := with_next f a n]> s).

Lemma fmap_insert_same {A B} (g : A -> B) (s : list A) i a b : s !! i = Some a -> g b = g a -> g <$> <[i := b]> s = g <$> s.
Proof.
  intros Ha E. rewrite list_fmap_insert, E. apply list_insert_id. rewrite list_lookup_fmap, Ha. done.
Qed.

Lemma relink_fmap {A B} (f : link A) (g : A -> B) s s' : (forall a n, g (with_next f a n) = g a) ->
  relink f s s' -> g <$> s' = g <$> s.
Proof. intros E [->|(p & a & n & Ha & ->)]; [done|]. by apply fmap_insert_same with a. Qed.

Lemma lk_fmap {A B} (g : A -> B) (s s' : list A) i : g <$> s' = g <$> s -> lk g s' i = lk g s i.
Proof. intros E. unfold lk. by rewrite <- !list_lookup_fmap, E. Qed.

Lemma lk_insert_same {A B} (g : A -> B) (s : list A) p a b i : s !! p = Some a -> g b = g a ->
  lk g (<[p := b]> s) i = lk g s i.
Proof. intros Ha E. apply lk_fmap. by apply fmap_insert_same with a. Qed.

Lemma relink_length {A} (f : link A) s s' : relink f s s' -> length s' = length s.
Proof. intros [->|(p & a & n & _ & ->)]; [done|]. apply length_insert. Qed.

(** ** Shapes *)

Record shape := mkShape {
  l_smons : bool -> list nat;
  l_sinsts : option nat -> list nat;
  l_asinsts : nat -> list nat;
  l_arecs : bool -> list nat }.

Definition h_smons (q : qstate) (active : bool) : option nat := if active then smons_active q else smons_free q.
Definition h_arecs (q : qstate) (active : bool) : option nat := if active then arecs_active q else arecs_free q.
Definition h_asinsts (q : qstate) (a : nat) : option nat := from_option ar_sinsts None (arecs q !! a).
Definition h_sinsts (q : qstate) (k : option nat) : option nat :=
  match k with None => sinsts_free q | Some m => from_option sm_sinsts None (smons q !! m) end.

Record linked (q : qstate) (sh : shape) : Prop := {
  link_smons : family (nexts smon_link (smons q)) (h_smons q) (l_smons sh);
  link_sinsts : family (nexts sinst_link (sinsts q)) (h_sinsts q) (l_sinsts sh);
  link_asinsts : family (nexts sinst_alink (sinsts q)) (h_asinsts q) (l_asinsts sh);
  link_arecs : family (nexts arec_link (arecs q)) (h_arecs q) (l_arecs sh) }.

(** The shapes after one list was replaced. *)
Definition sh_smons (sh : shape) (k : bool) (l : list nat) : shape :=
  mkShape (fupd (l_smons sh) k l) (l_sinsts sh) (l_asinsts sh) (l_arecs sh).
Definition sh_sinsts (sh : shape) (k : option nat) (l : list nat) : shape :=
  mkShape (l_smons sh) (fupd (l_sinsts sh) k l) (l_asinsts sh) (l_arecs sh).
Definition sh_asinsts (sh : shape) (k : nat) (l : list nat) : shape :=
  mkShape (l_smons sh) (l_sinsts sh) (fupd (l_asinsts sh) k l) (l_arecs sh).
Definition sh_arecs (sh : shape) (k : bool) (l : list nat) : shape :=
  mkShape (l_smons sh) (l_sinsts sh) (l_asinsts sh) (fupd (l_arecs sh) k l).

Lemma relink_nexts {A} (f g : link A) {Ha : Apart g f} s s' i : relink f s s' -> nexts g s' i = nexts g s i.
Proof. intros H. apply lk_fmap. apply relink_fmap with f; [|done]. intros. apply next_apart. Qed.

(** The head of a list in a monitor or an A record. *)
Lemma h_sinsts_set q m sm h k : smons q !! m = Some sm ->
  from_option sm_sinsts None (<[m := smon_with_sinsts sm h]> (smons q) !! k) =
  if decide (k = m) then h else from_option sm_sinsts None (smons q !! k).
Proof.
  intros E. destruct (decide (k = m)) as [->|Hk]; [|by rewrite list_lookup_insert_ne].
  by rewrite list_lookup_insert_eq by (by eapply lookup_lt_Some).
Qed.
Lemma h_asinsts_set q a ar h k : arecs q !! a = Some ar ->
  from_option ar_sinsts None (<[a := arec_with_sinsts ar h]> (arecs q) !! k) =
  if decide (k = a) then h else from_option ar_sinsts None (arecs q !! k).
Proof.
  intros E. destruct (decide (k = a)) as [->|Hk]; [|by rewrite list_lookup_insert_ne].
  by rewrite list_lookup_insert_eq by (by eapply lookup_lt_Some).
Qed.

(** ** The list operations *)

(** [c] returns, changes the lists to [sh] and nothing else. *)
Definition relinks (c : Q unit) (q : qstate) (sh : shape) : Prop :=
  exists q', c q = Ok (tt, q') /\ linked q' sh /\ core q' = core q.

Lemma erase_s_link a n : erase_s (with_next sinst_link a n) = erase_s a.
Proof. done. Qed.
Lemma erase_s_alink a n : erase_s (with_next sinst_alink a n) = erase_s a.
Proof. done. Qed.

Lemma relink_erase_s s s' : relink sinst_link s s' \/ relink sinst_alink s s' -> erase_s <$> s' = erase_s <$> s.
Proof. intros [H|H]; eapply relink_fmap; try exact H; done. Qed.

Lemma relink_insert {A} (f : link A) s i a n : s !! i = Some a -> relink f s (<[i := with_next f a n]> s).
Proof. right. eauto. Qed.

Lemma relink_or {A} (f : link A) s s' i :
  s' = s \/ (exists p a n, p <> i /\ s !! p = Some a /\ s' = <[p := with_next f a n]> s) -> relink f s s'.
Proof. intros [->|(p & a & n & _ & ? & ->)]; [by left|right; eauto]. Qed.

Lemma core_eq q q' : erase_s <$> sinsts q' = erase_s <$> sinsts q -> erase_a <$> arecs q' = erase_a <$> arecs q ->
  erase_m <$> smons q' = erase_m <$> smons q -> tx_msg q' = tx_msg q -> rx_msg q' = rx_msg q -> calls q' = calls q ->
  core q' = core q.
Proof. intros E1 E2 E3 E4 E5 E6. unfold core. by rewrite E1, E2, E3, E4, E5, E6. Qed.

Lemma erase_a_sinsts q a ar h : arecs q !! a = Some ar ->
  erase_a <$> <[a := arec_with_sinsts ar h]> (arecs q) = erase_a <$> arecs q.
Proof. intros E. by apply fmap_insert_same with ar. Qed.
Lemma erase_m_sinsts q m sm h : smons q !! m = Some sm ->
  erase_m <$> <[m := smon_with_sinsts sm h]> (smons q) = erase_m <$> smons q.
Proof. intros E. by apply fmap_insert_same with sm. Qed.

Section ListOps.
Context (fuel : nat) (q : qstate) (sh : shape) (HL : linked q sh).

Ltac go := unfold gets, id, lift, modify, mbind, Q_bind.

Lemma h_sinsts_at m sm : smons q !! m = Some sm -> h_sinsts q (Some m) = sm_sinsts sm.
Proof using. intros E. unfold h_sinsts. by rewrite E. Qed.
Lemma h_asinsts_at a ar : arecs q !! a = Some ar -> h_asinsts q a = ar_sinsts ar.
Proof using. intros E. unfold h_asinsts. by rewrite E. Qed.

Lemma relink_asinsts s' a : relink arec_link (arecs q) s' ->
  from_option ar_sinsts None (s' !! a) = h_asinsts q a.
Proof using.
  intros H. apply relink_fmap with (g := ar_sinsts) in H; [|done].
  pose proof (lk_fmap ar_sinsts _ _ a H) as E. unfold lk, h_asinsts in *.
  destruct (s' !! a), (arecs q !! a); cbn in *; congruence.
Qed.
Lemma relink_sinsts s' k : relink smon_link (smons q) s' ->
  match k with None => sinsts_free q | Some m => from_option sm_sinsts None (s' !! m) end = h_sinsts q k.
Proof using.
  intros H. destruct k as [m|]; [|done]. apply relink_fmap with (g := sm_sinsts) in H; [|done].
  pose proof (lk_fmap sm_sinsts _ _ m H) as E. unfold lk, h_sinsts in *.
  destruct (s' !! m), (smons q !! m); cbn in *; congruence.
Qed.

(** What an operation leaves alone: links and heads of the other lists, and
    everything but links. *)
Ltac frame_goal :=
  first [ done | by eapply lk_insert_same | by apply (relink_nexts sinst_link) | by apply (relink_nexts sinst_alink)
        | by apply relink_asinsts | by apply relink_sinsts ].
Ltac head_goal :=
  first [ done | by intros [] ?
        | rewrite h_sinsts_set by done; by rewrite decide_True
        | intros [?|] ?; cbn; [rewrite h_sinsts_set by done; by rewrite decide_False by congruence|done]
        | unfold h_asinsts; cbn; rewrite h_asinsts_set by done; by rewrite decide_True
        | intros ? ?; unfold h_asinsts; cbn; rewrite h_asinsts_set by done; by rewrite decide_False ].
Ltac core_goal :=
  first [ done | by apply (erase_m_sinsts q) | by apply (erase_a_sinsts q)
        | apply relink_erase_s; by left | apply relink_erase_s; by right
        | by apply relink_fmap with arec_link | by apply relink_fmap with smon_link ].
Ltac framed H :=
  solve [exact H | eapply family_ext; [| | |exact H]; [intros ?|intros ?|done]; frame_goal].
Ltac op_done HF :=
  split;
  [ let H1 := fresh in let H2 := fresh in let H3 := fresh in let H4 := fresh in
    destruct HL as [H1 H2 H3 H4]; constructor; cbn;
    first [ solve [apply HF; cbn; head_goal] | framed H1 | framed H2 | framed H3 | framed H4 ]
  | apply core_eq; core_goal ].

Lemma insert_sinsts_free_run i s : sinsts q !! i = Some s -> (forall k, i ∉ l_sinsts sh k) ->
  relinks (insert_sinsts_free i) q (sh_sinsts sh None (i :: l_sinsts sh None)).
Proof using HL.
  intros Hs Hi. destruct (family_insert sinst_link _ _ _ None i s (link_sinsts _ _ HL) Hs Hi) as [E HF].
  change (h_sinsts q None) with (sinsts_free q) in E, HF.
  pose proof (relink_insert sinst_link _ i s (sinsts_free q) Hs) as Hr.
  eexists. split; [unfold insert_sinsts_free; go; by rewrite E|]. op_done HF.
Qed.

Lemma remove_head_sinsts_free_run i l : l_sinsts sh None = i :: l ->
  relinks remove_head_sinsts_free q (sh_sinsts sh None l).
Proof using HL.
  intros E0. destruct (family_remove_head sinst_link _ _ _ None i l (link_sinsts _ _ HL) E0) as (_ & E & HF).
  change (h_sinsts q None) with (sinsts_free q) in E.
  eexists. split; [unfold remove_head_sinsts_free; go; by rewrite E|]. op_done HF.
Qed.

Lemma insert_smon_sinsts_run m sm i s : smons q !! m = Some sm -> sinsts q !! i = Some s ->
  (forall k, i ∉ l_sinsts sh k) ->
  relinks (insert_smon_sinsts m i) q (sh_sinsts sh (Some m) (i :: l_sinsts sh (Some m))).
Proof using HL.
  intros Hm Hs Hi. destruct (family_insert sinst_link _ _ _ (Some m) i s (link_sinsts _ _ HL) Hs Hi) as [E HF].
  rewrite (h_sinsts_at m sm Hm) in E, HF.
  pose proof (relink_insert sinst_link _ i s (sm_sinsts sm) Hs) as Hr.
  eexists. split.
  { unfold insert_smon_sinsts. qstep (get_smon_run _ _ _ Hm). go. rewrite E.
    apply upd_smon_run. exact Hm. }
  op_done HF.
Qed.

Lemma remove_head_smon_sinsts_run m sm i l : smons q !! m = Some sm -> l_sinsts sh (Some m) = i :: l ->
  relinks (remove_head_smon_sinsts m) q (sh_sinsts sh (Some m) l).
Proof using HL.
  intros Hm E0. destruct (family_remove_head sinst_link _ _ _ (Some m) i l (link_sinsts _ _ HL) E0) as (_ & E & HF).
  rewrite (h_sinsts_at m sm Hm) in E.
  eexists. split.
  { unfold remove_head_smon_sinsts. qstep (get_smon_run _ _ _ Hm). go. rewrite E. apply upd_smon_run. exact Hm. }
  op_done HF.
Qed.

Lemma remove_smon_sinsts_run m sm i : smons q !! m = Some sm -> i ∈ l_sinsts sh (Some m) ->
  (length (l_sinsts sh (Some m)) <= fuel)%nat ->
  relinks (remove_smon_sinsts fuel m i) q (sh_sinsts sh (Some m) (rem i (l_sinsts sh (Some m)))).
Proof using HL.
  intros Hm Hi Hf.
  destruct (family_remove sinst_link _ fuel _ _ (Some m) i (link_sinsts _ _ HL) Hi Hf) as (s' & h' & E & Hr & HF).
  apply relink_or in Hr. rewrite (h_sinsts_at m sm Hm) in E.
  eexists. split.
  { unfold remove_smon_sinsts. qstep (get_smon_run _ _ _ Hm). go. rewrite E. apply upd_smon_run. exact Hm. }
  op_done HF.
Qed.

Lemma insert_arec_sinsts_run a ar i s : arecs q !! a = Some ar -> sinsts q !! i = Some s ->
  (forall k, i ∉ l_asinsts sh k) ->
  relinks (insert_arec_sinsts a i) q (sh_asinsts sh a (i :: l_asinsts sh a)).
Proof using HL.
  intros Ha Hs Hi. destruct (family_insert sinst_alink _ _ _ a i s (link_asinsts _ _ HL) Hs Hi) as [E HF].
  rewrite (h_asinsts_at a ar Ha) in E, HF.
  pose proof (relink_insert sinst_alink _ i s (ar_sinsts ar) Hs) as Hr.
  eexists. split.
  { unfold insert_arec_sinsts. qstep (get_arec_run _ _ _ Ha). go. rewrite E. apply upd_arec_run. exact Ha. }
  op_done HF.
Qed.

Lemma remove_arec_sinsts_run a ar i : arecs q !! a = Some ar -> i ∈ l_asinsts sh a ->
  (length (l_asinsts sh a) <= fuel)%nat ->
  relinks (remove_arec_sinsts fuel a i) q (sh_asinsts sh a (rem i (l_asinsts sh a))).
Proof using HL.
  intros Ha Hi Hf.
  destruct (family_remove sinst_alink _ fuel _ _ a i (link_asinsts _ _ HL) Hi Hf) as (s' & h' & E & Hr & HF).
  apply relink_or in Hr. rewrite (h_asinsts_at a ar Ha) in E.
  eexists. split.
  { unfold remove_arec_sinsts. qstep (get_arec_run _ _ _ Ha). go. rewrite E. apply upd_arec_run. exact Ha. }
  op_done HF.
Qed.

Lemma insert_arecs_active_run a ar : arecs q !! a = Some ar -> (forall k, a ∉ l_arecs sh k) ->
  relinks (insert_arecs_active a) q (sh_arecs sh true (a :: l_arecs sh true)).
Proof using HL.
  intros Hx Hi. destruct (family_insert arec_link _ _ _ true a ar (link_arecs _ _ HL) Hx Hi) as [E HF].
  change (h_arecs q true) with (arecs_active q) in E, HF.
  pose proof (relink_insert arec_link _ a ar (arecs_active q) Hx) as Hr.
  eexists. split; [unfold insert_arecs_active; go; by rewrite E|]. op_done HF.
Qed.

Lemma insert_arecs_free_run a ar : arecs q !! a = Some ar -> (forall k, a ∉ l_arecs sh k) ->
  relinks (insert_arecs_free a) q (sh_arecs sh false (a :: l_arecs sh false)).
Proof using HL.
  intros Hx Hi. destruct (family_insert arec_link _ _ _ false a ar (link_arecs _ _ HL) Hx Hi) as [E HF].
  change (h_arecs q false) with (arecs_free q) in E, HF.
  pose proof (relink_insert arec_link _ a ar (arecs_free q) Hx) as Hr.
  eexists. split; [unfold insert_arecs_free; go; by rewrite E|]. op_done HF.
Qed.

Lemma remove_head_arecs_free_run a l : l_arecs sh false = a :: l -> relinks remove_head_arecs_free q (sh_arecs sh false l).
Proof using HL.
  intros E0. destruct (family_remove_head arec_link _ _ _ false a l (link_arecs _ _ HL) E0) as (_ & E & HF).
  change (h_arecs q false) with (arecs_free q) in E.
  eexists. split; [unfold remove_head_arecs_free; go; by rewrite E|]. op_done HF.
Qed.

Lemma remove_arecs_active_run a : a ∈ l_arecs sh true -> (length (l_arecs sh true) <= fuel)%nat ->
  relinks (remove_arecs_active fuel a) q (sh_arecs sh true (rem a (l_arecs sh true))).
Proof using HL.
  intros Hi Hf.
  destruct (family_remove arec_link _ fuel _ _ true a (link_arecs _ _ HL) Hi Hf) as (s' & h' & E & Hr & HF).
  apply relink_or in Hr. change (h_arecs q true) with (arecs_active q) in E.
  eexists. split; [unfold remove_arecs_active; go; by rewrite E|]. op_done HF.
Qed.

Lemma insert_smons_active_run m sm : smons q !! m = Some sm -> (forall k, m ∉ l_smons sh k) ->
  relinks (insert_smons_active m) q (sh_smons sh true (m :: l_smons sh true)).
Proof using HL.
  intros Hx Hi. destruct (family_insert smon_link _ _ _ true m sm (link_smons _ _ HL) Hx Hi) as [E HF].
  change (h_smons q true) with (smons_active q) in E, HF.
  pose proof (relink_insert smon_link _ m sm (smons_active q) Hx) as Hr.
  eexists. split; [unfold insert_smons_active; go; by rewrite E|]. op_done HF.
Qed.

Lemma insert_smons_free_run m sm : smons q !! m = Some sm -> (forall k, m ∉ l_smons sh k) ->
  relinks (insert_smons_free m) q (sh_smons sh false (m :: l_smons sh false)).
Proof using HL.
  intros Hx Hi. destruct (family_insert smon_link _ _ _ false m sm (link_smons _ _ HL) Hx Hi) as [E HF].
  change (h_smons q false) with (smons_free q) in E, HF.
  pose proof (relink_insert smon_link _ m sm (smons_free q) Hx) as Hr.
  eexists. split; [unfold insert_smons_free; go; by rewrite E|]. op_done HF.
Qed.

Lemma remove_head_smons_free_run m l : l_smons sh false = m :: l -> relinks remove_head_smons_free q (sh_smons sh false l).
Proof using HL.
  intros E0. destruct (family_remove_head smon_link _ _ _ false m l (link_smons _ _ HL) E0) as (_ & E & HF).
  change (h_smons q false) with (smons_free q) in E.
  eexists. split; [unfold remove_head_smons_free; go; by rewrite E|]. op_done HF.
Qed.

Lemma remove_head_smons_active_run m l : l_smons sh true = m :: l -> relinks remove_head_smons_active q (sh_smons sh true l).
Proof using HL.
  intros E0. destruct (family_remove_head smon_link _ _ _ true m l (link_smons _ _ HL) E0) as (_ & E & HF).
  change (h_smons q true) with (smons_active q) in E.
  eexists. split; [unfold remove_head_smons_active; go; by rewrite E|]. op_done HF.
Qed.

Lemma remove_smons_active_run m : m ∈ l_smons sh true -> (length (l_smons sh true) <= fuel)%nat ->
  relinks (remove_smons_active fuel m) q (sh_smons sh true (rem m (l_smons sh true))).
Proof using HL.
  intros Hi Hf.
  destruct (family_remove smon_link _ fuel _ _ true m (link_smons _ _ HL) Hi Hf) as (s' & h' & E & Hr & HF).
  apply relink_or in Hr. change (h_smons q true) with (smons_active q) in E.
  eexists. split; [unfold remove_smons_active; go; by rewrite E|]. op_done HF.
Qed.
End ListOps.
