(* ===== verification/QuerierWf.v ===== *)
(** * The invariant of the querier's cache

    [wf q sh]: the links of [q] make up the lists of [sh], and the lists fit the
    contents of the cells.  The operations that move cells between lists keep
    it, and they return: with fuel for the longest list they neither hang nor
    dereference NULL. *)
From stdpp Require Import sets.
From S2P Require Import Prelude Buffer Slist SlistSpec Dname Message Querier QuerierSpec.

Notation CACHE := MDNS_SERVICE_CACHE_SIZE.

(** How the lists fit the cells: [ar i] and [mo i] are the A record and the
    monitor that the instance [i] refers to. *)
Record cross (ar mo : nat -> option (option nat)) (sh : shape) : Prop := {
  x_smon : forall m i, i ∈ l_sinsts sh (Some m) -> (m < MDNS_MAX_SERVICE_MONITORS)%nat /\ mo i = Some (Some m);
  x_arec : forall a i, i ∈ l_asinsts sh a <-> (exists m, i ∈ l_sinsts sh (Some m)) /\ ar i = Some (Some a);
  x_active : forall a i, i ∈ l_asinsts sh a -> a ∈ l_arecs sh true;
  x_sinsts : forall i, (exists k, i ∈ l_sinsts sh k) <-> (i < CACHE)%nat;
  x_arecs : forall a, (exists k, a ∈ l_arecs sh k) <-> (a < CACHE)%nat }.

(** Every monitor is on one list, and only active monitors have instances.  This
    is apart from [cross] because [remove_service] takes a monitor off its list
    before it cleans up. *)
Record watched (sh : shape) : Prop := {
  w_live : forall m i, i ∈ l_sinsts sh (Some m) -> m ∈ l_smons sh true;
  w_smons : forall m, (exists k, m ∈ l_smons sh k) <-> (m < MDNS_MAX_SERVICE_MONITORS)%nat }.

Record wf (q : qstate) (sh : shape) : Prop := {
  wf_linked : linked q sh;
  wf_cross : cross (lk si_arec (sinsts q)) (lk si_smon (sinsts q)) sh;
  wf_sinsts : length (sinsts q) = S CACHE;
  wf_arecs : length (arecs q) = S CACHE;
  wf_smons : length (smons q) = MDNS_MAX_SERVICE_MONITORS }.

Lemma cross_ext ar mo ar' mo' sh : (forall i, ar' i = ar i) -> (forall i, mo' i = mo i) -> cross ar mo sh -> cross ar' mo' sh.
Proof.
  intros E1 E2 [H1 H2 H3 H4 H5]. constructor; [|setoid_rewrite E1| | |]; try done.
  intros m i Hi. rewrite E2. by apply H1.
Qed.

(** ** Lists are short *)

Lemma short_list n l : NoDup l -> (forall i, i ∈ l -> (i < n)%nat) -> (length l <= n)%nat.
Proof.
  intros Hd Hi. rewrite <- (length_seq n 0). apply submseteq_length, NoDup_submseteq; [done|].
  intros i Hil. apply elem_of_seq. specialize (Hi i Hil). lia.
Qed.

Section Facts.
Context (q : qstate) (sh : shape) (W : wf q sh).

Lemma sinsts_short k : (length (l_sinsts sh k) <= CACHE)%nat.
Proof using W.
  apply short_list; [apply (fam_nodup _ _ _ (link_sinsts _ _ (wf_linked _ _ W)))|].
  intros i Hi. apply (x_sinsts _ _ _ (wf_cross _ _ W)). eauto.
Qed.

Lemma asinsts_live a i : i ∈ l_asinsts sh a -> exists m, i ∈ l_sinsts sh (Some m).
Proof using W. intros Hi. by apply (x_arec _ _ _ (wf_cross _ _ W)) in Hi as [? _]. Qed.

Lemma asinsts_short a : (length (l_asinsts sh a) <= CACHE)%nat.
Proof using W.
  apply short_list; [apply (fam_nodup _ _ _ (link_asinsts _ _ (wf_linked _ _ W)))|].
  intros i Hi. apply (x_sinsts _ _ _ (wf_cross _ _ W)). destruct (asinsts_live a i Hi). eauto.
Qed.

Lemma arecs_short k : (length (l_arecs sh k) <= CACHE)%nat.
Proof using W.
  apply short_list; [apply (fam_nodup _ _ _ (link_arecs _ _ (wf_linked _ _ W)))|].
  intros i Hi. apply (x_arecs _ _ _ (wf_cross _ _ W)). eauto.
Qed.

(** Cells on a list exist. *)
Lemma sinst_cell k i : i ∈ l_sinsts sh k -> exists s, sinsts q !! i = Some s.
Proof using W.
  intros Hi. apply lookup_lt_is_Some. rewrite (wf_sinsts _ _ W). apply Nat.lt_lt_succ_r.
  apply (x_sinsts _ _ _ (wf_cross _ _ W)). eauto.
Qed.
Lemma arec_cell k a : a ∈ l_arecs sh k -> exists ar, arecs q !! a = Some ar.
Proof using W.
  intros Hi. apply lookup_lt_is_Some. rewrite (wf_arecs _ _ W). apply Nat.lt_lt_succ_r.
  apply (x_arecs _ _ _ (wf_cross _ _ W)). eauto.
Qed.
Lemma smon_cell m : (m < MDNS_MAX_SERVICE_MONITORS)%nat -> exists sm, smons q !! m = Some sm.
Proof using W. intros Hm. apply lookup_lt_is_Some. by rewrite (wf_smons _ _ W). Qed.

(** What a live instance refers to. *)
Lemma live_smon m i s : i ∈ l_sinsts sh (Some m) -> sinsts q !! i = Some s ->
  si_smon s = Some m /\ (m < MDNS_MAX_SERVICE_MONITORS)%nat.
Proof using W.
  intros Hi Hs. apply (x_smon _ _ _ (wf_cross _ _ W)) in Hi as [Hm E]. unfold lk in E. rewrite Hs in E.
  cbn in E. split; [congruence|done].
Qed.
Lemma live_arec m i s a : i ∈ l_sinsts sh (Some m) -> sinsts q !! i = Some s -> si_arec s = Some a ->
  i ∈ l_asinsts sh a /\ a ∈ l_arecs sh true.
Proof using W.
  intros Hi Hs E. assert (i ∈ l_asinsts sh a) as Ha.
  { apply (x_arec _ _ _ (wf_cross _ _ W)). split; [eauto|]. unfold lk. rewrite Hs. cbn. by rewrite E. }
  split; [done|]. by apply (x_active _ _ _ (wf_cross _ _ W) a i).
Qed.
Lemma arec_live a i s : i ∈ l_asinsts sh a -> sinsts q !! i = Some s -> si_arec s = Some a.
Proof using W.
  intros Hi Hs. apply (x_arec _ _ _ (wf_cross _ _ W)) in Hi as [_ E]. unfold lk in E. rewrite Hs in E.
  cbn in E. congruence.
Qed.
End Facts.

(** ** Pure updates of cells *)

Lemma lk_erase {B} (g : service_instance -> B) l l' i : (forall s, g (erase_s s) = g s) ->
  erase_s <$> l' = erase_s <$> l -> lk g l' i = lk g l i.
Proof.
  intros E H. unfold lk. apply (f_equal (fun l => g <$> l !! i)) in H. rewrite !list_lookup_fmap in H.
  destruct (l' !! i), (l !! i); cbn in *; rewrite ?E in H; congruence.
Qed.

Lemma core_lk_s {B} (g : service_instance -> B) q q' i : (forall s, g (erase_s s) = g s) -> core q' = core q ->
  lk g (sinsts q') i = lk g (sinsts q) i.
Proof. intros E H. apply lk_erase; [done|]. by apply (f_equal sinsts) in H. Qed.

Lemma core_length q q' : core q' = core q ->
  length (sinsts q') = length (sinsts q) /\ length (arecs q') = length (arecs q) /\ length (smons q') = length (smons q).
Proof.
  intros H. split; [|split].
  - apply (f_equal (fun q => length (sinsts q))) in H. cbn in H. by rewrite !length_fmap in H.
  - apply (f_equal (fun q => length (arecs q))) in H. cbn in H. by rewrite !length_fmap in H.
  - apply (f_equal (fun q => length (smons q))) in H. cbn in H. by rewrite !length_fmap in H.
Qed.

(** The contents of a cell after links were written. *)
Lemma core_sinst q q' i s : core q' = core q -> sinsts q !! i = Some s ->
  exists s', sinsts q' !! i = Some s' /\ erase_s s' = erase_s s.
Proof.
  intros H Hs. apply (f_equal (fun q => sinsts q !! i)) in H. cbn in H. rewrite !list_lookup_fmap, Hs in H.
  destruct (sinsts q' !! i) as [s'|]; cbn in H; [|done]. exists s'. split; [done|congruence].
Qed.
Lemma core_arec q q' i s : core q' = core q -> arecs q !! i = Some s ->
  exists s', arecs q' !! i = Some s' /\ erase_a s' = erase_a s.
Proof.
  intros H Hs. apply (f_equal (fun q => arecs q !! i)) in H. cbn in H. rewrite !list_lookup_fmap, Hs in H.
  destruct (arecs q' !! i) as [s'|]; cbn in H; [|done]. exists s'. split; [done|congruence].
Qed.
Lemma core_smon q q' i s : core q' = core q -> smons q !! i = Some s ->
  exists s', smons q' !! i = Some s' /\ erase_m s' = erase_m s.
Proof.
  intros H Hs. apply (f_equal (fun q => smons q !! i)) in H. cbn in H. rewrite !list_lookup_fmap, Hs in H.
  destruct (smons q' !! i) as [s'|]; cbn in H; [|done]. exists s'. split; [done|congruence].
Qed.

Lemma core_upd_sinst q q' i s s' : core q' = core q -> erase_s s' = erase_s s ->
  core (q_sinsts q' (<[i := s']> (sinsts q'))) = core (q_sinsts q (<[i := s]> (sinsts q))).
Proof.
  intros C E. unfold core in *. cbn in *. injection C as -> Cs -> -> -> ->.
  by rewrite !list_fmap_insert, Cs, E.
Qed.

(** A field of the cells after one cell was assigned. *)
Lemma core_lk_upd {B} (g : service_instance -> B) q q' i s x j : (forall s, g (erase_s s) = g s) ->
  core q' = core (q_sinsts q (<[i := x]> (sinsts q))) -> sinsts q !! i = Some s ->
  lk g (sinsts q') j = if decide (j = i) then Some (g x) else lk g (sinsts q) j.
Proof.
  intros E C Hs. rewrite (core_lk_s g _ _ j E C). unfold lk. cbn.
  destruct (decide (j = i)) as [->|Hj]; [|by rewrite list_lookup_insert_ne].
  by rewrite list_lookup_insert_eq by (by eapply lookup_lt_Some).
Qed.

Lemma q_sinsts_twice q i x y :
  let q1 := q_sinsts q (<[i := y]> (sinsts q)) in
  q_sinsts q1 (<[i := x]> (sinsts q1)) = q_sinsts q (<[i := x]> (sinsts q)).
Proof. unfold q_sinsts. cbn. by rewrite list_insert_insert_eq. Qed.

(** Assignments that leave the links alone. *)
Lemma linked_sinst q sh i s s' : linked q sh -> sinsts q !! i = Some s ->
  list_item s' = list_item s -> alist_item s' = alist_item s -> linked (q_sinsts q (<[i := s']> (sinsts q))) sh.
Proof.
  intros [H1 H2 H3 H4] Hs E1 E2. constructor; cbn; [done| | |done].
  - eapply family_ext; [| | |exact H2]; [|done|done]. intros j. by apply lk_insert_same with s.
  - eapply family_ext; [| | |exact H3]; [|done|done]. intros j. by apply lk_insert_same with s.
Qed.

Lemma linked_arec q sh a ar ar' : linked q sh -> arecs q !! a = Some ar ->
  ar_list_item ar' = ar_list_item ar -> ar_sinsts ar' = ar_sinsts ar -> linked (q_arecs q (<[a := ar']> (arecs q))) sh.
Proof.
  intros [H1 H2 H3 H4] Ha E1 E2. constructor; cbn; [done|done| |].
  - eapply family_ext; [| | |exact H3]; [done| |done]. intros k. unfold h_asinsts. cbn.
    destruct (decide (k = a)) as [->|Hk]; [|by rewrite list_lookup_insert_ne].
    rewrite list_lookup_insert_eq by (by eapply lookup_lt_Some). by rewrite Ha.
  - eapply family_ext; [| | |exact H4]; [|done|done]. intros j. by apply lk_insert_same with ar.
Qed.

Lemma linked_smon q sh m sm sm' : linked q sh -> smons q !! m = Some sm ->
  sm_list_item sm' = sm_list_item sm -> sm_sinsts sm' = sm_sinsts sm -> linked (q_smons q (<[m := sm']> (smons q))) sh.
Proof.
  intros [H1 H2 H3 H4] Hm E1 E2. constructor; cbn; [| |done|done].
  - eapply family_ext; [| | |exact H1]; [|done|done]. intros j. by apply lk_insert_same with sm.
  - eapply family_ext; [| | |exact H2]; [done| |done]. intros [k|]; [|done]. cbn.
    destruct (decide (k = m)) as [->|Hk]; [|by rewrite list_lookup_insert_ne].
    rewrite list_lookup_insert_eq by (by eapply lookup_lt_Some). by rewrite Hm.
Qed.

(** The state after a pure assignment to an instance that does not move it. *)
Lemma wf_sinst q sh i s s' : wf q sh -> sinsts q !! i = Some s ->
  list_item s' = list_item s -> alist_item s' = alist_item s -> si_arec s' = si_arec s -> si_smon s' = si_smon s ->
  wf (q_sinsts q (<[i := s']> (sinsts q))) sh.
Proof.
  intros W Hs E1 E2 E3 E4. destruct W as [HL HX H1 H2 H3]. constructor; cbn; try done.
  - by apply linked_sinst with s.
  - eapply cross_ext; [| |exact HX]; intros j; by apply lk_insert_same with s.
  - by rewrite length_insert.
Qed.
Lemma wf_arec q sh a ar ar' : wf q sh -> arecs q !! a = Some ar ->
  ar_list_item ar' = ar_list_item ar -> ar_sinsts ar' = ar_sinsts ar -> wf (q_arecs q (<[a := ar']> (arecs q))) sh.
Proof.
  intros W Hs E1 E2. destruct W as [HL HX H1 H2 H3]. constructor; cbn; try done.
  - by apply linked_arec with ar.
  - by rewrite length_insert.
Qed.
Lemma wf_smon q sh m sm sm' : wf q sh -> smons q !! m = Some sm ->
  sm_list_item sm' = sm_list_item sm -> sm_sinsts sm' = sm_sinsts sm -> wf (q_smons q (<[m := sm']> (smons q))) sh.
Proof.
  intros W Hs E1 E2. destruct W as [HL HX H1 H2 H3]. constructor; cbn; try done.
  - by apply linked_smon with sm.
  - by rewrite length_insert.
Qed.
Lemma wf_same q q' sh : arecs q' = arecs q -> sinsts q' = sinsts q -> smons q' = smons q ->
  arecs_active q' = arecs_active q -> arecs_free q' = arecs_free q -> sinsts_free q' = sinsts_free q ->
  smons_active q' = smons_active q -> smons_free q' = smons_free q -> wf q sh -> wf q' sh.
Proof.
  destruct q, q'; cbn. intros -> -> -> -> -> -> -> -> [[H1 H2 H3 H4] HX L1 L2 L3].
  constructor; [constructor; [exact H1|exact H2|exact H3|exact H4]|done|done|done|done].
Qed.

(** ** Cleaning up an instance *)

(** An A record that no instance refers to any more moves to the free list. *)
Definition sh_release (sh : shape) (a : nat) : shape :=
  match l_asinsts sh a with
  | [] =>
      let sh := sh_arecs sh true (rem a (l_arecs sh true)) in
      sh_arecs sh false (a :: l_arecs sh false)
  | _ :: _ => sh
  end.

Definition sh_unref (sh : shape) (i : nat) (oa : option nat) : shape :=
  match oa with
  | None => sh
  | Some a => sh_release (sh_asinsts sh a (rem i (l_asinsts sh a))) a
  end.

(** The lists after [cleanup_sinst]. *)
Definition sh_cleanup (sh : shape) (m i : nat) (oa : option nat) : shape :=
  let sh := sh_unref (sh_sinsts sh (Some m) (rem i (l_sinsts sh (Some m)))) i oa in
  sh_sinsts sh None (i :: l_sinsts sh None).

Lemma elem_fupd {K} `{EqDecision K} (L : K -> list nat) k l k' x :
  x ∈ fupd L k l k' <-> (k' = k /\ x ∈ l) \/ (k' <> k /\ x ∈ L k').
Proof. unfold fupd. destruct (decide (k' = k)) as [->|H]; naive_solver. Qed.

Lemma l_sh_sinsts sh k l : l_sinsts (sh_sinsts sh k l) = fupd (l_sinsts sh) k l.
Proof. done. Qed.

Lemma unref_sinsts sh m i oa k : l_sinsts (sh_unref (sh_sinsts sh (Some m) (rem i (l_sinsts sh (Some m)))) i oa) k =
  fupd (l_sinsts sh) (Some m) (rem i (l_sinsts sh (Some m))) k.
Proof. unfold sh_unref, sh_release. destruct oa as [a|]; [|done]. by destruct (l_asinsts _ a). Qed.

Section Cleanup.
Context (ar mo : nat -> option (option nat)) (sh : shape) (m i : nat) (oa : option nat).
Context (X : cross ar mo sh).
Context (Ds : forall k k' x, x ∈ l_sinsts sh k -> x ∈ l_sinsts sh k' -> k = k').
Context (Da : forall k k' x, x ∈ l_arecs sh k -> x ∈ l_arecs sh k' -> k = k').
Context (Hi : i ∈ l_sinsts sh (Some m)) (Ho : ar i = Some oa).

Lemma cleanup_live m' x : x ∈ l_sinsts (sh_cleanup sh m i oa) (Some m') <-> x <> i /\ x ∈ l_sinsts sh (Some m').
Proof.
  unfold sh_cleanup. rewrite l_sh_sinsts, fupd_ne by done. rewrite unref_sinsts, elem_fupd, elem_rem. split.
  - intros [(Em & H1 & H2)|(Em & H1)]; [naive_solver|]. split; [|done].
    intros ->. apply Em. by eapply Ds.
  - intros [H1 H2]. destruct (decide (m' = m)) as [->|]; [left|right]; naive_solver.
Qed.

Lemma cleanup_free x : x ∈ l_sinsts (sh_cleanup sh m i oa) None <-> x = i \/ x ∈ l_sinsts sh None.
Proof.
  unfold sh_cleanup. rewrite l_sh_sinsts, fupd_eq, elem_of_cons, unref_sinsts. by rewrite fupd_ne.
Qed.

Lemma cleanup_asinsts a x : x ∈ l_asinsts (sh_cleanup sh m i oa) a <-> x <> i /\ x ∈ l_asinsts sh a.
Proof.
  assert (l_asinsts (sh_cleanup sh m i oa) a =
          match oa with Some b => fupd (l_asinsts sh) b (rem i (l_asinsts sh b)) a | None => l_asinsts sh a end) as ->.
  { unfold sh_cleanup, sh_unref, sh_release. destruct oa as [b|]; [|done]. cbn. by destruct (fupd _ b _ b). }
  split.
  - destruct oa as [b|]; [rewrite elem_fupd, elem_rem|]; intros H.
    + destruct H as [(-> & ? & ?)|(Hne & Hx)]; [done|]. split; [|done]. intros ->.
      apply (x_arec _ _ _ X) in Hx as [_ Hx]. congruence.
    + split; [|done]. intros ->. apply (x_arec _ _ _ X) in H as [_ H]. congruence.
  - intros [H1 H2]. destruct oa as [b|]; [rewrite elem_fupd, elem_rem|done].
    destruct (decide (a = b)) as [->|]; [left|right]; naive_solver.
Qed.

Lemma cleanup_arecs a : (a ∈ l_arecs (sh_cleanup sh m i oa) true <->
    a ∈ l_arecs sh true /\ (oa = Some a -> exists x, x ∈ l_asinsts (sh_cleanup sh m i oa) a)) /\
  (a ∈ l_arecs (sh_cleanup sh m i oa) false <->
    a ∈ l_arecs sh false \/ (oa = Some a /\ forall x, x ∉ l_asinsts (sh_cleanup sh m i oa) a)).
Proof.
  unfold sh_cleanup, sh_unref, sh_release. destruct oa as [b|]; cbn; [|naive_solver].
  rewrite fupd_eq. destruct (rem i (l_asinsts sh b)) as [|y l] eqn:E; cbn.
  - rewrite (fupd_ne _ false _ true) by done. rewrite (fupd_eq _ true), (fupd_eq _ false), elem_rem, elem_of_cons.
    rewrite (fupd_ne _ true _ false) by done. split.
    + split.
      * intros [Hab Ha]. split; [done|]. naive_solver.
      * intros [Ha Hx]. split; [|done]. intros ->.
        destruct (Hx eq_refl) as [x Hx']. rewrite fupd_eq in Hx'. by apply elem_of_nil in Hx'.
    + split.
      * intros [->|Ha]; [|by left]. right. split; [done|]. intros x Hx.
        rewrite fupd_eq in Hx. by apply elem_of_nil in Hx.
      * intros [H|[[= ->] _]]; [by right|by left].
  - split.
    + split; [|by intros [? _]]. intros Ha. split; [done|]. intros [= ->]. exists y. rewrite fupd_eq. set_solver.
    + split; [by left|]. intros [Ha|[[= ->] Hx]]; [done|]. specialize (Hx y). rewrite fupd_eq in Hx. set_solver.
Qed.

Lemma cross_cleanup : cross ar mo (sh_cleanup sh m i oa).
Proof.
  constructor.
  - intros m' x [_ Hx]%cleanup_live. by apply (x_smon _ _ _ X).
  - intros a x. rewrite cleanup_asinsts, (x_arec _ _ _ X). setoid_rewrite cleanup_live. naive_solver.
  - intros a x Hx. pose proof Hx as [Hxi Hx']%cleanup_asinsts.
    apply cleanup_arecs. split; [by eapply x_active|eauto].
  - intros x. rewrite <- (x_sinsts _ _ _ X). split.
    + intros [[m'|] H]; [apply cleanup_live in H as [_ H]; eauto|].
      apply cleanup_free in H as [->|H]; eauto.
    + intros [k H]. destruct (decide (x = i)) as [->|Hx]; [exists None; apply cleanup_free; by left|].
      destruct k as [m'|]; [exists (Some m'); by apply cleanup_live|exists None; apply cleanup_free; by right].
  - intros a. rewrite <- (x_arecs _ _ _ X). destruct (cleanup_arecs a) as [H1 H2]. split.
    + intros [[] H]; [apply H1 in H as [H _]; eauto|]. apply H2 in H as [H|[-> _]]; [eauto|].
      exists true. apply (x_active _ _ _ X a i), (x_arec _ _ _ X). eauto.
    + intros [[] H]; [|exists false; apply H2; by left].
      destruct (decide (oa = Some a)) as [E|E]; [|exists true; apply H1; done].
      destruct (l_asinsts (sh_cleanup sh m i oa) a) as [|y l] eqn:El.
      * exists false. apply H2. right. split; [done|]. intros x Hx. by apply elem_of_nil in Hx.
      * exists true. apply H1. split; [done|]. intros _. exists y. set_solver.
Qed.

Lemma cleanup_smons : l_smons (sh_cleanup sh m i oa) = l_smons sh.
Proof using.
  clear. unfold sh_cleanup, sh_unref, sh_release. destruct oa as [b|]; [|done]. cbn. by destruct (fupd _ b _ b).
Qed.

Lemma watched_cleanup : watched sh -> watched (sh_cleanup sh m i oa).
Proof.
  intros [H1 H2]. constructor; rewrite cleanup_smons; [|done]. intros m' x [_ Hx]%cleanup_live. by apply (H1 m' x).
Qed.
End Cleanup.

(** [relinks] composes. *)
Lemma relinks_then (c d : Q unit) q sh sh' : relinks c q sh ->
  (forall q', linked q' sh -> core q' = core q -> relinks d q' sh') -> relinks (c;; d) q sh'.
Proof.
  intros (q1 & E1 & L1 & C1) H. destruct (H q1 L1 C1) as (q2 & E2 & L2 & C2).
  exists q2. split; [by qstep E1|]. split; [done|congruence].
Qed.

Lemma relinks_ret q sh : linked q sh -> relinks (mret tt) q sh.
Proof. intros HL. by exists q. Qed.

(** The head of an instance list of an A record. *)
Lemma arec_head q sh a ar : linked q sh -> arecs q !! a = Some ar -> ar_sinsts ar = head (l_asinsts sh a).
Proof.
  intros HL Ha. pose proof (fam_chain _ _ _ (link_asinsts _ _ HL) a) as Hc. apply chain_head in Hc.
  unfold h_asinsts in Hc. by rewrite Ha in Hc.
Qed.

Section Total.
Context (fuel : nat) (Hfuel : (CACHE <= fuel)%nat).

(** The part of [cleanup_sinst] that takes the instance off its A record. *)
Lemma unref_run q sh i oa : linked q sh -> length (arecs q) = S CACHE ->
  (forall k, (length (l_arecs sh k) <= CACHE)%nat) -> (forall a, (length (l_asinsts sh a) <= CACHE)%nat) ->
  (forall a, oa = Some a -> i ∈ l_asinsts sh a /\ a ∈ l_arecs sh true /\ (a < CACHE)%nat) ->
  relinks (match oa with
           | None => mret tt
           | Some a =>
               remove_arec_sinsts fuel a i;;
               ar ← get_arec a;
               match ar_sinsts ar with
               | Some _ => mret tt
               | None => remove_arecs_active fuel a;; insert_arecs_free a
               end
           end) q (sh_unref sh i oa).
Proof using Hfuel.
  intros HL Hlen Ha Hs Ho. destruct oa as [a|]; [|by apply relinks_ret].
  destruct (Ho a eq_refl) as (Hi & Hact & Hlt). cbn [sh_unref].
  assert (exists ar, arecs q !! a = Some ar) as [ar Har] by (apply lookup_lt_is_Some; lia).
  eapply relinks_then; [apply (remove_arec_sinsts_run fuel _ _ HL a ar i Har Hi); specialize (Hs a); lia|].
  intros q1 HL1 C1. destruct (core_arec _ _ _ _ C1 Har) as (ar1 & Har1 & _).
  pose proof (arec_head _ _ _ _ HL1 Har1) as Eh. unfold sh_release.
  unfold relinks. qstep (get_arec_run _ _ _ Har1). rewrite Eh.
  set (sh1 := sh_asinsts sh a (rem i (l_asinsts sh a))) in *.
  destruct (l_asinsts sh1 a) as [|x l]; cbn [head]; [|by apply relinks_ret].
  eapply relinks_then; [apply (remove_arecs_active_run fuel _ _ HL1); [done|specialize (Ha true); cbn; lia]|].
  intros q2 HL2 C2. destruct (core_arec _ _ _ _ C2 Har1) as (ar2 & Har2 & _).
  apply (insert_arecs_free_run _ _ HL2 a ar2 Har2).
  intros k. cbn. destruct k; [rewrite fupd_eq, elem_rem; by intros [? _]|rewrite fupd_ne by done].
  intros Hf. by pose proof (fam_disjoint _ _ _ (link_arecs _ _ HL) _ _ _ Hact Hf).
Qed.

(** The list part of [cleanup_sinst]. *)
Lemma cleanup_sinst_run q sh m i s : wf q sh -> i ∈ l_sinsts sh (Some m) -> sinsts q !! i = Some s ->
  exists q', cleanup_sinst fuel i q = Ok (tt, q') /\ wf q' (sh_cleanup sh m i (si_arec s)) /\
    core q' = core (q_sinsts q (<[i := with_next_refresh s UINT32_MAX]> (sinsts q))).
Proof using Hfuel.
  intros W Hi Hs. destruct (live_smon _ _ W m i s Hi Hs) as [Em Hm].
  destruct (smon_cell _ _ W _ Hm) as [sm Hsm]. pose proof (wf_linked _ _ W) as HL.
  destruct (remove_smon_sinsts_run fuel _ _ HL m sm i Hsm Hi) as (q1 & E1 & HL1 & C1).
  { pose proof (sinsts_short _ _ W (Some m)). lia. }
  set (sh1 := sh_sinsts sh (Some m) (rem i (l_sinsts sh (Some m)))) in *.
  destruct (unref_run q1 sh1 i (si_arec s) HL1) as (q2 & E2 & HL2 & C2).
  { destruct (core_length _ _ C1) as (_ & -> & _). apply (wf_arecs _ _ W). }
  { intros k. apply (arecs_short _ _ W). }
  { intros a. apply (asinsts_short _ _ W). }
  { intros a Ea. destruct (live_arec _ _ W m i s a Hi Hs Ea) as [? Hact]. split; [done|]. split; [done|].
    apply (x_arecs _ _ _ (wf_cross _ _ W)). eauto. }
  assert (core q2 = core q) as C2' by congruence.
  destruct (core_sinst _ _ _ _ C2' Hs) as (s2 & Hs2 & Es2).
  destruct (insert_sinsts_free_run _ _ HL2 i s2 Hs2) as (q3 & E3 & HL3 & C3).
  { intros k. unfold sh1. rewrite unref_sinsts, elem_fupd, elem_rem. intros [(_ & ? & _)|(Hk & Hik)]; [done|]. apply Hk.
    by apply (fam_disjoint _ _ _ (link_sinsts _ _ HL) k (Some m) i). }
  assert (core q3 = core q) as C3' by congruence.
  destruct (core_sinst _ _ _ _ C3' Hs) as (s3 & Hs3 & Es3).
  eexists. split.
  { unfold cleanup_sinst. qstep (get_sinst_run _ _ _ Hs). rewrite Em. qstep (lift_run (Ok m) q m eq_refl).
    qstep E1. qstep E2. qstep E3. apply (upd_sinst_run _ _ _ _ Hs3). }
  fold (sh_cleanup sh m i (si_arec s)) in HL3.
  split.
  - apply wf_sinst with s3; try done. constructor; [done| |destruct (core_length _ _ C3') as (H1 & H2 & H3)..].
    + eapply cross_ext; [intros j; by apply core_lk_s with (q := q)|intros j; by apply core_lk_s with (q := q)|].
      apply cross_cleanup; [apply (wf_cross _ _ W)|apply (fam_disjoint _ _ _ (link_sinsts _ _ HL))|
        apply (fam_disjoint _ _ _ (link_arecs _ _ HL))|done|]. unfold lk. by rewrite Hs.
    + rewrite H1. apply (wf_sinsts _ _ W).
    + rewrite H2. apply (wf_arecs _ _ W).
    + rewrite H3. apply (wf_smons _ _ W).
  - apply core_upd_sinst; [done|]. change (with_next_refresh (erase_s s3) UINT32_MAX = with_next_refresh (erase_s s) UINT32_MAX).
    by rewrite Es3.
Qed.
End Total.
