(* ===== verification/QuerierInv.v ===== *)
(** * Runs of the querier

    [protocol cs]: the callbacks [cs] make sense to the user: an instance is
    only reported as updated or gone when the last report about it was that it
    was discovered or updated, and it is reported with an address and a port.
    [Inv] is the invariant of the cache with it: a live instance that left its
    initial state has been reported.  The operations of mdns_query.c keep it. *)
From stdpp Require Import sets.
From S2P Require Import Prelude Buffer Slist SlistSpec Dname Message Querier QuerierSpec QuerierWf.

(** ** Callbacks *)

(** The status of the last callback about the cell [i]. *)
Fixpoint last_status (cs : list callback) (i : nat) (st : option Z) : option Z :=
  match cs with
  | [] => st
  | c :: cs' => last_status cs' i (if bool_decide (call_cell c = i) then Some (call_status c) else st)
  end.

Definition told (cs : list callback) (i : nat) : Prop :=
  last_status cs i None = Some MDNS_DISCOVERED \/ last_status cs i None = Some MDNS_UPDATED.

Definition allowed (cs : list callback) (c : callback) : Prop :=
  (call_status c = MDNS_DISCOVERED /\ SERVICE_IS_READY (si_service (call_sinst c)) = true) \/
  (call_status c = MDNS_UPDATED /\ SERVICE_IS_READY (si_service (call_sinst c)) = true /\ told cs (call_cell c)) \/
  (call_status c = MDNS_DISAPPEARED /\ told cs (call_cell c)) \/
  (call_status c = MDNS_CACHE_FULL /\ call_cell c = overflow_sinst).

Inductive protocol : list callback -> Prop :=
  | protocol_nil : protocol []
  | protocol_snoc cs c : protocol cs -> allowed cs c -> protocol (cs ++ [c]).

Lemma last_status_snoc cs c i st : last_status (cs ++ [c]) i st =
  if bool_decide (call_cell c = i) then Some (call_status c) else last_status cs i st.
Proof. revert st. induction cs as [|d cs IH]; intros st; cbn; [done|]. apply IH. Qed.

Lemma told_other cs c i : call_cell c <> i -> told (cs ++ [c]) i <-> told cs i.
Proof. intros H. unfold told. rewrite last_status_snoc. by rewrite bool_decide_eq_false_2. Qed.

Lemma told_now cs c : call_status c = MDNS_DISCOVERED \/ call_status c = MDNS_UPDATED -> told (cs ++ [c]) (call_cell c).
Proof. unfold told. rewrite last_status_snoc, bool_decide_eq_true_2 by done. intros [->| ->]; auto. Qed.

(** ** The invariant *)

(** Live instances outside of [x] that left their initial state were reported. *)
Definition told_live (q : qstate) (sh : shape) (x : list nat) : Prop :=
  forall m i, i ∈ l_sinsts sh (Some m) -> i ∉ x -> lk si_state (sinsts q) i <> Some SINST_STATE_INIT -> told (calls q) i.

Record Inv (q : qstate) (sh : shape) : Prop := {
  inv_wf : wf q sh;
  inv_watched : watched sh;
  inv_protocol : protocol (calls q);
  inv_told : told_live q sh [] }.

Lemma told_live_ext q q' sh x : (forall i, lk si_state (sinsts q') i = lk si_state (sinsts q) i) -> calls q' = calls q ->
  told_live q sh x -> told_live q' sh x.
Proof. intros E1 E2 H m i Hi Hx. rewrite E1, E2. by apply (H m i). Qed.

(** Assignments to an instance that neither move it nor change its state. *)
Lemma Inv_sinst q sh i s s' : Inv q sh -> sinsts q !! i = Some s ->
  list_item s' = list_item s -> alist_item s' = alist_item s -> si_arec s' = si_arec s -> si_smon s' = si_smon s ->
  si_state s' = si_state s -> Inv (q_sinsts q (<[i := s']> (sinsts q))) sh.
Proof.
  intros [W Hw Hp Ht] Hs E1 E2 E3 E4 E5. constructor; [by apply wf_sinst with s|done|done|].
  apply (told_live_ext q); [|done|done]. intros j. by apply lk_insert_same with s.
Qed.

Lemma Inv_arec q sh a ar ar' : Inv q sh -> arecs q !! a = Some ar ->
  ar_list_item ar' = ar_list_item ar -> ar_sinsts ar' = ar_sinsts ar -> Inv (q_arecs q (<[a := ar']> (arecs q))) sh.
Proof. intros [W Hw Hp Ht] Ha E1 E2. constructor; [by apply wf_arec with ar|done|done|done]. Qed.

Lemma Inv_smon q sh m sm sm' : Inv q sh -> smons q !! m = Some sm ->
  sm_list_item sm' = sm_list_item sm -> sm_sinsts sm' = sm_sinsts sm -> Inv (q_smons q (<[m := sm']> (smons q))) sh.
Proof. intros [W Hw Hp Ht] Ha E1 E2. constructor; [by apply wf_smon with sm|done|done|done]. Qed.

Lemma Inv_tx q sh m : Inv q sh -> Inv (q_tx q m) sh.
Proof. intros [W Hw Hp Ht]. constructor; [by apply wf_same with q|done|done|done]. Qed.
Lemma Inv_rx q sh m : Inv q sh -> Inv (q_rx q m) sh.
Proof. intros [W Hw Hp Ht]. constructor; [by apply wf_same with q|done|done|done]. Qed.

(** ** Callbacks and states *)

(** What [DO_CALLBACK] appends. *)
Lemma DO_CALLBACK_inv q i c q' : DO_CALLBACK i c q = Ok (tt, q') ->
  exists s f d, sinsts q !! i = Some s /\ q' = q_call q (mkCallback f d i s c).
Proof.
  unfold DO_CALLBACK. intros (s & q1 & [Hs ->]%get_sinst_inv & H)%bind_inv.
  apply bind_inv in H as (m & q1 & [_ ->]%lift_inv & H).
  apply bind_inv in H as (sm & q1 & [_ ->]%get_smon_inv & H). injection H as <-. eauto.
Qed.

Lemma wf_call q sh c : wf q sh -> wf (q_call q c) sh.
Proof. by apply wf_same. Qed.

(** A callback about [i]: the instances but [i] keep what was said of them. *)
Lemma told_call q sh x c : told_live q sh x -> told_live (q_call q c) sh (call_cell c :: x).
Proof.
  intros Ht m j Hj Hx Hs. cbn. apply told_other; [set_solver|]. apply (Ht m j); [done|set_solver|done].
Qed.

Lemma told_live_mono q sh x y : (forall i, i ∈ x -> i ∈ y) -> told_live q sh x -> told_live q sh y.
Proof. intros H Ht m i Hi Hy. apply (Ht m i); [done|]. naive_solver. Qed.

(** A report that the service is there. *)
Lemma Inv_report q sh i s f d c : Inv q sh -> SERVICE_IS_READY (si_service s) = true ->
  c = MDNS_DISCOVERED \/ (c = MDNS_UPDATED /\ told (calls q) i) ->
  Inv (q_call q (mkCallback f d i s c)) sh /\ told (calls (q_call q (mkCallback f d i s c))) i.
Proof.
  intros [W Hw Hp Ht] Hr Hc. assert (told (calls (q_call q (mkCallback f d i s c))) i) as Hq.
  { apply (told_now _ (mkCallback f d i s c)). cbn. naive_solver. }
  split; [|done]. constructor; [by apply wf_call|done| |].
  - cbn. apply protocol_snoc; [done|]. unfold allowed. cbn. naive_solver.
  - intros m j Hj _ Hst. destruct (decide (j = i)) as [->|Hji]; [done|].
    cbn. apply told_other; [done|]. apply (Ht m j); [done|set_solver|done].
Qed.

(** A state change of an instance that was reported. *)
Lemma Inv_state q sh i s st : Inv q sh -> sinsts q !! i = Some s -> told (calls q) i ->
  Inv (q_sinsts q (<[i := with_si_state s st]> (sinsts q))) sh.
Proof.
  intros [W Hw Hp Ht] Hs Hq. constructor; [by apply wf_sinst with s|done|done|].
  intros m j Hj _ Hst. cbn in *. destruct (decide (j = i)) as [->|Hji]; [done|].
  apply (Ht m j); [done|set_solver|]. unfold lk in *. by rewrite list_lookup_insert_ne in Hst by done.
Qed.

(** A report that the service of an instance that is not live any more is gone. *)
Lemma Inv_gone q sh i s f d : Inv q sh -> (forall m, i ∉ l_sinsts sh (Some m)) -> told (calls q) i ->
  Inv (q_call q (mkCallback f d i s MDNS_DISAPPEARED)) sh.
Proof.
  intros [W Hw Hp Ht] Hi Hq. constructor; [by apply wf_call|done| |].
  - apply protocol_snoc; [done|]. right. right. left. done.
  - intros m j Hj _ Hst. cbn. apply told_other; [cbn; intros ->; by apply (Hi m)|]. apply (Ht m j); [done|set_solver|done].
Qed.

Lemma DISAPPEARED_inv q sh i q' : Inv q sh -> (forall m, i ∉ l_sinsts sh (Some m)) -> told (calls q) i ->
  DO_CALLBACK i MDNS_DISAPPEARED q = Ok (tt, q') -> Inv q' sh.
Proof. intros HI Hi Hq (s & f & d & _ & ->)%DO_CALLBACK_inv. by apply Inv_gone. Qed.

(** ** Moving an instance to an A record *)

Definition sh_leave (sh : shape) (i : nat) (oa : option nat) : shape :=
  match oa with None => sh | Some old => sh_asinsts sh old (rem i (l_asinsts sh old)) end.

Definition sh_join (sh : shape) (i : nat) (oa : option nat) (a : nat) : shape :=
  sh_asinsts (sh_leave sh i oa) a (i :: l_asinsts (sh_leave sh i oa) a).

(** The service of an instance that gets the A record [ar]. *)
Definition joined_service (s : service) (ar : arec) : service :=
  if bool_decide (ar_state ar = AREC_STATE_RESOLVED)
  then service_with_flags (service_with_ipaddr s (ar_ipaddr ar)) (Z.lor (s_flags s) SERVICE_HAS_A_FLAG)
  else service_with_flags s (Z.land (s_flags s) (Z.lnot SERVICE_HAS_A_FLAG)).

Section Join.
Context (ar mo : nat -> option (option nat)) (sh : shape) (m i a : nat) (oa : option nat).
Context (X : cross ar mo sh) (Hi : i ∈ l_sinsts sh (Some m)) (Ho : ar i = Some oa) (Ha : a ∈ l_arecs sh true).

Lemma leave_asinsts b x : x ∈ l_asinsts (sh_leave sh i oa) b <-> x <> i /\ x ∈ l_asinsts sh b.
Proof using X Ho.
  split.
  - unfold sh_leave. intros H. destruct oa as [old|]; cbn in H.
    + apply elem_fupd in H as [(-> & [? ?]%elem_rem)|(Hne & Hx)]; [done|]. split; [|done]. intros ->.
      apply (x_arec _ _ _ X) in Hx as [_ Hx]. congruence.
    + split; [|done]. intros ->. apply (x_arec _ _ _ X) in H as [_ H]. congruence.
  - intros [H1 H2]. unfold sh_leave. destruct oa as [old|]; [|done]. cbn. rewrite elem_fupd, elem_rem.
    destruct (decide (b = old)) as [->|]; [left|right]; naive_solver.
Qed.

Lemma join_asinsts b x : x ∈ l_asinsts (sh_join sh i oa a) b <-> (x = i /\ b = a) \/ (x <> i /\ x ∈ l_asinsts sh b).
Proof using X Ho.
  unfold sh_join. cbn. rewrite elem_fupd, elem_of_cons, !leave_asinsts.
  destruct (decide (b = a)) as [->|], (decide (x = i)) as [->|]; tauto.
Qed.

Lemma join_rest : l_sinsts (sh_join sh i oa a) = l_sinsts sh /\ l_smons (sh_join sh i oa a) = l_smons sh /\
  l_arecs (sh_join sh i oa a) = l_arecs sh.
Proof using. clear. unfold sh_join, sh_leave. by destruct oa. Qed.

Lemma cross_join ar' : ar' i = Some (Some a) -> (forall j, j <> i -> ar' j = ar j) ->
  cross ar' mo (sh_join sh i oa a).
Proof.
  intros E1 E2. destruct join_rest as (R1 & R2 & R3). constructor; rewrite ?R1, ?R2, ?R3.
  - apply (x_smon _ _ _ X).
  - intros b x. rewrite join_asinsts, (x_arec _ _ _ X). destruct (decide (x = i)) as [->|Hx].
    + rewrite E1. naive_solver.
    + rewrite E2 by done. naive_solver.
  - intros b x [[-> ->]|[_ Hx]]%join_asinsts; [done|]. by apply (x_active _ _ _ X b x).
  - apply (x_sinsts _ _ _ X).
  - apply (x_arecs _ _ _ X).
Qed.
End Join.

(** Cleaning up a live instance. *)
Section Fuel.
Context (fuel : nat) (Hfuel : (CACHE <= fuel)%nat).

Lemma cleanup_told q sh m i s x : wf q sh -> told_live q sh x -> i ∈ l_sinsts sh (Some m) -> sinsts q !! i = Some s ->
  exists q', cleanup_sinst fuel i q = Ok (tt, q') /\ wf q' (sh_cleanup sh m i (si_arec s)) /\
    told_live q' (sh_cleanup sh m i (si_arec s)) (rem i x) /\
    core q' = core (q_sinsts q (<[i := with_next_refresh s UINT32_MAX]> (sinsts q))).
Proof using Hfuel.
  intros W Ht Hi Hs. destruct (cleanup_sinst_run fuel Hfuel q sh m i s W Hi Hs) as (q' & E & W' & C).
  exists q'. split; [done|]. split; [done|]. split; [|done].
  pose proof (fam_disjoint _ _ _ (link_sinsts _ _ (wf_linked _ _ W))) as Ds.
  intros m' j [Hji Hj]%cleanup_live Hx; [|done|done]. intros Hst.
  assert (calls q' = calls q) as -> by (by apply (f_equal calls) in C).
  apply (Ht m' j); [done|rewrite elem_rem in Hx; naive_solver|].
  rewrite (core_lk_s si_state _ _ j) in Hst by done.
  unfold lk in *. cbn in Hst. by rewrite list_lookup_insert_ne in Hst by done.
Qed.

Lemma cleanup_Inv q sh m i s x : wf q sh -> watched sh -> told_live q sh x ->
  i ∈ l_sinsts sh (Some m) -> sinsts q !! i = Some s ->
  exists q', cleanup_sinst fuel i q = Ok (tt, q') /\ wf q' (sh_cleanup sh m i (si_arec s)) /\
    watched (sh_cleanup sh m i (si_arec s)) /\ told_live q' (sh_cleanup sh m i (si_arec s)) (rem i x) /\
    core q' = core (q_sinsts q (<[i := with_next_refresh s UINT32_MAX]> (sinsts q))).
Proof using Hfuel.
  intros W Hw Ht Hi Hs. destruct (cleanup_told q sh m i s x W Ht Hi Hs) as (q' & E & W' & Ht' & C).
  exists q'. split; [done|]. split; [done|]. split; [|done].
  pose proof (fam_disjoint _ _ _ (link_sinsts _ _ (wf_linked _ _ W))) as Ds. by apply watched_cleanup.
Qed.

(** The two parts of [set_arec] around the insertion. *)
Lemma leave_run q sh i a s : linked q sh -> length (arecs q) = S CACHE ->
  (forall a, (length (l_asinsts sh a) <= CACHE)%nat) ->
  (forall old, si_arec s = Some old -> i ∈ l_asinsts sh old /\ (old < CACHE)%nat) ->
  exists ret q', (match si_arec s with
            | None => mret 0
            | Some old => remove_arec_sinsts fuel old i;; mret (if bool_decide (old = a) then 0 else 1)
            end : Q Z) q = Ok (ret, q') /\ (ret = 0 \/ ret = 1) /\
    linked q' (sh_leave sh i (si_arec s)) /\ core q' = core q.
Proof using Hfuel.
  intros HL Hlen Hs Ho. destruct (si_arec s) as [old|]; [|exists 0, q; auto].
  destruct (Ho old eq_refl) as [Hi Hlt].
  assert (exists ar, arecs q !! old = Some ar) as [ar Har] by (apply lookup_lt_is_Some; lia).
  destruct (remove_arec_sinsts_run fuel _ _ HL old ar i Har Hi) as (q' & E & HL' & C); [specialize (Hs old); lia|].
  eexists _, q'. split; [by qstep E|]. split; [by case_bool_decide; auto|]. done.
Qed.

Lemma joined_run q i s ar ret : sinsts q !! i = Some s -> ret = 0 \/ ret = 1 ->
  exists ret', (if bool_decide (ar_state ar = AREC_STATE_RESOLVED) then
           s ← get_sinst i;
           ret ← (if negb (s_ipaddr (si_service s) =? ar_ipaddr ar) then
                    upd_sinst i (fun s => with_service s (service_with_ipaddr (si_service s) (ar_ipaddr ar)));;
                    mret 1
                  else mret ret);
           upd_sinst i (fun s => with_service s
             (service_with_flags (si_service s) (Z.lor (s_flags (si_service s)) SERVICE_HAS_A_FLAG)));;
           mret ret
         else
           upd_sinst i (fun s => with_service s
             (service_with_flags (si_service s) (Z.land (s_flags (si_service s)) (Z.lnot SERVICE_HAS_A_FLAG))));;
           mret ret) q =
    Ok (ret', q_sinsts q (<[i := with_service s (joined_service (si_service s) ar)]> (sinsts q))) /\
    (ret' = 0 \/ ret' = 1).
Proof using.
  intros Hs Hret. unfold joined_service. case_bool_decide as Hst.
  - qstep (get_sinst_run _ _ _ Hs). destruct (Z.eqb_spec (s_ipaddr (si_service s)) (ar_ipaddr ar)) as [E|E]; cbn [negb].
    + exists ret. split; [|done]. qstep (eq_refl : (mret ret : Q Z) q = Ok (ret, q)).
      qstep (upd_sinst_run _ _ (fun s => with_service s
        (service_with_flags (si_service s) (Z.lor (s_flags (si_service s)) SERVICE_HAS_A_FLAG))) _ Hs).
      rewrite <- E. unfold mret, Q_ret. by destruct s as [? []].
    + exists 1. split; [|auto].
      set (f1 := fun s => with_service s (service_with_ipaddr (si_service s) (ar_ipaddr ar))).
      set (f2 := fun s => with_service s
        (service_with_flags (si_service s) (Z.lor (s_flags (si_service s)) SERVICE_HAS_A_FLAG))).
      assert (sinsts (q_sinsts q (<[i := f1 s]> (sinsts q))) !! i = Some (f1 s)) as Hs1.
      { cbn. apply list_lookup_insert_eq. by eapply lookup_lt_Some. }
      rewrite (bind_run _ _ q 1 (q_sinsts q (<[i := f1 s]> (sinsts q)))).
      2: { qstep (upd_sinst_run _ _ f1 _ Hs). done. }
      qstep (upd_sinst_run _ _ f2 _ Hs1). unfold mret, Q_ret. cbn [sinsts q_sinsts].
      rewrite list_insert_insert_eq. by destruct s as [? []].
  - exists ret. split; [|done]. by qstep (upd_sinst_run _ _ (fun s => with_service s
      (service_with_flags (si_service s) (Z.land (s_flags (si_service s)) (Z.lnot SERVICE_HAS_A_FLAG)))) _ Hs).
Qed.

Lemma joined_erase s ar ar' : erase_a ar' = erase_a ar -> joined_service s ar' = joined_service s ar.
Proof using.
  intros E. unfold joined_service. assert (ar_state ar' = ar_state ar) as -> by (by apply (f_equal ar_state) in E).
  assert (ar_ipaddr ar' = ar_ipaddr ar) as -> by (by apply (f_equal ar_ipaddr) in E). done.
Qed.

(** [set_arec] on a live instance and an active record: it moves the instance to
    the record's list, and the instance gets the record's address. *)
Lemma set_arec_run q sh m i s a ar : Inv q sh -> i ∈ l_sinsts sh (Some m) -> sinsts q !! i = Some s ->
  a ∈ l_arecs sh true -> arecs q !! a = Some ar ->
  exists ret q', set_arec fuel i a q = Ok (ret, q') /\ (ret = 0 \/ ret = 1) /\ Inv q' (sh_join sh i (si_arec s) a) /\
    core q' = core (q_sinsts q (<[i := with_arec (with_service s (joined_service (si_service s) ar)) (Some a)]>
                (sinsts q))).
Proof using Hfuel.
  intros [W Hw Hp Ht] Hi Hs Ha Har. pose proof (wf_linked _ _ W) as HL.
  destruct (leave_run q sh i a s HL (wf_arecs _ _ W) (asinsts_short _ _ W)) as (r1 & q1 & E1 & Hr1 & HL1 & C1).
  { intros old Eo. destruct (live_arec _ _ W m i s old Hi Hs Eo) as [H1 H2]. split; [done|].
    apply (x_arecs _ _ _ (wf_cross _ _ W)). eauto. }
  destruct (core_sinst _ _ _ _ C1 Hs) as (s1 & Hs1 & Es1). destruct (core_arec _ _ _ _ C1 Har) as (ar1 & Har1 & Ea1).
  destruct (joined_run q1 i s1 ar1 r1 Hs1 Hr1) as (r2 & E2 & Hr2).
  set (s2 := with_service s1 (joined_service (si_service s1) ar1)) in *.
  set (q2 := q_sinsts q1 (<[i := s2]> (sinsts q1))) in *.
  assert (sinsts q2 !! i = Some s2) as Hs2 by (cbn; apply list_lookup_insert_eq; by eapply lookup_lt_Some).
  assert (linked q2 (sh_leave sh i (si_arec s))) as HL2 by (by apply linked_sinst with s1).
  destruct (insert_arec_sinsts_run _ _ HL2 a ar1 i s2 Har1 Hs2) as (q3 & E3 & HL3 & C3).
  { intros k. rewrite (leave_asinsts _ _ _ _ _ (wf_cross _ _ W)); [by intros [? _]|]. unfold lk. by rewrite Hs. }
  destruct (core_sinst _ _ _ _ C3 Hs2) as (s3 & Hs3 & Es3).
  exists r2, (q_sinsts q3 (<[i := with_arec s3 (Some a)]> (sinsts q3))). split.
  { unfold set_arec. qstep (get_sinst_run _ _ _ Hs). qstep E1. qstep (get_arec_run _ _ _ Har1). qstep E2. qstep E3.
    by qstep (upd_sinst_run _ _ (fun s => with_arec s (Some a)) _ Hs3). }
  assert (core (q_sinsts q3 (<[i := with_arec s3 (Some a)]> (sinsts q3))) =
    core (q_sinsts q (<[i := with_arec (with_service s (joined_service (si_service s) ar)) (Some a)]> (sinsts q)))) as C.
  { transitivity (core (q_sinsts q2 (<[i := with_arec s2 (Some a)]> (sinsts q2)))).
    - apply core_upd_sinst; [done|]. by apply (f_equal (fun s => with_arec s (Some a))) in Es3.
    - unfold q2. rewrite q_sinsts_twice. apply core_upd_sinst; [done|]. unfold s2.
      rewrite (joined_erase _ ar ar1 Ea1). replace (si_service s1) with (si_service s) by (by apply (f_equal si_service) in Es1).
      by apply (f_equal (fun x => with_arec (with_service x (joined_service (si_service s) ar)) (Some a))) in Es1. }
  split; [done|]. split; [|done]. constructor.
  - constructor.
    + by apply linked_sinst with s3.
    + set (q4 := q_sinsts q3 (<[i := with_arec s3 (Some a)]> (sinsts q3))) in *.
      apply cross_ext with (ar := lk si_arec (sinsts q4)) (mo := lk si_smon (sinsts q)); [done| |].
      2: apply (cross_join (lk si_arec (sinsts q)) _ _ m i a (si_arec s) (wf_cross _ _ W)); [done| |done| |].
      * intros j. rewrite (core_lk_upd si_smon _ _ _ _ _ _ (fun _ => eq_refl) C Hs). destruct (decide (j = i)) as [Hj|]; [|done].
        subst j. unfold lk. by rewrite Hs.
      * unfold lk. by rewrite Hs.
      * rewrite (core_lk_upd si_arec _ _ _ _ _ _ (fun _ => eq_refl) C Hs). by rewrite decide_True.
      * intros j Hj. rewrite (core_lk_upd si_arec _ _ _ _ _ _ (fun _ => eq_refl) C Hs). by rewrite decide_False.
    + destruct (core_length _ _ C) as (-> & _ & _). cbn. rewrite length_insert. apply (wf_sinsts _ _ W).
    + destruct (core_length _ _ C) as (_ & -> & _). apply (wf_arecs _ _ W).
    + destruct (core_length _ _ C) as (_ & _ & ->). apply (wf_smons _ _ W).
  - destruct Hw as [Hw1 Hw2]. destruct (join_rest sh i a (si_arec s)) as (R1 & R2 & R3).
    constructor; rewrite ?R1, ?R2; done.
  - apply (f_equal calls) in C. cbn in C |- *. by rewrite C.
  - intros m' j. destruct (join_rest sh i a (si_arec s)) as (-> & _ & _). intros Hj Hx Hst.
    assert (calls (q_sinsts q3 (<[i := with_arec s3 (Some a)]> (sinsts q3))) = calls q) as -> by (by apply (f_equal calls) in C).
    apply (Ht m' j); [done|done|]. rewrite (core_lk_upd si_state _ _ _ _ _ _ (fun _ => eq_refl) C Hs) in Hst.
    destruct (decide (j = i)) as [Hj'|]; [|done]. subst j. unfold lk. by rewrite Hs.
Qed.

(** What became of the instance [i]: it is still live, or it was cleaned up. *)
Definition kept_or_gone (q' : qstate) (sh : shape) (m i : nat) (s : service_instance) (gone : Prop) : Prop :=
  lk si_state (sinsts q') i = Some (si_state s) /\
  ((~ gone /\ Inv q' sh) \/ (gone /\ Inv q' (sh_cleanup sh m i (si_arec s)))).

Lemma cleanup_kept q sh m i s q' : Inv q sh -> i ∈ l_sinsts sh (Some m) -> sinsts q !! i = Some s ->
  cleanup_sinst fuel i q = Ok (tt, q') ->
  Inv q' (sh_cleanup sh m i (si_arec s)) /\ lk si_state (sinsts q') i = Some (si_state s) /\ calls q' = calls q.
Proof using Hfuel.
  intros [W Hw Hp Ht] Hi Hs E.
  destruct (cleanup_Inv q sh m i s [] W Hw Ht Hi Hs) as (q1 & E1 & W1 & Hw1 & Ht1 & C1).
  rewrite E1 in E. injection E as ->. assert (calls q' = calls q) as Ec by (by apply (f_equal calls) in C1).
  split; [|split; [|done]].
  - constructor; [done|done|by rewrite Ec|done].
  - rewrite (core_lk_upd si_state _ _ _ _ _ _ (fun _ => eq_refl) C1 Hs). by rewrite decide_True.
Qed.

Lemma not_live_cleanup q sh m i oa : wf q sh -> i ∈ l_sinsts sh (Some m) ->
  forall m', i ∉ l_sinsts (sh_cleanup sh m i oa) (Some m').
Proof using.
  intros W Hi m' H. apply cleanup_live in H as [? _]; [done|apply (fam_disjoint _ _ _ (link_sinsts _ _ (wf_linked _ _ W)))|done].
Qed.

(** An assignment to a live instance. *)
Lemma upd_sinst_inv q i f q' : upd_sinst i f q = Ok (tt, q') ->
  exists s, sinsts q !! i = Some s /\ q' = q_sinsts q (<[i := f s]> (sinsts q)).
Proof using.
  unfold upd_sinst. intros (s & q1 & [Hs ->]%get_sinst_inv & H)%bind_inv. injection H as <-. eauto.
Qed.

(** Assignments that keep the links, the references and the state. *)
Definition quiet (f : service_instance -> service_instance) : Prop := forall s,
  list_item (f s) = list_item s /\ alist_item (f s) = alist_item s /\ si_arec (f s) = si_arec s /\
  si_smon (f s) = si_smon s /\ si_state (f s) = si_state s.

Lemma upd_quiet q sh i f q' s : quiet f -> Inv q sh -> sinsts q !! i = Some s -> upd_sinst i f q = Ok (tt, q') ->
  Inv q' sh /\ sinsts q' !! i = Some (f s) /\ calls q' = calls q.
Proof using.
  intros Hq HI Hs (s' & Hs' & ->)%upd_sinst_inv. rewrite Hs in Hs'. injection Hs' as <-.
  destruct (Hq s) as (E1 & E2 & E3 & E4 & E5). split; [by apply Inv_sinst with s|]. split; [|done].
  cbn. apply list_lookup_insert_eq. by eapply lookup_lt_Some.
Qed.

Lemma apply_elapsed_inv q sh m i s elapsed ret q' : Inv q sh -> i ∈ l_sinsts sh (Some m) -> sinsts q !! i = Some s ->
  apply_elapsed fuel i elapsed q = Ok (ret, q') ->
  (ret = -1 \/ ret = 0 \/ ret = 1) /\ calls q' = calls q /\ kept_or_gone q' sh m i s (ret = -1).
Proof using Hfuel.
  intros HI Hi Hs H. unfold apply_elapsed in H. apply bind_inv in H as ([] & q1 & H1 & H).
  eapply upd_quiet in H1 as (HI1 & Hs1 & C1); [|by intros []|done|done].
  apply bind_inv in H as (s1 & q2 & [Hs2 ->]%get_sinst_inv & H). rewrite Hs1 in Hs2. injection Hs2 as <-.
  set (s1 := with_srv_times _ _ _ _ _) in *.
  destruct (negb (next_refresh s1 =? 0)).
  { injection H as <- <-. split; [auto|]. split; [done|]. split; [unfold lk; by rewrite Hs1|]. left. split; [lia|done]. }
  destruct (ttl_percent s1 <? 5).
  { apply bind_inv in H as ([] & q2 & H2 & H). injection H as <- <-.
    eapply cleanup_kept in H2 as (HI2 & Est & C2); [|done|done|done].
    split; [auto|]. split; [congruence|]. split; [done|]. right. done. }
  apply bind_inv in H as ([] & q2 & H2 & H). eapply upd_quiet in H2 as (HI2 & Hs2 & C2); [|by intros []|done|done].
  apply bind_inv in H as ([] & q3 & H3 & H). eapply upd_quiet in H3 as (HI3 & Hs3 & C3); [|by intros []|done|done].
  apply bind_inv in H as (msg & q4 & [= <- <-] & H). apply bind_inv in H as ([e msg'] & q5 & [_ ->]%lift_inv & H).
  apply bind_inv in H as ([] & q6 & [= <-] & H). injection H as <- <-.
  split; [destruct (negb (e =? 0)); auto|]. split; [cbn; congruence|]. split; [cbn; unfold lk; by rewrite Hs3|].
  left. split; [destruct (negb (e =? 0)); lia|by apply Inv_tx].
Qed.

(** *** A new A record *)

Definition sh_activate (sh : shape) (a : nat) (l : list nat) : shape :=
  let sh := sh_arecs sh false l in sh_arecs sh true (a :: l_arecs sh true).

Lemma free_arec_empty q sh a : wf q sh -> a ∈ l_arecs sh false -> l_asinsts sh a = [].
Proof using.
  clear Hfuel fuel.
  intros W Ha. destruct (l_asinsts sh a) as [|x l] eqn:E; [done|]. exfalso.
  assert (a ∈ l_arecs sh true) as Ht by (apply (x_active _ _ _ (wf_cross _ _ W) a x); rewrite E; set_solver).
  by pose proof (fam_disjoint _ _ _ (link_arecs _ _ (wf_linked _ _ W)) _ _ _ Ha Ht).
Qed.

Lemma activate_elem sh a l k x : l_arecs sh false = a :: l ->
  x ∈ l_arecs (sh_activate sh a l) k -> x ∈ l_arecs sh k \/ (k = true /\ x = a).
Proof using.
  clear Hfuel fuel.
  intros E. unfold sh_activate. cbn. rewrite elem_fupd. destruct k.
  - intros [(_ & H)|[? _]]; [|done]. rewrite fupd_ne in H by done. apply elem_of_cons in H as [->|H]; auto.
  - intros [[? _]|(_ & H)]; [done|]. rewrite fupd_eq in H. left. rewrite E. set_solver.
Qed.

Lemma cross_activate ar mo sh a l : cross ar mo sh -> l_arecs sh false = a :: l -> cross ar mo (sh_activate sh a l).
Proof using.
  clear Hfuel fuel.
  intros X E. assert (l_arecs (sh_activate sh a l) true = a :: l_arecs sh true) as Et.
  { unfold sh_activate. cbn. by rewrite fupd_eq, fupd_ne. }
  assert (l_arecs (sh_activate sh a l) false = l) as Ef.
  { unfold sh_activate. cbn. by rewrite fupd_ne, fupd_eq. }
  constructor; cbn [l_sinsts l_asinsts sh_activate sh_arecs]; [apply (x_smon _ _ _ X)|apply (x_arec _ _ _ X)| |apply (x_sinsts _ _ _ X)|].
  - intros b x Hx. rewrite Et. apply elem_of_cons. right. by apply (x_active _ _ _ X b x).
  - intros b. rewrite <- (x_arecs _ _ _ X). split.
    + intros [[] H]; [rewrite Et in H; apply elem_of_cons in H as [->|H]|rewrite Ef in H].
      * exists false. rewrite E. set_solver.
      * eauto.
      * exists false. rewrite E. set_solver.
    + intros [[] H]; [exists true; rewrite Et; set_solver|]. rewrite E in H. apply elem_of_cons in H as [->|H].
      * exists true. rewrite Et. set_solver.
      * exists false. by rewrite Ef.
Qed.

(** The record is taken off the free list, cleared, named and made active. *)
(** The record is taken off the free list, cleared, named and made active. *)
Lemma linked_free_arec q sh a ar ar' : linked q sh -> arecs q !! a = Some ar -> (forall k, a ∉ l_arecs sh k) ->
  l_asinsts sh a = [] -> ar_sinsts ar' = None -> linked (q_arecs q (<[a := ar']> (arecs q))) sh.
Proof using.
  clear Hfuel fuel. intros [H1 H2 H3 H4] Ha Hk He E. constructor; cbn; [done|done| |].
  - eapply family_ext; [| | |exact H3]; [done| |done]. intros k. unfold h_asinsts at 1. cbn.
    destruct (decide (k = a)) as [->|Hka]; [|by rewrite list_lookup_insert_ne].
    rewrite list_lookup_insert_eq by (by eapply lookup_lt_Some). cbn. rewrite E.
    pose proof (fam_chain _ _ _ H3 a) as Hc. by rewrite He in Hc.
  - eapply family_mem; [| |exact H4]; [|done]. intros k j Hj. unfold nexts, lk.
    rewrite list_lookup_insert_ne; [done|]. intros ->. by apply (Hk k).
Qed.

Lemma new_arec_inv q sh a l (r : res (Z * list Z)) (c : Q Z) ret q' : Inv q sh -> l_arecs sh false = a :: l ->
  (remove_head_arecs_free;;
   upd_arec a (fun _ => zero_arec);;
   insert_arecs_active a;;
   '(_, n) ← lift r;
   upd_arec a (fun ar => arec_with_fqdn ar n);;
   c) q = Ok (ret, q') ->
  exists q1, c q1 = Ok (ret, q') /\
    Inv q1 (sh_activate sh a l) /\ erase_s <$> sinsts q1 = erase_s <$> sinsts q /\ calls q1 = calls q /\
    exists ar, arecs q1 !! a = Some ar.
Proof using.
  clear Hfuel fuel. intros [W Hw Hp Ht] El H. pose proof (wf_linked _ _ W) as HL.
  assert (a ∈ l_arecs sh false) as Hf by (rewrite El; set_solver).
  destruct (arec_cell _ _ W false a Hf) as [ar Har].
  destruct (remove_head_arecs_free_run _ _ HL a l El) as (q1 & E1 & HL1 & C1).
  destruct (core_arec _ _ _ _ C1 Har) as (ar1 & Har1 & _).
  apply bind_inv in H as ([] & q1' & E1' & H). rewrite E1 in E1'. injection E1' as <-.
  apply bind_inv in H as ([] & q2 & H2 & H). rewrite (upd_arec_run _ _ _ _ Har1) in H2. injection H2 as <-.
  set (q2 := q_arecs q1 (<[a := zero_arec]> (arecs q1))) in *.
  assert (forall k, a ∉ l_arecs (sh_arecs sh false l) k) as Hk.
  { intros k. cbn. rewrite elem_fupd. intros [[-> Hx]|[Hk Hx]].
    - pose proof (fam_nodup _ _ _ (link_arecs _ _ HL) false) as Hd. rewrite El in Hd.
      by apply NoDup_cons_1_1 in Hd.
    - destruct k; [|done]. by pose proof (fam_disjoint _ _ _ (link_arecs _ _ HL) _ _ _ Hf Hx). }
  assert (linked q2 (sh_arecs sh false l)) as HL2.
  { eapply linked_free_arec; [exact HL1|exact Har1|exact Hk|exact (free_arec_empty q sh a W Hf)|done]. }
  assert (arecs q2 !! a = Some zero_arec) as Har2 by (cbn; apply list_lookup_insert_eq; by eapply lookup_lt_Some).
  destruct (insert_arecs_active_run _ _ HL2 a _ Har2 Hk) as (q3 & E3 & HL3 & C3).
  apply bind_inv in H as ([] & q3' & E3' & H). rewrite E3 in E3'. injection E3' as <-.
  destruct (core_arec _ _ _ _ C3 Har2) as (ar3 & Har3 & _).
  apply bind_inv in H as ([e n] & q4 & [_ ->]%lift_inv & H).
  apply bind_inv in H as ([] & q5 & H5 & H). rewrite (upd_arec_run _ _ _ _ Har3) in H5. injection H5 as <-.
  set (q4 := q_arecs q3 (<[a := arec_with_fqdn ar3 n]> (arecs q3))) in *. exists q4. split; [done|].
  assert (erase_s <$> sinsts q4 = erase_s <$> sinsts q) as Es.
  { apply (f_equal sinsts) in C1, C3. cbn in *. congruence. }
  assert (calls q4 = calls q) as Ec by (apply (f_equal calls) in C1, C3; cbn in *; congruence).
  split; [|split; [done|split; [done|]]].
  - constructor; [|destruct Hw as [Hw1 Hw2]; by constructor|by rewrite Ec|].
    + destruct (core_length _ _ C1) as (L1 & L2 & L3), (core_length _ _ C3) as (L1' & L2' & L3'). cbn in L1', L2', L3'.
      constructor; [by apply linked_arec with ar3| | | |].
      * eapply cross_ext; [intros j; by apply lk_erase with (l := sinsts q)|
          intros j; by apply lk_erase with (l := sinsts q)|]. apply cross_activate; [apply (wf_cross _ _ W)|done].
      * cbn. rewrite L1', L1. apply (wf_sinsts _ _ W).
      * cbn. rewrite length_insert, L2', length_insert, L2. apply (wf_arecs _ _ W).
      * cbn. rewrite L3', L3. apply (wf_smons _ _ W).
    + intros m j Hj Hx. rewrite Ec. rewrite (lk_erase si_state (sinsts q)) by done. by apply (Ht m j).
  - eexists. cbn. apply list_lookup_insert_eq. by eapply lookup_lt_Some.
Qed.

(** *** Searches return elements of the lists *)

Lemma find_arec_inv q sh m n r q' : linked q sh -> find_arec fuel m n q = Ok (r, q') ->
  q' = q /\ forall a, r = Some a -> a ∈ l_arecs sh true.
Proof using.
  clear Hfuel. intros HL H. apply bind_inv in H as (q1 & q2 & [= <- <-] & H). apply lift_inv in H as [H ->]. split; [done|].
  intros a ->. by destruct (slist_find_ok _ _ _ _ _ _ _ (fam_chain _ _ _ (link_arecs _ _ HL) true) H) as (x & Hx & _).
Qed.

Lemma find_service_monitor_inv q sh m n r q' : linked q sh -> find_service_monitor fuel m n q = Ok (r, q') ->
  q' = q /\ forall x, r = Some x -> x ∈ l_smons sh true.
Proof using.
  clear Hfuel. intros HL H. apply bind_inv in H as (q1 & q2 & [= <- <-] & H). apply lift_inv in H as [H ->]. split; [done|].
  intros a ->. by destruct (slist_find_ok _ _ _ _ _ _ _ (fam_chain _ _ _ (link_smons _ _ HL) true) H) as (x & Hx & _).
Qed.

Lemma find_own_monitor_inv q sh n r q' : linked q sh -> find_own_monitor fuel n q = Ok (r, q') ->
  q' = q /\ forall x, r = Some x -> x ∈ l_smons sh true.
Proof using.
  clear Hfuel. intros HL H. apply bind_inv in H as (q1 & q2 & [= <- <-] & H). apply lift_inv in H as [H ->]. split; [done|].
  intros a ->. by destruct (slist_find_ok _ _ _ _ _ _ _ (fam_chain _ _ _ (link_smons _ _ HL) true) H) as (x & Hx & _).
Qed.

Lemma find_service_instance_inv q sh m msg n r q' : linked q sh -> find_service_instance fuel m msg n q = Ok (r, q') ->
  q' = q /\ forall i, r = Some i -> i ∈ l_sinsts sh (Some m).
Proof using.
  clear Hfuel. intros HL H. apply bind_inv in H as (sm & q1 & [Hm ->]%get_smon_inv & H).
  apply bind_inv in H as (q1 & q2 & [= <- <-] & H). apply lift_inv in H as [H ->]. split; [done|].
  pose proof (fam_chain _ _ _ (link_sinsts _ _ HL) (Some m)) as Hc. cbn in Hc. rewrite Hm in Hc.
  intros i ->. by destruct (slist_find_ok _ _ _ _ _ _ _ Hc H) as (x & Hx & _).
Qed.

(** *** An SRV record *)

(** The shape changes in the A record lists only, and uses up at most one free
    record. *)
Definition arecs_moved (sh sh' : shape) : Prop :=
  l_sinsts sh' = l_sinsts sh /\ l_smons sh' = l_smons sh /\
  (length (l_arecs sh false) <= S (length (l_arecs sh' false)))%nat.

Lemma arecs_moved_refl sh : arecs_moved sh sh.
Proof using. clear Hfuel fuel. split; [done|]. split; [done|]. lia. Qed.

Lemma moved_join sh sh' i oa a : arecs_moved sh sh' -> arecs_moved sh (sh_join sh' i oa a).
Proof using.
  intros (E1 & E2 & E3). destruct (join_rest sh' i a oa) as (R1 & R2 & R3). unfold arecs_moved. by rewrite R1, R2, R3.
Qed.

Lemma moved_activate sh a l : l_arecs sh false = a :: l -> arecs_moved sh (sh_activate sh a l).
Proof using.
  clear Hfuel fuel. intros E. split; [done|]. split; [done|]. unfold sh_activate. cbn. rewrite fupd_ne, fupd_eq, E by done. cbn. lia.
Qed.

(** [set_arec] when it is known to have returned. *)
Lemma set_arec_inv q sh m i s a ret q' : Inv q sh -> i ∈ l_sinsts sh (Some m) -> sinsts q !! i = Some s ->
  a ∈ l_arecs sh true -> set_arec fuel i a q = Ok (ret, q') ->
  (ret = 0 \/ ret = 1) /\ Inv q' (sh_join sh i (si_arec s) a) /\ calls q' = calls q /\
  exists s', sinsts q' !! i = Some s' /\ si_state s' = si_state s /\ si_arec s' = Some a.
Proof using Hfuel.
  intros HI Hi Hs Ha E. destruct (arec_cell _ _ (inv_wf _ _ HI) true a Ha) as [ar Har].
  destruct (set_arec_run q sh m i s a ar HI Hi Hs Ha Har) as (r & q1 & E1 & Hr & HI1 & C1).
  rewrite E1 in E. injection E as -> ->. split; [done|]. split; [done|]. split; [by apply (f_equal calls) in C1|].
  pose proof (core_lk_upd si_state _ _ _ _ _ i (fun _ => eq_refl) C1 Hs) as E1'. rewrite decide_True in E1' by done.
  pose proof (core_lk_upd si_arec _ _ _ _ _ i (fun _ => eq_refl) C1 Hs) as E2'. rewrite decide_True in E2' by done.
  unfold lk in *. destruct (sinsts q' !! i) as [s'|]; [|done]. exists s'. cbn in *. naive_solver.
Qed.

Lemma update_srv_inv q sh m i s rr elapsed ret q' : Inv q sh -> i ∈ l_sinsts sh (Some m) -> sinsts q !! i = Some s ->
  si_arec s = None \/ l_arecs sh false <> [] ->
  update_srv fuel i rr elapsed q = Ok (ret, q') ->
  calls q' = calls q /\ lk si_state (sinsts q') i = Some (si_state s) /\
  ((ret = -1 /\ Inv q' (sh_cleanup sh m i (si_arec s))) \/
   ((ret = 0 \/ ret = 1) /\ exists sh', Inv q' sh' /\ arecs_moved sh sh')).
Proof using Hfuel.
  intros HI Hi Hs Hroom H. unfold update_srv in H. destruct (r_ttl rr =? 0).
  { apply bind_inv in H as ([] & q1 & H1 & H). injection H as <- <-.
    eapply cleanup_kept in H1 as (HI1 & Est & C1); [|done|done|done]. auto. }
  apply bind_inv in H as (msg & q0 & [= <- <-] & H).
  apply bind_inv in H as (s0 & q0 & [Hs0 ->]%get_sinst_inv & H). rewrite Hs in Hs0. injection Hs0 as <-.
  apply bind_inv in H as (p & q0 & [_ ->]%lift_inv & H).
  apply bind_inv in H as (r1 & q1 & H1 & H).
  assert (Inv q1 sh /\ calls q1 = calls q /\ exists s1, sinsts q1 !! i = Some s1 /\ si_state s1 = si_state s /\
    si_arec s1 = si_arec s) as (HI1 & C1 & s1 & Hs1 & St1 & Ar1).
  { destruct (negb _); [|injection H1 as <- <-; eauto 10].
    apply bind_inv in H1 as ([] & q2 & H2 & H1). injection H1 as <- <-.
    eapply upd_quiet in H2 as (HI2 & Hs2 & C2); [|by intros []|done|done]. eauto 10. }
  clear H1. apply bind_inv in H as (found & q2 & Hf & H).
  apply (find_arec_inv _ _ _ _ _ _ (wf_linked _ _ (inv_wf _ _ HI1))) in Hf as [-> Hf].
  apply bind_inv in H as (r2 & q2 & H2 & H).
  assert (calls q2 = calls q /\ exists s2 sh', sinsts q2 !! i = Some s2 /\ si_state s2 = si_state s /\
    Inv q2 sh' /\ arecs_moved sh sh') as (C2 & s2 & sh' & Hs2 & St2 & HI2 & Hm2).
  { clear H. destruct found as [a|].
    - apply bind_inv in H2 as (r & q3 & H3 & H2). injection H2 as <- <-.
      eapply set_arec_inv in H3 as (_ & HI3 & C3 & s3 & Hs3 & St3 & _); [|done|done|done|by apply Hf].
      split; [congruence|]. exists s3, (sh_join sh i (si_arec s1) a). split; [done|]. split; [congruence|].
      split; [done|]. apply moved_join, arecs_moved_refl.
    - apply bind_inv in H2 as (free & q3 & [= <- <-] & H2).
      pose proof (fam_chain _ _ _ (link_arecs _ _ (wf_linked _ _ (inv_wf _ _ HI1))) false) as Hc.
      destruct (l_arecs sh false) as [|a l] eqn:El; cbn in Hc.
      + rewrite Hc in H2. apply bind_inv in H2 as ([] & q3 & H3 & H2). injection H2 as <- <-.
        apply upd_sinst_inv in H3 as (s1' & Hs1' & ->). rewrite Hs1 in Hs1'. injection Hs1' as <-.
        split; [done|]. exists (with_arec s1 None), sh. split; [cbn; apply list_lookup_insert_eq; by eapply lookup_lt_Some|].
        split; [done|]. split; [|apply arecs_moved_refl]. apply Inv_sinst with s1; try done. cbn.
        destruct Hroom as [Hroom|?]; [|done]. congruence.
      + destruct Hc as (Hh & _). rewrite Hh in H2.
        apply (new_arec_inv _ _ _ _ _ _ _ _ HI1 El) in H2 as (q3 & H2 & HI3 & Es3 & C3 & ar3 & Har3).
        apply bind_inv in H2 as (r & q4 & H4 & H2). injection H2 as <- <-.
        assert (exists s3, sinsts q3 !! i = Some s3 /\ si_state s3 = si_state s1) as (s3 & Hs3 & St3).
        { pose proof (lk_erase si_state _ _ i (fun _ => eq_refl) Es3) as E. unfold lk in E. rewrite Hs1 in E.
          destruct (sinsts q3 !! i) as [s3|]; [|done]. exists s3. cbn in E. naive_solver. }
        eapply set_arec_inv in H4 as (_ & HI4 & C4 & s4 & Hs4 & St4 & _); [|exact HI3|exact Hi|exact Hs3|].
        2: { unfold sh_activate. cbn. rewrite fupd_eq. set_solver. }
        split; [congruence|]. eexists s4, _. split; [done|]. split; [congruence|]. split; [exact HI4|].
        by apply moved_join, moved_activate. }
  clear H2. apply bind_inv in H as ([] & q3 & H3 & H).
  eapply upd_quiet in H3 as (HI3 & Hs3 & C3); [|by intros []|exact HI2|exact Hs2].
  apply bind_inv in H as ([] & q4 & H4 & H). eapply upd_quiet in H4 as (HI4 & Hs4 & C4); [|by intros []|done|done].
  injection H as <- <-. split; [congruence|]. split; [unfold lk; rewrite Hs4; cbn; by rewrite St2|].
  right. split; [destruct (0 <? r2); auto|]. eauto.
Qed.

(** ** The state machine of an instance *)

Lemma update_txt_quiet s m r c s' : update_txt s m r = Ok (c, s') ->
  (c = 0 \/ c = 1) /\ list_item s' = list_item s /\ alist_item s' = alist_item s /\ si_arec s' = si_arec s /\
  si_smon s' = si_smon s /\ si_state s' = si_state s.
Proof using.
  unfold update_txt. intros (ch & _ & H)%bind_ok. destruct ch; [|injection H as <- <-; auto 10].
  apply bind_ok in H as (bs & _ & H). apply bind_ok in H as (raw & _ & H). apply bind_ok in H as (kv & _ & H).
  injection H as <- <-. cbn. auto 10.
Qed.

Definition outcome (e : sinst_event) (sh sh' : shape) (m i : nat) (oa a : option nat) : Prop :=
  match e with
  | SINST_EVENT_LOST_AREC => sh' = sh_cleanup sh m i oa
  | SINST_EVENT_ADD_QUESTIONS => sh' = sh \/ sh' = sh_cleanup sh m i oa
  | SINST_EVENT_GOT_AREC => exists b, a = Some b /\ sh' = sh_join sh i oa b
  | SINST_EVENT_GOT_TXT => sh' = sh
  | SINST_EVENT_GOT_SRV => sh' = sh_cleanup sh m i oa \/ arecs_moved sh sh'
  end.

(** What the arguments of an event must satisfy. *)
Definition event_ok (e : sinst_event) (sh : shape) (oa a : option nat) : Prop :=
  match e with
  | SINST_EVENT_GOT_SRV => oa = None \/ l_arecs sh false <> []
  | SINST_EVENT_GOT_AREC => forall b, a = Some b -> b ∈ l_arecs sh true
  | _ => True
  end.

Lemma apply_event_inv q sh m i s e a rr elapsed changes q' : Inv q sh -> i ∈ l_sinsts sh (Some m) ->
  sinsts q !! i = Some s -> event_ok e sh (si_arec s) a ->
  apply_event fuel i e a rr elapsed q = Ok (changes, q') ->
  calls q' = calls q /\ lk si_state (sinsts q') i = Some (si_state s) /\
  match e with
  | SINST_EVENT_LOST_AREC | SINST_EVENT_ADD_QUESTIONS => changes = 0 /\ q' = q
  | _ =>
      (changes = -1 /\ e = SINST_EVENT_GOT_SRV /\ Inv q' (sh_cleanup sh m i (si_arec s))) \/
      ((changes = 0 \/ changes = 1) /\
       exists sh', Inv q' sh' /\ l_sinsts sh' = l_sinsts sh /\ outcome e sh sh' m i (si_arec s) a)
  end.
Proof using Hfuel.
  intros HI Hi Hs Hok H. destruct e; cbn in *.
  - apply bind_inv in H as (s0 & q0 & [Hs0 ->]%get_sinst_inv & H). rewrite Hs in Hs0. injection Hs0 as <-.
    apply bind_inv in H as (msg & q0 & [= <- <-] & H). apply bind_inv in H as ([c s'] & q0 & [E ->]%lift_inv & H).
    apply update_txt_quiet in E as (Hc & E1 & E2 & E3 & E4 & E5).
    apply bind_inv in H as ([] & q1 & H1 & H). injection H as <- <-.
    apply upd_sinst_inv in H1 as (s1 & Hs1 & ->). rewrite Hs in Hs1. injection Hs1 as <-. split; [done|]. split.
    + unfold lk. cbn. rewrite list_lookup_insert_eq by (by eapply lookup_lt_Some). cbn. by rewrite E5.
    + right. split; [done|]. exists sh. split; [by apply Inv_sinst with s|done].
  - eapply update_srv_inv in H as (C & St & H); [|done|done|done|done]. split; [done|]. split; [done|].
    destruct H as [[-> HI']|(Hc & sh' & HI' & Hm)]; [by left|]. right. split; [done|]. exists sh'.
    split; [done|]. split; [by destruct Hm|by right].
  - apply bind_inv in H as (b & q0 & [E ->]%lift_inv & H). destruct a as [b'|]; [|done]. injection E as ->.
    eapply set_arec_inv in H as (Hc & HI' & C & s' & Hs' & St & _); [|done|done|done|by apply Hok].
    split; [done|]. split; [unfold lk; rewrite Hs'; cbn; by rewrite St|]. right. split; [done|].
    exists (sh_join sh i (si_arec s) b). split; [done|]. split; [apply join_rest|eauto].
  - injection H as <- <-. split; [done|]. split; [unfold lk; by rewrite Hs|done].
  - injection H as <- <-. split; [done|]. split; [unfold lk; by rewrite Hs|done].
Qed.

(** The dispatch on the state of the instance. *)
Definition sinst_step (st : sinst_state) (i : nat) (e : sinst_event) (changes elapsed : Z) : Q Z :=
  match st with
  | SINST_STATE_INIT => sinst_init fuel i e changes elapsed
  | SINST_STATE_CLEAN => sinst_clean fuel i e changes elapsed
  | SINST_STATE_UPDATING => sinst_updating fuel i e changes elapsed
  end.

Definition is_record (e : sinst_event) : Prop :=
  e = SINST_EVENT_GOT_TXT \/ e = SINST_EVENT_GOT_SRV \/ e = SINST_EVENT_GOT_AREC.

(** A report of a ready instance, and the state set after it. *)
Lemma report_inv q sh i s c q' : Inv q sh -> sinsts q !! i = Some s -> SERVICE_IS_READY (si_service s) = true ->
  c = MDNS_DISCOVERED \/ (c = MDNS_UPDATED /\ told (calls q) i) -> DO_CALLBACK i c q = Ok (tt, q') ->
  Inv q' sh /\ told (calls q') i /\ sinsts q' = sinsts q.
Proof using.
  intros HI Hs Hr Hc (s' & f & d & Hs' & ->)%DO_CALLBACK_inv. rewrite Hs in Hs'. injection Hs' as <-.
  destruct (Inv_report q sh i s f d c HI Hr Hc) as [H1 H2]. done.
Qed.

Lemma set_state_inv q sh i s st q' : Inv q sh -> sinsts q !! i = Some s -> told (calls q) i ->
  set_si_state i st q = Ok (tt, q') -> Inv q' sh.
Proof using.
  intros HI Hs Hq (s' & Hs' & ->)%upd_sinst_inv. rewrite Hs in Hs'. injection Hs' as <-. by apply Inv_state.
Qed.

Lemma set_state_then q sh i s st (ch ret : Z) q' : Inv q sh -> sinsts q !! i = Some s -> told (calls q) i ->
  (set_si_state i st;; mret ch : Q Z) q = Ok (ret, q') -> Inv q' sh.
Proof using.
  intros HI Hs Hq ([] & q1 & H1 & H)%bind_inv. injection H as <- <-. by apply (set_state_inv _ _ _ _ _ _ HI Hs Hq H1).
Qed.

(** [if (SERVICE_IS_READY(s)) { DO_CALLBACK(...); next } else els] *)
Lemma if_ready_inv q sh i s c (next els : Q Z) ret q' : Inv q sh -> sinsts q !! i = Some s ->
  c = MDNS_DISCOVERED \/ (c = MDNS_UPDATED /\ told (calls q) i) ->
  (forall q1, Inv q1 sh -> told (calls q1) i -> sinsts q1 !! i = Some s -> next q1 = Ok (ret, q') -> Inv q' sh) ->
  (els q = Ok (ret, q') -> Inv q' sh) ->
  (ready ← service_ready i; if (ready : bool) then DO_CALLBACK i c;; next else els) q = Ok (ret, q') -> Inv q' sh.
Proof using.
  intros HI Hs Hc Hnext Hels H. apply bind_inv in H as (b & q1 & Hb & H).
  unfold service_ready in Hb. apply bind_inv in Hb as (s0 & q0 & [Hs0 ->]%get_sinst_inv & Hb).
  rewrite Hs in Hs0. injection Hs0 as <-. injection Hb as <- <-.
  destruct (SERVICE_IS_READY (si_service s)) eqn:Hr; [|by apply Hels].
  apply bind_inv in H as ([] & q1 & H1 & H). eapply report_inv in H1 as (HI1 & Hq & E); [|done|done|done|done].
  apply (Hnext q1); [done|done|by rewrite E|done].
Qed.

(** A record changed the instance or did not. *)
Lemma sinst_step_record q sh m i s st e changes elapsed ret q' : is_record e -> Inv q sh ->
  i ∈ l_sinsts sh (Some m) -> sinsts q !! i = Some s -> si_state s = st -> changes = 0 \/ changes = 1 ->
  sinst_step st i e changes elapsed q = Ok (ret, q') -> Inv q' sh.
Proof using.
  clear Hfuel. intros He HI Hi Hs Est Hc H.
  assert (st <> SINST_STATE_INIT -> told (calls q) i) as Hq.
  { intros Hst. apply (inv_told _ _ HI m i); [done|by intros ?%elem_of_nil|]. unfold lk. rewrite Hs. cbn. congruence. }
  destruct st; cbn in H; [unfold sinst_init in H|unfold sinst_clean in H|unfold sinst_updating in H];
    destruct He as [-> |[-> | ->]], Hc as [-> | ->]; cbn in H; try (injection H as <- <-; done).
  all: eapply if_ready_inv; [exact HI|exact Hs| | | |exact H]; [first [by left|right; split; [done|by apply Hq]]| |].
  all: first [ by injection 1 as <- <- | by intros q1 HI1 _ _; injection 1 as <- <-
             | by intros q1 HI1 Hq1 Hs1; apply (set_state_then _ _ _ _ _ _ _ _ HI1 Hs1 Hq1)
             | by apply (set_state_then _ _ _ _ _ _ _ _ HI Hs (Hq ltac:(done))) ].
Qed.

(** The instance was cleaned up when its SRV record said goodbye. *)
Lemma sinst_step_gone q sh i s st elapsed ret q' : Inv q sh -> (forall m, i ∉ l_sinsts sh (Some m)) ->
  (st <> SINST_STATE_INIT -> told (calls q) i) -> sinsts q !! i = Some s ->
  sinst_step st i SINST_EVENT_GOT_SRV (-1) elapsed q = Ok (ret, q') -> Inv q' sh.
Proof using.
  intros HI Hi Hq Hs H. destruct st; cbn in H; [by injection H as <- <-| |];
    apply bind_inv in H as ([] & q1 & H1 & H); injection H as <- <-; eapply DISAPPEARED_inv; eauto.
Qed.

(** The A record is lost. *)
Lemma sinst_step_lost q sh m i s st changes elapsed ret q' : Inv q sh -> i ∈ l_sinsts sh (Some m) ->
  sinsts q !! i = Some s -> (st <> SINST_STATE_INIT -> told (calls q) i) ->
  sinst_step st i SINST_EVENT_LOST_AREC changes elapsed q = Ok (ret, q') -> Inv q' (sh_cleanup sh m i (si_arec s)).
Proof using Hfuel.
  intros HI Hi Hs Hq H.
  destruct st; cbn in H; apply bind_inv in H as ([] & q1 & H1 & H);
    (eapply cleanup_kept in H1 as (HI1 & _ & C1); [|done|done|done]); [by injection H as <- <-| |];
    apply bind_inv in H as ([] & q2 & H2 & H); injection H as <- <-;
    (eapply DISAPPEARED_inv; [exact HI1|eapply not_live_cleanup; [apply (inv_wf _ _ HI)|done]| |exact H2]);
    rewrite C1; by apply Hq.
Qed.

(** Time passes. *)
Lemma sinst_step_elapsed q sh m i s st changes elapsed ret q' : Inv q sh -> i ∈ l_sinsts sh (Some m) ->
  sinsts q !! i = Some s -> (st <> SINST_STATE_INIT -> told (calls q) i) ->
  sinst_step st i SINST_EVENT_ADD_QUESTIONS changes elapsed q = Ok (ret, q') ->
  Inv q' sh \/ Inv q' (sh_cleanup sh m i (si_arec s)).
Proof using Hfuel.
  intros HI Hi Hs Hq H.
  destruct st; cbn in H; apply bind_inv in H as (r & q1 & H1 & H);
    (eapply apply_elapsed_inv in H1 as (Hr & C1 & Est & Hk); [|done|done|done]);
    assert (exists s1, sinsts q1 !! i = Some s1) as [s1 Hs1]
      by (unfold lk in Est; destruct (sinsts q1 !! i); [eauto|done]).
  - injection H as <- <-. destruct Hk as [[_ ?]|[_ ?]]; auto.
  - assert (told (calls q1) i) as Hq1 by (rewrite C1; by apply Hq).
    destruct (Z.eqb_spec r (-1)) as [E|E]; [|destruct Hk as [[_ HI1]|[? _]]; [|done]].
    + apply bind_inv in H as ([] & q2 & H2 & H). injection H as <- <-. destruct Hk as [[? _]|[_ HI1]]; [done|]. right.
      eapply DISAPPEARED_inv; [exact HI1|eapply not_live_cleanup; [apply (inv_wf _ _ HI)|done]|done|exact H2].
    + left. destruct (r =? 1); [|by injection H as <- <-]. apply bind_inv in H as ([] & q2 & H2 & H).
      eapply upd_quiet in H2 as (HI2 & Hs2 & C2); [|by intros []|done|done].
      eapply set_state_then; [exact HI2|exact Hs2|by rewrite C2|exact H].
  - destruct (Z.eqb_spec r (-1)) as [E|E].
    + apply bind_inv in H as ([] & q2 & H2 & H). injection H as <- <-. destruct Hk as [[? _]|[_ HI1]]; [done|]. right.
      eapply DISAPPEARED_inv; [exact HI1|eapply not_live_cleanup; [apply (inv_wf _ _ HI)|done]|rewrite C1; by apply Hq|exact H2].
    + injection H as <- <-. destruct Hk as [[_ ?]|[_ ?]]; auto.
Qed.

(** [update_sinst] keeps the invariant; [outcome] tells which lists change. *)
Lemma update_sinst_inv q sh m i s e a rr elapsed ret q' : Inv q sh -> i ∈ l_sinsts sh (Some m) ->
  sinsts q !! i = Some s -> event_ok e sh (si_arec s) a ->
  update_sinst fuel i e a rr elapsed q = Ok (ret, q') ->
  exists sh', Inv q' sh' /\ outcome e sh sh' m i (si_arec s) a.
Proof using Hfuel.
  intros HI Hi Hs Hok H. unfold update_sinst in H. apply bind_inv in H as (changes & q1 & H1 & H).
  eapply apply_event_inv in H1 as (C1 & St1 & H1); [|done|done|done|done].
  apply bind_inv in H as (s1 & q2 & [Hs1 ->]%get_sinst_inv & H). unfold lk in St1. rewrite Hs1 in St1. cbn in St1.
  assert (si_state s1 = si_state s) as Est by congruence.
  apply bind_inv in H as (ch & q2 & H2 & H). injection H as <- <-.
  change (sinst_step (si_state s1) i e changes elapsed q1 = Ok (ch, q2)) in H2. rewrite Est in H2.
  assert (si_state s <> SINST_STATE_INIT -> told (calls q) i) as Hq.
  { intros Hst. apply (inv_told _ _ HI m i); [done|by intros ?%elem_of_nil|]. unfold lk. rewrite Hs. cbn. congruence. }
  assert (is_record e -> (changes = -1 /\ e = SINST_EVENT_GOT_SRV /\ Inv q1 (sh_cleanup sh m i (si_arec s))) \/
      ((changes = 0 \/ changes = 1) /\
       exists sh', Inv q1 sh' /\ l_sinsts sh' = l_sinsts sh /\ outcome e sh sh' m i (si_arec s) a) ->
    exists sh', Inv q2 sh' /\ outcome e sh sh' m i (si_arec s) a) as Hrec.
  { intros He [(-> & -> & HI1)|(Hc & sh' & HI1 & El & Ho)].
    - eexists. split; [|by left]. eapply sinst_step_gone; [exact HI1|eapply not_live_cleanup; [apply (inv_wf _ _ HI)|done]| | |exact H2].
      + rewrite C1. exact Hq.
      + done.
    - exists sh'. split; [|done]. eapply sinst_step_record; [exact He|exact HI1| |exact Hs1|exact Est|exact Hc|exact H2].
      by rewrite El. }
  destruct e; cbn in H1; [apply Hrec; [unfold is_record; auto|done]..| |]; destruct H1 as [-> ->].
  - eexists. split; [|done]. eapply sinst_step_lost; eauto.
  - destruct (sinst_step_elapsed _ _ _ _ _ _ _ _ _ _ HI Hi Hs Hq H2); eexists; (split; [eassumption|]); [by left|by right].
Qed.
End Fuel.
