(* ===== verification/QuerierRun.v ===== *)
(** * Runs of the querier

    The loops of mdns_query.c over the lists, the handlers of a received packet
    and of the next query, and the thread: each keeps the invariant [Inv] of
    QuerierInv.v. *)
From stdpp Require Import sets.
From S2P Require Import Prelude Buffer Slist SlistSpec Dname Message.
From S2P Require Import Querier QuerierSpec QuerierWf QuerierInv.

(** ** Loops *)

Section Loops.
Context {B : Type} (nxt : nat -> Q (option nat)) (body : nat -> B -> Q B).

(** [J rest b q]: the elements still to come and the value so far. *)
Lemma foreach_safe_inv (J : list nat -> B -> qstate -> Prop) :
  (forall i rest b q n q', J (i :: rest) b q -> nxt i q = Ok (n, q') -> n = head rest /\ q' = q) ->
  (forall i rest b q b' q', J (i :: rest) b q -> body i b q = Ok (b', q') -> J rest b' q') ->
  forall fuel l b q b' q', J l b q -> foreach_safe fuel nxt body (head l) b q = Ok (b', q') -> J [] b' q'.
Proof.
  intros Hn Hb fuel. induction fuel as [|fuel IH]; intros [|i l] b q b' q' HJ H; cbn in H.
  - by injection H as <- <-.
  - done.
  - by injection H as <- <-.
  - apply bind_inv in H as (n & q1 & H1 & H). destruct (Hn _ _ _ _ _ _ HJ H1) as [-> ->].
    apply bind_inv in H as (b1 & q2 & H2 & H). eapply IH; [|exact H]. by eapply Hb.
Qed.

Lemma foreach_inv (J : list nat -> B -> qstate -> Prop) :
  (forall i rest b q b' q', J (i :: rest) b q -> body i b q = Ok (b', q') ->
    J rest b' q' /\ forall n q'', nxt i q' = Ok (n, q'') -> n = head rest /\ q'' = q') ->
  forall fuel l b q b' q', J l b q -> foreach fuel nxt body (head l) b q = Ok (b', q') -> J [] b' q'.
Proof.
  intros Hb fuel. induction fuel as [|fuel IH]; intros [|i l] b q b' q' HJ H; cbn in H.
  - by injection H as <- <-.
  - done.
  - by injection H as <- <-.
  - apply bind_inv in H as (b1 & q1 & H1 & H). destruct (Hb _ _ _ _ _ _ HJ H1) as [HJ1 Hn].
    apply bind_inv in H as (n & q2 & H2 & H). destruct (Hn _ _ H2) as [-> ->]. by eapply IH.
Qed.

(** The loop returns when its body does. *)
Lemma foreach_safe_run (J : list nat -> B -> qstate -> Prop) :
  (forall i rest b q, J (i :: rest) b q -> nxt i q = Ok (head rest, q)) ->
  (forall i rest b q, J (i :: rest) b q -> exists b' q', body i b q = Ok (b', q') /\ J rest b' q') ->
  forall fuel l b q, J l b q -> (length l <= fuel)%nat ->
  exists b' q', foreach_safe fuel nxt body (head l) b q = Ok (b', q') /\ J [] b' q'.
Proof.
  intros Hn Hb fuel. induction fuel as [|fuel IH]; intros [|i l] b q HJ Hl; cbn in Hl; try lia.
  - eauto.
  - eauto.
  - destruct (Hb _ _ _ _ HJ) as (b1 & q1 & E & HJ1). destruct (IH l b1 q1 HJ1) as (b2 & q2 & E2 & HJ2); [lia|].
    exists b2, q2. split; [|done]. cbn. qstep (Hn _ _ _ _ HJ). by qstep E.
Qed.
End Loops.

(** Reading the next element of a list. *)
Lemma family_next {K A} (f : link A) s hd (L : K -> list nat) k l1 i l2 a :
  family (nexts f s) hd L -> L k = l1 ++ i :: l2 -> s !! i = Some a -> next_of f a = head l2.
Proof.
  intros HL E Ha. pose proof (fam_chain _ _ _ HL k) as Hc. rewrite E in Hc. apply chain_next in Hc as [Hn _].
  unfold nexts, lk in Hn. rewrite Ha in Hn. cbn in Hn. congruence.
Qed.

Lemma next_sinst_inv q sh k l1 i l2 n q' : linked q sh -> l_sinsts sh k = l1 ++ i :: l2 ->
  next_sinst i q = Ok (n, q') -> n = head l2 /\ q' = q.
Proof.
  intros HL E H. apply bind_inv in H as (s & q1 & [Hs ->]%get_sinst_inv & H). injection H as <- <-. split; [|done].
  exact (family_next _ _ _ _ _ _ _ _ _ (link_sinsts _ _ HL) E Hs).
Qed.
Lemma next_asinst_inv q sh k l1 i l2 n q' : linked q sh -> l_asinsts sh k = l1 ++ i :: l2 ->
  next_asinst i q = Ok (n, q') -> n = head l2 /\ q' = q.
Proof.
  intros HL E H. apply bind_inv in H as (s & q1 & [Hs ->]%get_sinst_inv & H). injection H as <- <-. split; [|done].
  exact (family_next _ _ _ _ _ _ _ _ _ (link_asinsts _ _ HL) E Hs).
Qed.
Lemma next_arec_inv q sh k l1 i l2 n q' : linked q sh -> l_arecs sh k = l1 ++ i :: l2 ->
  next_arec i q = Ok (n, q') -> n = head l2 /\ q' = q.
Proof.
  intros HL E H. apply bind_inv in H as (s & q1 & [Hs ->]%get_arec_inv & H). injection H as <- <-. split; [|done].
  exact (family_next _ _ _ _ _ _ _ _ _ (link_arecs _ _ HL) E Hs).
Qed.
Lemma next_smon_inv q sh k l1 i l2 n q' : linked q sh -> l_smons sh k = l1 ++ i :: l2 ->
  next_smon i q = Ok (n, q') -> n = head l2 /\ q' = q.
Proof.
  intros HL E H. apply bind_inv in H as (s & q1 & [Hs ->]%get_smon_inv & H). injection H as <- <-. split; [|done].
  exact (family_next _ _ _ _ _ _ _ _ _ (link_smons _ _ HL) E Hs).
Qed.

(** The heads of the lists. *)
Lemma smon_head q sh m sm : linked q sh -> smons q !! m = Some sm -> sm_sinsts sm = head (l_sinsts sh (Some m)).
Proof.
  intros HL Hm. pose proof (fam_chain _ _ _ (link_sinsts _ _ HL) (Some m)) as Hc. apply chain_head in Hc.
  cbn in Hc. by rewrite Hm in Hc.
Qed.
Lemma heads_eq q sh : linked q sh -> smons_active q = head (l_smons sh true) /\ smons_free q = head (l_smons sh false) /\
  sinsts_free q = head (l_sinsts sh None) /\ arecs_active q = head (l_arecs sh true) /\ arecs_free q = head (l_arecs sh false).
Proof.
  intros HL. split; [|split; [|split; [|split]]].
  - apply (chain_head _ _ _ (fam_chain _ _ _ (link_smons _ _ HL) true)).
  - apply (chain_head _ _ _ (fam_chain _ _ _ (link_smons _ _ HL) false)).
  - apply (chain_head _ _ _ (fam_chain _ _ _ (link_sinsts _ _ HL) None)).
  - apply (chain_head _ _ _ (fam_chain _ _ _ (link_arecs _ _ HL) true)).
  - apply (chain_head _ _ _ (fam_chain _ _ _ (link_arecs _ _ HL) false)).
Qed.

(** ** The link of a removed element

    [evict_arec] reads the link of an instance after the instance was taken off
    the list: [SLIST_REMOVE] does not change that link. *)
Lemma SLIST_REMOVE_relink {A} (f : link A) fuel s h i s' h' : SLIST_REMOVE fuel f s h i = Ok (s', h') -> relink f s s'.
Proof.
  unfold SLIST_REMOVE. destruct (bool_decide _).
  - intros (x & _ & H)%bind_ok. injection H as <- <-. by left.
  - intros (p & _ & H)%bind_ok. apply bind_ok in H as (s1 & H1 & H). injection H as <- <-.
    unfold SLIST_REMOVE_AFTER in H1. apply bind_ok in H1 as ([n|] & _ & H1); [|done].
    apply bind_ok in H1 as (nn & _ & H1). unfold set_next, cell in H1. destruct (s !! p) as [a|] eqn:Ha; [|done].
    injection H1 as <-. right. eauto.
Qed.

Lemma find_prev_next {A} (f : link A) fuel s h i p : find_prev fuel f s h i = Ok p -> nexts f s p = Some (Some i).
Proof.
  revert h. induction fuel as [|fuel IH]; intros [h|]; cbn; try done.
  unfold SLIST_NEXT, cell. destruct (s !! h) as [a|] eqn:Ha; cbn; [|done]. case_bool_decide as E; [|apply IH].
  intros [= ->]. unfold nexts, lk. rewrite Ha. cbn. by rewrite E.
Qed.

Lemma SLIST_REMOVE_self {A} (f : link A) {Hf : LinkLaws f} fuel s h i s' h' :
  SLIST_REMOVE fuel f s h i = Ok (s', h') -> nexts f s i <> Some (Some i) -> nexts f s' i = nexts f s i.
Proof.
  unfold SLIST_REMOVE. intros H Hi. destruct (bool_decide _).
  - apply bind_ok in H as (x & _ & H). by injection H as <- <-.
  - apply bind_ok in H as (p & Hp & H). apply find_prev_next in Hp. apply bind_ok in H as (s1 & H1 & H). injection H as <- <-.
    unfold SLIST_REMOVE_AFTER in H1. apply bind_ok in H1 as ([n|] & _ & H1); [|done].
    apply bind_ok in H1 as (nn & _ & H1). unfold set_next, cell in H1. destruct (s !! p) as [a|] eqn:Ha; [|done].
    injection H1 as <-. rewrite nexts_insert by done. rewrite decide_False; [done|]. intros ->. congruence.
Qed.

Ltac unlift := unfold gets, id, lift, modify, mbind, Q_bind.

Lemma remove_smon_sinsts_alink fuel m i q q' j : remove_smon_sinsts fuel m i q = Ok (tt, q') ->
  lk alist_item (sinsts q') j = lk alist_item (sinsts q) j.
Proof.
  intros (sm & q1 & [Hm ->]%get_smon_inv & H)%bind_inv. apply bind_inv in H as (q1 & q2 & [= <- <-] & H).
  apply bind_inv in H as ([l h] & q2 & [E ->]%lift_inv & H). apply SLIST_REMOVE_relink in E.
  apply bind_inv in H as ([] & q2 & [= <-] & H). unfold upd_smon in H.
  apply bind_inv in H as (sm' & q2 & [_ ->]%get_smon_inv & H). injection H as <-. cbn.
  by apply (relink_nexts sinst_link sinst_alink).
Qed.

Lemma insert_sinsts_free_alink i q q' j : insert_sinsts_free i q = Ok (tt, q') ->
  lk alist_item (sinsts q') j = lk alist_item (sinsts q) j.
Proof.
  intros (q1 & q2 & [= <- <-] & H)%bind_inv. apply bind_inv in H as ([l h] & q2 & [E ->]%lift_inv & H).
  injection H as <-. cbn. apply (relink_nexts sinst_link sinst_alink).
  unfold SLIST_INSERT_HEAD in E. apply bind_ok in E as (s1 & E & E1). injection E1 as <- <-.
  unfold set_next, cell in E. destruct (sinsts q !! i) as [a|] eqn:Ha; [|done]. injection E as <-. right. eauto.
Qed.

Lemma remove_arec_sinsts_alink fuel a i q q' : remove_arec_sinsts fuel a i q = Ok (tt, q') ->
  lk alist_item (sinsts q) i <> Some (Some i) -> lk alist_item (sinsts q') i = lk alist_item (sinsts q) i.
Proof.
  intros (ar & q1 & [Ha ->]%get_arec_inv & H)%bind_inv. apply bind_inv in H as (q1 & q2 & [= <- <-] & H).
  apply bind_inv in H as ([l h] & q2 & [E ->]%lift_inv & H). intros Hi.
  apply bind_inv in H as ([] & q2 & [= <-] & H). unfold upd_arec in H.
  apply bind_inv in H as (sm' & q2 & [_ ->]%get_arec_inv & H). injection H as <-. cbn.
  by apply (SLIST_REMOVE_self sinst_alink _ _ _ _ _ _ E).
Qed.

Lemma arecs_op_sinsts fuel a q q' : (remove_arecs_active fuel a;; insert_arecs_free a) q = Ok (tt, q') -> sinsts q' = sinsts q.
Proof.
  intros ([] & q1 & H1 & H2)%bind_inv. unfold remove_arecs_active in H1. unfold insert_arecs_free in H2.
  apply bind_inv in H1 as (x & y & [= <- <-] & H1). apply bind_inv in H1 as ([l h] & q2 & [_ ->]%lift_inv & H1).
  injection H1 as <-. apply bind_inv in H2 as (x & y & [= <- <-] & H2).
  apply bind_inv in H2 as ([l' h'] & q2 & [_ ->]%lift_inv & H2). by injection H2 as <-.
Qed.

Lemma cleanup_alink fuel q sh m i q' : wf q sh -> i ∈ l_sinsts sh (Some m) -> cleanup_sinst fuel i q = Ok (tt, q') ->
  lk alist_item (sinsts q') i = lk alist_item (sinsts q) i.
Proof.
  intros W Hi H. unfold cleanup_sinst in H. apply bind_inv in H as (s & q0 & [Hs ->]%get_sinst_inv & H).
  apply bind_inv in H as (m' & q0 & [_ ->]%lift_inv & H). apply bind_inv in H as ([] & q1 & H1 & H).
  apply remove_smon_sinsts_alink with (j := i) in H1. apply bind_inv in H as ([] & q2 & H2 & H).
  assert (lk alist_item (sinsts q2) i = lk alist_item (sinsts q1) i) as E2.
  { destruct (si_arec s) as [a|] eqn:Ea; [|by injection H2 as <-].
    apply bind_inv in H2 as ([] & q3 & H3 & H2). apply remove_arec_sinsts_alink in H3.
    - rewrite <- H3. apply bind_inv in H2 as (ar & q4 & [_ ->]%get_arec_inv & H2).
      destruct (ar_sinsts ar); [by injection H2 as <-|]. apply arecs_op_sinsts in H2. by rewrite H2.
    - rewrite H1. destruct (live_arec _ _ W m i s a Hi Hs Ea) as [Hia _].
      apply list_elem_of_split in Hia as (l1 & l2 & El).
      pose proof (family_next _ _ _ _ _ _ _ _ _ (link_asinsts _ _ (wf_linked _ _ W)) El Hs) as En.
      unfold lk. rewrite Hs. cbn in *. rewrite En. intros [= E].
      pose proof (fam_nodup _ _ _ (link_asinsts _ _ (wf_linked _ _ W)) a) as Hd. rewrite El in Hd.
      apply list.NoDup_app in Hd as (_ & _ & Hd). apply NoDup_cons_1_1 in Hd.
      destruct l2; cbn in E; [done|]. injection E as ->. set_solver. }
  apply bind_inv in H as ([] & q3 & H3 & H). apply insert_sinsts_free_alink with (j := i) in H3.
  apply upd_sinst_inv in H as (s' & Hs' & ->). unfold lk in *. cbn.
  rewrite list_lookup_insert_eq by (by eapply lookup_lt_Some). rewrite Hs' in H3. cbn in *. congruence.
Qed.

(** ** Which lists a cleanup changes *)

Lemma cleanup_arecs_eq sh m i oa : l_arecs (sh_cleanup sh m i oa) true = l_arecs sh true \/
  (exists a, oa = Some a /\ l_arecs (sh_cleanup sh m i oa) true = rem a (l_arecs sh true)).
Proof.
  unfold sh_cleanup, sh_unref, sh_release. destruct oa as [a|]; [|by left]. cbn. destruct (fupd _ a _ a); cbn; [|by left].
  right. exists a. by rewrite (fupd_ne _ false _ true), fupd_eq by done.
Qed.

Lemma cleanup_free_length sh m i oa : (length (l_arecs sh false) <= length (l_arecs (sh_cleanup sh m i oa) false))%nat.
Proof.
  unfold sh_cleanup, sh_unref, sh_release. destruct oa as [a|]; cbn; [|lia]. destruct (fupd _ a _ a); cbn; [|lia].
  rewrite fupd_eq, fupd_ne by done. cbn. lia.
Qed.

Lemma cleanup_asinsts_eq sh m i a : l_asinsts (sh_cleanup sh m i (Some a)) a = rem i (l_asinsts sh a).
Proof. unfold sh_cleanup, sh_unref, sh_release. cbn. destruct (fupd _ a _ a) eqn:E; cbn; by rewrite fupd_eq. Qed.

Lemma cleanup_sinsts_eq sh m i oa : l_sinsts (sh_cleanup sh m i oa) (Some m) = rem i (l_sinsts sh (Some m)).
Proof. unfold sh_cleanup. rewrite l_sh_sinsts, fupd_ne, unref_sinsts by done. by rewrite fupd_eq. Qed.

Lemma rem_middle i l1 l2 : NoDup (l1 ++ i :: l2) -> rem i (l1 ++ i :: l2) = l1 ++ l2.
Proof.
  intros Hd. apply list.NoDup_app in Hd as (_ & H1 & H2). apply NoDup_cons_1_1 in H2.
  apply rem_split; [|done]. intros Hi. apply (H1 i Hi). set_solver.
Qed.

Lemma rem_twice i l : rem i (rem i l) = rem i l.
Proof. apply rem_notin. rewrite elem_rem. by intros [? _]. Qed.

(** Only the record [a] may have left the active list. *)
Definition only_arec (a : nat) (sh sh' : shape) : Prop :=
  l_smons sh' = l_smons sh /\ (l_arecs sh' true = l_arecs sh true \/ l_arecs sh' true = rem a (l_arecs sh true)).

Lemma only_arec_refl a sh : only_arec a sh sh.
Proof. split; [done|by left]. Qed.

Lemma only_arec_cleanup a sh sh' m i : only_arec a sh sh' -> only_arec a sh (sh_cleanup sh' m i (Some a)).
Proof.
  intros [E1 E2]. split; [by rewrite cleanup_smons|].
  destruct (cleanup_arecs_eq sh' m i (Some a)) as [->|(b & [= <-] & ->)]; [done|].
  destruct E2 as [->| ->]; [by right|]. right. by rewrite rem_twice.
Qed.

Section Fuel.
Context (fuel : nat) (Hfuel : (CACHE <= fuel)%nat).

Lemma lost_alink q sh m i s rr elapsed ret q' : Inv q sh -> i ∈ l_sinsts sh (Some m) -> sinsts q !! i = Some s ->
  update_sinst fuel i SINST_EVENT_LOST_AREC None rr elapsed q = Ok (ret, q') ->
  lk alist_item (sinsts q') i = lk alist_item (sinsts q) i.
Proof using.
  clear Hfuel. intros HI Hi Hs H. unfold update_sinst in H. apply bind_inv in H as (ch & q1 & [= <- <-] & H).
  apply bind_inv in H as (s1 & q1 & [_ ->]%get_sinst_inv & H). apply bind_inv in H as (c & q1 & H1 & H). injection H as <- <-.
  destruct (si_state s1); cbn in H1; apply bind_inv in H1 as ([] & q2 & H2 & H1);
    apply (cleanup_alink _ _ _ _ _ _ (inv_wf _ _ HI) Hi) in H2; [by injection H1 as <- <-| |];
    apply bind_inv in H1 as ([] & q3 & (x & f & d & _ & ->)%DO_CALLBACK_inv & H1); by injection H1 as <- <-.
Qed.

(** One instance loses its A record: the lists after it, and the next instance
    as it is read from the one just removed. *)
Lemma lost_step q sh a i rest r q' : Inv q sh -> l_asinsts sh a = i :: rest ->
  update_sinst fuel i SINST_EVENT_LOST_AREC None default_resource 0 q = Ok (r, q') ->
  exists sh', Inv q' sh' /\ (forall sh0, only_arec a sh0 sh -> only_arec a sh0 sh') /\ l_asinsts sh' a = rest /\
    next_asinst i q' = Ok (head rest, q').
Proof using Hfuel.
  intros HI E H1. assert (i ∈ l_asinsts sh a) as Hia by (rewrite E; set_solver).
  destruct (asinsts_live _ _ (inv_wf _ _ HI) a i Hia) as [m Hi]. destruct (sinst_cell _ _ (inv_wf _ _ HI) _ _ Hi) as [s Hs].
  pose proof (arec_live _ _ (inv_wf _ _ HI) a i s Hia Hs) as Ea.
  pose proof (lost_alink _ _ _ _ _ _ _ _ _ HI Hi Hs H1) as Hal.
  eapply update_sinst_inv in H1 as (sh1 & HI1 & Ho1); [|exact Hfuel|exact HI|exact Hi|exact Hs|done].
  cbn in Ho1. subst sh1. rewrite Ea in HI1.
  pose proof (fam_nodup _ _ _ (link_asinsts _ _ (wf_linked _ _ (inv_wf _ _ HI))) a) as Hd. rewrite E in Hd.
  exists (sh_cleanup sh m i (Some a)). split; [done|]. split; [by intros; apply only_arec_cleanup|].
  split; [rewrite cleanup_asinsts_eq, E; by apply (rem_middle i [])|].
  unfold lk in Hal. rewrite Hs in Hal. destruct (sinsts q' !! i) as [s'|] eqn:Hs'; [|done]. cbn in Hal.
  pose proof (family_next _ _ _ _ _ [] _ _ _ (link_asinsts _ _ (wf_linked _ _ (inv_wf _ _ HI))) E Hs) as En. cbn in En.
  unfold next_asinst. rewrite (bind_run _ _ _ _ _ (get_sinst_run _ _ _ Hs')). unfold mret, Q_ret. congruence.
Qed.

(** Evicting an A record cleans up every instance that refers to it. *)
Lemma evict_arec_inv q sh a q' : Inv q sh -> evict_arec fuel a q = Ok (tt, q') ->
  exists sh', Inv q' sh' /\ only_arec a sh sh' /\ l_asinsts sh' a = [].
Proof using Hfuel.
  intros HI H. unfold evict_arec in H. apply bind_inv in H as (ar & q0 & [Har ->]%get_arec_inv & H).
  rewrite (arec_head _ _ _ _ (wf_linked _ _ (inv_wf _ _ HI)) Har) in H. apply bind_inv in H as ([] & q1 & H1 & H).
  set (J := fun (rest : list nat) (_ : unit) (q : qstate) =>
    exists sh', Inv q sh' /\ only_arec a sh sh' /\ l_asinsts sh' a = rest).
  eapply (foreach_inv _ _ J) in H1; [| |exists sh; auto using only_arec_refl].
  - destruct H1 as (sh' & HI' & Ho & E). unfold upd_arec in H.
    apply bind_inv in H as (ar' & q2 & [Har' ->]%get_arec_inv & H). injection H as <-.
    exists sh'. split; [by apply Inv_arec with ar'|done].
  - clear H H1 HI q q' q1 Har ar. intros i rest [] q [] q' (sh' & HI & Ho & E) H.
    apply bind_inv in H as (r & q1 & H1 & H). injection H as <-.
    destruct (lost_step _ _ _ _ _ _ _ HI E H1) as (sh1 & HI1 & Ho1 & E1 & En).
    split; [exists sh1; auto|]. intros n q2 Hn. rewrite En in Hn. by injection Hn as <- <-.
Qed.

(** A new address is passed on to the instances; each moves to the front of the
    record's list. *)
Lemma set_ip_inv q sh a rr q' : Inv q sh -> a ∈ l_arecs sh true -> set_ip fuel a rr q = Ok (tt, q') ->
  exists sh', Inv q' sh' /\ only_arec a sh sh'.
Proof using Hfuel.
  intros HI Ha H. unfold set_ip in H. apply bind_inv in H as (msg & q0 & [= <- <-] & H).
  apply bind_inv in H as (ip & q0 & [_ ->]%lift_inv & H). apply bind_inv in H as (ar & q0 & [Har ->]%get_arec_inv & H).
  apply bind_inv in H as ([] & q1 & H1 & H).
  assert (exists sh', Inv q1 sh' /\ only_arec a sh sh') as (sh' & HI' & Ho).
  { clear H. destruct (ar_ipaddr ar =? ip); [injection H1 as <-; eauto using only_arec_refl|].
    apply bind_inv in H1 as ([] & q2 & H2 & H1). rewrite (upd_arec_run _ _ _ _ Har) in H2. injection H2 as <-.
    set (q2 := q_arecs q (<[a := arec_with_ipaddr ar ip]> (arecs q))) in *.
    assert (Inv q2 sh) as HI2 by (by apply Inv_arec with ar).
    apply bind_inv in H1 as (ar2 & q3 & [Har2 ->]%get_arec_inv & H1).
    rewrite (arec_head _ _ _ _ (wf_linked _ _ (inv_wf _ _ HI2)) Har2) in H1.
    set (J := fun (rest : list nat) (_ : unit) (q : qstate) =>
      exists sh' done_, Inv q sh' /\ only_arec a sh sh' /\ l_arecs sh' = l_arecs sh /\ l_asinsts sh' a = done_ ++ rest).
    eapply (foreach_safe_inv _ _ J) in H1; [| | |exists sh, []; auto using only_arec_refl].
    - destruct H1 as (sh' & d & HI' & Ho & _). eauto.
    - clear H1. intros i rest [] qq n qq' (sh' & d & HI' & Ho & El & E) Hn.
      by apply (next_asinst_inv _ _ _ _ _ _ _ _ (wf_linked _ _ (inv_wf _ _ HI')) E) in Hn.
    - clear H1. intros i rest [] qq [] qq' (sh' & d & HI' & Ho & El & E) Hb.
      apply bind_inv in Hb as (r & q3 & H3 & Hb). injection Hb as <-.
      assert (i ∈ l_asinsts sh' a) as Hia by (rewrite E; set_solver).
      destruct (asinsts_live _ _ (inv_wf _ _ HI') a i Hia) as [m Hi].
      destruct (sinst_cell _ _ (inv_wf _ _ HI') _ _ Hi) as [s Hs].
      pose proof (arec_live _ _ (inv_wf _ _ HI') a i s Hia Hs) as Ea.
      eapply update_sinst_inv in H3 as (sh1 & HI1 & Ho1); [|exact Hfuel|exact HI'|exact Hi|exact Hs|].
      2: { intros b [= <-]. by rewrite El. }
      destruct Ho1 as (b & [= <-] & ->). rewrite Ea in HI1.
      pose proof (fam_nodup _ _ _ (link_asinsts _ _ (wf_linked _ _ (inv_wf _ _ HI'))) a) as Hd. rewrite E in Hd.
      exists (sh_join sh' i (Some a) a), (i :: d). destruct (join_rest sh' i a (Some a)) as (R1 & R2 & R3).
      split; [done|]. unfold only_arec. rewrite R2, R3. split; [done|]. split; [done|].
      unfold sh_join. cbn. rewrite fupd_eq, fupd_eq, E. cbn. by rewrite rem_middle. }
  unfold upd_arec in H. apply bind_inv in H as (ar' & q2 & [Har' ->]%get_arec_inv & H). injection H as <-.
  exists sh'. split; [by apply Inv_arec with ar'|done].
Qed.

(** Assignments to an A record that keep its links. *)
Lemma upd_arec_inv q sh a f q' : (forall ar, ar_list_item (f ar) = ar_list_item ar /\ ar_sinsts (f ar) = ar_sinsts ar) ->
  Inv q sh -> upd_arec a f q = Ok (tt, q') -> Inv q' sh.
Proof using.
  intros Hf HI H. unfold upd_arec in H. apply bind_inv in H as (ar & q2 & [Har ->]%get_arec_inv & H). injection H as <-.
  destruct (Hf ar). by apply Inv_arec with ar.
Qed.

Lemma ask_arec_inv q sh a q' : Inv q sh -> ask_arec a q = Ok (tt, q') -> Inv q' sh.
Proof using.
  intros HI H. unfold ask_arec in H. apply bind_inv in H as (ar & q1 & [_ ->]%get_arec_inv & H).
  apply bind_inv in H as (msg & q1 & [= <- <-] & H). apply bind_inv in H as ([e msg'] & q1 & [_ ->]%lift_inv & H).
  injection H as <-. by apply Inv_tx.
Qed.

Lemma update_arec_inv q sh a e rr elapsed ret q' : Inv q sh -> a ∈ l_arecs sh true ->
  update_arec fuel a e rr elapsed q = Ok (ret, q') -> exists sh', Inv q' sh' /\ only_arec a sh sh'.
Proof using Hfuel.
  intros HI Ha H. unfold update_arec in H.
  assert (forall (c : Z) q, Inv q sh -> (set_ip fuel a rr;; mret c : Q Z) q = Ok (ret, q') -> exists sh', Inv q' sh' /\ only_arec a sh sh')
    as Hset.
  { intros c q0 HI0 H0. apply bind_inv in H0 as ([] & q1 & H1 & H0). injection H0 as <- <-. by eapply set_ip_inv. }
  assert (forall (c : Z) q, Inv q sh -> (evict_arec fuel a;; mret c : Q Z) q = Ok (ret, q') -> exists sh', Inv q' sh' /\ only_arec a sh sh')
    as Hevict.
  { intros c q0 HI0 H0. apply bind_inv in H0 as ([] & q1 & H1 & H0). injection H0 as <- <-.
    apply (evict_arec_inv _ _ _ _ HI0) in H1 as (sh' & ? & ? & _). eauto. }
  assert (forall f (c : Z) q, (forall ar, ar_list_item (f ar) = ar_list_item ar /\ ar_sinsts (f ar) = ar_sinsts ar) -> Inv q sh ->
    (ask_arec a;; upd_arec a f;; mret c : Q Z) q = Ok (ret, q') -> exists sh', Inv q' sh' /\ only_arec a sh sh') as Hask.
  { intros f c q0 Hf HI0 H0. apply bind_inv in H0 as ([] & q1 & H1 & H0). apply (ask_arec_inv _ _ _ _ HI0) in H1.
    apply bind_inv in H0 as ([] & q2 & H2 & H0). injection H0 as <- <-. eapply upd_arec_inv in H2; [|exact Hf|exact H1].
    eauto using only_arec_refl. }
  destruct (bool_decide _ && _); [by eapply Hevict|].
  apply bind_inv in H as (ar & q0 & [Har ->]%get_arec_inv & H).
  destruct (ar_state ar), e; cbn in H.
  - apply bind_inv in H as ([] & q1 & H1 & H). eapply upd_arec_inv in H1; [by eapply Hset|done|done].
  - by eapply Hask; [| |exact H].
  - apply bind_inv in H as ([] & q1 & H1 & H). eapply upd_arec_inv in H1; [by eapply Hset|done|done].
  - apply bind_inv in H as ([] & q1 & H1 & H). eapply upd_arec_inv in H1; [|done|exact HI].
    apply bind_inv in H as (ar1 & q2 & [_ ->]%get_arec_inv & H).
    destruct (_ && _); [by eapply Hevict|]. destruct (_ =? 0); [by eapply Hask; [| |exact H]|].
    injection H as <- <-. eauto using only_arec_refl.
  - by eapply Hset.
  - apply bind_inv in H as ([] & q1 & H1 & H). eapply upd_arec_inv in H1; [|done|exact HI].
    apply bind_inv in H as (ar1 & q2 & [_ ->]%get_arec_inv & H).
    destruct (_ =? 0); [by eapply Hask; [| |exact H]|]. injection H as <- <-. eauto using only_arec_refl.
Qed.
End Fuel.
