(* ===== verification/QuerierPacket.v ===== *)
(** * A received packet

    The handlers of mdns_query.c for the records of a received message keep the
    invariant [Inv] of QuerierInv.v. *)
From stdpp Require Import sets.
From S2P Require Import Prelude Buffer Slist SlistSpec Dname Message.
From S2P Require Import Querier QuerierSpec QuerierWf QuerierInv QuerierRun.

Section Fuel.
Context (fuel : nat) (Hfuel : (CACHE <= fuel)%nat).

(** ** A received packet *)

Lemma overflow_not_listed q sh k : wf q sh -> overflow_sinst ∉ l_sinsts sh k.
Proof using.
  clear Hfuel fuel. intros W H. assert (overflow_sinst < CACHE)%nat as Hlt
    by (apply (x_sinsts _ _ _ (wf_cross _ _ W)); eauto).
  unfold overflow_sinst in Hlt. lia.
Qed.

(** Assignments to the overflow cells, which are on no list. *)
Lemma Inv_overflow q sh s : Inv q sh -> Inv (q_sinsts q (<[overflow_sinst := s]> (sinsts q))) sh.
Proof using.
  clear Hfuel fuel. intros [W Hw Hp Ht]. pose proof (fun k => overflow_not_listed q sh k W) as Hn.
  assert (forall j k, j ∈ l_sinsts sh k -> <[overflow_sinst := s]> (sinsts q) !! j = sinsts q !! j) as Hl.
  { intros j k Hj. apply list_lookup_insert_ne. intros <-. by apply (Hn k). }
  constructor; [|done|done|].
  - destruct W as [[H1 H2 H3 H4] HX L1 L2 L3]. constructor; cbn; [|destruct HX as [X1 X2 X3 X4 X5]| | |]; try done.
    + constructor; cbn; [done| | |done].
      * eapply family_mem; [| |exact H2]; [|done]. intros k j Hj. unfold nexts, lk. by rewrite (Hl j k).
      * eapply family_mem; [| |exact H3]; [|done]. intros k j Hj. unfold nexts, lk.
        destruct HX as [_ X2 _ _ _]. apply X2 in Hj as [[m Hm] _]. by rewrite (Hl j (Some m)).
    + constructor; [| |done|done|done].
      * intros m i Hi. unfold lk. rewrite (Hl i (Some m)) by done. by apply X1.
      * intros a i. rewrite X2. split; intros [[m Hm] E]; (split; [eauto|]); unfold lk in *; by rewrite (Hl i (Some m)) in *.
    + by rewrite length_insert.
  - intros m i Hi Hx. unfold lk. cbn. rewrite (Hl i (Some m)) by done. by apply (Ht m i).
Qed.

(** What handling a PTR record leaves: at least as many free A records, and no
    more SRV records in the message. *)
Definition ptr_post (q : qstate) (sh : shape) (q' : qstate) : Prop :=
  exists sh', Inv q' sh' /\ (length (l_arecs sh false) <= length (l_arecs sh' false))%nat /\
    (length (srvs (rx_msg q')) <= length (srvs (rx_msg q)))%nat.

Lemma ptr_post_same q sh q' : Inv q' sh -> rx_msg q' = rx_msg q -> ptr_post q sh q'.
Proof using. clear Hfuel fuel. intros HI E. exists sh. rewrite E. auto. Qed.

Lemma known_instance_inv q sh m i rr elapsed q' : Inv q sh -> i ∈ l_sinsts sh (Some m) ->
  known_instance fuel i rr elapsed q = Ok (tt, q') -> ptr_post q sh q'.
Proof using Hfuel.
  intros HI Hi H. unfold known_instance in H. destruct (r_ttl rr =? 0).
  - apply bind_inv in H as (s & q0 & [Hs ->]%get_sinst_inv & H). apply bind_inv in H as ([] & q1 & H1 & H).
    assert (wf q1 sh /\ watched sh /\ protocol (calls q1) /\ told_live q1 sh [i] /\ rx_msg q1 = rx_msg q /\
      sinsts q1 = sinsts q) as (W1 & Hw & Hp1 & Ht1 & R1 & S1).
    { destruct HI as [W Hw Hp Ht]. destruct (_ || _) eqn:Est; [|injection H1 as <-]; cycle 1.
      { split; [done|]. split; [done|]. split; [done|]. split; [|done].
        apply told_live_mono with []; [set_solver|done]. }
      apply DO_CALLBACK_inv in H1 as (s' & f & d & Hs' & ->). split; [by apply wf_call|]. split; [done|]. split.
      - apply protocol_snoc; [done|]. right. right. left. split; [done|]. cbn. apply (Ht m i); [done|set_solver|].
        unfold lk. rewrite Hs. cbn. apply orb_true_iff in Est as [Est|Est]; apply bool_decide_eq_true in Est; congruence.
      - split; [|done]. apply (told_call _ _ _ (mkCallback f d i s' MDNS_DISAPPEARED)) in Ht. done. }
    clear H1. rewrite <- S1 in Hs.
    destruct (cleanup_Inv fuel Hfuel q1 sh m i s [i] W1 Hw Ht1 Hi Hs) as (q2 & E2 & W2 & Hw2 & Ht2 & C2).
    rewrite E2 in H. injection H as <-. assert (calls q2 = calls q1) as Ec by (by apply (f_equal calls) in C2).
    assert (rx_msg q2 = rx_msg q1) as Er by (by apply (f_equal rx_msg) in C2).
    exists (sh_cleanup sh m i (si_arec s)). split; [|split; [apply cleanup_free_length|rewrite Er, R1; lia]].
    constructor; [done|done|by rewrite Ec|]. apply told_live_mono with (rem i [i]); [|done].
    intros x [Hx Hx']%elem_rem. set_solver.
  - destruct (sinst_cell _ _ (inv_wf _ _ HI) _ _ Hi) as [s Hs].
    pose proof H as H'. eapply upd_quiet in H as (HI1 & _ & _); [|by intros []|done|done].
    apply ptr_post_same; [done|]. apply upd_sinst_inv in H' as (x & _ & ->). done.
Qed.

(** *** A new instance *)

Lemma copy_servinfo_quiet s m n ret s' : copy_servinfo fuel s m n = Ok (ret, s') ->
  list_item s' = list_item s /\ alist_item s' = alist_item s /\ si_arec s' = si_arec s /\
  si_smon s' = si_smon s /\ si_state s' = si_state s.
Proof using.
  clear Hfuel. unfold copy_servinfo. intros ([r n1] & _ & H)%bind_ok. destruct (r =? -1); [injection H as <- <-; done|].
  apply bind_ok in H as ([[p|] b] & _ & H); [|injection H as <- <-; done].
  apply bind_ok in H as ([[p2|] b2] & _ & H); [|injection H as <- <-; done].
  apply bind_ok in H as (tcp & _ & H). apply bind_ok in H as (udp & _ & H).
  destruct (negb _); [injection H as <- <-; done|].
  apply bind_ok in H as ([p3|] & _ & H); [|injection H as <- <-; done].
  apply bind_ok in H as ([[p4|] b4] & _ & H); injection H as <- <-; done.
Qed.

Definition sh_new (sh : shape) (m i : nat) (l : list nat) : shape :=
  let sh := sh_sinsts sh None l in sh_sinsts sh (Some m) (i :: l_sinsts sh (Some m)).

Lemma new_elem sh m i l k x : l_sinsts sh None = i :: l ->
  x ∈ l_sinsts (sh_new sh m i l) k <->
  (k = Some m /\ x = i) \/ (k = None /\ x ∈ l) \/ (k <> None /\ x ∈ l_sinsts sh k).
Proof using.
  clear Hfuel fuel. intros E. unfold sh_new. cbn. rewrite !elem_fupd, elem_of_cons, elem_fupd.
  destruct k as [k|]; [|naive_solver]. destruct (decide (k = m)) as [->|]; naive_solver.
Qed.

Lemma linked_free_sinst q sh i s s' : linked q sh -> sinsts q !! i = Some s -> (forall k, i ∉ l_sinsts sh k) ->
  (forall a, i ∉ l_asinsts sh a) -> linked (q_sinsts q (<[i := s']> (sinsts q))) sh.
Proof using.
  clear Hfuel fuel. intros [H1 H2 H3 H4] Hs Hk Ha. constructor; cbn; [done| | |done].
  - eapply family_mem; [| |exact H2]; [|done]. intros k j Hj. unfold nexts, lk.
    rewrite list_lookup_insert_ne; [done|]. intros ->. by apply (Hk k).
  - eapply family_mem; [| |exact H3]; [|done]. intros k j Hj. unfold nexts, lk.
    rewrite list_lookup_insert_ne; [done|]. intros ->. by apply (Ha k).
Qed.

Lemma cross_new ar mo ar' mo' sh m i l : cross ar mo sh -> l_sinsts sh None = i :: l -> NoDup (i :: l) ->
  (forall k k' x, x ∈ l_sinsts sh k -> x ∈ l_sinsts sh k' -> k = k') -> (m < MDNS_MAX_SERVICE_MONITORS)%nat ->
  ar' i = Some None -> mo' i = Some (Some m) -> (forall j, j <> i -> ar' j = ar j) -> (forall j, j <> i -> mo' j = mo j) ->
  cross ar' mo' (sh_new sh m i l).
Proof using.
  clear Hfuel fuel. intros X E Hd Ds Hm Ei Mi Ej Mj.
  assert (forall k x, x ∈ l_sinsts sh (Some k) -> x <> i) as Hne.
  { intros k x Hx ->. assert (i ∈ l_sinsts sh None) as Hi by (rewrite E; set_solver). by pose proof (Ds _ _ _ Hx Hi). }
  constructor; cbn [l_arecs l_asinsts sh_new sh_sinsts].
  - intros k x [[[= ->] ->]|[[? _]|[_ Hx]]]%(new_elem _ _ _ _ _ _ E); [done|done|].
    rewrite Mj by (by eapply Hne). by apply (x_smon _ _ _ X).
  - intros a x. rewrite (x_arec _ _ _ X). split.
    + intros [[k Hk] Ha]. split; [exists k; apply (new_elem _ _ _ _ _ _ E); right; right; done|].
      rewrite Ej by (by eapply Hne). done.
    + intros [[k Hk] Ha]. apply (new_elem _ _ _ _ _ _ E) in Hk as [[_ ->]|[[? _]|[_ Hx]]]; [congruence|done|].
      rewrite Ej in Ha by (by eapply Hne). eauto.
  - apply (x_active _ _ _ X).
  - intros x. rewrite <- (x_sinsts _ _ _ X). setoid_rewrite (new_elem _ _ _ _ _ _ E). split.
    + intros [k [[-> ->]|[[-> Hx]|[_ Hx]]]]; [exists None; rewrite E; set_solver|exists None; rewrite E; set_solver|eauto].
    + intros [[k|] Hx]; [exists (Some k); naive_solver|]. rewrite E in Hx. apply elem_of_cons in Hx as [->|Hx].
      * exists (Some m). naive_solver.
      * exists None. naive_solver.
  - apply (x_arecs _ _ _ X).
Qed.

(** The free instance [i] is cleared and put on the list of the monitor. *)
Lemma attach_inv q sh m i l (c : Q unit) q' : Inv q sh -> m ∈ l_smons sh true -> l_sinsts sh None = i :: l ->
  (remove_head_sinsts_free;;
   upd_sinst i (fun _ => reset_service_instance);;
   insert_smon_sinsts m i;;
   upd_sinst i (fun s => with_si_smon s (Some m));;
   c) q = Ok (tt, q') ->
  exists q1 s1, c q1 = Ok (tt, q') /\ Inv q1 (sh_new sh m i l) /\ sinsts q1 !! i = Some s1 /\
    si_arec s1 = None /\ rx_msg q1 = rx_msg q.
Proof using.
  clear Hfuel fuel. intros [W Hw Hp Ht] Hm E H. pose proof (wf_linked _ _ W) as HL.
  assert (i ∈ l_sinsts sh None) as Hi by (rewrite E; set_solver).
  pose proof (fam_nodup _ _ _ (link_sinsts _ _ HL) None) as Hd. rewrite E in Hd.
  pose proof (fam_disjoint _ _ _ (link_sinsts _ _ HL)) as Ds.
  destruct (sinst_cell _ _ W None i Hi) as [s Hs].
  destruct (remove_head_sinsts_free_run _ _ HL i l E) as (q1 & E1 & HL1 & C1).
  destruct (core_sinst _ _ _ _ C1 Hs) as (s1 & Hs1 & _).
  assert (m < MDNS_MAX_SERVICE_MONITORS)%nat as Hmlt by (apply (w_smons _ Hw); eauto).
  destruct (smon_cell _ _ W m Hmlt) as [sm Hsm]. destruct (core_smon _ _ _ _ C1 Hsm) as (sm1 & Hsm1 & _).
  apply bind_inv in H as ([] & q1' & H1 & H). rewrite E1 in H1. injection H1 as <-.
  apply bind_inv in H as ([] & q2 & H2 & H). rewrite (upd_sinst_run _ _ _ _ Hs1) in H2. injection H2 as <-.
  set (q2 := q_sinsts q1 (<[i := reset_service_instance]> (sinsts q1))) in *.
  assert (forall k, i ∉ l_sinsts (sh_sinsts sh None l) k) as Hk.
  { intros k. rewrite l_sh_sinsts, elem_fupd. intros [[-> Hx]|[Hn Hx]]; [by apply NoDup_cons_1_1 in Hd|].
    apply Hn. by eapply Ds. }
  assert (linked q2 (sh_sinsts sh None l)) as HL2.
  { apply linked_free_sinst with s1; [done|done|exact Hk|]. cbn. intros a Ha.
    destruct (asinsts_live _ _ W a i Ha) as [k Hk']. by pose proof (Ds _ _ _ Hi Hk'). }
  assert (sinsts q2 !! i = Some reset_service_instance) as Hs2
    by (cbn; apply list_lookup_insert_eq; by eapply lookup_lt_Some).
  destruct (insert_smon_sinsts_run _ _ HL2 m sm1 i _ Hsm1 Hs2 Hk) as (q3 & E3 & HL3 & C3).
  apply bind_inv in H as ([] & q3' & H3 & H). rewrite E3 in H3. injection H3 as <-.
  destruct (core_sinst _ _ _ _ C3 Hs2) as (s3 & Hs3 & Es3).
  apply bind_inv in H as ([] & q4 & H4 & H). rewrite (upd_sinst_run _ _ _ _ Hs3) in H4. injection H4 as <-.
  set (q4 := q_sinsts q3 (<[i := with_si_smon s3 (Some m)]> (sinsts q3))) in *.
  exists q4, (with_si_smon s3 (Some m)). split; [done|].
  assert (calls q4 = calls q) as Ec by (apply (f_equal calls) in C1, C3; cbn in *; congruence).
  assert (core q4 = core (q_sinsts q (<[i := with_si_smon reset_service_instance (Some m)]> (sinsts q)))) as C4.
  { transitivity (core (q_sinsts q2 (<[i := with_si_smon reset_service_instance (Some m)]> (sinsts q2)))).
    - apply core_upd_sinst; [done|]. by apply (f_equal (fun s => with_si_smon s (Some m))) in Es3.
    - unfold q2. rewrite q_sinsts_twice. by apply core_upd_sinst. }
  split; [|split; [cbn; apply list_lookup_insert_eq; by eapply lookup_lt_Some|
    split; [by apply (f_equal si_arec) in Es3|by apply (f_equal rx_msg) in C4]]].
  constructor.
  - destruct (core_length _ _ C4) as (L1 & L2 & L3). constructor; [by apply linked_sinst with s3| |..].
    + eapply cross_new; [apply (wf_cross _ _ W)|done|done|done|done|..].
      * rewrite (core_lk_upd si_arec _ _ _ _ _ _ (fun _ => eq_refl) C4 Hs). by rewrite decide_True.
      * rewrite (core_lk_upd si_smon _ _ _ _ _ _ (fun _ => eq_refl) C4 Hs). by rewrite decide_True.
      * intros j Hj. rewrite (core_lk_upd si_arec _ _ _ _ _ _ (fun _ => eq_refl) C4 Hs). by rewrite decide_False.
      * intros j Hj. rewrite (core_lk_upd si_smon _ _ _ _ _ _ (fun _ => eq_refl) C4 Hs). by rewrite decide_False.
    + rewrite L1. cbn. rewrite length_insert. apply (wf_sinsts _ _ W).
    + rewrite L2. apply (wf_arecs _ _ W).
    + rewrite L3. apply (wf_smons _ _ W).
  - destruct Hw as [Hw1 Hw2]. constructor; [|done].
    intros k x [[[= ->] _]|[[? _]|[_ Hx]]]%(new_elem _ _ _ _ _ _ E); [done|done|by apply (Hw1 k x)].
  - by rewrite Ec.
  - intros k x Hx _ Hst. rewrite Ec. rewrite (core_lk_upd si_state _ _ _ _ _ _ (fun _ => eq_refl) C4 Hs) in Hst.
    destruct (decide (x = i)) as [->|Hxi]; [done|].
    apply (new_elem _ _ _ _ _ _ E) in Hx as [[_ ->]|[[? _]|[_ Hx]]]; [done|done|]. apply (Ht k x); [done|set_solver|done].
Qed.

(** The instance at the head of the list of the monitor goes back to the free list. *)
Lemma detach_inv q sh m i l s q' : Inv q sh -> l_sinsts sh (Some m) = i :: l -> sinsts q !! i = Some s ->
  si_arec s = None -> (remove_head_smon_sinsts m;; insert_sinsts_free i) q = Ok (tt, q') ->
  Inv q' (sh_cleanup sh m i None) /\ rx_msg q' = rx_msg q.
Proof using.
  clear Hfuel fuel. intros [W Hw Hp Ht] E Hs Ea H. pose proof (wf_linked _ _ W) as HL.
  assert (i ∈ l_sinsts sh (Some m)) as Hi by (rewrite E; set_solver).
  pose proof (fam_nodup _ _ _ (link_sinsts _ _ HL) (Some m)) as Hd. rewrite E in Hd.
  pose proof (fam_disjoint _ _ _ (link_sinsts _ _ HL)) as Ds.
  destruct (live_smon _ _ W m i s Hi Hs) as [_ Hmlt]. destruct (smon_cell _ _ W m Hmlt) as [sm Hsm].
  destruct (remove_head_smon_sinsts_run _ _ HL m sm i l Hsm E) as (q1 & E1 & HL1 & C1).
  assert (l = rem i (l_sinsts sh (Some m))) as El by (rewrite E; by pose proof (rem_middle i [] l Hd)).
  rewrite El in HL1. destruct (core_sinst _ _ _ _ C1 Hs) as (s1 & Hs1 & _).
  destruct (insert_sinsts_free_run _ _ HL1 i s1 Hs1) as (q2 & E2 & HL2 & C2).
  { intros k. rewrite l_sh_sinsts, elem_fupd, elem_rem. intros [(_ & ? & _)|(Hk & Hik)]; [done|]. apply Hk. by eapply Ds. }
  qstep_in H E1. rewrite E2 in H. injection H as <-. assert (core q2 = core q) as C by congruence.
  split; [|by apply (f_equal rx_msg) in C].
  assert (calls q2 = calls q) as Ec by (by apply (f_equal calls) in C).
  destruct (core_length _ _ C) as (L1 & L2 & L3). constructor.
  - constructor; [exact HL2| |rewrite L1; apply (wf_sinsts _ _ W)|rewrite L2; apply (wf_arecs _ _ W)|
      rewrite L3; apply (wf_smons _ _ W)].
    eapply cross_ext; [intros j; by apply core_lk_s with (q := q)|intros j; by apply core_lk_s with (q := q)|].
    apply cross_cleanup; [apply (wf_cross _ _ W)|done|apply (fam_disjoint _ _ _ (link_arecs _ _ HL))|done|].
    unfold lk. rewrite Hs. cbn. by rewrite Ea.
  - by apply watched_cleanup.
  - by rewrite Ec.
  - intros k x [_ Hx]%cleanup_live Hn Hst; [|done|done]. rewrite Ec. apply (Ht k x); [done|done|].
    by rewrite (core_lk_s si_state _ _ x) in Hst by done.
Qed.

Lemma new_instance_inv q sh m i l rr elapsed q' : Inv q sh -> m ∈ l_smons sh true -> l_sinsts sh None = i :: l ->
  new_instance fuel m i rr elapsed q = Ok (tt, q') -> ptr_post q sh q'.
Proof using.
  clear Hfuel. intros HI Hm E H. unfold new_instance in H. apply bind_inv in H as (msg & q0 & [= <- <-] & H).
  apply (attach_inv _ _ _ _ _ _ _ HI Hm E) in H as (q1 & s1 & H & HI1 & Hs1 & Ea1 & R1).
  apply bind_inv in H as (s & q0 & [Hs ->]%get_sinst_inv & H). rewrite Hs1 in Hs. injection Hs as <-.
  apply bind_inv in H as ([ret s2] & q0 & [Ec ->]%lift_inv & H). apply copy_servinfo_quiet in Ec as (K1 & K2 & K3 & K4 & K5).
  apply bind_inv in H as ([] & q2 & H2 & H). apply upd_sinst_inv in H2 as (s & Hs & ->).
  rewrite Hs1 in Hs. injection Hs as <-.
  apply (Inv_sinst _ _ _ _ s2 HI1 Hs1 K1 K2 K3 K4) in K5 as HI2.
  assert (sinsts (q_sinsts q1 (<[i:=s2]> (sinsts q1))) !! i = Some s2) as Hs2
    by (cbn; apply list_lookup_insert_eq; by eapply lookup_lt_Some).
  destruct (ret =? -1).
  - eapply detach_inv in H as [HI3 R3]; [|exact HI2| |exact Hs2|congruence].
    2: { unfold sh_new. by rewrite l_sh_sinsts, fupd_eq. }
    eexists. split; [exact HI3|]. rewrite R3. cbn [rx_msg q_sinsts]. rewrite R1.
    split; [|lia]. etransitivity; [|apply cleanup_free_length]. done.
  - pose proof H as H'. eapply upd_quiet in H as (HI3 & _ & _); [|by intros []|exact HI2|exact Hs2].
    eexists. split; [exact HI3|]. apply upd_sinst_inv in H' as (x & _ & ->). cbn. rewrite R1. auto.
Qed.

(** *** An instance there is no room for *)

Lemma Inv_overflow_arec q sh ar : Inv q sh -> ar_sinsts ar = None -> Inv (q_arecs q (<[overflow_arec := ar]> (arecs q))) sh.
Proof using.
  clear Hfuel fuel. intros [W Hw Hp Ht] Ea. constructor; [|done|done|done].
  assert (forall k, overflow_arec ∉ l_arecs sh k) as Hn.
  { intros k Hk. assert (overflow_arec < CACHE)%nat as Hlt by (apply (x_arecs _ _ _ (wf_cross _ _ W)); eauto).
    unfold overflow_arec in Hlt. lia. }
  assert (l_asinsts sh overflow_arec = []) as En.
  { destruct (l_asinsts sh overflow_arec) as [|x l] eqn:E; [done|]. destruct (Hn true).
    apply (x_active _ _ _ (wf_cross _ _ W) _ x). rewrite E. set_solver. }
  destruct W as [[H1 H2 H3 H4] HX L1 L2 L3]. constructor; cbn; try done.
  - constructor; cbn; [done|done| |].
    + eapply family_ext; [| | |exact H3]; [done| |done]. intros k. unfold h_asinsts. cbn.
      destruct (decide (k = overflow_arec)) as [->|Hk]; [|by rewrite list_lookup_insert_ne].
      rewrite list_lookup_insert_eq by (rewrite L2; unfold overflow_arec; lia). cbn. rewrite Ea.
      pose proof (chain_head _ _ _ (fam_chain _ _ _ H3 overflow_arec)) as Hc. rewrite En in Hc. by unfold h_asinsts in Hc.
    + eapply family_mem; [| |exact H4]; [|done]. intros k j Hj. unfold nexts, lk.
      rewrite list_lookup_insert_ne; [done|]. intros <-. by apply (Hn k).
  - by rewrite length_insert.
Qed.

(** The lists stay; records may leave the message. *)
Definition over_post (sh : shape) (q q' : qstate) : Prop :=
  Inv q' sh /\ (length (srvs (rx_msg q')) <= length (srvs (rx_msg q)))%nat.

Lemma upd_overflow q sh f q' : Inv q sh -> upd_sinst overflow_sinst f q = Ok (tt, q') ->
  Inv q' sh /\ rx_msg q' = rx_msg q.
Proof using. clear Hfuel fuel. intros HI (s & _ & ->)%upd_sinst_inv. split; [by apply Inv_overflow|done]. Qed.

Lemma record_for_inv m rr n q b q' : record_for fuel m rr n q = Ok (b, q') -> q' = q.
Proof using. clear Hfuel. intros (c & q1 & [_ ->]%lift_inv & H)%bind_inv. by injection H as <- <-. Qed.

Lemma overflow_txt_inv q sh r q' : Inv q sh -> overflow_txt fuel r q = Ok (tt, q') -> over_post sh q q'.
Proof using.
  clear Hfuel. intros HI H. unfold overflow_txt in H. apply bind_inv in H as (m & q0 & [= <- <-] & H).
  apply bind_inv in H as (s & q0 & [_ ->]%get_sinst_inv & H). apply bind_inv in H as (b & q0 & ->%record_for_inv & H).
  destruct b; [|injection H as <-; split; [done|lia]].
  apply bind_inv in H as ([c s'] & q0 & [_ ->]%lift_inv & H). apply bind_inv in H as ([] & q1 & H1 & H).
  apply (upd_overflow _ _ _ _ HI) in H1 as [HI1 R1]. apply bind_inv in H as (m & q2 & [= <- <-] & H). injection H as <-.
  split; [by apply Inv_rx|]. cbn. by rewrite R1.
Qed.

Lemma overflow_srv_inv q sh r q' : Inv q sh -> overflow_srv fuel r q = Ok (tt, q') -> over_post sh q q'.
Proof using.
  clear Hfuel. intros HI H. unfold overflow_srv in H. apply bind_inv in H as (m & q0 & [= <- <-] & H).
  apply bind_inv in H as (s & q0 & [_ ->]%get_sinst_inv & H). apply bind_inv in H as (b & q0 & ->%record_for_inv & H).
  destruct b; [|injection H as <-; split; [done|lia]].
  apply bind_inv in H as (p & q0 & [_ ->]%lift_inv & H). apply bind_inv in H as ([] & q1 & H1 & H).
  apply (upd_overflow _ _ _ _ HI) in H1 as [HI1 R1].
  apply bind_inv in H as ([c n] & q0 & [_ ->]%lift_inv & H). apply bind_inv in H as ([] & q2 & H2 & H).
  unfold upd_arec in H2. apply bind_inv in H2 as (ar & q3 & [_ ->]%get_arec_inv & H2). injection H2 as <-.
  apply bind_inv in H as (m & q3 & [= <- <-] & H). injection H as <-.
  split; [apply Inv_rx, Inv_overflow_arec; done|]. cbn. rewrite R1. apply length_filter.
Qed.

Lemma over_records body sh l q q' : (forall r q q', Inv q sh -> body r q = Ok (tt, q') -> over_post sh q q') ->
  Inv q sh -> for_records body l q = Ok (tt, q') -> over_post sh q q'.
Proof using.
  clear Hfuel fuel. intros Hb. revert q. induction l as [|r l IH]; intros q HI H; cbn in H; [injection H as <-; split; [done|lia]|].
  apply bind_inv in H as ([] & q1 & H1 & H). destruct (Hb _ _ _ HI H1) as [HI1 L1]. destruct (IH _ HI1 H) as [HI2 L2].
  split; [done|lia].
Qed.

Lemma overflow_a_inv l q sh q' : Inv q sh -> overflow_a fuel l q = Ok (tt, q') -> Inv q' sh /\ rx_msg q' = rx_msg q.
Proof using.
  clear Hfuel. revert q. induction l as [|r l IH]; intros q HI H; cbn in H; [injection H as <-; done|].
  apply bind_inv in H as (m & q0 & [= <- <-] & H). apply bind_inv in H as (ar & q0 & [_ ->]%get_arec_inv & H).
  apply bind_inv in H as (b & q0 & ->%record_for_inv & H). destruct b; [|by apply IH].
  apply bind_inv in H as (ip & q0 & [_ ->]%lift_inv & H). by apply (upd_overflow _ sh) in H.
Qed.

Lemma CACHE_FULL_inv q sh q' : Inv q sh -> DO_CALLBACK overflow_sinst MDNS_CACHE_FULL q = Ok (tt, q') ->
  Inv q' sh /\ rx_msg q' = rx_msg q.
Proof using.
  clear Hfuel fuel. intros [W Hw Hp Ht] (s & f & d & _ & ->)%DO_CALLBACK_inv. split; [|done].
  constructor; [by apply wf_call|done| |].
  - apply protocol_snoc; [done|]. right. right. right. done.
  - intros m i Hi Hx Hst. cbn. apply told_other; [|by apply (Ht m i)]. cbn. intros <-.
    by apply (overflow_not_listed q sh (Some m) W).
Qed.

Lemma overflow_instance_inv q sh m rr q' : Inv q sh -> overflow_instance fuel m rr q = Ok (tt, q') -> ptr_post q sh q'.
Proof using.
  clear Hfuel. intros HI H. unfold overflow_instance in H. destruct (r_ttl rr =? 0); [injection H as <-; by apply ptr_post_same|].
  apply bind_inv in H as (msg & q0 & [= <- <-] & H). apply bind_inv in H as ([ret s] & q0 & [_ ->]%lift_inv & H).
  apply bind_inv in H as ([] & q1 & H1 & H). apply (upd_overflow _ _ _ _ HI) in H1 as [HI1 R1].
  destruct (ret =? -1); [injection H as <-; by apply ptr_post_same|].
  apply bind_inv in H as ([] & q2 & H2 & H). apply over_records with (sh := sh) in H2 as [HI2 L2]; [|by intros r p p'; apply overflow_txt_inv|done].
  apply bind_inv in H as ([] & q3 & H3 & H). apply over_records with (sh := sh) in H3 as [HI3 L3]; [|by intros r p p'; apply overflow_srv_inv|done].
  apply bind_inv in H as (s' & q0 & [_ ->]%get_sinst_inv & H). apply bind_inv in H as ([] & q4 & H4 & H).
  assert (Inv q4 sh /\ rx_msg q4 = rx_msg q3) as [HI4 R4].
  { destruct (si_arec s'); [by apply (overflow_a_inv _ _ sh) in H4|by injection H4 as <-]. }
  apply (CACHE_FULL_inv _ _ _ HI4) in H as [HI5 R5]. exists sh. split; [done|]. split; [done|]. rewrite R5, R4, <- R1. lia.
Qed.

(** *** The records of the message *)

Lemma update_ptr_inv q sh elapsed r q' : Inv q sh -> update_ptr fuel elapsed r q = Ok (tt, q') -> ptr_post q sh q'.
Proof using Hfuel.
  intros HI H. unfold update_ptr in H. apply bind_inv in H as (msg & q0 & [= <- <-] & H).
  pose proof (wf_linked _ _ (inv_wf _ _ HI)) as HL.
  apply bind_inv in H as (om & q0 & Hf & H). apply (find_service_monitor_inv _ _ _ _ _ _ _ HL) in Hf as [-> Hm].
  destruct om as [m|]; [|injection H as <-; by apply ptr_post_same]. specialize (Hm m eq_refl).
  apply bind_inv in H as (oi & q0 & Hf & H). apply (find_service_instance_inv _ _ _ _ _ _ _ _ HL) in Hf as [-> Hi].
  destruct oi as [i|]; [by eapply known_instance_inv; [|apply Hi|exact H]|].
  apply bind_inv in H as (free & q0 & [= <- <-] & H).
  destruct (heads_eq _ _ HL) as (_ & _ & E & _). rewrite E in H.
  destruct (l_sinsts sh None) as [|i l] eqn:El; cbn in H; [by eapply overflow_instance_inv|by eapply new_instance_inv].
Qed.

Lemma update_ptrs_inv elapsed l q sh q' : Inv q sh -> for_records (update_ptr fuel elapsed) l q = Ok (tt, q') -> ptr_post q sh q'.
Proof using Hfuel.
  revert q sh. induction l as [|r l IH]; intros q sh HI H; cbn in H; [injection H as <-; by apply ptr_post_same|].
  apply bind_inv in H as ([] & q1 & H1 & H). apply (update_ptr_inv _ _ _ _ _ HI) in H1 as (sh1 & HI1 & F1 & L1).
  destruct (IH _ _ HI1 H) as (sh2 & HI2 & F2 & L2). exists sh2. split; [done|]. lia.
Qed.

(** A SRV record takes at most one free A record. *)
Lemma update_record_inv e q sh elapsed r q' : e = SINST_EVENT_GOT_TXT \/ e = SINST_EVENT_GOT_SRV /\ l_arecs sh false <> [] ->
  Inv q sh -> update_record fuel e elapsed r q = Ok (tt, q') ->
  exists sh', Inv q' sh' /\ (length (l_arecs sh false) <=
    (match e with SINST_EVENT_GOT_SRV => 1 | _ => 0 end) + length (l_arecs sh' false))%nat.
Proof using Hfuel.
  intros He HI H. unfold update_record in H. apply bind_inv in H as (msg & q0 & [= <- <-] & H).
  pose proof (wf_linked _ _ (inv_wf _ _ HI)) as HL. apply bind_inv in H as (nx & q0 & [_ ->]%lift_inv & H).
  apply bind_inv in H as (om & q0 & Hf & H). apply (find_service_monitor_inv _ _ _ _ _ _ _ HL) in Hf as [-> Hm].
  destruct om as [m|]; [|injection H as <-; exists sh; split; [done|lia]].
  apply bind_inv in H as (oi & q0 & Hf & H). apply (find_service_instance_inv _ _ _ _ _ _ _ _ HL) in Hf as [-> Hi].
  destruct oi as [i|]; [|injection H as <-; exists sh; split; [done|lia]]. specialize (Hi i eq_refl).
  apply bind_inv in H as (ret & q1 & H1 & H). injection H as <-. destruct (sinst_cell _ _ (inv_wf _ _ HI) _ _ Hi) as [s Hs].
  eapply update_sinst_inv in H1 as (sh1 & HI1 & Ho); [|exact Hfuel|exact HI|exact Hi|exact Hs|].
  2: { destruct He as [->|[-> He]]; cbn; auto. }
  exists sh1. split; [done|]. destruct He as [->|[-> _]]; cbn in *.
  - by subst.
  - destruct Ho as [->|(_ & _ & Ho)]; [pose proof (cleanup_free_length sh m i (si_arec s)); lia|lia].
Qed.

Lemma update_txts_inv elapsed l q sh q' : Inv q sh ->
  for_records (update_record fuel SINST_EVENT_GOT_TXT elapsed) l q = Ok (tt, q') ->
  exists sh', Inv q' sh' /\ (length (l_arecs sh false) <= length (l_arecs sh' false))%nat.
Proof using Hfuel.
  revert q sh. induction l as [|r l IH]; intros q sh HI H; cbn in H; [injection H as <-; eauto|].
  apply bind_inv in H as ([] & q1 & H1 & H). apply (update_record_inv _ _ sh) in H1 as (sh1 & HI1 & F1); [|by left|done].
  destruct (IH _ _ HI1 H) as (sh2 & HI2 & F2). exists sh2. split; [done|]. cbn in F1. lia.
Qed.

Lemma update_srvs_inv elapsed l q sh q' : Inv q sh -> (length l <= length (l_arecs sh false))%nat ->
  for_records (update_record fuel SINST_EVENT_GOT_SRV elapsed) l q = Ok (tt, q') -> exists sh', Inv q' sh'.
Proof using Hfuel.
  revert q sh. induction l as [|r l IH]; intros q sh HI Hl H; cbn in H; [injection H as <-; eauto|].
  apply bind_inv in H as ([] & q1 & H1 & H). apply (update_record_inv _ _ sh) in H1 as (sh1 & HI1 & F1); [| |done].
  - apply (IH _ sh1 HI1); [|done]. cbn in *. lia.
  - right. split; [done|]. intros E. rewrite E in Hl. cbn in Hl. lia.
Qed.

Lemma update_as_inv elapsed l q sh q' : Inv q sh -> for_records (update_a fuel elapsed) l q = Ok (tt, q') -> exists sh', Inv q' sh'.
Proof using Hfuel.
  revert q sh. induction l as [|r l IH]; intros q sh HI H; cbn in H; [injection H as <-; eauto|].
  apply bind_inv in H as ([] & q1 & H1 & H). unfold update_a in H1. apply bind_inv in H1 as (msg & q0 & [= <- <-] & H1).
  apply bind_inv in H1 as (oa & q0 & Hf & H1).
  apply (find_arec_inv _ _ _ _ _ _ _ (wf_linked _ _ (inv_wf _ _ HI))) in Hf as [-> Ha].
  destruct oa as [a|]; [|injection H1 as <-; by apply (IH q sh)].
  apply bind_inv in H1 as (ret & q2 & H2 & H1). injection H1 as <-.
  eapply update_arec_inv in H2 as (sh1 & HI1 & _); [by apply (IH _ sh1 HI1 H)|exact Hfuel|exact HI|by apply Ha].
Qed.

(** A whole message, when there is a free A record for every SRV record in it. *)
Lemma update_service_cache_inv q sh elapsed ret q' : Inv q sh ->
  (length (srvs (rx_msg q)) <= length (l_arecs sh false))%nat ->
  update_service_cache fuel elapsed q = Ok (ret, q') -> exists sh', Inv q' sh'.
Proof using Hfuel.
  intros HI Hl H. unfold update_service_cache in H. apply bind_inv in H as (msg & q0 & [= <- <-] & H).
  apply bind_inv in H as (qr & q0 & [_ ->]%lift_inv & H). destruct (negb _); [injection H as <- <-; eauto|].
  apply bind_inv in H as ([] & q1 & H1 & H). apply (update_ptrs_inv _ _ _ _ _ HI) in H1 as (sh1 & HI1 & F1 & L1).
  apply bind_inv in H as (msg & q0 & [= <- <-] & H).
  apply bind_inv in H as ([] & q2 & H2 & H). apply (update_txts_inv _ _ _ _ _ HI1) in H2 as (sh2 & HI2 & F2).
  apply bind_inv in H as ([] & q3 & H3 & H). apply (update_srvs_inv _ _ _ _ _ HI2) in H3 as (sh3 & HI3); [|lia].
  apply bind_inv in H as ([] & q4 & H4 & H). apply (update_as_inv _ _ _ _ _ HI3) in H4 as (sh4 & HI4).
  injection H as <- <-. eauto.
Qed.
End Fuel.
