(* ===== verification/QuerierLoop.v ===== *)
(** * The thread of the querier

    Monitors are added and removed, queries are prepared, and the iterations of
    the thread: each keeps the invariant [Inv] of QuerierInv.v. *)
From stdpp Require Import sets.
From S2P Require Import Prelude Buffer Slist SlistSpec Dname Message.
From S2P Require Import Querier QuerierSpec QuerierWf QuerierInv QuerierRun QuerierPacket.

(** ** Monitors *)

(** Assignments to a monitor that is on no list and has no instances. *)
Lemma linked_free_smon q sh m sm : linked q sh -> (m < length (smons q))%nat -> (forall k, m ∉ l_smons sh k) ->
  l_sinsts sh (Some m) = [] -> sm_sinsts sm = None -> linked (q_smons q (<[m := sm]> (smons q))) sh.
Proof.
  intros [H1 H2 H3 H4] Hm Hk Hn E. constructor; cbn; [| |done|done].
  - eapply family_mem; [| |exact H1]; [|done]. intros k j Hj. unfold nexts, lk.
    rewrite list_lookup_insert_ne; [done|]. intros ->. by apply (Hk k).
  - eapply family_ext; [| | |exact H2]; [done| |done]. intros [k|]; [|done]. cbn.
    destruct (decide (k = m)) as [->|Hne]; [|by rewrite list_lookup_insert_ne].
    rewrite list_lookup_insert_eq by done. cbn. rewrite E.
    pose proof (chain_head _ _ _ (fam_chain _ _ _ H2 (Some m))) as Hc. rewrite Hn in Hc. by cbn in Hc.
Qed.

Lemma idle_empty q sh m : Inv q sh -> m ∈ l_smons sh false -> l_sinsts sh (Some m) = [].
Proof.
  intros HI Hm. destruct (l_sinsts sh (Some m)) as [|x l] eqn:E; [done|]. exfalso.
  assert (m ∈ l_smons sh true) as Ha by (apply (w_live _ (inv_watched _ _ HI) m x); rewrite E; set_solver).
  by pose proof (fam_disjoint _ _ _ (link_smons _ _ (wf_linked _ _ (inv_wf _ _ HI))) _ _ _ Hm Ha).
Qed.

(** The lists after [add_service] took the monitor [m]. *)
Definition sh_watch (sh : shape) (m : nat) (l : list nat) : shape :=
  sh_smons (sh_smons sh false l) true (m :: l_smons sh true).

Lemma watch_elem sh m l x k : l_smons sh false = m :: l ->
  x ∈ l_smons (sh_watch sh m l) k <-> (k = true /\ x = m) \/ (k = false /\ x ∈ l) \/ (k = true /\ x ∈ l_smons sh true).
Proof.
  intros E. unfold sh_watch. cbn. rewrite !elem_fupd, elem_of_cons. destruct k; naive_solver.
Qed.

(** A type that no active monitor watches is taken by the first free monitor. *)
Lemma watch_run fuel q sh sm m l : Inv q sh -> find_own_monitor fuel (sm_fqst sm) q = Ok (None, q) ->
  l_smons sh false = m :: l ->
  exists q', add_service fuel sm q = Ok (MDNS_SUCCESS, q') /\ rx_msg q' = rx_msg q /\ Inv q' (sh_watch sh m l).
Proof.
  intros HI Hf El. pose proof (inv_wf _ _ HI) as W. pose proof (wf_linked _ _ W) as HL.
  destruct (heads_eq _ _ HL) as (_ & E & _). rewrite El in E. cbn in E.
  assert (m ∈ l_smons sh false) as Hm by (rewrite El; set_solver). pose proof (idle_empty _ _ _ HI Hm) as Hn.
  assert (m < MDNS_MAX_SERVICE_MONITORS)%nat as Hlt by (apply (w_smons _ (inv_watched _ _ HI)); eauto).
  destruct (smon_cell _ _ W _ Hlt) as [sm0 Hsm0].
  destruct (remove_head_smons_free_run _ _ HL m l El) as (q1 & E1 & HL1 & C1).
  destruct (core_smon _ _ _ _ C1 Hsm0) as (sm1 & Hsm1 & _).
  assert (forall k, m ∉ l_smons (sh_smons sh false l) k) as Hk.
  { intros k. cbn. rewrite elem_fupd. pose proof (fam_nodup _ _ _ (link_smons _ _ HL) false) as Hd. rewrite El in Hd.
    intros [[-> Hx]|[Hne Hx]]; [by apply NoDup_cons_1_1 in Hd|]. apply Hne.
    by apply (fam_disjoint _ _ _ (link_smons _ _ HL) k false m). }
  assert (m < length (smons q1))%nat as Hml by (by eapply lookup_lt_Some).
  set (sm2 := smon_with_refresh (smon_with_sinsts sm None) 1000 0).
  pose proof (linked_free_smon _ _ _ sm2 HL1 Hml Hk Hn eq_refl) as HL2.
  set (q2 := q_smons q1 (<[m:=sm2]> (smons q1))) in *.
  assert (smons q2 !! m = Some sm2) as Hsm2 by (cbn; by apply list_lookup_insert_eq).
  destruct (insert_smons_active_run _ _ HL2 m sm2 Hsm2 Hk) as (q3 & E3 & HL3 & C3). exists q3. split; [|split].
  { unfold add_service. qstep Hf. rewrite (bind_run _ _ _ (smons_free q) q), E by done. cbv iota. qstep E1.
    qstep (upd_smon_run _ _ (fun _ => sm) _ Hsm1). rewrite (bind_run _ _ _ tt q2); [by qstep E3|].
    rewrite (upd_smon_run _ _ _ sm) by (cbn; by apply list_lookup_insert_eq). cbn [smons q_smons].
    by rewrite list_insert_insert_eq. }
  { apply (f_equal rx_msg) in C1, C3. cbn in *. congruence. }
  assert (sinsts (core q3) = sinsts (core q)) as Cs by (apply (f_equal sinsts) in C1, C3; cbn in *; congruence).
  assert (calls q3 = calls q) as Cc by (apply (f_equal calls) in C1, C3; cbn in *; congruence).
  destruct (core_length _ _ C1) as (L1 & L2 & L3). destruct (core_length _ _ C3) as (M1 & M2 & M3).
  destruct HI as [W' Hw Hp Ht]. constructor.
  - constructor; [exact HL3| |..].
    + eapply cross_ext; [intros j; by apply (lk_erase si_arec (sinsts q))|intros j; by apply (lk_erase si_smon (sinsts q))|].
      destruct (wf_cross _ _ W) as [X1 X2 X3 X4 X5]. by constructor.
    + rewrite M1. cbn. rewrite L1. apply (wf_sinsts _ _ W).
    + rewrite M2. cbn. rewrite L2. apply (wf_arecs _ _ W).
    + rewrite M3. cbn. rewrite length_insert, L3. apply (wf_smons _ _ W).
  - destruct Hw as [Hw1 Hw2]. constructor.
    + intros k i Hi. apply (watch_elem _ _ _ _ _ El). right. right. split; [done|]. by apply (Hw1 k i).
    + intros k. rewrite <- Hw2. setoid_rewrite (watch_elem _ _ _ _ _ El). split.
      * intros [b [[-> ->]|[[-> Hx]|[-> Hx]]]]; [eauto| |eauto]. exists false. rewrite El. set_solver.
      * intros [[] Hx]; [exists true; naive_solver|]. rewrite El in Hx. apply elem_of_cons in Hx as [->|Hx];
          [exists true|exists false]; naive_solver.
  - by rewrite Cc.
  - intros k i Hi Hx Hst. rewrite Cc. apply (Ht k i); [done|done|].
    by rewrite (lk_erase si_state (sinsts q) (sinsts q3) i) in Hst by done.
Qed.

(** The three outcomes. *)
Lemma add_service_run fuel q sh sm om : Inv q sh -> find_own_monitor fuel (sm_fqst sm) q = Ok (om, q) ->
  (exists ret, add_service fuel sm q = Ok (ret, q) /\ (ret = MDNS_INUSE \/ ret = MDNS_NOMEM)) \/
  (exists q' m l, add_service fuel sm q = Ok (MDNS_SUCCESS, q') /\ rx_msg q' = rx_msg q /\ l_smons sh false = m :: l /\
    Inv q' (sh_watch sh m l)).
Proof.
  intros HI Hf. destruct om as [m|]; [left; exists MDNS_INUSE; unfold add_service; qstep Hf; auto|].
  destruct (l_smons sh false) as [|m l] eqn:El.
  - left. exists MDNS_NOMEM. unfold add_service. qstep Hf. rewrite (bind_run _ _ _ (smons_free q) q) by done.
    destruct (heads_eq _ _ (wf_linked _ _ (inv_wf _ _ HI))) as (_ & -> & _). rewrite El. auto.
  - right. destruct (watch_run _ _ _ _ _ _ HI Hf El) as (q' & E & Er & HI'). by exists q', m, l.
Qed.

Lemma add_service_inv fuel q sh sm ret q' : Inv q sh -> add_service fuel sm q = Ok (ret, q') ->
  (q' = q /\ (ret = MDNS_INUSE \/ ret = MDNS_NOMEM)) \/
  (ret = MDNS_SUCCESS /\ rx_msg q' = rx_msg q /\ exists m l, l_smons sh false = m :: l /\ Inv q' (sh_watch sh m l)).
Proof.
  intros HI H. pose proof H as H'. unfold add_service in H'. apply bind_inv in H' as (om & q0 & Hf & _).
  pose proof Hf as [-> _]%(find_own_monitor_inv _ _ _ _ _ _ (wf_linked _ _ (inv_wf _ _ HI))).
  destruct (add_service_run _ _ _ _ _ HI Hf) as [(r & E & Hr)|(q1 & m & l & E & Er & El & HI1)];
    rewrite E in H; injection H as <- <-; [auto|]. right. eauto 10.
Qed.

Section Fuel.
Context (fuel : nat) (Hfuel : (CACHE <= fuel)%nat).

(** [cleanup_service] returns; the instances of the monitor [m], and only
    these, are free now. *)
Lemma cleanup_service_run q sh m : wf q sh -> told_live q sh [] -> (m < MDNS_MAX_SERVICE_MONITORS)%nat ->
  exists q' sh', cleanup_service fuel m q = Ok (tt, q') /\ wf q' sh' /\ told_live q' sh' [] /\
    l_smons sh' = l_smons sh /\ l_sinsts sh' (Some m) = [] /\
    (forall k i, i ∈ l_sinsts sh' (Some k) -> i ∈ l_sinsts sh (Some k)) /\
    (length (l_arecs sh false) <= length (l_arecs sh' false))%nat /\ calls q' = calls q /\ rx_msg q' = rx_msg q.
Proof using Hfuel.
  intros W Ht Hm. destruct (smon_cell _ _ W m Hm) as [sm Hsm].
  set (J := fun (rest : list nat) (_ : unit) (q' : qstate) => exists sh', wf q' sh' /\ told_live q' sh' [] /\
    l_smons sh' = l_smons sh /\ l_sinsts sh' (Some m) = rest /\
    (forall k i, i ∈ l_sinsts sh' (Some k) -> i ∈ l_sinsts sh (Some k)) /\
    (length (l_arecs sh false) <= length (l_arecs sh' false))%nat /\ calls q' = calls q /\ rx_msg q' = rx_msg q).
  destruct (foreach_safe_run next_sinst (fun i (_ : unit) => cleanup_sinst fuel i) J) with (fuel := fuel)
    (l := l_sinsts sh (Some m)) (b := tt) (q := q) as (b & q' & E & sh' & HJ).
  - intros i rest [] p (s' & W' & _ & _ & El & _).
    destruct (sinst_cell _ _ W' (Some m) i) as [s Hs]; [rewrite El; set_solver|].
    unfold next_sinst. qstep (get_sinst_run _ _ _ Hs).
    pose proof (family_next _ _ _ _ _ [] _ _ _ (link_sinsts _ _ (wf_linked _ _ W')) El Hs) as En. cbn in En. by rewrite En.
  - intros i rest [] p (s' & W' & Ht' & Em & El & Hsub & Ha & Ec & Er).
    assert (i ∈ l_sinsts s' (Some m)) as Hi by (rewrite El; set_solver).
    destruct (sinst_cell _ _ W' (Some m) i Hi) as [s Hs].
    destruct (cleanup_told fuel Hfuel p s' m i s [] W' Ht' Hi Hs) as (p' & E & W2 & Ht2 & C2).
    exists tt, p'. split; [done|]. exists (sh_cleanup s' m i (si_arec s)). split; [done|]. split; [done|].
    split; [by rewrite cleanup_smons|]. split.
    { rewrite cleanup_sinsts_eq, El. pose proof (fam_nodup _ _ _ (link_sinsts _ _ (wf_linked _ _ W')) (Some m)) as Hd.
      rewrite El in Hd. by pose proof (rem_middle i [] rest Hd). }
    pose proof (fam_disjoint _ _ _ (link_sinsts _ _ (wf_linked _ _ W'))) as Ds.
    split; [intros k x [_ Hx]%cleanup_live; [by apply Hsub|done|done]|].
    pose proof (cleanup_free_length s' m i (si_arec s)). split; [lia|].
    apply (f_equal (fun q => (calls q, rx_msg q))) in C2. cbn in C2. split; congruence.
  - exists sh. auto 10.
  - pose proof (sinsts_short _ _ W (Some m)). lia.
  - exists q', sh'. split; [|done]. unfold cleanup_service. qstep (get_smon_run _ _ _ Hsm).
    rewrite (smon_head _ _ _ _ (wf_linked _ _ W) Hsm). by destruct b.
Qed.

(** A monitor that was taken off the active list is cleaned up and freed. *)
Lemma release_run q q1 sh m : Inv q sh -> m ∈ l_smons sh true ->
  linked q1 (sh_smons sh true (rem m (l_smons sh true))) -> core q1 = core q ->
  exists q' sh', (cleanup_service fuel m;; insert_smons_free m) q1 = Ok (tt, q') /\ Inv q' sh' /\
    l_smons sh' true = rem m (l_smons sh true) /\ (length (l_arecs sh false) <= length (l_arecs sh' false))%nat /\
    calls q' = calls q /\ rx_msg q' = rx_msg q.
Proof using Hfuel.
  intros [W [Hw1 Hw2] Hp Ht] Hm HL1 C1. destruct (core_length _ _ C1) as (L1 & L2 & L3).
  set (sh1 := sh_smons sh true (rem m (l_smons sh true))) in *.
  assert (m < MDNS_MAX_SERVICE_MONITORS)%nat as Hlt by (apply Hw2; eauto).
  assert (wf q1 sh1) as W1.
  { constructor; [done| |rewrite L1; apply (wf_sinsts _ _ W)|rewrite L2; apply (wf_arecs _ _ W)|
      rewrite L3; apply (wf_smons _ _ W)].
    eapply cross_ext; [intros j; by apply core_lk_s with (q := q)|intros j; by apply core_lk_s with (q := q)|].
    destruct (wf_cross _ _ W) as [X1 X2 X3 X4 X5]. by constructor. }
  assert (calls q1 = calls q) as Ec1 by (by apply (f_equal calls) in C1).
  assert (told_live q1 sh1 []) as Ht1.
  { intros k i Hi Hx Hst. rewrite Ec1. apply (Ht k i); [done|done|].
    by rewrite (core_lk_s si_state q q1 i) in Hst by done. }
  destruct (cleanup_service_run q1 sh1 m W1 Ht1 Hlt) as (q2 & sh2 & E2 & W2 & Ht2 & Em2 & En2 & Hsub & Ha & Ec2 & Er2).
  destruct (smon_cell _ _ W2 m Hlt) as [sm Hsm].
  pose proof (fam_disjoint _ _ _ (link_smons _ _ (wf_linked _ _ W))) as Dm.
  destruct (insert_smons_free_run _ _ (wf_linked _ _ W2) m sm Hsm) as (q3 & E3 & HL3 & C3).
  { intros k. rewrite Em2. cbn. rewrite elem_fupd, elem_rem. intros [(_ & ? & _)|(Hk & Hx)]; [done|].
    apply Hk. by apply (Dm k true m). }
  assert (calls q3 = calls q2) as Ec3 by (by apply (f_equal calls) in C3).
  destruct (core_length _ _ C3) as (M1 & M2 & M3).
  eexists q3, _. split; [by qstep E2|]. split; [|split; [|split; [|split]]].
  - constructor.
    + constructor; [exact HL3| |rewrite M1; apply (wf_sinsts _ _ W2)|rewrite M2; apply (wf_arecs _ _ W2)|
        rewrite M3; apply (wf_smons _ _ W2)].
      eapply cross_ext; [intros j; by apply core_lk_s with (q := q2)|intros j; by apply core_lk_s with (q := q2)|].
      destruct (wf_cross _ _ W2) as [X1 X2 X3 X4 X5]. by constructor.
    + constructor; cbn.
      * intros k i Hi. rewrite fupd_ne, Em2 by done. cbn. rewrite fupd_eq, elem_rem. split; [|by eapply Hw1, Hsub].
        intros ->. rewrite En2 in Hi. by apply elem_of_nil in Hi.
      * intros k. rewrite <- Hw2. rewrite Em2. cbn.
        setoid_rewrite elem_fupd. setoid_rewrite elem_of_cons. rewrite (fupd_ne _ true _ false) by done.
        setoid_rewrite elem_fupd. setoid_rewrite elem_rem. split.
        -- intros [b [[-> [->|Hx]]|[Hb [[-> [_ Hx]]|[? Hx]]]]]; eauto.
        -- intros [[] Hx]; [|exists false; naive_solver].
           destruct (decide (k = m)) as [->|Hk]; [exists false|exists true]; naive_solver.
    + rewrite Ec3, Ec2, Ec1. done.
    + intros k i Hi Hx Hst. rewrite Ec3. apply (Ht2 k i); [done|done|].
      by rewrite (core_lk_s si_state q2 q3 i) in Hst by done.
  - cbn. rewrite fupd_ne, Em2 by done. cbn. by rewrite fupd_eq.
  - exact Ha.
  - congruence.
  - apply (f_equal rx_msg) in C1, C3. cbn in C1, C3. congruence.
Qed.

(** [remove_all_services] returns and leaves no active monitor. *)
Lemma remove_all_run rounds q sh : Inv q sh -> (length (l_smons sh true) <= rounds)%nat ->
  exists q' sh', remove_all_services rounds fuel q = Ok (tt, q') /\ Inv q' sh' /\ l_smons sh' true = [] /\
    (length (l_arecs sh false) <= length (l_arecs sh' false))%nat /\ calls q' = calls q /\ rx_msg q' = rx_msg q.
Proof using Hfuel.
  revert q sh. induction rounds as [|n IH]; intros q sh HI Hn.
  - assert (l_smons sh true = []) as E by (destruct (l_smons sh true); cbn in Hn; [done|lia]).
    destruct (heads_eq _ _ (wf_linked _ _ (inv_wf _ _ HI))) as (Eh & _). rewrite E in Eh. cbn in Eh.
    exists q, sh. split; [|auto 10]. cbn. unfold gets, mbind, Q_bind. by rewrite Eh.
  - destruct (heads_eq _ _ (wf_linked _ _ (inv_wf _ _ HI))) as (Eh & _).
    destruct (l_smons sh true) as [|m l] eqn:El.
    { exists q, sh. split; [|auto 10]. cbn. unfold gets, mbind, Q_bind. by rewrite Eh. }
    destruct (remove_head_smons_active_run _ _ (wf_linked _ _ (inv_wf _ _ HI)) m l El) as (q1 & E1 & HL1 & C1).
    pose proof (fam_nodup _ _ _ (link_smons _ _ (wf_linked _ _ (inv_wf _ _ HI))) true) as Hd. rewrite El in Hd.
    assert (l = rem m (l_smons sh true)) as Er by (rewrite El; by pose proof (rem_middle m [] l Hd)).
    rewrite Er in HL1. destruct (release_run q q1 sh m HI) as (q2 & sh2 & E2 & HI2 & Em2 & Ha2 & Ec2 & Er2);
      [rewrite El; set_solver|done|done|].
    rewrite <- Er in Em2. destruct (IH q2 sh2 HI2) as (q3 & sh3 & E3 & HI3 & Em3 & Ha3 & Ec3 & Er3); [rewrite Em2; cbn in Hn; lia|].
    exists q3, sh3. split; [|split; [done|split; [done|split; [lia|split; congruence]]]].
    cbn. rewrite (bind_run _ _ _ (Some m) q) by (unfold gets; by rewrite Eh). qstep E1.
    apply bind_inv in E2 as ([] & q2' & E2 & E2'). qstep E2. qstep E2'. exact E3.
Qed.

Lemma smons_short q sh k : Inv q sh -> (length (l_smons sh k) <= CACHE)%nat.
Proof using.
  clear Hfuel fuel. intros HI. transitivity MDNS_MAX_SERVICE_MONITORS; [|by apply Nat.leb_le].
  apply short_list; [apply (fam_nodup _ _ _ (link_smons _ _ (wf_linked _ _ (inv_wf _ _ HI))))|].
  intros m Hm. apply (w_smons _ (inv_watched _ _ HI)). eauto.
Qed.

Lemma remove_service_run q sh n c om : Inv q sh -> rd n 0 = Ok c -> (c <> 0 -> find_own_monitor fuel n q = Ok (om, q)) ->
  exists q' sh', remove_service fuel n q = Ok (tt, q') /\ Inv q' sh' /\
    (length (l_arecs sh false) <= length (l_arecs sh' false))%nat /\ calls q' = calls q /\ rx_msg q' = rx_msg q.
Proof using Hfuel.
  intros HI Hc Hf. unfold remove_service. pose proof (wf_linked _ _ (inv_wf _ _ HI)) as HL.
  qstep (lift_run _ q _ Hc). pose proof (smons_short q sh true HI) as Hs. destruct (Z.eqb_spec c 0) as [->|Hne].
  - destruct (remove_all_run fuel q sh HI) as (q1 & sh1 & E & HI1 & _ & Ha & Ec & Er); [lia|]. by exists q1, sh1.
  - specialize (Hf Hne). qstep Hf. pose proof Hf as [_ Hm]%(find_own_monitor_inv _ _ _ _ _ _ HL).
    destruct om as [m|]; [|by exists q, sh]. specialize (Hm m eq_refl).
    destruct (remove_smons_active_run fuel _ _ HL m Hm) as (q1 & E1 & HL1 & C1); [lia|]. qstep E1.
    destruct (release_run q q1 sh m HI Hm HL1 C1) as (q2 & sh2 & E2 & HI2 & _ & Ha & Ec & Er). by exists q2, sh2.
Qed.

Lemma remove_service_inv q sh n q' : Inv q sh -> remove_service fuel n q = Ok (tt, q') ->
  exists sh', Inv q' sh' /\ (length (l_arecs sh false) <= length (l_arecs sh' false))%nat /\
    calls q' = calls q /\ rx_msg q' = rx_msg q.
Proof using Hfuel.
  intros HI H. pose proof H as H'. unfold remove_service in H'. apply bind_inv in H' as (c & q0 & [Hc ->]%lift_inv & H').
  assert (exists om, c <> 0 -> find_own_monitor fuel n q = Ok (om, q)) as [om Hf].
  { destruct (Z.eqb_spec c 0) as [->|Hne]; [by exists None|]. apply bind_inv in H' as (om & q0 & Hf & _).
    pose proof Hf as [-> _]%(find_own_monitor_inv _ _ _ _ _ _ (wf_linked _ _ (inv_wf _ _ HI))). by exists om. }
  destruct (remove_service_run q sh n c om HI Hc Hf) as (q1 & sh1 & E & HI1 & Hr). rewrite E in H. injection H as <-.
  by exists sh1.
Qed.

(** ** The next query *)

(** One A record, and one instance, of the lists that are walked. *)
Lemma arec_round elapsed q sh d a rest r q' : Inv q sh -> l_arecs sh true = d ++ a :: rest ->
  update_arec fuel a AREC_EVENT_ADD_QUESTIONS default_resource elapsed q = Ok (r, q') ->
  exists sh' d', Inv q' sh' /\ l_smons sh' = l_smons sh /\ l_arecs sh' true = d' ++ rest.
Proof using Hfuel.
  intros HI E H1. eapply update_arec_inv in H1 as (sh1 & HI1 & Em1 & Ea1); [|exact Hfuel|exact HI|rewrite E; set_solver].
  pose proof (fam_nodup _ _ _ (link_arecs _ _ (wf_linked _ _ (inv_wf _ _ HI))) true) as Hd. rewrite E in Hd.
  destruct Ea1 as [Ea|Ea]; rewrite E in Ea.
  - exists sh1, (d ++ [a]). split; [done|]. split; [done|]. by rewrite <- app_assoc.
  - exists sh1, d. split; [done|]. split; [done|]. rewrite Ea. by apply rem_middle.
Qed.

Lemma sinst_round elapsed q sh m d i rest r q' : Inv q sh -> l_sinsts sh (Some m) = d ++ i :: rest ->
  update_sinst fuel i SINST_EVENT_ADD_QUESTIONS None default_resource elapsed q = Ok (r, q') ->
  exists sh' d', Inv q' sh' /\ l_smons sh' = l_smons sh /\ l_sinsts sh' (Some m) = d' ++ rest.
Proof using Hfuel.
  intros HI E H1. assert (i ∈ l_sinsts sh (Some m)) as Hi by (rewrite E; set_solver).
  destruct (sinst_cell _ _ (inv_wf _ _ HI) _ _ Hi) as [s Hs].
  eapply update_sinst_inv in H1 as (sh1 & HI1 & Ho); [|exact Hfuel|exact HI|exact Hi|exact Hs|done].
  pose proof (fam_nodup _ _ _ (link_sinsts _ _ (wf_linked _ _ (inv_wf _ _ HI))) (Some m)) as Hd. rewrite E in Hd.
  destruct Ho as [->| ->].
  - exists sh, (d ++ [i]). split; [done|]. split; [done|]. by rewrite <- app_assoc.
  - exists (sh_cleanup sh m i (si_arec s)), d. split; [done|]. split; [by rewrite cleanup_smons|].
    rewrite cleanup_sinsts_eq, E. by apply rem_middle.
Qed.

Lemma arecs_loop_inv elapsed q sh acc acc' q' : Inv q sh ->
  foreach_safe fuel next_arec
    (fun a (acc : Z * Z) =>
       r ← update_arec fuel a AREC_EVENT_ADD_QUESTIONS default_resource elapsed;
       ar ← get_arec a;
       mret (fst acc + r, MIN (snd acc) (ar_next_refresh ar)))
    (head (l_arecs sh true)) acc q = Ok (acc', q') ->
  exists sh', Inv q' sh' /\ l_smons sh' = l_smons sh.
Proof using Hfuel.
  intros HI H. set (J := fun (rest : list nat) (_ : Z * Z) (q : qstate) =>
    exists sh' d, Inv q sh' /\ l_smons sh' = l_smons sh /\ l_arecs sh' true = d ++ rest).
  eapply (foreach_safe_inv _ _ J) in H; [| | |exists sh, []; auto].
  - destruct H as (sh' & d & ? & ? & _). eauto.
  - clear. intros a rest acc p n p' (sh' & d & HI & _ & E) H.
    by apply (next_arec_inv _ _ _ _ _ _ _ _ (wf_linked _ _ (inv_wf _ _ HI)) E) in H.
  - clear H HI q acc acc' q'. intros a rest acc p acc' p' (sh' & d & HI & Em & E) H.
    apply bind_inv in H as (r & p1 & H1 & H). apply bind_inv in H as (ar & p2 & [_ ->]%get_arec_inv & H). injection H as <- <-.
    destruct (arec_round _ _ _ _ _ _ _ _ HI E H1) as (sh1 & d1 & HI1 & Em1 & E1). exists sh1, d1. split; [done|]. split; [congruence|done].
Qed.

Lemma sinsts_loop_inv elapsed q sh m acc acc' q' : Inv q sh ->
  foreach_safe fuel next_sinst
    (fun i (acc : Z * Z) =>
       r ← update_sinst fuel i SINST_EVENT_ADD_QUESTIONS None default_resource elapsed;
       s ← get_sinst i;
       mret (fst acc + r, MIN (snd acc) (next_refresh s)))
    (head (l_sinsts sh (Some m))) acc q = Ok (acc', q') ->
  exists sh', Inv q' sh' /\ l_smons sh' = l_smons sh.
Proof using Hfuel.
  intros HI H. set (J := fun (rest : list nat) (_ : Z * Z) (q : qstate) =>
    exists sh' d, Inv q sh' /\ l_smons sh' = l_smons sh /\ l_sinsts sh' (Some m) = d ++ rest).
  eapply (foreach_safe_inv _ _ J) in H; [| | |exists sh, []; auto].
  - destruct H as (sh' & d & ? & ? & _). eauto.
  - clear. intros a rest acc p n p' (sh' & d & HI & _ & E) H.
    by apply (next_sinst_inv _ _ _ _ _ _ _ _ (wf_linked _ _ (inv_wf _ _ HI)) E) in H.
  - clear H HI q acc acc' q'. intros i rest acc p acc' p' (sh' & d & HI & Em & E) H.
    apply bind_inv in H as (r & p1 & H1 & H). apply bind_inv in H as (s1 & p2 & [_ ->]%get_sinst_inv & H). injection H as <- <-.
    destruct (sinst_round _ _ _ _ _ _ _ _ _ HI E H1) as (sh1 & d1 & HI1 & Em1 & E1). exists sh1, d1. split; [done|]. split; [congruence|done].
Qed.

(** Assignments to a monitor that keep its links. *)
Lemma upd_smon_inv q sh m f q' : (forall sm, sm_list_item (f sm) = sm_list_item sm /\ sm_sinsts (f sm) = sm_sinsts sm) ->
  Inv q sh -> upd_smon m f q = Ok (tt, q') -> Inv q' sh.
Proof using.
  clear Hfuel fuel. intros Hf HI H. unfold upd_smon in H. apply bind_inv in H as (sm & q1 & [Hm ->]%get_smon_inv & H).
  injection H as <-. destruct (Hf sm). by apply Inv_smon with sm.
Qed.

Lemma refresh_smon_inv elapsed q sh m acc r q' : Inv q sh -> refresh_smon fuel elapsed m acc q = Ok (r, q') ->
  exists sh', Inv q' sh' /\ l_smons sh' = l_smons sh.
Proof using Hfuel.
  destruct acc as [ret ne]. intros HI H. unfold refresh_smon in H. apply bind_inv in H as (sm & q0 & [_ ->]%get_smon_inv & H).
  apply bind_inv in H as (r1 & q1 & H1 & H).
  assert (Inv q1 sh) as HI1.
  { clear H. destruct (_ <=? elapsed).
    - apply bind_inv in H1 as (msg & q0 & [= <- <-] & H1). apply bind_inv in H1 as ([] & q2 & H2 & H1).
      eapply upd_smon_inv in H2; [|by intros []|exact HI]. apply bind_inv in H1 as ([e msg] & q0 & [_ ->]%lift_inv & H1).
      apply bind_inv in H1 as ([] & q3 & [= <-] & H1). destruct (negb _); injection H1 as <- <-; by apply Inv_tx.
    - apply bind_inv in H1 as ([] & q2 & H2 & H1). eapply upd_smon_inv in H2; [|by intros []|exact HI].
      by injection H1 as <- <-. }
  destruct r1 as [e|acc]; [injection H as <- <-; eauto|].
  apply bind_inv in H as (sm1 & q0 & [Hm1 ->]%get_smon_inv & H). apply bind_inv in H as (acc1 & q2 & H2 & H). injection H as <- <-.
  rewrite (smon_head _ _ _ _ (wf_linked _ _ (inv_wf _ _ HI1)) Hm1) in H2. by apply (sinsts_loop_inv _ _ _ _ _ _ _ HI1) in H2.
Qed.

Lemma refresh_smons_inv elapsed rounds : forall d rest q sh acc r q', Inv q sh -> l_smons sh true = d ++ rest ->
  refresh_smons rounds fuel elapsed (head rest) acc q = Ok (r, q') -> exists sh', Inv q' sh' /\ l_smons sh' = l_smons sh.
Proof using Hfuel.
  induction rounds as [|n IH]; intros d [|m rest] q sh acc r q' HI E H; cbn in H; [injection H as <- <-; eauto|done| |].
  - injection H as <- <-. eauto.
  - apply bind_inv in H as (r1 & q1 & H1 & H). apply (refresh_smon_inv _ _ _ _ _ _ _ HI) in H1 as (sh1 & HI1 & Em).
    destruct r1 as [e|acc1]; [injection H as <- <-; eauto|]. apply bind_inv in H as (nx & q2 & H2 & H).
    rewrite <- Em in E. apply (next_smon_inv _ _ _ _ _ _ _ _ (wf_linked _ _ (inv_wf _ _ HI1)) E) in H2 as [-> ->].
    apply (IH (d ++ [m])) with (sh := sh1) in H as (sh2 & HI2 & Em2); [|done|by rewrite <- app_assoc].
    exists sh2. split; [done|congruence].
Qed.

Lemma add_known_answers_loop_inv n : forall m cur q sh r q', Inv q sh -> add_known_answers_loop n m cur q = Ok (r, q') -> Inv q' sh.
Proof using.
  clear Hfuel fuel. induction n as [|n IH]; intros m [i|] q sh r q' HI H; cbn in H; try by injection H as <- <-.
  { done. }
  apply bind_inv in H as (s & q0 & [_ ->]%get_sinst_inv & H). destruct (ptr_ttl s =? 0); [by eapply IH|].
  apply bind_inv in H as (l & q0 & [_ ->]%lift_inv & H). apply bind_inv in H as (msg & q0 & [= <- <-] & H).
  destruct (_ <? l); [by injection H as <- <-|]. apply bind_inv in H as (sm & q0 & [_ ->]%get_smon_inv & H).
  apply bind_inv in H as ([e1 m1] & q0 & [_ ->]%lift_inv & H). apply bind_inv in H as ([] & q1 & H1 & H).
  eapply upd_smon_inv in H1; [|by intros []|exact HI]. apply bind_inv in H as (nm & q0 & [_ ->]%lift_inv & H).
  apply bind_inv in H as ([e2 m2] & q0 & [_ ->]%lift_inv & H). apply bind_inv in H as ([] & q2 & [= <-] & H).
  eapply IH; [|exact H]. by apply Inv_tx.
Qed.

Lemma known_loop_inv q sh acc acc' q' : Inv q sh ->
  foreach fuel next_smon
    (fun m next_event =>
       sm ← get_smon m;
       if sm_next_refresh sm =? 0 then
         _ ← add_known_answers fuel m;
         sm ← get_smon m;
         upd_smon m (fun sm => smon_with_refresh sm (refresh_period sm) (refresh_period sm));;
         mret (MIN next_event (refresh_period sm))
       else mret next_event)
    (head (l_smons sh true)) acc q = Ok (acc', q') -> Inv q' sh.
Proof using.
  clear Hfuel. intros HI H. set (J := fun (rest : list nat) (_ : Z) (q : qstate) => Inv q sh /\ exists d, l_smons sh true = d ++ rest).
  eapply (foreach_inv _ _ J) in H; [by destruct H| |split; [done|by exists []]].
  clear H HI. intros m rest b p b' p' [HI [d E]] H.
  assert (Inv p' sh) as HI'.
  { apply bind_inv in H as (sm & q0 & [_ ->]%get_smon_inv & H). destruct (_ =? 0); [|by injection H as <- <-].
    apply bind_inv in H as (r & q1 & H1 & H). unfold add_known_answers in H1.
    apply bind_inv in H1 as (sm1 & q0 & [_ ->]%get_smon_inv & H1). apply add_known_answers_loop_inv with (sh := sh) in H1; [|done].
    apply bind_inv in H as (sm2 & q0 & [_ ->]%get_smon_inv & H). apply bind_inv in H as ([] & q2 & H2 & H).
    eapply upd_smon_inv in H2; [|by intros []|exact H1]. by injection H as <- <-. }
  split; [split; [done|exists (d ++ [m]); by rewrite <- app_assoc]|].
  intros n p2 Hn. by apply (next_smon_inv _ _ _ _ _ _ _ _ (wf_linked _ _ (inv_wf _ _ HI')) E) in Hn.
Qed.

Lemma prepare_query_inv elapsed q sh r q' : Inv q sh -> prepare_query fuel elapsed q = Ok (r, q') -> exists sh', Inv q' sh'.
Proof using Hfuel.
  intros HI H. unfold prepare_query in H. apply bind_inv in H as (msg & q0 & [= <- <-] & H).
  apply bind_inv in H as ([e m] & q0 & [_ ->]%lift_inv & H). apply bind_inv in H as ([] & q1 & [= <-] & H).
  apply (Inv_tx _ _ m) in HI. destruct (negb _); [injection H as <- <-; eauto|].
  apply bind_inv in H as (act & q0 & [= <- <-] & H). apply bind_inv in H as ([ret ne] & q2 & H2 & H).
  destruct (heads_eq _ _ (wf_linked _ _ (inv_wf _ _ HI))) as (_ & _ & _ & Ea & _). cbn in Ea; rewrite Ea in H2.
  apply (arecs_loop_inv _ _ _ _ _ _ HI) in H2 as (sh2 & HI2 & Em2).
  apply bind_inv in H as (act & q0 & [= <- <-] & H). apply bind_inv in H as (r3 & q3 & H3 & H).
  destruct (heads_eq _ _ (wf_linked _ _ (inv_wf _ _ HI2))) as (Em & _). rewrite Em in H3.
  apply (refresh_smons_inv _ _ [] _ _ sh2) in H3 as (sh3 & HI3 & Em3); [|done|done].
  destruct r3 as [e3|[ret3 ne3]]; [injection H as <- <-; eauto|]. destruct (ret3 =? 0); [injection H as <- <-; eauto|].
  apply bind_inv in H as (act & q0 & [= <- <-] & H). apply bind_inv in H as (ne4 & q4 & H4 & H). injection H as <- <-.
  destruct (heads_eq _ _ (wf_linked _ _ (inv_wf _ _ HI3))) as (Em4 & _). rewrite Em4 in H4.
  apply (known_loop_inv _ _ _ _ _ HI3) in H4. eauto.
Qed.
End Fuel.
