(* ===== verification/QuerierThread.v ===== *)
(** * Runs of the querier thread

    [reachable]: the states of the querier between iterations, from
    [query_launch] on, for any control messages, packets and times, as long as
    a packet never carries more SRV records than there are free A records
    ([roomy]; mdns_query.c does not keep its lists consistent when they run
    out, see QuerierTheorems.v).  Every reachable state satisfies the invariant. *)
From stdpp Require Import sets.
From S2P Require Import Prelude Platform Buffer Slist SlistSpec Dname Message.
From S2P Require Import Querier QuerierSpec QuerierWf QuerierInv QuerierRun QuerierPacket QuerierLoop.

(** ** Lists, by walking them *)

Fixpoint cells {A} (n : nat) (f : link A) (s : list A) (h : option nat) : list nat :=
  match n, h with
  | S n', Some i => i :: match s !! i with Some a => cells n' f s (next_of f a) | None => [] end
  | _, _ => []
  end.

Lemma cells_chain {A} (f : link A) s h l n : chain (nexts f s) h l -> (length l <= n)%nat -> cells n f s h = l.
Proof.
  revert h n. induction l as [|i l IH]; intros h n Hc Hn; cbn in Hc; [subst; by destruct n|].
  destruct Hc as (-> & x & Hx & Hc). destruct n as [|n]; cbn in Hn; [lia|]. cbn. f_equal.
  unfold nexts, lk in Hx. destruct (s !! i) as [a|]; [|done]. cbn in Hx. injection Hx as Hx. rewrite Hx.
  apply IH; [done|lia].
Qed.

(** The cells of the free lists, and the monitors that are active. *)
Definition free_arecs (q : qstate) : list nat := cells CACHE arec_link (arecs q) (arecs_free q).
Definition free_sinsts (q : qstate) : list nat := cells CACHE sinst_link (sinsts q) (sinsts_free q).
Definition active_smons (q : qstate) : list nat := cells CACHE smon_link (smons q) (smons_active q).

Lemma free_arecs_eq q sh : Inv q sh -> free_arecs q = l_arecs sh false.
Proof.
  intros HI. apply cells_chain; [apply (fam_chain _ _ _ (link_arecs _ _ (wf_linked _ _ (inv_wf _ _ HI))) false)|].
  apply (arecs_short _ _ (inv_wf _ _ HI)).
Qed.
Lemma free_sinsts_eq q sh : Inv q sh -> free_sinsts q = l_sinsts sh None.
Proof.
  intros HI. apply cells_chain; [apply (fam_chain _ _ _ (link_sinsts _ _ (wf_linked _ _ (inv_wf _ _ HI))) None)|].
  apply (sinsts_short _ _ (inv_wf _ _ HI)).
Qed.
Lemma active_smons_eq q sh : Inv q sh -> active_smons q = l_smons sh true.
Proof.
  intros HI. apply cells_chain; [apply (fam_chain _ _ _ (link_smons _ _ (wf_linked _ _ (inv_wf _ _ HI))) true)|].
  by apply smons_short with q.
Qed.

Definition active_arecs (q : qstate) : list nat := cells CACHE arec_link (arecs q) (arecs_active q).
Definition smon_cells (q : qstate) (m : nat) : list nat := cells CACHE sinst_link (sinsts q) (h_sinsts q (Some m)).
Definition arec_cells (q : qstate) (a : nat) : list nat := cells CACHE sinst_alink (sinsts q) (h_asinsts q a).

Lemma active_arecs_eq q sh : Inv q sh -> active_arecs q = l_arecs sh true.
Proof.
  intros HI. apply cells_chain; [apply (fam_chain _ _ _ (link_arecs _ _ (wf_linked _ _ (inv_wf _ _ HI))) true)|].
  apply (arecs_short _ _ (inv_wf _ _ HI)).
Qed.
Lemma smon_cells_eq q sh m : Inv q sh -> smon_cells q m = l_sinsts sh (Some m).
Proof.
  intros HI. apply cells_chain; [apply (fam_chain _ _ _ (link_sinsts _ _ (wf_linked _ _ (inv_wf _ _ HI))) (Some m))|].
  apply (sinsts_short _ _ (inv_wf _ _ HI)).
Qed.
Lemma arec_cells_eq q sh a : Inv q sh -> arec_cells q a = l_asinsts sh a.
Proof.
  intros HI. apply cells_chain; [apply (fam_chain _ _ _ (link_asinsts _ _ (wf_linked _ _ (inv_wf _ _ HI))) a)|].
  apply (asinsts_short _ _ (inv_wf _ _ HI)).
Qed.

(** Without active monitors every instance is free. *)
Lemma idle_free q sh : Inv q sh -> l_smons sh true = [] -> l_sinsts sh None ≡ₚ seq 0 CACHE.
Proof.
  intros HI E. apply NoDup_Permutation.
  - apply (fam_nodup _ _ _ (link_sinsts _ _ (wf_linked _ _ (inv_wf _ _ HI))) None).
  - apply NoDup_seq.
  - intros i. rewrite elem_of_seq. cbn [Nat.add].
    pose proof (x_sinsts _ _ _ (wf_cross _ _ (inv_wf _ _ HI)) i) as Hx. split.
    + intros Hi. split; [lia|]. apply Hx. eauto.
    + intros [_ Hi]. apply Hx in Hi as [[m|] Hi]; [|done]. apply (w_live _ (inv_watched _ _ HI)) in Hi.
      rewrite E in Hi. by apply elem_of_nil in Hi.
Qed.

(** ** One iteration *)

(** [recvfrom] and [mdns_parse_message] of one packet. *)
Definition rx_parse (fuel : nat) (m : mdns_message) (p : list Z) : res (Z * mdns_message) :=
  let p := take (length (data m)) p in
  d ← wr_range (data m) 0 p;
  mdns_parse_message fuel (set_data m d) (Zlen p).

(** The packet of the iteration, if any, has no more SRV records than there are
    free A records. *)
Definition roomy (fuel : nat) (it : qiteration) (q : qstate) : bool :=
  match q_mc_in it with
  | Some (Some p) =>
      match rx_parse fuel (rx_msg q) p with
      | Ok (ret, m) => negb (ret =? 0) || (length (srvs m) <=? length (free_arecs q))%nat
      | _ => true
      end
  | _ => true
  end.

Inductive reachable (fuel : nat) : qstate -> Prop :=
  | reach_launch io c ret q : query_launch io c zero_state = Ok (ret, q) -> reachable fuel q
  | reach_step it out q q' : reachable fuel q -> roomy fuel it q = true -> querier_step fuel it q = Ok (out, q') ->
      reachable fuel q'.

(** *** The initial state *)

Definition init_shape : shape :=
  mkShape (fun k : bool => if k then [] else rev (seq 0 MDNS_MAX_SERVICE_MONITORS))
    (fun k => match k with None => rev (seq 0 CACHE) | Some _ => [] end) (fun _ => [])
    (fun k : bool => if k then [] else rev (seq 0 CACHE)).

Definition init_state : qstate :=
  match init_lists zero_state with Ok (_, q) => q | _ => zero_state end.

Lemma init_lists_run : init_lists zero_state = Ok (tt, init_state).
Proof. by vm_compute. Qed.

(** [chain] is decidable. *)
Fixpoint chainb (nx : nat -> option (option nat)) (h : option nat) (l : list nat) : bool :=
  match l with
  | [] => bool_decide (h = None)
  | i :: l' => bool_decide (h = Some i) && match nx i with Some n => chainb nx n l' | None => false end
  end.

Lemma chainb_ok nx h l : chainb nx h l = true -> chain nx h l.
Proof.
  revert h. induction l as [|i l IH]; intros h; cbn; [apply bool_decide_eq_true|].
  intros [->%bool_decide_eq_true H]%andb_true_iff. split; [done|]. destruct (nx i) as [n|]; [|done]. eauto.
Qed.

Lemma init_linked : linked init_state init_shape.
Proof.
  constructor; (constructor; [intros k|intros k|intros k k' i]).
  - apply chainb_ok. destruct k; by vm_compute.
  - destruct k; cbn [init_shape l_smons]; [constructor|apply (bool_decide_unpack _); by vm_compute].
  - destruct k, k'; cbn; try done; try (by intros _ ?%elem_of_nil); by intros ?%elem_of_nil.
  - apply chainb_ok. destruct k as [m|]; [|by vm_compute]. apply bool_decide_eq_true. unfold h_sinsts.
    destruct (smons init_state !! m) as [sm|] eqn:E; [|done]. cbn.
    assert (Forall (fun sm => sm_sinsts sm = None) (smons init_state)) as Hn by (vm_compute; by repeat constructor).
    by apply (Forall_lookup_1 _ _ _ _ Hn E).
  - destruct k; cbn [init_shape l_sinsts]; [constructor|apply (bool_decide_unpack _); by vm_compute].
  - destruct k, k'; cbn; try done; try (by intros _ ?%elem_of_nil); by intros ?%elem_of_nil.
  - apply chainb_ok, bool_decide_eq_true. unfold h_asinsts.
    destruct (arecs init_state !! k) as [ar|] eqn:E; [|done]. cbn.
    assert (Forall (fun ar => ar_sinsts ar = None) (arecs init_state)) as Hn by (vm_compute; by repeat constructor).
    by apply (Forall_lookup_1 _ _ _ _ Hn E).
  - constructor.
  - by intros ?%elem_of_nil.
  - apply chainb_ok. destruct k; by vm_compute.
  - destruct k; cbn [init_shape l_arecs]; [constructor|apply (bool_decide_unpack _); by vm_compute].
  - destruct k, k'; cbn; try done; try (by intros _ ?%elem_of_nil); by intros ?%elem_of_nil.
Qed.

Lemma elem_of_rev_seq n i : i ∈ rev (seq 0 n) <-> (i < n)%nat.
Proof. rewrite list_elem_of_In, <- in_rev, <- list_elem_of_In, elem_of_seq. lia. Qed.

Lemma init_Inv : Inv init_state init_shape.
Proof.
  constructor.
  - constructor; [apply init_linked| |by vm_compute..]. constructor; cbn [init_shape l_sinsts l_asinsts l_arecs].
    + by intros m i ?%elem_of_nil.
    + intros a i. split; [by intros ?%elem_of_nil|]. intros [[m Hm] _]. by apply elem_of_nil in Hm.
    + by intros a i ?%elem_of_nil.
    + intros i. rewrite <- elem_of_rev_seq. split; [|by exists None].
      intros [[m|] Hi]; [by apply elem_of_nil in Hi|done].
    + intros i. rewrite <- elem_of_rev_seq. split; [|by exists false].
      intros [[] Hi]; [by apply elem_of_nil in Hi|done].
  - constructor; cbn [init_shape l_sinsts l_smons]; [by intros m i ?%elem_of_nil|].
    intros i. rewrite <- elem_of_rev_seq. split; [|by exists false]. intros [[] Hi]; [by apply elem_of_nil in Hi|done].
  - apply protocol_nil.
  - intros m i Hi. exfalso. exact (not_elem_of_nil i Hi).
Qed.

Lemma launch_lists io c q0 q1 ret q : init_lists q0 = Ok (tt, q1) -> query_launch io c q0 = Ok (ret, q) -> q = q1.
Proof.
  intros E. unfold query_launch. rewrite (bind_run _ _ _ _ _ E).
  destruct (_ <? 0); [by intros [= _ <-]|]. destruct (_ <? 0); [by intros [= _ <-]|].
  by intros [= _ <-].
Qed.

Lemma query_launch_inv io c ret q : query_launch io c zero_state = Ok (ret, q) -> q = init_state.
Proof. exact (launch_lists io c _ _ ret q init_lists_run). Qed.

Section Fuel.
Context (fuel : nat) (Hfuel : (CACHE <= fuel)%nat).

Lemma querier_ctrl_inv q sh ret msg r q' : Inv q sh -> querier_ctrl fuel ret msg q = Ok (r, q') ->
  exists sh', Inv q' sh' /\ (length (l_arecs sh false) <= length (l_arecs sh' false))%nat /\ rx_msg q' = rx_msg q.
Proof using Hfuel.
  intros HI H. unfold querier_ctrl in H. destruct (_ || _); [injection H as <- <-; eauto|].
  destruct (_ =? MDNS_CTRL_HALT); [injection H as <- <-; eauto|]. destruct (_ =? MDNS_CTRL_MONITOR).
  - destruct (ctrl_data msg) as [|sm|]; [done| |done]. apply bind_inv in H as (st & q1 & H1 & H). injection H as <- <-.
    apply (add_service_inv _ _ _ _ _ _ HI) in H1 as [[-> _]|(_ & Er & m & l & _ & HI1)]; eauto.
  - destruct (_ =? MDNS_CTRL_UNMONITOR); [|injection H as <- <-; eauto].
    destruct (ctrl_data msg) as [| |n]; [done|done|]. apply bind_inv in H as ([] & q1 & H1 & H). injection H as <- <-.
    apply (remove_service_inv _ Hfuel _ _ _ _ HI) in H1 as (sh' & HI' & Ha & _ & Er). eauto.
Qed.

Lemma querier_rx_inv p sleep q sh q' : Inv q sh ->
  (forall m, rx_parse fuel (rx_msg q) p = Ok (0, m) -> (length (srvs m) <= length (l_arecs sh false))%nat) ->
  querier_rx fuel p sleep q = Ok (tt, q') -> exists sh', Inv q' sh'.
Proof using Hfuel.
  intros HI Hr H. unfold querier_rx in H. apply bind_inv in H as (m & q0 & [= <- <-] & H).
  apply bind_inv in H as (d & q0 & [Ed ->]%lift_inv & H). apply bind_inv in H as ([ret m] & q0 & [Ep ->]%lift_inv & H).
  apply bind_inv in H as ([] & q1 & [= <-] & H). apply (Inv_rx _ _ m) in HI.
  destruct (Z.eqb_spec ret 0) as [->|_]; [|injection H as <-; eauto].
  apply bind_inv in H as (r & q1 & H1 & H). injection H as <-.
  eapply update_service_cache_inv in H1; [done|exact Hfuel|exact HI|]. cbn. apply Hr. unfold rx_parse. by rewrite Ed.
Qed.

(** The parts of an iteration: the control message, the packet, the query. *)
Definition step_ctrl (it : qiteration) : Q (option Z * bool) :=
  match q_ctrl_in it with
  | None => mret (None, true)
  | Some None => mret (Some MDNS_INVAL, true)
  | Some (Some (ret, msg)) => '(st, en) ← querier_ctrl fuel ret msg; mret (Some st, en)
  end.
Definition step_sleep (it : qiteration) : Z := ADD (interval (q_start_wait it) (q_stop_wait it)) 1.
Definition step_rx (it : qiteration) : Q unit :=
  match q_mc_in it with Some (Some p) => querier_rx fuel p (step_sleep it) | _ => mret tt end.

Lemma step_ctrl_inv it q sh r q' : Inv q sh -> step_ctrl it q = Ok (r, q') ->
  exists sh', Inv q' sh' /\ (length (l_arecs sh false) <= length (l_arecs sh' false))%nat /\ rx_msg q' = rx_msg q.
Proof using Hfuel.
  intros HI H. unfold step_ctrl in H. destruct (q_ctrl_in it) as [[[n msg]|]|]; [|injection H as <- <-; eauto..].
  apply bind_inv in H as ([s e] & q2 & H2 & H). injection H as <- <-. by eapply querier_ctrl_inv.
Qed.

(** The state after each part satisfies the invariant. *)
Lemma step_parts it q sh out q' : Inv q sh -> roomy fuel it q = true -> querier_step fuel it q = Ok (out, q') ->
  exists r q1, step_ctrl it q = Ok (r, q1) /\
    ((exists sh', Inv q' sh') /\ q' = q1 \/
     exists q2 sh2 o, step_rx it q1 = Ok (tt, q2) /\ Inv q2 sh2 /\ querier_query fuel (step_sleep it) q2 = Ok (o, q')).
Proof using Hfuel.
  intros HI Hr H. unfold querier_step in H. apply bind_inv in H as ([st en] & q1 & H1 & H).
  exists (st, en), q1. split; [exact H1|]. destruct (step_ctrl_inv _ _ _ _ _ HI H1) as (sh1 & HI1 & Ha & Er).
  destruct (q_mc_in it) as [[p|]|] eqn:Ep.
  - right. apply bind_inv in H as ([] & q2 & H2 & H). apply bind_inv in H as ([pkt t] & q3 & H3 & H). injection H as <- <-.
    pose proof H2 as [sh2 HI2]%(querier_rx_inv _ _ _ _ _ HI1).
    + exists q2, sh2, (pkt, t). split; [unfold step_rx; by rewrite Ep|done].
    + intros m Em. unfold roomy in Hr. rewrite Ep, <- Er, Em, (free_arecs_eq _ _ HI) in Hr. cbn in Hr.
      apply Nat.leb_le in Hr. lia.
  - injection H as <- <-. left. eauto.
  - right. apply bind_inv in H as ([] & q2 & [= <-] & H). apply bind_inv in H as ([pkt t] & q3 & H3 & H). injection H as <- <-.
    exists q1, sh1, (pkt, t). split; [unfold step_rx; by rewrite Ep|done].
Qed.

Lemma querier_query_inv sleep q sh o q' : Inv q sh -> querier_query fuel sleep q = Ok (o, q') -> exists sh', Inv q' sh'.
Proof using Hfuel.
  intros HI H. unfold querier_query in H. apply bind_inv in H as ([ret ne] & q4 & H4 & H).
  apply bind_inv in H as (msg & q5 & [= <- <-] & H). injection H as <- <-. by eapply prepare_query_inv.
Qed.

Lemma querier_step_inv it q sh out q' : Inv q sh -> roomy fuel it q = true -> querier_step fuel it q = Ok (out, q') ->
  exists sh', Inv q' sh'.
Proof using Hfuel.
  intros HI Hr H. destruct (step_parts _ _ _ _ _ HI Hr H) as (r & q1 & _ & [[? _]|(q2 & sh2 & o & _ & HI2 & Hq)]); [done|].
  by eapply querier_query_inv.
Qed.

Lemma reachable_Inv q : reachable fuel q -> exists sh, Inv q sh.
Proof using Hfuel.
  induction 1 as [io c ret q H|it out q q' _ [sh HI] Hr H].
  - apply query_launch_inv in H as ->. eexists. apply init_Inv.
  - by eapply querier_step_inv.
Qed.
End Fuel.
