(* ===== verification/QuerierQuery.v ===== *)
(** * The known answers of a query

    [add_known_answers] lists the instances of a monitor in the answer section
    of the query, so that their responders stay quiet.  [known_spec] says which
    PTR records this appends, and [ptr_size], by which the code decides whether
    a record fits, is shown to be the exact size of one. *)
From stdpp Require Import sets.
From S2P Require Import Prelude Buffer Slist SlistSpec Dname DnameSpec Message MessageSpec.
From S2P Require Import Querier QuerierSpec QuerierWf QuerierInv.

(** ** Appending with compression pointers *)

(** The two bytes of a pointer to an offset. *)
Definition pointer (off : Z) : list Z := be16 (u16 (Z.lor 0xC000 off)).

Lemma Zlen_pointer off : Zlen (pointer off) = 2.
Proof. done. Qed.

Lemma emits_answer_o off t c ttl :
  emits (fun m => mdns_add_answer_o m off t c ttl) (pointer off ++ be16 (u16 t) ++ be16 (u16 c) ++ be32 (u32 ttl)) 0 1 0.
Proof.
  unfold mdns_add_answer_o. emit_data.
  change (3 * 2 + 4) with (Zlen (pointer off ++ be16 (u16 t) ++ be16 (u16 c) ++ be32 (u32 ttl))).
  destruct (Z.leb_spec (12 + Zlen body + Zlen (pointer off ++ be16 (u16 t) ++ be16 (u16 c) ++ be32 (u32 ttl))) 1472)
    as [Hf|Hf]; cbn [negb]; [|exists m; split; [apply same_arrays_refl|done]].
  unfold pointer in *. change (Zlen (be16 (u16 (Z.lor 49152 off)) ++ be16 (u16 t) ++ be16 (u16 c) ++ be32 (u32 ttl))) with 10 in Hf.
  pose proof (repr_cnt _ _ _ _ _ _ R) as Hcnt. do 4 put_step.
  match goal with R : repr ?m _ _ _ _ _ |- context [bump_count ?m _] => destruct (repr_bump_an _ _ _ _ _ _ R) as (m' & E & S' & R') end.
  { unfold be16, be32. zlen. lia. }
  rewrite E. cbn [mbind res_bind]. eexists. split; [|split; [reflexivity|rewrite !Z.add_0_r]].
  - eapply same_arrays_trans; [|eapply same_arrays_trans; [exact S'|done]]. same_chain.
  - by rewrite <- !app_assoc in R'.
Qed.

Lemma emits_name_lo label off : bytes label -> Zlen label <= 63 ->
  emits (fun m => mdns_add_name_lo m label off)
    (be16 (Zlen label + 3) ++ [Zlen label] ++ label ++ pointer off) 0 0 0.
Proof.
  intros Hb Hl. unfold mdns_add_name_lo. pose proof (Zlen_nonneg label) as Hn. emit_data.
  replace (12 + Zlen body + (Zlen label + 1 + 2 * 2))
    with (12 + Zlen body + Zlen (be16 (Zlen label + 3) ++ [Zlen label] ++ label ++ pointer off))
    by (unfold pointer, be16; zlen; lia).
  unfold pointer. case_match eqn:Hfit; cbn [negb]; b2p; [|exists m; split; [apply same_arrays_refl|done]].
  replace (Zlen label + 1 + 2) with (Zlen label + 3) by lia. do 4 put_step.
  eexists. split; [|split; [reflexivity|rewrite !Z.add_0_r]]; [same_chain|].
  match goal with R : repr ?m _ _ _ _ _ |- repr ?m _ _ _ _ _ =>
    rewrite (u16_id (Zlen label + 3)), u8_id in R by (unfold is_byte; lia); by rewrite <- !app_assoc in R end.
Qed.

(** ** The specification *)

(** The PTR record of one instance: [off] is where the question has the service
    type, [ttl] is in ms and [n] is the instance's label. *)
Definition known_record (off ttl : Z) (n : list Z) : list Z :=
  (pointer off ++ be16 T_PTR ++ be16 C_IN ++ be32 (u32 (ttl / 1000))) ++
  (be16 (Zlen n + 3) ++ [Zlen n] ++ n ++ pointer off).

(** The code, the body and the number of answers after the instances [ks]. *)
Fixpoint known_spec (off : Z) (body : list Z) (na : Z) (ks : list (Z * list Z)) : Z * list Z * Z :=
  match ks with
  | [] => (0, body, na)
  | (ttl, n) :: ks' =>
      if ttl =? 0 then known_spec off body na ks'
      else if 12 + Zlen body + Zlen (known_record off ttl n) <=? 1472
      then known_spec off (body ++ known_record off ttl n) (na + 1) ks'
      else (-1, body, na)
  end.

(** An instance with the PTR time to live [fst k] and the name [snd k]. *)
Definition is_known (s : service_instance) (k : Z * list Z) : Prop :=
  ptr_ttl s = fst k /\ no_nul (snd k) /\ bytes (snd k) /\ Zlen (snd k) <= 63 /\
  holds (sname s) 0 (snd k ++ [0]).

Lemma Zlen_known off ttl n : Zlen (known_record off ttl n) = Zlen n + 15.
Proof. unfold known_record, pointer, be16, be32. zlen. lia. Qed.

Lemma ptr_size_known s k off : is_known s k -> ptr_size s = Ok (Zlen (known_record off (fst k) (snd k))).
Proof.
  intros (_ & Hn & _ & Hl & Hh). unfold ptr_size. rewrite (strlen_at_holds _ _ _ Hn Hh). cbn [mbind res_bind].
  rewrite Zlen_known. pose proof (Zlen_nonneg (snd k)). unfold mret, res_ret. f_equal. rewrite u16_id; lia.
Qed.

Lemma c_string_holds b n : no_nul n -> holds b 0 (n ++ [0]) -> c_string b = Ok n.
Proof.
  intros Hn Hh. unfold c_string. rewrite (strlen_at_holds _ _ _ Hn Hh). cbn [mbind res_bind].
  apply rd_range_holds. by apply holds_app in Hh as [? _].
Qed.

(** Appending one record. *)
Lemma known_append off ttl n m body nq na nn fl : bytes n -> Zlen n <= 63 ->
  repr m body nq na nn fl -> 12 + Zlen body + Zlen (known_record off ttl n) <= 1472 ->
  exists m1 m2, mdns_add_answer_o m off T_PTR C_IN (ttl / 1000) = Ok (0, m1) /\
    mdns_add_name_lo m1 n off = Ok (0, m2) /\ repr m2 (body ++ known_record off ttl n) nq (na + 1) nn fl.
Proof.
  intros Hb Hl R Hf. pose proof (Zlen_known off ttl n) as Ez. pose proof (Zlen_nonneg n).
  destruct (emits_answer_o off T_PTR C_IN (ttl / 1000) _ _ _ _ _ _ R) as (m1 & _ & H1).
  change (be16 (u16 T_PTR)) with (be16 T_PTR) in H1. change (be16 (u16 C_IN)) with (be16 C_IN) in H1.
  unfold known_record in Hf, Ez. rewrite Zlen_app in Hf, Ez.
  set (r1 := pointer off ++ _) in *. set (r2 := be16 (Zlen n + 3) ++ _) in *. pose proof (Zlen_nonneg r2).
  rewrite (proj2 (Z.leb_le _ _)) in H1 by lia. destruct H1 as [E1 R1].
  destruct (emits_name_lo n off Hb Hl _ _ _ _ _ _ R1) as (m2 & _ & H2). fold r2 in H2.
  rewrite (proj2 (Z.leb_le _ _)) in H2 by (rewrite Zlen_app; lia). destruct H2 as [E2 R2].
  exists m1, m2. split; [done|]. split; [done|]. unfold known_record. fold r1. fold r2. rewrite !Z.add_0_r in R2.
  by rewrite <- app_assoc in R2.
Qed.

(** [add_known_answers] appends exactly these records. *)
Lemma known_loop_run m off : forall l fuel q sm cur_ ks body nq na nn fl,
  smons q !! m = Some sm -> fqst_offset sm = off -> chain (nexts sinst_link (sinsts q)) cur_ l ->
  Forall2 (fun i k => exists s, sinsts q !! i = Some s /\ is_known s k) l ks ->
  repr (tx_msg q) body nq na nn fl -> (length l <= fuel)%nat ->
  exists ret q' body' na', add_known_answers_loop fuel m cur_ q = Ok (ret, q') /\
    known_spec off body na ks = (ret, body', na') /\ repr (tx_msg q') body' nq na' nn fl /\
    sinsts q' = sinsts q /\ calls q' = calls q.
Proof.
  intros l. induction l as [|i l IH]; intros fuel q sm cur_ ks body nq na nn fl Hsm Eo Hc Hk R Hf.
  { inversion Hk; subst. cbn in Hc. subst. exists 0, q, body, na. split; [by destruct fuel|]. auto. }
  inversion Hk as [|? [ttl n] ? ks' (s & Hs & Hkn) Hk']; subst. destruct Hc as (-> & nx & Hnx & Hc).
  unfold nexts, lk in Hnx. rewrite Hs in Hnx. cbn in Hnx. injection Hnx as Hnx.
  destruct fuel as [|fuel]; cbn in Hf; [lia|]. cbn [add_known_answers_loop known_spec].
  pose proof Hkn as (Et & Hn & Hb & Hl & Hh). cbn [fst snd] in *.
  destruct (IH fuel q sm nx ks' body nq na nn fl) as (r0 & q0 & b0 & n0 & E0 & H0); [done|done|done|done|done|lia|].
  destruct (ttl =? 0) eqn:Ettl.
  { exists r0, q0, b0, n0. split; [|done]. rewrite (bind_run _ _ _ _ _ (get_sinst_run _ _ _ Hs)). by rewrite Et, Ettl, Hnx. }
  clear r0 q0 b0 n0 E0 H0. pose proof (ptr_size_known s (ttl, n) (fqst_offset sm) Hkn) as Ep. cbn [fst snd] in Ep.
  set (rec := known_record (fqst_offset sm) ttl n) in *.
  assert (TAILROOM (tx_msg q) = 1472 - (12 + Zlen body)) as Etail.
  { destruct R. unfold TAILROOM. lia. }
  destruct (Z.leb_spec (12 + Zlen body + Zlen rec) 1472) as [Hfit|Hfit].
  - destruct (known_append (fqst_offset sm) ttl n _ _ _ _ _ _ Hb Hl R Hfit) as (m1 & m2 & E1 & E2 & R2). fold rec in R2.
    set (sm' := smon_with_offsets sm (fqst_offset sm) (u16 (cur m1))).
    set (q1 := q_tx (q_smons q (<[m := sm']> (smons q))) m2).
    destruct (IH fuel q1 sm' nx ks' (body ++ rec) nq (na + 1) nn fl) as (r0 & q0 & b0 & n0 & E0 & Es0 & R0 & S0 & C0);
      [cbn; apply list_lookup_insert_eq; by eapply lookup_lt_Some|done|done|done|done|lia|].
    exists r0, q0, b0, n0. split; [|split; [done|split; [done|split; [done|done]]]].
    rewrite (bind_run _ _ _ _ _ (get_sinst_run _ _ _ Hs)). rewrite Et, Ettl, Hnx.
    rewrite (bind_run _ _ _ _ _ (lift_run _ _ _ Ep)). rewrite (bind_run _ _ _ (tx_msg q) q) by done.
    replace (TAILROOM (tx_msg q) <? Zlen rec) with false by (symmetry; apply Z.ltb_ge; lia).
    rewrite (bind_run _ _ _ _ _ (get_smon_run _ _ _ Hsm)).
    rewrite (bind_run _ _ _ _ _ (lift_run _ _ _ E1)).
    rewrite (bind_run _ _ _ _ _ (upd_smon_run _ _ _ _ Hsm)).
    rewrite (bind_run _ _ _ _ _ (lift_run _ _ _ (c_string_holds _ _ Hn Hh))).
    rewrite (bind_run _ _ _ _ _ (lift_run _ _ _ E2)). exact E0.
  - exists (-1), q, body, na. split; [|auto].
    rewrite (bind_run _ _ _ _ _ (get_sinst_run _ _ _ Hs)). rewrite Et, Ettl.
    rewrite (bind_run _ _ _ _ _ (lift_run _ _ _ Ep)). rewrite (bind_run _ _ _ (tx_msg q) q) by done.
    replace (TAILROOM (tx_msg q) <? Zlen rec) with true by (symmetry; apply Z.ltb_lt; lia). done.
Qed.
