(* ===== verification/DnameKeep.v ===== *)
(** * What the name helpers leave in a buffer, whatever they read

    The querier copies names and labels out of packets it has only partly
    checked.  When [dname_copy], [dname_label_to_c] and [txt_to_c_ncpy] return
    at all, their destination has its size, and it holds a proper name or a
    terminated string. *)
From S2P Require Import Prelude Buffer Dname DnameSpec DnameText Message MessageSpec.

Lemma skip_pointers_stop fuel r n n' : skip_pointers fuel r n = Ok n' ->
  exists c, rd (d_buf r) n' = Ok c /\ IS_POINTER c = false.
Proof.
  revert n. induction fuel as [|fuel IH]; intros n; cbn; [done|]. destruct (rd (d_buf r) n) as [c| |] eqn:E; cbn; [|done|done].
  destruct (IS_POINTER c) eqn:Ep; [|intros [= ->]; eauto].
  destruct (follow r n); cbn; [apply IH|done|done].
Qed.

(** A label of at most 63 bytes; the empty one is a root byte in the middle. *)
Definition loose_label (l : list Z) : Prop := Zlen l <= 63 /\ bytes l.

(** Such labels make up a name that ends at the first root byte. *)
Lemma loose_name b ls : Forall loose_label ls -> holds b 0 (encode ls) -> Zlen (encode ls) <= 255 ->
  exists ks, name_arg (b, 0) ks.
Proof.
  intros Hl Hh Hz. enough (exists ks rest, Forall valid_label ks /\ encode ls = encode ks ++ rest) as (ks & rest & Hk & E).
  { exists ks. rewrite E in Hh, Hz. apply holds_app in Hh as [Hh _]. zlen. pose proof (Zlen_nonneg rest).
    split; [done|]. split; [done|lia]. }
  clear Hh Hz. induction Hl as [|l ls [Hz Hb] _ (ks & rest & Hk & E)]; [exists [], []; auto|].
  destruct (decide (l = [])) as [->|Hne]; [exists [], (encode ls); auto|].
  exists (l :: ks), rest. split.
  - constructor; [|done]. split; [|done]. destruct l; [done|]. rewrite Zlen_cons in *. pose proof (Zlen_nonneg l). lia.
  - unfold encode in *. rewrite !encode_labels_cons. cbn. f_equal. rewrite <- !app_assoc in *. by rewrite E.
Qed.

Lemma dname_copy_loop_keeps r : bytes (d_buf r) -> forall fuel dst d src len ls ret dst',
  dname_copy_loop fuel dst d r src len = Ok (ret, dst') -> 255 <= Zlen dst -> Forall loose_label ls ->
  holds dst 0 (encode_labels ls) -> d = Zlen (encode_labels ls) -> len = d -> d <= 254 ->
  Zlen dst' = Zlen dst /\ exists ks, name_arg (dst', 0) ks.
Proof.
  intros Hb. induction fuel as [|fuel IH]; intros dst d src len ls ret dst' H Hz Hl Hh Ed El Hd; cbn [dname_copy_loop] in H; [done|].
  assert (forall dst', wr dst d 0 = Ok dst' -> Zlen dst' = Zlen dst /\ exists ks, name_arg (dst', 0) ks) as Hend.
  { intros x W. split; [by eapply wr_Zlen|]. apply (loose_name _ ls); [done| |unfold encode; zlen; change (Zlen [0]) with 1; lia].
    unfold encode. apply holds_app. split; [eapply wr_frame; [exact W|done|lia]|].
    rewrite Z.add_0_l, <- Ed. eapply wr_holds; [exact W|]. unfold is_byte. lia. }
  apply bind_ok in H as (c0 & _ & H). destruct (c0 =? 0).
  { apply bind_ok in H as (x & W & H). injection H as <- <-. auto. }
  apply bind_ok in H as (src' & Hs & H). apply skip_pointers_stop in Hs as (c & Hc & Hp).
  rewrite Hc in H. cbn [mbind res_bind] in H. pose proof (rd_byte _ _ _ Hb Hc) as Hcb. rewrite is_pointer_byte in Hp by done.
  apply Z.leb_gt in Hp. unfold MDNS_MAX_NAME_LEN, is_byte in *. destruct (Z.leb_spec 255 (len + (c + 1))) as [Hbig|Hfit].
  { apply bind_ok in H as (x & W & H). injection H as <- <-. auto. }
  apply bind_ok in H as (chunk & Hr & H). apply bind_ok in H as (x & W & H). apply rd_range_holds in Hr as [Ez Hr].
  destruct chunk as [|c' l]; [rewrite Zlen_nil in Ez; lia|]. rewrite Zlen_cons in Ez.
  pose proof Hr as [Hc' Hrl]%holds_cons. rewrite Hc in Hc'. injection Hc' as <-.
  pose proof (wr_range_Zlen _ _ _ _ W) as Ezx. rewrite <- Ezx. eapply (IH _ _ _ _ (ls ++ [l])); [exact H|lia| | | |lia|lia].
  - apply Forall_app. split; [done|]. constructor; [|constructor]. split; [lia|]. by eapply holds_byte.
  - rewrite encode_labels_app, encode_labels_cons. apply holds_app. split.
    + eapply wr_range_frame; [exact W|lia|done].
    + rewrite Z.add_0_l, <- Ed. change (encode_labels []) with (@nil Z). rewrite app_nil_r.
      replace (Zlen l) with c by lia. by eapply wr_range_holds.
  - rewrite encode_labels_app, Zlen_app, encode_labels_cons, Zlen_cons, Zlen_app. change (Zlen (encode_labels [])) with 0. lia.
Qed.

Lemma dname_copy_keeps fuel dst r n ret dst' : bytes (d_buf r) -> 255 <= Zlen dst ->
  dname_copy fuel dst r n = Ok (ret, dst') -> Zlen dst' = Zlen dst /\ exists ks, name_arg (dst', 0) ks.
Proof.
  intros Hb Hz H. eapply (dname_copy_loop_keeps r Hb _ _ _ _ _ []); [exact H|done|constructor| |done|done|lia].
  apply holds_nil. lia.
Qed.

(** ** Labels as strings *)

(** The C string in a buffer. *)
Definition c_buffer (b n : list Z) : Prop := no_nul n /\ bytes n /\ Zlen n <= 63 /\ holds b 0 (n ++ [0]).

Lemma cut_c_string b l : bytes l -> Zlen l <= 63 -> holds b 0 (l ++ [0]) -> exists n, c_buffer b n.
Proof.
  intros Hb Hz Hh. enough (exists n rest, no_nul n /\ bytes n /\ Zlen n <= Zlen l /\ l ++ [0] = n ++ [0] ++ rest)
    as (n & rest & H1 & H2 & H3 & E).
  { exists n. split; [done|]. split; [done|]. split; [lia|]. rewrite E, app_assoc in Hh. by apply holds_app in Hh as [? _]. }
  clear Hz Hh. induction Hb as [|c l Hc _ (n & rest & H1 & H2 & H3 & E)].
  - exists [], []. split; [constructor|]. split; [constructor|]. done.
  - destruct (decide (c = 0)) as [->|Hne].
    + exists [], (l ++ [0]). split; [constructor|]. split; [constructor|]. split; [|done].
      rewrite Zlen_cons, Zlen_nil. pose proof (Zlen_nonneg l). lia.
    + exists (c :: n), rest. split; [by constructor|]. split; [by constructor|]. rewrite !Zlen_cons. split; [lia|].
      cbn. by rewrite E.
Qed.

Lemma label_to_c_loop_keeps b : bytes b -> forall k dst d src keep l dst' d' src',
  label_to_c_loop k dst d b src keep = Ok (dst', d', src') -> holds dst 0 l -> d = Zlen l -> bytes l ->
  Zlen dst' = Zlen dst /\ exists l', bytes l' /\ holds dst' 0 l' /\ d' = Zlen l' /\ Zlen l' <= Zlen l + Z.of_nat k.
Proof.
  intros Hb. induction k as [|k IH]; intros dst d src keep l dst' d' src' H Hh Ed Hl; cbn in H.
  { injection H as <- <- <-. split; [done|]. exists l. split; [done|]. split; [done|]. split; [done|lia]. }
  apply bind_ok in H as (c & Hc & H). destruct (_ && _).
  - destruct (IH _ _ _ _ l _ _ _ H Hh Ed Hl) as (E & l' & ? & ? & ? & ?). split; [done|]. exists l'. split; [done|].
    split; [done|]. split; [done|lia].
  - apply bind_ok in H as (x & W & H). pose proof (wr_Zlen _ _ _ _ W) as Ex. rewrite <- Ex.
    pose proof (rd_byte _ _ _ Hb Hc) as Hcb.
    destruct (IH _ _ _ _ (l ++ [c]) _ _ _ H) as (E & l' & ? & ? & ? & Hz).
    + apply holds_app. split; [eapply wr_frame; [exact W|done|lia]|]. rewrite Z.add_0_l, <- Ed. by eapply wr_holds.
    + zlen. change (Zlen [c]) with 1. lia.
    + apply Forall_app. split; [done|]. by constructor.
    + split; [done|]. exists l'. split; [done|]. split; [done|]. split; [done|]. rewrite Zlen_app in Hz. change (Zlen [c]) with 1 in Hz. lia.
Qed.

Lemma dname_label_to_c_keeps fuel dst r n keep p dst' : bytes (d_buf r) ->
  dname_label_to_c fuel dst r n keep = Ok (p, dst') ->
  Zlen dst' = Zlen dst /\ ((exists l, c_buffer dst l) -> exists l, c_buffer dst' l).
Proof.
  intros Hb H. unfold dname_label_to_c in H. apply bind_ok in H as (src & Hs & H). apply bind_ok in H as (len & Hl & H).
  unfold MDNS_MAX_LABEL_LEN in H. destruct (Z.leb_spec 63 len) as [|Hlt]; [by injection H as <- <-|].
  apply bind_ok in H as ([[x d] src'] & Hx & H). apply bind_ok in H as (y & W & H). injection H as <- <-.
  pose proof (rd_byte _ _ _ Hb Hl) as Hlb. unfold is_byte in Hlb.
  destruct (decide (0 <= Zlen dst)) as [H0|]; [|pose proof (Zlen_nonneg dst); lia].
  destruct (label_to_c_loop_keeps _ Hb _ _ _ _ _ [] _ _ _ Hx) as (E & l & Hlb' & Hh & Ed & Hz);
    [apply holds_nil; lia|done|constructor|]. rewrite Zlen_nil in Hz.
  split; [rewrite (wr_Zlen _ _ _ _ W); done|]. intros _. apply (cut_c_string y l); [done|lia|].
  apply holds_app. split; [eapply wr_frame; [exact W|done|lia]|]. rewrite Z.add_0_l, <- Ed. eapply wr_holds; [exact W|].
  unfold is_byte. lia.
Qed.

Lemma txt_to_c_loop_Zlen b : forall fuel dst d txt tlen rem dst',
  txt_to_c_loop fuel dst d b txt tlen rem = Ok dst' -> Zlen dst' = Zlen dst.
Proof.
  induction fuel as [|fuel IH]; intros dst d txt tlen rem dst' H; cbn in H; [done|].
  apply bind_ok in H as (c & _ & H). destruct (_ || _); [by eapply wr_Zlen|]. destruct (rem <? c); [by eapply IH|].
  apply bind_ok in H as (chunk & _ & H). apply bind_ok in H as (x & W & H). rewrite <- (wr_range_Zlen _ _ _ _ W).
  destruct (_ || _ || _); [by eapply wr_Zlen|]. apply bind_ok in H as (y & W' & H). rewrite <- (wr_Zlen _ _ _ _ W').
  by eapply IH.
Qed.

(** ** Comparing names without compression *)

Lemma plain_head r n ls : Forall valid_label ls -> holds (d_buf r) n (encode ls) ->
  exists c, rd (d_buf r) n = Ok c /\ 0 <= c < 64 /\ (c = 0 <-> ls = []) /\
    forall l ks, ls = l :: ks -> c = Zlen l /\ holds (d_buf r) (n + 1) l /\ holds (d_buf r) (n + (c + 1)) (encode ks).
Proof.
  intros Hv H. destruct Hv as [|l ls [Hl _] _].
  - exists 0. split; [by apply holds_rd|]. split; [lia|]. by split.
  - rewrite encode_cons in H. apply holds_cons in H as [H1 H2]. apply holds_app in H2 as [H2 H3]. exists (Zlen l).
    split; [done|]. split; [lia|]. split; [split; [lia|done]|]. intros l' ks [= <- <-]. split; [done|]. split; [done|].
    by replace (n + (Zlen l + 1)) with (n + 1 + Zlen l) by lia.
Qed.

(** One round per label is enough fuel. *)
Lemma dname_cmp_plain p1 p2 : forall ls1 n1 ls2 n2 fuel, Forall valid_label ls1 -> Forall valid_label ls2 ->
  holds (d_buf p1) n1 (encode ls1) -> holds (d_buf p2) n2 (encode ls2) -> (length ls1 < fuel)%nat ->
  dname_cmp fuel p1 n1 p2 n2 = Ok (names_cmp ls1 ls2).
Proof.
  induction ls1 as [|l1 ls1 IH]; intros n1 ls2 n2 fuel V1 V2 H1 H2 Hf; (destruct fuel as [|fuel]; [lia|]).
  all: destruct (plain_head _ _ _ V1 H1) as (c1 & R1 & B1 & E1 & T1), (plain_head _ _ _ V2 H2) as (c2 & R2 & B2 & E2 & T2).
  all: cbn [dname_cmp]; rewrite (skip_pointers_here _ _ _ _ R1 B1), (skip_pointers_here _ _ _ _ R2 B2); cbn -[dname_label_cmp]; rewrite R1, R2; cbn -[dname_label_cmp].
  - rewrite (proj2 E1 eq_refl). destruct ls2; [by rewrite (proj2 E2 eq_refl)|].
    destruct (Z.eqb_spec c2 0) as [E|_]; [by apply E2 in E|done].
  - destruct (Z.eqb_spec c1 0) as [E|_]; [by apply E1 in E|]. cbn -[dname_label_cmp].
    destruct ls2 as [|l2 ls2]; [by rewrite (proj2 E2 eq_refl)|].
    destruct (Z.eqb_spec c2 0) as [E|_]; [by apply E2 in E|]. cbn -[dname_label_cmp].
    destruct (T1 _ _ eq_refl) as (-> & L1 & K1), (T2 _ _ eq_refl) as (-> & L2 & K2).
    assert (dname_label_cmp (S fuel) p1 n1 p2 n2 = Ok (label_cmp l1 l2)) as ->.
    { destruct (cmp_bytes_spec _ _ _ _ _ _ L1 L2) as (v & Hv & Ev). unfold dname_label_cmp.
      rewrite (skip_pointers_here _ _ _ _ R1 B1), (skip_pointers_here _ _ _ _ R2 B2). cbn [mbind res_bind]. rewrite R1, R2. cbn [mbind res_bind].
      replace (Z.to_nat _) with (length l1 `min` length l2)%nat 
        by (clear Ev Hv; unfold Zlen; destruct (Z.ltb_spec (Z.of_nat (length l2)) (Z.of_nat (length l1))); lia).
      rewrite Hv. cbn. rewrite Ev. by repeat case_match. }
    cbn. destruct (Z.eqb_spec (label_cmp l1 l2) 0) as [_|_]; [|done]. cbn.
    apply (IH _ ls2 _ fuel); [by inversion V1|by inversion V2|done|done|cbn in Hf; lia].
Qed.

(** A name of at most 255 bytes has at most 127 labels. *)
Lemma length_labels_127 ls : Forall valid_label ls -> Zlen (encode ls) <= 255 -> (length ls <= 127)%nat.
Proof.
  intros Hv Hz. enough (2 * Z.of_nat (length ls) + 1 <= Zlen (encode ls)) by lia. clear Hz.
  induction Hv as [|l ls [Hl _] _ IH]; [done|]. rewrite encode_cons. zlen. cbn [length]. lia.
Qed.
