(* ===== verification/QuerierKeep.v ===== *)
(** * What the querier's cells always hold

    [cells_ok]: every cell of the three arrays, on a list or not, has buffers of
    the declared sizes that hold proper names and strings.  [maintains P c]: the
    computation [c] keeps [P] when it returns; the rules for the state monad are
    hints of the database [keep], so that the functions of mdns_query.c that only
    move cells and update times are handled by one tactic. *)
From stdpp Require Import sets.
From S2P Require Import Prelude Buffer Slist SlistSpec Dname DnameSpec DnameKeep Message MessageSpec.
From S2P Require Import Querier QuerierSpec QuerierWf QuerierInv QuerierRun QuerierQuery.

(** ** The rules *)

Definition maintains (P : qstate -> Prop) {A} (c : Q A) : Prop :=
  forall q a q', P q -> c q = Ok (a, q') -> P q'.

Section Rules.
Context (P : qstate -> Prop).

Lemma maintains_ret {A} (a : A) : maintains P (mret a).
Proof. intros q b q' H [= _ <-]. done. Qed.
Lemma maintains_gets {A} (f : qstate -> A) : maintains P (gets f).
Proof. intros q b q' H [= _ <-]. done. Qed.
Lemma maintains_lift {A} (r : res A) : maintains P (lift r).
Proof. intros q a q' H [_ ->]%lift_inv. done. Qed.
Lemma maintains_bind {A B} (c : Q A) (k : A -> Q B) : maintains P c -> (forall a, maintains P (k a)) -> maintains P (c ≫= k).
Proof. intros Hc Hk q b q' H (a & q1 & H1 & H2)%bind_inv. eapply Hk; [|exact H2]. by eapply Hc. Qed.
Lemma maintains_modify f : (forall q, P q -> P (f q)) -> maintains P (modify f).
Proof. intros Hf q a q' H [= _ <-]. by apply Hf. Qed.
Lemma maintains_deref p : maintains P (deref p).
Proof. apply maintains_lift. Qed.
Lemma maintains_get_arec a : maintains P (get_arec a).
Proof. intros q x q' H [_ ->]%get_arec_inv. done. Qed.
Lemma maintains_get_sinst i : maintains P (get_sinst i).
Proof. intros q x q' H [_ ->]%get_sinst_inv. done. Qed.
Lemma maintains_get_smon m : maintains P (get_smon m).
Proof. intros q x q' H [_ ->]%get_smon_inv. done. Qed.

Lemma maintains_foreach {B} fuel nxt (body : nat -> B -> Q B) : (forall i, maintains P (nxt i)) ->
  (forall i b, maintains P (body i b)) -> forall cur b, maintains P (foreach fuel nxt body cur b).
Proof.
  intros Hn Hb. induction fuel as [|fuel IH]; intros [i|] b; cbn; try apply maintains_ret; [apply maintains_lift|].
  apply maintains_bind; [done|]. intros b'. apply maintains_bind; [done|]. auto.
Qed.
Lemma maintains_foreach_safe {B} fuel nxt (body : nat -> B -> Q B) : (forall i, maintains P (nxt i)) ->
  (forall i b, maintains P (body i b)) -> forall cur b, maintains P (foreach_safe fuel nxt body cur b).
Proof.
  intros Hn Hb. induction fuel as [|fuel IH]; intros [i|] b; cbn; try apply maintains_ret; [apply maintains_lift|].
  apply maintains_bind; [done|]. intros b'. apply maintains_bind; [done|]. auto.
Qed.
Lemma maintains_for_records body l : (forall r, maintains P (body r)) -> maintains P (for_records body l).
Proof.
  intros Hb. induction l as [|r l IH]; cbn; [apply maintains_ret|]. apply maintains_bind; [done|]. by intros _.
Qed.
End Rules.

Create HintDb keep.
#[export] Hint Resolve maintains_ret maintains_gets maintains_lift maintains_deref maintains_get_arec
  maintains_get_sinst maintains_get_smon : keep.

(** Go through a computation: the rules, the case distinctions, and what is
    known of the functions it calls. *)
Ltac keep :=
  repeat first
    [ solve [eauto with keep]
    | match goal with |- maintains _ (mbind _ _) => apply maintains_bind; [|intros ?] end
    | apply maintains_foreach; [intros ?|intros ? ?]
    | apply maintains_foreach_safe; [intros ?|intros ? ?]
    | apply maintains_for_records; intros ?
    | match goal with
      | |- maintains _ (match ?x with _ => _ end) => destruct x
      end ].

(** ** The cells *)

Record sinst_ok (s : service_instance) : Prop := {
  so_fqsn : exists ls, name_arg (s_fqsn (si_service s), 0) ls;
  so_sname : exists n, c_buffer (sname s) n;
  so_sizes : Zlen (s_fqsn (si_service s)) = 255 /\ Zlen (sname s) = 64 /\ Zlen (stype s) = 64 /\ Zlen (domain s) = 64 /\
    Zlen (si_keyvals s) = 256 /\ Zlen (rawkeyvals s) = 256;
  so_rawlen : 0 <= rawkvlen s <= 256 }.

Definition arec_ok (ar : arec) : Prop := Zlen (ar_fqdn ar) = 256 /\ exists ls, name_arg (ar_fqdn ar, 0) ls.
Definition smon_ok (sm : service_monitor) : Prop := Zlen (sm_fqst sm) = 256 /\ exists ls, name_arg (sm_fqst sm, 0) ls.

Record cells_ok (q : qstate) : Prop := {
  ok_sinsts : Forall sinst_ok (sinsts q);
  ok_arecs : Forall arec_ok (arecs q);
  ok_smons : Forall smon_ok (smons q) }.

(** The cells are in order, and the two messages are as [R] says. *)
Definition ok (R : mdns_message -> mdns_message -> Prop) (q : qstate) : Prop := cells_ok q /\ R (tx_msg q) (rx_msg q).

(** A message under construction. *)
Definition built (m : mdns_message) : Prop := exists body nq na nn fl, repr m body nq na nn fl.

(** The static buffer of a message. *)
Definition sized (m : mdns_message) : Prop := Zlen (data m) = 1472 /\ bytes (data m).

(** What is kept while a query is prepared, and what is always kept. *)
Abbreviation fine := (ok (fun tx rx => built tx /\ sized rx)).
Abbreviation held := (ok (fun tx rx => sized tx /\ sized rx)).

Lemma built_sized m : built m -> sized m.
Proof. intros (body & nq & na & nn & fl & R). split; apply R. Qed.

Lemma fine_held q : fine q -> held q.
Proof. intros (H & Hb & Hr). split; [done|]. split; [by apply built_sized|done]. Qed.

(** Assignments that keep the contents of a cell. *)
Definition same_sinst (s' s : service_instance) : Prop :=
  s_fqsn (si_service s') = s_fqsn (si_service s) /\ sname s' = sname s /\ stype s' = stype s /\ domain s' = domain s /\
  si_keyvals s' = si_keyvals s /\ rawkeyvals s' = rawkeyvals s /\ rawkvlen s' = rawkvlen s.

Lemma sinst_ok_same s s' : same_sinst s' s -> sinst_ok s -> sinst_ok s'.
Proof. intros (E1 & E2 & E3 & E4 & E5 & E6 & E7) [H1 H2 H3 H4]. constructor; by rewrite ?E1, ?E2, ?E3, ?E4, ?E5, ?E6, ?E7. Qed.

Lemma relink_Forall {A} (f : link A) (R : A -> Prop) s s' : (forall a n, R a -> R (with_next f a n)) ->
  relink f s s' -> Forall R s -> Forall R s'.
Proof.
  intros HR [->|(p & a & n & Ha & ->)] H; [done|]. apply Forall_insert; [done|]. apply HR. by eapply Forall_lookup_1.
Qed.

Lemma INSERT_HEAD_relink {A} (f : link A) s h i s' h' : SLIST_INSERT_HEAD f s h i = Ok (s', h') -> relink f s s'.
Proof.
  unfold SLIST_INSERT_HEAD. intros (s1 & H1 & H)%bind_ok. injection H as <- <-.
  unfold set_next, cell in H1. destruct (s !! i) as [a|] eqn:Ha; [|done]. injection H1 as <-. right. eauto.
Qed.

Lemma sinst_ok_link s n : sinst_ok s -> sinst_ok (with_next sinst_link s n).
Proof. by apply sinst_ok_same. Qed.
Lemma sinst_ok_alink s n : sinst_ok s -> sinst_ok (with_next sinst_alink s n).
Proof. by apply sinst_ok_same. Qed.

(** [cells_ok] after one array changed. *)
Lemma ok_set_sinsts q l : Forall sinst_ok l -> cells_ok q -> cells_ok (q_sinsts q l).
Proof. intros H [H1 H2 H3]. by constructor. Qed.
Lemma ok_set_arecs q l : Forall arec_ok l -> cells_ok q -> cells_ok (q_arecs q l).
Proof. intros H [H1 H2 H3]. by constructor. Qed.
Lemma ok_set_smons q l : Forall smon_ok l -> cells_ok q -> cells_ok (q_smons q l).
Proof. intros H [H1 H2 H3]. by constructor. Qed.

Section Ok.
Context (R : mdns_message -> mdns_message -> Prop).

Lemma ok_cells q q' : arecs q' = arecs q -> sinsts q' = sinsts q -> smons q' = smons q -> tx_msg q' = tx_msg q -> rx_msg q' = rx_msg q ->
  ok R q -> ok R q'.
Proof. intros E1 E2 E3 E4 E5 [[H1 H2 H3] Hb]. unfold ok. rewrite E4, E5. split; [constructor; by rewrite ?E1, ?E2, ?E3|done]. Qed.

Lemma ok_with_sinsts q l : Forall sinst_ok l -> ok R q -> ok R (q_sinsts q l).
Proof. intros H [H1 H2]. split; [by apply ok_set_sinsts|done]. Qed.
Lemma ok_with_arecs q l : Forall arec_ok l -> ok R q -> ok R (q_arecs q l).
Proof. intros H [H1 H2]. split; [by apply ok_set_arecs|done]. Qed.
Lemma ok_with_smons q l : Forall smon_ok l -> ok R q -> ok R (q_smons q l).
Proof. intros H [H1 H2]. split; [by apply ok_set_smons|done]. Qed.

Lemma ok_upd_sinst i f : (forall s, same_sinst (f s) s) -> maintains (ok R) (upd_sinst i f).
Proof.
  intros Hf q [] q' H (s & Hs & ->)%upd_sinst_inv. apply ok_with_sinsts; [|done]. destruct H as [[H _ _] _].
  apply Forall_insert; [done|]. eapply sinst_ok_same; [apply Hf|]. by eapply Forall_lookup_1.
Qed.

Lemma upd_arec_run_inv q a f q' : upd_arec a f q = Ok (tt, q') ->
  exists ar, arecs q !! a = Some ar /\ q' = q_arecs q (<[a := f ar]> (arecs q)).
Proof. unfold upd_arec. intros (s & q1 & [Hs ->]%get_arec_inv & H)%bind_inv. injection H as <-. eauto. Qed.
Lemma upd_smon_run_inv q m f q' : upd_smon m f q = Ok (tt, q') ->
  exists sm, smons q !! m = Some sm /\ q' = q_smons q (<[m := f sm]> (smons q)).
Proof. unfold upd_smon. intros (s & q1 & [Hs ->]%get_smon_inv & H)%bind_inv. injection H as <-. eauto. Qed.

Lemma ok_upd_arec a f : (forall ar, ar_fqdn (f ar) = ar_fqdn ar) -> maintains (ok R) (upd_arec a f).
Proof.
  intros Hf q [] q' H (s & Hs & ->)%upd_arec_run_inv. apply ok_with_arecs; [|done]. destruct H as [[_ H _] _].
  apply Forall_insert; [done|]. unfold arec_ok. rewrite Hf. exact (Forall_lookup_1 _ _ _ _ H Hs).
Qed.
Lemma ok_upd_smon m f : (forall sm, sm_fqst (f sm) = sm_fqst sm) -> maintains (ok R) (upd_smon m f).
Proof.
  intros Hf q [] q' H (s & Hs & ->)%upd_smon_run_inv. apply ok_with_smons; [|done]. destruct H as [[_ _ H] _].
  apply Forall_insert; [done|]. unfold smon_ok. rewrite Hf. exact (Forall_lookup_1 _ _ _ _ H Hs).
Qed.

End Ok.

#[export] Hint Extern 1 (maintains (ok _) (upd_sinst _ _)) => (apply ok_upd_sinst; intros []; done) : keep.
#[export] Hint Extern 1 (maintains (ok _) (upd_arec _ _)) => (apply ok_upd_arec; intros []; done) : keep.
#[export] Hint Extern 1 (maintains (ok _) (upd_smon _ _)) => (apply ok_upd_smon; intros []; done) : keep.

(** ** The list operations *)

(** Taking an operation apart into its list step and its assignment. *)
Ltac list_op :=
  repeat match goal with
  | x : unit |- _ => destruct x
  | H : mbind _ _ _ = Ok _ |- _ => apply bind_inv in H as (? & ? & ? & H)
  | H : gets _ _ = Ok _ |- _ => injection H as <- <-
  | H : modify _ _ = Ok _ |- _ => injection H as <-
  | H : lift _ _ = Ok _ |- _ => apply lift_inv in H as [? ->]
  | H : get_smon _ _ = Ok _ |- _ => apply get_smon_inv in H as [? ->]
  | H : get_arec _ _ = Ok _ |- _ => apply get_arec_inv in H as [? ->]
  | H : upd_smon _ _ _ = Ok _ |- _ => apply upd_smon_run_inv in H as (? & ? & ->)
  | H : upd_arec _ _ _ = Ok _ |- _ => apply upd_arec_run_inv in H as (? & ? & ->)
  | x : (list _ * option nat)%type |- _ => destruct x
  end.

Section ListOps.
Context (R : mdns_message -> mdns_message -> Prop).

Lemma arec_ok_link ar n : arec_ok ar -> arec_ok (with_next arec_link ar n).
Proof. done. Qed.
Lemma smon_ok_link sm n : smon_ok sm -> smon_ok (with_next smon_link sm n).
Proof. done. Qed.

(** A new head in a monitor or an A record. *)
Lemma smon_head_ok q m sm h : ok R q -> smons q !! m = Some sm -> Forall smon_ok (<[m := smon_with_sinsts sm h]> (smons q)).
Proof.
  intros H Hm. apply Forall_insert; [apply H|]. exact (Forall_lookup_1 smon_ok _ _ _ (ok_smons _ (proj1 H)) Hm).
Qed.
Lemma arec_head_ok q a ar h : ok R q -> arecs q !! a = Some ar -> Forall arec_ok (<[a := arec_with_sinsts ar h]> (arecs q)).
Proof.
  intros H Ha. apply Forall_insert; [apply H|]. exact (Forall_lookup_1 arec_ok _ _ _ (ok_arecs _ (proj1 H)) Ha).
Qed.

Lemma ok_insert_sinsts_free i : maintains (ok R) (insert_sinsts_free i).
Proof.
  intros q a q' H E. unfold insert_sinsts_free in E. list_op.
  eapply (ok_cells _ (q_sinsts q l)); [done..|]. apply ok_with_sinsts; [|done].
  eapply (relink_Forall sinst_link); [apply sinst_ok_link|by eapply INSERT_HEAD_relink|apply H].
Qed.
Lemma ok_remove_smon_sinsts fuel m i : maintains (ok R) (remove_smon_sinsts fuel m i).
Proof.
  intros q a q' H E. unfold remove_smon_sinsts in E. list_op.
  apply ok_with_smons; [|apply ok_with_sinsts; [|done]].
  - eapply (smon_head_ok q); [done|eassumption].
  - eapply (relink_Forall sinst_link); [apply sinst_ok_link|by eapply SLIST_REMOVE_relink|apply H].
Qed.
Lemma ok_remove_arec_sinsts fuel a i : maintains (ok R) (remove_arec_sinsts fuel a i).
Proof.
  intros q x q' H E. unfold remove_arec_sinsts in E. list_op.
  apply ok_with_arecs; [|apply ok_with_sinsts; [|done]].
  - eapply (arec_head_ok q); [done|eassumption].
  - eapply (relink_Forall sinst_alink); [apply sinst_ok_alink|by eapply SLIST_REMOVE_relink|apply H].
Qed.
Lemma ok_remove_arecs_active fuel a : maintains (ok R) (remove_arecs_active fuel a).
Proof.
  intros q x q' H E. unfold remove_arecs_active in E. list_op.
  eapply (ok_cells _ (q_arecs q l)); [done..|]. apply ok_with_arecs; [|done].
  eapply (relink_Forall arec_link); [apply arec_ok_link|by eapply SLIST_REMOVE_relink|apply H].
Qed.
Lemma ok_insert_arecs_free a : maintains (ok R) (insert_arecs_free a).
Proof.
  intros q x q' H E. unfold insert_arecs_free in E. list_op.
  eapply (ok_cells _ (q_arecs q l)); [done..|]. apply ok_with_arecs; [|done].
  eapply (relink_Forall arec_link); [apply arec_ok_link|by eapply INSERT_HEAD_relink|apply H].
Qed.
Lemma ok_remove_head_sinsts_free : maintains (ok R) remove_head_sinsts_free.
Proof. intros q x q' H E. unfold remove_head_sinsts_free in E. list_op. revert H. by apply ok_cells. Qed.
Lemma ok_insert_smon_sinsts m i : maintains (ok R) (insert_smon_sinsts m i).
Proof.
  intros q a q' H E. unfold insert_smon_sinsts in E. list_op.
  apply ok_with_smons; [|apply ok_with_sinsts; [|done]].
  - eapply (smon_head_ok q); [done|eassumption].
  - eapply (relink_Forall sinst_link); [apply sinst_ok_link|by eapply INSERT_HEAD_relink|apply H].
Qed.
Lemma ok_remove_head_smon_sinsts m : maintains (ok R) (remove_head_smon_sinsts m).
Proof.
  intros q a q' H E. unfold remove_head_smon_sinsts in E. list_op.
  apply ok_with_smons; [|done]. eapply (smon_head_ok q); [done|eassumption].
Qed.
Lemma ok_insert_arec_sinsts a i : maintains (ok R) (insert_arec_sinsts a i).
Proof.
  intros q x q' H E. unfold insert_arec_sinsts in E. list_op.
  apply ok_with_arecs; [|apply ok_with_sinsts; [|done]].
  - eapply (arec_head_ok q); [done|eassumption].
  - eapply (relink_Forall sinst_alink); [apply sinst_ok_alink|by eapply INSERT_HEAD_relink|apply H].
Qed.
Lemma ok_insert_arecs_active a : maintains (ok R) (insert_arecs_active a).
Proof.
  intros q x q' H E. unfold insert_arecs_active in E. list_op.
  eapply (ok_cells _ (q_arecs q l)); [done..|]. apply ok_with_arecs; [|done].
  eapply (relink_Forall arec_link); [apply arec_ok_link|by eapply INSERT_HEAD_relink|apply H].
Qed.
Lemma ok_remove_head_arecs_free : maintains (ok R) remove_head_arecs_free.
Proof. intros q x q' H E. unfold remove_head_arecs_free in E. list_op. revert H. by apply ok_cells. Qed.
Lemma ok_remove_head_smons_free : maintains (ok R) remove_head_smons_free.
Proof. intros q x q' H E. unfold remove_head_smons_free in E. list_op. revert H. by apply ok_cells. Qed.
Lemma ok_remove_head_smons_active : maintains (ok R) remove_head_smons_active.
Proof. intros q x q' H E. unfold remove_head_smons_active in E. list_op. revert H. by apply ok_cells. Qed.
Lemma ok_insert_smons_active m : maintains (ok R) (insert_smons_active m).
Proof.
  intros q x q' H E. unfold insert_smons_active in E. list_op.
  eapply (ok_cells _ (q_smons q l)); [done..|]. apply ok_with_smons; [|done].
  eapply (relink_Forall smon_link); [apply smon_ok_link|by eapply INSERT_HEAD_relink|apply H].
Qed.
Lemma ok_insert_smons_free m : maintains (ok R) (insert_smons_free m).
Proof.
  intros q x q' H E. unfold insert_smons_free in E. list_op.
  eapply (ok_cells _ (q_smons q l)); [done..|]. apply ok_with_smons; [|done].
  eapply (relink_Forall smon_link); [apply smon_ok_link|by eapply INSERT_HEAD_relink|apply H].
Qed.
Lemma ok_remove_smons_active fuel m : maintains (ok R) (remove_smons_active fuel m).
Proof.
  intros q x q' H E. unfold remove_smons_active in E. list_op.
  eapply (ok_cells _ (q_smons q l)); [done..|]. apply ok_with_smons; [|done].
  eapply (relink_Forall smon_link); [apply smon_ok_link|by eapply SLIST_REMOVE_relink|apply H].
Qed.
End ListOps.

#[export] Hint Resolve ok_remove_head_sinsts_free ok_insert_smon_sinsts ok_remove_head_smon_sinsts ok_insert_arec_sinsts
  ok_insert_arecs_active ok_remove_head_arecs_free ok_remove_head_smons_free ok_remove_head_smons_active
  ok_insert_smons_active ok_insert_smons_free ok_remove_smons_active : keep.
#[export] Hint Resolve ok_insert_sinsts_free ok_remove_smon_sinsts ok_remove_arec_sinsts ok_remove_arecs_active
  ok_insert_arecs_free : keep.

Lemma ok_cleanup_sinst R fuel i : maintains (ok R) (cleanup_sinst fuel i).
Proof. unfold cleanup_sinst. keep. Qed.

Lemma ok_DO_CALLBACK R i c : maintains (ok R) (DO_CALLBACK i c).
Proof. unfold DO_CALLBACK. keep. apply maintains_modify. intros q. by apply ok_cells. Qed.

#[export] Hint Resolve ok_cleanup_sinst ok_DO_CALLBACK : keep.

(** ** Questions *)

(** Adding a question to the message returns, whether it fits or not. *)
Lemma add_question_built q nm ls t c : built (tx_msg q) -> name_arg nm ls -> word16 t -> word16 c ->
  exists e m, mdns_add_question (tx_msg q) nm t c = Ok (e, m) /\ built m.
Proof.
  intros (body & nq & na & nn & fl & R) Hn Ht Hc.
  destruct (emits_question nm ls t c Hn Ht Hc _ _ _ _ _ _ R) as (m' & _ & H).
  pose proof (add_tuple_spec nm ls t c NO_TTL _ _ _ _ _ _ Hn Ht Hc ltac:(by vm_compute) R) as Hadd.
  destruct (_ <=? 1472).
  - destruct H as [E R']. eexists _, m'. split; [exact E|]. do 5 eexists. exact R'.
  - exists (-1), (tx_msg q). split; [unfold mdns_add_question; by rewrite Hadd|]. do 5 eexists. exact R.
Qed.

Lemma sinst_question q i s : fine q -> sinsts q !! i = Some s ->
  exists e m, mdns_add_question (tx_msg q) (s_fqsn (si_service s), 0) T_ANY C_IN = Ok (e, m) /\ built m.
Proof.
  intros [H [Hb _]] Hs. destruct (so_fqsn _ (Forall_lookup_1 _ _ _ _ (ok_sinsts _ H) Hs)) as [ls Hn].
  apply (add_question_built q _ ls); [done|done|by vm_compute..].
Qed.
Lemma arec_question q a ar : fine q -> arecs q !! a = Some ar ->
  exists e m, mdns_add_question (tx_msg q) (ar_fqdn ar, 0) T_A C_IN = Ok (e, m) /\ built m.
Proof.
  intros [H [Hb _]] Hs. destruct (Forall_lookup_1 _ _ _ _ (ok_arecs _ H) Hs) as [_ [ls Hn]].
  apply (add_question_built q _ ls); [done|done|by vm_compute..].
Qed.
Lemma smon_question q m sm : fine q -> smons q !! m = Some sm ->
  exists e msg, mdns_add_question (tx_msg q) (sm_fqst sm, 0) T_ANY C_IN = Ok (e, msg) /\ built msg.
Proof.
  intros [H [Hb _]] Hs. destruct (Forall_lookup_1 _ _ _ _ (ok_smons _ H) Hs) as [_ [ls Hn]].
  apply (add_question_built q _ ls); [done|done|by vm_compute..].
Qed.

(** A new message under construction. *)
Lemma fine_tx q m : fine q -> built m -> fine (q_tx q m).
Proof. intros [[H1 H2 H3] [_ Hr]] Hb. split; [by constructor|done]. Qed.

(** The question of an instance about its SRV record. *)
Lemma fine_apply_elapsed fuel i elapsed : maintains fine (apply_elapsed fuel i elapsed).
Proof.
  unfold apply_elapsed. apply maintains_bind; [keep|]. intros _ q r q' H E.
  apply bind_inv in E as (s & q1 & [Hs ->]%get_sinst_inv & E). destruct (negb _); [by injection E as <- <-|].
  destruct (_ <? 5); [revert E; apply (maintains_bind fine); [keep|intros; keep|done]|].
  apply bind_inv in E as ([] & q1 & H1 & E). pose proof H1 as (s1 & Hs1 & ->)%upd_sinst_inv.
  rewrite Hs in Hs1. injection Hs1 as <-. apply (ok_upd_sinst (fun tx rx => built tx /\ sized rx)) in H1; [|by intros []|done].
  apply bind_inv in E as ([] & q2 & H2 & E). pose proof H2 as (s2 & Hs2 & ->)%upd_sinst_inv.
  cbn in Hs2. rewrite list_lookup_insert_eq in Hs2 by (by eapply lookup_lt_Some). injection Hs2 as <-.
  apply (ok_upd_sinst (fun tx rx => built tx /\ sized rx)) in H2; [|by intros []|done]. apply bind_inv in E as (msg & q3 & [= <- <-] & E).
  destruct (sinst_question q i s H Hs) as (e & m & Eq & Hb). cbn in Eq.
  rewrite (bind_run _ _ _ _ _ (lift_run _ _ _ Eq)) in E. apply bind_inv in E as ([] & q4 & [= <-] & E). injection E as <- <-.
  by apply fine_tx.
Qed.
#[export] Hint Resolve fine_apply_elapsed : keep.
