(* ===== verification/QuerierTotal.v ===== *)
(** * Preparing a query always succeeds

    From a state that satisfies the invariant [Inv] and whose cells are in order
    ([cells_ok]), [prepare_query] returns: it does not dereference NULL, does not
    leave a buffer and does not hang, whatever time has passed, and the state
    after it satisfies both again. *)
From stdpp Require Import sets.
From S2P Require Import Prelude Buffer Slist SlistSpec Dname DnameSpec Message MessageSpec.
From S2P Require Import Querier QuerierSpec QuerierWf QuerierInv QuerierRun QuerierPacket QuerierLoop QuerierQuery QuerierKeep.

(** [c] returns from [q], with a result and a state that satisfy [post]. *)
Definition total {A} (c : Q A) (q : qstate) (post : A -> qstate -> Prop) : Prop :=
  exists a q', c q = Ok (a, q') /\ post a q'.

Lemma total_bind {A B} (c : Q A) (k : A -> Q B) q post post' :
  total c q post -> (forall a q', post a q' -> total (k a) q' post') -> total (c ≫= k) q post'.
Proof.
  intros (a & q1 & E & H) Hk. destruct (Hk a q1 H) as (b & q2 & E2 & H2).
  exists b, q2. split; [by rewrite (bind_run _ _ _ _ _ E)|done].
Qed.

Lemma total_ret {A} (a : A) q (post : A -> qstate -> Prop) : post a q -> total (mret a) q post.
Proof. intros H. by exists a, q. Qed.

Lemma total_weaken {A} (c : Q A) q (post post' : A -> qstate -> Prop) :
  total c q post -> (forall a q', c q = Ok (a, q') -> post a q' -> post' a q') -> total c q post'.
Proof. intros (a & q' & E & H) Hw. exists a, q'. auto. Qed.

(** The loop that reads the next element after its body. *)
Lemma foreach_run {B} nxt (body : nat -> B -> Q B) (J : list nat -> B -> qstate -> Prop) :
  (forall i rest b q, J (i :: rest) b q ->
    exists b' q', body i b q = Ok (b', q') /\ J rest b' q' /\ nxt i q' = Ok (head rest, q')) ->
  forall fuel l b q, J l b q -> (length l <= fuel)%nat ->
  exists b' q', foreach fuel nxt body (head l) b q = Ok (b', q') /\ J [] b' q'.
Proof.
  intros Hb fuel. induction fuel as [|fuel IH]; intros [|i l] b q HJ Hl; cbn in Hl; try lia; try (by eauto).
  destruct (Hb _ _ _ _ HJ) as (b1 & q1 & E & HJ1 & En). destruct (IH l b1 q1 HJ1) as (b2 & q2 & E2 & HJ2); [lia|].
  exists b2, q2. split; [|done]. cbn. qstep E. by qstep En.
Qed.

(** Name the assignment that is run next from the state [q]. *)
Ltac name_upd q f := match goal with |- context [mbind _ (upd_sinst _ ?g) q] => set (f := g) end.

(** ** Callbacks *)

Lemma callback_total q i s m c : sinsts q !! i = Some s -> si_smon s = Some m -> (m < length (smons q))%nat ->
  exists q', DO_CALLBACK i c q = Ok (tt, q').
Proof.
  intros Hs Em Hm. destruct (lookup_lt_is_Some_2 _ _ Hm) as [sm Hsm]. eexists. unfold DO_CALLBACK.
  qstep (get_sinst_run _ _ _ Hs). rewrite Em. rewrite (bind_run _ _ _ m q) by done.
  by qstep (get_smon_run _ _ _ Hsm).
Qed.

Section Fuel.
Context (fuel : nat) (Hfuel : (CACHE <= fuel)%nat).

(** A live instance can be reported. *)
Lemma live_callback q sh m i c : Inv q sh -> i ∈ l_sinsts sh (Some m) -> exists q', DO_CALLBACK i c q = Ok (tt, q').
Proof using.
  clear Hfuel fuel. intros HI Hi. destruct (sinst_cell _ _ (inv_wf _ _ HI) _ _ Hi) as [s Hs].
  destruct (live_smon _ _ (inv_wf _ _ HI) m i s Hi Hs) as [Em Hm].
  apply (callback_total q i s m); [done|done|]. by rewrite (wf_smons _ _ (inv_wf _ _ HI)).
Qed.

(** A live instance is cleaned up, and can still be reported after that. *)
Lemma cleanup_total q sh m i s : Inv q sh -> i ∈ l_sinsts sh (Some m) -> sinsts q !! i = Some s ->
  exists q', cleanup_sinst fuel i q = Ok (tt, q') /\ forall c, exists q'', DO_CALLBACK i c q' = Ok (tt, q'').
Proof using Hfuel.
  intros HI Hi Hs. pose proof (inv_wf _ _ HI) as W. destruct (live_smon _ _ W m i s Hi Hs) as [Em Hm].
  destruct (cleanup_sinst_run fuel Hfuel q sh m i s W Hi Hs) as (q' & E & W' & C). exists q'. split; [done|]. intros c.
  pose proof (core_lk_upd si_smon _ _ _ _ _ i (fun _ => eq_refl) C Hs) as El. rewrite decide_True in El by done.
  unfold lk in El. destruct (sinsts q' !! i) as [s'|] eqn:Hs'; [|done]. cbn in El. rewrite Em in El.
  apply (callback_total q' i s' m); [done|congruence|]. by rewrite (wf_smons _ _ W').
Qed.

(** ** One instance *)

Lemma upd_sinst_total q i f s : sinsts q !! i = Some s -> exists q', upd_sinst i f q = Ok (tt, q').
Proof using. clear Hfuel fuel. intros Hs. eexists. by apply upd_sinst_run. Qed.

Lemma apply_elapsed_total q sh m i s elapsed : Inv q sh -> fine q -> i ∈ l_sinsts sh (Some m) -> sinsts q !! i = Some s ->
  exists ret q', apply_elapsed fuel i elapsed q = Ok (ret, q') /\
    (ret = -1 -> forall c, exists q'', DO_CALLBACK i c q' = Ok (tt, q'')).
Proof using Hfuel.
  intros HI Hf Hi Hs. unfold apply_elapsed.
  name_upd q f. pose proof (upd_sinst_run q i f s Hs) as E1.
  eapply upd_quiet in E1 as (HI1 & Hs1 & _); [|by intros []|exact HI|exact Hs].
  pose proof (ok_upd_sinst _ i f ltac:(by intros []) q tt _ Hf (upd_sinst_run q i f s Hs)) as Hf1.
  rewrite (bind_run _ _ _ _ _ (upd_sinst_run q i f s Hs)). set (q1 := q_sinsts q _) in *.
  rewrite (bind_run _ _ _ _ _ (get_sinst_run _ _ _ Hs1)).
  destruct (negb _); [by eexists _, _|]. destruct (_ <? 5).
  - destruct (cleanup_total q1 sh m i (f s) HI1 Hi Hs1) as (q2 & E2 & Hc). exists (-1), q2.
    split; [by rewrite (bind_run _ _ _ _ _ E2)|done].
  - name_upd q1 g. pose proof (upd_sinst_run q1 i g _ Hs1) as E2.
    pose proof (ok_upd_sinst _ i g ltac:(by intros []) q1 tt _ Hf1 E2) as Hf2. rewrite (bind_run _ _ _ _ _ E2).
    set (q2 := q_sinsts q1 _) in *.
    assert (sinsts q2 !! i = Some (g (f s))) as Hs2 by (cbn; apply list_lookup_insert_eq; by eapply lookup_lt_Some).
    name_upd q2 h. pose proof (upd_sinst_run q2 i h _ Hs2) as E3.
    pose proof (ok_upd_sinst _ i h ltac:(by intros []) q2 tt _ Hf2 E3) as Hf3. rewrite (bind_run _ _ _ _ _ E3).
    set (q3 := q_sinsts q2 _) in *. rewrite (bind_run _ _ _ (tx_msg q3) q3) by done.
    assert (sinsts q3 !! i = Some (h (g (f s)))) as Hs3 by (cbn; apply list_lookup_insert_eq; by eapply lookup_lt_Some).
    destruct (sinst_question q3 i _ Hf3 Hs3) as (e & msg & Eq & _).
    change (s_fqsn (si_service (h (g (f s))))) with (s_fqsn (si_service (f s))) in Eq.
    rewrite (bind_run _ _ _ _ _ (lift_run _ _ _ Eq)). eexists _, _. split; [done|]. destruct (negb _); done.
Qed.

(** The events that [prepare_query] raises. *)
Definition timed (e : sinst_event) : Prop := e = SINST_EVENT_ADD_QUESTIONS \/ e = SINST_EVENT_LOST_AREC.

Lemma fine_update_sinst i e rr elapsed : timed e -> maintains fine (update_sinst fuel i e None rr elapsed).
Proof using.
  clear Hfuel. intros [-> | ->]; unfold update_sinst, apply_event, sinst_init, sinst_clean, sinst_updating, set_si_state; keep.
Qed.

Lemma update_sinst_total q sh m i e rr elapsed : timed e -> Inv q sh -> fine q -> i ∈ l_sinsts sh (Some m) ->
  exists ret q', update_sinst fuel i e None rr elapsed q = Ok (ret, q').
Proof using Hfuel.
  intros He HI Hf Hi. destruct (sinst_cell _ _ (inv_wf _ _ HI) _ _ Hi) as [s Hs].
  assert (exists ch q', sinst_step fuel (si_state s) i e 0 elapsed q = Ok (ch, q')) as (ch & q' & E).
  { destruct He as [-> | ->].
    - destruct (apply_elapsed_total q sh m i s elapsed HI Hf Hi Hs) as (r & q1 & E1 & Hc).
      assert (exists s1, sinsts q1 !! i = Some s1) as [s1 Hs1].
      { eapply apply_elapsed_inv in E1 as (_ & _ & Est & _); [|exact Hfuel|exact HI|exact Hi|exact Hs]. unfold lk in Est.
        destruct (sinsts q1 !! i); [eauto|done]. }
      destruct (si_state s); cbn [sinst_step sinst_init sinst_clean sinst_updating]; rewrite (bind_run _ _ _ _ _ E1).
      + by eexists _, _.
      + destruct (Z.eqb_spec r (-1)) as [->|_].
        { destruct (Hc eq_refl MDNS_DISAPPEARED) as [q2 E2]. rewrite (bind_run _ _ _ _ _ E2). by eexists _, _. }
        destruct (r =? 1); [|by eexists _, _]. rewrite (bind_run _ _ _ _ _ (upd_sinst_run _ _ _ _ Hs1)).
        unfold set_si_state. match goal with |- context [q_sinsts q1 (<[i := ?x]> _)] => set (s2 := x) end.
        assert (sinsts (q_sinsts q1 (<[i := s2]> (sinsts q1))) !! i = Some s2) as Hs2
          by (cbn; apply list_lookup_insert_eq; by eapply lookup_lt_Some).
        rewrite (bind_run _ _ _ _ _ (upd_sinst_run _ _ _ _ Hs2)). by eexists _, _.
      + destruct (Z.eqb_spec r (-1)) as [->|_]; [|by eexists _, _].
        destruct (Hc eq_refl MDNS_DISAPPEARED) as [q2 E2]. rewrite (bind_run _ _ _ _ _ E2). by eexists _, _.
    - destruct (cleanup_total q sh m i s HI Hi Hs) as (q1 & E1 & Hc). destruct (Hc MDNS_DISAPPEARED) as [q2 E2].
      destruct (si_state s); cbn [sinst_step sinst_init sinst_clean sinst_updating]; rewrite (bind_run _ _ _ _ _ E1);
        [by eexists _, _|rewrite (bind_run _ _ _ _ _ E2); by eexists _, _..]. }
  exists (if 0 <? ch then 1 else 0), q'. unfold update_sinst.
  assert (apply_event fuel i e None rr elapsed q = Ok (0, q)) as E0 by (destruct He as [-> | ->]; done).
  rewrite (bind_run _ _ _ _ _ E0). rewrite (bind_run _ _ _ _ _ (get_sinst_run _ _ _ Hs)).
  change (match si_state s with SINST_STATE_INIT => _ | SINST_STATE_CLEAN => _ | SINST_STATE_UPDATING => _ end)
    with (sinst_step fuel (si_state s) i e 0 elapsed). by rewrite (bind_run _ _ _ _ _ E).
Qed.

(** ** One A record *)

Lemma fine_evict_arec a : maintains fine (evict_arec fuel a).
Proof using. clear Hfuel. unfold evict_arec, next_asinst. keep. apply fine_update_sinst. by right. Qed.

Lemma evict_arec_total q sh a : Inv q sh -> fine q -> a ∈ l_arecs sh true -> exists q', evict_arec fuel a q = Ok (tt, q').
Proof using Hfuel.
  intros HI Hf Ha. destruct (arec_cell _ _ (inv_wf _ _ HI) true a Ha) as [ar Har].
  set (J := fun (rest : list nat) (_ : unit) (q : qstate) => exists sh', Inv q sh' /\ fine q /\ l_asinsts sh' a = rest).
  set (body := fun i (_ : unit) => _ ← update_sinst fuel i SINST_EVENT_LOST_AREC None default_resource 0; mret tt : Q unit).
  destruct (foreach_run next_asinst body J) with (fuel := fuel) (l := l_asinsts sh a) (b := tt) (q := q)
    as ([] & q' & E & sh' & HI' & _).
  - intros i rest [] p (s' & HI' & Hf' & El). assert (i ∈ l_asinsts s' a) as Hia by (rewrite El; set_solver).
    destruct (asinsts_live _ _ (inv_wf _ _ HI') a i Hia) as [m Hi].
    destruct (update_sinst_total p s' m i SINST_EVENT_LOST_AREC default_resource 0 ltac:(by right) HI' Hf' Hi) as (r & p' & E).
    destruct (lost_step fuel Hfuel _ _ _ _ _ _ _ HI' El E) as (s1 & HI1 & _ & E1 & En).
    exists tt, p'. split; [unfold body; by rewrite (bind_run _ _ _ _ _ E)|]. split; [|done]. exists s1.
    split; [done|]. split; [|done]. eapply fine_update_sinst; [by right|exact Hf'|exact E].
  - exists sh. auto.
  - pose proof (asinsts_short _ _ (inv_wf _ _ HI) a). lia.
  - assert (a < length (arecs q'))%nat as Hlt.
    { rewrite (wf_arecs _ _ (inv_wf _ _ HI')). apply lookup_lt_Some in Har. by rewrite (wf_arecs _ _ (inv_wf _ _ HI)) in Har. }
    destruct (lookup_lt_is_Some_2 _ _ Hlt) as [ar' Har'].
    eexists. unfold evict_arec. rewrite (bind_run _ _ _ _ _ (get_arec_run _ _ _ Har)).
    rewrite (arec_head _ _ _ _ (wf_linked _ _ (inv_wf _ _ HI)) Har). fold body. rewrite (bind_run _ _ _ _ _ E).
    by apply upd_arec_run.
Qed.

Lemma ask_arec_total q a ar : fine q -> arecs q !! a = Some ar ->
  exists m, ask_arec a q = Ok (tt, q_tx q m) /\ built m.
Proof using.
  clear Hfuel fuel. intros Hf Ha. destruct (arec_question q a ar Hf Ha) as (e & m & E & Hb). exists m. split; [|done].
  unfold ask_arec. rewrite (bind_run _ _ _ _ _ (get_arec_run _ _ _ Ha)). rewrite (bind_run _ _ _ (tx_msg q) q) by done.
  by rewrite (bind_run _ _ _ _ _ (lift_run _ _ _ E)).
Qed.

Lemma fine_ask_arec a : maintains fine (ask_arec a).
Proof using.
  clear Hfuel fuel. intros q [] q' Hf E. pose proof E as E'. unfold ask_arec in E'.
  apply bind_inv in E' as (ar & q1 & [Ha ->]%get_arec_inv & _).
  destruct (ask_arec_total q a ar Hf Ha) as (m & E1 & Hb). rewrite E1 in E. injection E as <-. by apply fine_tx.
Qed.

Lemma fine_update_arec a rr elapsed : maintains fine (update_arec fuel a AREC_EVENT_ADD_QUESTIONS rr elapsed).
Proof using.
  clear Hfuel. pose proof fine_evict_arec. pose proof fine_ask_arec. unfold update_arec. keep.
Qed.

Lemma update_arec_total q sh a rr elapsed : Inv q sh -> fine q -> a ∈ l_arecs sh true ->
  exists ret q', update_arec fuel a AREC_EVENT_ADD_QUESTIONS rr elapsed q = Ok (ret, q') /\ exists ar, arecs q' !! a = Some ar.
Proof using Hfuel.
  intros HI Hf Ha. enough (exists r, update_arec fuel a AREC_EVENT_ADD_QUESTIONS rr elapsed q = Ok r) as [[ret q'] E].
  { exists ret, q'. split; [done|]. eapply update_arec_inv in E as (sh' & HI' & _); [|exact Hfuel|exact HI|exact Ha].
    apply lookup_lt_is_Some. rewrite (wf_arecs _ _ (inv_wf _ _ HI')). apply Nat.lt_lt_succ_r.
    apply (x_arecs _ _ _ (wf_cross _ _ (inv_wf _ _ HI))). eauto. }
  destruct (arec_cell _ _ (inv_wf _ _ HI) true a Ha) as [ar Har]. unfold update_arec. cbn [bool_decide andb].
  rewrite bool_decide_eq_false_2 by done. cbn [andb]. rewrite (bind_run _ _ _ _ _ (get_arec_run _ _ _ Har)).
  assert (forall f q1 ar1 (c : Z), fine q1 -> arecs q1 !! a = Some ar1 ->
    exists r, (ask_arec a;; upd_arec a f;; mret c : Q Z) q1 = Ok r) as Hask.
  { intros f q1 ar1 c Hf1 Ha1. destruct (ask_arec_total q1 a ar1 Hf1 Ha1) as (m & E & _).
    rewrite (bind_run _ _ _ _ _ E). rewrite (bind_run _ _ _ _ _ (upd_arec_run (q_tx q1 m) _ _ ar1 Ha1)). eauto. }
  destruct (ar_state ar); [by eapply Hask| |];
    (match goal with |- context [mbind _ (upd_arec _ ?g) q] => set (f := g) end);
    pose proof (upd_arec_run q a f ar Har) as E1; pose proof (ok_upd_arec _ a f ltac:(by intros []) q tt _ Hf E1) as Hf1;
    assert (Inv (q_arecs q (<[a := f ar]> (arecs q))) sh) as HI1 by (by apply Inv_arec with ar);
    set (q1 := q_arecs q _) in *;
    assert (arecs q1 !! a = Some (f ar)) as Ha1 by (cbn; apply list_lookup_insert_eq; by eapply lookup_lt_Some);
    rewrite (bind_run _ _ _ _ _ E1), (bind_run _ _ _ _ _ (get_arec_run _ _ _ Ha1)).
  - destruct (_ && _).
    + destruct (evict_arec_total q1 sh a HI1 Hf1 Ha) as [q2 E2]. rewrite (bind_run _ _ _ _ _ E2). eauto.
    + destruct (_ =? 0); [by eapply Hask|eauto].
  - destruct (_ =? 0); [by eapply Hask|eauto].
Qed.

(** ** The loops *)

Lemma next_arec_run q sh k d a rest : Inv q sh -> l_arecs sh k = d ++ a :: rest -> next_arec a q = Ok (head rest, q).
Proof using.
  clear Hfuel fuel. intros HI E. destruct (arec_cell _ _ (inv_wf _ _ HI) k a) as [ar Ha]; [rewrite E; set_solver|].
  unfold next_arec. rewrite (bind_run _ _ _ _ _ (get_arec_run _ _ _ Ha)).
  by rewrite <- (family_next _ _ _ _ _ _ _ _ _ (link_arecs _ _ (wf_linked _ _ (inv_wf _ _ HI))) E Ha).
Qed.
Lemma next_sinst_run q sh k d i rest : Inv q sh -> l_sinsts sh k = d ++ i :: rest -> next_sinst i q = Ok (head rest, q).
Proof using.
  clear Hfuel fuel. intros HI E. destruct (sinst_cell _ _ (inv_wf _ _ HI) k i) as [s Hs]; [rewrite E; set_solver|].
  unfold next_sinst. rewrite (bind_run _ _ _ _ _ (get_sinst_run _ _ _ Hs)).
  by rewrite <- (family_next _ _ _ _ _ _ _ _ _ (link_sinsts _ _ (wf_linked _ _ (inv_wf _ _ HI))) E Hs).
Qed.
Lemma active_smon_cell q sh m : Inv q sh -> m ∈ l_smons sh true -> exists sm, smons q !! m = Some sm.
Proof using.
  clear Hfuel fuel. intros HI Hm. apply (smon_cell _ _ (inv_wf _ _ HI)), (w_smons _ (inv_watched _ _ HI)). eauto.
Qed.
Lemma next_smon_run q sh d m rest : Inv q sh -> l_smons sh true = d ++ m :: rest -> next_smon m q = Ok (head rest, q).
Proof using.
  clear Hfuel fuel. intros HI E. destruct (active_smon_cell q sh m HI) as [sm Hm]; [rewrite E; set_solver|].
  unfold next_smon. rewrite (bind_run _ _ _ _ _ (get_smon_run _ _ _ Hm)).
  by rewrite <- (family_next _ _ _ _ _ _ _ _ _ (link_smons _ _ (wf_linked _ _ (inv_wf _ _ HI))) E Hm).
Qed.

(** The state between two steps: the monitors stay. *)
Definition ready (sh : shape) (q : qstate) : Prop := exists sh', Inv q sh' /\ fine q /\ l_smons sh' = l_smons sh.

Lemma arecs_loop_total elapsed q sh acc : Inv q sh -> fine q ->
  total (foreach_safe fuel next_arec
    (fun a (acc : Z * Z) =>
       r ← update_arec fuel a AREC_EVENT_ADD_QUESTIONS default_resource elapsed;
       ar ← get_arec a;
       mret (fst acc + r, MIN (snd acc) (ar_next_refresh ar)))
    (head (l_arecs sh true)) acc) q (fun _ => ready sh).
Proof using Hfuel.
  intros HI Hf. set (J := fun (rest : list nat) (_ : Z * Z) (q : qstate) =>
    exists sh' d, Inv q sh' /\ fine q /\ l_smons sh' = l_smons sh /\ l_arecs sh' true = d ++ rest).
  edestruct (foreach_safe_run next_arec (fun a (acc : Z * Z) =>
       r ← update_arec fuel a AREC_EVENT_ADD_QUESTIONS default_resource elapsed;
       ar ← get_arec a;
       mret (fst acc + r, MIN (snd acc) (ar_next_refresh ar))) J) with (fuel := fuel) (l := l_arecs sh true) (b := acc) (q := q)
    as (acc' & q' & E & sh' & d & HI' & Hf' & Em & _).
  - intros a rest b p (sh' & d & HI' & _ & _ & E). by eapply next_arec_run.
  - intros a rest b p (sh' & d & HI' & Hf' & Em & E).
    destruct (update_arec_total p sh' a default_resource elapsed HI' Hf') as (r & p' & E1 & ar & Har); [rewrite E; set_solver|].
    eexists _, p'. split; [rewrite (bind_run _ _ _ _ _ E1); by rewrite (bind_run _ _ _ _ _ (get_arec_run _ _ _ Har))|].
    destruct (arec_round fuel Hfuel _ _ _ _ _ _ _ _ HI' E E1) as (sh1 & d1 & HI1 & Em1 & Ed1). exists sh1, d1. split; [done|].
    split; [by eapply fine_update_arec; [exact Hf'|exact E1]|]. split; [congruence|done].
  - exists sh, []. auto.
  - pose proof (arecs_short _ _ (inv_wf _ _ HI) true). lia.
  - exists acc', q'. split; [done|]. exists sh'. auto.
Qed.

Lemma sinsts_loop_total elapsed q sh m acc : Inv q sh -> fine q ->
  total (foreach_safe fuel next_sinst
    (fun i (acc : Z * Z) =>
       r ← update_sinst fuel i SINST_EVENT_ADD_QUESTIONS None default_resource elapsed;
       s ← get_sinst i;
       mret (fst acc + r, MIN (snd acc) (next_refresh s)))
    (head (l_sinsts sh (Some m))) acc) q (fun _ => ready sh).
Proof using Hfuel.
  intros HI Hf. set (J := fun (rest : list nat) (_ : Z * Z) (q : qstate) =>
    exists sh' d, Inv q sh' /\ fine q /\ l_smons sh' = l_smons sh /\ l_sinsts sh' (Some m) = d ++ rest).
  edestruct (foreach_safe_run next_sinst (fun i (acc : Z * Z) =>
       r ← update_sinst fuel i SINST_EVENT_ADD_QUESTIONS None default_resource elapsed;
       s ← get_sinst i;
       mret (fst acc + r, MIN (snd acc) (next_refresh s))) J) with (fuel := fuel) (l := l_sinsts sh (Some m)) (b := acc) (q := q)
    as (acc' & q' & E & sh' & d & HI' & Hf' & Em & _).
  - intros i rest b p (sh' & d & HI' & _ & _ & E). by eapply next_sinst_run.
  - intros i rest b p (sh' & d & HI' & Hf' & Em & E). assert (i ∈ l_sinsts sh' (Some m)) as Hi by (rewrite E; set_solver).
    destruct (update_sinst_total p sh' m i SINST_EVENT_ADD_QUESTIONS default_resource elapsed ltac:(by left) HI' Hf' Hi) as (r & p' & E1).
    destruct (sinst_round fuel Hfuel _ _ _ _ _ _ _ _ _ HI' E E1) as (sh1 & d1 & HI1 & Em1 & Ed1).
    assert (exists s, sinsts p' !! i = Some s) as [s Hs].
    { apply lookup_lt_is_Some. rewrite (wf_sinsts _ _ (inv_wf _ _ HI1)). apply Nat.lt_lt_succ_r.
      apply (x_sinsts _ _ _ (wf_cross _ _ (inv_wf _ _ HI'))). eauto. }
    eexists _, p'. split; [rewrite (bind_run _ _ _ _ _ E1); by rewrite (bind_run _ _ _ _ _ (get_sinst_run _ _ _ Hs))|].
    exists sh1, d1. split; [done|]. split; [eapply fine_update_sinst; [by left|exact Hf'|exact E1]|]. split; [congruence|done].
  - exists sh, []. auto.
  - pose proof (sinsts_short _ _ (inv_wf _ _ HI) (Some m)). lia.
  - exists acc', q'. split; [done|]. exists sh'. auto.
Qed.

(** ** The monitors *)

Lemma ready_trans sh sh' q : l_smons sh' = l_smons sh -> ready sh' q -> ready sh q.
Proof using. clear Hfuel fuel. intros E (s & HI & Hf & Es). exists s. split; [done|]. split; [done|congruence]. Qed.

Lemma refresh_smon_total elapsed q sh m acc : Inv q sh -> fine q -> m ∈ l_smons sh true ->
  total (refresh_smon fuel elapsed m acc) q (fun _ => ready sh).
Proof using Hfuel.
  intros HI Hf Hm. destruct acc as [ret ne]. unfold refresh_smon. destruct (active_smon_cell q sh m HI Hm) as [sm Hsm].
  unfold total. rewrite (bind_run _ _ _ _ _ (get_smon_run _ _ _ Hsm)). fold (total (A := (Z * Z + Z * Z)%type)).
  eapply (total_bind _ _ q (fun _ q' => Inv q' sh /\ fine q')).
  - destruct (_ <=? elapsed).
    + unfold total. rewrite (bind_run _ _ _ (tx_msg q) q) by done.
      match goal with |- context [mbind _ (upd_smon _ ?g) q] => set (f := g) end.
      pose proof (upd_smon_run q m f sm Hsm) as E1. pose proof (ok_upd_smon _ m f ltac:(by intros []) q tt _ Hf E1) as Hf1.
      rewrite (bind_run _ _ _ _ _ E1). set (q1 := q_smons q _) in *.
      assert (Inv q1 sh) as HI1 by (by apply Inv_smon with sm). destruct (smon_question q m sm Hf Hsm) as (e & msg & Eq & Hb).
      rewrite (bind_run _ _ _ _ _ (lift_run _ _ _ Eq)). rewrite (bind_run _ _ _ tt (q_tx q1 msg)) by done.
      destruct (negb _); eexists _, _; (split; [done|]); (split; [by apply Inv_tx|by apply fine_tx]).
    + match goal with |- context [mbind _ (upd_smon _ ?g)] => set (f := g) end.
      pose proof (upd_smon_run q m f sm Hsm) as E1. pose proof (ok_upd_smon _ m f ltac:(by intros []) q tt _ Hf E1) as Hf1.
      unfold total. rewrite (bind_run _ _ _ _ _ E1). eexists _, _. split; [done|]. split; [by apply Inv_smon with sm|done].
  - intros [e|acc] q1 [HI1 Hf1]; [apply total_ret; by exists sh|]. destruct (active_smon_cell q1 sh m HI1 Hm) as [sm1 Hsm1].
    unfold total. rewrite (bind_run _ _ _ _ _ (get_smon_run _ _ _ Hsm1)). fold (total (A := (Z * Z + Z * Z)%type)).
    eapply total_bind; [|intros a q2 H2; apply total_ret; exact H2].
    rewrite (smon_head _ _ _ _ (wf_linked _ _ (inv_wf _ _ HI1)) Hsm1). by apply sinsts_loop_total.
Qed.

Lemma refresh_smons_total elapsed rounds : forall d rest q sh acc, Inv q sh -> fine q -> l_smons sh true = d ++ rest ->
  (length rest <= rounds)%nat -> total (refresh_smons rounds fuel elapsed (head rest) acc) q (fun _ => ready sh).
Proof using Hfuel.
  induction rounds as [|n IH]; intros d [|m rest] q sh acc HI Hf E Hl; cbn in Hl; try lia;
    try (by apply total_ret; exists sh).
  cbn [refresh_smons head]. eapply total_bind; [apply refresh_smon_total; [done|done|rewrite E; set_solver]|].
  intros [e|acc1] q1 (sh1 & HI1 & Hf1 & Em1); [apply total_ret; by exists sh1|]. rewrite <- Em1 in E.
  unfold total. rewrite (bind_run _ _ _ _ _ (next_smon_run _ _ _ _ _ HI1 E)). apply (total_weaken _ _ (fun _ => ready sh1)).
  - apply (IH (d ++ [m])); [done|done|by rewrite <- app_assoc|lia].
  - intros a q2 _ H. by apply ready_trans with sh1.
Qed.

(** ** Known answers *)

(** The known answers only change offsets in the monitor. *)
Lemma ok_known_answers n m cur_ : maintains (ok (fun _ => sized)) (add_known_answers_loop n m cur_).
Proof using.
  clear Hfuel fuel. revert cur_. induction n as [|n IH]; intros [i|]; cbn; keep.
  apply maintains_modify. intros q' [[H1 H2 H3] Hr]. by split; [constructor|].
Qed.

Lemma known_names q l : Forall sinst_ok (sinsts q) -> Forall (fun i => is_Some (sinsts q !! i)) l ->
  exists ks, Forall2 (fun i k => exists s, sinsts q !! i = Some s /\ is_known s k) l ks.
Proof using.
  clear Hfuel fuel. intros Hok. induction 1 as [|i l [s Hs] _ [ks IH]]; [exists []; constructor|].
  destruct (so_sname _ (Forall_lookup_1 _ _ _ _ Hok Hs)) as (n & Hn). exists ((ptr_ttl s, n) :: ks).
  constructor; [|done]. exists s. split; [done|]. split; [done|]. exact Hn.
Qed.

Lemma known_answers_total q sh m : Inv q sh -> fine q -> m ∈ l_smons sh true ->
  total (add_known_answers fuel m) q (fun _ q' => Inv q' sh /\ fine q').
Proof using Hfuel.
  intros HI Hf Hm. destruct (active_smon_cell q sh m HI Hm) as [sm Hsm].
  destruct Hf as (Hok & (body & nq & na & nn & fl & R) & Hr).
  destruct (known_names q (l_sinsts sh (Some m)) (ok_sinsts _ Hok)) as [ks Hks].
  { apply Forall_forall. intros i Hi. apply list_elem_of_In in Hi. by destruct (sinst_cell _ _ (inv_wf _ _ HI) _ _ Hi) as [s ->]. }
  destruct (known_loop_run m _ (l_sinsts sh (Some m)) fuel q sm (sm_sinsts sm) ks body nq na nn fl Hsm eq_refl)
    as (ret & q' & b' & n' & E & _ & R' & S' & _); [|done|done| |].
  - pose proof (fam_chain _ _ _ (link_sinsts _ _ (wf_linked _ _ (inv_wf _ _ HI))) (Some m)) as Hc. cbn in Hc. by rewrite Hsm in Hc.
  - pose proof (sinsts_short _ _ (inv_wf _ _ HI) (Some m)). lia.
  - exists ret, q'. split; [unfold add_known_answers; by rewrite (bind_run _ _ _ _ _ (get_smon_run _ _ _ Hsm))|].
    split; [by eapply add_known_answers_loop_inv|]. destruct (ok_known_answers _ _ _ q ret q' (conj Hok Hr) E) as [Hok' Hr'].
    split; [done|]. split; [by do 5 eexists|done].
Qed.

Lemma known_loop_total q sh acc : Inv q sh -> fine q ->
  total (foreach fuel next_smon
    (fun m next_event =>
       sm ← get_smon m;
       if sm_next_refresh sm =? 0 then
         _ ← add_known_answers fuel m;
         sm ← get_smon m;
         upd_smon m (fun sm => smon_with_refresh sm (refresh_period sm) (refresh_period sm));;
         mret (MIN next_event (refresh_period sm))
       else mret next_event)
    (head (l_smons sh true)) acc) q (fun _ q' => Inv q' sh /\ fine q').
Proof using Hfuel.
  intros HI Hf. match goal with |- total (foreach _ _ ?b _ _) _ _ => set (body := b) end.
  set (J := fun (rest : list nat) (_ : Z) (q : qstate) => Inv q sh /\ fine q /\ exists d, l_smons sh true = d ++ rest).
  destruct (foreach_run next_smon body J) with (fuel := fuel) (l := l_smons sh true) (b := acc) (q := q)
    as (acc' & q' & E & HI' & Hf' & _); [| | |by exists acc', q'].
  - clear HI Hf q acc. intros m rest b q (HI & Hf & d & E). assert (m ∈ l_smons sh true) as Hm by (rewrite E; set_solver).
    assert (total (body m b) q (fun _ q' => Inv q' sh /\ fine q')) as (b' & q' & Eb & HI' & Hf').
    { destruct (active_smon_cell q sh m HI Hm) as [sm Hsm]. unfold body, total.
      rewrite (bind_run _ _ _ _ _ (get_smon_run _ _ _ Hsm)). fold (total (A := Z)).
      destruct (_ =? 0); [|by apply total_ret]. eapply total_bind; [by apply known_answers_total|].
      intros _ q1 [HI1 Hf1]. destruct (active_smon_cell q1 sh m HI1 Hm) as [sm1 Hsm1].
      unfold total. rewrite (bind_run _ _ _ _ _ (get_smon_run _ _ _ Hsm1)).
      match goal with |- context [mbind _ (upd_smon _ ?g)] => set (f := g) end.
      pose proof (upd_smon_run q1 m f sm1 Hsm1) as E1.
      pose proof (ok_upd_smon _ m f ltac:(by intros []) q1 tt _ Hf1 E1) as Hf2. rewrite (bind_run _ _ _ _ _ E1).
      eexists _, _. split; [done|]. split; [by apply Inv_smon with sm1|done]. }
    exists b', q'. split; [done|]. split; [|by eapply next_smon_run].
    split; [done|]. split; [done|]. exists (d ++ [m]). by rewrite <- app_assoc.
  - split; [done|]. split; [done|]. by exists [].
  - pose proof (smons_short q sh true HI). lia.
Qed.

(** ** The query *)

Lemma prepare_query_total elapsed q sh : Inv q sh -> held q ->
  total (prepare_query fuel elapsed) q (fun _ => ready sh).
Proof using Hfuel.
  intros HI (Hok & [Hz Hb] & Hr). destruct (query_init_repr (tx_msg q) Hz Hb) as (m & Em & _ & R). unfold prepare_query, total.
  rewrite (bind_run _ _ _ (tx_msg q) q) by done. rewrite (bind_run _ _ _ _ _ (lift_run _ _ _ Em)).
  rewrite (bind_run _ _ _ tt (q_tx q m)) by done. change (negb (0 =? 0)) with false. cbv iota.
  set (q1 := q_tx q m). assert (Inv q1 sh) as HI1 by (by apply Inv_tx).
  assert (fine q1) as Hf1 by (split; [destruct Hok; by constructor|split; [by do 5 eexists|done]]).
  clearbody q1. clear q m Em R HI Hok Hz Hb Hr.
  rewrite (bind_run _ _ _ (arecs_active q1) q1) by done. fold (total (A := (Z * Z)%type)).
  destruct (heads_eq _ _ (wf_linked _ _ (inv_wf _ _ HI1))) as (_ & _ & _ & -> & _).
  eapply total_bind; [by apply arecs_loop_total|]. intros [ret ne] q2 (sh2 & HI2 & Hf2 & E2).
  unfold total. rewrite (bind_run _ _ _ (smons_active q2) q2) by done. fold (total (A := (Z * Z)%type)).
  destruct (heads_eq _ _ (wf_linked _ _ (inv_wf _ _ HI2))) as (-> & _).
  eapply total_bind; [apply (refresh_smons_total _ _ [] _ _ sh2); [done..|pose proof (smons_short q2 sh2 true HI2); lia]|].
  intros r q3 (sh3 & HI3 & Hf3 & E3). assert (ready sh q3) as Hr3 by (exists sh3; split; [done|split; [done|congruence]]).
  destruct r as [e|[ret3 ne3]]; [by apply total_ret|]. destruct (ret3 =? 0); [by apply total_ret|].
  unfold total. rewrite (bind_run _ _ _ (smons_active q3) q3) by done. fold (total (A := (Z * Z)%type)).
  destruct (heads_eq _ _ (wf_linked _ _ (inv_wf _ _ HI3))) as (-> & _).
  eapply total_bind; [by apply known_loop_total|]. intros ne4 q4 [HI4 Hf4]. apply total_ret. exists sh3. split; [done|]. split; [done|congruence].
Qed.
End Fuel.
