(* ===== verification/QuerierHeld.v ===== *)
(** * The contents of the querier's cells survive every iteration

    A received packet fills names and strings of the cells from bytes the network
    chose.  Here: whatever the packet is, the cells are in order again ([held])
    whenever its handlers return; the same holds of the handlers of control
    messages. *)
From stdpp Require Import sets.
From S2P Require Import Prelude Buffer Slist SlistSpec Dname DnameSpec DnameText DnameKeep Message MessageSpec MessageSafe.
From S2P Require Import Querier QuerierSpec QuerierWf QuerierInv QuerierRun QuerierQuery QuerierKeep.

(** ** Rules that keep what is known of a value *)

Lemma held_rx {A} (k : mdns_message -> Q A) : (forall m, sized m -> maintains held (k m)) -> maintains held (gets rx_msg ≫= k).
Proof. intros Hk q a q' H E. change (k (rx_msg q) q = Ok (a, q')) in E. eapply Hk; [|exact H|exact E]. apply H. Qed.

Lemma held_sinst {A} i (k : service_instance -> Q A) : (forall s, sinst_ok s -> maintains held (k s)) ->
  maintains held (get_sinst i ≫= k).
Proof.
  intros Hk q a q' H (s & q1 & [Hs ->]%get_sinst_inv & E)%bind_inv. eapply (Hk s); [|exact H|exact E].
  exact (Forall_lookup_1 _ _ _ _ (ok_sinsts _ (proj1 H)) Hs).
Qed.

Lemma maintains_lift_bind {A B} P (r : res A) (k : A -> Q B) : (forall a, r = Ok a -> maintains P (k a)) ->
  maintains P (lift r ≫= k).
Proof. intros Hk q b q' H (a & q1 & [E ->]%lift_inv & E')%bind_inv. by eapply Hk. Qed.

(** [keep] for [held]: a message and an instance that were read are in order, and
    what a computation returned is kept as an equation. *)
Ltac hold :=
  repeat first
    [ solve [eauto with keep]
    | match goal with
      | |- maintains _ (mbind _ (gets rx_msg)) => apply held_rx; intros ? ?
      | |- maintains _ (mbind _ (get_sinst _)) => apply held_sinst; intros ? ?
      | |- maintains _ (mbind _ (lift _)) => apply maintains_lift_bind; intros ? ?
      | |- maintains _ (mbind _ _) => apply maintains_bind; [|intros ?]
      | |- maintains _ (match ?x with _ => _ end) => destruct x
      end
    | apply maintains_foreach; [intros ?|intros ? ?]
    | apply maintains_foreach_safe; [intros ?|intros ? ?]
    | apply maintains_for_records; intros ? ].

Lemma held_set_sinst i s : sinst_ok s -> maintains held (upd_sinst i (fun _ => s)).
Proof.
  intros Hs q [] q' H (s0 & _ & ->)%upd_sinst_inv. apply ok_with_sinsts; [|done]. by apply Forall_insert; [apply H|].
Qed.

Lemma held_set_arec a f : (forall ar, arec_ok (f ar)) -> maintains held (upd_arec a f).
Proof.
  intros Hf q [] q' H (s0 & _ & ->)%upd_arec_run_inv. apply ok_with_arecs; [|done]. by apply Forall_insert; [apply H|].
Qed.

Lemma held_set_smon m sm : smon_ok sm -> maintains held (upd_smon m (fun _ => sm)).
Proof.
  intros Hs q [] q' H (s0 & _ & ->)%upd_smon_run_inv. apply ok_with_smons; [|done]. by apply Forall_insert; [apply H|].
Qed.

(** ** Cleared cells *)

Lemma root_arg n : (0 < n)%nat -> exists ls, name_arg (replicate n 0, 0) ls.
Proof.
  intros Hn. exists []. split; [constructor|]. split; [|done]. destruct n as [|n]; [lia|]. by apply holds_rd.
Qed.

Lemma zero_sinst_ok : sinst_ok zero_sinst.
Proof.
  constructor; [apply (root_arg 255); lia| |by vm_compute|done]. exists []. split; [constructor|].
  split; [constructor|]. split; [done|]. by apply holds_rd.
Qed.
Lemma reset_ok : sinst_ok reset_service_instance.
Proof. eapply sinst_ok_same; [|apply zero_sinst_ok]. done. Qed.
Lemma zero_arec_ok : arec_ok zero_arec.
Proof. split; [done|]. apply (root_arg 256); lia. Qed.
Lemma zero_smon_ok : smon_ok zero_smon.
Proof. split; [done|]. apply (root_arg 256); lia. Qed.

(** ** Filling a cell from a packet *)

Lemma update_txt_ok s m r c s' : sinst_ok s -> update_txt s m r = Ok (c, s') -> sinst_ok s'.
Proof.
  intros [H1 H2 H3 H4] H. unfold update_txt in H. apply bind_ok in H as (ch & _ & H). destruct ch; [|by injection H as _ <-].
  set (l := if _ <? _ then _ else _) in H. assert (l <= 256) as Hl by (unfold l, MDNS_MAX_KEYVAL_LEN; case_match; b2p; lia).
  clearbody l. apply bind_ok in H as (bs & Hbs & H). apply bind_ok in H as (raw & Hraw & H).
  apply bind_ok in H as (kv & Hkv & H). injection H as _ <-. apply rd_range_holds in Hbs as [El _].
  apply wr_range_Zlen in Hraw. apply txt_to_c_loop_Zlen in Hkv. constructor; cbn; [done|done| |pose proof (Zlen_nonneg bs); lia].
  destruct H3 as (? & ? & ? & ? & ? & ?). split_and!; congruence.
Qed.

Lemma with_fqsn_ok s n : sinst_ok s -> Zlen n = 255 -> (exists ls, name_arg (n, 0) ls) ->
  sinst_ok (with_service s (service_with_fqsn (si_service s) n)).
Proof. intros [H1 H2 H3 H4] Hz Hn. constructor; cbn; [done|done| |done]. destruct H3 as (_ & ?). by split. Qed.

Lemma with_labels_ok s n t d : sinst_ok s -> Zlen n = 64 -> Zlen t = 64 -> Zlen d = 64 -> (exists l, c_buffer n l) ->
  sinst_ok (with_labels s n t d).
Proof. intros [H1 H2 H3 H4] ? ? ? Hn. constructor; cbn; [done|done| |done]. destruct H3 as (? & _ & _ & _ & ? & ?). by split_and!. Qed.

Lemma copy_servinfo_ok fuel s m n c s' : bytes (data m) -> sinst_ok s -> copy_servinfo fuel s m n = Ok (c, s') -> sinst_ok s'.
Proof.
  intros Hb Hs H. unfold copy_servinfo in H. apply bind_ok in H as ([ret nm] & Hn & H).
  pose proof (so_sizes _ Hs) as (Z1 & Z2 & Z3 & Z4 & _). apply dname_copy_keeps in Hn as [Zn Hn]; [|done|rewrite Z1; lia].
  assert (sinst_ok (with_service s (service_with_fqsn (si_service s) nm))) as Hs1 by (apply with_fqsn_ok; [done|congruence|done]).
  revert H. set (s1 := with_service s _) in *. cbv zeta. intros H. destruct (_ =? _); [by injection H as _ <-|].
  apply bind_ok in H as ([p1 b1] & Hc1 & H). apply dname_label_to_c_keeps in Hc1 as [Zb1 Cb1]; [|done].
  specialize (Cb1 (so_sname _ Hs1)). assert (sinst_ok (with_labels s1 b1 (stype s1) (domain s1))) as Hs2
    by (apply with_labels_ok; [done|exact (eq_trans Zb1 Z2)|done..]). set (s2 := with_labels s1 _ _ _) in *.
  destruct p1 as [n1|]; [|by injection H as _ <-].
  apply bind_ok in H as ([p2 b2] & Hc2 & H). apply dname_label_to_c_keeps in Hc2 as [Zb2 _]; [|done].
  assert (sinst_ok (with_labels s2 (sname s2) b2 (domain s2))) as Hs3
    by (apply with_labels_ok; [done|exact (eq_trans Zb1 Z2)|exact (eq_trans Zb2 Z3)|done..]). set (s3 := with_labels s2 _ _ _) in *.
  destruct p2 as [n2|]; [|by injection H as _ <-].
  apply bind_ok in H as (tcp & _ & H). apply bind_ok in H as (udp & _ & H). destruct (negb _); [by injection H as _ <-|].
  set (s4 := with_service s3 _) in H. assert (sinst_ok s4) as Hs4 by (by apply (sinst_ok_same s3)).
  apply bind_ok in H as ([n3|] & _ & H); [|by injection H as _ <-].
  apply bind_ok in H as ([p4 b4] & Hc4 & H). apply dname_label_to_c_keeps in Hc4 as [Zb4 _]; [|done].
  assert (sinst_ok (with_labels s4 (sname s4) (stype s4) b4)) as Hs5
    by (apply with_labels_ok; [done|exact (eq_trans Zb1 Z2)|exact (eq_trans Zb2 Z3)|exact (eq_trans Zb4 Z4)|done]).
  by destruct p4; injection H as _ <-.
Qed.

(** ** The handlers of a packet *)

Lemma held_set_arec_of fuel i a : maintains held (set_arec fuel i a).
Proof. unfold set_arec. hold. Qed.
#[export] Hint Resolve held_set_arec_of : keep.

Lemma new_fqdn_ok fuel m n ret b ar : sized m -> dname_copy fuel (ar_fqdn zero_arec) (packet m) n = Ok (ret, b) ->
  arec_ok (arec_with_fqdn ar b).
Proof.
  intros [_ Hb] H. apply dname_copy_keeps in H as [Hz Hn]; [|done|done]. split; [exact Hz|exact Hn].
Qed.

Lemma held_update_srv fuel i r elapsed : maintains held (update_srv fuel i r elapsed).
Proof.
  unfold update_srv, find_arec. hold; apply held_set_arec; intros; [apply zero_arec_ok|by eapply new_fqdn_ok].
Qed.
#[export] Hint Resolve held_update_srv : keep.

Lemma held_apply_event fuel i e a rr elapsed : maintains held (apply_event fuel i e a rr elapsed).
Proof. unfold apply_event. hold. apply held_set_sinst. by eapply update_txt_ok. Qed.
#[export] Hint Resolve held_apply_event : keep.

(** Every event but the one that asks questions. *)
Lemma held_update_sinst fuel i e a rr elapsed : e <> SINST_EVENT_ADD_QUESTIONS ->
  maintains held (update_sinst fuel i e a rr elapsed).
Proof.
  intros He. unfold update_sinst, sinst_init, sinst_clean, sinst_updating, service_ready, set_si_state.
  destruct e; [..|done]; hold.
Qed.

Lemma held_evict fuel a : maintains held (evict_arec fuel a).
Proof. unfold evict_arec, next_asinst. hold. by apply held_update_sinst. Qed.
Lemma held_set_ip fuel a rr : maintains held (set_ip fuel a rr).
Proof. unfold set_ip, next_asinst. hold. by apply held_update_sinst. Qed.
#[export] Hint Resolve held_evict held_set_ip : keep.

Lemma held_update_arec fuel a rr elapsed : maintains held (update_arec fuel a AREC_EVENT_RX_REC rr elapsed).
Proof. unfold update_arec. hold. Qed.
#[export] Hint Resolve held_update_arec : keep.

Lemma held_rx_lists A S T P m : sized m -> maintains held (modify (fun q => q_rx q (set_lists m A S T P))).
Proof. intros Hm. apply maintains_modify. intros q [[H1 H2 H3] [Ht _]]. split; [by constructor|done]. Qed.

Lemma held_overflow_txt fuel r : maintains held (overflow_txt fuel r).
Proof.
  unfold overflow_txt, record_for, drop_txt. hold; [apply held_set_sinst; by eapply update_txt_ok|by apply held_rx_lists].
Qed.
Lemma held_overflow_srv fuel r : maintains held (overflow_srv fuel r).
Proof.
  unfold overflow_srv, record_for, drop_srv.
  hold; [apply held_set_arec; intros _; by eapply new_fqdn_ok|by apply held_rx_lists].
Qed.
Lemma held_overflow_a fuel l : maintains held (overflow_a fuel l).
Proof. induction l as [|r l IH]; cbn; unfold record_for; hold. Qed.
#[export] Hint Resolve held_overflow_txt held_overflow_srv held_overflow_a : keep.

Lemma filled_ok fuel s m n c s' : sized m -> sinst_ok s -> copy_servinfo fuel s m n = Ok (c, s') -> sinst_ok s'.
Proof. intros [_ Hb]. by apply copy_servinfo_ok. Qed.

Lemma held_overflow_instance fuel m ptr : maintains held (overflow_instance fuel m ptr).
Proof.
  unfold overflow_instance. hold. apply held_set_sinst. eapply filled_ok; [done| |done].
  apply (sinst_ok_same reset_service_instance); [done|apply reset_ok].
Qed.
Lemma held_known_instance fuel i ptr elapsed : maintains held (known_instance fuel i ptr elapsed).
Proof. unfold known_instance. hold. Qed.
Lemma held_new_instance fuel m i ptr elapsed : maintains held (new_instance fuel m i ptr elapsed).
Proof. unfold new_instance. hold; apply held_set_sinst; [apply reset_ok|by eapply filled_ok]. Qed.
#[export] Hint Resolve held_overflow_instance held_known_instance held_new_instance : keep.

Lemma held_update_service_cache fuel elapsed : maintains held (update_service_cache fuel elapsed).
Proof.
  unfold update_service_cache, update_ptr, update_record, update_a, find_service_monitor, find_service_instance, find_arec.
  hold; by apply held_update_sinst.
Qed.
#[export] Hint Resolve held_update_service_cache : keep.

(** ** Receiving a packet *)

Lemma parse_questions_data fuel k : forall i m ret m', parse_questions fuel k i m = Ok (ret, m') -> data m' = data m.
Proof.
  induction k as [|k IH]; intros i m ret m' H; cbn [parse_questions] in H; [by injection H as _ <-|].
  inv_bind. case_match; [by injection H as _ <-|]. case_match; [by injection H as _ <-|]. inv_bind. inv_bind.
  by apply IH in H.
Qed.

Lemma parse_resource_data fuel m ref r ret m' r' : parse_resource fuel m ref r = Ok (ret, m', r') -> data m' = data m.
Proof.
  unfold parse_resource. intros H. assert (forall m t, data (sort_record m ref t) = data m) as Hs
    by (intros m0 t; unfold sort_record; by repeat case_match).
  apply bind_ok in H as (l & _ & H). destruct (l =? -1); [by injection H as _ <- _|].
  destruct (no_tailroom_u _ _); [by injection H as _ <- _|]. do 4 (apply bind_ok in H as (? & _ & H)).
  destruct (no_tailroom _ _); [by injection H as _ <- _|]. apply bind_ok in H as (b & _ & H).
  destruct b; injection H as _ <- _; by rewrite ?Hs.
Qed.

Lemma parse_resources_data s fuel k : forall i m ret m', parse_resources s fuel k i m = Ok (ret, m') -> data m' = data m.
Proof.
  assert (forall m R, data (set_records s m R) = data m) as Hs by (by destruct s).
  induction k as [|k IH]; intros i m ret m' H; cbn [parse_resources] in H; [by injection H as _ <-|].
  apply bind_ok in H as ([[r1 m1] r] & H1%parse_resource_data & H).
  destruct (_ =? _); [injection H as _ <-; by rewrite Hs|]. apply IH in H. by rewrite H, Hs.
Qed.

(** Parsing swaps two bytes of the header, whatever it returns. *)
Lemma parse_message_sized fuel m mlen ret m' : sized m -> mdns_parse_message fuel m mlen = Ok (ret, m') -> sized m'.
Proof.
  intros [Hz Hb] H. unfold mdns_parse_message in H. destruct (_ <? _); [by injection H as _ <-|].
  apply bind_ok in H as ([m1 num] & Hh & H).
  apply (parse_header_sound _ _ _ _ Hb) in Hh as (d & n1 & n2 & n3 & -> & Hd & Ez & _).
  enough (data m' = d) as E by (split; [congruence|by rewrite E]). clear Hb Hz Ez Hd.
  destruct (negb _); [by injection H as _ <-|]. rewrite cap_questions in H.
  apply bind_ok in H as ([r2 m2] & H2%parse_questions_data & H). destruct (_ =? _); [by injection H as _ <-|].
  rewrite cap_answers in H.
  apply bind_ok in H as ([r3 m3] & H3%parse_resources_data & H). cbn in H2, H3. rewrite H2 in H3.
  destruct (_ =? _); [by injection H as _ <-|]. rewrite cap_authorities in H.
  apply bind_ok in H as ([r4 m4] & H4%parse_resources_data & H). cbn in H4. rewrite H3 in H4.
  by destruct (_ =? _); injection H as _ <-.
Qed.

Lemma held_querier_rx fuel p sleep : bytes p -> maintains held (querier_rx fuel p sleep).
Proof.
  intros Hp. unfold querier_rx. apply held_rx. intros m [Hz Hb]. apply maintains_lift_bind. intros d Hd.
  apply maintains_lift_bind. intros [ret m'] Hm. apply maintains_bind; [|intros _; keep].
  apply maintains_modify. intros q [[H1 H2 H3] [Ht _]]. split; [by constructor|]. split; [done|].
  eapply parse_message_sized; [|exact Hm]. split; cbn; [by rewrite (wr_range_Zlen _ _ _ _ Hd)|].
  eapply wr_range_bytes; [exact Hd|done|by apply Forall_take].
Qed.

(** ** Control messages *)

Lemma held_add_service fuel sm : smon_ok sm -> maintains held (add_service fuel sm).
Proof. intros Hs. unfold add_service, find_own_monitor. keep. by apply held_set_smon. Qed.

Lemma held_cleanup_service fuel m : maintains held (cleanup_service fuel m).
Proof. unfold cleanup_service, next_sinst. keep. Qed.
#[export] Hint Resolve held_cleanup_service : keep.

Lemma held_remove_service fuel n : maintains held (remove_service fuel n).
Proof.
  assert (forall rounds, maintains held (remove_all_services rounds fuel)) as Hall.
  { intros rounds. induction rounds as [|k IH]; cbn; keep. }
  unfold remove_service, find_own_monitor. keep.
Qed.
