(* ===== verification/QuerierLive.v ===== *)
(** * The querier keeps running

    [running]: the states between iterations when packets consist of bytes and
    control messages are of the form the interface sends ([sane]), with the
    restriction [roomy] on packets.  In each of them the lists and the contents of
    the cells are in order, so that an iteration without a packet returns. *)
From stdpp Require Import sets.
From S2P Require Import Prelude Platform Buffer Slist SlistSpec Dname DnameSpec DnameKeep Message MessageSpec.
From S2P Require Import Querier QuerierSpec QuerierWf QuerierInv QuerierRun QuerierPacket QuerierLoop QuerierThread.
From S2P Require Import QuerierQuery QuerierKeep QuerierTotal QuerierHeld.

(** ** Inputs *)

(** A control message carries what its command needs. *)
Definition sane_ctrl (msg : query_ctrl_msg) : Prop :=
  match ctrl_data msg with
  | ctrl_raw => command msg <> MDNS_CTRL_MONITOR /\ command msg <> MDNS_CTRL_UNMONITOR
  | ctrl_smon sm => command msg <> MDNS_CTRL_UNMONITOR /\ smon_ok sm
  | ctrl_fqst n => command msg <> MDNS_CTRL_MONITOR /\ exists ls, name_arg (n, 0) ls
  end.

Definition sane (it : qiteration) : Prop :=
  match q_ctrl_in it with Some (Some (_, msg)) => sane_ctrl msg | _ => True end /\
  match q_mc_in it with Some (Some p) => bytes p | _ => True end.

Inductive running (fuel : nat) : qstate -> Prop :=
  | run_launch io c ret q : query_launch io c zero_state = Ok (ret, q) -> running fuel q
  | run_step it out q q' : running fuel q -> sane it -> roomy fuel it q = true -> querier_step fuel it q = Ok (out, q') ->
      running fuel q'.

Lemma running_reachable fuel q : running fuel q -> reachable fuel q.
Proof. induction 1; [by eapply reach_launch|by eapply reach_step]. Qed.

(** ** The initial state *)

Lemma zero_state_held : held zero_state.
Proof.
  split; [constructor; cbn [zero_state sinsts arecs smons]|split; (split; [done|by apply Forall_replicate])].
  - apply Forall_replicate, zero_sinst_ok.
  - apply Forall_replicate, zero_arec_ok.
  - apply Forall_replicate, zero_smon_ok.
Qed.

Lemma maintains_insert_all P ins : (forall i, maintains P (ins i)) -> forall k i, maintains P (insert_all ins k i).
Proof. intros Hi. induction k as [|k IH]; intros i; cbn; [apply maintains_ret|]. apply maintains_bind; [done|]. by intros _. Qed.

Lemma held_init_lists : maintains held init_lists.
Proof.
  unfold init_lists. keep; try (apply maintains_insert_all; intros i); keep.
  all: try (apply maintains_modify; intros q; by apply ok_cells).
  - apply held_set_sinst, reset_ok.
  - apply held_set_arec. intros _. apply zero_arec_ok.
Qed.

Lemma init_held : held init_state.
Proof. exact (held_init_lists _ _ _ zero_state_held init_lists_run). Qed.

(** ** An iteration *)

Section Fuel.
Context (fuel : nat) (Hfuel : (128 <= fuel)%nat).

Lemma enough : (CACHE <= fuel)%nat.
Proof using Hfuel. unfold CACHE, MDNS_SERVICE_CACHE_SIZE. lia. Qed.

Lemma find_own_monitor_total q sh n ls : Inv q sh -> cells_ok q -> name_arg (n, 0) ls ->
  exists om, find_own_monitor fuel n q = Ok (om, q).
Proof using Hfuel.
  intros HI Hok (Hv & Hh & Hz). unfold find_own_monitor. rewrite (bind_run _ _ _ q q) by done.
  destruct (slist_find_total smon_link (smons q) fuel
    (fun sm => c ← dname_cmp fuel (own (sm_fqst sm)) 0 (own n) 0; mret (c =? 0))
    (fun sm => match dname_cmp fuel (own (sm_fqst sm)) 0 (own n) 0 with Ok c => c =? 0 | _ => false end)
    (smons_active q) (l_smons sh true)) as [om E].
  - apply (fam_chain _ _ _ (link_smons _ _ (wf_linked _ _ (inv_wf _ _ HI))) true).
  - pose proof (smons_short q sh true HI). pose proof enough. lia.
  - intros m sm _ Hm. destruct (Forall_lookup_1 _ _ _ _ (ok_smons _ Hok) Hm) as (_ & ks & Kv & Kh & Kz).
    rewrite (dname_cmp_plain (own (sm_fqst sm)) (own n) ks 0 ls 0); [done..|].
    pose proof (length_labels_127 ks Kv Kz). lia.
  - exists om. by apply lift_run.
Qed.

(** What an iteration keeps. *)
Definition alive (q : qstate) : Prop := (exists sh, Inv q sh) /\ held q.

Lemma querier_ctrl_total q ret msg : alive q -> sane_ctrl msg -> total (querier_ctrl fuel ret msg) q (fun _ => alive).
Proof using Hfuel.
  intros [[sh HI] Hh] Hs. unfold querier_ctrl. destruct (_ || _); [apply total_ret; by split; [exists sh|]|].
  destruct (_ =? MDNS_CTRL_HALT); [apply total_ret; by split; [exists sh|]|]. unfold sane_ctrl in Hs.
  destruct (Z.eqb_spec (command msg) MDNS_CTRL_MONITOR) as [Ec|_].
  - destruct (ctrl_data msg) as [|sm|]; [by destruct Hs| |by destruct Hs]. destruct Hs as [_ Hs]. pose proof Hs as (_ & ls & Hn).
    destruct (find_own_monitor_total q sh _ ls HI (proj1 Hh) Hn) as [om Hf].
    destruct (add_service_run fuel q sh sm om HI Hf) as [(r & E & _)|(q' & m & l & E & _ & _ & HI')].
    + eexists _, _. split; [by qstep E|]. by split; [exists sh|].
    + eexists _, _. split; [by qstep E|]. split; [by eexists|]. exact (held_add_service _ _ Hs _ _ _ Hh E).
  - destruct (Z.eqb_spec (command msg) MDNS_CTRL_UNMONITOR) as [Ec|_]; [|apply total_ret; by split; [exists sh|]].
    destruct (ctrl_data msg) as [| |n]; [by destruct Hs|by destruct Hs|]. destruct Hs as (_ & ls & Hn).
    destruct (find_own_monitor_total q sh n ls HI (proj1 Hh) Hn) as [om Hf]. destruct Hn as (Hv & Hn & _).
    destruct (plain_head (own n) 0 ls Hv Hn) as (c & Hc & _).
    destruct (remove_service_run fuel enough q sh n c om HI Hc (fun _ => Hf)) as (q' & sh' & E & HI' & _).
    eexists _, _. split; [by qstep E|]. split; [by eexists|]. exact (held_remove_service _ _ _ _ _ Hh E).
Qed.

Lemma querier_query_total sleep q : alive q -> total (querier_query fuel sleep) q (fun _ => alive).
Proof using Hfuel.
  intros [[sh HI] Hh]. unfold querier_query. eapply total_bind; [by apply (prepare_query_total fuel enough)|].
  intros [ret ne] q' (sh' & HI' & Hf & _). eexists _, _. split; [done|]. split; [by exists sh'|by apply fine_held].
Qed.

(** Without a packet. *)
Lemma querier_step_total it q : alive q -> sane it -> (forall p, q_mc_in it <> Some (Some p)) ->
  total (querier_step fuel it) q (fun _ => alive).
Proof using Hfuel.
  intros Ha [Hc _] Hp. unfold querier_step. eapply (total_bind _ _ _ (fun _ => alive)).
  - destruct (q_ctrl_in it) as [[[ret msg]|]|]; [|by apply total_ret..].
    eapply total_bind; [by apply querier_ctrl_total|]. intros [st en] q' Ha'. by apply total_ret.
  - intros [st en] q1 Ha1. destruct (q_mc_in it) as [[p|]|]; [by destruct (Hp p)|by apply total_ret|].
    unfold total. rewrite (bind_run _ _ _ tt q1) by done. fold (total (A := (qoutput * bool)%type)).
    eapply total_bind; [by apply querier_query_total|]. intros [pkt t] q' Ha'. by apply total_ret.
Qed.

(** With or without one. *)
Lemma querier_step_alive it out q q' : alive q -> sane it -> roomy fuel it q = true ->
  querier_step fuel it q = Ok (out, q') -> alive q'.
Proof using Hfuel.
  intros Ha Hs Hr H. destruct Ha as [[sh HI] Hh].
  destruct (step_parts fuel enough _ _ _ _ _ HI Hr H) as (r & q1 & Hc & Hrest).
  assert (alive q1) as Ha1.
  { destruct Hs as [Hs _]. unfold step_ctrl in Hc. destruct (q_ctrl_in it) as [[[n msg]|]|];
      [|injection Hc as <- <-; by split; [exists sh|]..].
    destruct (querier_ctrl_total q n msg) as ([st en] & q2 & E & Ha2); [by split; [exists sh|]|done|].
    rewrite (bind_run _ _ _ _ _ E) in Hc. by injection Hc as <- <-. }
  destruct Hrest as [[_ ->]|(q2 & sh2 & o & Hx & HI2 & Hq)]; [done|].
  assert (held q2) as Hh2.
  { destruct Hs as [_ Hs]. unfold step_rx in Hx. destruct (q_mc_in it) as [[p|]|]; [|by injection Hx as <-; apply Ha1..].
    by apply (held_querier_rx _ _ _ Hs _ _ _ (proj2 Ha1) Hx). }
  destruct (querier_query_total (step_sleep it) q2) as (o' & q3 & E & Ha3); [by split; [exists sh2|]|].
  rewrite E in Hq. by injection Hq as _ <-.
Qed.

Lemma running_alive q : running fuel q -> alive q.
Proof using Hfuel.
  induction 1 as [io c ret q H|it out q q' _ IH Hs Hr H]; [|by eapply querier_step_alive].
  apply query_launch_inv in H as ->. split; [eexists; apply init_Inv|apply init_held].
Qed.
End Fuel.
