(* ===== verification/QuerierTheorems.v ===== *)
(** * Theorems about the querier

    The callbacks and the cache of a running querier, that it keeps running, what
    unmonitoring gives back, the known answers of a query, and places where
    mdns_query.c does not do what it means to. *)
From stdpp Require Import sets.
From S2P Require Import Prelude Platform Buffer Slist SlistSpec Dname DnameSpec DnameText Message MessageSpec.
From S2P Require Import Querier QuerierSpec QuerierWf QuerierInv QuerierRun QuerierPacket QuerierLoop.
From S2P Require Import QuerierThread QuerierQuery QuerierKeep QuerierTotal QuerierHeld QuerierLive.

(** ** A run to evaluate

    "_http._tcp.local" is monitored; a responder announces the instance "a" of
    it on the host "h". *)

Definition demo_fuel : nat := 200.
Definition no_input : ctrl_io := mkCtrlIo 3 292 1 true 4 MDNS_SUCCESS.

(** The string "_http._tcp.local" in the user's memory. *)
Definition http_string : list Z * Z :=
  ([0; 95; 104; 116; 116; 112; 46; 95; 116; 99; 112; 46; 108; 111; 99; 97; 108; 0], 1).

Definition l_http : list Z := [95; 104; 116; 116; 112].
Definition l_tcp : list Z := [95; 116; 99; 112].
Definition l_local : list Z := [108; 111; 99; 97; 108].
Definition type_name : list (list Z) := [l_http; l_tcp; l_local].
Definition instance_name : list (list Z) := [97] :: type_name.
(** The host "h", "i", ... *)
Definition host_name (n : Z) : list (list Z) := [[104 + n]; l_local].

(** A response with these answers. *)
Definition answer (nm : list (list Z)) (t ttl : Z) (rd : list Z) : list Z :=
  tuple_bytes nm t C_IN ttl ++ be16 (Zlen rd) ++ rd.
Definition response (rs : list (list Z)) : list Z :=
  [0; 0; 0x84; 0; 0; 0] ++ be16 (Z.of_nat (length rs)) ++ [0; 0; 0; 0] ++ concat rs.

Definition ptr_answer (ttl : Z) : list Z := answer type_name T_PTR ttl (encode instance_name).
Definition srv_answer (n ttl : Z) : list Z :=
  answer instance_name T_SRV ttl ([0; 0; 0; 0] ++ be16 80 ++ encode (host_name n)).
Definition a_answer (n ttl : Z) : list Z := answer (host_name n) T_A ttl [10; 0; 0; 1].

(** Iterations that get a control message or a packet, 10 ms after the last. *)
Definition monitor_http : qiteration :=
  mkQiteration 0 0 (match mdns_query_monitor no_input http_string (Some 77) 88 zero_smon with
                    | Ok (_, Some c) => Some (Some (length_ c, c))
                    | _ => None
                    end) None.
Definition gets_packet (p : list Z) : qiteration := mkQiteration 0 10 None (Some (Some p)).

Definition announced : list qiteration :=
  [monitor_http; gets_packet (response [ptr_answer 120; srv_answer 0 120; a_answer 0 120])].

Definition step_ok (it : qiteration) (q : qstate) : bool :=
  match querier_step demo_fuel it q with Ok _ => true | _ => false end.
Definition next_state (q : qstate) (it : qiteration) : qstate :=
  match querier_step demo_fuel it q with Ok (_, q') => q' | _ => q end.
Definition demo_state (its : list qiteration) : qstate := fold_left next_state its init_state.

(** Every iteration returns, and has room for the packet it gets. *)
Fixpoint runs (its : list qiteration) (q : qstate) : bool :=
  match its with
  | [] => true
  | it :: its' => roomy demo_fuel it q && step_ok it q && runs its' (next_state q it)
  end.

Lemma reach_runs its q : reachable demo_fuel q -> runs its q = true -> reachable demo_fuel (fold_left next_state its q).
Proof.
  revert q. induction its as [|it its IH]; intros q H Hr; cbn [runs fold_left] in *; [done|].
  apply andb_true_iff in Hr as [[Hr Hs]%andb_true_iff Hn]. apply IH; [|done].
  unfold step_ok, next_state in *. destruct (querier_step demo_fuel it q) as [[o q']| |] eqn:E; [|done|done].
  by apply (reach_step _ it o q).
Qed.

Lemma demo_init : reachable demo_fuel init_state.
Proof. apply (reach_launch _ (mkPorts 1 2 3 4) zero_statics (0, mkStatics 4 1 2 0, [mdns_socket_loopback (htons MDNS_CTRL_QUERIER) 1 2; mdns_socket_mcast 1; mdns_thread_create MDNS_THREAD_QUERIER 4])). by vm_compute. Qed.

Lemma demo_announced : reachable demo_fuel (demo_state announced).
Proof. apply reach_runs; [exact demo_init|by vm_compute]. Qed.

(** ** The callbacks and the cache *)

(** C8: In every state that the querier thread reaches with any control messages
    and with packets that carry no more SRV records than there are free A records
    when they arrive ([roomy]), however time passed, the callbacks follow
    the protocol: an instance is reported as updated or gone only when the last
    report about it was that it is there, and it is reported as there only with
    both its SRV record and its address known. *)
Theorem querier_callbacks_protocol fuel q : (CACHE <= fuel)%nat -> reachable fuel q -> protocol (calls q).
Proof. intros Hf H. destruct (reachable_Inv fuel Hf q H) as [sh HI]. apply (inv_protocol _ _ HI). Qed.

Lemma querier_callbacks_protocol_witness :
  map call_status (calls (demo_state announced)) = [MDNS_DISCOVERED] /\ protocol (calls (demo_state announced)).
Proof.
  split; [by vm_compute|]. apply (querier_callbacks_protocol demo_fuel); [by apply Nat.leb_le|].
  exact demo_announced.
Defined.

(** C9: In every state reachable with packets that carry no more SRV records than
    there are free A records, the cache is consistent: every monitor, service
    instance and A record is on exactly one list, the lists are acyclic, the
    instances of an active monitor refer to it, and an instance is on the list
    of an A record exactly when it refers to that record, which is then active. *)
Theorem querier_cache_consistent fuel q : (CACHE <= fuel)%nat -> reachable fuel q ->
  exists sh, wf q sh /\ watched sh /\ free_sinsts q = l_sinsts sh None /\ free_arecs q = l_arecs sh false /\
    active_smons q = l_smons sh true.
Proof.
  intros Hf H. destruct (reachable_Inv fuel Hf q H) as [sh HI]. exists sh.
  split; [apply (inv_wf _ _ HI)|]. split; [apply (inv_watched _ _ HI)|].
  auto using free_sinsts_eq, free_arecs_eq, active_smons_eq.
Qed.

Lemma querier_cache_consistent_witness :
  free_sinsts (demo_state announced) = rev (seq 0 15) /\
  exists sh, wf (demo_state announced) sh /\ watched sh /\ free_sinsts (demo_state announced) = l_sinsts sh None /\
    free_arecs (demo_state announced) = l_arecs sh false /\ active_smons (demo_state announced) = l_smons sh true.
Proof.
  split; [by vm_compute|]. apply (querier_cache_consistent demo_fuel); [by apply Nat.leb_le|].
  exact demo_announced.
Defined.

(** C17: In every state reachable with packets that carry no more SRV records than
    there are free A records, removing all monitors (an empty service type)
    returns, without faulting or hanging, leaves no active monitor, gives all 16
    service instances back to the free list and calls nobody. *)
Theorem unmonitor_all_frees fuel q n : (CACHE <= fuel)%nat -> reachable fuel q -> rd n 0 = Ok 0 ->
  exists q', remove_service fuel n q = Ok (tt, q') /\ active_smons q' = [] /\ free_sinsts q' ≡ₚ seq 0 CACHE /\
    calls q' = calls q.
Proof.
  intros Hf H Hn. destruct (reachable_Inv fuel Hf q H) as [sh HI].
  destruct (remove_all_run fuel Hf fuel q sh HI) as (q' & sh' & E & HI' & Em & _ & Ec & _).
  { pose proof (smons_short q sh true HI). lia. }
  exists q'. split; [unfold remove_service; by rewrite (bind_run _ _ _ _ _ (lift_run _ _ _ Hn))|].
  split; [by rewrite (active_smons_eq _ _ HI')|]. split; [|done].
  rewrite (free_sinsts_eq _ _ HI'). by apply (idle_free _ _ HI').
Qed.

Lemma unmonitor_all_frees_witness :
  active_smons (demo_state announced) <> [] /\
  exists q', remove_service demo_fuel [0] (demo_state announced) = Ok (tt, q') /\ active_smons q' = [] /\
    free_sinsts q' ≡ₚ seq 0 CACHE /\ calls q' = calls (demo_state announced).
Proof.
  split; [by vm_compute|]. apply (unmonitor_all_frees demo_fuel); [by apply Nat.leb_le| |done].
  exact demo_announced.
Defined.

(** ** Monitoring a dotted service type *)

Section Monitor.
Context (io : ctrl_io) (fb : list Z) (off before : Z) (ps : list (list Z)) (f d : Z) (m : service_monitor).
Context (Hne : ps <> []) (Hps : Forall (piece CH_DOT) ps) (Hn : Forall no_nul ps).
Context (Hh : holds fb (off - 1) (before :: join CH_DOT ps ++ [0])) (Hm : Zlen (sm_fqst m) = 256).

Lemma monitor_strlen : strlen_at fb off = Ok (Zlen (join CH_DOT ps)).
Proof using Hh Hn.
  pose proof Hh as Hh'. apply holds_cons in Hh' as [_ Hh']. replace (off - 1 + 1) with off in Hh' by lia.
  exact (strlen_at_holds _ _ _ (no_nul_join CH_DOT ps ltac:(done) Hn) Hh').
Qed.

Lemma monitor_dnameify : Zlen (join CH_DOT ps) <= 255 -> exists db',
  dnameify fb off CH_DOT (Some (sm_fqst m)) = Ok (Zlen (join CH_DOT ps) + 1, db') /\
  holds db' 0 (encode_labels ps) /\ Zlen db' = 256.
Proof using Hne Hps Hn Hh Hm.
  intros Hle. pose proof (Zlen_join CH_DOT ps Hne) as HJ.
  destruct (dnameify_dest_spec fb off CH_DOT before ps (sm_fqst m)) as (db' & E & H1 & H2);
    [done..|unfold UINT16_MAX; lia|lia|]. exists db'. rewrite <- HJ in E. split; [done|]. split; [done|lia].
Qed.

(** The message that is sent. *)
Lemma monitor_run : Zlen (join CH_DOT ps) <= 254 -> exists m', mdns_query_monitor io (fb, off) (Some f) d m =
    Ok (query_send_ctrl_msg io, Some (mkCtrl MDNS_CTRL_MONITOR sizeof_ctrl_msg (ctrl_smon m'))) /\
  cb m' = f /\ cbdata m' = d /\ holds (sm_fqst m') 0 (encode ps) /\ Zlen (sm_fqst m') = 256.
Proof using Hne Hps Hn Hh Hm.
  intros Hlen. pose proof (Zlen_join CH_DOT ps Hne) as HJ. pose proof (Zlen_nonneg (join CH_DOT ps)) as Hpos.
  destruct monitor_dnameify as (db' & E & H1 & H2); [lia|]. unfold mdns_query_monitor. cbn [fst snd].
  rewrite monitor_strlen. cbn [mbind res_bind]. unfold MDNS_MAX_NAME_LEN. rewrite E.
  destruct (Z.ltb_spec 255 (Zlen (join CH_DOT ps))); [lia|]. cbn [mbind res_bind].
  destruct (Z.eqb_spec (Zlen (join CH_DOT ps) + 1) (-1)); [lia|].
  destruct (wr_exists db' (Zlen (join CH_DOT ps) + 1) 0) as [db'' W]; [lia|]. rewrite W. cbn [mbind res_bind].
  eexists. split; [done|]. split; [done|]. split; [done|]. split; [|cbn; by rewrite (wr_Zlen _ _ _ _ W)].
  cbn. unfold encode. apply holds_app. split; [eapply wr_frame; [exact W|done|lia]|].
  rewrite Z.add_0_l, <- HJ. by apply (wr_holds _ _ _ _ W).
Qed.

(** It is one that the thread can deal with, for service types of at most 253
    characters. *)
Lemma monitor_sane r c : Forall valid_label ps -> Zlen (join CH_DOT ps) <= 253 ->
  mdns_query_monitor io (fb, off) (Some f) d m = Ok (r, Some c) -> sane_ctrl c.
Proof using Hne Hps Hn Hh Hm.
  intros Hv Hlen H. pose proof (Zlen_join CH_DOT ps Hne) as HJ. destruct monitor_run as (m' & E & _ & _ & He & Hz); [lia|].
  rewrite E in H. injection H as _ <-. split; [done|]. split; [done|]. exists ps. split; [done|]. split; [done|].
  rewrite Zlen_encode. lia.
Qed.
End Monitor.

(** ** Running on *)

(** C10: The querier thread does not crash or hang by itself: in every state it
    gets to from well-formed control messages and packets of bytes that carry no
    more SRV records than there are free A records, the next
    iteration that receives no packet (time passes, a control message comes in,
    or the socket fails) returns, whatever has been received before, and the
    thread can go on from there. *)
Theorem querier_keeps_running fuel q it : (128 <= fuel)%nat -> running fuel q -> sane it ->
  (forall p, q_mc_in it <> Some (Some p)) ->
  exists out q', querier_step fuel it q = Ok (out, q') /\ running fuel q'.
Proof.
  intros Hf Hr Hs Hp. destruct (querier_step_total fuel Hf it q (running_alive fuel Hf q Hr) Hs Hp) as (out & q' & E & _).
  exists out, q'. split; [done|]. eapply run_step; [exact Hr|exact Hs| |exact E].
  unfold roomy. destruct (q_mc_in it) as [[p|]|]; [by destruct (Hp p)|done..].
Qed.

Lemma run_runs its q : running demo_fuel q -> Forall sane its -> runs its q = true ->
  running demo_fuel (fold_left next_state its q).
Proof.
  intros H Hs. revert q H. induction Hs as [|it its Hit _ IH]; intros q H Hr; cbn [runs fold_left] in *; [done|].
  apply andb_true_iff in Hr as [[Hr Hs]%andb_true_iff Hn]. apply IH; [|done].
  unfold step_ok, next_state in *. destruct (querier_step demo_fuel it q) as [[o q']| |] eqn:E; [|done|done].
  by apply (run_step _ it o q).
Qed.

Lemma sane_monitor_http : sane monitor_http.
Proof.
  split; [|done]. unfold monitor_http. cbn [q_ctrl_in].
  destruct (mdns_query_monitor _ _ _ _ _) as [[r [c|]]| |] eqn:E; [|done..].
  refine (monitor_sane no_input _ 1 0 type_name 77 88 zero_smon _ _ _ _ _ r c _ _ E); by_eval.
Qed.

Lemma demo_running : running demo_fuel (demo_state announced).
Proof.
  apply run_runs; [apply (run_launch _ (mkPorts 1 2 3 4) zero_statics (0, mkStatics 4 1 2 0, [mdns_socket_loopback (htons MDNS_CTRL_QUERIER) 1 2; mdns_socket_mcast 1; mdns_thread_create MDNS_THREAD_QUERIER 4])); by vm_compute| |by vm_compute].
  constructor; [exact sane_monitor_http|]. constructor; [|constructor]. split; [done|]. by_eval.
Qed.

(** Two seconds later. *)
Definition later : qiteration := mkQiteration 0 2000 None None.

Lemma querier_keeps_running_witness :
  exists out q', querier_step demo_fuel later (demo_state announced) = Ok (out, q') /\ running demo_fuel q'.
Proof.
  apply (querier_keeps_running demo_fuel); [by apply Nat.leb_le|exact demo_running|done|done].
Defined.

(** ** The interface *)

(** [mdns_query_monitor] on a dotted service type of at most 254 characters
    sends a control message that holds the callback and the service type in
    label form; on one of more than 255 characters it refuses; but on one of
    exactly 255 characters it writes the terminating 0 past the end of the
    256-byte buffer. *)
Theorem mdns_query_monitor_correct io fb off before ps f d m :
  ps <> [] -> Forall (piece CH_DOT) ps -> Forall no_nul ps -> holds fb (off - 1) (before :: join CH_DOT ps ++ [0]) ->
  Zlen (sm_fqst m) = 256 ->
  let len := Zlen (join CH_DOT ps) in
  (len <= 254 -> exists m', mdns_query_monitor io (fb, off) (Some f) d m =
      Ok (query_send_ctrl_msg io, Some (mkCtrl MDNS_CTRL_MONITOR sizeof_ctrl_msg (ctrl_smon m'))) /\
    cb m' = f /\ cbdata m' = d /\ holds (sm_fqst m') 0 (encode ps)) /\
  (len = 255 -> mdns_query_monitor io (fb, off) (Some f) d m = Fault) /\
  (255 < len -> mdns_query_monitor io (fb, off) (Some f) d m = Ok (MDNS_INVAL, None)).
Proof.
  intros Hne Hps Hn Hh Hm len. pose proof (monitor_strlen fb off before ps Hn Hh) as Hl. fold len in Hl. split; [|split].
  - intros Hlen. destruct (monitor_run io fb off before ps f d m Hne Hps Hn Hh Hm Hlen) as (m' & E & E1 & E2 & H & _).
    by exists m'.
  - intros Hlen. destruct (monitor_dnameify fb off before ps m Hne Hps Hn Hh Hm) as (db' & E & _ & H2); [fold len; lia|].
    fold len in E. unfold mdns_query_monitor. cbn [fst snd]. rewrite Hl, E, Hlen. cbn [mbind res_bind].
    change (MDNS_MAX_NAME_LEN <? 255) with false. cbv iota. cbn [mbind res_bind]. change (255 + 1 =? -1) with false. cbv iota.
    unfold wr, wr_range. change (Zlen [0]) with 1. by rewrite H2.
  - intros Hlen. unfold mdns_query_monitor. cbn [fst snd]. rewrite Hl. cbn [mbind res_bind]. unfold MDNS_MAX_NAME_LEN.
    by destruct (Z.ltb_spec 255 len); [|lia].
Qed.

Lemma mdns_query_monitor_correct_witness :
  (exists m', mdns_query_monitor no_input http_string (Some 77) 88 zero_smon =
      Ok (query_send_ctrl_msg no_input, Some (mkCtrl MDNS_CTRL_MONITOR sizeof_ctrl_msg (ctrl_smon m'))) /\
    cb m' = 77 /\ cbdata m' = 88 /\ holds (sm_fqst m') 0 (encode type_name)) /\
  mdns_query_monitor no_input (0 :: join CH_DOT (replicate 4 (replicate 63 97)) ++ [0], 1) (Some 77) 88 zero_smon = Fault.
Proof.
  split.
  - apply (mdns_query_monitor_correct no_input _ 1 0 type_name 77 88 zero_smon); [done|by_eval..|vm_compute; congruence].
  - apply (mdns_query_monitor_correct no_input _ 1 0 (replicate 4 (replicate 63 97)) 77 88 zero_smon); [done|by_eval..].
Defined.

(** ** The known answers *)

(** C18: The known answers of a monitor are exactly the PTR records of its
    instances with time left, in list order, with the remaining seconds and
    compressed names, as far as they fit into the packet; the function returns 0
    when all of them fitted and -1 otherwise, and [ptr_size] is the exact size
    of each. *)
Theorem add_known_answers_correct fuel q m sm l ks body nq na nn fl :
  smons q !! m = Some sm -> chain (nexts sinst_link (sinsts q)) (sm_sinsts sm) l ->
  Forall2 (fun i k => exists s, sinsts q !! i = Some s /\ is_known s k) l ks ->
  repr (tx_msg q) body nq na nn fl -> (length l <= fuel)%nat ->
  exists ret q' body' na', add_known_answers fuel m q = Ok (ret, q') /\
    known_spec (fqst_offset sm) body na ks = (ret, body', na') /\
    mdns_send_msg (tx_msg q') = wire fl nq na' nn body' /\ sinsts q' = sinsts q /\ calls q' = calls q.
Proof.
  intros Hm Hc Hk R Hf.
  destruct (known_loop_run m _ l fuel q sm (sm_sinsts sm) ks body nq na nn fl Hm eq_refl Hc Hk R Hf)
    as (ret & q' & b' & n' & E & Es & R' & S' & C').
  exists ret, q', b', n'. split; [unfold add_known_answers; by rewrite (bind_run _ _ _ _ _ (get_smon_run _ _ _ Hm))|].
  split; [done|]. split; [by apply repr_sent|done].
Qed.

(** The query that is sent 2 s after the announcement asks for the service type;
    this is the state before its known answers are added. *)
Definition asking_state : qstate :=
  match (mdns_query_init (tx_msg (demo_state announced)) ≫= fun '(_, m) =>
         mdns_add_question m (sm_fqst (nth 3 (smons (demo_state announced)) zero_smon), 0) T_ANY C_IN) with
  | Ok (_, m) => q_tx (demo_state announced) m
  | _ => init_state
  end.

Lemma asking_repr : repr (tx_msg asking_state) (encode type_name ++ be16 T_ANY ++ be16 C_IN) 1 0 0 [0; 0; 0; 0].
Proof. constructor; by_eval. Qed.

Lemma add_known_answers_correct_witness :
  exists ret q' body' na', add_known_answers demo_fuel 3 asking_state = Ok (ret, q') /\
    known_spec 12 (encode type_name ++ be16 T_ANY ++ be16 C_IN) 0 [(120000, [97])] = (ret, body', na') /\
    mdns_send_msg (tx_msg q') = wire [0; 0; 0; 0] 1 na' 0 body' /\ sinsts q' = sinsts asking_state /\
    calls q' = calls asking_state.
Proof.
  apply (add_known_answers_correct demo_fuel asking_state 3 (nth 3 (smons asking_state) zero_smon) [15%nat]);
    [by vm_compute|apply chainb_ok; by vm_compute| |exact asking_repr|by apply Nat.leb_le].
  constructor; [|constructor]. exists (nth 15 (sinsts asking_state) zero_sinst). split; [by vm_compute|].
  split; [by_eval|]. split; [by_eval|]. split; [by_eval|]. split; by_eval.
Defined.

(** ** Where the querier goes wrong *)

(** When a service moves to another host and its old host has no other
    instance, the A record of the old host stays on the active list although no
    instance refers to it: only the cleanup of an instance on its list would
    free it, so the cell is lost. *)
Theorem set_arec_leaks_record fuel q m i s old a : (CACHE <= fuel)%nat -> reachable fuel q ->
  i ∈ smon_cells q m -> sinsts q !! i = Some s -> si_arec s = Some old -> arec_cells q old = [i] ->
  a ∈ active_arecs q -> a <> old ->
  exists ret q', set_arec fuel i a q = Ok (ret, q') /\ old ∈ active_arecs q' /\ arec_cells q' old = [] /\
    free_arecs q' = free_arecs q.
Proof.
  intros Hf Hq Hi Hs Eo El Ha Hne. destruct (reachable_Inv fuel Hf q Hq) as [sh HI].
  rewrite (smon_cells_eq _ _ _ HI) in Hi. rewrite (arec_cells_eq _ _ _ HI) in El. rewrite (active_arecs_eq _ _ HI) in Ha.
  destruct (arec_cell _ _ (inv_wf _ _ HI) true a Ha) as [ar Har].
  destruct (set_arec_run fuel Hf q sh m i s a ar HI Hi Hs Ha Har) as (ret & q' & E & _ & HI' & _).
  destruct (join_rest sh i a (si_arec s)) as (_ & _ & Er).
  exists ret, q'. split; [done|]. rewrite (active_arecs_eq _ _ HI'), (arec_cells_eq _ _ _ HI'), (free_arecs_eq _ _ HI'),
    (free_arecs_eq _ _ HI), Er. split; [by apply (live_arec _ _ (inv_wf _ _ HI) m i s old)|]. split; [|done].
  rewrite Eo. unfold sh_join. cbn. rewrite fupd_ne by done. rewrite fupd_eq, El. apply (rem_middle i [] []), NoDup_singleton.
Qed.

(** The announced service moved from the host "h" to the host "i". *)
Definition moved_once : list qiteration := announced ++ [gets_packet (response [srv_answer 1 120])].

Lemma set_arec_leaks_record_witness :
  exists ret q', set_arec demo_fuel 15 15 (demo_state moved_once) = Ok (ret, q') /\ 14%nat ∈ active_arecs q' /\
    arec_cells q' 14 = [] /\ free_arecs q' = free_arecs (demo_state moved_once).
Proof.
  apply (set_arec_leaks_record demo_fuel (demo_state moved_once) 3 15 (nth 15 (sinsts (demo_state moved_once)) zero_sinst) 14 15);
    [by apply Nat.leb_le|apply reach_runs; [exact demo_init|by vm_compute]|by_eval|by vm_compute|by vm_compute|by vm_compute|by_eval|done].
Defined.

(** A TXT or SRV record whose name is a single label makes the querier
    dereference NULL as soon as a monitor is active: the rest of the name is
    NULL and is passed on to the comparison of names. *)
Theorem update_record_null_name fuel e elapsed r q m sm :
  smons_active q = Some m -> smons q !! m = Some sm -> (1 <= fuel)%nat ->
  dname_label_next fuel (packet (rx_msg q)) (r_name (rr_at (rx_msg q) r)) = Ok None ->
  update_record fuel e elapsed r q = Fault.
Proof.
  intros Ha Hm Hf Hn. unfold update_record. rewrite (bind_run _ _ _ (rx_msg q) q) by done.
  rewrite (bind_run _ _ _ _ _ (lift_run _ _ _ Hn)).
  assert (find_service_monitor fuel (rx_msg q) None q = Fault) as E; [|unfold mbind, Q_bind; by rewrite E].
  unfold find_service_monitor. rewrite (bind_run _ _ _ q q) by done. rewrite Ha.
  destruct fuel as [|fuel]; [lia|]. unfold lift. cbn [slist_find]. unfold cell. by rewrite Hm.
Qed.

(** One SRV record for the single label "a" is enough. *)
Definition one_label_packet : list Z := response [answer [[97]] T_SRV 120 ([0; 0; 0; 0] ++ be16 80 ++ encode (host_name 0))].

(** The state in which [update_service_cache] sees that packet. *)
Definition one_label_state : qstate :=
  match rx_parse demo_fuel (rx_msg (demo_state [monitor_http])) one_label_packet with
  | Ok (_, m) => q_rx (demo_state [monitor_http]) m
  | _ => init_state
  end.

Lemma update_record_null_name_witness :
  querier_step demo_fuel (gets_packet one_label_packet) (demo_state [monitor_http]) = Fault /\
  srvs (rx_msg one_label_state) = [RAnswer 0] /\
  update_record demo_fuel SINST_EVENT_GOT_SRV 0 (RAnswer 0) one_label_state = Fault.
Proof.
  split; [by vm_compute|]. split; [by vm_compute|].
  eapply (update_record_null_name demo_fuel _ _ _ _ 3); [by vm_compute..|by apply Nat.leb_le|by vm_compute].
Defined.

(** A service that moves to the hosts "h", "i", ... "x" one after the other and
    disappears, and then its last host disappears. *)
Definition moving_service : list qiteration :=
  announced ++ map (fun n => gets_packet (response [srv_answer (Z.of_nat n) 120])) (seq 1 16) ++
  [gets_packet (response [ptr_answer 0]); gets_packet (response [a_answer 15 0])].

(** The lost records add up, in a concrete run: a service that changes its host
    16 times uses up the 16 A records; from then on [update_srv] forgets which record
    the instance belongs to but leaves it on the record's list, and when the service
    and the host of that record disappear the querier dereferences NULL.  So the
    restriction [roomy] of the theorems is needed. *)
Theorem moving_service_crashes :
  free_arecs (demo_state (take 17 moving_service)) = [] /\
  do_querier demo_fuel moving_service init_state = Fault.
Proof. split; by vm_compute. Qed.
