(* ===== verification/Network.v ===== *)
(** * Two hosts on one network

    What one host sends, another one understands: a packet laid out by the
    building functions of mdns.c is accepted by the parser of the host that
    receives it, with the same questions and records.  With the specification of
    responses this gives the whole exchange: a query goes out, the responder
    receives it and answers, and the one who asked receives exactly the records
    it asked for. *)
From S2P Require Import Prelude Buffer Dname DnameSpec DnameText Message MessageSpec MessageParse MessageSafe.
From S2P Require Import Querier QuerierThread QuerierTheorems.
From S2P Require Import Responder ResponderSpec ResponseSpec ResponderTheorems.

(** A receive buffer. *)
Definition rx_buffer (m : mdns_message) : Prop := Zlen (data m) = 1472 /\ bytes (data m) /\ arrays_ok m.

(** ** Receiving what was sent *)

Definition layout (fl : list Z) (qs : list question) (an ns : list rr) : list Z :=
  wire fl (Zlen qs) (Zlen an) (Zlen ns) (enc_body qs an ns).

Lemma Zlen_layout i0 i1 f0 f1 qs an ns : Zlen (layout [i0; i1; f0; f1] qs an ns) = packet_size qs an ns.
Proof. unfold layout, wire, packet_size. zlen. rewrite !Zlen_be16. lia. Qed.

(** The questions and records that fit in one packet and in the arrays. *)
Record sendable (qs : list question) (an ns : list rr) : Prop := {
  send_size : packet_size qs an ns <= 1472;
  send_qs : (length qs <= 32)%nat;
  send_an : (length an <= 32)%nat;
  send_ns : (length ns <= 32)%nat;
  send_valid_qs : Forall valid_question qs;
  send_valid_an : Forall valid_rr an;
  send_valid_ns : Forall valid_rr ns }.

Lemma received m i0 i1 f0 f1 qs an ns : rx_buffer m -> bytes [i0; i1; f0; f1] -> flag_opcode (f0 * 256 + f1) = 0 ->
  bytes (enc_body qs an ns) -> sendable qs an ns ->
  let p := layout [i0; i1; f0; f1] qs an ns in
  exists d m', wr_range (data m) 0 p = Ok d /\
    returns (fun fuel => mdns_parse_message fuel (set_data m d) (Zlen p)) (0, m') /\ parsed m' qs an ns /\
    rx_buffer m' /\ holds (data m') 0 [i0; i1; f1; f0].
Proof.
  intros (HL & HB & HA) Hfl Hop Hbody [Hs Lq La Ln Vq Va Vn] p.
  pose proof (Zlen_layout i0 i1 f0 f1 qs an ns) as HZ. fold p in HZ.
  destruct (wr_range_exists (data m) 0 p) as [d W]; [lia|lia|]. pose proof (wr_range_holds _ _ _ _ W) as Hp.
  pose proof (wr_range_Zlen _ _ _ _ W) as HLd. unfold p, layout, wire in Hp.
  apply holds_app in Hp as [H0 Hp]. apply holds_app in Hp as [H4 Hp]. apply holds_app in Hp as [H6 Hp].
  apply holds_app in Hp as [H8 Hp]. apply holds_app in Hp as [_ H12]. rewrite !Zlen_be16 in *.
  change (Zlen [i0; i1; f0; f1]) with 4 in *. change (Zlen [0; 0]) with 2 in *.
  change [i0; i1; f0; f1] with ([i0; i1] ++ [f0; f1]) in H0. apply holds_app in H0 as [H0 H2].
  assert (bytes d) as Hbd.
  { eapply wr_range_bytes; [exact W|done|]. unfold p, layout, wire. unfold bytes in *. rewrite !Forall_app.
    unfold Zlen. split_and!; [done|apply bytes_be16; lia..|by repeat constructor|done]. }
  destruct (parse_message_returns (set_data m d) (Zlen p) f0 f1 qs an ns) as (m' & HR & HP & _ & HA' & HW & _); cbn; try done.
  - lia.
  - exists d, m'. split_and!; [done|done|done| |].
    + split_and!; [rewrite (wr_range_Zlen _ _ _ _ HW); cbn; lia| |apply HA'..].
      eapply wr_range_bytes; [exact HW|done|]. apply (Forall_app _ [i0; i1] [f0; f1]) in Hfl as [_ Hfl].
      apply Forall_cons_1 in Hfl as [? [? _]%Forall_cons_1]. apply Forall_cons; [done|]. by apply Forall_singleton.
    + change [i0; i1; f1; f0] with ([i0; i1] ++ [f1; f0]). apply holds_app. split; [|by eapply wr_range_holds].
      eapply wr_range_frame; [exact HW|left; done|done].
Qed.

(** ** The exchange *)

Lemma bytes_questions qs : Forall valid_question qs -> bytes (enc_body qs [] []).
Proof.
  unfold enc_body. cbn. rewrite app_nil_r. induction 1 as [|q qs ((Hv & _) & Ht & Hc) _ IH]; [constructor|]. cbn.
  apply Forall_app. split; [|done]. unfold enc_question. rewrite !Forall_app.
  split_and!; [by apply bytes_encode|apply bytes_be16; exact Ht|apply bytes_be16; exact Hc].
Qed.

Lemma taken_all (m : mdns_message) i0 i1 f0 f1 qs an ns : rx_buffer m -> sendable qs an ns ->
  take (length (data m)) (layout [i0; i1; f0; f1] qs an ns) = layout [i0; i1; f0; f1] qs an ns.
Proof.
  intros (HL & _) [Hs _ _ _ _ _ _]. apply take_ge. pose proof (Zlen_layout i0 i1 f0 f1 qs an ns) as HZ.
  unfold Zlen in HL, HZ. lia.
Qed.

(** A host that is ready receives a query: its next state, and what it has sent
    after the delay at the latest. *)
Section Exchange.
Context (st : rstate) (ah : ahost) (qs : list question) (i0 i1 a prt : Z).
Context (Hh : host_is (rhost st) ah) (Hst : state st = READY_TO_RESPOND) (Hen : responder_enabled st = true).
Context (Hrx : rx_buffer (rx_msg st)) (Htx : rx_buffer (tx_msg st)) (Hq : sendable qs [] []) (Hi : bytes [i0; i1]).

Let xs := (spec_response ah qs).1.
Let query := layout [i0; i1; 0; 0] qs [] [].
Let reply := layout [i0; i1; 0x84; 0] [] xs [].
Context (Hx : sendable [] xs []) (Hne : xs <> []).

(** The bytes of the reply. *)
Lemma reply_prepared rx : rx_buffer rx -> parsed rx qs [] [] -> holds (data rx) 0 [i0; i1; 0; 0] ->
  exists tx' ss', returns (fun fuel => prepare_response fuel (rhost st) rx (tx_msg st)) ((spec_response ah qs).2, tx', ss') /\
    mdns_send_msg tx' = reply /\ bytes (enc_body [] xs []).
Proof using Hh Htx Hx Hne.
  intros (_ & HB & _) HP H0. pose proof H0 as H0'. change [i0; i1; 0; 0] with ([i0; i1] ++ [0; 0]) in H0'.
  apply holds_app in H0' as [Hid Hfl]. destruct Htx as (HL & HBt & _).
  assert (header_qr rx = Ok QUERY) as Hqr.
  { apply holds_cons in Hfl as [F0 Hfl]. apply holds_rd in Hfl. change (Zlen [i0; i1]) with 2 in *.
    unfold header_qr, get_host16, H_FLAGS. change (0 + 2) with 2 in *. rewrite F0. cbn [mbind res_bind]. by rewrite Hfl. }
  pose proof (prepare_response_spec (rhost st) ah rx (tx_msg st) qs i0 i1 Hh) as H.
  unfold reply, xs in *. destruct (spec_response ah qs) as [ys b]. cbn [fst snd] in *.
  destruct H as (tx' & ss' & _ & H); [split; [by apply parsed_nq in HP|by apply (parsed_qs _ _ _ _ HP)]|done..|].
  destruct Hx as [Hsz _ _ _ _ _ _]. destruct (Z.leb_spec (packet_size [] ys []) 1472); [|lia]. destruct H as (HR & _ & R).
  exists tx', ss'. split; [done|]. split; [by rewrite (repr_sent _ _ _ _ _ _ R)|].
  eapply holds_byte; [apply (repr_bytes _ _ _ _ _ _ R)|apply (repr_body _ _ _ _ _ _ R)].
Qed.

(** The result asks for sending, now or after a delay. *)
Lemma reply_wanted : exists b, (spec_response ah qs).2 = b /\ (b <=? RS_NO_SEND) = false /\
  (Z.land b RS_SEND_DELAY = 0 -> Z.land b RS_SEND <> 0).
Proof using Hh Hne.
  eexists. split; [done|]. destruct (spec_response_ok (rhost st) ah Hh qs) as (_ & B & N). fold xs in N.
  assert ((spec_response ah qs).2 <> 0) as Hb by auto. set (b := (spec_response ah qs).2) in *. clearbody b.
  change 3 with (Z.ones 2) in B. rewrite Z.land_ones in B by lia. change (2 ^ 2) with 4 in B.
  pose proof (Z.mod_pos_bound b 4 ltac:(lia)). assert (b = 1 \/ b = 2 \/ b = 3) as [-> | [-> | ->]] by lia; by vm_compute.
Qed.

Lemma query_received it : ctrl_in it = None -> mc_in it = Some (Some (query, (a, prt))) ->
  exists st', returns (fun fuel => responder_step fuel st it) (st', if Z.land (spec_response ah qs).2 RS_SEND_DELAY =? 0
      then [(reply, prt)] else [], true) /\
    responder_enabled st' = true /\ from_port st' = prt /\ bytes (enc_body [] xs []) /\
    if Z.land (spec_response ah qs).2 RS_SEND_DELAY =? 0 then state st' = READY_TO_RESPOND
    else state st' = READY_TO_SEND /\ mdns_send_msg (tx_msg st') = reply.
Proof using Hh Hst Hen Hrx Htx Hq Hi Hx Hne.
  intros Hc Hm. pose proof (received (rx_msg st) i0 i1 0 0 qs [] [] Hrx) as H.
  destruct H as (d & m & Wd & HR & HP & Hbm & H0);
    [by apply (Forall_app_2 _ [i0; i1]); [|repeat constructor]|done|apply bytes_questions; apply Hq|done|].
  destruct (reply_prepared m Hbm HP H0) as (tx' & ss' & HR2 & Es & Hb). destruct reply_wanted as (b & Eb & B1 & B2).
  rewrite Eb in *. set (st1 := with_host (with_tx (with_rx (with_from st a prt) m) tx') (set_services (rhost st) ss')).
  exists (if Z.land b RS_SEND_DELAY =? 0 then st1 else queue_response st1 it).
  split; [|by destruct (Z.land b RS_SEND_DELAY =? 0)].
  unfold responder_step. rewrite Hc, Hm. cbn [mbind res_bind mret res_ret].
  assert (receive (rx_msg (with_from st a prt)) query = Ok (set_data (rx_msg st) d, Zlen query)) as Er.
  { unfold receive. cbn [rx_msg with_from]. unfold query. rewrite (taken_all (rx_msg st)) by done. by rewrite Wd. }
  rewrite Er. cbn [mbind res_bind]. eapply returns_bind; [exact HR|]. cbn [Z.eqb negb].
  eapply (returns_bind _ _ (if Z.land b RS_SEND_DELAY =? 0 then st1 else queue_response st1 it, _));
    [|by apply returns_const].
  eapply returns_ext; [intros fuel; unfold responder_event; cbn [state with_rx with_from]; rewrite Hst; reflexivity|].
  eapply (returns_bind _ _ (b, st1)); [|].
  { unfold respond. eapply returns_bind; [exact HR2|]. by apply returns_const. }
  apply returns_const. rewrite B1. destruct (Z.eqb_spec (Z.land b RS_SEND_DELAY) 0) as [E|_]; [|done]. cbn [negb].
  destruct (Z.eqb_spec (Z.land b RS_SEND) 0) as [E'|_]; [by destruct (B2 E)|]. cbn. by rewrite Es.
Qed.
End Exchange.


(** The witness: somebody asks for the services of the type of [demo_host]. *)
Definition demo_ready : rstate :=
  mkRstate demo_host blank_message blank_message READY_TO_RESPOND (SET_TIMEOUT 0) false 0 0 true.
Definition demo_asks : list question := [mkQ demo_type T_PTR C_IN].

Lemma blank_buffer : rx_buffer blank_message.
Proof. split; [reflexivity|]. split; [exact blank_bytes|]. split_and!; reflexivity. Qed.

Lemma demo_asks_sendable : sendable demo_asks [] [].
Proof.
  constructor; [vm_compute; congruence|vm_compute; lia..| |constructor|constructor].
  constructor; [|constructor]. split; [|by vm_compute].
  split; [apply valid_labels_eval; vm_compute; reflexivity|vm_compute; congruence].
Qed.

Lemma demo_reply_sendable : sendable [] (spec_response demo_ahost demo_asks).1 [].
Proof.
  constructor; [vm_compute; congruence|vm_compute; lia..|constructor| |constructor].
  apply (spec_response_ok demo_host demo_ahost demo_host_is demo_asks).
Qed.


(** ** Discovery

    The responder's announcement of [demo_host], received by a querier that
    monitors "_http._tcp.local": one callback, with the name, the port (in
    network byte order, as it came) and the address of the service. *)
Definition demo_announcement : list Z :=
  match prepare_announcement demo_host blank_message 255 with Ok (_, m) => mdns_send_msg m | _ => [] end.

Lemma announcement_discovered :
  let q := demo_state [monitor_http; gets_packet demo_announcement] in
  map call_status (Querier.calls q) = [MDNS_DISCOVERED] /\
  map (fun c => take 4 (sname (call_sinst c))) (Querier.calls q) = [s_web ++ [0]] /\
  map (fun c => (s_port (si_service (call_sinst c)), s_ipaddr (si_service (call_sinst c)))) (Querier.calls q)
    = [(htons 80, 0x0A000001)].
Proof. by vm_compute. Qed.
