(* ===== verification/System.v ===== *)
(** * Launching and halting the library (src/mdns/mdns.c)

    [mdns_launch] starts the responder, unless there is no host name, and the
    querier; [mdns_halt] stops both.  [system] gathers the static variables of the
    two files and the calls of the platform so far.  The theorems are about the
    sockets and threads the library takes from the platform and gives back. *)
From S2P Require Import Prelude Platform Buffer Dname Message.
From S2P Require Import Querier QuerierSpec QuerierThread.
From S2P Require Import Responder ResponderSpec ResponderTheorems ResponderLaunch.

(** ** Control messages *)

(** The result and the calls; [io] is what the platform answers. *)
Definition mdns_send_ctrl_msg (io : ctrl_io) (msg port : Z) : Z * list pcall :=
  let cs := [mdns_socket_loopback (htons port) 0 (io_sock io)] in
  if io_sock io <? 0 then (-1, cs)
  else
    let ret := io_sendto io in
    let cs := cs ++ [sendto_ (io_sock io) (htons port) msg ret] in
    let ret := if negb (ret =? -1) then 0 else ret in
    (ret, cs ++ [mdns_socket_close (io_sock io)]).

(** The calls of [query_send_ctrl_msg], which creates and closes a socket too. *)
Definition query_send_calls (io : ctrl_io) (msg port : Z) : list pcall :=
  mdns_socket_loopback (htons port) 0 (io_sock io) ::
  if io_sock io <? 0 then []
  else [sendto_ (io_sock io) (htons port) msg (io_sendto io); mdns_socket_close (io_sock io)].

(** ** Halting *)

Definition responder_halt (io : ctrl_io) (c : statics) : statics * list pcall :=
  let '(ret, cs) := mdns_send_ctrl_msg io MDNS_CTRL_HALT MDNS_CTRL_RESPONDER in
  let cs := if negb (ret =? 0) then cs else cs ++ [mdns_thread_yield (st_thread c)] in
  (with_st_enabled c 0,
   cs ++ [mdns_thread_delete (st_thread c); mdns_socket_close (st_ctrl c); mdns_socket_close (st_mc c)]).

Definition query_halt (io : ctrl_io) (c : statics) : statics * list pcall :=
  let ret := query_send_ctrl_msg io in
  let cs := query_send_calls io MDNS_CTRL_HALT MDNS_CTRL_QUERIER in
  let cs := if negb (ret =? 0) then cs else cs ++ [mdns_thread_yield (st_thread c)] in
  (with_st_enabled c 0,
   cs ++ [mdns_thread_delete (st_thread c); mdns_socket_close (st_ctrl c); mdns_socket_close (st_mc c)]).

(** ** The library *)

Record system := mkSystem {
  sys_host : host;
  sys_tx : mdns_message;
  sys_rx : mdns_message;
  sys_responder : statics;
  sys_query : qstate;
  sys_querier : statics;
  sys_calls : list pcall }.

Definition mdns_launch (fuel : nat) (rio qio : ports) (ipaddr : Z) (domain hostname : option (list Z))
    (services : list mdns_service) (s : system) : res (Z * system) :=
  '(ret, s) ←
    match hostname with
    | None => mret (0, s)
    | Some n =>
        '(ret, h, tx, rx, c, cs) ←
          responder_launch fuel rio ipaddr domain n services (sys_host s) (sys_tx s) (sys_rx s) (sys_responder s);
        mret (ret, mkSystem h tx rx c (sys_query s) (sys_querier s) (sys_calls s ++ cs))
    end;
  if negb (ret =? 0) then mret (ret, s)
  else
    '(r, q) ← query_launch qio (sys_querier s) (sys_query s);
    let '(ret, c, cs) := r in
    mret (ret, mkSystem (sys_host s) (sys_tx s) (sys_rx s) (sys_responder s) q c (sys_calls s ++ cs)).

Definition mdns_halt (rio qio : ctrl_io) (s : system) : system :=
  let '(rc, cs1) := responder_halt rio (sys_responder s) in
  let '(qc, cs2) := query_halt qio (sys_querier s) in
  mkSystem (sys_host s) (sys_tx s) (sys_rx s) rc (sys_query s) qc (sys_calls s ++ cs1 ++ cs2).

(** ** Sockets and threads *)

(** How often a socket was created, less how often it was closed. *)
Definition socket_event (s : Z) (c : pcall) : Z :=
  match c with
  | mdns_socket_mcast f | mdns_socket_loopback _ _ f | socket_ f => if (f =? s) && (0 <=? f) then 1 else 0
  | mdns_socket_close f => if f =? s then -1 else 0
  | _ => 0
  end.
Fixpoint sockets_held (s : Z) (cs : list pcall) : Z :=
  match cs with [] => 0 | c :: cs' => socket_event s c + sockets_held s cs' end.

Definition thread_event (t : Z) (c : pcall) : Z :=
  match c with
  | mdns_thread_create _ f => if (f =? t) && negb (f =? 0) then 1 else 0
  | mdns_thread_delete f => if f =? t then -1 else 0
  | _ => 0
  end.
Fixpoint threads_held (t : Z) (cs : list pcall) : Z :=
  match cs with [] => 0 | c :: cs' => thread_event t c + threads_held t cs' end.

Lemma sockets_app s cs ds : sockets_held s (cs ++ ds) = sockets_held s cs + sockets_held s ds.
Proof. induction cs as [|c cs IH]; [done|]. cbn [app sockets_held]. lia. Qed.
Lemma threads_app t cs ds : threads_held t (cs ++ ds) = threads_held t cs + threads_held t ds.
Proof. induction cs as [|c cs IH]; [done|]. cbn [app threads_held]. lia. Qed.

(** ** Inversion of the launch *)

Lemma responder_launch_inv fuel io ip dom n ss h tx rx c h' tx' rx' c' cs :
  responder_launch fuel io ip dom n ss h tx rx c = Ok (0, h', tx', rx', c', cs) ->
  c' = launched_statics io c /\ cs = launch_calls io /\ 0 <= mc_sock io /\ 0 <= ctrl_sock io /\ thread_ptr io <> 0.
Proof.
  unfold responder_launch. intros H. destruct (_ || _); [done|].
  apply bind_ok in H as (h1 & _ & H). apply bind_ok in H as (arpa & _ & H).
  destruct (Z.ltb_spec (mc_sock io) 0); [injection H as ? _ _ _ _ _; lia|].
  apply bind_ok in H as ([ret ss1] & _ & H). destruct (Z.eqb_spec ret 0); [|cbn in H; injection H; intros; lia]. cbn [negb] in H.
  apply bind_ok in H as ([ret2 tx2] & _ & H). destruct (ret2 =? -1); [done|]. destruct (_ <? _); [done|].
  apply bind_ok in H as ([[[ret3 rx3] tx3] ss3] & _ & H). destruct (ret3 =? -1); [done|]. destruct (_ <? _); [done|].
  destruct (Z.ltb_spec (ctrl_sock io) 0); [done|]. destruct (Z.eqb_spec (thread_ptr io) 0); [done|].
  by injection H as _ _ _ <- <-.
Qed.

Lemma query_launch_ok io c q c' cs q' : query_launch io c q = Ok ((0, c', cs), q') ->
  c' = with_thread (with_mc (with_ctrl c (ctrl_sock io)) (mc_sock io)) (thread_ptr io) /\
  cs = [mdns_socket_loopback (htons MDNS_CTRL_QUERIER) 1 (ctrl_sock io); mdns_socket_mcast (mc_sock io);
        mdns_thread_create MDNS_THREAD_QUERIER (thread_ptr io)] /\
  0 <= mc_sock io /\ 0 <= ctrl_sock io /\ thread_ptr io <> 0.
Proof.
  intros H. apply bind_inv in H as ([] & q1 & _ & H).
  destruct (Z.ltb_spec (ctrl_sock io) 0); [done|]. destruct (Z.ltb_spec (mc_sock io) 0); [injection H as ? _ _ _; lia|].
  destruct (Z.eqb_spec (thread_ptr io) 0); [done|]. by injection H as <- <- <-.
Qed.

(** ** What the launch takes, the halt gives back *)

(** A control message leaves no socket behind and touches no thread. *)
Lemma ctrl_msg_held io msg port x : sockets_held x (mdns_send_ctrl_msg io msg port).2 = 0 /\
  threads_held x (mdns_send_ctrl_msg io msg port).2 = 0.
Proof.
  unfold mdns_send_ctrl_msg. destruct (Z.ltb_spec (io_sock io) 0); cbn; (split; [|done]).
  - destruct (Z.leb_spec 0 (io_sock io)); [lia|]. by rewrite andb_false_r.
  - destruct (Z.leb_spec 0 (io_sock io)); [|lia]. rewrite andb_true_r. by destruct (_ =? x).
Qed.
Lemma query_msg_held io msg port x : sockets_held x (query_send_calls io msg port) = 0 /\
  threads_held x (query_send_calls io msg port) = 0.
Proof.
  unfold query_send_calls. destruct (Z.ltb_spec (io_sock io) 0); cbn; (split; [|done]).
  - destruct (Z.leb_spec 0 (io_sock io)); [lia|]. by rewrite andb_false_r.
  - destruct (Z.leb_spec 0 (io_sock io)); [|lia]. rewrite andb_true_r. by destruct (_ =? x).
Qed.

(** What halting closes. *)
Definition closed (x : Z) (c : statics) : Z := (if st_ctrl c =? x then -1 else 0) + (if st_mc c =? x then -1 else 0).
Definition deleted (x : Z) (c : statics) : Z := if st_thread c =? x then -1 else 0.

Lemma responder_halt_held io c x : sockets_held x (responder_halt io c).2 = closed x c /\
  threads_held x (responder_halt io c).2 = deleted x c.
Proof.
  unfold responder_halt. destruct (mdns_send_ctrl_msg io _ _) as [ret cs] eqn:E.
  pose proof (ctrl_msg_held io MDNS_CTRL_HALT MDNS_CTRL_RESPONDER x) as H. rewrite E in H. cbn [snd] in *. destruct H as [H1 H2].
  unfold closed, deleted. destruct (negb _); rewrite ?sockets_app, ?threads_app, ?H1, ?H2; cbn; split; lia.
Qed.
Lemma query_halt_held io c x : sockets_held x (query_halt io c).2 = closed x c /\
  threads_held x (query_halt io c).2 = deleted x c.
Proof.
  unfold query_halt. destruct (query_msg_held io MDNS_CTRL_HALT MDNS_CTRL_QUERIER x) as [H1 H2].
  unfold closed, deleted. destruct (negb _); cbn [snd]; rewrite ?sockets_app, ?threads_app, ?H1, ?H2; cbn; split; lia.
Qed.

Lemma halt_held rio qio s x :
  sockets_held x (sys_calls (mdns_halt rio qio s)) =
    sockets_held x (sys_calls s) + closed x (sys_responder s) + closed x (sys_querier s) /\
  threads_held x (sys_calls (mdns_halt rio qio s)) =
    threads_held x (sys_calls s) + deleted x (sys_responder s) + deleted x (sys_querier s).
Proof.
  unfold mdns_halt. destruct (responder_halt_held rio (sys_responder s) x) as [R1 R2].
  destruct (query_halt_held qio (sys_querier s) x) as [Q1 Q2].
  destruct (responder_halt _ _), (query_halt _ _). cbn [snd sys_calls] in *. rewrite !sockets_app, !threads_app. lia.
Qed.

(** C37: Launch and halt.  When [mdns_launch] with a host name succeeds and
    [mdns_halt] is called afterwards, whatever happens to the messages it sends,
    both threads have been deleted and every socket the library created has been
    closed exactly once, except for one: the socket of a stray [socket] call in
    [responder_launch] is never closed. *)
Theorem launch_halt_balance fuel rio qio ipaddr domain hostname services s s' hr hq :
  sys_calls s = [] -> mdns_launch fuel rio qio ipaddr domain (Some hostname) services s = Ok (0, s') ->
  forall x, sockets_held x (sys_calls (mdns_halt hr hq s')) = (if (raw_sock rio =? x) && (0 <=? raw_sock rio) then 1 else 0) /\
    threads_held x (sys_calls (mdns_halt hr hq s')) = 0.
Proof.
  intros H0 H x. unfold mdns_launch in H. apply bind_ok in H as ([ret s1] & H1 & H).
  apply bind_ok in H1 as ([[[[[ret1 h1] tx1] rx1] c1] cs1] & H1 & E). injection E as <- <-.
  destruct (Z.eqb_spec ret1 0) as [->|]; [|cbn in H; injection H; intros; lia]. cbn [negb sys_calls sys_querier sys_query] in H.
  apply responder_launch_inv in H1 as (-> & -> & I1 & I2 & I3).
  apply bind_ok in H as ([[[ret2 c2] cs2] q2] & H2 & H). injection H as -> <-.
  apply query_launch_ok in H2 as (-> & -> & J1 & J2 & J3).
  destruct (halt_held hr hq (mkSystem h1 tx1 rx1 (launched_statics rio (sys_responder s)) q2
    (with_thread (with_mc (with_ctrl (sys_querier s) (ctrl_sock qio)) (mc_sock qio)) (thread_ptr qio))
    ((sys_calls s ++ launch_calls rio) ++ [mdns_socket_loopback (htons MDNS_CTRL_QUERIER) 1 (ctrl_sock qio);
      mdns_socket_mcast (mc_sock qio); mdns_thread_create MDNS_THREAD_QUERIER (thread_ptr qio)])) x) as [-> ->].
  rewrite H0. unfold closed, deleted, launched_statics, launch_calls. cbn.
  destruct (Z.leb_spec 0 (mc_sock rio)), (Z.leb_spec 0 (ctrl_sock rio)), (Z.leb_spec 0 (mc_sock qio)), (Z.leb_spec 0 (ctrl_sock qio)),
    (Z.eqb_spec (thread_ptr rio) 0), (Z.eqb_spec (thread_ptr qio) 0); try lia. rewrite !andb_true_r. cbn [negb].
  repeat destruct (_ =? x); cbn; lia.
Qed.

(** The witness: node.local with one service, from the start of the program. *)
Definition boot : system := mkSystem unset_host blank_message blank_message zero_statics zero_state zero_statics [].
Definition launched : system :=
  match mdns_launch 200 (mkPorts 3 4 5 6) (mkPorts 7 8 9 10) 0x0100000A None (Some s_node) [user_web] boot with
  | Ok (_, s) => s
  | _ => boot
  end.
Definition answered : ctrl_io := mkCtrlIo 11 4 1 true 4 MDNS_SUCCESS.

Lemma launch_halt_balance_witness :
  sockets_held 5 (sys_calls (mdns_halt answered answered launched)) = 1 /\
  sockets_held 3 (sys_calls (mdns_halt answered answered launched)) = 0.
Proof.
  assert (mdns_launch 200 (mkPorts 3 4 5 6) (mkPorts 7 8 9 10) 0x0100000A None (Some s_node) [user_web] boot = Ok (0, launched))
    as E by (vm_compute; reflexivity).
  split; [exact (proj1 (launch_halt_balance _ _ _ _ _ _ _ boot launched answered answered eq_refl E 5))|
          exact (proj1 (launch_halt_balance _ _ _ _ _ _ _ boot launched answered answered eq_refl E 3))].
Defined.

(** Without a host name the responder is not launched, as mdns.h documents,
    but [mdns_halt] halts it all the same: it deletes a thread that was never
    created and closes the descriptor 0 twice, which the library never opened. *)
Theorem halt_without_responder fuel rio qio ipaddr domain services s s' hr hq :
  sys_calls s = [] -> sys_responder s = zero_statics -> mdns_launch fuel rio qio ipaddr domain None services s = Ok (0, s') ->
  sockets_held 0 (sys_calls (mdns_halt hr hq s')) = -2 /\ threads_held 0 (sys_calls (mdns_halt hr hq s')) = -1.
Proof.
  intros H0 Hz H. unfold mdns_launch in H. apply bind_ok in H as ([ret s1] & E & H). injection E as <- <-. cbn [Z.eqb negb] in H.
  apply bind_ok in H as ([[[ret2 c2] cs2] q2] & H2 & H). injection H as -> <-.
  apply query_launch_ok in H2 as (-> & -> & J1 & J2 & J3). rewrite Hz, H0.
  match goal with |- sockets_held 0 (sys_calls (mdns_halt hr hq ?t)) = _ /\ _ => destruct (halt_held hr hq t 0) as [-> ->] end.
  unfold closed, deleted. cbn.
  destruct (Z.leb_spec 0 (mc_sock qio)), (Z.leb_spec 0 (ctrl_sock qio)), (Z.eqb_spec (thread_ptr qio) 0); try lia.
  rewrite !andb_true_r. cbn [negb]. repeat destruct (_ =? 0); cbn; lia.
Qed.

Lemma halt_without_responder_witness :
  exists s', mdns_launch 200 (mkPorts 3 4 5 6) (mkPorts 7 8 9 10) 0x0100000A None None [] boot = Ok (0, s') /\
    sockets_held 0 (sys_calls (mdns_halt answered answered s')) = -2.
Proof.
  destruct (mdns_launch 200 (mkPorts 3 4 5 6) (mkPorts 7 8 9 10) 0x0100000A None None [] boot) as [[r s']| |] eqn:E;
    [|exfalso; vm_compute in E; discriminate E..].
  assert (r = 0) as -> by (vm_compute in E; injection E as <- _; reflexivity).
  exists s'. split; [reflexivity|]. exact (proj1 (halt_without_responder _ _ _ _ _ _ boot s' answered answered eq_refl eq_refl E)).
Defined.

(** When the querier cannot be launched, [mdns_launch] reports an error but the
    responder keeps running, with its thread and its sockets. *)
Theorem failed_launch_leaves_responder :
  let r := mdns_launch 200 (mkPorts 3 4 5 6) (mkPorts 7 (-1) 9 10) 0x0100000A None (Some s_node) [user_web] boot in
  exists s', r = Ok (-1, s') /\ threads_held 6 (sys_calls s') = 1 /\ sockets_held 3 (sys_calls s') = 1 /\
    sockets_held 4 (sys_calls s') = 1.
Proof. eexists. split; [vm_compute; reflexivity|]. by vm_compute. Qed.
