(* ===== verification/Tests.v ===== *)
(** * The test suites of the sources

    [dname_tests] (src/mdns/dname.c) and [responder_tests]
    (src/mdns/mdns_respond.c), run on the model: each FAIL_UNLESS of the C code
    is a boolean, in the order of the code.  Buffers on the C stack start with
    an arbitrary byte [fill]. *)
From S2P Require Import Prelude Buffer Cstring Dname Message Responder.
From Stdlib Require Import Ascii String.

(** [strcmp] of two buffers, as a test for equality. *)
Definition same_string (b1 : list Z) (b2 : list Z) : res bool :=
  n1 ← strlen_at b1 0;
  n2 ← strlen_at b2 0;
  l1 ← rd_range b1 0 n1;
  l2 ← rd_range b2 0 n2;
  mret (bool_decide (l1 = l2)).

Definition test_fuel : nat := 200.

(** ** dname.c *)

Definition p0 : list Z := [3] ++ str "foo" ++ [5] ++ str "local" ++ [0].
Definition p1 : list Z :=
  [0xBD; 0x38; 0x01; 0x00; 0x00; 0x01; 0x00; 0x00; 0x00; 0x01; 0x00; 0x00; 0x03; 0x66; 0x6F; 0x6F; 0x05; 0x6C; 0x6F;
   0x63; 0x61; 0x6C; 0x00; 0x00; 0x01; 0x00; 0x01; 0xC0; 0x0C; 0x00; 0x01; 0x00; 0x01; 0x00; 0x00; 0x00; 0xFF; 0x00;
   0x04; 0xC0; 0xA8; 0x01; 0x51].
Definition p3 : list Z := [5] ++ str "foo-2" ++ [5] ++ str "local" ++ [0].
Definition p4 : list Z := [5] ++ str "k1=v1" ++ [5] ++ str "k2=k3" ++ [0].
Definition p5 : list Z := [5] ++ str "k1=v1" ++ [5] ++ str "k2=k2" ++ [0].

Definition dname_size_tests : res (list bool) :=
  r1 ← dname_size p0 0;
  r2 ← dname_size p1 27;
  mret [r1 =? 11; r2 =? 2].

Definition dname_cmp_tests : res (list bool) :=
  let null b := mkDref b false in
  let pk b := mkDref b true in
  r1 ← dname_cmp test_fuel (null p0) 0 (null p0) 0;
  r2 ← dname_cmp test_fuel (null p0) 0 (pk p1) 27;
  r3 ← dname_cmp test_fuel (pk p1) 27 (pk p1) 27;
  r4 ← dname_cmp test_fuel (pk p1) 27 (null p0) 0;
  r5 ← dname_cmp test_fuel (pk p1) 27 (null p3) 0;
  r6 ← dname_cmp test_fuel (null p3) 0 (pk p1) 27;
  r7 ← dname_cmp test_fuel (null p4) 0 (null p5) 0;
  r8 ← dname_cmp test_fuel (null p5) 0 (null p4) 0;
  mret [r1 =? 0; r2 =? 0; r3 =? 0; r4 =? 0; r5 =? -1; r6 =? 1; r7 =? 1; r8 =? -1].

(** [for (i = 0; i < k; i++) dname_increment(n1);] *)
Fixpoint increments (k : nat) (n : list Z) : res (list Z) :=
  match k with
  | O => mret n
  | S k' => '(_, n) ← dname_increment n; increments k' n
  end.

Definition increment_name_tests (fill : Z) : res (list bool) :=
  let n1 := replicate 255 fill in
  let n2 := replicate 255 fill in
  '(a1, n1) ← c_to_dname n1 (str "foo.local");
  '(a2, n1) ← dname_increment n1;
  '(a3, n2) ← c_to_dname n2 (str "foo-2.local");
  a4 ← same_string n1 n2;
  '(b1, n1) ← c_to_dname n1 (str "thisnameisthemaxlabellength000000000000000000000000000000000000.local");
  '(b2, n1) ← dname_increment n1;
  '(b3, n2) ← c_to_dname n2 (str "thisnameisthemaxlabellength0000000000000000000000000000000000-2.local");
  b4 ← same_string n1 n2;
  '(c1, n1) ← c_to_dname n1 (str "myname.local");
  n1 ← increments 6 n1;
  '(c2, n2) ← c_to_dname n2 (str "myname-7.local");
  c3 ← same_string n1 n2;
  n1 ← increments 2 n1;
  '(d1, n2) ← c_to_dname n2 (str "myname-9.local");
  d2 ← same_string n1 n2;
  mret [a1 =? 0; a2 =? 0; a3 =? 0; a4; b1 =? 0; b2 =? 0; b3 =? 0; b4; c1 =? 0; c2 =? 0; c3; d1 =? 0; d2].

Definition txt_to_c_ncpy_tests (fill : Z) : res (list bool) :=
  let txt0 := [1; 0] in
  let txt1 := [5] ++ str "k1=v1" in
  let txt2 := [5] ++ str "k1=v1" ++ [5] ++ str "k2=v2" ++ [5] ++ str "k3=v3" in
  let result := replicate 256 fill in
  result ← txt_to_c_ncpy result 256 txt0 0 (Zlen txt0);
  a1 ← same_string result [0];
  result ← txt_to_c_ncpy result 256 txt1 0 (Zlen txt1);
  a2 ← same_string result (str "k1=v1" ++ [0]);
  result ← txt_to_c_ncpy result 256 txt2 0 (Zlen txt2);
  a3 ← same_string result (str "k1=v1:k2=v2:k3=v3" ++ [0]);
  let maxtxt := [255; 61] ++ replicate 254 118 in
  result ← txt_to_c_ncpy result 256 maxtxt 0 (Zlen maxtxt);
  got ← rd_range result 0 255;
  want ← rd_range maxtxt 1 255;
  z ← rd result 255;
  mret [a1; a2; a3; bool_decide (got = want); z =? 0].

Definition dname_tests (fill : Z) : res (list bool) :=
  l1 ← dname_size_tests;
  l2 ← dname_cmp_tests;
  l3 ← increment_name_tests fill;
  l4 ← txt_to_c_ncpy_tests fill;
  mret (l1 ++ l2 ++ l3 ++ l4).

(** ** mdns_respond.c *)

Definition pkt0 : list Z :=
  [228; 83; 1; 0; 0; 1; 0; 0; 0; 1; 0; 0; 3; 102; 111; 111; 5; 108; 111; 99; 97; 108; 0; 0; 1; 0; 1; 192; 12;
   0; 1; 0; 1; 0; 0; 0; 255; 0; 4; 192; 168; 0; 7].

Definition pkt1 : list Z :=
  [0; 0; 0; 132; 0; 0; 0; 7; 0; 0; 0; 0; 27; 108; 105; 110; 117; 120; 45; 50; 32; 91; 48; 48; 58; 49; 54; 58;
   98; 54; 58; 101; 102; 58; 51; 48; 58; 53; 55; 93; 12; 95; 119; 111; 114; 107; 115; 116; 97; 116; 105; 111;
   110; 4; 95; 116; 99; 112; 5; 108; 111; 99; 97; 108; 0; 0; 16; 128; 1; 0; 0; 17; 148; 0; 1; 0; 4; 95; 115;
   115; 104; 192; 53; 0; 12; 0; 1; 0; 0; 17; 148; 0; 10; 7; 108; 105; 110; 117; 120; 45; 50; 192; 76; 192; 93;
   0; 33; 128; 1; 0; 0; 0; 120; 0; 16; 0; 0; 0; 0; 0; 22; 7; 108; 105; 110; 117; 120; 45; 50; 192; 58; 192;
   121; 0; 28; 128; 1; 0; 0; 0; 120; 0; 16; 254; 128; 0; 0; 0; 0; 0; 0; 2; 22; 182; 255; 254; 239; 48; 87;
   192; 121; 0; 1; 128; 1; 0; 0; 0; 120; 0; 4; 192; 168; 1; 63; 192; 93; 0; 16; 128; 1; 0; 0; 17; 148; 0; 1;
   0; 9; 95; 115; 101; 114; 118; 105; 99; 101; 115; 7; 95; 100; 110; 115; 45; 115; 100; 4; 95; 117; 100; 112;
   192; 58; 0; 12; 0; 1; 0; 0; 17; 148; 0; 2; 192; 40].

Definition pkt2 : list Z :=
  [0; 0; 0; 0; 0; 2; 0; 0; 0; 0; 0; 0; 5; 70; 114; 111; 100; 111; 5; 108; 111; 99; 97; 108; 0; 0; 1; 0; 1;
   192; 12; 0; 28; 0; 1].

Definition pkt3 : list Z :=
  [0; 0; 0; 0; 0; 11; 0; 3; 0; 6; 0; 0; 11; 95; 97; 102; 112; 111; 118; 101; 114; 116; 99; 112; 4; 95; 116;
   99; 112; 5; 108; 111; 99; 97; 108; 0; 0; 12; 128; 1; 4; 95; 115; 109; 98; 192; 24; 0; 12; 128; 1; 4; 95;
   114; 102; 98; 192; 24; 0; 12; 128; 1; 6; 95; 97; 100; 105; 115; 107; 192; 24; 0; 12; 128; 1; 5; 95; 98; 98;
   115; 110; 4; 95; 117; 100; 112; 192; 29; 0; 12; 128; 1; 6; 109; 97; 114; 118; 105; 110; 192; 40; 0; 255;
   128; 1; 6; 109; 97; 114; 118; 105; 110; 4; 95; 115; 115; 104; 192; 24; 0; 255; 128; 1; 6; 109; 97; 114;
   118; 105; 110; 9; 95; 115; 102; 116; 112; 45; 115; 115; 104; 192; 24; 0; 255; 128; 1; 6; 109; 97; 114; 118;
   105; 110; 192; 75; 0; 255; 128; 1; 6; 109; 97; 114; 118; 105; 110; 192; 29; 0; 255; 128; 1; 192; 159; 0;
   255; 128; 1; 192; 40; 0; 12; 0; 1; 0; 0; 17; 144; 0; 2; 192; 92; 192; 51; 0; 12; 0; 1; 0; 0; 17; 139; 0;
   12; 9; 108; 117; 99; 107; 121; 108; 117; 107; 101; 192; 51; 192; 75; 0; 12; 0; 1; 0; 0; 17; 144; 0; 2; 192;
   146; 192; 92; 0; 33; 0; 1; 0; 0; 0; 120; 0; 8; 0; 0; 0; 0; 1; 189; 192; 159; 192; 105; 0; 33; 0; 1; 0; 0;
   0; 120; 0; 8; 0; 0; 0; 0; 0; 22; 192; 159; 192; 123; 0; 33; 0; 1; 0; 0; 0; 120; 0; 8; 0; 0; 0; 0; 0; 22;
   192; 159; 192; 146; 0; 33; 0; 1; 0; 0; 0; 120; 0; 8; 0; 0; 0; 0; 0; 9; 192; 159; 192; 159; 0; 28; 0; 1; 0;
   0; 0; 120; 0; 16; 254; 128; 0; 0; 0; 0; 0; 0; 2; 27; 99; 255; 254; 163; 229; 250; 192; 159; 0; 1; 0; 1; 0;
   0; 0; 120; 0; 4; 192; 168; 1; 253].

Definition pkt4 : list Z :=
  [0; 0; 0; 0; 0; 2; 0; 0; 0; 0; 0; 0; 5; 70; 114; 111; 100; 111; 5; 108; 111; 99; 97; 108; 0; 0; 1; 0; 1;
   192; 255; 0; 28; 0; 1].

Definition pkt5 : list Z :=
  [0; 0; 0; 132; 0; 0; 0; 3; 0; 0; 0; 0; 27; 108; 105; 110; 117; 120; 45; 50; 32; 91; 48; 48; 58; 49; 54; 58;
   98; 54; 58; 101; 102; 58; 51; 48; 58; 53; 55; 93; 12; 95; 119; 111; 114; 107; 115; 116; 97; 116; 105; 111;
   110; 4; 95; 116; 99; 112; 5; 108; 111; 99; 97; 108; 0; 0; 16; 128; 1; 0; 0; 17; 148; 0; 1; 0; 4; 95; 115;
   115; 104; 192; 53; 0; 12; 0; 1; 0; 0; 17; 148; 0; 10; 7; 108; 105; 110; 117; 120; 45; 50; 192; 255; 192;
   93; 0; 33; 128; 1; 0; 0; 0; 120; 0; 16; 0; 0; 0; 0; 0; 22; 7; 108; 105; 110; 117; 120; 45; 50; 192; 58].

Definition pkt6 : list Z :=
  [0; 0; 0; 0; 0; 24; 0; 30; 0; 0; 0; 0; 4; 95; 115; 115; 104; 4; 95; 116; 99; 112; 5; 108; 111; 99; 97; 108;
   0; 0; 12; 0; 1; 8; 95; 108; 105; 98; 118; 105; 114; 116; 192; 17; 0; 12; 0; 1; 9; 95; 112; 114; 101; 115;
   101; 110; 99; 101; 192; 17; 0; 12; 0; 1; 12; 95; 119; 111; 114; 107; 115; 116; 97; 116; 105; 111; 110; 192;
   17; 0; 12; 0; 1; 6; 104; 116; 116; 112; 45; 50; 192; 22; 0; 28; 0; 1; 192; 83; 0; 1; 0; 1; 10; 119; 101;
   98; 115; 105; 116; 101; 45; 56; 51; 5; 95; 104; 116; 116; 112; 192; 17; 0; 16; 0; 1; 192; 102; 0; 33; 0; 1;
   6; 104; 116; 116; 112; 45; 51; 192; 22; 0; 28; 0; 1; 192; 131; 0; 1; 0; 1; 10; 119; 101; 98; 115; 105; 116;
   101; 45; 56; 49; 192; 113; 0; 16; 0; 1; 192; 150; 0; 33; 0; 1; 4; 104; 116; 116; 112; 192; 22; 0; 28; 0; 1;
   192; 173; 0; 1; 0; 1; 10; 119; 101; 98; 115; 105; 116; 101; 45; 56; 50; 192; 113; 0; 16; 0; 1; 192; 190; 0;
   33; 0; 1; 6; 104; 116; 116; 112; 45; 52; 192; 22; 0; 28; 0; 1; 192; 213; 0; 1; 0; 1; 10; 119; 101; 98; 115;
   105; 116; 101; 45; 56; 48; 192; 113; 0; 16; 0; 1; 192; 232; 0; 33; 0; 1; 8; 95; 112; 114; 105; 110; 116;
   101; 114; 192; 17; 0; 12; 0; 1; 15; 95; 112; 100; 108; 45; 100; 97; 116; 97; 115; 116; 114; 101; 97; 109;
   192; 17; 0; 12; 0; 1; 192; 113; 0; 12; 0; 1; 4; 95; 114; 102; 98; 192; 17; 0; 12; 0; 1; 193; 42; 0; 12; 0;
   1; 0; 0; 17; 148; 0; 12; 9; 108; 117; 99; 107; 121; 108; 117; 107; 101; 193; 42; 192; 113; 0; 12; 0; 1; 0;
   0; 28; 32; 0; 28; 25; 72; 80; 32; 76; 97; 115; 101; 114; 74; 101; 116; 32; 51; 51; 57; 48; 32; 40; 68; 52;
   50; 49; 69; 51; 41; 192; 113; 192; 113; 0; 12; 0; 1; 0; 0; 0; 255; 0; 2; 192; 102; 192; 113; 0; 12; 0; 1;
   0; 0; 0; 255; 0; 2; 192; 150; 192; 113; 0; 12; 0; 1; 0; 0; 0; 255; 0; 2; 192; 190; 192; 113; 0; 12; 0; 1;
   0; 0; 0; 255; 0; 2; 192; 232; 193; 14; 0; 12; 0; 1; 0; 0; 28; 32; 0; 28; 25; 72; 80; 32; 76; 97; 115; 101;
   114; 74; 101; 116; 32; 51; 51; 57; 48; 32; 40; 68; 52; 50; 49; 69; 51; 41; 193; 14; 192; 255; 0; 12; 0; 1;
   0; 0; 28; 32; 0; 28; 25; 72; 80; 32; 76; 97; 115; 101; 114; 74; 101; 116; 32; 51; 51; 57; 48; 32; 40; 68;
   52; 50; 49; 69; 51; 41; 192; 255; 192; 232; 0; 33; 0; 1; 0; 0; 0; 255; 0; 8; 0; 0; 0; 0; 0; 80; 192; 213;
   192; 213; 0; 1; 0; 1; 0; 0; 0; 255; 0; 4; 192; 168; 1; 80; 192; 190; 0; 33; 0; 1; 0; 0; 0; 255; 0; 8; 0; 0;
   0; 0; 0; 80; 192; 173; 192; 173; 0; 1; 0; 1; 0; 0; 0; 255; 0; 4; 192; 168; 1; 82; 192; 150; 0; 33; 0; 1; 0;
   0; 0; 255; 0; 8; 0; 0; 0; 0; 0; 80; 192; 131; 192; 131; 0; 1; 0; 1; 0; 0; 0; 255; 0; 4; 192; 168; 1; 81;
   192; 102; 0; 33; 0; 1; 0; 0; 0; 255; 0; 8; 0; 0; 0; 0; 0; 80; 192; 83; 192; 83; 0; 1; 0; 1; 0; 0; 0; 255;
   0; 4; 192; 168; 1; 83; 192; 64; 0; 12; 0; 1; 0; 0; 17; 148; 0; 30; 27; 104; 101; 110; 114; 105; 111; 115;
   32; 91; 48; 48; 58; 50; 54; 58; 50; 100; 58; 49; 97; 58; 50; 100; 58; 51; 49; 93; 192; 64; 192; 64; 0; 12;
   0; 1; 0; 0; 17; 148; 0; 30; 27; 108; 105; 110; 117; 120; 45; 50; 32; 91; 48; 48; 58; 49; 54; 58; 98; 54;
   58; 101; 102; 58; 97; 102; 58; 52; 102; 93; 192; 64; 192; 64; 0; 12; 0; 1; 0; 0; 17; 148; 0; 28; 25; 103;
   111; 111; 102; 121; 32; 91; 48; 48; 58; 51; 48; 58; 98; 100; 58; 98; 51; 58; 99; 97; 58; 102; 50; 93; 192;
   64; 192; 64; 0; 12; 0; 1; 0; 0; 17; 148; 0; 29; 26; 112; 104; 111; 111; 101; 121; 32; 91; 48; 48; 58; 50;
   52; 58; 55; 101; 58; 54; 102; 58; 53; 52; 58; 53; 52; 93; 192; 64; 192; 64; 0; 12; 0; 1; 0; 0; 17; 148; 0;
   35; 32; 115; 117; 112; 101; 114; 115; 110; 105; 102; 102; 101; 114; 32; 91; 48; 48; 58; 48; 49; 58; 56; 48;
   58; 54; 56; 58; 97; 101; 58; 51; 57; 93; 192; 64; 192; 64; 0; 12; 0; 1; 0; 0; 17; 148; 0; 29; 26; 112; 105;
   114; 97; 116; 101; 32; 91; 48; 48; 58; 50; 52; 58; 55; 101; 58; 54; 100; 58; 51; 50; 58; 55; 51; 93; 192;
   64; 192; 64; 0; 12; 0; 1; 0; 0; 17; 148; 0; 29; 26; 105; 100; 101; 102; 105; 120; 32; 91; 48; 48; 58; 49;
   53; 58; 53; 56; 58; 100; 100; 58; 48; 49; 58; 102; 55; 93; 192; 64; 192; 64; 0; 12; 0; 1; 0; 0; 17; 148; 0;
   29; 26; 111; 98; 101; 108; 105; 120; 32; 91; 48; 48; 58; 49; 48; 58; 99; 54; 58; 98; 54; 58; 57; 98; 58;
   100; 52; 93; 192; 64; 192; 64; 0; 12; 0; 1; 0; 0; 17; 148; 0; 30; 27; 102; 111; 120; 116; 114; 111; 116;
   32; 91; 48; 48; 58; 50; 52; 58; 55; 101; 58; 54; 57; 58; 100; 56; 58; 57; 49; 93; 192; 64; 192; 48; 0; 12;
   0; 1; 0; 0; 17; 148; 0; 19; 16; 54; 54; 102; 97; 97; 101; 50; 100; 64; 108; 105; 110; 117; 120; 45; 50;
   192; 48; 192; 33; 0; 12; 0; 1; 0; 0; 17; 148; 0; 29; 26; 86; 105; 114; 116; 117; 97; 108; 105; 122; 97;
   116; 105; 111; 110; 32; 72; 111; 115; 116; 32; 112; 104; 111; 111; 101; 121; 192; 33; 192; 12; 0; 12; 0; 1;
   0; 0; 17; 148; 0; 10; 7; 108; 105; 110; 117; 120; 45; 50; 192; 12; 192; 12; 0; 12; 0; 1; 0; 0; 17; 148; 0;
   12; 9; 108; 117; 99; 107; 121; 108; 117; 107; 101; 192; 12; 192; 12; 0; 12; 0; 1; 0; 0; 17; 148; 0; 10; 7;
   99; 97; 114; 116; 109; 97; 110; 192; 12].


(** [memcpy(m.data, pkt, sizeof(pkt)); ret = mdns_parse_message(&m, sizeof(pkt));] *)
Definition load_and_parse (m : mdns_message) (pkt : list Z) : res (Z * mdns_message) :=
  d ← wr_range (data m) 0 pkt;
  mdns_parse_message test_fuel (set_data m d) (Zlen pkt).

(** The static messages and names before the tests run. *)
Definition static_message : mdns_message :=
  mkMessage (replicate 1472 0) 0 0 0 (replicate 32 default_question) 0 (replicate 32 default_resource) 0
    (replicate 32 default_resource) 0 [] [] [] [].

Definition responder_tests (fill : Z) : res (list bool) :=
  let rx := static_message in
  let tx := static_message in
  '(r0, rx) ← load_and_parse rx pkt0;
  let a1 := r0 =? 0 in
  let a2 := VALID_LENGTH rx =? Zlen pkt0 in
  let ip := htonl 0xC0A80109 in
  h ← reset_fqdn (mkHost (str "myname") (str "local") (replicate 256 0) (replicate 30 0) ip []);
  arpa ← ipaddr_to_inaddrarpa ip (in_addr_arpa h);
  let h := mkHost (hname h) (domname h) (fqdn h) arpa ip [] in
  '(rp, rx) ← prepare_probe test_fuel h rx;
  let b1 := rp =? 0 in
  let b2 := max_probe_growth 0 <=? TAILROOM rx in
  '(rt, tx) ← mdns_parse_message test_fuel (set_data tx (data rx)) (Zlen (data tx));
  let b3 := rt =? 0 in
  '(r1, rx) ← load_and_parse rx pkt1;
  let c1 := r1 =? 0 in
  let c2 := VALID_LENGTH rx =? Zlen pkt1 in
  '(r2, rx) ← load_and_parse rx pkt2;
  let d1 := r2 =? 0 in
  let d2 := VALID_LENGTH rx =? Zlen pkt2 in
  '(r3, rx) ← load_and_parse rx pkt3;
  let e1 := r3 =? 0 in
  let e2 := VALID_LENGTH rx =? Zlen pkt3 in
  '(rr, tx, _) ← prepare_response test_fuel h rx tx;
  let e3 := rr =? 0 in
  '(r4, rx) ← load_and_parse rx pkt4;
  '(r5, rx) ← load_and_parse rx pkt4;
  let f1 := r4 =? -1 in
  let f2 := r5 =? -1 in
  s ← reset_fqsn (domname h) (mkService (str "newservice") (str "servey") 0 0 None (replicate 255 fill) 0 0 0);
  got ← rd_range (fqsn s) 0 31;
  let g := bool_decide (got = [10] ++ str "newservice" ++ [7] ++ str "_servey" ++ [4] ++ str "_tcp" ++ [5] ++
                                 str "local" ++ [0]) in
  '(r6, rx) ← load_and_parse rx pkt6;
  let h1 := r6 =? 0 in
  let h2 := VALID_LENGTH rx =? Zlen pkt6 in
  mret [a1; a2; b1; b2; b3; c1; c2; d1; d2; e1; e2; e3; f1; f2; g; h1; h2].

(** ** Results *)

Definition all_true (r : res (list bool)) : bool :=
  match r with Ok l => forallb (fun b => b) l | _ => false end.

(** The test suite of the name helpers passes on the model, with two
    different contents of the uninitialised stack buffers. *)
Theorem dname_tests_pass : forall fill, fill = 0 \/ fill = 165 -> all_true (dname_tests fill) = true.
Proof. intros fill [-> | ->]; vm_compute; reflexivity. Qed.

Lemma dname_tests_pass_witness : all_true (dname_tests 165) = true.
Proof. apply (dname_tests_pass 165). right. reflexivity. Defined.

(** The test suite of the responder passes on the model: the recorded
    packets parse to their full length, the packet with a bad name is refused,
    and the probe and the service name come out as expected. *)
Theorem responder_tests_pass : all_true (responder_tests 165) = true.
Proof. vm_compute. reflexivity. Qed.

(** Pkt5, the packet with a bad pointer in its record data, which the C
    suite defines but never loads (it loads pkt4 twice), is refused. *)
Theorem pkt5_refused : exists m, load_and_parse static_message pkt5 = Ok (-1, m).
Proof. eexists. vm_compute. reflexivity. Qed.
