(* ===== verification/Debug.v ===== *)
(** * Printing messages (src/mdns/debug.c)

    The functions of the debug build that show a message, as the text they hand to
    DBG.  A name is followed through its pointers without a limit, so printing
    takes fuel.  [char] is signed. *)
From S2P Require Import Prelude.
From S2P Require Import Buffer.
From S2P Require Import Cstring.
From S2P Require Import Dname.
From S2P Require Import DnameSpec.
From S2P Require Import Message.
From S2P Require Import MessageSpec.
From S2P Require Import MessageParse.
From S2P Require Import MessageTheorems.
From Stdlib Require String.
Import (notations) String.

(** ** The code *)

Definition debug_print_ip (ip : Z) : list Z :=
  dec (Z.shiftr ip 24) ++ str "." ++ dec (Z.shiftr (Z.land ip 0x00FF0000) 16) ++ str "." ++
  dec (Z.shiftr (Z.land ip 0x0000FF00) 8) ++ str "." ++ dec (Z.land ip 0x000000FF).

Definition s8 (c : Z) : Z := if c <? 128 then c else c - 256.

(** One character: control characters, and those above 127, as a backslash and a
    number. *)
Definition show_char (c : Z) : list Z := if s8 c <? 32 then 92 :: fmt_d (s8 c) else [c].

Fixpoint print_txt_loop (n : nat) (b : list Z) (txt : Z) : res (list Z) :=
  match n with
  | O => Ok []
  | S n =>
      c ← rd b txt;
      out ← print_txt_loop n b (txt + 1);
      Ok (show_char c ++ out)
  end.

Definition debug_print_txt (b : list Z) (txt len : Z) : res (list Z) := print_txt_loop (Z.to_nat len) b txt.

Fixpoint print_name_loop (fuel : nat) (r : dref) (s : Z) (first : bool) : res (list Z) :=
  match fuel with
  | O => Diverge
  | S fuel =>
      c ← rd (d_buf r) s;
      if c =? 0 then Ok []
      else if IS_POINTER c then
        if negb (d_base r) then Ok []
        else
          o ← POINTER (d_buf r) s;
          print_name_loop fuel r o first
      else
        txt ← debug_print_txt (d_buf r) (s + 1) c;
        out ← print_name_loop fuel r (s + c + 1) false;
        Ok ((if first then [] else str ".") ++ txt ++ out)
  end.

Definition debug_print_name (fuel : nat) (r : dref) (name : Z) : res (list Z) := print_name_loop fuel r name true.

Definition debug_print_question (fuel : nat) (m : mdns_message) (q : mdns_question) : res (list Z) :=
  name ← debug_print_name fuel (packet m) (qname q);
  Ok (name ++ str " (type " ++ dec (qtype q) ++ str ", class " ++ dec (qclass q) ++ str ")" ++ [10]).

(** The class without its top bit, and whether it was set. *)
Definition class_text (class : Z) : list Z :=
  if negb (Z.land class 0x8000 =? 0) then dec (Z.land class (Z.lnot 0x8000)) ++ str " FLUSH" else dec class.

Definition debug_print_resource (fuel : nat) (m : mdns_message) (r : mdns_resource) : res (list Z) :=
  name ← debug_print_name fuel (packet m) (r_name r);
  let head := name ++ str " (class " ++ class_text (r_class r) ++ str ", ttl=" ++ dec (r_ttl r) ++
              str ", len=" ++ dec (r_rdlength r) ++ str ") " in
  body ←
    (if r_type r =? T_A then
       ip ← get_uint32 (data m) (r_rdata r);
       Ok (str "A " ++ debug_print_ip ip)
     else if r_type r =? T_NS then
       n ← debug_print_name fuel (packet m) (r_rdata r); Ok (str "NS " ++ n)
     else if r_type r =? T_CNAME then
       n ← debug_print_name fuel (packet m) (r_rdata r); Ok (str "CNAME " ++ n)
     else if r_type r =? T_SRV then
       priority ← get_uint16 (data m) (r_rdata r);
       weight ← get_uint16 (data m) (r_rdata r + 2);
       port ← get_uint16 (data m) (r_rdata r + 4);
       n ← debug_print_name fuel (packet m) (r_rdata r + 6);
       Ok (str "SRV prior: " ++ dec priority ++ str ", weight: " ++ dec weight ++ str ", port: " ++ dec port ++
           str ", target: " ++ [34] ++ n ++ [34; 10])
     else if r_type r =? T_PTR then
       n ← debug_print_name fuel (packet m) (r_rdata r); Ok (str "PTR " ++ n)
     else if r_type r =? T_TXT then
       t ← debug_print_txt (data m) (r_rdata r) (r_rdlength r); Ok (str "TXT " ++ [34] ++ t ++ [34; 10])
     else Ok ([9] ++ str "unknown" ++ [10]));
  Ok (head ++ body ++ [10]).

(** The counts are in network order in the header, the flags in host order once
    the message was parsed. *)
Definition debug_print_header (m : mdns_message) : res (list Z) :=
  id ← get_host16 (data m) H_ID;
  num ← get_host16 (data m) H_FLAGS;
  qd ← get_host16 (data m) H_QDCOUNT;
  an ← get_host16 (data m) H_ANCOUNT;
  ns ← get_host16 (data m) H_NSCOUNT;
  ar ← get_host16 (data m) H_ARCOUNT;
  Ok (str "ID=" ++ dec (htons id) ++ str ", QR=" ++ dec (flag_qr num) ++
      str ", AA=" ++ fmt_d (Z.land (Z.shiftr num 10) 1) ++ str " OPCODE=" ++ dec (flag_opcode num) ++ [10] ++
      str "QDCOUNT=" ++ dec (htons qd) ++ str ", ANCOUNT=" ++ dec (htons an) ++
      str ", NSCOUNT=" ++ dec (htons ns) ++ str ", ARCOUNT=" ++ dec (htons ar) ++ [10]).

(** A loop over the first [n] elements of an array. *)
Fixpoint print_all {A} (f : A -> res (list Z)) (l : list A) : res (list Z) :=
  match l with
  | [] => Ok []
  | x :: l => a ← f x; b ← print_all f l; Ok (a ++ b)
  end.

Definition RULE : list Z := replicate 56 35 ++ [10].

Definition debug_print_message (fuel : nat) (m : mdns_message) : res (list Z) :=
  h ← debug_print_header m;
  qs ← print_all (debug_print_question fuel m) (take (Z.to_nat (num_questions m)) (questions m));
  an ← print_all (debug_print_resource fuel m) (take (Z.to_nat (num_answers m)) (answers m));
  ns ← print_all (debug_print_resource fuel m) (take (Z.to_nat (num_authorities m)) (authorities m));
  Ok (RULE ++ str "HEADER;" ++ [10] ++ h ++ str "QUESTION;" ++ [10] ++ qs ++ str "ANSWER;" ++ [10] ++ an ++
      str "AUTHORITY;" ++ [10] ++ ns ++ RULE).

(** ** What it shows *)

(** A name: its labels with dots between them. *)
Fixpoint labels_text (first : bool) (ls : list (list Z)) : list Z :=
  match ls with
  | [] => []
  | l :: ls => (if first then [] else str ".") ++ flat_map show_char l ++ labels_text false ls
  end.

Lemma print_txt_holds b l txt : holds b txt l -> print_txt_loop (length l) b txt = Ok (flat_map show_char l).
Proof.
  revert txt. induction l as [|c l IH]; intros txt H; [done|]. cbn [length print_txt_loop flat_map].
  change (c :: l) with ([c] ++ l) in H. apply holds_app in H as [H1 H2]. rewrite (proj1 (holds_rd _ _ _) H1).
  cbn [mbind res_bind]. change (Zlen [c]) with 1 in H2. by rewrite (IH _ H2).
Qed.

Lemma debug_print_txt_holds b l txt len :
  holds b txt l -> len = Zlen l -> debug_print_txt b txt len = Ok (flat_map show_char l).
Proof. intros H ->. unfold debug_print_txt, Zlen. rewrite Nat2Z.id. by apply print_txt_holds. Qed.

Lemma print_name_spec r n ls first :
  name_at r n ls -> returns (fun fuel => print_name_loop fuel r n first) (labels_text first ls).
Proof.
  intros H. revert first. induction H as [n E|n l ls E Hl Hh H IH|n c t ls E Hc Ht H IH]; intros first.
  - eapply returns_S; [intros fuel; cbn [print_name_loop]; rewrite E; cbn [mbind res_bind Z.eqb]; reflexivity|].
    by apply returns_const.
  - eapply returns_S.
    { intros fuel. cbn [print_name_loop]. rewrite E. cbn [mbind res_bind].
      rewrite (proj2 (Z.eqb_neq _ _)) by lia. rewrite is_pointer_byte, (proj2 (Z.leb_gt _ _)) by (unfold is_byte; lia).
      rewrite (debug_print_txt_holds _ l) by done. cbn [mbind res_bind].
      replace (n + Zlen l + 1) with (n + 1 + Zlen l) by lia. reflexivity. }
    eapply returns_bind; [apply IH|]. by apply returns_const.
  - eapply returns_S; [|apply IH]. intros fuel. cbn [print_name_loop]. rewrite E. cbn [mbind res_bind].
    rewrite (proj2 (Z.eqb_neq _ _)) by lia. rewrite is_pointer_byte, (proj2 (Z.leb_le _ _)) by (unfold is_byte; lia).
    unfold follow in Ht. destruct (POINTER (d_buf r) n) as [o| |]; cbn in Ht; [|done|done].
    destruct (d_base r); cbn in Ht; [|done]. by injection Ht as <-.
Qed.

(** A question, and a record with the text [t] of its data. *)
Definition question_text (q : question) : list Z :=
  labels_text true (q_labels q) ++ str " (type " ++ dec (q_type q) ++ str ", class " ++ dec (q_class q) ++ str ")" ++ [10].

Definition rr_text (x : rr) (t : list Z) : list Z :=
  (labels_text true (rr_labels x) ++ str " (class " ++ class_text (rr_class x) ++ str ", ttl=" ++ dec (rr_ttl x) ++
   str ", len=" ++ dec (Zlen (rr_data x)) ++ str ") ") ++ t ++ [10].

Definition name_types : list (Z * list Z) := [(T_NS, str "NS "); (T_CNAME, str "CNAME "); (T_PTR, str "PTR ")].

(** The text of record data: an address, a name, a service, a text, or nothing. *)
Inductive rdata_shown (x : rr) : list Z -> Prop :=
  | shown_a a b c d :
      rr_type x = T_A -> rr_data x = [a; b; c; d] ->
      rdata_shown x (str "A " ++ dec a ++ str "." ++ dec b ++ str "." ++ dec c ++ str "." ++ dec d)
  | shown_name ls t :
      (rr_type x, t) ∈ name_types -> rr_data x = encode ls -> Forall valid_label ls ->
      rdata_shown x (t ++ labels_text true ls)
  | shown_srv p w port ls :
      rr_type x = T_SRV -> rr_data x = be16 p ++ be16 w ++ be16 port ++ encode ls -> Forall valid_label ls ->
      word16 p -> word16 w -> word16 port ->
      rdata_shown x (str "SRV prior: " ++ dec p ++ str ", weight: " ++ dec w ++ str ", port: " ++ dec port ++
                     str ", target: " ++ [34] ++ labels_text true ls ++ [34; 10])
  | shown_txt :
      rr_type x = T_TXT -> rdata_shown x (str "TXT " ++ [34] ++ flat_map show_char (rr_data x) ++ [34; 10])
  | shown_other :
      rr_type x ∉ [T_A; T_NS; T_CNAME; T_SRV; T_PTR; T_TXT] -> rdata_shown x ([9] ++ str "unknown" ++ [10]).

(** The address: the four bytes of a big-endian word. *)
Lemma print_ip_bytes b p l0 l1 l2 l3 :
  bytes [l0; l1; l2; l3] -> holds b p [l0; l1; l2; l3] ->
  (ip ← get_uint32 b p; Ok (debug_print_ip ip)) = Ok (dec l0 ++ str "." ++ dec l1 ++ str "." ++ dec l2 ++ str "." ++ dec l3).
Proof.
  intros Hb Hh. unfold bytes, is_byte in Hb. rewrite !Forall_cons_iff in Hb. destruct Hb as (B0 & B1 & B2 & B3 & _).
  set (ip := l0 * 16777216 + l1 * 65536 + l2 * 256 + l3).
  assert (E0 : ip / 16777216 = l0) by (unfold ip; Z.to_euclidean_division_equations; lia).
  assert (E1 : ip / 65536 mod 256 = l1) by (unfold ip; Z.to_euclidean_division_equations; lia).
  assert (E2 : ip / 256 mod 256 = l2) by (unfold ip; Z.to_euclidean_division_equations; lia).
  assert (E3 : ip mod 256 = l3) by (unfold ip; Z.to_euclidean_division_equations; lia).
  rewrite (get_uint32_be32 b p ip); [|unfold ip; lia|unfold be32; by rewrite E0, E1, E2, E3]. cbn [mbind res_bind].
  unfold debug_print_ip. change 0x00FF0000 with (Z.shiftl 255 16). change 0x0000FF00 with (Z.shiftl 255 8).
  rewrite !Z.shiftr_land, !Z.shiftr_shiftl_r by lia. rewrite !Z.sub_diag, !Z.shiftr_0_r.
  rewrite !land_255, !Z.shiftr_div_pow2 by lia. change (2 ^ 24) with 16777216. change (2 ^ 16) with 65536.
  change (2 ^ 8) with 256. by rewrite E0, E1, E2, E3.
Qed.

Lemma debug_print_question_spec m pq q :
  parsed_question (packet m) pq q -> returns (fun fuel => debug_print_question fuel m pq) (question_text q).
Proof.
  intros (Hn & Et & Ec). unfold debug_print_question, question_text. rewrite Et, Ec. eapply returns_bind; [by apply print_name_spec|].
  by apply returns_const.
Qed.

(** Decide the comparisons of record types. *)
Ltac pick_type :=
  repeat match goal with
    | |- context [?a =? ?b] =>
        let v := eval vm_compute in (a =? b) in
        match v with true => idtac | false => idtac end; change (a =? b) with v
    end; cbv iota.

Lemma debug_print_resource_spec m r x t :
  bytes (data m) -> parsed_rr (packet m) r x -> rdata_shown x t ->
  returns (fun fuel => debug_print_resource fuel m r) (rr_text x t).
Proof.
  intros Hb (Hn & Et & Ec & El & Er & Hh) Hs. unfold debug_print_resource, rr_text. rewrite Et, Ec, El, Er.
  eapply returns_bind; [by apply print_name_spec|]. cbv zeta.
  eapply returns_bind; [|by apply returns_const]. destruct Hs as [a b c d T E|ls u T E V|p w po ls T E V Wp Ww Wo|T|T].
  - rewrite T, E in *. pick_type. apply returns_const.
    pose proof (print_ip_bytes _ _ a b c d ltac:(eapply holds_byte; eauto) Hh) as P. cbn [packet d_buf] in P.
    destruct (get_uint32 (data m) (r_rdata r)) as [ip| |]; cbn [mbind res_bind] in *; [|done|done].
    by injection P as ->.
  - rewrite E in Hh. repeat (apply elem_of_cons in T as [[= -> ->]|T]); [..|by apply elem_of_nil in T].
    all: pick_type.
    all: eapply returns_bind; [by apply print_name_spec, name_at_encode|by apply returns_const].
  - rewrite T, E in *. rewrite !holds_app, !Zlen_be16 in Hh. destruct Hh as (H1 & H2 & H3 & H4).
    replace (r_rdata r + 2 + 2) with (r_rdata r + 4) in * by lia.
    replace (r_rdata r + 4 + 2) with (r_rdata r + 6) in * by lia. cbn [packet d_buf] in *.
    pick_type.
    rewrite (get_uint16_be16 _ _ p Wp H1). cbn [mbind res_bind]. rewrite (get_uint16_be16 _ _ w Ww H2).
    cbn [mbind res_bind]. rewrite (get_uint16_be16 _ _ po Wo H3). cbn [mbind res_bind].
    eapply returns_bind; [by apply print_name_spec, name_at_encode|by apply returns_const].
  - rewrite T. pick_type.
    apply returns_const. by rewrite (debug_print_txt_holds (data m) _ _ _ Hh eq_refl).
  - rewrite !not_elem_of_cons in T. destruct T as (T1 & T2 & T3 & T4 & T5 & T6 & _).
    rewrite !(proj2 (Z.eqb_neq _ _)) by done. by apply returns_const.
Qed.

(** ** The whole message *)

Lemma print_all_spec {A} (f : nat -> A -> res (list Z)) l ts :
  Forall2 (fun x t => returns (fun fuel => f fuel x) t) l ts ->
  returns (fun fuel => print_all (f fuel) l) (concat ts).
Proof.
  induction 1 as [|x t l ts Hx _ IH]; [by apply returns_all|]. cbn [print_all concat].
  eapply returns_bind; [exact Hx|]. eapply returns_bind; [exact IH|]. by apply returns_const.
Qed.

(** The used part of an array. *)
Lemma array_prefix {A B} (P : A -> B -> Prop) (l : list A) (xs : list B) n :
  n = Zlen xs -> (forall k x, xs !! k = Some x -> exists y, l !! k = Some y /\ P y x) ->
  Forall2 P (take (Z.to_nat n) l) xs.
Proof.
  intros -> H. unfold Zlen. rewrite Nat2Z.id. revert l H. induction xs as [|x xs IH]; intros l H; [constructor|].
  destruct (H 0%nat x eq_refl) as (y & Ey & Hy). destruct l as [|y' l]; [done|]. injection Ey as ->.
  cbn [length take]. constructor; [done|]. apply IH. intros k z Hz. exact (H (S k) z Hz).
Qed.

Lemma Forall2_through {A B C} (P : A -> B -> Prop) (Q : B -> C -> Prop) (R : A -> C -> Prop) l xs ts :
  (forall a b c, P a b -> Q b c -> R a c) -> Forall2 P l xs -> Forall2 Q xs ts -> Forall2 R l ts.
Proof.
  intros H HP. revert ts. induction HP as [|a b l xs Hab _ IH]; intros ts HQ; inversion HQ; subst; constructor; eauto.
Qed.

(** Records with the texts of their data. *)
Definition shown (x : rr) (t : list Z) : Prop := exists body, rdata_shown x body /\ t = rr_text x body.

(** What the debug build prints of a message.  For a parsed message whose
    record data has the form of its type, [debug_print_message] returns, and shows
    the header fields, then every question, answer and authority in order, each
    with its full name (compressed or not), its class without the flush bit, and
    its data: the address in dotted form, the target name, or the text. *)
Theorem debug_print_message_correct m qs an ns hdr ats nts :
  bytes (data m) -> parsed m qs an ns -> debug_print_header m = Ok hdr ->
  Forall2 shown an ats -> Forall2 shown ns nts ->
  returns (fun fuel => debug_print_message fuel m)
    (RULE ++ str "HEADER;" ++ [10] ++ hdr ++ str "QUESTION;" ++ [10] ++ concat (map question_text qs) ++
     str "ANSWER;" ++ [10] ++ concat ats ++ str "AUTHORITY;" ++ [10] ++ concat nts ++ RULE).
Proof.
  intros Hb HP Hh Ha Hn. unfold debug_print_message. rewrite Hh. cbn [mbind res_bind].
  assert (Hr : forall r x t, parsed_rr (packet m) r x -> shown x t -> returns (fun fuel => debug_print_resource fuel m r) t).
  { intros r x t Hx (body & Hs & ->). by apply debug_print_resource_spec. }
  eapply returns_bind.
  { apply print_all_spec. apply (Forall2_through (parsed_question (packet m)) (fun q t => t = question_text q) _ _ qs).
    - intros pq q t Hq ->. by apply debug_print_question_spec.
    - apply array_prefix; apply HP.
    - instantiate (1 := map question_text qs). clear. induction qs; cbn [map]; constructor; done. }
  eapply returns_bind.
  { apply print_all_spec. eapply Forall2_through; [exact Hr|apply array_prefix; apply HP|exact Ha]. }
  eapply returns_bind.
  { apply print_all_spec. eapply Forall2_through; [exact Hr|apply array_prefix; apply HP|exact Hn]. }
  by apply returns_const.
Qed.

(** The witness: a message with a question, an address and a pointer. *)
Definition demo_header_text : list Z :=
  str "ID=0, QR=0, AA=0 OPCODE=0" ++ [10] ++ str "QDCOUNT=1, ANCOUNT=1, NSCOUNT=1, ARCOUNT=0" ++ [10].
Definition demo_text : list Z :=
  RULE ++ str "HEADER;" ++ [10] ++ demo_header_text ++
  str "QUESTION;" ++ [10] ++ str "a.local (type 255, class 1)" ++ [10] ++
  str "ANSWER;" ++ [10] ++ str "a.local (class 1 FLUSH, ttl=255, len=4) A 10.0.0.1" ++ [10] ++
  str "AUTHORITY;" ++ [10] ++ str "a.local (class 1 FLUSH, ttl=255, len=9) PTR a.local" ++ [10] ++ RULE.

Lemma demo_parsed : exists m', returns (fun fuel => mdns_parse_message fuel demo_message demo_length) (0, m') /\
  parsed m' demo_questions demo_answers demo_authorities /\ data m' = data demo_message.
Proof.
  destruct (parse_message_returns demo_message demo_length 0 0 demo_questions demo_answers demo_authorities)
    as (m' & HR & HP & _ & _ & W & _);
    [by_eval|reflexivity|split_and!; reflexivity|by_eval|reflexivity|by_eval..| | | |by_eval|reflexivity|].
  - exact demo_questions_valid.
  - exact demo_answers_valid.
  - exact demo_authorities_valid.
  - exists m'. split; [exact HR|]. split; [exact HP|]. destruct m' as [d]. cbn [data] in *.
    vm_compute in W. by injection W as <-.
Qed.

Lemma demo_shown :
  Forall2 shown demo_answers [str "a.local (class 1 FLUSH, ttl=255, len=4) A 10.0.0.1" ++ [10]] /\
  Forall2 shown demo_authorities [str "a.local (class 1 FLUSH, ttl=255, len=9) PTR a.local" ++ [10]].
Proof.
  split; (constructor; [|constructor]).
  - eexists. split; [by apply (shown_a _ 10 0 0 1)|]. vm_compute. reflexivity.
  - eexists. split; [apply (shown_name _ a_local (str "PTR ")); [by_eval|done|by_eval]|]. vm_compute. reflexivity.
Qed.

Lemma debug_print_message_correct_witness :
  exists m', returns (fun fuel => mdns_parse_message fuel demo_message demo_length) (0, m') /\
    returns (fun fuel => debug_print_message fuel m') demo_text.
Proof.
  destruct demo_parsed as (m' & HR & HP & Ed). exists m'. split; [exact HR|].
  destruct demo_shown as [Ha Hn].
  epose proof (debug_print_message_correct m' demo_questions demo_answers demo_authorities demo_header_text _ _
    _ HP _ Ha Hn) as H.
  match type of H with returns _ ?t => assert (Et : t = demo_text) by (vm_compute; reflexivity) end.
  rewrite Et in H. exact H.
  Unshelve.
  - rewrite Ed. by_eval.
  - unfold debug_print_header. rewrite Ed. vm_compute. reflexivity.
Defined.

(** A name that is a pointer to itself is printed for ever. *)
Lemma print_name_self_pointer fuel : debug_print_name fuel (mkDref [0xC0; 0] true) 0 = Diverge.
Proof. unfold debug_print_name. induction fuel as [|fuel IH]; [done|]. exact IH. Qed.
