(* ===== verification/LinuxMain.v ===== *)
(** * The Linux program (src/examples/linux/main.c)

    The command line tool and its porting layer.  [parse_service] turns the
    argument of a [-s] option into a service; [linux_main] is [main], for the
    options as [getopt] returns them; the functions of the porting layer are given
    with the system calls they make.  Messages on the terminal are left out. *)
From S2P Require Import Prelude.
From S2P Require Import Buffer.
From S2P Require Import Cstring.
From S2P Require Import Message.
From Stdlib Require String.
Import (notations) String.

(** ** The argument of -s *)

(** The members of [struct mdns_service] that the program sets; all are 0 at
    first.  A NULL string is [None]. *)
Record lservice := mkL {
  l_servname : option (list Z);
  l_servtype : option (list Z);
  l_port : Z;
  l_proto : Z;
  l_keyvals : option (list Z) }.

Definition zero_service : lservice := mkL None None 0 0 None.

(** [token == NULL || *token == 0] *)
Definition no_token (t : option (list Z)) : bool :=
  match t with None | Some [] => true | _ => false end.

Definition tok (t : option (list Z)) : list Z := match t with Some l => l | None => [] end.

(** The port number: [bits] is the width of [long], [errno] what the variable
    held when it was called (nobody clears it). *)
Definition parse_port (bits : Z) (errno_erange : bool) (token : list Z) : option Z :=
  let LONG_MAX := 2 ^ (bits - 1) - 1 in
  let LONG_MIN := - 2 ^ (bits - 1) in
  let '(v, erange) := strtol bits token in
  let port := s32 v in
  if ((errno_erange || erange) && ((port =? LONG_MAX) || (port =? LONG_MIN))) || (UINT16_MAX <? port) || (port <? 0)
  then None else Some port.

Definition parse_service (bits : Z) (errno malloc_ok : bool) (str_ : list Z) (s : lservice) : Z * lservice :=
  let '(token, p) := strsep (Some str_) CH_COL in
  if no_token token then (-1, s)
  else
    let s := mkL token (l_servtype s) (l_port s) (l_proto s) (l_keyvals s) in
    let '(token, p) := strsep p CH_COL in
    if no_token token then (-2, s)
    else
      let s := mkL (l_servname s) token (l_port s) (l_proto s) (l_keyvals s) in
      let '(token, p) := strsep p CH_COL in
      if no_token token then (-3, s)
      else
        match parse_port bits errno (tok token) with
        | None => (-4, s)
        | Some port =>
            let s := mkL (l_servname s) (l_servtype s) (u16 port) (l_proto s) (l_keyvals s) in
            let '(token, p) := strsep p CH_COL in
            if no_token token then (-5, s)
            else
              let proto :=
                if bool_decide (tok token = str "tcp") then Some MDNS_PROTO_TCP
                else if bool_decide (tok token = str "udp") then Some MDNS_PROTO_UDP else None in
              match proto with
              | None => (-6, s)
              | Some proto =>
                  let s := mkL (l_servname s) (l_servtype s) (l_port s) proto (l_keyvals s) in
                  match p with
                  | None => (0, s)
                  | Some kv =>
                      if negb malloc_ok then (-7, s)
                      else (0, mkL (l_servname s) (l_servtype s) (l_port s) (l_proto s) (Some kv))
                  end
              end
        end.

(** The descriptor as the library finds it: [keyvals] in the heap, after the byte
    [before]. *)
Definition descriptor (before : Z) (s : lservice) : mdns_service :=
  mkService (tok (l_servname s)) (tok (l_servtype s)) (l_port s) (l_proto s)
    (match l_keyvals s with None => None | Some kv => Some (before :: kv ++ [0], 1) end)
    (replicate 255 0) 0 0 0.

(** ** main *)

Definition MAX_SERVICES : Z := 16.

(** What [getopt] returns, with [optarg]; the argument of [-b] is what [inet_addr]
    makes of it. *)
Inductive opt :=
  | opt_h
  | opt_b (ip : Z)
  | opt_d (domain : list Z)
  | opt_n (hostname : list Z)
  | opt_l (logfile : list Z)
  | opt_s (service : list Z)
  | opt_other.

(** The blocks of the heap: the descriptors and their key/value texts. *)
Inductive block := B_service (i : Z) | B_keyvals (i : Z).
#[global] Instance block_eq_dec : EqDecision block.
Proof. solve_decision. Defined.

(** The calls, in order. *)
Inductive mcall :=
  | m_malloc (b : block)
  | m_free (b : block)
  | m_launch (ipaddr : Z) (domain hostname : option (list Z)) (services : list lservice)
  | m_halt
  | m_tests
  | m_monitor (fqst : list Z)
  | m_unmonitor (fqst : option (list Z)).

Record main_state := mkMain {
  a_ip : Z; a_domain : option (list Z); a_hostname : option (list Z); a_logfile : option (list Z);
  a_services : list lservice }.

(** How the option loop ends: the options are used up, or [goto done], or a
    return.  At [goto done] the array holds the services and the one whose parse
    failed. *)
Inductive after := a_done (ret : Z) | a_return (ret : Z) | a_command.

Section Main.
(** The width of [long], errno, and which allocations succeed. *)
Variables (bits : Z) (errno : bool) (malloc_ok : block -> bool).

Definition add_service (arg : list Z) (st : main_state) : after * main_state * list mcall :=
  let i := Zlen (a_services st) in
  if i =? MAX_SERVICES then (a_command, st, [])
  else if negb (malloc_ok (B_service i)) then (a_done (-1), st, [])
  else
    let '(ret, s) := parse_service bits errno (malloc_ok (B_keyvals i)) arg zero_service in
    (if negb (ret =? 0) then a_done ret else a_command,
     mkMain (a_ip st) (a_domain st) (a_hostname st) (a_logfile st) (a_services st ++ [s]),
     m_malloc (B_service i) :: match l_keyvals s with None => [] | Some _ => [m_malloc (B_keyvals i)] end).

Definition one_option (o : opt) (st : main_state) : after * main_state * list mcall :=
  match o with
  | opt_h => (a_return 0, st, [])
  | opt_b ip => (a_command, mkMain ip (a_domain st) (a_hostname st) (a_logfile st) (a_services st), [])
  | opt_d d => (a_command, mkMain (a_ip st) (Some d) (a_hostname st) (a_logfile st) (a_services st), [])
  | opt_n n => (a_command, mkMain (a_ip st) (a_domain st) (Some n) (a_logfile st) (a_services st), [])
  | opt_l l => (a_command, mkMain (a_ip st) (a_domain st) (a_hostname st) (Some l) (a_services st), [])
  | opt_s arg => add_service arg st
  | opt_other => (a_return (-1), st, [])
  end.

Fixpoint options (os : list opt) (st : main_state) : after * main_state * list mcall :=
  match os with
  | [] => (a_command, st, [])
  | o :: os =>
      let '(a, st, cs) := one_option o st in
      match a with
      | a_command => let '(a, st, cs') := options os st in (a, st, cs ++ cs')
      | _ => (a, st, cs)
      end
  end.

(** [done]: the services from [i] on. *)
Fixpoint free_services (i : Z) (ss : list lservice) : list mcall :=
  match ss with
  | [] => []
  | s :: ss =>
      (match l_keyvals s with None => [] | Some _ => [m_free (B_keyvals i)] end) ++
      m_free (B_service i) :: free_services (i + 1) ss
  end.

(** [args]: the arguments after the options.  [launch_ret], [monitor_ret]: what
    [mdns_launch] and [mdns_query_monitor] return. *)
Definition command (args : list (list Z)) (launch_ret monitor_ret : Z) (st : main_state) : after * list mcall :=
  match args with
  | [] => (a_return (-1), [])
  | cmd :: rest =>
      if bool_decide (cmd = str "launch") then
        (a_done launch_ret, [m_launch (a_ip st) (a_domain st) (a_hostname st) (a_services st)])
      else if bool_decide (cmd = str "halt") then (a_return 0, [m_halt])
      else if bool_decide (cmd = str "test") then (a_return 0, [m_tests])
      else if bool_decide (cmd = str "monitor") then
        match rest with
        | [] => (a_return (-1), [])
        | fqst :: _ => (a_return monitor_ret, [m_monitor fqst])
        end
      else if bool_decide (cmd = str "unmonitor") then (a_return 0, [m_unmonitor (head rest)])
      else (a_return (-1), [])
  end.

Definition linux_main (os : list opt) (args : list (list Z)) (launch_ret monitor_ret : Z) : Z * list mcall :=
  let '(a, st, cs) := options os (mkMain 0 None None None []) in
  let '(a, cs') :=
    match a with
    | a_command => command args launch_ret monitor_ret st
    | _ => (a, [])
    end in
  match a with
  | a_done ret => (ret, cs ++ cs' ++ free_services 0 (a_services st))
  | a_return ret => (ret, cs ++ cs')
  | a_command => (0, cs ++ cs')
  end.
End Main.
