(* ===== verification/LinuxPort.v ===== *)
(** * The porting layer on Linux (src/examples/linux/main.c)

    The functions that mdns_port.h asks of a platform, as the Linux program
    supplies them, with the system calls they make and what these returned; and
    the callback that writes what the querier finds to a file. *)
From S2P Require Import Prelude.
From S2P Require Import Buffer.
From S2P Require Import Cstring.
From S2P Require Import Message.
From S2P Require Import Querier.
From Stdlib Require String.
Import (notations) String.

(** ** Clock and random numbers *)

(** [t.tv_sec * 1000 + t.tv_usec/1000] as a [uint32_t] *)
Definition linux_time_ms (tv_sec tv_usec : Z) : Z := u32 (tv_sec * 1000 + tv_usec / 1000).

Definition RAND_MAX : Z := 2147483647.

(** [r] is what [rand] returned; a division by 0 traps. *)
Definition linux_rand_range (r n : Z) : res Z :=
  if n =? 0 then Fault else Ok (Z.quot r (Z.quot RAND_MAX n + 1)).

(** ** Sockets *)

Inductive lcall :=
  | l_socket (s : Z)
  | l_reuseport (s : Z)
  | l_reuseaddr (s : Z)
  | l_bind (s addr port : Z)
  | l_membership (s group : Z)
  | l_mcast_ttl (s ttl : Z)
  | l_close (s : Z).

(** The results of the calls. *)
Record socket_env := mkSocketEnv {
  r_socket : Z; r_reuseport : Z; r_bind : Z; r_membership : Z; r_ttl : Z }.

Definition INADDR_ANY : Z := 0.
(** [inet_addr("127.0.0.1")] on a little-endian host *)
Definition LOOPBACK : Z := 0x0100007F.

(** SO_REUSEPORT is defined. *)
Definition linux_socket_mcast (e : socket_env) (mcast_addr port : Z) : Z * list lcall :=
  let sock := r_socket e in
  if sock <? 0 then (sock, [l_socket sock])
  else
    let cs := [l_socket sock; l_reuseport sock] in
    if r_reuseport e <? 0 then (-1, cs)
    else
      let cs := cs ++ [l_reuseaddr sock; l_bind sock INADDR_ANY port] in
      if negb (r_bind e =? 0) then (-1, cs ++ [l_close sock])
      else
        let cs := cs ++ [l_membership sock mcast_addr] in
        if r_membership e <? 0 then (-1, cs)
        else
          let cs := cs ++ [l_mcast_ttl sock 255] in
          if r_ttl e <? 0 then (-1, cs) else (sock, cs).

Definition linux_socket_loopback (e : socket_env) (port listen : Z) : Z * list lcall :=
  let s := r_socket e in
  if s <? 0 then (-1, [l_socket s])
  else if negb (listen =? 0) then
    let cs := [l_socket s; l_reuseaddr s; l_bind s LOOPBACK port] in
    if r_bind e <? 0 then (-1, cs) else (s, cs)
  else (s, [l_socket s]).

Definition linux_socket_close (s : Z) : list lcall := [l_close s].

(** The descriptors that are open after the calls. *)
Definition open_after (cs : list lcall) : list Z :=
  foldl (fun open c => match c with
                       | l_socket s => if s <? 0 then open else s :: open
                       | l_close s => filter (.≠ s) open
                       | _ => open
                       end) [] cs.

(** ** Threads are processes *)

Definition MDNS_PIDFILE : list Z := str "/var/run/mdns.pid".

(** [snprintf(buf, n, "%s-%d", s, i)] *)
Definition snprintf_sd (n : nat) (s : list Z) (i : Z) : list Z := take (n - 1) (s ++ 45 :: fmt_d i).

Inductive tcall :=
  | t_open (file : list Z) (fd : Z)
  | t_test (ret : Z)
  | t_fork (ret : Z)
  | t_setsid
  | t_stdout (file : list Z)
  | t_lock (ret : Z)
  | t_write (text : list Z) (ret : Z)
  | t_signals
  | t_srand
  | t_entry.

Record thread_env := mkThreadEnv {
  te_open : Z; te_test : Z; te_fork : Z; te_lock : Z; te_pid : Z; te_write : Z }.

(** The result (a pointer, 0 for NULL), the static counter and the calls.
    [logfile] is [None] for NULL, which [%s] shows as [null]. *)
Definition linux_thread_create (null : list Z) (e : thread_env) (logfile : option (list Z)) (instance : Z)
    : Z * Z * list tcall :=
  let instance := instance + 1 in
  let mypidfile := snprintf_sd 25 MDNS_PIDFILE instance in
  let mylogfile := snprintf_sd 50 (default null logfile) instance in
  let cs := [t_open mypidfile (te_open e)] in
  if te_open e <? 0 then (0, instance, cs)
  else
    let cs := cs ++ [t_test (te_test e)] in
    if negb (te_test e =? 0) then (0, instance, cs)
    else
      let cs := cs ++ [t_fork (te_fork e)] in
      if te_fork e <? 0 then (0, instance, cs)
      else if 0 <? te_fork e then (1, instance, cs)
      else
        let cs := cs ++ [t_setsid;
                         t_stdout (match logfile with Some _ => mylogfile | None => str "/dev/null" end);
                         t_lock (te_lock e)] in
        if te_lock e <? 0 then (0, instance, cs)
        else
          let cs := cs ++ [t_write (fmt_d (te_pid e) ++ [10]) (te_write e)] in
          if te_write e <? 0 then (0, instance, cs)
          else (0, instance, cs ++ [t_signals; t_srand; t_entry]).

(** ** The callback of the monitor command *)

(** What [linux_query_cb] reads of a service. *)
Record found := mkFound {
  f_servname : list Z; f_servtype : list Z; f_proto : Z; f_domain : list Z;
  f_ipaddr : Z; f_port : Z; f_keyvals : option (list Z) }.

Definition status_text (status : Z) : option (list Z) :=
  if status =? MDNS_DISCOVERED then Some (str "DISCOVERED: ")
  else if status =? MDNS_CACHE_FULL then Some (str "NOT_CACHED: ")
  else if status =? MDNS_DISAPPEARED then Some (str "DISAPPEARED: ")
  else if status =? MDNS_UPDATED then Some (str "UPDATED: ")
  else None.

Definition dotted (ip : Z) : list Z :=
  fmt_d (Z.land (Z.shiftr ip 24) 0xff) ++ str "." ++ fmt_d (Z.land (Z.shiftr ip 16) 0xff) ++ str "." ++
  fmt_d (Z.land (Z.shiftr ip 8) 0xff) ++ str "." ++ fmt_d (Z.land ip 0xff).

(** The return value, and what is appended to /tmp/mdns.results; [opened] says
    whether [fopen] succeeded. *)
Definition linux_query_cb (opened : bool) (s : found) (status : Z) : Z * list Z :=
  if negb opened then (0, [])
  else
    match status_text status with
    | None => (0, str "Warning: unknown status " ++ fmt_d status ++ [10])
    | Some text =>
        (0, text ++ f_servname s ++ str "._" ++ f_servtype s ++ str "._" ++
            str (if f_proto s =? MDNS_PROTO_UDP then "udp" else "tcp") ++ str "." ++ f_domain s ++
            str ". at " ++ dotted (f_ipaddr s) ++ str ":" ++ fmt_d (htons (f_port s)) ++
            str " (" ++ match f_keyvals s with Some kv => kv | None => str "no key vals" end ++ str ")" ++ [10])
    end.
