(* ===== verification/LinuxTheorems.v ===== *)
(** * The Linux program: the claims

    The syntax of the [-s] option, what reaches the library from the command line,
    the memory of [main], and the porting layer against mdns_port.h. *)
From S2P Require Import Prelude.
From S2P Require Import Buffer.
From S2P Require Import Cstring.
From S2P Require Import Message.
From S2P Require Import LinuxMain.
From S2P Require Import LinuxPort.
From Stdlib Require String.
Import (notations) String.

(** ** The syntax of a service *)

(** A field of the argument: not empty, and without colons. *)
Definition field (l : list Z) : Prop := l <> [] /\ CH_COL ∉ l.
#[global] Instance field_dec l : Decision (field l).
Proof. unfold field. apply _. Defined.

(** name:type:port:proto[:keyvals] *)
Definition service_text (name type num proto : list Z) (kv : option (list Z)) : list Z :=
  name ++ CH_COL :: type ++ CH_COL :: num ++ CH_COL :: unsplit CH_COL proto kv.

Definition proto_text (p : Z) : list Z := if p =? MDNS_PROTO_TCP then str "tcp" else str "udp".

(** The number a port field stands for. *)
Definition port_number (bits : Z) (num : list Z) : Z := s32 (strtol bits num).1.

Lemma parse_port_spec bits errno num :
  32 <= bits ->
  parse_port bits errno num =
    if bool_decide (0 <= port_number bits num <= UINT16_MAX) then Some (port_number bits num) else None.
Proof.
  intros Hb. unfold parse_port, port_number. destruct (strtol bits num) as [v e]. cbn [fst].
  assert (Hp : 2 ^ 31 <= 2 ^ (bits - 1)) by (apply Z.pow_le_mono_r; lia). change (2 ^ 31) with 2147483648 in Hp.
  unfold UINT16_MAX. case_bool_decide as Hv.
  - rewrite (proj2 (Z.eqb_neq _ _)), (proj2 (Z.eqb_neq _ (- _))), (proj2 (Z.ltb_ge _ _)), (proj2 (Z.ltb_ge _ 0)) by lia.
    by rewrite andb_false_r.
  - destruct (Z.ltb_spec 65535 (s32 v)), (Z.ltb_spec (s32 v) 0); rewrite ?orb_true_r; done || lia.
Qed.

Lemma strsep_field s t r : field t -> s = unsplit CH_COL t r -> strsep (Some s) CH_COL = (Some t, r).
Proof. intros [_ Ht] E. unfold strsep. by rewrite (proj2 (split_at_spec CH_COL s t r)). Qed.

Lemma no_token_field t : field t -> no_token (Some t) = false.
Proof. intros [Ht _]. by destruct t. Qed.

Lemma proto_text_field p : field (proto_text p).
Proof. unfold proto_text. destruct (p =? MDNS_PROTO_TCP); by_eval. Qed.

Lemma proto_of_text p :
  p = MDNS_PROTO_TCP \/ p = MDNS_PROTO_UDP ->
  (if bool_decide (proto_text p = str "tcp") then Some MDNS_PROTO_TCP
   else if bool_decide (proto_text p = str "udp") then Some MDNS_PROTO_UDP else None) = Some p.
Proof. by intros [-> | ->]. Qed.

(** Reading what [service_text] wrote. *)
Lemma parse_service_text bits errno ok name type num p kv :
  32 <= bits -> field name -> field type -> field num -> 0 <= port_number bits num <= UINT16_MAX ->
  p = MDNS_PROTO_TCP \/ p = MDNS_PROTO_UDP -> (kv <> None -> ok = true) ->
  parse_service bits errno ok (service_text name type num (proto_text p) kv) zero_service =
    (0, mkL (Some name) (Some type) (port_number bits num) p kv).
Proof.
  intros Hb Hn Ht Hm Hv Hp Hok. unfold parse_service, service_text.
  rewrite (strsep_field _ name (Some (type ++ CH_COL :: num ++ CH_COL :: unsplit CH_COL (proto_text p) kv))) by done.
  rewrite (no_token_field name Hn).
  rewrite (strsep_field _ type (Some (num ++ CH_COL :: unsplit CH_COL (proto_text p) kv))) by done.
  rewrite (no_token_field type Ht). rewrite (strsep_field _ num (Some (unsplit CH_COL (proto_text p) kv))) by done.
  rewrite (no_token_field num Hm). cbn [tok]. rewrite parse_port_spec, bool_decide_true by done.
  rewrite (strsep_field _ (proto_text p) kv) by (done || apply proto_text_field).
  rewrite (no_token_field _ (proto_text_field p)). cbn [l_servname l_servtype l_port l_proto l_keyvals tok].
  rewrite u16_id by (unfold UINT16_MAX in *; lia).
  rewrite (proto_of_text p Hp). cbn [l_keyvals]. destruct kv as [kv|]; [|done]. by rewrite Hok.
Qed.

(** Inversion of one step of the parser. *)
Lemma strsep_token p t r :
  strsep p CH_COL = (t, r) -> no_token t = false ->
  exists s l, p = Some s /\ t = Some l /\ field l /\ s = unsplit CH_COL l r.
Proof.
  unfold strsep. intros H Ht. destruct p as [s|]; [|by injection H as <- _].
  destruct (split_at CH_COL s) as [l r'] eqn:Es. injection H as <- <-.
  apply split_at_spec in Es as [-> Hc]. exists (unsplit CH_COL l r'), l. split_and!; try done.
  split; [|done]. intros ->. done.
Qed.

(** What it accepts, and nothing else. *)
Lemma parse_service_inv bits errno ok arg s :
  32 <= bits -> parse_service bits errno ok arg zero_service = (0, s) ->
  exists name type num p kv, arg = service_text name type num (proto_text p) kv /\
    field name /\ field type /\ field num /\ 0 <= port_number bits num <= UINT16_MAX /\
    (p = MDNS_PROTO_TCP \/ p = MDNS_PROTO_UDP) /\ (kv <> None -> ok = true) /\
    s = mkL (Some name) (Some type) (port_number bits num) p kv.
Proof.
  intros Hb. unfold parse_service.
  destruct (strsep (Some arg) CH_COL) as [t1 p1] eqn:E1. destruct (no_token t1) eqn:N1; [done|].
  destruct (strsep_token _ _ _ E1 N1) as (s1 & name & [= <-] & -> & F1 & ->).
  destruct (strsep p1 CH_COL) as [t2 p2] eqn:E2. destruct (no_token t2) eqn:N2; [done|].
  destruct (strsep_token _ _ _ E2 N2) as (s2 & type & -> & -> & F2 & ->).
  destruct (strsep p2 CH_COL) as [t3 p3] eqn:E3. destruct (no_token t3) eqn:N3; [done|].
  destruct (strsep_token _ _ _ E3 N3) as (s3 & num & -> & -> & F3 & ->).
  cbn [tok]. rewrite parse_port_spec by done. case_bool_decide as Hv; [|done].
  destruct (strsep p3 CH_COL) as [t4 kv] eqn:E4. destruct (no_token t4) eqn:N4; [done|].
  destruct (strsep_token _ _ _ E4 N4) as (s4 & proto & -> & -> & F4 & ->).
  cbn [tok l_servname l_servtype l_port l_proto l_keyvals]. rewrite u16_id by (unfold UINT16_MAX in *; lia).
  destruct (if bool_decide (proto = str "tcp") then Some MDNS_PROTO_TCP else _) as [p|] eqn:Ep; [|done].
  assert (Hp : proto = proto_text p /\ (p = MDNS_PROTO_TCP \/ p = MDNS_PROTO_UDP)).
  { repeat case_bool_decide; simplify_eq; auto. }
  destruct Hp as [-> Hp]. intros H. exists name, type, num, p, kv.
  destruct kv as [kv|]; [destruct ok; [|done]|]; cbn in H; injection H as <-; do 7 (split; [done|]); done.
Qed.

(** C32: the argument of [-s].  [parse_service] accepts exactly the texts
    name:type:port:proto[:keyvals] whose first three fields are not empty, whose
    port field [strtol] reads as a 16-bit number (as an [int], whatever errno
    held), and whose protocol is tcp or udp, and yields these fields, with
    everything after the fourth colon as the key/value text; its errors are -1 to
    -7. *)
Theorem parse_service_correct bits errno ok arg s :
  32 <= bits ->
  -7 <= (parse_service bits errno ok arg zero_service).1 <= 0 /\
  (parse_service bits errno ok arg zero_service = (0, s) <->
   exists name type num p kv, arg = service_text name type num (proto_text p) kv /\
     field name /\ field type /\ field num /\ 0 <= port_number bits num <= UINT16_MAX /\
     (p = MDNS_PROTO_TCP \/ p = MDNS_PROTO_UDP) /\ (kv <> None -> ok = true) /\
     s = mkL (Some name) (Some type) (port_number bits num) p kv).
Proof.
  intros Hb. split.
  - unfold parse_service. repeat (case_match; try (cbn [fst]; lia)).
  - split; [by apply parse_service_inv|].
    intros (name & type & num & p & kv & -> & Hn & Ht & Hm & Hv & Hp & Hk & ->). by apply parse_service_text.
Qed.

Lemma parse_service_correct_witness :
  parse_service 64 false true (str "Web:http:80:tcp:path=/a:u=b") zero_service =
    (0, mkL (Some (str "Web")) (Some (str "http")) 80 MDNS_PROTO_TCP (Some (str "path=/a:u=b"))).
Proof.
  apply (parse_service_correct 64 false true (str "Web:http:80:tcp:path=/a:u=b")
    (mkL (Some (str "Web")) (Some (str "http")) 80 MDNS_PROTO_TCP (Some (str "path=/a:u=b")))); [lia|].
  exists (str "Web"), (str "http"), (str "80"), MDNS_PROTO_TCP, (Some (str "path=/a:u=b")).
  split; [reflexivity|]. split; [by_eval|]. split; [by_eval|]. split; [by_eval|]. split; [vm_compute; split; congruence|].
  split; [by left|]. split; [done|reflexivity].
Defined.

(** What [parse_service] takes for a port: on a 64-bit host a number beyond 32
    bits is cut (4294967376 is port 80), so is the smallest [long] (port 0), and
    a text without digits is port 0; only values that stay out of range as an
    [int] are refused. *)
Theorem parse_service_port_wraps errno :
  parse_service 64 errno true (str "a:b:4294967376:tcp") zero_service =
    (0, mkL (Some (str "a")) (Some (str "b")) 80 MDNS_PROTO_TCP None) /\
  parse_service 64 errno true (str "a:b:-9223372036854775809:tcp") zero_service =
    (0, mkL (Some (str "a")) (Some (str "b")) 0 MDNS_PROTO_TCP None) /\
  parse_service 64 errno true (str "a:b:http:tcp") zero_service =
    (0, mkL (Some (str "a")) (Some (str "b")) 0 MDNS_PROTO_TCP None) /\
  (parse_service 64 errno true (str "a:b:65536:tcp") zero_service).1 = -4 /\
  (parse_service 32 errno true (str "a:b:4294967376:tcp") zero_service).1 = -4.
Proof. destruct errno; vm_compute; split_and!; reflexivity. Qed.

(** ** The options *)

(** A service that is complete. *)
Definition typed_service (s : lservice) : Prop :=
  (exists n, l_servname s = Some n /\ field n) /\ (exists t, l_servtype s = Some t /\ field t) /\
  0 <= l_port s <= UINT16_MAX /\ (l_proto s = MDNS_PROTO_TCP \/ l_proto s = MDNS_PROTO_UDP).

(** The allocations of the services from [i] on, as [add_service] makes them. *)
Fixpoint alloc_services (i : Z) (ss : list lservice) : list mcall :=
  match ss with
  | [] => []
  | s :: ss =>
      m_malloc (B_service i) ::
      (match l_keyvals s with None => [] | Some _ => [m_malloc (B_keyvals i)] end) ++ alloc_services (i + 1) ss
  end.

Lemma alloc_services_app i ss ss' :
  alloc_services i (ss ++ ss') = alloc_services i ss ++ alloc_services (i + Zlen ss) ss'.
Proof.
  revert i. induction ss as [|s ss IH]; intros i; cbn [app alloc_services].
  - by rewrite Z.add_0_r.
  - rewrite IH, Zlen_cons, <- app_assoc. do 4 f_equal. lia.
Qed.

Section Options.
Context (bits : Z) (errno : bool) (mok : block -> bool) (Hb : 32 <= bits).

(** One option adds at most one service, with its blocks; a complete one unless
    it is the last thing that happens. *)
Lemma one_option_services o st a st' cs :
  one_option bits errno mok o st = (a, st', cs) ->
  Zlen (a_services st) <= MAX_SERVICES ->
  exists new, a_services st' = a_services st ++ new /\ cs = alloc_services (Zlen (a_services st)) new /\
    Zlen (a_services st') <= MAX_SERVICES /\ (a = a_command -> Forall typed_service new).
Proof.
  intros H Hl. assert (Hsame : a_services st' = a_services st -> cs = [] -> exists new,
    a_services st' = a_services st ++ new /\ cs = alloc_services (Zlen (a_services st)) new /\
    Zlen (a_services st') <= MAX_SERVICES /\ (a = a_command -> Forall typed_service new)).
  { intros E ->. exists []. rewrite app_nil_r, E. done. }
  destruct o; cbn [one_option] in H; try (injection H as <- <- <-; by apply Hsame).
  unfold add_service in H. destruct (Z.eqb_spec (Zlen (a_services st)) MAX_SERVICES) as [|Hne];
    [injection H as <- <- <-; by apply Hsame|].
  destruct (mok (B_service _)); cbn [negb] in H; [|injection H as <- <- <-; by apply Hsame].
  destruct (parse_service _ _ _ _ _) as [ret s] eqn:Es. injection H as <- <- <-. exists [s]. cbn [a_services].
  split; [done|]. split; [cbn [alloc_services]; by rewrite app_nil_r|]. split.
  { rewrite Zlen_app. change (Zlen [s]) with 1. lia. }
  destruct (Z.eqb_spec ret 0) as [->|]; [|done]. intros _. constructor; [|done].
  apply parse_service_inv in Es as (n & t & num & p & kv & _ & Hn & Ht & _ & Hv & Hp & _ & ->); [|done].
  split; [by exists n|]. split; [by exists t|]. done.
Qed.

Lemma options_services os st a st' cs :
  options bits errno mok os st = (a, st', cs) -> Zlen (a_services st) <= MAX_SERVICES ->
  exists new, a_services st' = a_services st ++ new /\ cs = alloc_services (Zlen (a_services st)) new /\
    Zlen (a_services st') <= MAX_SERVICES /\ (a = a_command -> Forall typed_service new).
Proof.
  revert st a st' cs. induction os as [|o os IH]; intros st a st' cs H Hl; cbn [options] in H.
  { injection H as <- <- <-. exists []. rewrite app_nil_r. done. }
  destruct (one_option bits errno mok o st) as [[a1 st1] cs1] eqn:E1.
  destruct (one_option_services _ _ _ _ _ E1 Hl) as (new & Es & Ec & Hl1 & Ht).
  destruct a1; try (injection H as <- <- <-; exists new; split_and!; try done; exact Ht).
  destruct (options bits errno mok os st1) as [[a2 st2] cs2] eqn:E2. injection H as <- <- <-.
  destruct (IH _ _ _ _ E2 Hl1) as (new2 & Es2 & Ec2 & Hl2 & Ht2). exists (new ++ new2).
  split; [by rewrite Es2, Es, app_assoc|]. split.
  { rewrite alloc_services_app, Ec, Ec2, Es, Zlen_app. done. }
  split; [done|]. intros ->. apply Forall_app. split; [by apply Ht|by apply Ht2].
Qed.
End Options.

(** [main] in terms of its parts: the allocations, what the command does, and the
    release when it goes through [done]. *)
Definition reaches_done (bits : Z) (errno : bool) (mok : block -> bool) (os : list opt) (args : list (list Z)) : bool :=
  match (options bits errno mok os (mkMain 0 None None None [])).1.1 with
  | a_done _ => true
  | a_return _ => false
  | a_command => bool_decide (head args = Some (str "launch"))
  end.

(** Calls that touch no memory. *)
Definition is_command (c : mcall) : Prop := match c with m_malloc _ | m_free _ => False | _ => True end.

Lemma command_calls args lr mr st a cs :
  command args lr mr st = (a, cs) -> Forall is_command cs /\ (forall ret, a = a_done ret -> head args = Some (str "launch")) /\
    (forall ret, a = a_return ret -> head args <> Some (str "launch")) /\ a <> a_command /\
    (forall ip d h ss, m_launch ip d h ss ∈ cs -> ss = a_services st /\ a = a_done lr).
Proof.
  unfold command. intros H. destruct args as [|cmd rest].
  { injection H as <- <-. split_and!; try done. intros ? ? ? ? Hin. by apply elem_of_nil in Hin. }
  repeat case_bool_decide; subst; try destruct rest; simplify_eq.
  all: split; [by repeat constructor|]; split; [done|]; split; [by intros ? ?; simplify_eq/=; congruence|]; split; [done|].
  all: intros ? ? ? ? Hin; repeat (apply elem_of_cons in Hin as [?|Hin]; [by simplify_eq|]); by apply elem_of_nil in Hin.
Qed.

Lemma linux_main_parts bits errno mok os args lr mr :
  32 <= bits -> exists ss mid, Zlen ss <= MAX_SERVICES /\ Forall is_command mid /\
    (linux_main bits errno mok os args lr mr).2 = alloc_services 0 ss ++ mid ++
      (if reaches_done bits errno mok os args then free_services 0 ss else []) /\
    (forall ip d h ss', m_launch ip d h ss' ∈ mid ->
       ss' = ss /\ Forall typed_service ss /\ reaches_done bits errno mok os args = true).
Proof.
  intros Hb. unfold linux_main, reaches_done.
  destruct (options bits errno mok os (mkMain 0 None None None [])) as [[a st] cs] eqn:E.
  destruct (options_services _ _ _ Hb _ _ _ _ _ E) as (new & Es & Ec & Hl & Ht); [done|].
  cbn [a_services app] in Es, Ec. change (Zlen []) with 0 in Ec. cbn [fst]. rewrite Es in *. exists new. destruct a.
  - exists []. rewrite Ec. split; [done|]. split; [constructor|]. split; [done|].
    intros ? ? ? ? Hin. by apply elem_of_nil in Hin.
  - exists []. rewrite Ec. split; [done|]. split; [constructor|]. split; [cbn [snd]; by rewrite !app_nil_r|].
    intros ? ? ? ? Hin. by apply elem_of_nil in Hin.
  - destruct (command args lr mr st) as [a' cs'] eqn:E'. exists cs'. split; [done|].
    apply command_calls in E' as (Hc & Hd & Hr & Ha & Hlaunch). split; [done|]. rewrite Ec. split.
    + destruct a'; [|by rewrite bool_decide_false, app_nil_r by eauto|done]. rewrite bool_decide_true by eauto. done.
    + intros ip d h ss' Hin. destruct (Hlaunch _ _ _ _ Hin) as [-> Ea]. rewrite Es. split; [done|].
      split; [by apply Ht|]. apply bool_decide_eq_true. eauto.
Qed.

(** C35: what the command line hands to the library is well typed: whenever [main]
    calls [mdns_launch], it passes at most sixteen services, each with a name and a
    type that are not empty and have no colon, a 16-bit port and the protocol TCP
    or UDP. *)
Theorem linux_launch_typed bits errno mok os args lr mr ip d h ss :
  32 <= bits -> m_launch ip d h ss ∈ (linux_main bits errno mok os args lr mr).2 ->
  Zlen ss <= MAX_SERVICES /\ Forall typed_service ss.
Proof.
  intros Hb Hin. destruct (linux_main_parts bits errno mok os args lr mr Hb) as (ss' & mid & Hl & _ & E & Hm).
  rewrite E, !elem_of_app in Hin.
  assert (Ha : forall i ss0, m_launch ip d h ss ∉ alloc_services i ss0).
  { intros i ss0. revert i. induction ss0 as [|s ss0 IH]; intros i; cbn [alloc_services]; [apply not_elem_of_nil|].
    destruct (l_keyvals s); cbn [app]; rewrite ?not_elem_of_cons; split_and!; done || apply IH. }
  assert (Hf : forall i ss0, m_launch ip d h ss ∉ free_services i ss0).
  { intros i ss0. revert i. induction ss0 as [|s ss0 IH]; intros i; cbn [free_services]; [apply not_elem_of_nil|].
    destruct (l_keyvals s); cbn [app]; rewrite ?not_elem_of_cons; split_and!; done || apply IH. }
  destruct Hin as [Hin|[Hin|Hin]].
  - by apply Ha in Hin.
  - by destruct (Hm _ _ _ _ Hin) as (-> & Ht & _).
  - destruct (reaches_done _ _ _ _ _); [by apply Hf in Hin|by apply elem_of_nil in Hin].
Qed.

Definition demo_options : list opt :=
  [opt_n (str "node"); opt_s (str "Web:http:80:tcp:path=/a"); opt_s (str "Log:syslog:514:udp")].
Definition demo_services : list lservice :=
  [mkL (Some (str "Web")) (Some (str "http")) 80 MDNS_PROTO_TCP (Some (str "path=/a"));
   mkL (Some (str "Log")) (Some (str "syslog")) 514 MDNS_PROTO_UDP None].

Lemma linux_launch_typed_witness : Zlen demo_services <= MAX_SERVICES /\ Forall typed_service demo_services.
Proof.
  apply (linux_launch_typed 64 false (fun _ => true) demo_options [str "launch"] 0 0 0 None (Some (str "node")) demo_services).
  - lia.
  - vm_compute. right. right. right. left.
Defined.

(** ** Memory *)

(** How often a block was allocated, less how often it was freed. *)
Definition block_event (b : block) (c : mcall) : Z :=
  match c with
  | m_malloc b' => if bool_decide (b = b') then 1 else 0
  | m_free b' => if bool_decide (b = b') then -1 else 0
  | _ => 0
  end.
Fixpoint blocks_held (b : block) (cs : list mcall) : Z :=
  match cs with [] => 0 | c :: cs' => block_event b c + blocks_held b cs' end.

Lemma blocks_held_app b cs ds : blocks_held b (cs ++ ds) = blocks_held b cs + blocks_held b ds.
Proof. induction cs as [|c cs IH]; [done|]. cbn [app blocks_held]. lia. Qed.

Lemma blocks_held_commands b cs : Forall is_command cs -> blocks_held b cs = 0.
Proof. induction 1 as [|c cs Hc _ IH]; [done|]. cbn [blocks_held]. rewrite IH. by destruct c. Qed.

Lemma blocks_freed b i ss : blocks_held b (free_services i ss) = - blocks_held b (alloc_services i ss).
Proof.
  revert i. induction ss as [|s ss IH]; intros i; [done|]. cbn [free_services alloc_services blocks_held].
  rewrite !blocks_held_app. cbn [blocks_held block_event]. rewrite IH.
  destruct (l_keyvals s); cbn [blocks_held block_event]; repeat case_bool_decide; lia.
Qed.

(** Below [i] there is nothing; no block is allocated twice. *)
Lemma blocks_alloc b i ss :
  0 <= blocks_held b (alloc_services i ss) <= 1 /\
  (match b with B_service j | B_keyvals j => j < i end -> blocks_held b (alloc_services i ss) = 0).
Proof.
  revert i. induction ss as [|s ss IH]; intros i; [done|]. cbn [alloc_services blocks_held block_event].
  rewrite blocks_held_app. destruct (IH (i + 1)) as [H1 H2].
  assert (Hk : blocks_held b (match l_keyvals s with None => [] | Some _ => [m_malloc (B_keyvals i)] end) =
    if l_keyvals s then if bool_decide (b = B_keyvals i) then 1 else 0 else 0).
  { destruct (l_keyvals s); cbn [blocks_held block_event]; [lia|done]. }
  rewrite Hk. clear Hk. destruct b as [j|j]; (split; [|intros Hj]).
  all: repeat case_bool_decide; simplify_eq; destruct (l_keyvals s); try lia.
  all: rewrite H2 by lia; lia.
Qed.

(** The memory of [main].  Every block is allocated at most once and never
    freed more often than that; whenever [main] ends through its label [done]
    (after a launch, or when an option is refused or memory runs out) every
    block was freed exactly once, also the descriptor that was being filled. *)
Theorem linux_main_memory bits errno mok os args lr mr b :
  32 <= bits ->
  0 <= blocks_held b (linux_main bits errno mok os args lr mr).2 <= 1 /\
  (reaches_done bits errno mok os args = true -> blocks_held b (linux_main bits errno mok os args lr mr).2 = 0).
Proof.
  intros Hb. destruct (linux_main_parts bits errno mok os args lr mr Hb) as (ss & mid & _ & Hc & -> & _).
  rewrite !blocks_held_app, (blocks_held_commands _ _ Hc). destruct (blocks_alloc b 0 ss) as [Ha _].
  destruct (reaches_done _ _ _ _ _).
  - rewrite blocks_freed. lia.
  - split; [|done]. cbn [blocks_held]. lia.
Qed.

(** A service with key/value text, then one without a port. *)
Lemma linux_main_memory_witness :
  blocks_held (B_keyvals 0) (linux_main 64 false (fun _ => true)
    [opt_s (str "Web:http:80:tcp:path=/a"); opt_s (str "Log:syslog")] [str "launch"] 0 0).2 = 0.
Proof.
  apply (linux_main_memory 64 false (fun _ => true)
    [opt_s (str "Web:http:80:tcp:path=/a"); opt_s (str "Log:syslog")] [str "launch"] 0 0 (B_keyvals 0)).
  - lia.
  - reflexivity.
Defined.

(** ** The porting layer *)

(** [mdns_rand_range] on Linux: for every value of [rand] the result is below
    [n], every number below [n] occurs (for [n * n <= RAND_MAX]; the library asks
    for at most 250), and only [n = 0] traps. *)
Theorem linux_rand_range_correct n :
  (forall r, linux_rand_range r 0 = Fault) /\
  (0 < n <= RAND_MAX -> forall r, 0 <= r <= RAND_MAX -> exists v, linux_rand_range r n = Ok v /\ 0 <= v < n) /\
  (0 < n -> n * n <= RAND_MAX -> forall v, 0 <= v < n -> exists r, 0 <= r <= RAND_MAX /\ linux_rand_range r n = Ok v).
Proof.
  split; [done|]. unfold linux_rand_range, RAND_MAX. split.
  - intros Hn r Hr. rewrite (proj2 (Z.eqb_neq n 0)) by lia. eexists. split; [done|].
    rewrite (Z.quot_div_nonneg 2147483647 n) by lia.
    pose proof (Z.div_mod 2147483647 n) as E. pose proof (Z.mod_pos_bound 2147483647 n) as B.
    set (q := 2147483647 / n) in *. assert (0 <= q) by (apply Z.div_pos; lia).
    rewrite Z.quot_div_nonneg by lia. split; [apply Z.div_pos; lia|]. apply Z.div_lt_upper_bound; nia.
  - intros Hn Hs v Hv. rewrite (proj2 (Z.eqb_neq n 0)) by lia. rewrite (Z.quot_div_nonneg 2147483647 n) by lia.
    pose proof (Z.div_mod 2147483647 n) as E. pose proof (Z.mod_pos_bound 2147483647 n) as B.
    assert (Hq : n <= 2147483647 / n) by (apply Z.div_le_lower_bound; lia).
    set (q := 2147483647 / n) in *. exists (v * (q + 1)). split; [nia|]. by rewrite Z.quot_mul by lia.
Qed.

(** The multicast socket on Linux.  A descriptor is returned exactly when every
    call succeeds, and it is then the one open descriptor; of the four calls that
    can fail after [socket], only a failed [bind] closes the socket again, the
    three others leave it open and return -1. *)
Theorem linux_socket_mcast_correct e addr port :
  let '(ret, cs) := linux_socket_mcast e addr port in
  let ok := (0 <=? r_socket e) && (0 <=? r_reuseport e) && (r_bind e =? 0) && (0 <=? r_membership e) && (0 <=? r_ttl e) in
  (0 <= ret <-> ok = true) /\
  open_after cs =
    (if ok then [ret]
     else if r_socket e <? 0 then []
     else if r_reuseport e <? 0 then [r_socket e]
     else if negb (r_bind e =? 0) then []
     else [r_socket e]).
Proof.
  unfold linux_socket_mcast.
  assert (Hf : forall s : Z, filter (.≠ s) [s] = []) by (intros s; rewrite filter_cons_False; [done|by intros H; apply H]).
  destruct (Z.ltb_spec (r_socket e) 0) as [H|H]; [rewrite (proj2 (Z.leb_gt _ _)) by lia|rewrite (proj2 (Z.leb_le _ _)) by lia].
  { cbn. rewrite (proj2 (Z.ltb_lt _ _) H). split; [lia|done]. }
  destruct (Z.ltb_spec (r_reuseport e) 0) as [H1|H1]; [rewrite (proj2 (Z.leb_gt _ _)) by lia|rewrite (proj2 (Z.leb_le _ _)) by lia].
  { cbn. rewrite (proj2 (Z.ltb_ge _ _) H). split; [lia|done]. }
  destruct (Z.eqb_spec (r_bind e) 0) as [H2|H2]; cbn [negb andb].
  2: { cbn. rewrite (proj2 (Z.ltb_ge _ _) H). split; [lia|apply Hf]. }
  destruct (Z.ltb_spec (r_membership e) 0) as [H3|H3]; [rewrite (proj2 (Z.leb_gt _ _)) by lia|rewrite (proj2 (Z.leb_le _ _)) by lia].
  { cbn. rewrite (proj2 (Z.ltb_ge _ _) H). split; [lia|done]. }
  destruct (Z.ltb_spec (r_ttl e) 0) as [H4|H4]; [rewrite (proj2 (Z.leb_gt _ _)) by lia|rewrite (proj2 (Z.leb_le _ _)) by lia].
  all: cbn; rewrite (proj2 (Z.ltb_ge _ _) H); split; [lia|done].
Qed.

(** A call that is not in a list of other calls. *)
Ltac not_called :=
  let Hin := fresh in
  intros Hin; repeat (apply elem_of_cons in Hin as [?|Hin]; [done|]); by apply elem_of_nil in Hin.

(** The thread: the parent of the fork gets a pointer, and no one else does; the
    child runs the thread before it returns NULL. *)
Theorem linux_thread_create_pointer null e logfile instance :
  let '(ret, instance', cs) := linux_thread_create null e logfile instance in
  instance' = instance + 1 /\
  (ret <> 0 <-> 0 <= te_open e /\ te_test e = 0 /\ 0 < te_fork e) /\
  (t_entry ∈ cs -> te_fork e = 0 /\ ret = 0).
Proof.
  unfold linux_thread_create.
  destruct (Z.ltb_spec (te_open e) 0); [split_and!; [done|lia|]|].
  { not_called. }
  destruct (Z.eqb_spec (te_test e) 0); cbn [negb]; [|split_and!; [done|lia|]].
  2: { not_called. }
  destruct (Z.ltb_spec (te_fork e) 0); [split_and!; [done|lia|]|].
  { not_called. }
  destruct (Z.ltb_spec 0 (te_fork e)); [split_and!; [done|lia|]|].
  { not_called. }
  destruct (te_lock e <? 0), (te_write e <? 0); (split; [lia|]); (split; [lia|]); intros _; lia.
Qed.

(** The line written for a service, which gives the port in host order. *)
Example query_cb_line :
  linux_query_cb true (mkFound (str "Web") (str "http") MDNS_PROTO_TCP (str "local") 0x0A000001 (htons 80) None) 1 =
    (0, str "DISCOVERED: Web._http._tcp.local. at 10.0.0.1:80 (no key vals)" ++ [10]).
Proof. vm_compute. reflexivity. Qed.
