(* ===== verification/LinuxLaunch.v ===== *)
(** * From the command line to the claimed host

    The command [mdns -b <ip> -n <host> -s <service> ... launch]: what
    [parse_service] makes of the arguments is what [responder_launch] needs, so
    that the theorems on the responder hold of the services typed by the user. *)
From S2P Require Import Prelude.
From S2P Require Import Platform.
From S2P Require Import Buffer.
From S2P Require Import Cstring.
From S2P Require Import Dname.
From S2P Require Import DnameSpec.
From S2P Require Import DnameText.
From S2P Require Import Message.
From S2P Require Import MessageSpec.
From S2P Require Import MessageParse.
From S2P Require Import Responder.
From S2P Require Import ResponderSpec.
From S2P Require Import ResponseSpec.
From S2P Require Import ResponderTheorems.
From S2P Require Import ResponderLaunch.
From S2P Require Import LinuxMain.
From S2P Require Import LinuxTheorems.
From Stdlib Require String.
Import (notations) String.

(** A service as the user means it. *)
Record uspec := mkU {
  u_name : list Z; u_type : list Z; u_port : Z; u_proto : Z; u_kv : option (list (list Z)) }.

(** Labels without dots and colons; key/value pieces without colons. *)
Definition valid_uspec (u : uspec) : Prop :=
  user_label (u_name u) /\ CH_COL ∉ u_name u /\
  (user_label (u_type u) /\ Zlen (u_type u) <= 62) /\ CH_COL ∉ u_type u /\
  word16 (u_port u) /\ (u_proto u = MDNS_PROTO_TCP \/ u_proto u = MDNS_PROTO_UDP) /\
  match u_kv u with
  | None => True
  | Some ps => ps <> [] /\ Forall (piece CH_COLON) ps /\ Forall no_nul ps /\ Zlen (join CH_COLON ps) <= 254
  end.

(** The text the user types for it, and the service [main] should hold. *)
Definition u_text (u : uspec) : list Z :=
  service_text (u_name u) (u_type u) (dec (u_port u)) (proto_text (u_proto u)) (join CH_COLON <$> u_kv u).
Definition u_service (u : uspec) : lservice :=
  mkL (Some (u_name u)) (Some (u_type u)) (u_port u) (u_proto u) (join CH_COLON <$> u_kv u).

Lemma dec_field n : 0 <= n -> field (dec n).
Proof.
  intros H. destruct (dec_spec n H) as (Hd & Hn & _). split; [done|].
  intros Hin. rewrite list_relations.list.Forall_forall in Hd. apply Hd in Hin. done.
Qed.

Lemma user_label_field l : user_label l -> CH_COL ∉ l -> field l.
Proof. intros [[Hl _] _] Hc. split; [|done]. intros ->. vm_compute in Hl. by destruct Hl. Qed.

(** The round trip of one argument. *)
Lemma u_text_parsed bits errno u :
  32 <= bits -> valid_uspec u -> parse_service bits errno true (u_text u) zero_service = (0, u_service u).
Proof.
  intros Hb (Hn & Hnc & (Ht & _) & Htc & Hp & Hpr & _). unfold u_text, u_service.
  assert (Ev : port_number bits (dec (u_port u)) = u_port u).
  { unfold port_number. unfold word16 in Hp. rewrite strtol_dec by lia. apply s32_id. lia. }
  rewrite parse_service_text; rewrite ?Ev; try done.
  - by apply user_label_field.
  - by apply user_label_field.
  - apply dec_field. apply Hp.
  - unfold word16, UINT16_MAX in *. lia.
Qed.

Lemma options_u bits errno us st :
  32 <= bits -> Forall valid_uspec us -> Zlen (a_services st) + Zlen us <= MAX_SERVICES ->
  options bits errno (fun _ => true) (map (fun u => opt_s (u_text u)) us) st =
    (a_command, mkMain (a_ip st) (a_domain st) (a_hostname st) (a_logfile st) (a_services st ++ map u_service us),
     alloc_services (Zlen (a_services st)) (map u_service us)).
Proof.
  intros Hb Hus. revert st. induction Hus as [|u us Hu _ IH]; intros st Hl.
  { cbn. rewrite app_nil_r. by destruct st. }
  rewrite Zlen_cons in Hl. pose proof (Zlen_nonneg us). cbn [map options one_option]. unfold add_service.
  rewrite (proj2 (Z.eqb_neq _ _)) by lia. cbn [negb]. rewrite u_text_parsed by done. cbn [Z.eqb negb].
  rewrite IH; cbn [a_services a_ip a_domain a_hostname a_logfile]; rewrite ?Zlen_app; change (Zlen [u_service u]) with 1; [|lia].
  rewrite <- app_assoc. cbn [alloc_services app]. by destruct (l_keyvals (u_service u)).
Qed.

(** What the library finds in memory is a service it can claim. *)
Lemma u_service_ok before u : valid_uspec u -> user_service (descriptor before (u_service u)) (u_kv u).
Proof.
  intros (Hn & _ & Ht & _ & Hp & Hpr & Hk). unfold descriptor, u_service.
  constructor; cbn [servname servtype proto port fqsn keyvals tok l_servname l_servtype l_port l_proto l_keyvals]; try done.
  destruct (u_kv u) as [ps|]; [|done]. destruct Hk as (H1 & H2 & H3 & H4). cbn [fmap option_fmap option_map].
  split; [done|]. split; [done|]. split; [done|]. split; [lia|]. split; [|done].
  exists before. split; [lia|]. split; [lia|]. cbn [Z.to_nat Z.sub Z.add Z.opp Z.pos_sub]. by rewrite drop_0, firstn_all.
Qed.

(** C12: from the command line to the network.  For up to sixteen services that the
    user may ask for, typed as name:type:port:proto[:keyvals], the command
    [launch] hands exactly these services to [mdns_launch], returns its result and
    frees its memory; and [responder_launch] on them, wherever [malloc] put the
    key/value texts, claims the host and the services as they were typed, or
    reports MDNS_TOOBIG if they do not fit in a packet. *)
Theorem linux_launch_claims bits errno us ip hostname lr mr before io h tx rx c :
  let ss := map (descriptor before) (map u_service us) in
  let kvs := map u_kv us in
  let ah := claimed_host hostname STR_LOCAL ip ss kvs in
  let fits := (probe_room ip None hostname ss kvs <=? 1472) && (response_room ip None hostname ss kvs <=? 1472) in
  32 <= bits -> Forall valid_uspec us -> Zlen us <= MAX_SERVICES -> user_label hostname ->
  Zlen (fqdn h) = 256 -> Zlen (in_addr_arpa h) = 30 ->
  0 <= mc_sock io /\ 0 <= ctrl_sock io /\ thread_ptr io <> 0 ->
  arrays_ok tx /\ Zlen (data tx) = 1472 /\ bytes (data tx) -> arrays_ok rx /\ Zlen (data rx) = 1472 /\ bytes (data rx) ->
  (length (probe_questions_of ah) <= 32)%nat -> (length (probe_authorities ah 255) <= 32)%nat ->
  linux_main bits errno (fun _ => true) (opt_b ip :: opt_n hostname :: map (fun u => opt_s (u_text u)) us) [str "launch"] lr mr =
    (lr, alloc_services 0 (map u_service us) ++ [m_launch ip None (Some hostname) (map u_service us)] ++
         free_services 0 (map u_service us)) /\
  exists h' tx' rx' c' cs,
    returns (fun fuel => responder_launch fuel io ip None hostname ss h tx rx c)
      (if fits then 0 else MDNS_TOOBIG, h', tx', rx', c', cs) /\
    (fits = true -> host_is h' ah).
Proof.
  intros ss kvs ah fits Hb Hus Hl Hn Hf Ha Hio Htx Hrx Lq Ln. split.
  - unfold linux_main. cbn [options one_option]. rewrite options_u by done. cbn [a_services app].
    reflexivity.
  - assert (Hs : Forall2 user_service ss kvs).
    { unfold ss, kvs. clear - Hus. induction Hus as [|u us Hu _ IH]; [constructor|].
      cbn [map]. constructor; [by apply u_service_ok|exact IH]. }
    destruct (responder_launch_spec io ip None hostname ss kvs h tx rx c) as (h' & tx' & rx' & c' & cs & HR & HH);
      [done|by split; by_eval|done..|].
    exists h', tx', rx', c', cs. split; [exact HR|]. unfold fits. intros E. rewrite E in HH. apply HH.
Qed.

(** The witness: [mdns -b 10.0.0.1 -n node -s web:http:80:tcp:a=b launch]. *)
Definition demo_uspec : uspec := mkU (str "web") (str "http") 80 MDNS_PROTO_TCP (Some [str "a=b"]).

Example demo_uspec_text : u_text demo_uspec = str "web:http:80:tcp:a=b".
Proof. vm_compute. reflexivity. Qed.

Lemma demo_uspec_valid : valid_uspec demo_uspec.
Proof.
  split; [split; by_eval|]. split; [by_eval|]. split; [split; [split; by_eval|by vm_compute]|].
  split; [by_eval|]. split; [by vm_compute|]. split; [by left|]. split_and!; try done; by_eval.
Qed.

Lemma linux_launch_claims_witness :
  exists h' tx' rx' c' cs,
    returns (fun fuel => responder_launch fuel (mkPorts 3 4 5 6) 0x0100000A None s_node
        [descriptor 0 (u_service demo_uspec)] unset_host blank_message blank_message zero_statics)
      (0, h', tx', rx', c', cs) /\ host_is h' demo_ahost.
Proof.
  destruct (linux_launch_claims 64 false [demo_uspec] 0x0100000A s_node 0 0 0 (mkPorts 3 4 5 6)
    unset_host blank_message blank_message zero_statics) as (_ & h' & tx' & rx' & c' & cs & HR & HH).
  - lia.
  - constructor; [exact demo_uspec_valid|constructor].
  - by vm_compute.
  - split; by_eval.
  - reflexivity.
  - reflexivity.
  - by vm_compute.
  - split; [split_and!; reflexivity|]. split; [reflexivity|exact blank_bytes].
  - split; [split_and!; reflexivity|]. split; [reflexivity|exact blank_bytes].
  - by_eval.
  - by_eval.
  - exists h', tx', rx', c', cs. split; [exact HR|]. exact (HH eq_refl).
Defined.
