(* ===== verification/Sys.v ===== *)
(** * The system layer of the embedded port (sys_threadx_treck.c)

    The zeroconf module for the Marvell 8388V reaches its operating system
    (ThreadX) and its TCP/IP stack (Treck) through system.h, which
    sys_threadx_treck.c implements.  [sys] is the state that layer keeps or
    shares with the SDK: the table of packet handlers of mli.c, the configured
    address and the only message queue.  Results of ThreadX, Treck and the
    firmware are arguments: a random word, the statuses, the free transmit
    buffer and the MAC address. *)
From S2P Require Import Prelude.
From S2P Require Import Buffer.

(** ** Constants of tx_api.h, system.h, mli.h *)

Definition TX_SUCCESS : Z := 0x00.
Definition TX_NO_MEMORY : Z := 0x10.
Definition TX_NO_EVENTS : Z := 0x07.
Definition TX_START_ERROR : Z := 0x10.
Definition TX_WAIT_FOREVER : Z := 0xFFFFFFFF.
Definition TX_1_ULONG : Z := 1.
Definition TX_16_ULONG : Z := 16.
Definition SYS_SUCCESS : Z := TX_SUCCESS.
Definition SYS_FAIL : Z := TX_START_ERROR.
Definition SYS_NO_EVENTS : Z := TX_NO_EVENTS.
Definition SYS_FOREVER : Z := TX_WAIT_FOREVER.
Definition SYS_MSEC_PER_TICK : Z := 10.
Definition MLI_MAX_CUSTOM_HANDLERS : Z := 4.

(** [enum Status_e]; a status of mli.c. *)
Definition SUCCESS : Z := 0.
Definition FAIL : Z := 1.

(** ** Byte order

    The CPU is little endian: [memcpy] of an [unsigned int] stores its low byte
    first. *)
Definition le_bytes (v : Z) : list Z :=
  [Z.land v 255; Z.land (Z.shiftr v 8) 255; Z.land (Z.shiftr v 16) 255; Z.land (Z.shiftr v 24) 255].

Definition of_le (l : list Z) : Z :=
  match l with
  | [a; b; c; d] => Z.lor (Z.shiftl (Z.lor (Z.shiftl (Z.lor (Z.shiftl d 8) c) 8) b) 8) a
  | _ => 0
  end.

(** ** The packet handlers of mli.c

    [rxDataHandler] is an array of four function pointers (0 is NULL) and
    [numberRxDataHandlers] the number in use. *)
Record handlers := mkHandlers { rxDataHandler : list Z; numberRxDataHandlers : Z }.

Definition no_handlers : handlers := mkHandlers (replicate 4 0) 0.

Definition mli_installCustomRxDataHandler (cbfunc : Z) (h : handlers) : res (Z * handlers) :=
  if MLI_MAX_CUSTOM_HANDLERS <=? numberRxDataHandlers h then Ok (FAIL, h)
  else
    let n := numberRxDataHandlers h in
    if (n <? 0) || (Zlen (rxDataHandler h) <=? n) then Fault
    else Ok (SUCCESS, mkHandlers (<[Z.to_nat n := cbfunc]> (rxDataHandler h)) (n + 1)).

(** The inner loop: move the entries behind [i] down by one, then clear the
    last one. *)
Fixpoint shift_down (n : nat) (l : list Z) (i : nat) : list Z :=
  match n with
  | O => <[i := 0]> l
  | S n => shift_down n (<[i := default 0 (l !! S i)]> l) (S i)
  end.

(** [n] entries are left to look at from [i] on. *)
Fixpoint remove_loop (n : nat) (cbfunc : Z) (h : handlers) (i : nat) : Z * handlers :=
  match n with
  | O => (FAIL, h)
  | S n' =>
      if default 0 (rxDataHandler h !! i) =? cbfunc then
        (SUCCESS, mkHandlers (shift_down n' (rxDataHandler h) i) (numberRxDataHandlers h - 1))
      else remove_loop n' cbfunc h (S i)
  end.

Definition mli_removeCustomRxDataHandler (cbfunc : Z) (h : handlers) : Z * handlers :=
  remove_loop (Z.to_nat MLI_MAX_CUSTOM_HANDLERS) cbfunc h 0.

(** What a handler makes of a packet: not its packet, consumed, or a packet to
    go on with. *)
Inductive verdict (P : Type) := NOT_MY_PKT | PKT_NULL | PKT (p : P).
Arguments NOT_MY_PKT {P}.
Arguments PKT_NULL {P}.
Arguments PKT {P} p.

(** [mli_PreProcessRxPacket]: the handlers in use see the packet in the order
    of the table until one consumes it.  [run] calls a function pointer; calling
    NULL is a fault. *)
Section preprocess.
Context {P S : Type} (run : Z -> P -> S -> res (verdict P * S)).

Fixpoint preprocess_loop (n : nat) (hs : list Z) (i : nat) (pkt : P) (s : S) : res (option P * S) :=
  match n with
  | O => Ok (Some pkt, s)
  | Datatypes.S n' =>
      match hs !! i with
      | None => Fault
      | Some f =>
          if f =? 0 then Fault
          else
            '(v, s) ← run f pkt s;
            match v with
            | NOT_MY_PKT => preprocess_loop n' hs (Datatypes.S i) pkt s
            | PKT_NULL => Ok (None, s)
            | PKT p => preprocess_loop n' hs (Datatypes.S i) p s
            end
      end
  end.

Definition mli_PreProcessRxPacket (h : handlers) (pkt : P) (s : S) : res (option P * S) :=
  preprocess_loop (Z.to_nat (numberRxDataHandlers h)) (rxDataHandler h) 0 pkt s.
End preprocess.

(** ** The TCP/IP configuration

    The globals [ip_addr], [net_mask], [def_gtwy] (four bytes each) and
    [tcp_ready], and the configuration command that
    [userif_prepare_config_etcp] leaves in the command buffer for the stack. *)
Record etcp_config := mkEtcp {
  uSubType : Z; tTreckConfig : Z; uUseDHCP : Z;
  aIPaddr : list Z; aNetMask : list Z; aDefaultGateway : list Z; uMultiHomeIndex : Z }.

Record sys := mkSys {
  handler_table : handlers;
  ip_addr : list Z;
  net_mask : list Z;
  def_gtwy : list Z;
  tcp_ready : Z;
  cmd_in_progress : Z;
  cmd_buffer : option etcp_config;
  HostSmeMsg_evt : Z }.

Definition E_TCP_CMD_Configure : Z := 0x01.
(** its place in the enumeration of hostsme_sm.h *)
Definition ETCP_INIT_RESP : Z := 11.

Definition with_handlers (s : sys) (h : handlers) : sys :=
  mkSys h (ip_addr s) (net_mask s) (def_gtwy s) (tcp_ready s) (cmd_in_progress s) (cmd_buffer s)
    (HostSmeMsg_evt s).
Definition with_config (s : sys) (ip mask gw : list Z) : sys :=
  mkSys (handler_table s) ip mask gw (tcp_ready s) (cmd_in_progress s) (cmd_buffer s)
    (HostSmeMsg_evt s).
Definition with_ready (s : sys) (r : Z) : sys :=
  mkSys (handler_table s) (ip_addr s) (net_mask s) (def_gtwy s) r (cmd_in_progress s) (cmd_buffer s)
    (HostSmeMsg_evt s).

Definition userif_prepare_config_etcp (s : sys) : sys :=
  mkSys (handler_table s) (ip_addr s) (net_mask s) (def_gtwy s) (tcp_ready s) 1
    (Some (mkEtcp E_TCP_CMD_Configure 0 0 (ip_addr s) (net_mask s) (def_gtwy s) 0))
    ETCP_INIT_RESP.

Definition sys_add_rx_pkt_handler (f : Z) (s : sys) : res (Z * sys) :=
  '(st, h) ← mli_installCustomRxDataHandler f (handler_table s);
  Ok (if st =? 0 then SYS_SUCCESS else SYS_FAIL, with_handlers s h).

Definition sys_remove_rx_pkt_handler (f : Z) (s : sys) : Z * sys :=
  let '(st, h) := mli_removeCustomRxDataHandler f (handler_table s) in
  (if st =? 0 then SYS_SUCCESS else SYS_FAIL, with_handlers s h).

(** The address of [eTCPRxDataHandler], the stack's own packet handler. *)
Definition eTCPRxDataHandler : Z := 1.

Definition sys_get_ip (s : sys) : Z := of_le (ip_addr s).

Definition sys_tcpip_init (ip netmask : Z) (s : sys) : res (Z * sys) :=
  let s := with_config s (le_bytes ip) (le_bytes netmask) (replicate 4 0) in
  let s := with_ready (userif_prepare_config_etcp s) 1 in
  let s := with_handlers s (mli_removeCustomRxDataHandler eTCPRxDataHandler (handler_table s)).2 in
  '(_, h) ← mli_installCustomRxDataHandler eTCPRxDataHandler (handler_table s);
  Ok (SYS_SUCCESS, with_handlers s h).

Definition sys_tcpip_halt (s : sys) : Z * sys :=
  let s := with_config s (replicate 4 0) (replicate 4 0) (replicate 4 0) in
  let s := with_handlers s (mli_removeCustomRxDataHandler eTCPRxDataHandler (handler_table s)).2 in
  (SYS_SUCCESS, with_ready s 0).

(** ** Time *)

(** The timeout of the calls that wait, in clock ticks: the same lines in
    [sys_eflags_wait], [sys_mutex_get], [sys_queue_put] and [sys_queue_get]. *)
Definition ms_to_ticks (ms : Z) : Z :=
  if ms =? SYS_FOREVER then TX_WAIT_FOREVER else ms / SYS_MSEC_PER_TICK.

Definition sys_time_get (ticks : Z) : Z := u32 (SYS_MSEC_PER_TICK * ticks).
Definition get_time (ticks : Z) : Z := u32 (ticks * 10).

(** ** Random numbers: [r] is what [tfGetRandom] returned *)
Definition sys_random (r floor ceiling : Z) : Z :=
  let rand := u32 (r + Z.shiftl 1 15) in
  let rand := Z.shiftr rand 16 in
  let rand := u32 ((ceiling - floor) * rand) in
  let rand := u32 (rand + 0x8000) in
  let rand := rand / 65535 in
  let rand := u32 (rand + floor) in
  Z.land rand 0xffff.

(** ** The link layer

    A transmit buffer of the firmware as the fields that [sys_link_sendto] sets
    and the bytes it puts behind the descriptor, whose size is [sizeof_wcb_t]. *)
Record wcb := mkWcb {
  TxPacketType : Z; TxPacketOffset : Z; TxDestAddr : list Z; TxPacketLength : Z; TxData : list Z }.

Definition RAW_DATA : Z := 0x08.
Definition sizeof_wcb_t : Z := 32.

(** What the firmware answers: whether it had a free buffer, and the status and
    address [GetMACAddr] gave. *)
Record link := mkLink { tx_buffer : bool; mac_status : Z; mac_addr : list Z }.

Definition sys_link_get_mac (k : link) : Z * list Z := (mac_status k, mac_addr k).

Definition sys_link_sendto (k : link) (mac_dest : list Z) (type : Z) (payload : list Z) : Z * option wcb :=
  if negb (tx_buffer k) then (SYS_FAIL, None)
  else
    let '(st, mac) := sys_link_get_mac k in
    if negb (st =? SYS_SUCCESS) then (SYS_FAIL, None)
    else
      let t := htons type in
      (SYS_SUCCESS,
       Some (mkWcb RAW_DATA sizeof_wcb_t mac_dest (u16 (6 + 6 + 2 + Zlen payload))
               (mac_dest ++ mac ++ [Z.land t 255; Z.shiftr t 8] ++ payload))).

(** ** The queue

    One queue of one fixed memory block: [q_ptr] is its owner. *)
Record queue := mkQueue { q_ptr : Z; item_size_in_queue : Z; item_size_out_of_queue : Z }.

Definition Q_SIZE : Z := 1024.
Definition no_queue : queue := mkQueue 0 0 0.

(** Double the item size until an item fits; [None] past 16 words. *)
Fixpoint item_size_loop (fuel : nat) (item_size q_item_size : Z) : option Z :=
  match fuel with
  | O => None
  | S fuel =>
      if item_size * 4 <? q_item_size then
        let item_size := Z.shiftl item_size 1 in
        if TX_16_ULONG <? item_size then None else item_size_loop fuel item_size q_item_size
      else Some item_size
  end.

(** [created] is the status of [tx_queue_create]. *)
Definition sys_queue_create (q q_items q_item_size created : Z) (s : queue) : Z * queue :=
  if negb (q_ptr s =? 0) then (SYS_FAIL, s)
  else
    match item_size_loop 6 TX_1_ULONG q_item_size with
    | None => (SYS_FAIL, s)
    | Some item_size =>
        if Q_SIZE <? u32 (u32 (q_items * item_size) * 4) then (TX_NO_MEMORY, s)
        else (created, mkQueue q (item_size * 4) q_item_size)
    end.

Definition sys_queue_delete (deleted : Z) (s : queue) : Z * queue :=
  (deleted, mkQueue 0 (item_size_in_queue s) (item_size_out_of_queue s)).

(** The item that [sys_queue_put] hands to [tx_queue_send]: the caller's bytes
    over a cleared item.  The stack array holds 64 pointers of four bytes, and
    only the first [item_size_in_queue] bytes are sent. *)
Definition sys_queue_put (qdata : list Z) (s : queue) : res (list Z) :=
  let item := replicate 256 0 in
  data ← rd_range qdata 0 (item_size_out_of_queue s);
  item ← wr_range item 0 data;
  rd_range item 0 (item_size_in_queue s).

(** What [sys_queue_get] stores at [qdata] for the item that was received. *)
Definition sys_queue_get (stat : Z) (item : list Z) (qdata : list Z) (s : queue) : res (Z * list Z) :=
  if stat =? TX_SUCCESS then
    data ← rd_range item 0 (item_size_out_of_queue s);
    qdata ← wr_range qdata 0 data;
    Ok (stat, qdata)
  else Ok (stat, qdata).
