(* ===== verification/SysSpec.v ===== *)
(** * What the system layer promises

    [table l]: the handler table that holds the handlers [l], in order.  The
    operations of mli.c are appending to [l], removing the first occurrence, and
    a fold over [l]; random numbers stay in their range and reach all of it; an
    item that goes through the queue comes out as it went in. *)
From S2P Require Import Prelude.
From S2P Require Import Buffer.
From S2P Require Import Sys.

(** ** Bytes *)

Lemma land_byte v : is_byte (Z.land v 255).
Proof. rewrite land_255. apply Z.mod_pos_bound. lia. Qed.

Lemma le_bytes_div v :
  le_bytes v = [v mod 256; v / 256 mod 256; v / 65536 mod 256; v / 16777216 mod 256].
Proof. unfold le_bytes. rewrite !land_255, !Z.shiftr_div_pow2 by lia. done. Qed.

Lemma le_bytes_bytes v : bytes (le_bytes v).
Proof. unfold bytes, le_bytes. repeat apply Forall_cons_2; auto using land_byte. Qed.

Lemma of_le_sum a b c d :
  bytes [a; b; c; d] -> of_le [a; b; c; d] = a + 256 * b + 65536 * c + 16777216 * d.
Proof.
  unfold bytes, is_byte. intros H. rewrite !Forall_cons_iff in H. destruct H as (? & ? & ? & ? & _).
  unfold of_le. rewrite !lor_shiftl by (simpl; lia). change (2 ^ 8) with 256. lia.
Qed.

Lemma of_le_bytes v : 0 <= v < 4294967296 -> of_le (le_bytes v) = v.
Proof.
  intros H. pose proof (le_bytes_bytes v) as Hb. rewrite le_bytes_div in *.
  rewrite of_le_sum by done.
  pose proof (Z.div_mod v 256 ltac:(lia)). pose proof (Z.div_mod (v / 256) 256 ltac:(lia)).
  pose proof (Z.div_mod (v / 65536) 256 ltac:(lia)).
  assert (v / 256 / 256 = v / 65536) by (rewrite Z.div_div by lia; done).
  assert (v / 65536 / 256 = v / 16777216) by (rewrite Z.div_div by lia; done).
  assert (v / 16777216 < 256) by (apply Z.div_lt_upper_bound; lia).
  assert (0 <= v / 16777216) by (apply Z.div_pos; lia).
  rewrite (Z.mod_small (v / 16777216)) by lia. lia.
Qed.

Lemma le_bytes_inj v w :
  0 <= v < 4294967296 -> 0 <= w < 4294967296 -> le_bytes v = le_bytes w -> v = w.
Proof. intros Hv Hw E. rewrite <- (of_le_bytes v), <- (of_le_bytes w), E by done. done. Qed.

Lemma le_bytes_of_le a b c d :
  bytes [a; b; c; d] -> le_bytes (of_le [a; b; c; d]) = [a; b; c; d].
Proof.
  intros H. rewrite of_le_sum by done. rewrite le_bytes_div.
  unfold bytes, is_byte in H. rewrite !Forall_cons_iff in H. destruct_and?.
  apply list_eq_Forall2. repeat constructor; Z.to_euclidean_division_equations; lia.
Qed.

(** ** Random numbers *)

(** With its machine arithmetic resolved, [sys_random] scales 16 random bits and
    rounds to the nearest value. *)
Lemma sys_random_scale r floor ceiling :
  0 <= floor <= ceiling -> ceiling <= 65535 ->
  let n := u32 (r + 32768) / 65536 in
  0 <= n <= 65535 /\
  sys_random r floor ceiling = ((ceiling - floor) * n + 32768) / 65535 + floor.
Proof.
  intros Hf Hc n. pose proof (u32_range (r + 32768)) as Hu.
  assert (Hn : 0 <= n <= 65535).
  { unfold n. split; [apply Z.div_pos; lia|].
    apply Zlt_succ_le, Z.div_lt_upper_bound; lia. }
  split; [done|].
  assert (Hp : 0 <= (ceiling - floor) * n <= (ceiling - floor) * 65535) by nia.
  assert (Hq : 0 <= ((ceiling - floor) * n + 32768) / 65535 <= ceiling - floor).
  { split; [apply Z.div_pos; lia|].
    apply Zlt_succ_le, Z.div_lt_upper_bound; lia. }
  unfold sys_random. change (Z.shiftl 1 15) with 32768. rewrite Z.shiftr_div_pow2 by lia.
  change (2 ^ 16) with 65536. fold n.
  rewrite (u32_id ((ceiling - floor) * n)) by lia.
  rewrite (u32_id ((ceiling - floor) * n + 32768)) by lia.
  rewrite (u32_id (((ceiling - floor) * n + 32768) / 65535 + floor)) by lia.
  match goal with |- Z.land ?x _ = _ => change (Z.land x (Z.ones 16) = x) end.
  rewrite Z.land_ones by lia. apply Z.mod_small.
  change (2 ^ 16) with 65536. lia.
Qed.

Lemma sys_random_bounds r floor ceiling :
  0 <= floor <= ceiling -> ceiling <= 65535 -> floor <= sys_random r floor ceiling <= ceiling.
Proof.
  intros Hf Hc. destruct (sys_random_scale r floor ceiling Hf Hc) as [Hn ->].
  set (n := u32 _ / _) in *.
  assert (0 <= ((ceiling - floor) * n + 32768) / 65535 <= ceiling - floor); [|lia].
  split; [apply Z.div_pos; nia|]. apply Zlt_succ_le, Z.div_lt_upper_bound; nia.
Qed.

(** A random word that makes [sys_random] return [v]. *)
Definition random_for (floor ceiling v : Z) : Z :=
  if ceiling =? floor then 0
  else 65536 * (((v - floor) * 65535) / (ceiling - floor)).

Lemma random_for_range floor ceiling v :
  floor <= v <= ceiling -> 0 <= random_for floor ceiling v < 4294967296.
Proof.
  intros Hv. unfold random_for. case_match; [lia|]. b2p.
  assert (0 <= (v - floor) * 65535 / (ceiling - floor) <= 65535).
  { split; [apply Z.div_pos; nia|].
    apply Zlt_succ_le, Z.div_lt_upper_bound; nia. }
  lia.
Qed.

Lemma sys_random_reaches floor ceiling v :
  0 <= floor -> ceiling <= 65535 -> floor <= v <= ceiling -> ceiling - floor <= 32768 ->
  sys_random (random_for floor ceiling v) floor ceiling = v.
Proof.
  intros Hf Hc Hv Hd. destruct (sys_random_scale (random_for floor ceiling v) floor ceiling) as [_ ->]; [lia|lia|].
  unfold random_for. destruct (Z.eqb_spec ceiling floor) as [->|Hne].
  { rewrite Z.sub_diag, Z.mul_0_l. change ((0 + 32768) / 65535) with 0. lia. }
  set (d := ceiling - floor) in *. set (w := v - floor).
  assert (Hw : 0 <= w <= d) by lia. assert (Hd0 : 0 < d) by lia.
  set (m := w * 65535 / d).
  assert (Hm : 0 <= m <= 65535).
  { unfold m. split; [apply Z.div_pos; nia|]. apply Zlt_succ_le, Z.div_lt_upper_bound; nia. }
  rewrite u32_id by lia.
  replace ((65536 * m + 32768) / 65536) with m.
  2: { rewrite Z.mul_comm, Z.div_add_l by lia. change (32768 / 65536) with 0. lia. }
  assert (Hmd : d * m <= w * 65535 < d * m + d).
  { unfold m. pose proof (Z.div_mod (w * 65535) d ltac:(lia)).
    pose proof (Z.mod_pos_bound (w * 65535) d ltac:(lia)). lia. }
  assert ((d * m + 32768) / 65535 = w).
  { symmetry. apply Z.div_unique with (r := d * m + 32768 - 65535 * w); lia. }
  lia.
Qed.

(** ** The handler table *)

Definition table (l : list Z) : handlers := mkHandlers (l ++ replicate (4 - length l) 0) (Zlen l).

(** At most four handlers, none of them NULL. *)
Definition handler_list (l : list Z) : Prop := (length l <= 4)%nat /\ Forall (fun f => f <> 0) l.

Fixpoint remove_first (f : Z) (l : list Z) : list Z :=
  match l with
  | [] => []
  | g :: l' => if g =? f then l' else g :: remove_first f l'
  end.

Lemma remove_first_notin f l : f ∉ l -> remove_first f l = l.
Proof.
  induction l as [|g l IH]; intros H; [done|]. rewrite not_elem_of_cons in H. destruct H.
  simpl. dec. by rewrite IH.
Qed.

Lemma remove_first_snoc f l : f ∉ l -> remove_first f (l ++ [f]) = l.
Proof.
  induction l as [|g l IH]; intros H; simpl.
  - by rewrite Z.eqb_refl.
  - rewrite not_elem_of_cons in H. destruct H. dec. by rewrite IH.
Qed.

Lemma remove_first_sub f l : sublist (remove_first f l) l.
Proof.
  induction l as [|g l IH]; simpl; [done|]. case_match; [by apply sublist_cons|by apply sublist_skip].
Qed.

Lemma remove_first_NoDup f l : NoDup l -> f ∉ remove_first f l.
Proof.
  induction 1 as [|g l Hg _ IH]; simpl; [apply not_elem_of_nil|].
  case_match; b2p; [by subst|]. rewrite not_elem_of_cons. split; [lia|done].
Qed.

Lemma handler_list_sub l l' : sublist l' l -> handler_list l -> handler_list l'.
Proof.
  intros Hs [Hl Hf]. split; [apply sublist_length in Hs; lia|].
  apply list_relations.list.Forall_forall. intros f Hin. eapply elem_of_sublist in Hin; [|done].
  by eapply list_relations.list.Forall_forall in Hf.
Qed.

Lemma remove_first_list f l : handler_list l -> handler_list (remove_first f l).
Proof. apply handler_list_sub, remove_first_sub. Qed.

Lemma handler_list_snoc f l :
  handler_list l -> f <> 0 -> (length l < 4)%nat -> handler_list (l ++ [f]).
Proof.
  intros [Hl Hf] H0 H4. split; [rewrite length_app; simpl; lia|].
  apply Forall_app. split; [done|]. by apply Forall_cons_2.
Qed.

(** A list of handlers has one of five shapes. *)
Ltac split_handlers l :=
  destruct l as [|?a [|?b [|?c [|?d [|??]]]]];
  [..|match goal with H : handler_list _ |- _ => destruct H as [H _]; simpl in H; lia end].

Lemma install_table f l :
  handler_list l ->
  mli_installCustomRxDataHandler f (table l) =
  Ok (if decide (length l < 4)%nat then (SUCCESS, table (l ++ [f])) else (FAIL, table l)).
Proof. intros H. split_handlers l; reflexivity. Qed.

Lemma remove_table f l :
  handler_list l -> f <> 0 ->
  mli_removeCustomRxDataHandler f (table l) =
  if decide (f ∈ l) then (SUCCESS, table (remove_first f l)) else (FAIL, table l).
Proof.
  intros H Hf.
  assert (E : mli_removeCustomRxDataHandler f (table l) = remove_loop 4 f (table l) 0) by done.
  rewrite E. clear E. case_decide as Hin.
  - split_handlers l; rewrite ?elem_of_cons, elem_of_nil in Hin; cbn -[Z.eqb]; repeat case_match; b2p; subst;
      first [reflexivity | exfalso; lia].
  - split_handlers l; rewrite ?not_elem_of_cons in Hin; destruct_and?; cbn -[Z.eqb]; dec; reflexivity.
Qed.

Lemma remove_table_snd f l :
  handler_list l -> f <> 0 -> (mli_removeCustomRxDataHandler f (table l)).2 = table (remove_first f l).
Proof.
  intros H Hf. rewrite remove_table by done. case_decide; [done|]. by rewrite remove_first_notin.
Qed.

(** The packet goes through the handlers in the order of the list. *)
Section chain.
Context {P S : Type} (run : Z -> P -> S -> res (verdict P * S)).

Fixpoint chain (l : list Z) (pkt : P) (s : S) : res (option P * S) :=
  match l with
  | [] => Ok (Some pkt, s)
  | f :: l' =>
      '(v, s) ← run f pkt s;
      match v with
      | NOT_MY_PKT => chain l' pkt s
      | PKT_NULL => Ok (None, s)
      | PKT p => chain l' p s
      end
  end.

Lemma preprocess_loop_chain l hs i pkt s :
  Forall (fun f => f <> 0) l -> take (length l) (drop i hs) = l ->
  preprocess_loop run (length l) hs i pkt s = chain l pkt s.
Proof.
  intros Hl. revert i pkt s. induction Hl as [|f l Hf _ IH]; intros i pkt s E; [done|].
  assert (Hi : hs !! i = Some f /\ take (length l) (drop (Datatypes.S i) hs) = l).
  { destruct (drop i hs) as [|g k] eqn:Hd; [done|]. simpl in E. injection E as -> E.
    split; [by rewrite <- (Nat.add_0_r i), <- lookup_drop, Hd|].
    by replace (drop (Datatypes.S i) hs) with (drop 1 (drop i hs)) by (rewrite drop_drop; f_equal; lia); rewrite Hd. }
  destruct Hi as [Hi Ht]. simpl. rewrite Hi. dec.
  destruct (run f pkt s) as [[v s']| |]; [|done|done]. cbn. destruct v; auto.
Qed.

Lemma preprocess_chain l pkt s :
  handler_list l -> mli_PreProcessRxPacket run (table l) pkt s = chain l pkt s.
Proof.
  intros [_ Hl]. unfold mli_PreProcessRxPacket, table, Zlen. cbn. rewrite Nat2Z.id.
  apply preprocess_loop_chain; [done|]. rewrite drop_0. by rewrite take_app_length.
Qed.
End chain.

(** ** TCP/IP *)

(** The handlers after the stack was stopped, and after it was started. *)
Lemma sys_tcpip_halt_table s l :
  handler_table s = table l -> handler_list l ->
  exists s', sys_tcpip_halt s = (SYS_SUCCESS, s') /\
    handler_table s' = table (remove_first eTCPRxDataHandler l) /\
    tcp_ready s' = 0 /\ sys_get_ip s' = 0.
Proof.
  intros Ht Hl. eexists. split; [done|]. cbn. rewrite Ht, remove_table_snd by done. done.
Qed.

Lemma sys_tcpip_init_table ip mask s l :
  0 <= ip < 4294967296 -> handler_table s = table l -> handler_list l ->
  exists s', sys_tcpip_init ip mask s = Ok (SYS_SUCCESS, s') /\
    tcp_ready s' = 1 /\ sys_get_ip s' = ip /\
    cmd_buffer s' = Some (mkEtcp E_TCP_CMD_Configure 0 0 (le_bytes ip) (le_bytes mask) (replicate 4 0) 0) /\
    let l' := remove_first eTCPRxDataHandler l in
    handler_table s' =
      table (if decide (length l' < 4)%nat then l' ++ [eTCPRxDataHandler] else l').
Proof.
  intros Hip Ht Hl. unfold sys_tcpip_init. cbn [handler_table with_ready with_config userif_prepare_config_etcp].
  rewrite Ht, remove_table_snd by done. cbn [handler_table with_handlers].
  rewrite install_table by by apply remove_first_list.
  case_decide; (eexists; split; [done|]); cbn; (split_and!; [done|by apply of_le_bytes|done|done]).
Qed.

(** ** The queue *)

(** The item size is the smallest power of two of words that holds an item. *)
Lemma item_size_loop_spec n :
  item_size_loop 6 TX_1_ULONG n =
  if n <=? 4 then Some 1 else if n <=? 8 then Some 2 else if n <=? 16 then Some 4
  else if n <=? 32 then Some 8 else if n <=? 64 then Some 16 else None.
Proof.
  change (item_size_loop 6 TX_1_ULONG n) with
    (if 4 <? n then if 8 <? n then if 16 <? n then if 32 <? n then if 64 <? n then None
     else Some 16 else Some 8 else Some 4 else Some 2 else Some 1).
  repeat case_match; b2p; done || lia.
Qed.

(** What the queue remembers when it was created for items of [n] bytes. *)
Definition queue_for (q n : Z) (s : queue) : Prop :=
  q_ptr s = q /\ item_size_out_of_queue s = n /\ n <= item_size_in_queue s <= 64.

Lemma sys_queue_create_spec q items n created s st s' :
  sys_queue_create q items n created s = (st, s') ->
  s' = s \/ (q_ptr s = 0 /\ n <= 64 /\ st = created /\ queue_for q n s').
Proof.
  unfold sys_queue_create. case_match; [intros [= <- <-]; by left|]. b2p.
  rewrite item_size_loop_spec. unfold queue_for.
  repeat (case_match; try (intros [= <- <-]); try (by left)); simplify_eq; b2p;
    right; cbn; split_and!; done || lia.
Qed.

Lemma rd_range_take (l : list Z) n : 0 <= n <= Zlen l -> rd_range l 0 n = Ok (take (Z.to_nat n) l).
Proof. intros. unfold rd_range. dec. simpl. by rewrite drop_0. Qed.

Lemma sys_queue_roundtrip q n s data dst :
  queue_for q n s -> 0 <= n -> Zlen data = n -> n <= Zlen dst ->
  exists item,
    sys_queue_put data s = Ok item /\ Zlen item = item_size_in_queue s /\
    sys_queue_get TX_SUCCESS item dst s = Ok (TX_SUCCESS, data ++ drop (length data) dst).
Proof.
  intros (_ & Ho & Hi) Hn Hd Hdst. unfold Zlen in Hd.
  assert (Hp : sys_queue_put data s =
    Ok (data ++ replicate (Z.to_nat (item_size_in_queue s) - length data) 0)).
  { unfold sys_queue_put. rewrite Ho, rd_range_take by (unfold Zlen; lia). cbn [mbind res_bind].
    rewrite take_ge by lia. rewrite wr_range_ok by (rewrite ?Zlen_replicate; unfold Zlen; lia).
    cbn [mbind res_bind Z.to_nat]. rewrite take_0, Nat.add_0_l, drop_replicate, app_nil_l.
    rewrite rd_range_take by (rewrite Zlen_app, Zlen_replicate; unfold Zlen; lia).
    rewrite take_app_ge by lia. by rewrite take_replicate, Nat.min_l by lia. }
  eexists. split; [exact Hp|]. split.
  { rewrite Zlen_app, Zlen_replicate. unfold Zlen. lia. }
  unfold sys_queue_get. rewrite Z.eqb_refl, Ho.
  rewrite rd_range_take by (rewrite Zlen_app, Zlen_replicate; unfold Zlen; lia).
  cbn [mbind res_bind]. rewrite take_app_length' by lia.
  rewrite wr_range_ok by (unfold Zlen in *; lia). done.
Qed.
