(* ===== verification/LinkLocal.v ===== *)
(** * Link-local addresses (linklocal.c)

    The embedded port takes an address in 169.254/16 as RFC 3927 asks: it probes
    a random address with ARP, announces it, and starts the TCP/IP stack with it;
    every ARP packet is inspected for a conflict.  [ll] holds the static
    variables of linklocal.c, [ll_locals] the variables of [ll_main] that live
    across iterations.  An iteration reads an [ll_input]: what [sys_eflags_wait]
    gave, the random words, the clock and what the firmware does with a
    transmission; it returns the new state, the lines it logged and the frames it
    sent. *)
From S2P Require Import Prelude.
From S2P Require Import Buffer.
From S2P Require Import Sys.
From Stdlib Require Import String.

(** ** Constants *)

Definition PROBE_WAIT : Z := 1.
Definition PROBE_NUM : Z := 3.
Definition PROBE_MIN : Z := 1.
Definition PROBE_MAX : Z := 2.
Definition ANNOUNCE_WAIT : Z := 2.
Definition ANNOUNCE_NUM : Z := 2.
Definition ANNOUNCE_INTERVAL : Z := 2.
Definition MAX_CONFLICTS : Z := 10.
Definition RATE_LIMIT_INTERVAL : Z := 60.
Definition LL_SYS_INIT_RETRY : Z := 1000.
Definition LL_NETMASK : Z := 0x0000ffff.
Definition LL_CONFLICT_EVENT : Z := 0x1.
Definition ARP_TYPE : Z := 0x0806.
Definition ARP_OP_REQUEST : Z := 1.
Definition ARP_OP_REPLY : Z := 2.

(** [sizeof(RxPD_t)] in the build with the embedded TCP/IP stack, and the
    offsets of the type and the ARP packet in a received frame (system.h). *)
Definition L2_HEADER_OFFSET : Z := 24.
Definition L2_TYPE_OFFSET : Z := 20.
Definition ARP_OFFSET : Z := 22.

Inductive ll_states :=
  LL_NO_ADDRESS | LL_PROBE | LL_ANNOUNCE | LL_RATE_LIMITED_PROBE | LL_STABLE.

#[global] Instance ll_states_eq_dec : EqDecision ll_states.
Proof. solve_decision. Defined.

Record ll := mkLl {
  ll_state : ll_states; ll_candidate_ip : Z; ll_mac : list Z; ll_running : Z }.

Record ll_locals := mkLoc { timeout : Z; probe : Z; announce : Z; num_conflicts : Z }.

Record ll_input := mkIn {
  wait_status : Z; wait_flags : Z;
  rnd1 : Z; rnd2 : Z; rnd3 : Z;
  ticks1 : Z; ticks2 : Z;
  firmware : link }.

Inductive ll_out :=
  | out_log (format : string) (args : list Z)
  | out_frame (f : wcb).

(** ** Addresses *)

Definition ll_random_ip (r1 r2 : Z) : Z :=
  let ip_addr := u32 (Z.shiftl (sys_random r1 0 255) 24) in
  let ip_addr := Z.lor ip_addr (Z.shiftl (sys_random r2 1 254) 16) in
  Z.lor (Z.lor ip_addr (Z.shiftl 254 8)) 169.

(** ** ARP packets *)

Record arp_pkt := mkArp {
  hard_type : Z; prot_type : Z; hard_size : Z; prot_size : Z; arp_op : Z;
  sender_mac : list Z; sender_ip : list Z; target_mac : list Z; target_ip : list Z }.

Definition le16 (v : Z) : list Z := [Z.land v 255; Z.land (Z.shiftr v 8) 255].

(** The packed structure in memory. *)
Definition arp_bytes (a : arp_pkt) : list Z :=
  le16 (hard_type a) ++ le16 (prot_type a) ++ [hard_size a; prot_size a] ++ le16 (arp_op a) ++
  sender_mac a ++ sender_ip a ++ target_mac a ++ target_ip a.

(** The ARP packet starts at [arp] in [b].  The argument [mac] is not used. *)
Definition ll_arp_conflict (b : list Z) (arp : Z) (mac : list Z) (ip : Z) : res Z :=
  op ← get_host16 b (arp + 6);
  if negb (op =? htons ARP_OP_REPLY) && negb (op =? htons ARP_OP_REQUEST) then Ok 0
  else
    l ← rd_range b (arp + 14) 4;
    let sender_ip := of_le l in
    if sender_ip =? ip then Ok 1
    else
      l ← rd_range b (arp + 24) 4;
      let target_ip := of_le l in
      if (sender_ip =? 0) && (target_ip =? ip) then Ok 1 else Ok 0.

Definition bcast : list Z := replicate 6 0xff.

Definition ll_send_probe (k : link) (mac : list Z) (ip : Z) : Z * option wcb :=
  let arp := mkArp (htons 0x0001) (htons 0x0800) 6 4 (htons ARP_OP_REQUEST)
               mac (replicate 4 0) (replicate 6 0) (le_bytes ip) in
  sys_link_sendto k bcast ARP_TYPE (arp_bytes arp).

Definition ll_send_announce (k : link) (mac : list Z) (ip : Z) : Z * option wcb :=
  let arp := mkArp (htons 0x0001) (htons 0x0800) 6 4 (htons ARP_OP_REQUEST)
               mac (le_bytes ip) (replicate 6 0) (le_bytes ip) in
  sys_link_sendto k bcast ARP_TYPE (arp_bytes arp).

(** The inspector of received packets: the status it returns to mli.c, and the
    flags it sets in [ll_eflags]. *)
Definition ll_handle_arp (pkt : list Z) (st : ll) : res (verdict (list Z) * Z) :=
  let link_header := L2_HEADER_OFFSET in
  type ← get_host16 pkt (link_header + L2_TYPE_OFFSET);
  if ll_running st =? 0 then Ok (NOT_MY_PKT, 0)
  else
    let arp := link_header + ARP_OFFSET in
    if type =? htons ARP_TYPE then
      c ← ll_arp_conflict pkt arp (ll_mac st) (ll_candidate_ip st);
      Ok (NOT_MY_PKT, if negb (c =? 0) then LL_CONFLICT_EVENT else 0)
    else Ok (NOT_MY_PKT, 0).

(** ** The main thread *)

Definition ll_result : Type := ll * ll_locals * sys * list ll_out.

Definition with_state (st : ll) (x : ll_states) : ll :=
  mkLl x (ll_candidate_ip st) (ll_mac st) (ll_running st).
Definition with_candidate (st : ll) (ip : Z) : ll :=
  mkLl (ll_state st) ip (ll_mac st) (ll_running st).
Definition with_timeout (l : ll_locals) (t : Z) : ll_locals :=
  mkLoc t (probe l) (announce l) (num_conflicts l).
Definition with_probe (l : ll_locals) (p : Z) : ll_locals :=
  mkLoc (timeout l) p (announce l) (num_conflicts l).
Definition with_announce (l : ll_locals) (a : Z) : ll_locals :=
  mkLoc (timeout l) (probe l) a (num_conflicts l).
Definition with_conflicts (l : ll_locals) (n : Z) : ll_locals :=
  mkLoc (timeout l) (probe l) (announce l) n.

(** The frame that a transmission handed to the firmware, if it did. *)
Definition frames (r : Z * option wcb) : list ll_out :=
  match r.2 with Some f => [out_frame f] | None => [] end.

Definition ll_no_address (i : ll_input) (st : ll) (l : ll_locals) (s : sys) : ll_result :=
  let st := with_candidate st (ll_random_ip (rnd1 i) (rnd2 i)) in
  let l := with_timeout l (sys_random (rnd3 i) 0 (PROBE_WAIT * 1000)) in
  (with_state st LL_PROBE, with_probe l 0, s,
   [out_log "LL %d: Sending first probe in %d ms.\r\n" [sys_time_get (ticks1 i); timeout l]]).

Definition ll_probe (i : ll_input) (conflict : Z) (st : ll) (l : ll_locals) (s : sys) : ll_result :=
  if negb (conflict =? 0) && (MAX_CONFLICTS <=? num_conflicts l) then
    (with_candidate (with_state st LL_RATE_LIMITED_PROBE) 0,
     with_timeout l (RATE_LIMIT_INTERVAL * 1000), s,
     [out_log "LL %d: Many conflicts.  Going into rate-limited mode.\r\n" [sys_time_get (ticks1 i)]])
  else if negb (conflict =? 0) then
    (with_state st LL_NO_ADDRESS, with_timeout l 0, s,
     [out_log "LL %d: Somebody has our address.  Trying again.\r\n" [sys_time_get (ticks1 i)]])
  else if probe l =? PROBE_NUM - 1 then
    (with_state st LL_ANNOUNCE, with_announce (with_timeout l (ANNOUNCE_WAIT * 1000)) 0, s,
     out_log "LL %d: Sending final probe.\r\n" [sys_time_get (ticks1 i)]
     :: frames (ll_send_probe (firmware i) (ll_mac st) (ll_candidate_ip st))
     ++ [out_log "LL %d: Sending first announcement in %d ms.\r\n"
           [sys_time_get (ticks2 i); ANNOUNCE_WAIT * 1000]])
  else if probe l <? PROBE_NUM - 1 then
    let t := sys_random (rnd1 i) (PROBE_MIN * 1000) (PROBE_MAX * 1000) in
    (st, with_timeout (with_probe l (u32 (probe l + 1))) t, s,
     out_log "LL %d: Sending probe.\r\n" [sys_time_get (ticks1 i)]
     :: frames (ll_send_probe (firmware i) (ll_mac st) (ll_candidate_ip st))
     ++ [out_log "LL %d: Next probe in %d ms.\r\n" [sys_time_get (ticks2 i); t]])
  else (st, l, s, []).

Definition ll_announce (i : ll_input) (conflict : Z) (st : ll) (l : ll_locals) (s : sys) : ll_result :=
  if negb (conflict =? 0) && (MAX_CONFLICTS <=? num_conflicts l) then
    (with_candidate (with_state st LL_RATE_LIMITED_PROBE) 0,
     with_timeout l (RATE_LIMIT_INTERVAL * 1000), s, [])
  else if negb (conflict =? 0) then
    (with_state st LL_NO_ADDRESS, with_timeout l 0, s,
     [out_log "LL %d: Received claim after announce.  Trying again.\r\n" [sys_time_get (ticks1 i)]])
  else if announce l =? ANNOUNCE_NUM - 1 then
    (with_state st LL_STABLE, with_timeout l (ANNOUNCE_INTERVAL * 1000), s,
     out_log "LL %d: Sending final announcement.\r\n" [sys_time_get (ticks1 i)]
     :: frames (ll_send_announce (firmware i) (ll_mac st) (ll_candidate_ip st)))
  else if announce l <? ANNOUNCE_NUM - 1 then
    (st, with_timeout (with_announce l (u32 (announce l + 1))) (ANNOUNCE_INTERVAL * 1000), s,
     out_log "LL %d: Sending announcement.\r\n" [sys_time_get (ticks1 i)]
     :: frames (ll_send_announce (firmware i) (ll_mac st) (ll_candidate_ip st))
     ++ [out_log "LL %d: Sending next announcement in %d ms.\r\n"
           [sys_time_get (ticks2 i); ANNOUNCE_INTERVAL * 1000]])
  else (st, l, s, []).

Definition ll_rate_limited (i : ll_input) (conflict : Z) (st : ll) (l : ll_locals) (s : sys) : ll_result :=
  if negb (conflict =? 0) then
    (with_candidate st 0, with_timeout l (RATE_LIMIT_INTERVAL * 1000), s, [])
  else
    (with_state (with_candidate st (ll_random_ip (rnd1 i) (rnd2 i))) LL_PROBE,
     with_timeout l 0, s, []).

Definition ll_stable (i : ll_input) (conflict : Z) (st : ll) (l : ll_locals) (s : sys) : res ll_result :=
  if negb (conflict =? 0) then
    let '(_, s) := sys_tcpip_halt s in
    Ok (with_state st LL_NO_ADDRESS, with_timeout l 0, s, [])
  else
    let l := with_timeout (with_conflicts l 0) SYS_FOREVER in
    let out := [out_log "LL %d: Got address %x.  Setting up tcpip.\r\n"
                  [sys_time_get (ticks1 i); ll_candidate_ip st]] in
    '(status, s) ← sys_tcpip_init (ll_candidate_ip st) LL_NETMASK s;
    if negb (status =? SYS_SUCCESS) then Ok (st, with_timeout l LL_SYS_INIT_RETRY, s, out)
    else Ok (st, l, s, out).

(** One iteration of the loop of [ll_main]; [None]: the thread returned. *)
Definition ll_iteration (i : ll_input) (st : ll) (l : ll_locals) (s : sys) : res (option ll_result) :=
  if negb (wait_status i =? SYS_SUCCESS) && negb (wait_status i =? SYS_NO_EVENTS) then Ok None
  else
    let '(conflict, l) :=
      if negb (Z.land (wait_flags i) LL_CONFLICT_EVENT =? 0)
      then (1, with_conflicts l (u32 (num_conflicts l + 1))) else (0, l) in
    match ll_state st with
    | LL_NO_ADDRESS => Ok (Some (ll_no_address i st l s))
    | LL_PROBE => Ok (Some (ll_probe i conflict st l s))
    | LL_ANNOUNCE => Ok (Some (ll_announce i conflict st l s))
    | LL_RATE_LIMITED_PROBE => Ok (Some (ll_rate_limited i conflict st l s))
    | LL_STABLE => r ← ll_stable i conflict st l s; Ok (Some r)
    end.

(** The variables of [ll_main] when the loop starts.  [num_conflicts] is not
    initialised: [garbage] is what the stack held. *)
Definition ll_main_locals (garbage : Z) : ll_locals := mkLoc 0 0 0 garbage.

(** ** Launch and shutdown *)

(** The calls of ThreadX, with their results, and the lines that are logged. *)
Inductive tx_call :=
  | ll_log (format : string) (args : list Z)
  | tx_event_flags_create (status : Z)
  | tx_event_flags_delete
  | tx_thread_create (status : Z)
  | tx_thread_terminate
  | tx_thread_delete.

(** The address of [ll_handle_arp] as a packet handler. *)
Definition ll_handle_arp_ptr : Z := 2.

Definition ll_init (ticks : Z) (k : link) (eflags_status thread_status : Z) (st : ll) (s : sys)
    : res (Z * ll * sys * list tx_call) :=
  let log := ll_log "LL %d: Initializing\r\n" [sys_time_get ticks] in
  if negb (ll_running st =? 0) then Ok (SYS_FAIL, st, s, [log])
  else
    let '(_, s) := sys_tcpip_halt s in
    let st := with_state st LL_NO_ADDRESS in
    let '(ret, mac) := sys_link_get_mac k in
    let st := mkLl (ll_state st) (ll_candidate_ip st) (if ret =? SYS_SUCCESS then mac else ll_mac st)
                (ll_running st) in
    if negb (ret =? SYS_SUCCESS) then Ok (ret, st, s, [log])
    else
      '(ret, s) ← sys_add_rx_pkt_handler ll_handle_arp_ptr s;
      if negb (ret =? SYS_SUCCESS) then Ok (ret, st, s, [log])
      else
        let done0 (ret : Z) (s : sys) (calls : list tx_call) : res (Z * ll * sys * list tx_call) :=
          Ok (ret, mkLl (ll_state st) (ll_candidate_ip st) (ll_mac st) 1, s, log :: calls) in
        if negb (eflags_status =? SYS_SUCCESS) then
          let '(_, s) := sys_remove_rx_pkt_handler ll_handle_arp_ptr s in
          done0 eflags_status s [tx_event_flags_create eflags_status]
        else if negb (thread_status =? SYS_SUCCESS) then
          let '(_, s) := sys_remove_rx_pkt_handler ll_handle_arp_ptr s in
          done0 thread_status s
            [tx_event_flags_create eflags_status; tx_thread_create thread_status; tx_event_flags_delete]
        else
          done0 thread_status s
            [tx_event_flags_create eflags_status; tx_thread_create thread_status].

Definition ll_shutdown (ticks : Z) (st : ll) (s : sys) : Z * ll * sys * list tx_call :=
  let '(_, s) := sys_remove_rx_pkt_handler ll_handle_arp_ptr s in
  let '(_, s) := sys_tcpip_halt s in
  (SYS_SUCCESS, mkLl (ll_state st) (ll_candidate_ip st) (ll_mac st) 0, s,
   [ll_log "LL %d: Shutting down.\r\n" [sys_time_get ticks]; tx_thread_terminate; tx_thread_delete; tx_event_flags_delete]).
