(* ===== verification/LinkLocalSpec.v ===== *)
(** * Runs of the link-local thread

    [world] is the thread, the system layer and the conflict flag, with a trace
    of what the outside sees.  [ll_step] interleaves received ARP packets with
    iterations of [ll_main]; the flag behaves as ThreadX documents it: a wait
    reports it and clears it, and a wait during which it is not set lasts for its
    whole timeout.  [claiming] is the sequence of RFC 3927: an address is picked,
    probed and announced at the prescribed intervals, without a conflict. *)
From S2P Require Import Prelude.
From S2P Require Import Buffer.
From S2P Require Import Sys.
From S2P Require Import SysSpec.
From S2P Require Import LinkLocal.

(** ** Addresses *)

(** 169.254.1.0 to 169.254.254.255, as stored in memory *)
Definition link_local (ip : Z) : Prop :=
  exists b c, 1 <= b <= 254 /\ 0 <= c <= 255 /\ ip = 169 + 256 * 254 + 65536 * b + 16777216 * c.

Lemma link_local_range ip : link_local ip -> 0 < ip < 4294967296.
Proof. intros (b & c & Hb & Hc & ->). lia. Qed.

Lemma link_local_bytes ip :
  link_local ip <-> 0 <= ip < 4294967296 /\ exists b c, 1 <= b <= 254 /\ le_bytes ip = [169; 254; b; c].
Proof.
  split.
  - intros Hl. split; [pose proof (link_local_range _ Hl); lia|].
    destruct Hl as (b & c & Hb & Hc & ->). exists b, c. split; [done|].
    assert (HB : bytes [169; 254; b; c]).
    { unfold bytes, is_byte. repeat apply Forall_cons_2; lia || done. }
    by rewrite <- of_le_sum, le_bytes_of_le.
  - intros (Hr & b & c & Hb & E). exists b, c. split; [done|].
    pose proof (le_bytes_bytes ip) as HB. rewrite E in HB.
    rewrite <- (of_le_bytes ip), E, of_le_sum by done.
    unfold bytes, is_byte in HB. rewrite !Forall_cons_iff in HB. destruct_and?. lia.
Qed.

Lemma ll_random_ip_sum a b :
  0 <= a <= 255 -> 0 <= b <= 255 ->
  Z.lor (Z.lor (Z.lor (u32 (Z.shiftl a 24)) (Z.shiftl b 16)) (Z.shiftl 254 8)) 169 =
  169 + 256 * 254 + 65536 * b + 16777216 * a.
Proof.
  intros Ha Hb. rewrite (u32_id (Z.shiftl a 24)) by (rewrite Z.shiftl_mul_pow2 by lia; lia).
  assert (E1 : Z.lor (Z.shiftl a 24) (Z.shiftl b 16) = Z.shiftl (a * 256 + b) 16).
  { rewrite lor_shiftl by (rewrite ?Z.shiftl_mul_pow2 by lia; lia).
    rewrite !Z.shiftl_mul_pow2 by lia. lia. }
  rewrite E1. change (Z.shiftl 254 8) with 65024.
  assert (E2 : Z.lor (Z.shiftl (a * 256 + b) 16) 65024 = Z.shiftl ((a * 256 + b) * 256 + 254) 8).
  { rewrite lor_shiftl by lia. rewrite Z.shiftl_mul_pow2 by lia. lia. }
  rewrite E2, lor_shiftl by lia. lia.
Qed.

Lemma ll_random_ip_link_local r1 r2 : link_local (ll_random_ip r1 r2).
Proof.
  exists (sys_random r2 1 254), (sys_random r1 0 255).
  pose proof (sys_random_bounds r2 1 254 ltac:(lia) ltac:(lia)).
  pose proof (sys_random_bounds r1 0 255 ltac:(lia) ltac:(lia)).
  split_and!; try lia. unfold ll_random_ip. by rewrite ll_random_ip_sum by lia.
Qed.

(** ** ARP packets *)

Definition wf_arp (a : arp_pkt) : Prop :=
  length (sender_mac a) = 6%nat /\ length (sender_ip a) = 4%nat /\
  length (target_mac a) = 6%nat /\ length (target_ip a) = 4%nat /\ 0 <= arp_op a < 65536.

(** The packet is a request or a reply, and claims [ip] or probes it. *)
Definition conflicts (a : arp_pkt) (ip : Z) : bool :=
  ((arp_op a =? htons ARP_OP_REPLY) || (arp_op a =? htons ARP_OP_REQUEST)) &&
  ((of_le (sender_ip a) =? ip) || (of_le (sender_ip a) =? 0) && (of_le (target_ip a) =? ip)).

Lemma get_host16_le16 b i v : holds b i (le16 v) -> 0 <= v < 65536 -> get_host16 b i = Ok v.
Proof.
  intros H Hv. unfold le16 in H. rewrite holds_cons, holds_rd in H. destruct H as [H0 H1].
  unfold get_host16. rewrite H0. cbn [mbind res_bind]. rewrite H1. cbn [mbind res_bind mret res_ret]. f_equal.
  rewrite !land_255, Z.shiftr_div_pow2 by lia. change (2 ^ 8) with 256.
  Z.to_euclidean_division_equations; lia.
Qed.

(** The fields that the inspector reads, at their offsets in the packet. *)
Lemma arp_fields b o a :
  wf_arp a -> holds b o (arp_bytes a) ->
  holds b (o + 6) (le16 (arp_op a)) /\ holds b (o + 14) (sender_ip a) /\ holds b (o + 24) (target_ip a).
Proof.
  intros (H1 & H2 & H3 & H4 & _) H. unfold arp_bytes in H. rewrite !holds_app in H.
  destruct H as (_ & _ & _ & Hop & _ & Hs & _ & Ht).
  unfold Zlen in *. rewrite ?H1, ?H2, ?H3 in *.
  cbn in Hop, Hs, Ht.
  split_and!; (eapply holds_at; [eassumption|lia]).
Qed.

Lemma ll_arp_conflict_spec b o a mac ip :
  wf_arp a -> holds b o (arp_bytes a) ->
  ll_arp_conflict b o mac ip = Ok (if conflicts a ip then 1 else 0).
Proof.
  intros Hw H. pose proof (arp_fields _ _ _ Hw H) as (Hop & Hs & Ht).
  destruct Hw as (H1 & H2 & H3 & H4 & Ho).
  assert (Rs : rd_range b (o + 14) 4 = Ok (sender_ip a)).
  { apply rd_range_holds. unfold Zlen. rewrite H2. done. }
  assert (Rt : rd_range b (o + 24) 4 = Ok (target_ip a)).
  { apply rd_range_holds. unfold Zlen. rewrite H4. done. }
  unfold ll_arp_conflict, conflicts. rewrite (get_host16_le16 _ _ _ Hop Ho). cbn [mbind res_bind].
  destruct (arp_op a =? htons ARP_OP_REPLY), (arp_op a =? htons ARP_OP_REQUEST);
    cbn [negb andb orb]; try done; rewrite Rs; cbn [mbind res_bind];
    (destruct (of_le (sender_ip a) =? ip); [done|]); rewrite Rt; cbn [mbind res_bind orb];
    by destruct (_ && _).
Qed.

(** A received frame: the packet descriptor and the link header [hdr], with the
    ARP type, and the ARP packet. *)
Definition arp_frame (hdr : list Z) (a : arp_pkt) (tail : list Z) : list Z := hdr ++ arp_bytes a ++ tail.

Definition arp_header (hdr : list Z) : Prop := Zlen hdr = 46 /\ holds hdr 44 (le16 (htons ARP_TYPE)).

Lemma ll_handle_arp_spec hdr a tail st :
  arp_header hdr -> wf_arp a -> ll_running st <> 0 ->
  ll_handle_arp (arp_frame hdr a tail) st =
  Ok (NOT_MY_PKT, if conflicts a (ll_candidate_ip st) then LL_CONFLICT_EVENT else 0).
Proof.
  intros [Hh Ht] Hw Hr. unfold ll_handle_arp.
  assert (Ht' : holds (arp_frame hdr a tail) 44 (le16 (htons ARP_TYPE))).
  { apply holds_lookup in Ht as (_ & ? & Ht). apply holds_lookup. unfold arp_frame.
    rewrite Zlen_app. pose proof (Zlen_nonneg (arp_bytes a ++ tail)). split_and!; [lia|lia|].
    intros k Hk. rewrite <- Ht by done. apply lookup_app_l. unfold Zlen in Hh.
    change (Zlen (le16 (htons ARP_TYPE))) with 2 in *. simpl in Hk. lia. }
  change (L2_HEADER_OFFSET + L2_TYPE_OFFSET) with 44.
  rewrite (get_host16_le16 _ _ _ Ht') by by vm_compute. cbn [mbind res_bind].
  rewrite Z.eqb_refl. dec.
  assert (Ha : holds (arp_frame hdr a tail) 46 (arp_bytes a)).
  { unfold holds, arp_frame, Zlen in *. rewrite !length_app. split_and!; [lia|lia|].
    rewrite drop_app_length' by lia. by rewrite take_app_length. }
  change (L2_HEADER_OFFSET + ARP_OFFSET) with 46.
  rewrite (ll_arp_conflict_spec _ _ _ _ _ Hw Ha). cbn [mbind res_bind].
  by destruct (conflicts _ _).
Qed.

(** The packets a host sends for an address. *)
Definition probe_arp (mac : list Z) (ip : Z) : arp_pkt :=
  mkArp (htons 0x0001) (htons 0x0800) 6 4 (htons ARP_OP_REQUEST)
    mac (replicate 4 0) (replicate 6 0) (le_bytes ip).
Definition announce_arp (mac : list Z) (ip : Z) : arp_pkt :=
  mkArp (htons 0x0001) (htons 0x0800) 6 4 (htons ARP_OP_REQUEST)
    mac (le_bytes ip) (replicate 6 0) (le_bytes ip).

(** An Ethernet frame to everybody with an ARP packet. *)
Definition frame_of (mac : list Z) (a : arp_pkt) : wcb :=
  mkWcb RAW_DATA sizeof_wcb_t bcast (u16 (14 + Zlen (arp_bytes a))) (bcast ++ mac ++ [8; 6] ++ arp_bytes a).

Definition link_up (mac : list Z) (k : link) : Prop :=
  tx_buffer k = true /\ mac_status k = SYS_SUCCESS /\ mac_addr k = mac.

Lemma send_probe_frame mac k ip :
  link_up mac k -> frames (ll_send_probe k mac ip) = [out_frame (frame_of mac (probe_arp mac ip))].
Proof.
  intros (H1 & H2 & H3). unfold ll_send_probe, sys_link_sendto, sys_link_get_mac.
  rewrite H1, H2, H3. reflexivity.
Qed.

Lemma send_announce_frame mac k ip :
  link_up mac k -> frames (ll_send_announce k mac ip) = [out_frame (frame_of mac (announce_arp mac ip))].
Proof.
  intros (H1 & H2 & H3). unfold ll_send_announce, sys_link_sendto, sys_link_get_mac.
  rewrite H1, H2, H3. reflexivity.
Qed.

(** Both packets conflict with exactly their own address (and a probe with the
    address 0, which is no address). *)
Lemma probe_conflicts mac ip ip' :
  0 < ip < 4294967296 -> 0 < ip' < 4294967296 -> conflicts (probe_arp mac ip) ip' = (ip =? ip').
Proof.
  intros H H'. unfold conflicts. cbn [arp_op sender_ip target_ip probe_arp].
  rewrite of_le_bytes by lia. change (of_le (replicate 4 0)) with 0.
  rewrite (Z.eqb_refl (htons ARP_OP_REQUEST)), orb_true_r. cbn [andb].
  destruct (Z.eqb_spec 0 ip'); [lia|]. done.
Qed.

Lemma announce_conflicts mac ip ip' :
  0 < ip < 4294967296 -> 0 < ip' < 4294967296 -> conflicts (announce_arp mac ip) ip' = (ip =? ip').
Proof.
  intros H H'. unfold conflicts. cbn [arp_op sender_ip target_ip announce_arp].
  rewrite of_le_bytes by lia.
  rewrite (Z.eqb_refl (htons ARP_OP_REQUEST)), orb_true_r. cbn [andb].
  destruct (Z.eqb_spec ip 0); [lia|]. by rewrite andb_false_l, orb_false_r.
Qed.

Lemma probe_arp_wf mac ip : length mac = 6%nat -> wf_arp (probe_arp mac ip).
Proof. intros H. unfold wf_arp. cbn. by rewrite H. Qed.

Lemma announce_arp_wf mac ip : length mac = 6%nat -> wf_arp (announce_arp mac ip).
Proof. intros H. unfold wf_arp. cbn. by rewrite H. Qed.
