(* ===== verification/LinkLocalRun.v ===== *)
(** * Reachable states of the link-local thread

    The step relation, the specification of a claim ([claiming]) and the
    invariant that every step keeps: whenever the TCP/IP stack runs, the trace
    ends with a complete claim of its address. *)
From S2P Require Import Prelude.
From S2P Require Import Buffer.
From S2P Require Import Sys.
From S2P Require Import SysSpec.
From S2P Require Import LinkLocal.
From S2P Require Import LinkLocalSpec.

(** ** Worlds and steps *)

(** What happens, newest first: an address was picked (or picked again when the
    rate limit was over), the thread slept for some ticks undisturbed, a conflict
    was reported, a frame was sent. *)
Inductive tev :=
  | t_pick (ip : Z)
  | t_repick (ip : Z)
  | t_quiet (ticks : Z)
  | t_conflict
  | t_frame (f : wcb).

Record world := mkWorld {
  w_ll : ll; w_loc : ll_locals; w_sys : sys; w_pending : bool; w_trace : list tev }.

(** The frames of an output, newest first. *)
Fixpoint sent (out : list ll_out) : list tev :=
  match out with
  | [] => []
  | out_log _ _ :: out => sent out
  | out_frame f :: out => sent out ++ [t_frame f]
  end.

(** The address picked by an iteration. *)
Definition picked (st st' : ll) : list tev :=
  match ll_state st, ll_state st' with
  | LL_NO_ADDRESS, LL_PROBE => [t_pick (ll_candidate_ip st')]
  | LL_RATE_LIMITED_PROBE, LL_PROBE => [t_repick (ll_candidate_ip st')]
  | _, _ => []
  end.

Definition waited (pending : bool) (l : ll_locals) : tev :=
  if pending then t_conflict else t_quiet (ms_to_ticks (timeout l)).

Definition iteration_trace (w : world) (r : ll_result) : list tev :=
  let '(st', _, _, out) := r in
  picked (w_ll w) st' ++ sent out ++ waited (w_pending w) (w_loc w) :: w_trace w.

Definition after_iteration (w : world) (r : ll_result) : world :=
  let '(st, l, s, _) := r in mkWorld st l s false (iteration_trace w r).

(** What a wait returns: the flag if it is set, a timeout otherwise. *)
Definition wait_ok (pending : bool) (i : ll_input) : Prop :=
  if pending then wait_status i = SYS_SUCCESS /\ wait_flags i = LL_CONFLICT_EVENT
  else wait_status i = SYS_NO_EVENTS /\ wait_flags i = 0.

Inductive ll_step (mac : list Z) : world -> world -> Prop :=
  | step_packet w pkt v flags :
      ll_handle_arp pkt (w_ll w) = Ok (v, flags) ->
      ll_step mac w (mkWorld (w_ll w) (w_loc w) (w_sys w) (w_pending w || negb (flags =? 0)) (w_trace w))
  | step_loop w i r :
      wait_ok (w_pending w) i -> link_up mac (firmware i) ->
      (w_pending w = false -> timeout (w_loc w) <> SYS_FOREVER) ->
      ll_iteration i (w_ll w) (w_loc w) (w_sys w) = Ok (Some r) ->
      ll_step mac w (after_iteration w r).

Inductive ll_reach (mac : list Z) (w0 : world) : world -> Prop :=
  | reach_start : ll_reach mac w0 w0
  | reach_step w w' : ll_reach mac w0 w -> ll_step mac w w' -> ll_reach mac w0 w'.

(** ** A claim

    [claiming mac ip full n a tr]: at the end of [tr] the address [ip] was
    picked, then probed [n] times and announced [a] times, at the intervals of
    RFC 3927 and without a conflict.  [full] distinguishes the first pick from a
    pick after the rate limit. *)
Inductive claiming (mac : list Z) (ip : Z) : bool -> nat -> nat -> list tev -> Prop :=
  | claiming_pick tr : claiming mac ip true 0 0 (t_pick ip :: tr)
  | claiming_repick tr : claiming mac ip false 0 0 (t_repick ip :: tr)
  | claiming_first full w tr :
      claiming mac ip full 0 0 tr -> 0 <= w <= 100 ->
      claiming mac ip full 1 0 (t_frame (frame_of mac (probe_arp mac ip)) :: t_quiet w :: tr)
  | claiming_probe full n w tr :
      claiming mac ip full (S n) 0 tr -> 100 <= w <= 200 ->
      claiming mac ip full (S (S n)) 0 (t_frame (frame_of mac (probe_arp mac ip)) :: t_quiet w :: tr)
  | claiming_announce full n a tr :
      claiming mac ip full (S n) a tr ->
      claiming mac ip full (S n) (S a) (t_frame (frame_of mac (announce_arp mac ip)) :: t_quiet 200 :: tr).

(** ** The invariant

    [hs] are the packet handlers without the stack's own. *)
Definition inspector_first (hs : list Z) : Prop :=
  (length hs <= 3)%nat /\ Forall (fun f => f <> 0) hs /\ (eTCPRxDataHandler ∉ hs) /\ ll_handle_arp_ptr ∈ hs.

Definition stopped (hs : list Z) (s : sys) : Prop :=
  tcp_ready s = 0 /\ sys_get_ip s = 0 /\ handler_table s = table hs.

Definition started (hs : list Z) (ip : Z) (s : sys) : Prop :=
  tcp_ready s = 1 /\ sys_get_ip s = ip /\ handler_table s = table (hs ++ [eTCPRxDataHandler]).

(** The number of probes that have been sent, against the counter: they agree
    unless the address was picked after the rate limit. *)
Definition probes_counted (full : bool) (n : nat) (p : Z) : Prop :=
  0 <= Z.of_nat n <= p /\ (full = true -> p = Z.of_nat n).

Definition phase (mac hs : list Z) (w : world) : Prop :=
  let st := w_ll w in let l := w_loc w in let ip := ll_candidate_ip st in
  match ll_state st with
  | LL_NO_ADDRESS => stopped hs (w_sys w) /\ timeout l = 0
  | LL_PROBE =>
      stopped hs (w_sys w) /\ link_local ip /\
      exists full n, claiming mac ip full n 0 (w_trace w) /\ probes_counted full n (probe l) /\
        match n with O => 0 <= timeout l <= 1000 | _ => 1000 <= timeout l <= 2000 end
  | LL_ANNOUNCE =>
      stopped hs (w_sys w) /\ link_local ip /\ timeout l = 2000 /\ 0 <= announce l <= 1 /\
      exists full n, claiming mac ip full (S n) (Z.to_nat (announce l)) (w_trace w) /\
        (n <= 2)%nat /\ (full = true -> n = 2%nat)
  | LL_RATE_LIMITED_PROBE => stopped hs (w_sys w) /\ ip = 0 /\ timeout l = 60000
  | LL_STABLE =>
      link_local ip /\
      exists full n tr, claiming mac ip full (S n) 2 tr /\ (n <= 2)%nat /\ (full = true -> n = 2%nat) /\
        ((stopped hs (w_sys w) /\ timeout l = 2000 /\ w_trace w = tr) \/
         (started hs ip (w_sys w) /\ timeout l = SYS_FOREVER /\ w_trace w = t_quiet 200 :: tr))
  end.

Record ll_inv (mac hs : list Z) (w : world) : Prop := mk_ll_inv {
  li_mac : ll_mac (w_ll w) = mac;
  li_running : ll_running (w_ll w) = 1;
  li_handlers : inspector_first hs;
  li_probe : 0 <= probe (w_loc w) <= 2;
  li_phase : phase mac hs w }.

Lemma inspector_list hs : inspector_first hs -> handler_list hs.
Proof. intros (H & Hf & _). split; [lia|done]. Qed.

Lemma inspector_list_etcp hs : inspector_first hs -> handler_list (hs ++ [eTCPRxDataHandler]).
Proof. intros (H & Hf & _). apply handler_list_snoc; [split; [lia|done]|done|lia]. Qed.

(** Stopping the stack takes its handler away, starting it puts it last. *)
Lemma halt_stopped hs s :
  inspector_first hs -> handler_table s = table hs \/ handler_table s = table (hs ++ [eTCPRxDataHandler]) ->
  stopped hs (sys_tcpip_halt s).2.
Proof.
  intros Hi Hs. pose proof Hi as (_ & _ & He & _).
  destruct Hs as [Hs|Hs].
  - destruct (sys_tcpip_halt_table s hs Hs (inspector_list _ Hi)) as (s' & -> & Ht & Hr & Hip).
    split; [done|]. split; [done|]. cbn [snd]. by rewrite Ht, remove_first_notin.
  - destruct (sys_tcpip_halt_table s _ Hs (inspector_list_etcp _ Hi)) as (s' & -> & Ht & Hr & Hip).
    split; [done|]. split; [done|]. cbn [snd]. by rewrite Ht, remove_first_snoc.
Qed.

Lemma init_started hs ip mask s :
  inspector_first hs -> 0 <= ip < 4294967296 -> handler_table s = table hs ->
  exists s', sys_tcpip_init ip mask s = Ok (SYS_SUCCESS, s') /\ started hs ip s'.
Proof.
  intros Hi Hip Hs. pose proof Hi as (Hl & _ & He & _).
  destruct (sys_tcpip_init_table ip mask s hs Hip Hs (inspector_list _ Hi)) as (s' & E & Hr & Hg & _ & Ht).
  exists s'. split; [done|]. split; [done|]. split; [done|]. cbv zeta in Ht.
  rewrite remove_first_notin in Ht by done. rewrite decide_True in Ht by lia. done.
Qed.

(** ** Every step keeps the invariant *)

Definition counted (pending : bool) (l : ll_locals) : ll_locals :=
  if pending then with_conflicts l (u32 (num_conflicts l + 1)) else l.

Definition flag (pending : bool) : Z := if pending then 1 else 0.

(** One iteration once the wait has returned. *)
Definition ll_dispatch (i : ll_input) (p : bool) (st : ll) (l : ll_locals) (s : sys) : res ll_result :=
  match ll_state st with
  | LL_NO_ADDRESS => Ok (ll_no_address i st (counted p l) s)
  | LL_PROBE => Ok (ll_probe i (flag p) st (counted p l) s)
  | LL_ANNOUNCE => Ok (ll_announce i (flag p) st (counted p l) s)
  | LL_RATE_LIMITED_PROBE => Ok (ll_rate_limited i (flag p) st (counted p l) s)
  | LL_STABLE => ll_stable i (flag p) st (counted p l) s
  end.

Lemma ll_iteration_dispatch i p st l s :
  wait_ok p i -> ll_iteration i st l s = r ← ll_dispatch i p st l s; Ok (Some r).
Proof.
  intros H. unfold ll_iteration, ll_dispatch, wait_ok in *.
  destruct p; destruct H as [-> ->]; cbn; by destruct (ll_state st).
Qed.

(** The timeouts, in ticks. *)
Lemma ticks_le a b t : 0 <= a -> a * 10 <= t <= b * 10 -> t < SYS_FOREVER -> a <= ms_to_ticks t <= b.
Proof.
  intros Ha Ht Hf. unfold ms_to_ticks. rewrite (proj2 (Z.eqb_neq _ _)) by lia.
  change SYS_MSEC_PER_TICK with 10. Z.to_euclidean_division_equations; lia.
Qed.

Section preserve.
Context (mac hs : list Z) (i : ll_input).
Context (Hup : link_up mac (firmware i)) (Hhs : inspector_first hs).

(** The frame of a probe or announcement goes to the front of the trace. *)
Lemma sent_probe f ip g a :
  sent (out_log f a :: frames (ll_send_probe (firmware i) mac ip) ++ [g]) =
  sent [g] ++ [t_frame (frame_of mac (probe_arp mac ip))].
Proof. rewrite send_probe_frame by done. done. Qed.

Lemma sent_announce f ip g a :
  sent (out_log f a :: frames (ll_send_announce (firmware i) mac ip) ++ g) =
  sent g ++ [t_frame (frame_of mac (announce_arp mac ip))].
Proof. rewrite send_announce_frame by done. done. Qed.

Lemma no_address_keeps w p :
  ll_inv mac hs w -> ll_state (w_ll w) = LL_NO_ADDRESS ->
  ll_inv mac hs (after_iteration w (ll_no_address i (w_ll w) (counted p (w_loc w)) (w_sys w))).
Proof.
  intros [Hm Hr _ Hp Hph] Hs. unfold phase in Hph. rewrite Hs in Hph. destruct Hph as [Hst Ht].
  split; cbn; [done|done|done|lia|]. unfold phase. cbn. split_and!.
  - done.
  - apply ll_random_ip_link_local.
  - exists true, 0%nat. unfold picked. rewrite Hs. cbn. split; [constructor|].
    split; [done|]. apply sys_random_bounds; lia.
Qed.

Lemma rate_limited_keeps w p :
  ll_inv mac hs w -> ll_state (w_ll w) = LL_RATE_LIMITED_PROBE ->
  ll_inv mac hs (after_iteration w (ll_rate_limited i (flag p) (w_ll w) (counted p (w_loc w)) (w_sys w))).
Proof.
  intros [Hm Hr _ Hp Hph] Hs. unfold phase in Hph. rewrite Hs in Hph. destruct Hph as (Hst & Hip & Ht).
  assert (Hc : probe (counted p (w_loc w)) = probe (w_loc w)) by by destruct p.
  unfold ll_rate_limited. destruct p; cbn [flag negb Z.eqb].
  - split; [done|done|done|done|]. unfold phase. cbn. rewrite Hs. done.
  - split; cbn in *; [done|done|done|done|]. unfold phase. cbn. split_and!; [done|apply ll_random_ip_link_local|].
    exists false, 0%nat. unfold picked. cbn. rewrite Hs. cbn. split; [constructor|].
    split; [|lia]. split; [lia|done].
Qed.

(** A conflict while an address is claimed gives the address up. *)
Lemma give_up_keeps w st l s out :
  ll_inv mac hs w -> stopped hs s ->
  ll_mac st = mac -> ll_running st = 1 -> probe l = probe (w_loc w) ->
  (ll_state st = LL_NO_ADDRESS /\ timeout l = 0 \/
   ll_state st = LL_RATE_LIMITED_PROBE /\ ll_candidate_ip st = 0 /\ timeout l = 60000) ->
  ll_inv mac hs (after_iteration w (st, l, s, out)).
Proof.
  intros [Hm Hr _ Hp Hph] Hs Hm' Hr' Hp' Hst. split; cbn; [done|done|done|lia|].
  unfold phase. cbn. destruct Hst as [[-> Ht]|(-> & Hc & Ht)]; done.
Qed.

Lemma probe_keeps w :
  let p := w_pending w in
  ll_inv mac hs w -> ll_state (w_ll w) = LL_PROBE ->
  ll_inv mac hs (after_iteration w (ll_probe i (flag p) (w_ll w) (counted p (w_loc w)) (w_sys w))).
Proof.
  intros p HI Hs. pose proof HI as [Hm Hr _ Hp Hph]. unfold phase in Hph. rewrite Hs in Hph.
  destruct Hph as (Hst & Hll & full & n & Hcl & [Hn Hfull] & Ht).
  unfold ll_probe. destruct p eqn:Hpend; unfold p in Hpend.
  { cbn [flag negb Z.eqb andb].
    destruct (MAX_CONFLICTS <=? _); apply give_up_keeps; cbn; auto. }
  cbn [flag negb Z.eqb andb counted].
  assert (Hframe : forall w0, (match n with O => 0 <= w0 <= 100 | _ => 100 <= w0 <= 200 end) ->
    claiming mac (ll_candidate_ip (w_ll w)) full (S n) 0
      (t_frame (frame_of mac (probe_arp mac (ll_candidate_ip (w_ll w)))) :: t_quiet w0 :: w_trace w)).
  { intros w0 Hw. destruct n; constructor; done. }
  assert (Hw : match n with O => 0 <= ms_to_ticks (timeout (w_loc w)) <= 100
               | _ => 100 <= ms_to_ticks (timeout (w_loc w)) <= 200 end).
  { destruct n; apply ticks_le; unfold SYS_FOREVER, TX_WAIT_FOREVER; lia. }
  specialize (Hframe _ Hw).
  destruct (Z.eqb_spec (probe (w_loc w)) (PROBE_NUM - 1)) as [E|E]; unfold PROBE_NUM in E.
  - split; cbn -[sent frames sys_random u32 frame_of]; [done|done|done|lia|]. unfold phase. cbn -[sent frames sys_random u32 frame_of]. split_and!; [done|done|done|lia|lia|].
    exists full, n. unfold picked. rewrite Hs, Hm, sent_probe, Hpend. cbn -[frame_of].
    split; [exact Hframe|]. split; [lia|]. intros Hf. specialize (Hfull Hf). lia.
  - rewrite (proj2 (Z.ltb_lt _ _)) by (unfold PROBE_NUM; lia).
    split; cbn -[sent frames sys_random u32 frame_of]; [done|done|done| |].
    { rewrite u32_id by lia. lia. }
    unfold phase. cbn -[sent frames sys_random u32 frame_of]. rewrite Hs. split_and!; [done|done|].
    exists full, (S n). unfold picked. rewrite Hs, Hm, sent_probe, Hpend. cbn -[sys_random u32 frame_of].
    split; [exact Hframe|]. split.
    + rewrite u32_id by lia. split; [lia|]. intros Hf. specialize (Hfull Hf). lia.
    + apply sys_random_bounds; unfold PROBE_MIN, PROBE_MAX; lia.
Qed.

Lemma announce_keeps w :
  let p := w_pending w in
  ll_inv mac hs w -> ll_state (w_ll w) = LL_ANNOUNCE ->
  ll_inv mac hs (after_iteration w (ll_announce i (flag p) (w_ll w) (counted p (w_loc w)) (w_sys w))).
Proof.
  intros p HI Hs. pose proof HI as [Hm Hr _ Hp Hph]. unfold phase in Hph. rewrite Hs in Hph.
  destruct Hph as (Hst & Hll & Ht & Ha & full & n & Hcl & Hn & Hfull).
  unfold ll_announce. destruct p eqn:Hpend; unfold p in Hpend.
  { cbn [flag negb Z.eqb andb].
    destruct (MAX_CONFLICTS <=? _); apply give_up_keeps; cbn; auto. }
  cbn [flag negb Z.eqb andb counted].
  assert (Hframe : claiming mac (ll_candidate_ip (w_ll w)) full (S n) (S (Z.to_nat (announce (w_loc w))))
      (t_frame (frame_of mac (announce_arp mac (ll_candidate_ip (w_ll w)))) :: t_quiet 200 :: w_trace w)).
  { by constructor. }
  destruct (Z.eqb_spec (announce (w_loc w)) (ANNOUNCE_NUM - 1)) as [E|E]; unfold ANNOUNCE_NUM in E.
  - split; cbn -[sent frames sys_random u32 frame_of]; [done|done|done|lia|]. unfold phase. cbn -[sent frames sys_random u32 frame_of]. split; [done|].
    exists full, n. unfold waited. rewrite Hpend, Hm, Ht.
    rewrite <- (app_nil_r (frames _)), sent_announce. unfold picked. rewrite Hs. cbn -[frame_of].
    rewrite E in Hframe. eexists. split; [exact Hframe|]. split; [lia|]. split; [done|]. left. done.
  - rewrite (proj2 (Z.ltb_lt _ _)) by (unfold ANNOUNCE_NUM; lia).
    assert (E0 : announce (w_loc w) = 0) by lia. rewrite E0 in *. change (u32 (0 + 1)) with 1.
    split; cbn -[sent frames sys_random u32 frame_of]; [done|done|done|lia|]. unfold phase. cbn -[sent frames sys_random u32 frame_of]. rewrite Hs. split_and!; [done|done|done|lia|lia|].
    exists full, n. unfold picked, waited. rewrite Hs, Hm, sent_announce, Hpend, Ht. cbn -[frame_of].
    split; [exact Hframe|]. done.
Qed.

Lemma stable_keeps w :
  let p := w_pending w in
  ll_inv mac hs w -> ll_state (w_ll w) = LL_STABLE ->
  (p = false -> timeout (w_loc w) <> SYS_FOREVER) ->
  exists r, ll_stable i (flag p) (w_ll w) (counted p (w_loc w)) (w_sys w) = Ok r /\ ll_inv mac hs (after_iteration w r).
Proof.
  intros p HI Hs Hnf. pose proof HI as [Hm Hr _ Hp Hph]. unfold phase in Hph. rewrite Hs in Hph.
  destruct Hph as (Hll & full & n & tr & Hcl & Hn & Hfull & Hsys).
  unfold ll_stable. destruct p eqn:Hpend; unfold p in Hpend.
  - cbn [flag negb Z.eqb]. assert (Hh : stopped hs (sys_tcpip_halt (w_sys w)).2).
    { apply halt_stopped; [done|]. destruct Hsys as [((_ & _ & ?) & _)|((_ & _ & ?) & _)]; auto. }
    destruct (sys_tcpip_halt (w_sys w)) as [x s']. eexists. split; [done|].
    apply give_up_keeps; auto.
  - cbn [flag negb Z.eqb counted].
    destruct Hsys as [((_ & _ & Htab) & Ht & Htr)|(_ & Ht & _)]; [|by destruct Hnf].
    destruct (init_started hs (ll_candidate_ip (w_ll w)) LL_NETMASK (w_sys w)) as (s' & E & Hstart).
    { done. } { pose proof (link_local_range _ Hll). lia. } { done. }
    rewrite E. cbn. eexists. split; [done|]. split; cbn; [done|done|done|done|].
    unfold phase. cbn. rewrite Hs. split; [done|]. exists full, n, tr.
    split; [done|]. split; [done|]. split; [done|]. right. split; [done|]. split; [done|].
    unfold picked, waited. rewrite Hs, Hpend, Ht, Htr. done.
Qed.
End preserve.

(** An iteration never leaves the handler table, and keeps the invariant. *)
Lemma ll_iteration_keeps mac hs w i :
  ll_inv mac hs w -> wait_ok (w_pending w) i -> link_up mac (firmware i) ->
  (w_pending w = false -> timeout (w_loc w) <> SYS_FOREVER) ->
  exists r, ll_iteration i (w_ll w) (w_loc w) (w_sys w) = Ok (Some r) /\ ll_inv mac hs (after_iteration w r).
Proof.
  intros HI Hw Hup Hnf. pose proof (li_handlers _ _ _ HI) as Hhs.
  rewrite (ll_iteration_dispatch _ _ _ _ _ Hw).
  assert (H : exists r, ll_dispatch i (w_pending w) (w_ll w) (w_loc w) (w_sys w) = Ok r /\
    ll_inv mac hs (after_iteration w r)).
  { unfold ll_dispatch. destruct (ll_state (w_ll w)) eqn:Hs;
      [..|by apply stable_keeps]; (eexists; split; [done|]);
      eauto using no_address_keeps, probe_keeps, announce_keeps, rate_limited_keeps. }
  destruct H as (r & E & HI'). exists r. by rewrite E.
Qed.

Lemma ll_step_keeps mac hs w w' : ll_inv mac hs w -> ll_step mac w w' -> ll_inv mac hs w'.
Proof.
  intros HI Hst. destruct Hst as [w pkt v f Hp|w i r Hw Hup Hnf E].
  - destruct HI as [? ? ? ? ?]. by split.
  - destruct (ll_iteration_keeps mac hs w i HI Hw Hup Hnf) as (r' & E' & HI').
    rewrite E in E'. by simplify_eq.
Qed.

Lemma ll_reach_inv mac hs w w' : ll_inv mac hs w -> ll_reach mac w w' -> ll_inv mac hs w'.
Proof. intros HI. induction 1; eauto using ll_step_keeps. Qed.

(** ** The launch *)

(** The world after a launch that succeeded. *)
Definition ll_start (garbage : Z) (st : ll) (s : sys) : world :=
  mkWorld st (ll_main_locals garbage) s false [].

Lemma ll_init_inv ticks k est tst st s hs st' s' calls garbage :
  handler_table s = table hs -> handler_list hs -> NoDup hs -> ll_handle_arp_ptr ∉ hs ->
  (length (remove_first eTCPRxDataHandler hs) <= 2)%nat ->
  ll_init ticks k est tst st s = Ok (SYS_SUCCESS, st', s', calls) ->
  ll_inv (mac_addr k) (remove_first eTCPRxDataHandler hs ++ [ll_handle_arp_ptr]) (ll_start garbage st' s').
Proof.
  intros Ht Hl Hnd Hin Hlen H. unfold ll_init in H.
  destruct (negb (ll_running st =? 0)); [by simplify_eq|].
  destruct (sys_tcpip_halt_table s hs Ht Hl) as (s1 & E1 & Ht1 & Hr1 & Hip1). rewrite E1 in H.
  set (hs1 := remove_first eTCPRxDataHandler hs) in *.
  assert (Hl1 : handler_list hs1) by by apply remove_first_list.
  unfold sys_link_get_mac in H.
  destruct (mac_status k =? SYS_SUCCESS) eqn:Hm; cbn [negb] in H.
  2: { b2p. simplify_eq. }
  unfold sys_add_rx_pkt_handler in H. rewrite Ht1, install_table, decide_True in H by (done || lia).
  cbn in H. destruct (est =? SYS_SUCCESS) eqn:He; cbn in H; [|destruct (sys_remove_rx_pkt_handler _ _); b2p; by simplify_eq].
  destruct (tst =? SYS_SUCCESS) eqn:Hts; cbn in H; [|destruct (sys_remove_rx_pkt_handler _ _); b2p; by simplify_eq].
  simplify_eq. split; cbn; [done|done| |lia|].
  - unfold inspector_first. rewrite length_app, Forall_app. split_and!; [simpl; lia|apply Hl1|by apply Forall_cons_2| |].
    + rewrite elem_of_app, list_elem_of_singleton. intros [He'|He']; [|done].
      by apply remove_first_NoDup in He'.
    + rewrite elem_of_app, list_elem_of_singleton. by right.
  - unfold phase, stopped, sys_get_ip in *. cbn. done.
Qed.

(** ** Runs as functions *)

#[global] Instance wait_ok_dec p i : Decision (wait_ok p i).
Proof. unfold wait_ok. destruct p; apply _. Defined.

#[global] Instance link_up_dec mac k : Decision (link_up mac k).
Proof. unfold link_up. apply _. Defined.

(** A packet that is received, or an iteration of the loop. *)
Inductive ll_act := a_packet (pkt : list Z) | a_loop (i : ll_input).

(** Do the given actions; [None] if one of them cannot occur. *)
Fixpoint ll_run (mac : list Z) (acts : list ll_act) (w : world) : option world :=
  match acts with
  | [] => Some w
  | a_packet pkt :: acts =>
      match ll_handle_arp pkt (w_ll w) with
      | Ok (_, flags) =>
          ll_run mac acts
            (mkWorld (w_ll w) (w_loc w) (w_sys w) (w_pending w || negb (flags =? 0)) (w_trace w))
      | _ => None
      end
  | a_loop i :: acts =>
      if decide (wait_ok (w_pending w) i /\ link_up mac (firmware i) /\
                 (w_pending w = false -> timeout (w_loc w) <> SYS_FOREVER)) then
        match ll_iteration i (w_ll w) (w_loc w) (w_sys w) with
        | Ok (Some r) => ll_run mac acts (after_iteration w r)
        | _ => None
        end
      else None
  end.

Lemma ll_reach_trans mac w1 w2 w3 : ll_reach mac w1 w2 -> ll_reach mac w2 w3 -> ll_reach mac w1 w3.
Proof. induction 2; eauto using ll_reach. Qed.

Lemma ll_run_reach mac acts w w' : ll_run mac acts w = Some w' -> ll_reach mac w w'.
Proof.
  revert w. induction acts as [|[pkt|i] acts IH]; simpl; intros w H; [simplify_eq; constructor|..].
  - destruct (ll_handle_arp pkt (w_ll w)) as [[v f]| |] eqn:E; [|done..].
    eapply ll_reach_trans; [|by apply IH]. eapply reach_step; [constructor|]. by econstructor.
  - case_decide as Hd; [|done]. destruct Hd as (Hw & Hup & Hnf).
    destruct (ll_iteration _ _ _ _) as [[r|]| |] eqn:E; [|done..].
    eapply ll_reach_trans; [|by apply IH]. eapply reach_step; [constructor|]. by econstructor.
Qed.

(** ** Progress

    The iterations that are left until the stack starts, if no conflict comes. *)
Definition remaining (w : world) : Z :=
  match ll_state (w_ll w) with
  | LL_NO_ADDRESS => 7
  | LL_RATE_LIMITED_PROBE => 7 - probe (w_loc w)
  | LL_PROBE => 6 - probe (w_loc w)
  | LL_ANNOUNCE => 3 - announce (w_loc w)
  | LL_STABLE => if tcp_ready (w_sys w) =? 0 then 1 else 0
  end.

(** The ticks that passed in the waits of a trace. *)
Fixpoint elapsed (tr : list tev) : Z :=
  match tr with
  | [] => 0
  | t_quiet n :: tr => n + elapsed tr
  | _ :: tr => elapsed tr
  end.

Lemma elapsed_app a b : elapsed (a ++ b) = elapsed a + elapsed b.
Proof. induction a as [|[] a IH]; simpl; lia. Qed.

Lemma elapsed_sent out : elapsed (sent out) = 0.
Proof. induction out as [|[] out IH]; simpl; [done|done|]. rewrite elapsed_app. simpl. lia. Qed.

Lemma elapsed_iteration w r :
  w_pending w = false ->
  elapsed (w_trace (after_iteration w r)) = ms_to_ticks (timeout (w_loc w)) + elapsed (w_trace w).
Proof.
  intros H. destruct r as [[[st l] s] out]. cbn. rewrite !elapsed_app, elapsed_sent. cbn.
  unfold waited. rewrite H. unfold picked. by destruct (ll_state (w_ll w)), (ll_state st).
Qed.

Definition rate_limited (w : world) : Prop := ll_state (w_ll w) = LL_RATE_LIMITED_PROBE.

(** No wait on the way is long, except for the rate limit. *)
Lemma quiet_wait mac hs w :
  ll_inv mac hs w -> 0 < remaining w ->
  timeout (w_loc w) <> SYS_FOREVER /\
  ms_to_ticks (timeout (w_loc w)) <= (if decide (rate_limited w) then 6000 else 200).
Proof.
  intros HI Hrem. pose proof (li_phase _ _ _ HI) as Hph. unfold rate_limited.
  assert (Ht : 0 <= timeout (w_loc w) <= 2000 \/
    ll_state (w_ll w) = LL_RATE_LIMITED_PROBE /\ timeout (w_loc w) = 60000).
  { unfold phase, remaining, started in *. destruct (ll_state (w_ll w)); [lia| |lia|tauto|].
    - destruct Hph as (_ & _ & full & n & _ & _ & Ht). destruct n; lia.
    - destruct Hph as (_ & full & n & tr & _ & _ & _ & [(_ & Ht & _)|((Hr & _) & _)]); [lia|].
      rewrite Hr in Hrem. simpl in Hrem. lia. }
  destruct Ht as [Ht|[-> Ht]].
  - pose proof (ticks_le 0 200 (timeout (w_loc w)) ltac:(lia) ltac:(lia)
      ltac:(unfold SYS_FOREVER, TX_WAIT_FOREVER; lia)).
    split; [unfold SYS_FOREVER, TX_WAIT_FOREVER; lia|]. case_decide; lia.
  - rewrite Ht. split; [done|]. by rewrite decide_True.
Qed.

(** A quiet iteration brings the address one step closer. *)
Lemma quiet_iteration mac hs w i :
  ll_inv mac hs w -> w_pending w = false -> 0 < remaining w -> wait_ok false i -> link_up mac (firmware i) ->
  exists r, ll_iteration i (w_ll w) (w_loc w) (w_sys w) = Ok (Some r) /\
    ll_inv mac hs (after_iteration w r) /\ remaining (after_iteration w r) = remaining w - 1 /\
    ~ rate_limited (after_iteration w r).
Proof.
  intros HI Hp Hrem Hw Hup. pose proof (quiet_wait _ _ _ HI Hrem) as [Hnf _].
  rewrite <- Hp in Hw. destruct (ll_iteration_keeps mac hs w i HI Hw Hup (fun _ => Hnf)) as (r & E & HI').
  exists r. split; [done|]. split; [done|]. rewrite Hp in Hw.
  rewrite (ll_iteration_dispatch _ _ _ _ _ Hw) in E. unfold ll_dispatch in E.
  pose proof (li_phase _ _ _ HI) as Hph. pose proof (li_probe _ _ _ HI) as Hpr.
  unfold phase, stopped, rate_limited, remaining in *. destruct (ll_state (w_ll w)) eqn:Hs; cbn in E.
  - by simplify_eq.
  - simplify_eq. unfold ll_probe. cbn [negb Z.eqb andb]. unfold PROBE_NUM.
    destruct (Z.eqb_spec (probe (w_loc w)) (3 - 1)); [cbn; split; [lia|done]|].
    rewrite (proj2 (Z.ltb_lt _ _)) by lia. cbn -[u32 sys_random]. rewrite Hs, u32_id by lia. split; [lia|done].
  - destruct Hph as ((Hr & _) & _ & _ & Ha & _). simplify_eq.
    unfold ll_announce. cbn [negb Z.eqb andb]. unfold ANNOUNCE_NUM.
    destruct (Z.eqb_spec (announce (w_loc w)) (2 - 1)).
    + cbn. rewrite Hr. cbn. split; [lia|done].
    + rewrite (proj2 (Z.ltb_lt _ _)) by lia. cbn -[u32]. rewrite Hs, u32_id by lia. split; [lia|done].
  - simplify_eq. cbn. split; [lia|done].
  - destruct Hph as (Hll & full & n & tr & _ & _ & _ & [((Hr & _ & Htab) & _)|((Hr & _) & _)]).
    2: { rewrite Hr in Hrem. simpl in Hrem. lia. }
    destruct (init_started hs (ll_candidate_ip (w_ll w)) LL_NETMASK (w_sys w)) as (s' & Ei & Hst & _).
    { by apply (li_handlers _ _ _ HI). } { pose proof (link_local_range _ Hll). lia. } { done. }
    unfold ll_stable in E. rewrite Ei in E. cbn in E. simplify_eq. cbn. rewrite Hs, Hst, Hr. done.
Qed.

(** Without conflicts the stack is started, after [remaining w] iterations. *)
Lemma quiet_run mac hs ins w :
  ll_inv mac hs w -> w_pending w = false -> Zlen ins = remaining w ->
  Forall (fun i => wait_ok false i /\ link_up mac (firmware i)) ins ->
  exists w', ll_run mac (a_loop <$> ins) w = Some w' /\ ll_inv mac hs w' /\ remaining w' = 0 /\
    elapsed (w_trace w') <= elapsed (w_trace w) + 200 * remaining w + (if decide (rate_limited w) then 5800 else 0).
Proof.
  intros HI Hp Hlen Hins. revert w HI Hp Hlen. induction Hins as [|i ins [Hw Hup] _ IH]; intros w HI Hp Hlen.
  { exists w. unfold Zlen in Hlen. simpl in Hlen. split_and!; [done|done|done|]. case_decide; lia. }
  rewrite Zlen_cons in Hlen. pose proof (Zlen_nonneg ins).
  destruct (quiet_wait mac hs w HI) as [Hnf Hticks]; [lia|].
  destruct (quiet_iteration mac hs w i) as (r & E & HI' & Hrem & Hnr); [done|done|lia|done|done|].
  assert (Hp' : w_pending (after_iteration w r) = false) by by destruct r as [[[? ?] ?] ?].
  destruct (IH (after_iteration w r)) as (w' & Hrun & HI'' & Hrem' & Hel); [done|done|lia|].
  exists w'. simpl. rewrite decide_True by (rewrite Hp; done). rewrite E.
  split_and!; [done|done|done|]. rewrite elapsed_iteration in Hel by done.
  rewrite (decide_False (P := rate_limited (after_iteration w r))) in Hel by done.
  case_decide; lia.
Qed.
