(* ===== verification/LinkLocalTheorems.v ===== *)
(** * Link-local addresses: the claims

    What RFC 3927 asks of a host, for every reachable state of the thread, and
    the places where linklocal.c does not follow it. *)
From S2P Require Import Prelude.
From S2P Require Import Buffer.
From S2P Require Import Sys.
From S2P Require Import SysSpec.
From S2P Require Import LinkLocal.
From S2P Require Import LinkLocalSpec.
From S2P Require Import LinkLocalRun.
From Stdlib Require String.
Import (notations) String.

(** The random address is always in 169.254.1.0 to 169.254.254.255, as the
    comment says, and every address of that range can come out: the bits of the
    generator are scaled without a gap. *)
Theorem ll_random_ip_correct ip :
  link_local ip <->
  exists r1 r2, 0 <= r1 < 4294967296 /\ 0 <= r2 < 4294967296 /\ ll_random_ip r1 r2 = ip.
Proof.
  split.
  - intros (b & c & Hb & Hc & ->). exists (random_for 0 255 c), (random_for 1 254 b).
    split; [apply random_for_range; lia|]. split; [apply random_for_range; lia|].
    unfold ll_random_ip. rewrite !sys_random_reaches by lia. by rewrite ll_random_ip_sum by lia.
  - intros (r1 & r2 & _ & _ & <-). apply ll_random_ip_link_local.
Qed.

(** C11: after a successful launch, whatever packets and conflicts arrive, as long
    as every frame can be sent (the firmware has a free buffer and tells the MAC
    address), the TCP/IP stack only ever runs with an address of the link-local range
    that was picked, probed and announced twice at the intervals of RFC 3927 with no
    conflict handled since it was picked (one may be pending, and is handled in the
    next iteration); the claim has all three probes unless the
    address was picked after the rate limit; and the ARP inspector comes before
    the stack's own packet handler.  No iteration faults. *)
Theorem ll_address_claimed ticks k est tst st s hs st' s' calls garbage w :
  handler_table s = table hs -> handler_list hs -> NoDup hs -> ll_handle_arp_ptr ∉ hs ->
  (length (remove_first eTCPRxDataHandler hs) <= 2)%nat ->
  ll_init ticks k est tst st s = Ok (SYS_SUCCESS, st', s', calls) ->
  ll_reach (mac_addr k) (ll_start garbage st' s') w ->
  (tcp_ready (w_sys w) = 0 /\ sys_get_ip (w_sys w) = 0 \/
   tcp_ready (w_sys w) = 1 /\ link_local (sys_get_ip (w_sys w)) /\
   ll_candidate_ip (w_ll w) = sys_get_ip (w_sys w) /\
   (exists full n tr,
      w_trace w = t_quiet 200 :: tr /\
      claiming (mac_addr k) (sys_get_ip (w_sys w)) full n 2 tr /\
      (1 <= n <= 3)%nat /\ (full = true -> n = 3%nat)) /\
   handler_table (w_sys w) =
     table (remove_first eTCPRxDataHandler hs ++ [ll_handle_arp_ptr] ++ [eTCPRxDataHandler])) /\
  forall i, wait_ok (w_pending w) i -> link_up (mac_addr k) (firmware i) ->
    (w_pending w = false -> timeout (w_loc w) <> SYS_FOREVER) ->
    exists r, ll_iteration i (w_ll w) (w_loc w) (w_sys w) = Ok (Some r).
Proof.
  intros Ht Hl Hnd Hin Hlen Hinit Hreach.
  pose proof (ll_init_inv _ _ _ _ _ _ _ _ _ _ garbage Ht Hl Hnd Hin Hlen Hinit) as HI0.
  pose proof (ll_reach_inv _ _ _ _ HI0 Hreach) as HI. split.
  - pose proof (li_phase _ _ _ HI) as Hp. unfold phase, stopped in Hp.
    destruct (ll_state (w_ll w)).
    1-4: left; tauto.
    destruct Hp as (Hll & full & n & tr & Hcl & Hn & Hf & [(? & _)|((Hr & Hg & Htab) & _ & Htr)]); [left; tauto|].
    right. rewrite Hg. split_and!; [done|done|done| |by rewrite app_assoc].
    exists full, (S n), tr. split_and!; [done|done|lia|lia|]. intros Hfull. by rewrite (Hf Hfull).
  - intros i Hw Hup Hnf. destruct (ll_iteration_keeps _ _ _ _ HI Hw Hup Hnf) as (r & E & _). eauto.
Qed.

(** A state that other hosts' packets can find: the address is being claimed or
    in use. *)
Definition has_candidate (w : world) : Prop :=
  ll_state (w_ll w) = LL_PROBE \/ ll_state (w_ll w) = LL_ANNOUNCE \/ ll_state (w_ll w) = LL_STABLE.

(** The address is given up and the stack does not run. *)
Definition gave_up (r : ll_result) : Prop :=
  let '(st, l, s, out) := r in
  tcp_ready s = 0 /\ sys_get_ip s = 0 /\ sent out = [] /\
  (ll_state st = LL_NO_ADDRESS /\ timeout l = 0 \/
   ll_state st = LL_RATE_LIMITED_PROBE /\ ll_candidate_ip st = 0 /\ timeout l = 60000).

Lemma conflict_gives_up mac hs w i :
  ll_inv mac hs w -> has_candidate w -> wait_ok true i -> link_up mac (firmware i) ->
  exists r, ll_iteration i (w_ll w) (w_loc w) (w_sys w) = Ok (Some r) /\ gave_up r.
Proof.
  intros HI Hc Hw Hup. rewrite (ll_iteration_dispatch _ _ _ _ _ Hw). unfold ll_dispatch.
  pose proof (li_phase _ _ _ HI) as Hph. unfold phase, stopped in Hph.
  destruct Hc as [Hs|[Hs|Hs]]; rewrite Hs in *.
  - destruct Hph as ((Hr & Hip & _) & _). eexists. split; [done|].
    unfold ll_probe. cbn [flag negb Z.eqb andb]. destruct (MAX_CONFLICTS <=? _); cbn; auto 10.
  - destruct Hph as ((Hr & Hip & _) & _). eexists. split; [done|].
    unfold ll_announce. cbn [flag negb Z.eqb andb]. destruct (MAX_CONFLICTS <=? _); cbn; auto 10.
  - destruct Hph as (_ & full & n & tr & _ & _ & _ & Hsys).
    assert (Hh : stopped hs (sys_tcpip_halt (w_sys w)).2).
    { apply halt_stopped; [by apply (li_handlers _ _ _ HI)|].
      destruct Hsys as [((_ & _ & ?) & _)|((_ & _ & ?) & _)]; auto. }
    unfold ll_stable. cbn [flag negb Z.eqb].
    destruct (sys_tcpip_halt (w_sys w)) as [x s']. destruct Hh as (Hr & Hip & _).
    eexists. split; [done|]. cbn. auto 10.
Qed.

(** C21: a probe or an announcement of another host raises the conflict flag
    exactly when it is for the address that is being claimed or in use, and the
    next iteration then gives the address up: the stack is stopped and unconfigured,
    and the thread picks a new address or, after many conflicts, waits a minute. *)
Theorem ll_conflict_detected mac hs w0 w other ip a hdr tail :
  ll_inv mac hs w0 -> ll_reach mac w0 w -> has_candidate w ->
  length other = 6%nat -> link_local ip -> a = probe_arp other ip \/ a = announce_arp other ip ->
  arp_header hdr ->
  ll_handle_arp (arp_frame hdr a tail) (w_ll w) =
    Ok (NOT_MY_PKT, if ip =? ll_candidate_ip (w_ll w) then LL_CONFLICT_EVENT else 0) /\
  (ip = ll_candidate_ip (w_ll w) ->
   forall i, wait_ok true i -> link_up mac (firmware i) ->
     exists r, ll_iteration i (w_ll w) (w_loc w) (w_sys w) = Ok (Some r) /\ gave_up r).
Proof.
  intros HI0 Hreach Hc Hlen Hip Ha Hh. pose proof (ll_reach_inv _ _ _ _ HI0 Hreach) as HI.
  split; [|intros _ i Hw Hup; by eapply conflict_gives_up].
  assert (Hcand : link_local (ll_candidate_ip (w_ll w))).
  { pose proof (li_phase _ _ _ HI) as Hph. unfold phase in Hph.
    destruct Hc as [Hs|[Hs|Hs]]; rewrite Hs in Hph; tauto. }
  pose proof (link_local_range _ Hip). pose proof (link_local_range _ Hcand).
  assert (Hrun : ll_running (w_ll w) <> 0) by (rewrite (li_running _ _ _ HI); done).
  destruct Ha as [->| ->]; rewrite ll_handle_arp_spec; auto using probe_arp_wf, announce_arp_wf.
  - by rewrite probe_conflicts by lia.
  - by rewrite announce_conflicts by lia.
Qed.

(** C16: from every reachable state, if no conflict comes any more the address is
    claimed and the stack started after at most seven iterations, within 14
    seconds (72 when the thread is rate-limited). *)
Theorem ll_acquires_address mac hs w0 w ins :
  ll_inv mac hs w0 -> ll_reach mac w0 w -> w_pending w = false ->
  Zlen ins = remaining w ->
  Forall (fun i => wait_ok false i /\ link_up mac (firmware i)) ins ->
  remaining w <= 7 /\
  exists w', ll_run mac (a_loop <$> ins) w = Some w' /\ ll_state (w_ll w') = LL_STABLE /\
    tcp_ready (w_sys w') = 1 /\ link_local (sys_get_ip (w_sys w')) /\
    elapsed (w_trace w') - elapsed (w_trace w) <= (if decide (rate_limited w) then 7200 else 1400).
Proof.
  intros HI0 Hreach Hp Hlen Hins. pose proof (ll_reach_inv _ _ _ _ HI0 Hreach) as HI.
  assert (Hrem : remaining w <= 7).
  { pose proof (li_probe _ _ _ HI). pose proof (li_phase _ _ _ HI) as Hph. unfold remaining, phase in *.
    destruct (ll_state (w_ll w)); try lia. by destruct (tcp_ready (w_sys w) =? 0). }
  split; [done|].
  destruct (quiet_run mac hs ins w HI Hp Hlen Hins) as (w' & Hrun & HI' & Hrem' & Hel).
  exists w'. split; [done|].
  pose proof (li_probe _ _ _ HI') as Hpr. pose proof (li_phase _ _ _ HI') as Hph.
  unfold phase, stopped, started, remaining in Hph, Hrem'. destruct (ll_state (w_ll w')); [lia|lia|lia|lia|].
  destruct Hph as (Hll & full & n & tr & _ & _ & _ & [((Hr & _) & _)|((Hr & Hg & _) & _)]).
  { rewrite Hr in Hrem'. done. }
  rewrite Hg. split_and!; [done|done|done|]. case_decide; lia.
Qed.

(** Launching and shutting down again leaves the packet handlers as they were,
    without the stack's own, and the module ready for another launch. *)
Theorem ll_init_shutdown ticks ticks' k est tst st s hs st' s' calls :
  handler_table s = table hs -> handler_list hs -> NoDup hs -> ll_handle_arp_ptr ∉ hs ->
  (length (remove_first eTCPRxDataHandler hs) <= 2)%nat ->
  ll_init ticks k est tst st s = Ok (SYS_SUCCESS, st', s', calls) ->
  handler_table s' = table (remove_first eTCPRxDataHandler hs ++ [ll_handle_arp_ptr]) /\
  exists st2 s2 calls',
    ll_shutdown ticks' st' s' = (SYS_SUCCESS, st2, s2, calls') /\ ll_running st2 = 0 /\
    tcp_ready s2 = 0 /\ handler_table s2 = table (remove_first eTCPRxDataHandler hs).
Proof.
  intros Ht Hl Hnd Hin Hlen Hinit.
  pose proof (ll_init_inv _ _ _ _ _ _ _ _ _ _ 0 Ht Hl Hnd Hin Hlen Hinit) as [_ _ Hins _ Hph].
  assert (Hin' : ll_handle_arp_ptr ∉ remove_first eTCPRxDataHandler hs).
  { intros Hx. by eapply elem_of_sublist in Hx; [|apply remove_first_sub]. }
  set (hs1 := remove_first eTCPRxDataHandler hs) in *.
  assert (Htab : handler_table s' = table (hs1 ++ [ll_handle_arp_ptr])).
  { unfold phase in Hph. cbn in Hph. destruct (ll_state st') eqn:Hs.
    all: try (destruct Hph as ((_ & _ & ?) & _); done).
    destruct Hph as (_ & full & n & tr & _ & _ & _ & [((_ & _ & ?) & _)|(_ & _ & Htr)]); done. }
  split; [done|]. unfold ll_shutdown, sys_remove_rx_pkt_handler.
  pose proof (remove_table_snd ll_handle_arp_ptr _ (inspector_list _ Hins) ltac:(done)) as Hrem.
  rewrite remove_first_snoc in Hrem by done. rewrite Htab.
  destruct (mli_removeCustomRxDataHandler _ _) as [x h]. cbn [snd] in Hrem. subst h.
  assert (Hl1 : handler_list hs1) by by apply remove_first_list.
  destruct (sys_tcpip_halt_table (with_handlers s' (table hs1)) hs1 eq_refl Hl1) as (s2 & -> & Ht2 & Hr2 & _).
  eexists _, s2, _. split; [done|]. split; [done|]. split; [done|].
  rewrite Ht2, remove_first_notin; [done|]. by apply remove_first_NoDup.
Qed.

(** ** A concrete host *)

Definition my_mac : list Z := [0x00; 0x50; 0x43; 0x20; 0x01; 0x02].
Definition peer_mac : list Z := [0x00; 0x50; 0x43; 0x20; 0x07; 0x08].
Definition my_link : link := mkLink true SYS_SUCCESS my_mac.
Definition ll_reset : ll := mkLl LL_NO_ADDRESS 0 (replicate 6 0) 0.
(** The stack runs with an address that somebody configured. *)
Definition sys_up : sys :=
  mkSys (table [eTCPRxDataHandler]) [192; 168; 1; 4] [255; 255; 255; 0] (replicate 4 0) 1 0 None 0.

Definition quiet_in : ll_input := mkIn SYS_NO_EVENTS 0 0 0 0 0 0 my_link.
Definition conflict_in : ll_input := mkIn SYS_SUCCESS LL_CONFLICT_EVENT 0 0 0 0 0 my_link.

Definition ll_launched : Z * ll * sys :=
  match ll_init 0 my_link SYS_SUCCESS SYS_SUCCESS ll_reset sys_up with
  | Ok (ret, st, s, _) => (ret, st, s)
  | _ => (SYS_FAIL, ll_reset, sys_up)
  end.
Definition my_start : world := ll_start 0 ll_launched.1.2 ll_launched.2.

(** The address these inputs pick, and a peer's announcement of it. *)
Definition my_ip : Z := ll_random_ip 0 0.
Definition my_header : list Z := replicate 44 0 ++ le16 (htons ARP_TYPE).
Definition peer_claim : list Z := arp_frame my_header (announce_arp peer_mac my_ip) [].

Definition quiet (n : nat) : list ll_act := replicate n (a_loop quiet_in).
Definition clash : list ll_act := [a_packet peer_claim; a_loop conflict_in].
Definition my_world (acts : list ll_act) : world := default my_start (ll_run my_mac acts my_start).

Definition my_calls : list tx_call :=
  [ll_log "LL %d: Initializing\r\n"%string [0]; tx_event_flags_create 0; tx_thread_create 0].

Lemma my_launch : ll_init 0 my_link SYS_SUCCESS SYS_SUCCESS ll_reset sys_up =
  Ok (SYS_SUCCESS, ll_launched.1.2, ll_launched.2, my_calls).
Proof. reflexivity. Qed.

Lemma my_handlers : handler_list [eTCPRxDataHandler].
Proof. split; [simpl; lia|]. by apply Forall_cons_2. Qed.

Lemma my_start_inv : ll_inv my_mac [ll_handle_arp_ptr] my_start.
Proof.
  refine (ll_init_inv 0 my_link SYS_SUCCESS SYS_SUCCESS ll_reset sys_up [eTCPRxDataHandler] _ _ _ 0
    eq_refl my_handlers _ _ _ my_launch).
  - apply NoDup_singleton.
  - by_eval.
  - simpl. lia.
Qed.

Lemma my_reach acts w : ll_run my_mac acts my_start = Some w -> ll_reach my_mac my_start w.
Proof. apply ll_run_reach. Qed.

Lemma ll_address_claimed_witness : link_local (sys_get_ip (w_sys (my_world (quiet 7)))).
Proof.
  destruct (ll_address_claimed 0 my_link SYS_SUCCESS SYS_SUCCESS ll_reset sys_up [eTCPRxDataHandler]
    ll_launched.1.2 ll_launched.2 my_calls 0 (my_world (quiet 7)) eq_refl my_handlers) as [[[H _]|H] _].
  - apply NoDup_singleton.
  - by_eval.
  - simpl. lia.
  - exact my_launch.
  - apply my_reach with (acts := quiet 7). vm_compute. reflexivity.
  - vm_compute in H. discriminate H.
  - destruct H as (_ & H & _). exact H.
Defined.

Lemma ll_conflict_detected_witness :
  ll_handle_arp peer_claim (w_ll (my_world (quiet 3))) = Ok (NOT_MY_PKT, LL_CONFLICT_EVENT) /\
  exists r, ll_iteration conflict_in (w_ll (my_world (quiet 3))) (w_loc (my_world (quiet 3)))
    (w_sys (my_world (quiet 3))) = Ok (Some r) /\ gave_up r.
Proof.
  destruct (ll_conflict_detected my_mac [ll_handle_arp_ptr] my_start (my_world (quiet 3)) peer_mac my_ip
    (announce_arp peer_mac my_ip) my_header [] my_start_inv) as [H1 H2].
  - apply my_reach with (acts := quiet 3). vm_compute. reflexivity.
  - left. vm_compute. reflexivity.
  - reflexivity.
  - apply ll_random_ip_link_local.
  - right. reflexivity.
  - split; [reflexivity|by_eval].
  - split; [exact H1|]. apply H2; [vm_compute; reflexivity|split; reflexivity|split_and!; reflexivity].
Defined.

Lemma ll_acquires_address_witness :
  exists w', ll_run my_mac (a_loop <$> replicate 4 quiet_in) (my_world (quiet 3)) = Some w' /\
    tcp_ready (w_sys w') = 1.
Proof.
  destruct (ll_acquires_address my_mac [ll_handle_arp_ptr] my_start (my_world (quiet 3)) (replicate 4 quiet_in)
    my_start_inv) as [_ (w' & H1 & _ & H2 & _)].
  - apply my_reach with (acts := quiet 3). vm_compute. reflexivity.
  - vm_compute. reflexivity.
  - vm_compute. reflexivity.
  - apply Forall_replicate. split; [split; reflexivity|split_and!; reflexivity].
  - exists w'. split; [exact H1|exact H2].
Defined.

Lemma ll_init_shutdown_witness :
  handler_table ll_launched.2 = table [ll_handle_arp_ptr] /\
  exists st2 s2 calls', ll_shutdown 0 ll_launched.1.2 ll_launched.2 = (SYS_SUCCESS, st2, s2, calls') /\
    ll_running st2 = 0 /\ tcp_ready s2 = 0 /\ handler_table s2 = table [].
Proof.
  apply (ll_init_shutdown 0 0 my_link SYS_SUCCESS SYS_SUCCESS ll_reset sys_up [eTCPRxDataHandler]
    ll_launched.1.2 ll_launched.2 my_calls eq_refl my_handlers).
  - apply NoDup_singleton.
  - by_eval.
  - simpl. lia.
  - exact my_launch.
Defined.

(** ** Where linklocal.c departs from RFC 3927 *)

(** Ten conflicts while probing and announcing, then quiet. *)
Definition unlucky : list ll_act :=
  concat (replicate 9 (quiet 2 ++ clash)) ++ quiet 4 ++ clash ++ quiet 5.

(** The rate limit does not reset the probe counter: a host that met its
    tenth conflict while it was announcing claims the next address after a single
    probe, although PROBE_NUM is 3. *)
Theorem ll_rate_limit_skips_probes :
  exists w tr, ll_reach my_mac my_start w /\ tcp_ready (w_sys w) = 1 /\
    w_trace w = t_quiet 200 :: tr /\ claiming my_mac (sys_get_ip (w_sys w)) false 1 2 tr.
Proof.
  set (probed := t_frame (frame_of my_mac (probe_arp my_mac my_ip))).
  set (announced := t_frame (frame_of my_mac (announce_arp my_mac my_ip))).
  exists (my_world unlucky), ([announced; t_quiet 200; announced; t_quiet 200; probed; t_quiet 0; t_repick my_ip]
    ++ drop 8 (w_trace (my_world unlucky))).
  split; [apply my_reach with (acts := unlucky); vm_compute; reflexivity|].
  split; [vm_compute; reflexivity|]. split; [vm_compute; reflexivity|].
  assert (E : sys_get_ip (w_sys (my_world unlucky)) = my_ip) by (vm_compute; reflexivity). rewrite E.
  do 2 apply claiming_announce. apply claiming_first; [|lia]. apply claiming_repick.
Qed.

(** The loop without regard to what the firmware does with the frames. *)
Fixpoint ll_loop (ins : list ll_input) (st : ll) (l : ll_locals) (s : sys) : res ll_result :=
  match ins with
  | [] => Ok (st, l, s, [])
  | i :: ins =>
      r ← ll_iteration i st l s;
      match r with
      | None => Ok (st, l, s, [])
      | Some (st, l, s, out) =>
          '(st, l, s, out') ← ll_loop ins st l s;
          Ok (st, l, s, out ++ out')
      end
  end.

Definition deaf_in : ll_input := mkIn SYS_NO_EVENTS 0 0 0 0 0 0 (mkLink false SYS_SUCCESS my_mac).

(** The result of sending a probe or an announcement is ignored: with no free
    transmit buffer the thread claims an address and starts the stack although not
    one frame left the host. *)
Theorem ll_claims_without_sending :
  exists st l s out,
    ll_loop (replicate 7 deaf_in) ll_launched.1.2 (ll_main_locals 0) ll_launched.2 = Ok (st, l, s, out) /\
    sent out = [] /\ tcp_ready s = 1 /\ link_local (sys_get_ip s).
Proof.
  eexists _, _, _, _. split; [vm_compute; reflexivity|]. split; [reflexivity|]. split; [reflexivity|].
  exists 1, 0. split_and!; (lia || reflexivity).
Qed.

(** In the rate-limited state the candidate is 0, which is also the sender
    address of every ARP probe: any probe of any host for any address counts as a
    conflict and starts the minute again, so a link on which hosts keep probing
    keeps this host without an address. *)
Theorem ll_rate_limit_prolonged mac hs w0 w other ip hdr tail i :
  ll_inv mac hs w0 -> ll_reach mac w0 w -> rate_limited w ->
  length other = 6%nat -> arp_header hdr -> wait_ok true i -> link_up mac (firmware i) ->
  ll_handle_arp (arp_frame hdr (probe_arp other ip) tail) (w_ll w) = Ok (NOT_MY_PKT, LL_CONFLICT_EVENT) /\
  exists l, ll_iteration i (w_ll w) (w_loc w) (w_sys w) = Ok (Some (w_ll w, l, w_sys w, [])) /\ timeout l = 60000.
Proof.
  intros HI0 Hreach Hrl Hlen Hh Hw Hup. pose proof (ll_reach_inv _ _ _ _ HI0 Hreach) as HI.
  pose proof (li_phase _ _ _ HI) as Hph. unfold rate_limited in Hrl. unfold phase in Hph. rewrite Hrl in Hph.
  destruct Hph as (_ & Hc & _). split.
  - rewrite ll_handle_arp_spec, Hc; auto using probe_arp_wf. rewrite (li_running _ _ _ HI). done.
  - rewrite (ll_iteration_dispatch _ _ _ _ _ Hw). unfold ll_dispatch. rewrite Hrl.
    eexists. unfold ll_rate_limited. cbn. rewrite <- Hc at 1. split; [by destruct (w_ll w)|done].
Qed.

Lemma ll_rate_limit_prolonged_witness :
  let w := my_world (concat (replicate 10 (quiet 2 ++ clash))) in
  rate_limited w /\
  ll_handle_arp (arp_frame my_header (probe_arp peer_mac (my_ip + 65536)) []) (w_ll w) =
    Ok (NOT_MY_PKT, LL_CONFLICT_EVENT).
Proof.
  split; [vm_compute; reflexivity|].
  refine (proj1 (ll_rate_limit_prolonged my_mac [ll_handle_arp_ptr] my_start _ peer_mac (my_ip + 65536) my_header []
    conflict_in my_start_inv _ _ _ _ _ _)).
  - apply my_reach with (acts := concat (replicate 10 (quiet 2 ++ clash))). vm_compute. reflexivity.
  - vm_compute. reflexivity.
  - reflexivity.
  - split; [reflexivity|by_eval].
  - split; reflexivity.
  - split_and!; reflexivity.
Defined.

(** A launch that fails after the inspector was installed takes the inspector
    away again, but still marks the module as running: no later launch succeeds. *)
Theorem ll_init_failure_sticks ticks k est tst st s hs :
  handler_table s = table hs -> handler_list hs -> ll_running st = 0 ->
  mac_status k = SYS_SUCCESS -> (length (remove_first eTCPRxDataHandler hs) < 4)%nat ->
  est <> SYS_SUCCESS \/ tst <> SYS_SUCCESS ->
  exists ret st' s' calls,
    ll_init ticks k est tst st s = Ok (ret, st', s', calls) /\ ret <> SYS_SUCCESS /\
    forall ticks' k' est' tst' s'',
      exists calls', ll_init ticks' k' est' tst' st' s'' = Ok (SYS_FAIL, st', s'', calls').
Proof.
  intros Ht Hl Hrun Hm Hlen Hfail. unfold ll_init at 1. rewrite Hrun. cbn [negb Z.eqb].
  destruct (sys_tcpip_halt_table s hs Ht Hl) as (s1 & -> & Ht1 & _).
  unfold sys_link_get_mac. rewrite Hm. cbn [negb Z.eqb SYS_SUCCESS TX_SUCCESS].
  unfold sys_add_rx_pkt_handler. rewrite Ht1, install_table, decide_True by (done || by apply remove_first_list).
  cbn. destruct (Z.eqb_spec est SYS_SUCCESS) as [->|He]; cbn.
  - destruct Hfail as [|Htst]; [done|]. rewrite (proj2 (Z.eqb_neq _ _) Htst). cbn.
    destruct (sys_remove_rx_pkt_handler _ _) as [x s2]. eexists _, _, _, _. split; [done|].
    split; [done|]. intros. by eexists.
  - destruct (sys_remove_rx_pkt_handler _ _) as [x s2]. eexists _, _, _, _. split; [done|].
    split; [done|]. intros. by eexists.
Qed.

Lemma ll_init_failure_sticks_witness :
  exists ret st' s' calls,
    ll_init 0 my_link SYS_SUCCESS TX_NO_MEMORY ll_reset sys_up = Ok (ret, st', s', calls) /\ ret <> SYS_SUCCESS /\
    forall ticks' k' est' tst' s'',
      exists calls', ll_init ticks' k' est' tst' st' s'' = Ok (SYS_FAIL, st', s'', calls').
Proof.
  apply (ll_init_failure_sticks 0 my_link SYS_SUCCESS TX_NO_MEMORY ll_reset sys_up [eTCPRxDataHandler] eq_refl
    my_handlers).
  - reflexivity.
  - reflexivity.
  - simpl. lia.
  - right. discriminate.
Defined.
