(* ===== verification/Log.v ===== *)
(** * The circular log (log.c)

    Components of the embedded port write lines to a buffer of 512 bytes that
    keeps the most recent ones.  [logst] holds the static variables.  The
    statuses of the mutex calls are arguments, and so is the text that
    [vsnprintf] produces for a format and its arguments: [None] is an encoding
    error, [Some s] the complete text, of which the function keeps what fits.

    [log_hist st h] relates the buffer to the abstract log, the bytes [h] written
    since the last purge: the buffer shows the last 511 of them. *)
From S2P Require Import Prelude.
From S2P Require Import Buffer.
From S2P Require Import Sys.

Definition LOG_SIZE : Z := 512.
Definition MAX_LOG_LINE : Z := 128.

Record logst := mkLog { log_buffer : list Z; wp : Z; rp : Z; log_running : Z }.

Definition LOG_INCREMENT (num inc : Z) : Z := Z.land (num + inc) (LOG_SIZE - 1).

Definition log_init (created : Z) (st : logst) : Z * logst :=
  if negb (log_running st =? 0) then (SYS_SUCCESS, st)
  else
    let buf := replicate (Z.to_nat LOG_SIZE) 0 in
    if created =? SYS_SUCCESS then (created, mkLog buf 0 0 1)
    else (created, mkLog buf (wp st) (rp st) (log_running st)).

Definition log_purge (got released : Z) (st : logst) : Z * logst :=
  if negb (got =? SYS_SUCCESS) then (got, st)
  else (released, mkLog (replicate (Z.to_nat LOG_SIZE) 0) 0 0 (log_running st)).

(** [vsnprintf(str, size, ...)] for the text [s]: it stores the first [size - 1]
    bytes and a 0, and returns the length of the whole text. *)
Definition vsnprintf (str : list Z) (size : Z) (s : list Z) : res (list Z * Z) :=
  str ← wr_range str 0 (take (Z.to_nat (size - 1)) s ++ [0]);
  Ok (str, Zlen s).

(** [stack]: what [final_str] holds before it is written. *)
Definition log (stack : list Z) (got released : Z) (text : option (list Z)) (st : logst) : res (Z * logst) :=
  if log_running st =? 0 then Ok (SYS_SUCCESS, st)
  else if negb (got =? SYS_SUCCESS) then Ok (got, st)
  else
    match text with
    | None => Ok (SYS_FAIL, st)
    | Some s =>
        '(final_str, len) ← vsnprintf stack MAX_LOG_LINE s;
        '(final_str, len) ←
          (if MAX_LOG_LINE <? len then
             final_str ← wr final_str (MAX_LOG_LINE - 1) 0; Ok (final_str, MAX_LOG_LINE - 2)
           else Ok (final_str, len));
        let space :=
          if rp st =? wp st then LOG_SIZE - 1
          else if rp st <? wp st then LOG_SIZE - (wp st - rp st) - 1
          else rp st - wp st - 1 in
        let len := if LOG_SIZE - 1 <? len then LOG_SIZE - 1 else len in
        '(buf, wp') ←
          (if len <? u32 (LOG_SIZE - wp st) then
             data ← rd_range final_str 0 len;
             buf ← wr_range (log_buffer st) (wp st) data;
             Ok (buf, u32 (wp st + len))
           else
             data ← rd_range final_str 0 (LOG_SIZE - wp st);
             buf ← wr_range (log_buffer st) (wp st) data;
             data ← rd_range final_str (LOG_SIZE - wp st) (len - (LOG_SIZE - wp st));
             buf ← wr_range buf 0 data;
             Ok (buf, u32 (len - (LOG_SIZE - wp st))));
        let rp' := if space <? len then LOG_INCREMENT wp' 1 else rp st in
        Ok (released, mkLog buf wp' rp' (log_running st))
    end.

(** The loop of [log_dump]: the characters it prints. *)
Fixpoint dump_loop (fuel : nat) (buf : list Z) (ptr wp : Z) : res (list Z) :=
  match fuel with
  | O => Diverge
  | S fuel =>
      if ptr =? wp then Ok []
      else
        c ← rd buf ptr;
        cs ← dump_loop fuel buf (LOG_INCREMENT ptr 1) wp;
        Ok (c :: cs)
  end.

(** [rp] is read before the mutex is taken: [before] is the log at the call and
    [st] the log once the mutex is held. *)
Definition log_dump (fuel : nat) (before : logst) (got released : Z) (st : logst) : res (Z * list Z) :=
  let ptr := rp before in
  if negb (got =? SYS_SUCCESS) then Ok (got, [])
  else
    out ← dump_loop fuel (log_buffer st) ptr (wp st);
    Ok (released, out).

Definition log_shutdown (got deleted : Z) (st : logst) : Z * logst :=
  if negb (got =? SYS_SUCCESS) then (got, st)
  else (deleted, mkLog (log_buffer st) (wp st) (rp st) 0).

(** ** The abstract log *)

(** What is stored of a line: a line of exactly 128 bytes loses its last byte to
    the terminating 0, which is stored as well; a longer one is cut to 126. *)
Definition stored (s : list Z) : list Z :=
  if Zlen s <? MAX_LOG_LINE then s
  else if Zlen s =? MAX_LOG_LINE then take 127 s ++ [0]
  else take 126 s.

(** The last 511 bytes. *)
Definition recent (h : list Z) : list Z := drop (length h - 511) h.

Record log_hist (st : logst) (h : list Z) : Prop := mk_hist {
  lh_len : Zlen (log_buffer st) = LOG_SIZE;
  lh_wp : wp st = Zlen h mod 512;
  lh_rp : rp st = if Zlen h <? 512 then 0 else (Zlen h + 1) mod 512;
  lh_bytes : forall i, (length h - 512 <= i < length h)%nat ->
    log_buffer st !! Z.to_nat (Z.of_nat i mod 512) = h !! i }.

Lemma LOG_INCREMENT_mod n : 0 <= n -> LOG_INCREMENT n 1 = (n + 1) mod 512.
Proof.
  intros. unfold LOG_INCREMENT, LOG_SIZE. change (512 - 1) with (Z.ones 9).
  by rewrite Z.land_ones by lia.
Qed.

Lemma stored_len s : 0 <= Zlen (stored s) <= 128.
Proof.
  unfold stored, MAX_LOG_LINE. pose proof (Zlen_nonneg s). repeat case_match; b2p.
  - lia.
  - rewrite Zlen_app. change (Zlen [0]) with 1. unfold Zlen in *. rewrite length_take. lia.
  - unfold Zlen in *. rewrite length_take. lia.
Qed.

Lemma log_init_hist created st :
  log_running st = 0 -> created = SYS_SUCCESS ->
  exists st', log_init created st = (SYS_SUCCESS, st') /\ log_hist st' [] /\ log_running st' = 1.
Proof.
  intros Hr ->. unfold log_init. rewrite Hr. cbn. eexists. split; [done|].
  split; [|done]. split; [done|done|done|]. intros i Hi. simpl in Hi. lia.
Qed.

Lemma log_purge_hist released st :
  exists st', log_purge SYS_SUCCESS released st = (released, st') /\ log_hist st' [] /\
    log_running st' = log_running st.
Proof.
  eexists. split; [done|]. split; [|done]. split; [done|done|done|]. intros i Hi. simpl in Hi. lia.
Qed.

(** ** Writing a line *)

(** What [final_str] holds when the line is copied. *)
Lemma final_str_spec stack s :
  Zlen stack = 128 -> exists final_str,
    (('(final_str, len) ← vsnprintf stack MAX_LOG_LINE s;
      if MAX_LOG_LINE <? len then
        final_str ← wr final_str (MAX_LOG_LINE - 1) 0; Ok (final_str, MAX_LOG_LINE - 2)
      else Ok (final_str, len)) = Ok (final_str, Zlen (stored s))) /\
    holds final_str 0 (stored s).
Proof.
  intros Hst. unfold vsnprintf.
  destruct (wr_range_exists stack 0 (take (Z.to_nat (MAX_LOG_LINE - 1)) s ++ [0])) as [f Hf]; [lia| |].
  { rewrite Zlen_app. change (Zlen [0]) with 1. unfold Zlen in *. rewrite length_take.
    unfold MAX_LOG_LINE. lia. }
  rewrite Hf. cbn [mbind res_bind]. pose proof (wr_range_Zlen _ _ _ _ Hf) as Hlen.
  apply wr_range_holds in Hf. change (Z.to_nat (MAX_LOG_LINE - 1)) with 127%nat in Hf.
  unfold stored. change MAX_LOG_LINE with 128. pose proof (Zlen_nonneg s).
  destruct (Z.ltb_spec (Zlen s) 128); [|destruct (Z.eqb_spec (Zlen s) 128) as [E|E]].
  - dec. exists f. split; [done|]. rewrite take_ge in Hf by (unfold Zlen in *; lia).
    by apply holds_app in Hf as [? _].
  - dec. exists f. split; [|done]. rewrite Zlen_app. change (Zlen [0]) with 1.
    f_equal. f_equal. unfold Zlen in *. rewrite length_take. lia.
  - dec. unfold wr. destruct (wr_range_exists f (128 - 1) [u8 0]) as [f' Hf']; [lia|rewrite Hlen, Hst; done|].
    rewrite Hf'. cbn [mbind res_bind]. exists f'. split.
    + f_equal. f_equal. unfold Zlen in *. rewrite length_take. lia.
    + apply holds_app in Hf as [Hf _].
      assert (Ht : take 127 s = take 126 s ++ drop 126 (take 127 s)).
      { rewrite <- (take_drop 126 (take 127 s)) at 1. by rewrite take_take. }
      rewrite Ht, holds_app in Hf. destruct Hf as [Hf _].
      eapply wr_range_frame; [exact Hf'| |exact Hf]. left. unfold Zlen in *. rewrite length_take. lia.
Qed.

(** Writing [line] at [w], around the end of the buffer. *)
Lemma wrap_write buf f line w :
  Zlen buf = LOG_SIZE -> 0 <= w < 512 -> holds f 0 line -> Zlen line <= 128 ->
  let len := Zlen line in
  exists buf',
    (if len <? u32 (LOG_SIZE - w) then
       data ← rd_range f 0 len;
       buf ← wr_range buf w data;
       Ok (buf, u32 (w + len))
     else
       data ← rd_range f 0 (LOG_SIZE - w);
       buf ← wr_range buf w data;
       data ← rd_range f (LOG_SIZE - w) (len - (LOG_SIZE - w));
       buf ← wr_range buf 0 data;
       Ok (buf, u32 (len - (LOG_SIZE - w)))) = Ok (buf', (w + len) mod 512) /\
    Zlen buf' = LOG_SIZE /\
    forall p, 0 <= p < 512 ->
      buf' !! Z.to_nat p = if (p - w) mod 512 <? len then line !! Z.to_nat ((p - w) mod 512) else buf !! Z.to_nat p.
Proof.
  intros Hb Hw Hf Hl len. pose proof (Zlen_nonneg line) as Hl0. fold len in Hl, Hl0.
  unfold LOG_SIZE in *. rewrite u32_id by lia.
  destruct (Z.ltb_spec len (512 - w)) as [Hs|Hs].
  - rewrite (proj2 (rd_range_holds _ _ _ line)) by done. cbn [mbind res_bind].
    destruct (wr_range_exists buf w line) as [buf' Hw']; [lia|unfold len in *; lia|].
    rewrite Hw'. cbn [mbind res_bind]. exists buf'. split; [|split].
    + rewrite u32_id by lia. by rewrite Z.mod_small by lia.
    + by rewrite (wr_range_Zlen _ _ _ _ Hw').
    + intros p Hp. apply wr_range_inv in Hw' as (_ & _ & ->).
      assert (Hlw : length (take (Z.to_nat w) buf) = Z.to_nat w).
      { rewrite length_take. unfold Zlen in Hb. lia. }
      destruct (Z.lt_ge_cases p w) as [Hlt|Hge].
      * rewrite lookup_app_l by lia. rewrite lookup_take_lt by lia.
        replace ((p - w) mod 512) with (p - w + 512) by (Z.to_euclidean_division_equations; lia).
        by rewrite (proj2 (Z.ltb_ge _ _)) by lia.
      * rewrite (Z.mod_small (p - w)) by lia. rewrite lookup_app_r, Hlw by lia.
        destruct (Z.ltb_spec (p - w) len) as [Hin|Hout].
        -- rewrite lookup_app_l by (unfold len, Zlen in *; lia). f_equal. lia.
        -- rewrite lookup_app_r, lookup_drop by (unfold len, Zlen in *; lia). f_equal.
           unfold len, Zlen in *. lia.
  - set (l1 := take (Z.to_nat (512 - w)) line). set (l2 := drop (Z.to_nat (512 - w)) line).
    assert (Hsplit : line = l1 ++ l2) by (symmetry; apply take_drop).
    assert (H1 : Zlen l1 = 512 - w).
    { unfold l1, len, Zlen in *. rewrite length_take. lia. }
    assert (H2 : Zlen l2 = len - (512 - w)).
    { unfold l2, len, Zlen in *. rewrite length_drop. lia. }
    rewrite Hsplit, holds_app, H1 in Hf. destruct Hf as [Hf1 Hf2].
    rewrite (proj2 (rd_range_holds f 0 (512 - w) l1) ltac:(split; [lia|done])). cbn [mbind res_bind].
    destruct (wr_range_exists buf w l1) as [b1 Hb1]; [lia|lia|].
    rewrite Hb1. cbn [mbind res_bind]. pose proof (wr_range_Zlen _ _ _ _ Hb1) as Hlen1.
    rewrite (proj2 (rd_range_holds f (512 - w) (len - (512 - w)) l2) ltac:(split; [lia|done])). cbn [mbind res_bind].
    destruct (wr_range_exists b1 0 l2) as [buf' Hw']; [lia|lia|].
    rewrite Hw'. cbn [mbind res_bind]. exists buf'. split; [|split].
    + rewrite u32_id by lia. do 2 f_equal. Z.to_euclidean_division_equations; lia.
    + rewrite (wr_range_Zlen _ _ _ _ Hw'). lia.
    + intros p Hp. apply wr_range_inv in Hw' as (_ & _ & ->). apply wr_range_inv in Hb1 as (_ & _ & Eb1).
      rewrite take_0. change ([] ++ ?x) with x. rewrite Nat.add_0_l, Hsplit.
      assert (Hlw : length (take (Z.to_nat w) buf) = Z.to_nat w).
      { rewrite length_take. unfold Zlen in Hb. lia. }
      destruct (Z.lt_ge_cases p w) as [Hlt|Hge].
      * replace ((p - w) mod 512) with (p - w + 512) by (Z.to_euclidean_division_equations; lia).
        destruct (Z.ltb_spec (p - w + 512) len) as [Hin|Hout].
        -- rewrite lookup_app_l by (unfold Zlen in *; lia).
           rewrite lookup_app_r by (unfold Zlen in *; lia). f_equal. unfold Zlen in *. lia.
        -- rewrite lookup_app_r, lookup_drop by (unfold Zlen in *; lia).
           replace (length l2 + (Z.to_nat p - length l2))%nat with (Z.to_nat p) by (unfold Zlen in *; lia).
           rewrite Eb1, lookup_app_l by lia. by rewrite lookup_take_lt by lia.
      * rewrite (Z.mod_small (p - w)) by lia. rewrite (proj2 (Z.ltb_lt _ _)) by lia.
        rewrite lookup_app_r, lookup_drop by (unfold Zlen in *; lia).
        replace (length l2 + (Z.to_nat p - length l2))%nat with (Z.to_nat p) by (unfold Zlen in *; lia).
        rewrite Eb1, lookup_app_r, Hlw by lia.
        rewrite !lookup_app_l by (unfold Zlen in *; lia). f_equal. lia.
Qed.

(** The space that is left is what the history leaves of 511 bytes. *)
Lemma space_spec st h :
  log_hist st h ->
  (if rp st =? wp st then LOG_SIZE - 1
   else if rp st <? wp st then LOG_SIZE - (wp st - rp st) - 1
   else rp st - wp st - 1) = if Zlen h <? 512 then 511 - Zlen h else 0.
Proof.
  intros [_ Hw Hr _]. rewrite Hw, Hr. unfold LOG_SIZE. pose proof (Zlen_nonneg h).
  destruct (Z.ltb_spec (Zlen h) 512).
  - rewrite Z.mod_small by lia. repeat case_match; b2p; lia.
  - repeat case_match; b2p; Z.to_euclidean_division_equations; lia.
Qed.

Lemma log_hist_append st h line buf' rp' run :
  log_hist st h -> Zlen line <= 128 -> Zlen buf' = LOG_SIZE ->
  (forall p, 0 <= p < 512 ->
    buf' !! Z.to_nat p =
    if (p - wp st) mod 512 <? Zlen line then line !! Z.to_nat ((p - wp st) mod 512)
    else log_buffer st !! Z.to_nat p) ->
  rp' = (if Zlen (h ++ line) <? 512 then 0 else (Zlen (h ++ line) + 1) mod 512) ->
  log_hist (mkLog buf' ((wp st + Zlen line) mod 512) rp' run) (h ++ line).
Proof.
  intros [Hlen Hw Hr Hbytes] Hline Hb Hbuf Hrp. split; cbn [log_buffer wp rp]; [done| |done|].
  - rewrite Hw, Zlen_app. by rewrite Zplus_mod_idemp_l.
  - intros i Hi. rewrite length_app in Hi.
    assert (Hp : 0 <= Z.of_nat i mod 512 < 512) by (apply Z.mod_pos_bound; lia).
    rewrite Hbuf by done. rewrite Hw, <- Zminus_mod.
    unfold Zlen in *. destruct (decide (i < length h)%nat) as [Hlt|Hge].
    + replace ((Z.of_nat i - Z.of_nat (length h)) mod 512) with (512 + Z.of_nat i - Z.of_nat (length h))
        by (Z.to_euclidean_division_equations; lia).
      rewrite (proj2 (Z.ltb_ge _ _)) by lia. rewrite lookup_app_l by lia. apply Hbytes. lia.
    + rewrite Z.mod_small by lia. rewrite (proj2 (Z.ltb_lt _ _)) by lia.
      rewrite lookup_app_r by lia. f_equal. lia.
Qed.

Lemma log_appends stack released st h s :
  Zlen stack = 128 -> log_running st = 1 -> log_hist st h ->
  exists st', log stack SYS_SUCCESS released (Some s) st = Ok (released, st') /\
    log_hist st' (h ++ stored s) /\ log_running st' = 1.
Proof.
  intros Hst Hrun Hh. unfold log. rewrite Hrun. cbn [Z.eqb negb SYS_SUCCESS TX_SUCCESS].
  destruct (final_str_spec stack s Hst) as (f & Ef & Hf).
  destruct (vsnprintf stack MAX_LOG_LINE s) as [[f0 len0]| |]; [|done|done].
  cbn [mbind res_bind] in *. rewrite Ef. cbn [mbind res_bind].
  pose proof (stored_len s) as Hlen. pose proof (Zlen_nonneg h).
  rewrite (space_spec _ _ Hh).
  replace (LOG_SIZE - 1 <? Zlen (stored s)) with false by (symmetry; apply Z.ltb_ge; unfold LOG_SIZE; lia).
  pose proof Hh as [Hb Hw Hr _].
  destruct (wrap_write (log_buffer st) f (stored s) (wp st)) as (buf' & E & Hb' & Hbuf).
  { done. } { rewrite Hw. apply Z.mod_pos_bound. lia. } { done. } { lia. }
  rewrite E. cbn [mbind res_bind]. eexists. split; [done|]. split; [|done].
  apply log_hist_append; [done|lia|done|done|]. rewrite Hr, Zlen_app.
  assert (Hinc : LOG_INCREMENT ((wp st + Zlen (stored s)) mod 512) 1 = (Zlen h + Zlen (stored s) + 1) mod 512).
  { rewrite LOG_INCREMENT_mod by (apply Z.mod_pos_bound; lia).
    rewrite Hw. Z.to_euclidean_division_equations; lia. }
  rewrite Hinc. repeat case_match; b2p; (done || lia || (Z.to_euclidean_division_equations; lia)).
Qed.

(** ** Reading the log *)

Lemma dump_loop_from st h j fuel :
  log_hist st h -> (j <= length h)%nat -> (length h - j <= 511)%nat -> (length h - j < fuel)%nat ->
  dump_loop fuel (log_buffer st) (Z.of_nat j mod 512) (wp st) = Ok (drop j h).
Proof.
  intros Hh. pose proof Hh as [Hb Hw _ Hbytes]. revert j.
  induction fuel as [|fuel IH]; intros j Hj Hd Hf; [lia|]. simpl. rewrite Hw. unfold Zlen in *.
  destruct (decide (j = length h)) as [->|Hne].
  - by rewrite Z.eqb_refl, drop_ge.
  - rewrite (proj2 (Z.eqb_neq _ _)) by (Z.to_euclidean_division_equations; lia).
    destruct (lookup_lt_is_Some_2 h j) as [c Hc]; [lia|].
    unfold rd. rewrite (proj2 (Z.ltb_ge _ _)) by (apply Z.mod_pos_bound; lia).
    rewrite Hbytes by lia. rewrite Hc. cbn [mbind res_bind].
    rewrite LOG_INCREMENT_mod by (apply Z.mod_pos_bound; lia).
    replace ((Z.of_nat j mod 512 + 1) mod 512) with (Z.of_nat (S j) mod 512).
    2: { rewrite Zplus_mod_idemp_l. f_equal. lia. }
    rewrite <- Hw, IH by lia. cbn [mbind res_bind]. by rewrite (drop_S h c j Hc).
Qed.

Lemma log_dump_recent fuel released st h :
  log_hist st h -> (512 <= fuel)%nat ->
  log_dump fuel st SYS_SUCCESS released st = Ok (released, recent h).
Proof.
  intros Hh Hf. unfold log_dump. cbn [negb Z.eqb SYS_SUCCESS TX_SUCCESS].
  assert (Hr : rp st = Z.of_nat (length h - 511) mod 512).
  { rewrite (lh_rp _ _ Hh). unfold Zlen. case_match; b2p.
    - replace (length h - 511)%nat with 0%nat by lia. done.
    - replace (Z.of_nat (length h - 511)) with (Z.of_nat (length h) + 1 + (-1) * 512) by lia.
      by rewrite Z.mod_add by lia. }
  rewrite Hr, (dump_loop_from st h) by (done || lia). done.
Qed.

(** ** The log against its specification *)

Inductive log_op := op_log (text : option (list Z)) | op_purge.

(** What an operation does to the bytes logged so far. *)
Definition log_spec (h : list Z) (op : log_op) : list Z :=
  match op with
  | op_log (Some s) => h ++ stored s
  | op_log None => h
  | op_purge => []
  end.

Fixpoint log_run (stack : list Z) (ops : list log_op) (st : logst) : res logst :=
  match ops with
  | [] => Ok st
  | op_log text :: ops =>
      '(_, st) ← log stack SYS_SUCCESS SYS_SUCCESS text st;
      log_run stack ops st
  | op_purge :: ops => log_run stack ops (log_purge SYS_SUCCESS SYS_SUCCESS st).2
  end.

Lemma log_run_hist stack ops st h :
  Zlen stack = 128 -> log_running st = 1 -> log_hist st h ->
  exists st', log_run stack ops st = Ok st' /\ log_hist st' (foldl log_spec h ops) /\ log_running st' = 1.
Proof.
  intros Hs. revert st h. induction ops as [|[[s|]|] ops IH]; intros st h Hr Hh; simpl; [eauto|..].
  - destruct (log_appends stack SYS_SUCCESS st h s Hs Hr Hh) as (st' & -> & Hh' & Hr'). by apply IH.
  - unfold log. rewrite Hr. cbn. by apply IH.
  - destruct (log_purge_hist SYS_SUCCESS st) as (st' & E & Hh' & Hr'). injection E as <-.
    apply IH; [done|]. exact Hh'.
Qed.

(** C22: the circular buffer implements a log that keeps the most recent 511 bytes:
    after a start, any sequence of lines (formatting errors included) and purges,
    a dump prints exactly the last 511 bytes of the lines stored since the last
    purge.  No operation leaves the buffer, and the dump loop ends. *)
Theorem log_refines_recent stack ops st fuel released :
  Zlen stack = 128 -> log_running st = 0 -> (512 <= fuel)%nat ->
  exists st', log_run stack ops (log_init SYS_SUCCESS st).2 = Ok st' /\
    log_dump fuel st' SYS_SUCCESS released st' = Ok (released, recent (foldl log_spec [] ops)).
Proof.
  intros Hs Hr Hf. destruct (log_init_hist SYS_SUCCESS st Hr eq_refl) as (st0 & E & Hh0 & Hr0).
  rewrite E. cbn [snd]. destruct (log_run_hist stack ops st0 [] Hs Hr0 Hh0) as (st' & Erun & Hh & _).
  exists st'. split; [done|]. by apply log_dump_recent.
Qed.

(** A sample log: [n] lines of [len] bytes [c]. *)
Definition log_zero : logst := mkLog (replicate 512 0) 0 0 0.
Definition log_lines (n len : nat) (c : Z) : list log_op := replicate n (op_log (Some (replicate len c))).

Lemma log_refines_recent_witness :
  exists st', log_run (replicate 128 0) (log_lines 6 100 65) (log_init SYS_SUCCESS log_zero).2 = Ok st' /\
    log_dump 512 st' SYS_SUCCESS 0 st' = Ok (0, replicate 511 65).
Proof.
  apply (log_refines_recent (replicate 128 0) (log_lines 6 100 65) log_zero 512 0).
  - reflexivity.
  - reflexivity.
  - lia.
Defined.

(** [log_dump] reads the read pointer before it takes the mutex.  If another
    thread logs a line in between and the buffer wraps, the dump starts in the
    middle of the new line: it prints 99 bytes of a log of 511. *)
Theorem log_dump_race :
  exists before after,
    log_run (replicate 128 0) (log_lines 5 100 65 ++ log_lines 1 11 66) (log_init SYS_SUCCESS log_zero).2 = Ok before /\
    log_run (replicate 128 0) (log_lines 1 100 67) before = Ok after /\
    log_dump 512 before SYS_SUCCESS 0 after = Ok (0, replicate 99 67) /\
    log_dump 512 after SYS_SUCCESS 0 after = Ok (0, replicate 400 65 ++ replicate 11 66 ++ replicate 100 67).
Proof.
  eexists _, _. split; [vm_compute; reflexivity|]. split; [vm_compute; reflexivity|].
  split; vm_compute; reflexivity.
Qed.
