(* ===== verification/SdkMdns.v ===== *)
(** * The mDNS library of the embedded port (8388V-SDK/.../customApp/src/mdns.c)

    An earlier, smaller version of the message code, which the embedded responder
    uses.  A message is a buffer, the position [sm_cur] in it and what the parser
    found; the header is the first twelve bytes of the buffer.  There is no length:
    the parser goes where the packet sends it.  [char] is unsigned, as the ARM
    compiler has it, and the CPU is little endian. *)
From S2P Require Import Prelude.
From S2P Require Import Buffer.
From S2P Require Import Sys.

Definition MDNS_BUFFER_LEN : Z := 1000.
Definition SDK_MAX_LABEL_LEN : Z := 63.
Definition SDK_MAX_QUESTIONS : Z := 32.
Definition SDK_MAX_ANSWERS : Z := 10.
Definition SDK_C_IN : Z := 0x0001.
Definition SDK_C_FLUSH : Z := 0x8001.
Definition SDK_T_A : Z := 1.
Definition SDK_T_PTR : Z := 12.
Definition SDK_T_TXT : Z := 16.
Definition SDK_T_SRV : Z := 33.
Definition SDK_T_ANY : Z := 255.
Definition SDK_HEADER_SIZE : Z := 12.

(** ** Data *)

Record sdk_question := mkSQ { sq_qname : Z; sq_qtype : Z; sq_qclass : Z }.
Record sdk_resource := mkSR {
  sr_name : Z; sr_type : Z; sr_class : Z; sr_ttl : Z; sr_rdlength : Z; sr_rdata : Z }.

Record sdk_message := mkSM {
  sm_data : list Z; sm_cur : Z;
  sm_questions : list sdk_question; sm_answers : list sdk_resource;
  sm_num_questions : Z; sm_num_answers : Z }.

(** A resource record as the code describes it: the constructor stands for the
    member of [union rr_p] together with the two function pointers of [mdns_rr]
    that go with it.  A name is the memory it points to. *)
Inductive sdk_rr :=
  | rr_a (ip : Z)
  | rr_cname (name : list Z)
  | rr_txt (txt : list Z)
  | rr_ns (name : list Z)
  | rr_srv (priority weight port : Z) (target : list Z)
  | rr_ptr (name : list Z).

Definition sm_set_data (m : sdk_message) (d : list Z) : sdk_message :=
  mkSM d (sm_cur m) (sm_questions m) (sm_answers m) (sm_num_questions m) (sm_num_answers m).
Definition sm_set_cur (m : sdk_message) (c : Z) : sdk_message :=
  mkSM (sm_data m) c (sm_questions m) (sm_answers m) (sm_num_questions m) (sm_num_answers m).

(** [htonl] and [ntohl] reverse the bytes. *)
Definition ntohl (v : Z) : Z := of_le (rev (le_bytes v)).

(** ** Reading and writing at the position *)

Definition sdk_read_n16 (m : sdk_message) : res (Z * sdk_message) :=
  v ← get_host16 (sm_data m) (sm_cur m);
  Ok (htons v, sm_set_cur m (sm_cur m + 2)).

Definition sdk_read_n32 (m : sdk_message) : res (Z * sdk_message) :=
  l ← rd_range (sm_data m) (sm_cur m) 4;
  Ok (ntohl (of_le l), sm_set_cur m (sm_cur m + 4)).

(** Append bytes at the position. *)
Definition sm_put (m : sdk_message) (l : list Z) : res sdk_message :=
  d ← wr_range (sm_data m) (sm_cur m) l;
  Ok (sm_set_cur (sm_set_data m d) (sm_cur m + Zlen l)).

Definition sdk_write_n16 (m : sdk_message) (n : Z) : res sdk_message :=
  d ← set_host16 (sm_data m) (sm_cur m) (htons n);
  Ok (sm_set_cur (sm_set_data m d) (sm_cur m + 2)).

Definition sdk_write_n32 (m : sdk_message) (n : Z) : res sdk_message :=
  sm_put m (le_bytes (ntohl n)).

(** ** Names *)

(** [name] is the start; every iteration moves forward. *)
Fixpoint name_length_loop (fuel : nat) (b : list Z) (start name : Z) : res Z :=
  match fuel with
  | O => Diverge
  | S fuel =>
      c ← rd b name;
      if c =? 0 then Ok (u16 (name - start + 1))
      else if negb (Z.land c 0xC0 =? 0) then Ok (u16 (name + 1 - start + 1))
      else name_length_loop fuel b start (name + (c + 1))
  end.

Definition sdk_name_length (b : list Z) (name : Z) : res Z :=
  name_length_loop (S (length b)) b name name.

Definition sdk_write_name (m : sdk_message) (name : list Z) : res sdk_message :=
  len ← sdk_name_length name 0;
  data ← rd_range name 0 len;
  sm_put m data.

Fixpoint traverse_loop (fuel : nat) (b : list Z) (cur : Z) : res (Z * Z) :=
  match fuel with
  | O => Diverge
  | S fuel =>
      c ← rd b cur;
      if c =? 0 then Ok (1, cur + 1)
      else if negb (Z.land c 0xC0 =? 0) then Ok (1, cur + 1 + 1)
      else if c <=? SDK_MAX_LABEL_LEN then traverse_loop fuel b (cur + (c + 1))
      else Ok (0, cur)
  end.

Definition sdk_traverse_name (m : sdk_message) : res (Z * sdk_message) :=
  '(ok, cur) ← traverse_loop (S (length (sm_data m))) (sm_data m) (sm_cur m);
  Ok (ok, sm_set_cur m cur).

(** ** The header

    Offsets of its fields, and the bits of [flags.num]. *)
Definition SDK_FLAGS : Z := 2.
Definition SDK_QDCOUNT : Z := 4.
Definition SDK_ANCOUNT : Z := 6.

Definition sdk_mark_response (m : sdk_message) : res sdk_message :=
  num ← get_host16 (sm_data m) SDK_FLAGS;
  let num := Z.lor num 0x8000 in
  let num := Z.lor num 0x0400 in
  let num := Z.land num (Z.lnot 0xF) in
  d ← set_host16 (sm_data m) SDK_FLAGS (htons num);
  Ok (sm_set_data m d).

Definition sdk_mark_question (m : sdk_message) : res sdk_message :=
  num ← get_host16 (sm_data m) SDK_FLAGS;
  d ← set_host16 (sm_data m) SDK_FLAGS (Z.land num (Z.lnot 0x8000));
  Ok (sm_set_data m d).

(** [MDNS_IS_QUERY] and [MDNS_IS_RESPONSE] *)
Definition sdk_qr (m : sdk_message) : res Z :=
  num ← get_host16 (sm_data m) SDK_FLAGS;
  Ok (Z.land (Z.shiftr num 15) 1).

(** ** Parsing *)

Definition add_sq (m : sdk_message) (q : sdk_question) : sdk_message :=
  mkSM (sm_data m) (sm_cur m) (sm_questions m ++ [q]) (sm_answers m) (sm_num_questions m) (sm_num_answers m).
Definition add_sr (m : sdk_message) (r : sdk_resource) : sdk_message :=
  mkSM (sm_data m) (sm_cur m) (sm_questions m) (sm_answers m ++ [r]) (sm_num_questions m) (sm_num_answers m).

(** The first loop, [n] questions being left; 0 or 1 as the function returns. *)
Fixpoint sdk_parse_questions (n : nat) (m : sdk_message) : res (Z * sdk_message) :=
  match n with
  | O => Ok (1, m)
  | S n =>
      let name := sm_cur m in
      '(ok, m) ← sdk_traverse_name m;
      if ok =? 0 then Ok (0, m)
      else
        '(type, m) ← sdk_read_n16 m;
        if negb (type <=? SDK_T_ANY) then Ok (0, m)
        else
          '(class, m) ← sdk_read_n16 m;
          if negb (Z.land class (Z.lnot 0x8000) =? 1) then Ok (0, m)
          else sdk_parse_questions n (add_sq m (mkSQ name type class))
  end.

Fixpoint sdk_parse_answers (n : nat) (m : sdk_message) : res (Z * sdk_message) :=
  match n with
  | O => Ok (1, m)
  | S n =>
      let name := sm_cur m in
      '(ok, m) ← sdk_traverse_name m;
      if ok =? 0 then Ok (0, m)
      else
        '(type, m) ← sdk_read_n16 m;
        '(class, m) ← sdk_read_n16 m;
        '(ttl, m) ← sdk_read_n32 m;
        '(rdlength, m) ← sdk_read_n16 m;
        let r := mkSR name type class ttl rdlength (sm_cur m) in
        sdk_parse_answers n (add_sr (sm_set_cur m (sm_cur m + rdlength)) r)
  end.

(** [i < num && i < MAX] *)
Definition loop_bound (num max : Z) : nat := Z.to_nat (Z.min num max).

Definition sdk_parse_message (m : sdk_message) (b : list Z) : res (Z * sdk_message) :=
  q ← get_host16 b SDK_QDCOUNT;
  a ← get_host16 b SDK_ANCOUNT;
  num ← get_host16 b SDK_FLAGS;
  let num := htons num in
  b ← set_host16 b SDK_FLAGS num;
  let m := mkSM b (sm_cur m) [] [] (htons q) (htons a) in
  if negb (Z.land (Z.shiftr num 11) 15 =? 0) then Ok (0, m)
  else
    let m := sm_set_cur m SDK_HEADER_SIZE in
    '(ok, m) ← sdk_parse_questions (loop_bound (sm_num_questions m) SDK_MAX_QUESTIONS) m;
    if ok =? 0 then Ok (0, m)
    else sdk_parse_answers (loop_bound (sm_num_answers m) SDK_MAX_ANSWERS) m.

(** ** Building *)

Definition rr_transfer (m : sdk_message) (r : sdk_rr) : res sdk_message :=
  match r with
  | rr_a ip => sdk_write_n32 m ip
  | rr_cname name | rr_ns name | rr_ptr name => sdk_write_name m name
  | rr_txt txt => sdk_write_name m txt
  | rr_srv priority weight port target =>
      m ← sdk_write_n16 m priority;
      m ← sdk_write_n16 m weight;
      m ← sdk_write_n16 m port;
      sdk_write_name m target
  end.

Definition rr_length (r : sdk_rr) : res Z :=
  match r with
  | rr_a _ => Ok 4
  | rr_cname name | rr_ns name | rr_ptr name => sdk_name_length name 0
  | rr_txt txt => sdk_name_length txt 0
  | rr_srv _ _ _ target => l ← sdk_name_length target 0; Ok (u16 (3 * 2 + l))
  end.

Definition sdk_transmit_init (m : sdk_message) (b : list Z) : res sdk_message :=
  d ← wr_range b 0 (replicate 12 0);
  Ok (mkSM d SDK_HEADER_SIZE (sm_questions m) (sm_answers m) (sm_num_questions m) (sm_num_answers m)).

(** [m->header->qdcount += htons(1)], and the same for [ancount] *)
Definition bump (m : sdk_message) (field : Z) : res sdk_message :=
  n ← get_host16 (sm_data m) field;
  d ← set_host16 (sm_data m) field (u16 (n + htons 1));
  Ok (sm_set_data m d).

Definition sdk_add_question (m : sdk_message) (qname : list Z) (qtype qclass : Z) : res sdk_message :=
  m ← sdk_write_name m qname;
  m ← sdk_write_n16 m qtype;
  m ← sdk_write_n16 m qclass;
  bump m SDK_QDCOUNT.

Definition sdk_add_answer (m : sdk_message) (name : list Z) (type class ttl : Z) (r : sdk_rr) : res sdk_message :=
  m ← sdk_write_name m name;
  m ← sdk_write_n16 m type;
  m ← sdk_write_n16 m class;
  m ← sdk_write_n32 m ttl;
  l ← rr_length r;
  m ← sdk_write_n16 m l;
  m ← rr_transfer m r;
  bump m SDK_ANCOUNT.

(** What [sendto] is given; it returns [len], and the function whether that was
    everything. *)
Definition sdk_send_message (len : Z) (m : sdk_message) : res (Z * list Z) :=
  let size := sm_cur m in
  data ← rd_range (sm_data m) 0 size;
  Ok (if len <? size then 0 else 1, data).
