(* ===== verification/SdkMdnsSpec.v ===== *)
(** * The embedded library against the current one

    Names are measured as [dname_size] measures them; the records that are
    appended are the encodings [enc_rr] and [enc_question] of the current library,
    so a message of one can be read by the other; and the embedded parser recovers
    what such a message says. *)
From S2P Require Import Prelude.
From S2P Require Import Buffer.
From S2P Require Import Dname.
From S2P Require Import DnameSpec.
From S2P Require Import Message.
From S2P Require Import MessageSpec.
From S2P Require Import MessageParse.
From S2P Require Import Sys.
From S2P Require Import SysSpec.
From S2P Require Import SdkMdns.

(** ** Names *)

Lemma name_length_loop_dname fuel b start name :
  bytes b -> name_length_loop fuel b start name = x ← dname_size_loop fuel b start name; Ok (u16 x).
Proof.
  intros Hb. revert name. induction fuel as [|fuel IH]; intros name; [done|]. simpl.
  destruct (rd b name) as [c| |] eqn:Hc; [|done|done]. cbn [mbind res_bind].
  destruct (c =? 0); [done|]. change (negb (Z.land c 0xC0 =? 0)) with (IS_POINTER c).
  pose proof (rd_byte _ _ _ Hb Hc) as Hbyte. rewrite (is_pointer_byte c Hbyte).
  destruct (Z.leb_spec 64 c); [done|].
  replace (MDNS_MAX_LABEL_LEN <? c) with false by (symmetry; apply Z.ltb_ge; unfold MDNS_MAX_LABEL_LEN; lia).
  apply IH.
Qed.

Lemma sdk_name_length_dname b n :
  bytes b -> sdk_name_length b n = x ← dname_size b n; Ok (u16 x).
Proof. apply name_length_loop_dname. Qed.

Lemma traverse_loop_dname fuel b start cur :
  bytes b -> traverse_loop fuel b cur = x ← dname_size_loop fuel b start cur; Ok (1, start + x).
Proof.
  intros Hb. revert cur. induction fuel as [|fuel IH]; intros cur; [done|]. simpl.
  destruct (rd b cur) as [c| |] eqn:Hc; [|done|done]. cbn [mbind res_bind].
  destruct (c =? 0); [cbn; do 2 f_equal; lia|]. change (negb (Z.land c 0xC0 =? 0)) with (IS_POINTER c).
  pose proof (rd_byte _ _ _ Hb Hc) as Hbyte. rewrite (is_pointer_byte c Hbyte).
  destruct (Z.leb_spec 64 c); [cbn; do 2 f_equal; lia|].
  replace (MDNS_MAX_LABEL_LEN <? c) with false by (symmetry; apply Z.ltb_ge; unfold MDNS_MAX_LABEL_LEN; lia).
  replace (c <=? SDK_MAX_LABEL_LEN) with true by (symmetry; apply Z.leb_le; unfold SDK_MAX_LABEL_LEN; lia).
  apply IH.
Qed.

Lemma sdk_traverse_dname m :
  bytes (sm_data m) ->
  sdk_traverse_name m = x ← dname_size (sm_data m) (sm_cur m); Ok (1, sm_set_cur m (sm_cur m + x)).
Proof.
  intros Hb. unfold sdk_traverse_name, dname_size.
  rewrite (traverse_loop_dname _ _ (sm_cur m)) by done. by destruct (dname_size_loop _ _ _ _).
Qed.

(** ** Words *)

Lemma ntohl_be32 v : word32 v -> le_bytes (ntohl v) = be32 v.
Proof.
  unfold word32. intros Hv. unfold ntohl. pose proof (le_bytes_bytes v) as Hb.
  rewrite (le_bytes_div v) in *. simpl rev.
  rewrite le_bytes_of_le.
  - unfold be32. rewrite (Z.mod_small (v / 16777216)); [done|].
    split; [apply Z.div_pos; lia|apply Z.div_lt_upper_bound; lia].
  - unfold bytes in *. rewrite !Forall_cons_iff in *. tauto.
Qed.

Lemma ntohl_of_be32 b p v : word32 v -> holds b p (be32 v) ->
  exists l, rd_range b p 4 = Ok l /\ ntohl (of_le l) = v.
Proof.
  unfold word32. intros Hv H. exists (be32 v). split; [by apply rd_range_holds|].
  pose proof (bytes_be32 v Hv) as Hb. unfold be32 in *. unfold ntohl. rewrite le_bytes_of_le by done. simpl rev.
  rewrite of_le_sum.
  - Z.to_euclidean_division_equations; lia.
  - unfold bytes in *. rewrite !Forall_cons_iff in *. tauto.
Qed.

(** ** Building a message

    [srepr m body nq na fl]: the buffer starts with a message of [nq] questions and
    [na] answers, [fl] being its first four bytes and [body] what follows the
    header, and the position is at its end. *)
Record srepr (m : sdk_message) (body : list Z) (nq na : Z) (fl : list Z) : Prop := mkSrepr {
  srepr_bytes : bytes (sm_data m);
  srepr_cur : sm_cur m = 12 + Zlen body;
  srepr_fl : Zlen fl = 4;
  srepr_wire : holds (sm_data m) 0 (wire fl nq na 0 body) }.

Lemma Zlen_wire fl nq na nn body : Zlen fl = 4 -> Zlen (wire fl nq na nn body) = 12 + Zlen body.
Proof. intros H. unfold wire. rewrite !Zlen_app, !Zlen_be16, H. change (Zlen [0; 0]) with 2. lia. Qed.

Lemma wire_app fl nq na nn b1 b2 : wire fl nq na nn (b1 ++ b2) = wire fl nq na nn b1 ++ b2.
Proof. unfold wire. by rewrite !app_assoc. Qed.

(** [f] appends [bs] to a message, when there is room, and leaves its counts. *)
Definition puts (f : sdk_message -> res sdk_message) (bs : list Z) : Prop :=
  forall m body nq na fl,
    srepr m body nq na fl -> 12 + Zlen body + Zlen bs <= Zlen (sm_data m) ->
    exists m', f m = Ok m' /\ srepr m' (body ++ bs) nq na fl /\ Zlen (sm_data m') = Zlen (sm_data m).

Lemma puts_put bs : bytes bs -> puts (fun m => sm_put m bs) bs.
Proof.
  intros Hbs m body nq na fl [Hb Hc Hfl Hw] Hfit. pose proof (Zlen_nonneg body). unfold sm_put.
  destruct (wr_range_exists (sm_data m) (sm_cur m) bs) as [d Hd]; [lia|lia|].
  rewrite Hd. cbn [mbind res_bind]. eexists. split; [done|].
  split; [|cbn; by rewrite (wr_range_Zlen _ _ _ _ Hd)]. split; cbn.
  - eapply wr_range_bytes; eauto.
  - rewrite Hc, Zlen_app. lia.
  - done.
  - rewrite wire_app, holds_app, Zlen_wire by done. split.
    + eapply wr_range_frame; [exact Hd| |exact Hw]. rewrite Zlen_wire by done. lia.
    + rewrite Hc in Hd. by apply wr_range_holds in Hd.
Qed.

Lemma puts_ext f g bs : (forall m, f m = g m) -> puts g bs -> puts f bs.
Proof. intros E H m body nq na fl Hr Hfit. rewrite E. by apply H. Qed.

Lemma puts_bind f g bs1 bs2 : puts f bs1 -> puts g bs2 -> puts (fun m => mbind g (f m)) (bs1 ++ bs2).
Proof.
  intros Hf Hg m body nq na fl Hr Hfit. rewrite Zlen_app in Hfit. pose proof (Zlen_nonneg bs2).
  destruct (Hf m body nq na fl Hr ltac:(lia)) as (m1 & E1 & R1 & L1).
  destruct (Hg m1 _ _ _ _ R1) as (m2 & E2 & R2 & L2); [rewrite Zlen_app; lia|].
  exists m2. rewrite E1. cbn [mbind res_bind]. rewrite <- app_assoc in R2. split_and!; [done|done|lia].
Qed.

Lemma puts_n16 v : word16 v -> puts (fun m => sdk_write_n16 m v) (be16 v).
Proof.
  intros Hv. eapply puts_ext; [|by apply puts_put, bytes_be16].
  intros m. unfold sdk_write_n16, sm_put. by rewrite set_host16_htons, u16_id.
Qed.

Lemma puts_n32 v : word32 v -> puts (fun m => sdk_write_n32 m v) (be32 v).
Proof.
  intros Hv. eapply puts_ext; [|by apply puts_put, bytes_be32].
  intros m. unfold sdk_write_n32. by rewrite ntohl_be32.
Qed.

(** The memory at [name] starts with the labels [ls], written out. *)
Definition sdk_name (name : list Z) (ls : list (list Z)) : Prop :=
  bytes name /\ valid_name ls /\ holds name 0 (encode ls).

Lemma sdk_name_len name ls : sdk_name name ls -> sdk_name_length name 0 = Ok (Zlen (encode ls)).
Proof.
  intros (Hb & [Hv Hl] & Hh). rewrite sdk_name_length_dname, (dname_size_encode _ _ ls) by done.
  cbn [mbind res_bind]. pose proof (Zlen_nonneg (encode ls)). by rewrite u16_id by lia.
Qed.

Lemma puts_name name ls : sdk_name name ls -> puts (fun m => sdk_write_name m name) (encode ls).
Proof.
  intros Hn. pose proof Hn as (Hb & [Hv Hl] & Hh). eapply puts_ext; [|by apply puts_put, bytes_encode].
  intros m. unfold sdk_write_name. rewrite (sdk_name_len _ _ Hn). cbn [mbind res_bind].
  by rewrite (proj2 (rd_range_holds name 0 _ (encode ls))).
Qed.

(** ** Records *)

(** The data of a record on the wire. *)
Inductive rdata : sdk_rr -> list Z -> Prop :=
  | rdata_a ip : word32 ip -> rdata (rr_a ip) (be32 ip)
  | rdata_cname name ls : sdk_name name ls -> rdata (rr_cname name) (encode ls)
  | rdata_txt txt ls : sdk_name txt ls -> rdata (rr_txt txt) (encode ls)
  | rdata_ns name ls : sdk_name name ls -> rdata (rr_ns name) (encode ls)
  | rdata_srv p w q target ls : word16 p -> word16 w -> word16 q -> sdk_name target ls ->
      rdata (rr_srv p w q target) (be16 p ++ be16 w ++ be16 q ++ encode ls)
  | rdata_ptr name ls : sdk_name name ls -> rdata (rr_ptr name) (encode ls).

Lemma rr_length_rdata r d : rdata r d -> rr_length r = Ok (Zlen d) /\ word16 (Zlen d).
Proof.
  assert (Hw : forall name ls, sdk_name name ls -> word16 (Zlen (encode ls))).
  { intros name ls (_ & [_ H] & _). pose proof (Zlen_nonneg (encode ls)). unfold word16. lia. }
  destruct 1 as [ip|name ls Hn|name ls Hn|name ls Hn|p w q name ls H1 H2 H3 Hn|name ls Hn]; cbn [rr_length];
    try (rewrite (sdk_name_len _ _ Hn); eauto).
  - rewrite Zlen_be32. done.
  - cbn [mbind res_bind]. rewrite !Zlen_app, !Zlen_be16. pose proof Hn as (_ & [_ Hl] & _).
    pose proof (Zlen_nonneg (encode ls)). unfold word16. rewrite u16_id by lia. split; [f_equal; lia|lia].
Qed.

Lemma puts_rdata r d : rdata r d -> puts (fun m => rr_transfer m r) d.
Proof.
  destruct 1; cbn [rr_transfer]; auto using puts_n32, puts_name.
  apply (puts_bind (fun m => sdk_write_n16 m p)); [by apply puts_n16|].
  apply (puts_bind (fun m => sdk_write_n16 m w)); [by apply puts_n16|].
  apply (puts_bind (fun m => sdk_write_n16 m q)); [by apply puts_n16|]. by apply puts_name.
Qed.

(** Counting in network order on a little-endian host. *)
Lemma htons_succ n : 0 <= n < 255 -> u16 (htons n + htons 1) = htons (n + 1).
Proof.
  intros H. unfold htons. rewrite !(u16_id n), !(u16_id (n + 1)) by lia. change (u16 1) with 1.
  unfold u16. Z.to_euclidean_division_equations; lia.
Qed.

Lemma bump_count b field n :
  0 <= n < 255 -> holds b field (be16 n) ->
  exists b', set_host16 b field (htons (n + 1)) = Ok b' /\ wr_range b field (be16 (n + 1)) = Ok b' /\
    get_host16 b field = Ok (htons n).
Proof.
  intros Hn H. pose proof (holds_bounds _ _ _ H) as [H0 H1]. rewrite Zlen_be16 in H1.
  destruct (wr_range_exists b field (be16 (n + 1))) as [b' Hb]; [lia|rewrite Zlen_be16; lia|].
  exists b'. rewrite set_host16_htons, u16_id by lia. split_and!; [done|done|].
  apply get_host16_be16; [lia|done].
Qed.

(** The fields of the header of a message, and changing one of its counters. *)
Lemma wire_fields b fl nq na body :
  Zlen fl = 4 -> holds b 0 (wire fl nq na 0 body) <->
  holds b 0 fl /\ holds b 4 (be16 nq) /\ holds b 6 (be16 na) /\ holds b 8 (be16 0 ++ [0; 0] ++ body).
Proof.
  intros H. unfold wire. rewrite (holds_app b 0 fl), H. rewrite (holds_app b (0 + 4)), Zlen_be16.
  rewrite (holds_app b (0 + 4 + 2)), Zlen_be16. by change (0 + 4 + 2 + 2) with 8.
Qed.

Lemma srepr_bump m body nq na fl :
  srepr m body nq na fl -> 0 <= nq < 255 -> 0 <= na < 255 ->
  (exists m', bump m SDK_QDCOUNT = Ok m' /\ srepr m' body (nq + 1) na fl /\ Zlen (sm_data m') = Zlen (sm_data m)) /\
  (exists m', bump m SDK_ANCOUNT = Ok m' /\ srepr m' body nq (na + 1) fl /\ Zlen (sm_data m') = Zlen (sm_data m)).
Proof.
  intros [Hb Hc Hfl Hw] Hq Ha. apply (wire_fields _ _ _ _ _ Hfl) in Hw as (H0 & H4 & H6 & H8).
  split.
  - destruct (bump_count _ 4 nq Hq H4) as (d & E1 & W & E2).
    unfold bump, SDK_QDCOUNT. rewrite E2. cbn [mbind res_bind]. rewrite htons_succ, E1 by done. cbn [mbind res_bind].
    eexists. split; [done|]. split; [|cbn; by rewrite (wr_range_Zlen _ _ _ _ W)]. split; cbn; [|done|done|].
    + eapply wr_range_bytes; [exact W|done|apply bytes_be16; lia].
    + apply wire_fields; [done|]. split_and!; [|by apply wr_range_holds in W|..].
      all: eapply wr_range_frame; [exact W| |eassumption]; rewrite ?Zlen_be16; lia.
  - destruct (bump_count _ 6 na Ha H6) as (d & E1 & W & E2).
    unfold bump, SDK_ANCOUNT. rewrite E2. cbn [mbind res_bind]. rewrite htons_succ, E1 by done. cbn [mbind res_bind].
    eexists. split; [done|]. split; [|cbn; by rewrite (wr_range_Zlen _ _ _ _ W)]. split; cbn; [|done|done|].
    + eapply wr_range_bytes; [exact W|done|apply bytes_be16; lia].
    + apply wire_fields; [done|]. split_and!; [| |by apply wr_range_holds in W|].
      all: eapply wr_range_frame; [exact W| |eassumption]; rewrite ?Zlen_be16; lia.
Qed.

Lemma sdk_add_question_spec m body nq na fl name q :
  srepr m body nq na fl -> sdk_name name (q_labels q) -> word16 (q_type q) -> word16 (q_class q) ->
  0 <= nq < 255 -> 0 <= na < 255 -> 12 + Zlen body + Zlen (enc_question q) <= Zlen (sm_data m) ->
  exists m', sdk_add_question m name (q_type q) (q_class q) = Ok m' /\
    srepr m' (body ++ enc_question q) (nq + 1) na fl /\ Zlen (sm_data m') = Zlen (sm_data m).
Proof.
  intros Hr Hn Ht Hc Hq Ha Hfit.
  assert (HP : puts (fun m => m ← sdk_write_name m name; m ← sdk_write_n16 m (q_type q);
                             sdk_write_n16 m (q_class q)) (enc_question q)).
  { apply (puts_bind (fun m => sdk_write_name m name)); [by apply puts_name|].
    apply (puts_bind (fun m => sdk_write_n16 m (q_type q))); by apply puts_n16. }
  destruct (HP m body nq na fl Hr Hfit) as (m1 & E & R & L). unfold sdk_add_question.
  destruct (sdk_write_name m name) as [m2| |]; [|done|done]. cbn [mbind res_bind] in *.
  destruct (sdk_write_n16 m2 (q_type q)) as [m3| |]; [|done|done]. cbn [mbind res_bind] in *.
  rewrite E. cbn [mbind res_bind].
  destruct (srepr_bump _ _ _ _ _ R Hq Ha) as [(m' & E' & R' & L') _]. rewrite <- L, <- L'. eauto.
Qed.

Lemma sdk_add_answer_spec m body nq na fl name x r :
  srepr m body nq na fl -> sdk_name name (rr_labels x) ->
  word16 (rr_type x) -> word16 (rr_class x) -> word32 (rr_ttl x) -> rdata r (rr_data x) ->
  0 <= nq < 255 -> 0 <= na < 255 -> 12 + Zlen body + Zlen (enc_rr x) <= Zlen (sm_data m) ->
  exists m', sdk_add_answer m name (rr_type x) (rr_class x) (rr_ttl x) r = Ok m' /\
    srepr m' (body ++ enc_rr x) nq (na + 1) fl /\ Zlen (sm_data m') = Zlen (sm_data m).
Proof.
  intros Hr Hn Ht Hc Httl Hd Hq Ha Hfit. pose proof (rr_length_rdata _ _ Hd) as [El Hl].
  assert (HP : puts (fun m => m ← sdk_write_name m name; m ← sdk_write_n16 m (rr_type x);
                      m ← sdk_write_n16 m (rr_class x); m ← sdk_write_n32 m (rr_ttl x);
                      m ← sdk_write_n16 m (Zlen (rr_data x)); rr_transfer m r) (enc_rr x)).
  { apply (puts_bind (fun m => sdk_write_name m name)); [by apply puts_name|].
    apply (puts_bind (fun m => sdk_write_n16 m (rr_type x))); [by apply puts_n16|].
    apply (puts_bind (fun m => sdk_write_n16 m (rr_class x))); [by apply puts_n16|].
    apply (puts_bind (fun m => sdk_write_n32 m (rr_ttl x))); [by apply puts_n32|].
    apply (puts_bind (fun m => sdk_write_n16 m (Zlen (rr_data x)))); [by apply puts_n16|].
    by apply puts_rdata. }
  destruct (HP m body nq na fl Hr Hfit) as (m1 & E & R & L). unfold sdk_add_answer.
  destruct (sdk_write_name m name) as [m2| |]; [|done|done]. cbn [mbind res_bind] in *.
  destruct (sdk_write_n16 m2 _) as [m3| |]; [|done|done]. cbn [mbind res_bind] in *.
  destruct (sdk_write_n16 m3 _) as [m4| |]; [|done|done]. cbn [mbind res_bind] in *.
  destruct (sdk_write_n32 m4 _) as [m5| |]; [|done|done]. cbn [mbind res_bind] in *.
  rewrite El. cbn [mbind res_bind].
  destruct (sdk_write_n16 m5 _) as [m6| |]; [|done|done]. cbn [mbind res_bind] in *.
  rewrite E. cbn [mbind res_bind].
  destruct (srepr_bump _ _ _ _ _ R Hq Ha) as [_ (m' & E' & R' & L')]. rewrite <- L, <- L'. eauto.
Qed.

(** An empty message, and one marked as a response or a question. *)
Lemma sdk_transmit_init_spec m b :
  bytes b -> 12 <= Zlen b ->
  exists m', sdk_transmit_init m b = Ok m' /\ srepr m' [] 0 0 [0; 0; 0; 0] /\ Zlen (sm_data m') = Zlen b.
Proof.
  intros Hb Hl. unfold sdk_transmit_init.
  destruct (wr_range_exists b 0 (replicate 12 0)) as [d Hd]; [lia|rewrite Zlen_replicate; lia|].
  rewrite Hd. cbn [mbind res_bind]. eexists. split; [done|].
  split; [|cbn; by rewrite (wr_range_Zlen _ _ _ _ Hd)]. split; cbn; [|done|done|].
  - eapply wr_range_bytes; [exact Hd|done|]. apply Forall_replicate. unfold is_byte. lia.
  - apply wr_range_holds in Hd. exact Hd.
Qed.

Lemma srepr_flags m body nq na f0 f1 f2 f3 g0 g1 d :
  srepr m body nq na [f0; f1; f2; f3] -> is_byte g0 -> is_byte g1 ->
  wr_range (sm_data m) 2 [g0; g1] = Ok d ->
  srepr (sm_set_data m d) body nq na [f0; f1; g0; g1] /\ Zlen d = Zlen (sm_data m).
Proof.
  intros [Hb Hc Hfl Hw] G0 G1 Hd. split; [|by rewrite (wr_range_Zlen _ _ _ _ Hd)].
  apply wire_fields in Hw as (H0 & H4 & H6 & H8); [|done]. apply mkSrepr; cbn [sm_data sm_cur sm_set_data]; [|done|done|].
  - eapply wr_range_bytes; [exact Hd|done|]. repeat apply Forall_cons_2; done.
  - apply wire_fields; [done|]. change [f0; f1; f2; f3] with ([f0; f1] ++ [f2; f3]) in H0.
    change [f0; f1; g0; g1] with ([f0; f1] ++ [g0; g1]). apply holds_app in H0 as [H0 _].
    rewrite holds_app. split_and!; [|by apply wr_range_holds in Hd|..].
    all: eapply wr_range_frame; [exact Hd| |eassumption]; zlen; rewrite ?Zlen_be16; lia.
Qed.

Lemma sdk_mark_response_spec m body nq na :
  srepr m body nq na [0; 0; 0; 0] ->
  exists m', sdk_mark_response m = Ok m' /\ srepr m' body nq na [0; 0; 0x84; 0] /\
    Zlen (sm_data m') = Zlen (sm_data m).
Proof.
  intros Hr. pose proof Hr as [Hb Hc Hfl Hw]. apply wire_fields in Hw as (H0 & _); [|done].
  assert (H2 : holds (sm_data m) 2 (be16 0)).
  { change [0; 0; 0; 0] with ([0; 0] ++ [0; 0]) in H0. by apply holds_app in H0 as [_ H0]. }
  pose proof (holds_bounds _ _ _ H2) as [_ Hl]. rewrite Zlen_be16 in Hl.
  unfold sdk_mark_response, SDK_FLAGS. rewrite (get_host16_be16 _ 2 0) by (done || lia). cbn [mbind res_bind].
  rewrite set_host16_htons.
  match goal with |- context [be16 ?v] => change (be16 v) with [0x84; 0] end.
  destruct (wr_range_exists (sm_data m) 2 [0x84; 0]) as [d Hd]; [lia|zlen; lia|].
  rewrite Hd. cbn [mbind res_bind]. eexists. split; [done|].
  eapply srepr_flags; [exact Hr|by vm_compute|by vm_compute|exact Hd].
Qed.

Lemma sdk_mark_question_spec m body nq na :
  srepr m body nq na [0; 0; 0; 0] ->
  exists m', sdk_mark_question m = Ok m' /\ srepr m' body nq na [0; 0; 0; 0] /\
    Zlen (sm_data m') = Zlen (sm_data m).
Proof.
  intros Hr. pose proof Hr as [Hb Hc Hfl Hw]. apply wire_fields in Hw as (H0 & _); [|done].
  assert (H2 : holds (sm_data m) 2 (be16 0)).
  { change [0; 0; 0; 0] with ([0; 0] ++ [0; 0]) in H0. by apply holds_app in H0 as [_ H0]. }
  pose proof (holds_bounds _ _ _ H2) as [_ Hl]. rewrite Zlen_be16 in Hl.
  unfold sdk_mark_question, SDK_FLAGS. rewrite (get_host16_be16 _ 2 0) by (done || lia). cbn [mbind res_bind].
  change (Z.land (htons 0) (Z.lnot 0x8000)) with (htons 0). rewrite set_host16_htons.
  change (be16 (u16 0)) with [0; 0].
  destruct (wr_range_exists (sm_data m) 2 [0; 0]) as [d Hd]; [lia|zlen; lia|].
  rewrite Hd. cbn [mbind res_bind]. eexists. split; [done|].
  eapply srepr_flags; [exact Hr|by vm_compute|by vm_compute|exact Hd].
Qed.

(** What is sent is the message on the wire. *)
Lemma sdk_send_spec m body nq na fl len :
  srepr m body nq na fl ->
  sdk_send_message len m = Ok (if len <? 12 + Zlen body then 0 else 1, wire fl nq na 0 body).
Proof.
  intros [Hb Hc Hfl Hw]. unfold sdk_send_message. rewrite Hc.
  rewrite (proj2 (rd_range_holds (sm_data m) 0 _ (wire fl nq na 0 body))); [done|].
  split; [by rewrite Zlen_wire|done].
Qed.

(** ** Parsing *)

(** Questions the embedded parser lets through. *)
Definition sdk_valid_question (q : question) : Prop :=
  valid_name (q_labels q) /\ 0 <= q_type q <= 255 /\ word16 (q_class q) /\ Z.land (q_class q) (Z.lnot 0x8000) = 1.

(** Records: the embedded parser does not look into the data. *)
Definition sdk_valid_rr (x : rr) : Prop :=
  valid_name (rr_labels x) /\ word16 (rr_type x) /\ word16 (rr_class x) /\ word32 (rr_ttl x) /\
  Zlen (rr_data x) < 65536.

Definition sdk_parsed_question (b : list Z) (sq : sdk_question) (q : question) : Prop :=
  name_at (mkDref b true) (sq_qname sq) (q_labels q) /\ sq_qtype sq = q_type q /\ sq_qclass sq = q_class q.

Definition sdk_parsed_rr (b : list Z) (sr : sdk_resource) (x : rr) : Prop :=
  name_at (mkDref b true) (sr_name sr) (rr_labels x) /\ sr_type sr = rr_type x /\ sr_class sr = rr_class x /\
  sr_ttl sr = rr_ttl x /\ sr_rdlength sr = Zlen (rr_data x) /\ holds b (sr_rdata sr) (rr_data x).

(** The message with the position moved and more entries found. *)
Definition found (m : sdk_message) (cur : Z) (qs : list sdk_question) (rs : list sdk_resource) : sdk_message :=
  mkSM (sm_data m) cur (sm_questions m ++ qs) (sm_answers m ++ rs) (sm_num_questions m) (sm_num_answers m).

Lemma sdk_read_n16_spec m v :
  word16 v -> holds (sm_data m) (sm_cur m) (be16 v) -> sdk_read_n16 m = Ok (v, sm_set_cur m (sm_cur m + 2)).
Proof.
  intros Hv H. unfold sdk_read_n16. rewrite (get_host16_be16 _ _ v) by done. cbn [mbind res_bind].
  by rewrite htons_htons.
Qed.

Lemma sdk_traverse_spec m ls :
  bytes (sm_data m) -> Forall valid_label ls -> holds (sm_data m) (sm_cur m) (encode ls) ->
  sdk_traverse_name m = Ok (1, sm_set_cur m (sm_cur m + Zlen (encode ls))).
Proof.
  intros Hb Hv H. rewrite sdk_traverse_dname, (dname_size_encode _ _ ls) by done. done.
Qed.

Lemma sdk_parse_questions_spec qs m :
  bytes (sm_data m) -> Forall sdk_valid_question qs ->
  holds (sm_data m) (sm_cur m) (flat_map enc_question qs) ->
  exists Q, sdk_parse_questions (length qs) m =
      Ok (1, found m (sm_cur m + Zlen (flat_map enc_question qs)) Q []) /\
    Forall2 (sdk_parsed_question (sm_data m)) Q qs.
Proof.
  intros Hb Hv. revert m Hb. induction Hv as [|q qs (Hn & Ht & Hc & Hcl) _ IH]; intros m Hb Hh.
  { exists []. split; [|constructor]. unfold found. simpl. rewrite !app_nil_r, Z.add_0_r. by destruct m. }
  simpl flat_map in *. apply holds_app in Hh as [Hq Hrest]. unfold enc_question in Hq.
  apply holds_app in Hq as [Hname Hq]. apply holds_app in Hq as [Htype Hclass]. rewrite Zlen_be16 in Hclass.
  simpl. rewrite (sdk_traverse_spec m (q_labels q)); [|done|apply Hn|done]. cbn [mbind res_bind Z.eqb].
  rewrite (sdk_read_n16_spec _ (q_type q)); [|unfold word16; lia|done]. cbn [mbind res_bind].
  replace (q_type q <=? SDK_T_ANY) with true by (symmetry; apply Z.leb_le; unfold SDK_T_ANY; lia). cbn [negb].
  rewrite (sdk_read_n16_spec _ (q_class q)); [|done|done]. cbn [mbind res_bind]. rewrite Hcl. cbn [Z.eqb negb].
  set (m1 := add_sq _ _). destruct (IH m1) as (Q & E & HQ); [done| |].
  { unfold m1. cbn. eapply holds_at; [exact Hrest|].
    unfold enc_question. rewrite !Zlen_app, !Zlen_be16. lia. }
  exists (mkSQ (sm_cur m) (q_type q) (q_class q) :: Q). split.
  - rewrite E. unfold found, m1. cbn. do 3 f_equal; [|by rewrite <- app_assoc].
    rewrite Zlen_app. unfold enc_question. rewrite !Zlen_app, !Zlen_be16. lia.
  - constructor; [|exact HQ]. split; [|done]. apply name_at_encode; [apply Hn|done].
Qed.

Lemma sdk_parse_answers_spec an m :
  bytes (sm_data m) -> Forall sdk_valid_rr an ->
  holds (sm_data m) (sm_cur m) (flat_map enc_rr an) ->
  exists A, sdk_parse_answers (length an) m =
      Ok (1, found m (sm_cur m + Zlen (flat_map enc_rr an)) [] A) /\
    Forall2 (sdk_parsed_rr (sm_data m)) A an.
Proof.
  intros Hb Hv. revert m Hb. induction Hv as [|x an (Hn & Ht & Hc & Httl & Hl) _ IH]; intros m Hb Hh.
  { exists []. split; [|constructor]. unfold found. simpl. rewrite !app_nil_r, Z.add_0_r. by destruct m. }
  simpl flat_map in *. apply holds_app in Hh as [Hx Hrest]. unfold enc_rr in Hx.
  rewrite !holds_app, !Zlen_be16, Zlen_be32 in Hx. destruct Hx as (Hname & Htype & Hclass & Httl' & Hlen & Hdata).
  simpl. rewrite (sdk_traverse_spec m (rr_labels x)); [|done|apply Hn|done]. cbn [mbind res_bind Z.eqb].
  rewrite (sdk_read_n16_spec _ (rr_type x)); [|done|done]. cbn [mbind res_bind].
  rewrite (sdk_read_n16_spec _ (rr_class x)); [|done|done]. cbn [mbind res_bind].
  unfold sdk_read_n32. cbn [sm_data sm_cur sm_set_cur].
  destruct (ntohl_of_be32 _ _ _ Httl Httl') as (l & El & Ev). rewrite El. cbn [mbind res_bind]. rewrite Ev.
  assert (Hw : word16 (Zlen (rr_data x))) by (pose proof (Zlen_nonneg (rr_data x)); unfold word16; lia).
  rewrite (sdk_read_n16_spec _ (Zlen (rr_data x))); [|done|done]. cbn [mbind res_bind].
  set (m1 := add_sr _ _). destruct (IH m1) as (A & E & HA); [done| |].
  { unfold m1. cbn. eapply holds_at; [exact Hrest|].
    unfold enc_rr. rewrite !Zlen_app, !Zlen_be16, Zlen_be32. lia. }
  eexists (_ :: A). split.
  - rewrite E. unfold found, m1. cbn. do 3 f_equal; [|by rewrite <- app_assoc].
    rewrite Zlen_app. unfold enc_rr. rewrite !Zlen_app, !Zlen_be16, Zlen_be32. lia.
  - constructor; [|exact HA]. unfold sdk_parsed_rr. cbn. split_and!; try done.
    apply name_at_encode; [apply Hn|done].
Qed.

(** The header of a message, read by the embedded parser. *)
Lemma sdk_parse_spec m b f0 f1 qs an :
  bytes b -> holds b 2 [f0; f1] -> flag_opcode (f0 * 256 + f1) = 0 ->
  (length qs <= 32)%nat -> (length an <= 10)%nat ->
  holds b 4 (be16 (Zlen qs)) -> holds b 6 (be16 (Zlen an)) ->
  Forall sdk_valid_question qs -> Forall sdk_valid_rr an ->
  holds b 12 (flat_map enc_question qs ++ flat_map enc_rr an) ->
  exists m' b', sdk_parse_message m b = Ok (1, m') /\ wr_range b 2 [f1; f0] = Ok b' /\ sm_data m' = b' /\
    sdk_qr m' = Ok (flag_qr (f0 * 256 + f1)) /\
    Forall2 (sdk_parsed_question b') (sm_questions m') qs /\ Forall2 (sdk_parsed_rr b') (sm_answers m') an.
Proof.
  intros Hb H2 Hop Lq La H4 H6 Vq Va H12.
  pose proof (holds_byte _ _ _ Hb H2) as [B0 [B1 _]%Forall_cons_iff]%Forall_cons_iff. unfold is_byte in *.
  set (num := f0 * 256 + f1) in *. assert (Hnum : 0 <= num < 65536) by lia.
  assert (HB : be16 num = [f0; f1] /\ be16 (htons num) = [f1; f0]).
  { unfold be16, htons. rewrite u16_id by lia. unfold num. split; repeat f_equal; Z.to_euclidean_division_equations; lia. }
  destruct HB as [HB HB']. rewrite <- HB in H2.
  unfold sdk_parse_message, SDK_QDCOUNT, SDK_ANCOUNT, SDK_FLAGS.
  rewrite (get_host16_be16 _ 4 (Zlen qs)), (get_host16_be16 _ 6 (Zlen an)), (get_host16_be16 _ 2 num)
    by (done || unfold Zlen; lia). cbn [mbind res_bind].
  rewrite !htons_htons by (unfold Zlen; lia).
  assert (ES : set_host16 b 2 num = wr_range b 2 [f1; f0]).
  { rewrite <- (htons_htons num) by lia. by rewrite set_host16_htons, u16_id, HB' by apply htons_range. }
  pose proof (holds_bounds _ _ _ H2) as [_ HL]. rewrite Zlen_be16 in HL.
  destruct (wr_range_exists b 2 [f1; f0]) as [b' W]; [lia|zlen; lia|]. rewrite ES, W. cbn [mbind res_bind].
  change (Z.land (Z.shiftr num 11) 15) with (flag_opcode num). rewrite Hop. cbn [Z.eqb negb].
  assert (Hb' : bytes b').
  { eapply wr_range_bytes; [exact W|done|]. repeat apply Forall_cons_2; (unfold is_byte; lia) || done. }
  assert (H12' : holds b' 12 (flat_map enc_question qs ++ flat_map enc_rr an)).
  { eapply wr_range_frame; [exact W|zlen; lia|done]. }
  apply holds_app in H12' as [Hq Ha].
  cbn [sm_num_questions sm_num_answers sm_set_cur]. unfold loop_bound, SDK_MAX_QUESTIONS.
  rewrite Z.min_l by (unfold Zlen; lia). unfold Zlen at 1. rewrite Nat2Z.id.
  set (m0 := sm_set_cur _ _).
  destruct (sdk_parse_questions_spec qs m0) as (Q & EQ & HQ); [done|done|done|]. rewrite EQ. cbn [mbind res_bind Z.eqb].
  set (m1 := found m0 _ _ _).
  unfold SDK_MAX_ANSWERS. rewrite Z.min_l by (unfold m1; cbn; unfold Zlen; lia).
  replace (Z.to_nat (sm_num_answers m1)) with (length an) by (unfold m1; cbn; unfold Zlen; lia).
  destruct (sdk_parse_answers_spec an m1) as (A & EA & HA); [done|done|done|]. rewrite EA.
  eexists _, b'. split; [done|]. split; [done|]. split; [done|].
  split; [|cbn; rewrite app_nil_r; done].
  unfold sdk_qr, SDK_FLAGS. cbn [sm_data found m1 m0 sm_set_cur].
  apply wr_range_holds in W. rewrite <- HB' in W.
  rewrite (get_host16_be16 _ 2 (htons num)); [|apply htons_range|exact W]. cbn [mbind res_bind].
  rewrite htons_htons by lia. done.
Qed.
