(* ===== verification/SdkResponder.v ===== *)
(** * The responder of the embedded port (mdns_responder.c)

    A thread that claims a fixed service name and then answers every query with
    its announcement.  [sdk_state] holds the variables of [mdns_main]; one
    iteration ([sdk_iteration]) reads an [sdk_input]: the result of [select], the
    packets waiting on the socket, the clock and what [sendto] returned.  Log
    output is left out. *)
From S2P Require Import Prelude.
From S2P Require Import Buffer.
From S2P Require Import Cstring.
From S2P Require Import Sys.
From S2P Require Import SdkMdns.
From Stdlib Require String.
Import (notations) String.

(** ** The service (mdns_config.h), as C string literals *)

Definition SERVICE_DOMAIN : list Z := [5] ++ str "local".
Definition SERVICE_NAME : list Z := [5] ++ str "8388V".
Definition SERVICE_TARGET : list Z := [10] ++ str "http-8388V" ++ SERVICE_DOMAIN.
Definition SERVICE_TYPE : list Z := [5] ++ str "_http" ++ [4] ++ str "_tcp".

(** A literal in memory, with its 0. *)
Definition lit (s : list Z) : list Z := s ++ [0].

Definition service_fqsn : list Z := lit (SERVICE_NAME ++ SERVICE_TYPE ++ SERVICE_DOMAIN).

(** [enum mdns_state] *)
Definition INITIALIZED : Z := 0.
Definition ANNOUNCE : Z := 4.
Definition STARTED : Z := 5.

(** ** The socket *)

(** The calls of the stack. *)
Inductive scall :=
  | c_socket (s : Z)
  | c_setsockopt (s option : Z)
  | c_bind (s port : Z)
  | c_join (s group interface : Z)
  | c_ttl (s ttl : Z)
  | c_close (s : Z)
  | c_blocking_off (s : Z).

(** Their results. *)
Record sock_env := mkEnv { e_socket : Z; e_bind : Z; e_join : Z; e_ttl : Z }.

Definition SO_REUSEADDR : Z := 0x0004.
Definition SO_REUSEPORT : Z := 0x0200.

(** [inet_addr("224.0.0.251")] *)
Definition MDNS_GROUP : Z := of_le [224; 0; 0; 251].

Definition m_socket (e : sock_env) (s : sys) : Z * list scall :=
  let sock := e_socket e in
  if sock <? 0 then (sock, [c_socket sock])
  else
    let calls := [c_socket sock; c_setsockopt sock SO_REUSEPORT; c_setsockopt sock SO_REUSEADDR;
                  c_bind sock (htons 5353)] in
    if negb (e_bind e =? 0) then (-1, calls ++ [c_close sock])
    else
      let calls := calls ++ [c_join sock MDNS_GROUP (sys_get_ip s)] in
      if e_join e <? 0 then (-1, calls ++ [c_close sock])
      else
        let calls := calls ++ [c_ttl sock 255] in
        if e_ttl e <? 0 then (-1, calls ++ [c_close sock])
        else (sock, calls ++ [c_blocking_off sock]).

(** ** Messages *)

(** The four records of [mdns_main], for the address [ip] as [sys_get_ip] gives
    it. *)
Definition my_a (ip : Z) : sdk_rr := rr_a (ntohl ip).
Definition my_srv : sdk_rr := rr_srv 0 0 80 (lit SERVICE_TARGET).
Definition my_txt : sdk_rr := rr_txt (lit ([15] ++ str "path=index.html")).
Definition my_ptr : sdk_rr := rr_ptr service_fqsn.

Definition sdk_announce (m : sdk_message) (buffer : list Z) (len : Z) (a srv txt ptr : sdk_rr)
    : res (sdk_message * list Z) :=
  m ← sdk_transmit_init m buffer;
  m ← sdk_mark_response m;
  m ← sdk_add_answer m (lit SERVICE_TARGET) SDK_T_A SDK_C_FLUSH 225 a;
  m ← sdk_add_answer m service_fqsn SDK_T_SRV SDK_C_FLUSH 225 srv;
  m ← sdk_add_answer m service_fqsn SDK_T_TXT SDK_C_FLUSH 225 txt;
  m ← sdk_add_answer m (lit (SERVICE_TYPE ++ SERVICE_DOMAIN)) SDK_T_PTR SDK_C_IN 255 ptr;
  '(_, out) ← sdk_send_message len m;
  Ok (m, out).

(** The probe, as [mdns_main] builds it before its loop. *)
Definition sdk_probe (m : sdk_message) (buffer : list Z) : res sdk_message :=
  m ← sdk_transmit_init m buffer;
  m ← sdk_mark_question m;
  sdk_add_question m service_fqsn SDK_T_ANY SDK_C_IN.

(** ** The loop *)

Record sdk_state := mkSdk {
  sdk_status : Z;
  sdk_tx : sdk_message;      (** [tx_message]; its buffer is [tx_buffer] *)
  sdk_rxm : sdk_message;     (** [rx_message] *)
  sdk_rx : list Z;           (** [rx_buffer] *)
  sdk_start : Z;             (** [start_time] *)
  sdk_usec : Z }.            (** [timeout.tv_usec] *)

Record sdk_input := mkSdkIn {
  in_active : Z;                      (** the result of [select] *)
  in_isset : bool;                    (** [FD_ISSET(mc_sock, &fds)] afterwards *)
  in_packets : list (list Z * Z);     (** what [recvfrom] returns, with the sender *)
  in_t1 : Z; in_t2 : Z;               (** [get_time] *)
  in_len : Z }.                       (** the result of [sendto] *)

(** [recvfrom] until nothing is left: what is parsed, and what is sent. *)
Fixpoint sdk_receive (ip len status : Z) (ps : list (list Z * Z)) (tx rxm : sdk_message) (rx : list Z)
    : res (sdk_message * list Z * list (list Z)) :=
  match ps with
  | [] => Ok (rxm, rx, [])
  | (p, from) :: ps =>
      let p := take (Z.to_nat MDNS_BUFFER_LEN) p in
      if Zlen p =? 0 then Ok (rxm, rx, [])
      else
        rx ← wr_range rx 0 p;
        '(ok, rxm) ← sdk_parse_message rxm rx;
        let rx := sm_data rxm in
        qr ← sdk_qr rxm;
        out ←
          (if negb (ok =? 0) && negb (from =? ip) && (qr =? 0) then
             if (status <? STARTED) && (qr =? 1) then Ok []
             else if (status =? STARTED) && (qr =? 0) then
               '(_, out) ← sdk_send_message len tx; Ok [out]
             else Ok []
           else Ok []);
        '(rxm, rx, out') ← sdk_receive ip len status ps tx rxm rx;
        Ok (rxm, rx, out ++ out')
  end.

(** The timeout for what is left of the 250 ms. *)
Definition wait_remaining (t start : Z) : Z :=
  let t := if start <? t then t - start else start - t in
  if t <=? 250 then (250 - t) * 1000 else 0.

(** [None]: the thread returned. *)
Definition sdk_iteration (ip : Z) (i : sdk_input) (st : sdk_state) : res (option sdk_state * list (list Z)) :=
  if in_active i <? 0 then Ok (None, [])
  else
    '(rxm, rx, out) ←
      (if in_isset i then
         sdk_receive ip (in_len i) (sdk_status st) (in_packets i) (sdk_tx st) (sdk_rxm st) (sdk_rx st)
       else Ok (sdk_rxm st, sdk_rx st, []));
    if sdk_status st <? STARTED then
      if in_isset i then
        Ok (Some (mkSdk (sdk_status st) (sdk_tx st) rxm rx (in_t2 i) (wait_remaining (in_t1 i) (sdk_start st))), out)
      else
        let status := sdk_status st + 1 in
        '(tx, sent) ←
          (if status =? ANNOUNCE then
             sdk_announce (sdk_tx st) (sm_data (sdk_tx st)) (in_len i) (my_a ip) my_srv my_txt my_ptr
           else
             '(_, sent) ← sdk_send_message (in_len i) (sdk_tx st); Ok (sdk_tx st, sent));
        Ok (Some (mkSdk status tx rxm rx (in_t2 i) 250000), out ++ [sent])
    else Ok (Some (mkSdk (sdk_status st) (sdk_tx st) rxm rx (in_t2 i) 250000), out).

(** The loop, for the inputs of its iterations. *)
Fixpoint sdk_run (ip : Z) (ins : list sdk_input) (st : sdk_state) : res (option sdk_state * list (list Z)) :=
  match ins with
  | [] => Ok (Some st, [])
  | i :: ins =>
      '(st, out) ← sdk_iteration ip i st;
      match st with
      | None => Ok (None, out)
      | Some st =>
          '(st, out') ← sdk_run ip ins st;
          Ok (st, out ++ out')
      end
  end.

(** [mdns_main] up to its loop: [None] if there is no socket. *)
Definition sdk_main_start (e : sock_env) (s : sys) (m rxm : sdk_message) (tx_buffer rx_buffer : list Z) (t r : Z)
    : res (option sdk_state * list scall) :=
  let '(sock, calls) := m_socket e s in
  if sock <? 0 then Ok (None, calls)
  else
    tx ← sdk_probe m tx_buffer;
    Ok (Some (mkSdk INITIALIZED tx rxm rx_buffer t (sys_random r 0 250 * 1000)), calls).

(** ** Launch and shutdown: [mdns_running] and [mc_sock] are the static variables *)

Inductive sdk_call := k_thread_create (status : Z) | k_socket_close (s : Z) | k_thread_halt | k_thread_delete.

Definition mdns_responder_init (thread_status running : Z) : Z * Z * list sdk_call :=
  if negb (running =? 0) then (SYS_SUCCESS, running, [])
  else
    (thread_status, if thread_status =? SYS_SUCCESS then 1 else running, [k_thread_create thread_status]).

Definition mdns_responder_shutdown (mc_sock running : Z) : Z * Z * list sdk_call :=
  if running =? 0 then (SYS_SUCCESS, running, [])
  else
    (SYS_SUCCESS, 0,
     (if 0 <=? mc_sock then [k_socket_close mc_sock] else []) ++ [k_thread_halt; k_thread_delete]).
