(* ===== verification/SdkTheorems.v ===== *)
(** * The embedded responder: the claims

    Equivalence of the two generations of the name code, the messages of the
    embedded responder as the current library reads them, the refinement of its
    loop to a small machine ([responder_machine]), and where the code goes wrong. *)
From S2P Require Import Prelude.
From S2P Require Import Buffer.
From S2P Require Import Cstring.
From S2P Require Import Dname.
From S2P Require Import DnameSpec.
From S2P Require Import Message.
From S2P Require Import MessageSpec.
From S2P Require Import MessageParse.
From S2P Require Import MessageTheorems.
From S2P Require Import Sys.
From S2P Require Import SysSpec.
From S2P Require Import SdkMdns.
From S2P Require Import SdkMdnsSpec.
From S2P Require Import SdkResponder.
From Stdlib Require String.
Import (notations) String.

#[global] Instance valid_label_dec l : Decision (valid_label l).
Proof. unfold valid_label. apply _. Defined.
#[global] Instance valid_name_dec ls : Decision (valid_name ls).
Proof. unfold valid_name. apply _. Defined.

(** C23: the embedded [mdns_name_length] is equivalent to [dname_size] of the
    current library, on every buffer and offset, up to its 16-bit result, and
    [mdns_traverse_name] moves by the same amount: both end, leave the buffer on
    the same inputs, and the branch that rejects an invalid label is dead. *)
Theorem sdk_names_equivalent b n m :
  bytes b -> sm_data m = b -> sm_cur m = n ->
  dname_size b n <> Diverge /\
  sdk_name_length b n = (x ← dname_size b n; Ok (u16 x)) /\
  sdk_traverse_name m = (x ← dname_size b n; Ok (1, sm_set_cur m (n + x))).
Proof.
  intros Hb <- <-. split_and!.
  - by apply dname_size_total.
  - by apply sdk_name_length_dname.
  - by apply sdk_traverse_dname.
Qed.

Definition sdk_blank (b : list Z) : sdk_message := mkSM b 0 [] [] 0 0.

Lemma sdk_names_equivalent_witness : sdk_name_length service_fqsn 0 = Ok 24.
Proof.
  destruct (sdk_names_equivalent service_fqsn 0 (sdk_blank service_fqsn)) as (_ & H & _).
  - by_eval.
  - reflexivity.
  - reflexivity.
  - rewrite H. vm_compute. reflexivity.
Defined.

(** ** Its messages *)

Definition domain_ls : list (list Z) := [str "local"].
Definition type_ls : list (list Z) := [str "_http"; str "_tcp"] ++ domain_ls.
Definition fqsn_ls : list (list Z) := str "8388V" :: type_ls.
Definition target_ls : list (list Z) := str "http-8388V" :: domain_ls.

(** The question of the probe, and the records of the announcement. *)
Definition probe_question : question := mkQ fqsn_ls T_ANY C_IN.
Definition service_rrs (ip : Z) : list rr :=
  [mkRR target_ls T_A C_FLUSH 225 (le_bytes ip);
   mkRR fqsn_ls T_SRV C_FLUSH 225 (be16 0 ++ be16 0 ++ be16 80 ++ encode target_ls);
   mkRR fqsn_ls T_TXT C_FLUSH 225 (encode [str "path=index.html"]);
   mkRR type_ls T_PTR C_IN 255 (encode fqsn_ls)].

Definition probe_wire : list Z := wire [0; 0; 0; 0] 1 0 0 (enc_body [probe_question] [] []).
Definition service_wire (ip : Z) : list Z := wire [0; 0; 0x84; 0] 0 4 0 (enc_body [] (service_rrs ip) []).

Lemma ntohl_ntohl ip : word32 ip -> be32 (ntohl ip) = le_bytes ip.
Proof.
  unfold word32. intros H. pose proof (le_bytes_bytes ip) as Hb. rewrite <- ntohl_be32.
  - unfold ntohl. f_equal. rewrite (le_bytes_div ip) in *. simpl rev at 2. rewrite le_bytes_of_le.
    + simpl rev. rewrite <- le_bytes_div. by apply of_le_bytes.
    + unfold bytes in *. rewrite !Forall_cons_iff in *. tauto.
  - unfold ntohl, word32. rewrite (le_bytes_div ip) in *. simpl rev. rewrite of_le_sum.
    + unfold bytes, is_byte in Hb. rewrite !Forall_cons_iff in Hb. lia.
    + unfold bytes in *. rewrite !Forall_cons_iff in *. tauto.
Qed.

Lemma lit_name s ls : lit s = encode ls -> bytes (lit s) -> valid_name ls -> sdk_name (lit s) ls.
Proof.
  intros E Hb Hv. split; [done|]. split; [done|]. rewrite E. split; [lia|]. split; [lia|].
  cbn [Z.to_nat]. by rewrite drop_0, firstn_all.
Qed.

Lemma fqsn_name : sdk_name service_fqsn fqsn_ls.
Proof. apply lit_name; [reflexivity|by_eval|by_eval]. Qed.
Lemma target_name : sdk_name (lit SERVICE_TARGET) target_ls.
Proof. apply lit_name; [reflexivity|by_eval|by_eval]. Qed.
Lemma type_name : sdk_name (lit (SERVICE_TYPE ++ SERVICE_DOMAIN)) type_ls.
Proof. apply lit_name; [reflexivity|by_eval|by_eval]. Qed.
Lemma txt_name : sdk_name (lit ([15] ++ str "path=index.html")) [str "path=index.html"].
Proof. apply lit_name; [reflexivity|by_eval|by_eval]. Qed.

Lemma sdk_probe_spec m b :
  bytes b -> 1000 <= Zlen b ->
  exists m', sdk_probe m b = Ok m' /\ srepr m' (enc_question probe_question) 1 0 [0; 0; 0; 0] /\
    Zlen (sm_data m') = Zlen b.
Proof.
  intros Hb Hl. unfold sdk_probe.
  destruct (sdk_transmit_init_spec m b Hb) as (m1 & E1 & R1 & L1); [lia|]. rewrite E1. cbn [mbind res_bind].
  destruct (sdk_mark_question_spec _ _ _ _ R1) as (m2 & E2 & R2 & L2). rewrite E2. cbn [mbind res_bind].
  destruct (sdk_add_question_spec m2 [] 0 0 _ service_fqsn probe_question R2 fqsn_name) as (m3 & E3 & R3 & L3).
  { concrete. } { concrete. } { lia. } { lia. } { apply Z.le_trans with 1000; [vm_compute; congruence|lia]. }
  exists m3. split_and!; [done|done|lia].
Qed.

Lemma sdk_announce_spec m b len ip :
  bytes b -> 1000 <= Zlen b -> word32 ip ->
  exists m', sdk_announce m b len (my_a ip) my_srv my_txt my_ptr = Ok (m', service_wire ip) /\
    srepr m' (flat_map enc_rr (service_rrs ip)) 0 4 [0; 0; 0x84; 0] /\ Zlen (sm_data m') = Zlen b.
Proof.
  intros Hb Hl Hip. unfold sdk_announce. change SDK_T_A with T_A. change SDK_T_SRV with T_SRV.
  change SDK_T_TXT with T_TXT. change SDK_T_PTR with T_PTR. change SDK_C_FLUSH with C_FLUSH. change SDK_C_IN with C_IN.
  destruct (sdk_transmit_init_spec m b Hb) as (m1 & E1 & R1 & L1); [lia|]. rewrite E1. cbn [mbind res_bind].
  destruct (sdk_mark_response_spec _ _ _ _ R1) as (m2 & E2 & R2 & L2). rewrite E2. cbn [mbind res_bind].
  pose (xs := service_rrs ip). assert (Hrr : forall k, Zlen (flat_map enc_rr (take k xs)) <= 500).
  { intros k. do 5 (destruct k as [|k]; [vm_compute; congruence|]). destruct k; vm_compute; congruence. }
  assert (step : forall k x name r mk, xs !! k = Some x -> sdk_name name (rr_labels x) -> word16 (rr_type x) ->
    word16 (rr_class x) -> word32 (rr_ttl x) -> rdata r (rr_data x) ->
    srepr mk (flat_map enc_rr (take k xs)) 0 (Z.of_nat k) [0; 0; 0x84; 0] -> Zlen (sm_data mk) = Zlen b ->
    exists m', sdk_add_answer mk name (rr_type x) (rr_class x) (rr_ttl x) r = Ok m' /\
      srepr m' (flat_map enc_rr (take (S k) xs)) 0 (Z.of_nat (S k)) [0; 0; 0x84; 0] /\ Zlen (sm_data m') = Zlen b).
  { intros k x name r mk Hx Hn Ht Hc Htl Hd Hr HL.
    assert (Hk : (k < 4)%nat) by (apply lookup_lt_Some in Hx; done).
    assert (Eq : flat_map enc_rr (take (S k) xs) = flat_map enc_rr (take k xs) ++ enc_rr x).
    { rewrite (take_S_r _ _ _ Hx), flat_map_app. simpl. by rewrite app_nil_r. }
    destruct (sdk_add_answer_spec mk _ 0 (Z.of_nat k) _ name x r Hr Hn Ht Hc Htl Hd) as (m' & E & R & L);
      [lia|lia| |].
    { pose proof (Hrr (S k)) as Hs. rewrite Eq, Zlen_app in Hs. lia. }
    exists m'. rewrite Eq. replace (Z.of_nat (S k)) with (Z.of_nat k + 1) by lia. split_and!; [done|done|lia]. }
  assert (Ha : rdata (my_a ip) (le_bytes ip)).
  { rewrite <- ntohl_ntohl by done. apply rdata_a. unfold word32, ntohl.
    pose proof (le_bytes_bytes ip) as Hb'. rewrite (le_bytes_div ip) in *. simpl rev. rewrite of_le_sum.
    - unfold bytes, is_byte in Hb'. rewrite !Forall_cons_iff in Hb'. lia.
    - unfold bytes in *. rewrite !Forall_cons_iff in *. tauto. }
  destruct (step 0%nat _ (lit SERVICE_TARGET) (my_a ip) m2 eq_refl target_name) as (m3 & E3 & R3 & L3);
    [concrete|concrete|concrete|done|done|lia|]. cbn [rr_type rr_class rr_ttl] in E3. rewrite E3. cbn [mbind res_bind].
  destruct (step 1%nat _ service_fqsn my_srv m3 eq_refl fqsn_name) as (m4 & E4 & R4 & L4);
    [concrete|concrete|concrete|apply rdata_srv; [concrete..|apply target_name]|done|lia|].
  cbn [rr_type rr_class rr_ttl] in E4. rewrite E4. cbn [mbind res_bind].
  destruct (step 2%nat _ service_fqsn my_txt m4 eq_refl fqsn_name) as (m5 & E5 & R5 & L5);
    [concrete|concrete|concrete|apply rdata_txt, txt_name|done|lia|].
  cbn [rr_type rr_class rr_ttl] in E5. rewrite E5. cbn [mbind res_bind].
  destruct (step 3%nat _ _ my_ptr m5 eq_refl type_name) as (m6 & E6 & R6 & L6);
    [concrete|concrete|concrete|apply rdata_ptr, fqsn_name|done|lia|].
  cbn [rr_type rr_class rr_ttl] in E6. rewrite E6. cbn [mbind res_bind].
  rewrite (sdk_send_spec _ _ _ _ _ _ R6). cbn [mbind res_bind]. exists m6. done.
Qed.

Lemma service_rrs_valid ip : Forall valid_rr (service_rrs ip).
Proof.
  repeat apply Forall_cons_2; [..|constructor].
  all: split; [by_eval|]; split; [concrete|]; split; [concrete|]; split; [concrete|]; split; [done|].
  all: split; [try (intros E; discriminate E); done|]; split; try (intros E; discriminate E).
  - by eexists.
  - intros _. exists fqsn_ls. split; [by_eval|done].
Qed.

(** C24: the announcement of the embedded responder is the address, the service,
    its text and its pointer on the wire as the current library encodes them: the
    parser of the current library accepts it in any receive buffer and recovers
    exactly these four records. *)
Theorem sdk_announcement_understood m b len ip m' rest :
  bytes b -> 1000 <= Zlen b -> word32 ip ->
  arrays_ok m' -> data m' = service_wire ip ++ rest -> bytes rest -> Zlen (data m') < 65536 ->
  exists tx, sdk_announce m b len (my_a ip) my_srv my_txt my_ptr = Ok (tx, service_wire ip) /\
  exists m'', returns (fun fuel => mdns_parse_message fuel m' (Zlen (service_wire ip))) (0, m'') /\
    parsed m'' [] (service_rrs ip) [].
Proof.
  intros Hb Hl Hip Harr Hd Hrest Hlen.
  destruct (sdk_announce_spec m b len ip Hb Hl Hip) as (tx & E & _). exists tx. split; [done|].
  assert (Hw : holds (data m') 0 (service_wire ip)).
  { rewrite Hd. split; [lia|]. rewrite Zlen_app. pose proof (Zlen_nonneg rest). split; [lia|].
    cbn [Z.to_nat]. by rewrite drop_0, take_app_length. }
  pose proof Hw as Hf. apply wire_fields in Hf as (H0 & H4 & H6 & H8); [|done].
  change [0; 0; 0x84; 0] with ([0; 0] ++ [0x84; 0]) in H0. apply holds_app in H0 as [_ H2].
  apply holds_app in H8 as [H8 H10]. apply holds_app in H10 as [_ H12].
  assert (Hbytes : bytes (service_wire ip)).
  { pose proof (le_bytes_bytes ip) as Hle. unfold service_wire, wire, enc_body, service_rrs, enc_rr.
    cbn [flat_map rr_labels rr_type rr_class rr_ttl rr_data]. unfold bytes. rewrite ?Forall_app.
    split_and!; try exact Hle; by_eval. }
  destruct (parse_message_returns m' (Zlen (service_wire ip)) 0x84 0 [] (service_rrs ip) []) as (m'' & HR & HP & _).
  - rewrite Hd. by apply Forall_app.
  - done.
  - done.
  - exact H2.
  - reflexivity.
  - exact H4.
  - exact H6.
  - exact H8.
  - simpl; lia.
  - simpl; lia.
  - simpl; lia.
  - constructor.
  - apply service_rrs_valid.
  - constructor.
  - exact H12.
  - reflexivity.
  - eauto.
Qed.

Definition demo_ip : Z := of_le [169; 254; 1; 0].
Definition demo_rx : mdns_message := message_of (service_wire demo_ip ++ replicate 100 7).

Lemma sdk_announcement_understood_witness :
  exists m'', returns (fun fuel => mdns_parse_message fuel demo_rx (Zlen (service_wire demo_ip))) (0, m'') /\
    parsed m'' [] (service_rrs demo_ip) [].
Proof.
  destruct (sdk_announcement_understood (sdk_blank []) (replicate 1000 0) 0 demo_ip demo_rx (replicate 100 7))
    as (tx & _ & H).
  - by_eval.
  - vm_compute. congruence.
  - concrete.
  - split_and!; reflexivity.
  - reflexivity.
  - by_eval.
  - reflexivity.
  - exact H.
Defined.

(** ** The responder as a machine *)

(** What the responder sends: its probe or its records. *)
Inductive kind := K_probe | K_service.

Definition kind_wire (ip : Z) (k : kind) : list Z :=
  match k with K_probe => probe_wire | K_service => service_wire ip end.

(** A packet is a query if the top bit of its flags is clear. *)
Definition is_query (p : list Z) : bool := match p !! 2%nat with Some f => f <? 128 | None => false end.

(** The reply to a packet from [from]. *)
Definition replies (ip status : Z) (pf : list Z * Z) : list kind :=
  if (status =? STARTED) && is_query pf.1 && negb (pf.2 =? ip) then [K_service] else [].

(** While it claims its name the responder sends one message per undisturbed
    wait: three probes, then its records twice.  Then it sends its records for
    every query of another host. *)
Definition responder_machine (ip status : Z) (i : sdk_input) : Z * list kind :=
  if in_isset i then (status, flat_map (replies ip status) (in_packets i))
  else if status <? STARTED then
    (status + 1, [if status + 1 <? ANNOUNCE then K_probe else K_service])
  else (status, []).

(** A well-formed message of up to 32 questions and 10 answers; the rest of the
    packet is arbitrary. *)
Definition sdk_packet (p : list Z) : Prop :=
  bytes p /\ Zlen p <= MDNS_BUFFER_LEN /\
  exists i0 i1 f0 f1 n0 n1 n2 n3 qs an rest,
    p = [i0; i1; f0; f1] ++ be16 (Zlen qs) ++ be16 (Zlen an) ++ [n0; n1; n2; n3] ++
        (flat_map enc_question qs ++ flat_map enc_rr an) ++ rest /\
    flag_opcode (f0 * 256 + f1) = 0 /\ (length qs <= 32)%nat /\ (length an <= 10)%nat /\
    Forall sdk_valid_question qs /\ Forall sdk_valid_rr an.

Definition sdk_input_ok (i : sdk_input) : Prop :=
  0 <= in_active i /\ Forall (fun pf => sdk_packet pf.1) (in_packets i).

(** The message the state holds for sending. *)
Definition tx_holds (ip : Z) (tx : sdk_message) (k : kind) : Prop :=
  match k with
  | K_probe => srepr tx (enc_question probe_question) 1 0 [0; 0; 0; 0]
  | K_service => srepr tx (flat_map enc_rr (service_rrs ip)) 0 4 [0; 0; 0x84; 0]
  end.

Record sdk_wf (ip : Z) (st : sdk_state) : Prop := mk_sdk_wf {
  sw_status : 0 <= sdk_status st <= STARTED;
  sw_rx : bytes (sdk_rx st) /\ Zlen (sdk_rx st) = MDNS_BUFFER_LEN;
  sw_tx : tx_holds ip (sdk_tx st) (if sdk_status st <? ANNOUNCE then K_probe else K_service);
  sw_len : 1000 <= Zlen (sm_data (sdk_tx st)) }.

Lemma tx_send ip tx k len :
  tx_holds ip tx k -> exists r, sdk_send_message len tx = Ok (r, kind_wire ip k).
Proof.
  intros H. destruct k; cbn [tx_holds] in H; rewrite (sdk_send_spec _ _ _ _ _ _ H); eexists; [|done].
  unfold kind_wire, probe_wire, enc_body. simpl flat_map. by rewrite !app_nil_r.
Qed.

Lemma flag_qr_query f0 f1 : is_byte f0 -> is_byte f1 -> flag_qr (f0 * 256 + f1) = if f0 <? 128 then 0 else 1.
Proof.
  unfold is_byte. intros H0 H1. unfold flag_qr. rewrite Z.shiftr_div_pow2 by lia. change (2 ^ 15) with 32768.
  destruct (Z.ltb_spec f0 128).
  - rewrite Z.div_small by lia. done.
  - replace ((f0 * 256 + f1) / 32768) with 1; [done|]. Z.to_euclidean_division_equations; lia.
Qed.

(** One packet: it is parsed, the buffer stays a buffer, and the flag is read. *)
Lemma sdk_packet_parsed p rxm rx :
  sdk_packet p -> bytes rx -> Zlen rx = MDNS_BUFFER_LEN ->
  take (Z.to_nat MDNS_BUFFER_LEN) p = p /\ Zlen p <> 0 /\
  exists rx1 rxm', wr_range rx 0 p = Ok rx1 /\ sdk_parse_message rxm rx1 = Ok (1, rxm') /\
    bytes (sm_data rxm') /\ Zlen (sm_data rxm') = MDNS_BUFFER_LEN /\
    sdk_qr rxm' = Ok (if is_query p then 0 else 1).
Proof.
  intros (Hb & Hl & i0 & i1 & f0 & f1 & n0 & n1 & n2 & n3 & qs & an & rest & Ep & Hop & Lq & La & Vq & Va) Hrx Lrx.
  split; [apply take_ge; unfold Zlen, MDNS_BUFFER_LEN in *; lia|].
  split; [rewrite Ep; unfold Zlen; simpl; lia|].
  destruct (wr_range_exists rx 0 p) as [rx1 W]; [lia|lia|]. exists rx1.
  assert (Hb1 : bytes rx1) by (eapply wr_range_bytes; eauto).
  pose proof (wr_range_Zlen _ _ _ _ W) as L1. pose proof (wr_range_holds _ _ _ _ W) as Hh.
  assert (Hq : is_query p = (f0 <? 128)) by by rewrite Ep.
  rewrite Ep in Hh. change [i0; i1; f0; f1] with ([i0; i1] ++ [f0; f1]) in Hh. rewrite !holds_app in Hh.
  rewrite !Zlen_be16 in Hh. destruct Hh as ((_ & H2) & H4 & H6 & _ & H12 & _).
  destruct (sdk_parse_spec rxm rx1 f0 f1 qs an) as (m' & b' & E & W' & Ed & Eqr & _); [done..| |].
  { apply holds_app. exact H12. }
  exists m'. split; [done|]. split; [done|]. rewrite Ed.
  pose proof (holds_byte _ _ _ Hb1 H2) as HB. unfold bytes in HB. rewrite !Forall_cons_iff in HB.
  destruct HB as (B0 & B1 & _).
  split; [|split].
  - eapply wr_range_bytes; [exact W'|done|]. repeat apply Forall_cons_2; done.
  - rewrite (wr_range_Zlen _ _ _ _ W'). lia.
  - rewrite Eqr, Hq. by rewrite flag_qr_query.
Qed.

Lemma sdk_receive_spec ip len status ps tx rxm rx :
  Forall (fun pf => sdk_packet pf.1) ps -> bytes rx -> Zlen rx = MDNS_BUFFER_LEN -> 0 <= status <= STARTED ->
  (status = STARTED -> tx_holds ip tx K_service) ->
  exists rxm' rx', sdk_receive ip len status ps tx rxm rx =
      Ok (rxm', rx', kind_wire ip <$> flat_map (replies ip status) ps) /\
    bytes rx' /\ Zlen rx' = MDNS_BUFFER_LEN.
Proof.
  intros Hps. revert rxm rx. induction Hps as [|[p from] ps Hp _ IH]; intros rxm rx Hb Hl Hst Htx.
  { exists rxm, rx. done. }
  cbn [sdk_receive fst] in *.
  destruct (sdk_packet_parsed p rxm rx Hp Hb Hl) as (Et & Hne & rx1 & rxm1 & W & E & Hb1 & Hl1 & Hqr).
  rewrite Et. rewrite (proj2 (Z.eqb_neq _ _) Hne). rewrite W. cbn [mbind res_bind]. rewrite E. cbn [mbind res_bind].
  rewrite Hqr. cbn [mbind res_bind].
  destruct (IH rxm1 (sm_data rxm1) Hb1 Hl1 Hst Htx) as (rxm' & rx' & E' & Hb' & Hl').
  exists rxm', rx'. split; [|done]. rewrite E'. cbn [flat_map]. rewrite fmap_app.
  unfold replies at 2. cbn [fst snd Z.eqb negb andb].
  destruct (is_query p); cbn [Z.eqb andb]; rewrite ?andb_false_r, ?andb_true_r; cbn [andb].
  2: { done. }
  destruct (from =? ip); cbn [negb]; rewrite ?andb_false_r, ?andb_true_r; cbn [andb]; [done|].
  destruct (Z.eqb_spec status STARTED) as [->|]; [|done].
  destruct (tx_send ip tx K_service len (Htx eq_refl)) as [r ->]. done.
Qed.

(** One iteration is one step of the machine. *)
Lemma sdk_iteration_refines ip i st :
  word32 ip -> sdk_wf ip st -> sdk_input_ok i ->
  exists st', sdk_iteration ip i st =
      Ok (Some st', map (kind_wire ip) (responder_machine ip (sdk_status st) i).2) /\
    sdk_wf ip st' /\ sdk_status st' = (responder_machine ip (sdk_status st) i).1.
Proof.
  intros Hip [[S0 S1] [Rb Rl] Htx Hlen] [Hact Hps]. unfold sdk_iteration, responder_machine.
  rewrite (proj2 (Z.ltb_ge _ _) Hact). destruct (in_isset i) eqn:Ei; cbn [fst snd].
  - destruct (sdk_receive_spec ip (in_len i) (sdk_status st) (in_packets i) (sdk_tx st) (sdk_rxm st) (sdk_rx st))
      as (rxm' & rx' & E & Hb' & Hl'); [done|done|done|done| |].
    { intros Es. by rewrite Es in Htx. }
    rewrite E. cbn [mbind res_bind]. destruct (Z.ltb_spec (sdk_status st) STARTED); eexists; split; try done.
  - cbn [mbind res_bind]. destruct (Z.ltb_spec (sdk_status st) STARTED) as [Hlt|Hge]; cbn [fst snd].
    2: { eexists. split; [done|]. split; [|done]. by constructor. }
    unfold STARTED in *. destruct (Z.eqb_spec (sdk_status st + 1) ANNOUNCE) as [Ea|Ea].
    + destruct (sdk_announce_spec (sdk_tx st) (sm_data (sdk_tx st)) (in_len i) ip) as (tx & E & Hr & HL); [|done|done|].
      { destruct (sdk_status st <? ANNOUNCE); cbn in Htx; apply (srepr_bytes _ _ _ _ _ Htx). }
      rewrite E. cbn [mbind res_bind]. rewrite Ea. change (ANNOUNCE <? ANNOUNCE) with false.
      eexists. split; [done|]. split; [|done]. constructor; cbn [sdk_status sdk_rx sdk_tx]; try done. lia.
    + destruct (tx_send ip _ _ (in_len i) Htx) as [r E]. rewrite E. cbn [mbind res_bind].
      assert (Ek : (sdk_status st <? ANNOUNCE) = (sdk_status st + 1 <? ANNOUNCE)).
      { unfold ANNOUNCE in *. destruct (Z.ltb_spec (sdk_status st) 4), (Z.ltb_spec (sdk_status st + 1) 4); lia. }
      rewrite Ek in *. eexists. split; [done|]. split; [|done].
      constructor; cbn [sdk_status sdk_rx sdk_tx]; try done. unfold STARTED. lia.
Qed.

Fixpoint machine_run (ip status : Z) (ins : list sdk_input) : Z * list kind :=
  match ins with
  | [] => (status, [])
  | i :: ins =>
      let '(status, out) := responder_machine ip status i in
      let '(status, out') := machine_run ip status ins in (status, out ++ out')
  end.

Lemma sdk_run_refines ip ins st :
  word32 ip -> sdk_wf ip st -> Forall sdk_input_ok ins ->
  exists st', sdk_run ip ins st = Ok (Some st', map (kind_wire ip) (machine_run ip (sdk_status st) ins).2) /\
    sdk_wf ip st' /\ sdk_status st' = (machine_run ip (sdk_status st) ins).1.
Proof.
  intros Hip Hwf Hins. revert st Hwf. induction Hins as [|i ins Hi _ IH]; intros st Hwf; [by eexists|].
  cbn [sdk_run machine_run]. destruct (sdk_iteration_refines ip i st Hip Hwf Hi) as (st1 & E1 & W1 & S1).
  destruct (IH st1 W1) as (st2 & E2 & W2 & S2). rewrite E1. cbn [mbind res_bind]. rewrite E2. cbn [mbind res_bind].
  rewrite S1 in *. destruct (responder_machine ip (sdk_status st) i) as [s1 o1].
  cbn [fst snd] in *. destruct (machine_run ip s1 ins) as [s2 o2]. exists st2. cbn [fst snd].
  by rewrite map_app.
Qed.

(** The start sequence, and its length after [n] undisturbed waits. *)
Definition start_sequence : list kind := [K_probe; K_probe; K_probe; K_service; K_service].

Definition quiet (ins : list sdk_input) : Z := Zlen (filter (fun i => in_isset i = false) ins).

Lemma replies_shape ip status ps :
  exists j, flat_map (replies ip status) ps = replicate j K_service /\ (status <> STARTED -> j = 0%nat).
Proof.
  induction ps as [|pf ps (j & E & Hj)]; [by exists 0%nat|]. cbn [flat_map]. rewrite E. unfold replies.
  destruct (Z.eqb_spec status STARTED) as [->|]; [|by exists j].
  destruct (is_query pf.1); [|by exists j]. destruct (pf.2 =? ip); [by exists j|]. by exists (S j).
Qed.

Lemma start_step n :
  0 <= n < STARTED ->
  take (Z.to_nat (n + 1)) start_sequence =
    take (Z.to_nat n) start_sequence ++ [if n + 1 <? ANNOUNCE then K_probe else K_service].
Proof.
  unfold STARTED. intros H. assert (n = 0 \/ n = 1 \/ n = 2 \/ n = 3 \/ n = 4) as [E|[E|[E|[E|E]]]] by lia; by rewrite E.
Qed.

Lemma machine_shape ip ins n j pre :
  0 <= n <= STARTED -> (n <> STARTED -> j = 0%nat) ->
  pre = take (Z.to_nat n) start_sequence ++ replicate j K_service ->
  exists j', (machine_run ip n ins).1 = Z.min STARTED (n + quiet ins) /\
    pre ++ (machine_run ip n ins).2 = take (Z.to_nat (machine_run ip n ins).1) start_sequence ++ replicate j' K_service /\
    ((machine_run ip n ins).1 <> STARTED -> j' = 0%nat).
Proof.
  revert n j pre. induction ins as [|i ins IH]; intros n j pre Hn Hj Hp.
  { exists j. cbn. rewrite app_nil_r. split_and!; [unfold quiet; change (Zlen (filter _ [])) with 0; lia|done|done]. }
  cbn [machine_run]. destruct (responder_machine ip n i) as [n1 o1] eqn:E1.
  assert (exists j1, 0 <= n1 <= STARTED /\ (n1 <> STARTED -> j1 = 0%nat) /\
    pre ++ o1 = take (Z.to_nat n1) start_sequence ++ replicate j1 K_service /\
    Z.min STARTED (n + quiet (i :: ins)) = Z.min STARTED (n1 + quiet ins)) as (j1 & Hn1 & Hj1 & Hp1 & Hq).
  { unfold responder_machine in E1. unfold quiet. rewrite filter_cons. destruct (in_isset i).
    - injection E1 as <- <-. destruct (replies_shape ip n (in_packets i)) as (k & -> & Hk).
      exists (j + k)%nat. split; [lia|]. split; [intros H; rewrite Hj, Hk; done|].
      split; [|by case_decide]. rewrite Hp, <- app_assoc. by rewrite replicate_add.
    - destruct (Z.ltb_spec n STARTED); injection E1 as <- <-.
      + exists 0%nat. split; [lia|]. split; [done|]. rewrite Hp, Hj by lia. rewrite start_step by lia.
        split; [by rewrite !app_nil_r|]. rewrite decide_True by done. rewrite Zlen_cons. lia.
      + exists j. split; [lia|]. split; [done|]. split; [by rewrite app_nil_r|].
        rewrite decide_True by done. rewrite Zlen_cons. pose proof (Zlen_nonneg (filter (fun i => in_isset i = false) ins)).
        lia. }
  destruct (IH n1 j1 _ Hn1 Hj1 Hp1) as (j' & A & B & C). destruct (machine_run ip n1 ins) as [n2 o2].
  cbn [fst snd] in *. exists j'. rewrite Hq. rewrite <- app_assoc in B. done.
Qed.

(** When the four calls that set the socket up succeed, [mdns_main] enters its
    loop with the probe in its buffer. *)
Lemma sdk_main_start_spec e s m rxm tx rx t r :
  0 <= e_socket e -> e_bind e = 0 -> 0 <= e_join e -> 0 <= e_ttl e ->
  bytes tx -> 1000 <= Zlen tx -> bytes rx -> Zlen rx = MDNS_BUFFER_LEN ->
  exists st calls, sdk_main_start e s m rxm tx rx t r = Ok (Some st, calls) /\
    sdk_wf (sys_get_ip s) st /\ sdk_status st = INITIALIZED /\ sdk_start st = t.
Proof.
  intros H1 H2 H3 H4 Hb Hl Hrx Lrx. unfold sdk_main_start, m_socket.
  rewrite (proj2 (Z.ltb_ge _ _) H1), (proj2 (Z.ltb_ge _ _) H3), (proj2 (Z.ltb_ge _ _) H4), H2.
  cbn [Z.eqb negb]. rewrite (proj2 (Z.ltb_ge _ _) H1).
  destruct (sdk_probe_spec m tx Hb Hl) as (m' & E & R & L). rewrite E. cbn [mbind res_bind].
  do 2 eexists. split; [done|]. split; [|done]. constructor; cbn [sdk_status sdk_tx sdk_rx]; try done. lia.
Qed.

(** C13: the embedded responder, from its start when its socket can be set up, for any sequence of waits in
    which select does not fail, with any clock readings: on packets with opcode 0, up
    to 32 questions and 10 answers, and uncompressed names in them ([sdk_packet])
    it never leaves its buffers nor stops, what it sends is what the machine sends,
    namely three probes and its records twice, one for every wait without a packet,
    and then nothing but its records, once for every query of another host. *)
Theorem sdk_responder_refines e s m rxm tx rx t r ins :
  0 <= e_socket e -> e_bind e = 0 -> 0 <= e_join e -> 0 <= e_ttl e ->
  bytes tx -> 1000 <= Zlen tx -> bytes rx -> Zlen rx = MDNS_BUFFER_LEN ->
  word32 (sys_get_ip s) -> Forall sdk_input_ok ins ->
  let out := (machine_run (sys_get_ip s) INITIALIZED ins).2 in
  exists st0 calls st j,
    sdk_main_start e s m rxm tx rx t r = Ok (Some st0, calls) /\
    sdk_run (sys_get_ip s) ins st0 = Ok (Some st, map (kind_wire (sys_get_ip s)) out) /\
    sdk_status st = Z.min STARTED (quiet ins) /\
    out = take (Z.to_nat (sdk_status st)) start_sequence ++ replicate j K_service /\
    (sdk_status st <> STARTED -> j = 0%nat).
Proof.
  intros H1 H2 H3 H4 Hb Hl Hrx Lrx Hip Hins out.
  destruct (sdk_main_start_spec e s m rxm tx rx t r H1 H2 H3 H4 Hb Hl Hrx Lrx) as (st0 & calls & E0 & W0 & S0 & _).
  destruct (sdk_run_refines _ ins _ Hip W0 Hins) as (st & E & W & S). rewrite S0 in *.
  destruct (machine_shape (sys_get_ip s) ins INITIALIZED 0 []) as (j & A & B & C); [done|done|done|].
  exists st0, calls, st, j. rewrite S. split_and!; [done|done|exact A|exact B|exact C].
Qed.

(** A query for "local" from the host 7, and the quiet waits before it. *)
Definition demo_query : list Z :=
  wire [0; 0; 0; 0] 1 0 0 (enc_body [mkQ domain_ls T_ANY C_IN] [] []).
Definition demo_inputs : list sdk_input :=
  replicate 6 (mkSdkIn 0 false [] 0 0 60) ++ [mkSdkIn 1 true [(demo_query, 7)] 0 0 60].
Definition demo_env : sock_env := mkEnv 3 0 0 0.
Definition demo_sys : sys := mkSys (table []) [169; 254; 1; 0] [255; 255; 0; 0] (replicate 4 0) 1 0 None 0.

Lemma demo_query_ok : sdk_packet demo_query.
Proof.
  split; [by_eval|]. split; [vm_compute; congruence|].
  exists 0, 0, 0, 0, 0, 0, 0, 0, [mkQ domain_ls T_ANY C_IN], [], [].
  split; [reflexivity|]. split; [reflexivity|]. split; [simpl; lia|]. split; [simpl; lia|]. split; [|constructor].
  constructor; [|constructor]. split; [by_eval|]. split; [by split|]. split; [concrete|done].
Qed.

Lemma demo_inputs_ok : Forall sdk_input_ok demo_inputs.
Proof.
  apply Forall_app. split.
  - apply Forall_replicate. by split.
  - constructor; [|done]. split; [done|]. constructor; [apply demo_query_ok|done].
Qed.

(** Six quiet waits and a query: the start sequence and one answer. *)
Lemma sdk_responder_refines_witness :
  exists st0 calls st,
    sdk_main_start demo_env demo_sys (sdk_blank []) (sdk_blank []) (replicate 1000 0) (replicate 1000 0) 0 0 =
      Ok (Some st0, calls) /\
    sdk_run demo_ip demo_inputs st0 =
      Ok (Some st, [probe_wire; probe_wire; probe_wire; service_wire demo_ip; service_wire demo_ip; service_wire demo_ip]).
Proof.
  destruct (sdk_responder_refines demo_env demo_sys (sdk_blank []) (sdk_blank []) (replicate 1000 0) (replicate 1000 0)
    0 0 demo_inputs) as (st0 & calls & st & j & E0 & E & _).
  - vm_compute. congruence.
  - reflexivity.
  - vm_compute. congruence.
  - vm_compute. congruence.
  - by_eval.
  - vm_compute. congruence.
  - by_eval.
  - reflexivity.
  - concrete.
  - exact demo_inputs_ok.
  - exists st0, calls, st. split; [exact E0|exact E].
Defined.

(** ** Where it goes wrong *)

(** A packet before the name is claimed: nothing is sent, and the wait starts
    again. *)
Lemma sdk_iteration_disturbed ip i st :
  word32 ip -> sdk_wf ip st -> sdk_input_ok i -> in_isset i = true -> sdk_status st < STARTED ->
  exists st', sdk_iteration ip i st = Ok (Some st', []) /\ sdk_wf ip st' /\ sdk_status st' = sdk_status st /\
    sdk_start st' = in_t2 i /\ sdk_usec st' = wait_remaining (in_t1 i) (sdk_start st).
Proof.
  intros Hip Hwf Hi Ei Hlt. destruct (sdk_iteration_refines ip i st Hip Hwf Hi) as (st' & E & W & S).
  unfold responder_machine in *. rewrite Ei in *. cbn [fst snd] in *.
  destruct (replies_shape ip (sdk_status st) (in_packets i)) as (j & Er & Hj). rewrite Hj in Er by lia.
  rewrite Er in E. exists st'. split; [done|]. split; [done|]. split; [done|].
  unfold sdk_iteration in E. rewrite Ei, (proj2 (Z.ltb_lt _ _) Hlt), (proj2 (Z.ltb_ge _ _)) in E by apply Hi.
  destruct (sdk_receive _ _ _ _ _ _ _) as [[[rxm rx] out]| |]; [|done|done]. by injection E as <- _.
Qed.

Definition packet_at (k : nat) : sdk_input :=
  mkSdkIn 1 true [(demo_query, 7)] (100 * Z.of_nat (S k)) (100 * Z.of_nat (S k)) 60.

Lemma packet_at_ok k : sdk_input_ok (packet_at k).
Proof. split; [done|]. constructor; [apply demo_query_ok|done]. Qed.

Lemma sdk_starved_from n : forall k st,
  sdk_wf demo_ip st -> sdk_status st = INITIALIZED -> sdk_start st = 100 * Z.of_nat k ->
  exists st', sdk_run demo_ip (map packet_at (seq k (S n))) st = Ok (Some st', []) /\
    sdk_status st' = INITIALIZED /\ sdk_usec st' = 150000.
Proof.
  induction n as [|n IH]; intros k st Hwf S0 Hs.
  all: destruct (sdk_iteration_disturbed demo_ip (packet_at k) st) as (st1 & E & W & S1 & T & U);
    [concrete|done|apply packet_at_ok|done|by rewrite S0|].
  all: assert (Hu : wait_remaining (in_t1 (packet_at k)) (sdk_start st) = 150000)
    by (unfold wait_remaining, packet_at; cbn [in_t1]; rewrite Hs, (proj2 (Z.ltb_lt _ _)) by lia;
        rewrite (proj2 (Z.leb_le _ _)) by lia; lia).
  - exists st1. cbn [seq map sdk_run]. rewrite E. cbn [mbind res_bind app]. split_and!; [done|congruence|congruence].
  - change (seq k (S (S n))) with (k :: seq (S k) (S n)). cbn [map]. cbn [sdk_run]. rewrite E. cbn [mbind res_bind].
    destruct (IH (S k) st1 W) as (st2 & E2 & S2 & U2); [congruence|by rewrite T|].
    exists st2. rewrite E2. done.
Qed.

(** Packets that keep coming less than 250 ms apart stop the embedded
    responder from ever claiming its name: a packet every 100 ms restarts the wait
    (the start time is taken again after every packet), so that the timeout is
    150 ms each time and no probe is ever sent. *)
Theorem sdk_claim_starved n :
  exists st0 calls st,
    sdk_main_start demo_env demo_sys (sdk_blank []) (sdk_blank []) (replicate 1000 0) (replicate 1000 0) 0 0 =
      Ok (Some st0, calls) /\
    sdk_run demo_ip (map packet_at (seq 0 (S n))) st0 = Ok (Some st, []) /\
    sdk_status st = INITIALIZED /\ sdk_usec st = 150000.
Proof.
  destruct (sdk_main_start_spec demo_env demo_sys (sdk_blank []) (sdk_blank []) (replicate 1000 0) (replicate 1000 0) 0 0)
    as (st0 & calls & E0 & W0 & S0 & T0); [done|done|done|done|by_eval|done|by_eval|done|].
  destruct (sdk_starved_from n 0 st0 W0 S0) as (st & E & S & U); [done|].
  eauto 10.
Qed.

(** A packet of [MDNS_BUFFER_LEN] bytes that asks one question; the labels of its
    name fill the buffer. *)
Definition endless_packet : list Z := wire [0; 0; 0; 0] 1 0 0 (replicate 988 63).

(** The embedded parser takes no length and no label count: a packet that fills
    the receive buffer with labels makes it read beyond the buffer. *)
Theorem sdk_parse_overreads :
  bytes endless_packet /\ Zlen endless_packet = MDNS_BUFFER_LEN /\
  forall m, sdk_parse_message m endless_packet = Fault.
Proof. split; [by_eval|]. split; [reflexivity|]. intros m. vm_compute. reflexivity. Qed.
