(* ===== verification/Console.v ===== *)
(** * The serial console of the embedded port (cmd_parser.c)

    Characters from the serial port go through a ring buffer ([cmd_handle_serial],
    called on every tick) to the thread that collects a line ([read_step], one
    iteration of the loop of [cmd_parser_read_line]) and executes it
    ([cmd_parser_exec]).  The functions of other files that a command calls are
    its output; what they return is an input.  [char] is unsigned; the build has
    EMBEDDED_TCPIP.  Text for the terminal is left out. *)
From S2P Require Import Prelude.
From S2P Require Import Buffer.
From S2P Require Import Cstring.
From S2P Require Import Sys.
From Stdlib Require String.
Import (notations) String.

Definition STRING_SIZE : Z := 100.
Definition SERIAL_BUFFER_SIZE : Z := 256.

(** ** The ring buffer and the line *)

Record ring := mkRing { from_serial : list Z; read_ptr : Z; write_ptr : Z }.

(** The characters [dbg_GetChar] has, and those left when the function returns. *)
Fixpoint cmd_handle_serial (cs : list Z) (r : ring) : res (list Z * ring) :=
  match cs with
  | [] => Ok ([], r)
  | c :: cs =>
      let tmp_ptr := Z.land (write_ptr r + 1) (SERIAL_BUFFER_SIZE - 1) in
      if tmp_ptr =? read_ptr r then Ok (cs, r)
      else
        buf ← wr (from_serial r) (write_ptr r) c;
        cmd_handle_serial cs (mkRing buf (read_ptr r) tmp_ptr)
  end.

Definition CH_BS : Z := 8.
Definition CH_CR : Z := 13.

(** [user_string], and the [index] of the reader. *)
Record console := mkConsole { c_ring : ring; user_string : list Z; c_index : Z }.

Definition next_read (r : ring) : ring :=
  mkRing (from_serial r) (Z.land (read_ptr r + 1) (SERIAL_BUFFER_SIZE - 1)) (write_ptr r).

(** One iteration: [true] when the function returns (the next call starts with
    index 0). *)
Definition read_step (k : console) : res (bool * console) :=
  let r := c_ring k in
  if read_ptr r =? write_ptr r then Ok (false, k)
  else if c_index k =? STRING_SIZE - 1 then
    s ← wr (user_string k) (c_index k) 0;
    Ok (true, mkConsole r s 0)
  else
    c ← rd (from_serial r) (read_ptr r);
    if (c =? CH_BS) && (0 <? c_index k) then
      Ok (false, mkConsole (next_read r) (user_string k) (c_index k - 1))
    else if c =? CH_CR then
      s ← wr (user_string k) (c_index k) 0;
      Ok (true, mkConsole (next_read r) s 0)
    else
      s ← wr (user_string k) (c_index k) c;
      Ok (false, mkConsole (next_read r) s (c_index k + 1)).

(** ** Words and numbers *)

(** To the next space, and over the spaces. *)
Fixpoint skip_while (fuel : nat) (p : Z -> bool) (b : list Z) (i : Z) : res Z :=
  match fuel with
  | O => Diverge
  | S fuel =>
      c ← rd b i;
      if p c then skip_while fuel p b (i + 1) else Ok i
  end.

(** [&s[get_next_word(s)]], as an offset in the buffer. *)
Definition get_next_word (b : list Z) (s : Z) : res Z :=
  i ← skip_while (S (length b)) (fun c => negb (c =? 32)) b s;
  skip_while (S (length b)) (fun c => c =? 32) b i.

Definition ip_stop (c : Z) : bool := (c =? 46) || (c =? 0) || (c =? 32).
Definition mac_stop (c : Z) : bool := (c =? 58) || (c =? 0) || (c =? 32).

Definition ip_digit (val c : Z) : Z := u8 (val * 10 + (c - 48)).
Definition mac_digit (val c : Z) : Z :=
  if 97 <=? c then u8 (val * 16 + (c - 97 + 10))
  else if 65 <=? c then u8 (val * 16 + (c - 65 + 10))
  else u8 (val * 16 + (c - 48)).

(** The inner loop, and [n] rounds of the outer one. *)
Fixpoint number_loop (fuel : nat) (stop : Z -> bool) (digit : Z -> Z -> Z) (b : list Z) (j val : Z) : res (Z * Z) :=
  match fuel with
  | O => Diverge
  | S fuel =>
      c ← rd b j;
      if stop c then Ok (val, j) else number_loop fuel stop digit b (j + 1) (digit val c)
  end.

Fixpoint numbers (n : nat) (stop : Z -> bool) (digit : Z -> Z -> Z) (b : list Z) (j : Z) : res (list Z) :=
  match n with
  | O => Ok []
  | S n =>
      '(val, j) ← number_loop (S (length b)) stop digit b j 0;
      rest ← numbers n stop digit b (j + 1);
      Ok (val :: rest)
  end.

Definition get_ipaddr (b : list Z) (s : Z) : res (list Z) := numbers 4 ip_stop ip_digit b s.
Definition get_macaddr (b : list Z) (s : Z) : res (list Z) := numbers 6 mac_stop mac_digit b s.

(** ** Commands *)

Definition BSS_INFRASTRUCTURE : Z := 1.
Definition BSS_INDEPENDENT : Z := 2.
Definition BSS_ANY : Z := 3.

(** The variables the commands set.  [SsId] has 32 bytes. *)
Record cmd_vars := mkVars {
  v_ssid_len : Z; v_ssid : list Z; v_bssid : list Z; v_bss_type : Z; v_currbss_type : Z;
  v_link_present : Z; v_send_ping : Z; v_ping_ip : list Z; v_sys : sys }.

Definition with_ssid (v : cmd_vars) (n : Z) (l : list Z) : cmd_vars :=
  mkVars n l (v_bssid v) (v_bss_type v) (v_currbss_type v) (v_link_present v) (v_send_ping v) (v_ping_ip v) (v_sys v).
Definition with_bssid (v : cmd_vars) (l : list Z) : cmd_vars :=
  mkVars (v_ssid_len v) (v_ssid v) l (v_bss_type v) (v_currbss_type v) (v_link_present v) (v_send_ping v) (v_ping_ip v) (v_sys v).
Definition with_bss_type (v : cmd_vars) (t : Z) : cmd_vars :=
  mkVars (v_ssid_len v) (v_ssid v) (v_bssid v) t (v_currbss_type v) (v_link_present v) (v_send_ping v) (v_ping_ip v) (v_sys v).
Definition with_link (v : cmd_vars) (p : Z) : cmd_vars :=
  mkVars (v_ssid_len v) (v_ssid v) (v_bssid v) (v_bss_type v) (v_currbss_type v) p (v_send_ping v) (v_ping_ip v) (v_sys v).
Definition with_ping (v : cmd_vars) (p : Z) (ip : list Z) : cmd_vars :=
  mkVars (v_ssid_len v) (v_ssid v) (v_bssid v) (v_bss_type v) (v_currbss_type v) (v_link_present v) p ip (v_sys v).
Definition with_sys (v : cmd_vars) (s : sys) : cmd_vars :=
  mkVars (v_ssid_len v) (v_ssid v) (v_bssid v) (v_bss_type v) (v_currbss_type v) (v_link_present v) (v_send_ping v) (v_ping_ip v) s.

(** The functions that are called. *)
Inductive ccall :=
  | x_scan (n : Z) | x_deauth | x_adhoc_stop | x_auth | x_open_raw_socket
  | x_ll_init | x_ll_shutdown | x_mdns_init | x_mdns_shutdown | x_mcast | x_mcast_add
  | x_httpd_init | x_httpd_shutdown
  | x_log_init | x_log_shutdown | x_log_dump | x_log_purge | x_log (format : Z)
  | x_printip | x_printmac | x_usage | x_unknown.

(** [!memcmp(p, s, n)], which may read all [n] bytes. *)
Definition memeq (b : list Z) (p : Z) (s : list Z) : res bool :=
  l ← rd_range b p (Zlen s);
  Ok (bool_decide (l = s)).

(** The arms of a chain of [else if]s on the text at [p]. *)
Fixpoint dispatch {A} (b : list Z) (p : Z) (arms : list (list Z * res A)) (otherwise : res A) : res A :=
  match arms with
  | [] => otherwise
  | (s, body) :: arms =>
      hit ← memeq b p s;
      if hit : bool then body else dispatch b p arms otherwise
  end.

Definition cmd_result : Type := cmd_vars * list ccall.

Definition cmd_iwconfig (found : bool) (b : list Z) (v : cmd_vars) : res cmd_result :=
  p ← get_next_word b 0;
  dispatch b p
    [(str "essid",
      p ← get_next_word b p;
      n ← strlen_at b p;
      l ← rd_range b p n;
      ssid ← wr_range (v_ssid v) 0 l;
      let calls :=
        if negb (v_link_present v =? 0) then
          if negb (v_currbss_type v =? BSS_INDEPENDENT) then [x_deauth] else [x_adhoc_stop]
        else [x_scan 1] in
      Ok (with_link (with_ssid v (u8 n) ssid) 0, calls));
     (str "mode",
      p ← get_next_word b p;
      dispatch b p
        [(str "ad-hoc", Ok (with_bss_type v BSS_INDEPENDENT, []));
         (str "manage", Ok (with_bss_type v BSS_INFRASTRUCTURE, []))]
        (Ok (with_bss_type v BSS_ANY, [])));
     (str "ap",
      p ← get_next_word b p;
      mac ← get_macaddr b p;
      let v := with_bssid v mac in
      if found then Ok (v, [x_auth])
      else if negb (v_link_present v =? 0) then Ok (with_link v 0, [x_deauth])
      else Ok (v, [x_scan 2]))]
    (Ok (v, [])).

Definition cmd_econfig (b : list Z) (v : cmd_vars) : res cmd_result :=
  p ← get_next_word b 0;
  ip ← get_ipaddr b p;
  p ← get_next_word b p;
  nm ← get_ipaddr b p;
  p ← get_next_word b p;
  gw ← get_ipaddr b p;
  '(_, s) ← sys_tcpip_init (of_le ip) (of_le nm) (v_sys v);
  Ok (with_sys v s, []).

Definition cmd_ping (b : list Z) (v : cmd_vars) : res cmd_result :=
  p ← get_next_word b 0;
  dispatch b p
    [(str "stop", Ok (with_ping v 0 (v_ping_ip v), []))]
    (ip ← get_ipaddr b p; Ok (with_ping v 1 ip, [x_open_raw_socket])).

Definition start_stop (start stop : ccall) (b : list Z) (v : cmd_vars) : res cmd_result :=
  p ← get_next_word b 0;
  dispatch b p [(str "start", Ok (v, [start])); (str "stop", Ok (v, [stop]))] (Ok (v, [])).

Definition cmd_mcast (b : list Z) (v : cmd_vars) : res cmd_result :=
  p ← get_next_word b 0;
  dispatch b p [(str "get", Ok (v, [x_mcast])); (str "set", Ok (v, [x_mcast_add]))] (Ok (v, [])).

Definition cmd_log (b : list Z) (v : cmd_vars) : res cmd_result :=
  p ← get_next_word b 0;
  dispatch b p
    [(str "init" ++ [0], Ok (v, [x_log_init])); (str "shutdown", Ok (v, [x_log_shutdown]));
     (str "dump", Ok (v, [x_log_dump])); (str "purge", Ok (v, [x_log_purge]));
     (str "write", p ← get_next_word b p; Ok (v, [x_log p]))]
    (Ok (v, [])).

(** The body of the loop of [cmd_parser], for the line [b]; [found]: what
    [FindBSSIDinList] returns. *)
Definition cmd_parser_exec (found : bool) (b : list Z) (v : cmd_vars) : res cmd_result :=
  n ← strlen_at b 0;
  if n =? 0 then Ok (v, [])
  else
    dispatch b 0
      [(str "iwlist", Ok (v, [x_scan 0]));
       (str "iwconf", cmd_iwconfig found b v);
       (str "econfi", cmd_econfig b v);
       (str "printip", Ok (v, [x_printip]));
       (str "printmac", Ok (v, [x_printmac]));
       (str "ping", cmd_ping b v);
       (str "linklocal", start_stop x_ll_init x_ll_shutdown b v);
       (str "mdns", start_stop x_mdns_init x_mdns_shutdown b v);
       (str "mcast", cmd_mcast b v);
       (str "httpd", start_stop x_httpd_init x_httpd_shutdown b v);
       (str "log", cmd_log b v);
       (str "help", Ok (v, [x_usage]))]
      (Ok (v, [x_unknown])).
