(* ===== verification/ConsoleTheorems.v ===== *)
(** * The serial console: the claims

    The ring buffer between the tick and the console thread as a queue, the lines
    it delivers under every interleaving of the two, and what a command line does. *)
From S2P Require Import Prelude.
From S2P Require Import Buffer.
From S2P Require Import Cstring.
From S2P Require Import Sys.
From S2P Require Import SysSpec.
From S2P Require Import Console.
From Stdlib Require String.
Import (notations) String.

(** ** The queue *)

Record ring_holds (r : ring) (q : list Z) : Prop := mk_ring_holds {
  rh_size : Zlen (from_serial r) = SERIAL_BUFFER_SIZE;
  rh_read : 0 <= read_ptr r < SERIAL_BUFFER_SIZE;
  rh_write : write_ptr r = (read_ptr r + Zlen q) mod SERIAL_BUFFER_SIZE;
  rh_len : Zlen q < SERIAL_BUFFER_SIZE;
  rh_data : forall k c, q !! k = Some c ->
    rd (from_serial r) ((read_ptr r + Z.of_nat k) mod SERIAL_BUFFER_SIZE) = Ok c }.

Lemma wrap_succ v : Z.land (v + 1) (SERIAL_BUFFER_SIZE - 1) = (v + 1) mod SERIAL_BUFFER_SIZE.
Proof. apply land_255. Qed.

Lemma ring_wrap_write r q :
  ring_holds r q ->
  Z.land (write_ptr r + 1) (SERIAL_BUFFER_SIZE - 1) = (read_ptr r + (Zlen q + 1)) mod SERIAL_BUFFER_SIZE.
Proof.
  intros H. rewrite wrap_succ, (rh_write _ _ H), Z.add_mod_idemp_l by done. f_equal. lia.
Qed.

Lemma ring_full r q :
  ring_holds r q -> (Z.land (write_ptr r + 1) (SERIAL_BUFFER_SIZE - 1) =? read_ptr r) = (Zlen q =? SERIAL_BUFFER_SIZE - 1).
Proof.
  intros H. rewrite (ring_wrap_write _ _ H). pose proof (rh_read _ _ H). pose proof (rh_len _ _ H). pose proof (Zlen_nonneg q).
  unfold SERIAL_BUFFER_SIZE in *. apply Bool.eq_iff_eq_true. rewrite !Z.eqb_eq.
  Z.to_euclidean_division_equations; lia.
Qed.

(** A byte that is written is read back, and the other cells stay. *)
Lemma wr_byte b i c :
  0 <= i < Zlen b -> is_byte c ->
  exists b', wr b i c = Ok b' /\ Zlen b' = Zlen b /\ rd b' i = Ok c /\ forall j, j <> i -> rd b' j = rd b j.
Proof.
  intros Hi Hc. unfold wr. rewrite u8_id by done. destruct (wr_range_exists b i [c]) as [b' W]; [lia|zlen; lia|].
  exists b'. split; [done|]. split; [by eapply wr_range_Zlen|]. split.
  - apply holds_rd. by eapply wr_range_holds.
  - intros j Hj. eapply wr_range_rd_frame; [exact W|]. zlen. lia.
Qed.

Lemma ring_push r q c :
  ring_holds r q -> Zlen q < SERIAL_BUFFER_SIZE - 1 -> is_byte c ->
  exists buf, wr (from_serial r) (write_ptr r) c = Ok buf /\
    ring_holds (mkRing buf (read_ptr r) (Z.land (write_ptr r + 1) (SERIAL_BUFFER_SIZE - 1))) (q ++ [c]).
Proof.
  intros H Hl Hc. pose proof (ring_wrap_write _ _ H) as Hw. destruct H as [Hs Hr Hwp _ Hd].
  assert (Hin : 0 <= write_ptr r < SERIAL_BUFFER_SIZE) by (rewrite Hwp; by apply Z.mod_pos_bound).
  destruct (wr_byte (from_serial r) (write_ptr r) c) as (buf & W & L & E & F); [lia|done|].
  exists buf. split; [done|]. rewrite Hw. constructor; cbn [from_serial read_ptr write_ptr].
  - lia.
  - done.
  - by rewrite Zlen_app.
  - rewrite Zlen_app. change (Zlen [c]) with 1. lia.
  - intros k d Hk. apply lookup_app_Some in Hk as [Hk|[Hge Hk]].
    + rewrite F; [by apply Hd|]. apply lookup_lt_Some in Hk. rewrite Hwp. unfold SERIAL_BUFFER_SIZE, Zlen in *.
      Z.to_euclidean_division_equations; lia.
    + apply list_lookup_singleton_Some in Hk as [Hk ->].
      replace (Z.of_nat k) with (Zlen q) by (unfold Zlen; lia). by rewrite <- Hwp.
Qed.

Lemma ring_empty r q : ring_holds r q -> (read_ptr r =? write_ptr r) = (Zlen q =? 0).
Proof.
  intros [_ Hr Hw Hl _]. rewrite Hw. pose proof (Zlen_nonneg q). unfold SERIAL_BUFFER_SIZE in *.
  apply Bool.eq_iff_eq_true. rewrite !Z.eqb_eq. Z.to_euclidean_division_equations; lia.
Qed.

Lemma ring_pop r c q :
  ring_holds r (c :: q) -> rd (from_serial r) (read_ptr r) = Ok c /\ ring_holds (next_read r) q.
Proof.
  intros [Hs Hr Hw Hl Hd]. rewrite Zlen_cons in *. split.
  - specialize (Hd 0%nat c eq_refl). rewrite Z.add_0_r, Z.mod_small in Hd by done. exact Hd.
  - constructor; cbn [next_read from_serial read_ptr write_ptr]; rewrite ?wrap_succ.
    + done.
    + by apply Z.mod_pos_bound.
    + rewrite Hw, Z.add_mod_idemp_l by done. f_equal. lia.
    + pose proof (Zlen_nonneg q). lia.
    + intros k d Hk. rewrite Z.add_mod_idemp_l by done.
      replace (read_ptr r + 1 + Z.of_nat k) with (read_ptr r + Z.of_nat (S k)) by lia. by apply Hd.
Qed.

(** ** The console as a queue and a line editor *)

(** What a tick takes from the serial port: characters until 255 wait; the one
    that finds the queue full is lost. *)
Fixpoint accept (q cs : list Z) : list Z * list Z :=
  match cs with
  | [] => (q, [])
  | c :: cs => if Zlen q =? SERIAL_BUFFER_SIZE - 1 then (q, cs) else accept (q ++ [c]) cs
  end.

(** One turn of the reader: the line that is finished, the queue, the line. *)
Definition reader_turn (q line : list Z) : option (list Z) * list Z * list Z :=
  match q with
  | [] => (None, q, line)
  | c :: q' =>
      if Zlen line =? STRING_SIZE - 1 then (Some line, q, [])
      else if (c =? CH_BS) && (0 <? Zlen line) then (None, q', take (length line - 1) line)
      else if c =? CH_CR then (Some line, q', [])
      else (None, q', line ++ [c])
  end.

Record console_holds (k : console) (q line : list Z) : Prop := mk_console_holds {
  ch_ring : ring_holds (c_ring k) q;
  ch_bytes : bytes q;
  ch_size : Zlen (user_string k) = STRING_SIZE;
  ch_index : c_index k = Zlen line;
  ch_room : Zlen line < STRING_SIZE;
  ch_line : holds (user_string k) 0 line }.

Lemma cmd_handle_serial_accept cs r q :
  ring_holds r q -> bytes q -> bytes cs ->
  exists r', cmd_handle_serial cs r = Ok ((accept q cs).2, r') /\ ring_holds r' (accept q cs).1 /\ bytes (accept q cs).1.
Proof.
  intros H Hq Hcs. revert r q H Hq. induction Hcs as [|c cs Hc _ IH]; intros r q H Hq; [by exists r|].
  cbn [cmd_handle_serial accept]. rewrite (ring_full _ _ H). destruct (Z.eqb_spec (Zlen q) (SERIAL_BUFFER_SIZE - 1)).
  { by exists r. }
  destruct (ring_push r q c H) as (buf & -> & H'); [pose proof (rh_len _ _ H); lia|done|]. cbn [mbind res_bind].
  apply IH; [done|]. apply Forall_app. split; [done|]. constructor; [done|constructor].
Qed.

(** The reader is the turn of the line editor; when a line is finished it is the
    string in [user_string]. *)
Lemma read_step_turn k q line :
  console_holds k q line ->
  let '(out, q', line') := reader_turn q line in
  exists k', read_step k = Ok (bool_decide (is_Some out), k') /\ console_holds k' q' line' /\
    (forall l, out = Some l -> holds (user_string k') 0 (l ++ [0])).
Proof.
  intros [Hr Hb Hs Hi Hroom Hl]. unfold reader_turn, read_step. rewrite (ring_empty _ _ Hr).
  destruct q as [|c q]; cbn [Z.eqb].
  { exists k. split; [done|]. split; [by constructor|done]. }
  rewrite (proj2 (Z.eqb_neq (Zlen (c :: q)) 0)) by (rewrite Zlen_cons; pose proof (Zlen_nonneg q); lia).
  apply Forall_cons_iff in Hb as [Hc Hb]. destruct (ring_pop _ _ _ Hr) as [Ec Hr']. pose proof (Zlen_nonneg line) as Hnn.
  assert (Hput : forall d, is_byte d -> exists s', wr (user_string k) (c_index k) d = Ok s' /\
    Zlen s' = STRING_SIZE /\ holds s' 0 (line ++ [d])).
  { intros d Hd. unfold wr. rewrite u8_id by done. rewrite Hi.
    destruct (wr_range_exists (user_string k) (Zlen line) [d]) as [s' W]; [lia|zlen; lia|].
    exists s'. split; [done|]. split; [rewrite (wr_range_Zlen _ _ _ _ W); lia|]. apply holds_app. split.
    - eapply wr_range_frame; [exact W|zlen; lia|done].
    - by eapply wr_range_holds. }
  rewrite Hi. destruct (Z.eqb_spec (Zlen line) (STRING_SIZE - 1)) as [Hfull|Hfull].
  { destruct (Hput 0) as (s' & W & L & Hh); [done|]. rewrite Hi in W. rewrite W. cbn [mbind res_bind].
    eexists. split; [done|]. split; [|by intros l [= <-]]. constructor; cbn [c_ring user_string c_index]; try done.
    - by constructor.
    - apply holds_nil. rewrite L. done. }
  rewrite Ec. cbn [mbind res_bind]. destruct ((c =? CH_BS) && (0 <? Zlen line)) eqn:Ebs.
  { apply andb_true_iff in Ebs as [_ Hpos%Z.ltb_lt]. eexists. split; [done|]. split; [|done].
    assert (Hlen : Zlen (take (length line - 1) line) = Zlen line - 1).
    { unfold Zlen in *. rewrite length_take. lia. }
    constructor; cbn [c_ring user_string c_index]; try done; try lia.
    rewrite <- (take_drop (length line - 1) line) in Hl. by apply holds_app in Hl as [Hl _]. }
  destruct (Z.eqb_spec c CH_CR).
  - destruct (Hput 0) as (s' & W & L & Hh); [done|]. rewrite Hi in W. rewrite W. cbn [mbind res_bind].
    eexists. split; [done|]. split; [|by intros l [= <-]]. constructor; cbn [c_ring user_string c_index]; try done.
    apply holds_nil. rewrite L. done.
  - destruct (Hput c Hc) as (s' & W & L & Hh). rewrite Hi in W. rewrite W. cbn [mbind res_bind].
    eexists. split; [done|]. split; [|done]. constructor; cbn [c_ring user_string c_index]; try done.
    + rewrite Zlen_app. done.
    + rewrite Zlen_app. change (Zlen [c]) with 1. lia.
Qed.

(** ** Interleavings *)

(** A tick with the characters that have arrived, or a turn of the reader. *)
Inductive console_event := E_tick (cs : list Z) | E_turn.

Definition event_ok (e : console_event) : Prop := match e with E_tick cs => bytes cs | E_turn => True end.

(** The two threads; the output is [user_string] each time a line is finished. *)
Fixpoint console_run (es : list console_event) (k : console) : res (console * list (list Z)) :=
  match es with
  | [] => Ok (k, [])
  | E_tick cs :: es =>
      '(_, r) ← cmd_handle_serial cs (c_ring k);
      console_run es (mkConsole r (user_string k) (c_index k))
  | E_turn :: es =>
      '(fin, k) ← read_step k;
      '(k', out) ← console_run es k;
      Ok (k', (if fin : bool then [user_string k] else []) ++ out)
  end.

(** The characters typed, and whether the queue always had room for them. *)
Definition typed (es : list console_event) : list Z :=
  concat (map (fun e => match e with E_tick cs => cs | E_turn => [] end) es).

Fixpoint lossless (q line : list Z) (es : list console_event) : Prop :=
  match es with
  | [] => True
  | E_tick cs :: es => Zlen q + Zlen cs < SERIAL_BUFFER_SIZE /\ lossless (q ++ cs) line es
  | E_turn :: es => let '(_, q, line) := reader_turn q line in lossless q line es
  end.

(** The line editor, one character at a time: the finished lines and the current
    one.  The 100th character first finishes the line. *)
Definition key (st : list (list Z) * list Z) (c : Z) : list (list Z) * list Z :=
  let '(lines, line) := if Zlen st.2 =? STRING_SIZE - 1 then (st.1 ++ [st.2], []) else st in
  if (c =? CH_BS) && (0 <? Zlen line) then (lines, take (length line - 1) line)
  else if c =? CH_CR then (lines ++ [line], [])
  else (lines, line ++ [c]).

Lemma accept_room q cs : Zlen q + Zlen cs < SERIAL_BUFFER_SIZE -> accept q cs = (q ++ cs, []).
Proof.
  revert q. induction cs as [|c cs IH]; intros q H; cbn [accept]; [by rewrite app_nil_r|].
  rewrite Zlen_cons in H. pose proof (Zlen_nonneg cs). rewrite (proj2 (Z.eqb_neq _ _)) by lia.
  rewrite IH; [by rewrite <- app_assoc|]. rewrite Zlen_app. change (Zlen [c]) with 1. lia.
Qed.

(** A turn of the reader leaves what the editor makes of the whole queue. *)
Lemma turn_key q line lines :
  let '(out, q', line') := reader_turn q line in
  foldl key (lines ++ match out with Some l => [l] | None => [] end, line') q' = foldl key (lines, line) q.
Proof.
  unfold reader_turn. destruct q as [|c q]; [cbn; by rewrite app_nil_r|].
  destruct (Z.eqb_spec (Zlen line) (STRING_SIZE - 1)) as [E|E].
  { cbn [foldl]. f_equal. unfold key. cbn [fst snd]. by rewrite E. }
  assert (Hk : key (lines, line) c = if (c =? CH_BS) && (0 <? Zlen line) then (lines, take (length line - 1) line)
    else if c =? CH_CR then (lines ++ [line], []) else (lines, line ++ [c])).
  { unfold key. cbn [fst snd]. by rewrite (proj2 (Z.eqb_neq _ _) E). }
  cbn [foldl]. rewrite Hk. destruct (_ && _); [by rewrite app_nil_r|]. destruct (c =? CH_CR); [done|by rewrite app_nil_r].
Qed.

(** What [user_string] shows. *)
Definition shows (b l : list Z) : Prop := holds b 0 (l ++ [0]).

Lemma console_run_spec es k q line :
  console_holds k q line -> Forall event_ok es ->
  exists k' bufs lines q' line', console_run es k = Ok (k', bufs) /\ Forall2 shows bufs lines /\
    console_holds k' q' line' /\
    (lossless q line es -> forall pre,
       foldl key (pre ++ lines, line') q' = foldl key (pre, line) (q ++ typed es)).
Proof.
  intros H Hes. revert k q line H. induction Hes as [|e es He _ IH]; intros k q line H.
  { exists k, [], [], q, line. split; [done|]. split; [constructor|]. split; [done|].
    intros _ pre. unfold typed. cbn. by rewrite !app_nil_r. }
  destruct e as [cs|]; cbn [console_run lossless].
  - destruct H as [Hr Hb Hs Hi Hm Hl]. destruct (cmd_handle_serial_accept cs (c_ring k) q Hr Hb He) as (r' & -> & Hr' & Hb').
    cbn [mbind res_bind]. destruct (IH (mkConsole r' (user_string k) (c_index k)) (accept q cs).1 line)
      as (k' & bufs & lines & q' & line' & E & F & H' & Hk); [by constructor|].
    exists k', bufs, lines, q', line'. split; [done|]. split; [done|]. split; [done|].
    intros [Hroom Hrest] pre. rewrite (accept_room _ _ Hroom) in Hk. cbn [fst] in Hk. rewrite Hk by done.
    unfold typed. cbn [map concat]. by rewrite <- app_assoc.
  - pose proof (read_step_turn k q line H) as Hstep. pose proof (fun ls => turn_key q line ls) as Hturn.
    destruct (reader_turn q line) as [[out q1] line1]. destruct Hstep as (k1 & -> & H1 & Ho). cbn [mbind res_bind].
    destruct (IH k1 q1 line1 H1) as (k' & bufs & lines & q' & line' & E & F & H' & Hk). rewrite E. cbn [mbind res_bind].
    exists k', ((if bool_decide (is_Some out) then [user_string k1] else []) ++ bufs),
      (match out with Some l => [l] | None => [] end ++ lines), q', line'.
    split; [done|]. split; [|split; [done|]].
    + destruct out as [l|]; [|done]. cbn. constructor; [by apply Ho|done].
    + intros Hll pre. rewrite app_assoc, (Hk Hll). unfold typed. cbn [map concat app].
      rewrite !foldl_app. by rewrite Hturn.
Qed.

(** C36: the console between the tick and its thread.  For every interleaving of
    ticks and reader turns, no access leaves the ring buffer or [user_string], and
    each finished line is the string in [user_string]; if the queue never
    overflows, the lines finished so far, with the line being edited and the
    characters still queued, are what the line editor makes of everything typed:
    no character is lost, repeated or reordered, whatever the schedule. *)
Theorem console_interleaving es k :
  console_holds k [] [] -> Forall event_ok es ->
  exists k' bufs lines q line, console_run es k = Ok (k', bufs) /\ Forall2 shows bufs lines /\
    console_holds k' q line /\
    (lossless [] [] es -> foldl key (lines, line) q = foldl key ([], []) (typed es)).
Proof.
  intros H Hes. destruct (console_run_spec es k [] [] H Hes) as (k' & bufs & lines & q & line & E & F & H' & Hk).
  exists k', bufs, lines, q, line. split; [done|]. split; [done|]. split; [done|].
  intros Hll. exact (Hk Hll []).
Qed.

(** The witness: "hel", backspace twice, "i" and return, in two ticks. *)
Definition start_console : console := mkConsole (mkRing (replicate 256 0) 0 0) (replicate 100 0) 0.
Definition demo_events : list console_event :=
  [E_tick (str "hel"); E_turn; E_turn; E_tick [8; 8; 105; 13]] ++ replicate 5 E_turn.

Lemma start_console_holds : console_holds start_console [] [].
Proof.
  constructor; cbn; try done. constructor; cbn; done.
Qed.

Lemma console_interleaving_witness :
  exists k' bufs lines q line, console_run demo_events start_console = Ok (k', bufs) /\ Forall2 shows bufs lines /\
    foldl key (lines, line) q = ([str "hi"], []).
Proof.
  destruct (console_interleaving demo_events start_console) as (k' & bufs & lines & q & line & E & F & _ & H).
  - exact start_console_holds.
  - repeat constructor; by_eval.
  - exists k', bufs, lines, q, line. split; [exact E|]. split; [exact F|].
    transitivity (foldl key ([], []) (typed demo_events)); [apply H|]; vm_compute; [|reflexivity].
    repeat split.
Defined.

(** ** Commands *)

Lemma memeq_holds b p l s :
  holds b p l -> Zlen s <= Zlen l -> memeq b p s = Ok (bool_decide (take (length s) l = s)).
Proof.
  intros H Hl. unfold memeq. assert (Hs : Zlen (take (length s) l) = Zlen s) by (unfold Zlen in *; rewrite length_take; lia).
  rewrite (proj2 (rd_range_holds b p (Zlen s) (take (length s) l))); [done|]. split; [done|].
  rewrite <- (take_drop (length s) l) in H. by apply holds_app in H as [H _].
Qed.

(** One arm of a chain, on a known word. *)
Lemma dispatch_arm {A} b p w s (body : res A) arms otherwise :
  holds b p w -> Zlen s <= Zlen w ->
  dispatch b p ((s, body) :: arms) otherwise =
    if bool_decide (take (length s) w = s) then body else dispatch b p arms otherwise.
Proof. intros H Hl. cbn [dispatch]. by rewrite (memeq_holds _ _ _ _ H Hl). Qed.

Lemma skip_while_holds p b i l c :
  Forall (fun x => p x = true) l -> p c = false -> holds b i (l ++ [c]) ->
  forall fuel, (length l < fuel)%nat -> skip_while fuel p b i = Ok (i + Zlen l).
Proof.
  intros Hl Hc. revert i. induction Hl as [|x l Hx _ IH]; intros i H fuel Hf; (destruct fuel as [|fuel]; [lia|]).
  - apply holds_rd in H. cbn [skip_while]. rewrite H. cbn [mbind res_bind]. rewrite Hc. f_equal. unfold Zlen. cbn. lia.
  - cbn [app] in H. apply holds_cons in H as [E H]. cbn [skip_while length] in *. rewrite E. cbn [mbind res_bind]. rewrite Hx.
    rewrite (IH _ H) by lia. rewrite Zlen_cons. f_equal. lia.
Qed.

Lemma holds_fuel b i l : holds b i l -> (length l < S (length b))%nat.
Proof. intros [H0 H1]%holds_bounds. unfold Zlen in *. lia. Qed.

(** A word without spaces, one space, and the next word. *)
Lemma get_next_word_holds b s w c :
  Forall (fun x => x <> 32) w -> c <> 32 -> holds b s (w ++ [32; c]) -> get_next_word b s = Ok (s + Zlen w + 1).
Proof.
  intros Hw Hc H. unfold get_next_word. change [32; c] with ([32] ++ [c]) in H. rewrite app_assoc in H.
  pose proof H as H1. apply holds_app in H1 as [H1 H2].
  rewrite (skip_while_holds _ b s w 32).
  - cbn [mbind res_bind]. apply holds_app in H1 as [_ H3]. rewrite Zlen_app in H2. change (Zlen [32]) with 1 in H2.
    rewrite (skip_while_holds _ b (s + Zlen w) [32] c).
    + done.
    + by repeat constructor.
    + by apply Z.eqb_neq.
    + apply holds_app. change (Zlen [32]) with 1. split; [done|]. eapply holds_at; [exact H2|lia].
    + apply holds_fuel in H3. cbn in *. lia.
  - revert Hw. apply Forall_impl. intros x Hx. by rewrite (proj2 (Z.eqb_neq _ _) Hx).
  - done.
  - done.
  - apply holds_fuel in H1. rewrite length_app in H1. cbn in H1. lia.
Qed.

(** Numbers with dots between them. *)
Fixpoint dots (vs : list Z) : list Z :=
  match vs with
  | [] => []
  | [v] => dec v
  | v :: vs => dec v ++ 46 :: dots vs
  end.

Lemma ip_digit_u8 v c : ip_digit (u8 v) c = u8 (v * 10 + (c - 48)).
Proof. unfold ip_digit, u8. rewrite Z.add_mod, Z.mul_mod_idemp_l, <- Z.add_mod by lia. done. Qed.

Lemma number_loop_digits b j ds c v :
  Forall (fun x => is_digit x = true) ds -> ip_stop c = true -> holds b j (ds ++ [c]) ->
  forall fuel, (length ds < fuel)%nat ->
    number_loop fuel ip_stop ip_digit b j (u8 v) = Ok (u8 (digits_val v ds), j + Zlen ds).
Proof.
  intros Hd Hc. revert j v. induction Hd as [|x ds Hx _ IH]; intros j v H fuel Hf; (destruct fuel as [|fuel]; [lia|]).
  - apply holds_rd in H. cbn [number_loop digits_val]. rewrite H. cbn [mbind res_bind]. rewrite Hc.
    change (Zlen []) with 0. by rewrite Z.add_0_r.
  - cbn [app] in H. apply holds_cons in H as [E H]. cbn [number_loop digits_val length] in *. rewrite E. cbn [mbind res_bind].
    assert (Hs : ip_stop x = false).
    { unfold is_digit in Hx. apply andb_true_iff in Hx as [? ?]. unfold ip_stop.
      rewrite !(proj2 (Z.eqb_neq _ _)) by lia. done. }
    rewrite Hs, Hx, ip_digit_u8, (IH _ _ H) by lia. rewrite Zlen_cons. do 2 f_equal. lia.
Qed.

Lemma numbers_dots b vs j e :
  vs <> [] -> Forall (fun v => 0 <= v) vs -> ip_stop e = true -> holds b j (dots vs ++ [e]) ->
  numbers (length vs) ip_stop ip_digit b j = Ok (map u8 vs).
Proof.
  intros Hne Hv He. revert j Hne. induction Hv as [|v vs H0 _ IH]; intros j Hne H; [done|].
  destruct (dec_spec v H0) as (Hd & _ & Ev). cbn [length numbers map].
  assert (Hone : forall c, ip_stop c = true -> holds b j (dec v ++ [c]) ->
    number_loop (S (length b)) ip_stop ip_digit b j 0 = Ok (u8 v, j + Zlen (dec v))).
  { intros c Hc Hh. change 0 with (u8 0) at 1. rewrite (number_loop_digits b j (dec v) c 0) by
      (done || (apply holds_fuel in Hh; rewrite length_app in Hh; lia)). by rewrite Ev. }
  destruct vs as [|v' vs].
  - cbn [dots] in H. rewrite (Hone e He H). done.
  - change (dots (v :: v' :: vs)) with (dec v ++ [46] ++ dots (v' :: vs)) in H. rewrite <- !app_assoc in H.
    assert (Hh : holds b j (dec v ++ [46])) by (rewrite app_assoc in H; by apply holds_app in H as [H _]).
    rewrite (Hone 46 eq_refl Hh). cbn [mbind res_bind].
    apply holds_app in H as [_ H]. apply holds_app in H as [_ H]. change (Zlen [46]) with 1 in H.
    rewrite (IH _ ltac:(done) H). done.
Qed.

Lemma dots_chars vs : Forall (fun v => 0 <= v) vs -> Forall (fun c => is_digit c = true \/ c = 46) (dots vs).
Proof.
  induction 1 as [|v vs Hv _ IH]; [constructor|]. destruct (dec_spec v Hv) as (Hd & _).
  assert (Hd' : Forall (fun c => is_digit c = true \/ c = 46) (dec v)) by (revert Hd; apply Forall_impl; tauto).
  destruct vs as [|v' vs]; [done|]. change (dots (v :: v' :: vs)) with (dec v ++ [46] ++ dots (v' :: vs)).
  rewrite !Forall_app. split_and!; [done|constructor; [by right|constructor]|done].
Qed.

Lemma dots_text vs : Forall (fun v => 0 <= v) vs -> Forall (fun c => c <> 32) (dots vs) /\ no_nul (dots vs).
Proof.
  intros Hv. pose proof (dots_chars vs Hv) as H. split; revert H; apply Forall_impl; unfold is_digit;
    (intros x [[? ?]%andb_true_iff| ->]; lia).
Qed.

Lemma dots_head vs : vs <> [] -> Forall (fun v => 0 <= v) vs -> exists c t, dots vs = c :: t /\ c <> 32.
Proof.
  intros Hne Hv. destruct (dots_text vs Hv) as [Hs _]. destruct (dots vs) as [|c t] eqn:E.
  - destruct vs as [|v vs]; [done|]. exfalso. apply Forall_cons_iff in Hv as [Hv _]. destruct (dec_spec v Hv) as (_ & Hd & _).
    destruct vs; cbn [dots] in E; [done|]. by destruct (dec v).
  - exists c, t. apply Forall_cons_iff in Hs as [? _]. done.
Qed.

(** The word [w] and the text of [vs] after it. *)
Lemma next_number b s w vs rest :
  vs <> [] -> Forall (fun v => 0 <= v) vs -> Forall (fun x => x <> 32) w ->
  holds b s (w ++ [32] ++ dots vs ++ rest) ->
  get_next_word b s = Ok (s + Zlen w + 1) /\ holds b (s + Zlen w + 1) (dots vs ++ rest).
Proof.
  intros Hne Hv Hw H. split.
  - destruct (dots_head vs Hne Hv) as (c & t & E & Hc). apply (get_next_word_holds b s w c Hw Hc).
    rewrite E in H. change (w ++ [32] ++ (c :: t) ++ rest) with (w ++ [32; c] ++ (t ++ rest)) in H.
    rewrite app_assoc in H. by apply holds_app in H as [H _].
  - apply holds_app in H as [_ H]. apply holds_app in H as [_ H]. exact H.
Qed.

Definition quad (vs : list Z) : Prop := length vs = 4%nat /\ bytes vs.

Lemma quad_nonneg vs : quad vs -> vs <> [] /\ Forall (fun v => 0 <= v) vs /\ map u8 vs = vs.
Proof.
  intros [Hl Hb]. split; [by intros ->|]. split.
  - revert Hb. apply Forall_impl. by intros x [? _].
  - clear Hl. induction Hb as [|x vs Hx _ IH]; [done|]. cbn [map]. by rewrite u8_id, IH by done.
Qed.

Lemma get_ipaddr_quad b s vs e : quad vs -> ip_stop e = true -> holds b s (dots vs ++ [e]) -> get_ipaddr b s = Ok vs.
Proof.
  intros Hq He H. destruct (quad_nonneg vs Hq) as (H1 & H2 & H3). unfold get_ipaddr. destruct Hq as [Hl _].
  rewrite <- Hl, (numbers_dots b vs s e) by done. by rewrite H3.
Qed.

Lemma quad_le vs : quad vs -> le_bytes (of_le vs) = vs /\ 0 <= of_le vs < 4294967296.
Proof.
  intros [Hl Hb]. destruct vs as [|a [|b [|c [|d [|]]]]]; try done. split; [by apply le_bytes_of_le|].
  rewrite of_le_sum by done. unfold bytes, is_byte in Hb. rewrite !Forall_cons_iff in Hb. lia.
Qed.

(** The line that was typed. *)
Definition econfig_line (ip nm gw : list Z) : list Z :=
  str "econfig" ++ [32] ++ dots ip ++ [32] ++ dots nm ++ [32] ++ dots gw ++ [0].

(** The command econfig.  For any three addresses typed in dotted form, the
    stack is configured and started with exactly the first as its address and the
    second as its netmask; the third, the gateway, is parsed and then ignored: the
    configuration has the gateway 0.0.0.0. *)
Theorem econfig_sets_address found b v ip nm gw hs :
  quad ip -> quad nm -> quad gw -> holds b 0 (econfig_line ip nm gw) ->
  handler_table (v_sys v) = table hs -> handler_list hs ->
  exists s, cmd_parser_exec found b v = Ok (with_sys v s, []) /\ tcp_ready s = 1 /\ sys_get_ip s = of_le ip /\
    cmd_buffer s = Some (mkEtcp E_TCP_CMD_Configure 0 0 ip nm (replicate 4 0) 0).
Proof.
  intros Qi Qn Qg H Ht Hhs. destruct (quad_nonneg _ Qi) as (I1 & I2 & _), (quad_nonneg _ Qn) as (N1 & N2 & _),
    (quad_nonneg _ Qg) as (G1 & G2 & _).
  destruct (quad_le _ Qi) as [Ei Ri], (quad_le _ Qn) as [En _]. unfold cmd_parser_exec.
  pose proof H as Hz. unfold econfig_line in Hz.
  assert (Hlen : strlen_at b 0 = Ok (Zlen (str "econfig" ++ [32] ++ dots ip ++ [32] ++ dots nm ++ [32] ++ dots gw))).
  { apply strlen_at_holds; [|rewrite <- !app_assoc; exact H]. unfold no_nul. rewrite !Forall_app.
    split_and!; try apply dots_text; try done; by_eval. }
  rewrite Hlen. cbn [mbind res_bind]. rewrite Zlen_app. change (Zlen (str "econfig")) with 7.
  rewrite (proj2 (Z.eqb_neq _ _)) by (match goal with |- context [7 + Zlen ?l] => pose proof (Zlen_nonneg l) end; lia).
  assert (Hw : holds b 0 (str "econfig")) by (by apply holds_app in Hz as [Hz _]).
  do 2 (rewrite (dispatch_arm b 0 (str "econfig")) by done; cbv iota).
  rewrite (dispatch_arm b 0 (str "econfig")) by done. cbv iota.
  unfold cmd_econfig.
  destruct (next_number b 0 (str "econfig") ip ([32] ++ dots nm ++ [32] ++ dots gw ++ [0]) I1 I2) as [W1 H1]; [by_eval|exact H|].
  set (p1 := 0 + Zlen (str "econfig") + 1) in *. rewrite W1. cbn [mbind res_bind].
  rewrite (get_ipaddr_quad _ _ ip 32 Qi eq_refl) by (rewrite app_assoc in H1; by apply holds_app in H1 as [H1 _]).
  cbn [mbind res_bind].
  destruct (next_number b p1 (dots ip) nm ([32] ++ dots gw ++ [0]) N1 N2) as [W2 H2]; [apply dots_text, I2|exact H1|].
  set (p2 := p1 + Zlen (dots ip) + 1) in *. rewrite W2. cbn [mbind res_bind].
  rewrite (get_ipaddr_quad _ _ nm 32 Qn eq_refl) by (rewrite app_assoc in H2; by apply holds_app in H2 as [H2 _]).
  cbn [mbind res_bind].
  destruct (next_number b p2 (dots nm) gw [0] G1 G2) as [W3 H3]; [apply dots_text, N2|exact H2|].
  rewrite W3. cbn [mbind res_bind]. rewrite (get_ipaddr_quad _ _ gw 0 Qg eq_refl H3). cbn [mbind res_bind].
  destruct (sys_tcpip_init_table (of_le ip) (of_le nm) (v_sys v) hs Ri Ht Hhs) as (s & -> & R & G & C & _).
  cbn [mbind res_bind]. exists s. rewrite Ei, En in C. split; [done|]. split; [done|]. split; [done|]. exact C.
Qed.

(** The witness: a line at the console of a fresh system. *)
Definition demo_vars : cmd_vars :=
  mkVars 0 (replicate 32 0) (replicate 6 0) BSS_ANY BSS_ANY 0 0 (replicate 4 0)
    (mkSys (table []) (replicate 4 0) (replicate 4 0) (replicate 4 0) 0 0 None 0).
Definition typed_line (l : list Z) : list Z := l ++ [0] ++ replicate (99 - length l) 0.

Lemma econfig_sets_address_witness :
  exists s, cmd_parser_exec false (typed_line (str "econfig 10.0.0.2 255.255.255.0 10.0.0.1")) demo_vars =
      Ok (with_sys demo_vars s, []) /\ tcp_ready s = 1 /\ sys_get_ip s = of_le [10; 0; 0; 2] /\
    cmd_buffer s = Some (mkEtcp E_TCP_CMD_Configure 0 0 [10; 0; 0; 2] [255; 255; 255; 0] (replicate 4 0) 0).
Proof.
  apply (econfig_sets_address false _ demo_vars [10; 0; 0; 2] [255; 255; 255; 0] [10; 0; 0; 1] []).
  - split; [reflexivity|by_eval].
  - split; [reflexivity|by_eval].
  - split; [reflexivity|by_eval].
  - by_eval.
  - reflexivity.
  - split; [vm_compute; lia|constructor].
Defined.

(** A command that expects an argument and is typed without one, as the first
    line of a fresh console, makes the console look for the next word beyond
    [user_string]; all eight commands that take an argument do so. *)
Theorem missing_argument_overreads found v :
  Forall (fun cmd => cmd_parser_exec found (typed_line cmd) v = Fault)
    [str "iwconfig"; str "econfig"; str "ping"; str "linklocal"; str "mdns"; str "mcast"; str "httpd"; str "log"].
Proof. repeat constructor. Qed.

(** The network name typed for iwconfig essid is copied without a check: with
    more than 32 characters it is written beyond the name of 32 bytes. *)
Theorem essid_overflows found b v name :
  Zlen (v_ssid v) = 32 -> 32 < Zlen name -> no_nul name -> Forall (fun c => c <> 32) name ->
  holds b 0 (str "iwconfig essid " ++ name ++ [0]) -> cmd_parser_exec found b v = Fault.
Proof.
  intros Hv Hn Hz Hs. set (w := str "iwconfig essid "). intros H.
  destruct name as [|c name]; [done|]. apply Forall_cons_iff in Hs as [Hc _].
  unfold cmd_parser_exec. rewrite (strlen_at_holds b 0 (w ++ c :: name)); [|apply Forall_app; split; [by_eval|done]|by rewrite <- app_assoc].
  cbn [mbind res_bind]. rewrite (proj2 (Z.eqb_neq _ _)) by (rewrite Zlen_app; change (Zlen w) with 15; lia).
  pose proof H as [Hw H15]%holds_app. change (0 + Zlen w) with 15 in H15.
  do 2 (rewrite (dispatch_arm b 0 w) by done; cbv iota). unfold cmd_iwconfig.
  rewrite (get_next_word_holds b 0 (str "iwconfig") 101); [|by_eval|done|].
  2: { change w with (str "iwconfig" ++ [32; 101] ++ str "ssid ") in Hw. rewrite app_assoc in Hw. by apply holds_app in Hw as [Hw _]. }
  cbn [mbind res_bind]. change (0 + Zlen (str "iwconfig") + 1) with 9.
  assert (H9 : holds b 9 (str "essid " ++ c :: name ++ [0])).
  { change w with (str "iwconfig " ++ str "essid ") in H. rewrite <- app_assoc in H. by apply holds_app in H as [_ H]. }
  rewrite (dispatch_arm b 9 (str "essid ")) by (done || by apply holds_app in H9 as [H9 _]). cbv iota.
  rewrite (get_next_word_holds b 9 (str "essid") c); [|by_eval|done|].
  2: { change (str "essid " ++ c :: name ++ [0]) with ((str "essid" ++ [32; c]) ++ (name ++ [0])) in H9. by apply holds_app in H9 as [H9 _]. }
  cbn [mbind res_bind]. change (9 + Zlen (str "essid") + 1) with 15.
  rewrite (strlen_at_holds b 15 (c :: name)) by done. cbn [mbind res_bind].
  rewrite (proj2 (rd_range_holds b 15 _ (c :: name))) by (split; [done|by apply holds_app in H15 as [H15 _]]).
  cbn [mbind res_bind]. unfold wr_range. rewrite Hv, (proj2 (Z.ltb_lt 32 _)) by lia. by rewrite orb_true_r.
Qed.

Lemma essid_overflows_witness :
  cmd_parser_exec false (typed_line (str "iwconfig essid " ++ replicate 33 97)) demo_vars = Fault.
Proof.
  apply (essid_overflows false _ demo_vars (replicate 33 97)).
  - reflexivity.
  - reflexivity.
  - by_eval.
  - by_eval.
  - by_eval.
Defined.
