(* ===== verification/Httpd.v ===== *)
(** * The web server of the embedded port (httpd.c)

    One listening socket and at most one connection, whose request is answered with
    a fixed page.  An iteration of [httpd_main] gets what [select], [accept] and
    [recv] returned; the calls are its output.  Log output is left out. *)
From S2P Require Import Prelude.
From S2P Require Import Buffer.
From S2P Require Import Cstring.
From S2P Require Import Sys.
From Stdlib Require String.
Import (notations) String.

Definition HTTPD_PORT : Z := 80.
Definition HTTPD_MAX_MESSAGE : Z := 512.

Inductive hcall :=
  | h_socket (s : Z)
  | h_bind (s port ret : Z)
  | h_listen (s backlog : Z)
  | h_accept (s conn : Z)
  | h_recv (conn len : Z)
  | h_send (conn : Z) (msg : list Z)
  | h_close (s : Z)
  | h_thread_create (ret : Z) | h_thread_halt | h_thread_delete.

Definition CRLF : list Z := [13; 10].
Definition PAGE : list Z :=
  str "HTTP/1.0 200 Not Found" ++ CRLF ++ str "Content-Type: text/html" ++ CRLF ++ CRLF ++ str "HELLO WORLD" ++ CRLF.

(** [strcpy] into the message buffer. *)
Definition httpd_process_request (response : list Z) : res (Z * list Z) :=
  response ← wr_range response 0 (PAGE ++ [0]);
  Ok (SYS_SUCCESS, response).

(** [sock] is static; [conn] is -1 without a connection. *)
Record hstate := mkH { h_sock : Z; h_conn : Z; h_out : list Z }.

(** [None]: the thread returned. *)
Definition httpd_start (sock bind_ret : Z) (out : list Z) : option hstate * list hcall :=
  if sock <? 0 then (None, [h_socket sock])
  else
    let cs := [h_socket sock; h_bind sock (htons HTTPD_PORT) bind_ret] in
    if bind_ret <? 0 then (None, cs) else (Some (mkH sock (-1) out), cs ++ [h_listen sock 5]).

Record hinput := mkHin {
  hi_active : Z; hi_sock_set : bool; hi_conn_set : bool;   (** [select] and FD_ISSET *)
  hi_accept : Z; hi_len : Z }.

Definition httpd_iteration (i : hinput) (st : hstate) : res (option hstate * list hcall) :=
  if hi_active i <? 0 then Ok (None, [])
  else if hi_active i =? 0 then Ok (Some st, [])
  else if hi_sock_set i then
    Ok (Some (mkH (h_sock st) (hi_accept i) (h_out st)), [h_accept (h_sock st) (hi_accept i)])
  else if hi_conn_set i then
    let cs := [h_recv (h_conn st) (hi_len i)] in
    if hi_len i <=? 0 then Ok (Some (mkH (h_sock st) (-1) (h_out st)), cs ++ [h_close (h_conn st)])
    else
      '(ret, out) ← httpd_process_request (h_out st);
      if negb (ret =? SYS_SUCCESS) then Ok (Some (mkH (h_sock st) (h_conn st) out), cs)
      else
        n ← strlen_at out 0;
        msg ← rd_range out 0 n;
        Ok (Some (mkH (h_sock st) (-1) out), cs ++ [h_send (h_conn st) msg; h_close (h_conn st)])
  else Ok (Some st, []).

Fixpoint httpd_run (ins : list hinput) (st : hstate) : res (option hstate * list hcall) :=
  match ins with
  | [] => Ok (Some st, [])
  | i :: ins =>
      '(st, cs) ← httpd_iteration i st;
      match st with
      | None => Ok (None, cs)
      | Some st => '(st, cs') ← httpd_run ins st; Ok (st, cs ++ cs')
      end
  end.

Definition httpd_init (thread_status running : Z) : Z * Z * list hcall :=
  if negb (running =? 0) then (SYS_FAIL, running, [])
  else if negb (thread_status =? SYS_SUCCESS) then (thread_status, running, [h_thread_create thread_status])
  else (thread_status, 1, [h_thread_create thread_status]).

Definition httpd_shutdown (sock running : Z) : Z * Z * list hcall :=
  (SYS_SUCCESS, 0, [h_thread_halt; h_thread_delete; h_close sock]).

(** ** What happens to a connection *)

(** How often a connection was accepted less how often it was closed, and the
    pages it was sent. *)
Definition conn_event (c : Z) (x : hcall) : Z :=
  match x with
  | h_accept _ d => if (d =? c) && (0 <=? d) then 1 else 0
  | h_close d => if d =? c then -1 else 0
  | _ => 0
  end.
Fixpoint conn_held (c : Z) (cs : list hcall) : Z :=
  match cs with [] => 0 | x :: cs => conn_event c x + conn_held c cs end.

Lemma conn_held_app c cs ds : conn_held c (cs ++ ds) = conn_held c cs + conn_held c ds.
Proof. induction cs as [|x cs IH]; [done|]. cbn [app conn_held]. lia. Qed.

(** What the stack reports: a positive count with the connection only if there is
    one, and -1 or a descriptor from [accept]. *)
Definition hinput_ok (st : hstate) (i : hinput) : Prop :=
  (hi_conn_set i = true -> 0 <= h_conn st) /\ -1 <= hi_accept i.

(** Nobody connects while there is a connection. *)
Fixpoint one_client (ins : list hinput) (st : hstate) : Prop :=
  match ins with
  | [] => True
  | i :: ins =>
      hinput_ok st i /\ (0 < hi_active i -> hi_sock_set i = true -> h_conn st = -1) /\
      match httpd_iteration i st with Ok (Some st, _) => one_client ins st | _ => True end
  end.

Definition hwf (st : hstate) : Prop := -1 <= h_conn st /\ bytes (h_out st) /\ Zlen (h_out st) = HTTPD_MAX_MESSAGE.

(** The request of a connection is answered with the page, and the connection is
    closed. *)
Lemma httpd_reply i st :
  hwf st -> 0 < hi_active i -> hi_sock_set i = false -> hi_conn_set i = true -> 0 < hi_len i ->
  exists st', httpd_iteration i st =
      Ok (Some st', [h_recv (h_conn st) (hi_len i); h_send (h_conn st) PAGE; h_close (h_conn st)]) /\
    hwf st' /\ h_conn st' = -1 /\ h_sock st' = h_sock st.
Proof.
  intros (_ & Hb & Hl) Ha Hs Hc Hn. unfold httpd_iteration.
  rewrite (proj2 (Z.ltb_ge _ _)), (proj2 (Z.eqb_neq _ _)), Hs, Hc, (proj2 (Z.leb_gt _ _)) by lia.
  unfold httpd_process_request. assert (Hp : Zlen (PAGE ++ [0]) = 65) by reflexivity.
  destruct (wr_range_exists (h_out st) 0 (PAGE ++ [0])) as [out W]; [lia|unfold HTTPD_MAX_MESSAGE in *; lia|].
  rewrite W. cbn [mbind res_bind]. change (negb (SYS_SUCCESS =? SYS_SUCCESS)) with false. cbv iota.
  pose proof (wr_range_holds _ _ _ _ W) as Hh.
  rewrite (strlen_at_holds out 0 PAGE) by (done || by_eval). cbn [mbind res_bind].
  rewrite (proj2 (rd_range_holds out 0 _ PAGE)) by (split; [done|by apply holds_app in Hh as [Hh _]]). cbn [mbind res_bind].
  eexists. split; [done|]. split; [|done]. split; [done|]. split; cbn [h_out].
  - eapply wr_range_bytes; [exact W|done|by_eval].
  - by rewrite (wr_range_Zlen _ _ _ _ W).
Qed.

(** One iteration with one client: the held connections are the current one. *)
Lemma httpd_iteration_held i st c :
  hwf st -> 0 <= c -> hinput_ok st i -> (0 < hi_active i -> hi_sock_set i = true -> h_conn st = -1) ->
  exists st' cs, httpd_iteration i st = Ok (st', cs) /\
    match st' with
    | Some st' => hwf st' /\ conn_held c cs = (if h_conn st' =? c then 1 else 0) - (if h_conn st =? c then 1 else 0)
    | None => cs = []
    end.
Proof.
  intros Hwf Hc [Hset Hacc] Hone. pose proof Hwf as (Hcn & Hb & Hl). destruct (Z.ltb_spec (hi_active i) 0) as [Hneg|Hpos].
  { exists None, []. unfold httpd_iteration. by rewrite (proj2 (Z.ltb_lt _ _) Hneg). }
  destruct (Z.eqb_spec (hi_active i) 0) as [E0|E0].
  { exists (Some st), []. unfold httpd_iteration. rewrite (proj2 (Z.ltb_ge _ _) Hpos), (proj2 (Z.eqb_eq _ _) E0).
    split; [done|]. split; [done|]. cbn [conn_held]. lia. }
  destruct (hi_sock_set i) eqn:Es.
  { eexists (Some _), _. unfold httpd_iteration. rewrite (proj2 (Z.ltb_ge _ _) Hpos), (proj2 (Z.eqb_neq _ _) E0), Es.
    split; [done|]. split; [done|]. cbn [conn_held conn_event h_conn]. rewrite Hone by (lia || done).
    rewrite (proj2 (Z.eqb_neq (-1) c)) by lia.
    destruct (Z.eqb_spec (hi_accept i) c) as [->|]; cbn [andb]; [rewrite (proj2 (Z.leb_le 0 c) Hc)|]; lia. }
  destruct (hi_conn_set i) eqn:Ec.
  2: { eexists (Some _), _. unfold httpd_iteration. rewrite (proj2 (Z.ltb_ge _ _) Hpos), (proj2 (Z.eqb_neq _ _) E0), Es, Ec.
    split; [done|]. split; [done|]. cbn [conn_held]. lia. }
  destruct (Z.leb_spec (hi_len i) 0) as [Hlen|Hlen].
  { eexists (Some _), _. unfold httpd_iteration.
    rewrite (proj2 (Z.ltb_ge _ _) Hpos), (proj2 (Z.eqb_neq _ _) E0), Es, Ec, (proj2 (Z.leb_le _ _) Hlen).
    split; [done|]. split; [done|]. cbn [conn_held conn_event h_conn app]. rewrite (proj2 (Z.eqb_neq (-1) c)) by lia.
    destruct (h_conn st =? c); lia. }
  destruct (httpd_reply i st Hwf ltac:(lia) Es Ec Hlen) as (st' & E & Hwf' & Hn & _). rewrite E.
  eexists (Some st'), _. split; [done|]. split; [done|]. rewrite Hn. cbn [conn_held conn_event].
  rewrite (proj2 (Z.eqb_neq (-1) c)) by lia. destruct (h_conn st =? c); lia.
Qed.

(** The web server with one client at a time: for any inputs of the stack no
    access leaves a buffer, and while the thread runs exactly the current
    connection is open: every other one was closed as often as it was accepted. *)
Theorem httpd_connections ins st c :
  hwf st -> h_conn st = -1 -> 0 <= c -> one_client ins st ->
  exists st' cs, httpd_run ins st = Ok (st', cs) /\
    (forall s, st' = Some s -> conn_held c cs = if h_conn s =? c then 1 else 0).
Proof.
  intros Hwf Hn Hc. assert (Hgen : forall ins st, hwf st -> one_client ins st ->
    exists st' cs, httpd_run ins st = Ok (st', cs) /\
      (forall s, st' = Some s -> conn_held c cs = (if h_conn s =? c then 1 else 0) - (if h_conn st =? c then 1 else 0))).
  { clear ins st Hwf Hn. induction ins as [|i ins IH]; intros st Hwf H.
    { exists (Some st), []. split; [done|]. intros s [= <-]. cbn [conn_held]. lia. }
    destruct H as (Hi & Hone & Hrest). cbn [httpd_run].
    destruct (httpd_iteration_held i st c Hwf Hc Hi Hone) as (st1 & cs1 & E & H1). rewrite E in *. cbn [mbind res_bind].
    destruct st1 as [st1|]; [|by exists None, cs1]. destruct H1 as [Hwf1 H1].
    destruct (IH st1 Hwf1 Hrest) as (st2 & cs2 & E2 & H2). rewrite E2. cbn [mbind res_bind].
    exists st2, (cs1 ++ cs2). split; [done|]. intros s Hs. rewrite conn_held_app, H1, (H2 s Hs). lia. }
  intros H. destruct (Hgen ins st Hwf H) as (st' & cs & E & Hh). exists st', cs. split; [done|].
  intros s Hs. rewrite (Hh s Hs), Hn, (proj2 (Z.eqb_neq (-1) c)) by lia. lia.
Qed.

Definition h_fresh : hstate := mkH 3 (-1) (replicate 512 0).
Definition visit (conn : Z) : list hinput := [mkHin 1 true false conn 0; mkHin 1 false true 0 20].

Lemma httpd_connections_witness :
  exists st' cs, httpd_run (visit 4 ++ visit 4) h_fresh = Ok (st', cs) /\
    (forall s, st' = Some s -> conn_held 4 cs = if h_conn s =? 4 then 1 else 0).
Proof.
  apply (httpd_connections (visit 4 ++ visit 4) h_fresh 4).
  - split; [vm_compute; congruence|]. split; [by_eval|reflexivity].
  - reflexivity.
  - lia.
  - vm_compute. repeat split; intros; congruence.
Defined.

(** A second client that connects while the first is connected takes its place:
    the first connection is never answered and never closed. *)
Theorem httpd_leaks_connection :
  exists st cs, httpd_run (take 1 (visit 4) ++ visit 5) h_fresh = Ok (Some st, cs) /\ h_conn st = -1 /\
    conn_held 4 cs = 1 /\ conn_held 5 cs = 0.
Proof. eexists _, _. split; [vm_compute; reflexivity|]. split_and!; reflexivity. Qed.
