(* ===== verification/SdkQueue.v ===== *)
(** * The software queue of the firmware (include/queue.h)

    [Queue_t] is a singly linked list threaded through the first field of its
    elements.  The functions on it are in the firmware's library, of which the
    SDK has only the prototypes and their comments: [queue_ops] holds the
    functions and [queue_laws] what the comments promise, stated on the chain of
    pointers in memory.  [linked_ops] shows that the laws can hold. *)
From S2P Require Import Prelude.
From stdpp Require Import sets.
#[local] Open Scope Z_scope.

(** A pointer to an element of a pool, as its index; [None] is NULL. *)
Notation qp := (option nat).

Record Queue_t := mkQueue_t { q_head : qp; q_tail : qp; q_len : Z; q_max : Z; q_min : Z }.

(** [memset(q, 0, sizeof *q)] *)
Definition zero_queue : Queue_t := mkQueue_t None None 0 0 0.

(** The [next] fields of the elements of a pool. *)
Notation links := (list qp).

(** The chain of pointers through [l], ended by NULL. *)
Fixpoint chain (m : links) (l : list nat) : Prop :=
  match l with
  | [] => True
  | e :: l' => m !! e = Some (head l') /\ chain m l'
  end.

(** [q] holds the elements [l], in this order. *)
Definition queue_rep (m : links) (q : Queue_t) (l : list nat) : Prop :=
  q_head q = head l /\ (l <> [] -> q_tail q = list.last l) /\ q_len q = Zlen l /\ chain m l.

Definition same_but (l : list nat) (m m' : links) : Prop :=
  length m' = length m /\ forall i, i ∉ l -> m' !! i = m !! i.

(** ** The interface *)

Class queue_ops := {
  getq : Queue_t -> links -> qp * Queue_t * links;
  putq : Queue_t -> nat -> links -> Queue_t * links;
  peekq_head : Queue_t -> links -> qp
}.

Class queue_laws {ops : queue_ops} : Prop := {
  (** "de-queue item from head of queue" *)
  getq_nil q m : queue_rep m q [] -> exists q' m', getq q m = (None, q', m') /\ queue_rep m' q' [] /\ same_but [] m m';
  getq_cons q m e l : queue_rep m q (e :: l) -> NoDup (e :: l) ->
    exists q' m', getq q m = (Some e, q', m') /\ queue_rep m' q' l /\ same_but (e :: l) m m';
  (** "add item to tail of queue" *)
  putq_spec q m e l : queue_rep m q l -> NoDup l -> e ∉ l -> (e < length m)%nat ->
    exists q' m', putq q e m = (q', m') /\ queue_rep m' q' (l ++ [e]) /\ same_but (e :: l) m m';
  (** "Peek the head of the queue" *)
  peekq_head_spec q m l : queue_rep m q l -> peekq_head q m = head l
}.

(** ** Chains *)

Lemma chain_frame m m' l : (forall i, i ∈ l -> m' !! i = m !! i) -> chain m l -> chain m' l.
Proof.
  induction l as [|e l IH]; [done|]. intros Hf [He Hl]. split.
  - rewrite Hf by set_solver. done.
  - apply IH; [set_solver|done].
Qed.

(** A queue keeps its elements when another queue changes. *)
Lemma queue_rep_frame m m' q l l' :
  same_but l' m m' -> (forall i, i ∈ l -> i ∉ l') -> queue_rep m q l -> queue_rep m' q l.
Proof.
  intros [_ Hf] Hd (?&?&?&?). repeat split; try done. eapply chain_frame; [|done]. intros i Hi. apply Hf, Hd, Hi.
Qed.

Lemma chain_snoc m l t e :
  list.last l = Some t -> NoDup l -> e ∉ l -> (e < length m)%nat -> chain m l ->
  chain (<[e := None]> (<[t := Some e]> m)) (l ++ [e]).
Proof.
  induction l as [|x l IH]; [done|]. intros Hlast Hnd He Hlen [Hx Hl].
  apply NoDup_cons in Hnd as [Hxl Hnd]. apply not_elem_of_cons in He as [Hex He].
  destruct l as [|y l].
  - injection Hlast as <-. cbn [app chain head]. split.
    + rewrite list_lookup_insert_ne by done. rewrite list_lookup_insert_eq; [done|]. by eapply lookup_lt_Some.
    + split; [|done]. apply list_lookup_insert_eq. by rewrite length_insert.
  - split; [|by apply IH]. rewrite !list_lookup_insert_ne; [done| |done].
    assert (t ∈ y :: l) by by apply last_Some_elem_of. intros ->. done.
Qed.

(** ** Instance: the linked list *)

Definition linked_get (q : Queue_t) (m : links) : qp * Queue_t * links :=
  match q_head q with
  | None => (None, q, m)
  | Some e => (Some e, mkQueue_t (default None (m !! e)) (q_tail q) (q_len q - 1) (q_max q) (q_min q), m)
  end.

Definition linked_put (q : Queue_t) (e : nat) (m : links) : Queue_t * links :=
  match q_head q, q_tail q with
  | Some h, Some t => (mkQueue_t (Some h) (Some e) (q_len q + 1) (q_max q) (q_min q), <[e := None]> (<[t := Some e]> m))
  | _, _ => (mkQueue_t (Some e) (Some e) (q_len q + 1) (q_max q) (q_min q), <[e := None]> m)
  end.

#[global] Instance linked_ops : queue_ops := {|
  getq := linked_get; putq := linked_put; peekq_head q _ := q_head q |}.

Lemma same_but_refl l m : same_but l m m.
Proof. done. Qed.

Lemma linked_put_spec q m e l :
  queue_rep m q l -> NoDup l -> e ∉ l -> (e < length m)%nat ->
  exists q' m', linked_put q e m = (q', m') /\ queue_rep m' q' (l ++ [e]) /\ same_but (e :: l) m m'.
Proof.
  intros (Hh & Ht & Hn & Hc) Hnd He Hlen. unfold linked_put. rewrite Hh. destruct l as [|x l].
  - do 2 eexists. split; [done|]. split; [|split; [by rewrite length_insert|]].
    + unfold queue_rep, Zlen in *. cbn in *. repeat split; [lia|]. by apply list_lookup_insert_eq.
    + intros i Hi. apply list_lookup_insert_ne. set_solver.
  - cbn [head]. rewrite Ht by done. destruct (list.last (x :: l)) as [t|] eqn:Hlast; [|by apply last_None in Hlast].
    do 2 eexists. split; [done|]. split; [|split; [by rewrite !length_insert|]].
    + unfold queue_rep, Zlen in *. cbn [q_head q_tail q_len]. rewrite last_snoc, length_app. split_and!; [done|done| |].
      * rewrite Hn. cbn. lia.
      * by apply (chain_snoc _ (x :: l)).
    + intros i Hi. apply last_Some_elem_of in Hlast. rewrite !list_lookup_insert_ne; [done|set_solver..].
Qed.

#[global] Instance linked_laws : queue_laws (ops := linked_ops).
Proof.
  split; cbn.
  - intros q m (Hh & ?). unfold linked_get. rewrite Hh. do 2 eexists. done.
  - intros q m e l (Hh & Ht & Hn & He & Hl) _. unfold linked_get. rewrite Hh. cbn [head]. rewrite He. cbn [default].
    do 2 eexists. split; [done|]. split; [|done]. unfold queue_rep, Zlen in *. cbn [q_head q_tail q_len]. repeat split.
    + intros Hne. rewrite Ht by done. destruct l; [done|]. done.
    + rewrite Hn. cbn. lia.
    + done.
  - apply linked_put_spec.
  - intros q m l H. apply H.
Qed.
