(* ===== verification/TxQueue.v ===== *)
(** * The transmit path of the firmware interface (mli.c)

    A packet to send gets a place in [mbufs], which remembers whom to return it
    to, and one of the sixteen elements of [tx_e], which carries it through the
    global queue (packets for the dispatcher task, [mli_TX_Main]) and the queue
    of the WLAN driver.  [tx] holds these and the event flags that the functions
    trigger; [returned] collects the calls of the owners' return functions.
    Function pointers and packet addresses are words, 0 is NULL; a packet's memory
    is a byte buffer that begins with its descriptor ([wcb_t], wlpd.h). *)
From S2P Require Import Prelude.
From S2P Require Import Buffer.
From S2P Require Import Sys.
From S2P Require Import SdkQueue.

Definition SDK_MAX_TX_Q : Z := 16.

Record sdkretbuff := mkRet { pkt : Z; returnTxBuffer : Z }.

Definition no_pkt : sdkretbuff := mkRet 0 0.

(** [mli_TxFreeQueue], [mli_TxGlobalQueue], [mli_TxWlanQueue] *)
Inductive which := Free | Global | Wlan.

#[global] Instance which_eq_dec : EqDecision which.
Proof. solve_decision. Defined.

(** The events: [ev_rx] and [ev_tx] of the two tasks of the SDK, [ev_wlan] of the
    driver's queue and [ev_mac] of its data service. *)
Record events := mkEvents { ev_rx : bool; ev_tx : bool; ev_wlan : bool; ev_mac : bool }.

Definition trigger_rx (e : events) : events := mkEvents true (ev_tx e) (ev_wlan e) (ev_mac e).
Definition trigger_tx (e : events) : events := mkEvents (ev_rx e) true (ev_wlan e) (ev_mac e).
Definition trigger_wlan (e : events) : events := mkEvents (ev_rx e) (ev_tx e) true (ev_mac e).
Definition trigger_mac (e : events) : events := mkEvents (ev_rx e) (ev_tx e) (ev_wlan e) true.
Definition clear_tx (e : events) : events := mkEvents (ev_rx e) false (ev_wlan e) (ev_mac e).

(** [tx_next] and [tx_ptr] are the two fields of the elements of [tx_e]. *)
Record tx := mkTx {
  mbufs : list sdkretbuff; tx_next : links; tx_ptr : list Z;
  freeq : Queue_t; globalq : Queue_t; wlanq : Queue_t;
  evs : events; returned : list (Z * Z) }.

Definition queue_of (w : which) (s : tx) : Queue_t :=
  match w with Free => freeq s | Global => globalq s | Wlan => wlanq s end.

Definition with_queue (w : which) (q : Queue_t) (m : links) (s : tx) : tx :=
  mkTx (mbufs s) m (tx_ptr s)
    (match w with Free => q | _ => freeq s end) (match w with Global => q | _ => globalq s end)
    (match w with Wlan => q | _ => wlanq s end) (evs s) (returned s).
Definition with_mbufs (l : list sdkretbuff) (s : tx) : tx :=
  mkTx l (tx_next s) (tx_ptr s) (freeq s) (globalq s) (wlanq s) (evs s) (returned s).
Definition with_ptr (l : list Z) (s : tx) : tx :=
  mkTx (mbufs s) (tx_next s) l (freeq s) (globalq s) (wlanq s) (evs s) (returned s).
Definition with_events (f : events -> events) (s : tx) : tx :=
  mkTx (mbufs s) (tx_next s) (tx_ptr s) (freeq s) (globalq s) (wlanq s) (f (evs s)) (returned s).

(** A call of a return function: [ret(p)]. *)
Definition call_return (ret p : Z) (s : tx) : res tx :=
  if ret =? 0 then Fault
  else Ok (mkTx (mbufs s) (tx_next s) (tx_ptr s) (freeq s) (globalq s) (wlanq s) (evs s) (returned s ++ [(ret, p)])).

(** ** Packets *)

Definition o_TxPacketOffset : Z := 8.
Definition o_TxDestAddrHigh : Z := 14.
Definition o_TxDestAddrLow : Z := 16.
Definition o_TxPacketType : Z := 24.

Definition mdns_ip : list Z := le_bytes 0xFB0000E0.
Definition mdns_mac : list Z := [0x01; 0x00; 0x5E; 0x00; 0x00; 0xFB].

(** A packet to 224.0.0.251 gets the link-layer address of that group. *)
Definition fix_multicast (w : list Z) : res (list Z) :=
  l ← rd_range w o_TxPacketOffset 4;
  let off := of_le l in
  test ← rd_range w (off + 30) 4;
  if bool_decide (test = mdns_ip) then
    w ← wr_range w o_TxDestAddrHigh [0x01; 0x00];
    w ← wr_range w o_TxDestAddrLow (le_bytes 0xFB00005E);
    wr_range w off mdns_mac
  else Ok w.

(** ** The steps of the functions *)

(** The first place of [mbufs] without a packet, or the size of the array. *)
Fixpoint free_spot (l : list sdkretbuff) : nat :=
  match l with
  | [] => 0
  | b :: l => if pkt b =? 0 then 0 else S (free_spot l)
  end.

(** The critical section of [mli_TxDataEnqueue]; the result is [bindex]. *)
Definition reserve (p ret : Z) (s : tx) : Z * tx :=
  let bindex := Z.of_nat (free_spot (mbufs s)) in
  if bindex <? SDK_MAX_TX_Q then
    (bindex + 1, with_mbufs (<[Z.to_nat bindex := mkRet p ret]> (mbufs s)) s)
  else (bindex, s).

(** The first place with the packet [p] is cleared, with the function called
    that is stored there. *)
Fixpoint spot_of (p : Z) (l : list sdkretbuff) : option nat :=
  match l with
  | [] => None
  | b :: l => if pkt b =? p then Some 0%nat else S <$> spot_of p l
  end.

Definition mli_HandleTxDone (wcbPtr : Z) (s : tx) : res tx :=
  match spot_of wcbPtr (mbufs s) with
  | None => Ok s
  | Some i =>
      match mbufs s !! i with
      | None => Fault
      | Some b =>
          s ← call_return (returnTxBuffer b) (pkt b) s;
          Ok (with_mbufs (<[i := no_pkt]> (mbufs s)) s)
      end
  end.

(** The chain through all elements, and the free queue over it. *)
Definition chain_links : links :=
  map (fun i => if (i =? SDK_MAX_TX_Q - 1)%Z then None else Some (Z.to_nat (i + 1)))
    (Z.of_nat <$> seq 0 (Z.to_nat SDK_MAX_TX_Q)).

Definition full_queue : Queue_t :=
  mkQueue_t (Some 0%nat) (Some (Z.to_nat (SDK_MAX_TX_Q - 1))) SDK_MAX_TX_Q SDK_MAX_TX_Q SDK_MAX_TX_Q.

(** Of [mli_appInterfaceInit] and [mli_ResetTxData]. *)
Definition init_queues (s : tx) : tx :=
  mkTx (mbufs s) chain_links (tx_ptr s) full_queue zero_queue zero_queue (evs s) (returned s).

(** The static variables are zero. *)
Definition tx_static : tx :=
  mkTx (replicate 16 no_pkt) (replicate 16 None) (replicate 16 0) zero_queue zero_queue zero_queue
    (mkEvents false false false false) [].

Fixpoint reset_loop (n : nat) (i : nat) (s : tx) : res tx :=
  match n with
  | O => Ok s
  | S n =>
      match mbufs s !! i with
      | None => Fault
      | Some b =>
          if negb (pkt b =? 0) then
            s ← call_return (returnTxBuffer b) (pkt b) s;
            reset_loop n (S i) (with_mbufs (<[i := no_pkt]> (mbufs s)) s)
          else reset_loop n (S i) s
      end
  end.

Definition mli_ResetTxData (s : tx) : res tx :=
  s ← reset_loop (Z.to_nat SDK_MAX_TX_Q) 0 s;
  Ok (init_queues s).

Section operations.
Context {ops : queue_ops}.

Definition dequeue (w : which) (s : tx) : qp * tx :=
  let '(e, q, m) := getq (queue_of w s) (tx_next s) in (e, with_queue w q m s).

Definition enqueue (w : which) (e : nat) (s : tx) : tx :=
  let '(q, m) := putq (queue_of w s) e (tx_next s) in with_queue w q m s.

(** [tmpelement = getq(&mli_TxFreeQueue); tmpelement->ptr = p;] *)
Definition take_free (p : Z) (s : tx) : res (nat * tx) :=
  let '(e, s) := dequeue Free s in
  match e with
  | None => Fault
  | Some e => if (e <? length (tx_ptr s))%nat then Ok (e, with_ptr (<[e := p]> (tx_ptr s)) s) else Fault
  end.

(** [tmpelement->ptr] *)
Definition ptr_of (e : nat) (s : tx) : res Z :=
  match tx_ptr s !! e with Some p => Ok p | None => Fault end.

(** ** The functions *)

Definition mli_TxDataEnqueue (p ret : Z) (w : list Z) (s : tx) : res (list Z * tx) :=
  w ← fix_multicast w;
  let '(bindex, s) := reserve p ret s in
  if SDK_MAX_TX_Q <=? bindex then
    s ← call_return ret p s;
    Ok (w, s)
  else
    '(e, s) ← take_free p s;
    type ← rd w o_TxPacketType;
    if type =? RAW_DATA then Ok (w, with_events trigger_wlan (enqueue Wlan e s))
    else Ok (w, with_events trigger_tx (enqueue Global e s)).

Definition mli_getTxPktforWlan (s : tx) : res (Z * tx) :=
  let '(e, s) := dequeue Wlan s in
  match e with
  | None => Ok (0, with_events trigger_tx s)
  | Some e =>
      p ← ptr_of e s;
      Ok (p, with_events trigger_tx (enqueue Free e s))
  end.

Definition mli_peekTxPktforWlan (s : tx) : bool :=
  bool_decide (peekq_head (wlanq s) (tx_next s) <> None).

(** The loop of [mli_TX_Main] on the global queue: [run] calls a handler of the
    table [h], which may change a state [x] of its own. *)
Section main.
Context {X : Type} (run : Z -> Z -> X -> res (verdict Z * X)) (h : handlers).

Fixpoint dispatch_loop (fuel : nat) (s : tx) (x : X) : res (Z * tx * X) :=
  match fuel with
  | O => Diverge
  | S fuel =>
      let '(e, s) := dequeue Global s in
      match e with
      | None => Ok (0, s, x)
      | Some e =>
          p ← ptr_of e s;
          let s := enqueue Free e s in
          '(r, x) ← mli_PreProcessRxPacket run h p x;
          let p := match r with Some p => p | None => 0 end in
          if negb (p =? 0) then Ok (p, s, x) else dispatch_loop fuel s x
      end
  end.

(** One iteration of [mli_TX_Main]; without the event it stays in the wait. *)
Definition mli_TX_Main (s : tx) (x : X) : res (tx * X) :=
  if negb (ev_tx (evs s)) then Ok (s, x)
  else
    '(p, s, x) ← dispatch_loop (S (Z.to_nat (q_len (globalq s)))) (with_events clear_tx s) x;
    if negb (p =? 0) then
      '(e, s) ← take_free p s;
      Ok (with_events trigger_wlan (enqueue Wlan e s), x)
    else Ok (s, x).
End main.
End operations.

(** ** Installed functions *)

(** [mli_installCustomCmdCBFunc], [mli_installTickFunction] and
    [mli_installCustomTxDataHandler] differ in their table. *)
Definition mli_install (f : Z) (h : handlers) : res (Z * handlers) :=
  if MLI_MAX_CUSTOM_HANDLERS <=? numberRxDataHandlers h then Ok (FAIL, h)
  else
    let n := numberRxDataHandlers h in
    if (n <? 0) || (Zlen (rxDataHandler h) <=? n) then Fault
    else Ok (SUCCESS, mkHandlers (<[Z.to_nat n := f]> (rxDataHandler h)) (n + 1)).

Definition mli_installCustomCmdCBFunc (cbfunc : Z) (cmdHandler : handlers) : res (Z * handlers) :=
  mli_install cbfunc cmdHandler.
Definition mli_installTickFunction (tickfunc : Z) (tickfunctions : handlers) : res (Z * handlers) :=
  mli_install tickfunc tickfunctions.
Definition mli_installCustomTxDataHandler (cbfunc : Z) (txDataHandler : handlers) : res (Z * handlers) :=
  mli_install cbfunc txDataHandler.

Definition MLI_CUSTOM_CMD_HANDLED : Z := 1.
Definition MLI_CUSTOM_CMD_NOT_HANDLED : Z := 2.
Definition MLI_CUSTOM_CMD_SEND_RESPONSE : Z := 3.

(** The command handlers in order, until one handles the command; the result, the
    state of the handlers and whether [cb_HandleCmdDone] was called. *)
Section commands.
Context {X : Type} (run : Z -> Z -> X -> res (Z * X)).

Fixpoint command_loop (n i : nat) (h : list Z) (cmd : Z) (x : X) : res (Z * X * bool) :=
  match n with
  | O => Ok (MLI_CUSTOM_CMD_NOT_HANDLED, x, false)
  | S n =>
      match h !! i with
      | None => Fault
      | Some f =>
          if f =? 0 then Fault
          else
            '(r, x) ← run f cmd x;
            if r =? MLI_CUSTOM_CMD_HANDLED then Ok (MLI_CUSTOM_CMD_HANDLED, x, false)
            else if r =? MLI_CUSTOM_CMD_SEND_RESPONSE then Ok (MLI_CUSTOM_CMD_HANDLED, x, true)
            else command_loop n (S i) h cmd x
      end
  end.

Definition mli_commandHandlerInterface (h : handlers) (cmd : Z) (x : X) : res (Z * X * bool) :=
  command_loop (Z.to_nat (numberRxDataHandlers h)) 0 (rxDataHandler h) cmd x.
End commands.

(** The tick functions in order, then the events; [rx_allowed] and [tx_allowed]
    are what [IsRxAllowFromMAC] and [psmgr_IsTxAllowed] return. *)
Section ticks.
Context {X : Type} (run : Z -> X -> res X).

Fixpoint tick_loop (n i : nat) (h : list Z) (x : X) : res X :=
  match n with
  | O => Ok x
  | S n =>
      match h !! i with
      | None => Fault
      | Some f => if f =? 0 then Fault else x ← run f x; tick_loop n (S i) h x
      end
  end.

Definition mli_Tick (rx_allowed tx_allowed : bool) (h : handlers) (x : X) (s : tx) : res (X * tx) :=
  x ← tick_loop (Z.to_nat (numberRxDataHandlers h)) 0 (rxDataHandler h) x;
  let s := if rx_allowed then with_events trigger_rx s else s in
  Ok (x, if tx_allowed then with_events (fun e => trigger_mac (trigger_tx e)) s else s).
End ticks.

(** ** Received packets *)

(** One iteration of the receive task: whether [wlan_cf_rx_pkts] is called. *)
Definition mli_RX_Main (s : tx) : bool * tx :=
  (ev_rx (evs s), with_events (fun e => mkEvents false (ev_tx e) (ev_wlan e) (ev_mac e)) s).

Definition MLI_CUSTOM_RX_PACK_DISCARD : Z := 0.
Definition RX_PKT_TYPE_SEND_TO_HOST : Z := 0xFF.

(** The call that returns a received packet, and the packet type it has then. *)
Inductive rx_return := to_driver | to_host (type : Z).

Definition mli_returnRxPacket (action : Z) : rx_return :=
  if action =? MLI_CUSTOM_RX_PACK_DISCARD then to_driver else to_host RX_PKT_TYPE_SEND_TO_HOST.

(** ** Start

    The two tasks are created after the queues are there, then the application
    is started: the statuses of [tx_thread_create], and [customAppInit]. *)
Definition mli_appInterfaceInit {X} (created_rx created_tx : Z) (customAppInit : X -> res (Z * X)) (x : X) (s : tx) :
    res (Z * X * tx) :=
  let s := init_queues s in
  let s := with_events (fun e => mkEvents false false (ev_wlan e) (ev_mac e)) s in
  if negb (created_rx =? TX_SUCCESS) then Ok (FAIL, x, s)
  else if negb (created_tx =? TX_SUCCESS) then Ok (FAIL, x, s)
  else
    '(st, x) ← customAppInit x;
    Ok (st, x, s).
