(* ===== verification/TxQueueSpec.v ===== *)
(** * Properties of the transmit path (mli.c): the three queues

    [wf s ls held]: the queues of [s] hold the elements [ls], and these with the
    [held] ones, which a task has taken and not put back, are the sixteen elements
    of [tx_e], each once.  Every step of the functions preserves this. *)
From S2P Require Import Prelude.
From S2P Require Import Buffer.
From S2P Require Import Sys.
From S2P Require Import SdkQueue.
From S2P Require Import TxQueue.
From stdpp Require Import sets.
#[local] Open Scope Z_scope.

Definition queued (ls : which -> list nat) : list nat := ls Free ++ ls Global ++ ls Wlan.

Definition upd (w : which) (l : list nat) (ls : which -> list nat) : which -> list nat :=
  fun w' => if decide (w' = w) then l else ls w'.

Record wf (s : tx) (ls : which -> list nat) (held : list nat) : Prop := {
  wf_rep : forall w, queue_rep (tx_next s) (queue_of w s) (ls w);
  wf_all : queued ls ++ held ≡ₚ seq 0 16;
  wf_next : length (tx_next s) = 16%nat;
  wf_ptr : length (tx_ptr s) = 16%nat;
  wf_mbufs : length (mbufs s) = 16%nat }.

(** ** Elements *)

Lemma upd_same w l ls : upd w l ls w = l.
Proof. unfold upd. by rewrite decide_True. Qed.

Lemma upd_other w w' l ls : w' <> w -> upd w l ls w' = ls w'.
Proof. intros. unfold upd. by rewrite decide_False. Qed.

Lemma elements_take w e l ls : ls w = e :: l -> queued ls ≡ₚ e :: queued (upd w l ls).
Proof.
  intros H. unfold queued. destruct w; rewrite H, upd_same; rewrite ?(upd_other _ _ l) by done; cbn; solve_Permutation.
Qed.

Lemma elements_put w e ls : queued (upd w (ls w ++ [e]) ls) ≡ₚ e :: queued ls.
Proof.
  unfold queued. destruct w; rewrite upd_same; rewrite ?(upd_other _ _ (ls _ ++ [e])) by done; solve_Permutation.
Qed.

Lemma elements_disjoint w w' ls e : NoDup (queued ls) -> w' <> w -> e ∈ ls w -> e ∉ ls w'.
Proof.
  unfold queued. rewrite !NoDup_app. intros (_ & H1 & _ & H2 & _) Hne.
  destruct w, w'; try done; set_solver.
Qed.

Section facts.
Context {s : tx} {ls : which -> list nat} {held : list nat} (W : wf s ls held).

Lemma wf_nodup : NoDup (queued ls ++ held).
Proof. rewrite (wf_all _ _ _ W). apply NoDup_seq. Qed.

Lemma wf_nodup_queue w : NoDup (ls w).
Proof.
  pose proof wf_nodup as H. unfold queued in H. rewrite !NoDup_app in H. destruct w; tauto.
Qed.

Lemma wf_in_range e : e ∈ queued ls ++ held -> (e < 16)%nat.
Proof. rewrite (wf_all _ _ _ W). intros H%elem_of_seq. lia. Qed.

Lemma wf_count : (length (queued ls) + length held = 16)%nat.
Proof. rewrite <- length_app, (wf_all _ _ _ W). done. Qed.
End facts.

(** ** The queues *)

Section queues.
Context {ops : queue_ops} {laws : queue_laws}.

(** The queue [w] changes in the elements [l], which no other queue has. *)
Lemma wf_with_queue s ls held held' w q m l l' :
  wf s ls held -> queue_rep m q l -> same_but l' (tx_next s) m ->
  (forall i, i ∈ l' -> i ∈ ls w \/ i ∈ held) ->
  queued (upd w l ls) ++ held' ≡ₚ queued ls ++ held ->
  wf (with_queue w q m s) (upd w l ls) held'.
Proof.
  intros W Hq Hm Hl' Hp. destruct (W) as [Wrep Wall Wnext Wptr Wmb]. split; try done.
  - intros w'. destruct (decide (w' = w)) as [-> | Hne].
    + rewrite upd_same. by destruct w.
    + rewrite upd_other by done.
      replace (queue_of w' (with_queue w q m s)) with (queue_of w' s) by (by destruct w', w).
      apply queue_rep_frame with (tx_next s) l'; [done| |apply Wrep].
      intros i Hi Hi'. pose proof (wf_nodup W) as Hnd. rewrite NoDup_app in Hnd. destruct Hnd as (Hnd & Hd & _).
      destruct (Hl' i Hi') as [Hin | Hin].
      * by eapply (elements_disjoint w w').
      * apply (Hd i); [|done]. unfold queued. destruct w'; set_solver.
  - by rewrite Hp.
  - cbn. destruct Hm as [-> _]. done.
Qed.

Lemma dequeue_nil w s ls held :
  wf s ls held -> ls w = [] -> exists q m, dequeue w s = (None, with_queue w q m s) /\ wf (with_queue w q m s) ls held.
Proof.
  intros W E. pose proof (wf_rep _ _ _ W w) as H. rewrite E in H. unfold dequeue.
  destruct (getq_nil _ _ H) as (q & m & -> & Hq & Hm). exists q, m. split; [done|].
  destruct (wf_with_queue s ls held held w q m [] [] W) as [Hr ? ? ? ?]; try done.
  { set_solver. }
  { unfold queued. destruct w; rewrite upd_same, E; rewrite ?(upd_other _ _ []) by done; done. }
  split; try done; [|apply W]. intros w'. specialize (Hr w'). unfold upd in Hr. destruct (decide (w' = w)) as [-> |]; [by rewrite E|done].
Qed.

Lemma dequeue_cons w s ls held e l :
  wf s ls held -> ls w = e :: l ->
  exists q m, dequeue w s = (Some e, with_queue w q m s) /\ wf (with_queue w q m s) (upd w l ls) (e :: held).
Proof.
  intros W E. pose proof (wf_rep _ _ _ W w) as H. rewrite E in H. unfold dequeue.
  pose proof (wf_nodup_queue W w) as Hnd. rewrite E in Hnd.
  destruct (getq_cons _ _ _ _ H Hnd) as (q & m & -> & Hq & Hm). exists q, m. split; [done|].
  eapply wf_with_queue; [done..| |].
  - rewrite E. set_solver.
  - rewrite (elements_take w e l ls E). solve_Permutation.
Qed.

Lemma enqueue_wf w s ls held e :
  wf s ls (e :: held) ->
  exists q m, enqueue w e s = with_queue w q m s /\ wf (with_queue w q m s) (upd w (ls w ++ [e]) ls) held.
Proof.
  intros W. pose proof (wf_rep _ _ _ W w) as H. unfold enqueue.
  pose proof (wf_nodup W) as Hnd. rewrite NoDup_app in Hnd. destruct Hnd as (_ & Hd & _).
  destruct (putq_spec _ _ e _ H) as (q & m & -> & Hq & Hm).
  - apply (wf_nodup_queue W).
  - intros Hin. apply (Hd e); [|set_solver]. unfold queued. destruct w; set_solver.
  - rewrite (wf_next _ _ _ W). apply (wf_in_range W). set_solver.
  - exists q, m. split; [done|]. eapply wf_with_queue; [done..| |].
    + set_solver.
    + rewrite elements_put. solve_Permutation.
Qed.

(** The first free element gets the packet [p]. *)
Lemma take_free_wf p s ls held e l :
  wf s ls held -> ls Free = e :: l ->
  exists q m, let s' := with_ptr (<[e := p]> (tx_ptr s)) (with_queue Free q m s) in
    take_free p s = Ok (e, s') /\ wf s' (upd Free l ls) (e :: held).
Proof.
  intros W E. destruct (dequeue_cons Free s ls held e l W E) as (q & m & Ht & W'). exists q, m. cbn zeta.
  unfold take_free. rewrite Ht. cbn [tx_ptr with_queue]. rewrite (wf_ptr _ _ _ W).
  rewrite (proj2 (Nat.ltb_lt e 16)).
  - split; [done|]. destruct W' as [Hr Ha Hn Hp Hm]. split; try done. cbn. by rewrite length_insert.
  - apply (wf_in_range W'). set_solver.
Qed.
End queues.

(** ** The packets of a queue *)

Definition packets (s : tx) (l : list nat) : list Z := (fun e => default 0 (tx_ptr s !! e)) <$> l.

Lemma packets_insert s l e p :
  e ∉ l -> packets (with_ptr (<[e := p]> (tx_ptr s)) s) l = packets s l.
Proof.
  intros He. unfold packets. apply list_fmap_ext. intros i x Hx. cbn.
  rewrite list_lookup_insert_ne; [done|]. intros ->. by apply list_elem_of_lookup_2 in Hx.
Qed.

Lemma packets_app s l l' : packets s (l ++ l') = packets s l ++ packets s l'.
Proof. apply fmap_app. Qed.

Lemma ptr_of_packet s ls held e : wf s ls held -> e ∈ queued ls ++ held -> ptr_of e s = Ok (default 0 (tx_ptr s !! e)).
Proof.
  intros W He. unfold ptr_of. destruct (tx_ptr s !! e) eqn:E; [done|].
  apply lookup_ge_None in E. rewrite (wf_ptr _ _ _ W) in E. pose proof (wf_in_range W e He). lia.
Qed.

(** ** What the transmit path promises *)

(** The packets of the global queue and of the driver's, in order. *)
Record spec := mkSpec {
  sp_mbufs : list sdkretbuff; sp_global : list Z; sp_wlan : list Z; sp_evs : events; sp_returned : list (Z * Z) }.

Definition implements (s : tx) (a : spec) : Prop :=
  exists ls, wf s ls [] /\ packets s (ls Global) = sp_global a /\ packets s (ls Wlan) = sp_wlan a /\
    mbufs s = sp_mbufs a /\ evs s = sp_evs a /\ returned s = sp_returned a.

Definition spec_put (raw : bool) (p : Z) (a : spec) : spec :=
  if raw then mkSpec (sp_mbufs a) (sp_global a) (sp_wlan a ++ [p]) (trigger_wlan (sp_evs a)) (sp_returned a)
  else mkSpec (sp_mbufs a) (sp_global a ++ [p]) (sp_wlan a) (trigger_tx (sp_evs a)) (sp_returned a).

Definition spec_return (ret p : Z) (a : spec) : spec :=
  mkSpec (sp_mbufs a) (sp_global a) (sp_wlan a) (sp_evs a) (sp_returned a ++ [(ret, p)]).

Definition spec_store (i : nat) (b : sdkretbuff) (a : spec) : spec :=
  mkSpec (<[i := b]> (sp_mbufs a)) (sp_global a) (sp_wlan a) (sp_evs a) (sp_returned a).

(** A packet is queued when one of the first fifteen places is free; it is
    returned otherwise, and then keeps the last place when that was free. *)
Definition spec_enqueue (p ret : Z) (raw : bool) (a : spec) : spec :=
  let i := free_spot (sp_mbufs a) in
  if (i <? 15)%nat then spec_put raw p (spec_store i (mkRet p ret) a)
  else if (i <? 16)%nat then spec_return ret p (spec_store i (mkRet p ret) a)
  else spec_return ret p a.

Definition spec_get (a : spec) : Z * spec :=
  match sp_wlan a with
  | [] => (0, mkSpec (sp_mbufs a) (sp_global a) [] (trigger_tx (sp_evs a)) (sp_returned a))
  | p :: l => (p, mkSpec (sp_mbufs a) (sp_global a) l (trigger_tx (sp_evs a)) (sp_returned a))
  end.

Definition spec_done (p : Z) (a : spec) : spec :=
  match spot_of p (sp_mbufs a) with
  | Some i =>
      match sp_mbufs a !! i with
      | Some b => spec_return (returnTxBuffer b) p (spec_store i no_pkt a)
      | None => a
      end
  | None => a
  end.

(** The packets in the places of [mbufs] are those that have not been returned. *)
Definition occupied (l : list sdkretbuff) : list sdkretbuff := filter (fun b => pkt b <> 0) l.

Definition spec_reset (a : spec) : spec :=
  mkSpec (replicate 16 no_pkt) [] [] (sp_evs a)
    (sp_returned a ++ ((fun b => (returnTxBuffer b, pkt b)) <$> occupied (sp_mbufs a))).

(** The dispatcher: [f] is the outcome of the handlers.  Packets are taken until
    one is left for the driver (no packet and NULL are the same). *)
Section spec_main.
Context {X : Type} (f : Z -> X -> option Z * X).

Fixpoint spec_dispatch (g : list Z) (x : X) : option Z * list Z * X :=
  match g with
  | [] => (None, [], x)
  | p :: g =>
      let '(r, x) := f p x in
      let q := default 0 r in
      if q =? 0 then spec_dispatch g x else (Some q, g, x)
  end.

Definition spec_main (a : spec) (x : X) : spec * X :=
  if ev_tx (sp_evs a) then
    let '(r, g, x) := spec_dispatch (sp_global a) x in
    match r with
    | None => (mkSpec (sp_mbufs a) g (sp_wlan a) (clear_tx (sp_evs a)) (sp_returned a), x)
    | Some q => (mkSpec (sp_mbufs a) g (sp_wlan a ++ [q]) (trigger_wlan (clear_tx (sp_evs a))) (sp_returned a), x)
    end
  else (a, x).
End spec_main.

(** ** The functions implement it *)

Lemma free_spot_le l : (free_spot l <= length l)%nat.
Proof. induction l as [|b l IH]; cbn; [lia|]. destruct (pkt b =? 0); lia. Qed.

Lemma insert_wf_mbufs s ls held l : wf s ls held -> length l = 16%nat -> wf (with_mbufs l s) ls held.
Proof. by intros []. Qed.

(** [wf] does not depend on the events. *)
Lemma events_wf f s ls held : wf s ls held -> wf (with_events f s) ls held.
Proof. by intros []. Qed.

Lemma free_nonempty s ls held :
  wf s ls held -> (length (ls Global) + length (ls Wlan) + length held < 16)%nat -> exists e l, ls Free = e :: l.
Proof.
  intros W H. pose proof (wf_count W) as C. unfold queued in C. rewrite !length_app in C.
  destruct (ls Free) as [|e l]; [cbn in C; lia|]. by exists e, l.
Qed.

Section refinement.
Context {ops : queue_ops} {laws : queue_laws}.

(** An element from the free queue goes to the end of another queue with [p]. *)
Lemma move_free p w s ls e l :
  wf s ls [] -> ls Free = e :: l -> w <> Free ->
  exists s1 s2 ls', take_free p s = Ok (e, s1) /\ enqueue w e s1 = s2 /\ wf s2 ls' [] /\
    packets s2 (ls' w) = packets s (ls w) ++ [p] /\
    (forall w', w' <> w -> w' <> Free -> packets s2 (ls' w') = packets s (ls w')) /\
    mbufs s2 = mbufs s /\ evs s2 = evs s /\ returned s2 = returned s.
Proof.
  intros W E Hw. destruct (take_free_wf p s ls [] e l W E) as (q & m & Ht & W1).
  destruct (enqueue_wf w _ _ _ _ W1) as (q2 & m2 & Hp & W2).
  assert (Hout : forall w', w' <> Free -> e ∉ ls w').
  { intros w' Hw'. pose proof (wf_nodup W) as Hnd. rewrite app_nil_r in Hnd.
    apply (elements_disjoint Free w'); [done..|]. rewrite E. set_solver. }
  do 3 eexists. split; [exact Ht|]. split; [exact Hp|]. split; [exact W2|].
  rewrite upd_same, (upd_other Free w) by done. split; [|split; [|done]].
  - rewrite packets_app. unfold packets at 2. cbn. rewrite list_lookup_insert_eq.
    + f_equal. apply (packets_insert s _ e p). by apply Hout.
    + rewrite (wf_ptr _ _ _ W). apply (wf_in_range W). unfold queued. rewrite E. set_solver.
  - intros w' H1 H2. rewrite !upd_other by done. apply (packets_insert s _ e p). by apply Hout.
Qed.

Definition dest (raw : bool) : which := if raw then Wlan else Global.
Definition notify (raw : bool) : events -> events := if raw then trigger_wlan else trigger_tx.

(** A packet with a place is appended to its queue. *)
Lemma queue_packet raw p s a :
  implements s a -> (length (sp_global a) + length (sp_wlan a) < 16)%nat ->
  exists e s1, take_free p s = Ok (e, s1) /\
    implements (with_events (notify raw) (enqueue (dest raw) e s1)) (spec_put raw p a).
Proof.
  intros (ls & W & Hg & Hw & Hm & He & Hr) Hfit. rewrite <- Hg, <- Hw in Hfit. unfold packets in Hfit.
  rewrite !length_fmap in Hfit. destruct (free_nonempty s ls [] W) as (e & l & E); [cbn; lia|].
  destruct (move_free p (dest raw) s ls e l W E) as (s1 & s2 & ls' & Ht & H2 & W2 & P1 & P2 & M & V & R); [by destruct raw|].
  exists e, s1. split; [done|]. rewrite H2. exists ls'. split; [by destruct W2|].
  destruct raw; cbn; rewrite M, V, R, <- Hw, <- Hg, <- He, <- Hr, <- Hm; split_and!; try done; by apply P2.
Qed.

Lemma store_implements i b s a : implements s a -> implements (with_mbufs (<[i := b]> (mbufs s)) s) (spec_store i b a).
Proof.
  intros (ls & W & Hg & Hw & Hm & He & Hr). exists ls. split; [|by cbn; rewrite <- Hm].
  destruct W. split; try done. cbn. by rewrite length_insert.
Qed.

Lemma return_implements ret p s a :
  implements s a -> ret <> 0 -> exists s', call_return ret p s = Ok s' /\ mbufs s' = mbufs s /\ implements s' (spec_return ret p a).
Proof.
  intros (ls & W & Hg & Hw & Hm & He & Hr) Hret. unfold call_return. rewrite (proj2 (Z.eqb_neq _ _) Hret).
  eexists. split; [done|]. split; [done|]. exists ls. split; [by destruct W|]. cbn. by rewrite Hr.
Qed.

Lemma mli_TxDataEnqueue_refines s a p ret w w' type :
  implements s a -> ret <> 0 ->
  ((free_spot (sp_mbufs a) < 16)%nat -> (length (sp_global a) + length (sp_wlan a) < 16)%nat) ->
  fix_multicast w = Ok w' -> rd w' o_TxPacketType = Ok type ->
  exists s', mli_TxDataEnqueue p ret w s = Ok (w', s') /\ implements s' (spec_enqueue p ret (type =? RAW_DATA) a).
Proof.
  intros I Hret Hfit Hfix Htype. unfold mli_TxDataEnqueue. rewrite Hfix. cbn [mbind res_bind].
  unfold reserve, spec_enqueue. destruct (I) as (ls & W & _ & _ & Hm & _). rewrite <- Hm.
  pose proof (free_spot_le (mbufs s)) as Hspot. rewrite (wf_mbufs _ _ _ W) in Hspot.
  change SDK_MAX_TX_Q with 16. rewrite Nat2Z.id.
  destruct (Nat.ltb_spec (free_spot (mbufs s)) 15) as [Hlt | Hge].
  { rewrite (proj2 (Z.ltb_lt _ 16)) by lia. cbn match. rewrite (proj2 (Z.leb_gt 16 _)) by lia.
    destruct (queue_packet (type =? RAW_DATA) p _ _ (store_implements (free_spot (mbufs s)) (mkRet p ret) s a I)) as (e & s1 & -> & I2);
      [apply Hfit; rewrite <- Hm; lia|].
    cbn [mbind res_bind]. rewrite Htype. cbn [mbind res_bind]. destruct (type =? RAW_DATA); by eexists. }
  destruct (Nat.ltb_spec (free_spot (mbufs s)) 16) as [Hlt | Hge2].
  - rewrite (proj2 (Z.ltb_lt _ 16)) by lia. cbn match. rewrite (proj2 (Z.leb_le 16 _)) by lia.
    destruct (return_implements ret p _ _ (store_implements (free_spot (mbufs s)) (mkRet p ret) s a I) Hret) as (s' & -> & _ & I').
    by eexists.
  - rewrite (proj2 (Z.ltb_ge _ 16)) by lia. cbn match. rewrite (proj2 (Z.leb_le 16 _)) by lia.
    destruct (return_implements ret p _ _ I Hret) as (s' & -> & _ & I'). by eexists.
Qed.

(** The first element of a queue goes to the free queue. *)
Lemma move_to_free w s ls e l :
  wf s ls [] -> ls w = e :: l -> w <> Free ->
  exists s1 s2 ls', dequeue w s = (Some e, s1) /\ ptr_of e s1 = Ok (default 0 (tx_ptr s !! e)) /\ enqueue Free e s1 = s2 /\ wf s2 ls' [] /\
    ls' w = l /\ (forall w', w' <> w -> w' <> Free -> ls' w' = ls w') /\ ls' Free <> [] /\
    tx_ptr s2 = tx_ptr s /\ mbufs s2 = mbufs s /\ evs s2 = evs s /\ returned s2 = returned s.
Proof.
  intros W E Hw. destruct (dequeue_cons w s ls [] e l W E) as (q & m & Ht & W1).
  destruct (enqueue_wf Free _ _ _ _ W1) as (q2 & m2 & Hp & W2).
  do 3 eexists. split; [exact Ht|]. split; [by eapply ptr_of_packet in W1; [exact W1|set_solver]|].
  split; [exact Hp|]. split; [exact W2|]. split_and!; try done.
  - rewrite upd_other by done. apply upd_same.
  - intros w' H1 H2. by rewrite !upd_other by done.
  - rewrite upd_same. by destruct (upd w l ls Free).
Qed.

Lemma mli_getTxPktforWlan_refines s a :
  implements s a ->
  exists s', mli_getTxPktforWlan s = Ok ((spec_get a).1, s') /\ implements s' (spec_get a).2.
Proof.
  intros (ls & W & Hg & Hw & Hm & He & Hr). unfold mli_getTxPktforWlan, spec_get. rewrite <- Hw.
  destruct (ls Wlan) as [|e l] eqn:E.
  - destruct (dequeue_nil Wlan s ls [] W E) as (q & m & -> & W1). eexists. split; [done|].
    exists ls. split; [by apply events_wf|]. cbn. rewrite E, <- Hg, He. done.
  - destruct (move_to_free Wlan s ls e l W E) as (s1 & s2 & ls' & -> & -> & -> & W2 & L & Lo & _ & P & M & V & R); [done|].
    eexists. split; [done|]. exists ls'. split; [by apply events_wf|]. unfold packets. cbn.
    rewrite L, Lo, P, M, V, R, He by done. by rewrite <- Hg.
Qed.

Lemma mli_peekTxPktforWlan_refines s a :
  implements s a -> mli_peekTxPktforWlan s = true <-> sp_wlan a <> [].
Proof.
  intros (ls & W & _ & Hw & _). unfold mli_peekTxPktforWlan. rewrite bool_decide_eq_true.
  rewrite (peekq_head_spec _ _ _ (wf_rep _ _ _ W Wlan)), <- Hw. by destruct (ls Wlan).
Qed.

(** ** Returning packets *)

(** A place has both a packet and a return function, or neither. *)
Definition returnable (l : list sdkretbuff) : Prop := Forall (fun b => pkt b = 0 <-> returnTxBuffer b = 0) l.

Lemma spot_of_some p l i : spot_of p l = Some i -> exists b, l !! i = Some b /\ pkt b = p.
Proof.
  revert i. induction l as [|b l IH]; [done|]. cbn. intros i. destruct (pkt b =? p) eqn:E.
  - intros [= <-]. exists b. split; [done|lia].
  - destruct (spot_of p l); [|done]. intros [= <-]. by apply IH.
Qed.

Lemma returnable_lookup l i b : returnable l -> l !! i = Some b -> pkt b = 0 <-> returnTxBuffer b = 0.
Proof. intros H. apply (proj1 (list_relations.list.Forall_lookup _ _) H). Qed.

Lemma mli_HandleTxDone_refines s a p :
  implements s a -> returnable (sp_mbufs a) -> p <> 0 ->
  exists s', mli_HandleTxDone p s = Ok s' /\ implements s' (spec_done p a).
Proof.
  intros I Hret Hp. destruct (I) as (ls & W & _ & _ & Hm & _). unfold mli_HandleTxDone, spec_done.
  rewrite <- Hm in *. destruct (spot_of p (mbufs s)) as [i|] eqn:E; [|by eexists].
  destruct (spot_of_some _ _ _ E) as (b & Hb & Hpb). rewrite Hb.
  destruct (return_implements (returnTxBuffer b) (pkt b) s a I) as (s' & -> & M & I').
  { pose proof (returnable_lookup _ _ _ Hret Hb). lia. }
  cbn [mbind res_bind]. eexists. split; [done|]. rewrite Hpb in I'. apply (store_implements i no_pkt _ _ I').
Qed.

Lemma reset_loop_spec n i s :
  (i + n = length (mbufs s))%nat -> returnable (mbufs s) ->
  exists s', reset_loop n i s = Ok s' /\ mbufs s' = take i (mbufs s) ++ replicate n no_pkt /\
    returned s' = returned s ++ ((fun b => (returnTxBuffer b, pkt b)) <$> occupied (drop i (mbufs s))) /\
    evs s' = evs s /\ tx_next s' = tx_next s /\ tx_ptr s' = tx_ptr s.
Proof.
  revert i s. induction n as [|n IH]; intros i s Hn Hret.
  - exists s. cbn. rewrite (take_ge (mbufs s)), drop_ge, app_nil_r by lia. cbn. by rewrite !app_nil_r.
  - cbn. destruct (mbufs s !! i) as [b|] eqn:Hb; [|apply lookup_ge_None in Hb; lia].
    rewrite (drop_S _ _ _ Hb). unfold occupied in *. destruct (Z.eqb_spec (pkt b) 0) as [Hz | Hz]; cbn [negb].
    + destruct (IH (S i) s) as (s' & -> & M & R & V & N & P); [lia|done|]. exists s'. split; [done|].
      rewrite filter_cons_False by lia. rewrite M, R. split_and!; try done.
      rewrite (take_S_r _ _ _ Hb). rewrite <- app_assoc. f_equal. cbn. f_equal.
      destruct b as [bp br]. pose proof (returnable_lookup _ _ _ Hret Hb) as Hb'. cbn in *. unfold no_pkt. f_equal; lia.
    + pose proof (returnable_lookup _ _ _ Hret Hb) as Hb'. unfold call_return. rewrite (proj2 (Z.eqb_neq (returnTxBuffer b) 0)) by tauto.
      cbn [mbind res_bind]. match goal with |- context [reset_loop n (S i) ?t] => destruct (IH (S i) t) as (s' & -> & M & R & V & N & P) end.
      * cbn. rewrite length_insert. lia.
      * cbn. apply Forall_insert; done.
      * exists s'. split; [done|]. rewrite M, R, filter_cons_True by done. cbn. split_and!; try done.
        -- rewrite (take_S_r _ _ no_pkt) by (apply list_lookup_insert_eq; by eapply lookup_lt_Some).
           rewrite take_insert_ge by lia. by rewrite <- app_assoc.
        -- rewrite drop_insert_lt by lia. by rewrite <- app_assoc.
Qed.

Lemma chain_links_rep : queue_rep chain_links full_queue (seq 0 16).
Proof. unfold queue_rep, Zlen. vm_compute. repeat split; done. Qed.

Lemma init_wf s :
  length (tx_ptr s) = 16%nat -> length (mbufs s) = 16%nat ->
  wf (init_queues s) (fun w => if decide (w = Free) then seq 0 16 else []) [].
Proof.
  intros. split; try done. intros w. destruct w; cbn; [apply chain_links_rep| |]; by unfold queue_rep, Zlen.
Qed.

Lemma mli_ResetTxData_refines s a :
  implements s a -> returnable (sp_mbufs a) ->
  exists s', mli_ResetTxData s = Ok s' /\ implements s' (spec_reset a).
Proof.
  intros (ls & W & _ & _ & Hm & He & Hr) Hret. rewrite <- Hm in Hret. unfold mli_ResetTxData.
  destruct (reset_loop_spec 16 0 s) as (s' & Hs & M & R & V & N & P); [by rewrite (wf_mbufs _ _ _ W)|done|].
  change (Z.to_nat SDK_MAX_TX_Q) with 16%nat. rewrite Hs. cbn [mbind res_bind]. eexists. split; [done|].
  eexists. split; [apply init_wf|].
  - rewrite P. apply W.
  - by rewrite M.
  - cbn. rewrite M, R, V, He, Hr, Hm. done.
Qed.

(** After the start nothing is queued. *)
Definition spec_init : spec := mkSpec (replicate 16 no_pkt) [] [] (mkEvents false false false false) [].

Lemma mli_appInterfaceInit_implements {X} (init : X -> res (Z * X)) x st x' :
  init x = Ok (st, x') ->
  exists s, mli_appInterfaceInit TX_SUCCESS TX_SUCCESS init x tx_static = Ok (st, x', s) /\ implements s spec_init.
Proof.
  intros H. unfold mli_appInterfaceInit. cbn [negb Z.eqb TX_SUCCESS]. rewrite H. eexists. split; [done|].
  eexists. split; [apply events_wf, init_wf; done|]. done.
Qed.

(** ** The dispatcher *)

Section main.
Context {X : Type} (run : Z -> Z -> X -> res (verdict Z * X)) (h : handlers) (f : Z -> X -> option Z * X).

(** The handlers return. *)
Hypothesis handlers_ok : forall p x, mli_PreProcessRxPacket run h p x = Ok (f p x).

Lemma dispatch_loop_spec n s ls x :
  wf s ls [] -> (length (ls Global) < n)%nat ->
  exists s' ls', let '(r, g, x') := spec_dispatch f (packets s (ls Global)) x in
    dispatch_loop run h n s x = Ok (default 0 r, s', x') /\ wf s' ls' [] /\
    packets s' (ls' Global) = g /\ ls' Wlan = ls Wlan /\ (r <> None -> ls' Free <> []) /\
    tx_ptr s' = tx_ptr s /\ mbufs s' = mbufs s /\ evs s' = evs s /\ returned s' = returned s.
Proof.
  revert n s ls x. induction n as [|n IH]; intros s ls x W Hn; [lia|]. cbn [dispatch_loop].
  destruct (ls Global) as [|e l] eqn:E.
  - destruct (dequeue_nil Global s ls [] W E) as (q & m & -> & W1). eexists _, ls. cbn. rewrite E. done.
  - destruct (move_to_free Global s ls e l W E) as (s1 & s2 & ls' & -> & -> & -> & W2 & L & Lo & Lf & P & M & V & R); [done|].
    cbn [mbind res_bind]. rewrite handlers_ok. cbn [packets fmap list_fmap spec_dispatch].
    destruct (f (default 0 (tx_ptr s !! e)) x) as [r x1] eqn:Hf. cbn [mbind res_bind].
    change (match r with Some p => p | None => 0 end) with (default 0 r).
    destruct (Z.eqb_spec (default 0 r) 0) as [Hz | Hnz]; cbn [negb]; cycle 1.
    + eexists s2, ls'. cbn. unfold packets. rewrite P, L, Lo by done. done.
    + destruct (IH s2 ls' x1) as (s' & ls2 & H2); [done|rewrite L; cbn in Hn; lia|].
      exists s', ls2. rewrite L in H2. unfold packets in *. rewrite P in H2.
      destruct (spec_dispatch f _ x1) as [[r2 g] x2]. destruct H2 as (? & ? & ? & L2 & ? & P2 & M2 & V2 & R2).
      rewrite P2 in *. rewrite M2, V2, R2, L2, M, V, R, Lo by done. done.
Qed.

Lemma spec_dispatch_nonzero g x q g' x' : spec_dispatch f g x = (Some q, g', x') -> q <> 0.
Proof.
  revert x. induction g as [|p g IH]; [done|]. intros x. cbn. destruct (f p x) as [r x1].
  destruct (Z.eqb_spec (default 0 r) 0) as [Hz | Hnz]; [apply IH|]. by intros [= <- _ _].
Qed.

Lemma mli_TX_Main_refines s a x :
  implements s a -> exists s', mli_TX_Main run h s x = Ok (s', (spec_main f a x).2) /\ implements s' (spec_main f a x).1.
Proof.
  intros I. destruct (I) as (ls & W & Hg & Hw & Hm & He & Hr). unfold mli_TX_Main, spec_main. rewrite <- He.
  destruct (ev_tx (evs s)); cbn [negb]; [|by exists s].
  destruct (wf_rep _ _ _ W Global) as (_ & _ & Hlen & _). cbn [queue_of] in Hlen. rewrite Hlen. unfold Zlen. rewrite Nat2Z.id.
  destruct (dispatch_loop_spec (S (length (ls Global))) (with_events clear_tx s) ls x) as (s1 & ls1 & H1); [by apply events_wf|lia|].
  change (packets (with_events clear_tx s) (ls Global)) with (packets s (ls Global)) in H1. rewrite Hg in H1.
  destruct (spec_dispatch f (sp_global a) x) as [[r g] x1] eqn:Hd.
  destruct H1 as (-> & W1 & P1 & L1 & F1 & T1 & M1 & V1 & R1). cbn [mbind res_bind].
  assert (Pw : packets s1 (ls1 Wlan) = sp_wlan a) by (by rewrite L1, <- Hw; unfold packets; rewrite T1).
  destruct r as [q|]; cbn [default option_rect].
  - assert (Hq : q <> 0) by exact (spec_dispatch_nonzero _ _ _ _ _ Hd).
    cbn. rewrite (proj2 (Z.eqb_neq q 0)) by done. cbn [negb].
    destruct (ls1 Free) as [|e l] eqn:E; [by destruct F1|].
    destruct (move_free q Wlan s1 ls1 e l W1 E) as (s2 & s3 & ls3 & -> & H3 & W3 & P3 & P3' & M3 & V3 & R3); [done|].
    cbn [mbind res_bind]. rewrite H3. eexists. split; [done|]. exists ls3. split; [by apply events_wf|]. cbn.
    rewrite M3, V3, R3, M1, V1, R1, <- Pw, <- P1. cbn. rewrite Hm, Hr. split_and!; try done. by apply P3'.
  - cbn. eexists. split; [done|]. exists ls1. split; [done|]. cbn. rewrite P1, Pw, M1, V1, R1. cbn. by rewrite Hm, Hr.
Qed.
End main.
End refinement.
