(* ===== verification/TxQueueRun.v ===== *)
(** * The transmit path with its tasks interleaved (mli.c)

    Callers of [mli_TxDataEnqueue], the dispatcher task, the WLAN driver and those
    who report packets as sent share the three queues and [mbufs].  A [machine] is
    the shared state and where each of them is; a [step] of one of them is one call
    of [getq] or [putq], one critical section, one call of a return function or one
    event trigger, so a run is any interleaving of their operations.  That a call of
    [getq] or [putq] is one step is an assumption on the firmware: queue.h does not
    promise it, and mli.c relies on it, since it makes these calls from several tasks
    outside its critical sections.  A reset is not a step. *)
From S2P Require Import Prelude.
From S2P Require Import Buffer.
From S2P Require Import Sys.
From S2P Require Import SdkQueue.
From S2P Require Import TxQueue.
From S2P Require Import TxQueueSpec.
From stdpp Require Import sets.
#[local] Open Scope Z_scope.

(** [mli_TX_Main]: in the wait, before [getq] on the global queue, with an element
    from it, at the handlers with its packet, before [getq] on the free queue, with
    an element for the driver, before the trigger. *)
Inductive main_pc := M_wait | M_loop | M_hold (e : nat) | M_run (p : Z) | M_have (p : Z) | M_put (e : nat) | M_signal.

(** [mli_TxDataEnqueue], after its critical section; [raw]: the packet goes to the
    driver at once. *)
Inductive caller_pc := E_have (raw : bool) (p : Z) | E_put (raw : bool) (e : nat) | E_signal (raw : bool).

(** [mli_getTxPktforWlan] *)
Inductive driver_pc := D_idle | D_put (e : nat) | D_signal.

(** [clearing]: the places of [mbufs] whose packet was returned and which
    [mli_HandleTxDone] is about to clear. *)
Record machine := mkMachine {
  sh : tx; main_at : main_pc; callers : list caller_pc; driver_at : driver_pc; clearing : list nat }.

(** Who moves next.  [A_main vs]: the dispatcher, where [vs] is what the transmit
    handlers return when it is at them; [A_done p]: [mli_HandleTxDone] is called for
    [p], up to its critical section, which is [A_clear]. *)
Inductive action :=
  | A_main (vs : list (verdict Z))
  | A_call (p ret : Z) (raw : bool)
  | A_caller (i : nat)
  | A_driver
  | A_done (p : Z)
  | A_clear (j : nat).

(** The loop over the handlers, with the packet that is left; 0 is NULL. *)
Fixpoint traverse (vs : list (verdict Z)) (p : Z) : Z :=
  match vs with
  | [] => p
  | NOT_MY_PKT :: vs => traverse vs p
  | PKT_NULL :: _ => 0
  | PKT q :: vs => traverse vs q
  end.

Section steps.
Context {ops : queue_ops}.

Definition main_step (vs : list (verdict Z)) (s : tx) (pc : main_pc) : res (tx * main_pc) :=
  match pc with
  | M_wait => Ok (if ev_tx (evs s) then (with_events clear_tx s, M_loop) else (s, M_wait))
  | M_loop => let '(e, s) := dequeue Global s in Ok (s, match e with Some e => M_hold e | None => M_wait end)
  | M_hold e => p ← ptr_of e s; Ok (enqueue Free e s, M_run p)
  | M_run p => let p := traverse vs p in Ok (s, if negb (p =? 0) then M_have p else M_loop)
  | M_have p => '(e, s) ← take_free p s; Ok (s, M_put e)
  | M_put e => Ok (enqueue Wlan e s, M_signal)
  | M_signal => Ok (with_events trigger_wlan s, M_wait)
  end.

Definition call_step (p ret : Z) (raw : bool) (s : tx) (cs : list caller_pc) : res (tx * list caller_pc) :=
  let '(bindex, s) := reserve p ret s in
  if SDK_MAX_TX_Q <=? bindex then s ← call_return ret p s; Ok (s, cs)
  else Ok (s, E_have raw p :: cs).

Definition caller_step (c : caller_pc) (s : tx) : res (tx * list caller_pc) :=
  match c with
  | E_have raw p => '(e, s) ← take_free p s; Ok (s, [E_put raw e])
  | E_put raw e => Ok (enqueue (dest raw) e s, [E_signal raw])
  | E_signal raw => Ok (with_events (notify raw) s, [])
  end.

Definition driver_step (s : tx) (pc : driver_pc) : tx * driver_pc :=
  match pc with
  | D_idle => let '(e, s) := dequeue Wlan s in (s, match e with Some e => D_put e | None => D_signal end)
  | D_put e => (enqueue Free e s, D_signal)
  | D_signal => (with_events trigger_tx s, D_idle)
  end.

(** The search and the return of the packet, and the critical section. *)
Definition done_step (p : Z) (s : tx) (cl : list nat) : res (tx * list nat) :=
  match spot_of p (mbufs s) with
  | None => Ok (s, cl)
  | Some i =>
      match mbufs s !! i with
      | None => Fault
      | Some b => s ← call_return (returnTxBuffer b) (pkt b) s; Ok (s, i :: cl)
      end
  end.

Definition clear_step (i : nat) (s : tx) : tx := with_mbufs (<[i := no_pkt]> (mbufs s)) s.

Definition step (a : action) (m : machine) : res machine :=
  match a with
  | A_main vs =>
      '(s, pc) ← main_step vs (sh m) (main_at m);
      Ok (mkMachine s pc (callers m) (driver_at m) (clearing m))
  | A_call p ret raw =>
      '(s, cs) ← call_step p ret raw (sh m) (callers m);
      Ok (mkMachine s (main_at m) cs (driver_at m) (clearing m))
  | A_caller i =>
      match callers m !! i with
      | None => Ok m
      | Some c =>
          '(s, cs) ← caller_step c (sh m);
          Ok (mkMachine s (main_at m) (cs ++ delete i (callers m)) (driver_at m) (clearing m))
      end
  | A_driver =>
      let '(s, pc) := driver_step (sh m) (driver_at m) in
      Ok (mkMachine s (main_at m) (callers m) pc (clearing m))
  | A_done p =>
      '(s, cl) ← done_step p (sh m) (clearing m);
      Ok (mkMachine s (main_at m) (callers m) (driver_at m) cl)
  | A_clear j =>
      match clearing m !! j with
      | None => Ok m
      | Some i => Ok (mkMachine (clear_step i (sh m)) (main_at m) (callers m) (driver_at m) (delete j (clearing m)))
      end
  end.

Fixpoint run_steps (l : list action) (m : machine) : res machine :=
  match l with
  | [] => Ok m
  | a :: l => m ← step a m; run_steps l m
  end.
End steps.

Definition idle (s : tx) : machine := mkMachine s M_wait [] D_idle [].

(** The tasks after [mli_appInterfaceInit]. *)
Definition start : machine := idle (init_queues tx_static).

(** ** Without interleaving the steps are the functions *)

Section whole.
Context {ops : queue_ops}.

Lemma call_is_enqueue p ret w w' type s s' :
  fix_multicast w = Ok w' -> rd w' o_TxPacketType = Ok type ->
  mli_TxDataEnqueue p ret w s = Ok (w', s') ->
  run_steps [A_call p ret (type =? RAW_DATA); A_caller 0; A_caller 0; A_caller 0] (idle s) = Ok (idle s').
Proof.
  intros Hf Ht. unfold mli_TxDataEnqueue. rewrite Hf. cbn [mbind res_bind run_steps step idle sh callers]. unfold call_step.
  destruct (reserve p ret s) as [b s1]. destruct (SDK_MAX_TX_Q <=? b).
  - destruct (call_return ret p s1) as [s2| |]; cbn; [|done..]. by intros [= ->].
  - destruct (take_free p s1) as [[e s2]| |] eqn:E; cbn [mbind res_bind]; [|done..]. rewrite Ht. cbn. rewrite E. cbn.
    destruct (type =? RAW_DATA); cbn; by intros [= ->].
Qed.

Lemma driver_is_get s p s' :
  mli_getTxPktforWlan s = Ok (p, s') ->
  exists n, run_steps (replicate n A_driver) (idle s) = Ok (idle s').
Proof.
  unfold mli_getTxPktforWlan. intros H. destruct (dequeue Wlan s) as [[e|] s1] eqn:E.
  - exists 3%nat. cbn. rewrite E. cbn. destruct (ptr_of e s1); cbn in H; [|done..]. by injection H as _ <-.
  - exists 2%nat. cbn. rewrite E. cbn. by injection H as _ <-.
Qed.

Lemma done_is_handle p s s' :
  mli_HandleTxDone p s = Ok s' -> run_steps [A_done p; A_clear 0] (idle s) = Ok (idle s').
Proof.
  unfold mli_HandleTxDone. cbn. unfold done_step. destruct (spot_of p (mbufs s)) as [i|]; [|by intros [= ->]].
  destruct (mbufs s !! i) as [b|]; [|done]. destruct (call_return (returnTxBuffer b) (pkt b) s); cbn; [|done..]. by intros [= <-].
Qed.

Lemma run_steps_app l1 l2 m m' : run_steps l1 m = Ok m' -> run_steps (l1 ++ l2) m = run_steps l2 m'.
Proof.
  revert m. induction l1 as [|a l1 IH]; intros m H; cbn in *; [by injection H as ->|].
  destruct (step a m); cbn in *; [by apply IH|done..].
Qed.

(** The handlers of the table return some verdicts, and [traverse] goes over them. *)
Lemma preprocess_traverse {X} (run : Z -> Z -> X -> res (verdict Z * X)) n hs : forall i p x r x',
  preprocess_loop run n hs i p x = Ok (r, x') -> exists vs, traverse vs p = default 0 r.
Proof.
  induction n as [|n IH]; intros i p x r x' H; cbn in H; [injection H as <- <-; by exists []|].
  destruct (hs !! i) as [g|]; [|done]. destruct (g =? 0); [done|]. inv_bind. destruct x0 as [v x1]. destruct v as [| |q].
  - apply IH in H as [vs H]. by exists (NOT_MY_PKT :: vs).
  - injection H as <- <-. by exists [PKT_NULL].
  - apply IH in H as [vs H]. by exists (PKT q :: vs).
Qed.

Lemma dispatch_is_main {X} (run : Z -> Z -> X -> res (verdict Z * X)) h fuel : forall s x p s' x',
  dispatch_loop run h fuel s x = Ok (p, s', x') ->
  exists l, run_steps (A_main <$> l) (mkMachine s M_loop [] D_idle []) =
    Ok (mkMachine s' (if negb (p =? 0) then M_have p else M_wait) [] D_idle []).
Proof.
  induction fuel as [|fuel IH]; intros s x p s' x' H; cbn in H; [done|].
  destruct (dequeue Global s) as [[e|] s1] eqn:E.
  2: { injection H as <- <- <-. exists [[]]. cbn. by rewrite E. }
  inv_bind. inv_bind. rename x0 into q. destruct x1 as [r x1]. apply preprocess_traverse in Hx0 as [vs Hv].
  assert (HS : forall m, m = mkMachine (enqueue Free e s1) (if negb (traverse vs q =? 0) then M_have (traverse vs q) else M_loop) [] D_idle [] ->
    run_steps (A_main <$> [[]; []; vs]) (mkMachine s M_loop [] D_idle []) = Ok m).
  { intros m ->. cbn. rewrite E. cbn. rewrite Hx. cbn. done. }
  rewrite Hv in HS. change (match r with Some p => p | None => 0 end) with (default 0 r) in H.
  destruct (Z.eqb_spec (default 0 r) 0) as [Hz | Hz]; cbn [negb] in H, HS.
  - apply IH in H as [l H]. exists ([[]; []; vs] ++ l). rewrite fmap_app. erewrite run_steps_app by (by apply HS). exact H.
  - injection H as <- <- <-. rewrite (proj2 (Z.eqb_neq _ _) Hz). exists [[]; []; vs]. by apply HS.
Qed.

Lemma main_is_TX_Main {X} (run : Z -> Z -> X -> res (verdict Z * X)) h s x s' x' :
  mli_TX_Main run h s x = Ok (s', x') -> exists l, run_steps (A_main <$> l) (idle s) = Ok (idle s').
Proof.
  unfold mli_TX_Main, idle. destruct (ev_tx (evs s)) eqn:E; cbn [negb].
  2: { intros [= <- <-]. exists [[]]. cbn. by rewrite E. }
  intros H. inv_bind. destruct x0 as [[p s1] x1]. apply dispatch_is_main in Hx as [l Hl].
  assert (H1 : run_steps (A_main <$> ([[]] ++ l)) (mkMachine s M_wait [] D_idle []) =
    Ok (mkMachine s1 (if negb (p =? 0) then M_have p else M_wait) [] D_idle [])) by (cbn; rewrite E; exact Hl).
  destruct (negb (p =? 0)).
  - inv_bind. destruct x0 as [e s2]. injection H as <- <-. exists (([[]] ++ l) ++ [[]; []; []]).
    rewrite fmap_app. erewrite run_steps_app by exact H1. cbn. rewrite Hx. done.
  - injection H as <- <-. by exists ([[]] ++ l).
Qed.
End whole.

(** ** The invariant *)

(** The elements a task holds, and the packets it has without an element. *)
Definition main_holds (pc : main_pc) : list nat := match pc with M_hold e | M_put e => [e] | _ => [] end.
Definition main_has (pc : main_pc) : list Z := match pc with M_run p | M_have p => [p] | _ => [] end.
Definition caller_holds (c : caller_pc) : list nat := match c with E_put _ e => [e] | _ => [] end.
Definition caller_has (c : caller_pc) : list Z := match c with E_have _ p => [p] | _ => [] end.
Definition driver_holds (pc : driver_pc) : list nat := match pc with D_put e => [e] | _ => [] end.

Definition held (m : machine) : list nat := main_holds (main_at m) ++ driver_holds (driver_at m) ++ (callers m ≫= caller_holds).
Definition waiting (m : machine) : list Z := main_has (main_at m) ++ (callers m ≫= caller_has).

(** How many packets are on their way. *)
Definition in_flight (m : machine) : Z :=
  q_len (globalq (sh m)) + q_len (wlanq (sh m)) + Zlen (held m) + Zlen (waiting m).

Definition places (s : tx) : list sdkretbuff := occupied (mbufs s).

(** The queues [ls], the elements [H] out of them, the packets [R] without an
    element and the places [C] about to be cleared: there are not more packets on
    their way than places that stay. *)
Record balanced (s : tx) (ls : which -> list nat) (H : list nat) (R : list Z) (C : list nat) : Prop := {
  b_wf : wf s ls H;
  b_live : (length (ls Global) + length (ls Wlan) + length H + length R + length C <= length (places s))%nat;
  b_nodup : NoDup C;
  b_clear : forall i, i ∈ C -> exists b, mbufs s !! i = Some b /\ pkt b <> 0;
  b_ret : returnable (mbufs s) }.

Definition inv (m : machine) (ls : which -> list nat) : Prop := balanced (sh m) ls (held m) (waiting m) (clearing m).

(** Callers pass packets.  A packet is reported as sent once, and when there are
    fewer packets on their way than places taken: a place answers for its packet, or
    for the one a handler put in its stead, until that has left the queues. *)
Definition allowed (m : machine) (a : action) : Prop :=
  match a with
  | A_done p =>
      p <> 0 /\
      match spot_of p (mbufs (sh m)) with
      | None => True
      | Some i => (i ∉ clearing m) /\ in_flight m + Zlen (clearing m) < Zlen (places (sh m))
      end
  | A_call p ret _ => p <> 0 /\ ret <> 0
  | _ => True
  end.

(** ** The steps on the shared state keep the balance *)

Lemma balanced_perm s ls H H' R R' C : H ≡ₚ H' -> R ≡ₚ R' -> balanced s ls H R C -> balanced s ls H' R' C.
Proof.
  intros HH HR [W L ? ? ?]. split; [|by rewrite <- (Permutation_length HH), <- (Permutation_length HR)|done..].
  destruct W. split; try done. by rewrite <- HH.
Qed.

Lemma balanced_weaken s ls H p R C : balanced s ls H (p :: R) C -> balanced s ls H R C.
Proof. intros [W L ? ? ?]. cbn in L. split; [done|lia|done..]. Qed.

(** The handlers may put another packet in the stead of one. *)
Lemma balanced_replace s ls H p q R C : balanced s ls H (p :: R) C -> balanced s ls H (q :: R) C.
Proof. by intros []. Qed.

Lemma balanced_events f s ls H R C : balanced s ls H R C -> balanced (with_events f s) ls H R C.
Proof. intros [W L ? ? ?]. split; [by apply events_wf|done..]. Qed.

Lemma places_bound s : (length (places s) <= length (mbufs s))%nat.
Proof. apply length_filter. Qed.

(** A packet without an element finds one. *)
Lemma balanced_free s ls H p R C : balanced s ls H (p :: R) C -> exists e l, ls Free = e :: l.
Proof.
  intros [W L _ _ _]. apply (free_nonempty s ls H W). pose proof (places_bound s). rewrite (wf_mbufs _ _ _ W) in *. cbn in L. lia.
Qed.

Section shared.
Context {ops : queue_ops} {laws : queue_laws}.

Lemma balanced_dequeue w s ls H R C :
  balanced s ls H R C -> w <> Free ->
  (exists s', dequeue w s = (None, s') /\ ls w = [] /\ balanced s' ls H R C /\ evs s' = evs s) \/
  (exists e l s', dequeue w s = (Some e, s') /\ ls w = e :: l /\ balanced s' (upd w l ls) (e :: H) R C /\ evs s' = evs s).
Proof.
  intros [W L ? ? ?] Hw. destruct (ls w) as [|e l] eqn:E.
  - left. destruct (dequeue_nil w s ls H W E) as (q & m & Hd & W'). eexists. split; [exact Hd|]. done.
  - right. destruct (dequeue_cons w s ls H e l W E) as (q & m & Hd & W'). do 3 eexists. split; [exact Hd|].
    split; [done|]. split; [|done]. split; [done| |done..].
    destruct w; [done|..]; rewrite E in L; rewrite upd_same, upd_other by done; change (places (with_queue _ q m s)) with (places s); cbn in *; lia.
Qed.

Lemma balanced_enqueue w e s ls H R C :
  balanced s ls (e :: H) R C -> w <> Free ->
  balanced (enqueue w e s) (upd w (ls w ++ [e]) ls) H R C /\ evs (enqueue w e s) = evs s.
Proof.
  intros [W L ? ? ?] Hw. destruct (enqueue_wf w s ls H e W) as (q & m & -> & W'). split; [|done]. split; [done| |done..].
  destruct w; [done|..]; rewrite upd_same, upd_other by done; rewrite length_app; change (places (with_queue _ q m s)) with (places s); cbn in *; lia.
Qed.

(** An element back in the free queue leaves its packet without one. *)
Lemma balanced_release e s ls H R C :
  balanced s ls (e :: H) R C ->
  exists p, ptr_of e s = Ok p /\ balanced (enqueue Free e s) (upd Free (ls Free ++ [e]) ls) H (p :: R) C /\
    evs (enqueue Free e s) = evs s.
Proof.
  intros [W L ? ? ?]. eexists. split; [eapply ptr_of_packet; [exact W|set_solver]|].
  destruct (enqueue_wf Free s ls H e W) as (q & m & -> & W'). split; [|done]. split; [done| |done..].
  rewrite !upd_other by done. change (places (with_queue _ q m s)) with (places s). cbn in *. lia.
Qed.

Lemma balanced_take_free p s ls H R C :
  balanced s ls H (p :: R) C ->
  exists e l s', take_free p s = Ok (e, s') /\ balanced s' (upd Free l ls) (e :: H) R C /\ evs s' = evs s.
Proof.
  intros B. destruct (balanced_free _ _ _ _ _ _ B) as (e & l & E). destruct B as [W L ? ? ?].
  destruct (take_free_wf p s ls H e l W E) as (q & m & Ht & W'). do 3 eexists. split; [exact Ht|]. split; [|done].
  split; [done| |done..]. rewrite !upd_other by done. change (places (with_ptr _ _)) with (places s). cbn in *. lia.
Qed.
End shared.

(** ** Places *)

Lemma occupied_insert l i b b' :
  l !! i = Some b -> pkt b = 0 -> pkt b' <> 0 -> occupied (<[i := b']> l) ≡ₚ b' :: occupied l.
Proof.
  intros Hi Hb Hb'. unfold occupied. rewrite <- (take_drop_middle l i b Hi) at 2.
  rewrite (insert_take_drop l i b') by by eapply lookup_lt_Some.
  rewrite !filter_app, filter_cons_True, filter_cons_False by (done || lia). solve_Permutation.
Qed.

Lemma occupied_clear l i b :
  l !! i = Some b -> pkt b <> 0 -> occupied l ≡ₚ b :: occupied (<[i := no_pkt]> l).
Proof.
  intros Hi Hb. rewrite <- (occupied_insert (<[i := no_pkt]> l) i no_pkt b); [|by apply list_lookup_insert_eq; eapply lookup_lt_Some|done|done].
  by rewrite list_insert_insert_eq, list_insert_id.
Qed.

Lemma free_spot_free l : (free_spot l < length l)%nat -> exists b, l !! free_spot l = Some b /\ pkt b = 0.
Proof.
  induction l as [|b l IH]; cbn; [lia|]. destruct (pkt b =? 0) eqn:E.
  - intros _. exists b. split; [done|lia].
  - intros H. apply IH. lia.
Qed.

Lemma balanced_done p s ls H R C :
  balanced s ls H R C -> p <> 0 ->
  match spot_of p (mbufs s) with
  | None => True
  | Some i => (i ∉ C) /\ (length (ls Global) + length (ls Wlan) + length H + length R + length C < length (places s))%nat
  end ->
  exists s' C', done_step p s C = Ok (s', C') /\ balanced s' ls H R C' /\ evs s' = evs s.
Proof.
  intros [W L Nd Cl B] Hp Hout. unfold done_step. destruct (spot_of p (mbufs s)) as [i|] eqn:E; [|by exists s, C].
  destruct Hout as [Hi Hlt]. destruct (spot_of_some _ _ _ E) as (b & Hb & Hpb). rewrite Hb.
  pose proof (returnable_lookup _ _ _ B Hb) as Hret.
  unfold call_return. rewrite (proj2 (Z.eqb_neq (returnTxBuffer b) 0)) by lia. cbn [mbind res_bind].
  do 2 eexists. split; [done|]. split; [|done]. split; [by destruct W|..].
  - unfold places in *. cbn [mbufs length]. lia.
  - by constructor.
  - intros j [-> | Hj]%elem_of_cons; [exists b; split; [done|lia]|by apply Cl].
  - done.
Qed.

Lemma balanced_clear j i s ls H R C :
  balanced s ls H R C -> C !! j = Some i -> balanced (clear_step i s) ls H R (delete j C).
Proof.
  intros [W L Nd Cl B] Hj. pose proof (delete_Permutation _ _ _ Hj) as HC.
  destruct (Cl i) as (b & Hb & Hpb); [by eapply list_elem_of_lookup_2|]. split.
  - destruct W. split; try done. cbn. by rewrite length_insert.
  - pose proof (Permutation_length (occupied_clear _ _ _ Hb Hpb)) as HO. rewrite (Permutation_length HC) in L.
    unfold places in *. cbn [mbufs clear_step with_mbufs length] in *. lia.
  - rewrite HC in Nd. by apply NoDup_cons in Nd as [_ Nd].
  - intros k Hk. assert (k <> i) by (intros ->; rewrite HC in Nd; by apply NoDup_cons in Nd as [? _]).
    cbn. rewrite list_lookup_insert_ne by done. apply Cl. rewrite HC. set_solver.
  - cbn. by apply Forall_insert.
Qed.

(** A packet that gets a place, and the last place, which is filled but counts as
    no place. *)
Lemma balanced_reserve p ret s ls H R C :
  balanced s ls H R C -> p <> 0 -> ret <> 0 ->
  let s' := (reserve p ret s).2 in evs s' = evs s /\
  (balanced s' ls H (p :: R) C \/ SDK_MAX_TX_Q <= (reserve p ret s).1 /\ balanced s' ls H R C).
Proof.
  intros B Hp Hret. destruct (B) as [W L Nd Cl Br]. unfold reserve. change SDK_MAX_TX_Q with 16.
  destruct (Z.ltb_spec (Z.of_nat (free_spot (mbufs s))) 16) as [Hlt | Hge]; [|by split; [|right]].
  cbn. split; [done|]. left. rewrite Nat2Z.id.
  destruct (free_spot_free (mbufs s)) as (b & Hb & Hb0); [rewrite (wf_mbufs _ _ _ W); lia|]. split.
  - destruct W. split; try done. cbn. by rewrite length_insert.
  - pose proof (Permutation_length (occupied_insert _ _ _ (mkRet p ret) Hb Hb0 Hp)) as HO. unfold places in *. cbn [mbufs with_mbufs length] in *. lia.
  - done.
  - intros j Hj. destruct (Cl j Hj) as (c & Hc & Hpc). exists c. split; [|done]. cbn. rewrite list_lookup_insert_ne; [done|].
    intros Ej. rewrite Ej in Hb. rewrite Hc in Hb. injection Hb as ->. lia.
  - cbn. apply Forall_insert; [done|]. cbn. lia.
Qed.

(** ** Wake-ups

    When the global queue has a packet and the dispatcher is not at work on it,
    the dispatcher has an event, or somebody who will trigger one is on its way:
    the driver with a packet to take or in [mli_getTxPktforWlan], or a caller. *)
Definition working (pc : main_pc) : bool := match pc with M_wait | M_signal => false | _ => true end.

Definition wake (m : machine) (ls : which -> list nat) : Prop :=
  ls Global <> [] ->
  ev_tx (evs (sh m)) = true \/ working (main_at m) = true \/ ls Wlan <> [] \/ driver_at m <> D_idle \/ E_signal false ∈ callers m.

Definition good (m : machine) (ls : which -> list nat) : Prop := inv m ls /\ wake m ls.

Section steps_ok.
Context {ops : queue_ops} {laws : queue_laws}.

(** The steps of the dispatcher; [H] and [R] belong to the others. *)
Lemma main_step_ok vs s pc ls H R C :
  balanced s ls (main_holds pc ++ H) (main_has pc ++ R) C ->
  exists s' pc' ls', main_step vs s pc = Ok (s', pc') /\
    balanced s' ls' (main_holds pc' ++ H) (main_has pc' ++ R) C /\
    (working pc' = false -> ls' Global = [] \/ ls' Wlan <> [] \/ (working pc = false /\ ls' = ls /\ ev_tx (evs s') = ev_tx (evs s))).
Proof.
  destruct pc as [| |e|p|p|e|]; cbn [main_step main_holds main_has app]; intros B.
  - destruct (ev_tx (evs s)) eqn:E; do 3 eexists; (split; [done|]); (split; [done || by apply balanced_events|]).
    + done.
    + intros _. right. right. by rewrite E.
  - destruct (balanced_dequeue Global _ _ _ _ _ B) as [(s' & -> & E & B' & V) | (e & l & s' & -> & E & B' & V)]; [done|..];
      do 3 eexists; (split; [done|]); (split; [exact B'|]); [by left|done].
  - destruct (balanced_release _ _ _ _ _ _ B) as (p & -> & B' & V). do 3 eexists. split; [done|]. split; [exact B'|done].
  - destruct (negb (traverse vs p =? 0)); do 3 eexists; (split; [done|]); (split; [|done]).
    + by eapply balanced_replace.
    + by eapply balanced_weaken.
  - destruct (balanced_take_free _ _ _ _ _ _ B) as (e & l & s' & -> & B' & V). do 3 eexists. split; [done|]. split; [exact B'|done].
  - destruct (balanced_enqueue Wlan _ _ _ _ _ _ B) as [B' V]; [done|]. do 3 eexists. split; [done|]. split; [exact B'|].
    intros _. right. left. rewrite upd_same. by destruct (ls Wlan).
  - do 3 eexists. split; [done|]. split; [by apply balanced_events|]. intros _. by right; right.
Qed.

Lemma caller_step_ok c s ls H R C :
  balanced s ls (caller_holds c ++ H) (caller_has c ++ R) C ->
  exists s' cs ls', caller_step c s = Ok (s', cs) /\ balanced s' ls' ((cs ≫= caller_holds) ++ H) ((cs ≫= caller_has) ++ R) C /\
    (ls Wlan <> [] -> ls' Wlan <> []) /\ (ev_tx (evs s) = true -> ev_tx (evs s') = true) /\
    (ls' Global = [] \/ ls' Global = ls Global \/ E_signal false ∈ cs) /\
    (c = E_signal false -> ev_tx (evs s') = true).
Proof.
  destruct c as [raw p|raw e|raw]; cbn [caller_step caller_holds caller_has app]; intros B.
  - destruct (balanced_take_free _ _ _ _ _ _ B) as (e & l & s' & -> & B' & V). do 3 eexists. split; [done|]. split; [exact B'|].
    rewrite V. split_and!; try done. right. left. by rewrite upd_other.
  - destruct (balanced_enqueue (dest raw) _ _ _ _ _ _ B) as [B' V]; [by destruct raw|]. do 3 eexists. split; [done|]. split; [exact B'|].
    rewrite V. destruct raw; cbn [dest]; rewrite upd_same, ?upd_other by done; split_and!; try done; try set_solver. by destruct (ls Wlan).
  - do 3 eexists. split; [done|]. split; [by apply balanced_events|]. destruct raw; split_and!; try done; set_solver.
Qed.

Lemma driver_step_ok s pc ls H R C :
  balanced s ls (driver_holds pc ++ H) R C ->
  exists ls', let '(s', pc') := driver_step s pc in
    balanced s' ls' (driver_holds pc' ++ H) R C /\ ls' Global = ls Global /\ (pc' = D_idle -> ev_tx (evs s') = true).
Proof.
  destruct pc as [|e|]; cbn [driver_step driver_holds app]; intros B.
  - destruct (balanced_dequeue Wlan _ _ _ _ _ B) as [(s' & -> & E & B' & V) | (e & l & s' & -> & E & B' & V)]; [done|..];
      eexists; (split; [exact B'|]); by rewrite ?upd_other.
  - destruct (balanced_release _ _ _ _ _ _ B) as (p & _ & B' & V). eexists. split; [by eapply balanced_weaken|]. by rewrite upd_other.
  - exists ls. split; [by apply balanced_events|done].
Qed.

Lemma step_main_ok vs m ls : good m ls -> exists m' ls', step (A_main vs) m = Ok m' /\ good m' ls'.
Proof.
  intros [I K]. destruct m as [s pc cs d C]. unfold inv, held, waiting in I. cbn in I.
  destruct (main_step_ok vs s pc ls _ _ _ I) as (s' & pc' & ls' & H1 & B & HW). cbn. rewrite H1. cbn.
  eexists _, ls'. split; [done|]. split; [exact B|]. unfold wake in *. cbn in *. intros Hg.
  destruct (working pc'); [by right; left|]. destruct (HW eq_refl) as [? | [? | (Hpc & -> & V)]]; [done|by do 2 right; left|].
  rewrite V, Hpc in *. tauto.
Qed.

Lemma step_caller_ok i m ls : good m ls -> exists m' ls', step (A_caller i) m = Ok m' /\ good m' ls'.
Proof.
  intros [I K]. destruct m as [s pc cs d C]. cbn. destruct (cs !! i) as [c|] eqn:Hi; [|by eexists _, ls].
  pose proof (delete_Permutation _ _ _ Hi) as Hc. unfold inv, held, waiting in I. cbn in I.
  destruct (caller_step_ok c s ls (main_holds pc ++ driver_holds d ++ (delete i cs ≫= caller_holds)) (main_has pc ++ (delete i cs ≫= caller_has)) C)
    as (s' & cs' & ls' & H1 & B & HW & HE & HG & HS).
  { eapply balanced_perm; [| |exact I]; rewrite Hc at 1; cbn; solve_Permutation. }
  rewrite H1. cbn. eexists _, ls'. split; [done|]. split.
  - unfold inv, held, waiting. cbn. eapply balanced_perm; [| |exact B]; rewrite bind_app; solve_Permutation.
  - unfold wake in *. cbn in *. intros Hg. destruct HG as [? | [HG | HG]]; [done| |set_solver].
    destruct (K ltac:(by rewrite <- HG)) as [? | [? | [? | [? | Hin]]]]; [tauto..|].
    rewrite Hc in Hin. apply elem_of_cons in Hin as [Hin | Hin]; [by left; apply HS|set_solver].
Qed.

Lemma step_driver_ok m ls : good m ls -> exists m' ls', step A_driver m = Ok m' /\ good m' ls'.
Proof.
  intros [I K]. destruct m as [s pc cs d C]. unfold inv, held, waiting in I. cbn in I.
  destruct (driver_step_ok s d ls (main_holds pc ++ (cs ≫= caller_holds)) (main_has pc ++ (cs ≫= caller_has)) C) as (ls' & H1).
  { eapply balanced_perm; [|reflexivity|exact I]. solve_Permutation. }
  cbn. destruct (driver_step s d) as [s' d']. destruct H1 as (B & HG & HD). eexists _, ls'. split; [done|]. split.
  - unfold inv, held, waiting. cbn. eapply balanced_perm; [|reflexivity|exact B]. solve_Permutation.
  - unfold wake in *. cbn in *. intros Hg. destruct d'; [left; by apply HD|..]; by do 3 right; left.
Qed.

Lemma step_call_ok p ret raw m ls :
  good m ls -> p <> 0 -> ret <> 0 -> exists m' ls', step (A_call p ret raw) m = Ok m' /\ good m' ls'.
Proof.
  intros [I K] Hp Hret. destruct m as [s pc cs d C]. unfold inv in I. cbn. unfold call_step.
  destruct (balanced_reserve p ret s ls _ _ _ I Hp Hret) as [V B]. cbn [sh] in *. destruct (reserve p ret s) as [b s'].
  cbn [fst snd] in *. unfold call_return. rewrite (proj2 (Z.eqb_neq ret 0) Hret).
  destruct (Z.leb_spec SDK_MAX_TX_Q b) as [Hb | Hb]; cbn [mbind res_bind]; eexists _, ls; (split; [done|]); split.
  - assert (B' : balanced s' ls (held (mkMachine s pc cs d C)) (waiting (mkMachine s pc cs d C)) C).
    { destruct B as [B | [_ B]]; [by eapply balanced_weaken|done]. }
    destruct B' as [W L ? ? ?]. by split; [destruct W|..].
  - unfold wake in *. cbn in *. by rewrite V.
  - destruct B as [B | [? _]]; [|lia]. unfold inv, held, waiting in *. cbn in *.
    eapply balanced_perm; [reflexivity| |exact B]. solve_Permutation.
  - unfold wake in *. cbn in *. rewrite V. set_solver.
Qed.

Lemma step_done_ok p m ls : good m ls -> allowed m (A_done p) -> exists m' ls', step (A_done p) m = Ok m' /\ good m' ls'.
Proof.
  intros [I K] [Hp Hout]. destruct m as [s pc cs d C]. unfold inv in I. cbn in *.
  destruct (balanced_done p s ls _ _ _ I Hp) as (s' & C' & -> & B & V).
  - destruct (spot_of p (mbufs s)); [|done]. destruct Hout as [? Hlt]. split; [done|]. unfold in_flight in Hlt. cbn [sh] in Hlt.
    destruct (wf_rep _ _ _ (b_wf _ _ _ _ _ I) Global) as (_ & _ & E1 & _). destruct (wf_rep _ _ _ (b_wf _ _ _ _ _ I) Wlan) as (_ & _ & E2 & _).
    cbn in E1, E2. rewrite E1, E2 in Hlt. unfold Zlen in Hlt. lia.
  - cbn. eexists _, ls. split; [done|]. split; [exact B|]. unfold wake in *. cbn in *. by rewrite V.
Qed.

Lemma step_clear_ok j m ls : good m ls -> exists m' ls', step (A_clear j) m = Ok m' /\ good m' ls'.
Proof.
  intros [I K]. cbn. destruct (clearing m !! j) as [i|] eqn:E; [|by exists m, ls]. eexists _, ls. split; [done|].
  split; [by apply balanced_clear|done].
Qed.

Lemma step_good a m ls : good m ls -> allowed m a -> exists m' ls', step a m = Ok m' /\ good m' ls'.
Proof.
  intros G A. destruct a; cbn [allowed] in A.
  - by apply step_main_ok with ls.
  - destruct A. by apply step_call_ok with ls.
  - by apply step_caller_ok with ls.
  - by apply step_driver_ok with ls.
  - by apply step_done_ok with ls.
  - by apply step_clear_ok with ls.
Qed.

Inductive reachable : machine -> Prop :=
  | reachable_start : reachable start
  | reachable_step m a m' : reachable m -> allowed m a -> step a m = Ok m' -> reachable m'.

Lemma start_good : good start (fun w => if decide (w = Free) then seq 0 16 else []).
Proof. split; [|by intros []]. split; [by apply init_wf|vm_compute; lia|constructor|set_solver|]. cbn. repeat constructor. Qed.

Lemma reachable_good m : reachable m -> exists ls, good m ls.
Proof.
  induction 1 as [|m a m' _ (ls & G) A E].
  - eexists. apply start_good.
  - destruct (step_good a m ls G A) as (m2 & ls' & E2 & G'). rewrite E in E2. injection E2 as <-. by exists ls'.
Qed.


End steps_ok.

(** ** Concrete runs *)

(** Steps that may be taken, one after the other. *)
Fixpoint allowed_all {ops : queue_ops} (l : list action) (m : machine) : Prop :=
  match l with
  | [] => True
  | a :: l => allowed m a /\ match step a m with Ok m => allowed_all l m | _ => False end
  end.

Lemma run_reachable {ops : queue_ops} l : forall m m', reachable m -> allowed_all l m -> run_steps l m = Ok m' -> reachable m'.
Proof.
  induction l as [|a l IH]; intros m m' R A E; cbn in *; [by injection E as <-|]. destruct A as [A1 A2].
  destruct (step a m) as [m1| |] eqn:E1; cbn in *; [|done..]. apply (IH m1); [by eapply reachable_step|done|done].
Qed.

(** Two packets are enqueued, and the dispatcher puts another packet in the stead
    of the first one and passes it on. *)
Definition demo_steps : list action :=
  [A_call 100 9 false; A_caller 0; A_caller 0; A_caller 0; A_call 200 9 false; A_caller 0; A_caller 0; A_caller 0] ++
  (A_main <$> [[]; []; []; [NOT_MY_PKT; PKT 300]; []; []; []]).

Definition demo_machine : machine := match run_steps demo_steps start with Ok m => m | _ => start end.

Lemma demo_reachable : reachable demo_machine.
Proof. apply (run_reachable demo_steps start); [constructor|by vm_compute|by vm_compute]. Qed.


