(* ===== verification/TxQueueTheorems.v ===== *)
(** * Theorems on the transmit path (mli.c)

    Any sequence of calls of the functions does what the specification of
    TxQueueSpec.v says; packets come out in the order they went in; a packet for
    the multicast group gets its link-layer address; and the packet that takes the
    last place of [mbufs] is returned twice. *)
From S2P Require Import Prelude.
From S2P Require Import Buffer.
From S2P Require Import Sys.
From S2P Require Import SysSpec.
From S2P Require Import SdkQueue.
From S2P Require Import TxQueue.
From S2P Require Import TxQueueSpec.
From S2P Require Import TxQueueRun.
From stdpp Require Import sets.
#[local] Open Scope Z_scope.

(** ** Sequences of calls *)

Inductive op := O_enqueue (p ret : Z) (w : list Z) | O_main | O_get | O_done (p : Z) | O_reset.

(** The packet goes to the driver's queue at once. *)
Definition is_raw (w : list Z) : option bool :=
  match fix_multicast w with
  | Ok w => match rd w o_TxPacketType with Ok t => Some (t =? RAW_DATA) | _ => None end
  | _ => None
  end.

Section sequences.
Context {ops : queue_ops} {X : Type} (run : Z -> Z -> X -> res (verdict Z * X)) (h : handlers) (f : Z -> X -> option Z * X).

(** A call, with the packet that [mli_getTxPktforWlan] returns. *)
Definition exec (o : op) (s : tx) (x : X) : res (list Z * tx * X) :=
  match o with
  | O_enqueue p ret w => '(_, s) ← mli_TxDataEnqueue p ret w s; Ok ([], s, x)
  | O_main => '(s, x) ← mli_TX_Main run h s x; Ok ([], s, x)
  | O_get => '(p, s) ← mli_getTxPktforWlan s; Ok ([p], s, x)
  | O_done p => s ← mli_HandleTxDone p s; Ok ([], s, x)
  | O_reset => s ← mli_ResetTxData s; Ok ([], s, x)
  end.

Fixpoint exec_all (l : list op) (s : tx) (x : X) : res (list Z * tx * X) :=
  match l with
  | [] => Ok ([], s, x)
  | o :: l =>
      '(out, s, x) ← exec o s x;
      '(outs, s, x) ← exec_all l s x;
      Ok (out ++ outs, s, x)
  end.

Definition spec_exec (o : op) (a : spec) (x : X) : list Z * spec * X :=
  match o with
  | O_enqueue p ret w => ([], spec_enqueue p ret (default false (is_raw w)) a, x)
  | O_main => let '(a, x) := spec_main f a x in ([], a, x)
  | O_get => let '(p, a) := spec_get a in ([p], a, x)
  | O_done p => ([], spec_done p a, x)
  | O_reset => ([], spec_reset a, x)
  end.

Fixpoint spec_all (l : list op) (a : spec) (x : X) : list Z * spec * X :=
  match l with
  | [] => ([], a, x)
  | o :: l =>
      let '(out, a, x) := spec_exec o a x in
      let '(outs, a, x) := spec_all l a x in
      (out ++ outs, a, x)
  end.

(** Packets and return functions are not NULL, a packet holds its headers, and a
    packet is reported as sent when fewer packets are queued than places are taken: a
    place answers for its packet, or for the one a handler put in its stead, until
    that has left the queues. *)
Definition op_ok (o : op) (a : spec) : Prop :=
  match o with
  | O_enqueue p ret w => p <> 0 /\ ret <> 0 /\ is_raw w <> None
  | O_done p =>
      p <> 0 /\ (spot_of p (sp_mbufs a) = None \/ (length (sp_global a) + length (sp_wlan a) < length (occupied (sp_mbufs a)))%nat)
  | _ => True
  end.

Fixpoint ops_ok (l : list op) (a : spec) (x : X) : Prop :=
  match l with
  | [] => True
  | o :: l => op_ok o a /\ let '(_, a, x) := spec_exec o a x in ops_ok l a x
  end.

(** ** Every queued packet has its place *)

Record fits (a : spec) : Prop := {
  fits_places : (length (sp_global a) + length (sp_wlan a) <= length (occupied (sp_mbufs a)))%nat;
  fits_size : length (sp_mbufs a) = 16%nat;
  fits_ret : returnable (sp_mbufs a) }.

(** The handlers return: they consume a packet, pass it on or put another one in
    its stead. *)
Hypothesis handlers_ok : forall p x, mli_PreProcessRxPacket run h p x = Ok (f p x).

Lemma fits_place i p ret a :
  fits a -> free_spot (sp_mbufs a) = i -> (i < 16)%nat -> p <> 0 -> ret <> 0 ->
  length (occupied (<[i := mkRet p ret]> (sp_mbufs a))) = S (length (occupied (sp_mbufs a))) /\
  returnable (<[i := mkRet p ret]> (sp_mbufs a)).
Proof.
  intros [L S R] E Hi Hp Hret. destruct (free_spot_free (sp_mbufs a)) as (b & Hb & Hb0); [lia|]. rewrite E in Hb. split.
  - by rewrite (Permutation_length (occupied_insert _ _ _ (mkRet p ret) Hb Hb0 Hp)).
  - apply Forall_insert; [done|]. cbn. lia.
Qed.

Lemma fits_enqueue p ret raw a : fits a -> p <> 0 -> ret <> 0 -> fits (spec_enqueue p ret raw a).
Proof.
  intros F Hp Hret. unfold spec_enqueue. destruct (Nat.ltb_spec (free_spot (sp_mbufs a)) 15) as [Hlt | Hge].
  - destruct (fits_place _ p ret a F eq_refl ltac:(lia) Hp Hret) as [P R]. destruct F as [L S _].
    destruct raw; split; cbn [spec_put spec_store sp_global sp_wlan sp_mbufs]; rewrite ?length_insert; try done;
      rewrite P, length_app; cbn [length]; lia.
  - destruct (Nat.ltb_spec (free_spot (sp_mbufs a)) 16) as [Hlt | Hge2]; [|by destruct F].
    destruct (fits_place _ p ret a F eq_refl ltac:(lia) Hp Hret) as [P R]. destruct F as [L S _].
    split; cbn [spec_return spec_store sp_global sp_wlan sp_mbufs]; rewrite ?length_insert; try done. lia.
Qed.

Lemma fits_get a : fits a -> fits (spec_get a).2.
Proof.
  intros [L S R]. unfold spec_get. destruct (sp_wlan a) as [|p l]; split; try done. cbn [snd sp_global sp_wlan sp_mbufs length] in *. lia.
Qed.

Lemma fits_done p a :
  fits a -> p <> 0 -> spot_of p (sp_mbufs a) = None \/ (length (sp_global a) + length (sp_wlan a) < length (occupied (sp_mbufs a)))%nat ->
  fits (spec_done p a).
Proof.
  intros [L S R] Hp Hout. unfold spec_done. destruct (spot_of p (sp_mbufs a)) as [i|] eqn:E; [|done].
  destruct (spot_of_some _ _ _ E) as (b & Hb & Hpb). rewrite Hb. destruct Hout as [? | Hlt]; [done|].
  split; cbn [spec_return spec_store sp_global sp_wlan sp_mbufs].
  - pose proof (Permutation_length (occupied_clear _ i b Hb ltac:(lia))) as HO. cbn [length] in HO. lia.
  - by rewrite length_insert.
  - by apply Forall_insert.
Qed.

Lemma spec_dispatch_length g x r g' x' :
  spec_dispatch f g x = (r, g', x') -> (match r with Some _ => 1 | None => 0 end + length g' <= length g)%nat.
Proof.
  revert x. induction g as [|p g IH]; intros x; cbn; [by intros [= <- <- <-]|].
  destruct (f p x) as [q x1]. destruct (Z.eqb_spec (default 0 q) 0) as [Hz | Hnz].
  - intros E%IH. lia.
  - intros [= <- <- <-]. lia.
Qed.

Lemma fits_main a x : fits a -> fits (spec_main f a x).1.
Proof.
  intros [L S R]. unfold spec_main. destruct (ev_tx (sp_evs a)); [|done].
  destruct (spec_dispatch f (sp_global a) x) as [[r g] x1] eqn:E. apply spec_dispatch_length in E.
  destruct r as [q|]; split; try done; cbn [fst sp_global sp_wlan sp_mbufs]; rewrite ?length_app; cbn [length]; lia.
Qed.

Lemma fits_exec o a x : fits a -> op_ok o a -> fits (spec_exec o a x).1.2.
Proof.
  intros F A. destruct o; cbn [spec_exec op_ok] in *.
  - destruct A as (? & ? & _). by apply fits_enqueue.
  - pose proof (fits_main a x F). by destruct (spec_main f a x).
  - pose proof (fits_get a F). by destruct (spec_get a).
  - destruct A. by apply fits_done.
  - split; try done. cbn. repeat constructor.
Qed.

Lemma fits_room a : fits a -> (free_spot (sp_mbufs a) < 16)%nat -> (length (sp_global a) + length (sp_wlan a) < 16)%nat.
Proof.
  intros [L S R] Hi.
  destruct (free_spot_free (sp_mbufs a)) as (b & Hb & Hb0); [lia|].
  pose proof (occupied_insert _ _ _ (mkRet 1 1) Hb Hb0 ltac:(done)) as P. apply Permutation_length in P. cbn in P.
  pose proof (length_filter (fun b => pkt b <> 0) (<[free_spot (sp_mbufs a) := mkRet 1 1]> (sp_mbufs a))) as Q.
  rewrite length_insert in Q. unfold occupied in *. lia.
Qed.

Lemma fits_init : fits spec_init.
Proof. split; try done. cbn. repeat constructor. Qed.

Context {laws : queue_laws}.

Lemma exec_refines o s a x :
  implements s a -> fits a -> op_ok o a ->
  exists s', exec o s x = Ok ((spec_exec o a x).1.1, s', (spec_exec o a x).2) /\ implements s' (spec_exec o a x).1.2.
Proof.
  intros I F A. destruct o as [p ret w| | |p|]; cbn [exec spec_exec op_ok] in *.
  - destruct A as (Hp & Hret & Hw). unfold is_raw in *. destruct (fix_multicast w) as [w'| |] eqn:Ew; [|done..].
    destruct (rd w' o_TxPacketType) as [t| |] eqn:Et; [|done..].
    destruct (mli_TxDataEnqueue_refines s a p ret w w' t I Hret (fits_room a F) Ew Et) as (s' & -> & I'). by exists s'.
  - destruct (mli_TX_Main_refines run h f handlers_ok) with s a x as (s' & -> & I').
    + done.
    + exists s'. by destruct (spec_main f a x).
  - destruct (mli_getTxPktforWlan_refines s a I) as (s' & -> & I'). exists s'. by destruct (spec_get a).
  - destruct A as [Hp _]. destruct (mli_HandleTxDone_refines s a p I (fits_ret _ F) Hp) as (s' & -> & I'). by exists s'.
  - destruct (mli_ResetTxData_refines s a I (fits_ret _ F)) as (s' & -> & I'). by exists s'.
Qed.

Lemma exec_all_refines l s a x :
  implements s a -> fits a -> ops_ok l a x ->
  exists s', exec_all l s x = Ok ((spec_all l a x).1.1, s', (spec_all l a x).2) /\ implements s' (spec_all l a x).1.2.
Proof.
  revert s a x. induction l as [|o l IH]; intros s a x I F A; [by exists s|]. cbn in *. destruct A as [A1 A2].
  destruct (exec_refines o s a x I F A1) as (s1 & -> & I1). pose proof (fits_exec o a x F A1) as F1.
  destruct (spec_exec o a x) as [[out a1] x1]. cbn in *.
  destruct (IH s1 a1 x1 I1 F1 A2) as (s2 & -> & I2). destruct (spec_all l a1 x1) as [[outs a2] x2]. by exists s2.
Qed.

Lemma start_implements : implements (init_queues tx_static) spec_init.
Proof. eexists. split; [by apply init_wf|done]. Qed.

(** C15: From the start on, a sequence of calls (enqueue, a round of the
    dispatcher, the driver's get, completion, reset) runs without a fault and does
    what two packet lists do: packets are appended when one of the first fifteen
    places is free and returned otherwise, the dispatcher moves the first one the
    handlers leave, or the one they put in its stead, the driver takes the first one,
    and completion and reset return packets to their owners.  The handlers return,
    packets and return functions are not NULL, and a packet is reported as sent when
    fewer packets are queued than places are taken. *)
Theorem transmit_path_refines l x :
  ops_ok l spec_init x ->
  exists s, exec_all l (init_queues tx_static) x = Ok ((spec_all l spec_init x).1.1, s, (spec_all l spec_init x).2) /\
    implements s (spec_all l spec_init x).1.2.
Proof. apply exec_all_refines; [apply start_implements|apply fits_init]. Qed.

(** ** First in, first out *)

Hypothesis handlers_keep : forall p x, f p x = (Some p, x).

Definition enqueue_all (ret : Z) (ps : list (Z * list Z)) : list op := (fun pw => O_enqueue pw.1 ret pw.2) <$> ps.
Definition rounds (n : nat) : list op := concat (replicate n [O_main; O_get]).

(** The specification with the packets [ps] enqueued. *)
Definition filled (ret : Z) (ps : list Z) : spec :=
  mkSpec (((fun p => mkRet p ret) <$> ps) ++ replicate (16 - length ps) no_pkt) ps []
    (mkEvents false (negb (bool_decide (ps = []))) false false) [].

Lemma free_spot_filled ret ps n :
  Forall (fun p => p <> 0) ps -> free_spot (((fun p => mkRet p ret) <$> ps) ++ replicate (S n) no_pkt) = length ps.
Proof. induction 1 as [|p ps Hp _ IH]; [done|]. cbn [fmap list_fmap app free_spot pkt length]. rewrite (proj2 (Z.eqb_neq p 0)) by done. by rewrite IH. Qed.

Lemma filled_snoc ret ps p :
  (length ps < 15)%nat -> Forall (fun p => p <> 0) ps -> spec_enqueue p ret false (filled ret ps) = filled ret (ps ++ [p]).
Proof.
  intros Hlen Hps. unfold spec_enqueue, filled. cbn [sp_mbufs]. replace (16 - length ps)%nat with (S (15 - length ps)) by lia.
  rewrite free_spot_filled by done. rewrite (proj2 (Nat.ltb_lt _ _)) by lia. unfold spec_put, spec_store, trigger_tx. cbn. f_equal.
  - rewrite length_app, fmap_app, <- app_assoc. cbn. replace (16 - (length ps + 1))%nat with (15 - length ps)%nat by lia.
    by rewrite insert_app_r_alt, length_fmap, Nat.sub_diag by (by rewrite length_fmap).
  - by destruct ps.
Qed.

Lemma spec_all_app l1 l2 a x :
  spec_all (l1 ++ l2) a x =
  let '(o1, a1, x1) := spec_all l1 a x in let '(o2, a2, x2) := spec_all l2 a1 x1 in (o1 ++ o2, a2, x2).
Proof.
  revert a x. induction l1 as [|o l1 IH]; intros a x; cbn; [by destruct (spec_all l2 a x) as [[] ]|].
  destruct (spec_exec o a x) as [[out a1] x1]. rewrite IH. destruct (spec_all l1 a1 x1) as [[o1 a2] x2].
  destruct (spec_all l2 a2 x2) as [[o2 a3] x3]. by rewrite app_assoc.
Qed.

Lemma spec_enqueue_all ret ps qs x :
  Forall (fun p => p <> 0) qs -> Forall (fun pw => pw.1 <> 0 /\ is_raw pw.2 = Some false) ps -> (length qs + length ps <= 15)%nat ->
  spec_all (enqueue_all ret ps) (filled ret qs) x = ([], filled ret (qs ++ ps.*1), x).
Proof.
  intros Hqs Hps. revert qs Hqs. induction Hps as [|[p w] ps [Hp Hw] _ IH]; intros qs Hqs Hlen; cbn [enqueue_all fmap list_fmap spec_all spec_exec].
  - by rewrite app_nil_r.
  - cbn [fst snd length] in *. rewrite Hw. cbn [default]. rewrite filled_snoc by (done || lia).
    change (list_fmap _ _ _ ps) with (enqueue_all ret ps). rewrite IH; [by rewrite <- app_assoc| |rewrite length_app; cbn; lia].
    apply Forall_app. split; [done|]. by constructor.
Qed.

(** A round hands the first packet of the global queue to the driver. *)
Lemma spec_rounds n mb ps ev_r ev_w ev_m ret x :
  Forall (fun p => p <> 0) ps -> length ps = n ->
  (spec_all (rounds n) (mkSpec mb ps [] (mkEvents ev_r true ev_w ev_m) ret) x).1.1 = ps.
Proof.
  intros Hps. revert n ev_w. induction Hps as [|p ps Hp _ IH]; intros n ev_w; destruct n as [|n]; try done.
  intros [= Hn]. cbn [rounds replicate concat app]. change (concat _) with (rounds n).
  cbn [spec_all spec_exec spec_main sp_evs ev_tx sp_global spec_dispatch]. rewrite handlers_keep. cbn [default id].
  rewrite (proj2 (Z.eqb_neq p 0)) by done. cbn. specialize (IH n true Hn).
  destruct (spec_all (rounds n) _ x) as [[o a] x']. cbn in *. by rewrite IH.
Qed.

Lemma enqueue_all_ok ret ps a x l :
  ret <> 0 -> Forall (fun pw => pw.1 <> 0 /\ is_raw pw.2 = Some false) ps ->
  (forall a x, ops_ok l a x) -> ops_ok (enqueue_all ret ps ++ l) a x.
Proof.
  intros Hret H Hl. revert a x. induction H as [|[p w] ps [Hp Hw] _ IH]; intros a x; cbn; [apply Hl|].
  split; [|apply IH]. cbn in Hw. by rewrite Hw.
Qed.

Lemma rounds_ok n a x : ops_ok (rounds n) a x.
Proof.
  revert a x. induction n as [|n IH]; intros a x; [done|]. cbn. split; [done|]. destruct (spec_main f a x) as [a1 x1].
  split; [done|]. destruct (spec_get a1) as [p a2]. apply IH.
Qed.

(** Up to fifteen packets that are enqueued for the dispatcher, and that its
    handlers leave, reach the driver in the order they were enqueued, one in each
    round of the dispatcher and the driver. *)
Theorem transmit_fifo ret ps x :
  ret <> 0 -> (length ps <= 15)%nat -> Forall (fun pw => pw.1 <> 0 /\ is_raw pw.2 = Some false) ps ->
  exists s x', exec_all (enqueue_all ret ps ++ rounds (length ps)) (init_queues tx_static) x = Ok (ps.*1, s, x').
Proof.
  intros Hret Hlen Hps.
  destruct (exec_all_refines (enqueue_all ret ps ++ rounds (length ps)) _ spec_init x start_implements fits_init) as (s & Hs & _).
  { apply enqueue_all_ok; [done..|]. intros. apply rounds_ok. }
  exists s. eexists. rewrite Hs. do 3 f_equal. rewrite spec_all_app.
  change spec_init with (filled ret []). rewrite (spec_enqueue_all ret ps [] x) by (done || cbn; lia || constructor). cbn [app].
  unfold filled. destruct ps as [|[p w] ps]; [done|]. rewrite (bool_decide_eq_false_2 _) by done. cbn [negb].
  match goal with |- context [spec_all (rounds ?n) (mkSpec ?mb ?q [] (mkEvents ?r true ?e ?m) ?t) ?y] =>
    pose proof (spec_rounds n mb q r e m t y) as Hr; destruct (spec_all (rounds n) _ y) as [[o a] x'] end.
  cbn [fst snd app] in *. apply Hr; [|by rewrite length_fmap].
  apply Forall_fmap. eapply Forall_impl; [exact Hps|]. by intros ? [].
Qed.

(** ** The last place *)

Lemma occupied_filled ret ps n :
  Forall (fun p => p <> 0) ps -> occupied (((fun p => mkRet p ret) <$> ps) ++ replicate n no_pkt) = (fun p => mkRet p ret) <$> ps.
Proof.
  intros H. unfold occupied. induction H as [|p ps Hp _ IH].
  - induction n as [|n IH]; [done|]. cbn [replicate app fmap list_fmap]. by rewrite filter_cons_False by (cbn; lia).
  - cbn [fmap list_fmap app]. rewrite filter_cons_True by done. by rewrite IH.
Qed.

(** C39: With fifteen packets on their way, the next one takes the last place of
    [mbufs] and is returned to its owner as if there were no place; a reset of the
    transmit path then returns it a second time. *)
Theorem last_place_returned_twice ret ps p w x :
  ret <> 0 -> length ps = 15%nat -> Forall (fun pw => pw.1 <> 0 /\ is_raw pw.2 = Some false) ps ->
  p <> 0 -> is_raw w <> None ->
  exists s x', exec_all (enqueue_all ret ps ++ [O_enqueue p ret w; O_reset]) (init_queues tx_static) x = Ok ([], s, x') /\
    returned s = [(ret, p)] ++ ((fun q => (ret, q)) <$> ps.*1) ++ [(ret, p)].
Proof.
  intros Hret Hlen Hps Hp Hw.
  destruct (exec_all_refines (enqueue_all ret ps ++ [O_enqueue p ret w; O_reset]) _ spec_init x start_implements fits_init) as (s & Hs & I).
  { by apply enqueue_all_ok. }
  assert (Hnz : Forall (fun p => p <> 0) ps.*1).
  { apply Forall_fmap. eapply Forall_impl; [exact Hps|]. by intros ? []. }
  rewrite spec_all_app in Hs, I. change spec_init with (filled ret []) in Hs, I.
  rewrite (spec_enqueue_all ret ps [] x) in Hs, I by (done || cbn; lia || constructor).
  cbn [app spec_all spec_exec fst snd] in Hs, I. exists s. eexists. split; [exact Hs|].
  destruct I as (ls & _ & _ & _ & _ & _ & ->). unfold spec_enqueue, filled. cbn [sp_mbufs].
  rewrite length_fmap, Hlen. change (16 - 15)%nat with 1%nat. rewrite free_spot_filled, length_fmap, Hlen by done.
  cbn [Nat.ltb Nat.leb]. cbn [spec_reset spec_return spec_store sp_mbufs sp_returned app replicate].
  rewrite insert_app_r_alt, length_fmap, length_fmap, Hlen by (by rewrite !length_fmap, Hlen).
  change (<[(15 - 15)%nat := mkRet p ret]> [no_pkt]) with ((fun p => mkRet p ret) <$> [p]).
  pose proof (occupied_filled ret (ps.*1 ++ [p]) 0) as Ho. cbn [replicate] in Ho. rewrite app_nil_r in Ho.
  rewrite <- fmap_app, Ho by (apply Forall_app; by split; [|constructor]).
  rewrite !fmap_app. cbn. f_equal. f_equal. by rewrite <- list_fmap_compose.
Qed.
End sequences.

(** ** The multicast address *)

(** When the IP destination of a packet is 224.0.0.251, [mli_TxDataEnqueue]
    sets the destination address of the descriptor and of the Ethernet header to
    01:00:5E:00:00:FB and changes nothing else; any other packet stays as it is. *)
Theorem fix_multicast_correct w off ip :
  rd_range w o_TxPacketOffset 4 = Ok (le_bytes off) -> sizeof_wcb_t <= off < 2 ^ 32 -> rd_range w (off + 30) 4 = Ok ip ->
  exists w', fix_multicast w = Ok w' /\
    (ip = mdns_ip -> rd_range w' o_TxDestAddrHigh 6 = Ok mdns_mac /\ rd_range w' off 6 = Ok mdns_mac) /\
    (ip <> mdns_ip -> w' = w) /\
    forall i, ~ (o_TxDestAddrHigh <= i < o_TxDestAddrHigh + 6) -> ~ (off <= i < off + 6) -> rd w' i = rd w i.
Proof.
  intros Ho Hoff Hip. unfold sizeof_wcb_t in Hoff. unfold fix_multicast. rewrite Ho. cbn [mbind res_bind]. rewrite of_le_bytes by lia.
  rewrite Hip. cbn [mbind res_bind]. destruct (decide (ip = mdns_ip)) as [E | E].
  2: { rewrite bool_decide_eq_false_2 by done. by exists w. }
  rewrite bool_decide_eq_true_2 by done. apply rd_range_holds in Hip as [Hn Hip].
  pose proof (holds_bounds _ _ _ Hip) as Hb. rewrite <- Hn in Hb.
  assert (Z2 : Zlen [1; 0] = 2) by done. assert (Z4 : Zlen (le_bytes 0xFB00005E) = 4) by done. assert (Z6 : Zlen mdns_mac = 6) by done.
  unfold o_TxDestAddrHigh, o_TxDestAddrLow in *.
  destruct (wr_range_exists w 14 [1; 0]) as (w1 & H1); [lia..|]. pose proof (wr_range_Zlen _ _ _ _ H1) as L1.
  destruct (wr_range_exists w1 16 (le_bytes 0xFB00005E)) as (w2 & H2); [lia..|]. pose proof (wr_range_Zlen _ _ _ _ H2) as L2.
  destruct (wr_range_exists w2 off mdns_mac) as (w3 & H3); [lia..|].
  rewrite H1. cbn [mbind res_bind]. rewrite H2. cbn [mbind res_bind]. rewrite H3. exists w3. split; [done|].
  split; [intros _; split|split; [done|]].
  - apply rd_range_holds. split; [done|]. apply (holds_app _ _ [1; 0] (le_bytes 0xFB00005E)). split.
    + apply (wr_range_frame _ _ _ _ _ _ H3); [lia|]. apply (wr_range_frame _ _ _ _ _ _ H2); [lia|]. by eapply wr_range_holds.
    + apply (wr_range_frame _ _ _ _ _ _ H3); [lia|]. by eapply wr_range_holds.
  - apply rd_range_holds. split; [done|]. by eapply wr_range_holds.
  - intros i Hi1 Hi2.
    rewrite (wr_range_rd_frame _ _ _ _ i H3), (wr_range_rd_frame _ _ _ _ i H2), (wr_range_rd_frame _ _ _ _ i H1); (done || lia).
Qed.

(** ** Concrete runs

    The handler that the application installs ([customTxDataHandler]) passes every
    packet. *)
Definition pass_run (_ _ : Z) (x : unit) : res (verdict Z * unit) := Ok (NOT_MY_PKT, x).
Definition one_handler : handlers := mkHandlers [1; 0; 0; 0] 1.

Lemma pass_ok p x : mli_PreProcessRxPacket pass_run one_handler p x = Ok (Some p, x).
Proof. done. Qed.

(** A packet whose data follows its descriptor, of the type [type] and for [ip]. *)
Definition demo_packet (type : Z) (ip : list Z) : list Z :=
  replicate 8 0 ++ [32; 0; 0; 0] ++ replicate 12 0 ++ [type] ++ replicate 7 0 ++ replicate 30 0 ++ ip ++ replicate 20 0.

Definition demo_packets (n : nat) : list (Z * list Z) := (fun i => (Z.of_nat i + 100, demo_packet 7 [10; 0; 0; 1])) <$> seq 0 n.

(** A handler that puts the packet 300 in the stead of every other. *)
Definition swap_run (_ p : Z) (x : unit) : res (verdict Z * unit) := Ok (PKT 300, x).

Lemma swap_ok p x : mli_PreProcessRxPacket swap_run one_handler p x = Ok (Some 300, x).
Proof. done. Qed.

Lemma transmit_path_refines_witness :
  exists s, exec_all swap_run one_handler [O_enqueue 100 9 (demo_packet 7 mdns_ip); O_main; O_get; O_done 100; O_reset]
    (init_queues tx_static) tt = Ok ([300], s, tt).
Proof.
  destruct (transmit_path_refines swap_run one_handler (fun p x => (Some 300, x)) swap_ok
    [O_enqueue 100 9 (demo_packet 7 mdns_ip); O_main; O_get; O_done 100; O_reset] tt) as (s & H & _).
  - vm_compute. split_and!; first [done | by inversion 1 | right; lia].
  - exists s. exact H.
Defined.

Lemma transmit_fifo_witness :
  exists s x', exec_all pass_run one_handler (enqueue_all 9 (demo_packets 15) ++ rounds 15) (init_queues tx_static) tt =
    Ok ((demo_packets 15).*1, s, x').
Proof.
  apply (transmit_fifo pass_run one_handler (fun p x => (Some p, x)) pass_ok (fun p x => eq_refl) 9 (demo_packets 15) tt).
  - done.
  - done.
  - apply list_relations.list.Forall_forall. intros pw H. unfold demo_packets in H. apply list_elem_of_fmap in H as (i & -> & _).
    split; [cbn; lia|]. vm_compute. done.
Defined.

Lemma last_place_returned_twice_witness :
  exists s x', exec_all pass_run one_handler (enqueue_all 9 (demo_packets 15) ++ [O_enqueue 200 9 (demo_packet 8 [10; 0; 0; 1]); O_reset])
      (init_queues tx_static) tt = Ok ([], s, x') /\
    returned s = [(9, 200)] ++ ((fun q => (9, q)) <$> (demo_packets 15).*1) ++ [(9, 200)].
Proof.
  apply (last_place_returned_twice pass_run one_handler (fun p x => (Some p, x)) pass_ok).
  - done.
  - done.
  - apply list_relations.list.Forall_forall. intros pw H. unfold demo_packets in H. apply list_elem_of_fmap in H as (i & -> & _).
    split; [cbn; lia|]. vm_compute. done.
  - done.
  - vm_compute. done.
Defined.

Lemma fix_multicast_correct_witness :
  exists w', fix_multicast (demo_packet 8 mdns_ip) = Ok w' /\ rd_range w' 14 6 = Ok mdns_mac /\ rd_range w' 32 6 = Ok mdns_mac.
Proof.
  destruct (fix_multicast_correct (demo_packet 8 mdns_ip) 32 mdns_ip) as (w' & H & Hm & _); [done|done|done|].
  exists w'. split; [exact H|]. apply Hm. done.
Defined.
