(* ===== verification/Eping.v ===== *)
(** * The ping application of the embedded port (eping.c)

    [computeCksum] is the Internet checksum; [frameICMPPacket] and [send_raw_pkt]
    are tick functions that build an echo request (or, in every tenth packet of the
    second, an ARP request) in a transmit buffer; [eping_process_pkt] looks at
    received packets.  A transmit buffer is the byte buffer of the packet, with its
    descriptor (32 bytes) in front, or [None] when there is no free one; the frames
    are the buffers that are handed to the firmware.  [char] is unsigned. *)
From S2P Require Import Prelude.
From S2P Require Import Buffer.
From S2P Require Import Sys.
From S2P Require Import TxQueue.

(** ** The checksum *)

(** The loop over the words; [i] is an [unsigned short]. *)
Fixpoint sum_loop (fuel : nat) (b : list Z) (p len i sum : Z) : res Z :=
  match fuel with
  | O => Diverge
  | S fuel =>
      if i <? len then
        hi ← rd b (p + i);
        lo ← rd b (p + i + 1);
        let word16 := u16 (Z.land (Z.shiftl hi 8) 0xFF00 + Z.land lo 0xFF) in
        sum_loop fuel b p len (u16 (i + 2)) (u32 (sum + word16))
      else Ok sum
  end.

Fixpoint fold_loop (fuel : nat) (sum : Z) : res Z :=
  match fuel with
  | O => Diverge
  | S fuel =>
      if negb (Z.shiftr sum 16 =? 0) then fold_loop fuel (u32 (Z.land sum 0xFFFF + Z.shiftr sum 16))
      else Ok sum
  end.

(** The complement, and its two bytes exchanged. *)
Definition computeCksum (b : list Z) (p len : Z) : res Z :=
  sum ← sum_loop (S (Z.to_nat len)) b p len 0 0;
  sum ← fold_loop 4 sum;
  let word16 := u16 (Z.lnot sum) in
  Ok (Z.lor (Z.shiftr word16 8) (Z.shiftl (Z.land word16 0xFF) 8)).

(** ** Frames *)

Definition ECHO_REQ : Z := 8.
Definition ECHO_REP : Z := 0.
Definition PING_TICK_COUNT : Z := 2000.
Definition datasize : Z := 64.
Definition RAW_SOCKET_DATA : Z := 0x07.
Definition AF_INET : Z := 2.

(** The variables of eping.c and those of userif.c it reads. *)
Record ping := mkPing {
  identifier : Z; tick_count : Z; targetMACAddr : list Z;
  send_ping : Z; link_present : Z; ping_ipaddr : list Z; own_ip : list Z; STAMACAddr : list Z }.

Definition with_ticks (i t : Z) (g : ping) : ping :=
  mkPing i t (targetMACAddr g) (send_ping g) (link_present g) (ping_ipaddr g) (own_ip g) (STAMACAddr g).

(** A 16-bit field as the little-endian host stores it. *)
Definition le16 (v : Z) : list Z := [u8 v; u8 (Z.shiftr v 8)].

Definition sizeof_TCP_CNFG_SendTo : Z := 20.

(** [tick_count++; if(tick_count == (PING_TICK_COUNT + 1)) tick_count = 0;] *)
Definition next_tick (t : Z) : Z := if t + 1 =? PING_TICK_COUNT + 1 then 0 else t + 1.

Definition fires (g : ping) : bool :=
  negb (send_ping g =? 0) && (tick_count g =? PING_TICK_COUNT) && negb (link_present g =? 0).

(** The ICMP header at [x] with the fields [id] and [sequence], and the checksum
    over the header and what follows it up to [n] bytes. *)
Definition icmp_echo (b : list Z) (x id sequence n : Z) : res (list Z) :=
  b ← wr_range b x ([ECHO_REQ; 0] ++ le16 0 ++ le16 id ++ le16 sequence);
  c ← computeCksum b x n;
  wr_range b (x + 2) (le16 c).

Definition frameICMPPacket (buffer : option (list Z)) (g : ping) : res (option (list Z) * ping) :=
  let t := next_tick (tick_count g) in
  if fires g then
    match buffer with
    | None => Ok (None, with_ticks (identifier g) t g)
    | Some b =>
        b ← wr b o_TxPacketType RAW_SOCKET_DATA;
        b ← wr_range b 26 (le16 0 ++ [0; 0; 0; 0]);
        b ← wr_range b 12 (le16 (datasize + sizeof_TCP_CNFG_SendTo));
        b ← wr_range b sizeof_wcb_t ([2; 16; AF_INET] ++ le16 0 ++ ping_ipaddr g);
        b ← wr_range b (sizeof_wcb_t + 1 + 16) (le_bytes datasize);
        b ← icmp_echo b (sizeof_wcb_t + 1 + sizeof_TCP_CNFG_SendTo) (htons (u16 (identifier g))) (identifier g) datasize;
        Ok (Some b, with_ticks (identifier g + 1) t g)
    end
  else Ok (None, with_ticks (identifier g) t g).

(** The IP header with a cleared checksum field; [ihl] and [version] share the
    first byte. *)
Definition ip_header (src dst : list Z) : list Z :=
  [Z.lor 0x5 (Z.shiftl 0x4 4); 0x0] ++ le16 0x5400 ++ le16 1 ++ le16 0x40 ++ [64; 1] ++ le16 0 ++ src ++ dst.

Definition raw_ping (b : list Z) (g : ping) : res (list Z) :=
  b ← wr_range b o_TxDestAddrHigh (targetMACAddr g);
  b ← wr_range b sizeof_wcb_t (targetMACAddr g ++ STAMACAddr g);
  b ← wr_range b 12 (le16 98);
  b ← wr_range b (sizeof_wcb_t + 12) (le16 0x8 ++ ip_header (own_ip g) (ping_ipaddr g));
  c ← computeCksum b (sizeof_wcb_t + 14) 20;
  b ← wr_range b (sizeof_wcb_t + 14 + 10) (le16 c);
  icmp_echo b (sizeof_wcb_t + 34) (identifier g) (identifier g) 64.

Definition arp_request (g : ping) : list Z :=
  le16 0x100 ++ le16 0x0008 ++ [6; 4] ++ le16 0x0100 ++ STAMACAddr g ++ own_ip g ++ replicate 6 0 ++ ping_ipaddr g.

Definition raw_arp (b : list Z) (g : ping) : res (list Z) :=
  b ← wr_range b o_TxDestAddrHigh (replicate 6 0xFF);
  b ← wr_range b sizeof_wcb_t (replicate 6 0xFF ++ STAMACAddr g);
  b ← wr_range b 12 (le16 64);
  wr_range b (sizeof_wcb_t + 12) (le16 0x0608 ++ arp_request g).

(** [use_peer_sta_api] is 0 at the start and nothing sets it to another value, so
    the branches that take the packet to a peer station are left out. *)
Definition send_raw_pkt (buffer : option (list Z)) (g : ping) : res (option (list Z) * ping) :=
  let t := next_tick (tick_count g) in
  if fires g then
    match buffer with
    | None => Ok (None, with_ticks (identifier g) t g)
    | Some b =>
        b ← wr_range b 0 (replicate 32 0);
        b ← wr b o_TxPacketType 0x8;
        b ← wr_range b o_TxPacketOffset (le_bytes sizeof_wcb_t);
        b ← (if negb (Z.rem (identifier g) 10 =? 0) then raw_ping b g else raw_arp b g);
        Ok (Some b, with_ticks (identifier g + 1) t g)
    end
  else Ok (None, with_ticks (identifier g) t g).

(** A received packet, which follows an 802.3 header of 20 bytes with LLC and
    SNAP: the sender of an ARP message becomes the target; an IP packet is only
    looked at. *)
Definition eping_process_pkt (pkt : list Z) (g : ping) : res ping :=
  protocol ← get_host16 pkt 20;
  if protocol =? 0x08 then
    ip_protocol ← rd pkt (22 + 9);
    if ip_protocol =? 0x1 then
      _ ← rd pkt (42 + 1);
      Ok g
    else Ok g
  else if protocol =? 0x608 then
    ar_sha ← rd_range pkt (22 + 8) 6;
    Ok (mkPing (identifier g) (tick_count g) ar_sha (send_ping g) (link_present g) (ping_ipaddr g) (own_ip g) (STAMACAddr g))
  else Ok g.
