(* ===== verification/EpingTheorems.v ===== *)
(** * Properties of the ping application (eping.c)

    [computeCksum] is the one's-complement sum of RFC 1071, and a header in which
    it was stored sums to zero at a receiver that computes the same. *)
From S2P Require Import Prelude.
From S2P Require Import Buffer.
From S2P Require Import Sys.
From S2P Require Import SysSpec.
From S2P Require Import TxQueue.
From S2P Require Import Eping.

(** ** The reference: addition with end-around carry *)

Definition oc_add (a b : Z) : Z := if 65535 <? a + b then a + b - 65535 else a + b.

Definition oc_sum (ws : list Z) : Z := fold_left oc_add ws 0.

(** 16-bit words in network order. *)
Fixpoint be_words (l : list Z) : list Z :=
  match l with
  | a :: b :: l => (256 * a + b) :: be_words l
  | [a] => [256 * a]
  | [] => []
  end.

Definition internet_checksum (l : list Z) : Z := 65535 - oc_sum (be_words l).

(** ** The sum reduced once *)

Definition lsum (ws : list Z) : Z := fold_right Z.add 0 ws.

Definition word16 (v : Z) : Prop := 0 <= v < 65536.

(** The value from 1 to 65535 that [s] is congruent to; 0 for 0. *)
Definition oc (s : Z) : Z := if s =? 0 then 0 else (s - 1) mod 65535 + 1.

Lemma oc_range s : 0 <= s -> 0 <= oc s <= 65535.
Proof. intros. unfold oc. destruct (Z.eqb_spec s 0); [lia|]. Z.to_euclidean_division_equations; lia. Qed.

Lemma oc_small s : 0 <= s <= 65535 -> oc s = s.
Proof. intros. unfold oc. destruct (Z.eqb_spec s 0); [lia|]. rewrite Z.mod_small by lia. lia. Qed.

Lemma oc_sub s k : 0 <= k -> 65535 * k < s -> oc (s - 65535 * k) = oc s.
Proof.
  intros. unfold oc. rewrite !(proj2 (Z.eqb_neq _ _)) by lia. f_equal.
  replace (s - 65535 * k - 1) with (s - 1 + (- k) * 65535) by lia. by rewrite Z_mod_plus_full.
Qed.

Lemma oc_add_oc a b : 0 <= a -> word16 b -> oc_add (oc a) b = oc (a + b).
Proof.
  unfold word16. intros Ha Hb. pose proof (oc_range a Ha) as Hr. unfold oc_add.
  assert (E : oc (oc a + b) = oc (a + b)).
  { destruct (Z.eq_dec a 0) as [-> | Hne]; [done|].
    assert (Hk : oc a = a - 65535 * ((a - 1) / 65535)).
    { unfold oc. rewrite (proj2 (Z.eqb_neq _ _)) by lia. pose proof (Z.div_mod (a - 1) 65535). lia. }
    rewrite Hk. replace (a - 65535 * ((a - 1) / 65535) + b) with (a + b - 65535 * ((a - 1) / 65535)) by lia.
    apply oc_sub; Z.to_euclidean_division_equations; lia. }
  rewrite <- E. destruct (Z.ltb_spec 65535 (oc a + b)) as [Hlt | Hge].
  - rewrite <- (oc_sub (oc a + b) 1) by lia. rewrite (oc_small (oc a + b - _)); lia.
  - symmetry. apply oc_small. lia.
Qed.

Lemma oc_sum_from ws a : Forall word16 ws -> 0 <= a -> fold_left oc_add ws (oc a) = oc (a + lsum ws).
Proof.
  intros H. revert a. induction H as [|w ws Hw _ IH]; intros a Ha; cbn [fold_left].
  - by rewrite Z.add_0_r.
  - rewrite oc_add_oc by done. rewrite IH by (unfold word16 in *; lia). f_equal. unfold lsum. cbn. lia.
Qed.

Lemma oc_sum_lsum ws : Forall word16 ws -> oc_sum ws = oc (lsum ws).
Proof. intros H. exact (oc_sum_from ws 0 H (Z.le_refl 0)). Qed.

Lemma lsum_bounds ws : Forall word16 ws -> 0 <= lsum ws <= 65535 * Zlen ws.
Proof. unfold word16. induction 1 as [|w ws Hw _ IH]; [done|]. rewrite Zlen_cons. change (lsum (w :: ws)) with (w + lsum ws). lia. Qed.

Lemma be_words_word16 l : bytes l -> Forall word16 (be_words l).
Proof.
  unfold bytes, is_byte, word16. remember (length l) as n eqn:Hn. revert l Hn.
  induction (lt_wf n) as [n _ IH]. intros [|a [|b l]] -> H; cbn.
  - constructor.
  - apply Forall_cons_iff in H as [? _]. constructor; [lia|constructor].
  - apply Forall_cons_iff in H as [? H]. apply Forall_cons_iff in H as [? H]. constructor; [lia|].
    eapply IH; [|done|done]. cbn. lia.
Qed.

(** ** The loops *)

Lemma sum_loop_spec m : forall l fuel b p i sum,
  length l = (2 * m)%nat -> bytes l -> holds b (p + i) l -> 0 <= i -> i + 2 * Z.of_nat m <= 65534 ->
  0 <= sum -> sum + 65535 * Z.of_nat m < 4294967296 -> (m < fuel)%nat ->
  sum_loop fuel b p (i + 2 * Z.of_nat m) i sum = Ok (sum + lsum (be_words l)).
Proof.
  induction m as [|m IH]; intros l fuel b p i sum Hl Hb Hh Hi Hlen Hs Hsum Hf; (destruct fuel as [|fuel]; [lia|]); cbn [sum_loop].
  - destruct l; [|done]. dec. cbn. f_equal. lia.
  - destruct l as [|x [|y l]]; [done|cbn in Hl; lia|]. apply holds_cons in Hh as [Hx Hh]. apply holds_cons in Hh as [Hy Hh].
    dec. rewrite Hx. cbn [mbind res_bind]. rewrite Hy. cbn [mbind res_bind].
    unfold bytes, is_byte in Hb. apply Forall_cons_iff in Hb as [Bx Hb]. apply Forall_cons_iff in Hb as [By Hb].
    assert (E : u16 (Z.land (Z.shiftl x 8) 0xFF00 + Z.land y 0xFF) = 256 * x + y).
    { rewrite land_255, Z.mod_small by lia. change 0xFF00 with (Z.shiftl 255 8). rewrite <- Z.shiftl_land, land_255, Z.mod_small by lia.
      rewrite Z.shiftl_mul_pow2 by lia. rewrite u16_id; lia. }
    rewrite E, (u16_id (i + 2)) by lia. rewrite (u32_id (sum + (256 * x + y))) by lia.
    replace (i + 2 * Z.of_nat (S m)) with (i + 2 + 2 * Z.of_nat m) by lia.
    rewrite (IH l); try done; [cbn [be_words]; change (lsum (?a :: ?l)) with (a + lsum l); f_equal; lia|cbn in Hl; lia|..]; try lia.
    replace (p + (i + 2)) with (p + i + 1 + 1) by lia. done.
Qed.

Lemma fold_step s : 0 <= s < 4294967296 -> Z.land s 0xFFFF + Z.shiftr s 16 = s - 65535 * (s / 65536).
Proof.
  intros. change (Z.land s 0xFFFF) with (Z.land s (Z.ones 16)). rewrite Z.land_ones, Z.shiftr_div_pow2 by lia.
  change (2 ^ 16) with 65536. Z.to_euclidean_division_equations; lia.
Qed.

(** [n] steps bring the sum down to 16 bits. *)
Lemma fold_loop_spec s : 0 <= s < 4294967296 -> fold_loop 4 s = Ok (oc s).
Proof.
  intros H. assert (Hstop : forall fuel t, 0 <= t <= 65535 -> fold_loop (S fuel) t = Ok (oc t)).
  { intros fuel t Ht. cbn. rewrite Z.shiftr_div_pow2 by lia. change (2 ^ 16) with 65536. rewrite Z.div_small by lia. by rewrite oc_small. }
  assert (Hstep : forall fuel t, 65535 < t < 4294967296 ->
    fold_loop (S fuel) t = fold_loop fuel (t - 65535 * (t / 65536)) /\ oc (t - 65535 * (t / 65536)) = oc t).
  { intros fuel t Ht. cbn [fold_loop]. rewrite fold_step by lia. rewrite Z.shiftr_div_pow2 by lia. change (2 ^ 16) with 65536.
    split; [|apply oc_sub; Z.to_euclidean_division_equations; lia].
    rewrite (proj2 (Z.eqb_neq _ _)) by (Z.to_euclidean_division_equations; lia). cbn [negb]. rewrite u32_id; [done|].
    Z.to_euclidean_division_equations; lia. }
  destruct (Z_le_gt_dec s 65535) as [H1 | H1]; [apply Hstop; lia|].
  destruct (Hstep 3%nat s ltac:(lia)) as [-> <-]. set (s1 := s - _). assert (B1 : 0 <= s1 <= 131070) by (subst s1; Z.to_euclidean_division_equations; lia).
  clearbody s1. destruct (Z_le_gt_dec s1 65535) as [H2 | H2]; [apply Hstop; lia|].
  destruct (Hstep 2%nat s1 ltac:(lia)) as [-> <-]. apply Hstop. Z.to_euclidean_division_equations; lia.
Qed.

Lemma swap_bytes w : word16 w -> Z.lor (Z.shiftr w 8) (Z.shiftl (Z.land w 0xFF) 8) = htons w.
Proof.
  unfold word16. intros H. rewrite Z.lor_comm, lor_shiftl; [|lia|].
  - unfold htons. rewrite !u16_id, land_255, Z.shiftr_div_pow2 by lia. done.
  - rewrite Z.shiftr_div_pow2 by lia. change (2 ^ 8) with 256. Z.to_euclidean_division_equations; lia.
Qed.

Lemma lnot_u16 s : 0 <= s <= 65535 -> u16 (Z.lnot s) = 65535 - s.
Proof. intros H. unfold u16, Z.lnot. replace (Z.pred (- s)) with (65535 - s + (-1) * 65536) by lia. rewrite Z_mod_plus_full. apply Z.mod_small. lia. Qed.

Lemma be_words_length l m : length l = (2 * m)%nat -> length (be_words l) = m.
Proof.
  revert l. induction m as [|m IH]; intros [|a [|b l]] H; cbn in *; try lia. f_equal. apply IH. lia.
Qed.

Lemma cksum_ok b p l :
  bytes l -> holds b p l -> Zlen l mod 2 = 0 -> Zlen l <= 65534 ->
  computeCksum b p (Zlen l) = Ok (htons (internet_checksum l)).
Proof.
  intros Hb Hh Heven Hlen. unfold computeCksum.
  assert (exists m, length l = (2 * m)%nat) as [m Hm].
  { exists (Z.to_nat (Zlen l / 2)). unfold Zlen in *. Z.to_euclidean_division_equations; lia. }
  pose proof (be_words_word16 l Hb) as Hw. pose proof (lsum_bounds _ Hw) as Hs. unfold Zlen in Hs. rewrite (be_words_length l m Hm) in Hs.
  pose proof (sum_loop_spec m l (S (Z.to_nat (Zlen l))) b p 0 0 Hm Hb) as HL.
  replace (0 + 2 * Z.of_nat m) with (Zlen l) in HL by (unfold Zlen; lia).
  rewrite HL; try (unfold Zlen in *; lia); [|by rewrite Z.add_0_r]. cbn [mbind res_bind]. rewrite Z.add_0_l.
  rewrite fold_loop_spec by (unfold Zlen in *; lia). cbn [mbind res_bind].
  unfold internet_checksum. rewrite oc_sum_lsum by done. pose proof (oc_range (lsum (be_words l))).
  rewrite lnot_u16 by lia. rewrite swap_bytes; [done|]. unfold word16. lia.
Qed.

(** C29: [computeCksum] over an even number of bytes is the Internet checksum of
    RFC 1071 (the complement of the one's-complement sum of the words in network
    order), with its bytes in network order when the host stores it. *)
Theorem computeCksum_correct b p l :
  bytes l -> holds b p l -> Zlen l mod 2 = 0 -> Zlen l <= 65534 ->
  computeCksum b p (Zlen l) = Ok (htons (internet_checksum l)).
Proof. by apply cksum_ok. Qed.

(** ** A stored checksum *)

Lemma be_words_app l1 l2 : Zlen l1 mod 2 = 0 -> be_words (l1 ++ l2) = be_words l1 ++ be_words l2.
Proof.
  intros H. assert (exists m, length l1 = (2 * m)%nat) as [m Hm].
  { exists (Z.to_nat (Zlen l1 / 2)). unfold Zlen in *. Z.to_euclidean_division_equations; lia. }
  clear H. revert l1 Hm. induction m as [|m IH]; intros [|a [|b l1]] Hm; cbn in *; try (done || lia).
  f_equal. apply IH. lia.
Qed.

Lemma lsum_app l1 l2 : lsum (l1 ++ l2) = lsum l1 + lsum l2.
Proof. induction l1 as [|a l1 IH]; [done|]. cbn [app]. change (lsum (a :: ?l)) with (a + lsum l). lia. Qed.

Lemma le16_htons w : word16 w -> le16 (htons w) = [w / 256; w mod 256].
Proof.
  unfold word16, le16, htons, u8. intros H. rewrite u16_id by done. rewrite Z.shiftr_div_pow2 by lia. change (2 ^ 8) with 256.
  assert (Ha : (w mod 256 * 256 + w / 256) mod 256 = w / 256) by (Z.to_euclidean_division_equations; lia).
  assert (Hb : (w mod 256 * 256 + w / 256) / 256 mod 256 = w mod 256) by (Z.to_euclidean_division_equations; lia).
  by rewrite Ha, Hb.
Qed.

Lemma cksum_range l : bytes l -> word16 (internet_checksum l).
Proof.
  intros H. unfold internet_checksum, word16. rewrite oc_sum_lsum by by apply be_words_word16.
  pose proof (lsum_bounds _ (be_words_word16 l H)). pose proof (oc_range (lsum (be_words l))). lia.
Qed.

Lemma oc_complement t : 0 <= t -> 65535 - oc (t + (65535 - oc t)) = 0.
Proof.
  intros H. unfold oc. destruct (Z.eqb_spec t 0) as [-> | Ht]; [done|].
  rewrite (proj2 (Z.eqb_neq (t + _) 0)) by (Z.to_euclidean_division_equations; lia). Z.to_euclidean_division_equations; lia.
Qed.

(** The sum with the checksum of the rest in a cleared word is all ones. *)
Lemma cksum_closed l1 l2 w :
  bytes (l1 ++ [0; 0] ++ l2) -> Zlen l1 mod 2 = 0 -> w = internet_checksum (l1 ++ [0; 0] ++ l2) ->
  internet_checksum (l1 ++ [w / 256; w mod 256] ++ l2) = 0.
Proof.
  intros Hb He Hw. pose proof (cksum_range _ Hb) as Hr. rewrite <- Hw in Hr. unfold internet_checksum, word16 in *.
  assert (Hb' : bytes (l1 ++ [w / 256; w mod 256] ++ l2)).
  { unfold bytes, is_byte in *. rewrite !Forall_app in *. destruct_and!. split_and!; try done.
    constructor; [|constructor; [|constructor]]; Z.to_euclidean_division_equations; lia. }
  pose proof (be_words_word16 _ Hb) as W. pose proof (be_words_word16 _ Hb') as W'.
  rewrite oc_sum_lsum in Hw by done. rewrite oc_sum_lsum by done.
  rewrite be_words_app in * by done. cbn [app be_words] in *. rewrite !lsum_app in *.
  change (lsum (?a :: ?l)) with (a + lsum l) in *. pose proof (lsum_bounds _ W) as Hs. rewrite lsum_app in Hs. change (lsum (?a :: ?l)) with (a + lsum l) in Hs.
  replace (256 * (w / 256) + w mod 256) with w by (rewrite Z.add_comm; pose proof (Z.div_mod w 256); lia).
  pose proof (oc_complement (lsum (be_words l1) + (256 * 0 + 0 + lsum (be_words l2))) ltac:(lia)) as Ht. rewrite <- Hw in Ht.
  rewrite <- Ht. do 2 f_equal. lia.
Qed.

Lemma cksum_store b p l1 l2 c b' :
  bytes (l1 ++ [0; 0] ++ l2) -> holds b p (l1 ++ [0; 0] ++ l2) ->
  Zlen l1 mod 2 = 0 -> Zlen l2 mod 2 = 0 -> Zlen l1 + 2 + Zlen l2 <= 65534 ->
  computeCksum b p (Zlen l1 + 2 + Zlen l2) = Ok c -> wr_range b (p + Zlen l1) (le16 c) = Ok b' ->
  computeCksum b' p (Zlen l1 + 2 + Zlen l2) = Ok 0 /\ holds b' p (l1 ++ le16 c ++ l2).
Proof.
  intros Hb Hh E1 E2 Hlen Hc Hw. set (n := Zlen l1 + 2 + Zlen l2) in *.
  assert (Hn : Zlen (l1 ++ [0; 0] ++ l2) = n) by (zlen; subst n; lia).
  assert (He : n mod 2 = 0) by (subst n; Z.to_euclidean_division_equations; lia).
  rewrite <- Hn, cksum_ok in Hc; [|done..|by rewrite Hn|by rewrite Hn]. injection Hc as <-.
  set (w := internet_checksum (l1 ++ [0; 0] ++ l2)) in *. pose proof (cksum_range _ Hb) as Hr. fold w in Hr.
  rewrite le16_htons in * by done. unfold word16 in Hr.
  assert (Hh' : holds b' p (l1 ++ [w / 256; w mod 256] ++ l2)).
  { rewrite !holds_app in *. destruct Hh as (H1 & H2 & H3). split_and!.
    - eapply wr_range_frame; [exact Hw|lia|done].
    - by eapply wr_range_holds.
    - eapply wr_range_frame; [exact Hw|zlen; lia|]. eapply holds_at; [exact H3|]. zlen. lia. }
  assert (Hb' : bytes (l1 ++ [w / 256; w mod 256] ++ l2)).
  { unfold bytes, is_byte in *. rewrite !Forall_app in *. destruct_and!. split_and!; try done.
    constructor; [|constructor; [|constructor]]; Z.to_euclidean_division_equations; lia. }
  assert (Hn' : Zlen (l1 ++ [w / 256; w mod 256] ++ l2) = n) by (zlen; subst n; lia).
  split; [|done]. rewrite <- Hn', cksum_ok by (done || by rewrite Hn'). by rewrite cksum_closed.
Qed.

(** A header whose checksum word was cleared and then got the result of
    [computeCksum] checks at the receiver: [computeCksum] over it is zero. *)
Theorem stored_checksum_verifies b p l1 l2 c b' :
  bytes (l1 ++ [0; 0] ++ l2) -> holds b p (l1 ++ [0; 0] ++ l2) ->
  Zlen l1 mod 2 = 0 -> Zlen l2 mod 2 = 0 -> Zlen l1 + 2 + Zlen l2 <= 65534 ->
  computeCksum b p (Zlen l1 + 2 + Zlen l2) = Ok c -> wr_range b (p + Zlen l1) (le16 c) = Ok b' ->
  computeCksum b' p (Zlen l1 + 2 + Zlen l2) = Ok 0.
Proof. intros. by eapply (cksum_store b p l1 l2 c b'). Qed.

(** ** Frames *)

Lemma le16_bytes v : bytes (le16 v).
Proof. unfold bytes, le16. constructor; [apply u8_byte|constructor; [apply u8_byte|constructor]]. Qed.

Lemma le16_Zlen v : Zlen (le16 v) = 2.
Proof. done. Qed.

Lemma holds_exists b i n : 0 <= i -> 0 <= n -> i + n <= Zlen b -> exists l, Zlen l = n /\ holds b i l.
Proof.
  intros. destruct (rd_range b i n) as [l| |] eqn:E.
  - apply rd_range_holds in E as [? ?]. by exists l.
  - unfold rd_range in E. revert E. dec. done.
  - unfold rd_range in E. by case_match.
Qed.

(** What a buffer holds outside of the bytes from [i] to [j] stays. *)
Definition kept (b b' : list Z) (i j : Z) : Prop :=
  forall k l, k + Zlen l <= i \/ j <= k -> holds b k l -> holds b' k l.

Lemma kept_write b i l b' : wr_range b i l = Ok b' -> kept b b' i (i + Zlen l).
Proof. intros H k m Hk Hh. by apply (wr_range_frame _ _ _ _ _ _ H). Qed.

Lemma icmp_echo_ok b x id sequence n :
  bytes b -> 0 <= x -> 8 <= n <= 65534 -> n mod 2 = 0 -> x + n <= Zlen b ->
  exists b', icmp_echo b x id sequence n = Ok b' /\ computeCksum b' x n = Ok 0 /\
    holds b' x [ECHO_REQ; 0] /\ holds b' (x + 4) (le16 id ++ le16 sequence) /\ kept b b' x (x + 8).
Proof.
  intros Hb Hx Hn He Hlen. unfold icmp_echo. set (hdr := [ECHO_REQ; 0] ++ le16 0 ++ le16 id ++ le16 sequence).
  assert (Lh : Zlen hdr = 8) by done.
  destruct (wr_range_exists b x hdr) as (b1 & H1); [lia..|]. pose proof (wr_range_Zlen _ _ _ _ H1) as L1.
  destruct (holds_exists b (x + 8) (n - 8)) as (rest & Lr & Hr); [lia..|].
  assert (Hbr : bytes rest) by by eapply holds_byte.
  set (l2 := le16 id ++ le16 sequence ++ rest). assert (L2 : Zlen l2 = n - 4) by (subst l2; zlen; rewrite !le16_Zlen; lia).
  assert (Hh : holds b1 x ([ECHO_REQ; 0] ++ [0; 0] ++ l2)).
  { apply wr_range_holds in H1 as Hh. replace ([ECHO_REQ; 0] ++ [0; 0] ++ l2) with (hdr ++ rest) by done.
    apply holds_app. split; [done|]. rewrite Lh. apply (kept_write _ _ _ _ H1); [rewrite Lh; lia|done]. }
  assert (Hbl : bytes ([ECHO_REQ; 0] ++ [0; 0] ++ l2)).
  { unfold bytes, l2. rewrite !Forall_app. split_and!; try done; try apply le16_bytes; (constructor; [done|constructor; [done|constructor]]). }
  assert (Hc : computeCksum b1 x n = Ok (htons (internet_checksum ([ECHO_REQ; 0] ++ [0; 0] ++ l2)))).
  { replace n with (Zlen ([ECHO_REQ; 0] ++ [0; 0] ++ l2)) by (zlen; lia). apply cksum_ok; [done..| |]; zlen; rewrite L2; [|lia].
    Z.to_euclidean_division_equations; lia. }
  rewrite H1. cbn [mbind res_bind]. rewrite Hc. cbn [mbind res_bind]. set (c := htons _) in *.
  destruct (wr_range_exists b1 (x + 2) (le16 c)) as (b2 & H2); [lia|rewrite le16_Zlen; lia|]. exists b2. split; [done|].
  destruct (cksum_store b1 x [ECHO_REQ; 0] l2 c b2) as [Hz Hh2]; try done; try (zlen; rewrite ?L2; Z.to_euclidean_division_equations; lia).
  { by replace (Zlen [ECHO_REQ; 0] + 2 + Zlen l2) with n by (zlen; lia). }
  replace (Zlen [ECHO_REQ; 0] + 2 + Zlen l2) with n in Hz by (zlen; lia).
  unfold l2 in Hh2. rewrite !holds_app in Hh2. destruct Hh2 as (Ha & _ & Hd & He2 & _). split_and!; [done|done| |].
  - apply holds_app. split; [eapply holds_at; [exact Hd|]|eapply holds_at; [exact He2|]]; zlen; rewrite ?le16_Zlen; lia.
  - intros k l Hk Hh0. apply (kept_write _ _ _ _ H2); [rewrite le16_Zlen; lia|]. apply (kept_write _ _ _ _ H1); [rewrite Lh; lia|done].
Qed.

(** The checksum of the same bytes in another buffer. *)
Lemma cksum_same b b' p n l :
  bytes l -> n = Zlen l -> n mod 2 = 0 -> n <= 65534 -> holds b p l -> holds b' p l -> computeCksum b p n = computeCksum b' p n.
Proof. intros ? -> ? ? ? ?. by rewrite !cksum_ok. Qed.

(** Addresses of the sizes the code copies. *)
Definition ping_ok (g : ping) : Prop :=
  (Zlen (targetMACAddr g) = 6 /\ bytes (targetMACAddr g)) /\ (Zlen (STAMACAddr g) = 6 /\ bytes (STAMACAddr g)) /\
  (Zlen (own_ip g) = 4 /\ bytes (own_ip g)) /\ (Zlen (ping_ipaddr g) = 4 /\ bytes (ping_ipaddr g)).

#[global] Instance ping_ok_dec g : Decision (ping_ok g).
Proof. unfold ping_ok, bytes, is_byte. apply _. Defined.

(** The frame of an echo request, as the firmware gets it. *)
Record echo_frame (b : list Z) (g : ping) : Prop := {
  ef_type : holds b o_TxPacketType [RAW_DATA];
  ef_offset : holds b o_TxPacketOffset (le_bytes sizeof_wcb_t);
  ef_length : holds b 12 (le16 98);
  ef_dest : holds b o_TxDestAddrHigh (targetMACAddr g);
  ef_ether : holds b 32 (targetMACAddr g ++ STAMACAddr g ++ [0x08; 0x00]);
  ef_ip : holds b 46 [0x45; 0; 0; 84];
  ef_addresses : holds b 58 (own_ip g ++ ping_ipaddr g);
  ef_ip_sum : computeCksum b 46 20 = Ok 0;
  ef_icmp : holds b 66 [ECHO_REQ; 0];
  ef_id : holds b 70 (le16 (identifier g) ++ le16 (identifier g));
  ef_icmp_sum : computeCksum b 66 64 = Ok 0 }.

(** Step through a write whose range is inside the buffer. *)
Ltac write_range :=
  match goal with
  | |- context [wr_range ?b ?i ?l] =>
      let b' := fresh "b" in let H := fresh "W" in let L := fresh "L" in
      destruct (wr_range_exists b i l) as (b' & H); [lia | zlen; rewrite ?le16_Zlen; lia |];
      pose proof (wr_range_Zlen _ _ _ _ H) as L; rewrite H; cbn [mbind res_bind]
  end.

(** Follow the writes backwards to the one that stored the bytes. *)
Ltac stored :=
  repeat first
    [ eassumption
    | match goal with H : wr_range _ ?i ?l = Ok ?b |- holds ?b ?i ?l => exact (wr_range_holds _ _ _ _ H) end
    | match goal with H : wr_range _ _ _ = Ok ?b |- holds ?b _ _ =>
        apply (kept_write _ _ _ _ H); [zlen; rewrite ?le16_Zlen; lia|] end
    | match goal with H : kept _ ?b _ _ |- holds ?b _ _ => apply H; [zlen; rewrite ?le16_Zlen; lia|] end ].

Definition ip_start : list Z := [0x45; 0; 0; 84; 1; 0; 0x40; 0; 64; 1].

Lemma raw_ping_ok b g :
  bytes b -> 130 <= Zlen b -> ping_ok g ->
  exists b', raw_ping b g = Ok b' /\ kept b b' 12 130 /\ (forall k l, 20 <= k -> k + Zlen l <= 32 -> holds b k l -> holds b' k l) /\
    holds b' 12 (le16 98) /\ holds b' 14 (targetMACAddr g) /\
    holds b' 32 (targetMACAddr g ++ STAMACAddr g) /\ holds b' 44 [0x08; 0x00] /\ holds b' 46 ip_start /\
    holds b' 58 (own_ip g ++ ping_ipaddr g) /\ computeCksum b' 46 20 = Ok 0 /\
    holds b' 66 [ECHO_REQ; 0] /\ holds b' 70 (le16 (identifier g) ++ le16 (identifier g)) /\ computeCksum b' 66 64 = Ok 0.
Proof.
  intros Hb Hlen ((Lt & Bt) & (Ls & Bs) & (Lo & Bo) & (Lp & Bp)). unfold raw_ping.
  change o_TxDestAddrHigh with 14. change sizeof_wcb_t with 32. change (32 + 12) with 44. change (32 + 14) with 46. change (46 + 10) with 56. change (32 + 34) with 66.
  do 3 write_range.
  change (ip_header (own_ip g) (ping_ipaddr g)) with (ip_start ++ [0; 0] ++ own_ip g ++ ping_ipaddr g).
  assert (Li : Zlen ip_start = 10) by done. change (le16 0x8) with [0x08; 0x00].
  write_range. set (l2 := own_ip g ++ ping_ipaddr g) in *. assert (Ll2 : Zlen l2 = 8) by (subst l2; zlen; lia).
  assert (Hi : holds b3 44 ([0x08; 0x00] ++ ip_start ++ [0; 0] ++ l2)) by stored.
  apply holds_app in Hi as [He Hi]. change (44 + Zlen [8; 0]) with 46 in Hi.
  assert (Hbl : bytes (ip_start ++ [0; 0] ++ l2)).
  { unfold bytes in *. rewrite !Forall_app. split_and!; [by_eval|by_eval|]. unfold l2. by rewrite Forall_app. }
  assert (Hb3 : bytes b3).
  { eapply wr_range_bytes; [eassumption| |]; [|unfold bytes in *; rewrite Forall_app; split; [by_eval|done]].
    eapply wr_range_bytes; [eassumption| |apply le16_bytes]. eapply wr_range_bytes; [eassumption| |unfold bytes in *; by rewrite Forall_app].
    by eapply wr_range_bytes. }
  assert (Hc : computeCksum b3 46 20 = Ok (htons (internet_checksum (ip_start ++ [0; 0] ++ l2)))).
  { replace 20 with (Zlen (ip_start ++ [0; 0] ++ l2)) by (zlen; lia). apply cksum_ok; [done..| |]; zlen; rewrite Ll2; done. }
  rewrite Hc. cbn [mbind res_bind]. set (c := htons _) in *. write_range.
  assert (Hb4 : bytes b4) by (eapply wr_range_bytes; [eassumption|done|apply le16_bytes]).
  destruct (cksum_store b3 46 ip_start l2 c b4) as [Hz Hh]; try done; try (rewrite ?Li, ?Ll2; done).
  change (Zlen ip_start + 2 + Zlen l2) with (10 + 2 + Zlen l2) in Hz. rewrite Ll2 in Hz. change (10 + 2 + 8) with 20 in Hz.
  destruct (icmp_echo_ok b4 66 (identifier g) (identifier g) 64) as (b5 & He5 & Hz5 & Hr5 & Hi5 & K5); [done|lia|lia|done|lia|].
  exists b5. split; [done|].
  assert (Hip : holds b5 46 (ip_start ++ le16 c ++ l2)).
  { apply K5; [zlen; rewrite le16_Zlen; lia|done]. }
  assert (Hz' : computeCksum b5 46 20 = Ok 0).
  { by rewrite (cksum_same b5 b4 46 20 (ip_start ++ le16 c ++ l2)) by (done || by eapply holds_byte || (zlen; rewrite le16_Zlen; lia)). }
  apply holds_app in Hip as [Hip1 Hip]. apply holds_app in Hip as [_ Hip2]. change (46 + Zlen ip_start + Zlen (le16 c)) with 58 in Hip2.
  split_and!; try done; try stored; intros k l Hk Hl; intros; stored.
Qed.

(** C30: When [send_raw_pkt] fires with a free buffer and the packet is not a tenth
    one, it hands the firmware an echo request to the target: the Ethernet, IP and
    ICMP headers are in place, the lengths agree, and both checksums verify. *)
Theorem send_raw_pkt_echo b g :
  fires g = true -> Z.rem (identifier g) 10 <> 0 -> bytes b -> 130 <= Zlen b -> ping_ok g ->
  exists b', send_raw_pkt (Some b) g = Ok (Some b', with_ticks (identifier g + 1) 0 g) /\ echo_frame b' g.
Proof.
  intros Hf Hid Hb Hlen Hg. unfold send_raw_pkt. rewrite Hf.
  assert (Ht : next_tick (tick_count g) = 0).
  { unfold fires in Hf. b2p. unfold next_tick. by rewrite (proj2 (Z.eqb_eq _ _)) by lia. }
  rewrite Ht. unfold wr. change o_TxPacketType with 24. change (u8 0x8) with 8.
  change o_TxPacketOffset with 8. change (le_bytes sizeof_wcb_t) with [32; 0; 0; 0].
  do 3 write_range. rewrite (proj2 (Z.eqb_neq _ _)) by done. cbn [negb].
  destruct (raw_ping_ok b2 g) as (b' & -> & K & K2 & H1 & H2 & H3 & H4 & H5 & H6 & H7 & H8 & H9 & H10); [|lia|done|].
  { eapply wr_range_bytes; [eassumption| |by_eval]. eapply wr_range_bytes; [eassumption| |by_eval]. eapply wr_range_bytes; [eassumption|done|by_eval]. }
  eexists. split; [done|]. split; try done.
  - apply K2; [done|done|]. change o_TxPacketType with 24. change RAW_DATA with 8. stored.
  - apply K; [left; done|]. change o_TxPacketOffset with 8. change (le_bytes sizeof_wcb_t) with [32; 0; 0; 0]. stored.
  - destruct Hg as ((Lt & _) & (Ls & _) & _). rewrite app_assoc. apply holds_app. split; [done|].
    eapply holds_at; [exact H4|]. zlen. lia.
  - by apply (holds_app _ _ [0x45; 0; 0; 84]) in H5 as [H5 _].
Qed.

(** Every tenth packet is an ARP request for the address to ping. *)
Lemma send_raw_pkt_arp b g :
  fires g = true -> Z.rem (identifier g) 10 = 0 -> 130 <= Zlen b -> ping_ok g ->
  exists b', send_raw_pkt (Some b) g = Ok (Some b', with_ticks (identifier g + 1) 0 g) /\
    holds b' 32 (replicate 6 0xFF ++ STAMACAddr g) /\ holds b' 44 ([0x08; 0x06] ++ arp_request g).
Proof.
  intros Hf Hid Hlen ((Lt & _) & (Ls & _) & (Lo & _) & (Lp & _)). unfold send_raw_pkt. rewrite Hf.
  assert (Ht : next_tick (tick_count g) = 0).
  { unfold fires in Hf. b2p. unfold next_tick. by rewrite (proj2 (Z.eqb_eq _ _)) by lia. }
  rewrite Ht. unfold wr. change o_TxPacketType with 24. change o_TxPacketOffset with 8. change (le_bytes sizeof_wcb_t) with [32; 0; 0; 0].
  do 3 write_range. rewrite Hid. cbn [negb Z.eqb]. unfold raw_arp. change o_TxDestAddrHigh with 14. change sizeof_wcb_t with 32. change (32 + 12) with 44.
  unfold arp_request. do 4 write_range. eexists. split; [done|]. split; stored.
Qed.

(** The tick function that hands its packets to the stack frames an ICMP message
    whose checksum verifies. *)
Lemma frameICMPPacket_checksum b g :
  fires g = true -> bytes b -> 118 <= Zlen b -> ping_ok g ->
  exists b', frameICMPPacket (Some b) g = Ok (Some b', with_ticks (identifier g + 1) 0 g) /\
    holds b' 53 [ECHO_REQ; 0] /\ computeCksum b' 53 datasize = Ok 0.
Proof.
  intros Hf Hb Hlen (_ & _ & _ & (Lp & Bp)). unfold frameICMPPacket. rewrite Hf.
  assert (Ht : next_tick (tick_count g) = 0).
  { unfold fires in Hf. b2p. unfold next_tick. by rewrite (proj2 (Z.eqb_eq _ _)) by lia. }
  rewrite Ht. unfold wr. change o_TxPacketType with 24. change sizeof_wcb_t with 32. change (32 + 1 + 16) with 49. change (32 + 1 + sizeof_TCP_CNFG_SendTo) with 53.
  change (le_bytes datasize) with [64; 0; 0; 0]. do 5 write_range. change datasize with 64.
  destruct (icmp_echo_ok b4 53 (htons (u16 (identifier g))) (identifier g) 64) as (b' & -> & H1 & H2 & _); try (done || lia).
  - repeat (eapply wr_range_bytes; [eassumption| |]); try done; try by_eval.
    unfold bytes in *. rewrite !Forall_app. split_and!; [by_eval|by_eval|done].
  - by eexists.
Qed.

(** The sender of any ARP message becomes the target of the next echo requests. *)
Lemma eping_process_arp pkt sha g :
  get_host16 pkt 20 = Ok 0x608 -> rd_range pkt 30 6 = Ok sha ->
  exists g', eping_process_pkt pkt g = Ok g' /\ targetMACAddr g' = sha.
Proof. intros H1 H2. unfold eping_process_pkt. rewrite H1. cbn [mbind res_bind Z.eqb]. change (22 + 8) with 30. rewrite H2. by eexists. Qed.

(** ** Concrete packets *)

Definition demo_ping : ping := mkPing 1 2000 [0; 1; 2; 3; 4; 5] 1 1 [10; 0; 0; 2] [10; 0; 0; 1] [6; 7; 8; 9; 10; 11].

Lemma computeCksum_correct_witness :
  computeCksum ([0x45; 0; 0; 84] ++ [1; 0; 64; 0]) 0 8 = Ok (htons (internet_checksum [0x45; 0; 0; 84; 1; 0; 64; 0])).
Proof. apply (computeCksum_correct [0x45; 0; 0; 84; 1; 0; 64; 0] 0 [0x45; 0; 0; 84; 1; 0; 64; 0]); [by_eval|by_eval|done|done]. Defined.

Lemma stored_checksum_verifies_witness : computeCksum [8; 0; 0xF7; 0xFD; 0; 1; 0; 1] 0 8 = Ok 0.
Proof.
  apply (stored_checksum_verifies [8; 0; 0; 0; 0; 1; 0; 1] 0 [8; 0] [0; 1; 0; 1] 0xFDF7 [8; 0; 0xF7; 0xFD; 0; 1; 0; 1]);
    [by_eval|by_eval|done|done|done|by vm_compute|by vm_compute].
Defined.

Lemma send_raw_pkt_echo_witness :
  exists b', send_raw_pkt (Some (replicate 200 7)) demo_ping = Ok (Some b', with_ticks 2 0 demo_ping) /\ echo_frame b' demo_ping.
Proof.
  apply (send_raw_pkt_echo (replicate 200 7) demo_ping); [done|done|by_eval|done|by_eval].
Defined.
