(* ===== verification/UserIf.v ===== *)
(** * The link management of the embedded port (userif.c, hostsme_sm.c)

    The user-interface task sends commands to the firmware through [cmd_buffer] and
    gets its answers in [cmd_res_buffer]: a scan fills [BSS_List], and the state
    machine of hostsme_sm.c goes on to authenticate, associate or join.  [ui] holds
    the variables of the two files; [sent] collects the commands, as the bytes that
    are in the buffer when the firmware is triggered, and [peers] the calls of
    [peersta_AddSTAEntry].  [char] is unsigned and an enumeration in a packed struct
    takes one byte.  Text for the terminal is left out. *)
From S2P Require Import Prelude.
From S2P Require Import Buffer.
From S2P Require Import Sys.
From S2P Require Import Console.
From S2P Require Import Eping.

Definition MAX_BSS_HANDLES : Z := 20.
Definition NUM_CHANNELS : Z := 11.
Definition G_SUPPORTED_RATES : Z := 14.
Definition IEEEtypes_SSID_SIZE : Z := 32.

Definition SupportedRates : list Z :=
  [0x82; 0x84; 0x8b; 0x96; 0x0c; 0x12; 0x18; 0x24; 0x30; 0x48; 0x60; 0x6c; 0; 0].

(** ** Codes (ecl_hostcmd.h, tlv_id.h, hostsme_sm.h) *)

Definition host_CMD_802_11_SCAN : Z := 0x0006.
Definition host_CMD_MAC_MULTICAST_ADR : Z := 0x0010.
Definition host_CMD_802_11_AUTHENTICATE : Z := 0x0011.
Definition host_CMD_802_11_DEAUTHENTICATE : Z := 0x0024.
Definition host_CMD_802_11_AD_HOC_START : Z := 0x002b.
Definition host_CMD_802_11_AD_HOC_JOIN : Z := 0x002c.
Definition host_CMD_802_11_AD_HOC_STOP : Z := 0x0040.
Definition host_CMD_802_11_MAC_ADDR : Z := 0x004d.
Definition host_CMD_802_11_ASSOCIATE : Z := 0x0050.
Definition host_CMD_TCP : Z := 0x0085.

Definition host_RET_802_11_SCAN : Z := 0x8006.
Definition host_RET_MAC_MULTICAST_ADR : Z := 0x8010.
Definition host_RET_802_11_AUTHENTICATE : Z := 0x8011.
Definition host_RET_802_11_ASSOCIATE : Z := 0x8012.
Definition host_RET_802_11_DEAUTHENTICATE : Z := 0x8024.
Definition host_RET_802_11_AD_HOC_START : Z := 0x802b.
Definition host_RET_802_11_AD_HOC_JOIN : Z := 0x802c.
Definition host_RET_802_11_AD_HOC_STOP : Z := 0x8040.
Definition host_RET_802_11_MAC_ADDR : Z := 0x804d.
Definition host_RESULT_OK : Z := 0.
Definition host_ACT_READ : Z := 0.

Definition MRVL_SSID_TLV_ID : Z := 0x0000.
Definition MRVL_RATES_TLV_ID : Z := 0x0001.
Definition MRVL_PHYPARAMDSSET_TLV_ID : Z := 0x0003.
Definition MRVL_IBSSPARAMSET_TLV_ID : Z := 0x0006.
Definition MRVL_CHANNELLIST_TLV_ID : Z := 0x0101.
Definition VENDOR_SPECIFIC_221 : Z := 221.
Definition DS_PARAM_SET : Z := 3.
Definition IBSS_PARAM_SET : Z := 6.

(** [enum HostSMESmEvents]; [ETCP_INIT_RESP] is in Sys.v. *)
Definition FW_READY : Z := 0.
Definition RESTART : Z := 1.
Definition SCAN_RESP : Z := 2.
Definition AUTH_RESP : Z := 3.
Definition ASSOC_RESP : Z := 4.
Definition ASSOC_RESP_FAILED : Z := 5.
Definition DEAUTH_RESP : Z := 6.
Definition LINK_LOST : Z := 7.
Definition ADHOC_START_RESP : Z := 8.
Definition ADHOC_JOIN_RESP : Z := 9.
Definition GET_MACADDR_RESP : Z := 10.
Definition RAW_SOCK_OPEN_RESP : Z := 12.
Definition REASSOC_TIMEOUT : Z := 13.

(** ** State *)

(** [BSSDescriptor_t]; [SsId] is an array of 32 bytes and [cap_info] a word of
    bits. *)
Record bss := mkBss {
  BssId : list Z; bcn_interval : Z; cap_info : Z; ssid_Len : Z; SsId : list Z; AtimWindow : Z; Channel : Z }.

Definition no_bss : bss := mkBss (replicate 6 0) 0 0 0 (replicate 32 0) 0 0.

Definition Ibss (b : bss) : bool := Z.testbit (cap_info b) 1.
Definition Privacy (b : bss) : bool := Z.testbit (cap_info b) 4.

Inductive sme_state := DISASSOC | CONNECTED.

#[global] Instance sme_state_eq_dec : EqDecision sme_state.
Proof. solve_decision. Defined.

Record ui := mkUi {
  BSS_List : list bss; num_bss : Z; curr_bss : Z; bss_type : Z; currbss_type : Z;
  specificSSID : Z * list Z; specificBSSID : list Z; send_auth : Z;
  ui_link : Z; ui_progress : Z; ui_mac : list Z; ui_evt : Z; hostsme_state : sme_state; timer : bool;
  use_peer : Z; cmd_buf : list Z; sent : list (list Z); peers : list (list Z) }.

Definition with_list (l : list bss) (n : Z) (u : ui) : ui :=
  mkUi l n (curr_bss u) (bss_type u) (currbss_type u) (specificSSID u) (specificBSSID u) (send_auth u) (ui_link u)
    (ui_progress u) (ui_mac u) (ui_evt u) (hostsme_state u) (timer u) (use_peer u) (cmd_buf u) (sent u) (peers u).
Definition with_curr (i t : Z) (u : ui) : ui :=
  mkUi (BSS_List u) (num_bss u) i (bss_type u) t (specificSSID u) (specificBSSID u) (send_auth u) (ui_link u)
    (ui_progress u) (ui_mac u) (ui_evt u) (hostsme_state u) (timer u) (use_peer u) (cmd_buf u) (sent u) (peers u).
Definition with_auth (a : Z) (u : ui) : ui :=
  mkUi (BSS_List u) (num_bss u) (curr_bss u) (bss_type u) (currbss_type u) (specificSSID u) (specificBSSID u) a (ui_link u)
    (ui_progress u) (ui_mac u) (ui_evt u) (hostsme_state u) (timer u) (use_peer u) (cmd_buf u) (sent u) (peers u).
Definition with_ui_link (k : Z) (u : ui) : ui :=
  mkUi (BSS_List u) (num_bss u) (curr_bss u) (bss_type u) (currbss_type u) (specificSSID u) (specificBSSID u) (send_auth u) k
    (ui_progress u) (ui_mac u) (ui_evt u) (hostsme_state u) (timer u) (use_peer u) (cmd_buf u) (sent u) (peers u).
Definition with_progress (p : Z) (u : ui) : ui :=
  mkUi (BSS_List u) (num_bss u) (curr_bss u) (bss_type u) (currbss_type u) (specificSSID u) (specificBSSID u) (send_auth u) (ui_link u)
    p (ui_mac u) (ui_evt u) (hostsme_state u) (timer u) (use_peer u) (cmd_buf u) (sent u) (peers u).
Definition with_mac (m : list Z) (u : ui) : ui :=
  mkUi (BSS_List u) (num_bss u) (curr_bss u) (bss_type u) (currbss_type u) (specificSSID u) (specificBSSID u) (send_auth u) (ui_link u)
    (ui_progress u) m (ui_evt u) (hostsme_state u) (timer u) (use_peer u) (cmd_buf u) (sent u) (peers u).
Definition with_evt (e : Z) (u : ui) : ui :=
  mkUi (BSS_List u) (num_bss u) (curr_bss u) (bss_type u) (currbss_type u) (specificSSID u) (specificBSSID u) (send_auth u) (ui_link u)
    (ui_progress u) (ui_mac u) e (hostsme_state u) (timer u) (use_peer u) (cmd_buf u) (sent u) (peers u).
Definition with_state (st : sme_state) (u : ui) : ui :=
  mkUi (BSS_List u) (num_bss u) (curr_bss u) (bss_type u) (currbss_type u) (specificSSID u) (specificBSSID u) (send_auth u) (ui_link u)
    (ui_progress u) (ui_mac u) (ui_evt u) st (timer u) (use_peer u) (cmd_buf u) (sent u) (peers u).
Definition with_timer (t : bool) (u : ui) : ui :=
  mkUi (BSS_List u) (num_bss u) (curr_bss u) (bss_type u) (currbss_type u) (specificSSID u) (specificBSSID u) (send_auth u) (ui_link u)
    (ui_progress u) (ui_mac u) (ui_evt u) (hostsme_state u) t (use_peer u) (cmd_buf u) (sent u) (peers u).
Definition with_cmd (b : list Z) (l : list (list Z)) (u : ui) : ui :=
  mkUi (BSS_List u) (num_bss u) (curr_bss u) (bss_type u) (currbss_type u) (specificSSID u) (specificBSSID u) (send_auth u) (ui_link u)
    (ui_progress u) (ui_mac u) (ui_evt u) (hostsme_state u) (timer u) (use_peer u) b l (peers u).
Definition with_peer (a : list Z) (u : ui) : ui :=
  mkUi (BSS_List u) (num_bss u) (curr_bss u) (bss_type u) (currbss_type u) (specificSSID u) a (send_auth u) (ui_link u)
    (ui_progress u) (ui_mac u) (ui_evt u) (hostsme_state u) (timer u) (use_peer u) (cmd_buf u) (sent u) (peers u ++ [a]).

(** [BSS_List[i]], an array of twenty. *)
Definition bss_at (l : list bss) (i : Z) : res bss :=
  if i <? 0 then Fault else match l !! Z.to_nat i with Some b => Ok b | None => Fault end.

Definition set_bss (l : list bss) (i : Z) (b : bss) : res (list bss) :=
  if (i <? 0) || (Zlen l <=? i) then Fault else Ok (<[Z.to_nat i := b]> l).

(** ** The list of networks *)

(** [SSIDcmp(a, b) == 0] *)
Definition SSIDcmp (a b : Z * list Z) : res bool :=
  if negb (a.1 =? b.1) then Ok false
  else
    c ← memcmp a.2 0 b.2 0 a.1;
    Ok (c =? 0).

(** [n] entries are left from [i] on. *)
Fixpoint find_ssid (n : nat) (i : Z) (u : ui) : res (Z * ui) :=
  match n with
  | O => Ok (0, u)
  | S n =>
      b ← bss_at (BSS_List u) i;
      hit ← SSIDcmp (specificSSID u) (ssid_Len b, SsId b);
      if hit : bool then Ok (i, with_curr i (if Ibss b then BSS_INDEPENDENT else BSS_INFRASTRUCTURE) u)
      else find_ssid n (i + 1) u
  end.

Definition FindSSIDinList (u : ui) : res (Z * ui) := find_ssid (Z.to_nat (num_bss u)) 1 u.

Fixpoint find_bssid (n : nat) (i : Z) (u : ui) : res (Z * ui) :=
  match n with
  | O => Ok (0, u)
  | S n =>
      b ← bss_at (BSS_List u) i;
      c ← memcmp (specificBSSID u) 0 (BssId b) 0 6;
      if c =? 0 then Ok (i, with_curr i (currbss_type u) u) else find_bssid n (i + 1) u
  end.

Definition FindBSSIDinList (u : ui) : res (Z * ui) := find_bssid (Z.to_nat (num_bss u)) 1 u.

(** ** Scan results *)

(** The elements of a beacon: [bsize] bytes are left at [p]. *)
Fixpoint element_loop (fuel : nat) (r : list Z) (p bsize : Z) (b : bss) : res bss :=
  match fuel with
  | O => Diverge
  | S fuel =>
      if 2 <? bsize then
        id ← rd r p;
        len ← rd r (p + 1);
        b ← (if id =? MRVL_PHYPARAMDSSET_TLV_ID then
               chan ← rd r (p + 2);
               Ok (mkBss (BssId b) (bcn_interval b) (cap_info b) (ssid_Len b) (SsId b) (AtimWindow b) chan)
             else if id =? MRVL_IBSSPARAMSET_TLV_ID then
               atim ← get_host16 r (p + 2);
               Ok (mkBss (BssId b) (bcn_interval b) (cap_info b) (ssid_Len b) (SsId b) atim (Channel b))
             else if id =? VENDOR_SPECIFIC_221 then
               _ ← rd_range r (p + 2) 4;
               Ok b
             else Ok b);
        element_loop fuel r (p + (len + 2)) (bsize - (len + 2)) b
      else Ok b
  end.

(** The fixed fields of a beacon at [p], then its elements; [b] is the entry of
    [BSS_List] that is filled. *)
Definition parse_beacon (r : list Z) (p bsize : Z) (b : bss) : res bss :=
  id ← rd_range r p 6;
  let p := p + 6 in let bsize := bsize - 6 in
  let p := p + (1 + 8) in
  interval ← get_host16 r p;
  let p := p + 2 in let bsize := bsize - 2 in
  cap ← get_host16 r p;
  let p := p + 2 in let bsize := bsize + 2 in
  len ← rd r (p + 1);
  name ← rd_range r (p + 2) len;
  s ← wr_range (SsId b) 0 name;
  s ← wr s len 0;
  let p := p + (2 + len) in let bsize := bsize - (2 + len) in
  element_loop (S (Z.to_nat bsize)) r p bsize (mkBss id interval cap len s (AtimWindow b) (Channel b)).

(** The sets of a scan response at [p]; [i] of them are done. *)
Fixpoint scan_loop (n : nat) (i NumSets : Z) (r : list Z) (p : Z) (u : ui) : res ui :=
  match n with
  | O => Ok u
  | S n =>
      if i <? NumSets then
        beacon_size ← rd r p;
        let p := p + 2 in
        let k := num_bss u + 1 in
        b ← bss_at (BSS_List u) k;
        b ← parse_beacon r p beacon_size b;
        l ← set_bss (BSS_List u) k b;
        scan_loop n (i + 1) NumSets r (p + beacon_size) (with_list l k u)
      else Ok u
  end.

(** The response [r] has its header first; [NumSets] follows [BufSize]. *)
Definition parse_scan_result (r : list Z) (u : ui) : res ui :=
  NumSets ← rd r (8 + 2);
  scan_loop (Z.to_nat MAX_BSS_HANDLES) 0 NumSets r (8 + 3) (with_list (BSS_List u) 0 u).

(** ** Commands *)

(** The header of a command: [Msg] and [Size]; and the trigger, which hands over
    the first [Size] bytes. *)
Definition set_header (msg size : Z) (b : list Z) : res (list Z) := wr_range b 0 (le16 msg ++ le16 size).

Definition trigger (b : list Z) (u : ui) : res ui :=
  size ← get_host16 b 2;
  l ← rd_range b 0 size;
  Ok (with_cmd b (sent u ++ [l]) u).

(** A header of a type-length-value entry. *)
Definition tlv (type len : Z) : list Z := le16 type ++ le16 len.

(** An entry of the channel list; of [scanMode] two bits are assigned. *)
Definition put_channel (b : list Z) (pos chan : Z) : res (list Z) :=
  b ← wr_range b pos [0; u8 chan];
  m ← rd b (pos + 2);
  b ← wr b (pos + 2) (Z.lor (Z.land m 0xFC) 2);
  wr_range b (pos + 3) (le16 0x20 ++ le16 100).

Fixpoint put_channels (n : nat) (i : Z) (b : list Z) (pos : Z) : res (list Z) :=
  match n with
  | O => Ok b
  | S n => b ← put_channel b pos (i + 1); put_channels n (i + 1) b (pos + 7)
  end.

Definition userif_prepare_scan_cmd (ssid_scan : Z) (u : ui) : res ui :=
  let u := with_progress 1 u in
  b ← wr_range (cmd_buf u) 0 (le16 host_CMD_802_11_SCAN);
  b ← wr_range b 8 ([u8 (bss_type u)] ++ replicate 6 0);
  let u := with_auth ssid_scan u in
  let '(len, name) := specificSSID u in
  '(b, size) ← (if ssid_scan =? 1 then
                  b ← wr_range b 15 (tlv MRVL_SSID_TLV_ID len);
                  l ← rd_range name 0 len;
                  b ← wr_range b 19 l;
                  Ok (b, 15 + (4 + len))
                else Ok (b, 15));
  b ← wr_range b size (tlv MRVL_CHANNELLIST_TLV_ID (NUM_CHANNELS * 7));
  b ← put_channels (Z.to_nat NUM_CHANNELS) 0 b (size + 4);
  b ← wr_range b 2 (le16 (size + (4 + NUM_CHANNELS * 7)));
  trigger b u.

(** [AuthType] and [TimeOut] of [host_802_11Authenticate_t]. *)
Definition userif_prepare_auth_cmd (u : ui) : res ui :=
  let u := with_progress 1 u in
  b ← set_header host_CMD_802_11_AUTHENTICATE (8 + 11) (cmd_buf u);
  b ← wr_range b (8 + 6) ([0] ++ le16 0);
  trigger b (with_auth 1 u).

Definition sizeof_host_multicast_adr_t : Z := 4 + 32 * 6.

Definition userif_prepare_mcast_cmd (u : ui) : res ui :=
  let u := with_progress 1 u in
  b ← set_header host_CMD_MAC_MULTICAST_ADR (8 + sizeof_host_multicast_adr_t) (cmd_buf u);
  b ← wr_range b 8 (le16 0);
  trigger b u.

Definition userif_prepare_mcast_add_cmd (u : ui) : res ui :=
  let u := with_progress 1 u in
  b ← set_header host_CMD_MAC_MULTICAST_ADR (8 + sizeof_host_multicast_adr_t) (cmd_buf u);
  b ← wr_range b 8 (le16 1 ++ le16 1 ++ [0x01; 0x00; 0x5E; 0x00; 0x00; 0xFB]);
  trigger b u.

Definition userif_prepare_deauth_cmd (u : ui) : res ui :=
  let u := with_progress 1 u in
  n ← bss_at (BSS_List u) (curr_bss u);
  b ← set_header host_CMD_802_11_DEAUTHENTICATE (8 + 8) (cmd_buf u);
  b ← wr_range b 8 (BssId n ++ le16 3);
  trigger b u.

Definition userif_prepare_adhoc_stop_cmd (u : ui) : res ui :=
  let u := with_progress 1 u in
  b ← set_header host_CMD_802_11_AD_HOC_STOP 8 (cmd_buf u);
  trigger b u.

(** The fixed part of [IEEEtypes_AssocCmd_ext_t] (13 bytes), then the SSID, the
    channel, the rates and the channel list, each in its entry. *)
Definition userif_prepare_assoc_cmd (u : ui) : res ui :=
  let u := with_progress 1 u in
  n ← bss_at (BSS_List u) (curr_bss u);
  b ← wr_range (cmd_buf u) 0 (le16 host_CMD_802_11_ASSOCIATE);
  b ← wr_range b 8 (BssId n ++ le16 (cap_info n) ++ le16 0x100 ++ le16 (bcn_interval n) ++ [0x10]);
  b ← wr_range b 21 (tlv MRVL_SSID_TLV_ID (ssid_Len n));
  name ← rd_range (SsId n) 0 (ssid_Len n);
  b ← wr_range b 25 name;
  let pos := 25 + ssid_Len n in
  b ← wr_range b pos (tlv MRVL_PHYPARAMDSSET_TLV_ID 1 ++ [u8 (Channel n)]);
  let pos := pos + 5 in
  b ← wr_range b pos (tlv MRVL_RATES_TLV_ID G_SUPPORTED_RATES ++ SupportedRates);
  let pos := pos + 18 in
  b ← wr_range b pos (tlv MRVL_CHANNELLIST_TLV_ID 7 ++ [0; u8 (Channel n); 0; 0; 0; 0; 0]);
  b ← wr_range b 2 (le16 (pos + 11));
  trigger b u.

Definition sizeof_IEEEtypes_BssDesc_t : Z := 89.

(** [IEEEtypes_BssDesc_t]: BssId 0, SsId 6, BssType 38, BcnPeriod 39, PhyParamSet 58,
    SsParamSet 65, Cap 73, DataRates 75. *)
Definition userif_prepare_adhoc_join_cmd (u : ui) : res ui :=
  let u := with_progress 1 u in
  n ← bss_at (BSS_List u) (curr_bss u);
  b ← wr_range (cmd_buf u) 0 (le16 host_CMD_802_11_AD_HOC_JOIN);
  b ← wr_range b 8 (BssId n);
  b ← wr_range b (8 + 38) ([BSS_INDEPENDENT] ++ le16 (bcn_interval n));
  b ← wr_range b (8 + 73) (le16 (cap_info n));
  b ← wr_range b (8 + 58) [DS_PARAM_SET; 1; u8 (Channel n)];
  b ← wr_range b (8 + 65) ([IBSS_PARAM_SET; 2] ++ le16 (if AtimWindow n =? 0 then 0x10 else AtimWindow n));
  b ← wr_range b (8 + 6) (replicate 32 0);
  name ← rd_range (SsId n) 0 (ssid_Len n);
  b ← wr_range b (8 + 6) name;
  b ← wr_range b (8 + 75) SupportedRates;
  b ← wr_range b 2 (le16 (8 + sizeof_IEEEtypes_BssDesc_t));
  trigger b u.

(** [smeQ_AdhocStartCmd_t]: SsId 0, BssType 32, BcnPeriod 33, DtimPeriod 35,
    SsParamSet 36, PhyParamSet 44, CapInfo 53, OpRateSet 55. *)
Definition userif_prepare_adhoc_start_cmd (u : ui) : res ui :=
  let u := with_progress 1 u in
  let '(len, name) := specificSSID u in
  b ← wr_range (cmd_buf u) 0 (le16 host_CMD_802_11_AD_HOC_START);
  b ← wr_range b (8 + 32) ([BSS_INDEPENDENT] ++ le16 0 ++ [0x10]);
  b ← wr_range b (8 + 53) (le16 2);
  b ← wr_range b (8 + 44) [DS_PARAM_SET; 1; 11];
  b ← wr_range b 8 (replicate 32 0);
  l ← rd_range name 0 len;
  b ← wr_range b 8 l;
  b ← wr b (8 + 55) 0;
  b ← wr_range b (8 + 36) ([IBSS_PARAM_SET; 2] ++ le16 0x10);
  b ← wr_range b 2 (le16 (8 + sizeof_IEEEtypes_BssDesc_t));
  trigger b (with_curr (curr_bss u) BSS_INDEPENDENT u).

Definition userif_prepare_macaddr_get_cmd (u : ui) : res ui :=
  let u := with_progress 1 u in
  b ← set_header host_CMD_802_11_MAC_ADDR (8 + 2 + 6) (cmd_buf u);
  b ← wr_range b 8 (le16 host_ACT_READ);
  trigger b (with_evt GET_MACADDR_RESP u).

Definition E_TCP_CMD_Socket : Z := 0x02.
Definition SOCK_RAW : Z := 3.
Definition IPPROTO_ICMP : Z := 1.

(** The largest member of the union in [TCP_CNFG] is [TCP_CNFG_SetSockOpt]. *)
Definition sizeof_TCP_CNFG : Z := 4 + (5 * 4 + 16).

(** [TCP_CNFG_Socket]: nAddressFamily 0, nSocketType 4, nProtocol 8. *)
Definition userif_prepare_open_raw_socket (u : ui) : res ui :=
  let u := with_progress 1 u in
  b ← set_header host_CMD_TCP (8 + sizeof_TCP_CNFG) (cmd_buf u);
  b ← wr_range b 8 (le16 E_TCP_CMD_Socket);
  b ← wr_range b (8 + 4 + 4) (le_bytes SOCK_RAW);
  b ← wr_range b (8 + 4 + 8) (le_bytes IPPROTO_ICMP);
  trigger b (with_evt RAW_SOCK_OPEN_RESP u).

(** ** The state machine (hostsme_sm.c) *)

(** Both arms of [TimerRearm] and [TimerFireIn]: the timer runs. *)
Definition arm_timer (u : ui) : ui := with_timer true u.

Definition join_or (other : ui -> res ui) (u : ui) : res ui :=
  b ← bss_at (BSS_List u) (curr_bss u);
  if Ibss b then userif_prepare_adhoc_join_cmd u else other u.

Definition HostSmeState_Handler (evt : Z) (u : ui) : res ui :=
  match hostsme_state u with
  | DISASSOC =>
      if (evt =? FW_READY) || (evt =? RESTART) then Ok u
      else if evt =? SCAN_RESP then
        if negb (send_auth u =? 0) then
          '(i, u) ← FindSSIDinList u;
          if negb (i =? 0) then join_or userif_prepare_auth_cmd u
          else if bss_type u =? BSS_INDEPENDENT then userif_prepare_adhoc_start_cmd u
          else Ok (with_progress 0 u)
        else Ok u
      else if (evt =? AUTH_RESP) || (evt =? REASSOC_TIMEOUT) then join_or userif_prepare_assoc_cmd u
      else if (evt =? ADHOC_START_RESP) || (evt =? ADHOC_JOIN_RESP) || (evt =? ASSOC_RESP) then
        Ok (with_state CONNECTED u)
      else if evt =? ASSOC_RESP_FAILED then Ok (arm_timer u)
      else Ok u
  | CONNECTED =>
      if evt =? LINK_LOST then Ok (with_state DISASSOC (arm_timer u))
      else if (evt =? RESTART) || (evt =? DEAUTH_RESP) then Ok (with_state DISASSOC u)
      else Ok u
  end.

Definition HostSMESmCtor (u : ui) : ui := with_state DISASSOC u.

(** ** Responses of the firmware *)

(** The common part of a successful association or join. *)
Definition link_up (u : ui) : res ui :=
  u ← (if negb (use_peer u =? 0) then
         b ← bss_at (BSS_List u) (curr_bss u);
         Ok (with_peer (BssId b) u)
       else Ok u);
  Ok (with_progress 0 (with_ui_link 1 u)).

Definition process_cbproc_response (r : list Z) (u : ui) : res ui :=
  MsgType ← get_host16 r 0;
  if MsgType =? host_RET_MAC_MULTICAST_ADR then
    Action ← get_host16 r 8;
    _ ← (if Action =? 0 then n ← get_host16 r 10; rd_range r 12 (n * 6) else Ok []);
    Ok (with_progress 0 u)
  else if MsgType =? host_RET_802_11_SCAN then
    NumSets ← rd r (8 + 2);
    u ← (if negb (NumSets =? 0) then parse_scan_result r u else Ok (with_curr 0 (currbss_type u) u));
    let u := with_evt SCAN_RESP u in
    Ok (if send_auth u =? 0 then with_progress 0 u else u)
  else if MsgType =? host_RET_802_11_MAC_ADDR then
    m ← rd_range (cmd_buf u) (8 + 2) 6;
    Ok (with_progress 0 (with_mac m u))
  else if MsgType =? host_RET_802_11_ASSOCIATE then
    assoc_resp ← get_host16 r (8 + 2);
    if negb (assoc_resp =? 0) then Ok (with_progress 0 (with_evt ASSOC_RESP_FAILED u))
    else link_up (with_evt ASSOC_RESP u)
  else if MsgType =? host_RET_802_11_AD_HOC_START then
    link_up (with_evt ADHOC_JOIN_RESP (with_evt ADHOC_START_RESP u))
  else if MsgType =? host_RET_802_11_AD_HOC_JOIN then link_up (with_evt ADHOC_JOIN_RESP u)
  else if (MsgType =? host_RET_802_11_DEAUTHENTICATE) || (MsgType =? host_RET_802_11_AD_HOC_STOP) then
    u ← userif_prepare_scan_cmd 1 u;
    Ok (with_evt DEAUTH_RESP u)
  else if MsgType =? host_RET_802_11_AUTHENTICATE then Ok (with_evt AUTH_RESP u)
  else Ok (with_progress 0 u).

(** The events one wait returns; [userif_ReAssocActTimeOut] triggers the third. *)
Record nohost := mkNohost { NO_HOST : bool; FW_READY_EV : bool; MAC_EV : bool; REASSOC_EV : bool }.

Definition userif_ReAssocActTimeOut (e : nohost) : nohost := mkNohost (NO_HOST e) (FW_READY_EV e) (MAC_EV e) true.

(** One iteration of the task, with the response buffer [r]. *)
Definition UserIF_Main (e : nohost) (r : list Z) (u : ui) : res ui :=
  let u := if FW_READY_EV e then with_evt FW_READY u else u in
  let u := if MAC_EV e then with_evt LINK_LOST (with_ui_link 0 u) else u in
  let u := if REASSOC_EV e then with_evt REASSOC_TIMEOUT u else u in
  u ← (if NO_HOST e then
         Result ← get_host16 r 6;
         if negb (Result =? host_RESULT_OK) then Ok (with_evt RESTART (with_progress 0 u))
         else process_cbproc_response r u
       else Ok u);
  HostSmeState_Handler (ui_evt u) u.

(** ** Start

    [created] is the status of [tx_thread_create]; [ticks] the table of tick
    functions, which gets [cmd_handle_serial] before [cmd_init] is called. *)
Definition cmd_handle_serial_fn : Z := 2.

Definition userif_init {X} (created : Z) (req : list Z) (install : Z -> X -> res (Z * X)) (cmd_init : X -> X) (x : X) (u : ui) :
    res (Z * X * ui) :=
  if negb (created =? TX_SUCCESS) then Ok (FAIL, x, u)
  else
    let u := HostSMESmCtor (with_cmd req (sent u) u) in
    let u := with_progress 0 (with_ui_link 0 u) in
    let u := mkUi (BSS_List u) (num_bss u) (curr_bss u) BSS_ANY (currbss_type u) (specificSSID u) (specificBSSID u) (send_auth u) (ui_link u)
               (ui_progress u) (ui_mac u) (ui_evt u) (hostsme_state u) (timer u) 0 (cmd_buf u) (sent u) (peers u) in
    '(_, x) ← install cmd_handle_serial_fn x;
    Ok (SUCCESS, cmd_init x, u).
