(* ===== verification/UserIfTheorems.v ===== *)
(** * Properties of the link management (userif.c, hostsme_sm.c)

    What a scan leaves in [BSS_List], how a connection is made, and what the state
    machine knows of the link. *)
From S2P Require Import Prelude.
From S2P Require Import Buffer.
From S2P Require Import Sys.
From S2P Require Import SysSpec.
From S2P Require Import Console.
From S2P Require Import TxQueue.
From S2P Require Import Eping.
From S2P Require Import EpingTheorems.
From S2P Require Import UserIf.

(** ** Beacons *)

(** A beacon as the firmware reports it; [bc_elements] are the elements behind the
    SSID. *)
Record beacon := mkBeacon {
  bc_id : list Z; bc_rssi : Z; bc_time : list Z; bc_interval : Z; bc_cap : Z; bc_ssid : list Z; bc_elements : list Z }.

Definition beacon_bytes (c : beacon) : list Z :=
  bc_id c ++ [bc_rssi c] ++ bc_time c ++ le16 (bc_interval c) ++ le16 (bc_cap c) ++ [0; Zlen (bc_ssid c)] ++ bc_ssid c ++ bc_elements c.

(** A set of a scan response: the size and the beacon. *)
Definition set_bytes (c : beacon) : list Z := le16 (Zlen (beacon_bytes c)) ++ beacon_bytes c.

Definition beacon_ok (c : beacon) : Prop :=
  Zlen (bc_id c) = 6 /\ Zlen (bc_time c) = 8 /\ Zlen (bc_ssid c) <= 31 /\
  word16 (bc_interval c) /\ word16 (bc_cap c) /\ Zlen (beacon_bytes c) <= 255.

#[global] Instance beacon_ok_dec c : Decision (beacon_ok c).
Proof. unfold beacon_ok, word16. apply _. Defined.

(** The entry has the fixed fields of the beacon. *)
Record describes (b : bss) (c : beacon) : Prop := {
  d_id : BssId b = bc_id c;
  d_interval : bcn_interval b = bc_interval c;
  d_cap : cap_info b = bc_cap c;
  d_len : ssid_Len b = Zlen (bc_ssid c);
  d_ssid : holds (SsId b) 0 (bc_ssid c ++ [0]) }.

Lemma get_host16_holds b i v : holds b i (le16 v) -> word16 v -> get_host16 b i = Ok v.
Proof.
  unfold le16, word16, u8. intros H Hv. apply holds_cons in H as [H1 H2]. apply holds_rd in H2.
  unfold get_host16. rewrite H1. cbn [mbind res_bind]. rewrite H2. cbn [mbind res_bind mret res_ret]. f_equal.
  rewrite Z.shiftr_div_pow2 by lia. change (2 ^ 8) with 256. Z.to_euclidean_division_equations; lia.
Qed.

(** ** The elements *)

(** The elements may change these two fields only. *)
Definition same_fixed (b b' : bss) : Prop :=
  BssId b' = BssId b /\ bcn_interval b' = bcn_interval b /\ cap_info b' = cap_info b /\ ssid_Len b' = ssid_Len b /\ SsId b' = SsId b.

Lemma element_loop_ok fuel r p bsize b :
  bytes r -> 0 <= p -> p + bsize + 4 <= Zlen r -> bsize < Z.of_nat fuel -> (0 < fuel)%nat ->
  exists b', element_loop fuel r p bsize b = Ok b' /\ same_fixed b b'.
Proof.
  revert p bsize b. induction fuel as [|fuel IH]; intros p bsize b Hr Hp Hlen Hf Hf0; [lia|]. cbn [element_loop].
  destruct (Z.ltb_spec 2 bsize) as [Hb | Hb]; [|by exists b].
  assert (Hrd : forall i, 0 <= i <= 5 -> exists v, rd r (p + i) = Ok v) by (intros; apply rd_in_bounds; lia).
  destruct (Hrd 0) as (id & Hid); [lia|]. rewrite Z.add_0_r in Hid. destruct (Hrd 1) as (len & Hl); [lia|].
  destruct (Hrd 2) as (v2 & H2); [lia|]. destruct (Hrd 3) as (v3 & H3); [lia|].
  pose proof (rd_byte _ _ _ Hr Hl) as Bl. unfold is_byte in Bl.
  assert (Hstep : forall b1, same_fixed b b1 -> exists b', element_loop fuel r (p + (len + 2)) (bsize - (len + 2)) b1 = Ok b' /\ same_fixed b b').
  { intros b1 H1. destruct (IH (p + (len + 2)) (bsize - (len + 2)) b1) as (b' & He & Hs); [done|lia..|].
    exists b'. split; [done|]. unfold same_fixed in *. destruct_and!. split_and!; congruence. }
  rewrite Hid. cbn [mbind res_bind]. rewrite Hl. cbn [mbind res_bind].
  destruct (id =? MRVL_PHYPARAMDSSET_TLV_ID); [|destruct (id =? MRVL_IBSSPARAMSET_TLV_ID); [|destruct (id =? VENDOR_SPECIFIC_221)]].
  - rewrite H2. cbn [mbind res_bind]. by apply Hstep.
  - unfold get_host16. replace (p + 2 + 1) with (p + 3) by lia. rewrite H2. cbn [mbind res_bind]. rewrite H3. cbn [mbind res_bind mret res_ret]. by apply Hstep.
  - destruct (holds_exists r (p + 2) 4) as (l & Ll & Hh); [lia..|]. rewrite (proj2 (rd_range_holds r (p + 2) 4 l)) by done.
    cbn [mbind res_bind]. by apply Hstep.
  - cbn [mbind res_bind]. by apply Hstep.
Qed.

Lemma parse_beacon_ok r p c b :
  bytes r -> holds r p (beacon_bytes c) -> beacon_ok c -> p + Zlen (beacon_bytes c) + 17 <= Zlen r -> Zlen (SsId b) = 32 ->
  exists b', parse_beacon r p (Zlen (beacon_bytes c)) b = Ok b' /\ describes b' c /\ Zlen (SsId b') = 32.
Proof.
  intros Hr Hh (L1 & L2 & L3 & Wi & Wc & Ls) Hlen HS. pose proof (holds_bounds _ _ _ Hh) as [Hp _].
  pose proof (Zlen_nonneg (bc_ssid c)) as Hn. pose proof (Zlen_nonneg (bc_elements c)) as He.
  assert (Hz : Zlen (beacon_bytes c) = 21 + Zlen (bc_ssid c) + Zlen (bc_elements c)).
  { unfold beacon_bytes. zlen. rewrite L1, L2, !le16_Zlen. lia. }
  rewrite Hz in *. unfold beacon_bytes in Hh. rewrite !holds_app in Hh. zlen. rewrite L1, L2, !le16_Zlen in Hh.
  destruct Hh as (H1 & _ & _ & H4 & H5 & H6 & H7 & _).
  apply holds_cons in H6 as [_ H6]. apply holds_rd in H6.
  unfold parse_beacon. rewrite (proj2 (rd_range_holds r p 6 (bc_id c))) by done. cbn [mbind res_bind].
  rewrite (get_host16_holds r (p + 6 + (1 + 8)) (bc_interval c)); [|eapply holds_at; [exact H4|lia]|done]. cbn [mbind res_bind].
  rewrite (get_host16_holds r _ (bc_cap c)); [|eapply holds_at; [exact H5|lia]|done]. cbn [mbind res_bind].
  replace (p + 6 + (1 + 8) + 2 + 2 + 1) with (p + 6 + (1 + 0) + 8 + 2 + 2 + 1) by lia. rewrite H6. cbn [mbind res_bind].
  rewrite (proj2 (rd_range_holds r (p + 6 + (1 + 8) + 2 + 2 + 2) (Zlen (bc_ssid c)) (bc_ssid c))); [|split; [done|eapply holds_at; [exact H7|lia]]]. cbn [mbind res_bind].
  destruct (wr_range_exists (SsId b) 0 (bc_ssid c)) as (s1 & E1); [lia..|]. pose proof (wr_range_Zlen _ _ _ _ E1) as Z1.
  destruct (wr_range_exists s1 (Zlen (bc_ssid c)) [0]) as (s2 & E2); [lia|zlen; lia|]. pose proof (wr_range_Zlen _ _ _ _ E2) as Z2.
  rewrite E1. cbn [mbind res_bind]. unfold wr. change (u8 0) with 0. rewrite E2. cbn [mbind res_bind].
  match goal with |- context [element_loop ?f r ?q ?n ?e] => destruct (element_loop_ok f r q n e) as (b' & -> & Hs) end; [done|lia..|].
  exists b'. destruct Hs as (S1 & S2 & S3 & S4 & S5). cbn in *. split; [done|]. split; [|congruence].
  split; try done. rewrite S5. apply holds_app. split.
  - apply (kept_write _ _ _ _ E2); [left; lia|]. by eapply wr_range_holds.
  - by eapply wr_range_holds.
Qed.

(** ** Scans *)

(** [BSS_List] is an array of twenty entries with SSIDs of 32 bytes. *)
Definition list_ok (l : list bss) : Prop := Zlen l = 20 /\ Forall (fun b => Zlen (SsId b) = 32) l.

#[global] Instance list_ok_dec l : Decision (list_ok l).
Proof. unfold list_ok. apply _. Defined.

Lemma bss_at_ok l i : list_ok l -> 0 <= i < 20 -> exists b, bss_at l i = Ok b /\ l !! Z.to_nat i = Some b /\ Zlen (SsId b) = 32.
Proof.
  intros [Hl Hs] Hi. unfold bss_at. dec. destruct (l !! Z.to_nat i) as [b|] eqn:E.
  - exists b. split_and!; try done. exact (proj1 (list_relations.list.Forall_lookup _ _) Hs _ _ E).
  - apply lookup_ge_None in E. unfold Zlen in Hl. lia.
Qed.

Lemma set_bss_ok l i b : list_ok l -> 0 <= i < 20 -> Zlen (SsId b) = 32 -> set_bss l i b = Ok (<[Z.to_nat i := b]> l) /\ list_ok (<[Z.to_nat i := b]> l).
Proof.
  intros [Hl Hs] Hi Hb. unfold set_bss. rewrite Hl. dec. split; [done|]. split; [unfold Zlen in *; by rewrite length_insert|].
  by apply Forall_insert.
Qed.

Definition sets_bytes (cs : list beacon) : list Z := mjoin (set_bytes <$> cs).

Lemma sets_cons c cs : sets_bytes (c :: cs) = set_bytes c ++ sets_bytes cs.
Proof. done. Qed.

(** One set: the size is its first byte. *)
Lemma set_parsed r p c cs l k :
  bytes r -> holds r p (sets_bytes (c :: cs)) -> beacon_ok c -> p + Zlen (sets_bytes (c :: cs)) + 17 <= Zlen r -> list_ok l -> 0 <= k < 20 ->
  rd r p = Ok (Zlen (beacon_bytes c)) /\ holds r (p + 2 + Zlen (beacon_bytes c)) (sets_bytes cs) /\
  Zlen (sets_bytes (c :: cs)) = 2 + Zlen (beacon_bytes c) + Zlen (sets_bytes cs) /\
  exists b b', bss_at l k = Ok b /\ parse_beacon r (p + 2) (Zlen (beacon_bytes c)) b = Ok b' /\ describes b' c /\
    set_bss l k b' = Ok (<[Z.to_nat k := b']> l) /\ list_ok (<[Z.to_nat k := b']> l).
Proof.
  intros Hr Hh Hc Hlen Hl Hk. destruct (bss_at_ok l k Hl Hk) as (b & Hb & _ & Hb32).
  assert (Hz : Zlen (sets_bytes (c :: cs)) = 2 + Zlen (beacon_bytes c) + Zlen (sets_bytes cs)).
  { rewrite sets_cons. unfold set_bytes. zlen. rewrite le16_Zlen. lia. }
  rewrite Hz in Hlen. rewrite sets_cons in Hh. unfold set_bytes at 1 in Hh. rewrite !holds_app in Hh.
  destruct Hh as ((H1 & H2) & H3). rewrite le16_Zlen in H2. pose proof (Zlen_nonneg (sets_bytes cs)).
  destruct (parse_beacon_ok r (p + 2) c b) as (b' & Hp & Hd & H32); [done|done|done|lia|done|].
  destruct (set_bss_ok l k b' Hl Hk H32) as [Hs Hl']. split_and!; try done.
  - unfold le16 in H1. apply holds_cons in H1 as [H1 _]. rewrite H1. f_equal. apply u8_id. destruct Hc as (_ & _ & _ & _ & _ & ?).
    pose proof (Zlen_nonneg (beacon_bytes c)). unfold is_byte. lia.
  - eapply holds_at; [exact H3|]. unfold set_bytes. zlen. rewrite le16_Zlen. lia.
  - by exists b, b'.
Qed.

Lemma scan_loop_ok cs : forall n i r p u,
  bytes r -> holds r p (sets_bytes cs) -> Forall beacon_ok cs -> p + Zlen (sets_bytes cs) + 17 <= Zlen r ->
  list_ok (BSS_List u) -> 0 <= num_bss u -> num_bss u + Zlen cs <= 19 -> (length cs < n)%nat ->
  exists l, scan_loop n i (i + Zlen cs) r p u = Ok (with_list l (num_bss u + Zlen cs) u) /\ list_ok l /\
    (forall j, j <= num_bss u -> l !! Z.to_nat j = BSS_List u !! Z.to_nat j) /\
    forall k c, cs !! k = Some c -> exists b, l !! Z.to_nat (num_bss u + 1 + Z.of_nat k) = Some b /\ describes b c.
Proof.
  induction cs as [|c cs IH]; intros n i r p u Hr Hh Hcs Hlen Hl Hn Hmax Hf; (destruct n as [|n]; [cbn in Hf; lia|]); cbn [scan_loop].
  - exists (BSS_List u). zlen. rewrite !Z.add_0_r. dec. by destruct u.
  - apply Forall_cons_iff in Hcs as [Hc Hcs]. pose proof (Zlen_nonneg cs) as Hz. rewrite Zlen_cons in *. dec.
    destruct (set_parsed r p c cs (BSS_List u) (num_bss u + 1) Hr Hh Hc Hlen Hl) as (H1 & H2 & H3 & b & b' & H4 & H5 & H6 & H7 & H8); [lia|].
    rewrite H1. cbn [mbind res_bind]. rewrite H4. cbn [mbind res_bind]. rewrite H5. cbn [mbind res_bind]. rewrite H7. cbn [mbind res_bind].
    set (l1 := <[_ := b']> _) in *. rewrite H3 in Hlen.
    destruct (IH n (i + 1) r (p + 2 + Zlen (beacon_bytes c)) (with_list l1 (num_bss u + 1) u)) as (l & E & Hl' & Ho & Hd); [done|done|done|lia|done|cbn; lia|cbn; lia|cbn in Hf; lia|].
    exists l. cbn [num_bss with_list] in *. split.
    { replace (i + (1 + Zlen cs)) with (i + 1 + Zlen cs) by lia. rewrite E. f_equal. unfold with_list. cbn. f_equal. lia. }
    split; [done|]. split.
    + intros j Hj. rewrite Ho by lia. cbn. unfold l1. apply list_lookup_insert_ne. lia.
    + intros [|k] c' Hk.
      * injection Hk as <-. exists b'. split; [|done]. rewrite Ho by lia. cbn. unfold l1. rewrite Z.add_0_r. apply list_lookup_insert_eq.
        destruct Hl as [Hl _]. unfold Zlen in Hl. lia.
      * destruct (Hd k c' Hk) as (e & He & Hde). exists e. split; [|done]. rewrite <- He. f_equal. lia.
Qed.

(** A scan response with the sets [cs]. *)
Definition scan_response (r : list Z) (cs : list beacon) : Prop :=
  bytes r /\ holds r 10 ([Zlen cs] ++ sets_bytes cs) /\ 11 + Zlen (sets_bytes cs) + 17 <= Zlen r /\ Forall beacon_ok cs.

#[global] Instance scan_response_dec r cs : Decision (scan_response r cs).
Proof. unfold scan_response, bytes, is_byte. apply _. Defined.

Lemma scan_ok r cs u :
  scan_response r cs -> Zlen cs <= 19 -> list_ok (BSS_List u) ->
  exists l, parse_scan_result r u = Ok (with_list l (Zlen cs) u) /\ list_ok l /\
    forall k c, cs !! k = Some c -> exists b, l !! S k = Some b /\ describes b c.
Proof.
  intros (Hr & Hh & Hlen & Hcs) Hn Hl. unfold parse_scan_result. apply holds_cons in Hh as [H1 H2]. change (10 + 1) with 11 in H2.
  change (8 + 2) with 10. rewrite H1. cbn [mbind res_bind]. change (8 + 3) with 11.
  destruct (scan_loop_ok cs (Z.to_nat MAX_BSS_HANDLES) 0 r 11 (with_list (BSS_List u) 0 u)) as (l & E & Hl' & _ & Hd); try done; try (cbn; lia).
  { unfold Zlen in Hn. change (Z.to_nat MAX_BSS_HANDLES) with 20%nat. lia. }
  exists l. change (0 + Zlen cs) with (Zlen cs) in E. rewrite E. split; [done|]. split; [done|].
  intros k c Hk. destruct (Hd k c Hk) as (b & Hb & Hdb). exists b. split; [|done]. rewrite <- Hb. f_equal. cbn. lia.
Qed.

(** C31: A scan response with up to nineteen beacons, with SSIDs of up to 31 bytes
    and sizes below 256, and with room behind the last one, puts the address, the beacon interval, the capabilities and
    the SSID of the k-th beacon into entry k of [BSS_List] (counted from 1). *)
Theorem parse_scan_result_correct r cs u :
  scan_response r cs -> Zlen cs <= 19 -> list_ok (BSS_List u) ->
  exists u', parse_scan_result r u = Ok u' /\ num_bss u' = Zlen cs /\
    forall k c, cs !! k = Some c -> exists b, bss_at (BSS_List u') (Z.of_nat k + 1) = Ok b /\ describes b c.
Proof.
  intros H Hn Hl. destruct (scan_ok r cs u H Hn Hl) as (l & E & Hl' & Hd). eexists. split; [exact E|]. split; [done|].
  intros k c Hk. destruct (Hd k c Hk) as (b & Hb & Hdb). exists b. split; [|done]. unfold bss_at. dec. cbn.
  replace (Z.to_nat (Z.of_nat k + 1)) with (S k) by lia. by rewrite Hb.
Qed.

Lemma scan_loop_over cs : forall n i r p u,
  bytes r -> holds r p (sets_bytes cs) -> Forall beacon_ok cs -> p + Zlen (sets_bytes cs) + 17 <= Zlen r ->
  list_ok (BSS_List u) -> 0 <= num_bss u <= 19 -> 20 <= num_bss u + Zlen cs -> 20 - num_bss u <= Z.of_nat n ->
  scan_loop n i (i + Zlen cs) r p u = Fault.
Proof.
  induction cs as [|c cs IH]; intros n i r p u Hr Hh Hcs Hlen Hl Hn Hmax Hf; [rewrite Zlen_nil in *; lia|].
  destruct n as [|n]; [lia|]. cbn [scan_loop]. apply Forall_cons_iff in Hcs as [Hc Hcs]. pose proof (Zlen_nonneg cs) as Hz.
  rewrite Zlen_cons in *. dec. destruct (Z.eq_dec (num_bss u) 19) as [E | E].
  - destruct (set_parsed r p c cs (BSS_List u) 0 Hr Hh Hc Hlen Hl ltac:(lia)) as (H1 & _). rewrite H1, E. cbn [mbind res_bind].
    change (19 + 1) with 20. assert (Hf0 : bss_at (BSS_List u) 20 = Fault); [|by rewrite Hf0].
    destruct Hl as [Hl _]. unfold bss_at. rewrite (lookup_ge_None_2 (BSS_List u)); [done|]. unfold Zlen in Hl. lia.
  - destruct (set_parsed r p c cs (BSS_List u) (num_bss u + 1) Hr Hh Hc Hlen Hl) as (H1 & H2 & H3 & b & b' & H4 & H5 & H6 & H7 & H8); [lia|].
    rewrite H1. cbn [mbind res_bind]. rewrite H4. cbn [mbind res_bind]. rewrite H5. cbn [mbind res_bind]. rewrite H7. cbn [mbind res_bind].
    replace (i + (1 + Zlen cs)) with (i + 1 + Zlen cs) by lia. rewrite H3 in Hlen. apply IH; try done; try (cbn; lia).
Qed.

(** C38: A scan that finds twenty networks or more writes behind the end of
    [BSS_List]: its entries are counted from 1, and the array has twenty. *)
Theorem scan_overflow r cs u :
  scan_response r cs -> 20 <= Zlen cs -> list_ok (BSS_List u) -> parse_scan_result r u = Fault.
Proof.
  intros (Hr & Hh & Hlen & Hcs) Hn Hl. unfold parse_scan_result. apply holds_cons in Hh as [H1 H2]. change (10 + 1) with 11 in H2.
  change (8 + 2) with 10. rewrite H1. cbn [mbind res_bind].
  apply (scan_loop_over cs (Z.to_nat MAX_BSS_HANDLES) 0 r 11 (with_list (BSS_List u) 0 u)); try done; cbn; lia.
Qed.

(** ** Looking up a network *)

Lemma lex_sign_eq l1 l2 : length l1 = length l2 -> lex_sign l1 l2 = 0 <-> l1 = l2.
Proof.
  revert l2. induction l1 as [|x l1 IH]; intros [|y l2] H; cbn in *; try done. injection H as H.
  destruct (Z.ltb_spec y x); [split; [done|intros [= -> ->]; lia]|]. destruct (Z.ltb_spec x y); [split; [done|intros [= -> ->]; lia]|].
  rewrite (IH l2 H). assert (x = y) as -> by lia. split; [by intros ->|by intros [=]].
Qed.

Lemma SSIDcmp_ok a b s1 s2 :
  a.1 = Zlen s1 -> b.1 = Zlen s2 -> holds a.2 0 s1 -> holds b.2 0 s2 -> SSIDcmp a b = Ok (bool_decide (s1 = s2)).
Proof.
  intros La Lb Ha Hb. unfold SSIDcmp. rewrite La, Lb. destruct (Z.eqb_spec (Zlen s1) (Zlen s2)) as [E | E]; cbn [negb].
  - unfold memcmp. rewrite (proj2 (rd_range_holds a.2 0 (Zlen s1) s1)) by done. cbn [mbind res_bind].
    rewrite (proj2 (rd_range_holds b.2 0 (Zlen s1) s2)) by done. cbn [mbind res_bind mret res_ret]. f_equal.
    assert (Hl : length s1 = length s2) by (unfold Zlen in E; lia).
    apply Bool.eq_iff_eq_true. by rewrite Z.eqb_eq, bool_decide_eq_true, lex_sign_eq.
  - f_equal. symmetry. apply bool_decide_eq_false. by intros ->.
Qed.

(** The wanted SSID. *)
Definition wants (u : ui) (s : list Z) : Prop := (specificSSID u).1 = Zlen s /\ holds (specificSSID u).2 0 s.

Lemma find_ssid_ok cs : forall n i u s,
  wants u s -> (forall k c, cs !! k = Some c -> exists b, BSS_List u !! Z.to_nat (i + Z.of_nat k) = Some b /\ describes b c) ->
  0 <= i -> n = length cs ->
  match list_find (fun c => bc_ssid c = s) cs with
  | Some (k, c) => find_ssid n i u = Ok (i + Z.of_nat k, with_curr (i + Z.of_nat k) (if Z.testbit (bc_cap c) 1 then BSS_INDEPENDENT else BSS_INFRASTRUCTURE) u)
  | None => find_ssid n i u = Ok (0, u)
  end.
Proof.
  induction cs as [|c cs IH]; intros n i u s Hs Hd Hi ->; [done|]. cbn [length find_ssid list_find].
  destruct (Hd 0%nat c eq_refl) as (b & Hb & Db). rewrite Z.add_0_r in Hb. unfold bss_at at 1 2. dec. rewrite Hb. cbn [mbind res_bind].
  destruct Hs as [Hs1 Hs2]. destruct (Db) as [Di Dn Dc Dl Ds]. apply holds_app in Ds as [Ds _].
  rewrite (SSIDcmp_ok _ _ s (bc_ssid c)) by (done || by rewrite Dl). cbn [mbind res_bind].
  destruct (decide (bc_ssid c = s)) as [E | E].
  - rewrite bool_decide_eq_true_2 by done. rewrite Z.add_0_r. unfold Ibss. by rewrite Dc.
  - rewrite bool_decide_eq_false_2 by done. specialize (IH (length cs) (i + 1) u s (conj Hs1 Hs2)).
    assert (Hd' : forall k c, cs !! k = Some c -> exists b, BSS_List u !! Z.to_nat (i + 1 + Z.of_nat k) = Some b /\ describes b c).
    { intros k c' Hk. destruct (Hd (S k) c' Hk) as (b' & Hb' & ?). exists b'. split; [|done]. rewrite <- Hb'. f_equal. lia. }
    specialize (IH Hd' ltac:(lia) eq_refl). destruct (list_find (fun c => bc_ssid c = s) cs) as [[k c']|]; cbn; [|done].
    rewrite IH. by replace (i + 1 + Z.of_nat k) with (i + Z.of_nat (S k)) by lia.
Qed.

(** ** Commands *)

Lemma holds_prefix b n l k m : rd_range b 0 n = Ok l -> holds b k m -> k + Zlen m <= n -> holds l k m.
Proof.
  intros Hl Hm Hk. apply rd_range_holds in Hl as [-> Hl]. apply holds_lookup in Hl as (_ & _ & Hl). apply holds_lookup in Hm as (H0 & _ & Hm).
  apply holds_lookup. split; [done|]. split; [done|]. intros j Hj. rewrite <- (Hm j Hj), <- (Hl (Z.to_nat k + j)%nat); [done|].
  unfold Zlen in *. lia.
Qed.

(** The firmware gets the first [Size] bytes of the buffer. *)
Lemma trigger_ok b size u :
  holds b 2 (le16 size) -> word16 size -> size <= Zlen b ->
  exists l, trigger b u = Ok (with_cmd b (sent u ++ [l]) u) /\ Zlen l = size /\
    forall k m, holds b k m -> k + Zlen m <= size -> holds l k m.
Proof.
  intros Hs Hw Hb. unfold trigger. rewrite (get_host16_holds _ _ _ Hs Hw). cbn [mbind res_bind]. unfold word16 in Hw.
  destruct (holds_exists b 0 size) as (l & Ll & Hl); [lia..|]. assert (Hr : rd_range b 0 size = Ok l) by by apply rd_range_holds.
  rewrite Hr. exists l. split; [done|]. split; [done|]. intros k m Hm Hk. by eapply holds_prefix.
Qed.

(** A command for the firmware: its code, and its size in the header. *)
Definition command (msg : Z) (l : list Z) : Prop := holds l 0 (le16 msg ++ le16 (Zlen l)).

Lemma auth_cmd_ok u :
  128 <= Zlen (cmd_buf u) ->
  exists b l, userif_prepare_auth_cmd u = Ok (with_cmd b (sent u ++ [l]) (with_auth 1 (with_progress 1 u))) /\
    Zlen b = Zlen (cmd_buf u) /\ command host_CMD_802_11_AUTHENTICATE l.
Proof.
  intros Hb. unfold userif_prepare_auth_cmd, set_header. cbn [cmd_buf with_progress]. do 2 write_range.
  destruct (trigger_ok b0 19 (with_auth 1 (with_progress 1 u))) as (l & Hl & Ll & Hk).
  - assert (H : holds b0 0 (le16 host_CMD_802_11_AUTHENTICATE ++ le16 (8 + 11))) by stored. by apply holds_app in H as [_ H].
  - done.
  - lia.
  - exists b0, l. split; [exact Hl|]. split; [lia|]. unfold command. rewrite Ll. apply Hk; [stored|done].
Qed.

Lemma assoc_cmd_ok u n c :
  bss_at (BSS_List u) (curr_bss u) = Ok n -> describes n c -> beacon_ok c -> 128 <= Zlen (cmd_buf u) ->
  exists b l, userif_prepare_assoc_cmd u = Ok (with_cmd b (sent u ++ [l]) (with_progress 1 u)) /\
    Zlen b = Zlen (cmd_buf u) /\ command host_CMD_802_11_ASSOCIATE l /\
    holds l 8 (bc_id c) /\ holds l 21 (tlv MRVL_SSID_TLV_ID (Zlen (bc_ssid c)) ++ bc_ssid c).
Proof.
  intros Hn [D1 D2 D3 D4 D5] (L1 & _ & L3 & Wi & Wc & _) Hb. unfold userif_prepare_assoc_cmd. cbn [cmd_buf with_progress BSS_List curr_bss].
  rewrite Hn. cbn [mbind res_bind]. rewrite D1, D2, D3, D4. unfold tlv. apply holds_app in D5 as [D5 _].
  pose proof (Zlen_nonneg (bc_ssid c)) as Hz. assert (Lr : Zlen SupportedRates = 14) by done.
  do 3 write_range. rewrite (proj2 (rd_range_holds (SsId n) 0 (Zlen (bc_ssid c)) (bc_ssid c))) by done. cbn [mbind res_bind].
  do 5 write_range. set (size := 25 + Zlen (bc_ssid c) + 5 + 18 + 11) in *.
  destruct (trigger_ok b6 size (with_progress 1 u)) as (l & Hl & Ll & Hk); [stored|unfold word16; lia|lia|].
  exists b6, l. split; [exact Hl|]. split; [lia|]. unfold command. rewrite Ll.
  assert (H8 : holds b6 8 (bc_id c ++ le16 (bc_cap c) ++ le16 0x100 ++ le16 (bc_interval c) ++ [0x10])) by stored.
  apply holds_app in H8 as [H8 _]. split_and!.
  - apply Hk; [|zlen; rewrite !le16_Zlen; lia]. apply holds_app. rewrite le16_Zlen. split; stored.
  - apply Hk; [done|lia].
  - apply Hk; [|zlen; rewrite !le16_Zlen; lia]. apply holds_app. split; [stored|]. zlen. rewrite !le16_Zlen.
    eapply (holds_at _ 25); [|lia]. stored.
Qed.

(** ** Connecting *)

(** A response of the firmware with the code [msg] and the result OK. *)
Definition response (msg : Z) (r : list Z) : Prop := get_host16 r 0 = Ok msg /\ get_host16 r 6 = Ok host_RESULT_OK.

(** The wait returned for a response alone. *)
Definition responded : nohost := mkNohost true false false false.

Lemma scan_step r cs k c u s :
  response host_RET_802_11_SCAN r -> scan_response r cs -> Zlen cs <= 19 -> list_ok (BSS_List u) ->
  hostsme_state u = DISASSOC -> send_auth u <> 0 -> wants u s -> 128 <= Zlen (cmd_buf u) ->
  list_find (fun c => bc_ssid c = s) cs = Some (k, c) -> Z.testbit (bc_cap c) 1 = false ->
  exists u' n l, UserIF_Main responded r u = Ok u' /\ hostsme_state u' = DISASSOC /\ sent u' = sent u ++ [l] /\
    command host_CMD_802_11_AUTHENTICATE l /\ bss_at (BSS_List u') (curr_bss u') = Ok n /\ describes n c /\
    Zlen (cmd_buf u') = Zlen (cmd_buf u) /\ use_peer u' = use_peer u.
Proof.
  intros [Hm Hres] Hscan Hlen Hl Hst Hauth Hw Hcmd Hf Hib.
  destruct (scan_ok r cs u Hscan Hlen Hl) as (l & E & Hl' & Hd).
  apply list_find_Some in Hf as Hf'. destruct Hf' as (Hk & _ & _).
  unfold UserIF_Main, responded. cbn [NO_HOST FW_READY_EV MAC_EV REASSOC_EV]. rewrite Hres. cbn [mbind res_bind Z.eqb negb host_RESULT_OK].
  unfold process_cbproc_response. rewrite Hm. cbn [mbind res_bind]. change (host_RET_802_11_SCAN =? host_RET_MAC_MULTICAST_ADR) with false.
  change (host_RET_802_11_SCAN =? host_RET_802_11_SCAN) with true. cbn match.
  destruct (Hscan) as (_ & Hh & _). apply holds_cons in Hh as [Hnum _]. change (8 + 2) with 10. rewrite Hnum. cbn [mbind res_bind].
  rewrite (proj2 (Z.eqb_neq (Zlen cs) 0)) by (destruct cs; [done|]; rewrite Zlen_cons; pose proof (Zlen_nonneg cs); lia).
  cbn [negb]. rewrite E. cbn [mbind res_bind]. cbn [send_auth with_evt with_list]. rewrite (proj2 (Z.eqb_neq _ _) Hauth).
  unfold HostSmeState_Handler. cbn [hostsme_state with_evt with_list ui_evt]. rewrite Hst. change (SCAN_RESP =? FW_READY) with false.
  change (SCAN_RESP =? RESTART) with false. change (SCAN_RESP =? SCAN_RESP) with true. cbn [orb]. cbn match.
  cbn [send_auth with_evt with_list]. rewrite (proj2 (Z.eqb_neq _ _) Hauth). cbn [negb].
  set (u1 := with_evt SCAN_RESP (with_list l (Zlen cs) u)).
  pose proof (find_ssid_ok cs (Z.to_nat (num_bss u1)) 1 u1 s Hw) as HF. rewrite Hf in HF.
  unfold FindSSIDinList. rewrite HF; [|..|lia|cbn; unfold Zlen; by rewrite Nat2Z.id].
  2: { intros j c' Hj. destruct (Hd j c' Hj) as (b & Hb & ?). exists b. split; [|done]. cbn. rewrite <- Hb. f_equal. lia. }
  cbn [mbind res_bind]. rewrite (proj2 (Z.eqb_neq (1 + Z.of_nat k) 0)) by lia. cbn [negb]. rewrite Hib.
  destruct (Hd k c Hk) as (b & Hb & Db). set (u2 := with_curr _ _ u1).
  assert (Hat : bss_at (BSS_List u2) (curr_bss u2) = Ok b).
  { unfold bss_at. cbn. dec. replace (Z.to_nat (1 + Z.of_nat k)) with (S k) by lia. by rewrite Hb. }
  unfold join_or. rewrite Hat. cbn [mbind res_bind]. unfold Ibss. rewrite (d_cap _ _ Db), Hib.
  destruct (auth_cmd_ok u2 Hcmd) as (b' & l' & -> & Hz & Hc). eexists _, b, l'. split; [done|]. split_and!; try done.
Qed.

(** From here on the network is chosen. *)
Lemma auth_step r u n c :
  response host_RET_802_11_AUTHENTICATE r -> hostsme_state u = DISASSOC -> bss_at (BSS_List u) (curr_bss u) = Ok n -> describes n c ->
  beacon_ok c -> Z.testbit (bc_cap c) 1 = false -> 128 <= Zlen (cmd_buf u) ->
  exists u' l, UserIF_Main responded r u = Ok u' /\ hostsme_state u' = DISASSOC /\ sent u' = sent u ++ [l] /\
    command host_CMD_802_11_ASSOCIATE l /\ holds l 8 (bc_id c) /\
    holds l 21 (tlv MRVL_SSID_TLV_ID (Zlen (bc_ssid c)) ++ bc_ssid c) /\ use_peer u' = use_peer u.
Proof.
  intros [Hm Hres] Hst Hat Db Hc Hib Hcmd. unfold UserIF_Main, responded. cbn [NO_HOST FW_READY_EV MAC_EV REASSOC_EV].
  rewrite Hres. cbn [mbind res_bind Z.eqb negb host_RESULT_OK]. unfold process_cbproc_response. rewrite Hm. cbn -[HostSmeState_Handler].
  unfold HostSmeState_Handler. cbn [hostsme_state with_evt]. rewrite Hst. cbn -[userif_prepare_assoc_cmd userif_prepare_adhoc_join_cmd join_or with_evt].
  unfold join_or. cbn [BSS_List curr_bss with_evt]. rewrite Hat. cbn [mbind res_bind]. unfold Ibss. rewrite (d_cap _ _ Db), Hib.
  destruct (assoc_cmd_ok (with_evt AUTH_RESP u) n c Hat Db Hc Hcmd) as (b' & l & -> & _ & H1 & H2 & H3). by eexists _, l.
Qed.

Lemma assoc_step r u :
  response host_RET_802_11_ASSOCIATE r -> get_host16 r 10 = Ok 0 -> hostsme_state u = DISASSOC -> use_peer u = 0 ->
  exists u', UserIF_Main responded r u = Ok u' /\ hostsme_state u' = CONNECTED /\ ui_link u' = 1 /\ ui_progress u' = 0 /\ sent u' = sent u.
Proof.
  intros [Hm Hres] Hr Hst Hp. unfold UserIF_Main, responded. cbn [NO_HOST FW_READY_EV MAC_EV REASSOC_EV].
  rewrite Hres. cbn [mbind res_bind Z.eqb negb host_RESULT_OK]. unfold process_cbproc_response. rewrite Hm. cbn -[HostSmeState_Handler get_host16 Z.add].
  change (get_host16 r (8 + 2)) with (get_host16 r 10). rewrite Hr. cbn -[HostSmeState_Handler]. unfold link_up. cbn [use_peer with_evt]. rewrite Hp. cbn -[HostSmeState_Handler].
  unfold HostSmeState_Handler. cbn. rewrite Hst. cbn. by eexists.
Qed.

(** C25: When a scan of up to nineteen networks, with SSIDs of up to 31 bytes and
    beacons of up to 255 bytes, finds the wanted one, an access point, and the firmware
    confirms each command, the disassociated task, with authentication enabled, sends
    an authenticate command, then an associate
    command with the address and the SSID of the first network of that name in the
    scan, and ends connected with the link present. *)
Theorem connects r1 r2 r3 cs k c u s :
  response host_RET_802_11_SCAN r1 -> scan_response r1 cs -> Zlen cs <= 19 ->
  response host_RET_802_11_AUTHENTICATE r2 -> response host_RET_802_11_ASSOCIATE r3 -> get_host16 r3 10 = Ok 0 ->
  hostsme_state u = DISASSOC -> send_auth u <> 0 -> use_peer u = 0 -> wants u s -> list_ok (BSS_List u) -> 128 <= Zlen (cmd_buf u) ->
  list_find (fun c => bc_ssid c = s) cs = Some (k, c) -> Z.testbit (bc_cap c) 1 = false ->
  exists u' l1 l2, (u1 ← UserIF_Main responded r1 u; u2 ← UserIF_Main responded r2 u1; UserIF_Main responded r3 u2) = Ok u' /\
    hostsme_state u' = CONNECTED /\ ui_link u' = 1 /\ ui_progress u' = 0 /\ sent u' = sent u ++ [l1; l2] /\
    command host_CMD_802_11_AUTHENTICATE l1 /\ command host_CMD_802_11_ASSOCIATE l2 /\
    holds l2 8 (bc_id c) /\ holds l2 21 (tlv MRVL_SSID_TLV_ID (Zlen s) ++ s).
Proof.
  intros R1 S1 Hn R2 R3 Hok Hst Ha Hp Hw Hl Hcmd Hf Hib.
  destruct (scan_step r1 cs k c u s) as (u1 & n & l1 & -> & St1 & T1 & C1 & N1 & D1 & Z1 & P1); try done. cbn [mbind res_bind].
  apply list_find_Some in Hf as (Hk & Hs & _). assert (Hc : beacon_ok c).
  { destruct S1 as (_ & _ & _ & Hcs). exact (proj1 (list_relations.list.Forall_lookup _ _) Hcs _ _ Hk). }
  destruct (auth_step r2 u1 n c) as (u2 & l2 & -> & St2 & T2 & C2 & I2 & S2 & P2); try done; [lia|]. cbn [mbind res_bind].
  destruct (assoc_step r3 u2) as (u3 & -> & St3 & K3 & G3 & T3); [done..|congruence|].
  exists u3, l1, l2. rewrite T3, T2, T1, <- app_assoc, <- Hs. by split_and!.
Qed.

(** ** Connecting again *)

(** The waits that return for the loss of the link alone, and for the timer. *)
Definition lost : nohost := mkNohost false false true false.
Definition timeout : nohost := userif_ReAssocActTimeOut (mkNohost false false false false).

(** The access point of [c] is chosen, and the task has no peer stations. *)
Record chosen (c : beacon) (u : ui) : Prop := mkChosen {
  ch_bss : exists n, bss_at (BSS_List u) (curr_bss u) = Ok n /\ describes n c;
  ch_cmd : 128 <= Zlen (cmd_buf u);
  ch_peer : use_peer u = 0 }.

Definition associates (c : beacon) (l : list Z) : Prop := command host_CMD_802_11_ASSOCIATE l /\ holds l 8 (bc_id c).

Lemma timeout_step c u :
  chosen c u -> beacon_ok c -> Z.testbit (bc_cap c) 1 = false -> hostsme_state u = DISASSOC ->
  exists u' l, UserIF_Main timeout [] u = Ok u' /\ hostsme_state u' = DISASSOC /\ chosen c u' /\ sent u' = sent u ++ [l] /\ associates c l.
Proof.
  intros [(n & Hat & Db) Hcmd Hp] Hc Hib Hst. unfold UserIF_Main, timeout, userif_ReAssocActTimeOut. cbn [NO_HOST FW_READY_EV MAC_EV REASSOC_EV mbind res_bind].
  unfold HostSmeState_Handler. cbn [hostsme_state with_evt ui_evt]. rewrite Hst. cbn -[userif_prepare_assoc_cmd userif_prepare_adhoc_join_cmd join_or with_evt].
  unfold join_or. cbn [BSS_List curr_bss with_evt]. rewrite Hat. cbn [mbind res_bind]. unfold Ibss. rewrite (d_cap _ _ Db), Hib.
  destruct (assoc_cmd_ok (with_evt REASSOC_TIMEOUT u) n c Hat Db Hc Hcmd) as (b' & l & -> & Hz & H1 & H2 & _).
  eexists _, l. split; [done|]. split; [done|]. split; [|done]. split; [by exists n|cbn; cbn in Hz; lia|done].
Qed.

(** A refused association starts the timer again. *)
Lemma refused_step r code c u :
  response host_RET_802_11_ASSOCIATE r -> get_host16 r 10 = Ok code -> code <> 0 -> hostsme_state u = DISASSOC -> chosen c u ->
  exists u', UserIF_Main responded r u = Ok u' /\ hostsme_state u' = DISASSOC /\ timer u' = true /\ chosen c u' /\ sent u' = sent u.
Proof.
  intros [Hm Hres] Hr Hn Hst [? ? ?]. unfold UserIF_Main, responded. cbn [NO_HOST FW_READY_EV MAC_EV REASSOC_EV].
  rewrite Hres. cbn [mbind res_bind Z.eqb negb host_RESULT_OK]. unfold process_cbproc_response. rewrite Hm. cbn -[HostSmeState_Handler get_host16 Z.add].
  change (get_host16 r (8 + 2)) with (get_host16 r 10). rewrite Hr. cbn -[HostSmeState_Handler Z.eqb]. rewrite (proj2 (Z.eqb_neq _ _) Hn). cbn -[HostSmeState_Handler].
  unfold HostSmeState_Handler. cbn. rewrite Hst. cbn. eexists. by split_and!.
Qed.

(** The timer expires when it was started, and then stands still. *)
Definition expire (u : ui) : res ui := if timer u then UserIF_Main timeout [] (with_timer false u) else Ok u.

Lemma expire_step c u :
  chosen c u -> beacon_ok c -> Z.testbit (bc_cap c) 1 = false -> hostsme_state u = DISASSOC -> timer u = true ->
  exists u' l, expire u = Ok u' /\ hostsme_state u' = DISASSOC /\ chosen c u' /\ sent u' = sent u ++ [l] /\ associates c l.
Proof.
  intros [? ? ?] Hc Hib Hst Ht. unfold expire. rewrite Ht. by apply (timeout_step c (with_timer false u)).
Qed.

(** [k] times a timeout and a refused association. *)
Fixpoint refusals (k : nat) (r : list Z) (u : ui) : res ui :=
  match k with
  | O => Ok u
  | S k => u ← expire u; u ← UserIF_Main responded r u; refusals k r u
  end.

Lemma refusals_ok r code c : forall k u,
  response host_RET_802_11_ASSOCIATE r -> get_host16 r 10 = Ok code -> code <> 0 -> beacon_ok c -> Z.testbit (bc_cap c) 1 = false ->
  hostsme_state u = DISASSOC -> timer u = true -> chosen c u ->
  exists u' ls, refusals k r u = Ok u' /\ hostsme_state u' = DISASSOC /\ timer u' = true /\ chosen c u' /\
    sent u' = sent u ++ ls /\ length ls = k /\ Forall (associates c) ls.
Proof.
  induction k as [|k IH]; intros u Hr Hcode Hn Hc Hib Hst Ht Hch.
  - exists u, []. rewrite app_nil_r. by split_and!.
  - destruct (expire_step c u) as (u1 & l & H1 & St1 & Ch1 & S1 & A1); try done.
    destruct (refused_step r code c u1) as (u2 & H2 & St2 & T2 & Ch2 & S2); try done.
    destruct (IH u2) as (u3 & ls & H3 & St3 & T3 & Ch3 & S3 & L3 & A3); try done.
    exists u3, (l :: ls). cbn [refusals]. rewrite H1. cbn [mbind res_bind]. rewrite H2. cbn [mbind res_bind].
    split; [done|]. rewrite S3, S2, S1, <- app_assoc. split_and!; try done; [by cbn; rewrite L3|by constructor].
Qed.

(** C26: When a connected task is told, on its own, that the link is lost, it
    disconnects and starts the timer; it then sends an associate command to the same
    access point after each timeout, however often the association is refused, and is
    connected with the link present when one is accepted. *)
Theorem reconnects k rf code ra c u :
  response host_RET_802_11_ASSOCIATE rf -> get_host16 rf 10 = Ok code -> code <> 0 ->
  response host_RET_802_11_ASSOCIATE ra -> get_host16 ra 10 = Ok 0 ->
  beacon_ok c -> Z.testbit (bc_cap c) 1 = false -> hostsme_state u = CONNECTED -> chosen c u ->
  exists u0 u' ls, UserIF_Main lost [] u = Ok u0 /\ hostsme_state u0 = DISASSOC /\ ui_link u0 = 0 /\ timer u0 = true /\
    (u1 ← refusals k rf u0; u2 ← expire u1; UserIF_Main responded ra u2) = Ok u' /\
    hostsme_state u' = CONNECTED /\ ui_link u' = 1 /\ sent u' = sent u ++ ls /\ length ls = S k /\ Forall (associates c) ls.
Proof.
  intros Hrf Hcode Hn Hra Hok Hc Hib Hst [Hb Hcmd Hp].
  set (u0 := with_state DISASSOC (arm_timer (with_evt LINK_LOST (with_ui_link 0 u)))).
  assert (H0 : UserIF_Main lost [] u = Ok u0) by (unfold UserIF_Main, HostSmeState_Handler; cbn; by rewrite Hst).
  destruct (refusals_ok rf code c k u0) as (u1 & ls & H1 & St1 & T1 & Ch1 & S1 & L1 & A1); try done.
  destruct (expire_step c u1) as (u2 & l & H2 & St2 & Ch2 & S2 & A2); try done.
  destruct (assoc_step ra u2) as (u3 & H3 & St3 & K3 & _ & S3); [done..|apply Ch2|].
  exists u0, u3, (ls ++ [l]). split; [done|]. do 3 (split; [done|]). rewrite H1. cbn [mbind res_bind]. rewrite H2. cbn [mbind res_bind].
  split; [done|]. rewrite S3, S2, S1, app_assoc, length_app, L1. split_and!; try done; [cbn; lia|]. apply Forall_app. by split; [|constructor].
Qed.

(** ** What the state machine knows of the link *)

(** Commands and scans leave the link, the event and the state alone. *)
Definition unmoved (u u' : ui) : Prop :=
  ui_link u' = ui_link u /\ ui_evt u' = ui_evt u /\ hostsme_state u' = hostsme_state u.

Lemma unmoved_trans u1 u2 u3 : unmoved u1 u2 -> unmoved u2 u3 -> unmoved u1 u3.
Proof. unfold unmoved. intros (? & ? & ?) (? & ? & ?). split_and!; congruence. Qed.

Lemma trigger_unmoved b u u' : trigger b u = Ok u' -> unmoved u u'.
Proof. unfold trigger. intros H. repeat inv_bind. subst. done. Qed.

(** Peel the writes off a command, down to its trigger. *)
Ltac command_unmoved :=
  intros; repeat inv_bind; repeat case_match; repeat inv_bind; subst;
  match goal with H : trigger _ _ = Ok _ |- _ => apply trigger_unmoved in H; exact H end.

Lemma scan_cmd_unmoved n u u' : userif_prepare_scan_cmd n u = Ok u' -> unmoved u u'.
Proof. unfold userif_prepare_scan_cmd. cbn [specificSSID with_auth with_progress]. destruct (specificSSID u). command_unmoved. Qed.

Lemma auth_cmd_unmoved u u' : userif_prepare_auth_cmd u = Ok u' -> unmoved u u'.
Proof. unfold userif_prepare_auth_cmd. command_unmoved. Qed.

Lemma assoc_cmd_unmoved u u' : userif_prepare_assoc_cmd u = Ok u' -> unmoved u u'.
Proof. unfold userif_prepare_assoc_cmd. command_unmoved. Qed.

Lemma join_cmd_unmoved u u' : userif_prepare_adhoc_join_cmd u = Ok u' -> unmoved u u'.
Proof. unfold userif_prepare_adhoc_join_cmd. command_unmoved. Qed.

Lemma start_cmd_unmoved u u' : userif_prepare_adhoc_start_cmd u = Ok u' -> unmoved u u'.
Proof. unfold userif_prepare_adhoc_start_cmd. cbn [specificSSID with_progress]. destruct (specificSSID u). command_unmoved. Qed.

Lemma find_ssid_unmoved n i u j u' : find_ssid n i u = Ok (j, u') -> unmoved u u'.
Proof.
  revert i. induction n as [|n IH]; intros i; cbn; [by intros [= _ <-]|]. intros H. repeat inv_bind. destruct x0; [|by eapply IH].
  by injection H as _ <-.
Qed.

Lemma scan_loop_unmoved n : forall i NumSets r p u u', scan_loop n i NumSets r p u = Ok u' -> unmoved u u'.
Proof.
  induction n as [|n IH]; intros i NumSets r p u u'; cbn; [by intros [= <-]|]. case_match; [|by intros [= <-]].
  intros H'. repeat inv_bind. apply IH in H'. exact H'.
Qed.

Lemma join_or_unmoved f u u' : (forall v v', f v = Ok v' -> unmoved v v') -> join_or f u = Ok u' -> unmoved u u'.
Proof. intros Hf H. unfold join_or in H. inv_bind. case_match; [by apply join_cmd_unmoved|by apply Hf]. Qed.

(** The events that bring the machine to its connected state. *)
Definition connecting (evt : Z) : bool := (evt =? ADHOC_START_RESP) || (evt =? ADHOC_JOIN_RESP) || (evt =? ASSOC_RESP).

(** The state machine believes in a connection, or is about to, only with the link
    present. *)
Definition link_inv (u : ui) : Prop := hostsme_state u = CONNECTED \/ connecting (ui_evt u) = true -> ui_link u = 1.

Lemma handler_link evt u u' :
  HostSmeState_Handler evt u = Ok u' -> evt = ui_evt u -> link_inv u -> link_inv u'.
Proof.
  intros H He I. unfold HostSmeState_Handler in H. destruct (hostsme_state u) eqn:St.
  - case_match; [by injection H as <-|]. case_match; [|case_match; [|case_match; [|case_match]]].
    + case_match; [|by injection H as <-]. inv_bind. destruct x as [i u1]. apply find_ssid_unmoved in Hx as U1.
      assert (U : unmoved u1 u').
      { case_match; [apply (join_or_unmoved userif_prepare_auth_cmd); [apply auth_cmd_unmoved|done]|].
        case_match; [by apply start_cmd_unmoved|]. injection H as <-. done. }
      pose proof (unmoved_trans _ _ _ U1 U) as (K & V & S). unfold link_inv in *. rewrite K, V, S. done.
    + apply (join_or_unmoved userif_prepare_assoc_cmd) in H as (K & V & S); [|apply assoc_cmd_unmoved]. unfold link_inv in *. rewrite K, V, S. done.
    + injection H as <-. unfold link_inv in *. cbn. intros _. apply I. right. subst evt. unfold connecting. done.
    + by injection H as <-.
    + by injection H as <-.
  - case_match.
    { injection H as <-. b2p. unfold link_inv. cbn [ui_evt hostsme_state with_state arm_timer with_timer]. rewrite <- He.
      intros [? | Hc]; [done|]. by replace evt with LINK_LOST in Hc. }
    case_match; injection H as <-; [|done]. unfold link_inv in *. cbn in *. intros [? | ?]; [done|]. by apply I; right.
Qed.

Lemma response_link r u u' : process_cbproc_response r u = Ok u' -> link_inv u -> link_inv u'.
Proof.
  unfold process_cbproc_response. intros H I. inv_bind.
  destruct (x =? host_RET_MAC_MULTICAST_ADR); [repeat inv_bind; by subst|].
  destruct (x =? host_RET_802_11_SCAN).
  { inv_bind. inv_bind. injection H as <-. assert (U : unmoved u x1).
    { case_match; [|by injection Hx1 as <-]. unfold parse_scan_result in Hx1. inv_bind. by apply scan_loop_unmoved in Hx1. }
    destruct U as (K & V & S). unfold link_inv in *. destruct (send_auth x1 =? 0); cbn; rewrite K, S; intros [? | ?]; try done; apply I; by left. }
  destruct (x =? host_RET_802_11_MAC_ADDR); [repeat inv_bind; by subst|].
  destruct (x =? host_RET_802_11_ASSOCIATE).
  { inv_bind. case_match; [injection H as <-; unfold link_inv in *; cbn; intros [? | ?]; [by apply I; left|done]|].
    unfold link_up in H. inv_bind. by injection H as <-. }
  destruct (x =? host_RET_802_11_AD_HOC_START); [unfold link_up in H; inv_bind; by injection H as <-|].
  destruct (x =? host_RET_802_11_AD_HOC_JOIN); [unfold link_up in H; inv_bind; by injection H as <-|].
  destruct ((x =? host_RET_802_11_DEAUTHENTICATE) || (x =? host_RET_802_11_AD_HOC_STOP)).
  { inv_bind. injection H as <-. apply scan_cmd_unmoved in Hx0 as (K & V & S). unfold link_inv in *. cbn. rewrite K, S.
    intros [? | ?]; [apply I; by left|done]. }
  destruct (x =? host_RET_802_11_AUTHENTICATE); injection H as <-; [|done]. unfold link_inv in *. cbn. intros [? | ?]; [apply I; by left|done].
Qed.

(** C27: When the loss of the link is reported on its own (not together with a
    response or the timeout), the task keeps this: the state machine is connected
    only while the link is present. *)
Theorem link_state_agrees e r u u' :
  (MAC_EV e = true -> REASSOC_EV e = false /\ NO_HOST e = false) ->
  UserIF_Main e r u = Ok u' -> link_inv u -> link_inv u'.
Proof.
  intros He H I. unfold UserIF_Main in H. destruct (MAC_EV e) eqn:Em.
  - destruct (He eq_refl) as [Er En]. rewrite Er, En in H. cbn [mbind res_bind ui_evt with_evt] in H. unfold HostSmeState_Handler in H.
    destruct (FW_READY_EV e); cbn in H; destruct (hostsme_state u) eqn:St; cbn in H; injection H as <-; unfold link_inv; cbn; rewrite ?St; by intros [? | ?].
  - set (u1 := if REASSOC_EV e then _ else _) in H. assert (I1 : link_inv u1).
    { subst u1. unfold link_inv in *. destruct (REASSOC_EV e), (FW_READY_EV e); cbn; intros [? | ?]; try done; apply I; tauto. }
    clearbody u1. inv_bind. eapply handler_link; [exact H|done|]. destruct (NO_HOST e); [|by injection Hx as <-].
    inv_bind. destruct (negb (x0 =? host_RESULT_OK)); [|by eapply response_link]. injection Hx as <-.
    unfold link_inv in *. cbn. intros [? | ?]; [apply I1; by left|done].
Qed.

(** When the loss of the link is reported together with the timeout of the
    association timer, the timeout replaces the event: a connected state machine
    stays connected without a link, and the timer that would reconnect is not
    started. *)
Theorem lost_link_overwritten r u :
  hostsme_state u = CONNECTED ->
  exists u', UserIF_Main (mkNohost false false true true) r u = Ok u' /\
    hostsme_state u' = CONNECTED /\ ui_link u' = 0 /\ timer u' = timer u.
Proof.
  intros H. unfold UserIF_Main. cbn [NO_HOST FW_READY_EV MAC_EV REASSOC_EV mbind res_bind]. unfold HostSmeState_Handler.
  cbn. rewrite H. cbn. by eexists.
Qed.

(** ** Concrete scans *)

Definition demo_beacon (mac : list Z) (name : list Z) : beacon := mkBeacon mac 40 (replicate 8 9) 100 1 name [3; 1; 6].
Definition demo_cs : list beacon := [demo_beacon [2; 0; 0; 0; 0; 1] [97; 98]; demo_beacon [2; 0; 0; 0; 0; 2] [97; 99]].

(** A scan response with header and slack. *)
Definition demo_scan (cs : list beacon) : list Z :=
  le16 host_RET_802_11_SCAN ++ [0; 0; 0; 0; 0; 0] ++ [0; 0] ++ [Zlen cs] ++ sets_bytes cs ++ replicate 20 0.

Definition demo_ui : ui :=
  mkUi (replicate 20 no_bss) 0 0 BSS_ANY BSS_ANY (2, [97; 99] ++ replicate 30 0) (replicate 6 0) 1 0 1 (replicate 6 0) FW_READY DISASSOC false 0
    (replicate 256 0) [] [].

Definition demo_response (msg : Z) : list Z := le16 msg ++ replicate 12 0.

(** The walk over the elements of a beacon goes thirteen bytes too far: here the
    address of the second network reads as a channel element of the first, which
    has none. *)
Lemma channel_from_next_beacon :
  let first := mkBeacon [2; 0; 0; 0; 0; 1] 40 (replicate 8 9) 100 1 [97] [] in
  let second := mkBeacon [3; 1; 11; 0; 0; 2] 40 (replicate 8 9) 100 1 [98] [] in
  match parse_scan_result (demo_scan [first; second]) demo_ui with
  | Ok u => Channel <$> (BSS_List u !! 1%nat) = Some 11
  | _ => False
  end.
Proof. vm_compute. done. Qed.

(** The authenticate command leaves the address of the peer as the command before
    it left the buffer. *)
Lemma auth_keeps_address u u' l :
  userif_prepare_auth_cmd u = Ok u' -> sent u' = sent u ++ [l] -> forall a, Zlen a = 6 -> holds (cmd_buf u) 8 a -> holds l 8 a.
Proof.
  intros H Hs a La Ha. unfold userif_prepare_auth_cmd, set_header in H. cbn [cmd_buf with_progress] in H. inv_bind. inv_bind.
  unfold trigger in H. inv_bind. inv_bind. injection H as <-. cbn in Hs. apply app_inj_tail in Hs as [_ <-].
  assert (Hx3 : holds x0 8 a).
  { apply (kept_write _ _ _ _ Hx0); [left; rewrite La; lia|]. apply (kept_write _ _ _ _ Hx); [right; done|done]. }
  assert (E : x1 = 19).
  { assert (Hh : holds x0 2 (le16 19)).
    { apply (kept_write _ _ _ _ Hx0); [left; done|]. apply wr_range_holds in Hx. by apply holds_app in Hx as [_ Hx]. }
    apply get_host16_holds in Hh; [|done]. congruence. }
  subst x1. eapply holds_prefix; [exact Hx2|done|lia].
Qed.

(** The response to the command that reads the address of the station does not
    matter: the address is taken from the command. *)
Lemma mac_from_command r u m :
  response host_RET_802_11_MAC_ADDR r -> rd_range (cmd_buf u) 10 6 = Ok m ->
  exists u', process_cbproc_response r u = Ok u' /\ ui_mac u' = m.
Proof.
  intros [Hm _] H. unfold process_cbproc_response. rewrite Hm. cbn [mbind res_bind]. change (8 + 2) with 10. 
  change (host_RET_802_11_MAC_ADDR =? host_RET_MAC_MULTICAST_ADR) with false. change (host_RET_802_11_MAC_ADDR =? host_RET_802_11_SCAN) with false.
  change (host_RET_802_11_MAC_ADDR =? host_RET_802_11_MAC_ADDR) with true. cbn match. rewrite H. by eexists.
Qed.

Lemma parse_scan_result_correct_witness :
  exists u', parse_scan_result (demo_scan demo_cs) demo_ui = Ok u' /\ num_bss u' = 2 /\
    exists b, bss_at (BSS_List u') 2 = Ok b /\ BssId b = [2; 0; 0; 0; 0; 2].
Proof.
  destruct (parse_scan_result_correct (demo_scan demo_cs) demo_cs demo_ui) as (u' & H & Hn & Hd); [by_eval|done|by_eval|].
  exists u'. split; [exact H|]. split; [exact Hn|]. destruct (Hd 1%nat _ eq_refl) as (b & Hb & D). exists b. split; [exact Hb|]. apply (d_id _ _ D).
Defined.

Definition many : list beacon := replicate 20 (mkBeacon [2; 0; 0; 0; 0; 1] 40 (replicate 8 9) 100 1 [97; 98] []).

Lemma scan_overflow_witness : parse_scan_result (demo_scan many) demo_ui = Fault.
Proof. apply (scan_overflow (demo_scan many) many demo_ui); [by_eval|done|by_eval]. Defined.

Lemma connects_witness :
  exists u', (u1 ← UserIF_Main responded (demo_scan demo_cs) demo_ui; u2 ← UserIF_Main responded (demo_response host_RET_802_11_AUTHENTICATE) u1;
    UserIF_Main responded (demo_response host_RET_802_11_ASSOCIATE) u2) = Ok u' /\ hostsme_state u' = CONNECTED /\ ui_link u' = 1.
Proof.
  destruct (connects (demo_scan demo_cs) (demo_response host_RET_802_11_AUTHENTICATE) (demo_response host_RET_802_11_ASSOCIATE) demo_cs 1
    (demo_beacon [2; 0; 0; 0; 0; 2] [97; 99]) demo_ui [97; 99]) as (u' & l1 & l2 & H & Hc & Hk & _);
    [by split; vm_compute|by_eval|done|by split; vm_compute|by split; vm_compute|done|done|done|done|split; [done|by_eval]|by_eval|done|done|done|].
  exists u'. split; [exact H|]. split; [exact Hc|exact Hk].
Defined.

Lemma link_state_agrees_witness :
  exists u', UserIF_Main responded (demo_response host_RET_802_11_ASSOCIATE) demo_ui = Ok u' /\ link_inv u'.
Proof.
  eexists. split; [vm_compute; reflexivity|].
  apply (link_state_agrees responded (demo_response host_RET_802_11_ASSOCIATE) demo_ui); [done|by vm_compute|by intros [? | ?]].
Defined.

Lemma lost_link_overwritten_witness :
  exists u', UserIF_Main (mkNohost false false true true) [] (with_state CONNECTED (with_ui_link 1 demo_ui)) = Ok u' /\ ui_link u' = 0.
Proof.
  destruct (lost_link_overwritten [] (with_state CONNECTED (with_ui_link 1 demo_ui))) as (u' & H & _ & Hk & _); [done|].
  exists u'. split; [exact H|exact Hk].
Defined.

(** Connected to the second network of [demo_cs]. *)
Definition demo_connected : ui :=
  let b := mkBss [2; 0; 0; 0; 0; 2] 100 1 2 ([97; 99] ++ replicate 30 0) 0 6 in
  with_state CONNECTED (with_ui_link 1 (with_curr 2 BSS_INFRASTRUCTURE (with_list (<[2%nat := b]> (replicate 20 no_bss)) 2 demo_ui))).

Definition demo_refused : list Z := le16 host_RET_802_11_ASSOCIATE ++ replicate 8 0 ++ [17; 0] ++ replicate 4 0.

Lemma reconnects_witness :
  exists u0 u', UserIF_Main lost [] demo_connected = Ok u0 /\
    (u1 ← refusals 2 demo_refused u0; u2 ← expire u1; UserIF_Main responded (demo_response host_RET_802_11_ASSOCIATE) u2) = Ok u' /\
    hostsme_state u' = CONNECTED.
Proof.
  destruct (reconnects 2 demo_refused 17 (demo_response host_RET_802_11_ASSOCIATE) (demo_beacon [2; 0; 0; 0; 0; 2] [97; 99]) demo_connected)
    as (u0 & u' & ls & H0 & _ & _ & _ & H & Hc & _);
    [by split; vm_compute|done|done|by split; vm_compute|done|by_eval|done|done|split; [eexists; split; [reflexivity|split; by_eval]|done|done]|].
  exists u0, u'. split; [exact H0|]. split; [exact H|exact Hc].
Defined.
