(* ===== verification/PeerSta.v ===== *)
(** * Peer stations (peersta_api.c)

    A table of two stations, each with a queue of packets to send when the station
    wakes up and a queue of free elements, over a pool of four elements.  [psta] is
    the state of the file; [receive] functions and transmit buffers are words, and
    [beacon_IE] is the element last given to the firmware for its beacons.  Packets
    go out through [mli_TxDataEnqueue] (TxQueue.v); [pk] is the memory of the
    transmit buffers. *)
From S2P Require Import Prelude.
From S2P Require Import Buffer.
From S2P Require Import Sys.
From S2P Require Import SdkQueue.
From S2P Require Import TxQueue.

Definition NUM_PEERS : Z := 2.
Definition NUM_TX_ELEMENTS : Z := 4.
Definition MLI_CUSTOM_DATA_LAST_PKT : Z := 2.
Definition MLI_CUSTOM_DATA_MORE_PKT : Z := 3.

Record STADataBase := mkSta { in_use : Z; PeerStaAddr : list Z; sta_tx_q : Queue_t; tx_free_q : Queue_t; receive : Z }.

Record psta := mkPsta {
  STADb : list STADataBase; pe_next : links; sta_index : list Z; tx_buf : list Z;
  next_tx_element : Z; num_stas : Z; peerstaIE : list Z; beacon_IE : list Z }.

Definition no_sta : STADataBase := mkSta 0 (replicate 6 0) zero_queue zero_queue 0.

Definition psta_static : psta :=
  mkPsta (replicate 2 no_sta) (replicate 4 None) (replicate 4 0) (replicate 4 0) 0 0 (replicate 18 0) [].

Definition with_IE (ie out : list Z) (s : psta) : psta :=
  mkPsta (STADb s) (pe_next s) (sta_index s) (tx_buf s) (next_tx_element s) (num_stas s) ie out.
Definition with_db (db : list STADataBase) (m : links) (s : psta) : psta :=
  mkPsta db m (sta_index s) (tx_buf s) (next_tx_element s) (num_stas s) (peerstaIE s) (beacon_IE s).

Definition sta_at (s : psta) (i : Z) : res STADataBase :=
  if i <? 0 then Fault else match STADb s !! Z.to_nat i with Some d => Ok d | None => Fault end.

(** ** Lookup *)

Fixpoint staindex_loop (n : nat) (i : Z) (mac : list Z) (s : psta) : res Z :=
  match n with
  | O => Ok (-1)
  | S n =>
      d ← sta_at s i;
      c ← memcmp (PeerStaAddr d) 0 mac 0 6;
      if c =? 0 then Ok i else staindex_loop n (i + 1) mac s
  end.

Definition get_staindex_from_macaddr (mac : list Z) (s : psta) : res Z :=
  staindex_loop (Z.to_nat (num_stas s)) 0 mac s.

(** ** The element of the beacon *)

(** An address more: the length at offset 1, the count at offset 6. *)
Definition IE_put (ie addr : list Z) : res (list Z) :=
  len ← rd ie 1;
  a ← rd_range addr 0 6;
  ie ← wr_range ie (len + 2) a;
  ie ← wr ie 1 (len + 6);
  cnt ← rd ie 6;
  wr ie 6 (cnt + 1).

(** The addresses of the stations with packets. *)
Fixpoint IE_loop (n : nat) (i : Z) (ie : list Z) (s : psta) : res (list Z) :=
  match n with
  | O => Ok ie
  | S n =>
      d ← sta_at s i;
      ie ← (if negb (q_len (sta_tx_q d) =? 0) then IE_put ie (PeerStaAddr d) else Ok ie);
      IE_loop n (i + 1) ie s
  end.

Definition oui : list Z := [0x00; 0x50; 0xf2; 0x05].

Definition update_peersta_IE (s : psta) : res psta :=
  ie ← wr (peerstaIE s) 0 221;
  ie ← wr_range ie 2 oui;
  ie ← wr ie 1 5;
  ie ← wr ie 6 0;
  ie ← IE_loop (Z.to_nat (num_stas s)) 0 ie s;
  Ok (with_IE ie ie s).

(** ** The table *)

(** The address of [peersta_rx_handler]. *)
Definition peersta_rx_handler_fn : Z := 4.

Definition peersta_Init (h : handlers) (s : psta) : res (handlers * psta) :=
  let s := mkPsta (replicate 2 no_sta) (pe_next s) (sta_index s) (tx_buf s) 0 0 (peerstaIE s) (beacon_IE s) in
  '(_, h) ← mli_installCustomRxDataHandler peersta_rx_handler_fn h;
  s ← update_peersta_IE s;
  Ok (h, s).

(** The buffers [bufs] are what [mli_GetRawTxBuffer] returns. *)
Fixpoint fill_loop (bufs : list Z) (i sta : Z) (idx buf : list Z) : res (list Z * list Z) :=
  match bufs with
  | [] => Ok (idx, buf)
  | b :: bufs =>
      if (i <? 0) || (Zlen buf <=? i) || (Zlen idx <=? i) then Fault
      else fill_loop bufs (i + 1) sta (<[Z.to_nat i := sta]> idx) (<[Z.to_nat i := b]> buf)
  end.

Fixpoint chain_loop (n : nat) (i : Z) (m : links) : res links :=
  match n with
  | O => Ok m
  | S n =>
      if (i <? 0) || (Zlen m <=? i) then Fault
      else chain_loop n (i + 1) (<[Z.to_nat i := match n with O => None | _ => Some (Z.to_nat (i + 1)) end]> m)
  end.

Definition peersta_AddSTAEntry (mac bufs : list Z) (recv : Z) (s : psta) : res (Z * psta) :=
  i ← get_staindex_from_macaddr mac s;
  if (i <? 0) && (num_stas s <? NUM_PEERS) then
    let n := Zlen bufs in
    let k := next_tx_element s in
    d ← sta_at s (num_stas s);
    '(idx, buf) ← fill_loop bufs k (num_stas s) (sta_index s) (tx_buf s);
    m ← chain_loop (length bufs) k (pe_next s);
    let free := mkQueue_t (Some (Z.to_nat k)) (Some (Z.to_nat (k + n - 1))) n n n in
    Ok (0, mkPsta (<[Z.to_nat (num_stas s) := mkSta 1 mac zero_queue free recv]> (STADb s)) m idx buf (k + n) (num_stas s + 1)
             (peerstaIE s) (beacon_IE s))
  else Ok (1, s).

Definition peersta_RemoveSTAEntry (mac : list Z) (s : psta) : res (Z * psta) :=
  i ← get_staindex_from_macaddr mac s;
  if 0 <? i then
    d ← sta_at s i;
    Ok (SUCCESS, with_db (<[Z.to_nat i := mkSta 0 (PeerStaAddr d) (sta_tx_q d) (tx_free_q d) (receive d)]> (STADb s)) (pe_next s) s)
  else Ok (SUCCESS, s).

(** The first element with the buffer, or one past the pool. *)
Fixpoint element_of (b : Z) (l : list Z) : nat :=
  match l with
  | [] => 0
  | c :: l => if c =? b then 0 else S (element_of b l)
  end.

Section queues.
Context {ops : queue_ops}.

Definition peersta_GetTxFreeBuffer (mac : list Z) (s : psta) : res (Z * psta) :=
  i ← get_staindex_from_macaddr mac s;
  if i <? 0 then Ok (0, s)
  else
    d ← sta_at s i;
    let '(e, q, m) := getq (tx_free_q d) (pe_next s) in
    let s := with_db (<[Z.to_nat i := mkSta (in_use d) (PeerStaAddr d) (sta_tx_q d) q (receive d)]> (STADb s)) m s in
    match e with
    | None => Ok (0, s)
    | Some e => match tx_buf s !! e with Some b => Ok (b, s) | None => Fault end
    end.

(** The element of [buffer] and the station it belongs to. *)
Definition owner (buffer : Z) (s : psta) : res (nat * Z) :=
  let e := element_of buffer (tx_buf s) in
  match sta_index s !! e with Some i => Ok (e, i) | None => Fault end.

Definition peersta_TxFreeBuffer (buffer : Z) (s : psta) : res psta :=
  '(e, i) ← owner buffer s;
  d ← sta_at s i;
  let '(q, m) := putq (tx_free_q d) e (pe_next s) in
  Ok (with_db (<[Z.to_nat i := mkSta (in_use d) (PeerStaAddr d) (sta_tx_q d) q (receive d)]> (STADb s)) m s).

Definition peersta_SendTxBuffer (buffer : Z) (s : psta) : res (Z * psta) :=
  '(e, i) ← owner buffer s;
  d ← sta_at s i;
  let '(q, m) := putq (sta_tx_q d) e (pe_next s) in
  let s := with_db (<[Z.to_nat i := mkSta (in_use d) (PeerStaAddr d) q (tx_free_q d) (receive d)]> (STADb s)) m s in
  s ← update_peersta_IE s;
  Ok (SUCCESS, s).

(** The address of [peersta_TxFreeBuffer]. *)
Definition peersta_TxFreeBuffer_fn : Z := 5.

(** Every queued packet goes to the transmit path, marked as the last one or not.
    A packet without a place there comes back through [peersta_TxFreeBuffer]. *)
Fixpoint empty_tx_q (fuel : nat) (i : Z) (s : psta) (pk : Z -> list Z) (t : tx) : res (psta * (Z -> list Z) * tx) :=
  match fuel with
  | O => Diverge
  | S fuel =>
      d ← sta_at s i;
      let '(e, q, m) := getq (sta_tx_q d) (pe_next s) in
      let s := with_db (<[Z.to_nat i := mkSta (in_use d) (PeerStaAddr d) q (tx_free_q d) (receive d)]> (STADb s)) m s in
      match e with
      | None => Ok (s, pk, t)
      | Some e =>
          match tx_buf s !! e with
          | None => Fault
          | Some b =>
              w ← wr (pk b) o_TxPacketType (if q_len q =? 0 then MLI_CUSTOM_DATA_LAST_PKT else MLI_CUSTOM_DATA_MORE_PKT);
              '(w, t') ← mli_TxDataEnqueue b peersta_TxFreeBuffer_fn w t;
              s ← (if bool_decide (returned t' = returned t) then Ok s else peersta_TxFreeBuffer b s);
              empty_tx_q fuel i s (fun a => if a =? b then w else pk a) t'
          end
      end
  end.

(** A packet from a station: [pkt] is the data behind the receive descriptor; the
    function of the station gets it.  The result is that call. *)
Definition peersta_rx_handler (pkt : list Z) (s : psta) (pk : Z -> list Z) (t : tx) :
    res (option Z * psta * (Z -> list Z) * tx) :=
  a ← rd_range pkt 6 6;
  i ← get_staindex_from_macaddr a s;
  if 0 <=? i then
    d ← sta_at s i;
    '(s, pk, t) ← empty_tx_q (S (Z.to_nat (q_len (sta_tx_q d)))) i s pk t;
    s ← update_peersta_IE s;
    Ok (Some (receive d), s, pk, t)
  else Ok (None, s, pk, t).
End queues.
