(* ===== verification/PeerStaTheorems.v ===== *)
(** * Properties of the peer stations (peersta_api.c)

    The element in the beacon lists the stations with packets, but has room for one
    address only; removing a station changes no lookup. *)
From S2P Require Import Prelude.
From S2P Require Import Buffer.
From S2P Require Import Sys.
From S2P Require Import SdkQueue.
From S2P Require Import TxQueue.
From S2P Require Import EpingTheorems.
From S2P Require Import PeerSta.

(** The addresses of the stations with packets. *)
Definition pending (l : list STADataBase) : list (list Z) :=
  PeerStaAddr <$> filter (fun d => q_len (sta_tx_q d) <> 0) l.

(** The element for the addresses [l]. *)
Definition IE_bytes (l : list (list Z)) : list Z := [221; 5 + 6 * Zlen l] ++ oui ++ [Zlen l] ++ mjoin l.

Definition db_ok (s : psta) : Prop :=
  Zlen (peerstaIE s) = 18 /\ 0 <= num_stas s <= Zlen (STADb s) /\ Forall (fun d => Zlen (PeerStaAddr d) = 6) (STADb s).

Lemma mjoin_Zlen (l : list (list Z)) n : Forall (fun a => Zlen a = n) l -> Zlen (mjoin l) = n * Zlen l.
Proof. induction 1 as [|a l Ha _ IH]; [by rewrite Z.mul_0_r|]. change (mjoin (a :: l)) with (a ++ mjoin l). zlen. rewrite IH. lia. Qed.

(** A station with a packet adds its address while there is room. *)
Lemma IE_add ie l a :
  holds ie 0 (IE_bytes l) -> Forall (fun a => Zlen a = 6) l -> Zlen a = 6 -> Zlen l <= 10 ->
  match IE_put ie a with
  | Ok ie' => holds ie' 0 (IE_bytes (l ++ [a])) /\ Zlen ie' = Zlen ie
  | Fault => Zlen ie < 7 + 6 * (Zlen l + 1)
  | Diverge => False
  end.
Proof.
  intros Hh Hl Ha Hn. pose proof (holds_bounds _ _ _ Hh) as [_ Hb]. pose proof (Zlen_nonneg l) as Hz.
  assert (Lj : Zlen (mjoin l) = 6 * Zlen l) by by apply mjoin_Zlen.
  unfold IE_bytes in Hh. rewrite !holds_app in Hh. destruct Hh as (H1 & H2 & H3 & H4). unfold IE_bytes, oui in *. zlen. rewrite Lj in *.
  apply holds_cons in H1 as [H0 H1]. apply holds_rd in H1. change (0 + 1) with 1 in H1. unfold IE_put. rewrite H1. cbn [mbind res_bind].
  assert (Hr : rd_range a 0 6 = Ok a).
  { apply rd_range_holds. split; [done|]. unfold holds. rewrite Ha. split_and!; [done|done|]. by rewrite drop_0, firstn_all. }
  rewrite Hr. cbn [mbind res_bind].
  destruct (Z_lt_ge_dec (Zlen ie) (7 + 6 * (Zlen l + 1))) as [Hs | Hs].
  { unfold wr_range. rewrite (proj2 (Z.ltb_ge _ 0)), (proj2 (Z.ltb_lt (Zlen ie) _)) by lia. done. }
  destruct (wr_range_exists ie (5 + 6 * Zlen l + 2) a) as (i1 & W1); [lia..|]. pose proof (wr_range_Zlen _ _ _ _ W1) as L1.
  rewrite W1. cbn [mbind res_bind]. unfold wr. rewrite u8_id by (unfold is_byte; lia).
  destruct (wr_range_exists i1 1 [5 + 6 * Zlen l + 6]) as (i2 & W2); [lia|zlen; lia|]. pose proof (wr_range_Zlen _ _ _ _ W2) as L2.
  rewrite W2. cbn [mbind res_bind]. apply holds_rd in H3 as H3'.
  assert (H6 : rd i2 6 = Ok (Zlen l)).
  { rewrite (wr_range_rd_frame _ _ _ _ 6 W2), (wr_range_rd_frame _ _ _ _ 6 W1) by (zlen; lia). by rewrite <- H3'. }
  rewrite H6. cbn [mbind res_bind]. rewrite u8_id by (unfold is_byte; lia).
  destruct (wr_range_exists i2 6 [Zlen l + 1]) as (i3 & W3); [lia|zlen; lia|]. pose proof (wr_range_Zlen _ _ _ _ W3) as L3.
  rewrite W3. split; [|lia]. rewrite join_app. cbn [mjoin list_join]. rewrite app_nil_r.
  change (@Zlen (list Z) []) with 0. replace (5 + 6 * (Zlen l + (1 + 0))) with (5 + 6 * Zlen l + 6) by lia. replace (Zlen l + (1 + 0)) with (Zlen l + 1) by lia.
  apply (holds_app _ _ [221; _]). split; [apply (holds_app _ _ [221] [_]); split|apply (holds_app _ _ [0; 80; 242; 5]); split;
    [|apply (holds_app _ _ [_]); split; [|apply holds_app; split]]].
  - apply (holds_rd ie 0) in H0. stored.
  - eapply (holds_at _ 1); [|done]. stored.
  - eapply (holds_at _ 2); [|done]. eapply (holds_at _ _ 2) in H2; [|done]. stored.
  - eapply (holds_at _ 6); [|done]. stored.
  - eapply (holds_at _ 7); [|done]. eapply (holds_at _ _ 7) in H4; [|done]. stored.
  - eapply (holds_at _ (5 + 6 * Zlen l + 2)); [|zlen; rewrite Lj; lia]. stored.
Qed.

Lemma pending_len6 l : Forall (fun d => Zlen (PeerStaAddr d) = 6) l -> Forall (fun a => Zlen a = 6) (pending l).
Proof.
  intros H. unfold pending. apply Forall_fmap. induction H as [|d l Hd _ IH]; [constructor|]. rewrite filter_cons.
  case_decide; [by constructor|done].
Qed.

Lemma IE_loop_ok s : forall n i ie l,
  db_ok s -> 0 <= i -> i + Z.of_nat n = num_stas s -> Zlen ie = 18 -> holds ie 0 (IE_bytes l) -> Forall (fun a => Zlen a = 6) l -> Zlen l <= 1 ->
  match IE_loop n i ie s with
  | Ok ie' => Zlen (l ++ pending (take n (drop (Z.to_nat i) (STADb s)))) <= 1 /\ holds ie' 0 (IE_bytes (l ++ pending (take n (drop (Z.to_nat i) (STADb s)))))
  | Fault => 2 <= Zlen (l ++ pending (take n (drop (Z.to_nat i) (STADb s))))
  | Diverge => False
  end.
Proof.
  induction n as [|n IH]; intros i ie l Hdb Hi Hn Hz Hh Hl H1; cbn [IE_loop take].
  { change (pending []) with (@nil (list Z)). rewrite app_nil_r. done. }
  destruct (Hdb) as (_ & Hnum & Hall). destruct (STADb s !! Z.to_nat i) as [d|] eqn:E; [|apply lookup_ge_None in E; unfold Zlen in *; lia].
  assert (Hat : sta_at s i = Ok d) by (unfold sta_at; dec; by rewrite E). rewrite Hat. cbn [mbind res_bind].
  rewrite (drop_S _ _ _ E). cbn [take]. assert (Ha : Zlen (PeerStaAddr d) = 6) by exact (proj1 (list_relations.list.Forall_lookup _ _) Hall _ _ E).
  specialize (IH (i + 1)). replace (Z.to_nat (i + 1)) with (S (Z.to_nat i)) in IH by lia. unfold pending at 1 2 3.
  destruct (Z.eqb_spec (q_len (sta_tx_q d)) 0) as [Hq | Hq]; cbn [negb].
  - rewrite filter_cons_False by lia. cbn [mbind res_bind]. apply IH; (done || lia).
  - rewrite filter_cons_True by done. cbn [fmap list_fmap]. change (PeerStaAddr <$> filter _ _) with (pending (take n (drop (S (Z.to_nat i)) (STADb s)))).
    pose proof (IE_add ie l (PeerStaAddr d) Hh Hl Ha ltac:(lia)) as HA. destruct (IE_put ie (PeerStaAddr d)) as [ie1| |]; cbn [mbind res_bind]; [|zlen; pose proof (Zlen_nonneg (pending (take n (drop (S (Z.to_nat i)) (STADb s))))); rewrite Hz in HA; lia|done].
    destruct HA as [Hh1 Hz1]. pose proof (holds_bounds _ _ _ Hh1) as [_ Hb].
    assert (Hl1 : Forall (fun a => Zlen a = 6) (l ++ [PeerStaAddr d])) by (apply Forall_app; split; [done|by constructor]).
    assert (Hone : Zlen (l ++ [PeerStaAddr d]) <= 1).
    { unfold IE_bytes in Hb. rewrite !Zlen_app, (mjoin_Zlen _ 6 Hl1) in Hb. change (Zlen oui) with 4 in Hb. zlen.
      change (@Zlen (list Z) []) with 0 in *. lia. }
    replace (l ++ PeerStaAddr d :: pending (take n (drop (S (Z.to_nat i)) (STADb s)))) with ((l ++ [PeerStaAddr d]) ++ pending (take n (drop (S (Z.to_nat i)) (STADb s)))) by by rewrite <- app_assoc.
    apply IH; try done; lia.
Qed.

(** C40: The element for the beacon lists the stations with packets (vendor element,
    length, count, addresses) when there is at most one such station; with two the
    second address runs over the end of the array. *)
Theorem update_peersta_IE_correct s :
  db_ok s ->
  match update_peersta_IE s with
  | Ok s' => Zlen (pending (take (Z.to_nat (num_stas s)) (STADb s))) <= 1 /\ holds (beacon_IE s') 0 (IE_bytes (pending (take (Z.to_nat (num_stas s)) (STADb s))))
  | Fault => 2 <= Zlen (pending (take (Z.to_nat (num_stas s)) (STADb s)))
  | Diverge => False
  end.
Proof.
  intros Hdb. destruct (Hdb) as (Hz & Hn & _). unfold update_peersta_IE, wr, oui. do 4 write_range.
  pose proof (IE_loop_ok s (Z.to_nat (num_stas s)) 0 b2 [] Hdb) as HL. rewrite drop_0 in HL. cbn [app] in HL.
  assert (Hh : holds b2 0 (IE_bytes [])).
  { change (IE_bytes []) with ([221] ++ [5] ++ [0x00; 0x50; 0xf2; 0x05] ++ [0]). rewrite !holds_app. zlen. split_and!.
    - change (u8 221) with 221 in *. stored.
    - change (u8 5) with 5 in *. eapply (holds_at _ 1); [|lia]. stored.
    - eapply (holds_at _ 2); [|lia]. stored.
    - change (u8 0) with 0 in *. eapply (holds_at _ 6); [|lia]. stored. }
  specialize (HL ltac:(lia) ltac:(lia) ltac:(lia) Hh ltac:(by constructor) ltac:(done)).
  destruct (IE_loop _ 0 b2 s); cbn [mbind res_bind]; done.
Qed.

(** A lookup reads the addresses only. *)
Lemma staindex_same s s' mac : forall n i,
  (forall j, PeerStaAddr <$> STADb s' !! j = PeerStaAddr <$> STADb s !! j) -> staindex_loop n i mac s' = staindex_loop n i mac s.
Proof.
  induction n as [|n IH]; intros i H; [done|]. cbn. unfold sta_at. destruct (i <? 0); [done|]. specialize (H (Z.to_nat i)) as Hi.
  destruct (STADb s' !! Z.to_nat i), (STADb s !! Z.to_nat i); try done. injection Hi as Hi. cbn. rewrite Hi.
  destruct (memcmp _ 0 mac 0 6) as [c| |]; cbn; [|done..]. by rewrite IH.
Qed.

(** A station that was removed is still found. *)
Lemma remove_keeps_lookup mac mac' x s s' :
  peersta_RemoveSTAEntry mac s = Ok (x, s') -> get_staindex_from_macaddr mac' s' = get_staindex_from_macaddr mac' s.
Proof.
  unfold peersta_RemoveSTAEntry. intros H. inv_bind. case_match; [|by injection H as _ <-]. inv_bind. injection H as _ <-.
  unfold get_staindex_from_macaddr. cbn. apply staindex_same. intros j. cbn.
  unfold sta_at in Hx0. case_match; [done|]. destruct (STADb s !! Z.to_nat x0) as [d|] eqn:E; [|done]. injection Hx0 as <-.
  destruct (decide (j = Z.to_nat x0)) as [-> | Hne].
  - rewrite list_lookup_insert_eq by by eapply lookup_lt_Some. by rewrite E.
  - by rewrite list_lookup_insert_ne.
Qed.

(** ** A concrete run

    Two packets for a sleeping station go to the transmit path, in order, when a
    packet from it arrives. *)
Definition sta_mac : list Z := [2; 0; 0; 0; 0; 9].
Definition demo_pk : Z -> list Z := fun _ => replicate 8 0 ++ [32; 0; 0; 0] ++ replicate 100 0.

Definition demo_run : res (list Z * option Z * tx) :=
  '(_, s) ← peersta_Init no_handlers psta_static;
  '(_, s) ← peersta_AddSTAEntry sta_mac [100; 200] 7 s;
  '(b1, s) ← peersta_GetTxFreeBuffer sta_mac s;
  '(b2, s) ← peersta_GetTxFreeBuffer sta_mac s;
  '(_, s) ← peersta_SendTxBuffer b2 s;
  '(_, s) ← peersta_SendTxBuffer b1 s;
  let ie := beacon_IE s in
  '(call, s, pk, t) ← peersta_rx_handler (replicate 6 0 ++ sta_mac ++ [8; 0]) s demo_pk (init_queues tx_static);
  Ok (ie, call, t).

Lemma demo_run_ok :
  match demo_run with
  | Ok (ie, call, t) => holds ie 0 (IE_bytes [sta_mac]) /\ call = Some 7 /\ take 2 (pkt <$> mbufs t) = [200; 100] /\ q_len (globalq t) = 2
  | _ => False
  end.
Proof. vm_compute. done. Qed.

Lemma update_peersta_IE_correct_witness :
  update_peersta_IE (mkPsta [mkSta 1 sta_mac full_queue zero_queue 7; mkSta 1 sta_mac full_queue zero_queue 7] [] [] [] 0 2 (replicate 18 0) []) = Fault.
Proof.
  pose proof (update_peersta_IE_correct (mkPsta [mkSta 1 sta_mac full_queue zero_queue 7; mkSta 1 sta_mac full_queue zero_queue 7] [] [] [] 0 2 (replicate 18 0) [])) as H.
  destruct (update_peersta_IE _) as [s| |]; [|done|].
  - exfalso. destruct H as [H _]; [|vm_compute in H; by apply H].
    split; [done|]. split; [done|]. constructor; [done|constructor; [done|constructor]].
  - exfalso. apply H. split; [done|]. split; [done|]. constructor; [done|constructor; [done|constructor]].
Defined.
