(* ===== verification/CustomApp.v ===== *)
(** * The application of the embedded port (customApp.c)

    The default command, transmit and receive handlers, and the start of the whole:
    [mli_appInterfaceInit] of mli.c calls [customAppInit], which installs the
    handlers and starts the user interface and the peer stations.  The build has
    EMBEDDED_TCPIP and no host.  The handler of the TCP/IP stack, [eTCPCommandHandler],
    and the version string are the firmware's. *)
From S2P Require Import Prelude.
From S2P Require Import Buffer.
From S2P Require Import Sys.
From S2P Require Import SdkQueue.
From S2P Require Import TxQueue.
From S2P Require Import Eping.
From S2P Require Import UserIf.
From S2P Require Import PeerSta.

Definition SDK_MAX_VERSION_LENGTH : Z := 50.
Definition host_CMD_SDK_VER : Z := 0x4000.
Definition host_RET_SDK_VER : Z := 0xC000.
Definition host_RESULT_NOT_SUPPORT : Z := 0x0002.

(** [o] is the buffer for the response; [version] the string in memory, with its
    0. *)
Definition customCommandHandler (version : list Z) (cmd : Z) (o : list Z) : res (Z * list Z) :=
  if cmd =? host_CMD_SDK_VER then
    n ← strlen_at version 0;
    let length := if SDK_MAX_VERSION_LENGTH <? n then SDK_MAX_VERSION_LENGTH else n in
    l ← rd_range version 0 length;
    o ← wr_range o 8 l;
    o ← wr o (8 + length) 0;
    o ← wr_range o 6 (le16 host_RESULT_OK);
    o ← wr_range o 0 (le16 host_RET_SDK_VER);
    o ← wr_range o 2 (le16 (8 + length + 1));
    Ok (MLI_CUSTOM_CMD_SEND_RESPONSE, o)
  else
    o ← wr_range o 6 (le16 host_RESULT_NOT_SUPPORT);
    Ok (MLI_CUSTOM_CMD_NOT_HANDLED, o).

Definition customTxDataHandler (p : Z) : verdict Z := NOT_MY_PKT.
Definition customRxDataHandler (p : Z) : verdict Z := NOT_MY_PKT.

(** ** Start *)

(** The addresses of the functions that are installed. *)
Definition eTCPCommandHandler_fn : Z := 10.
Definition customCommandHandler_fn : Z := 11.
Definition customTxDataHandler_fn : Z := 12.
Definition customRxDataHandler_fn : Z := 13.

Record app := mkApp {
  cmdHandler : handlers; txDataHandler : handlers; a_rx : handlers; tickfunctions : handlers; a_ui : ui; a_psta : psta }.

Definition app_static (u : ui) : app := mkApp no_handlers no_handlers no_handlers no_handlers u psta_static.

(** [created] is the status of the creation of the user-interface task, [req] the
    buffer for commands; [cmd_init] (cmd_parser.c) starts the console. *)
Definition customAppInit (created : Z) (req : list Z) (cmd_init : handlers -> handlers) (x : app) : res (Z * app) :=
  '(_, c) ← mli_installCustomCmdCBFunc eTCPCommandHandler_fn (cmdHandler x);
  '(_, c) ← mli_installCustomCmdCBFunc customCommandHandler_fn c;
  '(_, t) ← mli_installCustomTxDataHandler customTxDataHandler_fn (txDataHandler x);
  '(_, r) ← mli_installCustomRxDataHandler customRxDataHandler_fn (a_rx x);
  '(_, k, u) ← userif_init created req mli_installTickFunction cmd_init (tickfunctions x) (a_ui x);
  '(r, p) ← peersta_Init r (a_psta x);
  Ok (SUCCESS, mkApp c t r k u p).
