(* ===== verification/CustomAppTheorems.v ===== *)
(** * The start of the embedded port, and its version command (customApp.c, mli.c) *)
From S2P Require Import Prelude.
From S2P Require Import Buffer.
From S2P Require Import Sys.
From S2P Require Import SysSpec.
From S2P Require Import SdkQueue.
From S2P Require Import TxQueue.
From S2P Require Import TxQueueSpec.
From S2P Require Import Eping.
From S2P Require Import EpingTheorems.
From S2P Require Import UserIf.
From S2P Require Import UserIfTheorems.
From S2P Require Import PeerSta.
From S2P Require Import CustomApp.

(** A list of installed functions, as the table of four holds it. *)
Definition installed (l : list Z) (h : handlers) : Prop := numberRxDataHandlers h = Zlen l /\ take (length l) (rxDataHandler h) = l.

(** The state the program starts in: no network is known. *)
Definition ui_static (ssid bssid cmd : list Z) : ui :=
  mkUi (replicate 20 no_bss) 0 0 0 0 (0, ssid) bssid 0 0 0 (replicate 6 0) 0 DISASSOC false 0 cmd [] [].

(** The element of the beacon without stations. *)
Definition IE_start : list Z := [221; 5] ++ oui ++ [0].

(** When the three tasks can be created, the start of the firmware interface
    succeeds with empty transmit queues, the state machine disconnected and without
    a link, and the handlers in their tables: the command handler of the stack before
    the application's, and the peer stations after the application's receive
    handler. *)
Theorem startup ssid bssid cmd req :
  exists x s, mli_appInterfaceInit TX_SUCCESS TX_SUCCESS (customAppInit TX_SUCCESS req id) (app_static (ui_static ssid bssid cmd)) tx_static =
      Ok (SUCCESS, x, s) /\
    implements s spec_init /\ hostsme_state (a_ui x) = DISASSOC /\ link_inv (a_ui x) /\ bss_type (a_ui x) = Console.BSS_ANY /\ cmd_buf (a_ui x) = req /\
    installed [eTCPCommandHandler_fn; customCommandHandler_fn] (cmdHandler x) /\ installed [customTxDataHandler_fn] (txDataHandler x) /\
    installed [customRxDataHandler_fn; peersta_rx_handler_fn] (a_rx x) /\ installed [cmd_handle_serial_fn] (tickfunctions x).
Proof.
  destruct (mli_appInterfaceInit_implements (customAppInit TX_SUCCESS req id) (app_static (ui_static ssid bssid cmd)) SUCCESS) with
    (x' := mkApp (mkHandlers [10; 11; 0; 0] 2) (mkHandlers [12; 0; 0; 0] 1) (mkHandlers [13; 4; 0; 0] 2) (mkHandlers [2; 0; 0; 0] 1)
      (mkUi (replicate 20 no_bss) 0 0 Console.BSS_ANY 0 (0, ssid) bssid 0 0 0 (replicate 6 0) 0 DISASSOC false 0 req [] [])
      (with_IE (IE_start ++ replicate 11 0) (IE_start ++ replicate 11 0) psta_static)) as (s & H & I).
  - reflexivity.
  - do 2 eexists. split; [exact H|]. split; [exact I|]. by split_and!; try (intros [? | ?]).
Qed.

(** ** The version command *)

(** The command handlers of the start; [etcp] is the one of the stack. *)
Definition run_command (etcp : Z -> list Z -> res (Z * list Z)) (version : list Z) (f cmd : Z) (o : list Z) : res (Z * list Z) :=
  if f =? eTCPCommandHandler_fn then etcp cmd o else customCommandHandler version cmd o.

Definition command_table : handlers := mkHandlers [eTCPCommandHandler_fn; customCommandHandler_fn; 0; 0] 2.

Lemma version_response version v o :
  no_nul v -> holds version 0 (v ++ [0]) -> 59 <= Zlen o ->
  exists o', customCommandHandler version host_CMD_SDK_VER o = Ok (MLI_CUSTOM_CMD_SEND_RESPONSE, o') /\
    holds o' 0 (le16 host_RET_SDK_VER ++ le16 (Zlen (take 50 v) + 9)) /\ holds o' 6 (le16 host_RESULT_OK) /\ holds o' 8 (take 50 v ++ [0]).
Proof.
  intros Hv Hh Ho. unfold customCommandHandler. cbn [Z.eqb host_CMD_SDK_VER]. change (host_CMD_SDK_VER =? host_CMD_SDK_VER) with true. cbn match.
  rewrite (strlen_at_holds version 0 v Hv Hh). cbn [mbind res_bind].
  set (n := if SDK_MAX_VERSION_LENGTH <? Zlen v then SDK_MAX_VERSION_LENGTH else Zlen v).
  assert (Hn : Zlen (take 50 v) = n).
  { subst n. unfold SDK_MAX_VERSION_LENGTH, Zlen. rewrite length_take. destruct (Z.ltb_spec 50 (Z.of_nat (length v))); lia. }
  assert (Hn50 : 0 <= n <= 50) by (subst n; unfold SDK_MAX_VERSION_LENGTH; pose proof (Zlen_nonneg v); destruct (Z.ltb_spec 50 (Zlen v)); lia).
  apply holds_app in Hh as [Hh _]. rewrite <- (take_drop 50 v) in Hh. apply holds_app in Hh as [Hh _].
  rewrite (proj2 (rd_range_holds version 0 n (take 50 v))) by done. cbn [mbind res_bind]. unfold wr. change (u8 0) with 0. do 5 write_range.
  eexists. split; [done|]. rewrite Hn. split_and!.
  - apply holds_app. rewrite le16_Zlen. split; [stored|]. replace (n + 9) with (8 + n + 1) by lia. stored.
  - stored.
  - apply holds_app. rewrite Hn. split; stored.
Qed.

(** A command the first handler does not handle and the second answers. *)
Lemma second_handler {X} (run : Z -> Z -> X -> res (Z * X)) cmd (x x1 x2 : X) :
  run eTCPCommandHandler_fn cmd x = Ok (MLI_CUSTOM_CMD_NOT_HANDLED, x1) ->
  run customCommandHandler_fn cmd x1 = Ok (MLI_CUSTOM_CMD_SEND_RESPONSE, x2) ->
  mli_commandHandlerInterface run command_table cmd x = Ok (MLI_CUSTOM_CMD_HANDLED, x2, true).
Proof.
  intros H1 H2. unfold mli_commandHandlerInterface, command_table. change eTCPCommandHandler_fn with 10 in *. change customCommandHandler_fn with 11 in *.
  simpl. rewrite H1. simpl. rewrite H2. done.
Qed.

(** The command that asks for the version is passed to the stack's handler and
    then to the application's, which answers with the version string, cut to fifty
    characters, ended by a 0 and with the size that goes with it; the response is
    sent. *)
Theorem version_command etcp version v o o1 :
  no_nul v -> holds version 0 (v ++ [0]) -> 59 <= Zlen o1 ->
  etcp host_CMD_SDK_VER o = Ok (MLI_CUSTOM_CMD_NOT_HANDLED, o1) ->
  exists o', mli_commandHandlerInterface (run_command etcp version) command_table host_CMD_SDK_VER o = Ok (MLI_CUSTOM_CMD_HANDLED, o', true) /\
    holds o' 0 (le16 host_RET_SDK_VER ++ le16 (Zlen (take 50 v) + 9)) /\ holds o' 8 (take 50 v ++ [0]).
Proof.
  intros Hv Hh Ho He. destruct (version_response version v o1 Hv Hh Ho) as (o' & Hr & H1 & _ & H2). exists o'. split; [|done].
  by apply (second_handler _ _ o o1).
Qed.

Lemma version_command_witness :
  exists o', mli_commandHandlerInterface (run_command (fun _ o => Ok (MLI_CUSTOM_CMD_NOT_HANDLED, o)) [49; 46; 50; 0]) command_table host_CMD_SDK_VER (replicate 64 0) =
    Ok (MLI_CUSTOM_CMD_HANDLED, o', true) /\ holds o' 8 [49; 46; 50; 0].
Proof.
  destruct (version_command (fun _ o => Ok (MLI_CUSTOM_CMD_NOT_HANDLED, o)) [49; 46; 50; 0] [49; 46; 50] (replicate 64 0) (replicate 64 0)) as (o' & H & _ & H2).
  - repeat constructor; lia.
  - by_eval.
  - done.
  - done.
  - exists o'. split; [exact H|exact H2].
Defined.
